(* ===== verification/_CoqProject ===== *)
-Q . S2P
Prelude.v
PyDict.v
PyStr.v
PyFloat.v
FloatOrder.v
NumPy.v
Trace.v
GreenBase.v
OffBackend.v
TorchBackend.v
CppBackend.v
Factory.v
Controller.v
Hooks.v
Metrics.v
VTimeSync.v
PyJson.v
BatchRuntime.v
GemmShapes.v
MemLayout.v
Units.v
TraceGen.v
Messages.v
DeviceGen.v
Ldpc.v
Checkpoints.v
Collectives.v
Scaling.v
PlotSchema.v
CoordScaling.v
LogMerge.v
SyncAnalysis.v
Violations.v
SwapTiming.v
WithinBatch.v
Training.v
Fleet.v
Launch.v
SingleTraining.v
MixedDevices.v
StartDevices.v
EventTimer.v
PerfAnalysis.v
GoldenRefs.v
BenchJson.v
DeepCheck.v
CompareLogits.v
LogViews.v
Servers.v
Layouts.v
GemmBench.v
