(* ===== verification/Prelude.v ===== *)
(** * Morphling: a verification library for the emulator's Python code

    Morphling emulates the training of a model on a fleet of devices: PyTorch's
    matrix products are intercepted, sent to an emulator service written in C++ and
    timed on GPU partitions ("green contexts") whose size follows a trace.  The
    C++ service does the transport; the Python code decides which partition a
    product runs on, hooks the autograd operations, samples the coordinator's
    metrics, and computes virtual times and batch runtimes from the logs.  This
    library models that Python code and proves what makes it correct.

    ** How code becomes definitions

    A method or function of the code is a definition with its name (without leading
    underscores); the attributes of an object are the fields of a record.  A method
    that changes its object is a computation in [M S A], state passing with Python's
    exceptions: an exception keeps the state reached so far, [try_except],
    [try_finally] and [with] statements are combinators.  A function without state
    is a Rocq function, into [outcome] when it can raise.  Integers are [Z], since
    Python's are unbounded; NumPy's 32- and 64-bit integers have their range check
    and their wrap-around written out ([MemLayout]).  Floats are IEEE 754 binary64
    numbers computed bit by bit ([PyFloat]), so comparisons with NaN, overflow to
    infinity and division by zero are what CPython does.  Dictionaries are
    insertion-ordered ([PyDict]); strings are ASCII ([PyStr]); files are their text.

    Code outside the repository is a parameter, and theorems hold for every
    instance that satisfies the stated hypotheses: PyTorch's CUDA contexts
    ([TorchCuda] in [GreenBase]), the compiled runtime ([CppBackend]) and the matrix
    backend ([Hooks]), psutil, clock and file system ([MetricsHost] in [Metrics]),
    the JSON reader and [str] of containers ([BatchRuntime]), the Hugging Face
    configuration ([GemmShapes]), NumPy's random draws and Fourier transform ([NumPy],
    [TraceGen], [DeviceGen]), pandas ([Ldpc]), tensor stores ([Checkpoints]), the
    protobuf encoding ([Messages]), torch.distributed ([Collectives]) and tensors and the
    optimiser ([Training]), processes, signals and the clock ([Fleet]), the emulator service
    and the files of a rank ([Launch]), sockets and threads ([MixedDevices]), PyTorch with its
    settings and seeds ([GoldenRefs]), the tensors of a comparison ([CompareLogits]) and the
    backend that a server starts ([Servers]).

    ** The files

    - [Prelude]: exceptions, [outcome], the monad [M], its weakest preconditions
      ([wp], [preserves], [owp]) and invariant rules, [min]/[max] with keys, sums,
      the stable sort, and the hint database [morph].
    - [PyDict], [PyStr], [PyFloat], [PyJson]: dictionaries, strings and integer
      texts, floats (with the lemmas on signs, order and exact integers), JSON values.
    - [FloatOrder]: the value of a finite float as an integer multiple of 2^-1074, with
      the monotonicity of rounded sums, differences, products and quotients.
    - [NumPy]: the array functions the generators use.
    - [Trace] ([runtime/greenctx/trace.py]): the SM-trace reader and its two look-ups.
    - [GreenBase] ([greenctx/base.py]): the backend protocol as the class
      [GreenCtxBackend], and [GreenCtxLaws], what a client may rely on.
    - [OffBackend], [TorchBackend], [CppBackend]: its three implementations; each
      file ends with the instance of the laws it satisfies.
    - [Factory] ([greenctx/factory.py]): the choice among them, with its fallbacks;
      the chosen backend is again an instance of the interface.
    - [Controller] ([runtime/green_context.py]): the controller, written against the
      interface only: construction, [step_scope], and the pass-through methods.
    - [Hooks] ([hooks/autograd.py]): the hooked linear layer, forward and backward,
      which activates a partition around each dispatched product and logs it.
    - [Metrics] ([runtime/coordinator_metrics*.py]): modules [Models], [Recorder],
      [Cli] and [Collector]; the background thread of the collector is an
      interleaving of its turns with the calls of the program.
    - [VTimeSync] ([scripts/sync_virtual_time.py]): the synchronisation of virtual
      times between devices.
    - [BatchRuntime] ([scripts/compute_batch_runtime.py]): the accounting of a batch
      from the synchronised log and a dispatch manifest.
    - [GemmShapes] ([utils/hfparser.py]): GEMM shapes of a model and their shards.
    - [MemLayout] ([common/types_and_defs.py], [EmulatorConfig]): offsets of tensors
      in pinned and shared memory and the start-up check.
    - [Units] ([common/config.py]): sizes with units.
    - [TraceGen] ([scripts/generate_trace.py]): both trace generators and the check of a
      within-batch trace.
    - [DeviceGen] ([entrypoint/generate_device_config.py], [run_device.py]): the generator
      of device configurations and the start of a device.
    - [Messages] ([backend/base.py]): the requests and responses of a matrix product, with
      the protobuf object that all messages share.
    - [Ldpc] ([runtime/ldpc_trace_adapter.py], [scripts/validate_traces.py]): validating
      and converting recorded traces.
    - [Checkpoints] ([utils/checkpoints.py], [runtime/checkpoint_loader.py],
      [checkpoint/save_and_load.py], [entrypoint/cmdline.py]): checkpoint files, the
      parameter map and the tensor index.
    - [Collectives]: ranks as trees of collective operations and the step relation of a
      group of ranks, for every interleaving.
    - [Scaling] ([scripts/multi_coordinator_scaling_*.py],
      [run_multi_coordinator_scaling.py]): experiments with several coordinators, from
      their configurations to the conclusions.
    - [Training] ([scripts/_multi_coordinator_workload.py]): the data-parallel training
      loop of a rank, over [Collectives].
    - [Fleet] ([scripts/_multi_coordinator_fleet.py], [_single_coordinator_fleet.py],
      [multi_coordinator_rank_process.py], [_runtime_common.py]): starting and ending
      devices and ranks, and waiting for connections.
    - [PlotSchema] ([scripts/coord_scaling_plot/schema.py]): the parsers of the files from
      which the scaling figure is drawn.
    - [CoordScaling] ([scripts/coordinator_scaling_*.py], [run_coordinator_scaling.py]): the
      experiments with one coordinator and their summary, which [PlotSchema] reads.
    - [LogMerge] ([scripts/merge_perf_logs.py]), [SyncAnalysis] ([analyze_sync.py],
      [verify_sync_correctness.py], [compare_sync_strategies.py], [compare_sync_methods.py]):
      merging the logs of the devices, and checking what [VTimeSync] made of them.
    - [Violations] ([scripts/analyze_violations.py]): GEMMs that run past the end of their
      slot in a trace.
    - [SwapTiming] ([scripts/cross_validate_swap_timing.py]): the cost of a partition switch,
      measured by the benchmark and inline.
    - [WithinBatch] ([scripts/run_within_batch_experiment.py]): batch runtimes under the
      within-batch traces, over [BatchRuntime] and [TraceGen].
    - [Launch] ([scripts/run_multi_coordinator.py], [_multi_coordinator_training.py]): the
      process of a rank, from its command line to its result file and exit status.
    - [SingleTraining] ([scripts/run_single_coordinator_training.py],
      [_single_coordinator_training_workload.py]): training with one coordinator, natively
      and dispatched, over [Hooks], [Launch] and [Fleet].
    - [MixedDevices] ([scripts/run_mixed_devices.py]): devices that answer without computing.
    - [StartDevices] ([scripts/start_devices_from_config.py]): the devices of a fleet file.
    - [EventTimer] ([common/custom_logging.py]): the timers of a device's events.
    - [PerfAnalysis] ([scripts/analyze_perf.py]): throughput and its concurrent peak.
    - [GoldenRefs] ([scripts/generate_golden_references.py],
      [tests/python/testutils/determinism.py]): a training run under deterministic settings.
    - [DeepCheck] ([scripts/deep_numerical_verification.py]), [CompareLogits]
      ([scripts/compare_logits.py]): the report on the numerical tests, and the comparison of
      the logits of two runs.
    - [BenchJson] ([evaluation/parse_bench_json.py], [parse_gemm_json.py]): tables from the
      reports of the C++ benchmarks.
    - [LogViews] ([scripts/analyze_vtime_log.py], [log_parser.py]): the time line of a log.
    - [Layouts] ([scripts/export_selected_layouts.py], [verify_absolute_times.py]): the
      degrees of parallelism of a manifest, and the published times recomputed.
    - [GemmBench] ([scripts/bench_gflops_per_sm.py]): GEMM throughput per SM count.
    - [Servers] ([entrypoint/emulator.py], [scripts/run_server.py], [run_devices.py]): the
      programs around a running backend.

    The calls go [Hooks] -> [Controller] -> [Factory] -> a backend -> [Trace]; the log a
    device writes goes through [VTimeSync] into [BatchRuntime], which also reads the
    within-batch traces of [TraceGen]; a recorded trace goes through [Ldpc] into [Trace].
    A rank runs [Training] with the devices [Fleet] starts, inside the process of [Launch],
    and [Scaling] judges its losses.  [CoordScaling] and [Scaling] write what [PlotSchema]
    reads; [LogMerge] collects what [VTimeSync] synchronises and [SyncAnalysis] checks.

    ** What the theorems show

    Green contexts.  Every sequence of calls keeps the pushed contexts well bracketed,
    but for contexts whose own pop raises ([torch_contexts_bracketed]); step scopes and
    hooked passes leave the stack as it was on every exit, unless a pop raises
    ([torch_scopes_restore_contexts], [hooks_restore_contexts]); a scope runs with streams of the activated partition and current generation over
    every backend ([step_scope_current_streams]); activation takes the nearest
    available partition to the trace ([torch_activation_nearest]); construction is
    complete or the controller refuses ([torch_construction_complete],
    [controller_needs_every_stream]); backend selection and its errors
    ([explicit_backend_never_falls_back], [auto_selection_total]); swap statistics
    agree with the swap log ([cpp_swap_stats_match_log]); switches are counted once
    ([torch_scopes_count_one_switch]).  Traces: [trace_v2_roundtrip],
    [trace_lookup_last_due].

    Hooks.  The layer computes input times transposed weight plus bias, its gradients
    are the layer's gradients ([hooked_Linear_correct], [hooked_gradients_correct]);
    log indices increase ([gemm_log_ordered]); a refused dispatch is neither waited for
    nor logged ([refused_dispatch_not_waited]); and two places where the code does not
    do what it means to.

    Metrics.  The shape of the output file under every interleaving
    ([metrics_file_shape]), finality of the first failure, the summary of a phase, rates
    that are never negative, NIC aggregation, disjoint paths, and the set-up failure that
    escapes.

    Virtual time and batches.  Synchronised devices start a GEMM together, offsets have
    their signs, synchronising twice changes nothing, the written log is sorted and
    reads back; the accounting raises only for bad input, reports no negative time and
    names a slowest device per level; it reads the whole file the synchronisation writes
    ([synchronised_log_read]).

    Shapes and sizes.  Shards are exactly the blocks of the GEMMs ([rc_shards_tile]);
    pinned tensors are disjoint and fit ([pinned_tensors_fit]); shared-memory regions
    start one region late ([shm_regions_shifted]); a size with a unit is read exactly
    ([human2bytes_exact]).

    Generated and recorded files.  A written scheduling trace has a row per slot and
    increasing times ([synthetic_trace_rows]) with SM counts on the step grid
    ([load_to_sm_on_grid]); within-batch multipliers lie between a tenth and one
    ([written_slowdown_bounded]); generated devices are in range
    ([generated_configs_in_range]); a converted trace reads back as the adapter's rows, with
    its nanoseconds taken for microseconds ([ldpc_trace_read_back]); the files and the
    parameter map of a checkpoint ([sharded_checkpoint_paths], [offload_equals_reference]).

    Messages.  The blocks of the requests compute the product ([block_requests_tile]); a
    deserialized request changes when another one is serialized
    ([serialize_overwrites_ld]).

    Several coordinators.  A group of ranks whose computations do not raise and that get
    gradients of the same parameters (with overlapping reductions, in the same order) cannot
    deadlock, and every schedule brings each rank to its reference result, with blocking and
    with overlapping reductions ([distributed_training_completes]); where losses and gradients of a batch are the averages
    over its slices, the losses are those of one process on the whole batch
    ([workload_tracks_golden]); the verdict on the losses
    ([loss_verdict]) and the NaN it misses ([nan_golden_ignored]); the residual of a
    breakdown ([breakdown_residual]); counters, ports and result files
    ([balanced_iff_countdown], [experiment_ports_distinct], [rank_result_roundtrip]).
    Processes end in every case ([fleet_is_ended], [rank_processes_are_ended]), waiting for
    devices stops where the clock goes on ([waiting_ends]), and a failed start loses handles
    ([spawn_fleet_starts]).  A rank rebuilds the configuration its launcher wrote into its
    command line, all but the affinity mode ([worker_config_is_launchers]), cleans up on every
    exit, the devices too unless destroying the process group raises
    ([coordinator_cleans_up]), and tells the launcher how it ended ([worker_tells_launcher]).

    One coordinator.  The summary of the experiments is what the figure reads
    ([summary_file_parses]), which returns typed and sorted values or raises its own errors
    ([figure_input_typed]); the restricted layer computes what the native one does
    ([restricted_layer_exact]), the native and the dispatched run of a trainer over exact
    products are one gradient descent ([exact_dispatch_tracks]), and the launcher ends with its devices
    ([single_run_concludes]).

    Devices and servers.  A fake device answers every task once, however the stream is cut
    ([fake_device_answers]); a signal ends a fleet ([signal_ends_fleet]) and a server
    ([server_stops]); an event waits for those it depends on ([record_waits]); the address of
    the emulator is set before the backend reads it ([address_exported]); the flags and the
    configuration overlay of the device launcher ([filter_argv_spec], [overlay_lookup]).

    Analyses.  A synchronised log passes the synchronisation checks, if the order of its
    timestamps agrees with that of its lines ([synchronised_log_verified]); the violations reported are those of the definition and
    their time is the measure of a set ([violations_exact], [violation_time_measure]); an
    inline replay gives back every partition it takes ([inline_replay_bracketed]); CLEAVE's
    levels are never faster than nominal ([cleave_levels_inflated]); the peak of the
    throughput is the concurrent maximum and the totals are sums
    ([peak_is_concurrent_maximum], [totals_exact]); the GEMM table has the rows of the suite
    ([suite_report_rows]); the reader of [LogViews] rejects every current log and reads those
    of the older format ([current_log_rejected], [old_log_read]); a layout has a place for
    every device of every stage ([layout_has_places]); the published times of the cloud are
    the recomputed ones ([cloud_times_reproduced], [absolute_times_verified]); the throughput
    benchmark leaves no partition active ([sweep_restores]).

    Numerical checks.  Verifying a golden run changes nothing unless a loss or a logit is NaN
    ([verification_refuses_nan]) and the settings come back ([golden_settings_restored]);
    the report on the tests has the numbers of pytest's summary, and its verdict unless a test
    printed something like it ([deep_report_counts]); the
    verdict on two tensors of logits is the one of the widest tolerance ([comparison_says]).

    ** Fuel and bounds

    Loops over data are structural recursions on lists or strings.  Loops that depend on
    the world have fuel, and their theorems say how much is enough: one more than the time
    limit in seconds for waiting on the clock ([connection_loop] with [waiting_ends], and the
    wait for the devices of [MixedDevices], [wait_loop], with [wait_for_devices_ends]); one
    more than the number of tasks for the turns of a fake device and one more than the size
    of a task for receiving it ([fake_device_answers]); one more than the sleeps before the
    signal for a server ([serve_loop_ends]); the length of the list for the binary search of
    [Violations].  The decimal digits of a number use its number of bits as a
    bound on their number ([size_nat_bound] in [PyStr] shows it is enough).  Bounds that
    appear in statements are the code's: 2^53 for integers that floats hold exactly and
    2^63 for NumPy's integers.

    ** What is not modelled

    Logging and printed progress; command-line parsing ([argparse], [HfArgumentParser]);
    finalizers ([__del__]); the installation of the hooks by assignment to PyTorch's
    modules (the installed functions are modelled); non-ASCII text; the order of a
    Python set, on which nothing modelled depends.  The C++ service and the generated
    protocol code are in other languages.  Placing a loaded model on devices ([load_model] of
    [save_and_load.py]) is calls into accelerate and the C++ store.  The decorators and
    keyword lists of [morphling/common], the drawing of figures
    ([coord_scaling_plot/figure.py], [evaluation/plots]), the build helpers
    ([_setup_helpers.py]), the documentation generator ([generate_cuda_api_docs.py]), examples and
    tests have no model. *)

From stdpp Require Export base gmap sets list strings.

From Stdlib Require Export ZArith Lia Sorted.

#[global] Open Scope Z_scope.

(** ** Exceptions and outcomes

    A Python expression either produces a value or raises.  The exception
    classes are the ones the modelled code raises or catches; [msg] is the
    text the code passes to the constructor. *)
Inductive exn : Type :=
  | ValueError (msg : string)
  | KeyError (msg : string)
  | IndexError (msg : string)
  | TypeError (msg : string)
  | AttributeError (msg : string)
  | RuntimeError (msg : string)
  | ImportError (msg : string)
  | ModuleNotFoundError (msg : string)
  | NotImplementedError (msg : string)
  | AssertionError (msg : string)
  | ZeroDivisionError (msg : string)
  | OverflowError (msg : string)
  | OSError (msg : string)
  | MetricsCollectionError (error_type msg : string)
  | SchemaError (msg : string)
  | MissingDataError (msg : string)
  | TimeoutExpired (msg : string)
  | CalledProcessError (returncode : Z) (msg : string)
  | ProcessLookupError (msg : string)
  | StructError (msg : string).

#[export] Instance exn_eq_dec : EqDecision exn.
Proof. solve_decision. Defined.

Inductive outcome (A : Type) : Type :=
  | Ret (a : A)
  | Raise (e : exn).
Arguments Ret {A} a.
Arguments Raise {A} e.

#[export] Instance outcome_eq_dec `{EqDecision A} : EqDecision (outcome A).
Proof. solve_decision. Defined.

#[export] Instance outcome_ret : MRet outcome := fun A a => Ret a.
#[export] Instance outcome_bind : MBind outcome := fun A B f m =>
  match m with Ret a => f a | Raise e => Raise e end.

Definition of_option {A} (e : exn) (o : option A) : outcome A :=
  match o with Some a => Ret a | None => Raise e end.

Definition is_ret {A} (o : outcome A) : bool :=
  match o with Ret _ => true | Raise _ => false end.

(** A fallible map over a list: the first exception wins. *)
Fixpoint mapO {A B} (f : A -> outcome B) (l : list A) : outcome (list B) :=
  match l with
  | [] => Ret []
  | a :: l => match f a with
              | Raise e => Raise e
              | Ret b => match mapO f l with
                         | Raise e => Raise e
                         | Ret bs => Ret (b :: bs)
                         end
              end
  end.

Lemma mapO_length {A B} (f : A -> outcome B) l l' : mapO f l = Ret l' -> length l' = length l.
Proof.
  revert l'. induction l as [|x l IH]; intros l'; cbn [mapO]; [by intros [= <-]|].
  destruct (f x); [|done]. destruct (mapO f l); [|done]. intros [= <-]. cbn. by rewrite IH.
Qed.

Lemma mapO_lookup {A B} (f : A -> outcome B) l l' i y :
  mapO f l = Ret l' -> l' !! i = Some y -> exists x, l !! i = Some x /\ f x = Ret y.
Proof.
  revert l' i. induction l as [|x l IH]; intros l' i; cbn [mapO]; [by intros [= <-]|].
  destruct (f x) as [z|] eqn:Hx; [|done]. destruct (mapO f l) as [zs|]; [|done].
  intros [= <-]. destruct i as [|i]; [intros [= <-]; by exists x|]. intros Hi. by apply (IH zs i).
Qed.

Lemma mapO_Forall2 {A B} (f : A -> outcome B) l l' :
  mapO f l = Ret l' -> Forall2 (fun x y => f x = Ret y) l l'.
Proof.
  revert l'. induction l as [|x l IH]; intros l'; cbn [mapO]; [by intros [= <-]|].
  destruct (f x) as [y|] eqn:Hx; [|done]. destruct (mapO f l) as [ys|]; [|done].
  intros [= <-]. constructor; [done|by apply IH].
Qed.

(** A left fold whose step may raise *)
Fixpoint foldO {A B} (f : B -> A -> outcome B) (l : list A) (b : B) : outcome B :=
  match l with
  | [] => Ret b
  | a :: l => match f b a with
              | Raise e => Raise e
              | Ret b => foldO f l b
              end
  end.

Lemma foldO_raises {A B} (f : B -> A -> outcome B) l b a :
  a ∈ l -> (forall b, is_ret (f b a) = false) -> is_ret (foldO f l b) = false.
Proof.
  intros Ha Hf. revert b. induction l as [|x l IH]; intros b; [by apply not_elem_of_nil in Ha|].
  cbn [foldO]. apply elem_of_cons in Ha as [->|Ha].
  - specialize (Hf b). by destruct (f b x).
  - destruct (f b x); [by apply IH|done].
Qed.

(** [owp o Q E]: [Q] holds of the value of [o], or [E] of its exception. *)
Definition owp {A} (o : outcome A) (Q : A -> Prop) (E : exn -> Prop) : Prop :=
  match o with Ret a => Q a | Raise e => E e end.

Lemma owp_ret {A} (a : A) (Q : A -> Prop) (E : exn -> Prop) : Q a -> owp (mret a) Q E.
Proof. done. Qed.

Lemma owp_bind {A B} (o : outcome A) (f : A -> outcome B) Q E :
  owp o (fun a => owp (f a) Q E) E -> owp (o ≫= f) Q E.
Proof. by destruct o. Qed.

Lemma owp_mono {A} (o : outcome A) (Q Q' : A -> Prop) (E E' : exn -> Prop) :
  owp o Q E -> (forall a, Q a -> Q' a) -> (forall e, E e -> E' e) -> owp o Q' E'.
Proof. destruct o; cbn; auto. Qed.

(** The invariant rule of [foldO] *)
Lemma owp_foldO {A B} (I : B -> Prop) (f : B -> A -> outcome B) l b E :
  I b -> (forall b a, a ∈ l -> I b -> owp (f b a) I E) -> owp (foldO f l b) I E.
Proof.
  revert b. induction l as [|a l IH]; intros b Hb Hf; [done|]. cbn [foldO].
  pose proof (Hf b a ltac:(left) Hb) as H. destruct (f b a) as [b'|e]; [|done].
  apply IH; [done|]. intros b'' a' Hin. apply Hf. by right.
Qed.

Lemma owp_mapO {A B} (P : B -> Prop) (f : A -> outcome B) l E :
  (forall a, a ∈ l -> owp (f a) P E) -> owp (mapO f l) (Forall P) E.
Proof.
  induction l as [|a l IH]; intros Hf; cbn [mapO]; [constructor|].
  pose proof (Hf a ltac:(left)) as H. destruct (f a) as [b|e]; [|done].
  assert (owp (mapO f l) (Forall P) E) as H' by (apply IH; intros; apply Hf; by right).
  destruct (mapO f l); cbn in *; [by constructor|done].
Qed.

(** ** The state and exception monad

    [M S A] is a Python computation over the mutable state [S]; a raised
    exception keeps the state reached so far, as it does in Python. *)
Definition M (S A : Type) : Type := S -> outcome A * S.

#[export] Instance M_ret {S} : MRet (M S) := fun A a s => (Ret a, s).
#[export] Instance M_bind {S} : MBind (M S) := fun A B f m s =>
  match m s with (Ret a, s') => f a s' | (Raise e, s') => (Raise e, s') end.

Definition raise {S A} (e : exn) : M S A := fun s => (Raise e, s).
Definition get {S} : M S S := fun s => (Ret s, s).
Definition gets {S A} (f : S -> A) : M S A := fun s => (Ret (f s), s).
Definition modify {S} (f : S -> S) : M S unit := fun s => (Ret tt, f s).
Definition lift {S A} (o : outcome A) : M S A := fun s => (o, s).

(** [try: m except ...: h]: [h e] is [None] when no clause matches [e]. *)
Definition try_except {S A} (m : M S A) (h : exn -> option (M S A)) : M S A :=
  fun s => match m s with
           | (Ret a, s') => (Ret a, s')
           | (Raise e, s') => match h e with
                              | Some k => k s'
                              | None => (Raise e, s')
                              end
           end.

(** [try: m finally: fin]: an exception of [fin] replaces the outcome. *)
Definition try_finally {S A} (m : M S A) (fin : M S unit) : M S A :=
  fun s => let '(r, s1) := m s in
           match fin s1 with
           | (Ret _, s2) => (r, s2)
           | (Raise e, s2) => (Raise e, s2)
           end.

Fixpoint for_each {S A} (l : list A) (f : A -> M S unit) : M S unit :=
  match l with
  | [] => mret tt
  | a :: l => fun s => match f a s with
                       | (Ret _, s') => for_each l f s'
                       | (Raise e, s') => (Raise e, s')
                       end
  end.

(** [when b m]: an [if] statement without an [else]. *)
Definition when {S} (b : bool) (m : M S unit) : M S unit :=
  if b then m else mret tt.

(** Running a computation over one field of a larger state. *)
Definition zoom {S T A} (get : S -> T) (put : T -> S -> S) (m : M T A) : M S A :=
  fun s => let '(r, t) := m (get s) in (r, put t s).

(** ** Weakest preconditions: [Q] on normal return, [E] on an exception. *)
Definition wp {S A} (m : M S A) (Q : A -> S -> Prop) (E : exn -> S -> Prop)
    (s : S) : Prop :=
  match m s with
  | (Ret a, s') => Q a s'
  | (Raise e, s') => E e s'
  end.

(** [preserves I m]: [m] keeps the invariant on every exit. *)
Definition preserves {S A} (I : S -> Prop) (m : M S A) : Prop :=
  forall s, I s -> I (snd (m s)).

Section wp_rules.
Context {S : Type}.

Lemma wp_ret {A} (a : A) Q (E : exn -> S -> Prop) s :
  Q a s -> wp (mret a) Q E s.
Proof. done. Qed.

Lemma wp_raise {A} e (Q : A -> S -> Prop) (E : exn -> S -> Prop) s :
  E e s -> wp (raise e) Q E s.
Proof. done. Qed.

Lemma wp_bind {A B} (m : M S A) (f : A -> M S B) Q E s :
  wp m (fun a => wp (f a) Q E) E s -> wp (m ≫= f) Q E s.
Proof. unfold wp, mbind, M_bind. by destruct (m s) as [[a|e] s']. Qed.

Lemma wp_mono {A} (m : M S A) (Q Q' : A -> S -> Prop) (E E' : exn -> S -> Prop) s :
  (forall a t, Q a t -> Q' a t) -> (forall e t, E e t -> E' e t) ->
  wp m Q E s -> wp m Q' E' s.
Proof. unfold wp. destruct (m s) as [[a|e] s']; auto. Qed.

Lemma wp_try_finally {A} (m : M S A) fin Q E s :
  wp m (fun a => wp fin (fun _ => Q a) E) (fun e => wp fin (fun _ => E e) E) s ->
  wp (try_finally m fin) Q E s.
Proof.
  unfold wp, try_finally. destruct (m s) as [[a|e] s1];
    destruct (fin s1) as [[[]|e'] s2]; auto.
Qed.

Lemma preserves_ret {A} I (a : A) : preserves I (mret a : M S A).
Proof. intros s; auto. Qed.

Lemma preserves_raise {A} I e : preserves I (raise e : M S A).
Proof. intros s; auto. Qed.

Lemma preserves_gets {A} I (f : S -> A) : preserves I (gets f).
Proof. intros s; auto. Qed.

Lemma preserves_lift {A} I (o : outcome A) : preserves I (lift o : M S A).
Proof. intros s; auto. Qed.

Lemma preserves_modify I (f : S -> S) :
  (forall s, I s -> I (f s)) -> preserves I (modify f).
Proof. intros Hf s; apply Hf. Qed.

Lemma preserves_bind {A B} I (m : M S A) (f : A -> M S B) :
  preserves I m -> (forall a, preserves I (f a)) -> preserves I (m ≫= f).
Proof.
  intros Hm Hf s Hs. specialize (Hm s Hs). unfold mbind, M_bind.
  destruct (m s) as [[a|e] s']; [by apply Hf | done].
Qed.

Lemma preserves_try_finally {A} I (m : M S A) fin :
  preserves I m -> preserves I fin -> preserves I (try_finally m fin).
Proof.
  intros Hm Hf s Hs. specialize (Hm s Hs). unfold try_finally.
  destruct (m s) as [r s1]. specialize (Hf s1 Hm).
  by destruct (fin s1) as [[?|?] s2].
Qed.

Lemma preserves_try_except {A} I (m : M S A) h :
  preserves I m -> (forall e k, h e = Some k -> preserves I k) ->
  preserves I (try_except m h).
Proof.
  intros Hm Hh s Hs. specialize (Hm s Hs). unfold try_except.
  destruct (m s) as [[a|e] s']; [done|].
  destruct (h e) eqn:He; [by eapply Hh | done].
Qed.

Lemma preserves_for_each {A} I (l : list A) (f : A -> M S unit) :
  (forall a, preserves I (f a)) -> preserves I (for_each l f).
Proof.
  intros Hf. induction l as [|a l IH]; intros s Hs; [done|]. simpl.
  pose proof (Hf a s Hs) as H. destruct (f a s) as [[?|?] s']; [by apply IH | done].
Qed.

Lemma preserves_when I b (m : M S unit) :
  preserves I m -> preserves I (when b m).
Proof. intros Hm. destruct b; [exact Hm | exact (fun s H => H)]. Qed.

End wp_rules.

Lemma lift_Ret {S A} (o : outcome A) (s : S) a s' :
  lift o s = (Ret a, s') -> o = Ret a /\ s' = s.
Proof. unfold lift. by intros [= -> ->]. Qed.

(** A bind whose first part returned *)
Lemma bind_run {S A B} (m : M S A) (f : A -> M S B) s a s1 :
  m s = (Ret a, s1) -> (m ≫= f) s = f a s1.
Proof. intros Hm. unfold mbind, M_bind. by rewrite Hm. Qed.

(** [returns m Q]: a value [m] returns satisfies [Q]. *)
Definition returns {S A} (m : M S A) (Q : A -> Prop) : Prop :=
  forall s a s', m s = (Ret a, s') -> Q a.

Lemma returns_bind {S A B} (m : M S A) (f : A -> M S B) P Q :
  returns m P -> (forall a, P a -> returns (f a) Q) -> returns (m ≫= f) Q.
Proof.
  intros Hm Hf s b s'. unfold mbind, M_bind. destruct (m s) as [[a|e] s1] eqn:Hs; [|done].
  intros Hb. by eapply Hf; [eapply Hm|].
Qed.

Lemma returns_any {S A} (m : M S A) : returns m (fun _ => True).
Proof. done. Qed.

Lemma returns_ret {S A} (a : A) (Q : A -> Prop) : Q a -> returns (mret a : M S A) Q.
Proof. intros Ha s a' s'. by intros [= <- _]. Qed.

Lemma returns_lift {S A} (o : outcome A) (Q : A -> Prop) :
  (forall a, o = Ret a -> Q a) -> returns (lift o : M S A) Q.
Proof. intros Ho s a s'. intros [-> _]%lift_Ret. by apply Ho. Qed.

Lemma returns_try_finally {S A} (m : M S A) fin Q : returns m Q -> returns (try_finally m fin) Q.
Proof.
  intros Hm s a s'. unfold try_finally. destruct (m s) as [r s1] eqn:Hs.
  destruct (fin s1) as [[u|e] s2]; [|done]. intros [= -> _]. by eapply Hm.
Qed.

Lemma returns_impl {S A} (m : M S A) (P Q : A -> Prop) :
  returns m P -> (forall a, P a -> Q a) -> returns m Q.
Proof. intros Hm HPQ s a s' Hs. eapply HPQ, Hm, Hs. Qed.

Create HintDb morph.
#[export] Hint Resolve preserves_ret preserves_raise preserves_gets
  preserves_lift preserves_when preserves_bind preserves_try_finally
  preserves_for_each : morph.
#[export] Hint Unfold gets modify lift raise : morph.

(** [run m]: unfold a monadic computation in the goal down to its matches. *)
Ltac run :=
  cbn [mbind mret M_bind M_ret outcome_bind outcome_ret fst snd
       gets modify lift raise get when] in *;
  unfold mbind, mret, M_bind, M_ret, outcome_bind, outcome_ret, gets, modify, lift, raise, get,
    when in *; simpl in *.

(** [cases]: split every match and simplify the equations that appear. *)
Ltac cases :=
  repeat (case_match; simplify_eq/=).

(** ** Lists: Python's [min]/[max] with a key, and left folds *)

(** [min(l, key=key)]: the first element with the least key. *)
Definition min_by_step {A} (key : A -> Z) (best x : A) : A :=
  if key x <? key best then x else best.
Definition min_by {A} (key : A -> Z) (l : list A) : option A :=
  match l with
  | [] => None
  | x :: l => Some (foldl (min_by_step key) x l)
  end.

Definition min_list (l : list Z) : option Z := min_by (fun x => x) l.
Definition max_list (l : list Z) : option Z := min_by (fun x => - x) l.

Lemma min_by_step_spec {A} (key : A -> Z) x a :
  (min_by_step key x a = x \/ min_by_step key x a = a) /\
  key (min_by_step key x a) <= key x /\ key (min_by_step key x a) <= key a.
Proof.
  unfold min_by_step. destruct (key a <? key x) eqn:Hlt;
    [apply Z.ltb_lt in Hlt | apply Z.ltb_ge in Hlt]; auto with lia.
Qed.

Lemma min_by_fold_spec {A} (key : A -> Z) l x :
  (foldl (min_by_step key) x l = x \/ foldl (min_by_step key) x l ∈ l) /\
  key (foldl (min_by_step key) x l) <= key x /\
  (forall y, y ∈ l -> key (foldl (min_by_step key) x l) <= key y).
Proof.
  revert x. induction l as [|a l IH]; intros x; simpl.
  { repeat split; auto; [lia | by intros y ?%not_elem_of_nil]. }
  destruct (IH (min_by_step key x a)) as (Hin & Hle & Hall).
  destruct (min_by_step_spec key x a) as (Hxa & Hx & Ha). repeat split.
  - destruct Hin as [Hin|Hin]; [|right; set_solver].
    rewrite Hin. destruct Hxa as [->| ->]; [by left | right; set_solver].
  - lia.
  - intros y [->|Hy]%elem_of_cons; [lia|auto].
Qed.

Lemma min_by_spec {A} (key : A -> Z) l x :
  min_by key l = Some x -> x ∈ l /\ forall y, y ∈ l -> key x <= key y.
Proof.
  destruct l as [|a l]; simpl; [done|]. intros [= <-].
  destruct (min_by_fold_spec key l a) as (Hin & Hle & Hall). split.
  - destruct Hin as [->|Hin]; set_solver.
  - intros y [->|Hy]%elem_of_cons; auto.
Qed.

Lemma min_by_Some {A} (key : A -> Z) l : l <> [] -> is_Some (min_by key l).
Proof. destruct l; [done|]. by eexists. Qed.

Lemma min_list_spec l x : min_list l = Some x -> x ∈ l /\ forall y, y ∈ l -> x <= y.
Proof. apply (min_by_spec (fun x => x)). Qed.

Lemma max_list_spec l x : max_list l = Some x -> x ∈ l /\ forall y, y ∈ l -> y <= x.
Proof.
  intros H%min_by_spec. destruct H as [Hin Hall]. split; [done|].
  intros y Hy. specialize (Hall y Hy). simpl in Hall. lia.
Qed.

Definition sum_list (l : list Z) : Z := foldl Z.add 0 l.

Lemma foldl_add_shift l a : foldl Z.add a l = a + foldl Z.add 0 l.
Proof.
  revert a. induction l as [|x l IH]; intros a; cbn [foldl]; [lia|].
  rewrite (IH (a + x)), (IH (0 + x)). lia.
Qed.

Lemma sum_list_cons x l : sum_list (x :: l) = x + sum_list l.
Proof. unfold sum_list. cbn [foldl]. rewrite (foldl_add_shift l (0 + x)). lia. Qed.

Lemma sum_list_app l1 l2 : sum_list (l1 ++ l2) = sum_list l1 + sum_list l2.
Proof.
  induction l1 as [|x l1 IH]; [done|]. rewrite <- app_comm_cons, !sum_list_cons. lia.
Qed.

Lemma sum_list_nonneg l : (forall x, x ∈ l -> 0 <= x) -> 0 <= sum_list l.
Proof.
  induction l as [|x l IH]; intros H; [done|]. rewrite sum_list_cons.
  assert (0 <= x) by (apply H; left). assert (0 <= sum_list l) by (apply IH; intros; apply H; by right). lia.
Qed.

#[export] Hint Rewrite sum_list_cons sum_list_app : morph.

(** Filters *)
Lemma filter_agree {A} (P Q : A -> Prop) `{forall x, Decision (P x)} `{forall x, Decision (Q x)} (l : list A) :
  (forall x, x ∈ l -> P x <-> Q x) -> filter P l = filter Q l.
Proof.
  induction l as [|x l IH]; intros Hpq; [done|]. rewrite !filter_cons.
  rewrite IH by (intros; apply Hpq; by right). specialize (Hpq x (list_elem_of_here x l)).
  repeat case_decide; tauto.
Qed.

Lemma filter_all {A} (P : A -> Prop) `{forall x, Decision (P x)} l : Forall P l -> filter P l = l.
Proof. induction 1 as [|x l Hx Hl IH]; [done|]. by rewrite filter_cons_True, IH. Qed.

Lemma filter_false {A} (P : A -> Prop) `{forall x, Decision (P x)} l :
  Forall (fun x => ~ P x) l -> filter P l = [].
Proof. induction 1 as [|x l Hx Hl IH]; [done|]. by rewrite filter_cons_False. Qed.

(** A left fold that preserves an invariant. *)
Lemma foldl_invariant {A B} (I : B -> Prop) (f : B -> A -> B) l b :
  I b -> (forall b a, a ∈ l -> I b -> I (f b a)) -> I (foldl f b l).
Proof.
  revert b. induction l as [|a l IH]; intros b Hb Hf; [done|]. simpl.
  apply IH; [apply Hf; set_solver|]. intros b' a' Hin; apply Hf; set_solver.
Qed.

(** ** Python's [sorted]: a stable insertion sort *)

Fixpoint insert_by {A} (le : A -> A -> bool) (x : A) (l : list A) : list A :=
  match l with
  | [] => [x]
  | y :: l' => if le x y then x :: l else y :: insert_by le x l'
  end.
Definition sort_by {A} (le : A -> A -> bool) (l : list A) : list A :=
  foldr (insert_by le) [] l.

Section sort.
Context {A : Type} (le : A -> A -> bool).

Lemma insert_by_perm x l : insert_by le x l ≡ₚ x :: l.
Proof.
  induction l as [|y l IH]; [done|]. cbn. destruct (le x y); [done|].
  rewrite IH. apply Permutation_swap.
Qed.

Lemma sort_by_perm l : sort_by le l ≡ₚ l.
Proof. induction l as [|x l IH]; [done|]. cbn. by rewrite insert_by_perm, IH. Qed.

Lemma elem_of_sort_by x l : x ∈ sort_by le l <-> x ∈ l.
Proof. by rewrite sort_by_perm. Qed.

Context (le_total : forall x y, le x y = true \/ le y x = true)
  (le_trans : forall x y z, le x y = true -> le y z = true -> le x z = true).

Lemma insert_by_sorted x l :
  StronglySorted (fun x y => le x y = true) l ->
  StronglySorted (fun x y => le x y = true) (insert_by le x l).
Proof.
  induction 1 as [|y l Hs IH Hf]; cbn; [repeat constructor|].
  destruct (le x y) eqn:Hxy.
  - constructor; [by constructor|]. constructor; [done|].
    eapply Forall_impl; [exact Hf|]. intros z Hz. by eapply le_trans.
  - constructor; [done|]. rewrite insert_by_perm. constructor; [|done].
    destruct (le_total x y); congruence.
Qed.

Lemma sort_by_sorted l : StronglySorted (fun x y => le x y = true) (sort_by le l).
Proof. induction l as [|x l IH]; cbn; [constructor|by apply insert_by_sorted]. Qed.

(** Elements that compare equal keep their order. *)
Lemma sort_by_stable (P : A -> Prop) `{forall x, Decision (P x)} l :
  (forall x y, P x -> P y -> le x y = true) -> filter P (sort_by le l) = filter P l.
Proof.
  intros Hle. induction l as [|x l IH]; [done|]. cbn [sort_by foldr].
  change (foldr (insert_by le) [] l) with (sort_by le l).
  rewrite filter_cons, <- IH. clear IH. induction (sort_by le l) as [|y m IH]; cbn [insert_by].
  { by rewrite filter_cons. }
  destruct (le x y) eqn:Hxy; [by rewrite filter_cons|].
  rewrite (filter_cons _ y), IH, (filter_cons _ y m).
  destruct (decide (P x)) as [Hx|Hx], (decide (P y)) as [Hy|Hy]; try done.
  exfalso. rewrite (Hle x y Hx Hy) in Hxy. done.
Qed.
End sort.

(** Sorting keys that are computed from the elements *)
Lemma sort_by_map {A B} (f : A -> B) (le : B -> B -> bool) l :
  sort_by le (map f l) = map f (sort_by (fun x y => le (f x) (f y)) l).
Proof.
  induction l as [|x l IH]; [done|]. cbn [map sort_by foldr].
  change (foldr (insert_by le) [] (map f l)) with (sort_by le (map f l)). rewrite IH.
  change (foldr (insert_by ?g) [] l) with (sort_by g l). clear IH.
  induction (sort_by (fun x y => le (f x) (f y)) l) as [|y m IHm]; [done|]. cbn [map insert_by].
  destruct (le (f x) (f y)); [done|]. cbn [map]. by rewrite IHm.
Qed.

(** Sorting and then keeping some elements sorts what is kept. *)
Section omap_sort.
Context {A B : Type} (g : A -> option B) (le : A -> A -> bool) (le' : B -> B -> bool).
Context (le_total : forall x y, le x y = true \/ le y x = true)
  (le_trans : forall x y z, le x y = true -> le y z = true -> le x z = true)
  (le_compat : forall x y b c, g x = Some b -> g y = Some c -> le x y = le' b c).

Lemma omap_insert_by x l :
  StronglySorted (fun x y => le x y = true) l ->
  omap g (insert_by le x l) =
  match g x with Some b => insert_by le' b (omap g l) | None => omap g l end.
Proof.
  induction 1 as [|y l Hl IH Hy]; cbn [insert_by].
  { cbn. by destruct (g x). }
  destruct (le x y) eqn:Hxy.
  - change (omap g (x :: y :: l)) with
      (match g x with Some b => b :: omap g (y :: l) | None => omap g (y :: l) end).
    destruct (g x) as [b|] eqn:Hx; [|done]. symmetry.
    assert (Hall : Forall (fun z => le x z = true) (y :: l)).
    { constructor; [done|]. eapply Forall_impl; [exact Hy|]. intros z Hz. by eapply le_trans. }
    clear - Hall Hx le_compat. induction Hall as [|z m Hz Hm IHm]; [done|].
    cbn [omap list_omap]. destruct (g z) as [c|] eqn:Hgz; [|exact IHm]. cbn [insert_by].
    by rewrite <- (le_compat x z b c Hx Hgz), Hz.
  - change (omap g (y :: ?m)) with (match g y with Some c => c :: omap g m | None => omap g m end).
    rewrite IH. destruct (g x) as [b|] eqn:Hx, (g y) as [c|] eqn:Hgy; try done. cbn [insert_by].
    by rewrite <- (le_compat x y b c Hx Hgy), Hxy.
Qed.

Lemma omap_sort_by l : omap g (sort_by le l) = sort_by le' (omap g l).
Proof.
  induction l as [|x l IH]; [done|]. cbn [sort_by foldr omap list_omap].
  change (foldr (insert_by le) [] l) with (sort_by le l).
  rewrite omap_insert_by by by apply sort_by_sorted. rewrite IH. by destruct (g x).
Qed.
End omap_sort.

