(* ===== verification/PyDict.v ===== *)
(** * Insertion-ordered dictionaries

    Python's [dict] keeps its keys in insertion order: assigning to a present
    key changes its value in place, assigning to a fresh key appends it.  The
    components whose behaviour depends on that order (the tensor layouts, the
    GEMM tables, the manifests and the virtual-time offsets) use [pydict]; the
    others use [gmap]. *)

From S2P Require Import Prelude.

Definition pydict (K V : Type) : Type := list (K * V).

Section ops.
Context {K V : Type} `{EqDecision K}.
Implicit Types d : list (K * V).

Fixpoint dict_get (k : K) (d : list (K * V)) : option V :=
  match d with
  | [] => None
  | (k', v) :: d => if decide (k = k') then Some v else dict_get k d
  end.

Fixpoint dict_set (k : K) (v : V) (d : list (K * V)) : list (K * V) :=
  match d with
  | [] => [(k, v)]
  | (k', v') :: d =>
      if decide (k = k') then (k', v) :: d else (k', v') :: dict_set k v d
  end.

(** [d.get(k, default)] *)
Definition dict_get_default (k : K) (dflt : V) (d : list (K * V)) : V :=
  default dflt (dict_get k d).

(** [d.setdefault(k, v)], as a statement *)
Definition dict_setdefault (k : K) (v : V) (d : list (K * V)) : list (K * V) :=
  match dict_get k d with Some _ => d | None => d ++ [(k, v)] end.

Definition dict_keys (d : list (K * V)) : list K := d.*1.
Definition dict_values (d : list (K * V)) : list V := d.*2.

Definition dict_mem (k : K) (d : list (K * V)) : bool :=
  match dict_get k d with Some _ => true | None => false end.

(** [d[k] = f(d.get(k))]: the update of a [defaultdict] or a [Counter] entry. *)
Definition dict_alter (f : option V -> V) (k : K) (d : list (K * V)) :
    list (K * V) :=
  dict_set k (f (dict_get k d)) d.

(** [dict(zip(keys, values))] and every other build from pairs: a later pair
    for the same key wins and keeps the first position. *)
Definition dict_of_pairs (l : list (K * V)) : list (K * V) :=
  foldl (fun d kv => dict_set kv.1 kv.2 d) [] l.

(** The invariant of a dictionary: no key twice. *)
Definition dict_wf (d : list (K * V)) : Prop := NoDup (dict_keys d).

(** Equality of dictionaries up to order, Python's [==]. *)
Definition dict_equiv d1 d2 : Prop := forall k, dict_get k d1 = dict_get k d2.

End ops.

Section lemmas.
Context {K V : Type} `{EqDecision K}.
Implicit Types d : list (K * V).

Lemma dict_get_set_eq k (v : V) d : dict_get k (dict_set k v d) = Some v.
Proof.
  induction d as [|[k' v'] d IH]; simpl; [by rewrite decide_True|].
  destruct (decide (k = k')) as [->|Hne]; simpl; [by rewrite decide_True|].
  by rewrite decide_False.
Qed.

Lemma dict_get_set_ne k k' (v : V) d :
  k <> k' -> dict_get k (dict_set k' v d) = dict_get k d.
Proof.
  intros Hne. induction d as [|[k'' v'] d IH]; simpl; [by rewrite decide_False|].
  destruct (decide (k' = k'')) as [->|Hne']; simpl.
  - by rewrite !decide_False by done.
  - by rewrite IH.
Qed.

Lemma dict_get_set k k' (v : V) d :
  dict_get k (dict_set k' v d) = if decide (k = k') then Some v else dict_get k d.
Proof.
  destruct (decide (k = k')) as [->|Hne]; [apply dict_get_set_eq|].
  by apply dict_get_set_ne.
Qed.

Lemma dict_get_Some_elem k (v : V) d : dict_get k d = Some v -> (k, v) ∈ d.
Proof.
  induction d as [|[k' v'] d IH]; simpl; [done|].
  destruct (decide (k = k')) as [->|Hne]; [intros [= ->]; left | right; auto].
Qed.

Lemma dict_get_None d k : dict_get k d = None <-> k ∉ dict_keys d.
Proof.
  induction d as [|[k' v'] d IH]; simpl; [set_solver|].
  destruct (decide (k = k')) as [->|Hne]; [set_solver|].
  rewrite IH. set_solver.
Qed.

Lemma dict_get_is_Some d k : is_Some (dict_get k d) <-> k ∈ dict_keys d.
Proof.
  destruct (dict_get k d) eqn:Hg.
  - split; [|by eexists]. intros _. apply dict_get_Some_elem in Hg.
    apply list_elem_of_fmap. by exists (k, v).
  - apply dict_get_None in Hg. split; [by intros [??]|done].
Qed.

Lemma dict_elem_get k (v : V) d : dict_wf d -> (k, v) ∈ d -> dict_get k d = Some v.
Proof.
  unfold dict_wf. induction d as [|[k' v'] d IH]; simpl; [set_solver|].
  intros [Hk Hd]%NoDup_cons [Heq|Hin]%elem_of_cons.
  - injection Heq as -> ->. by rewrite decide_True.
  - rewrite decide_False; [auto|]. intros ->. apply Hk.
    apply list_elem_of_fmap. by exists (k', v).
Qed.

Lemma dict_keys_set k (v : V) d :
  dict_keys (dict_set k v d) =
  if decide (k ∈ dict_keys d) then dict_keys d else dict_keys d ++ [k].
Proof.
  induction d as [|[k' v'] d IH]; [done|].
  cbn [dict_set]. destruct (decide (k = k')) as [->|Hne].
  { rewrite decide_True; [done|left]. }
  change (k' :: dict_keys (dict_set k v d) =
          if decide (k ∈ k' :: dict_keys d) then k' :: dict_keys d
          else k' :: dict_keys d ++ [k]).
  rewrite IH. repeat case_decide; set_solver.
Qed.

Lemma dict_wf_set k (v : V) d : dict_wf d -> dict_wf (dict_set k v d).
Proof.
  unfold dict_wf. rewrite dict_keys_set. case_decide; [done|].
  intros Hd. apply NoDup_app. split_and!; [done| |apply NoDup_singleton].
  set_solver.
Qed.

Lemma dict_wf_nil : dict_wf ([] : list (K * V)).
Proof. apply NoDup_nil_2. Qed.

Lemma dict_wf_of_pairs (l : list (K * V)) : dict_wf (dict_of_pairs l).
Proof.
  unfold dict_of_pairs. apply foldl_invariant; [apply dict_wf_nil|].
  intros; by apply dict_wf_set.
Qed.

Lemma dict_set_fresh k (v : V) d : k ∉ dict_keys d -> dict_set k v d = d ++ [(k, v)].
Proof.
  induction d as [|[k' v'] d IH]; simpl; [done|].
  intros Hk. rewrite decide_False by set_solver. rewrite IH; [done|set_solver].
Qed.

Lemma dict_of_pairs_app_fold (l d : list (K * V)) :
  NoDup (d.*1 ++ l.*1) ->
  foldl (fun d kv => dict_set kv.1 kv.2 d) d l = d ++ l.
Proof.
  revert d. induction l as [|[k v] l IH]; intros d Hnd; simpl; [by rewrite app_nil_r|].
  rewrite fmap_cons in Hnd. simpl in Hnd.
  assert (Hk : k ∉ dict_keys d).
  { apply NoDup_app in Hnd as (_ & H & _). intros Hin. apply (H k Hin). left. }
  rewrite dict_set_fresh by done. rewrite IH.
  - by rewrite <- app_assoc.
  - rewrite fmap_app, <- app_assoc. done.
Qed.

(** Building from pairs with distinct keys keeps them as they are. *)
Lemma dict_of_pairs_nodup (l : list (K * V)) : NoDup l.*1 -> dict_of_pairs l = l.
Proof. intros H. unfold dict_of_pairs. by rewrite dict_of_pairs_app_fold. Qed.

Lemma dict_get_alter k k' (f : option V -> V) d :
  dict_get k (dict_alter f k' d) =
  if decide (k = k') then Some (f (dict_get k' d)) else dict_get k d.
Proof. apply dict_get_set. Qed.

Lemma dict_wf_alter f k d : dict_wf d -> dict_wf (dict_alter (V := V) f k d).
Proof. apply dict_wf_set. Qed.

(** Every value satisfies [P]. *)
Definition dict_all (P : V -> Prop) (d : list (K * V)) : Prop := Forall (fun kv => P kv.2) d.

Lemma dict_all_nil P : dict_all P [].
Proof. constructor. Qed.

Lemma dict_all_set P k (v : V) d : dict_all P d -> P v -> dict_all P (dict_set k v d).
Proof.
  induction 1 as [|[k' v'] d Hv' Hd IH]; intros Hv; cbn [dict_set]; [by repeat constructor|].
  destruct (decide (k = k')); constructor; auto; by apply IH.
Qed.

Lemma dict_all_get P k (v : V) d : dict_all P d -> dict_get k d = Some v -> P v.
Proof.
  intros Hd Hg%dict_get_Some_elem. unfold dict_all in Hd. rewrite Forall_forall in Hd.
  by apply (Hd _ Hg).
Qed.

Lemma dict_all_get_default P k (v : V) d :
  dict_all P d -> P v -> P (dict_get_default k v d).
Proof.
  intros Hd Hv. unfold dict_get_default. destruct (dict_get k d) eqn:Hg; [|done].
  by eapply dict_all_get.
Qed.

Lemma dict_all_alter (P : V -> Prop) f k d :
  dict_all P d -> P (f None) -> (forall v, P v -> P (f (Some v))) ->
  dict_all P (dict_alter f k d).
Proof.
  intros Hd Hn Hs. apply dict_all_set; [done|].
  destruct (dict_get k d) eqn:Hg; [|done]. by eapply Hs, dict_all_get.
Qed.

#[export] Instance dict_equiv_equivalence : Equivalence (dict_equiv (K := K) (V := V)).
Proof. split; unfold dict_equiv; [by intros ? | by intros ??? | congruence]. Qed.

#[export] Instance dict_set_proper (k : K) (v : V) :
  Proper (dict_equiv ==> dict_equiv) (dict_set k v).
Proof. intros d1 d2 H k'. rewrite !dict_get_set. by case_decide. Qed.

#[export] Instance dict_alter_proper f (k : K) :
  Proper (dict_equiv ==> dict_equiv) (dict_alter (V := V) f k).
Proof. intros d1 d2 H k'. rewrite !dict_get_alter, (H k). by case_decide. Qed.

#[export] Instance dict_get_proper (k : K) :
  Proper (dict_equiv ==> eq) (dict_get (V := V) k).
Proof. intros d1 d2 H. apply H. Qed.

(** Two assignments to different keys commute up to [==]. *)
Lemma dict_set_comm k1 k2 (v1 v2 : V) d :
  k1 <> k2 -> dict_equiv (dict_set k1 v1 (dict_set k2 v2 d))
                         (dict_set k2 v2 (dict_set k1 v1 d)).
Proof. intros Hne k. rewrite !dict_get_set. by repeat case_decide; subst. Qed.

End lemmas.

#[export] Hint Resolve dict_wf_nil dict_wf_set dict_wf_alter dict_wf_of_pairs
  dict_all_nil dict_all_set dict_all_alter : morph.
#[export] Hint Rewrite @dict_get_set @dict_get_alter : morph.

(** ** Grouping

    [d.setdefault(key(x), []).append(x)] for every [x] of a list *)
Section group.
Context {K V : Type} `{EqDecision K} (key : V -> K).

Definition group_step (d : list (K * list V)) (x : V) : list (K * list V) :=
  dict_alter (fun l => default [] l ++ [x]) (key x) d.
Definition group_by (l : list V) : list (K * list V) := foldl group_step [] l.

Lemma group_by_snoc l x : group_by (l ++ [x]) = group_step (group_by l) x.
Proof. unfold group_by. by rewrite foldl_app. Qed.

Lemma group_by_wf l : dict_wf (group_by l).
Proof.
  induction l as [|x l IH] using rev_ind; [apply dict_wf_nil|].
  rewrite group_by_snoc. by apply dict_wf_alter.
Qed.

(** A group is the elements with its key, in their order; there is no empty group. *)
Lemma dict_get_group_by k l :
  dict_get k (group_by l) =
  match filter (fun x => key x = k) l with [] => None | xs => Some xs end.
Proof.
  induction l as [|x l IH] using rev_ind; [done|].
  rewrite group_by_snoc. unfold group_step. rewrite dict_get_alter, filter_app.
  destruct (decide (k = key x)) as [->|Hne].
  - rewrite filter_cons_True by done. cbn [filter list_filter]. rewrite IH.
    by destruct (filter _ l).
  - rewrite filter_cons_False by congruence. cbn [filter list_filter]. by rewrite app_nil_r.
Qed.

Lemma group_by_elem k g l :
  (k, g) ∈ group_by l <-> g = filter (fun x => key x = k) l /\ g <> [].
Proof.
  pose proof (dict_get_group_by k l) as Hget. split.
  - intros Hin. rewrite (dict_elem_get _ _ _ (group_by_wf l) Hin) in Hget.
    destruct (filter _ l); [done|]. by injection Hget as ->.
  - intros [-> Hne]. apply dict_get_Some_elem. rewrite Hget. by destruct (filter _ l).
Qed.

Lemma group_by_nonempty l : group_by l = [] <-> l = [].
Proof.
  split; [|by intros ->]. destruct l as [|x l]; [done|]. intros Hg.
  pose proof (dict_get_group_by (key x) (x :: l)) as H. rewrite Hg in H.
  by rewrite filter_cons_True in H by done.
Qed.
End group.
