(* ===== verification/PyStr.v ===== *)
(** * Python string operations

    The operations of [str] the modelled code uses, on ASCII text: [strip],
    [lstrip], [split], [startswith], [endswith], [in], [isdigit], [int] and
    [str] on integers, and line iteration over a text file. *)

From Stdlib Require Import Ascii.
From S2P Require Import Prelude.

(** ** Characters *)

(** [str.isspace] on ASCII: tab to carriage return, 0x1c to 0x1f, blank. *)
Definition is_space (c : ascii) : bool :=
  let n := N_of_ascii c in
  ((9 <=? n) && (n <=? 13))%N || ((28 <=? n) && (n <=? 32))%N.

Definition digit_val (c : ascii) : option Z :=
  let n := N_of_ascii c in
  if ((48 <=? n) && (n <=? 57))%N then Some (Z.of_N n - 48) else None.

Definition is_digit (c : ascii) : bool :=
  match digit_val c with Some _ => true | None => false end.

Definition digit_char (n : N) : ascii := ascii_of_N (48 + n).

Definition upper_char (c : ascii) : ascii :=
  let n := N_of_ascii c in
  if ((97 <=? n) && (n <=? 122))%N then ascii_of_N (n - 32) else c.

Definition lower_char (c : ascii) : ascii :=
  let n := N_of_ascii c in
  if ((65 <=? n) && (n <=? 90))%N then ascii_of_N (n + 32) else c.

(** ** Whole strings *)

Fixpoint map_str (f : ascii -> ascii) (s : string) : string :=
  match s with
  | EmptyString => EmptyString
  | String c s => String (f c) (map_str f s)
  end.

Definition upper (s : string) : string := map_str upper_char s.
Definition lower (s : string) : string := map_str lower_char s.

(** [s.lstrip(chars)] for a character class *)
Fixpoint lstrip_by (p : ascii -> bool) (s : string) : string :=
  match s with
  | EmptyString => EmptyString
  | String c s' => if p c then lstrip_by p s' else s
  end.

Fixpoint rstrip_by (p : ascii -> bool) (s : string) : string :=
  match s with
  | EmptyString => EmptyString
  | String c s =>
      match rstrip_by p s with
      | EmptyString => if p c then EmptyString else String c EmptyString
      | r => String c r
      end
  end.

Definition strip (s : string) : string := rstrip_by is_space (lstrip_by is_space s).
Definition rstrip_nl (s : string) : string :=
  rstrip_by (fun c => Ascii.eqb c "010"%char) s.
Definition lstrip_hash (s : string) : string :=
  lstrip_by (fun c => Ascii.eqb c "#"%char) s.

(** [s.split(c)]: never empty. *)
Fixpoint split_on (c : ascii) (s : string) : list string :=
  match s with
  | EmptyString => [EmptyString]
  | String a s =>
      if Ascii.eqb a c then EmptyString :: split_on c s
      else match split_on c s with
           | p :: ps => String a p :: ps
           | [] => [String a EmptyString]
           end
  end.

(** [s.split(c, 1)[1]], for an [s] that contains [c] *)
Fixpoint after_first (c : ascii) (s : string) : string :=
  match s with
  | EmptyString => EmptyString
  | String a s => if Ascii.eqb a c then s else after_first c s
  end.

Fixpoint startswith (p s : string) : bool :=
  match p with
  | EmptyString => true
  | String a p =>
      match s with
      | EmptyString => false
      | String b s => Ascii.eqb a b && startswith p s
      end
  end.

(** [p in s] *)
Fixpoint contains (p s : string) : bool :=
  startswith p s ||
  match s with EmptyString => false | String _ s => contains p s end.

Fixpoint rev_string (s acc : string) : string :=
  match s with
  | EmptyString => acc
  | String c s => rev_string s (String c acc)
  end.

Definition endswith (p s : string) : bool :=
  startswith (rev_string p "") (rev_string s "").

Fixpoint all_chars (p : ascii -> bool) (s : string) : bool :=
  match s with
  | EmptyString => true
  | String c s => p c && all_chars p s
  end.

(** [s.isdigit()] *)
Definition isdigit (s : string) : bool :=
  match s with EmptyString => false | _ => all_chars is_digit s end.

Definition is_empty (s : string) : bool :=
  match s with EmptyString => true | _ => false end.

(** [sep.join(parts)] *)
Fixpoint join (sep : string) (parts : list string) : string :=
  match parts with
  | [] => ""
  | [p] => p
  | p :: ps => p +:+ sep +:+ join sep ps
  end.

(** ** Integers *)

(** The digits of [int(s)]: single underscores may stand between digits. *)
Fixpoint int_digits (after_digit : bool) (acc : Z) (s : string) : option Z :=
  match s with
  | EmptyString => if after_digit then Some acc else None
  | String c s =>
      match digit_val c with
      | Some d => int_digits true (10 * acc + d) s
      | None => if Ascii.eqb c "_"%char && after_digit
                then int_digits false acc s else None
      end
  end.

(** [int(s)]: [None] stands for the [ValueError]. *)
Definition int_of_str (s : string) : option Z :=
  match strip s with
  | String c r =>
      if Ascii.eqb c "-"%char then Z.opp <$> int_digits false 0 r
      else if Ascii.eqb c "+"%char then int_digits false 0 r
      else int_digits false 0 (String c r)
  | EmptyString => None
  end.

Fixpoint dec_digits (fuel : nat) (n : N) (acc : string) : string :=
  match fuel with
  | O => acc
  | S fuel =>
      let acc := String (digit_char (n mod 10)) acc in
      if (n <? 10)%N then acc else dec_digits fuel (n / 10) acc
  end.

Definition str_of_N (n : N) : string := dec_digits (S (N.size_nat n)) n "".

(** [str(z)] *)
Definition str_of_Z (z : Z) : string :=
  if z <? 0 then String "-" (str_of_N (Z.to_N (- z))) else str_of_N (Z.to_N z).

(** ** Text files: [for line in f] on the newline-translated text.  The lines
    are given without their terminating newline. *)
Fixpoint universal_newlines (s : string) : string :=
  match s with
  | EmptyString => EmptyString
  | String c s =>
      if Ascii.eqb c "013"%char then
        String "010" match s with
                     | String d s' =>
                         if Ascii.eqb d "010"%char then universal_newlines s'
                         else universal_newlines s
                     | EmptyString => EmptyString
                     end
      else String c (universal_newlines s)
  end.

Definition file_lines (s : string) : list string :=
  match universal_newlines s with
  | EmptyString => []
  | t => let ls := split_on "010"%char t in
         match last ls with
         | Some EmptyString => take (length ls - 1) ls
         | _ => ls
         end
  end.

(** ** Lemmas *)

Lemma digit_val_char n : (n < 10)%N -> digit_val (digit_char n) = Some (Z.of_N n).
Proof.
  intros Hn. unfold digit_val, digit_char. rewrite N_ascii_embedding by lia.
  replace ((48 <=? 48 + n) && (48 + n <=? 57))%N with true; [f_equal; lia|].
  symmetry. apply andb_true_intro. split; apply N.leb_le; lia.
Qed.

Lemma int_digits_dec fuel n b rest :
  (n < 10 ^ N.of_nat fuel)%N -> (fuel > 0)%nat ->
  int_digits b 0 (dec_digits fuel n rest) = int_digits true (Z.of_N n) rest.
Proof.
  revert n b rest. induction fuel as [|f IH]; intros n b rest Hn Hf; [lia|].
  cbn [dec_digits].
  assert (Hm : (n mod 10 < 10)%N) by (apply N.mod_lt; lia).
  pose proof (N.div_mod' n 10) as Hdm.
  destruct (n <? 10)%N eqn:Hlt.
  - apply N.ltb_lt in Hlt. cbn [int_digits].
    rewrite digit_val_char by done. rewrite N.mod_small by done. f_equal; lia.
  - apply N.ltb_ge in Hlt. rewrite IH.
    + cbn [int_digits]. rewrite digit_val_char by done. f_equal; lia.
    + rewrite Nat2N.inj_succ, N.pow_succ_r' in Hn. apply N.Div0.div_lt_upper_bound; lia.
    + destruct f; [|lia]. cbn in Hn. lia.
Qed.

Lemma size_nat_bound n : (n < 10 ^ N.of_nat (S (N.size_nat n)))%N.
Proof.
  assert (H : forall p, (N.pos p < 2 ^ N.of_nat (Pos.size_nat p))%N).
  { induction p as [p IH|p IH|]; cbn [Pos.size_nat];
      rewrite ?Nat2N.inj_succ, ?N.pow_succ_r'; lia. }
  destruct n as [|p]; [done|]. cbn [N.size_nat]. specialize (H p).
  rewrite Nat2N.inj_succ, N.pow_succ_r'.
  assert (2 ^ N.of_nat (Pos.size_nat p) <= 10 ^ N.of_nat (Pos.size_nat p))%N
    by (apply N.pow_le_mono_l; lia). lia.
Qed.

Lemma int_digits_str_of_N n b : int_digits b 0 (str_of_N n) = Some (Z.of_N n).
Proof.
  unfold str_of_N. rewrite int_digits_dec; [done | apply size_nat_bound | lia].
Qed.

(** Every character of a decimal numeral is a digit. *)
Lemma dec_digits_all fuel n rest p :
  (forall m, (m < 10)%N -> p (digit_char m) = true) ->
  all_chars p rest = true -> all_chars p (dec_digits fuel n rest) = true.
Proof.
  intros Hp. revert n rest. induction fuel as [|f IH]; intros n rest Hr; [done|].
  cbn [dec_digits]. assert (Hm : (n mod 10 < 10)%N) by (apply N.mod_lt; lia).
  assert (all_chars p (String (digit_char (n mod 10)) rest) = true).
  { cbn. by rewrite Hp, Hr. }
  destruct (n <? 10)%N; auto.
Qed.

Lemma dec_digits_nonempty fuel n rest :
  (fuel > 0)%nat \/ rest <> "" -> dec_digits fuel n rest <> "".
Proof.
  revert n rest. induction fuel as [|f IH]; intros n rest H; [destruct H; [lia|done]|].
  cbn [dec_digits]. destruct (n <? 10)%N; [done|]. apply IH. by right.
Qed.

Lemma str_of_N_nonempty n : str_of_N n <> "".
Proof. apply dec_digits_nonempty. left. lia. Qed.

Lemma digit_char_cases (p : ascii -> bool) :
  forallb (fun k => p (digit_char (N.of_nat k))) (seq 0 10) = true ->
  forall m, (m < 10)%N -> p (digit_char m) = true.
Proof.
  intros H m Hm. rewrite forallb_forall in H.
  specialize (H (N.to_nat m)). rewrite N2Nat.id in H. apply H.
  apply in_seq. lia.
Qed.

Lemma str_of_N_all p n :
  (forall m, (m < 10)%N -> p (digit_char m) = true) ->
  all_chars p (str_of_N n) = true.
Proof. intros H. by apply dec_digits_all. Qed.

Lemma lstrip_by_id p s :
  match s with String c _ => p c = false | _ => True end -> lstrip_by p s = s.
Proof. destruct s as [|c s]; [done|]. simpl. by intros ->. Qed.

Lemma rstrip_by_id p s :
  all_chars (fun c => negb (p c)) s = true -> rstrip_by p s = s.
Proof.
  induction s as [|c s IH]; [done|]. cbn. intros [Hc Hs]%andb_prop.
  rewrite IH by done. destruct s; [|done]. by destruct (p c).
Qed.

Lemma strip_id s :
  all_chars (fun c => negb (is_space c)) s = true -> strip s = s.
Proof.
  intros H. unfold strip. rewrite lstrip_by_id; [by apply rstrip_by_id|].
  destruct s as [|c s]; [done|]. cbn in H. apply andb_prop in H as [H _].
  by apply negb_true_iff.
Qed.

Lemma str_of_Z_no_space z :
  all_chars (fun c => negb (is_space c)) (str_of_Z z) = true.
Proof.
  assert (H : forall n, all_chars (fun c => negb (is_space c)) (str_of_N n) = true).
  { intros n. apply str_of_N_all.
    exact (digit_char_cases (fun c => negb (is_space c)) eq_refl). }
  unfold str_of_Z. destruct (z <? 0); cbn [all_chars]; by rewrite H.
Qed.

Lemma str_of_N_head n c r :
  str_of_N n = String c r -> Ascii.eqb c "-" = false /\ Ascii.eqb c "+" = false.
Proof.
  intros H.
  pose proof (str_of_N_all (fun c => negb (Ascii.eqb c "-")) n
                (digit_char_cases (fun c => negb (Ascii.eqb c "-")) eq_refl)) as H1.
  pose proof (str_of_N_all (fun c => negb (Ascii.eqb c "+")) n
                (digit_char_cases (fun c => negb (Ascii.eqb c "+")) eq_refl)) as H2.
  rewrite H in H1, H2. cbn in H1, H2.
  apply andb_prop in H1 as [H1 _], H2 as [H2 _]. by rewrite <- !negb_true_iff.
Qed.

(** [int(str(z)) == z] *)
Lemma int_of_str_of_Z z : int_of_str (str_of_Z z) = Some z.
Proof.
  unfold int_of_str. rewrite strip_id by apply str_of_Z_no_space.
  unfold str_of_Z. destruct (z <? 0) eqn:Hz.
  - apply Z.ltb_lt in Hz.
    change (Z.opp <$> int_digits false 0 (str_of_N (Z.to_N (- z))) = Some z).
    rewrite int_digits_str_of_N. cbn. f_equal. lia.
  - apply Z.ltb_ge in Hz.
    destruct (str_of_N (Z.to_N z)) as [|c r] eqn:Hs; [by apply str_of_N_nonempty in Hs|].
    destruct (str_of_N_head _ _ _ Hs) as [-> ->].
    rewrite <- Hs, int_digits_str_of_N. f_equal. lia.
Qed.

(** ** [split] and [join] *)

Definition no_char (c : ascii) (s : string) : bool :=
  all_chars (fun a => negb (Ascii.eqb a c)) s.

Lemma split_on_no_char c s : no_char c s = true -> split_on c s = [s].
Proof.
  unfold no_char. induction s as [|a s IH]; [done|]. cbn.
  intros [Ha Hs]%andb_prop. apply negb_true_iff in Ha. by rewrite Ha, IH.
Qed.

Lemma split_on_app c s t :
  no_char c s = true -> split_on c (s +:+ String c t) = s :: split_on c t.
Proof.
  unfold no_char. induction s as [|a s IH].
  { intros _. change ("" +:+ String c t) with (String c t). cbn [split_on].
    by rewrite Ascii.eqb_refl. }
  cbn [all_chars]. intros [Ha Hs]%andb_prop. apply negb_true_iff in Ha.
  change (String a s +:+ String c t) with (String a (s +:+ String c t)).
  cbn [split_on]. by rewrite Ha, IH.
Qed.

(** Splitting a joined record gives the fields back. *)
Lemma split_on_join c parts :
  parts <> [] -> forallb (no_char c) parts = true ->
  split_on c (join (String c "") parts) = parts.
Proof.
  induction parts as [|p parts IH]; [done|]. intros _ H. cbn in H.
  apply andb_prop in H as [Hp Hps]. destruct parts as [|q parts].
  { by apply split_on_no_char. }
  change (join (String c "") (p :: q :: parts))
    with (p +:+ String c (join (String c "") (q :: parts))).
  rewrite split_on_app by done. by rewrite IH.
Qed.

Lemma str_of_Z_chars p z :
  forallb (fun k => p (digit_char (N.of_nat k))) (seq 0 10) = true -> p "-"%char = true ->
  all_chars p (str_of_Z z) = true.
Proof.
  intros Hd Hm. unfold str_of_Z.
  assert (H : forall n, all_chars p (str_of_N n) = true).
  { intros n. apply str_of_N_all. exact (digit_char_cases p Hd). }
  destruct (z <? 0); cbn [all_chars]; [by rewrite Hm, H | apply H].
Qed.

Lemma str_of_Z_no_char c z :
  forallb (fun k => negb (Ascii.eqb (digit_char (N.of_nat k)) c)) (seq 0 10) = true ->
  Ascii.eqb "-" c = false -> no_char c (str_of_Z z) = true.
Proof. intros Hd Hm. apply str_of_Z_chars; [done|by rewrite Hm]. Qed.

Lemma split_on_nonempty c s : split_on c s <> [].
Proof. destruct s as [|a s]; cbn; [done|]. by repeat case_match. Qed.

#[export] Hint Resolve strip_id str_of_Z_no_space split_on_nonempty : morph.
#[export] Hint Rewrite int_of_str_of_Z : morph.

Example int_of_str_ex :
  (int_of_str " +1_000 ", int_of_str "-7", int_of_str "1.5", int_of_str "1__0")
  = (Some 1000, Some (-7), None, None).
Proof. reflexivity. Qed.

Example file_lines_ex : file_lines (String "a" (String "013" (String "010" "b")))
  = ["a"; "b"]%string.
Proof. reflexivity. Qed.

(** ** Concatenation *)

Lemma str_append_assoc a b c : (a +:+ b) +:+ c = a +:+ b +:+ c.
Proof.
  induction a as [|x a IH]; [done|].
  change (String x ((a +:+ b) +:+ c) = String x (a +:+ b +:+ c)). by rewrite IH.
Qed.

Lemma str_length_app a b :
  String.length (a +:+ b) = (String.length a + String.length b)%nat.
Proof.
  induction a as [|x a IH]; [done|].
  change (S (String.length (a +:+ b)) = S (String.length a + String.length b)). by rewrite IH.
Qed.

Lemma append_inj_l s a b : s +:+ a = s +:+ b -> a = b.
Proof. induction s as [|c s IH]; [done|]. intros [= H]. auto. Qed.

Lemma append_inj_r s a b : a +:+ s = b +:+ s -> a = b.
Proof.
  revert b. induction a as [|c a IH]; intros [|d b]; [done| | |].
  - intros H. apply (f_equal String.length) in H. rewrite !str_length_app in H. cbn in H. lia.
  - intros H. apply (f_equal String.length) in H. rewrite !str_length_app in H. cbn in H. lia.
  - intros H. injection H as -> H. f_equal. auto.
Qed.

Lemma str_of_Z_inj a b : str_of_Z a = str_of_Z b -> a = b.
Proof.
  intros H. pose proof (int_of_str_of_Z a) as Ha. rewrite H, int_of_str_of_Z in Ha. congruence.
Qed.

(** ** Lines *)

Definition nl : string := String "010" "".

Lemma strip_no_space s :
  all_chars (fun c => negb (is_space c)) s = true -> strip s = s.
Proof. apply strip_id. Qed.

Lemma all_chars_app p s t : all_chars p (s +:+ t) = all_chars p s && all_chars p t.
Proof.
  induction s as [|c s IH]; [done|].
  change (String c s +:+ t) with (String c (s +:+ t)). cbn. by rewrite IH, andb_assoc.
Qed.

Lemma all_chars_impl (p q : ascii -> bool) s :
  (forall c, p c = true -> q c = true) -> all_chars p s = true -> all_chars q s = true.
Proof.
  intros Hpq. induction s as [|c s IH]; [done|]. cbn.
  intros [Hc Hs]%andb_prop. by rewrite Hpq, IH.
Qed.

Lemma rstrip_by_snoc p s t :
  all_chars (fun c => negb (p c)) t = true -> t <> "" -> rstrip_by p (s +:+ t) = s +:+ t.
Proof.
  intros Ht Hne. induction s as [|c s IH].
  - by apply rstrip_by_id.
  - change (String c s +:+ t) with (String c (s +:+ t)). cbn. rewrite IH.
    destruct (s +:+ t) eqn:Hst; [|done]. destruct s; [by destruct t | done].
Qed.

(** A line that starts with a visible character and ends with a blank-free,
    nonempty part is its own [strip]. *)
Lemma strip_visible c s t :
  is_space c = false -> all_chars (fun c => negb (is_space c)) t = true -> t <> "" ->
  strip (String c s +:+ t) = String c s +:+ t.
Proof.
  intros Hc Ht Hne. unfold strip. rewrite lstrip_by_id by done.
  by apply rstrip_by_snoc.
Qed.

Lemma universal_newlines_no_cr s : no_char "013" (universal_newlines s) = true.
Proof.
  unfold no_char. remember (String.length s) as n eqn:Hn. revert s Hn.
  induction n as [n IH] using lt_wf_ind. intros s ->. destruct s as [|c s]; [done|].
  cbn [universal_newlines]. destruct (Ascii.eqb c "013") eqn:Hc.
  - destruct s as [|d s]; [done|]. cbn [all_chars]. destruct (Ascii.eqb d "010").
    + rewrite (IH (String.length s)); [done|cbn; lia|done].
    + rewrite (IH (String.length (String d s))); [done|cbn; lia|done].
  - cbn [all_chars]. rewrite Hc, (IH (String.length s)); [done|cbn; lia|done].
Qed.

Lemma universal_newlines_id s :
  all_chars (fun c => negb (Ascii.eqb c "013")) s = true -> universal_newlines s = s.
Proof.
  induction s as [|c s IH]; [done|]. cbn. intros [Hc Hs]%andb_prop.
  apply negb_true_iff in Hc. by rewrite Hc, IH.
Qed.

Lemma file_lines_join ls l :
  forallb (fun s => no_char "010" s && no_char "013" s) (ls ++ [l]) = true ->
  l <> "" -> file_lines (join nl (ls ++ [l])) = ls ++ [l].
Proof.
  intros H Hl. unfold file_lines.
  assert (Hcr : all_chars (fun c => negb (Ascii.eqb c "013")) (join nl (ls ++ [l])) = true).
  { clear Hl. induction ls as [|a ls IH]; cbn in *.
    - rewrite !andb_true_iff in H. tauto.
    - rewrite !andb_true_iff in H. destruct H as [[_ Ha] Hls]. specialize (IH Hls).
      destruct (ls ++ [l]) as [|b bs] eqn:Hb; [by destruct ls|].
      rewrite !all_chars_app. unfold no_char in Ha. rewrite Ha. cbn. exact IH. }
  rewrite universal_newlines_id by done.
  assert (Hs : split_on "010" (join nl (ls ++ [l])) = ls ++ [l]).
  { apply (split_on_join "010"); [by destruct ls|].
    rewrite forallb_forall in *. intros x Hx. specialize (H x Hx).
    by apply andb_prop in H as [? _]. }
  destruct (join nl (ls ++ [l])) as [|c r].
  - exfalso. cbn in Hs. destruct ls as [|a ls]; cbn in *; [by simplify_eq|].
    simplify_eq. by destruct ls.
  - rewrite Hs, last_snoc. by destruct l.
Qed.

Lemma all_chars_and (p q : ascii -> bool) s :
  all_chars (fun c => p c && q c) s = all_chars p s && all_chars q s.
Proof.
  induction s as [|c s IH]; [done|]. cbn. rewrite IH.
  by destruct (p c), (q c), (all_chars p s), (all_chars q s).
Qed.

(** A text of terminated lines *)
Definition terminated (ls : list string) : string :=
  foldr (fun l acc => l +:+ nl +:+ acc) "" ls.

Lemma terminated_join ls : terminated ls = join nl (ls ++ [""]).
Proof.
  induction ls as [|l ls IH]; [done|]. cbn [terminated foldr app join].
  destruct (ls ++ [""]) as [|b bs] eqn:Hb; [by destruct ls|].
  unfold terminated in IH. by rewrite IH.
Qed.

Lemma file_lines_terminated ls :
  forallb (fun s => no_char "010" s && no_char "013" s) ls = true ->
  file_lines (terminated ls) = ls.
Proof.
  intros H. rewrite terminated_join. unfold file_lines.
  assert (Hcr : all_chars (fun c => negb (Ascii.eqb c "013")) (join nl (ls ++ [""])) = true).
  { induction ls as [|a ls IH]; [done|]. cbn in *. rewrite !andb_true_iff in H.
    destruct H as [[_ Ha] Hls]. specialize (IH Hls).
    destruct (ls ++ [""]) as [|b bs] eqn:Hb; [by destruct ls|].
    rewrite !all_chars_app. unfold no_char in Ha. rewrite Ha. cbn. exact IH. }
  rewrite universal_newlines_id by done.
  assert (Hs : split_on "010" (join nl (ls ++ [""])) = ls ++ [""]).
  { apply (split_on_join "010"); [by destruct ls|]. rewrite forallb_app. cbn.
    rewrite andb_true_r. rewrite forallb_forall in *. intros x Hx. specialize (H x Hx).
    by apply andb_prop in H as [? _]. }
  destruct (join nl (ls ++ [""])) as [|c r].
  - cbn in Hs. destruct ls as [|a ls]; [done|]. cbn in Hs. simplify_eq. by destruct ls.
  - rewrite Hs, last_snoc, length_app. cbn [length].
    replace (length ls + 1 - 1)%nat with (length ls) by lia. by rewrite take_app_length.
Qed.

(** Strings are ordered, and so are sorted lists of them. *)
Lemma leb_trans x y z : String.leb x y = true -> String.leb y z = true -> String.leb x z = true.
Proof.
  intros Hxy Hyz. apply Is_true_eq_true. eapply (transitivity (R := String.le));
    unfold String.le; by apply Is_true_eq_left.
Qed.

Lemma sort_strings_sorted l :
  StronglySorted (fun x y => String.leb x y = true) (sort_by String.leb l).
Proof. apply sort_by_sorted; [apply String.leb_total|apply leb_trans]. Qed.

(** ** The longest prefix of a character class, as the patterns of [re] take it *)

Fixpoint take_by (p : ascii -> bool) (s : string) : string :=
  match s with
  | EmptyString => EmptyString
  | String c s => if p c then String c (take_by p s) else EmptyString
  end.

Lemma str_cons_app c s t : String c s +:+ t = String c (s +:+ t).
Proof. done. Qed.

Lemma take_by_app p s t :
  all_chars p s = true -> take_by p t = "" -> take_by p (s +:+ t) = s.
Proof.
  intros Hs Ht. induction s as [|c s IH]; [exact Ht|]. rewrite str_cons_app. cbn in Hs |- *.
  apply andb_prop in Hs as [Hc Hs]. rewrite Hc. f_equal. by apply IH.
Qed.

Lemma lstrip_by_app p s t : all_chars p s = true -> lstrip_by p (s +:+ t) = lstrip_by p t.
Proof.
  induction s as [|c s IH]; [done|]. rewrite str_cons_app. cbn [all_chars lstrip_by].
  intros [Hc Hs]%andb_prop. rewrite Hc. auto.
Qed.

Lemma str_of_Z_digits n :
  0 <= n -> exists c s, str_of_Z n = String c s /\ is_digit c = true /\ all_chars is_digit s = true.
Proof.
  intros Hn. unfold str_of_Z. rewrite (proj2 (Z.ltb_ge n 0)) by lia.
  assert (H : all_chars is_digit (str_of_N (Z.to_N n)) = true)
    by (apply str_of_N_all, digit_char_cases; by vm_compute).
  pose proof (str_of_N_nonempty (Z.to_N n)) as Hne. replace (Z.abs_N n) with (Z.to_N n) in * by lia.
  destruct (str_of_N (Z.to_N n)) as [|c s]; [done|]. exists c, s. split; [done|].
  cbn in H. by apply andb_prop in H.
Qed.
