(* ===== verification/PyFloat.v ===== *)
(** * Python floats

    A Python [float] is an IEEE 754 binary64 number with rounding to nearest,
    ties to even.  The operations are those of the Standard Library's
    [SpecFloat], at precision 53 and maximal exponent 1024, so they compute the
    bits CPython computes; conversions from integers and from decimal text are
    correctly rounded, as CPython's are.  NaN payloads are not modelled. *)

From Corelib Require Export SpecFloat.
From Stdlib Require Import Ascii.
From S2P Require Import Prelude PyStr.

Definition float : Type := spec_float.

Definition prec : Z := 53.
Definition emax : Z := 1024.

Definition fzero : float := S754_zero false.
Definition finf : float := S754_infinity false.
Definition fnan : float := S754_nan.

Definition fopp (x : float) : float := SFopp x.
Definition fadd (x y : float) : float := SFadd prec emax x y.
Definition fsub (x y : float) : float := SFsub prec emax x y.
Definition fmul (x y : float) : float := SFmul prec emax x y.

(** [x / y]: a zero divisor raises, even for [nan / 0.0]. *)
Definition fdiv (x y : float) : outcome float :=
  match y with
  | S754_zero _ => Raise (ZeroDivisionError "float division by zero")
  | _ => Ret (SFdiv prec emax x y)
  end.

Definition flt (x y : float) : bool := SFltb x y.
Definition fle (x y : float) : bool := SFleb x y.
Definition feqb (x y : float) : bool := SFeqb x y.

(** [max(x, y)] and [min(x, y)]: the first argument unless the second is
    strictly better. *)
Definition fmax (x y : float) : float := if flt x y then y else x.
Definition fmin (x y : float) : float := if flt y x then y else x.

(** [max(l)] *)
Definition fmax_list (l : list float) : option float :=
  match l with [] => None | x :: l => Some (foldl fmax x l) end.

(** [abs(x)] *)
Definition fabs (x : float) : float := SFabs x.

Definition is_nan (x : float) : bool :=
  match x with S754_nan => true | _ => false end.

(** The truth value of a float: only the zeros are false. *)
Definition ftruthy (x : float) : bool :=
  match x with S754_zero _ => false | _ => true end.

(** ** Conversions *)

(** The binary64 number nearest to [m * 2 ^ e] *)
Definition f_norm (m e : Z) : float := binary_normalize prec emax m e false.

(** [float(z)] without the overflow check *)
Definition f_of_Z (z : Z) : float := f_norm z 0.

(** [float(z)] *)
Definition float_of_int (z : Z) : outcome float :=
  match f_of_Z z with
  | S754_infinity _ => Raise (OverflowError "int too large to convert to float")
  | x => Ret x
  end.

(** The binary64 number nearest to the quotient of two positive integers *)
Definition f_quot_pos (s : bool) (a b : positive) : float :=
  let '(mz, ez, lz) := SFdiv_core_binary prec emax (Zpos a) 0 (Zpos b) 0 in
  binary_round_aux prec emax s mz ez lz.

(** [a / b] on integers, correctly rounded; a quotient above every float raises. *)
Definition int_truediv (a b : Z) : outcome float :=
  let check x := match x with
                 | S754_infinity _ =>
                     Raise (OverflowError "integer division result too large for a float")
                 | _ => Ret x
                 end in
  match a, b with
  | _, Z0 => Raise (ZeroDivisionError "division by zero")
  | Z0, _ => Ret fzero
  | Zpos a, Zpos b => check (f_quot_pos false a b)
  | Zneg a, Zneg b => check (f_quot_pos false a b)
  | Zpos a, Zneg b => check (f_quot_pos true a b)
  | Zneg a, Zpos b => check (f_quot_pos true a b)
  end.

(** The literal [m * 10 ^ (-k)] *)
Definition f_lit (m : Z) (k : nat) : float :=
  match m with
  | Z0 => fzero
  | Zpos p => f_quot_pos false p (10 ^ Pos.of_nat k)
  | Zneg p => f_quot_pos true p (10 ^ Pos.of_nat k)
  end.

(** The absolute value of the integer part of [m * 2 ^ e] *)
Definition trunc_abs (m : positive) (e : Z) : Z :=
  if 0 <=? e then Zpos m * 2 ^ e else Zpos m / 2 ^ (- e).

(** [int(x)] *)
Definition int_of_float (x : float) : outcome Z :=
  match x with
  | S754_nan => Raise (ValueError "cannot convert float NaN to integer")
  | S754_infinity _ => Raise (OverflowError "cannot convert float infinity to integer")
  | S754_zero _ => Ret 0
  | S754_finite s m e => Ret (if s then - trunc_abs m e else trunc_abs m e)
  end.

(** ** Decimal text *)

Definition pow10 (k : Z) : positive := Z.to_pos (10 ^ k).

(** [float] of [m * 10 ^ e], for a digit string [m] *)
Definition f_of_dec (s : bool) (m e : Z) : float :=
  match m with
  | Zpos p =>
      if 0 <=? e then f_quot_pos s (p * pow10 e) 1 else f_quot_pos s p (pow10 (- e))
  | _ => S754_zero s
  end.

(** A run of digits with single underscores between digits: the value, the
    number of digits and the rest. *)
Fixpoint dec_run (after_digit : bool) (acc n : Z) (s : string) : Z * Z * string :=
  match s with
  | EmptyString => (acc, n, EmptyString)
  | String c r =>
      match digit_val c with
      | Some d => dec_run true (10 * acc + d) (n + 1) r
      | None =>
          match r with
          | String c' _ =>
              if Ascii.eqb c "_" && after_digit && is_digit c'
              then dec_run false acc n r else (acc, n, s)
          | EmptyString => (acc, n, s)
          end
      end
  end.

Definition float_exponent (s : string) : option Z :=
  match s with
  | EmptyString => Some 0
  | String c r =>
      if Ascii.eqb (lower_char c) "e" then
        let '(neg, r) := match r with
                         | String c r' => if Ascii.eqb c "-" then (true, r')
                                          else if Ascii.eqb c "+" then (false, r')
                                          else (false, r)
                         | EmptyString => (false, r)
                         end in
        match dec_run false 0 0 r with
        | (e, n, EmptyString) => if 0 <? n then Some (if neg then - e else e) else None
        | _ => None
        end
      else None
  end.

Definition float_unsigned (neg : bool) (s : string) : option float :=
  let l := lower s in
  if String.eqb l "inf" || String.eqb l "infinity" then Some (S754_infinity neg)
  else if String.eqb l "nan" then Some S754_nan
  else
    let '(ip, ni, r) := dec_run false 0 0 s in
    let '(m, nf, r) := match r with
                       | String "." r' =>
                           let '(m, nf, r'') := dec_run false ip 0 r' in (m, nf, r'')
                       | _ => (ip, 0, r)
                       end in
    if 0 <? ni + nf then
      match float_exponent r with
      | Some e => Some (f_of_dec neg m (e - nf))
      | None => None
      end
    else None.

(** [float(s)]: [None] stands for the [ValueError]. *)
Definition float_of_str (s : string) : option float :=
  match strip s with
  | EmptyString => None
  | String c r =>
      if Ascii.eqb c "-" then float_unsigned true r
      else if Ascii.eqb c "+" then float_unsigned false r
      else float_unsigned false (String c r)
  end.

(** The integer nearest to [a / b], ties to even *)
Definition round_quot (a b : Z) : Z :=
  let q := a / b in
  match Z.compare (2 * (a mod b)) b with
  | Lt => q
  | Gt => q + 1
  | Eq => if Z.even q then q else q + 1
  end.

Fixpoint pad_zeros (n : nat) (s : string) : string :=
  if (String.length s <? n)%nat then
    match n with O => s | S n' => String "0" (pad_zeros n' s) end
  else s.

(** [f"{x:.<d>f}"] *)
Definition fmt_fixed (d : nat) (x : float) : string :=
  let digits (a : Z) :=
    let q := a / 10 ^ Z.of_nat d in
    let r := a mod 10 ^ Z.of_nat d in
    match d with
    | O => str_of_Z q
    | _ => str_of_Z q +:+ "." +:+ pad_zeros d (str_of_Z r)
    end in
  let sign (s : bool) (t : string) := if s then String "-" t else t in
  match x with
  | S754_nan => "nan"
  | S754_infinity s => sign s "inf"
  | S754_zero s => sign s (digits 0)
  | S754_finite s m e =>
      let num := Zpos m * 10 ^ Z.of_nat d in
      sign s (digits (if 0 <=? e then num * 2 ^ e else round_quot num (2 ^ (- e))))
  end.

(** ** Sign lemmas

    [nonneg x]: [x] is a zero, a positive number or [+inf]; not a NaN. *)
Definition nonneg (x : float) : bool :=
  match x with
  | S754_zero _ => true
  | S754_infinity s => negb s
  | S754_nan => false
  | S754_finite s _ _ => negb s
  end.

(** The sign bit is clear and the value is not a NaN. *)
Definition pos_sign (x : float) : bool :=
  match x with
  | S754_zero s => negb s
  | S754_infinity s => negb s
  | S754_nan => false
  | S754_finite s _ _ => negb s
  end.

Lemma pos_sign_nonneg x : pos_sign x = true -> nonneg x = true.
Proof. by destruct x. Qed.

Lemma shr_1_nonneg r : 0 <= shr_m r -> 0 <= shr_m (shr_1 r).
Proof. destruct r as [m b1 b2]. destruct m as [|[p|p|]|p]; cbn; lia. Qed.

Lemma iter_pos_nonneg n r : 0 <= shr_m r -> 0 <= shr_m (SpecFloat.iter_pos shr_1 n r).
Proof.
  revert r. induction n as [n IH|n IH|]; intros r Hr; cbn; auto using shr_1_nonneg.
Qed.

Lemma shr_fexp_nonneg m e l : 0 <= m -> 0 <= shr_m (fst (shr_fexp prec emax m e l)).
Proof.
  intros Hm. unfold shr_fexp, shr.
  assert (H : 0 <= shr_m (shr_record_of_loc m l)) by (by destruct l as [|[]]).
  destruct (fexp prec emax (Zdigits2 m + e) - e); cbn; auto using iter_pos_nonneg.
Qed.

Lemma round_nearest_even_nonneg m l : 0 <= m -> 0 <= round_nearest_even m l.
Proof. destruct l as [|[]]; cbn; try lia. destruct (Z.even m); lia. Qed.

(** Rounding a non-negative mantissa keeps the sign and never gives a NaN. *)
Lemma binary_round_aux_cases s m e l :
  0 <= m ->
  binary_round_aux prec emax s m e l = S754_zero s \/
  binary_round_aux prec emax s m e l = S754_infinity s \/
  exists m' e', binary_round_aux prec emax s m e l = S754_finite s m' e'.
Proof.
  intros Hm. unfold binary_round_aux.
  pose proof (shr_fexp_nonneg m e l Hm) as H1.
  destruct (shr_fexp prec emax m e l) as [r1 e1]. cbn [fst] in H1.
  pose proof (shr_fexp_nonneg (round_nearest_even (shr_m r1) (loc_of_shr_record r1)) e1
                loc_Exact (round_nearest_even_nonneg _ _ H1)) as H2.
  destruct (shr_fexp prec emax _ e1 loc_Exact) as [r2 e2]. cbn [fst] in H2.
  destruct (shr_m r2) as [|p|p]; [by left | | lia].
  destruct (e2 <=? emax - prec); eauto.
Qed.

Lemma binary_round_aux_sign m e l :
  0 <= m -> pos_sign (binary_round_aux prec emax false m e l) = true.
Proof.
  intros Hm. destruct (binary_round_aux_cases false m e l Hm) as [->|[->|(?&?&->)]]; done.
Qed.

Lemma f_norm_sign m e : 0 <= m -> pos_sign (f_norm m e) = true.
Proof.
  intros Hm. unfold f_norm, binary_normalize. destruct m as [|p|p]; [done| |lia].
  unfold binary_round. destruct (shl_align _ _ _) as [mz ez].
  apply binary_round_aux_sign. lia.
Qed.

Lemma f_of_Z_sign z : 0 <= z -> pos_sign (f_of_Z z) = true.
Proof. apply f_norm_sign. Qed.

Lemma fdiv_core_nonneg a ea b eb :
  0 <= fst (fst (SFdiv_core_binary prec emax (Zpos a) ea (Zpos b) eb)).
Proof.
  unfold SFdiv_core_binary.
  set (e' := Z.min _ _). set (s := ea - eb - e').
  set (m' := match s with Z0 => _ | Zpos _ => _ | Zneg _ => _ end).
  assert (Hm : 0 <= m').
  { subst m'. destruct s; [lia| |lia]. apply Z.shiftl_nonneg; lia. }
  pose proof (Z_div_mod m' (Zpos b) ltac:(lia)) as H.
  destruct (Z.div_eucl m' (Zpos b)) as [q r]. cbn. nia.
Qed.

Lemma f_quot_pos_sign a b : pos_sign (f_quot_pos false a b) = true.
Proof.
  unfold f_quot_pos. pose proof (fdiv_core_nonneg a 0 b 0) as H.
  destruct (SFdiv_core_binary _ _ _ _ _ _) as [[q e] l]. by apply binary_round_aux_sign.
Qed.

Lemma int_truediv_sign a b x :
  0 <= a -> 0 < b -> int_truediv a b = Ret x -> pos_sign x = true.
Proof.
  destruct a as [|a|a]; destruct b as [|b|b]; cbn; intros ?? H; simplify_eq; try lia; try done.
  pose proof (f_quot_pos_sign a b). by destruct (f_quot_pos false a b); simplify_eq.
Qed.

Lemma fmul_sign x y :
  pos_sign x = true -> pos_sign y = true -> fmul x y = fnan \/ pos_sign (fmul x y) = true.
Proof.
  destruct x as [sx|sx| |sx mx ex], y as [sy|sy| |sy my ey]; cbn; try done; auto;
    rewrite ?negb_true_iff; intros -> ->; cbn; auto.
  right. apply binary_round_aux_sign. lia.
Qed.

(** A nonnegative finite number divided by a number without sign *)
Lemma fdiv_pos_sign x y z :
  pos_sign x = true -> x <> finf -> pos_sign y = true -> fdiv x y = Ret z ->
  pos_sign z = true.
Proof.
  destruct x as [sx|sx| |sx mx ex], y as [sy|sy| |sy my ey]; cbn; try done;
    rewrite ?negb_true_iff; intros -> Hx -> [= <-]; try done.
  cbn -[SFdiv_core_binary]. pose proof (fdiv_core_nonneg mx ex my ey) as Hq.
  destruct (SFdiv_core_binary prec emax (Z.pos mx) ex (Z.pos my) ey) as [[q e] l].
  by apply binary_round_aux_sign.
Qed.

Lemma float_of_int_sign z x :
  0 <= z -> float_of_int z = Ret x -> pos_sign x = true /\ x <> finf.
Proof.
  intros Hz. pose proof (f_of_Z_sign z Hz) as Hs. unfold float_of_int.
  destruct (f_of_Z z) as [s|s| |s m e]; intros [= <-]; done.
Qed.

Lemma fadd_nonneg x y :
  nonneg x = true -> nonneg y = true -> nonneg (fadd x y) = true.
Proof.
  destruct x as [[]|[]| |[] mx ex], y as [[]|[]| |[] my ey]; cbn; try done.
  intros _ _. apply pos_sign_nonneg.
  destruct (shl_align mx ex _), (shl_align my ey _). apply f_norm_sign. cbn. lia.
Qed.

Lemma trunc_abs_nonneg m e : 0 <= trunc_abs m e.
Proof.
  unfold trunc_abs. destruct (0 <=? e) eqn:He; [apply Z.leb_le in He; nia|].
  apply Z.div_pos; lia.
Qed.

Lemma int_of_float_nonneg x z : nonneg x = true -> int_of_float x = Ret z -> 0 <= z.
Proof.
  destruct x as [s|s| |s m e]; cbn; intros Hs H; simplify_eq; try lia.
  destruct s; [done|]. apply trunc_abs_nonneg.
Qed.

(** [max(0.0, x)] is never negative, and is a number when [x] is. *)
Lemma fmax_zero_nonneg x : nonneg (fmax fzero x) = true.
Proof. unfold fmax, flt, SFltb. by destruct x as [[]|[]| |[] m e]; cbn. Qed.

(** A strictly positive float has a clear sign bit. *)
Lemma flt_zero_pos_sign x : flt fzero x = true -> pos_sign x = true.
Proof. by destruct x as [[]|[]| |[] m e]. Qed.

(** ** Integers are not rounded to zero *)

Lemma digits2_pos_lower p : (2 ^ Zpos (digits2_pos p) <= 2 * Zpos p)%Z.
Proof.
  induction p as [p IH|p IH|]; cbn [digits2_pos]; [| |done];
    rewrite Pos2Z.inj_succ, Z.pow_succ_r by lia; lia.
Qed.

Lemma shr_1_half r : 0 <= shr_m r -> shr_m (shr_1 r) = shr_m r / 2.
Proof.
  destruct r as [m b1 b2]. destruct m as [|[p|p|]|p]; cbn [shr_m shr_1]; intros; try done.
  - rewrite Pos2Z.inj_xI, (Z.add_comm (2 * _)), Z.mul_comm, Z.div_add by lia. done.
  - rewrite Pos2Z.inj_xO, Z.mul_comm, Z.div_mul by lia. done.
Qed.

Lemma iter_shr_1 n r :
  0 <= shr_m r -> shr_m (SpecFloat.iter_pos shr_1 n r) = shr_m r / 2 ^ Zpos n.
Proof.
  revert r. induction n as [n IH|n IH|]; intros r Hr; cbn [SpecFloat.iter_pos].
  - rewrite !IH by auto using iter_pos_nonneg, shr_1_nonneg.
    rewrite shr_1_half, !Z.div_div by lia. f_equal.
    replace (Zpos n~1) with (1 + Zpos n + Zpos n) by lia.
    rewrite !Z.pow_add_r by lia. ring.
  - rewrite !IH by auto using iter_pos_nonneg. rewrite Z.div_div by lia. f_equal.
    replace (Zpos n~0) with (Zpos n + Zpos n) by lia. by rewrite Z.pow_add_r by lia.
  - by apply shr_1_half.
Qed.

(** The least exponent of a float *)
Definition emin : Z := -1074.

Lemma shr_fexp_pos m e l :
  0 < m -> emin <= e ->
  0 < shr_m (fst (shr_fexp prec emax m e l)) /\ emin <= snd (shr_fexp prec emax m e l).
Proof.
  intros Hm He. unfold shr_fexp, shr.
  assert (Hr : shr_m (shr_record_of_loc m l) = m) by (by destruct l as [|[]]).
  assert (Hfexp : fexp prec emax (Zdigits2 m + e) - e <= Z.max (Zdigits2 m - 53) 0).
  { unfold fexp, SpecFloat.emin, emin, prec, emax in *. lia. }
  destruct (fexp prec emax (Zdigits2 m + e) - e) as [|n|n] eqn:Hn; cbn [fst snd];
    rewrite ?Hr; try lia. split; [|lia].
  rewrite iter_shr_1, Hr by (rewrite Hr; lia).
  destruct m as [|p|p]; [lia| |lia]. cbn [Zdigits2] in Hfexp.
  pose proof (digits2_pos_lower p). apply Z.div_str_pos. split; [lia|].
  assert (2 ^ (Zpos n + 1) <= 2 ^ Zpos (digits2_pos p)) by (apply Z.pow_le_mono_r; lia).
  rewrite Z.pow_add_r in * by lia. lia.
Qed.

Lemma round_nearest_even_pos m l : 0 < m -> 0 < round_nearest_even m l.
Proof. destruct l as [|[]]; cbn; try lia. destruct (Z.even m); lia. Qed.

Lemma binary_round_aux_pos m e l :
  0 < m -> emin <= e -> flt fzero (binary_round_aux prec emax false m e l) = true.
Proof.
  intros Hm He. unfold binary_round_aux.
  pose proof (shr_fexp_pos m e l Hm He) as H1.
  destruct (shr_fexp prec emax m e l) as [r1 e1]. destruct H1 as [H1 He1]. cbn [fst snd] in *.
  pose proof (shr_fexp_pos (round_nearest_even (shr_m r1) (loc_of_shr_record r1)) e1 loc_Exact
                (round_nearest_even_pos _ _ H1) He1) as [H2 _].
  destruct (shr_fexp prec emax _ e1 loc_Exact) as [r2 e2]. cbn [fst] in H2.
  destruct (shr_m r2) as [|p|p]; [lia| |lia]. by destruct (e2 <=? emax - prec).
Qed.

Lemma f_of_Z_pos z : 0 < z -> flt fzero (f_of_Z z) = true.
Proof.
  intros Hz. destruct z as [|p|p]; [lia| |lia]. unfold f_of_Z, f_norm, binary_normalize.
  unfold binary_round.
  set (f := fexp prec emax (Zpos (digits2_pos p) + 0)).
  assert (Hf : emin <= f) by (subst f; unfold fexp, SpecFloat.emin, emin, prec, emax; lia).
  destruct (shl_align p 0 f) as [mz ez] eqn:Ha. apply binary_round_aux_pos; [lia|].
  unfold shl_align in Ha. destruct (f - 0) eqn:Hd; simplify_eq; unfold emin in *; lia.
Qed.

Lemma float_of_int_pos z x : 0 < z -> float_of_int z = Ret x -> flt fzero x = true.
Proof.
  intros Hz. pose proof (f_of_Z_pos z Hz) as Hp. unfold float_of_int.
  destruct (f_of_Z z); intros [= <-]; done.
Qed.

(** ** Exact integers

    An integer below 2^53 is a float exactly, and scaling it by a power of two loses
    nothing. *)
Lemma digits2_log2 p : Zpos (digits2_pos p) = Z.log2 (Zpos p) + 1.
Proof.
  induction p as [p IH|p IH|]; cbn [digits2_pos]; [| |done]; rewrite Pos2Z.inj_succ, IH.
  - rewrite Pos2Z.inj_xI, Z.log2_succ_double by lia. lia.
  - rewrite Pos2Z.inj_xO, Z.log2_double by lia. lia.
Qed.

Lemma shr_1_even z : 0 <= z -> shr_1 (Build_shr_record (2 * z) false false)
                              = Build_shr_record z false false.
Proof. by destruct z. Qed.

Lemma iter_shr_exact n z :
  0 <= z ->
  SpecFloat.iter_pos shr_1 n (Build_shr_record (z * 2 ^ Zpos n) false false)
  = Build_shr_record z false false.
Proof.
  revert z. induction n as [n IH|n IH|]; intros z Hz; cbn [SpecFloat.iter_pos].
  - replace (z * 2 ^ Zpos n~1) with (2 * (z * 2 ^ Zpos n * 2 ^ Zpos n))
      by (replace (Zpos n~1) with (1 + Zpos n + Zpos n) by lia; rewrite !Z.pow_add_r by lia; ring).
    rewrite shr_1_even, !IH by nia. done.
  - replace (z * 2 ^ Zpos n~0) with (z * 2 ^ Zpos n * 2 ^ Zpos n)
      by (replace (Zpos n~0) with (Zpos n + Zpos n) by lia; rewrite !Z.pow_add_r by lia; ring).
    by rewrite !IH by nia.
  - rewrite Z.mul_comm. by apply shr_1_even.
Qed.

(** Rounding a 53-bit mantissa followed by [k] zero bits *)
Lemma binary_round_aux_exact m e k :
  Z.log2 (Zpos m) = 52 -> 0 <= k -> emin <= e + k <= 971 ->
  binary_round_aux prec emax false (Zpos m * 2 ^ k) e loc_Exact = S754_finite false m (e + k).
Proof.
  intros Hm Hk He. unfold binary_round_aux.
  assert (Hfexp : forall j f, 0 <= j -> emin <= f + j ->
    fexp prec emax (Zdigits2 (Zpos m * 2 ^ j) + f) - f = j).
  { intros j f Hj Hf. assert (0 < 2 ^ j) by lia.
    destruct (Zpos m * 2 ^ j) as [|q|q] eqn:Hq; [lia| |lia]. cbn [Zdigits2].
    rewrite digits2_log2, <- Hq, Z.log2_mul_pow2, Hm by lia.
    unfold fexp, SpecFloat.emin, emin, prec, emax in *. lia. }
  assert (Hshr : shr_fexp prec emax (Zpos m * 2 ^ k) e loc_Exact
                 = (Build_shr_record (Zpos m) false false, e + k)).
  { unfold shr_fexp, shr. rewrite Hfexp by lia. cbn [shr_record_of_loc].
    destruct k as [|k|k]; [|by rewrite iter_shr_exact|lia]. by rewrite !Z.add_0_r, Z.mul_1_r. }
  rewrite Hshr. cbn [shr_m loc_of_shr_record round_nearest_even].
  assert (Hshr' : shr_fexp prec emax (Zpos m) (e + k) loc_Exact
                  = (Build_shr_record (Zpos m) false false, e + k)).
  { unfold shr_fexp, shr. pose proof (Hfexp 0 (e + k) ltac:(lia) ltac:(lia)) as H.
    rewrite Z.mul_1_r in H. rewrite H. done. }
  rewrite Hshr'. cbn [shr_m]. rewrite (proj2 (Z.leb_le _ _)); [done|].
  unfold emax, prec. lia.
Qed.

(** The float of a positive integer below 2^53, scaled by [2 ^ k] *)
Definition exact_float (p : positive) (k : Z) (x : float) : Prop :=
  exists m, Zpos m = Zpos p * 2 ^ (52 - Z.log2 (Zpos p)) /\
            x = S754_finite false m (Z.log2 (Zpos p) - 52 + k).

Lemma exact_mantissa p m :
  Z.log2 (Zpos p) <= 52 -> Zpos m = Zpos p * 2 ^ (52 - Z.log2 (Zpos p)) ->
  Z.log2 (Zpos m) = 52.
Proof. intros Hp ->. rewrite Z.log2_mul_pow2 by lia. lia. Qed.

Lemma f_quot_pos_exact p :
  Z.log2 (Zpos p) <= 52 -> exact_float p 0 (f_quot_pos false p 1).
Proof.
  intros Hp. pose proof (Z.log2_nonneg (Zpos p)) as H0.
  set (L := Z.log2 (Zpos p)) in *.
  assert (exists m, Zpos m = Zpos p * 2 ^ (52 - L)) as [m Hm].
  { exists (Z.to_pos (Zpos p * 2 ^ (52 - L))). rewrite Z2Pos.id; lia. }
  exists m. fold L. split; [done|]. unfold f_quot_pos, SFdiv_core_binary. cbn [Zdigits2].
  rewrite digits2_log2. fold L. change (Zpos (digits2_pos 1)) with 1.
  assert (Z.min (fexp prec emax (L + 1 + 0 - (1 + 0))) (0 - 0) = L - 53) as ->.
  { unfold fexp, SpecFloat.emin, prec, emax. lia. }
  replace (0 - 0 - (L - 53)) with (53 - L) by lia.
  assert (Hsh : match 53 - L with Z0 => Zpos p | Zpos _ => Z.shiftl (Zpos p) (53 - L)
                | Zneg _ => 0 end = Zpos m * 2 ^ 1).
  { destruct (53 - L) eqn:Hs; try lia. rewrite <- Hs, Z.shiftl_mul_pow2, Hm by lia.
    replace (53 - L) with (52 - L + 1) by lia. rewrite Z.pow_add_r by lia. ring. }
  rewrite Hsh. pose proof (Z_div_mod (Zpos m * 2 ^ 1) 1 ltac:(lia)) as Hd.
  destruct (Z.div_eucl (Zpos m * 2 ^ 1) 1) as [q r]. destruct Hd as [Hq Hr].
  assert (r = 0) as -> by lia. rewrite Z.mul_1_l, Z.add_0_r in Hq. subst q.
  change (new_location 1 0) with loc_Exact.
  rewrite binary_round_aux_exact; [f_equal; lia|by eapply exact_mantissa|lia|unfold emin; lia].
Qed.

Lemma iter_xO m d : Zpos (Pos.iter xO m d) = Zpos m * 2 ^ Zpos d.
Proof.
  induction d as [|d IH] using Pos.peano_ind; [cbn; lia|].
  rewrite Pos.iter_succ, Pos2Z.inj_succ, Z.pow_succ_r, Pos2Z.inj_xO, IH by lia. ring.
Qed.

(** [float(z)] *)
Lemma f_of_Z_exact p : Z.log2 (Zpos p) <= 52 -> exact_float p 0 (f_of_Z (Zpos p)).
Proof.
  intros Hp. pose proof (Z.log2_nonneg (Zpos p)) as H0.
  unfold f_of_Z, f_norm, binary_normalize, binary_round.
  rewrite digits2_log2. set (L := Z.log2 (Zpos p)) in *.
  assert (fexp prec emax (L + 1 + 0) = L - 52) as ->.
  { unfold fexp, SpecFloat.emin, prec, emax. lia. }
  assert (exists m, shl_align p 0 (L - 52) = (m, L - 52) /\ Zpos m = Zpos p * 2 ^ (52 - L))
    as (m & -> & Hm).
  { unfold shl_align. rewrite Z.sub_0_r. destruct (L - 52) as [|d|d] eqn:Hd; [|lia|].
    - exists p. replace (52 - L) with 0 by lia. by rewrite Z.mul_1_r.
    - exists (Pos.iter xO p d). rewrite iter_xO. split; [done|]. do 2 f_equal. lia. }
  exists m. fold L. split; [done|].
  replace (Zpos m) with (Zpos m * 2 ^ 0) by lia.
  rewrite binary_round_aux_exact; [f_equal; lia|by eapply exact_mantissa|lia|unfold emin; lia].
Qed.

(** [float(text)] of an integer's digits *)
Lemma f_of_dec_exact p : Z.log2 (Zpos p) <= 52 -> exact_float p 0 (f_of_dec false (Zpos p) 0).
Proof.
  intros Hp. unfold f_of_dec. cbn [Z.leb Z.compare]. change (pow10 0) with 1%positive.
  rewrite Pos.mul_1_r. by apply f_quot_pos_exact.
Qed.

(** Multiplying by a power of two *)
Lemma fmul_pow2_exact p k j x :
  Z.log2 (Zpos p) <= 52 -> 0 <= k + j <= 900 -> exact_float p k x ->
  exact_float p (k + j) (fmul x (S754_finite false 4503599627370496 (j - 52))).
Proof.
  intros Hp Hkj (m & Hm & ->). pose proof (Z.log2_nonneg (Zpos p)).
  exists m. split; [done|]. unfold fmul. cbn [SFmul xorb].
  assert (Zpos (m * 4503599627370496) = Zpos m * 2 ^ 52) as -> by lia.
  rewrite binary_round_aux_exact; [f_equal; lia|by eapply exact_mantissa|lia|unfold emin; lia].
Qed.

(** Truncating an exact float *)
Lemma int_of_float_exact p k x :
  Z.log2 (Zpos p) <= 52 -> 0 <= k -> exact_float p k x ->
  int_of_float x = Ret (Zpos p * 2 ^ k).
Proof.
  intros Hp Hk (m & Hm & ->). cbn [int_of_float]. f_equal. unfold trunc_abs. rewrite Hm.
  set (L := Z.log2 (Zpos p)) in *. destruct (Z.leb_spec 0 (L - 52 + k)).
  - rewrite <- Z.mul_assoc, <- Z.pow_add_r by lia. do 2 f_equal. lia.
  - replace (52 - L) with (k + - (L - 52 + k)) by lia. rewrite Z.pow_add_r, Z.mul_assoc by lia.
    apply Z.div_mul. lia.
Qed.

(** ** Results that stay finite *)
Definition is_finite (x : float) : bool :=
  match x with S754_zero _ | S754_finite _ _ _ => true | _ => false end.

(** A mantissa of at most 53 bits *)
Definition mantissa_ok (x : float) : Prop :=
  match x with S754_finite _ m _ => Zpos m < 2 ^ 53 | _ => True end.

Lemma log2_lt_digits m k : 0 <= m -> Zdigits2 m <= k -> m < 2 ^ k.
Proof.
  destruct m as [|p|p]; intros Hm; cbn [Zdigits2]; [intros; lia| |lia].
  rewrite digits2_log2. intros Hk. apply Z.log2_lt_pow2; lia.
Qed.

Lemma digits_le_log2 m k : 0 <= m -> 0 <= k -> m < 2 ^ k -> Zdigits2 m <= k.
Proof.
  destruct m as [|p|p]; intros Hm Hk; cbn [Zdigits2]; [lia| |lia].
  rewrite digits2_log2. intros Hlt. apply Z.log2_lt_pow2 in Hlt; lia.
Qed.

(** What one normalisation step does to the mantissa and the exponent *)
Lemma shr_fexp_bound m e l :
  0 <= m ->
  0 <= shr_m (fst (shr_fexp prec emax m e l)) < 2 ^ 53 /\
  snd (shr_fexp prec emax m e l) <= Z.max e (Z.max (Zdigits2 m + e - 53) emin).
Proof.
  intros Hm. unfold shr_fexp, shr.
  assert (Hr : shr_m (shr_record_of_loc m l) = m) by (by destruct l as [|[]]).
  assert (Hfexp : fexp prec emax (Zdigits2 m + e) = Z.max (Zdigits2 m + e - 53) emin) by done.
  rewrite Hfexp. set (f := Z.max (Zdigits2 m + e - 53) emin).
  assert (Hsmall : f - e <= 0 -> m < 2 ^ 53).
  { intros Hf. apply log2_lt_digits; [done|]. unfold f in Hf. lia. }
  destruct (f - e) as [|n|n] eqn:Hn; cbn [fst snd]; rewrite ?Hr; try (split; [|lia]; split; [done|]; apply Hsmall; lia).
  rewrite iter_shr_1, Hr by (rewrite Hr; lia). split; [|lia].
  assert (0 < 2 ^ Zpos n) by lia. split; [apply Z.div_pos; lia|].
  apply Z.div_lt_upper_bound; [done|]. rewrite <- Z.pow_add_r by lia.
  apply log2_lt_digits; [done|]. unfold f in Hn. lia.
Qed.

Lemma round_nearest_even_le m l : round_nearest_even m l <= m + 1.
Proof. destruct l as [|[]]; cbn; try lia. destruct (Z.even m); lia. Qed.

(** Rounding gives a 53-bit mantissa, and does not overflow below [2 ^ 900]. *)
Lemma binary_round_aux_bound s m e l :
  0 <= m -> mantissa_ok (binary_round_aux prec emax s m e l) /\
  (Zdigits2 m + e <= 900 -> e <= 900 -> is_finite (binary_round_aux prec emax s m e l) = true).
Proof.
  intros Hm. unfold binary_round_aux.
  pose proof (shr_fexp_bound m e l Hm) as [H1 He1].
  destruct (shr_fexp prec emax m e l) as [r1 e1]. cbn [fst snd] in *.
  set (m1 := round_nearest_even (shr_m r1) (loc_of_shr_record r1)).
  assert (Hm1 : 0 <= m1) by (apply round_nearest_even_nonneg; lia).
  assert (Hm1' : m1 < 2 ^ 54).
  { pose proof (round_nearest_even_le (shr_m r1) (loc_of_shr_record r1)). fold m1 in H. lia. }
  pose proof (shr_fexp_bound m1 e1 loc_Exact Hm1) as [H2 He2].
  destruct (shr_fexp prec emax m1 e1 loc_Exact) as [r2 e2]. cbn [fst snd] in *.
  assert (Zdigits2 m1 <= 54) by (apply digits_le_log2; lia).
  destruct (shr_m r2) as [|p|p]; [done| |lia].
  split; [destruct (e2 <=? emax - prec); [cbn; lia|done]|].
  intros Hd He. rewrite (proj2 (Z.leb_le _ _)); [done|]. unfold emax, prec, emin in *. lia.
Qed.

Lemma fmul_finite s1 m1 e1 s2 m2 e2 :
  Zpos m1 < 2 ^ 53 -> Zpos m2 < 2 ^ 53 -> e1 + e2 <= 700 ->
  is_finite (fmul (S754_finite s1 m1 e1) (S754_finite s2 m2 e2)) = true.
Proof.
  intros H1 H2 He. unfold fmul. cbn [SFmul]. apply binary_round_aux_bound; [lia| |lia].
  assert (Zdigits2 (Zpos (m1 * m2)) <= 106); [|lia].
  apply digits_le_log2; [lia|lia|]. rewrite Pos2Z.inj_mul.
  replace (2 ^ 106) with (2 ^ 53 * 2 ^ 53) by reflexivity. nia.
Qed.

(** A quotient below one *)
Lemma f_quot_pos_below_one a b :
  (a < b)%positive ->
  is_finite (f_quot_pos false a b) = true /\ mantissa_ok (f_quot_pos false a b).
Proof.
  intros Hab. unfold f_quot_pos. unfold SFdiv_core_binary.
  set (e' := Z.min _ _). assert (He' : e' <= 0) by (subst e'; lia).
  replace (0 - 0 - e') with (- e') by lia.
  set (m' := match - e' with Z0 => _ | Zpos _ => _ | Zneg _ => _ end).
  assert (Hm' : m' = Zpos a * 2 ^ (- e')).
  { subst m'. destruct (- e') eqn:Hs; [lia| |lia]. by rewrite Z.shiftl_mul_pow2. }
  pose proof (Z_div_mod m' (Zpos b) ltac:(lia)) as Hd.
  destruct (Z.div_eucl m' (Zpos b)) as [q r]. destruct Hd as [Hq Hr].
  assert (0 < 2 ^ (- e')) by lia.
  assert (Hq0 : 0 <= q) by nia. assert (Hq1 : q < 2 ^ (- e')) by nia.
  assert (Zdigits2 q <= - e') by (apply digits_le_log2; lia).
  destruct (binary_round_aux_bound false q e' (new_location (Zpos b) r) Hq0) as [Hok Hfin].
  split; [apply Hfin; lia|done].
Qed.

Lemma int_truediv_below_one a b :
  0 <= a < b -> exists x, int_truediv a b = Ret x /\ is_finite x = true /\ mantissa_ok x /\
                          pos_sign x = true.
Proof.
  intros Hab. destruct b as [|b|b]; [lia| |lia]. destruct a as [|a|a]; [by exists fzero| |lia].
  cbn [int_truediv]. destruct (f_quot_pos_below_one a b ltac:(lia)) as [Hf Hm].
  pose proof (f_quot_pos_sign a b).
  exists (f_quot_pos false a b). by destruct (f_quot_pos false a b).
Qed.

(** [int(x)] of a finite float *)
Lemma int_of_float_finite x : is_finite x = true -> exists z, int_of_float x = Ret z.
Proof. destruct x; try done; eauto. Qed.

(** ** Floats that are not below zero

    Weaker than [nonneg]: a NaN and a negative zero pass. *)
Definition not_neg (x : float) : bool := negb (flt x fzero).

Lemma not_neg_cases x : not_neg x = true <-> x = fnan \/ nonneg x = true.
Proof.
  split.
  - destruct x as [[]|[]| |[] m e]; cbn; auto.
  - intros [->|H]; [done|]. by destruct x as [[]|[]| |[] m e].
Qed.

Lemma not_neg_add x y : not_neg x = true -> not_neg y = true -> not_neg (fadd x y) = true.
Proof.
  rewrite !not_neg_cases. intros [->|Hx]; [by left|]. intros [->|Hy].
  { left. by destruct x. }
  right. by apply fadd_nonneg.
Qed.

Lemma binary_round_aux_not_neg s m e l (H : 0 <= m) :
  s = false -> not_neg (binary_round_aux prec emax s m e l) = true.
Proof.
  intros ->. apply not_neg_cases. right. apply pos_sign_nonneg.
  by apply binary_round_aux_sign.
Qed.

Lemma not_neg_mul x y : not_neg x = true -> not_neg y = true -> not_neg (fmul x y) = true.
Proof.
  destruct x as [[]|[]| |[] mx ex], y as [[]|[]| |[] my ey]; try done; intros _ _.
  by apply binary_round_aux_not_neg.
Qed.

Lemma not_neg_div x y z :
  not_neg x = true -> flt fzero y = true -> fdiv x y = Ret z -> not_neg z = true.
Proof.
  destruct x as [[]|[]| |[] mx ex], y as [[]|[]| |[] my ey]; cbn -[SFdiv_core_binary];
    try done; intros _ _ [= <-]; try done.
  pose proof (fdiv_core_nonneg mx ex my ey) as Hq.
  destruct (SFdiv_core_binary prec emax (Z.pos mx) ex (Z.pos my) ey) as [[q e] l].
  by apply binary_round_aux_not_neg.
Qed.

(** A positive divisor never raises. *)
Lemma fdiv_pos x y : flt fzero y = true -> is_ret (fdiv x y) = true.
Proof. by destruct y. Qed.

Lemma not_neg_max x y : not_neg x = true -> not_neg y = true -> not_neg (fmax x y) = true.
Proof. unfold fmax. by destruct (flt x y). Qed.

(** [max(x, 0.0)] *)
Lemma not_neg_clamp x : not_neg (fmax x fzero) = true.
Proof. unfold fmax. destruct (flt x fzero) eqn:H; [done|]. unfold not_neg. by rewrite H. Qed.

Lemma not_neg_of_int z x : 0 <= z -> float_of_int z = Ret x -> not_neg x = true.
Proof.
  intros Hz Hx. apply not_neg_cases. right. apply pos_sign_nonneg.
  by apply (float_of_int_sign z).
Qed.

(** ** The order of floats *)

Lemma flt_spec x y : flt x y = true <-> SFcompare x y = Some Lt.
Proof. unfold flt, SFltb. destruct (SFcompare x y) as [[]|]; split; congruence. Qed.

(** Exponents first, then mantissas *)
Lemma compare_lex_lt ex ey mx my :
  match (ex ?= ey)%Z with Lt => Lt | Gt => Gt | Eq => Pos.compare_cont Eq mx my end = Lt <->
  ex < ey \/ ex = ey /\ (mx < my)%positive.
Proof.
  change (Pos.compare_cont Eq mx my) with (Pos.compare mx my).
  destruct (Z.compare_spec ex ey) as [->|H|H]; [|split; auto|split; [done|lia]].
  rewrite Pos.compare_lt_iff. split; [auto|]. intros [?|[_ ?]]; [lia|done].
Qed.

Lemma compare_lex_gt ex ey mx my :
  match (ex ?= ey)%Z with Lt => Gt | Gt => Lt | Eq => CompOpp (Pos.compare_cont Eq mx my) end
    = Lt <-> ey < ex \/ ex = ey /\ (my < mx)%positive.
Proof.
  change (Pos.compare_cont Eq mx my) with (Pos.compare mx my).
  destruct (Z.compare_spec ex ey) as [->|H|H]; [|split; [done|lia]|split; auto].
  rewrite <- Pos.compare_antisym, Pos.compare_lt_iff. split; [auto|]. intros [?|[_ ?]]; [lia|done].
Qed.

Lemma flt_trans x y z : flt x y = true -> flt y z = true -> flt x z = true.
Proof.
  rewrite !flt_spec.
  destruct x as [[]|[]| |[] mx ex], y as [[]|[]| |[] my ey], z as [[]|[]| |[] mz ez];
    unfold SFcompare; try done; try (intros [=]; fail);
    intros [= H1] [= H2]; f_equal; revert H1 H2;
    rewrite ?compare_lex_lt, ?compare_lex_gt; lia.
Qed.

Lemma flt_exponent m e m' e' :
  flt (S754_finite false m e) (S754_finite false m' e') = true -> e <= e'.
Proof.
  rewrite flt_spec. unfold SFcompare. intros [= H]. apply compare_lex_lt in H. lia.
Qed.

(** ** Exact cases of addition and subtraction *)

Lemma fadd_zero_r x : pos_sign x = true -> fadd x fzero = x.
Proof. by destruct x as [[]|[]| |[] m e]. Qed.

Lemma fadd_zero_l x : pos_sign x = true -> fadd fzero x = x.
Proof. by destruct x as [[]|[]| |[] m e]. Qed.

Lemma fsub_diag s m e : fsub (S754_finite s m e) (S754_finite s m e) = fzero.
Proof.
  unfold fsub, SFsub. destruct (shl_align m e (Z.min e e)) as [a b]. cbn [fst].
  by rewrite Z.sub_diag.
Qed.

Lemma flt_irrefl x : flt x x = false.
Proof.
  destruct x as [[]|[]| |[] m e]; try done; unfold flt, SFltb; cbn;
    rewrite Z.compare_refl; change (Pos.compare_cont Eq m m) with (Pos.compare m m);
    by rewrite Pos.compare_refl.
Qed.

#[export] Hint Resolve pos_sign_nonneg f_of_Z_sign fadd_nonneg fmax_zero_nonneg
  flt_zero_pos_sign int_of_float_nonneg trunc_abs_nonneg
  not_neg_add not_neg_mul not_neg_max not_neg_clamp : morph.

(** Values CPython gives *)
Example float_ex :
  fmt_fixed 1 (f_of_dec false 1 (-1)) = "0.1" /\
  float_of_str "0.1" = Some (S754_finite false 7205759403792794 (-56)) /\
  fadd (f_lit 1 1) (f_lit 2 1) = S754_finite false 5404319552844596 (-54) /\
  fmt_fixed 2 (f_lit 2675 3) = "2.67" /\
  float_of_str "1e3" = Some (f_of_Z 1000) /\
  float_of_str " 1_0.5 " = Some (f_lit 105 1) /\
  float_of_str "." = None /\
  int_truediv 1 3 = Ret (S754_finite false 6004799503160661 (-54)) /\
  fmt_fixed 5 (f_lit 9765625 6) = "9.76562".
Proof. by vm_compute. Qed.
