(* ===== verification/FloatOrder.v ===== *)
(** * The values of floats

    A finite float is an integer multiple of the least positive float; [fval] is that
    integer.  On canonical floats (the ones the operations produce) the order of floats
    is the order of values, and rounding is monotone: an operation whose exact result
    lies below (above) a float gives a float below (above) it.  An exact result that is
    a float is given exactly. *)

From S2P Require Import Prelude PyFloat.

(** The value, in units of [2 ^ emin] *)
Definition fval (x : float) : Z :=
  match x with
  | S754_finite s m e => (if s then -1 else 1) * Zpos m * 2 ^ (e - emin)
  | _ => 0
  end.

(** One, as a value *)
Definition one : Z := 2 ^ 1074.

Lemma one_pos : 0 < one.
Proof. done. Qed.

Definition canonical_me (m e : Z) : Prop :=
  emin <= e <= 971 /\ m < 2 ^ 53 /\ (2 ^ 52 <= m \/ e = emin).

Definition canonical (x : float) : Prop :=
  match x with S754_finite _ m e => canonical_me (Zpos m) e | _ => True end.

(** A finite canonical float *)
Definition fin (x : float) : Prop := is_finite x = true /\ canonical x.

(** ** The order *)

Lemma pow_split a b : 0 <= a <= b -> 2 ^ b = 2 ^ a * 2 ^ (b - a).
Proof. intros H. rewrite <- Z.pow_add_r by lia. f_equal. lia. Qed.

Lemma pow_pos a : 0 <= a -> 0 < 2 ^ a.
Proof. lia. Qed.

(** A larger exponent is a larger value. *)
Lemma canonical_exp_lt m e m' e' :
  canonical_me m e -> canonical_me m' e' -> e < e' -> m * 2 ^ (e - emin) < m' * 2 ^ (e' - emin).
Proof.
  intros (He & Hm & _) (He' & Hm' & [H|H]) Hlt; [|lia].
  rewrite (pow_split (e - emin) (e' - emin)) by lia.
  pose proof (pow_pos (e - emin) ltac:(lia)) as Hp.
  assert (2 ^ 1 <= 2 ^ (e' - emin - (e - emin))) by (apply Z.pow_le_mono_r; lia).
  set (q := 2 ^ (e' - emin - (e - emin))) in *. set (p := 2 ^ (e - emin)) in *.
  assert (m < m' * q) by nia. nia.
Qed.

(** Values compare as exponents, then mantissas. *)
Lemma value_lex m e m' e' :
  canonical_me m e -> canonical_me m' e' ->
  m * 2 ^ (e - emin) < m' * 2 ^ (e' - emin) <-> e < e' \/ e = e' /\ m < m'.
Proof.
  intros H H'. pose proof (canonical_exp_lt m e m' e' H H').
  pose proof (canonical_exp_lt m' e' m e H' H).
  destruct (Z.lt_trichotomy e e') as [?|[<-|?]]; [lia| |lia].
  pose proof (pow_pos (e - emin) ltac:(destruct H; lia)). nia.
Qed.

Lemma fval_pos m e : emin <= e -> 0 < fval (S754_finite false m e).
Proof. intros He. cbn [fval]. pose proof (pow_pos (e - emin) ltac:(lia)). nia. Qed.

Lemma flt_fval x y : fin x -> fin y -> flt x y = true <-> fval x < fval y.
Proof.
  intros [Hfx Hx] [Hfy Hy]. rewrite flt_spec.
  destruct x as [sx| | |[] mx ex]; try done; destruct y as [sy| | |[] my ey]; try done;
    cbn [canonical] in *; unfold SFcompare;
    repeat match goal with
      | H : canonical_me (Zpos ?m) ?e |- _ =>
          lazymatch goal with
          | _ : 0 < fval (S754_finite false m e) |- _ => fail
          | _ => pose proof (fval_pos m e ltac:(destruct H; lia))
          end
      end; cbn [fval] in *; try (split; [intros [=]|]; cbn; lia); try (split; [|done]; cbn; lia).
  - rewrite (inj_iff Some), compare_lex_gt. pose proof (value_lex _ _ _ _ Hy Hx). cbn in *. lia.
  - rewrite (inj_iff Some), compare_lex_lt. pose proof (value_lex _ _ _ _ Hx Hy). cbn in *. lia.
Qed.

Lemma fle_flt x y : is_nan x = false -> is_nan y = false -> fle x y = negb (flt y x).
Proof.
  unfold fle, flt, SFleb, SFltb.
  destruct x as [[]|[]| |[] mx ex], y as [[]|[]| |[] my ey]; try done; intros _ _; cbn;
    rewrite (Z.compare_antisym ex ey); change (Pos.compare_cont Eq mx my) with (Pos.compare mx my);
    change (Pos.compare_cont Eq my mx) with (Pos.compare my mx);
    rewrite (Pos.compare_antisym mx my);
    by destruct (ex ?= ey), (mx ?= my)%positive.
Qed.

Lemma fin_not_nan x : fin x -> is_nan x = false.
Proof. intros [H _]. by destruct x. Qed.

Lemma fle_fval x y : fin x -> fin y -> fle x y = true <-> fval x <= fval y.
Proof.
  intros Hx Hy. rewrite fle_flt by auto using fin_not_nan.
  rewrite negb_true_iff, <- not_true_iff_false, flt_fval by done. lia.
Qed.

(** Truncation divides by one. *)
Lemma trunc_fval m e : emin <= e -> trunc_abs m e = Zpos m * 2 ^ (e - emin) / one.
Proof.
  intros He. unfold trunc_abs, one. destruct (Z.leb_spec 0 e).
  - replace (e - emin) with (e + 1074) by (unfold emin; lia).
    rewrite Z.pow_add_r, Z.mul_assoc, Z.div_mul by lia. done.
  - replace 1074 with (- e + (e - emin)) by (unfold emin in *; lia).
    rewrite Z.pow_add_r by (unfold emin in *; lia). by rewrite Z.div_mul_cancel_r by lia.
Qed.

Lemma int_of_float_fval x : fin x -> 0 <= fval x -> int_of_float x = Ret (fval x / one).
Proof.
  intros [Hf Hc] H0. destruct x as [s| | |s m e]; try done.
  destruct Hc as [He _]. pose proof (pow_pos (e - emin) ltac:(lia)).
  destruct s; cbn [fval] in *; [nia|]. cbn [int_of_float]. f_equal.
  by rewrite trunc_fval, Z.mul_1_l by lia.
Qed.

(** ** Rounding

    [located num den q l]: the location [l] of the rational [num / den] above the
    integer [q]. *)
Definition located (num den q : Z) (l : location) : Prop :=
  0 < den /\
  match l with
  | loc_Exact => num = q * den
  | loc_Inexact Lt => q * den < num /\ 2 * num < (2 * q + 1) * den
  | loc_Inexact Eq => 2 * num = (2 * q + 1) * den
  | loc_Inexact Gt => (2 * q + 1) * den < 2 * num /\ num < (q + 1) * den
  end.

Lemma located_bounds num den q l : located num den q l -> q * den <= num < (q + 1) * den.
Proof. intros [Hd Hl]. destruct l as [|[]]; nia. Qed.

Lemma located_shr_1 num den r :
  0 <= shr_m r -> located num den (shr_m r) (loc_of_shr_record r) ->
  located num (2 * den) (shr_m (shr_1 r)) (loc_of_shr_record (shr_1 r)).
Proof.
  destruct r as [m r s]. cbn [shr_m]. intros Hm [Hd Hl]. split; [lia|].
  destruct m as [|[p|p|]|p]; [| | | |lia]; destruct r, s; cbn in *; nia.
Qed.

Lemma located_iter n num den r :
  0 <= shr_m r -> located num den (shr_m r) (loc_of_shr_record r) ->
  located num (2 ^ Zpos n * den) (shr_m (SpecFloat.iter_pos shr_1 n r))
    (loc_of_shr_record (SpecFloat.iter_pos shr_1 n r)).
Proof.
  revert den r. induction n as [n IH|n IH|]; intros den r Hr Hl; cbn [SpecFloat.iter_pos].
  - replace (2 ^ Zpos n~1 * den) with (2 ^ Zpos n * (2 ^ Zpos n * (2 * den))).
    + apply IH; [auto using iter_pos_nonneg, shr_1_nonneg|].
      apply IH; [auto using shr_1_nonneg|]. by apply located_shr_1.
    + replace (Zpos n~1) with (1 + Zpos n + Zpos n) by lia. rewrite !Z.pow_add_r by lia. ring.
  - replace (2 ^ Zpos n~0 * den) with (2 ^ Zpos n * (2 ^ Zpos n * den)).
    + apply IH; [auto using iter_pos_nonneg|]. by apply IH.
    + replace (Zpos n~0) with (Zpos n + Zpos n) by lia. rewrite !Z.pow_add_r by lia. ring.
  - by apply located_shr_1.
Qed.

Lemma loc_of_record m l : loc_of_shr_record (shr_record_of_loc m l) = l.
Proof. by destruct l as [|[]]. Qed.

Lemma shr_m_record m l : shr_m (shr_record_of_loc m l) = m.
Proof. by destruct l as [|[]]. Qed.

(** One normalisation step, when the mantissa is long enough or the exponent least *)
Lemma shr_fexp_located num den m e l r e' :
  0 <= m -> located num den m l -> 53 <= Zdigits2 m \/ e <= emin ->
  shr_fexp prec emax m e l = (r, e') ->
  e <= e' /\ emin <= e' /\ 0 <= shr_m r < 2 ^ 53 /\ (2 ^ 52 <= shr_m r \/ e' = emin) /\
  located num (2 ^ (e' - e) * den) (shr_m r) (loc_of_shr_record r).
Proof.
  intros Hm Hl Hdig. pose proof (shr_fexp_bound m e l Hm) as [Hb _].
  unfold shr_fexp, shr in *.
  assert (Hfexp : fexp prec emax (Zdigits2 m + e) = Z.max (Zdigits2 m + e - 53) emin) by done.
  rewrite Hfexp in *. set (f := Z.max (Zdigits2 m + e - 53) emin) in *.
  assert (Hfe : e <= f) by lia.
  assert (Hlow : f = emin \/ 2 ^ (Zdigits2 m - 1) <= m).
  { destruct m as [|p|p]; [left; cbn in *; lia| |lia]. right. cbn [Zdigits2].
    pose proof (digits2_pos_lower p). rewrite Z.pow_sub_r by lia.
    apply Z.div_le_upper_bound; lia. }
  destruct (f - e) as [|n|n] eqn:Hn; [| |lia]; cbn [fst snd] in Hb; intros [= <- <-].
  - rewrite shr_m_record, loc_of_record, Z.sub_diag, Z.mul_1_l in *.
    split_and!; [lia|lia|lia|lia| |done].
    destruct Hlow as [Hlow|Hlow]; [right; lia|].
    destruct (decide (e = emin)) as [|Hne]; [by right|left].
    assert (2 ^ 52 <= 2 ^ (Zdigits2 m - 1)) by (apply Z.pow_le_mono_r; lia). lia.
  - replace (e + Zpos n - e) with (Zpos n) by lia.
    split_and!; [lia|lia|lia|lia| |].
    + destruct Hlow as [Hlow|Hlow]; [right; lia|].
      destruct (decide (f = emin)) as [|Hne]; [right; lia|left].
      rewrite iter_shr_1, shr_m_record by (rewrite shr_m_record; lia).
      apply Z.div_le_lower_bound; [lia|]. etrans; [|apply Hlow].
      rewrite <- Z.pow_add_r by lia. apply Z.pow_le_mono_r; lia.
    + apply located_iter; rewrite ?shr_m_record, ?loc_of_record; [lia|done].
Qed.

(** Rounding to even stays on the side of every integer. *)
Lemma rne_le num den q l y :
  located num den q l -> num <= y * den -> round_nearest_even q l <= y.
Proof.
  intros [Hd Hl] Hy. destruct l as [|[]]; cbn; try nia. destruct (Z.even q); nia.
Qed.

Lemma rne_ge num den q l y :
  located num den q l -> y * den <= num -> y <= round_nearest_even q l.
Proof.
  intros Hl Hy. pose proof (located_bounds _ _ _ _ Hl) as Hb. destruct Hl as [Hd _].
  assert (y <= q) by nia. destruct l as [|[]]; cbn; try lia. destruct (Z.even q); lia.
Qed.

(** What rounding gives: an integer [M] of the exponent's units, as a zero, a canonical
    float or an infinity *)
Definition rounded_to (x : float) (v : Z) : Prop :=
  match x with
  | S754_zero false => v = 0
  | S754_finite false m e => canonical_me (Zpos m) e /\ fval x = v
  | S754_infinity false => one * 2 ^ 1024 <= v
  | _ => False
  end.

Lemma round_aux_spec num den m e l :
  0 <= m -> located num den m l -> 53 <= Zdigits2 m \/ e <= emin ->
  exists q e1 l1, e <= e1 /\ emin <= e1 /\ 0 <= q < 2 ^ 53 /\ (2 ^ 52 <= q \/ e1 = emin) /\
    located num (2 ^ (e1 - e) * den) q l1 /\
    rounded_to (binary_round_aux prec emax false m e l)
      (round_nearest_even q l1 * 2 ^ (e1 - emin)).
Proof.
  intros Hm Hl Hd. unfold binary_round_aux.
  destruct (shr_fexp prec emax m e l) as [r1 e1] eqn:H1.
  destruct (shr_fexp_located _ _ _ _ _ _ _ Hm Hl Hd H1) as (He1 & Hmin & Hq & Hbig & Hloc).
  exists (shr_m r1), e1, (loc_of_shr_record r1). split; [done|]. split; [done|]. split; [done|]. split; [done|].
  split; [done|].
  set (M := round_nearest_even (shr_m r1) (loc_of_shr_record r1)).
  assert (HM0 : shr_m r1 <= M).
  { eapply rne_ge; [exact Hloc|]. apply (located_bounds _ _ _ _ Hloc). }
  assert (HM1 : M <= 2 ^ 53).
  { pose proof (round_nearest_even_le (shr_m r1) (loc_of_shr_record r1)). fold M in H. lia. }
  assert (HMd : 53 <= Zdigits2 M \/ e1 <= emin).
  { destruct Hbig as [Hbig| ->]; [left|by right]. destruct (decide (53 <= Zdigits2 M)); [done|].
    pose proof (log2_lt_digits M 52 ltac:(lia) ltac:(lia)). lia. }
  destruct (shr_fexp prec emax M e1 loc_Exact) as [r2 e2] eqn:H2.
  assert (HMl : located M 1 M loc_Exact) by (split; lia).
  assert (HMn : 0 <= M) by lia.
  destruct (shr_fexp_located _ _ _ _ _ _ _ HMn HMl HMd H2) as (He2 & Hmin2 & Hq2 & Hbig2 & Hloc2).
  assert (Hval : shr_m r2 * 2 ^ (e2 - emin) = M * 2 ^ (e1 - emin)).
  { rewrite (pow_split (e1 - emin) (e2 - emin)) by lia.
    replace (e2 - emin - (e1 - emin)) with (e2 - e1) by lia.
    destruct Hloc2 as [_ Hloc2]. revert H2. unfold shr_fexp, shr.
    assert (fexp prec emax (Zdigits2 M + e1) = Z.max (Zdigits2 M + e1 - 53) emin) as -> by done.
    assert (Zdigits2 M <= 54) by (apply digits_le_log2; lia).
    clear Hloc2. set (f := Z.max _ _).
    assert (Hf : f - e1 <= 1) by (unfold f; lia).
    destruct (f - e1) as [|n|n] eqn:Hn; intros [= <- <-]; cbn [shr_m shr_record_of_loc].
    - rewrite Z.sub_diag. lia.
    - (* one bit more: the mantissa is [2 ^ 53] *)
      assert (n = 1%positive) as -> by lia.
      assert (HM : M = 2 ^ 53).
      2:{ cbn [SpecFloat.iter_pos]. rewrite shr_1_half by done. cbn [shr_m].
          rewrite HM. replace (e1 + 1 - e1) with 1 by lia. change (2 ^ 53 / 2) with (2 ^ 52). lia. }
      apply Z.le_antisymm; [done|]. assert (Hd54 : Zdigits2 M = 54) by (unfold f in Hn; lia).
      destruct M as [|p|p]; [done| |lia]. cbn [Zdigits2] in Hd54.
      pose proof (digits2_pos_lower p) as Hlow. rewrite Hd54 in Hlow. lia.
    - rewrite Z.sub_diag. lia. }
  destruct (shr_m r2) as [|p|p] eqn:Hp; [cbn; lia| |lia].
  destruct (Z.leb_spec e2 (emax - prec)) as [He|He]; cbn [rounded_to].
  - split; [split_and!; [done|exact He|lia|lia]|]. cbn [fval]. lia.
  - rewrite <- Hval. unfold emax, prec in He. destruct Hbig2 as [Hbig2| ->]; [|unfold emin in He; lia].
    assert (2 ^ 2046 <= 2 ^ (e2 - emin)) by (apply Z.pow_le_mono_r; unfold emin; lia).
    replace (one * 2 ^ 1024) with (2 ^ 52 * 2 ^ 2046) by reflexivity. nia.
Qed.

(** *** Rounding is monotone

    [num / den * 2 ^ e] is compared with a float in units of [2 ^ -2148]. *)
Definition exact_le (num den e : Z) (y : float) : Prop :=
  num * 2 ^ (e + 2148) <= fval y * den * one.
Definition exact_ge (num den e : Z) (y : float) : Prop :=
  fval y * den * one <= num * 2 ^ (e + 2148).

(** Non-negative finite floats *)
Definition pfin (x : float) : Prop := fin x /\ pos_sign x = true.

Lemma pfin_cases x :
  pfin x -> x = fzero \/ exists m e, x = S754_finite false m e /\ canonical_me (Zpos m) e.
Proof. intros [[Hf Hc] Hs]. destruct x as [[]| | |[] m e]; try done; eauto. Qed.

(** The same as a test, for literals *)
Definition pfinb (x : float) : bool :=
  match x with
  | S754_zero s => negb s
  | S754_finite s m e =>
      negb s && (emin <=? e) && (e <=? 971) && (Zpos m <? 2 ^ 53)
      && ((2 ^ 52 <=? Zpos m) || (e =? emin))
  | _ => false
  end.

Lemma pfinb_pfin x : pfinb x = true -> pfin x.
Proof.
  destruct x as [[]| | |[] m e]; try done; cbn [pfinb negb andb]; intros H.
  assert (canonical_me (Zpos m) e); [unfold canonical_me; lia|]. by repeat split; apply H0.
Qed.

Lemma pfin_fval x : pfin x -> 0 <= fval x.
Proof.
  intros [->|(m & e & -> & He & _)]%pfin_cases; [done|].
  pose proof (fval_pos m e ltac:(lia)). lia.
Qed.

Lemma mul_le_cancel a b c : 0 < c -> a * c <= b * c -> a <= b.
Proof. nia. Qed.

(** The units of [fval] *)
Lemma fval_units m e :
  emin <= e -> fval (S754_finite false m e) * one = Zpos m * 2 ^ (e + 2148).
Proof.
  intros He. cbn [fval]. unfold one. rewrite Z.mul_1_l, <- Z.mul_assoc, <- Z.pow_add_r
    by (unfold emin in *; lia). do 2 f_equal. unfold emin. lia.
Qed.

Section monotone.
Context (num den m e : Z) (l : location).
Context (Hm : 0 <= m) (Hl : located num den m l) (Hd : 53 <= Zdigits2 m \/ e <= emin)
  (He : -2148 <= e).

Let x : float := binary_round_aux prec emax false m e l.

Lemma den_pos : 0 < den.
Proof using Hl. apply Hl. Qed.

(** A float with a larger exponent is an integer of the result's units. *)
Lemma units_of my ey e1 :
  e <= e1 -> emin <= e1 -> e1 <= ey ->
  fval (S754_finite false my ey) * den * one
  = (Zpos my * 2 ^ (ey - e1) * (2 ^ (e1 - e) * den)) * 2 ^ (e + 2148).
Proof using He.
  intros H1 H2 H3. rewrite (Z.mul_comm _ den), <- Z.mul_assoc, fval_units by lia.
  replace (ey + 2148) with ((ey - e1) + (e1 - e) + (e + 2148)) by lia.
  rewrite !Z.pow_add_r by lia. ring.
Qed.

Lemma round_le y : pfin y -> exact_le num den e y -> pfin x /\ fval x <= fval y.
Proof using All.
  intros Hy Hle. unfold exact_le in Hle. pose proof den_pos as Hden.
  destruct (round_aux_spec num den m e l Hm Hl Hd)
    as (q & e1 & l1 & He1 & Hmin & Hq & Hbig & Hloc & Hr).
  fold x in Hr. pose proof (pow_pos (e + 2148) ltac:(lia)) as Hp.
  pose proof (pow_pos (e1 - emin) ltac:(lia)) as Hp1.
  assert (HM : round_nearest_even q l1 * 2 ^ (e1 - emin) <= fval y).
  { destruct (pfin_cases y Hy) as [->|(my & ey & -> & Hcy)].
    { assert (round_nearest_even q l1 <= 0) by (eapply rne_le; [exact Hloc|]; cbn in Hle; nia).
      cbn [fval fzero]. nia. }
    destruct (Z.le_gt_cases e1 ey) as [Hey|Hey].
    - rewrite (units_of my ey e1) in Hle by lia. apply mul_le_cancel in Hle; [|done].
      assert (round_nearest_even q l1 <= Zpos my * 2 ^ (ey - e1)) by by eapply rne_le.
      cbn [fval]. rewrite (pow_split (e1 - emin) (ey - emin)) by lia.
      replace (ey - emin - (e1 - emin)) with (ey - e1) by lia. nia.
    - exfalso. destruct Hcy as (Hcy1 & Hcy2 & _). destruct Hbig as [Hbig|Hbig]; [|lia].
      pose proof (located_bounds _ _ _ _ Hloc) as [Hn _].
      rewrite (Z.mul_comm _ den), <- Z.mul_assoc, fval_units in Hle by lia.
      assert (-1074 <= ey) by (unfold emin in *; lia).
      assert (Hey' : 2 ^ (e1 - e) * 2 ^ (e + 2148) = 2 ^ (e1 - ey) * 2 ^ (ey + 2148))
        by (rewrite <- !Z.pow_add_r by lia; f_equal; lia).
      assert (2 ^ 1 <= 2 ^ (e1 - ey)) by (apply Z.pow_le_mono_r; lia).
      pose proof (pow_pos (ey + 2148) ltac:(lia)).
      assert (q * (2 ^ (e1 - e) * den) * 2 ^ (e + 2148) <= den * (Zpos my * 2 ^ (ey + 2148)))
        as Hq' by nia.
      replace (q * (2 ^ (e1 - e) * den) * 2 ^ (e + 2148))
        with (den * (q * (2 ^ (e1 - e) * 2 ^ (e + 2148)))) in Hq' by ring.
      rewrite Hey' in Hq'. apply Z.mul_le_mono_pos_l in Hq'; [|done].
      assert (q * 2 ^ (e1 - ey) <= Zpos my) by nia. nia. }
  destruct x as [[]|[]| |[] mx ex]; cbn [rounded_to] in Hr; try done.
  - split; [done|]. apply pfin_fval in Hy. done.
  - exfalso. apply pfin_cases in Hy as [->|(my & ey & -> & Hcy1 & Hcy2 & _)].
    { cbn in HM. assert (0 < one * 2 ^ 1024) by done. lia. }
    cbn [fval] in HM.
    assert (2 ^ (ey - emin) <= 2 ^ (971 - emin)) by (apply Z.pow_le_mono_r; lia).
    assert (one * 2 ^ 1024 = 2 ^ 53 * 2 ^ (971 - emin)) as Hone by reflexivity. nia.
  - destruct Hr as [Hc Hv]. split; [by repeat split; apply Hc|]. by rewrite Hv.
Qed.

Lemma round_ge y :
  pfin y -> exact_ge num den e y -> x = S754_infinity false \/ pfin x /\ fval y <= fval x.
Proof using All.
  intros Hy Hge. unfold exact_ge in Hge. pose proof den_pos as Hden.
  destruct (round_aux_spec num den m e l Hm Hl Hd)
    as (q & e1 & l1 & He1 & Hmin & Hq & Hbig & Hloc & Hr).
  fold x in Hr. pose proof (pow_pos (e + 2148) ltac:(lia)) as Hp.
  pose proof (pow_pos (e1 - emin) ltac:(lia)) as Hp1.
  pose proof (located_bounds _ _ _ _ Hloc) as Hb.
  assert (HqM : q <= round_nearest_even q l1) by (eapply rne_ge; [exact Hloc|lia]).
  assert (HM : fval y <= round_nearest_even q l1 * 2 ^ (e1 - emin)).
  { destruct (pfin_cases y Hy) as [->|(my & ey & -> & Hcy)]; [cbn [fval fzero]; nia|].
    destruct (Z.le_gt_cases e1 ey) as [Hey|Hey].
    - rewrite (units_of my ey e1) in Hge by lia. apply mul_le_cancel in Hge; [|done].
      assert (Zpos my * 2 ^ (ey - e1) <= round_nearest_even q l1) by by eapply rne_ge.
      cbn [fval]. rewrite (pow_split (e1 - emin) (ey - emin)) by lia.
      replace (ey - emin - (e1 - emin)) with (ey - e1) by lia. nia.
    - destruct Hcy as (Hcy1 & Hcy2 & _). destruct Hbig as [Hbig|Hbig]; [|lia]. cbn [fval].
      rewrite (pow_split (ey - emin) (e1 - emin)) by lia.
      replace (e1 - emin - (ey - emin)) with (e1 - ey) by lia.
      assert (2 ^ 1 <= 2 ^ (e1 - ey)) by (apply Z.pow_le_mono_r; lia).
      pose proof (pow_pos (ey - emin) ltac:(lia)).
      set (p := 2 ^ (ey - emin)) in *. set (r := 2 ^ (e1 - ey)) in *.
      assert (Zpos my <= round_nearest_even q l1 * r) by nia. nia. }
  destruct x as [[]|[]| |[] mx ex]; cbn [rounded_to] in Hr; try done; [right|by left|right].
  - split; [done|]. cbn [fval]. lia.
  - destruct Hr as [Hc Hv]. split; [by repeat split; apply Hc|]. by rewrite Hv.
Qed.
End monotone.

(** ** The operations *)

Lemma digits_mul a b : Zdigits2 (Zpos a) <= Zdigits2 (Zpos (a * b)).
Proof.
  cbn [Zdigits2]. rewrite !digits2_log2. rewrite Pos2Z.inj_mul.
  assert (Z.log2 (Zpos a) <= Z.log2 (Zpos a * Zpos b)) by (apply Z.log2_le_mono; nia). lia.
Qed.

Lemma canonical_digits m e :
  canonical_me (Zpos m) e -> e = emin \/ 53 <= Zdigits2 (Zpos m).
Proof.
  intros (He & Hm & [H|H]); [right|by left]. destruct (decide (53 <= Zdigits2 (Zpos m))); [done|].
  pose proof (log2_lt_digits (Zpos m) 52 ltac:(lia) ltac:(lia)). lia.
Qed.

Lemma located_exact m : located m 1 m loc_Exact.
Proof. split; lia. Qed.

Lemma fval_mul mx ex my ey :
  emin <= ex -> emin <= ey ->
  fval (S754_finite false mx ex) * fval (S754_finite false my ey)
  = Zpos (mx * my) * 2 ^ (ex + ey + 2148).
Proof.
  intros Hx Hy. cbn [fval]. rewrite Pos2Z.inj_mul.
  replace (ex + ey + 2148) with ((ex - emin) + (ey - emin)) by (unfold emin; lia).
  rewrite Z.pow_add_r by lia. ring.
Qed.

Lemma fmul_round mx ex my ey :
  canonical_me (Zpos mx) ex -> canonical_me (Zpos my) ey ->
  (53 <= Zdigits2 (Zpos (mx * my)) \/ ex + ey <= emin) /\ -2148 <= ex + ey.
Proof.
  intros Hx Hy. split; [|destruct Hx, Hy; unfold emin in *; lia].
  destruct (canonical_digits _ _ Hx) as [->|Hdx].
  - destruct (canonical_digits _ _ Hy) as [->|Hdy]; [right; unfold emin; lia|left].
    rewrite Pos.mul_comm. etrans; [exact Hdy|apply digits_mul].
  - left. etrans; [exact Hdx|apply digits_mul].
Qed.

Lemma fmul_le x y z :
  pfin x -> pfin y -> pfin z -> fval x * fval y <= fval z * one ->
  pfin (fmul x y) /\ fval (fmul x y) <= fval z.
Proof.
  intros Hx Hy Hz Hle. pose proof (pfin_fval z Hz).
  apply pfin_cases in Hx as [->|(mx & ex & -> & Hcx)].
  { by apply pfin_cases in Hy as [->|(my & ey & -> & Hcy)]. }
  apply pfin_cases in Hy as [->|(my & ey & -> & Hcy)]; [done|].
  destruct (fmul_round _ _ _ _ Hcx Hcy) as [Hd He]. unfold fmul. cbn [SFmul xorb].
  eapply round_le; [|apply located_exact|done|done|done|]; [lia|].
  unfold exact_le. rewrite fval_mul in Hle by (destruct Hcx, Hcy; lia). lia.
Qed.

Lemma fmul_ge x y z :
  pfin x -> pfin y -> pfin z -> fval z * one <= fval x * fval y ->
  fmul x y = S754_infinity false \/ pfin (fmul x y) /\ fval z <= fval (fmul x y).
Proof.
  intros Hx Hy Hz Hle. pose proof (pfin_fval z Hz). pose proof one_pos.
  apply pfin_cases in Hx as [->|(mx & ex & -> & Hcx)].
  { right. cbn [fval fzero] in Hle.
    apply pfin_cases in Hy as [->|(my & ey & -> & Hcy)]; (split; [done|]); cbn; nia. }
  apply pfin_cases in Hy as [->|(my & ey & -> & Hcy)].
  { right. cbn [fval fzero] in Hle. split; [done|]. cbn. nia. }
  destruct (fmul_round _ _ _ _ Hcx Hcy) as [Hd He]. unfold fmul. cbn [SFmul xorb].
  eapply round_ge; [|apply located_exact|done|done|done|]; [lia|].
  unfold exact_ge. rewrite fval_mul in Hle by (destruct Hcx, Hcy; lia). lia.
Qed.

(** Aligning a mantissa *)
Lemma shl_align_spec m e e' :
  let '(m', e1) := shl_align m e e' in
  e1 = Z.min e e' /\ Zpos m' = Zpos m * 2 ^ (e - e1).
Proof.
  unfold shl_align. destruct (e' - e) as [|d|d] eqn:Hd.
  - split; [lia|]. rewrite Z.sub_diag. lia.
  - split; [lia|]. rewrite Z.sub_diag. lia.
  - split; [lia|]. rewrite iter_xO. do 2 f_equal. lia.
Qed.

Lemma align_min m e e' :
  e' <= e -> Zpos (fst (shl_align m e e')) = Zpos m * 2 ^ (e - e').
Proof.
  intros He. pose proof (shl_align_spec m e e') as H.
  destruct (shl_align m e e') as [m' e1]. destruct H as [-> H]. cbn [fst].
  by rewrite Z.min_r in H by lia.
Qed.

(** [binary_round] of a mantissa of any length *)
Lemma binary_round_aligned p e :
  emin <= e ->
  exists mz ez, binary_round prec emax false p e
                = binary_round_aux prec emax false (Zpos mz) ez loc_Exact /\
    (53 <= Zdigits2 (Zpos mz) \/ ez <= emin) /\ -2148 <= ez /\
    Zpos mz * 2 ^ (ez + 2148) = Zpos p * 2 ^ (e + 2148) /\ emin <= ez.
Proof.
  intros He. unfold binary_round.
  assert (fexp prec emax (Zpos (digits2_pos p) + e) = Z.max (Zpos (digits2_pos p) + e - 53) emin)
    as -> by done.
  set (f := Z.max _ _). pose proof (shl_align_spec p e f) as H.
  destruct (shl_align p e f) as [mz ez]. destruct H as [Hez Hmz].
  assert (Hez' : emin <= ez) by lia. exists mz, ez. split; [done|].
  split; [|split; [unfold emin in *; lia|]].
  - cbn [Zdigits2]. rewrite digits2_log2, Hmz, Z.log2_mul_pow2 by lia.
    revert Hez. unfold f. rewrite digits2_log2. lia.
  - split; [|done]. rewrite Hmz, <- Z.mul_assoc, <- Z.pow_add_r by (unfold emin in *; lia). do 2 f_equal. lia.
Qed.

Lemma binary_round_le p e z :
  emin <= e -> pfin z -> Zpos p * 2 ^ (e - emin) <= fval z ->
  pfin (binary_round prec emax false p e) /\ fval (binary_round prec emax false p e) <= fval z.
Proof.
  intros He Hz Hle. destruct (binary_round_aligned p e He) as (mz & ez & -> & Hd & Hez & Hv & _).
  eapply round_le; [|apply located_exact|done|done|done|]; [lia|].
  unfold exact_le. rewrite Hv, Z.mul_1_r.
  replace (e + 2148) with (e - emin + 1074) by (unfold emin; lia).
  rewrite Z.pow_add_r by lia. change (2 ^ 1074) with one. pose proof one_pos. nia.
Qed.

Lemma binary_round_ge p e z :
  emin <= e -> pfin z -> fval z <= Zpos p * 2 ^ (e - emin) ->
  binary_round prec emax false p e = S754_infinity false \/
  pfin (binary_round prec emax false p e) /\ fval z <= fval (binary_round prec emax false p e).
Proof.
  intros He Hz Hle. destruct (binary_round_aligned p e He) as (mz & ez & -> & Hd & Hez & Hv & _).
  eapply round_ge; [|apply located_exact|done|done|done|]; [lia|].
  unfold exact_ge. rewrite Hv, Z.mul_1_r.
  replace (e + 2148) with (e - emin + 1074) by (unfold emin; lia).
  rewrite Z.pow_add_r by lia. change (2 ^ 1074) with one. pose proof one_pos. nia.
Qed.

(** The aligned mantissa is the value in the units of the smaller exponent. *)
Lemma align_fval m e e' :
  emin <= e' <= e ->
  Zpos (fst (shl_align m e e')) * 2 ^ (e' - emin) = fval (S754_finite false m e).
Proof.
  intros He. rewrite align_min by lia. cbn [fval].
  rewrite (pow_split (e' - emin) (e - emin)) by lia.
  replace (e - emin - (e' - emin)) with (e - e') by lia. ring.
Qed.

Lemma pfin_zero x : pfin x -> fval x = 0 -> x = fzero.
Proof.
  intros [->|(m & e & -> & Hc)]%pfin_cases H; [done|].
  pose proof (fval_pos m e ltac:(destruct Hc; lia)). lia.
Qed.

(** What [binary_normalize] makes of the sum of two non-negative floats *)
Lemma fadd_shape x y :
  pfin x -> pfin y -> fval x <> 0 -> fval y <> 0 ->
  exists p e, fadd x y = binary_round prec emax false p e /\ emin <= e /\
              Zpos p * 2 ^ (e - emin) = fval x + fval y.
Proof.
  intros Hx Hy. apply pfin_cases in Hx as [->|(mx & ex & -> & Hcx)]; [done|].
  apply pfin_cases in Hy as [->|(my & ey & -> & Hcy)]; [done|]. intros _ _.
  unfold fadd. cbn [SFadd cond_Zopp]. set (ez := Z.min ex ey).
  assert (emin <= ez) by (destruct Hcx, Hcy; lia).
  rewrite <- (align_fval mx ex ez), <- (align_fval my ey ez) by lia.
  rewrite <- Z.mul_add_distr_r. rewrite <- Pos2Z.inj_add. cbn [binary_normalize]. eauto.
Qed.

Lemma fadd_le x y z :
  pfin x -> pfin y -> pfin z -> fval x + fval y <= fval z ->
  pfin (fadd x y) /\ fval (fadd x y) <= fval z.
Proof.
  intros Hx Hy Hz Hle. destruct (decide (fval x = 0)) as [H0|Hx0].
  { rewrite (pfin_zero x Hx H0), fadd_zero_l by apply Hy. split; [done|lia]. }
  destruct (decide (fval y = 0)) as [H0|Hy0].
  { rewrite (pfin_zero y Hy H0), fadd_zero_r by apply Hx. split; [done|lia]. }
  destruct (fadd_shape x y Hx Hy Hx0 Hy0) as (p & e & -> & He & Hv).
  apply binary_round_le; [done|done|lia].
Qed.

Lemma fadd_ge x y z :
  pfin x -> pfin y -> pfin z -> fval z <= fval x + fval y ->
  fadd x y = S754_infinity false \/ pfin (fadd x y) /\ fval z <= fval (fadd x y).
Proof.
  intros Hx Hy Hz Hle. destruct (decide (fval x = 0)) as [H0|Hx0].
  { rewrite (pfin_zero x Hx H0), fadd_zero_l by apply Hy. right. split; [done|lia]. }
  destruct (decide (fval y = 0)) as [H0|Hy0].
  { rewrite (pfin_zero y Hy H0), fadd_zero_r by apply Hx. right. split; [done|lia]. }
  destruct (fadd_shape x y Hx Hy Hx0 Hy0) as (p & e & -> & He & Hv).
  apply binary_round_ge; [done|done|lia].
Qed.

(** Subtracting a smaller float *)
Lemma fsub_shape x y :
  pfin x -> pfin y -> fval y <= fval x ->
  fsub x y = x /\ fval y = 0 \/ fsub x y = fzero /\ fval x = fval y \/
  exists p e, fsub x y = binary_round prec emax false p e /\ emin <= e /\
              Zpos p * 2 ^ (e - emin) = fval x - fval y.
Proof.
  intros Hx Hy Hle. apply pfin_cases in Hy as [->|(my & ey & -> & Hcy)].
  { left. split; [|done]. by apply pfin_cases in Hx as [->|(mx & ex & -> & _)]. }
  pose proof (fval_pos my ey ltac:(destruct Hcy; lia)) as Hpos.
  apply pfin_cases in Hx as [->|(mx & ex & -> & Hcx)]; [cbn [fval fzero] in *; lia|]. right.
  unfold fsub. cbn [SFsub cond_Zopp]. set (ez := Z.min ex ey).
  assert (Hez : emin <= ez) by (destruct Hcx, Hcy; lia).
  revert Hle. rewrite <- (align_fval mx ex ez), <- (align_fval my ey ez) by lia.
  set (a := Zpos (fst (shl_align mx ex ez))). set (b := Zpos (fst (shl_align my ey ez))).
  pose proof (pow_pos (ez - emin) ltac:(lia)) as Hp. intros Hle%mul_le_cancel; [|done].
  destruct (a - b) as [|p|p] eqn:Hab; [left|right|lia].
  - split; [done|]. f_equal. lia.
  - exists p, ez. split; [done|]. split; [done|]. rewrite <- Z.mul_sub_distr_r, Hab. done.
Qed.

Lemma fsub_le x y z :
  pfin x -> pfin y -> pfin z -> fval y <= fval x -> fval x - fval y <= fval z ->
  pfin (fsub x y) /\ fval (fsub x y) <= fval z.
Proof.
  intros Hx Hy Hz Hxy Hle.
  destruct (fsub_shape x y Hx Hy Hxy) as [[-> H0]|[[-> H0]|(p & e & -> & He & Hv)]].
  - split; [done|lia].
  - split; [done|]. cbn [fval fzero]. lia.
  - apply binary_round_le; [done|done|lia].
Qed.

Lemma fsub_ge x y z :
  pfin x -> pfin y -> pfin z -> fval y <= fval x -> fval z <= fval x - fval y ->
  fval z <= fval (fsub x y).
Proof.
  intros Hx Hy Hz Hxy Hle.
  destruct (fsub_le x y x Hx Hy Hx Hxy) as [[[Hfin _] _] _].
  { pose proof (pfin_fval y Hy). lia. }
  destruct (fsub_shape x y Hx Hy Hxy) as [[-> H0]|[[-> H0]|(p & e & Heq & He & Hv)]].
  - lia.
  - cbn [fval fzero]. lia.
  - rewrite Heq in *. destruct (binary_round_ge p e z He Hz ltac:(lia)) as [Hinf|[_ ?]]; [|done].
    by rewrite Hinf in Hfin.
Qed.

(** Canonical values are unique. *)
Lemma fval_inj x y : pfin x -> pfin y -> fval x = fval y -> x = y.
Proof.
  intros Hx Hy. pose proof Hx as Hx'. pose proof Hy as Hy'.
  apply pfin_cases in Hx as [->|(mx & ex & -> & Hcx)].
  { intros H. symmetry. by apply pfin_zero. }
  apply pfin_cases in Hy as [->|(my & ey & -> & Hcy)]; [by apply pfin_zero|].
  cbn [fval]. pose proof (value_lex _ _ _ _ Hcx Hcy). pose proof (value_lex _ _ _ _ Hcy Hcx).
  intros Heq. assert (ex = ey /\ Zpos mx = Zpos my) as [-> [= ->]] by lia. done.
Qed.

(** A product that is a float is exact. *)
Lemma fmul_exact x y z :
  pfin x -> pfin y -> pfin z -> fval x * fval y = fval z * one -> fmul x y = z.
Proof.
  intros Hx Hy Hz Heq. destruct (fmul_le x y z Hx Hy Hz ltac:(lia)) as [Hp Hle].
  apply fval_inj; [done..|]. destruct (fmul_ge x y z Hx Hy Hz ltac:(lia)) as [Hinf|[_ ?]]; [|lia].
  destruct Hp as [[Hf _] _]. by rewrite Hinf in Hf.
Qed.

Lemma fadd_exact x y z :
  pfin x -> pfin y -> pfin z -> fval x + fval y = fval z -> fadd x y = z.
Proof.
  intros Hx Hy Hz Heq. destruct (fadd_le x y z Hx Hy Hz ltac:(lia)) as [Hp Hle].
  apply fval_inj; [done..|]. destruct (fadd_ge x y z Hx Hy Hz ltac:(lia)) as [Hinf|[_ ?]]; [|lia].
  destruct Hp as [[Hf _] _]. by rewrite Hinf in Hf.
Qed.

Lemma fsub_exact x y z :
  pfin x -> pfin y -> pfin z -> fval x - fval y = fval z -> fsub x y = z.
Proof.
  intros Hx Hy Hz Heq. pose proof (pfin_fval z Hz).
  destruct (fsub_le x y z Hx Hy Hz ltac:(lia) ltac:(lia)) as [Hp Hle].
  apply fval_inj; [done..|]. pose proof (fsub_ge x y z Hx Hy Hz ltac:(lia) ltac:(lia)). lia.
Qed.

(** *** Integers *)

Lemma f_of_Z_fval z : 0 <= z < 2 ^ 53 -> pfin (f_of_Z z) /\ fval (f_of_Z z) = z * one.
Proof.
  intros Hz. destruct z as [|p|p]; [done| |lia].
  assert (HL : Z.log2 (Zpos p) <= 52).
  { assert (Z.log2 (Zpos p) < 53); [|lia]. apply Z.log2_lt_pow2; lia. }
  pose proof (Z.log2_nonneg (Zpos p)) as HL0.
  destruct (f_of_Z_exact p HL) as (m & Hm & ->). rewrite Z.add_0_r.
  pose proof (exact_mantissa p m HL Hm) as Hlog.
  pose proof (Z.log2_spec (Zpos m) ltac:(lia)) as [Hlo Hhi]. rewrite Hlog in Hlo, Hhi.
  set (L := Z.log2 (Zpos p)) in *. split.
  - split; [|done]. split; [done|]. split_and!; [unfold emin; lia|lia|exact Hhi|by left].
  - cbn [fval]. rewrite Hm, Z.mul_1_l, <- Z.mul_assoc, <- Z.pow_add_r by (unfold emin; lia).
    unfold one. do 2 f_equal. unfold emin. lia.
Qed.

Lemma float_of_int_fval z : 0 <= z < 2 ^ 53 ->
  exists x, float_of_int z = Ret x /\ pfin x /\ fval x = z * one.
Proof.
  intros Hz. destruct (f_of_Z_fval z Hz) as [Hp Hv]. exists (f_of_Z z). split; [|done].
  unfold float_of_int. destruct Hp as [[Hf _] _]. by destruct (f_of_Z z).
Qed.

(** *** Division *)

Lemma new_location_located den q r :
  0 < den -> 0 <= r < den -> located (q * den + r) den q (new_location den r).
Proof.
  intros Hd Hr. split; [done|]. unfold new_location, new_location_even, new_location_odd.
  destruct (Z.even den) eqn:Hev.
  - destruct (Z.eqb_spec r 0) as [->|H0]; [lia|].
    destruct (Z.compare_spec (2 * r) den); nia.
  - destruct (Z.eqb_spec r 0) as [->|H0]; [lia|].
    destruct (Z.compare_spec (2 * r + 1) den) as [Heq| |]; [nia|nia|].
    assert (2 * r <> den); [|nia]. intros <-. by rewrite Z.even_mul in Hev.
Qed.

(** The quotient of two mantissas *)
Lemma fdiv_shape mx ex my ey :
  emin <= ex <= 971 -> emin <= ey <= 971 ->
  exists num q e l,
    SFdiv_core_binary prec emax (Zpos mx) ex (Zpos my) ey = (q, e, l) /\
    0 <= q /\ located num (Zpos my) q l /\ (53 <= Zdigits2 q \/ e <= emin) /\ -2148 <= e /\
    num * 2 ^ (e + 2148) = Zpos mx * 2 ^ (ex - ey + 2148).
Proof.
  intros Hex Hey. unfold emin in Hex, Hey. unfold SFdiv_core_binary.
  set (dx := Zdigits2 (Zpos mx)). set (dy := Zdigits2 (Zpos my)).
  assert (fexp prec emax (dx + ex - (dy + ey)) = Z.max (dx + ex - (dy + ey) - 53) emin) as -> by done.
  set (e' := Z.min _ _). assert (He' : e' <= ex - ey) by lia.
  set (m' := match ex - ey - e' with Z0 => _ | Zpos _ => _ | Zneg _ => _ end).
  assert (Hm' : m' = Zpos mx * 2 ^ (ex - ey - e')).
  { subst m'. destruct (ex - ey - e') eqn:Hs; [lia| |lia]. by rewrite Z.shiftl_mul_pow2. }
  pose proof (pow_pos (ex - ey - e') ltac:(lia)) as Hpow.
  pose proof (Z_div_mod m' (Zpos my) ltac:(lia)) as Hdm.
  destruct (Z.div_eucl m' (Zpos my)) as [q r]. destruct Hdm as [Hq Hr].
  exists m', q, e', (new_location (Zpos my) r).
  assert (Hq0 : 0 <= q) by nia.
  split_and!; [done|done| | |unfold e', emin; lia|].
  - rewrite Hq, (Z.mul_comm (Zpos my)). apply new_location_located; lia.
  - destruct (Z.le_gt_cases e' emin) as [|He]; [by right|left].
    assert (Hs : 53 + dy - dx <= ex - ey - e') by (unfold e' in *; lia).
    destruct (decide (53 <= Zdigits2 q)) as [|Hdig]; [done|exfalso].
    pose proof (log2_lt_digits q 52 ltac:(lia) ltac:(lia)) as Hq52.
    pose proof (log2_lt_digits (Zpos my) dy ltac:(lia) ltac:(lia)) as Hmy.
    pose proof (digits2_pos_lower mx) as Hmx.
    change (2 ^ dx <= 2 * Zpos mx) in Hmx.
    assert (0 < dx) by (unfold dx; cbn; lia). assert (0 < dy) by (unfold dy; cbn; lia).
    assert (Hbig : 2 ^ (53 + dy) <= 2 * m').
    { rewrite Hm'. replace (53 + dy) with (dx + (53 + dy - dx)) by lia.
      destruct (Z.le_gt_cases 0 (53 + dy - dx)) as [Hge|Hlt].
      - rewrite Z.pow_add_r by lia.
        assert (2 ^ (53 + dy - dx) <= 2 ^ (ex - ey - e')) by (apply Z.pow_le_mono_r; lia).
        pose proof (pow_pos dx ltac:(lia)). nia.
      - assert (2 ^ (dx + (53 + dy - dx)) <= 2 ^ dx) by (apply Z.pow_le_mono_r; lia). nia. }
    rewrite Z.pow_add_r in Hbig by lia. change (2 ^ 53) with (2 * 2 ^ 52) in Hbig.
    pose proof (pow_pos dy ltac:(lia)). set (P := 2 ^ dy) in *.
    assert (m' < 2 ^ 52 * P); [|lia]. nia.
  - rewrite Hm', <- Z.mul_assoc, <- Z.pow_add_r by (unfold e', emin in *; lia). do 2 f_equal. lia.
Qed.

(** The quotient [x / y] is at most (at least) [z]. *)
Lemma quotient_units mx ex ey :
  emin <= ex -> emin <= ey -> -2148 <= ex - ey ->
  Zpos mx * 2 ^ (ex - ey + 2148) * 2 ^ (ey - emin)
  = fval (S754_finite false mx ex) * one * one.
Proof.
  intros Hx Hy He. cbn [fval]. unfold one. rewrite Z.mul_1_l, <- !Z.mul_assoc, <- !Z.pow_add_r
    by (unfold emin in *; lia). do 2 f_equal. unfold emin. lia.
Qed.

Lemma fdiv_le x y z q :
  pfin x -> pfin y -> pfin z -> fdiv x y = Ret q -> fval x * one <= fval z * fval y ->
  pfin q /\ fval q <= fval z.
Proof.
  intros Hx Hy Hz Hq Hle. pose proof (pfin_fval z Hz).
  apply pfin_cases in Hy as [->|(my & ey & -> & Hcy)]; [done|]. cbn [fdiv] in Hq.
  injection Hq as <-. apply pfin_cases in Hx as [->|(mx & ex & -> & Hcx)]; [done|].
  cbn [SFdiv xorb]. destruct (fdiv_shape mx ex my ey (proj1 Hcx) (proj1 Hcy)) as (n & q & e & l & -> & H1 & H2 & H3 & H4 & H5).
  eapply round_le; [exact H1|exact H2|exact H3|exact H4|done|].
  unfold exact_le. rewrite H5. destruct Hcx as [Hex _], Hcy as [Hey _].
  apply (mul_le_cancel _ _ (2 ^ (ey - emin))); [apply pow_pos; lia|].
  rewrite quotient_units by (unfold emin in *; lia). cbn [fval] in Hle |- *. pose proof one_pos. nia.
Qed.

Lemma fdiv_ge x y z q :
  pfin x -> pfin y -> pfin z -> fdiv x y = Ret q -> fval z * fval y <= fval x * one ->
  q = S754_infinity false \/ pfin q /\ fval z <= fval q.
Proof.
  intros Hx Hy Hz Hq Hle. pose proof (pfin_fval z Hz).
  apply pfin_cases in Hy as [->|(my & ey & -> & Hcy)]; [done|]. cbn [fdiv] in Hq.
  pose proof (fval_pos my ey ltac:(destruct Hcy; lia)).
  injection Hq as <-. apply pfin_cases in Hx as [->|(mx & ex & -> & Hcx)].
  { right. split; [done|]. change (fval fzero) with 0 in Hle.
    change (fval z <= 0). set (v := fval (S754_finite false my ey)) in *. nia. }
  cbn [SFdiv xorb]. destruct (fdiv_shape mx ex my ey (proj1 Hcx) (proj1 Hcy)) as (n & q & e & l & -> & H1 & H2 & H3 & H4 & H5).
  eapply round_ge; [exact H1|exact H2|exact H3|exact H4|done|].
  unfold exact_ge. rewrite H5. destruct Hcx as [Hex _], Hcy as [Hey _].
  apply (mul_le_cancel _ _ (2 ^ (ey - emin))); [apply pow_pos; lia|].
  rewrite quotient_units by (unfold emin in *; lia). cbn [fval] in Hle |- *. pose proof one_pos. nia.
Qed.

(** *** The quotient of two integers *)

Lemma f_quot_pos_le a b z :
  pfin z -> Zpos a * one <= fval z * Zpos b ->
  pfin (f_quot_pos false a b) /\ fval (f_quot_pos false a b) <= fval z.
Proof.
  intros Hz Hle. unfold f_quot_pos.
  destruct (fdiv_shape a 0 b 0) as (n & q & e & l & -> & H1 & H2 & H3 & H4 & H5);
    [unfold emin; lia..|].
  eapply round_le; [exact H1|exact H2|exact H3|exact H4|done|].
  unfold exact_le. rewrite H5. change (2 ^ (0 - 0 + 2148)) with (one * one).
  pose proof one_pos. nia.
Qed.

Lemma f_quot_pos_ge a b z :
  pfin z -> fval z * Zpos b <= Zpos a * one ->
  f_quot_pos false a b = S754_infinity false \/
  pfin (f_quot_pos false a b) /\ fval z <= fval (f_quot_pos false a b).
Proof.
  intros Hz Hle. unfold f_quot_pos.
  destruct (fdiv_shape a 0 b 0) as (n & q & e & l & -> & H1 & H2 & H3 & H4 & H5);
    [unfold emin; lia..|].
  eapply round_ge; [exact H1|exact H2|exact H3|exact H4|done|].
  unfold exact_ge. rewrite H5. change (2 ^ (0 - 0 + 2148)) with (one * one).
  pose proof one_pos. nia.
Qed.

(** [a / b], between floats that bound the quotient *)
Lemma int_truediv_between a b lo hi :
  0 <= a -> 0 < b -> pfin lo -> pfin hi ->
  fval lo * b <= a * one -> a * one <= fval hi * b ->
  exists x, int_truediv a b = Ret x /\ pfin x /\ fval lo <= fval x <= fval hi.
Proof.
  intros Ha Hb Hlo Hhi H1 H2. destruct b as [|b|b]; [lia| |lia].
  pose proof (pfin_fval lo Hlo). pose proof (pfin_fval hi Hhi).
  destruct a as [|a|a]; [|cbn [int_truediv]|lia].
  { exists fzero. split; [done|]. split; [done|]. cbn [fval fzero]. nia. }
  destruct (f_quot_pos_le a b hi Hhi H2) as [Hp Hle].
  destruct (f_quot_pos_ge a b lo Hlo H1) as [Hinf|[_ Hge]].
  { destruct Hp as [[Hf _] _]. by rewrite Hinf in Hf. }
  exists (f_quot_pos false a b). split; [|done].
  destruct Hp as [[Hf _] _]. by destruct (f_quot_pos false a b).
Qed.

(** *** Minimum and maximum of finite floats *)

Lemma flt_false x y : fin x -> fin y -> flt x y = false -> fval y <= fval x.
Proof.
  intros Hx Hy Hf. pose proof (flt_fval x y Hx Hy) as H.
  destruct (Z.lt_ge_cases (fval x) (fval y)) as [Hl|]; [|done]. apply H in Hl. congruence.
Qed.

Lemma flt_true x y : fin x -> fin y -> flt x y = true -> fval x < fval y.
Proof. intros Hx Hy. by apply flt_fval. Qed.

Lemma fmax_fval x y : fin x -> fin y -> fval (fmax x y) = Z.max (fval x) (fval y).
Proof.
  intros Hx Hy. unfold fmax. destruct (flt x y) eqn:Hf.
  - apply flt_true in Hf; [lia|done..].
  - apply flt_false in Hf; [lia|done..].
Qed.

Lemma fmin_fval x y : fin x -> fin y -> fval (fmin x y) = Z.min (fval x) (fval y).
Proof.
  intros Hx Hy. unfold fmin. destruct (flt y x) eqn:Hf.
  - apply flt_true in Hf; [lia|done..].
  - apply flt_false in Hf; [lia|done..].
Qed.

(** *** Numbers that are not NaN *)

(** The order of floats is the lexicographic one of class, exponent and mantissa. *)
Definition order_key (x : float) : Z * Z * Z :=
  match x with
  | S754_infinity true => (0, 0, 0)
  | S754_finite true m e => (1, - e, Zneg m)
  | S754_zero _ | S754_nan => (2, 0, 0)
  | S754_finite false m e => (3, e, Zpos m)
  | S754_infinity false => (4, 0, 0)
  end.

Definition key_lt (a b : Z * Z * Z) : Prop :=
  a.1.1 < b.1.1 \/ a.1.1 = b.1.1 /\ (a.1.2 < b.1.2 \/ a.1.2 = b.1.2 /\ a.2 < b.2).

Lemma flt_key x y :
  is_nan x = false -> is_nan y = false -> flt x y = true <-> key_lt (order_key x) (order_key y).
Proof.
  intros Hx Hy. rewrite flt_spec.
  destruct x as [[]|[]| |[] mx ex], y as [[]|[]| |[] my ey]; try done;
    unfold SFcompare, key_lt; cbn -[Z.lt];
    try (split; [intros [= H]; apply compare_lex_gt in H; lia
                |intros H; f_equal; apply compare_lex_gt; lia]);
    try (split; [intros [= H]; apply compare_lex_lt in H; lia
                |intros H; f_equal; apply compare_lex_lt; lia]);
    split; try done; lia.
Qed.

Lemma fle_not_nan x y : fle x y = true -> is_nan x = false /\ is_nan y = false.
Proof. by destruct x, y. Qed.

Lemma fle_key x y :
  is_nan x = false -> is_nan y = false -> fle x y = true <-> ~ key_lt (order_key y) (order_key x).
Proof.
  intros Hx Hy. rewrite fle_flt, <- flt_key by done. by rewrite negb_true_iff, <- not_true_iff_false.
Qed.

Lemma fle_refl x : is_nan x = false -> fle x x = true.
Proof. intros Hx. apply fle_key; [done..|]. unfold key_lt. lia. Qed.

Lemma fle_trans x y z : fle x y = true -> fle y z = true -> fle x z = true.
Proof.
  intros Hxy Hyz. destruct (fle_not_nan _ _ Hxy) as [Hx Hy], (fle_not_nan _ _ Hyz) as [_ Hz].
  revert Hxy Hyz. rewrite !fle_key by done. unfold key_lt. lia.
Qed.

Lemma flt_le x y : is_nan x = false -> is_nan y = false -> flt x y = false -> fle y x = true.
Proof. intros Hx Hy Hf. rewrite fle_flt by done. by rewrite Hf. Qed.

Lemma flt_fle x y : flt x y = true -> fle x y = true.
Proof. unfold flt, fle, SFltb, SFleb. by destruct (SFcompare x y) as [[]|]. Qed.

(** [max] of a list without NaN is its greatest element. *)
Lemma fmax_list_spec l m :
  Forall (fun x => is_nan x = false) l -> fmax_list l = Some m ->
  m ∈ l /\ forall x, x ∈ l -> fle x m = true.
Proof.
  intros Hl. destruct l as [|x l]; [done|]. cbn [fmax_list]. intros [= <-].
  inversion Hl as [|? ? Hx Hl']; subst. clear Hl.
  revert x Hx. induction Hl' as [|y l Hy Hl IH]; intros x Hx; cbn [foldl].
  - split; [by left|]. intros z Hz%list_elem_of_singleton. subst. by apply fle_refl.
  - unfold fmax at 2 4. destruct (flt x y) eqn:Hxy.
    + destruct (IH y Hy) as [Hin Hge]. split; [by right|]. intros z [->|Hz]%elem_of_cons; [|by apply Hge].
      eapply fle_trans; [by apply flt_fle|]. apply Hge. by left.
    + destruct (IH x Hx) as [Hin Hge]. split.
      { apply elem_of_cons in Hin as [->|Hin]; [by left|by right; right]. }
      intros z [->|[->|Hz]%elem_of_cons]%elem_of_cons; [apply Hge; by left| |apply Hge; by right].
      eapply fle_trans; [by apply flt_le|]. apply Hge. by left.
Qed.

(** *** A difference below zero *)

Lemma fsub_neg x y : pfin x -> pfin y -> fval x < fval y -> flt fzero (fsub x y) = false.
Proof.
  intros Hx Hy Hlt. apply pfin_cases in Hy as [->|(my & ey & -> & Hcy)].
  { pose proof (pfin_fval x Hx). cbn [fval fzero] in Hlt. lia. }
  apply pfin_cases in Hx as [->|(mx & ex & -> & Hcx)]; [done|].
  unfold fsub. cbn [SFsub cond_Zopp]. set (ez := Z.min ex ey). revert Hlt.
  assert (Hez : emin <= ez) by (destruct Hcx, Hcy; lia).
  rewrite <- (align_fval mx ex ez), <- (align_fval my ey ez) by lia.
  set (a := Zpos (fst (shl_align mx ex ez))). set (b := Zpos (fst (shl_align my ey ez))).
  pose proof (pow_pos (ez - emin) ltac:(lia)) as Hp. intros Hlt.
  assert (Hab : a < b) by nia. destruct (a - b) as [|p|p] eqn:Hd; [lia|lia|].
  clearbody a b. unfold binary_normalize, binary_round. destruct (shl_align _ _ _) as [mz e].
  destruct (binary_round_aux_cases true (Zpos mz) e loc_Exact ltac:(lia)) as [->|[->|(m' & e' & ->)]]; done.
Qed.

Example order_ex :
  fval (f_lit 1 1) < fval (f_lit 2 1) /\ fval (f_of_Z 3) = 3 * one.
Proof. by vm_compute. Qed.

(** *** Sums are monotone

    Rounding the sum of two non-negative floats depends on their exact sum only, and keeps
    its order. *)
Lemma binary_round_spec p e :
  emin <= e -> exists q e1 l, emin <= e1 /\ 0 <= q < 2 ^ 53 /\ (2 ^ 52 <= q \/ e1 = emin) /\
    located (Zpos p * 2 ^ (e - emin)) (2 ^ (e1 - emin)) q l /\
    rounded_to (binary_round prec emax false p e) (round_nearest_even q l * 2 ^ (e1 - emin)).
Proof.
  intros He. destruct (binary_round_aligned p e He) as (mz & ez & -> & Hd & Hez & Hv & Hmin).
  destruct (round_aux_spec (Zpos mz) 1 (Zpos mz) ez loc_Exact ltac:(lia) (located_exact (Zpos mz)) Hd)
    as (q & e1 & l & He1 & Hm1 & Hq & Hb & Hl & Hr).
  exists q, e1, l. split; [done|]. split; [done|]. split; [done|]. split; [|done].
  assert (Hn : Zpos p * 2 ^ (e - emin) = Zpos mz * 2 ^ (ez - emin)).
  { replace (e + 2148) with (e - emin + 1074) in Hv by (unfold emin; lia).
    replace (ez + 2148) with (ez - emin + 1074) in Hv by (unfold emin; lia).
    rewrite !Z.pow_add_r, !Z.mul_assoc in Hv by (unfold emin in *; lia).
    apply Z.mul_reg_r in Hv; [done|by apply Z.pow_nonzero]. }
  rewrite Hn, (pow_split (ez - emin) (e1 - emin)) by lia.
  replace (e1 - emin - (ez - emin)) with (e1 - ez) by lia. rewrite Z.mul_1_r in Hl.
  destruct Hl as [Hp Hl]. pose proof (pow_pos (ez - emin) ltac:(lia)). split; [nia|].
  set (d := 2 ^ (ez - emin)) in *. set (r := 2 ^ (e1 - ez)) in *. destruct l as [|[]]; nia.
Qed.

Lemma round_monotone n n' e e' q q' l l' :
  emin <= e -> emin <= e' -> 0 <= q < 2 ^ 53 -> 0 <= q' < 2 ^ 53 ->
  2 ^ 52 <= q \/ e = emin -> 2 ^ 52 <= q' \/ e' = emin ->
  located n (2 ^ (e - emin)) q l -> located n' (2 ^ (e' - emin)) q' l' -> n <= n' ->
  round_nearest_even q l * 2 ^ (e - emin) <= round_nearest_even q' l' * 2 ^ (e' - emin).
Proof.
  intros He He' Hq Hq' Hb Hb' Hl Hl' Hn.
  pose proof (located_bounds _ _ _ _ Hl) as Hlb. pose proof (located_bounds _ _ _ _ Hl') as Hlb'.
  assert (HM : q <= round_nearest_even q l <= q + 1)
    by (split; [eapply rne_ge; [exact Hl|lia]|eapply rne_le; [exact Hl|lia]]).
  assert (HM' : q' <= round_nearest_even q' l') by (eapply rne_ge; [exact Hl'|lia]).
  pose proof (pow_pos (e - emin) ltac:(lia)). pose proof (pow_pos (e' - emin) ltac:(lia)).
  destruct (Z.lt_trichotomy e e') as [Hlt|[<-|Hlt]].
  - destruct Hb' as [Hb'|]; [|lia]. rewrite (pow_split (e - emin) (e' - emin)) by lia.
    replace (e' - emin - (e - emin)) with (e' - e) by lia.
    assert (2 ^ 1 <= 2 ^ (e' - e)) by (apply Z.pow_le_mono_r; lia).
    rewrite (Z.mul_comm (2 ^ (e - emin))), Z.mul_assoc. apply Z.mul_le_mono_nonneg_r; [lia|].
    transitivity (2 ^ 52 * 2); [lia|]. apply Z.mul_le_mono_nonneg; lia.
  - apply Z.mul_le_mono_nonneg_r; [lia|]. set (d := 2 ^ (e - emin)) in *.
    assert (Hqq : q * d < (q' + 1) * d) by lia. apply Z.mul_lt_mono_pos_r in Hqq; [|done].
    destruct (Z.eq_dec q q') as [<-|Hne]; [|lia].
    destruct Hl as [_ Hl], Hl' as [_ Hl']. destruct l as [|[]], l' as [|[]]; cbn; try lia; destruct (Z.even q); lia.
  - exfalso. destruct Hb as [Hb|]; [|lia]. rewrite (pow_split (e' - emin) (e - emin)) in Hlb by lia.
    replace (e - emin - (e' - emin)) with (e - e') in Hlb by lia.
    assert (2 ^ 1 <= 2 ^ (e - e')) by (apply Z.pow_le_mono_r; lia). set (d := 2 ^ (e' - emin)) in *.
    assert (2 ^ 52 * 2 <= q * 2 ^ (e - e')) by (apply Z.mul_le_mono_nonneg; lia).
    assert ((q' + 1) * d <= 2 ^ 53 * d) by (apply Z.mul_le_mono_nonneg_r; lia).
    assert (2 ^ 53 * d <= q * (d * 2 ^ (e - e'))); [|lia].
    rewrite (Z.mul_comm d), Z.mul_assoc. apply Z.mul_le_mono_nonneg_r; lia.
Qed.

(** Non-negative floats, the infinity included *)
Definition pnum (x : float) : Prop := pfin x \/ x = S754_infinity false.

Lemma pnum_not_nan x : pnum x -> is_nan x = false.
Proof. intros [[H _]| ->]; [by apply fin_not_nan|done]. Qed.

Lemma fle_infinity x : pnum x -> fle x (S754_infinity false) = true.
Proof. intros [[[Hf Hc] Hs]| ->]; [by destruct x as [[]| | |[]]|done]. Qed.

Lemma pfin_fle x y : pfin x -> pfin y -> fval x <= fval y -> fle x y = true.
Proof. intros Hx Hy. apply fle_fval; [apply Hx|apply Hy]. Qed.

Lemma rounded_pnum x v : rounded_to x v -> pfin x /\ fval x = v \/ x = S754_infinity false /\ one * 2 ^ 1024 <= v.
Proof.
  destruct x as [[]|[]| |[] m e]; cbn; try done; [by left|by right|].
  intros [Hc Hv]. left. split; [|done]. split; [|done]. split; [done|exact Hc].
Qed.

Lemma pfin_below x : pfin x -> fval x < one * 2 ^ 1024.
Proof.
  intros [->|(m & e & -> & H1 & H2 & _)]%pfin_cases; [done|]. cbn [fval].
  assert (2 ^ (e - emin) <= 2 ^ (971 - emin)) by (apply Z.pow_le_mono_r; lia).
  assert (one * 2 ^ 1024 = 2 ^ 53 * 2 ^ (971 - emin)) as -> by reflexivity. nia.
Qed.

Lemma rounded_fle x y v w : rounded_to x v -> rounded_to y w -> v <= w -> fle x y = true.
Proof.
  intros [[Hx Hv]|[-> Hv]]%rounded_pnum [[Hy Hw]|[-> Hw]]%rounded_pnum Hle.
  - apply pfin_fle; [done|done|lia].
  - apply fle_infinity. by left.
  - apply pfin_below in Hy. lia.
  - done.
Qed.

Lemma fadd_infinity x : pnum x -> fadd x (S754_infinity false) = S754_infinity false /\
  fadd (S754_infinity false) x = S754_infinity false.
Proof. intros [[[Hf _] Hs]| ->]; [by destruct x as [[]| | |[]]|done]. Qed.

Lemma fadd_pnum x y : pnum x -> pnum y -> pnum (fadd x y).
Proof.
  intros Hx [Hy| ->]; [|right; by apply fadd_infinity].
  destruct Hx as [Hx| ->]; [|right; apply fadd_infinity; by left].
  destruct (fadd_ge x y fzero Hx Hy) as [->|[H _]]; [by apply pfinb_pfin| |by right|by left].
  pose proof (pfin_fval x Hx). pose proof (pfin_fval y Hy). cbn [fval fzero]. lia.
Qed.

(** Adding a non-negative float does not lower a sum, and keeps the order of two sums. *)
Lemma fle_fadd x y : pnum x -> pnum y -> fle x (fadd x y) = true.
Proof.
  intros Hx Hy. destruct Hy as [Hy| ->].
  2:{ rewrite (proj1 (fadd_infinity x Hx)). by apply fle_infinity. }
  destruct Hx as [Hx| ->]; [|rewrite (proj2 (fadd_infinity y (or_introl Hy))); done].
  destruct (fadd_ge x y x Hx Hy Hx) as [->|[H Hle]].
  - pose proof (pfin_fval y Hy). lia.
  - apply fle_infinity. by left.
  - by apply pfin_fle.
Qed.

Lemma fadd_mono x x' y :
  pnum x -> pnum x' -> pnum y -> fle x x' = true -> fle (fadd x y) (fadd x' y) = true.
Proof.
  intros Hx Hx' Hy Hle. destruct Hx' as [Hx'| ->].
  2:{ rewrite (proj2 (fadd_infinity y Hy)). by apply fle_infinity, fadd_pnum. }
  destruct Hx as [Hx| ->]; [|by destruct Hx' as [[Hf _] Hs]; destruct x' as [[]| | |[]]].
  destruct Hy as [Hy| ->]; [|by rewrite (proj1 (fadd_infinity x (or_introl Hx))), (proj1 (fadd_infinity x' (or_introl Hx')))].
  apply fle_fval in Hle; [|apply Hx|apply Hx'].
  destruct (decide (fval y = 0)) as [H0|Hy0].
  { rewrite (pfin_zero y Hy H0), !fadd_zero_r by (apply Hx || apply Hx'). by apply pfin_fle. }
  destruct (decide (fval x = 0)) as [H0|Hx0].
  { rewrite (pfin_zero x Hx H0), fadd_zero_l by apply Hy.
    destruct (fadd_ge x' y y Hx' Hy Hy) as [->|[H Hge]]; [pose proof (pfin_fval x' Hx'); lia| |by apply pfin_fle].
    apply fle_infinity. by left. }
  assert (fval x' <> 0) as Hx0' by (pose proof (pfin_fval x Hx); lia).
  destruct (fadd_shape x y Hx Hy Hx0 Hy0) as (p & e & -> & He & Hv).
  destruct (fadd_shape x' y Hx' Hy Hx0' Hy0) as (p' & e' & -> & He' & Hv').
  destruct (binary_round_spec p e He) as (q & e1 & l & Hm & Hq & Hb & Hl & Hr).
  destruct (binary_round_spec p' e' He') as (q' & e1' & l' & Hm' & Hq' & Hb' & Hl' & Hr').
  eapply rounded_fle; [exact Hr|exact Hr'|]. eapply round_monotone; [done..|exact Hl|exact Hl'|lia].
Qed.
