(* ===== verification/NumPy.v ===== *)
(** * NumPy's scalar operations

    The element-wise operations of NumPy the scripts use, on 64-bit floats and
    integers, and what they do to finite floats.  Random generators are parameters of
    the files that draw. *)

From S2P Require Import Prelude PyFloat FloatOrder.

(** [round(x)], as an integer; ties to even *)
Definition py_round (x : float) : outcome Z :=
  match x with
  | S754_nan => Raise (ValueError "cannot convert float NaN to integer")
  | S754_infinity _ => Raise (OverflowError "cannot convert float infinity to integer")
  | S754_zero _ => Ret 0
  | S754_finite s m e =>
      let a := if 0 <=? e then Zpos m * 2 ^ e else round_quot (Zpos m) (2 ^ (- e)) in
      Ret (if s then - a else a)
  end.

(** [np.maximum], [np.minimum] and [np.clip]: a NaN is passed on *)
Definition np_maximum (x y : float) : float :=
  if is_nan x || is_nan y then S754_nan else if flt y x then x else y.
Definition np_minimum (x y : float) : float :=
  if is_nan x || is_nan y then S754_nan else if flt x y then x else y.
Definition np_clip (x lo hi : float) : float := np_minimum (np_maximum x lo) hi.

(** [np.rint] *)
Definition np_rint (x : float) : float :=
  match py_round x with
  | Ret z => match x with S754_finite true _ _ | S754_zero true => fopp (f_of_Z (- z))
                        | _ => f_of_Z z end
  | Raise _ => x
  end.

(** [astype(np.int64)]: values outside the range become the least integer *)
Definition as_int64 (x : float) : Z :=
  match int_of_float x with
  | Ret z => if (- 2 ^ 63 <=? z) && (z <? 2 ^ 63) then z else - 2 ^ 63
  | Raise _ => - 2 ^ 63
  end.

(** Storing a Python integer into an [int64] array *)
Definition store64 (z : Z) : outcome Z :=
  if (- 2 ^ 63 <=? z) && (z <? 2 ^ 63) then Ret z
  else Raise (OverflowError "Python int too large to convert to C long").

(** NumPy's division and square root *)
Definition np_div (x y : float) : float := SFdiv prec emax x y.
Definition np_sqrt (x : float) : float := SFsqrt prec emax x.

Definition draw {R A} (f : R -> A * R) : M R A := fun r => (Ret (f r).1, (f r).2).

(** ** Lemmas *)

Lemma store64_Ret z z' : store64 z = Ret z' -> z' = z.
Proof. unfold store64. destruct (_ && _); by intros [= ->]. Qed.

Lemma round_quot_bounds a b y :
  0 <= a -> 0 < b -> a <= y * b -> 0 <= round_quot a b <= y.
Proof.
  intros Ha Hb Hy. unfold round_quot.
  pose proof (Z.div_mod a b ltac:(lia)). pose proof (Z.mod_pos_bound a b Hb).
  assert (0 <= a / b) by (apply Z.div_pos; lia).
  destruct (Z.compare_spec (2 * (a mod b)) b); [destruct (Z.even (a / b))| |]; nia.
Qed.

Lemma round_quot_ge a b y : 0 <= a -> 0 < b -> y * b <= a -> y <= round_quot a b.
Proof.
  intros Ha Hb Hy. unfold round_quot. assert (y <= a / b) by (apply Z.div_le_lower_bound; lia).
  destruct (Z.compare_spec (2 * (a mod b)) b); [destruct (Z.even (a / b))| |]; lia.
Qed.

Lemma fin_nonneg x : fin x -> 0 < fval x -> pfin x.
Proof.
  intros [Hf Hc] Hx. split; [done|]. destruct x as [[]| | |[] m e]; try done.
  cbn [fval] in Hx. destruct Hc as [He _]. pose proof (pow_pos (e - emin) ltac:(lia)). nia.
Qed.

(** Rounding a float between zero and an integer *)
Lemma np_rint_between x n :
  pfin x -> 0 <= n < 2 ^ 53 -> fval x <= n * one ->
  exists k, np_rint x = f_of_Z k /\ 0 <= k <= n.
Proof.
  intros [->|(m & e & -> & He & _)]%pfin_cases Hn Hx.
  { exists 0. split; [done|lia]. }
  unfold np_rint. cbn [py_round]. eexists. split; [reflexivity|].
  cbn [fval] in Hx. destruct (Z.leb_spec 0 e).
  - split; [apply Z.mul_nonneg_nonneg; lia|].
    apply (mul_le_cancel _ _ one); [apply one_pos|]. etrans; [|exact Hx].
    unfold one. rewrite Z.mul_1_l, <- Z.mul_assoc, <- Z.pow_add_r by lia.
    replace (e + 1074) with (e - emin) by (unfold emin; lia). done.
  - apply round_quot_bounds; [lia|lia|].
    apply (mul_le_cancel _ _ (2 ^ (e - emin))); [apply pow_pos; lia|].
    rewrite <- Z.mul_assoc, <- Z.pow_add_r by lia.
    replace (- e + (e - emin)) with 1074 by (unfold emin; lia). fold one. lia.
Qed.

(** Clipping between two finite floats *)
Lemma np_clip_between x lo hi :
  is_nan x = false -> pfin lo -> pfin hi -> fval lo <= fval hi -> canonical x ->
  pfin (np_clip x lo hi) /\ fval lo <= fval (np_clip x lo hi) <= fval hi.
Proof.
  intros Hn Hlo Hhi Hle Hc. pose proof Hlo as [Hflo Hslo]. pose proof Hhi as [Hfhi Hshi].
  assert (Hmin : forall y, pfin y -> fval lo <= fval y ->
    pfin (np_minimum y hi) /\ fval lo <= fval (np_minimum y hi) <= fval hi).
  { intros y Hy Hge. unfold np_minimum. rewrite !fin_not_nan by (try apply Hy; done). cbn [orb].
    destruct (flt y hi) eqn:Hf; (split; [done|]); [|lia].
    apply flt_true in Hf; [lia|apply Hy|done]. }
  unfold np_clip, np_maximum. rewrite Hn, (fin_not_nan lo) by done. cbn [orb].
  destruct (flt lo x) eqn:Hf; [|apply Hmin; [done|lia]].
  destruct (is_finite x) eqn:Hfx.
  - apply flt_true in Hf; [|done..]. apply Hmin; [|lia]. split; [done|].
    pose proof (pfin_fval lo Hlo). destruct x as [[]| | |[] m e]; try done.
    { cbn [fval] in Hf. lia. }
    cbn [fval] in Hf. destruct Hc as [He _]. pose proof (pow_pos (e - emin) ltac:(lia)). nia.
  - (* above every float *)
    destruct x as [|[]| |]; try done; [by destruct lo as [[]|[]| |[] m e]|].
    unfold np_minimum. rewrite (fin_not_nan hi) by done. cbn [is_nan orb].
    destruct hi as [[]|[]| |[] m e]; try done; by (split; [|lia]).
Qed.

Lemma pfin_small_int z : 0 <= z < 2 ^ 53 -> pfin (f_of_Z z).
Proof. intros Hz. by apply f_of_Z_fval. Qed.

Lemma fval_small_int z : 0 <= z < 2 ^ 53 -> fval (f_of_Z z) = z * one.
Proof. intros Hz. by apply f_of_Z_fval. Qed.

Lemma float_of_small_int z : 0 <= z < 2 ^ 53 -> float_of_int z = Ret (f_of_Z z).
Proof.
  intros Hz. unfold float_of_int. destruct (pfin_small_int z Hz) as [[Hf _] _].
  by destruct (f_of_Z z).
Qed.

Lemma as_int64_small z : 0 <= z < 2 ^ 53 -> as_int64 (f_of_Z z) = z.
Proof.
  intros Hz. unfold as_int64.
  rewrite int_of_float_fval, fval_small_int by (try apply pfin_fval; try apply pfin_small_int; done).
  rewrite Z.div_mul by done. rewrite (proj2 (Z.leb_le _ _)), (proj2 (Z.ltb_lt _ _)) by lia. done.
Qed.

(** Clipping an integer between integers *)
Lemma np_clip_int z lo hi :
  0 <= lo <= hi -> hi < 2 ^ 53 -> lo <= z < 2 ^ 53 ->
  np_clip (f_of_Z z) (f_of_Z lo) (f_of_Z hi) = f_of_Z (Z.min z hi).
Proof.
  intros Hl Hh Hz.
  assert (H0 : forall a, 0 <= a < 2 ^ 53 -> is_nan (f_of_Z a) = false).
  { intros a Ha. by apply fin_not_nan, pfin_small_int. }
  assert (Hlt : forall a b, 0 <= a < 2 ^ 53 -> 0 <= b < 2 ^ 53 ->
    flt (f_of_Z a) (f_of_Z b) = (a <? b)).
  { intros a b Ha Hb. pose proof (flt_fval (f_of_Z a) (f_of_Z b)
      (proj1 (pfin_small_int a Ha)) (proj1 (pfin_small_int b Hb))) as H.
    rewrite !fval_small_int in H by done. pose proof one_pos.
    destruct (Z.ltb_spec a b).
    - apply H. nia.
    - apply not_true_is_false. rewrite H. nia. }
  unfold np_clip, np_maximum, np_minimum. rewrite !H0 by lia. cbn [orb].
  rewrite Hlt by lia. destruct (Z.ltb_spec lo z).
  - rewrite H0, Hlt by lia. cbn [orb]. destruct (Z.ltb_spec z hi); f_equal; lia.
  - assert (lo = z) as -> by lia. rewrite H0, Hlt by lia. cbn [orb].
    destruct (Z.ltb_spec z hi); f_equal; lia.
Qed.
