(* ===== verification/Trace.v ===== *)
(** * SM traces ([morphling/runtime/greenctx/trace.py])

    A trace is a list of [(timestamp, sm_count)] pairs read from a text file,
    and a step function over them.  [parse_trace_file] is the reader,
    [sm_count_at_step] and [sm_count_at_time] are the two lookups. *)

From Stdlib Require Import Ascii.
From S2P Require Import Prelude PyStr.

(** The local variables of [_parse_trace_file] that its loop updates. *)
Record parse_state : Type := mk_parse_state {
  entries : list (Z * Z);
  time_unit : string;
  clock_mode : string;
  header_skipped : bool;
}.

Definition parse_init : parse_state := mk_parse_state [] "us" "step" false.

Definition add_entry (st : parse_state) (ts sms : Z) : parse_state :=
  mk_parse_state (entries st ++ [(ts, sms)]) (time_unit st) (clock_mode st)
    (header_skipped st).
Definition set_time_unit (u : string) (st : parse_state) : parse_state :=
  mk_parse_state (entries st) u (clock_mode st) (header_skipped st).
Definition set_clock_mode (m : string) (st : parse_state) : parse_state :=
  mk_parse_state (entries st) (time_unit st) m (header_skipped st).
Definition skip_header (st : parse_state) : parse_state :=
  mk_parse_state (entries st) (time_unit st) (clock_mode st) true.

(** [if len(parts) >= 2: try: ... entries.append((ts, sms)) except ValueError: continue] *)
Definition parse_fields (st : parse_state) (parts : list string) : parse_state :=
  match parts with
  | p0 :: p1 :: _ =>
      match int_of_str p0, int_of_str p1 with
      | Some ts, Some sms => add_entry st ts sms
      | _, _ => st
      end
  | _ => st
  end.

(** One iteration of the loop over the lines of the file *)
Definition parse_line (st : parse_state) (raw : string) : parse_state :=
  let line := strip raw in
  if is_empty line then st
  else if startswith "#" line then
    let directive := strip (lstrip_hash line) in
    if startswith "time_unit=" directive
    then set_time_unit (after_first "=" directive) st
    else if startswith "clock_mode=" directive
    then set_clock_mode (after_first "=" directive) st
    else st
  else if startswith "time_unit=" line then set_time_unit (after_first "=" line) st
  else if startswith "clock_mode=" line then set_clock_mode (after_first "=" line) st
  else
    let parts := split_on "," line in
    if header_skipped st then parse_fields st parts
    else
      match int_of_str (hd "" parts) with
      | None => skip_header st
      | Some _ => parse_fields (skip_header st) parts
      end.

Definition parse_trace_text (text : string) : list (Z * Z) * string * string :=
  let st := foldl parse_line parse_init (file_lines text) in
  (entries st, time_unit st, clock_mode st).

(** [_parse_trace_file]; [open_text] stands for [open] and reading the file. *)
Definition parse_trace_file (open_text : string -> outcome string) (path : string) :
    outcome (list (Z * Z) * string * string) :=
  text ← open_text path; Ret (parse_trace_text text).

(** [_sm_count_at_step]: [result] starts at [default_sm]; the loop breaks at the
    first timestamp past [step]. *)
Fixpoint sm_count_at_step (es : list (Z * Z)) (step default_sm : Z) : Z :=
  match es with
  | [] => default_sm
  | (ts, sms) :: es =>
      if ts <=? step then sm_count_at_step es step sms else default_sm
  end.

Definition time_scale (unit : string) : Z :=
  if String.eqb unit "s" then 1000000
  else if String.eqb unit "ms" then 1000 else 1.

Fixpoint at_time_loop (es : list (Z * Z)) (elapsed_us scale result : Z) : Z :=
  match es with
  | [] => result
  | (ts, sms) :: es =>
      let threshold_us := ts * scale in
      if threshold_us <=? elapsed_us then at_time_loop es elapsed_us scale sms
      else result
  end.

(** [_sm_count_at_time] *)
Definition sm_count_at_time (es : list (Z * Z)) (elapsed_us : Z) (unit : string)
    (default_sm : Z) : Z :=
  at_time_loop es elapsed_us (time_scale unit) default_sm.

(** ** Specifications *)

(** The timestamps never decrease. *)
Fixpoint ordered (es : list (Z * Z)) : Prop :=
  match es with
  | [] => True
  | e :: es => (forall e', e' ∈ es -> e.1 <= e'.1) /\ ordered es
  end.

(** The value of the last entry at or before [t], [dflt] when there is none. *)
Definition last_at (es : list (Z * Z)) (t dflt : Z) : Z :=
  default dflt (snd <$> last (filter (fun e => e.1 <= t) es)).

(** The v2 text format of [tests/data/greenctx]: a magic line, two directives, a
    column header and one [timestamp,num_sms,tag] line per entry. *)
Definition render_entry (e : Z * Z) (tag : string) : string :=
  join "," [str_of_Z e.1; str_of_Z e.2; tag].

Definition render_v2 (unit mode : string) (es : list (Z * Z)) (tag : string) : string :=
  join nl (["# greenctx_trace v2"; "# time_unit=" +:+ unit; "# clock_mode=" +:+ mode;
            "timestamp,num_sms,tag"]%string
           ++ map (fun e => render_entry e tag) es).

(** A field of the format: printable, without blanks, commas or hashes *)
Definition plain_field (s : string) : bool :=
  all_chars (fun c => negb (is_space c) && negb (Ascii.eqb c ",")) s.

(** ** The lookups *)

Lemma filter_none {es : list (Z * Z)} {t} :
  (forall e, e ∈ es -> t < e.1) -> filter (fun e => e.1 <= t) es = [].
Proof.
  intros H. induction es as [|e es IH]; [done|].
  rewrite filter_cons_False by (specialize (H e); set_solver by lia).
  apply IH. intros e' He'. apply H. by right.
Qed.

Lemma last_at_cons ts sms es t dflt :
  ts <= t -> last_at ((ts, sms) :: es) t dflt = last_at es t sms.
Proof.
  intros Hle. unfold last_at. rewrite filter_cons_True by done.
  rewrite last_cons. by destruct (last (filter _ es)).
Qed.

(** On a trace in timestamp order, [sm_count_at_step] is the
    SM count of the last entry at or before the step, the default before the
    first entry. *)
Lemma sm_count_at_step_last es step dflt :
  ordered es -> sm_count_at_step es step dflt = last_at es step dflt.
Proof.
  revert dflt. induction es as [|[ts sms] es IH]; intros dflt; [done|].
  intros [Hts Hes]. cbn. destruct (ts <=? step) eqn:Hle.
  - apply Z.leb_le in Hle. by rewrite last_at_cons, IH.
  - apply Z.leb_gt in Hle. unfold last_at. rewrite filter_none; [done|].
    intros e [->|He]%elem_of_cons; cbn; [lia|]. specialize (Hts e He). cbn in Hts. lia.
Qed.

Lemma time_scale_pos unit : 0 < time_scale unit.
Proof. unfold time_scale. by repeat case_match. Qed.

Lemma at_time_loop_step es t scale dflt :
  0 < scale -> at_time_loop es t scale dflt = sm_count_at_step es (t / scale) dflt.
Proof.
  intros Hs. revert dflt. induction es as [|[ts sms] es IH]; intros dflt; [done|].
  cbn. rewrite IH.
  replace (ts * scale <=? t) with (ts <=? t / scale); [done|].
  apply eq_iff_eq_true. rewrite !Z.leb_le.
  rewrite (Z.mul_comm ts). split; intros H.
  - pose proof (Z.mul_div_le t scale Hs). nia.
  - by apply Z.div_le_lower_bound.
Qed.

Lemma sm_count_at_step_in es step dflt :
  sm_count_at_step es step dflt = dflt \/ sm_count_at_step es step dflt ∈ es.*2.
Proof.
  revert dflt. induction es as [|[ts sms] es IH]; intros dflt; [by left|]. cbn.
  destruct (ts <=? step); [|by left]. right. destruct (IH sms) as [->|H]; set_solver.
Qed.

(** ** The reader *)

Lemma strip_directive u :
  all_chars (fun c => negb (is_space c)) u = true ->
  strip ("# time_unit=" +:+ u) = "# time_unit=" +:+ u /\
  strip ("# clock_mode=" +:+ u) = "# clock_mode=" +:+ u.
Proof.
  intros Hu. split.
  - change ("# time_unit=" +:+ u) with (String "#" " " +:+ ("time_unit=" +:+ u)).
    apply strip_visible; [done| |done]. by rewrite all_chars_app, Hu.
  - change ("# clock_mode=" +:+ u) with (String "#" " " +:+ ("clock_mode=" +:+ u)).
    apply strip_visible; [done| |done]. by rewrite all_chars_app, Hu.
Qed.

Lemma parse_time_unit_line st u :
  all_chars (fun c => negb (is_space c)) u = true ->
  parse_line st ("# time_unit=" +:+ u) = set_time_unit u st.
Proof.
  intros Hu. unfold parse_line. rewrite (proj1 (strip_directive u Hu)).
  change (strip (lstrip_hash ("# time_unit=" +:+ u))) with (strip ("time_unit=" +:+ u)).
  rewrite strip_no_space; [done|]. by rewrite all_chars_app, Hu.
Qed.

Lemma parse_clock_mode_line st u :
  all_chars (fun c => negb (is_space c)) u = true ->
  parse_line st ("# clock_mode=" +:+ u) = set_clock_mode u st.
Proof.
  intros Hu. unfold parse_line. rewrite (proj2 (strip_directive u Hu)).
  change (strip (lstrip_hash ("# clock_mode=" +:+ u))) with (strip ("clock_mode=" +:+ u)).
  rewrite strip_no_space; [done|]. by rewrite all_chars_app, Hu.
Qed.

Lemma str_of_Z_head z :
  exists c r, str_of_Z z = String c r /\
    Ascii.eqb c "#" = false /\ Ascii.eqb c "t" = false /\ Ascii.eqb c "c" = false.
Proof.
  assert (H : all_chars (fun c => negb (Ascii.eqb c "#") && negb (Ascii.eqb c "t") &&
                                  negb (Ascii.eqb c "c")) (str_of_Z z) = true).
  { set (p := fun c => _).
    assert (Hn : forall n, all_chars p (str_of_N n) = true).
    { intros n. apply str_of_N_all. by apply (digit_char_cases p). }
    unfold str_of_Z. destruct (z <? 0); [cbn [all_chars]; by rewrite Hn | apply Hn]. }
  destruct (str_of_Z z) as [|c r] eqn:Hz.
  { unfold str_of_Z in Hz. destruct (z <? 0); [done|]. by apply str_of_N_nonempty in Hz. }
  exists c, r. cbn [all_chars] in H. rewrite !andb_true_iff, !negb_true_iff in H. tauto.
Qed.

Lemma render_entry_split e tag :
  plain_field tag = true ->
  split_on "," (render_entry e tag) = [str_of_Z e.1; str_of_Z e.2; tag].
Proof.
  intros Ht. unfold render_entry. apply (split_on_join ","); [done|]. cbn [forallb].
  rewrite !str_of_Z_no_char by done. cbn.
  rewrite andb_true_r. revert Ht. apply all_chars_impl.
  intros c [_ ?]%andb_prop. done.
Qed.

Lemma render_entry_chars e tag :
  plain_field tag = true ->
  all_chars (fun c => negb (is_space c)) (render_entry e tag) = true.
Proof.
  intros Ht. unfold render_entry. cbn [join].
  rewrite !all_chars_app, !str_of_Z_no_space. cbn. revert Ht. apply all_chars_impl.
  by intros c [? _]%andb_prop.
Qed.

Lemma parse_entry_line st e tag :
  plain_field tag = true -> header_skipped st = true ->
  parse_line st (render_entry e tag) = add_entry st e.1 e.2.
Proof.
  intros Ht Hh. unfold parse_line.
  rewrite strip_no_space by (by apply render_entry_chars). cbv zeta.
  pose proof (render_entry_split e tag Ht) as Hsp.
  destruct (str_of_Z_head e.1) as (c & r & Hz & H1 & H2 & H3).
  assert (Hr : exists t, render_entry e tag = String c t).
  { unfold render_entry. cbn [join]. rewrite Hz. by eexists. }
  destruct Hr as [t Hr].
  assert (Hp : forall p c', startswith (String c' p) (String c t) =
             Ascii.eqb c' c && startswith p t) by done.
  rewrite Hr in Hsp |- *. cbn [is_empty]. rewrite !Hp.
  rewrite (Ascii.eqb_sym "#" c), (Ascii.eqb_sym "t" c), (Ascii.eqb_sym "c" c), H1, H2, H3.
  cbn [andb].
  rewrite Hsp, Hh. cbn [parse_fields].
  by rewrite !int_of_str_of_Z.
Qed.

Lemma parse_entries st es tag :
  plain_field tag = true -> header_skipped st = true ->
  foldl parse_line st (map (fun e => render_entry e tag) es) =
  mk_parse_state (entries st ++ es) (time_unit st) (clock_mode st) true.
Proof.
  intros Ht. revert st. induction es as [|e es IH]; intros st Hh; cbn [map foldl].
  { rewrite app_nil_r. destruct st; cbn in *; by subst. }
  rewrite parse_entry_line by done. rewrite IH by done. cbn.
  rewrite <- app_assoc. by destruct e.
Qed.

Lemma render_v2_lines unit mode es tag :
  plain_field unit = true -> plain_field mode = true -> plain_field tag = true ->
  file_lines (render_v2 unit mode es tag) =
  ["# greenctx_trace v2"; "# time_unit=" +:+ unit; "# clock_mode=" +:+ mode;
   "timestamp,num_sms,tag"]%string ++ map (fun e => render_entry e tag) es.
Proof.
  intros Hu Hm Ht. unfold render_v2.
  set (ls := _ ++ map _ es).
  assert (Hns : forall s, all_chars (fun c => negb (is_space c)) s = true ->
                          no_char "010" s && no_char "013" s = true).
  { intros s Hs. unfold no_char. apply andb_true_intro.
    split; revert Hs; apply all_chars_impl; intros c Hc;
      apply negb_true_iff; apply negb_true_iff in Hc;
      destruct (Ascii.eqb_spec c "010"), (Ascii.eqb_spec c "013"); by subst. }
  assert (Hpl : forall s, plain_field s = true -> no_char "010" s && no_char "013" s = true).
  { intros s Hs. apply Hns. revert Hs. apply all_chars_impl. by intros c [? _]%andb_prop. }
  assert (Hall : forallb (fun s => no_char "010" s && no_char "013" s) ls = true).
  { subst ls. rewrite forallb_app. apply andb_true_intro. split.
    - cbn [forallb]. unfold no_char. rewrite !all_chars_app.
      pose proof (Hpl unit Hu) as [H1 H2]%andb_prop. unfold no_char in H1, H2.
      pose proof (Hpl mode Hm) as [H3 H4]%andb_prop. unfold no_char in H3, H4.
      by rewrite H1, H2, H3, H4.
    - apply forallb_forall. intros x Hx. apply in_map_iff in Hx as (e & <- & _).
      by apply Hns, render_entry_chars. }
  assert (Hlast : exists l0 l, ls = l0 ++ [l] /\ l <> "").
  { subst ls. destruct es as [|e es _] using rev_ind.
    - eexists [_; _; _], _. by split.
    - rewrite map_app, app_assoc. eexists _, _. split; [done|].
      unfold render_entry. cbn [join]. destruct (str_of_Z_head e.1) as (c & r & -> & _).
      done. }
  destruct Hlast as (l0 & l & -> & Hl). by apply file_lines_join.
Qed.

(** ** Properties *)

(** C13: reading back a v2 trace file gives the entries, the time unit and the
    clock mode that were written, in order: the magic line, the directives and
    the column header contribute no entry. *)
Theorem trace_v2_roundtrip unit mode es tag
    (Hu : plain_field unit = true) (Hm : plain_field mode = true)
    (Ht : plain_field tag = true) :
  parse_trace_text (render_v2 unit mode es tag) = (es, unit, mode).
Proof.
  unfold parse_trace_text. rewrite render_v2_lines by done.
  assert (Hpl : forall s, plain_field s = true ->
                          all_chars (fun c => negb (is_space c)) s = true).
  { intros s. apply all_chars_impl. by intros c [? _]%andb_prop. }
  rewrite foldl_app. cbn [foldl].
  rewrite parse_time_unit_line, parse_clock_mode_line by auto.
  change (parse_line parse_init "# greenctx_trace v2") with parse_init.
  rewrite parse_entries; done.
Qed.

Lemma trace_v2_roundtrip_witness :
  parse_trace_text (render_v2 "s" "wall" [(0, 8); (1, 32); (-2, 64)] "warmup") =
  ([(0, 8); (1, 32); (-2, 64)], "s", "wall")%string.
Proof. apply trace_v2_roundtrip; vm_compute; reflexivity. Defined.

(** C14: the wall-clock lookup of [sm_count_at_time] is the step lookup at the
    elapsed time rounded down to the trace's unit, and on a trace in timestamp
    order both give the SM count of the last entry already due, the default
    before the first one. *)
Theorem trace_lookup_last_due es t unit dflt (Hes : ordered es) :
  sm_count_at_time es t unit dflt = sm_count_at_step es (t / time_scale unit) dflt /\
  sm_count_at_time es t unit dflt = last_at es (t / time_scale unit) dflt.
Proof.
  unfold sm_count_at_time. rewrite at_time_loop_step by apply time_scale_pos.
  by rewrite sm_count_at_step_last.
Qed.

Lemma trace_lookup_last_due_witness :
  sm_count_at_time [(0, 8); (1, 32); (2, 64)] 1999999 "s" 48 = 32 /\
  sm_count_at_time [(0, 8); (1, 32); (2, 64)] 1999999 "s" 48 =
    last_at [(0, 8); (1, 32); (2, 64)] (1999999 / time_scale "s") 48.
Proof.
  split; [vm_compute; reflexivity|].
  apply trace_lookup_last_due. cbn. repeat split; intros e' He';
    repeat (apply elem_of_cons in He' as [->|He']; [cbn; lia|]);
    by apply not_elem_of_nil in He'.
Defined.
