(* ===== verification/GreenBase.v ===== *)
(** * The green-context backend interface ([morphling/runtime/greenctx/base.py])

    [StreamBundle] is the record the backends hand out, [GreenCtxBackend] the
    protocol every backend implements; [GreenCtxLaws] is what the controller
    relies on.  [TorchCuda] is PyTorch's CUDA interface, which is not part of
    the repository: its calls are answered by arbitrary functions of the calls
    made before, so the theorems hold for every behaviour of it. *)

From S2P Require Import Prelude PyDict PyStr.

(** [ROLE_NAMES] *)
Definition ROLE_NAMES : list string := ["compute"; "recv"; "send"; "dp"]%string.

Record StreamBundle (stream : Type) : Type := mk_StreamBundle {
  comp : stream;
  recv : stream;
  send : stream;
  dp : stream;
  sm_count : Z;
  generation : Z;
}.
Arguments mk_StreamBundle {stream}.
Arguments comp {stream}. Arguments recv {stream}. Arguments send {stream}.
Arguments dp {stream}. Arguments sm_count {stream}. Arguments generation {stream}.

(** The text of the [KeyError] of a missing stream: the tuple that was looked up *)
Definition cache_key_repr (sm : Z) (role : string) : string :=
  "(" +:+ str_of_Z sm +:+ ", '" +:+ role +:+ "')".

Definition streams_dict {stream} (b : StreamBundle stream) : list (string * stream) :=
  [("compute", comp b); ("recv", recv b); ("send", send b); ("dp", dp b)]%string.

(** The protocol class: [B] is the state of the backend object together with the
    state of the libraries it drives. *)
Class GreenCtxBackend (stream B : Type) : Type := {
  is_supported : B -> bool;
  unsupported_reason : B -> string;
  available_sm_counts : B -> list Z;
  sm_step : B -> Z;
  partition_sm_count : B -> Z;
  get_stream_bundle : Z -> M B (StreamBundle stream);
  activate_for_step : Z -> M B (Z * Z);
  activate_for_time : Z -> M B (Z * Z);
  deactivate : Z -> M B unit;
  load_trace : string -> M B bool;
  sm_count_at_time : B -> Z -> Z;
  sm_count_at_step : B -> Z -> Z;
  switch_count : B -> Z;
  close : M B unit;
}.

(** What a client may rely on.  [good] is the backend's invariant, [current] its
    own generation counter and [serves] the SM counts it builds bundles for: an
    activation reports a served count and the generation it leaves the backend
    at, and asking for the bundle of a served count changes nothing and gives a
    bundle of that count and of the current generation. *)
Class GreenCtxLaws (stream B : Type) `{GreenCtxBackend stream B} : Type := {
  good : B -> Prop;
  current : B -> Z;
  serves : B -> Z -> Prop;
  activate_preserves t : preserves good (activate_for_step t);
  activate_time_preserves t : preserves good (activate_for_time t);
  load_trace_preserves p : preserves good (load_trace p);
  activate_current t b sm gen b' :
    good b -> activate_for_step t b = (Ret (sm, gen), b') ->
    serves b' sm /\ current b' = gen;
  bundle_pure sm b : snd (get_stream_bundle sm b) = b;
  bundle_current sm b bd b' :
    good b -> serves b sm -> get_stream_bundle sm b = (Ret bd, b') ->
    sm_count bd = sm /\ generation bd = current b;
  deactivate_preserves sm : preserves good (deactivate sm);
  available_serves b sm :
    good b -> is_supported b = true -> sm ∈ available_sm_counts b -> serves b sm;
  unsupported_serves b : good b -> is_supported b = false -> serves b 0;
}.

(** ** PyTorch's CUDA interface *)

(** The module [torch.cuda.green_contexts], when it can be imported: its
    [SUPPORTED] flag and whether it has a [GreenContext] class. *)
Record green_module : Type := mk_green_module {
  SUPPORTED : bool;
  has_GreenContext : bool;
}.

Record device_props : Type := mk_device_props {
  multi_processor_count : Z;
  major : Z;
  minor : Z;
}.

(** The calls a backend makes, with whether they returned *)
Inductive cuda_call (gc : Type) : Type :=
  | CallCreate (num_sms device : Z) (ok : bool)
  | CallSet (g : gc) (ok : bool)
  | CallPop (g : gc) (ok : bool)
  | CallStream (device : Z) (ok : bool).
Arguments CallCreate {gc}. Arguments CallSet {gc}. Arguments CallPop {gc}.
Arguments CallStream {gc}.

Class TorchCuda (stream gc : Type) : Type := {
  import_green_contexts : outcome green_module;
  select_device : Z -> outcome unit;   (** [torch.cuda.init(); set_device(gpu)] *)
  get_device_properties : Z -> device_props;
  answer_create : list (cuda_call gc) -> Z -> Z -> outcome gc;
  answer_set : list (cuda_call gc) -> gc -> outcome unit;
  answer_pop : list (cuda_call gc) -> gc -> outcome unit;
  answer_stream : list (cuda_call gc) -> Z -> outcome stream;
  open_text : string -> outcome string;
}.

Section calls.
Context {stream gc : Type} `{TorchCuda stream gc}.

(** The calls made so far, the most recent first *)
Notation world := (list (cuda_call gc)).

Definition create_gc (num_sms device : Z) : M world gc := fun w =>
  let o := answer_create w num_sms device in
  (o, CallCreate num_sms device (is_ret o) :: w).
Definition set_context (g : gc) : M world unit := fun w =>
  let o := answer_set w g in (o, CallSet g (is_ret o) :: w).
Definition pop_context (g : gc) : M world unit := fun w =>
  let o := answer_pop w g in (o, CallPop g (is_ret o) :: w).
Definition new_stream (device : Z) : M world stream := fun w =>
  let o := answer_stream w device in (o, CallStream device (is_ret o) :: w).

(** The stack of green contexts pushed by a history of calls; [None] when a pop
    does not match the last push. *)
Fixpoint ctx_stack `{EqDecision gc} (w : world) : option (list gc) :=
  match w with
  | [] => Some []
  | CallSet g true :: w => st ← ctx_stack w; Some (g :: st)
  | CallPop g true :: w =>
      st ← ctx_stack w;
      match st with
      | g' :: st => if decide (g = g') then Some st else None
      | [] => None
      end
  | _ :: w => ctx_stack w
  end.

Lemma ctx_stack_set `{EqDecision gc} w g ok st :
  ctx_stack w = Some st ->
  ctx_stack (CallSet g ok :: w) = Some (if (ok : bool) then g :: st else st).
Proof. intros Hw. destruct ok; cbn; by rewrite Hw. Qed.

Lemma ctx_stack_pop `{EqDecision gc} w g ok st :
  ctx_stack w = Some (g :: st) ->
  ctx_stack (CallPop g ok :: w) = Some (if (ok : bool) then st else g :: st).
Proof. intros Hw. destruct ok; cbn; rewrite Hw; cbn; by rewrite ?decide_True. Qed.

End calls.

(** [except RuntimeError] also catches its subclasses [NotImplementedError] and
    [MetricsCollectionError], and
    [except ImportError] also catches [ModuleNotFoundError]. *)
Definition is_RuntimeError (e : exn) : bool :=
  match e with
  | RuntimeError _ | NotImplementedError _ | MetricsCollectionError _ _ => true
  | _ => false
  end.
Definition is_ImportError (e : exn) : bool :=
  match e with ImportError _ | ModuleNotFoundError _ => true | _ => false end.
