(* ===== verification/OffBackend.v ===== *)
(** * The backend without green contexts
    ([morphling/runtime/greenctx/off_backend.py]) *)

From S2P Require Import Prelude PyDict GreenBase.

Record OffBackend (stream : Type) : Type := mk_OffBackend {
  gpu_id : Z;
  strict : bool;
  closed : bool;
  streams : list (string * stream);
  bundle : StreamBundle stream;
  warned : list string;   (** the paths for which a warning was issued *)
}.
Arguments mk_OffBackend {stream}. Arguments gpu_id {stream}. Arguments strict {stream}.
Arguments closed {stream}. Arguments streams {stream}. Arguments bundle {stream}.
Arguments warned {stream}.

Section off.
Context {stream gc : Type} `{TorchCuda stream gc}.

(** [__init__] *)
Definition init (gpu : Z) (is_strict : bool) :
    M (list (cuda_call gc)) (OffBackend stream) :=
  if is_strict
  then raise (RuntimeError
    "Green contexts requested (strict=True) but no backend is available")
  else
    c ← new_stream gpu; r ← new_stream gpu; s ← new_stream gpu; d ← new_stream gpu;
    mret (mk_OffBackend gpu is_strict false
            [("compute", c); ("recv", r); ("send", s); ("dp", d)]%string
            (mk_StreamBundle c r s d 0 0) []).

Definition is_supported (b : OffBackend stream) : bool := false.
Definition unsupported_reason (b : OffBackend stream) : string :=
  "Off backend (no green context)".
Definition available_sm_counts (b : OffBackend stream) : list Z := [0].
Definition sm_step (b : OffBackend stream) : Z := 0.
Definition partition_sm_count (b : OffBackend stream) : Z := 0.
Definition get_stream_bundle (sm : Z) : M (OffBackend stream) (StreamBundle stream) :=
  gets bundle.
Definition activate_for_step (step_or_time : Z) : M (OffBackend stream) (Z * Z) :=
  mret (0, 0).
Definition activate_for_time (elapsed_us : Z) : M (OffBackend stream) (Z * Z) :=
  mret (0, 0).
Definition deactivate (prev_sm_count : Z) : M (OffBackend stream) unit := mret tt.
Definition load_trace (path : string) : M (OffBackend stream) bool := fun b =>
  (Ret true, mk_OffBackend (gpu_id b) (strict b) (closed b) (streams b) (bundle b)
               (path :: warned b)).
Definition sm_count_at_time (b : OffBackend stream) (elapsed_us : Z) : Z := 0.
Definition sm_count_at_step (b : OffBackend stream) (step : Z) : Z := 0.
Definition switch_count (b : OffBackend stream) : Z := 0.
Definition close : M (OffBackend stream) unit := modify (fun b =>
  mk_OffBackend (gpu_id b) (strict b) true (streams b) (bundle b) (warned b)).

#[global] Instance off_backend : GreenCtxBackend stream (OffBackend stream) := {|
  GreenBase.is_supported := is_supported;
  GreenBase.unsupported_reason := unsupported_reason;
  GreenBase.available_sm_counts := available_sm_counts;
  GreenBase.sm_step := sm_step;
  GreenBase.partition_sm_count := partition_sm_count;
  GreenBase.get_stream_bundle := get_stream_bundle;
  GreenBase.activate_for_step := activate_for_step;
  GreenBase.activate_for_time := activate_for_time;
  GreenBase.deactivate := deactivate;
  GreenBase.load_trace := load_trace;
  GreenBase.sm_count_at_time := sm_count_at_time;
  GreenBase.sm_count_at_step := sm_count_at_step;
  GreenBase.switch_count := switch_count;
  GreenBase.close := close;
|}.

(** The object's own invariant: the bundle is the fixed one of [__init__]. *)
Definition wf (b : OffBackend stream) : Prop :=
  sm_count (bundle b) = 0 /\ generation (bundle b) = 0.

Lemma off_init_wf gpu is_strict w b w' :
  init gpu is_strict w = (Ret b, w') -> wf b.
Proof.
  unfold init. destruct is_strict; [done|].
  run. unfold new_stream. intros H1. by repeat case_match; simplify_eq/=.
Qed.

#[global] Program Instance off_laws : GreenCtxLaws stream (OffBackend stream) := {|
  good := wf;
  current := fun _ => 0;
  serves := fun _ sm => sm = 0;
|}.
Next Obligation. intros t b Hb. exact Hb. Qed.
Next Obligation. intros t b Hb. exact Hb. Qed.
Next Obligation. intros p b Hb. exact Hb. Qed.
Next Obligation. intros t b sm gen b' Hb [= <- <- <-]. done. Qed.
Next Obligation. done. Qed.
Next Obligation. intros sm b bd b' [H1 H2] -> [= <- <-]. done. Qed.
Next Obligation. intros t b Hb. exact Hb. Qed.
Next Obligation. done. Qed.
Next Obligation. done. Qed.

End off.
