(* ===== verification/TorchBackend.v ===== *)
(** * The PyTorch green-context backend
    ([morphling/runtime/greenctx/torch_backend.py])

    The object's attributes are the fields of [TorchNativeBackend] (an attribute
    [_x] is the field [x]); [world] is the history of the CUDA calls. *)

From stdpp Require Import sorting.
From S2P Require Import Prelude PyDict GreenBase.
From S2P Require Import Trace.

Record TorchNativeBackend (stream gc : Type) : Type := mk_Torch {
  supported : bool;
  reason : string;
  gpu_id : Z;
  strict : bool;
  closed : bool;
  n_switches : Z;   (** [_switch_count] *)
  cur_generation : Z;   (** [_generation] *)
  active_gc : option gc;
  active_sm : Z;
  contexts : list (Z * gc);
  stream_cache : list ((Z * string) * stream);
  sm_counts : list Z;
  sm_step_val : Z;
  partition_sm : Z;
  trace_entries : list (Z * Z);
  trace_time_unit : string;
  trace_clock_mode : string;
  world : list (cuda_call gc);
}.
Arguments mk_Torch {stream gc}.
Arguments supported {stream gc}.
Arguments reason {stream gc}.
Arguments gpu_id {stream gc}.
Arguments strict {stream gc}.
Arguments closed {stream gc}.
Arguments n_switches {stream gc}.
Arguments cur_generation {stream gc}.
Arguments active_gc {stream gc}.
Arguments active_sm {stream gc}.
Arguments contexts {stream gc}.
Arguments stream_cache {stream gc}.
Arguments sm_counts {stream gc}.
Arguments sm_step_val {stream gc}.
Arguments partition_sm {stream gc}.
Arguments trace_entries {stream gc}.
Arguments trace_time_unit {stream gc}.
Arguments trace_clock_mode {stream gc}.
Arguments world {stream gc}.

Section torch.
Context {stream gc : Type} `{EqDecision gc} `{TorchCuda stream gc}.
Notation self := (TorchNativeBackend stream gc).
Implicit Types b : self.

Definition set_supported x b : self :=
  mk_Torch x (reason b) (gpu_id b) (strict b) (closed b) (n_switches b)
    (cur_generation b) (active_gc b) (active_sm b) (contexts b) (stream_cache b)
    (sm_counts b) (sm_step_val b) (partition_sm b) (trace_entries b)
    (trace_time_unit b) (trace_clock_mode b) (world b).
Definition set_reason x b : self :=
  mk_Torch (supported b) x (gpu_id b) (strict b) (closed b) (n_switches b)
    (cur_generation b) (active_gc b) (active_sm b) (contexts b) (stream_cache b)
    (sm_counts b) (sm_step_val b) (partition_sm b) (trace_entries b)
    (trace_time_unit b) (trace_clock_mode b) (world b).
Definition set_closed x b : self :=
  mk_Torch (supported b) (reason b) (gpu_id b) (strict b) x (n_switches b)
    (cur_generation b) (active_gc b) (active_sm b) (contexts b) (stream_cache b)
    (sm_counts b) (sm_step_val b) (partition_sm b) (trace_entries b)
    (trace_time_unit b) (trace_clock_mode b) (world b).
Definition set_n_switches x b : self :=
  mk_Torch (supported b) (reason b) (gpu_id b) (strict b) (closed b) x
    (cur_generation b) (active_gc b) (active_sm b) (contexts b) (stream_cache b)
    (sm_counts b) (sm_step_val b) (partition_sm b) (trace_entries b)
    (trace_time_unit b) (trace_clock_mode b) (world b).
Definition set_cur_generation x b : self :=
  mk_Torch (supported b) (reason b) (gpu_id b) (strict b) (closed b) (n_switches b)
    x (active_gc b) (active_sm b) (contexts b) (stream_cache b) (sm_counts b)
    (sm_step_val b) (partition_sm b) (trace_entries b) (trace_time_unit b)
    (trace_clock_mode b) (world b).
Definition set_active_gc x b : self :=
  mk_Torch (supported b) (reason b) (gpu_id b) (strict b) (closed b) (n_switches b)
    (cur_generation b) x (active_sm b) (contexts b) (stream_cache b) (sm_counts b)
    (sm_step_val b) (partition_sm b) (trace_entries b) (trace_time_unit b)
    (trace_clock_mode b) (world b).
Definition set_active_sm x b : self :=
  mk_Torch (supported b) (reason b) (gpu_id b) (strict b) (closed b) (n_switches b)
    (cur_generation b) (active_gc b) x (contexts b) (stream_cache b) (sm_counts b)
    (sm_step_val b) (partition_sm b) (trace_entries b) (trace_time_unit b)
    (trace_clock_mode b) (world b).
Definition set_contexts x b : self :=
  mk_Torch (supported b) (reason b) (gpu_id b) (strict b) (closed b) (n_switches b)
    (cur_generation b) (active_gc b) (active_sm b) x (stream_cache b) (sm_counts b)
    (sm_step_val b) (partition_sm b) (trace_entries b) (trace_time_unit b)
    (trace_clock_mode b) (world b).
Definition set_stream_cache x b : self :=
  mk_Torch (supported b) (reason b) (gpu_id b) (strict b) (closed b) (n_switches b)
    (cur_generation b) (active_gc b) (active_sm b) (contexts b) x (sm_counts b)
    (sm_step_val b) (partition_sm b) (trace_entries b) (trace_time_unit b)
    (trace_clock_mode b) (world b).
Definition set_sm_counts x b : self :=
  mk_Torch (supported b) (reason b) (gpu_id b) (strict b) (closed b) (n_switches b)
    (cur_generation b) (active_gc b) (active_sm b) (contexts b) (stream_cache b) x
    (sm_step_val b) (partition_sm b) (trace_entries b) (trace_time_unit b)
    (trace_clock_mode b) (world b).
Definition set_sm_step_val x b : self :=
  mk_Torch (supported b) (reason b) (gpu_id b) (strict b) (closed b) (n_switches b)
    (cur_generation b) (active_gc b) (active_sm b) (contexts b) (stream_cache b)
    (sm_counts b) x (partition_sm b) (trace_entries b) (trace_time_unit b)
    (trace_clock_mode b) (world b).
Definition set_partition_sm x b : self :=
  mk_Torch (supported b) (reason b) (gpu_id b) (strict b) (closed b) (n_switches b)
    (cur_generation b) (active_gc b) (active_sm b) (contexts b) (stream_cache b)
    (sm_counts b) (sm_step_val b) x (trace_entries b) (trace_time_unit b)
    (trace_clock_mode b) (world b).
Definition set_trace_entries x b : self :=
  mk_Torch (supported b) (reason b) (gpu_id b) (strict b) (closed b) (n_switches b)
    (cur_generation b) (active_gc b) (active_sm b) (contexts b) (stream_cache b)
    (sm_counts b) (sm_step_val b) (partition_sm b) x (trace_time_unit b)
    (trace_clock_mode b) (world b).
Definition set_trace_time_unit x b : self :=
  mk_Torch (supported b) (reason b) (gpu_id b) (strict b) (closed b) (n_switches b)
    (cur_generation b) (active_gc b) (active_sm b) (contexts b) (stream_cache b)
    (sm_counts b) (sm_step_val b) (partition_sm b) (trace_entries b) x
    (trace_clock_mode b) (world b).
Definition set_trace_clock_mode x b : self :=
  mk_Torch (supported b) (reason b) (gpu_id b) (strict b) (closed b) (n_switches b)
    (cur_generation b) (active_gc b) (active_sm b) (contexts b) (stream_cache b)
    (sm_counts b) (sm_step_val b) (partition_sm b) (trace_entries b)
    (trace_time_unit b) x (world b).
Definition set_world x b : self :=
  mk_Torch (supported b) (reason b) (gpu_id b) (strict b) (closed b) (n_switches b)
    (cur_generation b) (active_gc b) (active_sm b) (contexts b) (stream_cache b)
    (sm_counts b) (sm_step_val b) (partition_sm b) (trace_entries b)
    (trace_time_unit b) (trace_clock_mode b) x.

(** A CUDA call made by a method *)
Definition call {A} (m : M (list (cuda_call gc)) A) : M self A := zoom world set_world m.

(** The object as the attribute initialisations of [__init__] leave it *)
Definition fresh (gpu : Z) (is_strict : bool) (w : list (cuda_call gc)) : self :=
  mk_Torch false "" gpu is_strict false 0 0 None 0 [] [] [] 0 0 [] "us" "step" w.

Definition no_module_reason : string :=
  "torch.cuda.green_contexts not available (requires PyTorch >= 2.10)".
Definition unsupported_build_reason : string :=
  "torch.cuda.green_contexts.SUPPORTED is False (requires CUDA 12.8+ build)".

(** [range(start, stop, step)] for a positive step *)
Definition py_range (start stop step : Z) : list Z :=
  map (fun k => start + Z.of_nat k * step)
    (seq 0 (Z.to_nat ((stop - start + step - 1) / step))).

(** [sorted(l)] *)
Definition sorted (l : list Z) : list Z := merge_sort Z.le l.

(** The streams of one green context *)
Definition create_streams (gpu sm : Z) : M self unit :=
  for_each ROLE_NAMES (fun role =>
    st ← call (new_stream gpu);
    modify (fun b => set_stream_cache (dict_set (sm, role) st (stream_cache b)) b)).

(** The body of the [try] of the creation loop *)
Definition create_one (gpu sm : Z) : M self unit :=
  g ← call (create_gc sm gpu);
  modify (fun b => set_contexts (dict_set sm g (contexts b)) b);;
  call (set_context g);;
  try_finally (create_streams gpu sm) (call (pop_context g)).

(** [for sm in self._sm_counts]: the result is [created_any]. *)
Fixpoint create_loop (gpu : Z) (is_strict : bool) (sms : list Z) (created_any : bool) :
    M self bool :=
  match sms with
  | [] => mret created_any
  | sm :: sms =>
      ok ← try_except (create_one gpu sm;; mret true)
             (fun e => if is_RuntimeError e
                       then Some (if is_strict then raise e else mret false)
                       else None);
      create_loop gpu is_strict sms (created_any || ok)
  end.

(** The part of [__init__] that runs when green contexts are supported *)
Definition init_supported (gpu : Z) (is_strict : bool) : M self unit :=
  lift (select_device gpu);;
  let props := get_device_properties gpu in
  let total_sms := multi_processor_count props in
  let cc := major props * 10 + minor props in
  let step := if 90 <=? cc then 8 else 2 in
  let counts := py_range step (total_sms + 1) step in
  modify (fun b => set_partition_sm (default 0 (last counts))
                     (set_sm_counts counts (set_sm_step_val step b)));;
  created_any ← create_loop gpu is_strict counts false;
  if (created_any : bool)
  then modify (fun b =>
         let counts := sorted (dict_keys (contexts b)) in
         set_partition_sm (default 0 (last counts))
           (set_sm_counts counts (set_supported true b)))
  else modify (set_reason "No green contexts could be created").

(** [self._reason = r; if strict: raise RuntimeError(r); return] *)
Definition mark_unsupported (is_strict : bool) (r : string) : M self unit :=
  modify (set_reason r);;
  when is_strict (raise (RuntimeError r)).

Definition init_body (gpu : Z) (is_strict : bool) : M self unit :=
  match import_green_contexts with
  | Raise (ModuleNotFoundError _) => mark_unsupported is_strict no_module_reason
  | Raise e => raise e
  | Ret m =>
      if negb (has_GreenContext m) then mark_unsupported is_strict no_module_reason
      else if negb (SUPPORTED m) then mark_unsupported is_strict unsupported_build_reason
      else init_supported gpu is_strict
  end.

(** [__init__] *)
Definition init (gpu : Z) (is_strict : bool) : M (list (cuda_call gc)) self := fun w =>
  match init_body gpu is_strict (fresh gpu is_strict w) with
  | (Ret _, b) => (Ret b, world b)
  | (Raise e, b) => (Raise e, world b)
  end.

Definition is_supported b : bool := supported b.
Definition unsupported_reason b : string := reason b.
Definition available_sm_counts b : list Z := sm_counts b.
Definition sm_step b : Z := sm_step_val b.
Definition partition_sm_count b : Z := partition_sm b.

Definition cached (sm : Z) (role : string) : M self stream := fun b =>
  match dict_get (sm, role) (stream_cache b) with
  | Some st => (Ret st, b)
  | None => (Raise (KeyError (cache_key_repr sm role)), b)
  end.

Definition get_stream_bundle (sm : Z) : M self (StreamBundle stream) :=
  c ← cached sm "compute"; r ← cached sm "recv"; s ← cached sm "send"; d ← cached sm "dp";
  gen ← gets cur_generation;
  mret (mk_StreamBundle c r s d sm gen).

(** [min(self._sm_counts, key=lambda x: abs(x - sm))] *)
Definition nearest (counts : list Z) (sm : Z) : outcome Z :=
  of_option (ValueError "min() arg is an empty sequence")
    (min_by (fun x => Z.abs (x - sm)) counts).

(** The SM count to activate, from the trace's answer *)
Definition target_sm (from_trace : self -> Z) : M self Z := fun b =>
  match trace_entries b with
  | [] => (Ret (partition_sm b), b)
  | _ => (nearest (sm_counts b) (from_trace b), b)
  end.

(** [if self._active_gc is not None and self._active_sm != sm: ...] *)
Definition leave_other (sm : Z) : M self unit :=
  b ← get;
  match active_gc b with
  | Some g =>
      when (negb (active_sm b =? sm))
        (call (pop_context g);;
         modify (fun b => set_cur_generation (cur_generation b + 1)
                   (set_n_switches (n_switches b + 1) (set_active_gc None b))))
  | None => mret tt
  end.

(** [if gc is not None and self._active_gc is None: ...] *)
Definition enter (sm : Z) : M self unit :=
  b ← get;
  match dict_get sm (contexts b), active_gc b with
  | Some g, None =>
      call (set_context g);;
      modify (fun b => set_active_sm sm (set_active_gc (Some g) b));;
      modify (fun b => if n_switches b =? 0
                       then set_cur_generation 1 (set_n_switches 1 b) else b)
  | _, _ => mret tt
  end.

(** The part [activate_for_step] and [activate_for_time] share *)
Definition activate_sm (sm : Z) : M self (Z * Z) :=
  leave_other sm;;
  enter sm;;
  gen ← gets cur_generation;
  mret (sm, gen).

Definition activate_for_step (step_or_time : Z) : M self (Z * Z) :=
  sm ← target_sm (fun b =>
         Trace.sm_count_at_step (trace_entries b) step_or_time (partition_sm b));
  activate_sm sm.

Definition activate_for_time (elapsed_us : Z) : M self (Z * Z) :=
  sm ← target_sm (fun b =>
         Trace.sm_count_at_time (trace_entries b) elapsed_us (trace_time_unit b)
           (partition_sm b));
  activate_sm sm.

Definition deactivate (prev_sm_count : Z) : M self unit :=
  b ← get;
  match active_gc b with
  | Some g => call (pop_context g);; modify (set_active_gc None)
  | None => mret tt
  end.

Definition load_trace (path : string) : M self bool :=
  match parse_trace_file open_text path with
  | Ret (es, tu, cm) =>
      modify (fun b => set_trace_clock_mode cm
                (set_trace_time_unit tu (set_trace_entries es b)));;
      mret (match es with [] => false | _ => true end)
  | Raise _ => mret false
  end.

Definition sm_count_at_time b (elapsed_us : Z) : Z :=
  match trace_entries b with
  | [] => partition_sm b
  | es => Trace.sm_count_at_time es elapsed_us (trace_time_unit b) (partition_sm b)
  end.

Definition sm_count_at_step b (step : Z) : Z :=
  match trace_entries b with
  | [] => partition_sm b
  | es => Trace.sm_count_at_step es step (partition_sm b)
  end.

Definition switch_count b : Z := n_switches b.

Definition close : M self unit :=
  b ← get;
  when (negb (closed b))
    (modify (set_closed true);;
     match active_gc b with
     | Some g =>
         try_except (call (pop_context g)) (fun _ => Some (mret tt));;
         modify (set_active_gc None)
     | None => mret tt
     end;;
     modify (fun b => set_contexts [] (set_stream_cache [] b))).

#[global] Instance torch_backend : GreenCtxBackend stream self := {|
  GreenBase.is_supported := is_supported;
  GreenBase.unsupported_reason := unsupported_reason;
  GreenBase.available_sm_counts := available_sm_counts;
  GreenBase.sm_step := sm_step;
  GreenBase.partition_sm_count := partition_sm_count;
  GreenBase.get_stream_bundle := get_stream_bundle;
  GreenBase.activate_for_step := activate_for_step;
  GreenBase.activate_for_time := activate_for_time;
  GreenBase.deactivate := deactivate;
  GreenBase.load_trace := load_trace;
  GreenBase.sm_count_at_time := sm_count_at_time;
  GreenBase.sm_count_at_step := sm_count_at_step;
  GreenBase.switch_count := switch_count;
  GreenBase.close := close;
|}.

(** ** The invariant

    [base] is the stack of contexts that other code had pushed before the object
    was built: the object's own context, when there is one, is on top of it. *)
Definition wf (base : list gc) b : Prop :=
  ctx_stack (world b) = Some (option_list (active_gc b) ++ base) /\
  (forall g, active_gc b = Some g -> dict_get (active_sm b) (contexts b) = Some g).

Lemma call_pop_wp base g b :
  wf base b -> active_gc b = Some g ->
  wp (call (pop_context g))
    (fun _ b' => b' = set_world (CallPop g true :: world b) b /\
                 ctx_stack (world b') = Some base)
    (fun _ b' => wf base b') b.
Proof.
  intros [Hs Hc] Hg. unfold wp, call, zoom, pop_context. rewrite Hg in Hs.
  destruct (answer_pop (world b) g) as [[]|e]; cbn [is_ret].
  - split; [done|]. apply (ctx_stack_pop _ _ true) in Hs. exact Hs.
  - split; [|exact Hc]. apply (ctx_stack_pop _ _ false) in Hs. cbn. by rewrite Hg.
Qed.

Lemma call_set_wp base g b :
  wf base b -> active_gc b = None ->
  wp (call (set_context g))
    (fun _ b' => b' = set_world (CallSet g true :: world b) b /\
                 ctx_stack (world b') = Some (g :: base))
    (fun _ b' => wf base b') b.
Proof.
  intros [Hs Hc] Hg. unfold wp, call, zoom, set_context. rewrite Hg in Hs.
  destruct (answer_set (world b) g) as [[]|e]; cbn [is_ret].
  - split; [done|]. apply (ctx_stack_set _ g true) in Hs. exact Hs.
  - split; [|exact Hc]. apply (ctx_stack_set _ g false) in Hs. cbn. by rewrite Hg.
Qed.

(** Leaving another context: nothing but the activation changes, and what is
    left active, if anything, is the context of [sm]. *)
Lemma leave_other_wp base sm b :
  wf base b ->
  wp (leave_other sm)
    (fun _ b' => wf base b' /\ contexts b' = contexts b /\
       (active_gc b' = None \/ (active_sm b' = sm /\ b' = b)))
    (fun _ b' => wf base b') b.
Proof.
  intros Hwf. apply wp_bind. unfold wp at 1, get.
  destruct (active_gc b) as [g|] eqn:Hg; [|apply wp_ret; by auto].
  destruct (active_sm b =? sm) eqn:Hsm; cbn [negb when].
  { apply Z.eqb_eq in Hsm. apply wp_ret. by auto. }
  apply wp_bind. eapply wp_mono; [| |by apply call_pop_wp]; [|done].
  intros _ b' [-> Hs]. cbn in *. split_and!; [split; [done|by intros]|done|by left].
Qed.

Lemma enter_wp base sm b :
  wf base b -> active_gc b = None \/ active_sm b = sm ->
  wp (enter sm)
    (fun _ b' => wf base b' /\ contexts b' = contexts b /\
       forall g, dict_get sm (contexts b) = Some g ->
                 active_gc b' = Some g /\ active_sm b' = sm)
    (fun _ b' => wf base b') b.
Proof.
  intros Hwf Hact. apply wp_bind. unfold wp at 1, get.
  destruct (dict_get sm (contexts b)) as [g|] eqn:Hg; [|apply wp_ret; by auto].
  destruct (active_gc b) as [g'|] eqn:Hg'.
  { apply wp_ret. split_and!; try done. intros ? [= <-].
    destruct Hact as [?|Hsm]; [done|]. destruct Hwf as [_ Hc].
    specialize (Hc g' Hg'). rewrite Hsm, Hg in Hc. by simplify_eq. }
  apply wp_bind. eapply wp_mono; [| |by apply call_set_wp]; [|done].
  intros _ b' [-> Hs]. cbn in Hs.
  unfold wp, mbind, M_bind, modify. cbn [set_active_gc set_active_sm n_switches set_world].
  destruct (n_switches b =? 0); cbn;
    (split_and!; [split; [done|by intros ? [= <-]]|done|by intros ? [= <-]]).
Qed.

Lemma activate_sm_wp base sm b :
  wf base b ->
  wp (activate_sm sm)
    (fun r b' => wf base b' /\ contexts b' = contexts b /\ r = (sm, cur_generation b') /\
       forall g, dict_get sm (contexts b) = Some g ->
                 active_gc b' = Some g /\ active_sm b' = sm)
    (fun _ b' => wf base b') b.
Proof.
  intros Hwf. apply wp_bind. eapply wp_mono; [| |by apply leave_other_wp]; [|done].
  intros _ b1 (Hwf1 & Hc1 & Hact). apply wp_bind.
  eapply wp_mono; [| |apply (enter_wp base)]; [|done|done|naive_solver].
  intros _ b2 (Hwf2 & Hc2 & H2). unfold wp, mbind, M_bind, mret, M_ret, gets.
  rewrite Hc1 in Hc2, H2. auto.
Qed.

Lemma wp_preserves {A} base (m : M self A) :
  (forall b, wf base b -> wp m (fun _ => wf base) (fun _ => wf base) b) ->
  preserves (wf base) m.
Proof.
  intros H0 b Hb. specialize (H0 b Hb). unfold wp in H0.
  by destruct (m b) as [[]].
Qed.

Lemma activate_sm_preserves base sm : preserves (wf base) (activate_sm sm).
Proof.
  apply wp_preserves. intros b Hb. eapply wp_mono; [| |by apply activate_sm_wp]; [|done].
  intros ?? H0; apply H0.
Qed.

Lemma target_sm_preserves base f : preserves (wf base) (target_sm f).
Proof. intros b Hb. unfold target_sm. by destruct (trace_entries b). Qed.

Lemma activate_step_preserves base t : preserves (wf base) (activate_for_step t).
Proof.
  apply preserves_bind; [apply target_sm_preserves|]. intros; apply activate_sm_preserves.
Qed.

Lemma activate_time_preserves base t : preserves (wf base) (activate_for_time t).
Proof.
  apply preserves_bind; [apply target_sm_preserves|]. intros; apply activate_sm_preserves.
Qed.

Lemma deactivate_wp base sm b :
  wf base b ->
  wp (deactivate sm) (fun _ b' => wf base b' /\ active_gc b' = None) (fun _ => wf base) b.
Proof.
  intros Hwf. apply wp_bind. unfold wp at 1, get.
  destruct (active_gc b) as [g|] eqn:Hg; [|by apply wp_ret].
  apply wp_bind. eapply wp_mono; [| |by apply call_pop_wp]; [|done].
  intros _ b' [-> Hs]. cbn in *. by split; [split|].
Qed.

Lemma torch_deactivate_preserves base sm : preserves (wf base) (deactivate sm).
Proof.
  apply wp_preserves. intros b Hb. eapply wp_mono; [| |by apply deactivate_wp]; [|done].
  intros ?? H0; apply H0.
Qed.

Lemma load_trace_preserves base path : preserves (wf base) (load_trace path).
Proof.
  intros b Hb. unfold load_trace.
  by destruct (parse_trace_file open_text path) as [[[es tu] cm]|e].
Qed.

Lemma get_stream_bundle_pure sm b : snd (get_stream_bundle sm b) = b.
Proof.
  unfold get_stream_bundle, cached. run.
  repeat (case_match; simplify_eq/=); done.
Qed.

Lemma get_stream_bundle_Ret sm b bd b' :
  get_stream_bundle sm b = (Ret bd, b') ->
  sm_count bd = sm /\ generation bd = cur_generation b.
Proof.
  unfold get_stream_bundle, cached. run.
  intros Hb. repeat (case_match; simplify_eq/=); done.
Qed.

#[global] Program Instance torch_laws (base : list gc) : GreenCtxLaws stream self := {|
  good := wf base;
  current := cur_generation;
  serves := fun _ _ => True;
|}.
Next Obligation. intros base t. apply activate_step_preserves. Qed.
Next Obligation. intros base t. apply activate_time_preserves. Qed.
Next Obligation. intros base p. apply load_trace_preserves. Qed.
Next Obligation.
  intros base t b sm gen b' Hwf Ha. split; [done|].
  cbn in Ha. unfold activate_for_step, mbind, M_bind in Ha.
  pose proof (target_sm_preserves base (fun b => Trace.sm_count_at_step
    (trace_entries b) t (partition_sm b)) b Hwf) as Ht.
  destruct (target_sm _ b) as [[sm'|?] b1]; [|done].
  pose proof (activate_sm_wp base sm' b1 Ht) as Hw. unfold wp in Hw. rewrite Ha in Hw.
  by destruct Hw as (_ & _ & [= -> ->] & _).
Qed.
Next Obligation. intros base sm b. apply get_stream_bundle_pure. Qed.
Next Obligation. intros base sm b bd b' _ _. apply get_stream_bundle_Ret. Qed.
Next Obligation. intros base sm. apply torch_deactivate_preserves. Qed.
Next Obligation. done. Qed.
Next Obligation. done. Qed.

(** ** Construction *)

(** No context of the object is pushed. *)
Definition quiet (st : list gc) b : Prop :=
  ctx_stack (world b) = Some st /\ active_gc b = None.

Lemma quiet_wf base b : quiet base b -> wf base b.
Proof. intros [Hs Ha]. split; rewrite Ha; [done|by intros]. Qed.

Lemma quiet_call st (A : Type) (m : M (list (cuda_call gc)) A) :
  (forall w, ctx_stack w = Some st -> ctx_stack (snd (m w)) = Some st) ->
  preserves (quiet st) (call m).
Proof.
  intros Hm b [Hs Ha]. unfold call, zoom. specialize (Hm _ Hs).
  destruct (m (world b)) as [r w]. by split.
Qed.

Lemma create_streams_quiet st gpu sm : preserves (quiet st) (create_streams gpu sm).
Proof.
  apply preserves_for_each. intros role. apply preserves_bind.
  - apply quiet_call. intros w Hw. exact Hw.
  - intros a. by apply preserves_modify.
Qed.

(** What the constructor keeps: a predicate of the calls and of the active
    context that the creation of a context and the pair of its push and its pop
    keep. *)
Section create.
Variable I : self -> Prop.
Hypothesis I_view : forall b b',
  world b' = world b -> active_gc b' = active_gc b -> I b -> I b'.
Hypothesis I_create : forall gpu sm, preserves I (call (create_gc sm gpu)).
Hypothesis I_push_pop : forall gpu sm g,
  preserves I (call (set_context g);; try_finally (create_streams gpu sm) (call (pop_context g))).

Lemma create_one_keeps gpu sm : preserves I (create_one gpu sm).
Proof.
  apply preserves_bind; [apply I_create|]. intros g.
  apply preserves_bind; [apply preserves_modify; intros b; by apply I_view|].
  intros _. apply I_push_pop.
Qed.

Lemma create_loop_keeps gpu is_strict sms any : preserves I (create_loop gpu is_strict sms any).
Proof.
  revert any. induction sms as [|sm sms IH]; intros any; [apply preserves_ret|].
  apply preserves_bind; [|intros; apply IH].
  apply preserves_try_except.
  - apply preserves_bind; [apply create_one_keeps | intros; apply preserves_ret].
  - intros e k Hk. destruct (is_RuntimeError e), is_strict; simplify_eq;
      [apply preserves_raise | apply preserves_ret].
Qed.

Lemma mark_unsupported_keeps is_strict r : preserves I (mark_unsupported is_strict r).
Proof. intros b Hb. destruct is_strict; by apply (I_view b). Qed.

Lemma init_body_keeps gpu is_strict : preserves I (init_body gpu is_strict).
Proof.
  unfold init_body. destruct import_green_contexts as [m|e].
  - destruct (has_GreenContext m); [|apply mark_unsupported_keeps].
    destruct (SUPPORTED m); [|apply mark_unsupported_keeps]. cbn [negb].
    apply preserves_bind; [apply preserves_lift|intros _].
    apply preserves_bind; [apply preserves_modify; intros b; by apply I_view|intros _].
    apply preserves_bind; [apply create_loop_keeps|].
    intros []; apply preserves_modify; intros b; by apply I_view.
  - destruct e; try apply preserves_raise. apply mark_unsupported_keeps.
Qed.

Lemma init_keeps gpu is_strict w :
  I (fresh gpu is_strict w) ->
  forall b w', init gpu is_strict w = (Ret b, w') -> I b.
Proof.
  intros Hw b w'. unfold init. pose proof (init_body_keeps gpu is_strict _ Hw) as Hb.
  destruct (init_body _ _ _) as [[[]|e] b1]; [|done]. by intros [= <- <-].
Qed.

End create.

Lemma push_pop_quiet st gpu sm g :
  (forall w g, answer_pop w g = Ret tt) ->
  preserves (quiet st)
    (call (set_context g);; try_finally (create_streams gpu sm) (call (pop_context g))).
Proof.
  intros Hpop b [Hs Ha]. unfold mbind, M_bind, call at 1, zoom, set_context.
  destruct (answer_set (world b) g) as [[]|e]; cbn [is_ret].
  2:{ split; [|exact Ha]. cbn. by rewrite Hs. }
  set (b1 := set_world _ b).
  assert (Hb1 : quiet (g :: st) b1).
  { split; [|exact Ha]. exact (ctx_stack_set (world b) g true st Hs). }
  apply (create_streams_quiet _ gpu sm) in Hb1. unfold try_finally.
  destruct (create_streams gpu sm b1) as [r b2]. destruct Hb1 as [Hs2 Ha2].
  unfold call, zoom, pop_context. rewrite Hpop. cbn [is_ret snd].
  split; [|exact Ha2]. exact (ctx_stack_pop (world b2) g true st Hs2).
Qed.

Lemma init_quiet base gpu is_strict w :
  (forall w g, answer_pop w g = Ret tt) -> ctx_stack w = Some base ->
  ctx_stack (snd (init gpu is_strict w)) = Some base /\
  forall b w', init gpu is_strict w = (Ret b, w') -> quiet base b.
Proof.
  intros Hpop Hw. unfold init.
  assert (Hb : quiet base (snd (init_body gpu is_strict (fresh gpu is_strict w)))).
  { apply init_body_keeps; [|by intros; apply quiet_call| |by split].
    - intros b b' Hw1 Ha1 [??]. split; by rewrite ?Hw1, ?Ha1.
    - intros. by apply push_pop_quiet. }
  destruct (init_body _ _ _) as [[[]|e] b]; cbn in *; split; try apply Hb; try done.
  by intros ? ? [= <- <-].
Qed.

(** ** The methods as steps *)

Inductive torch_step : self -> self -> Prop :=
  | step_activate_for_step t b : torch_step b (snd (activate_for_step t b))
  | step_activate_for_time t b : torch_step b (snd (activate_for_time t b))
  | step_deactivate sm b : torch_step b (snd (deactivate sm b))
  | step_load_trace path b : torch_step b (snd (load_trace path b))
  | step_get_stream_bundle sm b : torch_step b (snd (get_stream_bundle sm b))
  | step_close b : torch_step b (snd (close b)).

(** ** The calls only grow *)

(** The object made its calls after [w0]. *)
Definition extends (w0 : list (cuda_call gc)) b : Prop := exists calls, world b = calls ++ w0.

Lemma extends_call {A} w0 (m : M (list (cuda_call gc)) A) :
  (forall w, exists c, snd (m w) = c :: w) -> preserves (extends w0) (call m).
Proof.
  intros Hm b [calls Hw]. unfold call, zoom. destruct (Hm (world b)) as [c Hc].
  destruct (m (world b)) as [r w]. cbn in *. subst w. exists (c :: calls). cbn. by rewrite Hw.
Qed.

Ltac grow := repeat first
  [ progress intros
  | apply preserves_bind | apply preserves_for_each | apply preserves_ret
  | apply preserves_raise | apply preserves_lift | apply preserves_gets
  | apply preserves_modify; intros; by repeat case_match | apply preserves_try_finally
  | apply extends_call; eexists; reflexivity
  | match goal with |- preserves _ get => exact (fun _ H => H) end
  | apply preserves_when | case_match ].

Lemma create_streams_extends w0 gpu sm : preserves (extends w0) (create_streams gpu sm).
Proof. unfold create_streams. grow. Qed.

Lemma activate_sm_extends w0 sm : preserves (extends w0) (activate_sm sm).
Proof. unfold activate_sm, leave_other, enter. grow. Qed.

Lemma target_sm_extends w0 f : preserves (extends w0) (target_sm f).
Proof. intros b Hb. unfold target_sm. by destruct (trace_entries b). Qed.

Lemma deactivate_extends w0 sm : preserves (extends w0) (deactivate sm).
Proof. unfold deactivate. grow. Qed.

Lemma load_trace_extends w0 path : preserves (extends w0) (load_trace path).
Proof. unfold load_trace. grow. Qed.

(** ** Where every pushed context is accounted for *)

(** The contexts whose own pop raised *)
Definition failed_pops (calls : list (cuda_call gc)) : list gc :=
  omap (fun c => match c with CallPop g false => Some g | _ => None end) calls.

(** The object made [calls] after [w0]; on the stack are its active context,
    then contexts whose pop raised, then what the program had pushed before. *)
Definition accounted (base : list gc) (w0 : list (cuda_call gc)) b : Prop :=
  exists calls left, world b = calls ++ w0 /\ wf (left ++ base) b /\
    left ⊆+ failed_pops calls.

Lemma accounted_keeps {A} base w0 (m : M self A) :
  (forall st, preserves (wf st) m) -> (forall w, preserves (extends w) m) ->
  preserves (accounted base w0) m.
Proof.
  intros Hwf Hext b (calls & left & Hw & Hb & Hl).
  destruct (Hext (world b) b (ex_intro _ [] eq_refl)) as [new Hnew].
  exists (new ++ calls), left. split_and!; [by rewrite Hnew, Hw, app_assoc|by apply Hwf|].
  unfold failed_pops. rewrite omap_app. etrans; [exact Hl|]. apply submseteq_inserts_l, reflexivity.
Qed.

(** Popping the one context pushed on top: it is gone, or its pop raised. *)
Lemma strand calls w0 base left g (ok : bool) b :
  world b = calls ++ w0 -> ctx_stack (world b) = Some (g :: left ++ base) ->
  left ⊆+ failed_pops calls -> active_gc b = None ->
  accounted base w0 (set_world (CallPop g ok :: world b) b).
Proof.
  intros Hw Hs Hl Ha. apply (ctx_stack_pop _ _ ok) in Hs.
  exists (CallPop g ok :: calls), (if ok then left else g :: left).
  split_and!; [cbn; by rewrite Hw| |].
  - split; cbn [world active_gc set_world]; rewrite Ha; [by destruct ok|by intros].
  - destruct ok; [done|]. by apply submseteq_skip.
Qed.

Definition settled (base : list gc) (w0 : list (cuda_call gc)) b : Prop :=
  accounted base w0 b /\ active_gc b = None.

Lemma settled_stack base w0 b :
  settled base w0 b -> exists calls left, world b = calls ++ w0 /\
    quiet (left ++ base) b /\ left ⊆+ failed_pops calls.
Proof.
  intros [(calls & left & Hw & [Hs _] & Hl) Ha]. rewrite Ha in Hs.
  by exists calls, left.
Qed.

Lemma push_pop_settled base w0 gpu sm g :
  preserves (settled base w0)
    (call (set_context g);; try_finally (create_streams gpu sm) (call (pop_context g))).
Proof.
  intros b (calls & left & Hw & [Hs Ha] & Hl)%settled_stack.
  unfold mbind, M_bind, call at 1, zoom, set_context.
  destruct (answer_set (world b) g) as [[]|e]; cbn [is_ret snd].
  2:{ split; [|exact Ha]. exists (CallSet g false :: calls), left.
      split_and!; [cbn; by rewrite Hw|split; cbn; rewrite Ha; by rewrite ?Hs|done]. }
  set (b1 := set_world _ b).
  assert (Hb1 : quiet (g :: left ++ base) b1).
  { split; [|exact Ha]. exact (ctx_stack_set (world b) g true _ Hs). }
  pose proof (create_streams_extends (world b1) gpu sm b1 (ex_intro _ [] eq_refl)) as [new Hnew].
  apply (create_streams_quiet _ gpu sm) in Hb1. unfold try_finally.
  destruct (create_streams gpu sm b1) as [r b2]. destruct Hb1 as [Hs2 Ha2].
  cbn [snd] in *. unfold call, zoom, pop_context.
  assert (Hacc : forall ok, settled base w0 (set_world (CallPop g ok :: world b2) b2)).
  { intros ok. split; [|exact Ha2].
    apply (strand (new ++ CallSet g true :: calls) w0 base left); try done.
    - rewrite Hnew. unfold b1. cbn. rewrite Hw, <- app_assoc. done.
    - unfold failed_pops. rewrite omap_app. etrans; [exact Hl|].
      apply submseteq_inserts_l. done. }
  destruct (answer_pop (world b2) g) as [[]|e]; apply Hacc.
Qed.

Lemma init_accounted base gpu is_strict w b w' :
  ctx_stack w = Some base -> init gpu is_strict w = (Ret b, w') -> accounted base w b.
Proof.
  intros Hw Hinit. cut (settled base w b); [by intros []|]. revert b w' Hinit.
  apply init_keeps.
  - intros b b' Hw1 Ha1 (calls & left & Hwb & [Hs Ha] & Hl)%settled_stack.
    split; [|by rewrite Ha1]. exists calls, left. rewrite Hw1. split_and!; try done.
    apply quiet_wf. split; by rewrite ?Hw1, ?Ha1.
  - intros gpu' sm b (calls & left & Hwb & [Hs Ha] & Hl)%settled_stack.
    split; [|done]. exists (CallCreate sm gpu' (is_ret (answer_create (world b) sm gpu')) :: calls), left.
    split_and!; [cbn; by rewrite Hwb|by apply quiet_wf|done].
  - intros. apply push_pop_settled.
  - split; [|done]. exists [], []. split_and!; [done|by apply quiet_wf|done].
Qed.

Lemma close_accounted base w0 b : accounted base w0 b -> accounted base w0 (snd (close b)).
Proof.
  intros (calls & left & Hw & [Hs Hc] & Hl). unfold close, mbind, M_bind, get, when.
  destruct (closed b); cbn [negb]; [by exists calls, left|].
  unfold modify, try_except. cbn [set_closed].
  destruct (active_gc b) as [g|] eqn:Hg.
  - set (b1 := set_active_gc None b).
    assert (Hacc : forall ok, accounted base w0 (set_world (CallPop g ok :: world b1) b1)).
    { intros ok. by apply (strand calls w0 base left). }
    unfold call, zoom, pop_context. cbn [world set_closed].
    destruct (answer_pop (world b) g) as [[]|e]; cbn [is_ret snd];
      [destruct (Hacc true) as (calls' & left' & Hw' & [Hs' _] & Hl')
      |destruct (Hacc false) as (calls' & left' & Hw' & [Hs' _] & Hl')];
      by exists calls', left'.
  - exists calls, left. split_and!; [done|split; cbn; by rewrite ?Hg|done].
Qed.

Lemma torch_step_accounted base w0 b b' :
  torch_step b b' -> accounted base w0 b -> accounted base w0 b'.
Proof.
  assert (Hact : forall f, preserves (accounted base w0) (sm ← target_sm f; activate_sm sm)).
  { intros f. apply accounted_keeps; intros st; apply preserves_bind;
      intros; auto using target_sm_preserves, activate_sm_preserves,
        target_sm_extends, activate_sm_extends. }
  destruct 1 as [t b|t b|sm b|path b|sm b|b]; intros Hb.
  - by apply Hact.
  - by apply Hact.
  - apply accounted_keeps; auto using torch_deactivate_preserves, deactivate_extends.
  - apply accounted_keeps; auto using load_trace_preserves, load_trace_extends.
  - by rewrite get_stream_bundle_pure.
  - by apply close_accounted.
Qed.

Lemma torch_steps_accounted base w0 b b' :
  rtc torch_step b b' -> accounted base w0 b -> accounted base w0 b'.
Proof. induction 1; eauto using torch_step_accounted. Qed.

(** ** Switch counting *)

Lemma activate_sm_quiet_switches sm b :
  active_gc b = None -> n_switches b <= 1 -> n_switches (snd (activate_sm sm b)) <= 1.
Proof.
  intros Ha Hn. unfold activate_sm, leave_other, enter, mbind, M_bind, get. rewrite Ha.
  unfold mret, M_ret at 1. cbv beta iota. rewrite Ha.
  destruct (dict_get sm (contexts b)) as [g|]; [|done].
  unfold call, zoom, set_context, modify.
  destruct (answer_set (world b) g) as [[]|e]; cbn; [|exact Hn].
  destruct (n_switches b =? 0); cbn; lia.
Qed.

Lemma target_sm_state f b : snd (target_sm f b) = b.
Proof. unfold target_sm. by destruct (trace_entries b). Qed.

Lemma target_sm_traced f b :
  trace_entries b <> [] -> target_sm f b = (nearest (sm_counts b) (f b), b).
Proof. unfold target_sm. by destruct (trace_entries b). Qed.

Lemma activate_step_switches t b :
  active_gc b = None -> n_switches b <= 1 ->
  n_switches (snd (activate_for_step t b)) <= 1.
Proof.
  intros Ha Hn. unfold activate_for_step, mbind, M_bind.
  set (f := fun _ : self => _). pose proof (target_sm_state f b) as Hs.
  destruct (target_sm f b) as [[sm|e] b1]; cbn in Hs; subst b1; [|done].
  by apply activate_sm_quiet_switches.
Qed.

Lemma deactivate_switches sm b : n_switches (snd (deactivate sm b)) = n_switches b.
Proof.
  unfold deactivate, mbind, M_bind, get. destruct (active_gc b) as [g|]; [|done].
  unfold call, zoom, pop_context. by destruct (answer_pop (world b) g) as [[]|e].
Qed.

(** From rest, an activation that raises leaves the object at rest. *)
Lemma activate_time_raises_quiet base t b :
  quiet base b -> is_ret (fst (activate_for_time t b)) = false ->
  quiet base (snd (activate_for_time t b)).
Proof.
  intros [Hs Ha]. unfold activate_for_time, mbind, M_bind.
  match goal with |- context [target_sm ?f b] =>
    pose proof (target_sm_state f b) as Ht; destruct (target_sm f b) as [[sm|e] b1] end;
    cbn in Ht; subst b1; [|by split].
  unfold activate_sm, leave_other, enter, mbind, M_bind, get, mret, M_ret. rewrite Ha.
  cbv beta iota. rewrite Ha. destruct (dict_get sm (contexts b)) as [g|]; [|done].
  unfold call, zoom, set_context, modify.
  destruct (answer_set (world b) g) as [[]|e]; cbn; [done|]. intros _.
  split; [|done]. cbn. by rewrite Hs.
Qed.

(** A deactivation leaves no context active, unless its pop raised. *)
Lemma deactivate_clears sm b :
  active_gc (snd (deactivate sm b)) = None \/
  exists g, world (snd (deactivate sm b)) = CallPop g false :: world b.
Proof.
  unfold deactivate, mbind, M_bind, get. destruct (active_gc b) as [g|] eqn:Hg; [|by left].
  unfold call, zoom, pop_context. destruct (answer_pop (world b) g) as [[]|e]; [by left|].
  right. by exists g.
Qed.

Lemma activate_time_extends w0 t : preserves (extends w0) (activate_for_time t).
Proof.
  apply preserves_bind; [apply target_sm_extends|intros; apply activate_sm_extends].
Qed.

(** ** Balanced: nothing stays active while no pop raised *)

Definition balanced (base : list gc) (w0 : list (cuda_call gc)) b : Prop :=
  wf base b /\ exists calls, world b = calls ++ w0 /\
    (failed_pops calls = [] -> active_gc b = None).

Lemma failed_pops_app l k : failed_pops (l ++ k) = failed_pops l ++ failed_pops k.
Proof. apply omap_app. Qed.

Lemma activate_time_raises_balanced base w0 t b e b1 :
  balanced base w0 b -> activate_for_time t b = (Raise e, b1) -> balanced base w0 b1.
Proof.
  intros (Hwf & calls & Hw & Hq) Ha.
  pose proof (activate_time_preserves base t b Hwf) as Hwf1.
  destruct (activate_time_extends (world b) t b (ex_intro _ [] eq_refl)) as [new Hn].
  pose proof (activate_time_raises_quiet base t b) as Hr.
  rewrite Ha in *. cbn [fst snd] in *. split; [exact Hwf1|]. exists (new ++ calls).
  split; [by rewrite Hn, Hw, app_assoc|]. rewrite failed_pops_app.
  intros [_ Hf]%app_eq_nil. destruct Hwf as [Hs _]. specialize (Hq Hf). rewrite Hq in Hs.
  by destruct (Hr (conj Hs Hq) eq_refl).
Qed.

Lemma scope_balanced base w0 t sm b r b1 :
  balanced base w0 b -> activate_for_time t b = (Ret r, b1) ->
  balanced base w0 (snd (deactivate sm b1)).
Proof.
  intros (Hwf & calls & Hw & Hq) Ha.
  pose proof (activate_time_preserves base t b Hwf) as Hwf1.
  destruct (activate_time_extends (world b) t b (ex_intro _ [] eq_refl)) as [new Hn].
  rewrite Ha in *. cbn [fst snd] in *.
  split; [by apply torch_deactivate_preserves|].
  destruct (deactivate_extends (world b1) sm b1 (ex_intro _ [] eq_refl)) as [new' Hn'].
  exists (new' ++ new ++ calls). split; [by rewrite Hn', Hn, Hw, !app_assoc|].
  rewrite !failed_pops_app. intros [Hf _]%app_eq_nil.
  destruct (deactivate_clears sm b1) as [?|[g Hg]]; [done|].
  rewrite Hn' in Hg. apply (app_inv_tail (world b1) _ [_]) in Hg. by subst new'.
Qed.

(** Construction counts no switch. *)
Definition unswitched b : Prop := n_switches b = 0.

Lemma call_unswitched {A} (m : M (list (cuda_call gc)) A) : preserves unswitched (call m).
Proof. intros b Hb. unfold call, zoom. by destruct (m (world b)). Qed.

Lemma create_one_unswitched gpu sm : preserves unswitched (create_one gpu sm).
Proof.
  repeat first [apply preserves_bind; [|intros ?] | apply preserves_try_finally
               | apply preserves_for_each; intros ? | apply call_unswitched
               | apply preserves_modify; by intros]; by intros b.
Qed.

Lemma create_loop_unswitched gpu is_strict sms any :
  preserves unswitched (create_loop gpu is_strict sms any).
Proof.
  revert any. induction sms as [|sm sms IH]; intros any; [apply preserves_ret|].
  apply preserves_bind; [|intros ok; apply IH]. apply preserves_try_except.
  - apply preserves_bind; [apply create_one_unswitched|intros ?; apply preserves_ret].
  - intros e k. destruct (is_RuntimeError e); [|done]. intros [= <-].
    destruct is_strict; [apply preserves_raise|apply preserves_ret].
Qed.

Lemma init_unswitched gpu is_strict w b w' :
  init gpu is_strict w = (Ret b, w') -> n_switches b = 0.
Proof.
  assert (Hp : preserves unswitched (init_body gpu is_strict)).
  { assert (Hm : forall r, preserves unswitched (mark_unsupported is_strict r)).
    { intros r. apply preserves_bind; [by apply preserves_modify|intros _].
      apply preserves_when, preserves_raise. }
    unfold init_body. destruct import_green_contexts as [m|e]; [|destruct e; first [apply Hm | apply preserves_raise]].
    destruct (has_GreenContext m); cbn [negb]; [|apply Hm].
    destruct (SUPPORTED m); cbn [negb]; [|apply Hm].
    apply preserves_bind; [apply preserves_lift|intros _].
    apply preserves_bind; [by apply preserves_modify|intros _].
    apply preserves_bind; [apply create_loop_unswitched|].
    intros [|]; by apply preserves_modify. }
  unfold init. specialize (Hp (fresh gpu is_strict w) eq_refl).
  destruct (init_body _ _ _) as [[[]|e] b1]; [|done]. by intros [= -> _].
Qed.

(** ** A construction in which every CUDA call returns *)

Section all_return.
Hypothesis create_returns : forall w n d, is_ret (answer_create w n d) = true.
Hypothesis set_returns : forall w g, is_ret (answer_set w g) = true.
Hypothesis pop_returns' : forall w g, is_ret (answer_pop w g) = true.
Hypothesis stream_returns : forall w d, is_ret (answer_stream w d) = true.

Definition no_exn : exn -> self -> Prop := fun _ _ => False.

(** [has b sm]: the object has a context and all four streams for [sm]. *)
Definition has_streams (roles : list string) (sm : Z) b : Prop :=
  forall role, role ∈ roles -> is_Some (dict_get (sm, role) (stream_cache b)).

Definition keeps b b' : Prop :=
  (forall k, is_Some (dict_get k (stream_cache b)) -> is_Some (dict_get k (stream_cache b'))).

Lemma wp_call_returns {A} (m : M (list (cuda_call gc)) A) b :
  is_ret (fst (m (world b))) = true ->
  wp (call m) (fun _ b' => b' = set_world (snd (m (world b))) b) no_exn b.
Proof.
  unfold wp, call, zoom. destruct (m (world b)) as [[a|e] w]; [by intros|done].
Qed.

Lemma create_streams_wp gpu sm roles b :
  wp (for_each roles (fun role =>
        st ← call (new_stream gpu);
        modify (fun b => set_stream_cache (dict_set (sm, role) st (stream_cache b)) b)))
    (fun _ b' => contexts b' = contexts b /\ keeps b b' /\ has_streams roles sm b')
    no_exn b.
Proof.
  revert b. induction roles as [|role roles IH]; intros b.
  { unfold wp. cbn. split_and!; [done|by intros k|]. intros r Hr. by apply not_elem_of_nil in Hr. }
  set (f := fun role => _) in *. cbn [for_each].
  pose proof (wp_call_returns (new_stream gpu) b) as Hc.
  assert (Hf : wp (f role) (fun _ b1 => contexts b1 = contexts b /\ keeps b b1 /\
                 is_Some (dict_get (sm, role) (stream_cache b1))) no_exn b).
  { apply wp_bind. eapply wp_mono; [| |apply Hc; apply stream_returns]; [|done].
    intros st b1 ->. unfold wp, modify, keeps. cbn. split_and!; [done| |].
    - intros k Hk. rewrite dict_get_set. by case_decide.
    - by rewrite dict_get_set_eq. }
  unfold wp in Hf |- *. destruct (f role b) as [[[]|e] b1]; [|done].
  destruct Hf as (Hc1 & Hk1 & Hr1). specialize (IH b1). unfold wp in IH.
  destruct (for_each roles f b1) as [[[]|e] b2]; [|done].
  destruct IH as (Hc2 & Hk2 & Hr2). split_and!; [congruence|unfold keeps in *; auto|].
  intros r [->|Hr]%elem_of_cons; auto.
Qed.

Lemma create_one_wp gpu sm b :
  sm ∉ dict_keys (contexts b) ->
  wp (create_one gpu sm)
    (fun _ b' => dict_keys (contexts b') = dict_keys (contexts b) ++ [sm] /\
                 keeps b b' /\ has_streams ROLE_NAMES sm b') no_exn b.
Proof.
  intros Hsm. apply wp_bind.
  eapply wp_mono; [| |apply wp_call_returns, create_returns]; [|done].
  intros g b1 ->. apply wp_bind. unfold wp at 1, modify. apply wp_bind.
  eapply wp_mono; [| |apply wp_call_returns, set_returns]; [|done].
  intros _ b2 ->. apply wp_try_finally.
  eapply wp_mono; [| |apply create_streams_wp]; [|done].
  intros _ b3 (Hc & Hk & Hr). cbn in Hc.
  eapply wp_mono; [| |apply wp_call_returns, pop_returns']; [|done].
  intros _ b4 ->. cbn. rewrite Hc. split_and!; [|exact Hk|exact Hr].
  rewrite dict_set_fresh by done. unfold dict_keys. by rewrite fmap_app.
Qed.

Lemma create_loop_wp gpu is_strict sms any b :
  NoDup (dict_keys (contexts b) ++ sms) ->
  (forall sm, sm ∈ dict_keys (contexts b) -> has_streams ROLE_NAMES sm b) ->
  wp (create_loop gpu is_strict sms any)
    (fun r b' => dict_keys (contexts b') = dict_keys (contexts b) ++ sms /\
       (forall sm, sm ∈ dict_keys (contexts b') -> has_streams ROLE_NAMES sm b') /\
       r = (any || negb (bool_decide (sms = [])))) no_exn b.
Proof.
  revert any b. induction sms as [|sm sms IH]; intros any b Hnd Hall.
  { apply wp_ret. rewrite app_nil_r, orb_false_r. auto. }
  assert (Hsm : sm ∉ dict_keys (contexts b)).
  { apply NoDup_app in Hnd as (_ & Hn & _). intros Hin. apply (Hn sm Hin). left. }
  apply wp_bind. unfold try_except, wp at 1.
  pose proof (create_one_wp gpu sm b Hsm) as H1. unfold wp in H1.
  unfold mbind at 1, M_bind at 1.
  destruct (create_one gpu sm b) as [[[]|e] b1]; [|done].
  destruct H1 as (Hk1 & Hkeep & Hr1). cbn.
  eapply wp_mono; [| |apply IH]; [|done| |].
  - intros r b2 (Hk2 & Hr2 & ->). split_and!.
    { by rewrite Hk2, Hk1, <- app_assoc. }
    { exact Hr2. }
    { by destruct any. }
  - by rewrite Hk1, <- app_assoc.
  - intros sm'. rewrite Hk1. intros [Hin|Hin]%elem_of_app.
    + intros role Hrole. apply Hkeep. by apply Hall.
    + apply list_elem_of_singleton in Hin as ->. exact Hr1.
Qed.

End all_return.

Lemma get_stream_bundle_has sm b :
  has_streams ROLE_NAMES sm b -> is_ret (fst (get_stream_bundle sm b)) = true.
Proof.
  intros H0. unfold get_stream_bundle, cached, mbind, M_bind, gets, mret, M_ret.
  repeat match goal with
    |- context [dict_get (sm, ?r) (stream_cache b)] =>
      destruct (H0 r) as [? ->]; [unfold ROLE_NAMES; set_solver|]
    end. done.
Qed.

End torch.

(** ** Sorted counts *)

Lemma py_range_sorted start stop step : 0 < step -> Sorted Z.le (py_range start stop step).
Proof.
  intros Hs. unfold py_range. generalize (Z.to_nat ((stop - start + step - 1) / step)) as n.
  intros n. generalize 0%nat as k. induction n as [|n IH]; intros k; cbn; [constructor|].
  constructor; [apply IH|]. destruct n; cbn; constructor. nia.
Qed.

Lemma sorted_id l : Sorted Z.le l -> sorted l = l.
Proof.
  intros Hl. apply (Sorted_unique Z.le); [apply Sorted_merge_sort; apply _|done|].
  apply merge_sort_Permutation.
Qed.

Lemma py_range_NoDup start stop step : 0 < step -> NoDup (py_range start stop step).
Proof.
  intros Hs. unfold py_range. apply NoDup_fmap_2_strong; [|apply NoDup_seq].
  intros x y _ _ Heq. nia.
Qed.

(** A CUDA library in which every call returns: a context is its SM count, a
    stream the number of calls made before it; the device is an L40S with eight
    SMs, and one trace file can be opened. *)
Definition demo_cuda : TorchCuda nat Z := {|
  import_green_contexts := Ret (mk_green_module true true);
  select_device := fun _ => Ret tt;
  get_device_properties := fun _ => mk_device_props 8 8 9;
  answer_create := fun _ n _ => Ret n;
  answer_set := fun _ _ => Ret tt;
  answer_pop := fun _ _ => Ret tt;
  answer_stream := fun w _ => Ret (length w);
  open_text := fun path =>
    if String.eqb path "t.trace" then Ret (render_v2 "us" "step" [(0, 3); (1, 8); (2, 5)] "x")
    else Raise (OSError "No such file");
|}.

Definition demo_self : TorchNativeBackend nat Z :=
  match init (H := demo_cuda) 0 false [] with
  | (Ret b, _) => snd (load_trace (H := demo_cuda) "t.trace" b)
  | _ => fresh 0 false []
  end.

(** ** Properties *)

Section properties.
Context {stream gc : Type} `{EqDecision gc} {E : TorchCuda stream gc}.
Notation self := (TorchNativeBackend stream gc).
Implicit Types b : self.

(** C1: every context the backend pushes is accounted for: whatever sequence of
    its methods is called on a constructed backend, and whichever CUDA calls
    raise on the way, every successful pop matches the last push, and the stack
    holds the one active context, then contexts whose own [pop_context] raised
    (in a construction that is not strict, or in [close], which both go on after
    it), then what the program had pushed before.  When no pop raised, the active
    context is the only one. *)
Theorem torch_contexts_bracketed base gpu is_strict w b w' b'
    (Hw : ctx_stack w = Some base)
    (Hinit : init gpu is_strict w = (Ret b, w'))
    (Hsteps : rtc torch_step b b') :
  exists calls left, world b' = calls ++ w /\
    ctx_stack (world b') = Some (option_list (active_gc b') ++ left ++ base) /\
    left ⊆+ failed_pops calls /\
    (failed_pops calls = [] -> left = []).
Proof.
  pose proof (init_accounted base gpu is_strict w b w' Hw Hinit) as Hb.
  destruct (torch_steps_accounted base w b b' Hsteps Hb) as (calls & left & Hc & [Hs _] & Hl).
  exists calls, left. split_and!; try done.
  intros Hn. rewrite Hn in Hl. by apply submseteq_nil_r in Hl.
Qed.

(** Activating for a point in time picks, among the SM counts the backend
    has, the first one nearest to what the trace asks for, reports it with the
    backend's generation, and leaves exactly that count's context active. *)
Theorem torch_activation_nearest base t b sm gen b'
    (Hwf : wf base b) (Htr : trace_entries b <> [])
    (Ha : activate_for_time t b = (Ret (sm, gen), b')) :
  let asked := Trace.sm_count_at_time (trace_entries b) t (trace_time_unit b)
                 (partition_sm b) in
  sm ∈ sm_counts b /\
  (forall x, x ∈ sm_counts b -> Z.abs (sm - asked) <= Z.abs (x - asked)) /\
  gen = cur_generation b' /\
  (forall g, dict_get sm (contexts b) = Some g ->
             active_gc b' = Some g /\ active_sm b' = sm).
Proof.
  intros asked. unfold activate_for_time, mbind, M_bind in Ha.
  rewrite target_sm_traced in Ha by done. cbv beta in Ha. fold asked in Ha.
  unfold nearest in Ha.
  destruct (min_by _ (sm_counts b)) as [best|] eqn:Hbest; [|done]. cbn [of_option] in Ha.
  pose proof (activate_sm_wp base best b Hwf) as Hw. unfold wp in Hw. rewrite Ha in Hw.
  destruct Hw as (_ & _ & [= -> ->] & Hact).
  apply min_by_spec in Hbest as [Hin Hmin]. auto.
Qed.

(** On a device with at least one partition, when every CUDA call returns,
    the constructor builds a supported backend whose SM counts are the multiples
    of the architecture's step (8 from compute capability 9.0, else 2) up to the
    device's total, and every one of them has a complete stream bundle. *)
Theorem torch_construction_complete gpu is_strict w m
    (Hm : import_green_contexts = Ret m)
    (Hgc : has_GreenContext m = true) (Hsup : SUPPORTED m = true)
    (Hdev : select_device gpu = Ret tt)
    (Hcreate : forall w n d, is_ret (answer_create w n d) = true)
    (Hset : forall w g, is_ret (answer_set w g) = true)
    (Hpop : forall w g, is_ret (answer_pop w g) = true)
    (Hstream : forall w d, is_ret (answer_stream w d) = true) :
  let p := get_device_properties gpu in
  let step := if 90 <=? major p * 10 + minor p then 8 else 2 in
  step <= multi_processor_count p ->
  exists b w', init gpu is_strict w = (Ret b, w') /\ is_supported b = true /\
    sm_counts b = py_range step (multi_processor_count p + 1) step /\
    last (sm_counts b) = Some (partition_sm b) /\
    forall sm, sm ∈ sm_counts b -> is_ret (fst (get_stream_bundle sm b)) = true.
Proof.
  intros p step Hstep.
  assert (Hs0 : 0 < step) by (subst step; by destruct (90 <=? _)).
  set (counts := py_range step (multi_processor_count p + 1) step).
  assert (Hne : counts <> []).
  { subst counts. unfold py_range.
    assert (1 <= (multi_processor_count p + 1 - step + step - 1) / step)
      by (apply Z.div_le_lower_bound; lia).
    destruct (Z.to_nat _) eqn:Hn; [lia|done]. }
  set (b0 := set_partition_sm (default 0 (last counts))
               (set_sm_counts counts (set_sm_step_val step (fresh gpu is_strict w : self)))).
  pose proof (create_loop_wp Hcreate Hset Hpop Hstream gpu is_strict counts false b0) as Hl.
  specialize (Hl (py_range_NoDup _ _ _ Hs0) (fun sm Hsm => match not_elem_of_nil _ Hsm with end)).
  assert (Hinit : init_body gpu is_strict (fresh gpu is_strict w) =
    (created_any ← create_loop gpu is_strict counts false;
     if (created_any : bool)
     then modify (fun b : self => let counts := sorted (dict_keys (contexts b)) in
            set_partition_sm (default 0 (last counts))
              (set_sm_counts counts (set_supported true b)))
     else modify (set_reason "No green contexts could be created")) b0).
  { unfold init_body. rewrite Hm, Hgc, Hsup. cbn [negb]. unfold init_supported.
    unfold mbind, M_bind, lift. rewrite Hdev. reflexivity. }
  unfold init. rewrite Hinit. unfold mbind, M_bind, wp in *.
  destruct (create_loop gpu is_strict counts false b0) as [[r|e] b1]; [|done].
  destruct Hl as (Hk & Hall & ->). rewrite bool_decide_eq_false_2 by done.
  cbn in Hk. eexists _, _. split; [reflexivity|]. cbn.
  rewrite Hk, sorted_id by (by apply py_range_sorted). split_and!; [done|done| |].
  - destruct (last counts) eqn:Hlast; [done|]. by apply last_None in Hlast.
  - intros sm Hsm. apply get_stream_bundle_has. apply Hall. by rewrite Hk.
Qed.

End properties.

Lemma torch_contexts_bracketed_witness :
  exists b w', init (H := demo_cuda) 0 false [CallSet 77 true] = (Ret b, w') /\
    let b' := snd (activate_for_step (H := demo_cuda) 1
                (snd (load_trace (H := demo_cuda) "t.trace" b))) in
    active_gc b' = Some 8 /\
    exists calls left, world b' = calls ++ [CallSet 77 true] /\
      ctx_stack (world b') = Some (option_list (active_gc b') ++ left ++ [77]) /\
      left ⊆+ failed_pops calls /\ (failed_pops calls = [] -> left = []).
Proof.
  eexists _, _. split; [vm_compute; reflexivity|]. intros b'.
  split; [vm_compute; reflexivity|].
  eapply (torch_contexts_bracketed (E := demo_cuda) [77] 0 false [CallSet 77 true]);
    [vm_compute; reflexivity|vm_compute; reflexivity|].
  eapply rtc_l; [apply (step_load_trace (H := demo_cuda) "t.trace")|].
  apply rtc_once. apply (step_activate_for_step (H := demo_cuda) 1).
Defined.

Lemma torch_activation_nearest_witness :
  activate_for_time (H := demo_cuda) 2 demo_self =
    (Ret (4, 1), snd (activate_for_time (H := demo_cuda) 2 demo_self)) /\
  4 ∈ sm_counts demo_self /\ sm_counts demo_self = [2; 4; 6; 8].
Proof.
  split; [vm_compute; reflexivity|]. split; [|vm_compute; reflexivity].
  eapply (torch_activation_nearest (E := demo_cuda) [] 2 demo_self 4 1).
  - apply quiet_wf. split; vm_compute; reflexivity.
  - vm_compute. discriminate.
  - vm_compute. reflexivity.
Defined.

Lemma torch_construction_complete_witness :
  exists b w', init (H := demo_cuda) 0 true [] = (Ret b, w') /\ is_supported b = true /\
    sm_counts b = [2; 4; 6; 8].
Proof.
  assert (Hle : (if 90 <=? 8 * 10 + 9 then 8 else 2) <= 8) by (vm_compute; discriminate).
  destruct (torch_construction_complete (E := demo_cuda) 0 true [] (mk_green_module true true)
    eq_refl eq_refl eq_refl eq_refl (fun _ _ _ => eq_refl) (fun _ _ => eq_refl)
    (fun _ _ => eq_refl) (fun _ _ => eq_refl) Hle) as (b & w' & Hi & Hs & Hc & _).
  exists b, w'. split; [exact Hi|]. split; [exact Hs|]. exact Hc.
Defined.
