(* ===== verification/CppBackend.v ===== *)
(** * The C++ green-context backend
    ([morphling/runtime/greenctx/cpp_backend.py])

    The wrapped runtime [morphling._GreenCtx] is compiled C++: it is a parameter
    of the model, an arbitrary object whose calls may change its state and may
    raise.  [perf_counter_ns] is an arbitrary clock, read once per call. *)

From S2P Require Import Prelude PyDict PyFloat GreenBase.

(** The keyword arguments of [create_runtime] *)
Record runtime_args : Type := mk_runtime_args {
  ra_gpu_id : Z;
  ra_num_partitions : Z;
  ra_partition_idx : Z;
  ra_roles : list string;
  ra_stream_priority : Z;
  ra_strict : bool;
  ra_switch_sync : string;
}.

Class GreenRuntime (R : Type) : Type := {
  create_runtime : runtime_args -> outcome R;
  rt_is_supported : R -> bool;
  rt_unsupported_reason : R -> string;
  rt_available_sm_counts : R -> list Z;
  rt_sm_step : R -> Z;
  rt_partition_sm_count : R -> Z;
  rt_generation : R -> Z;
  rt_get_stream_ptr : R -> Z -> string -> Z;
  rt_sm_count_at_step : R -> Z -> Z;
  rt_sm_count_at_time : R -> Z -> Z;
  rt_activate_sm_for_thread : Z -> M R Z;
  rt_deactivate_for_thread : Z -> M R unit;
  rt_load_trace : string -> M R bool;
  rt_switch_count : R -> Z;
  rt_close : M R unit;
}.

(** [torch.cuda.ExternalStream(ptr, device)] and [time.perf_counter_ns] *)
Class CppHost (stream : Type) : Type := {
  ExternalStream : Z -> Z -> stream;
  perf_counter_ns : nat -> Z;
}.

Record swap : Type := mk_swap {
  timestamp_ns : Z;
  from_sm : Z;
  to_sm : Z;
  python_overhead_ns : Z;
}.

Record CppBackend (stream R : Type) : Type := mk_Cpp {
  rt : R;
  gpu_id : Z;
  closed : bool;
  swap_log : list swap;
  swap_count : Z;
  total_python_overhead_ns : Z;
  prev_sm_count : Z;
  stream_cache : list ((Z * string) * stream);
  ticks : nat;   (** how often the clock was read *)
}.
Arguments mk_Cpp {stream R}.
Arguments rt {stream R}.
Arguments gpu_id {stream R}.
Arguments closed {stream R}.
Arguments swap_log {stream R}.
Arguments swap_count {stream R}.
Arguments total_python_overhead_ns {stream R}.
Arguments prev_sm_count {stream R}.
Arguments stream_cache {stream R}.
Arguments ticks {stream R}.

Section cpp.
Context {stream R : Type} `{GreenRuntime R} `{CppHost stream}.
Notation self := (CppBackend stream R).
Implicit Types b : self.

Definition set_rt x b : self :=
  mk_Cpp x (gpu_id b) (closed b) (swap_log b) (swap_count b)
    (total_python_overhead_ns b) (prev_sm_count b) (stream_cache b) (ticks b).
Definition set_closed x b : self :=
  mk_Cpp (rt b) (gpu_id b) x (swap_log b) (swap_count b) (total_python_overhead_ns
    b) (prev_sm_count b) (stream_cache b) (ticks b).
Definition set_swap_log x b : self :=
  mk_Cpp (rt b) (gpu_id b) (closed b) x (swap_count b) (total_python_overhead_ns b)
    (prev_sm_count b) (stream_cache b) (ticks b).
Definition set_swap_count x b : self :=
  mk_Cpp (rt b) (gpu_id b) (closed b) (swap_log b) x (total_python_overhead_ns b)
    (prev_sm_count b) (stream_cache b) (ticks b).
Definition set_total_python_overhead_ns x b : self :=
  mk_Cpp (rt b) (gpu_id b) (closed b) (swap_log b) (swap_count b) x (prev_sm_count
    b) (stream_cache b) (ticks b).
Definition set_prev_sm_count x b : self :=
  mk_Cpp (rt b) (gpu_id b) (closed b) (swap_log b) (swap_count b)
    (total_python_overhead_ns b) x (stream_cache b) (ticks b).
Definition set_stream_cache x b : self :=
  mk_Cpp (rt b) (gpu_id b) (closed b) (swap_log b) (swap_count b)
    (total_python_overhead_ns b) (prev_sm_count b) x (ticks b).
Definition set_ticks x b : self :=
  mk_Cpp (rt b) (gpu_id b) (closed b) (swap_log b) (swap_count b)
    (total_python_overhead_ns b) (prev_sm_count b) (stream_cache b) x.

(** A call of the wrapped runtime *)
Definition rt_call {A} (m : M R A) : M self A := zoom rt set_rt m.

Definition now : M self Z := fun b =>
  (Ret (perf_counter_ns (ticks b)), set_ticks (S (ticks b)) b).

(** The stream cache of [__init__] for one SM count: roles without a stream
    pointer are left out. *)
Definition cache_roles (r : R) (gpu sm : Z) (c : list ((Z * string) * stream)) :
    list ((Z * string) * stream) :=
  foldl (fun c role =>
    let ptr := rt_get_stream_ptr r sm role in
    if ptr =? 0 then c else dict_set (sm, role) (ExternalStream ptr gpu) c)
    c ROLE_NAMES.

(** [__init__]; [roles or list(ROLE_NAMES)] for a missing or empty list *)
Definition init (gpu num_partitions partition_idx : Z) (roles : option (list string))
    (stream_priority : Z) (is_strict : bool) (switch_sync : string) (tick : nat) :
    outcome self :=
  let roles := match roles with Some (r :: rs) => r :: rs | _ => ROLE_NAMES end in
  r ← create_runtime (mk_runtime_args gpu num_partitions partition_idx roles
        stream_priority is_strict switch_sync);
  let cache := if rt_is_supported r
               then foldl (fun c sm => cache_roles r gpu sm c) []
                      (rt_available_sm_counts r)
               else [] in
  Ret (mk_Cpp r gpu false [] 0 0 0 cache tick).

Definition is_supported b : bool := rt_is_supported (rt b).
Definition unsupported_reason b : string := rt_unsupported_reason (rt b).
Definition available_sm_counts b : list Z := rt_available_sm_counts (rt b).
Definition sm_step b : Z := rt_sm_step (rt b).
Definition partition_sm_count b : Z := rt_partition_sm_count (rt b).

Definition cached (sm : Z) (role : string) : M self stream := fun b =>
  match dict_get (sm, role) (stream_cache b) with
  | Some st => (Ret st, b)
  | None => (Raise (KeyError (cache_key_repr sm role)), b)
  end.

Definition get_stream_bundle (sm : Z) : M self (StreamBundle stream) :=
  gen ← gets (fun b => rt_generation (rt b));
  c ← cached sm "compute"; r ← cached sm "recv"; s ← cached sm "send"; d ← cached sm "dp";
  mret (mk_StreamBundle c r s d sm gen).

Definition activate_for_step (step_or_time : Z) : M self (Z * Z) :=
  sm ← gets (fun b => rt_sm_count_at_step (rt b) step_or_time);
  rt_call (rt_activate_sm_for_thread sm);;
  gen ← gets (fun b => rt_generation (rt b));
  mret (sm, gen).

(** The swap record both [activate_for_time] and [deactivate] append when the
    SM count differs from the previous one *)
Definition log_swap (t0 t1 sm : Z) b : self :=
  if sm =? prev_sm_count b then b
  else
    let overhead_ns := t1 - t0 in
    set_prev_sm_count sm
      (set_total_python_overhead_ns (total_python_overhead_ns b + overhead_ns)
        (set_swap_count (swap_count b + 1)
          (set_swap_log (swap_log b ++ [mk_swap t0 (prev_sm_count b) sm overhead_ns]) b))).

Definition activate_for_time (elapsed_us : Z) : M self (Z * Z) :=
  t0 ← now;
  sm ← gets (fun b => rt_sm_count_at_time (rt b) elapsed_us);
  rt_call (rt_activate_sm_for_thread sm);;
  t1 ← now;
  modify (log_swap t0 t1 sm);;
  gen ← gets (fun b => rt_generation (rt b));
  mret (sm, gen).

Definition deactivate (prev_sm : Z) : M self unit :=
  t0 ← now;
  rt_call (rt_deactivate_for_thread prev_sm);;
  t1 ← now;
  modify (log_swap t0 t1 prev_sm).

Definition load_trace (path : string) : M self bool := rt_call (rt_load_trace path).
Definition sm_count_at_time b (elapsed_us : Z) : Z := rt_sm_count_at_time (rt b) elapsed_us.
Definition sm_count_at_step b (step : Z) : Z := rt_sm_count_at_step (rt b) step.
Definition switch_count b : Z := rt_switch_count (rt b).

Record swap_stats : Type := mk_swap_stats {
  ss_count : Z;
  ss_total_overhead_us : float;
  ss_avg_overhead_us : float;
}.

Definition get_swap_stats b : outcome swap_stats :=
  total ← int_truediv (total_python_overhead_ns b) 1000;
  n ← float_of_int (Z.max (swap_count b) 1);
  avg ← fdiv total n;
  Ret (mk_swap_stats (swap_count b) total avg).

Definition get_swap_log b : list swap := swap_log b.

Definition reset_swap_stats : M self unit := modify (fun b =>
  set_prev_sm_count 0 (set_total_python_overhead_ns 0 (set_swap_count 0 (set_swap_log [] b)))).

Definition close : M self unit :=
  b ← get;
  when (negb (closed b))
    (modify (fun b => set_stream_cache [] (set_closed true b));;
     rt_call rt_close).

#[global] Instance cpp_backend : GreenCtxBackend stream self := {|
  GreenBase.is_supported := is_supported;
  GreenBase.unsupported_reason := unsupported_reason;
  GreenBase.available_sm_counts := available_sm_counts;
  GreenBase.sm_step := sm_step;
  GreenBase.partition_sm_count := partition_sm_count;
  GreenBase.get_stream_bundle := get_stream_bundle;
  GreenBase.activate_for_step := activate_for_step;
  GreenBase.activate_for_time := activate_for_time;
  GreenBase.deactivate := deactivate;
  GreenBase.load_trace := load_trace;
  GreenBase.sm_count_at_time := sm_count_at_time;
  GreenBase.sm_count_at_step := sm_count_at_step;
  GreenBase.switch_count := switch_count;
  GreenBase.close := close;
|}.

(** ** The swap statistics *)

(** The log is a walk over SM counts: each swap starts where the previous one
    ended and goes somewhere else. *)
Fixpoint walk (from : Z) (l : list swap) (upto : Z) : Prop :=
  match l with
  | [] => upto = from
  | s :: l => from_sm s = from /\ to_sm s <> from /\ walk (to_sm s) l upto
  end.

Definition stats_ok b : Prop :=
  swap_count b = Z.of_nat (length (swap_log b)) /\
  total_python_overhead_ns b = sum_list (map python_overhead_ns (swap_log b)) /\
  walk 0 (swap_log b) (prev_sm_count b).

Inductive cpp_step : self -> self -> Prop :=
  | cpp_activate_for_step t b : cpp_step b (snd (activate_for_step t b))
  | cpp_activate_for_time t b : cpp_step b (snd (activate_for_time t b))
  | cpp_deactivate sm b : cpp_step b (snd (deactivate sm b))
  | cpp_load_trace path b : cpp_step b (snd (load_trace path b))
  | cpp_reset b : cpp_step b (snd (reset_swap_stats b))
  | cpp_close b : cpp_step b (snd (close b)).

Lemma walk_snoc from l upto s :
  walk from l upto -> from_sm s = upto -> to_sm s <> upto ->
  walk from (l ++ [s]) (to_sm s).
Proof.
  revert from. induction l as [|a l IH]; intros from; cbn.
  - intros -> ? ?. auto.
  - intros (H1 & H2 & H3) ? ?. auto.
Qed.

Lemma log_swap_ok t0 t1 sm b : stats_ok b -> stats_ok (log_swap t0 t1 sm b).
Proof.
  intros (Hn & Ht & Hw). unfold log_swap. destruct (sm =? prev_sm_count b) eqn:Hsm; [done|].
  apply Z.eqb_neq in Hsm. unfold stats_ok. cbn.
  rewrite length_app, map_app, sum_list_app. cbn [map length python_overhead_ns].
  rewrite sum_list_cons. change (sum_list []) with 0. split_and!; [lia| |].
  - lia.
  - by apply (walk_snoc 0 (swap_log b) (prev_sm_count b) (mk_swap t0 (prev_sm_count b) sm _)).
Qed.

Lemma stats_rt_call {A} (m : M R A) : preserves stats_ok (rt_call m).
Proof. intros b Hb. unfold rt_call, zoom. by destruct (m (rt b)). Qed.

Lemma stats_now : preserves stats_ok now.
Proof. by intros b Hb. Qed.

Lemma cpp_step_ok b b' : cpp_step b b' -> stats_ok b -> stats_ok b'.
Proof.
  intros Hst. destruct Hst as [t b|t b|sm b|path b|b|b]; revert b;
    [enough (preserves stats_ok (activate_for_step t)) by auto
    |enough (preserves stats_ok (activate_for_time t)) by auto
    |enough (preserves stats_ok (deactivate sm)) by auto
    |exact (stats_rt_call _) | by intros b _
    |enough (preserves stats_ok close) by auto].
  - eauto 10 using stats_rt_call with morph.
  - repeat (apply preserves_bind; [|intros ?]);
      eauto using stats_rt_call, stats_now, preserves_modify, log_swap_ok with morph.
  - repeat (apply preserves_bind; [|intros ?]);
      eauto using stats_rt_call, stats_now, preserves_modify, log_swap_ok with morph.
  - intros b Hb. unfold close, mbind, M_bind, get, when. destruct (closed b); [done|].
    by apply stats_rt_call.
Qed.

Lemma cpp_bundle_pure sm b : snd (get_stream_bundle sm b) = b.
Proof.
  unfold get_stream_bundle, cached. run. repeat (case_match; simplify_eq/=); done.
Qed.

Lemma cpp_bundle_Ret sm b bd b' :
  get_stream_bundle sm b = (Ret bd, b') ->
  sm_count bd = sm /\ generation bd = rt_generation (rt b).
Proof.
  unfold get_stream_bundle, cached. run.
  intros Hb. repeat (case_match; simplify_eq/=); done.
Qed.

#[global] Program Instance cpp_laws : GreenCtxLaws stream self := {|
  good := fun _ => True;
  current := fun b => rt_generation (rt b);
  serves := fun _ _ => True;
|}.
Next Obligation. by intros t b _. Qed.
Next Obligation. by intros p b _. Qed.
Next Obligation. by intros t b _. Qed.
Next Obligation.
  intros t b sm gen b' _ Ha. split; [done|]. cbn in Ha.
  unfold activate_for_step in Ha. run. unfold rt_call, zoom in Ha.
  destruct (rt_activate_sm_for_thread _ _) as [[?|?] r]; by simplify_eq/=.
Qed.
Next Obligation. intros sm b. apply cpp_bundle_pure. Qed.
Next Obligation. intros sm b bd b' _ _. apply cpp_bundle_Ret. Qed.
Next Obligation. by intros sm b _. Qed.
Next Obligation. done. Qed.
Next Obligation. done. Qed.

(** C7: after any sequence of the backend's methods, exceptions of the wrapped
    runtime included, the swap statistics agree with the swap log: the counter
    is its length, the total overhead the sum of its overheads, and the log is a
    walk from SM count 0 to the remembered one, in which every swap starts where
    the last one ended and changes the count. *)
Theorem cpp_swap_stats_match_log gpu np pi roles prio is_strict sync tick b b'
    (Hinit : init gpu np pi roles prio is_strict sync tick = Ret b)
    (Hsteps : rtc cpp_step b b') :
  swap_count b' = Z.of_nat (length (swap_log b')) /\
  total_python_overhead_ns b' = sum_list (map python_overhead_ns (swap_log b')) /\
  walk 0 (swap_log b') (prev_sm_count b').
Proof.
  assert (Hb : stats_ok b).
  { unfold init, mbind, outcome_bind in Hinit.
    destruct (create_runtime _) as [r|e]; [|done]. by injection Hinit as <-. }
  clear Hinit. induction Hsteps; [done|]. eauto using cpp_step_ok.
Qed.

End cpp.

(** A runtime with two SM counts that follows a fixed schedule *)
Definition demo_runtime : GreenRuntime (Z * Z) := {|
  create_runtime := fun _ => Ret (0, 0);
  rt_is_supported := fun _ => true;
  rt_unsupported_reason := fun _ => "";
  rt_available_sm_counts := fun _ => [8; 16];
  rt_sm_step := fun _ => 8;
  rt_partition_sm_count := fun _ => 16;
  rt_generation := snd;
  rt_get_stream_ptr := fun _ sm role => sm;
  rt_sm_count_at_step := fun _ t => if t <? 5 then 8 else 16;
  rt_sm_count_at_time := fun _ t => if t <? 5 then 8 else 16;
  rt_activate_sm_for_thread := fun sm r => (Ret (fst r), (sm, snd r + 1));
  rt_deactivate_for_thread := fun _ r => (Ret tt, r);
  rt_load_trace := fun _ r => (Ret true, r);
  rt_switch_count := snd;
  rt_close := fun r => (Ret tt, r);
|}.

Definition demo_host : CppHost Z := {|
  ExternalStream := fun ptr _ => ptr;
  perf_counter_ns := fun n => 10 * Z.of_nat n;
|}.

Lemma cpp_swap_stats_match_log_witness :
  exists b, init (H := demo_runtime) (H0 := demo_host) 0 1 0 None (-1) false "event_chain" 0
              = Ret b /\
    let b' := snd (activate_for_time (H := demo_runtime) (H0 := demo_host) 7
                (snd (activate_for_time (H := demo_runtime) (H0 := demo_host) 1 b))) in
    swap_count b' = 2 /\ walk 0 (swap_log b') (prev_sm_count b').
Proof.
  eexists. split; [vm_compute; reflexivity|]. intros b'. split; [vm_compute; reflexivity|].
  eapply (cpp_swap_stats_match_log (H := demo_runtime) (H0 := demo_host)
            0 1 0 None (-1) false "event_chain" 0); [vm_compute; reflexivity|].
  eapply rtc_l; [apply (cpp_activate_for_time (H := demo_runtime) (H0 := demo_host) 1)|].
  apply rtc_once. apply (cpp_activate_for_time (H := demo_runtime) (H0 := demo_host) 7).
Defined.
