(* ===== verification/Factory.v ===== *)
(** * Backend selection ([morphling/runtime/greenctx/factory.py])

    [select_backend] tries the C++ backend, then the PyTorch one, then falls back
    to the one without green contexts.  [AnyBackend] is the object it returns. *)

From S2P Require Import Prelude PyDict GreenBase.
From S2P Require OffBackend TorchBackend CppBackend.

Inductive AnyBackend (stream gc R : Type) : Type :=
  | BOff (b : OffBackend.OffBackend stream)
  | BTorch (b : TorchBackend.TorchNativeBackend stream gc)
  | BCpp (b : CppBackend.CppBackend stream R).
Arguments BOff {stream gc R}. Arguments BTorch {stream gc R}. Arguments BCpp {stream gc R}.

(** The [**kwargs] of [select_backend], as the controller passes them *)
Record backend_kwargs : Type := mk_kwargs {
  num_partitions : Z;
  partition_idx : Z;
  stream_priority : Z;
  switch_sync : string;
}.

Section factory.
Context {stream gc R : Type} `{EqDecision gc} `{TorchCuda stream gc}
  `{CppBackend.GreenRuntime R} `{CppBackend.CppHost stream}.
Notation world := (list (cuda_call gc)).
Notation any := (AnyBackend stream gc R).

Definition cpp_init (gpu : Z) (is_strict : bool) (kw : backend_kwargs) :
    outcome (CppBackend.CppBackend stream R) :=
  CppBackend.init gpu (num_partitions kw) (partition_idx kw) None (stream_priority kw)
    is_strict (switch_sync kw) 0.

Definition unknown_backend (backend : string) : exn :=
  ValueError ("Unknown backend '" +:+ backend +:+
              "'. Expected: auto|cpp|torch_native|off").

(** The [try] block of the C++ attempt: [Some b] when it returns a backend *)
Definition try_cpp (backend : string) (gpu : Z) (is_strict : bool) (kw : backend_kwargs) :
    M world (option any) :=
  try_except
    (b ← lift (cpp_init gpu is_strict kw);
     if CppBackend.is_supported b then mret (Some (BCpp b))
     else if String.eqb backend "cpp" then
       if is_strict
       then raise (RuntimeError ("CppBackend not supported: " +:+
                                 CppBackend.unsupported_reason b))
       else lift (fst (CppBackend.close b));; mret None
     else mret None)
    (fun e => if is_ImportError e
              then Some (if String.eqb backend "cpp" then raise e else mret None)
              else None).

Definition try_torch (backend : string) (gpu : Z) (is_strict : bool) :
    M world (option any) :=
  b ← TorchBackend.init gpu is_strict;
  if TorchBackend.is_supported b then mret (Some (BTorch b))
  else if String.eqb backend "torch_native" && is_strict
  then raise (RuntimeError ("TorchNativeBackend not supported: " +:+
                            TorchBackend.unsupported_reason b))
  else mret None.

Definition select_backend (backend : string) (gpu : Z) (is_strict : bool)
    (kw : backend_kwargs) : M world any :=
  r ← (if String.eqb backend "cpp" || String.eqb backend "auto"
       then try_cpp backend gpu is_strict kw else mret None);
  match r with
  | Some b => mret b
  | None =>
      r ← (if String.eqb backend "torch_native" || String.eqb backend "auto"
           then try_torch backend gpu is_strict else mret None);
      match r with
      | Some b => mret b
      | None =>
          if String.eqb backend "off" || String.eqb backend "auto"
          then b ← OffBackend.init gpu is_strict; mret (BOff b)
          else raise (unknown_backend backend)
      end
  end.

(** The methods of the returned object *)
Definition lift_off {A} (b : OffBackend.OffBackend stream)
    (m : M (OffBackend.OffBackend stream) A) : outcome A * any :=
  let '(r, b') := m b in (r, BOff b').
Definition lift_torch {A} (b : TorchBackend.TorchNativeBackend stream gc)
    (m : M (TorchBackend.TorchNativeBackend stream gc) A) : outcome A * any :=
  let '(r, b') := m b in (r, BTorch b').
Definition lift_cpp {A} (b : CppBackend.CppBackend stream R)
    (m : M (CppBackend.CppBackend stream R) A) : outcome A * any :=
  let '(r, b') := m b in (r, BCpp b').

Definition dispatch {A} (fo : M (OffBackend.OffBackend stream) A)
    (ft : M (TorchBackend.TorchNativeBackend stream gc) A)
    (fc : M (CppBackend.CppBackend stream R) A) : M any A := fun b =>
  match b with
  | BOff b => lift_off b fo
  | BTorch b => lift_torch b ft
  | BCpp b => lift_cpp b fc
  end.

Definition pick {A} (fo : OffBackend.OffBackend stream -> A)
    (ft : TorchBackend.TorchNativeBackend stream gc -> A)
    (fc : CppBackend.CppBackend stream R -> A) (b : any) : A :=
  match b with BOff b => fo b | BTorch b => ft b | BCpp b => fc b end.

#[global] Instance any_backend : GreenCtxBackend stream any := {|
  is_supported := pick is_supported is_supported is_supported;
  unsupported_reason := pick unsupported_reason unsupported_reason unsupported_reason;
  available_sm_counts := pick available_sm_counts available_sm_counts available_sm_counts;
  sm_step := pick sm_step sm_step sm_step;
  partition_sm_count := pick partition_sm_count partition_sm_count partition_sm_count;
  get_stream_bundle sm :=
    dispatch (get_stream_bundle sm) (get_stream_bundle sm) (get_stream_bundle sm);
  activate_for_step t :=
    dispatch (activate_for_step t) (activate_for_step t) (activate_for_step t);
  activate_for_time t :=
    dispatch (activate_for_time t) (activate_for_time t) (activate_for_time t);
  deactivate sm := dispatch (deactivate sm) (deactivate sm) (deactivate sm);
  load_trace p := dispatch (load_trace p) (load_trace p) (load_trace p);
  sm_count_at_time b t := pick (fun b => sm_count_at_time b t)
    (fun b => sm_count_at_time b t) (fun b => sm_count_at_time b t) b;
  sm_count_at_step b t := pick (fun b => sm_count_at_step b t)
    (fun b => sm_count_at_step b t) (fun b => sm_count_at_step b t) b;
  switch_count := pick switch_count switch_count switch_count;
  close := dispatch close close close;
|}.

(** The laws of the selected backend are those of the one that was selected. *)
Definition any_good (base : list gc) (b : any) : Prop :=
  match b with
  | BOff b => OffBackend.wf b
  | BTorch b => TorchBackend.wf base b
  | BCpp _ => True
  end.

Definition any_current (b : any) : Z :=
  match b with
  | BOff _ => 0
  | BTorch b => TorchBackend.cur_generation b
  | BCpp b => CppBackend.rt_generation (CppBackend.rt b)
  end.

Definition any_serves (b : any) (sm : Z) : Prop :=
  match b with BOff _ => sm = 0 | BTorch _ => True | BCpp _ => True end.

#[global] Program Instance any_laws (base : list gc) : GreenCtxLaws stream any := {|
  good := any_good base;
  current := any_current;
  serves := any_serves;
|}.
Next Obligation.
  intros base t [b|b|b] Hb; cbn; unfold lift_off, lift_torch, lift_cpp.
  - done.
  - pose proof (activate_preserves (GreenCtxLaws := TorchBackend.torch_laws base) t b Hb) as Hp.
    cbn in Hp. by destruct (TorchBackend.activate_for_step t b).
  - by destruct (CppBackend.activate_for_step t b).
Qed.
Next Obligation.
  intros base t [b|b|b] Hb; cbn; unfold lift_off, lift_torch, lift_cpp; [done| |].
  - pose proof (TorchBackend.activate_time_preserves base t b Hb) as Hp.
    by destruct (TorchBackend.activate_for_time t b).
  - by destruct (CppBackend.activate_for_time t b).
Qed.
Next Obligation.
  intros base p [b|b|b] Hb; cbn; unfold lift_off, lift_torch, lift_cpp; [done| |].
  - pose proof (TorchBackend.load_trace_preserves base p b Hb) as Hp.
    by destruct (TorchBackend.load_trace p b).
  - by destruct (CppBackend.load_trace p b).
Qed.
Next Obligation.
  intros base t [b|b|b] sm gen b' Hb Ha; cbn in Ha; unfold lift_off, lift_torch, lift_cpp in Ha.
  - by injection Ha as <- <- <-.
  - destruct (TorchBackend.activate_for_step t b) as [r b1] eqn:Hr. injection Ha as -> <-.
    exact (activate_current (GreenCtxLaws := TorchBackend.torch_laws base) t b sm gen b1 Hb Hr).
  - destruct (CppBackend.activate_for_step t b) as [r b1] eqn:Hr. injection Ha as -> <-.
    exact (activate_current (GreenCtxLaws := CppBackend.cpp_laws) t b sm gen b1 I Hr).
Qed.
Next Obligation.
  intros base sm [b|b|b]; cbn; unfold lift_off, lift_torch, lift_cpp; [done| |].
  - pose proof (TorchBackend.get_stream_bundle_pure sm b) as Hp.
    destruct (TorchBackend.get_stream_bundle sm b). cbn in *. by rewrite Hp.
  - pose proof (CppBackend.cpp_bundle_pure sm b) as Hp.
    destruct (CppBackend.get_stream_bundle sm b). cbn in *. by rewrite Hp.
Qed.
Next Obligation.
  intros base sm [b|b|b] bd b' Hb Hs Hg; cbn in Hg; unfold lift_off, lift_torch, lift_cpp in Hg.
  - cbn in Hs. subst sm. injection Hg as <- _. exact Hb.
  - destruct (TorchBackend.get_stream_bundle sm b) as [r b1] eqn:Hr. injection Hg as -> <-.
    exact (TorchBackend.get_stream_bundle_Ret sm b bd b1 Hr).
  - destruct (CppBackend.get_stream_bundle sm b) as [r b1] eqn:Hr. injection Hg as -> <-.
    exact (CppBackend.cpp_bundle_Ret sm b bd b1 Hr).
Qed.
Next Obligation.
  intros base sm [b|b|b] Hb; cbn; unfold lift_off, lift_torch, lift_cpp; [done| |].
  - pose proof (TorchBackend.torch_deactivate_preserves base sm b Hb) as Hp.
    by destruct (TorchBackend.deactivate sm b).
  - by destruct (CppBackend.deactivate sm b).
Qed.
Next Obligation. by intros base [b|b|b] sm Hb Hs. Qed.
Next Obligation. by intros base [b|b|b] Hb. Qed.

(** ** Lemmas *)

(** Only [RuntimeError]s come out of a call. *)
Definition runtime_only {A} (o : outcome A) : Prop :=
  match o with Ret _ => True | Raise e => is_RuntimeError e = true end.

Section tolerant.
Hypothesis create_rt : forall w n d, runtime_only (answer_create w n d).
Hypothesis set_rt : forall w g, runtime_only (answer_set w g).
Hypothesis pop_rt : forall w g, runtime_only (answer_pop w g).
Hypothesis stream_rt : forall w d, runtime_only (answer_stream w d).

(** [raises_runtime m]: [m] raises nothing but [RuntimeError]s. *)
Definition raises_runtime {S A} (m : M S A) : Prop :=
  forall s, runtime_only (fst (m s)).

Lemma raises_bind {S A B} (m : M S A) (f : A -> M S B) :
  raises_runtime m -> (forall a, raises_runtime (f a)) -> raises_runtime (m ≫= f).
Proof.
  intros Hm Hf s. specialize (Hm s). unfold mbind, M_bind.
  destruct (m s) as [[a|e] s']; [apply Hf|exact Hm].
Qed.

Lemma raises_call {A} (m : M world A) :
  raises_runtime m -> raises_runtime (TorchBackend.call (stream := stream) m).
Proof.
  intros Hm b. unfold TorchBackend.call, zoom. specialize (Hm (TorchBackend.world b)).
  by destruct (m (TorchBackend.world b)).
Qed.

Lemma raises_for_each {S A} (l : list A) (f : A -> M S unit) :
  (forall a, raises_runtime (f a)) -> raises_runtime (for_each l f).
Proof.
  intros Hf. induction l as [|a l IH]; intros s; [done|]. cbn.
  specialize (Hf a s). destruct (f a s) as [[?|?] s']; [apply IH|exact Hf].
Qed.

Lemma raises_finally {S A} (m : M S A) fin :
  raises_runtime m -> raises_runtime fin -> raises_runtime (try_finally m fin).
Proof.
  intros Hm Hf s. specialize (Hm s). unfold try_finally.
  destruct (m s) as [r s1]. specialize (Hf s1). by destruct (fin s1) as [[]].
Qed.

Lemma create_one_raises gpu sm :
  raises_runtime (TorchBackend.create_one (stream := stream) gpu sm).
Proof.
  repeat first [apply raises_bind; [|intros ?] | apply raises_finally
               | apply raises_for_each; intros ? | apply raises_call];
    try (intros w; apply create_rt); try (intros w; apply set_rt);
    try (intros w; apply pop_rt); try (intros w; apply stream_rt); by intros b.
Qed.

Lemma create_loop_returns gpu sms created_any b :
  is_ret (fst (TorchBackend.create_loop (stream := stream) gpu false sms created_any b)) = true.
Proof.
  revert created_any b. induction sms as [|sm sms IH]; intros created_any b; [done|].
  cbn [TorchBackend.create_loop]. unfold mbind at 1, M_bind at 1.
  unfold try_except. unfold mbind at 1, M_bind at 1.
  pose proof (create_one_raises gpu sm b) as Hr.
  destruct (TorchBackend.create_one gpu sm b) as [[[]|e] b1]; cbn in *; [apply IH|].
  rewrite Hr. cbn. apply IH.
Qed.

Lemma torch_init_tolerant gpu w :
  (forall e, import_green_contexts = Raise e -> exists msg, e = ModuleNotFoundError msg) ->
  select_device gpu = Ret tt ->
  exists b w', TorchBackend.init (stream := stream) gpu false w = (Ret b, w').
Proof.
  intros Himp Hdev. unfold TorchBackend.init, TorchBackend.init_body.
  destruct import_green_contexts as [m|e].
  - destruct (has_GreenContext m); cbn [negb]; [|by eexists _, _].
    destruct (SUPPORTED m); cbn [negb]; [|by eexists _, _].
    unfold TorchBackend.init_supported, mbind, M_bind, lift. rewrite Hdev.
    unfold modify at 1. cbv beta iota.
    set (b0 := TorchBackend.set_partition_sm _ _).
    set (counts := TorchBackend.py_range _ _ _).
    pose proof (create_loop_returns gpu counts false b0) as Hr.
    destruct (TorchBackend.create_loop gpu false counts false b0) as [[[]|e] b1]; [| |done];
      by eexists _, _.
  - destruct (Himp e eq_refl) as [msg ->]. by eexists _, _.
Qed.

End tolerant.

(** An explicitly requested backend that is not supported is never replaced
    by another one: without [strict], where the code logs that it falls back,
    [select_backend] raises the [ValueError] for an unknown backend. *)
Theorem explicit_backend_never_falls_back gpu kw w :
  (forall b, cpp_init gpu false kw = Ret b -> CppBackend.is_supported b = false ->
     fst (CppBackend.close b) = Ret tt ->
     fst (select_backend "cpp" gpu false kw w) = Raise (unknown_backend "cpp")) /\
  (forall t w', TorchBackend.init gpu false w = (Ret t, w') ->
     TorchBackend.is_supported t = false ->
     fst (select_backend "torch_native" gpu false kw w) =
       Raise (unknown_backend "torch_native")).
Proof.
  split.
  - intros b Hb Hs Hc. unfold select_backend, try_cpp, try_except. run.
    by rewrite Hb, Hs, Hc.
  - intros t w' Ht Hs. unfold select_backend, try_torch. run. by rewrite Ht, Hs.
Qed.

(** Automatic selection without [strict] always yields a backend, on every
    machine where the C++ module either imports or is absent, where PyTorch's
    green contexts fail only with [RuntimeError]s or are absent, and where plain
    streams can be created; and it is the C++ backend whenever that one is
    supported. *)
Theorem auto_selection_total gpu kw w
    (Hcpp : forall e, cpp_init gpu false kw = Raise e -> is_ImportError e = true)
    (Himp : forall e, import_green_contexts = Raise e ->
                      exists msg, e = ModuleNotFoundError msg)
    (Hdev : select_device gpu = Ret tt)
    (Hcreate : forall w n d, runtime_only (answer_create w n d))
    (Hset : forall w g, runtime_only (answer_set w g))
    (Hpop : forall w g, runtime_only (answer_pop w g))
    (Hstream : forall w d, is_ret (answer_stream w d) = true) :
  exists b w', select_backend "auto" gpu false kw w = (Ret b, w') /\
    forall c, cpp_init gpu false kw = Ret c -> CppBackend.is_supported c = true ->
              b = BCpp c.
Proof.
  assert (Htorch : forall (o : option any) w1, o = None ->
    exists b w', (r ← try_torch "auto" gpu false;
      match r with Some b => mret b
      | None => if String.eqb "auto" "off" || String.eqb "auto" "auto"
                then b ← OffBackend.init gpu false; mret (BOff b)
                else raise (unknown_backend "auto") end) w1 = (Ret b, w')).
  { intros _ w1 _.
    assert (Hst : forall w d, runtime_only (answer_stream w d)).
    { intros w2 d. specialize (Hstream w2 d). by destruct (answer_stream w2 d). }
    destruct (torch_init_tolerant Hcreate Hset Hpop Hst gpu w1 Himp Hdev) as (t & w2 & Ht).
    unfold try_torch. run. rewrite Ht. destruct (TorchBackend.is_supported t);
      [by eexists _, _|]. unfold OffBackend.init, new_stream. run.
    repeat match goal with
      |- context [answer_stream ?h ?d] =>
        let Hx := fresh in pose proof (Hstream h d) as Hx;
        destruct (answer_stream h d); [clear Hx|done]
      end. by eexists _, _. }
  unfold select_backend. change (String.eqb "auto" "cpp" || String.eqb "auto" "auto") with true.
  change (String.eqb "auto" "torch_native" || String.eqb "auto" "auto") with true.
  cbv iota. unfold mbind at 1, M_bind at 1. unfold try_cpp, try_except, lift.
  unfold mbind at 1, M_bind at 1.
  destruct (cpp_init gpu false kw) as [c|e] eqn:Hc.
  - change (String.eqb "auto" "cpp") with false. cbv iota.
    destruct (CppBackend.is_supported c) eqn:Hs.
    + exists (BCpp c), w. split; [done|]. by intros ? [= ->].
    + destruct (Htorch None w eq_refl) as (b & w' & Hb). exists b, w'.
      split; [exact Hb|]. intros c' [= <-]. by rewrite Hs.
  - rewrite (Hcpp e eq_refl). change (String.eqb "auto" "cpp") with false. cbv iota.
    destruct (Htorch None w eq_refl) as (b & w' & Hb). exists b, w'.
    split; [exact Hb|]. by intros c' ?.
Qed.

End factory.

(** A C++ module that loads but reports that the device has no green contexts *)
Definition demo_unsupported : CppBackend.GreenRuntime unit := {|
  CppBackend.create_runtime := fun _ => Ret tt;
  CppBackend.rt_is_supported := fun _ => false;
  CppBackend.rt_unsupported_reason := fun _ => "driver too old";
  CppBackend.rt_available_sm_counts := fun _ => [];
  CppBackend.rt_sm_step := fun _ => 0;
  CppBackend.rt_partition_sm_count := fun _ => 0;
  CppBackend.rt_generation := fun _ => 0;
  CppBackend.rt_get_stream_ptr := fun _ _ _ => 0;
  CppBackend.rt_sm_count_at_step := fun _ _ => 0;
  CppBackend.rt_sm_count_at_time := fun _ _ => 0;
  CppBackend.rt_activate_sm_for_thread := fun _ => mret 0;
  CppBackend.rt_deactivate_for_thread := fun _ => mret tt;
  CppBackend.rt_load_trace := fun _ => mret false;
  CppBackend.rt_switch_count := fun _ => 0;
  CppBackend.rt_close := mret tt;
|}.

Definition demo_ext : CppBackend.CppHost nat := {|
  CppBackend.ExternalStream := fun ptr _ => Z.to_nat ptr;
  CppBackend.perf_counter_ns := fun n => 10 * Z.of_nat n;
|}.

Definition demo_kwargs : backend_kwargs := mk_kwargs 1 0 (-1) "event_chain".

Lemma explicit_backend_never_falls_back_witness :
  exists b, cpp_init (stream := nat) (H0 := demo_unsupported) (H1 := demo_ext)
              0 false demo_kwargs = Ret b /\
    fst (select_backend (gc := Z) (H := TorchBackend.demo_cuda) (H0 := demo_unsupported)
           (H1 := demo_ext) "cpp" 0 false demo_kwargs []) = Raise (unknown_backend "cpp").
Proof.
  eexists. split; [vm_compute; reflexivity|].
  eapply (explicit_backend_never_falls_back (H := TorchBackend.demo_cuda)
            (H0 := demo_unsupported) (H1 := demo_ext) 0 demo_kwargs []);
    [vm_compute; reflexivity|reflexivity|reflexivity].
Defined.

Lemma auto_selection_total_witness :
  exists b w', select_backend (stream := nat) (H := TorchBackend.demo_cuda)
                 (H0 := demo_unsupported) (H1 := demo_ext) "auto" 0 false demo_kwargs []
               = (Ret b, w').
Proof.
  destruct (auto_selection_total (stream := nat) (gc := Z) (H := TorchBackend.demo_cuda)
    (H0 := demo_unsupported) (H1 := demo_ext) 0 demo_kwargs [])
    as (b & w' & Hb & _).
  - discriminate.
  - discriminate.
  - reflexivity.
  - intros w n d. exact I.
  - intros w g. exact I.
  - intros w g. exact I.
  - reflexivity.
  - exists b, w'. exact Hb.
Defined.
