(* ===== verification/Controller.v ===== *)
(** * The green-context controller ([morphling/runtime/green_context.py])

    The controller is written against [GreenCtxBackend] and its theorems against
    [GreenCtxLaws]; [from_config] builds it over the backend [select_backend]
    returns.  A [with controller.step_scope(step) as streams: body] statement is
    [step_scope step body]: the body is any computation on the controller. *)

From S2P Require Import Prelude PyDict PyFloat GreenBase.
From S2P Require OffBackend TorchBackend CppBackend.
From S2P Require Import Factory.

Record GreenContextConfig : Type := mk_GreenContextConfig {
  enabled : bool;
  cfg_backend : string;   (** [backend] *)
  trace_path : option string;
  clock_mode : string;
  cfg_strict : bool;   (** [strict] *)
  cfg_kwargs : backend_kwargs;   (** [switch_sync], [num_partitions], ... *)
}.

Record GreenContextController (stream B : Type) : Type := mk_controller {
  backend : B;
  config : GreenContextConfig;
  closed : bool;
  bundles : list (Z * StreamBundle stream);
}.
Arguments mk_controller {stream B}. Arguments backend {stream B}.
Arguments config {stream B}. Arguments closed {stream B}. Arguments bundles {stream B}.

Section controller.
Context {stream B : Type} `{GreenCtxBackend stream B}.
Notation self := (GreenContextController stream B).
Implicit Types c : self.

Definition set_backend x c : self := mk_controller x (config c) (closed c) (bundles c).
Definition set_closed x c : self := mk_controller (backend c) (config c) x (bundles c).
Definition set_bundles x c : self := mk_controller (backend c) (config c) (closed c) x.

(** A method of the backend object *)
Definition on_backend {A} (m : M B A) : M self A := zoom backend set_backend m.

(** [self._bundles[sm] = backend.get_stream_bundle(sm)] *)
Definition cache_bundle (sm : Z) : M self unit :=
  bd ← on_backend (get_stream_bundle sm);
  modify (fun c => set_bundles (dict_set sm bd (bundles c)) c).

(** [__init__], after the attributes are set *)
Definition fill_bundles : M self unit :=
  c ← get;
  when (is_supported (backend c))
    (for_each (available_sm_counts (backend c)) cache_bundle);;
  c ← get;
  when (negb (is_supported (backend c))) (cache_bundle 0).

Definition init (b : B) (cfg : GreenContextConfig) : outcome unit * self :=
  fill_bundles (mk_controller b cfg false []).

(** The part of [step_scope] before the [yield]: the SM count to deactivate and
    the bundle to hand out *)
Definition acquire (step_idx : Z) : M self (Z * StreamBundle stream) :=
  r ← on_backend (activate_for_step step_idx);
  let '(sm, gen) := r in
  c ← get;
  let rebuild :=
    bd ← on_backend (get_stream_bundle sm);
    modify (fun c => set_bundles (dict_set sm bd (bundles c)) c);;
    mret (sm, bd) in
  match dict_get sm (bundles c) with
  | None => rebuild
  | Some bd => if negb (generation bd =? gen) then rebuild else mret (sm, bd)
  end.

Definition step_scope {A} (step_idx : Z) (body : StreamBundle stream -> M self A) :
    M self A :=
  r ← acquire step_idx;
  let '(prev_sm, bd) := r in
  try_finally (body bd) (on_backend (deactivate prev_sm)).

Definition is_supported c : bool := GreenBase.is_supported (backend c).

Definition get_default_bundle c : outcome (StreamBundle stream) :=
  let sm := if GreenBase.is_supported (backend c)
            then GreenBase.partition_sm_count (backend c) else 0 in
  of_option (KeyError (PyStr.str_of_Z sm)) (dict_get sm (bundles c)).

Definition available_sm_counts c : list Z := GreenBase.available_sm_counts (backend c).
Definition activate_for_time (elapsed_us : Z) : M self (Z * Z) :=
  on_backend (GreenBase.activate_for_time elapsed_us).
Definition deactivate (prev_sm_count : Z) : M self unit :=
  on_backend (GreenBase.deactivate prev_sm_count).
Definition switch_count c : Z := GreenBase.switch_count (backend c).

Definition close : M self unit :=
  c ← get;
  when (negb (closed c))
    (modify (fun c => set_bundles [] (set_closed true c));;
     on_backend GreenBase.close).

(** ** The invariant: a cached bundle is for the SM count it is cached under. *)
Definition cache_ok c : Prop :=
  forall sm bd, dict_get sm (bundles c) = Some bd -> sm_count bd = sm.

Context {L : GreenCtxLaws stream B}.

Definition ctrl_ok c : Prop := good (backend c) /\ cache_ok c.

Lemma cache_ok_set sm bd c :
  cache_ok c -> sm_count bd = sm -> cache_ok (set_bundles (dict_set sm bd (bundles c)) c).
Proof.
  intros Hc Hbd sm' bd'. cbn. rewrite dict_get_set.
  case_decide; [by intros [= <-]; subst | apply Hc].
Qed.

(** Asking the backend for a served bundle: the controller does not change, and
    the bundle is current. *)
Lemma get_bundle_wp sm c :
  good (backend c) -> serves (backend c) sm ->
  wp (on_backend (get_stream_bundle sm))
    (fun bd c' => c' = c /\ sm_count bd = sm /\ generation bd = current (backend c))
    (fun _ c' => c' = c) c.
Proof.
  intros Hg Hs. unfold wp, on_backend, zoom. pose proof (bundle_pure sm (backend c)) as Hp.
  destruct (get_stream_bundle sm (backend c)) as [[bd|e] b'] eqn:Hr; cbn in Hp; subst b'.
  - destruct (bundle_current sm _ _ _ Hg Hs Hr) as [H1 H2]. by destruct c.
  - by destruct c.
Qed.


Lemma cache_bundle_wp sm c :
  ctrl_ok c -> serves (backend c) sm ->
  wp (cache_bundle sm)
    (fun _ c' => ctrl_ok c' /\ backend c' = backend c /\
       exists bd, bundles c' = dict_set sm bd (bundles c) /\
                  generation bd = current (backend c))
    (fun _ c' => c' = c) c.
Proof.
  intros [Hg Hc] Hs. apply wp_bind.
  eapply wp_mono; [| |by apply get_bundle_wp]; [|done].
  intros bd c1 (-> & Hsm & Hgen). unfold wp, modify. split_and!.
  - split; [done|by apply cache_ok_set].
  - done.
  - by exists bd.
Qed.

(** Acquiring: the activation's answer, and a current bundle of its SM count *)
Lemma acquire_wp t c :
  ctrl_ok c ->
  wp (acquire t)
    (fun p c' => ctrl_ok c' /\ sm_count p.2 = p.1 /\
       activate_for_step t (backend c) = (Ret (p.1, generation p.2), backend c'))
    (fun _ c' => ctrl_ok c') c.
Proof.
  intros [Hg Hc]. unfold acquire. apply wp_bind. unfold wp at 1, on_backend at 1, zoom.
  pose proof (activate_preserves t (backend c) Hg) as Hp.
  destruct (activate_for_step t (backend c)) as [[[sm gen]|e] b1] eqn:Ha; [|by split].
  cbn in Hp. destruct (activate_current t _ _ _ _ Hg Ha) as [Hs Hcur].
  set (c1 := set_backend b1 c). assert (H1 : ctrl_ok c1) by by split.
  assert (Hre : wp (bd ← on_backend (get_stream_bundle sm);
      modify (fun c => set_bundles (dict_set sm bd (bundles c)) c);; mret (sm, bd))
    (fun p c' => ctrl_ok c' /\ sm_count p.2 = p.1 /\
       (Ret (sm, gen), b1) = (Ret (p.1, generation p.2), backend c'))
    (fun _ c' => ctrl_ok c') c1).
  { apply wp_bind. eapply wp_mono; [| |by apply get_bundle_wp]; [|by intros ?? ->].
    intros bd c2 (-> & Hsm & Hgen). apply wp_bind. unfold wp at 1, modify. apply wp_ret.
    split_and!; [|done|].
    - split; [done|]. by apply cache_ok_set.
    - cbn in *. by rewrite Hgen, Hcur. }
  apply wp_bind. unfold wp at 1, get.
  destruct (dict_get sm (bundles c1)) as [bd|] eqn:Hbd; [|exact Hre].
  destruct (generation bd =? gen) eqn:Hgen; cbn [negb]; [|exact Hre].
  apply Z.eqb_eq in Hgen. apply wp_ret. split_and!; [done| |by rewrite <- Hgen].
  by apply Hc.
Qed.

Lemma acquire_preserves t : preserves ctrl_ok (acquire t).
Proof.
  intros c Hc. pose proof (acquire_wp t c Hc) as Hw. unfold wp in Hw.
  destruct (acquire t c) as [[p|e] c']; [apply Hw|exact Hw].
Qed.

Lemma on_backend_preserves {A} (m : M B A) :
  preserves good m -> preserves ctrl_ok (on_backend m).
Proof.
  intros Hm c [Hg Hc]. specialize (Hm _ Hg). unfold on_backend, zoom.
  by destruct (m (backend c)) as [r b'].
Qed.

(** What a client does with an open controller *)
Inductive ctrl_step : self -> self -> Prop :=
  | ctrl_acquire t c : ctrl_step c (snd (acquire t c))
  | ctrl_deactivate sm c : ctrl_step c (snd (deactivate sm c))
  | ctrl_activate_for_time t c : ctrl_step c (snd (activate_for_time t c)).

Lemma ctrl_step_ok c c' : ctrl_step c c' -> ctrl_ok c -> ctrl_ok c'.
Proof.
  destruct 1 as [t c|sm c|t c]; intros Hc.
  - by apply acquire_preserves.
  - apply on_backend_preserves; [apply deactivate_preserves|done].
  - apply on_backend_preserves; [apply activate_time_preserves|done].
Qed.

(** A [with] statement is an acquisition, its body and a deactivation. *)
Lemma step_scope_steps {A} t (body : StreamBundle stream -> M self A) c :
  (forall bd c1, rtc ctrl_step c1 (snd (body bd c1))) ->
  rtc ctrl_step c (snd (step_scope t body c)).
Proof.
  intros Hbody. unfold step_scope. unfold mbind at 1, M_bind at 1.
  pose proof (ctrl_acquire t c) as Ha. destruct (acquire t c) as [[[sm bd]|e] c1].
  - eapply rtc_l; [exact Ha|]. unfold try_finally. specialize (Hbody bd c1).
    destruct (body bd c1) as [r c2]. eapply rtc_r; [exact Hbody|].
    pose proof (ctrl_deactivate sm c2) as Hd. unfold deactivate in Hd.
    by destruct (on_backend _ c2) as [[]].
  - by apply rtc_once.
Qed.

(** [step_scope] from a controller in order: the body gets a bundle for the
    activated SM count and the backend's generation, and the deactivation for
    that count follows whatever the body's outcome. *)
Definition scope_runs {A} (t : Z) (body : StreamBundle stream -> M self A) c
    (r : outcome A) (c' : self) : Prop :=
  exists bd c1,
    activate_for_step t (backend c) = (Ret (sm_count bd, generation bd), backend c1) /\
    generation bd = current (backend c1) /\
    let '(r2, c2) := body bd c1 in
    let '(d, b3) := GreenBase.deactivate (sm_count bd) (backend c2) in
    c' = set_backend b3 c2 /\
    r = match d with Ret _ => r2 | Raise e => Raise e end.

Lemma step_scope_spec {A} t (body : StreamBundle stream -> M self A) c r c' :
  ctrl_ok c -> step_scope t body c = (r, c') ->
  scope_runs t body c r c' \/
  exists e, r = Raise e /\ acquire t c = (Raise e, c').
Proof.
  intros Hc. pose proof (acquire_wp t c Hc) as Hw. unfold step_scope, wp in *.
  unfold mbind at 1, M_bind at 1. destruct (acquire t c) as [[[sm bd]|e] c1].
  - destruct Hw as ([Hg1 _] & Hsm & Ha). cbn in Hsm, Ha. subst sm. left.
    destruct (activate_current t _ _ _ _ (proj1 Hc) Ha) as [_ Hcur].
    exists bd, c1. split_and!; [exact Ha|done|].
    unfold try_finally, on_backend, zoom in *. destruct (body bd c1) as [r2 c2].
    destruct (GreenBase.deactivate _ (backend c2)) as [[[]|e] b3]; by simplify_eq.
  - intros [= <- <-]. right. by exists e.
Qed.

Lemma for_each_cache_wp sms c :
  ctrl_ok c -> (forall sm, sm ∈ sms -> serves (backend c) sm) ->
  wp (for_each sms cache_bundle)
    (fun _ c' => ctrl_ok c' /\ backend c' = backend c /\
       forall sm, sm ∈ sms \/ is_Some (dict_get sm (bundles c)) ->
                  is_Some (dict_get sm (bundles c')))
    (fun _ _ => True) c.
Proof.
  revert c. induction sms as [|sm sms IH]; intros c Hc Hs.
  { apply wp_ret. split_and!; [done|done|]. intros sm [[]%not_elem_of_nil|?]; done. }
  pose proof (cache_bundle_wp sm c Hc (Hs sm ltac:(left))) as H1. unfold wp in *.
  cbn [for_each]. destruct (cache_bundle sm c) as [[[]|e] c1]; [|done].
  destruct H1 as (Hc1 & Hb1 & bd & Hbd & _).
  specialize (IH c1 Hc1). rewrite Hb1 in IH.
  specialize (IH (fun sm' Hin => Hs sm' (list_elem_of_further _ _ _ Hin))).
  destruct (for_each sms cache_bundle c1) as [[[]|e] c2]; [|done].
  destruct IH as (Hc2 & Hb2 & Hall). split_and!; [done|done|].
  intros sm' Hsm'. apply Hall. rewrite Hbd, dict_get_set.
  destruct Hsm' as [[->|Hin]%elem_of_cons|Hin]; [|by left|].
  - right. by rewrite decide_True.
  - right. by case_decide.
Qed.

Lemma init_ok b cfg c :
  good b -> init b cfg = (Ret tt, c) ->
  ctrl_ok c /\ backend c = b /\
  forall sm, (if GreenBase.is_supported b then sm ∈ GreenBase.available_sm_counts b
              else sm = 0) -> is_Some (dict_get sm (bundles c)).
Proof.
  intros Hg. unfold init, fill_bundles, mbind, M_bind, get. cbn [backend].
  set (c0 := mk_controller b cfg false []). assert (H0 : ctrl_ok c0) by by split.
  pose proof (for_each_cache_wp (GreenBase.available_sm_counts b) c0 H0) as Hl.
  unfold wp in Hl. destruct (GreenBase.is_supported b) eqn:Hsup; cbn [when negb].
  - specialize (Hl (fun sm => available_serves b sm Hg Hsup)).
    destruct (for_each _ _ c0) as [[[]|e] c1]; [|done]. destruct Hl as (Hc1 & Hb1 & Hall).
    rewrite Hb1. cbn [backend c0]. rewrite Hsup. cbn [negb when]. unfold mret, M_ret. intros [= <-]. split_and!; auto.
  - unfold mret, M_ret. cbn [backend c0]. rewrite Hsup. cbn [negb when].
    pose proof (cache_bundle_wp 0 c0 H0 (unsupported_serves b Hg Hsup)) as H1. unfold wp in H1.
    destruct (cache_bundle 0 c0) as [[[]|e] c1]; [|done].
    destruct H1 as (Hc1 & Hb1 & bd & Hbd & _). intros [= <-]. split_and!; [done|done|].
    intros sm ->. rewrite Hbd, dict_get_set_eq. by eexists.
Qed.

End controller.

(** ** Construction from a configuration, over the selected backend *)

Section from_config.
Context {stream gc R : Type} `{EqDecision gc} {E : TorchCuda stream gc}
  {RT : CppBackend.GreenRuntime R} {HO : CppBackend.CppHost stream}.
Notation any := (AnyBackend stream gc R).
Notation self := (GreenContextController stream any).

(** [cls(backend=backend, config=cfg)] *)
Definition construct (b : any) (cfg : GreenContextConfig) :
    M (list (cuda_call gc)) self := fun w =>
  match init b cfg with
  | (Ret _, c) => (Ret c, w)
  | (Raise e, _) => (Raise e, w)
  end.

(** The trace is loaded after the bundles are cached. *)
Definition load_config_trace (cfg : GreenContextConfig) (c : self) : outcome self :=
  match trace_path cfg with
  | Some path =>
      if negb (PyStr.is_empty path) && GreenBase.is_supported (backend c) then
        match on_backend (load_trace path) c with
        | (Raise e, _) => Raise e
        | (Ret ok, c') =>
            if negb ok && cfg_strict cfg
            then Raise (RuntimeError ("Failed to load trace: " +:+ path))
            else Ret c'
        end
      else Ret c
  | None => Ret c
  end.

Definition from_config (device_id : Z) (cfg : GreenContextConfig) :
    M (list (cuda_call gc)) self :=
  if negb (enabled cfg)
  then b ← OffBackend.init device_id false; construct (BOff b) cfg
  else b ← select_backend (cfg_backend cfg) device_id (cfg_strict cfg) (cfg_kwargs cfg);
       c ← construct b cfg;
       lift (load_config_trace cfg c).

(** The swap statistics exist for the C++ backend only ([getattr]); for the
    others the code answers three integer zeros, here the zeros of the record. *)
Definition get_swap_stats (c : self) : outcome CppBackend.swap_stats :=
  match backend c with
  | BCpp b => CppBackend.get_swap_stats b
  | _ => Ret (CppBackend.mk_swap_stats 0 fzero fzero)
  end.

Definition get_swap_log (c : self) : list CppBackend.swap :=
  match backend c with BCpp b => CppBackend.get_swap_log b | _ => [] end.

Definition reset_swap_stats : M self unit := fun c =>
  match backend c with
  | BCpp b => let '(r, b') := CppBackend.reset_swap_stats b in
              (r, set_backend (BCpp b') c)
  | _ => (Ret tt, c)
  end.

Lemma construct_backend b cfg w c w' :
  construct b cfg w = (Ret c, w') -> init b cfg = (Ret tt, c).
Proof.
  unfold construct. destruct (init b cfg) as [[[]|e] c1]; [|done]. by intros [= -> _].
Qed.

Lemma try_cpp_world name gpu is_strict kw w :
  snd (try_cpp name gpu is_strict kw w) = w /\
  forall b : any, fst (try_cpp name gpu is_strict kw w) = Ret (Some b) ->
                  exists c, b = BCpp c.
Proof.
  unfold try_cpp, try_except, mbind, M_bind, lift, raise, mret, M_ret.
  destruct (cpp_init gpu is_strict kw) as [c|e].
  - destruct (CppBackend.is_supported c); [split; [done|intros b [= <-]; by eexists]|].
    destruct (String.eqb name "cpp"); [|done]. destruct is_strict; [done|].
    destruct (fst (CppBackend.close c)) as [[]|e]; [done|].
    by destruct (is_ImportError e).
  - destruct (is_ImportError e); [|done]. by destruct (String.eqb name "cpp").
Qed.

(** The backend [select_backend] returns satisfies the laws' invariant, over
    whatever contexts were pushed before. *)
Lemma select_backend_good base (Hpop : forall w g, answer_pop w g = Ret tt)
    name gpu is_strict kw w b w' :
  ctx_stack w = Some base ->
  select_backend name gpu is_strict kw w = (Ret b, w') -> any_good base b.
Proof.
  intros Hw. unfold select_backend. intros Hs.
  assert (Ho : forall w1 b1 w2, (b ← OffBackend.init gpu is_strict; mret (BOff b)) w1
    = (Ret b1, w2) -> any_good base (b1 : any)).
  { intros w1 b1 w2. unfold mbind, M_bind.
    destruct (OffBackend.init gpu is_strict w1) as [[o|e] w3] eqn:Ho; [|done].
    intros [= <- _]. by eapply OffBackend.off_init_wf. }
  assert (Ht : forall o w1, try_torch name gpu is_strict w = (Ret (Some o), w1) ->
                            any_good base (o : any)).
  { intros o w1. unfold try_torch, mbind, M_bind.
    destruct (TorchBackend.init gpu is_strict w) as [[t|e] w2] eqn:Ht; [|done].
    destruct (TorchBackend.is_supported t).
    - intros [= <- _]. apply TorchBackend.quiet_wf.
      destruct (TorchBackend.init_quiet base gpu is_strict w Hpop Hw) as [_ Hq].
      by apply (Hq t w2).
    - by destruct (_ && _). }
  unfold mbind at 1, M_bind at 1 in Hs.
  pose proof (try_cpp_world name gpu is_strict kw w) as Hc.
  destruct (if String.eqb name "cpp" || String.eqb name "auto" then _ else _)
    as [[[o|]|e] w1] eqn:Hr1 in Hs; [| |done].
  { injection Hs as <- _. destruct (String.eqb name "cpp" || String.eqb name "auto"); [|done].
    rewrite Hr1 in Hc. cbn in Hc.
    destruct Hc as [_ Hb]. destruct (Hb o eq_refl) as [c ->]. exact I. }
  assert (w1 = w) as ->.
  { destruct (String.eqb name "cpp" || String.eqb name "auto"); [|by injection Hr1]. rewrite Hr1 in Hc. apply Hc. }
  unfold mbind at 1, M_bind at 1 in Hs.
  destruct (if String.eqb name "torch_native" || String.eqb name "auto" then _ else _)
    as [[[o|]|e] w1] eqn:Hr2 in Hs; [| |done].
  { injection Hs as <- _. destruct (String.eqb name "torch_native" || String.eqb name "auto");
    [by eapply Ht|done]. }
  destruct (String.eqb name "off" || String.eqb name "auto"); [|done]. by eapply Ho.
Qed.

Lemma from_config_ok base (Hpop : forall w g, answer_pop w g = Ret tt) dev cfg w c w' :
  ctx_stack w = Some base -> from_config dev cfg w = (Ret c, w') ->
  ctrl_ok (L := any_laws base) c.
Proof.
  intros Hw. unfold from_config. destruct (enabled cfg); cbn [negb].
  - unfold mbind, M_bind.
    destruct (select_backend _ _ _ _ w) as [[b|e] w1] eqn:Hb; [|done].
    pose proof (select_backend_good base Hpop _ _ _ _ _ _ _ Hw Hb) as Hg.
    destruct (construct b cfg w1) as [[c1|e] w2] eqn:Hc; [|done].
    apply construct_backend in Hc.
    destruct (init_ok (L := any_laws base) b cfg c1 Hg Hc) as (H1 & _ & _).
    unfold lift, load_config_trace. destruct (trace_path cfg) as [p|]; [|by intros [= <-]].
    destruct (_ && _); [|by intros [= <-]].
    pose proof (on_backend_preserves (L := any_laws base) (load_trace p)
                  (load_trace_preserves p) c1 H1) as H2.
    destruct (on_backend (load_trace p) c1) as [[ok|e] c2]; [|done].
    destruct (_ && _); [done|]. by intros [= <-].
  - unfold mbind, M_bind.
    destruct (OffBackend.init dev false w) as [[b|e] w1] eqn:Hb; [|done].
    intros Hc. apply construct_backend in Hc.
    apply OffBackend.off_init_wf in Hb.
    by destruct (init_ok (L := any_laws base) (BOff b) cfg c Hb Hc) as (H1 & _ & _).
Qed.

(** C2: whichever backend the configuration selects, and after any sequence of
    acquisitions, activations and deactivations, exceptions included: a
    [step_scope] that gets its streams runs its body exactly once, with a bundle
    whose SM count is the activated one and whose generation is the backend's
    current one, then deactivates that count, whatever the body's outcome, and
    ends with the body's outcome unless the deactivation raises. *)
Theorem step_scope_current_streams base dev cfg w c0 w'
    (Hpop : forall w g, answer_pop w g = Ret tt)
    (Hw : ctx_stack w = Some base)
    (Hcfg : from_config dev cfg w = (Ret c0, w'))
    (c : self) (Hsteps : rtc ctrl_step c0 c)
    {A} t (body : StreamBundle stream -> M self A) r c'
    (Hscope : step_scope t body c = (r, c')) :
  (exists bd c1,
     activate_for_step t (backend c) = (Ret (sm_count bd, generation bd), backend c1) /\
     generation bd = any_current (backend c1) /\
     let '(r2, c2) := body bd c1 in
     let '(d, b3) := GreenBase.deactivate (sm_count bd) (backend c2) in
     c' = set_backend b3 c2 /\
     r = match d with Ret _ => r2 | Raise e => Raise e end) \/
  (exists e, r = Raise e /\ acquire t c = (Raise e, c')).
Proof.
  assert (Hc : ctrl_ok (L := any_laws base) c).
  { pose proof (from_config_ok base Hpop dev cfg w c0 w' Hw Hcfg) as H0'. clear Hcfg Hscope.
    induction Hsteps as [|c1 c2 c3 H12 _ IH]; [exact H0'|].
    apply IH. by eapply ctrl_step_ok. }
  exact (step_scope_spec (L := any_laws base) t body c r c' Hc Hscope).
Qed.

End from_config.

(** ** The controller over the PyTorch backend *)

Section torch_scopes.
Context {stream gc : Type} `{EqDecision gc} {E : TorchCuda stream gc}.
Notation torch := (TorchBackend.TorchNativeBackend stream gc).
Notation self := (GreenContextController stream torch).

(** A [step_scope] that gets its streams, with a body that leaves the backend
    alone, and loading a trace *)
Inductive scope_step : self -> self -> Prop :=
  | scope_step_scope (A : Type) t (body : StreamBundle stream -> M self A) c :
      (forall bd c1, backend (snd (body bd c1)) = backend c1 /\
                     bundles (snd (body bd c1)) = bundles c1) ->
      is_ret (fst (acquire t c)) = true ->
      scope_step c (snd (step_scope t body c))
  | scope_load_trace path c : scope_step c (snd (on_backend (load_trace path) c)).

Definition at_rest (base : list gc) (c : self) : Prop :=
  ctrl_ok (L := TorchBackend.torch_laws base) c /\
  TorchBackend.active_gc (backend c) = None /\
  TorchBackend.n_switches (backend c) <= 1.

Lemma deactivate_returns base (Hpop : forall w g, answer_pop w g = Ret tt) sm (b : torch) :
  TorchBackend.wf base b ->
  exists b', TorchBackend.deactivate sm b = (Ret tt, b') /\
             TorchBackend.wf base b' /\ TorchBackend.active_gc b' = None.
Proof.
  intros Hwf. pose proof (TorchBackend.deactivate_wp base sm b Hwf) as Hw. unfold wp in Hw.
  destruct (TorchBackend.deactivate sm b) as [[[]|e] b'] eqn:Hd; [by exists b'|exfalso].
  unfold TorchBackend.deactivate, mbind, M_bind, get in Hd.
  destruct (TorchBackend.active_gc b) as [g|]; [|done].
  unfold TorchBackend.call, zoom, pop_context in Hd. by rewrite Hpop in Hd.
Qed.

Lemma scope_step_at_rest base (Hpop : forall w g, answer_pop w g = Ret tt) c c' :
  scope_step c c' -> at_rest base c -> at_rest base c'.
Proof.
  destruct 1 as [A t body c Hbody Hacq|path c]; intros (Hc & Ha & Hn).
  - pose proof (acquire_wp (L := TorchBackend.torch_laws base) t c Hc) as Hw. unfold wp in Hw.
    unfold step_scope, mbind at 1, M_bind at 1.
    destruct (acquire t c) as [[[sm bd]|e] c1]; [|done].
    destruct Hw as ([Hg1 Hok1] & _ & Hact). cbn in Hg1.
    assert (Hn1 : TorchBackend.n_switches (backend c1) <= 1).
    { pose proof (TorchBackend.activate_step_switches t (backend c) Ha Hn) as Hs.
      cbn in Hact. by rewrite Hact in Hs. }
    specialize (Hbody bd c1). unfold try_finally, on_backend, zoom.
    destruct (body bd c1) as [r c2]. destruct Hbody as [Hb2 Hbd2]. cbn in Hb2, Hbd2.
    cbn [GreenBase.deactivate TorchBackend.torch_backend]. rewrite Hb2.
    destruct (deactivate_returns base Hpop sm _ Hg1) as (b3 & Hd & Hwf3 & Ha3).
    pose proof (TorchBackend.deactivate_switches sm (backend c1)) as Hs3.
    rewrite Hd in *. cbn in *. split_and!; [|done|].
    + split; [done|]. intros sm' bd'. cbn. rewrite Hbd2. apply Hok1.
    + cbn. lia.
  - destruct Hc as [Hg Hok]. unfold on_backend, zoom.
    pose proof (TorchBackend.load_trace_preserves base path (backend c) Hg) as Hg'.
    cbn [load_trace TorchBackend.torch_backend]. unfold TorchBackend.load_trace in *.
    by destruct (Trace.parse_trace_file open_text path) as [[[es tu] cm]|e].
Qed.

Lemma torch_init_at_rest base (Hpop : forall w g, answer_pop w g = Ret tt)
    gpu is_strict w b w' cfg c :
  ctx_stack w = Some base -> TorchBackend.init gpu is_strict w = (Ret b, w') ->
  init b cfg = (Ret tt, c) -> at_rest base c.
Proof.
  intros Hw Hb Hc. pose proof (TorchBackend.init_unswitched _ _ _ _ _ Hb) as Hn.
  destruct (TorchBackend.init_quiet base gpu is_strict w Hpop Hw) as [_ Hq].
  specialize (Hq b w' Hb).
  destruct (init_ok (L := TorchBackend.torch_laws base) b cfg c
              (TorchBackend.quiet_wf _ _ Hq) Hc) as (Hok & Hbk & _).
  destruct Hq as [_ Ha]. unfold at_rest. rewrite Hbk. split_and!; [done|done|lia].
Qed.

Lemma scope_steps_at_rest base (Hpop : forall w g, answer_pop w g = Ret tt) c c' :
  rtc scope_step c c' -> at_rest base c -> at_rest base c'.
Proof. induction 1; eauto using scope_step_at_rest. Qed.

(** Training steps leave no green context behind: after any sequence of
    [step_scope]s on the PyTorch backend, whatever the bodies' outcomes, the
    context stack is the one from before the backend was built. *)
Theorem torch_scopes_restore_contexts base gpu is_strict w b w' cfg c0 c
    (Hpop : forall w g, answer_pop w g = Ret tt)
    (Hw : ctx_stack w = Some base)
    (Hb : TorchBackend.init gpu is_strict w = (Ret b, w'))
    (Hc : init b cfg = (Ret tt, c0))
    (Hsteps : rtc scope_step c0 c) :
  ctx_stack (TorchBackend.world (backend c)) = Some base.
Proof.
  pose proof (torch_init_at_rest base Hpop _ _ _ _ _ _ _ Hw Hb Hc) as H0.
  destruct (scope_steps_at_rest base Hpop c0 c Hsteps H0) as ([[Hs _] _] & Ha & _).
  by rewrite Ha in Hs.
Qed.

(** The PyTorch backend never counts more than one switch of SM partition
    when it is driven by [step_scope]: each scope deactivates on exit, and the
    count only grows, after the first activation, when another context is still
    active. *)
Theorem torch_scopes_count_one_switch base gpu is_strict w b w' cfg c0 c
    (Hpop : forall w g, answer_pop w g = Ret tt)
    (Hw : ctx_stack w = Some base)
    (Hb : TorchBackend.init gpu is_strict w = (Ret b, w'))
    (Hc : init b cfg = (Ret tt, c0))
    (Hsteps : rtc scope_step c0 c) :
  switch_count c <= 1.
Proof.
  pose proof (torch_init_at_rest base Hpop _ _ _ _ _ _ _ Hw Hb Hc) as H0.
  by destruct (scope_steps_at_rest base Hpop c0 c Hsteps H0) as (_ & _ & Hn).
Qed.

(** *** Incomplete stream caches *)

Lemma get_stream_bundle_lacks sm role (b : torch) :
  role ∈ ROLE_NAMES -> dict_get (sm, role) (TorchBackend.stream_cache b) = None ->
  exists msg, TorchBackend.get_stream_bundle sm b = (Raise (KeyError msg), b).
Proof.
  intros Hr Hn. unfold TorchBackend.get_stream_bundle, TorchBackend.cached.
  unfold mbind, M_bind, gets, mret, M_ret.
  unfold ROLE_NAMES in Hr. rewrite !elem_of_cons in Hr.
  destruct (dict_get (sm, "compute") _) eqn:H1; [|by eexists].
  destruct (dict_get (sm, "recv") _) eqn:H2; [|by eexists].
  destruct (dict_get (sm, "send") _) eqn:H3; [|by eexists].
  destruct (dict_get (sm, "dp") _) eqn:H4; [|by eexists].
  destruct Hr as [->|[->|[->|[->|[]%not_elem_of_nil]]]]; congruence.
Qed.

Lemma cache_bundle_torch sm (c : self) :
  (TorchBackend.has_streams ROLE_NAMES sm (backend c) ->
   exists c', cache_bundle sm c = (Ret tt, c') /\ backend c' = backend c) /\
  (forall role, role ∈ ROLE_NAMES ->
   dict_get (sm, role) (TorchBackend.stream_cache (backend c)) = None ->
   exists msg, fst (cache_bundle sm c) = Raise (KeyError msg)).
Proof.
  unfold cache_bundle, mbind, M_bind, on_backend, zoom.
  cbn [get_stream_bundle TorchBackend.torch_backend]. split.
  - pose proof (TorchBackend.get_stream_bundle_pure sm (backend c)) as Hp.
    intros Hh%TorchBackend.get_stream_bundle_has.
    destruct (TorchBackend.get_stream_bundle sm (backend c)) as [[bd|e] b]; [|done].
    cbn in Hp. subst b. by eexists.
  - intros role Hr Hn. destruct (get_stream_bundle_lacks sm role (backend c) Hr Hn) as [msg ->].
    by exists msg.
Qed.

Lemma for_each_cache_complete sms (c : self) :
  (forall sm, sm ∈ sms -> TorchBackend.has_streams ROLE_NAMES sm (backend c)) ->
  exists c', for_each sms cache_bundle c = (Ret tt, c') /\ backend c' = backend c.
Proof.
  revert c. induction sms as [|sm sms IH]; intros c Hall; [by eexists|]. cbn [for_each].
  destruct (proj1 (cache_bundle_torch sm c) (Hall sm ltac:(left))) as (c1 & -> & Hb1).
  destruct (IH c1) as (c2 & -> & Hb2); [|exists c2; by rewrite Hb2].
  intros sm' Hin. rewrite Hb1. apply Hall. by right.
Qed.

Lemma for_each_cache_lacks sms sm role (c : self) :
  sm ∈ sms -> role ∈ ROLE_NAMES ->
  dict_get (sm, role) (TorchBackend.stream_cache (backend c)) = None ->
  exists msg, fst (for_each sms cache_bundle c) = Raise (KeyError msg).
Proof.
  intros Hsm Hr. revert c Hsm. induction sms as [|sm' sms IH]; intros c Hsm Hn;
    [by apply not_elem_of_nil in Hsm|]. cbn [for_each].
  destruct (decide (Forall (fun r => is_Some
    (dict_get (sm', r) (TorchBackend.stream_cache (backend c)))) ROLE_NAMES)) as [Hh|Hh].
  - rewrite Forall_forall in Hh.
    destruct (proj1 (cache_bundle_torch sm' c) Hh) as (c1 & -> & Hb1). apply IH.
    + apply elem_of_cons in Hsm as [->|?]; [|done]. destruct (Hh role Hr). congruence.
    + by rewrite Hb1.
  - apply not_Forall_Exists in Hh; [|apply _].
    apply Exists_exists in Hh as (role' & Hr' & Hn'%eq_None_not_Some).
    destruct (proj2 (cache_bundle_torch sm' c) role' Hr' Hn') as [msg Hm].
    destruct (cache_bundle sm' c) as [[[]|e] c1]; [done|]. cbn in *. by exists msg.
Qed.

(** A controller over a supported PyTorch backend is built exactly when
    every SM count the backend advertises has all four of its streams; one
    missing stream, which the backend's own constructor only warns about, makes
    the controller's constructor raise [KeyError]. *)
Theorem controller_needs_every_stream (b : torch) cfg :
  TorchBackend.is_supported b = true ->
  ((forall sm, sm ∈ TorchBackend.sm_counts b -> TorchBackend.has_streams ROLE_NAMES sm b) ->
   exists c, init b cfg = (Ret tt, c) /\ backend c = b) /\
  (forall sm role, sm ∈ TorchBackend.sm_counts b -> role ∈ ROLE_NAMES ->
   dict_get (sm, role) (TorchBackend.stream_cache b) = None ->
   exists msg, fst (init b cfg) = Raise (KeyError msg)).
Proof.
  intros Hs. unfold init, fill_bundles, mbind, M_bind, get.
  cbn [backend is_supported GreenBase.is_supported TorchBackend.torch_backend].
  rewrite Hs. cbn [when GreenBase.available_sm_counts TorchBackend.torch_backend].
  unfold TorchBackend.available_sm_counts.
  set (c0 := mk_controller b cfg false []). split.
  - intros Hall. destruct (for_each_cache_complete (TorchBackend.sm_counts b) c0 Hall)
      as (c1 & -> & Hb1). cbn in Hb1. rewrite Hb1, Hs. cbn. by exists c1.
  - intros sm role Hsm Hr Hn.
    destruct (for_each_cache_lacks (TorchBackend.sm_counts b) sm role c0 Hsm Hr Hn) as [msg Hm].
    destruct (for_each _ _ c0) as [[[]|e] c1]; [done|]. cbn in *. by exists msg.
Qed.

End torch_scopes.

(** ** Witnesses *)

Definition demo_config : GreenContextConfig :=
  mk_GreenContextConfig true "auto" (Some "t.trace"%string) "step" false demo_kwargs.

(** A device on which the third stream of the second SM count cannot be created *)
Definition flaky_cuda : TorchCuda nat Z := {|
  import_green_contexts := Ret (mk_green_module true true);
  select_device := fun _ => Ret tt;
  get_device_properties := fun _ => mk_device_props 8 8 9;
  answer_create := fun _ n _ => Ret n;
  answer_set := fun _ _ => Ret tt;
  answer_pop := fun _ _ => Ret tt;
  answer_stream := fun w _ => if decide (length w = 11%nat)
                              then Raise (RuntimeError "out of streams") else Ret (length w);
  open_text := fun path => Raise (OSError "No such file");
|}.

Definition demo_body {B} (bd : StreamBundle nat) : M (GreenContextController nat B) Z :=
  if sm_count bd =? 8 then raise (RuntimeError "training failed") else mret (sm_count bd).

Lemma step_scope_current_streams_witness :
  exists c0 w', from_config (E := TorchBackend.demo_cuda) (RT := demo_unsupported)
                  (HO := demo_ext) 0 demo_config [] = (Ret c0, w') /\
    fst (step_scope (H := any_backend (H := TorchBackend.demo_cuda) (H0 := demo_unsupported)
                            (H1 := demo_ext)) 1 demo_body c0)
      = Raise (RuntimeError "training failed") /\
    exists bd, sm_count bd = 8 /\ generation (stream := nat) bd = 1.
Proof.
  eexists _, _. split; [vm_compute; reflexivity|]. split; [vm_compute; reflexivity|].
  epose proof (step_scope_current_streams (E := TorchBackend.demo_cuda)
    (RT := demo_unsupported) (HO := demo_ext) [] 0 demo_config [] _ _
    (fun _ _ => eq_refl) eq_refl ltac:(vm_compute; reflexivity) _ (rtc_refl _ _)
    1 demo_body _ _ ltac:(vm_compute; reflexivity)) as [H|H].
  - destruct H as (bd & c1 & Ha & _). exists bd. vm_compute in Ha.
    injection Ha as H1 H2 _. split; [exact (eq_sym H1)|exact (eq_sym H2)].
  - destruct H as (e & _ & Ha). vm_compute in Ha. discriminate.
Defined.

Definition demo_torch : TorchBackend.TorchNativeBackend nat Z :=
  match TorchBackend.init (H := TorchBackend.demo_cuda) 0 false [CallSet 77 true] with
  | (Ret b, _) => b
  | _ => TorchBackend.fresh 0 false []
  end.

Definition demo_controller : GreenContextController nat (TorchBackend.TorchNativeBackend nat Z) :=
  snd (init (H := TorchBackend.torch_backend (H := TorchBackend.demo_cuda)) demo_torch
         demo_config).

Definition demo_run : list Z -> GreenContextController nat (TorchBackend.TorchNativeBackend nat Z) :=
  foldl (fun c t => snd (step_scope (H := TorchBackend.torch_backend
                           (H := TorchBackend.demo_cuda)) t demo_body c))
    (snd (on_backend (load_trace (GreenCtxBackend := TorchBackend.torch_backend
            (H := TorchBackend.demo_cuda)) "t.trace") demo_controller)).

Lemma demo_run_steps : rtc (scope_step (E := TorchBackend.demo_cuda)) demo_controller
                         (demo_run [0; 1; 2]).
Proof.
  assert (Hb : forall bd (c1 : GreenContextController nat
                 (TorchBackend.TorchNativeBackend nat Z)),
    backend (snd (demo_body bd c1)) = backend c1 /\
    bundles (snd (demo_body bd c1)) = bundles c1).
  { intros bd c1. unfold demo_body. by destruct (sm_count bd =? 8). }
  eapply rtc_l; [apply (scope_load_trace (E := TorchBackend.demo_cuda) "t.trace")|].
  unfold demo_run. cbn [foldl].
  eapply rtc_l; [apply (scope_step_scope (E := TorchBackend.demo_cuda) _ 0 demo_body); [exact Hb|]|].
  { vm_compute; reflexivity. }
  eapply rtc_l; [apply (scope_step_scope (E := TorchBackend.demo_cuda) _ 1 demo_body); [exact Hb|]|].
  { vm_compute; reflexivity. }
  apply rtc_once, (scope_step_scope (E := TorchBackend.demo_cuda) _ 2 demo_body); [exact Hb|].
  vm_compute; reflexivity.
Qed.

Lemma torch_scopes_restore_contexts_witness :
  ctx_stack (TorchBackend.world (backend (demo_run [0; 1; 2]))) = Some [77].
Proof.
  eapply (torch_scopes_restore_contexts (E := TorchBackend.demo_cuda) [77] 0 false
    [CallSet 77 true] demo_torch _ demo_config demo_controller);
    [done|reflexivity|vm_compute; reflexivity|vm_compute; reflexivity|apply demo_run_steps].
Defined.

Lemma torch_scopes_count_one_switch_witness :
  switch_count (H := TorchBackend.torch_backend (H := TorchBackend.demo_cuda))
    (demo_run [0; 1; 2]) <= 1 /\
  switch_count (H := TorchBackend.torch_backend (H := TorchBackend.demo_cuda))
    (demo_run [0; 1; 2]) = 1.
Proof.
  split; [|vm_compute; reflexivity].
  eapply (torch_scopes_count_one_switch (E := TorchBackend.demo_cuda) [77] 0 false
    [CallSet 77 true] demo_torch _ demo_config demo_controller);
    [done|reflexivity|vm_compute; reflexivity|vm_compute; reflexivity|apply demo_run_steps].
Defined.

Definition flaky_torch : TorchBackend.TorchNativeBackend nat Z :=
  match TorchBackend.init (H := flaky_cuda) 0 false [] with
  | (Ret b, _) => b
  | _ => TorchBackend.fresh 0 false []
  end.

Lemma controller_needs_every_stream_witness :
  fst (TorchBackend.init (H := flaky_cuda) 0 false []) = Ret flaky_torch /\
  TorchBackend.is_supported flaky_torch = true /\
  TorchBackend.sm_counts flaky_torch = [2; 4; 6; 8] /\
  exists msg, fst (init (H := TorchBackend.torch_backend (H := flaky_cuda)) flaky_torch
                     demo_config) = Raise (KeyError msg).
Proof.
  split; [vm_compute; reflexivity|]. split; [vm_compute; reflexivity|].
  assert (Hcounts : TorchBackend.sm_counts flaky_torch = [2; 4; 6; 8])
    by (vm_compute; reflexivity).
  split; [exact Hcounts|].
  assert (Hs : TorchBackend.is_supported flaky_torch = true) by (vm_compute; reflexivity).
  apply (proj2 (controller_needs_every_stream (E := flaky_cuda) flaky_torch demo_config Hs)
           4 "send"%string).
  - rewrite Hcounts. apply elem_of_cons; right; apply elem_of_cons; left; reflexivity.
  - do 2 (apply elem_of_cons; right). apply elem_of_cons; left; reflexivity.
  - vm_compute. reflexivity.
Defined.
