(* ===== verification/Hooks.v ===== *)
(** * The autograd hooks ([morphling/hooks/autograd.py])

    The module's globals are the fields of [hooks]; [LinearFunction.forward] and
    [backward] are computations on them.  Tensors are PyTorch's ([Tensor]), the
    emulator backend that multiplies them is a C++ extension ([MatmulBackend])
    and the green-context controller is any object with [activate_for_time] and
    [deactivate] ([SmPartition]), in particular the one of [Controller]. *)

From Stdlib Require Import Sorted.
From S2P Require Import Prelude PyFloat PyStr GreenBase.
From S2P Require TorchBackend Controller.

(** PyTorch's two-dimensional tensors, as far as the hooks use them *)
Class Tensor (T : Type) : Type := {
  shape0 : T -> Z;
  shape1 : T -> Z;
  transpose : T -> T;   (** [.transpose(-2, -1)], [.t()] *)
  contiguous : T -> T;
  matmul : T -> T -> outcome T;
  add_bias : T -> T -> outcome T;   (** [x + bias.unsqueeze(0).expand_as(x)] *)
  sum0 : T -> T;   (** [.sum(0)] *)
  allclose : T -> T -> bool;
}.

Class TensorLaws (T : Type) `{Tensor T} : Prop := {
  transpose_involutive x : transpose (transpose x) = x;
  contiguous_id x : contiguous x = x;
  matmul_inner x y z : matmul x y = Ret z -> shape1 x = shape0 y;
}.

(** The emulator backend: an operation is dispatched and waited for by its id. *)
Class MatmulBackend (T K : Type) : Type := {
  async_dispatch_matmul : T -> T -> M K Z;
  wait_matmul : Z -> M K T;
}.

(** Its contract, which the fakes of the unit tests implement as well: the
    dispatch of [a] and [b] computes [a] times the transpose of [b]; an id
    is good for one wait, and several operations may be in flight. *)
Class MatmulContract (T K : Type) `{Tensor T, MatmulBackend T K} : Type := {
  pending : K -> list (Z * T);
  dispatch_contract a b c k : matmul a (transpose b) = Ret c ->
    exists oid k', async_dispatch_matmul a b k = (Ret oid, k') /\ 0 <= oid /\
      oid ∉ (pending k).*1 /\ pending k' = (oid, c) :: pending k;
  wait_contract oid c k : (oid, c) ∈ pending k -> NoDup (pending k).*1 ->
    exists k', wait_matmul oid k = (Ret c, k') /\
      pending k' = filter (fun p => p.1 <> oid) (pending k);
}.

Class SmPartition (G : Type) : Type := {
  activate_for_time : Z -> M G (Z * Z);
  deactivate : Z -> M G unit;
}.

#[global] Instance controller_partition {stream B} `{GreenCtxBackend stream B} :
    SmPartition (Controller.GreenContextController stream B) := {|
  activate_for_time := Controller.activate_for_time;
  deactivate := Controller.deactivate;
|}.

(** [time.perf_counter], read once per call *)
Class Clock : Type := perf_counter : nat -> float.

Record gemm_entry : Type := mk_gemm_entry {
  e_gemm_idx : Z;
  e_phase : string;
  e_start_us : float;
  e_end_us : float;
  e_duration_us : float;
  e_sm_count : option Z;
  e_greenctx_enabled : bool;
  e_m : Z;
  e_n : Z;
  e_k : Z;
}.

(** The module's globals *)
Record hooks (G K : Type) : Type := mk_hooks {
  backend : option K;
  greenctx : option G;
  gemm_log : list gemm_entry;
  greenctx_t0 : float;
  gemm_idx : Z;
  gemm_log_enabled : bool;
  enable_verification : bool;
  linear_hooked : bool;   (** whether [apply_hooks] has patched PyTorch *)
  ticks : nat;
}.
Arguments mk_hooks {G K}.
Arguments backend {G K}.
Arguments greenctx {G K}.
Arguments gemm_log {G K}.
Arguments greenctx_t0 {G K}.
Arguments gemm_idx {G K}.
Arguments gemm_log_enabled {G K}.
Arguments enable_verification {G K}.
Arguments linear_hooked {G K}.
Arguments ticks {G K}.

Section hooks.
Context {T K G : Type} {TT : Tensor T} {MB : MatmulBackend T K} {SP : SmPartition G}
  {clock : Clock}.
Notation self := (hooks G K).
Implicit Types b : self.

Definition put_backend x b : self :=
  mk_hooks x (greenctx b) (gemm_log b) (greenctx_t0 b) (gemm_idx b)
    (gemm_log_enabled b) (enable_verification b) (linear_hooked b) (ticks b).
Definition put_greenctx x b : self :=
  mk_hooks (backend b) x (gemm_log b) (greenctx_t0 b) (gemm_idx b) (gemm_log_enabled
    b) (enable_verification b) (linear_hooked b) (ticks b).
Definition put_gemm_log x b : self :=
  mk_hooks (backend b) (greenctx b) x (greenctx_t0 b) (gemm_idx b) (gemm_log_enabled
    b) (enable_verification b) (linear_hooked b) (ticks b).
Definition put_greenctx_t0 x b : self :=
  mk_hooks (backend b) (greenctx b) (gemm_log b) x (gemm_idx b) (gemm_log_enabled b)
    (enable_verification b) (linear_hooked b) (ticks b).
Definition put_gemm_idx x b : self :=
  mk_hooks (backend b) (greenctx b) (gemm_log b) (greenctx_t0 b) x (gemm_log_enabled
    b) (enable_verification b) (linear_hooked b) (ticks b).
Definition put_gemm_log_enabled x b : self :=
  mk_hooks (backend b) (greenctx b) (gemm_log b) (greenctx_t0 b) (gemm_idx b) x
    (enable_verification b) (linear_hooked b) (ticks b).
Definition put_enable_verification x b : self :=
  mk_hooks (backend b) (greenctx b) (gemm_log b) (greenctx_t0 b) (gemm_idx b)
    (gemm_log_enabled b) x (linear_hooked b) (ticks b).
Definition put_linear_hooked x b : self :=
  mk_hooks (backend b) (greenctx b) (gemm_log b) (greenctx_t0 b) (gemm_idx b)
    (gemm_log_enabled b) (enable_verification b) x (ticks b).
Definition put_ticks x b : self :=
  mk_hooks (backend b) (greenctx b) (gemm_log b) (greenctx_t0 b) (gemm_idx b)
    (gemm_log_enabled b) (enable_verification b) (linear_hooked b) x.

(** A method of the emulator backend; [_backend] is [None] until it is set. *)
Definition on_backend {A} (name : string) (m : M K A) : M self A := fun b =>
  match backend b with
  | Some k => let '(r, k') := m k in (r, put_backend (Some k') b)
  | None => (Raise (AttributeError ("'NoneType' object has no attribute '" +:+ name +:+ "'")), b)
  end.

(** A method of the controller, where the code has checked it is not [None] *)
Definition on_greenctx {A} (m : M G A) : M self A := fun b =>
  match greenctx b with
  | Some g => let '(r, g') := m g in (r, put_greenctx (Some g') b)
  | None => (Raise (AttributeError "'NoneType' object"), b)
  end.

Definition set_backend (k : option K) : M self unit := modify (put_backend k).
Definition set_gemm_logging (enabled : bool) : M self unit :=
  modify (put_gemm_log_enabled enabled).

Definition HOOK_TYPES : list string :=
  ["linear"; "layer_norm"; "softmax"; "add"; "divide"; "subtract"; "matmul"; "relu";
   "gelu"; "dropout"]%string.

Definition reset_gemm_log : M self unit :=
  modify (fun b => put_gemm_idx 0 (put_greenctx_t0 fzero (put_gemm_log [] b))).

Definition perf_counter_s : M self float := fun b =>
  (Ret (perf_counter (ticks b)), put_ticks (S (ticks b)) b).

Definition elapsed_us : M self float :=
  now_s ← perf_counter_s;
  b ← get;
  if feqb (greenctx_t0 b) fzero
  then modify (put_greenctx_t0 now_s);; mret fzero
  else mret (fmul (fsub now_s (greenctx_t0 b)) (f_of_Z 1000000)).

Definition log_gemm (idx : Z) (phase : string) (start_us end_us : float)
    (sm_count : option Z) (m n k : Z) : M self unit :=
  modify (fun b => put_gemm_log (gemm_log b ++
    [mk_gemm_entry idx phase start_us end_us (fsub end_us start_us) sm_count
       (match greenctx b with Some _ => true | None => false end) m n k]) b).

(** [set_greenctx]; an object without a [deactivate] method would get its
    backend's one, but [SmPartition] has one. *)
Definition set_greenctx (g : option G) (reset_log : bool) : M self unit :=
  modify (put_greenctx g);;
  modify (put_gemm_log_enabled (match g with Some _ => true | None => false end));;
  when reset_log reset_gemm_log.

Definition get_gemm_log (reset : bool) : M self (list gemm_entry) :=
  log ← gets gemm_log;
  when reset reset_gemm_log;;
  mret log.

(** [apply_hooks]; a single hook type is the list of it. *)
Definition apply_hooks (types : list string) (g : option G) : M self unit :=
  set_greenctx g true;;
  for_each types (fun t =>
    if decide (t ∈ HOOK_TYPES) then
      if String.eqb t "linear" then modify (put_linear_hooked true)
      else raise (NotImplementedError ("Hook type " +:+ t +:+ " is not implemented yet"))
    else raise (ValueError ("Unsupported hook type: " +:+ t))).

Definition wait_for_dispatched_matmul (oid : Z) (phase : string) : M self T :=
  if oid <? 0
  then raise (RuntimeError (phase +:+ " matmul dispatch failed with operation id " +:+
                            str_of_Z oid))
  else on_backend "wait_matmul" (wait_matmul oid).

(** What a dispatch leaves for the log: the start time, the SM count and the
    index, [None] without a controller or with logging off *)
Record dispatched : Type := mk_dispatched {
  d_oid : Z;
  d_start_us : option float;
  d_sm_count : option Z;
  d_gemm_idx : option Z;
}.

(** The [if _greenctx is not None ... else ...] statement of [forward], which
    [backward] repeats for each gradient *)
Definition dispatch_in_scope (x y : T) : M self dispatched :=
  g ← gets greenctx;
  match g with
  | Some _ =>
      start_us ← elapsed_us;
      t ← lift (int_of_float start_us);
      r ← on_greenctx (activate_for_time t);
      let sm_count := r.1 in
      oid ← try_finally (on_backend "async_dispatch_matmul" (async_dispatch_matmul x y))
              (on_greenctx (deactivate sm_count));
      b ← get;
      if gemm_log_enabled b then
        let idx := gemm_idx b in
        modify (put_gemm_idx (idx + 1));;
        mret (mk_dispatched oid (Some start_us) (Some sm_count) (Some idx))
      else mret (mk_dispatched oid (Some start_us) (Some sm_count) None)
  | None =>
      oid ← on_backend "async_dispatch_matmul" (async_dispatch_matmul x y);
      mret (mk_dispatched oid None None None)
  end.

(** [if start_us is not None and gemm_idx is not None: _log_gemm(...)] *)
Definition log_dispatched (d : dispatched) (phase : string) (m n k : Z) : M self unit :=
  match d_start_us d, d_gemm_idx d with
  | Some start_us, Some idx =>
      end_us ← elapsed_us;
      log_gemm idx phase start_us end_us (d_sm_count d) m n k
  | _, _ => mret tt
  end.

Definition not_close (what : string) : exn := AssertionError (what +:+ " is not close!").

Definition forward (input weight : T) (bias : option T) : M self T :=
  let fwd_weight := contiguous (transpose weight) in
  d ← dispatch_in_scope input fwd_weight;
  output ← wait_for_dispatched_matmul (d_oid d) "forward";
  enabled ← gets gemm_log_enabled;
  when enabled (log_dispatched d "forward" (shape0 input) (shape0 weight) (shape1 input));;
  output ← lift (match bias with Some c => add_bias output c | None => Ret output end);
  verify ← gets enable_verification;
  if (verify : bool) then
    ref ← lift (matmul input weight);
    ref ← lift (match bias with Some c => add_bias ref c | None => Ret ref end);
    if allclose output ref then mret output else raise (not_close "Output")
  else mret output.

(** [ctx]: the saved tensors and [needs_input_grad] *)
Record ctx : Type := mk_ctx {
  saved_input : T;
  saved_weight : T;
  saved_bias : option T;
  needs0 : bool;
  needs1 : bool;
  needs2 : bool;
}.

Definition grads : Type := option T * option T * option T.

Definition reference_grad_input (grad_output weight : T) : outcome T :=
  matmul grad_output weight.

(** The verification block at the end of [backward] *)
Definition verify_grads (c : ctx) (grad_output : T) (g : grads) : outcome unit :=
  let '(grad_input, grad_weight, grad_bias) := g in
  let check (needed : bool) (what : string) (ref : outcome T) (grad : option T) :=
    if needed then
      r ← ref;
      match grad with
      | Some x => if allclose x r then Ret tt else Raise (not_close what)
      | None => Raise (TypeError "allclose(): argument must be Tensor, not NoneType")
      end
    else Ret tt in
  _ ← check (needs0 c) "grad_input" (reference_grad_input grad_output (saved_weight c)) grad_input;
  _ ← check (needs1 c) "grad_weight"
        (r ← matmul (transpose grad_output) (saved_input c); Ret (transpose r)) grad_weight;
  check (match saved_bias c with Some _ => needs2 c | None => false end) "grad_bias"
    (Ret (sum0 grad_output)) grad_bias.

(** A dispatch that is made only when its gradient is needed *)
Definition dispatch_if (needed : bool) (x y : T) : M self dispatched :=
  if needed then dispatch_in_scope x y else mret (mk_dispatched (-1) None None None).

Definition backward (c : ctx) (grad_output : T) : M self grads :=
  let input := saved_input c in
  let weight := saved_weight c in
  let dg := contiguous grad_output in
  let dw := contiguous weight in
  let dg_t := contiguous (transpose grad_output) in
  let din_t := contiguous (transpose input) in
  gi ← dispatch_if (needs0 c) dg dw;
  gw ← dispatch_if (needs1 c) dg_t din_t;
  grad_input ← (if needs0 c then
    r ← wait_for_dispatched_matmul (d_oid gi) "backward_grad_input";
    log_dispatched gi "backward_grad_input" (shape0 grad_output) (shape1 weight)
      (shape0 weight);;
    mret (Some r)
    else mret None);
  grad_weight ← (if needs1 c then
    r ← wait_for_dispatched_matmul (d_oid gw) "backward_grad_weight";
    log_dispatched gw "backward_grad_weight" (shape0 weight) (shape1 weight) (shape0 input);;
    mret (Some (transpose r))
    else mret None);
  let grad_bias := if (match saved_bias c with Some _ => needs2 c | None => false end)
                   then Some (sum0 grad_output) else None in
  verify ← gets enable_verification;
  lift (if (verify : bool) then verify_grads c grad_output (grad_input, grad_weight, grad_bias)
        else Ret tt);;
  mret (grad_input, grad_weight, grad_bias).

(** The functions [apply_hooks(linear)] installs: [torch.nn.functional.linear],
    [Tensor.__matmul__] and [torch.bmm] are [LinearFunction.apply] itself. *)
Definition functional_linear (input weight : T) (bias : option T) : M self T :=
  forward input weight bias.
Definition nn_Linear_forward (self_weight : T) (self_bias : option T) (input : T) : M self T :=
  forward input (transpose self_weight) self_bias.

(** ** What a dispatch does *)

Definition has_greenctx b : bool := match greenctx b with Some _ => true | None => false end.

(** Everything of the module but the clock and the states of the objects it
    drives *)
Definition frame b b' : Prop :=
  gemm_log b' = gemm_log b /\ gemm_log_enabled b' = gemm_log_enabled b /\
  enable_verification b' = enable_verification b /\ has_greenctx b' = has_greenctx b.

Definition dispatched_as (x y : T) b (d : dispatched) b' : Prop :=
  frame b b' /\
  (exists k k', backend b = Some k /\ backend b' = Some k' /\
     async_dispatch_matmul x y k = (Ret (d_oid d), k')) /\
  gemm_idx b' = gemm_idx b + (if has_greenctx b && gemm_log_enabled b then 1 else 0) /\
  d_gemm_idx d = (if has_greenctx b && gemm_log_enabled b then Some (gemm_idx b) else None) /\
  (has_greenctx b = true -> is_Some (d_start_us d)).

Definition failed_dispatch (x y : T) b b' : Prop :=
  frame b b' /\ gemm_idx b' = gemm_idx b /\
  (has_greenctx b = true \/
   forall k, backend b = Some k -> is_ret (fst (async_dispatch_matmul x y k)) = false).

Lemma dispatch_wp x y b :
  wp (dispatch_in_scope x y) (dispatched_as x y b) (fun _ => failed_dispatch x y b) b.
Proof.
  unfold wp, dispatched_as, failed_dispatch, frame, has_greenctx.
  destruct b as [be g log t0 idx en ver lk tk].
  unfold dispatch_in_scope, gets, mbind, M_bind, elapsed_us, perf_counter_s, get, lift,
    try_finally, on_greenctx, on_backend, modify, mret, M_ret, mbind, M_bind.
  cbn. destruct g as [g|]; cbn.
  - destruct (feqb t0 fzero); cbn.
    all: repeat match goal with
      | |- context [int_of_float ?x] => destruct (int_of_float x); cbn
      | |- context [activate_for_time ?t ?g] =>
          destruct (activate_for_time t g) as [[[? ?]|?] ?]; cbn
      | |- context [async_dispatch_matmul ?x ?y ?k] =>
          destruct (async_dispatch_matmul x y k) as [[?|?] ?] eqn:?; cbn
      | |- context [deactivate ?t ?g] => destruct (deactivate t g) as [[[]|?] ?]; cbn
      | |- context [match ?be with Some _ => _ | None => _ end] => is_var be; destruct be; cbn
      | |- context [if ?e then _ else _] => is_var e; destruct e; cbn
      end.
    all: split_and!; try done; try (by left); try lia; try (by eexists _, _);
      try (by intros _; eexists).
  - destruct be as [k|]; cbn; [|split_and!; try done; right; by intros ? [=]].
    destruct (async_dispatch_matmul x y k) as [[oid|e] k'] eqn:Hd; cbn.
    + split_and!; try done; try lia. by exists k, k'.
    + split_and!; try done. right. intros ? [= <-]. by rewrite Hd.
Qed.

(** Logging a dispatched operation: one entry, with the index it was given *)
Lemma log_dispatched_wp d phase m n k b :
  wp (log_dispatched d phase m n k)
    (fun _ b' => backend b' = backend b /\ gemm_idx b' = gemm_idx b /\
       gemm_log_enabled b' = gemm_log_enabled b /\
       enable_verification b' = enable_verification b /\
       greenctx b' = greenctx b /\
       match d_start_us d, d_gemm_idx d with
       | Some start_us, Some idx => exists end_us, gemm_log b' = gemm_log b ++
           [mk_gemm_entry idx phase start_us end_us (fsub end_us start_us) (d_sm_count d)
              (has_greenctx b) m n k]
       | _, _ => gemm_log b' = gemm_log b
       end)
    (fun _ _ => False) b.
Proof.
  unfold log_dispatched. destruct (d_start_us d) as [s|]; [|by apply wp_ret].
  destruct (d_gemm_idx d) as [i|]; [|by apply wp_ret].
  unfold wp, elapsed_us, perf_counter_s, log_gemm, mbind, M_bind, get, modify, mret, M_ret.
  cbn -[fsub fmul feqb fzero]. destruct (feqb (greenctx_t0 b) fzero);
    cbn -[fsub fmul feqb fzero]; split_and!; try done; by eexists.
Qed.

Lemma wait_wp oid phase b :
  wp (wait_for_dispatched_matmul oid phase)
    (fun r b' => 0 <= oid /\ exists k k', backend b = Some k /\ wait_matmul oid k = (Ret r, k') /\
                 b' = put_backend (Some k') b)
    (fun e b' => gemm_log b' = gemm_log b /\ gemm_idx b' = gemm_idx b /\
       greenctx b' = greenctx b /\
       (oid < 0 -> b' = b /\ e = RuntimeError (phase +:+
          " matmul dispatch failed with operation id " +:+ str_of_Z oid)) /\
       (0 <= oid -> forall k, backend b = Some k -> is_ret (fst (wait_matmul oid k)) = false)) b.
Proof.
  unfold wait_for_dispatched_matmul. destruct (oid <? 0) eqn:Ho.
  - apply Z.ltb_lt in Ho. apply wp_raise. split_and!; try done. intros; exfalso; lia.
  - apply Z.ltb_ge in Ho. unfold wp, on_backend. destruct (backend b) as [k|] eqn:Hk.
    + destruct (wait_matmul oid k) as [[r|e] k'] eqn:Hw.
      * split; [done|]. by exists k, k'.
      * split_and!; try done; try (intros; exfalso; lia); intros _ ? [= <-]; by rewrite Hw.
    + split_and!; try done; try (intros; exfalso; lia).
Qed.

(** ** The log *)

(** The entries' indices increase and are all below [u], which the counter has
    reached. *)
Definition log_below (u : Z) b : Prop :=
  StronglySorted Z.lt (map e_gemm_idx (gemm_log b)) /\
  Forall (fun e => e_gemm_idx e < u) (gemm_log b) /\ u <= gemm_idx b.

Definition log_ok b : Prop := log_below (gemm_idx b) b.

Lemma log_below_mono u u' b : log_below u b -> u <= u' <= gemm_idx b -> log_below u' b.
Proof.
  intros (Hs & Hf & Hu) Hle. split_and!; [done| |lia].
  eapply Forall_impl; [exact Hf|]. cbn. lia.
Qed.

Lemma log_below_frame u b b' :
  log_below u b -> gemm_log b' = gemm_log b -> gemm_idx b <= gemm_idx b' -> log_below u b'.
Proof. intros (Hs & Hf & Hu) Hl Hi. unfold log_below. rewrite Hl. split_and!; auto. lia. Qed.

Lemma StronglySorted_snoc l x :
  StronglySorted Z.lt l -> Forall (fun y => y < x) l -> StronglySorted Z.lt (l ++ [x]).
Proof.
  induction 1 as [|y l Hs IH Hf]; intros Hx; cbn; [repeat constructor|].
  apply Forall_cons in Hx as [Hy Hx]. constructor; [by apply IH|].
  apply Forall_app. split; [done|]. by constructor.
Qed.

Lemma log_below_snoc u e b b' :
  log_below u b -> gemm_log b' = gemm_log b ++ [e] -> u <= e_gemm_idx e ->
  e_gemm_idx e < gemm_idx b' -> log_below (e_gemm_idx e + 1) b'.
Proof.
  intros (Hs & Hf & Hu) Hl He Hi. unfold log_below. rewrite Hl, map_app. split_and!.
  - apply StronglySorted_snoc; [done|]. apply Forall_map.
    eapply Forall_impl; [exact Hf|]. cbn. lia.
  - apply Forall_app. split; [|by repeat constructor; lia].
    eapply Forall_impl; [exact Hf|]. cbn. lia.
  - lia.
Qed.

(** *** [forward] and [backward] keep the log in order *)

Definition log_frame b b' : Prop := gemm_log b' = gemm_log b /\ gemm_idx b' = gemm_idx b.

Lemma log_ok_frame b b' : log_frame b b' -> log_ok b -> log_ok b'.
Proof. intros [Hl Hi] Hok. unfold log_ok. rewrite Hi. eapply log_below_frame; [done|done|lia]. Qed.

(** A dispatch whose index, if it has one, is [u] or more *)
Definition index_from (u : Z) (d : dispatched) b : Prop :=
  forall i, d_gemm_idx d = Some i -> u <= i < gemm_idx b.

Lemma dispatch_log x y u b :
  log_below u b ->
  wp (dispatch_in_scope x y)
    (fun d b' => log_below u b' /\ index_from (gemm_idx b) d b' /\ gemm_idx b <= gemm_idx b')
    (fun _ b' => log_below u b') b.
Proof.
  intros Hu. eapply wp_mono; [| |apply dispatch_wp].
  - intros d b' ((Hl & _) & _ & Hi & Hd & _).
    destruct (has_greenctx b && gemm_log_enabled b); split_and!;
      try (eapply log_below_frame; [done|done|lia]); try lia;
      intros i Hi'; rewrite Hd in Hi'; simplify_eq; lia.
  - intros e b' ((Hl & _) & Hi & _). eapply log_below_frame; [done|done|lia].
Qed.

Lemma dispatch_if_log needed x y u b :
  log_below u b ->
  wp (dispatch_if needed x y)
    (fun d b' => log_below u b' /\ index_from (gemm_idx b) d b' /\ gemm_idx b <= gemm_idx b')
    (fun _ b' => log_below u b') b.
Proof.
  intros Hu. destruct needed; [by apply dispatch_log|].
  apply wp_ret. split_and!; [done|by intros ?|lia].
Qed.

(** Logging keeps the log in order below any bound above the entry's index. *)
Lemma log_one d phase m n k u u' b :
  log_below u b -> index_from u d b -> u <= u' <= gemm_idx b ->
  (forall i, d_gemm_idx d = Some i -> i < u') ->
  wp (log_dispatched d phase m n k)
    (fun _ b' => log_below u' b' /\ gemm_idx b' = gemm_idx b) (fun _ _ => False) b.
Proof.
  intros Hu Hd Hle Hi. eapply wp_mono; [| |apply log_dispatched_wp]; [|done].
  intros _ b2 (_ & Hix & _ & _ & _ & Hlog). split; [|done].
  destruct (d_start_us d) as [s|];
    [|eapply log_below_frame; [by apply (log_below_mono u)|done|lia]].
  destruct (d_gemm_idx d) as [i|] eqn:Hd';
    [|eapply log_below_frame; [by apply (log_below_mono u)|done|lia]].
  destruct Hlog as [e Hlog]. specialize (Hi i eq_refl). specialize (Hd i Hd').
  eapply (log_below_mono (i + 1)); [|lia].
  eapply (log_below_snoc u _ b b2 Hu Hlog); cbn; lia.
Qed.

Lemma wait_log oid phase u b :
  log_below u b ->
  wp (wait_for_dispatched_matmul oid phase)
    (fun _ b' => log_below u b' /\ gemm_idx b' = gemm_idx b)
    (fun _ b' => log_below u b' /\ gemm_idx b' = gemm_idx b) b.
Proof.
  intros Hu. eapply wp_mono; [| |apply wait_wp].
  - intros r b' (_ & k & k' & _ & _ & ->). split; [|done].
    eapply log_below_frame; [done|done|cbn; lia].
  - intros e b' (Hl & Hix & _). split; [|done]. eapply log_below_frame; [done|done|lia].
Qed.

Lemma wait_and_log_log {A} (f : T -> A) oid phase d m n k u u' b :
  log_below u b -> index_from u d b -> u <= u' <= gemm_idx b ->
  (forall i, d_gemm_idx d = Some i -> i < u') ->
  wp (r ← wait_for_dispatched_matmul oid phase; log_dispatched d phase m n k;; mret (f r))
    (fun _ b' => log_below u' b' /\ gemm_idx b' = gemm_idx b)
    (fun _ b' => log_below u' b' /\ gemm_idx b' = gemm_idx b) b.
Proof.
  intros Hu Hd Hle Hi. apply wp_bind. eapply wp_mono; [| |by apply (wait_log _ _ u)].
  - intros r b1 [Hb1 Hix]. apply wp_bind. eapply wp_mono; [| |eapply (log_one _ _ _ _ _ u u')].
    + intros _ b2 [Hb2 Hix2]. apply wp_ret. by rewrite Hix2.
    + done.
    + done.
    + unfold index_from. by rewrite Hix.
    + by rewrite Hix.
    + done.
  - intros e b1 [Hb1 Hix]. split; [|done]. apply (log_below_mono u); [done|lia].
Qed.

Lemma wp_lift_pure {A} (o : outcome A) (P : self -> Prop) b :
  P b -> wp (lift o) (fun _ => P) (fun _ => P) b.
Proof. intros Hb. unfold wp, lift. by destruct o. Qed.

Lemma wp_to_preserves {A} (P : self -> Prop) (m : M self A) :
  (forall b, P b -> wp m (fun _ => P) (fun _ => P) b) -> preserves P m.
Proof.
  intros Hm b Hb. specialize (Hm b Hb). unfold wp in Hm. by destruct (m b) as [[]].
Qed.

Lemma forward_log x w bias : preserves log_ok (forward x w bias).
Proof.
  apply wp_to_preserves. intros b Hb. apply wp_bind.
  eapply wp_mono; [| |by apply (dispatch_log _ _ (gemm_idx b))].
  2:{ intros e b' Hb'. eapply (log_below_mono (gemm_idx b)); [done|]. destruct Hb'. lia. }
  intros d b1 (Hb1 & Hd & Hle). apply wp_bind.
  eapply wp_mono; [| |by apply (wait_log _ _ (gemm_idx b))].
  2:{ intros e b' [Hb' Hix]. eapply (log_below_mono (gemm_idx b)); [done|]. lia. }
  intros r b2 [Hb2 Hix2]. apply wp_bind. unfold wp at 1, gets. apply wp_bind.
  assert (Hlog : wp (when (gemm_log_enabled b2) (log_dispatched d "forward" (shape0 x)
            (shape0 w) (shape1 x))) (fun _ => log_ok) (fun _ => log_ok) b2).
  { destruct (gemm_log_enabled b2).
    - eapply wp_mono; [| |apply (log_one _ _ _ _ _ (gemm_idx b) (gemm_idx b2) b2)].
      + intros _ b3 [Hb3 Hix3]. unfold log_ok. by rewrite Hix3.
      + by intros.
      + done.
      + unfold index_from. by rewrite Hix2.
      + lia.
      + intros i Hi. specialize (Hd i Hi). lia.
    - apply wp_ret. apply (log_below_mono (gemm_idx b)); [done|lia]. }
  eapply wp_mono; [| |exact Hlog]; [|done]. intros [] b3 Hb3.
  apply wp_bind. eapply wp_mono; [| |by apply wp_lift_pure]; [|by auto].
  clear Hb3 b3. intros out b3 Hb3. apply wp_bind. unfold wp at 1, gets.
  destruct (enable_verification b3); [|by apply wp_ret].
  apply wp_bind. eapply wp_mono; [| |by apply (wp_lift_pure _ log_ok)]; [|by auto].
  clear Hb3 b3. intros ref b3 Hb3.
  apply wp_bind. eapply wp_mono; [| |by apply (wp_lift_pure _ log_ok)]; [|by auto].
  clear ref Hb3 b3. intros ref b3 Hb3. by destruct (allclose out ref).
Qed.

Lemma backward_log c dout : preserves log_ok (backward c dout).
Proof.
  apply wp_to_preserves. intros b Hb. unfold backward. apply wp_bind.
  eapply wp_mono; [| |by apply (dispatch_if_log _ _ _ (gemm_idx b))].
  2:{ intros e b' Hb'. eapply (log_below_mono (gemm_idx b)); [done|]. destruct Hb'. lia. }
  intros gi b1 (Hb1 & Hgi & Hle1). apply wp_bind.
  eapply wp_mono; [| |by apply (dispatch_if_log _ _ _ (gemm_idx b))].
  2:{ intros e b' Hb'. eapply (log_below_mono (gemm_idx b)); [done|]. destruct Hb'. lia. }
  intros gw b2 (Hb2 & Hgw & Hle2). apply wp_bind.
  assert (Hwait : wp (if needs0 c then
      r ← wait_for_dispatched_matmul (d_oid gi) "backward_grad_input";
      log_dispatched gi "backward_grad_input" (shape0 dout) (shape1 (saved_weight c))
        (shape0 (saved_weight c));; mret (Some r) else mret None)
    (fun _ b' => log_below (gemm_idx b1) b' /\ gemm_idx b' = gemm_idx b2)
    (fun _ b' => log_below (gemm_idx b1) b' /\ gemm_idx b' = gemm_idx b2) b2).
  { destruct (needs0 c).
    - apply (wait_and_log_log _ _ _ _ _ _ _ (gemm_idx b)); [done| |lia|].
      + intros i Hi. specialize (Hgi i Hi). lia.
      + intros i Hi. specialize (Hgi i Hi). lia.
    - apply wp_ret. split; [|done]. apply (log_below_mono (gemm_idx b)); [done|lia]. }
  eapply wp_mono; [| |exact Hwait].
  2:{ intros e b' [Hb' Hix]. apply (log_below_mono (gemm_idx b1)); [done|lia]. }
  intros g1 b3 [Hb3 Hix3]. apply wp_bind.
  assert (Hwait2 : wp (if needs1 c then
      r ← wait_for_dispatched_matmul (d_oid gw) "backward_grad_weight";
      log_dispatched gw "backward_grad_weight" (shape0 (saved_weight c))
        (shape1 (saved_weight c)) (shape0 (saved_input c));; mret (Some (transpose r))
      else mret None) (fun _ => log_ok) (fun _ => log_ok) b3).
  { destruct (needs1 c).
    - eapply wp_mono; [| |apply (wait_and_log_log _ _ _ _ _ _ _ (gemm_idx b1) (gemm_idx b3))].
      + intros _ b4 [Hb4 Hix4]. unfold log_ok. by rewrite Hix4.
      + intros _ b4 [Hb4 Hix4]. unfold log_ok. by rewrite Hix4.
      + done.
      + unfold index_from. by rewrite Hix3.
      + lia.
      + intros i Hi. specialize (Hgw i Hi). lia.
    - apply wp_ret. apply (log_below_mono (gemm_idx b1)); [done|lia]. }
  eapply wp_mono; [| |exact Hwait2]; [|done]. intros g2 b4 Hb4.
  apply wp_bind. unfold wp at 1, gets. apply wp_bind.
  eapply wp_mono; [| |by apply wp_lift_pure]; [|by auto]. by intros.
Qed.

(** What the rest of the program does with the module *)
Inductive hooks_step : self -> self -> Prop :=
  | hooks_forward x w bias b : hooks_step b (snd (forward x w bias b))
  | hooks_backward c dout b : hooks_step b (snd (backward c dout b))
  | hooks_set_backend k b : hooks_step b (snd (set_backend k b))
  | hooks_set_greenctx g reset b : hooks_step b (snd (set_greenctx g reset b))
  | hooks_set_gemm_logging en b : hooks_step b (snd (set_gemm_logging en b))
  | hooks_get_gemm_log reset b : hooks_step b (snd (get_gemm_log reset b))
  | hooks_apply types g b : hooks_step b (snd (apply_hooks types g b)).

(** The globals as the module initialises them *)
Definition module_init : self := mk_hooks None None [] fzero 0 false false false 0.

Lemma reset_log_ok : preserves log_ok (when true reset_gemm_log : M self unit).
Proof. intros b _. split_and!; [constructor|done|done]. Qed.

Lemma put_log_ok b b' : log_frame b b' -> log_ok b -> log_ok b'.
Proof. apply log_ok_frame. Qed.

Lemma set_greenctx_log g reset : preserves log_ok (set_greenctx g reset).
Proof.
  apply preserves_bind; [apply preserves_modify; intros b; by apply log_ok_frame|intros _].
  apply preserves_bind; [apply preserves_modify; intros b; by apply log_ok_frame|intros _].
  destruct reset; [apply reset_log_ok|apply preserves_ret].
Qed.

Lemma hooks_step_log b b' : hooks_step b b' -> log_ok b -> log_ok b'.
Proof.
  destruct 1 as [x w bias b|c dout b|k b|g reset b|en b|reset b|types g b].
  - apply forward_log.
  - apply backward_log.
  - by apply log_ok_frame.
  - apply set_greenctx_log.
  - by apply log_ok_frame.
  - destruct reset; [apply reset_log_ok|by apply log_ok_frame].
  - revert b. apply preserves_bind; [apply set_greenctx_log|intros _].
    apply preserves_for_each. intros t. destruct (decide (t ∈ HOOK_TYPES)); [|by intros b].
    destruct (String.eqb t "linear"); [|by intros b].
    apply preserves_modify. intros b; by apply log_ok_frame.
Qed.

(** C4: the GEMM log is in dispatch order: after any sequence of the module's
    functions, with every exception a backend, a controller or a verification
    may raise on the way, the indices of the logged operations strictly increase
    and lie below the counter the next one is taken from. *)
Theorem gemm_log_ordered b :
  rtc hooks_step module_init b ->
  StronglySorted Z.lt (map e_gemm_idx (gemm_log b)) /\
  Forall (fun e => e_gemm_idx e < gemm_idx b) (gemm_log b).
Proof.
  assert (H0 : log_ok module_init) by (split_and!; [constructor|done|done]).
  intros Hst. assert (Hb : log_ok b).
  { induction Hst as [|b1 b2 b3 H12 _ IH]; [done|]. eauto using hooks_step_log. }
  by destruct Hb as (? & ? & _).
Qed.

(** An operation the backend refuses (a negative id) is never waited for:
    nothing is logged and [forward] raises the [RuntimeError] that names the id,
    leaving the backend as the dispatch left it, or the exception of the green
    context, when activating or deactivating it raised. *)
Theorem refused_dispatch_not_waited x w bias b oid k k'
    (Hk : backend b = Some k)
    (Hd : async_dispatch_matmul x (contiguous (transpose w)) k = (Ret oid, k'))
    (Hneg : oid < 0) :
  gemm_log (snd (forward x w bias b)) = gemm_log b /\
  ((fst (forward x w bias b) = Raise (RuntimeError
      ("forward matmul dispatch failed with operation id " +:+ str_of_Z oid)) /\
    backend (snd (forward x w bias b)) = Some k') \/
   (is_Some (greenctx b) /\
    exists e, fst (dispatch_in_scope x (contiguous (transpose w)) b) = Raise e /\
              fst (forward x w bias b) = Raise e)).
Proof.
  unfold forward, mbind, M_bind.
  pose proof (dispatch_wp x (contiguous (transpose w)) b) as Hw. unfold wp in Hw.
  destruct (dispatch_in_scope _ _ b) as [[d|e] b1].
  - destruct Hw as ((Hl & _ & _ & Hg) & (k1 & k2 & Hk1 & Hk2 & Hd1) & _).
    assert (k1 = k) as -> by congruence. rewrite Hd in Hd1. injection Hd1 as Hoid ->.
    unfold wait_for_dispatched_matmul. rewrite <- Hoid.
    rewrite (proj2 (Z.ltb_lt oid 0) Hneg). split; [exact Hl|]. left.
    split; [reflexivity|exact Hk2].
  - destruct Hw as ((Hl & _) & _ & [Hg|Hno]); (split; [exact Hl|]).
    + right. unfold has_greenctx in Hg. destruct (greenctx b); [|done].
      split; [by eexists|]. by exists e.
    + specialize (Hno k Hk). by rewrite Hd in Hno.
Qed.

(** ** Green contexts around the dispatches *)

(** [scope_safe Q]: activating and then deactivating the activated count keeps
    the controller's property [Q], as does an activation that raises. *)
Definition scope_safe (Q : G -> Prop) : Prop := forall t g, Q g ->
  match activate_for_time t g with
  | (Ret (sm, _), g1) => Q (snd (deactivate sm g1))
  | (Raise _, g1) => Q g1
  end.

Definition ctx_inv (Q : G -> Prop) b : Prop := forall g, greenctx b = Some g -> Q g.

Lemma dispatch_ctx Q x y : scope_safe Q -> preserves (ctx_inv Q) (dispatch_in_scope x y).
Proof.
  intros HQ b Hb. destruct b as [be g log t0 idx en ver lk tk].
  unfold dispatch_in_scope, gets, mbind, M_bind, elapsed_us, perf_counter_s, get, lift,
    try_finally, on_greenctx, on_backend, modify, mret, M_ret, mbind, M_bind.
  cbn -[fsub fmul feqb fzero]. destruct g as [g|]; cbn -[fsub fmul feqb fzero].
  - specialize (Hb g eq_refl).
    destruct (feqb t0 fzero); cbn -[fsub fmul feqb fzero];
    repeat match goal with
      | |- context [int_of_float ?x] => destruct (int_of_float x); cbn
      | |- context [activate_for_time ?t ?g] =>
          let H := fresh in pose proof (HQ t g Hb) as H;
          destruct (activate_for_time t g) as [[[? ?]|?] ?]; cbn
      | |- context [async_dispatch_matmul ?x ?y ?k] =>
          destruct (async_dispatch_matmul x y k) as [[?|?] ?] eqn:?; cbn
      | |- context [deactivate ?t ?g] => destruct (deactivate t g) as [[[]|?] ?]; cbn
      | |- context [match ?be with Some _ => _ | None => _ end] => is_var be; destruct be; cbn
      | |- context [if ?e then _ else _] => is_var e; destruct e; cbn
      end; by intros ? [= <-].
  - destruct be as [k|]; cbn; [|done]. destruct (async_dispatch_matmul x y k) as [[oid|e] k'];
      by intros ? [=].
Qed.

Lemma wait_ctx Q oid phase : preserves (ctx_inv Q) (wait_for_dispatched_matmul oid phase).
Proof.
  intros b Hb. unfold wait_for_dispatched_matmul, on_backend. destruct (oid <? 0); [done|].
  destruct (backend b) as [k|]; [|done]. by destruct (wait_matmul oid k).
Qed.

Lemma log_ctx Q d phase m n k : preserves (ctx_inv Q) (log_dispatched d phase m n k).
Proof.
  intros b Hb. pose proof (log_dispatched_wp d phase m n k b) as Hw. unfold wp in Hw.
  destruct (log_dispatched d phase m n k b) as [[[]|e] b1]; [|done].
  intros g Hg. apply Hb. destruct Hw as (_ & _ & _ & _ & <- & _). exact Hg.
Qed.

Lemma forward_ctx Q x w bias : scope_safe Q -> preserves (ctx_inv Q) (forward x w bias).
Proof.
  intros HQ. apply preserves_bind; [by apply dispatch_ctx|intros d].
  apply preserves_bind; [apply wait_ctx|intros r].
  apply preserves_bind; [apply preserves_gets|intros en].
  apply preserves_bind; [apply preserves_when, log_ctx|intros _].
  apply preserves_bind; [apply preserves_lift|intros out].
  apply preserves_bind; [apply preserves_gets|intros [|]]; [|apply preserves_ret].
  do 2 (apply preserves_bind; [apply preserves_lift|intros ?]).
  destruct (allclose out _); [apply preserves_ret|apply preserves_raise].
Qed.

Lemma backward_ctx Q c dout : scope_safe Q -> preserves (ctx_inv Q) (backward c dout).
Proof.
  intros HQ.
  assert (Hd : forall n x y, preserves (ctx_inv Q) (dispatch_if n x y)).
  { intros [|] x y; [by apply dispatch_ctx|apply preserves_ret]. }
  apply preserves_bind; [apply Hd|intros gi]. apply preserves_bind; [apply Hd|intros gw].
  apply preserves_bind.
  { destruct (needs0 c); [|apply preserves_ret].
    apply preserves_bind; [apply wait_ctx|intros r].
    apply preserves_bind; [apply log_ctx|intros _; apply preserves_ret]. }
  intros g1. apply preserves_bind.
  { destruct (needs1 c); [|apply preserves_ret].
    apply preserves_bind; [apply wait_ctx|intros r].
    apply preserves_bind; [apply log_ctx|intros _; apply preserves_ret]. }
  intros g2. apply preserves_bind; [apply preserves_gets|intros v].
  apply preserves_bind; [apply preserves_lift|intros _; apply preserves_ret].
Qed.

(** ** What the layers compute, for a backend that keeps its contract *)

Section contract.
Context {TL : TensorLaws T} {MC : MatmulContract T K}.

(** The backend is set and holds the operations [ops]. *)
Definition holding (ops : list (Z * T)) b : Prop :=
  exists k, backend b = Some k /\ pending k = ops /\ NoDup ops.*1.

(** Dispatching [a] and [b] under the contract: only a controller can raise. *)
Lemma dispatch_contract_wp x y c ops b :
  holding ops b -> matmul x (transpose y) = Ret c ->
  wp (dispatch_in_scope x y)
    (fun d b' => frame b b' /\ 0 <= d_oid d /\ d_oid d ∉ ops.*1 /\
       holding ((d_oid d, c) :: ops) b' /\
       d_gemm_idx d = (if has_greenctx b && gemm_log_enabled b then Some (gemm_idx b) else None) /\
       (has_greenctx b = true -> is_Some (d_start_us d)))
    (fun _ _ => has_greenctx b = true) b.
Proof.
  intros (k & Hk & Hp & Hnd) Hm.
  destruct (dispatch_contract x y c k Hm) as (oid & k' & Hd & Hpos & Hfresh & Hp').
  eapply wp_mono; [| |apply dispatch_wp].
  - intros d b' (Hf & (k1 & k2 & Hk1 & Hk2 & Hd1) & _ & Hidx & Hst).
    assert (k1 = k) as -> by congruence. rewrite Hd in Hd1. injection Hd1 as <- <-.
    rewrite Hp in *. split_and!; try done. exists k'. split_and!; [done|done|].
    cbn. by constructor.
  - intros e b' (_ & _ & [Hg|Hno]); [done|]. specialize (Hno k Hk). by rewrite Hd in Hno.
Qed.

Lemma wait_contract_wp oid phase c ops b :
  holding ops b -> (oid, c) ∈ ops -> 0 <= oid ->
  wp (wait_for_dispatched_matmul oid phase)
    (fun r b' => r = c /\ frame b b' /\ holding (filter (fun p => p.1 <> oid) ops) b')
    (fun _ _ => False) b.
Proof.
  intros (k & Hk & Hp & Hnd) Hin Hpos. rewrite <- Hp in Hin, Hnd.
  destruct (wait_contract oid c k Hin Hnd) as (k' & Hw & Hp').
  unfold wp, wait_for_dispatched_matmul, on_backend.
  rewrite (proj2 (Z.ltb_ge oid 0) Hpos), Hk, Hw. split_and!; [done|by split_and!|].
  exists k'. rewrite Hp', Hp. split_and!; [done|done|]. rewrite Hp in Hnd.
  clear -Hnd. induction ops as [|[i x] ops IH]; [constructor|].
  apply NoDup_cons in Hnd as [Hi Hnd]. cbn. case_decide; [|by apply IH].
  cbn. constructor; [|by apply IH]. intros Hin. apply Hi.
  apply list_elem_of_fmap in Hin as (p & -> & Hp2). apply list_elem_of_filter in Hp2 as [_ Hp2].
  apply list_elem_of_fmap. by exists p.
Qed.

(** The entry a completed operation appends, if any *)
Definition logs (l : bool) phase (m n k : Z) b b' : Prop :=
  if l then exists e, gemm_log b' = gemm_log b ++ [e] /\ e_phase e = phase /\
                      e_m e = m /\ e_n e = n /\ e_k e = k
  else gemm_log b' = gemm_log b.

Lemma log_dispatched_logs d phase m n k b l :
  is_Some (d_gemm_idx d) <-> l = true -> (l = true -> is_Some (d_start_us d)) ->
  wp (log_dispatched d phase m n k)
    (fun _ b' => backend b' = backend b /\ enable_verification b' = enable_verification b /\
                 logs l phase m n k b b')
    (fun _ _ => False) b.
Proof.
  intros Hl Hs. eapply wp_mono; [| |apply log_dispatched_wp]; [|done].
  intros _ b' (Hk & _ & _ & Hv & _ & Hlog). split_and!; [done|done|]. unfold logs.
  destruct (d_gemm_idx d) as [i|].
  - assert (l = true) as -> by (apply Hl; by eexists).
    destruct (Hs eq_refl) as [s' Hs']. rewrite Hs' in Hlog. destruct Hlog as [e Hlog].
    rewrite Hlog. eexists. split_and!; reflexivity.
  - assert (l = false) as ->.
    { destruct l; [|done]. destruct (proj2 Hl eq_refl). done. }
    by destruct (d_start_us d).
Qed.

(** [output + bias] *)
Definition with_bias (c : T) (bias : option T) : outcome T :=
  match bias with Some v => add_bias c v | None => Ret c end.

Lemma forward_wp x w bias c out ops b :
  holding ops b -> enable_verification b = false ->
  matmul x w = Ret c -> with_bias c bias = Ret out ->
  wp (forward x w bias)
    (fun r b' => r = out /\
       logs (has_greenctx b && gemm_log_enabled b) "forward" (shape0 x) (shape0 w) (shape1 x) b b')
    (fun _ _ => has_greenctx b = true) b.
Proof.
  intros Hh Hver Hm Hout. apply wp_bind.
  eapply wp_mono; [| |eapply (dispatch_contract_wp _ _ c ops b Hh)]; [|done|].
  2:{ by rewrite contiguous_id, transpose_involutive. }
  intros d b1 (Hf1 & Hpos & Hfresh & Hh1 & Hidx & Hst). apply wp_bind.
  eapply wp_mono; [| |eapply (wait_contract_wp _ _ c _ b1 Hh1); [left|done]]; [|done].
  intros r b2 (-> & Hf2 & _). apply wp_bind. unfold wp at 1, gets. apply wp_bind.
  destruct Hf1 as (Hl1 & He1 & Hv1 & Hg1), Hf2 as (Hl2 & He2 & Hv2 & Hg2).
  set (l := has_greenctx b && gemm_log_enabled b) in *.
  assert (Hlog : wp (when (gemm_log_enabled b2) (log_dispatched d "forward" (shape0 x)
      (shape0 w) (shape1 x)))
    (fun _ b' => enable_verification b' = false /\
       logs l "forward" (shape0 x) (shape0 w) (shape1 x) b b') (fun _ _ => False) b2).
  { rewrite He2, He1. destruct (gemm_log_enabled b) eqn:Hen; cbn [when].
    - eapply wp_mono; [| |apply (log_dispatched_logs d "forward" _ _ _ b2 l)].
      + intros _ b3 (_ & Hv3 & Hlog). split; [congruence|]. unfold logs in *.
        by rewrite <- Hl1, <- Hl2.
      + done.
      + rewrite Hidx. destruct l; split; try done; by intros [].
      + intros Hl. apply Hst. by apply andb_true_iff in Hl as [].
    - apply wp_ret. split; [congruence|]. unfold l. rewrite andb_false_r. cbn. congruence. }
  eapply wp_mono; [| |exact Hlog]; [|done]. intros [] b3 [Hv3 Hlog3].
  apply wp_bind. fold (with_bias c bias). rewrite Hout. unfold wp at 1, lift.
  apply wp_bind. unfold wp at 1, gets. rewrite Hv3. by apply wp_ret.
Qed.

(** C5: [torch.nn.Linear] under the hook computes what PyTorch's computes: the
    product of the input with the transposed weight, plus the bias.  Without a
    controller it always returns; with one, only the controller can make it
    raise. *)
Theorem hooked_Linear_correct x w bias c out ops b
    (Hh : holding ops b) (Hver : enable_verification b = false)
    (Hm : matmul x (transpose w) = Ret c) (Hout : with_bias c bias = Ret out) :
  match fst (nn_Linear_forward w bias x b) with
  | Ret r => r = out
  | Raise _ => has_greenctx b = true
  end.
Proof.
  pose proof (forward_wp x (transpose w) bias c out ops b Hh Hver Hm Hout) as Hw.
  unfold wp in Hw. unfold nn_Linear_forward.
  destruct (forward _ _ _ b) as [[r|e] b']; [by destruct Hw|done].
Qed.

(** [torch.nn.functional.linear] under the hook does not: the function takes
    the weight as [nn.Linear] stores it, and the hook multiplies it without
    transposing.  Wherever the plain product exists and differs from PyTorch's
    result [ref], the hook never returns [ref]; without a controller it returns
    the plain product. *)
Theorem hooked_functional_linear_untransposed x w c ref ops b
    (Hh : holding ops b) (Hver : enable_verification b = false)
    (Hplain : matmul x w = Ret c)
    (Href : matmul x (transpose w) = Ret ref) (Hne : c <> ref) :
  fst (functional_linear x w None b) <> Ret ref /\
  (has_greenctx b = false -> fst (functional_linear x w None b) = Ret c).
Proof.
  pose proof (forward_wp x w None c c ops b Hh Hver Hplain eq_refl) as Hw.
  unfold wp in Hw. unfold functional_linear.
  destruct (forward _ _ _ b) as [[r|e] b']; cbn.
  - destruct Hw as [-> _]. split; [congruence|done].
  - split; [done|]. rewrite Hw. done.
Qed.

(** Every logged forward operation reports the same number for its [n] and
    its [k]: the number of rows of the weight, which is the inner dimension of
    the product, is logged where the number of its columns belongs. *)
Theorem forward_logs_inner_dimension_as_n x w bias c out ops b r b'
    (Hh : holding ops b) (Hver : enable_verification b = false)
    (Hg : has_greenctx b = true) (Hen : gemm_log_enabled b = true)
    (Hm : matmul x w = Ret c) (Hout : with_bias c bias = Ret out)
    (Hf : forward x w bias b = (Ret r, b')) :
  exists e, gemm_log b' = gemm_log b ++ [e] /\ e_phase e = "forward"%string /\
    e_m e = shape0 x /\ e_k e = shape1 x /\ e_n e = e_k e.
Proof.
  pose proof (forward_wp x w bias c out ops b Hh Hver Hm Hout) as Hw.
  unfold wp in Hw. rewrite Hf, Hg, Hen in Hw. destruct Hw as (_ & e & Hl & Hp & Hem & Hn & Hk).
  exists e. split_and!; try done. rewrite Hn, Hk. symmetry. by eapply matmul_inner.
Qed.

Lemma log_dispatched_keeps d phase m n k b :
  wp (log_dispatched d phase m n k)
    (fun _ b' => backend b' = backend b /\ enable_verification b' = enable_verification b)
    (fun _ _ => False) b.
Proof.
  eapply wp_mono; [| |apply log_dispatched_wp]; [|done].
  by intros _ b' (? & _ & _ & ? & _).
Qed.

(** C6: the gradients under the hook are those of a layer [y = x w]: the one of
    the input is the output's times the transposed weight, the one of the weight
    is the transpose of the transposed output gradient times the input, also when
    both operations are in flight together; only a controller can make
    [backward] raise. *)
Theorem hooked_gradients_correct x w bias dout ci cw needs_bias ops b
    (Hh : holding ops b) (Hver : enable_verification b = false)
    (Hci : matmul dout (transpose w) = Ret ci)
    (Hcw : matmul (transpose dout) x = Ret cw) :
  match fst (backward (mk_ctx x w bias true true needs_bias) dout b) with
  | Ret (gi, gw, gb) => gi = Some ci /\ gw = Some (transpose cw) /\
      gb = (match bias with Some _ => if needs_bias then Some (sum0 dout) else None
            | None => None end)
  | Raise _ => has_greenctx b = true
  end.
Proof.
  enough (wp (backward (mk_ctx x w bias true true needs_bias) dout)
    (fun r _ => r = (Some ci, Some (transpose cw),
       match bias with Some _ => if needs_bias then Some (sum0 dout) else None | None => None end))
    (fun _ _ => has_greenctx b = true) b) as Hw.
  { unfold wp in Hw. destruct (backward _ _ b) as [[r|e] b']; cbn; [|done]. by rewrite Hw. }
  unfold backward. cbn [saved_input saved_weight saved_bias needs0 needs1 needs2 dispatch_if].
  rewrite !contiguous_id. apply wp_bind.
  eapply wp_mono; [| |by eapply (dispatch_contract_wp _ _ ci ops b Hh)]; [|done].
  intros d1 b1 ((_ & _ & Hv1 & Hg1) & Hpos1 & Hfresh1 & Hh1 & Hidx1 & Hst1). apply wp_bind.
  eapply wp_mono; [| |eapply (dispatch_contract_wp _ _ cw _ b1 Hh1)];
    [|by rewrite Hg1|by rewrite transpose_involutive].
  intros d2 b2 ((_ & _ & Hv2 & Hg2) & Hpos2 & Hfresh2 & Hh2 & Hidx2 & Hst2). apply wp_bind.
  apply wp_bind.
  eapply wp_mono; [| |eapply (wait_contract_wp _ _ ci _ b2 Hh2); [right; left|done]]; [|done].
  intros r1 b3 (-> & (_ & _ & Hv3 & _) & k3 & Hk3 & Hp3 & Hnd3). apply wp_bind.
  eapply wp_mono; [| |apply log_dispatched_keeps]; [|done].
  intros _ b4 [Hk4 Hv4]. apply wp_ret. apply wp_bind. apply wp_bind.
  assert (Hh4 : holding (filter (fun p => p.1 <> d_oid d1) ((d_oid d2, cw) :: (d_oid d1, ci) :: ops)) b4).
  { exists k3. by rewrite Hk4. }
  eapply wp_mono; [| |eapply (wait_contract_wp _ _ cw _ b4 Hh4); [|done]]; [|done|].
  2:{ apply list_elem_of_filter. split; [|left]. cbn. intros Heq. apply Hfresh2. rewrite Heq. left. }
  intros r2 b5 (-> & (_ & _ & Hv5 & _) & _). apply wp_bind.
  eapply wp_mono; [| |apply log_dispatched_keeps]; [|done].
  intros _ b6 [_ Hv6]. apply wp_ret. apply wp_bind. unfold wp at 1, gets.
  rewrite Hv6, Hv5, Hv4, Hv3, Hv2, Hv1, Hver. apply wp_bind. unfold wp at 1, lift.
  apply wp_ret. by destruct bias.
Qed.

End contract.
End hooks.

(** ** With the controller over the PyTorch backend *)

Section controlled.
Context {T K stream gc : Type} {TT : Tensor T} {MB : MatmulBackend T K} {clock : Clock}.
Context `{EqDecision gc} {E : TorchCuda stream gc}.
Notation ctrl := (Controller.GreenContextController stream
                    (TorchBackend.TorchNativeBackend stream gc)).

(** The backend made its calls after [w0]: over the contexts of [base] there is
    its active context only, and none while no pop raised. *)
Definition ctrl_balanced (base : list gc) (w0 : list (cuda_call gc)) (c : ctrl) : Prop :=
  TorchBackend.balanced base w0 (Controller.backend c).

Lemma controller_scope_safe base w0 :
  scope_safe (SP := controller_partition) (ctrl_balanced base w0).
Proof.
  intros t c Hc. cbn [activate_for_time deactivate controller_partition].
  unfold Controller.activate_for_time, Controller.deactivate, Controller.on_backend, zoom.
  cbn [GreenBase.activate_for_time GreenBase.deactivate TorchBackend.torch_backend].
  destruct (TorchBackend.activate_for_time t (Controller.backend c)) as [[[sm g]|e] b1] eqn:Ha.
  - pose proof (TorchBackend.scope_balanced base w0 t sm _ _ b1 Hc Ha) as Hb. cbn.
    destruct (TorchBackend.deactivate sm b1) as [r b2]. exact Hb.
  - by apply (TorchBackend.activate_time_raises_balanced base w0 t _ e b1 Hc Ha).
Qed.

(** Training under the hooks *)
Inductive train_step : hooks ctrl K -> hooks ctrl K -> Prop :=
  | train_forward x w bias b : train_step b (snd (forward x w bias b))
  | train_backward c dout b : train_step b (snd (backward c dout b)).

(** C3: training under the hooks leaves no green context behind: after any
    sequence of forward and backward passes of linear layers, whichever CUDA,
    backend or tensor calls raise in them, no context from before is popped,
    nothing but the backend's one active context is on top of those, and there
    is none of it, so the context stack is what it was before, unless popping a
    context raised on the way. *)
Theorem hooks_restore_contexts base (b b' : hooks ctrl K) c c'
    (Hc : greenctx b = Some c)
    (Hw : ctx_stack (TorchBackend.world (Controller.backend c)) = Some base)
    (Ha : TorchBackend.active_gc (Controller.backend c) = None)
    (Hsteps : rtc train_step b b') (Hc' : greenctx b' = Some c') :
  exists calls,
    TorchBackend.world (Controller.backend c') =
      calls ++ TorchBackend.world (Controller.backend c) /\
    ctx_stack (TorchBackend.world (Controller.backend c')) =
      Some (option_list (TorchBackend.active_gc (Controller.backend c')) ++ base) /\
    (TorchBackend.failed_pops calls = [] ->
     ctx_stack (TorchBackend.world (Controller.backend c')) = Some base).
Proof.
  set (Q := ctrl_balanced base (TorchBackend.world (Controller.backend c))).
  assert (H0 : ctx_inv Q b).
  { intros g Hg. rewrite Hc in Hg. injection Hg as <-. split; [by apply TorchBackend.quiet_wf|].
    by exists []. }
  assert (H1 : ctx_inv Q b').
  { clear Hc Hc' Hw Ha. induction Hsteps as [|b1 b2 b3 H12 _ IH]; [done|]. apply IH.
    destruct H12 as [x w bias b1|cx dout b1];
      [by apply forward_ctx; [apply controller_scope_safe|]
      |by apply backward_ctx; [apply controller_scope_safe|]]. }
  destruct (H1 c' Hc') as ([Hs _] & calls & Hcalls & Hq). exists calls.
  split_and!; [done|done|]. intros Hf. by rewrite (Hq Hf) in Hs.
Qed.

End controlled.

(** ** Witnesses: integer matrices and a backend that multiplies at once *)

Record mat : Type := mk_mat { rows : Z; cols : Z; entry : Z -> Z -> Z }.

Definition upto (n : Z) : list Z := map Z.of_nat (seq 0 (Z.to_nat n)).

Definition mat_equal (a b : mat) : bool :=
  forallb (fun i => forallb (fun j => entry a i j =? entry b i j) (upto (cols a)))
    (upto (rows a)).

Definition mat_tensor : Tensor mat := {|
  shape0 := rows;
  shape1 := cols;
  transpose := fun a => mk_mat (cols a) (rows a) (fun i j => entry a j i);
  contiguous := fun a => a;
  matmul := fun a b =>
    if cols a =? rows b
    then Ret (mk_mat (rows a) (cols b)
           (fun i j => sum_list (map (fun k => entry a i k * entry b k j) (upto (cols a)))))
    else Raise (RuntimeError "mat1 and mat2 shapes cannot be multiplied");
  add_bias := fun a v => Ret (mk_mat (rows a) (cols a) (fun i j => entry a i j + entry v 0 j));
  sum0 := fun a => mk_mat 1 (cols a) (fun _ j => sum_list (map (fun i => entry a i j) (upto (rows a))));
  allclose := mat_equal;
|}.

Lemma mat_laws : @TensorLaws mat mat_tensor.
Proof.
  split.
  - by intros [].
  - done.
  - intros x y z. cbn. destruct (cols x =? rows y) eqn:He; [|done].
    intros _. by apply Z.eqb_eq.
Qed.

Definition fresh_id (ops : list (Z * mat)) : Z := 1 + foldr Z.max 0 (map fst ops).

Definition eager_backend : MatmulBackend mat (list (Z * mat)) := {|
  async_dispatch_matmul := fun a b ops =>
    match matmul (Tensor := mat_tensor) a (transpose (Tensor := mat_tensor) b) with
    | Ret c => (Ret (fresh_id ops), (fresh_id ops, c) :: ops)
    | Raise _ => (Ret (-1), ops)
    end;
  wait_matmul := fun oid ops =>
    match PyDict.dict_get oid ops with
    | Some c => (Ret c, filter (fun p => p.1 <> oid) ops)
    | None => (Raise (RuntimeError "unknown operation"), ops)
    end;
|}.

Lemma fresh_id_gt ops i : i ∈ map fst ops -> i < fresh_id ops.
Proof.
  unfold fresh_id. induction (map fst ops) as [|j l IH]; intros Hi.
  - by apply not_elem_of_nil in Hi.
  - cbn. apply elem_of_cons in Hi as [->|Hi]; [|specialize (IH Hi)]; lia.
Qed.

Lemma fresh_id_pos ops : 0 <= fresh_id ops.
Proof. unfold fresh_id. induction (map fst ops) as [|j l IH]; cbn; lia. Qed.

Definition eager_contract : @MatmulContract mat (list (Z * mat)) mat_tensor eager_backend.
Proof.
  refine {| pending := fun ops => ops |}.
  - intros a b c k Hm. exists (fresh_id k), ((fresh_id k, c) :: k).
    split_and!; [|apply fresh_id_pos| |done].
    + cbn [async_dispatch_matmul eager_backend]. by rewrite Hm.
    + intros Hin. apply (fresh_id_gt k) in Hin. lia.
  - intros oid c k Hin Hnd. eexists. split; [|done].
    cbn [wait_matmul eager_backend]. by rewrite (PyDict.dict_elem_get oid c k Hnd Hin).
Defined.

Definition demo_clock : Clock := fun n => f_of_Z (Z.of_nat (S n)).

Definition of_lists (r c : Z) (l : list (list Z)) : mat :=
  mk_mat r c (fun i j => default 0 (default [] (l !! Z.to_nat i) !! Z.to_nat j)).

Definition demo_x : mat := of_lists 2 2 [[1; 2]; [3; 4]].
Definition demo_w : mat := of_lists 2 2 [[0; 1]; [5; 7]].

Notation demo_hooks := (hooks (Controller.GreenContextController nat
                          (TorchBackend.TorchNativeBackend nat Z)) (list (Z * mat))).
Definition plain_hooks : demo_hooks :=
  mk_hooks (Some []) None [] fzero 0 false false true 0.
Definition ctx_hooks : demo_hooks :=
  mk_hooks (Some []) (Some Controller.demo_controller) [] fzero 0 true false true 0.

#[local] Existing Instance mat_tensor.
#[local] Existing Instance eager_backend.
#[local] Existing Instance eager_contract.
#[local] Existing Instance mat_laws.
#[local] Existing Instance demo_clock.
#[local] Existing Instance TorchBackend.demo_cuda.

Lemma plain_holding : holding [] plain_hooks.
Proof. exists []. split_and!; [done|done|constructor]. Qed.

Lemma ctx_holding : holding [] ctx_hooks.
Proof. exists []. split_and!; [done|done|constructor]. Qed.

Lemma gemm_log_ordered_witness :
  let b := snd (set_greenctx (Some Controller.demo_controller) true module_init) in
  let b1 := snd (set_backend (Some []) b) in
  let b2 := snd (forward demo_x demo_w None b1) in
  let b3 := snd (forward demo_x demo_w None b2) in
  map e_gemm_idx (gemm_log b3) = [0; 1] /\
  StronglySorted Z.lt (map e_gemm_idx (gemm_log b3)).
Proof.
  intros b b1 b2 b3. split; [vm_compute; reflexivity|].
  apply (gemm_log_ordered (K := list (Z * mat))
    (SP := controller_partition (H := TorchBackend.torch_backend)) b3).
  eapply rtc_l; [apply (hooks_set_greenctx (Some Controller.demo_controller) true)|].
  eapply rtc_l; [apply (hooks_set_backend (Some []))|].
  eapply rtc_l; [apply (hooks_forward demo_x demo_w None)|].
  apply rtc_once. apply (hooks_forward demo_x demo_w None).
Defined.

Lemma refused_dispatch_not_waited_witness :
  fst (forward demo_x (of_lists 3 3 []) None plain_hooks)
    = Raise (RuntimeError "forward matmul dispatch failed with operation id -1").
Proof.
  assert (Hd : async_dispatch_matmul demo_x (contiguous (transpose (of_lists 3 3 [])))
                 ([] : list (Z * mat)) = (Ret (-1), [])) by reflexivity.
  destruct (refused_dispatch_not_waited demo_x (of_lists 3 3 []) None plain_hooks (-1) [] []
    eq_refl Hd eq_refl) as [_ [[Hr _]|[Hc _]]]; [exact Hr|].
  exfalso. destruct Hc as [c Hc]. discriminate Hc.
Defined.

Lemma hooked_Linear_correct_witness :
  exists r, fst (nn_Linear_forward demo_w None demo_x plain_hooks) = Ret r /\
    mat_equal r (of_lists 2 2 [[2; 19]; [4; 43]]) = true.
Proof.
  epose proof (hooked_Linear_correct demo_x demo_w None _ _ [] plain_hooks plain_holding
    eq_refl eq_refl eq_refl) as H.
  destruct (fst (nn_Linear_forward _ _ _ _)) as [r|e]; [|discriminate H].
  exists r. split; [reflexivity|]. rewrite H. vm_compute. reflexivity.
Defined.

Lemma hooked_functional_linear_untransposed_witness :
  exists c, matmul demo_x demo_w = Ret c /\
    fst (functional_linear demo_x demo_w None plain_hooks) = Ret c /\
    mat_equal c (of_lists 2 2 [[10; 15]; [20; 31]]) = true.
Proof.
  eexists. split; [reflexivity|]. split; [|vm_compute; reflexivity].
  eapply (hooked_functional_linear_untransposed demo_x demo_w _ _ [] plain_hooks plain_holding
    eq_refl eq_refl eq_refl); [|reflexivity].
  intros Heq. apply (f_equal (fun m => entry m 0 0)) in Heq. vm_compute in Heq. discriminate.
Defined.

Lemma forward_logs_inner_dimension_as_n_witness :
  let w := of_lists 2 5 [] in
  exists e, gemm_log (snd (forward demo_x w None ctx_hooks)) = [e] /\
    e_n e = e_k e /\ e_n e = 2.
Proof.
  intros w.
  destruct (forward demo_x w None ctx_hooks) as [o b'] eqn:Hf.
  destruct o as [r|e]; [|exfalso; vm_compute in Hf; discriminate].
  destruct (forward_logs_inner_dimension_as_n demo_x w None _ _ [] ctx_hooks r b' ctx_holding
    eq_refl eq_refl eq_refl eq_refl eq_refl Hf) as (e & Hl & _ & _ & Hk & Hn).
  exists e. split; [exact Hl|]. split; [exact Hn|]. rewrite Hn, Hk. reflexivity.
Defined.

Lemma hooked_gradients_correct_witness :
  exists gi gw, fst (backward (mk_ctx demo_x demo_w None true true false) demo_x plain_hooks)
      = Ret (Some gi, Some gw, None) /\
    mat_equal gw (of_lists 2 2 [[10; 14]; [14; 20]]) = true.
Proof.
  epose proof (hooked_gradients_correct demo_x demo_w None demo_x _ _ false [] plain_hooks
    plain_holding eq_refl eq_refl eq_refl) as H.
  destruct (fst (backward _ _ _)) as [[[gi gw] gb]|e]; [|discriminate H].
  destruct H as (-> & -> & ->). eexists _, _. split; [reflexivity|]. vm_compute. reflexivity.
Defined.

Lemma hooks_restore_contexts_witness :
  exists c', greenctx (snd (forward demo_x demo_w None ctx_hooks)) = Some c' /\
    exists calls,
      TorchBackend.world (Controller.backend c') =
        calls ++ TorchBackend.world (Controller.backend Controller.demo_controller) /\
      ctx_stack (TorchBackend.world (Controller.backend c')) =
        Some (option_list (TorchBackend.active_gc (Controller.backend c')) ++ [77]) /\
      (TorchBackend.failed_pops calls = [] ->
       ctx_stack (TorchBackend.world (Controller.backend c')) = Some [77]).
Proof.
  eexists. split; [vm_compute; reflexivity|].
  eapply (hooks_restore_contexts (T := mat) (E := TorchBackend.demo_cuda) [77] ctx_hooks
    (snd (forward demo_x demo_w None ctx_hooks)) Controller.demo_controller);
    [reflexivity|vm_compute; reflexivity|vm_compute; reflexivity| |vm_compute; reflexivity].
  apply rtc_once. apply (train_forward demo_x demo_w None).
Defined.
