(* ===== verification/Metrics.v ===== *)
(** * Coordinator metrics
    ([morphling/runtime/coordinator_metrics.py], [coordinator_metrics_models.py]
    and [coordinator_metrics_cli.py])

    [Models] holds the value types and the rate computation, [Recorder] the phase
    recorder, [Cli] the output paths and [Collector] the sampling collector with
    its background thread.  psutil, the clock and the file system are [MetricsHost]:
    each call is answered by a function of the number of calls before it. *)

From stdpp Require Import sorting.
From Stdlib Require Import Sorted Ascii.
From S2P Require Import Prelude PyDict PyStr PyFloat.

Module Models.

Record NicCounters : Type := mk_NicCounters { bytes_sent : Z; bytes_recv : Z }.

Record SelectedNicCounters : Type := mk_Selected {
  selected_names : list string;
  counters : NicCounters;
}.

Record MetricReading : Type := mk_reading {
  timestamp_unix_s : float;
  monotonic_s : float;
  process_cpu_percent : float;
  rss_bytes : Z;
  nic : NicCounters;
  nic_names : list string;
}.

Record PhaseSnapshot : Type := mk_snapshot {
  counts : list (string * Z);
  durations_seconds : list (string * float);
  last_timestamps_unix_s : list (string * float);
}.

Definition empty : PhaseSnapshot := mk_snapshot [] [] [].

Record MetricsSample : Type := mk_sample {
  reading : MetricReading;
  nic_tx_bytes_per_sec : float;
  nic_rx_bytes_per_sec : float;
  phases : PhaseSnapshot;
}.

(** [sorted] of strings *)
Definition str_le (s t : string) : Prop := String.leb s t = true.
#[export] Instance str_le_dec s t : Decision (str_le s t).
Proof. unfold str_le. apply _. Defined.
Definition sorted_names (l : list string) : list string := merge_sort str_le l.

Definition aggregate_nic_counters (cs : list (string * NicCounters))
    (names : option (list string)) : outcome SelectedNicCounters :=
  let selected := sorted_names (match names with
                                | None => dict_keys cs
                                | Some l => remove_dups l
                                end) in
  let missing := filter (fun name => dict_mem name cs = false) selected in
  match missing with
  | _ :: _ => Raise (KeyError ("network interface(s) unavailable: " +:+ join ", " missing))
  | [] =>
      let get f := map (fun name => default 0 (f <$> dict_get name cs)) selected in
      Ret (mk_Selected selected
             (mk_NicCounters (sum_list (get bytes_sent)) (sum_list (get bytes_recv))))
  end.

(** [max(0, current - previous) / elapsed] *)
Definition rate (current previous : Z) (elapsed : float) : outcome float :=
  n ← float_of_int (Z.max 0 (current - previous)); fdiv n elapsed.

Definition build_sample (current : MetricReading) (previous : option MetricReading)
    (ph : PhaseSnapshot) : outcome MetricsSample :=
  match previous with
  | None => Ret (mk_sample current fzero fzero ph)
  | Some prev =>
      let elapsed := fsub (monotonic_s current) (monotonic_s prev) in
      if fle elapsed fzero then Ret (mk_sample current fzero fzero ph)
      else
        tx_rate ← rate (bytes_sent (nic current)) (bytes_sent (nic prev)) elapsed;
        rx_rate ← rate (bytes_recv (nic current)) (bytes_recv (nic prev)) elapsed;
        Ret (mk_sample current tx_rate rx_rate ph)
  end.

(** The JSON object of a sample, with its keys sorted; the text of a number is
    left to the encoder. *)
Inductive json : Type :=
  | JStr (s : string)
  | JInt (z : Z)
  | JFloat (x : float)
  | JArr (l : list string)
  | JCounts (d : list (string * Z))
  | JFloats (d : list (string * float)).

Definition sort_keys {A} (d : list (string * A)) : list (string * A) :=
  merge_sort (fun x y => str_le x.1 y.1) d.

Definition to_json_line (s : MetricsSample) : list (string * json) :=
  let r := reading s in
  sort_keys
    [("record_type", JStr "sample");
     ("timestamp_unix_s", JFloat (timestamp_unix_s r));
     ("process_cpu_percent", JFloat (process_cpu_percent r));
     ("rss_bytes", JInt (rss_bytes r));
     ("nic_names", JArr (nic_names r));
     ("nic_tx_bytes", JInt (bytes_sent (nic r)));
     ("nic_rx_bytes", JInt (bytes_recv (nic r)));
     ("nic_tx_bytes_per_sec", JFloat (nic_tx_bytes_per_sec s));
     ("nic_rx_bytes_per_sec", JFloat (nic_rx_bytes_per_sec s));
     ("phase_counts", JCounts (sort_keys (counts (phases s))));
     ("phase_durations_seconds", JFloats (sort_keys (durations_seconds (phases s))));
     ("phase_last_timestamps_unix_s", JFloats (sort_keys (last_timestamps_unix_s (phases s))))]%string.

(** ** Lemmas *)

#[export] Instance str_le_total : Total str_le.
Proof. intros s t. apply String.leb_total. Qed.

Lemma rate_pos_sign a b elapsed x :
  pos_sign elapsed = true -> rate a b elapsed = Ret x -> pos_sign x = true.
Proof.
  intros He. unfold rate, mbind, outcome_bind.
  destruct (float_of_int (Z.max 0 (a - b))) as [n|e] eqn:Hn; [|done].
  apply float_of_int_sign in Hn as [Hn Hinf]; [|lia]. by apply fdiv_pos_sign.
Qed.

(** A number that is not below or equal to zero has a clear sign bit. *)
Lemma not_fle_zero x : fle x fzero = false -> is_nan x = false -> pos_sign x = true.
Proof. by destruct x as [[]|[]| |[]]. Qed.

(** The byte rates of a sample are never negative and never NaN, whatever
    the counters do (a counter that wraps or is reset gives a zero rate), as
    long as the monotonic clock's difference is a number. *)
Theorem rates_never_negative current prev ph s
    (Hclock : forall p, prev = Some p ->
       is_nan (fsub (monotonic_s current) (monotonic_s p)) = false)
    (Hs : build_sample current prev ph = Ret s) :
  pos_sign (nic_tx_bytes_per_sec s) = true /\ pos_sign (nic_rx_bytes_per_sec s) = true /\
  reading s = current /\
  (forall p, prev = Some p -> bytes_sent (nic current) <= bytes_sent (nic p) ->
     exists z, nic_tx_bytes_per_sec s = S754_zero z).
Proof.
  unfold build_sample in Hs. destruct prev as [p|].
  2:{ injection Hs as <-. by split_and!. }
  specialize (Hclock p eq_refl).
  destruct (fle (fsub _ _) fzero) eqn:Hle.
  { injection Hs as <-. split_and!; try done. intros. by eexists. }
  pose proof (not_fle_zero _ Hle Hclock) as Hpos. unfold mbind, outcome_bind in Hs.
  destruct (rate (bytes_sent _) _ _) as [tx|] eqn:Htx; [|done].
  destruct (rate (bytes_recv _) _ _) as [rx|] eqn:Hrx; [|done].
  injection Hs as <-. cbn.
  split_and!; [by eapply rate_pos_sign|by eapply rate_pos_sign|done|].
  intros ? [= <-] Hdec. unfold rate in Htx. rewrite Z.max_l in Htx by lia.
  cbn in Htx. destruct (fsub _ _); cbn in Htx; simplify_eq; try done; by eexists.
Qed.

(** Aggregation selects each requested interface once, in sorted order, and
    adds up exactly their counters; it fails exactly when one is missing. *)
Theorem nic_aggregation_correct cs names (Hwf : dict_wf cs) :
  let wanted := match names with None => dict_keys cs | Some l => l end in
  match aggregate_nic_counters cs names with
  | Ret sel =>
      NoDup (selected_names sel) /\ Sorted str_le (selected_names sel) /\
      (forall n, n ∈ selected_names sel <-> n ∈ wanted) /\
      (forall n, n ∈ wanted -> is_Some (dict_get n cs)) /\
      bytes_sent (counters sel) =
        sum_list (map (fun n => default 0 (bytes_sent <$> dict_get n cs)) (selected_names sel)) /\
      bytes_recv (counters sel) =
        sum_list (map (fun n => default 0 (bytes_recv <$> dict_get n cs)) (selected_names sel))
  | Raise e => (exists msg, e = KeyError msg) /\ exists n, n ∈ wanted /\ dict_get n cs = None
  end.
Proof.
  intros wanted. unfold aggregate_nic_counters.
  set (raw := match names with None => _ | Some _ => _ end).
  assert (Hraw : NoDup raw /\ forall n, n ∈ raw <-> n ∈ wanted).
  { subst raw wanted. destruct names as [l|]; [|done].
    split; [apply NoDup_remove_dups|]. intros n. apply elem_of_remove_dups. }
  assert (Hin : forall n, n ∈ sorted_names raw <-> n ∈ wanted).
  { intros n. rewrite <- (proj2 Hraw n). unfold sorted_names. by rewrite merge_sort_Permutation. }
  assert (Hmem : forall n, dict_mem n cs = false <-> dict_get n cs = None).
  { intros n. unfold dict_mem. by destruct (dict_get n cs). }
  destruct (filter _ (sorted_names raw)) as [|n ms] eqn:Hf.
  - cbn. split_and!.
    + unfold sorted_names. rewrite merge_sort_Permutation. apply Hraw.
    + apply Sorted_merge_sort. apply _.
    + exact Hin.
    + intros n Hn. destruct (dict_get n cs) eqn:Hg; [by eexists|].
      apply filter_nil_not_elem_of with (x := n) in Hf; [by apply Hin in Hn|by apply Hmem].
    + done.
    + done.
  - split; [by eexists|]. exists n.
    assert (Hn : n ∈ filter (fun name => dict_mem name cs = false) (sorted_names raw))
      by (rewrite Hf; left).
    apply list_elem_of_filter in Hn as [H1 H2]. split; [by apply Hin|by apply Hmem].
Qed.

End Models.

Module Recorder.
Import Models.

(** [PhaseRecorder]; each operation holds the lock, so it is one step. *)
Record PhaseRecorder : Type := mk_recorder {
  r_counts : list (string * Z);
  r_durations : list (string * float);
  r_timestamps : list (string * float);
}.

Definition new_recorder : PhaseRecorder := mk_recorder [] [] [].

Definition record (name : string) (duration_seconds timestamp : float)
    (r : PhaseRecorder) : PhaseRecorder :=
  mk_recorder
    (dict_set name (dict_get_default name 0 (r_counts r) + 1) (r_counts r))
    (dict_set name (fadd (dict_get_default name fzero (r_durations r)) duration_seconds)
       (r_durations r))
    (dict_set name timestamp (r_timestamps r)).

Definition snapshot (r : PhaseRecorder) : PhaseSnapshot :=
  mk_snapshot (r_counts r) (r_durations r) (r_timestamps r).

Section track.
(** [time.perf_counter] and [time.time], and the state around the recorder *)
Context {S : Type} (rec : S -> PhaseRecorder) (put : PhaseRecorder -> S -> S)
  (perf_counter time_time : S -> float).

(** [with recorder.track(name): body] *)
Definition track {A} (name : string) (body : M S A) : M S A :=
  started ← gets perf_counter;
  try_finally body
    (modify (fun s => put (record name (fsub (perf_counter s) started) (time_time s) (rec s)) s)).

(** [with track_phase(recorder, name): body]; [enabled] is [recorder is not None]. *)
Definition track_phase {A} (enabled : bool) (name : string) (body : M S A) : M S A :=
  if enabled then track name body else body.

(** A body that raises is recorded as well, and its outcome is kept. *)
Lemma track_records {A} name (body : M S A) s :
  let '(r, s1) := body s in
  track name body s =
    (r, put (record name (fsub (perf_counter s1) (perf_counter s)) (time_time s1) (rec s1)) s1).
Proof.
  unfold track, mbind, M_bind, gets, try_finally, modify. by destruct (body s) as [r s1].
Qed.
End track.

(** The history of events a recorder has seen *)
Definition replay (events : list (string * float * float)) : PhaseRecorder :=
  foldl (fun r e => record e.1.1 e.1.2 e.2 r) new_recorder events.

Definition of_name (name : string) (events : list (string * float * float)) :
    list (string * float * float) := filter (fun e => e.1.1 = name) events.

Lemma replay_snoc events e :
  replay (events ++ [e]) = record e.1.1 e.1.2 e.2 (replay events).
Proof. unfold replay. by rewrite foldl_app. Qed.

Lemma of_name_snoc name events e :
  of_name name (events ++ [e]) =
  of_name name events ++ (if decide (e.1.1 = name) then [e] else []).
Proof. unfold of_name. rewrite filter_app. cbn. by case_decide. Qed.

(** A snapshot tells, for every phase, how many of its events were recorded,
    the left-to-right floating-point sum of their durations and the time of the
    last one, and nothing for phases that were never recorded. *)
Theorem phase_snapshot_summarises events name :
  let evs := of_name name events in
  let snap := snapshot (replay events) in
  dict_get name (counts snap) =
    (match evs with [] => None | _ => Some (Z.of_nat (length evs)) end) /\
  dict_get name (durations_seconds snap) =
    (match evs with [] => None | _ => Some (foldl fadd fzero (map (fun e => e.1.2) evs)) end) /\
  dict_get name (last_timestamps_unix_s snap) = snd <$> last evs.
Proof.
  cbn. induction events as [|e events IH] using rev_ind; [done|].
  destruct IH as (Hc & Hd & Ht). rewrite replay_snoc, of_name_snoc.
  unfold record. cbn. unfold dict_get_default. rewrite !dict_get_set.
  destruct e as [[n d] t]. cbn. destruct (decide (n = name)) as [->|Hne].
  - rewrite !decide_True by done. rewrite Hc, Hd, last_snoc. cbn.
    rewrite map_app, foldl_app. cbn.
    destruct (of_name name events) as [|e evs]; [by split_and!|].
    cbn [app default from_option id]. split_and!; [|done|done].
    f_equal. cbn [length]. rewrite length_app. cbn [length]. lia.
  - rewrite !decide_False by congruence. rewrite app_nil_r. by split_and!.
Qed.

End Recorder.

Module Cli.

(** A [pathlib.Path]: the anchor and the parts; the last part is the name. *)
Record path : Type := mk_path { anchor : string; parts : list string }.

Definition name (p : path) : string := default ""%string (last (parts p)).
(** [destination / x], for a relative name [x] *)
Definition join_path (p : path) (x : string) : path := mk_path (anchor p) (parts p ++ [x]).

(** The text before and after the last dot *)
Fixpoint rsplit_dot (s : string) : option (string * string) :=
  match s with
  | EmptyString => None
  | String c s =>
      match rsplit_dot s with
      | Some (a, b) => Some (String c a, b)
      | None => if decide (c = "."%char) then Some (EmptyString, s) else None
      end
  end.

(** [stem] and [suffix] of a name *)
Definition split_suffix (n : string) : string * string :=
  match rsplit_dot n with
  | Some (String c a, String d b) => (String c a, String "." (String d b))
  | _ => (n, EmptyString)
  end.
Definition stem (p : path) : string := fst (split_suffix (name p)).
Definition suffix (p : path) : string := snd (split_suffix (name p)).

(** [destination.with_name(x)]; raises for a path without a name *)
Definition with_name (p : path) (x : string) : outcome path :=
  if is_empty (name p) then Raise (ValueError "has an empty name")
  else Ret (mk_path (anchor p) (removelast (parts p) ++ [x])).

Definition metrics_output_path (destination : path) (rank : option Z) : outcome path :=
  match rank with
  | None =>
      if String.eqb (suffix destination) ".jsonl" then Ret destination
      else Ret (join_path destination "coordinator.jsonl")
  | Some rank =>
      if String.eqb (suffix destination) ".jsonl"
      then with_name destination
             (stem destination +:+ "-rank-" +:+ str_of_Z rank +:+ suffix destination)
      else Ret (join_path destination ("coordinator-rank-" +:+ str_of_Z rank +:+ ".jsonl"))
  end.

Record MetricsConfig : Type := mk_config {
  output_path : path;
  interval_seconds : float;
  nic_names : option (list string);
}.

(** [MetricsConfig.__post_init__] *)
Definition make_config (p : path) (interval : float) (nics : option (list string)) :
    outcome MetricsConfig :=
  if fle interval fzero
  then Raise (ValueError "metrics interval must be greater than zero")
  else Ret (mk_config p interval nics).

(** argparse reports [ArgumentTypeError]s itself; here they are [ValueError]s. *)
Definition positive_interval (raw : string) : outcome float :=
  match float_of_str raw with
  | None => Raise (ValueError "metrics interval must be a number")
  | Some interval =>
      if fle interval fzero
      then Raise (ValueError "metrics interval must be greater than zero")
      else Ret interval
  end.

Record MetricsCliArgs : Type := mk_args {
  metrics_output : option path;
  metrics_interval : float;
  metrics_nics : option (list string);
}.

Definition metrics_config_from_args (args : MetricsCliArgs) (rank : option Z) :
    outcome (option MetricsConfig) :=
  match metrics_output args with
  | None => Ret None
  | Some destination =>
      p ← metrics_output_path destination rank;
      c ← make_config p (metrics_interval args) (metrics_nics args);
      Ret (Some c)
  end.

Lemma name_snoc a l x : name (mk_path a (l ++ [x])) = x.
Proof. unfold name. cbn [parts]. by rewrite last_snoc. Qed.

(** Coordinators of different ranks never write to the same metrics file,
    and the file is always a [.jsonl] file. *)
Theorem metrics_paths_disjoint destination r1 r2 p1 p2
    (H1 : metrics_output_path destination (Some r1) = Ret p1)
    (H2 : metrics_output_path destination (Some r2) = Ret p2) :
  (r1 <> r2 -> p1 <> p2) /\ exists s, name p1 = s +:+ ".jsonl".
Proof.
  unfold metrics_output_path in *.
  destruct (String.eqb (suffix destination) ".jsonl") eqn:Hs.
  - apply String.eqb_eq in Hs. rewrite Hs in *. unfold with_name in *.
    destruct (is_empty (name destination)); [done|]. simplify_eq. split.
    + intros Hr Hp. apply (f_equal name) in Hp. rewrite !name_snoc in Hp.
      apply (append_inj_l (stem destination)) in Hp. apply (append_inj_l "-rank-") in Hp.
      apply (append_inj_r ".jsonl") in Hp. by apply str_of_Z_inj in Hp.
    + rewrite name_snoc. exists (stem destination +:+ "-rank-" +:+ str_of_Z r1).
      by rewrite !str_append_assoc.
  - simplify_eq. unfold join_path. split.
    + intros Hr Hp. apply (f_equal name) in Hp. rewrite !name_snoc in Hp.
      apply (append_inj_l "coordinator-rank-") in Hp.
      apply (append_inj_r ".jsonl") in Hp. by apply str_of_Z_inj in Hp.
    + rewrite name_snoc. exists ("coordinator-rank-" +:+ str_of_Z r1).
      by rewrite !str_append_assoc.
Qed.

End Cli.

Module Collector.
Import Models Recorder Cli.

(** What psutil reports at one instant *)
Record raw_reading : Type := mk_raw {
  raw_per_nic : list (string * NicCounters);
  raw_time : float;
  raw_monotonic : float;
  raw_cpu_percent : float;
  raw_rss : Z;
}.

(** The host: the file system answers the calls on the output file, in order,
    and psutil the readings. *)
Class MetricsHost : Type := {
  mkdir_parents : path -> outcome unit;
  open_output : path -> outcome unit;
  prime : outcome unit;
  read_raw : nat -> outcome raw_reading;
  file_call : nat -> outcome unit;   (** [write], [flush] and [close] *)
  time_time : nat -> float;
}.

(** [MetricsCollectionError], as the collector keeps it *)
Record failure_info : Type := mk_failure { error_type : string; error_message : string }.

Inductive line : Type :=
  | SampleLine (s : MetricsSample)
  | TerminalLine (timestamp : float) (f : failure_info).

Record collector : Type := mk_collector {
  config : MetricsConfig;
  c_phases : PhaseRecorder;
  stop_event : bool;
  thread : bool;   (** the background thread is running *)
  output : bool;   (** [_output is not None] *)
  file : list line;   (** the lines whose [write] returned *)
  previous : option MetricReading;
  failure : option failure_info;
  stderr : list string;
  reads : nat;
  file_calls : nat;
}.

Section collector.
Context {host : MetricsHost}.
Implicit Types c : collector.

Definition set_phases x c := mk_collector (config c) x (stop_event c) (thread c) (output c)
  (file c) (previous c) (failure c) (stderr c) (reads c) (file_calls c).
Definition set_stop_event x c := mk_collector (config c) (c_phases c) x (thread c) (output c)
  (file c) (previous c) (failure c) (stderr c) (reads c) (file_calls c).
Definition set_thread x c := mk_collector (config c) (c_phases c) (stop_event c) x (output c)
  (file c) (previous c) (failure c) (stderr c) (reads c) (file_calls c).
Definition set_output x c := mk_collector (config c) (c_phases c) (stop_event c) (thread c) x
  (file c) (previous c) (failure c) (stderr c) (reads c) (file_calls c).
Definition set_file x c := mk_collector (config c) (c_phases c) (stop_event c) (thread c)
  (output c) x (previous c) (failure c) (stderr c) (reads c) (file_calls c).
Definition set_previous x c := mk_collector (config c) (c_phases c) (stop_event c) (thread c)
  (output c) (file c) x (failure c) (stderr c) (reads c) (file_calls c).
Definition set_failure x c := mk_collector (config c) (c_phases c) (stop_event c) (thread c)
  (output c) (file c) (previous c) x (stderr c) (reads c) (file_calls c).
Definition set_stderr x c := mk_collector (config c) (c_phases c) (stop_event c) (thread c)
  (output c) (file c) (previous c) (failure c) x (reads c) (file_calls c).
Definition set_reads x c := mk_collector (config c) (c_phases c) (stop_event c) (thread c)
  (output c) (file c) (previous c) (failure c) (stderr c) x (file_calls c).
Definition set_file_calls x c := mk_collector (config c) (c_phases c) (stop_event c) (thread c)
  (output c) (file c) (previous c) (failure c) (stderr c) (reads c) x.

(** [__init__] *)
Definition new_collector (cfg : MetricsConfig) (recorder : option PhaseRecorder) : collector :=
  mk_collector cfg (default new_recorder recorder) false false false [] None None [] 0 0.

(** A call on the output file; [write] adds its line when it returns. *)
Definition call_file : M collector unit := fun c =>
  (file_call (file_calls c), set_file_calls (S (file_calls c)) c).
Definition write (l : line) : M collector unit :=
  call_file;; modify (fun c => set_file (file c ++ [l]) c).
Definition flush : M collector unit := call_file.

Definition eprint (msg : string) : M collector unit :=
  modify (fun c => set_stderr (stderr c ++ [msg]) c).

(** [_PsutilMetricsReader.read] *)
Definition read : M collector MetricReading :=
  c ← get;
  modify (set_reads (S (reads c)));;
  raw ← lift (read_raw (reads c));
  selected ← lift (aggregate_nic_counters (raw_per_nic raw) (nic_names (config c)));
  mret (mk_reading (raw_time raw) (raw_monotonic raw) (raw_cpu_percent raw) (raw_rss raw)
          (counters selected) (selected_names selected)).

Definition sample_once : M collector unit :=
  r ← read;
  c ← get;
  sample ← lift (build_sample r (previous c) (snapshot (c_phases c)));
  modify (set_previous (Some r));;
  when (output c) (write (SampleLine sample);; flush).

(** [type(cause).__name__] and [str(cause)] *)
Definition exn_name (e : exn) : string :=
  match e with
  | ValueError _ => "ValueError" | KeyError _ => "KeyError" | IndexError _ => "IndexError"
  | TypeError _ => "TypeError" | AttributeError _ => "AttributeError"
  | RuntimeError _ => "RuntimeError" | ImportError _ => "ImportError"
  | ModuleNotFoundError _ => "ModuleNotFoundError"
  | NotImplementedError _ => "NotImplementedError" | AssertionError _ => "AssertionError"
  | ZeroDivisionError _ => "ZeroDivisionError" | OverflowError _ => "OverflowError"
  | OSError _ => "OSError" | MetricsCollectionError _ _ => "MetricsCollectionError"
  | SchemaError _ => "SchemaError" | MissingDataError _ => "MissingDataError"
  | TimeoutExpired _ => "TimeoutExpired" | CalledProcessError _ _ => "CalledProcessError"
  | ProcessLookupError _ => "ProcessLookupError" | StructError _ => "error"
  end.
(** A [KeyError] shows its argument quoted (here for one without a quote). *)
Definition exn_str (e : exn) : string :=
  match e with
  | KeyError m => "'" +:+ m +:+ "'"
  | ValueError m | IndexError m | TypeError m | AttributeError m | RuntimeError m
  | ImportError m | ModuleNotFoundError m | NotImplementedError m | AssertionError m
  | ZeroDivisionError m | OverflowError m | OSError m | MetricsCollectionError _ m
  | SchemaError m | MissingDataError m | TimeoutExpired m | CalledProcessError _ m
  | ProcessLookupError m | StructError m => m
  end.

(** [except (OSError, ValueError) as e: print(prefix: e)], which catches their
    subclasses too *)
Definition reporting (prefix : string) (m : M collector unit) : M collector unit :=
  try_except m (fun e =>
    match e with
    | OSError _ | ProcessLookupError _ | ValueError _ | SchemaError _ | MissingDataError _ =>
        Some (eprint (prefix +:+ exn_str e))
    | _ => None
    end).

Definition record_failure (error : exn) : M collector failure_info :=
  c ← get;
  match failure c with
  | Some f => mret f
  | None =>
      let f := mk_failure (exn_name error) (exn_str error) in
      modify (set_failure (Some f));;
      c ← get;
      let terminal := TerminalLine (time_time (file_calls c)) f in
      when (output c)
        (reporting "Coordinator metrics terminal write failed: " (write terminal;; flush));;
      eprint ("Coordinator metrics stopped: " +:+ error_message f);;
      mret f
  end.

Definition close_output : M collector unit :=
  c ← get;
  modify (set_output false);;
  when (output c)
    (reporting "Coordinator metrics flush failed: " flush;;
     reporting "Coordinator metrics close failed: " call_file).

Definition to_exn (f : failure_info) : exn :=
  MetricsCollectionError (error_type f) (error_message f).

Definition start : M collector unit :=
  c ← get;
  lift (mkdir_parents (output_path (config c)));;
  lift (open_output (output_path (config c)));;
  modify (fun c => set_file [] (set_output true c));;
  try_except (lift prime;; sample_once)
    (fun e => Some (f ← record_failure e; close_output;; raise (to_exn f)));;
  modify (set_thread true).

(** One turn of [_run], after [wait] timed out; the thread ends with the turn
    that fails. *)
Definition run_turn : M collector unit :=
  try_except sample_once
    (fun e => Some (try_finally (f ← record_failure e; modify (set_stop_event true))
                      (modify (set_thread false)))).

(** [stop]; [join] returns once the thread has seen the event. *)
Definition stop : M collector unit :=
  c ← get;
  when (output c)
    (modify (fun c => set_thread false (set_stop_event true c));;
     c ← get;
     when (match failure c with None => true | Some _ => false end)
       (try_except sample_once (fun e => Some (f ← record_failure e; mret tt)));;
     close_output;;
     modify (set_thread false)).

(** [start_metrics_collector]: [None] when the start failed *)
Definition start_metrics_collector (cfg : MetricsConfig) (recorder : PhaseRecorder) :
    outcome (option collector) :=
  match start (new_collector cfg (Some recorder)) with
  | (Ret _, c) => Ret (Some c)
  | (Raise (MetricsCollectionError _ _), _) => Ret None
  | (Raise e, _) => Raise e
  end.

(** A started collector, interleaved with the training code *)
Inductive collector_step : collector -> collector -> Prop :=
  | step_record name d t c : collector_step c (set_phases (record name d t (c_phases c)) c)
  | step_turn c : thread c = true -> stop_event c = false ->
      collector_step c (snd (run_turn c))
  | step_stop c : collector_step c (snd (stop c)).

(** ** The shape of the file *)

(** Every sample's rates are taken against the reading of the sample before. *)
Fixpoint chained (prev : option MetricReading) (l : list MetricsSample) : Prop :=
  match l with
  | [] => True
  | s :: l => build_sample (reading s) prev (phases s) = Ret s /\ chained (Some (reading s)) l
  end.

Definition last_reading (l : list MetricsSample) : option MetricReading := reading <$> last l.

Lemma chained_snoc prev l s :
  chained prev l ->
  build_sample (reading s) (match last_reading l with Some r => Some r | None => prev end)
    (phases s) = Ret s ->
  chained prev (l ++ [s]).
Proof.
  revert prev. induction l as [|a l IH]; intros prev; cbn; [by auto|].
  intros [Ha Hl] Hs. split; [done|]. apply IH; [done|].
  unfold last_reading in *. rewrite last_cons in Hs. by destruct (last l).
Qed.

(** The file holds samples, chained, and after a failure at most its terminal
    line; [previous] is the last sample's reading as long as nothing failed. *)
Definition shape c : Prop :=
  exists l tail, file c = map SampleLine l ++ tail /\ chained None l /\
    match failure c with
    | None => tail = [] /\ previous c = last_reading l
    | Some f => tail = [] \/ exists t, tail = [TerminalLine t f]
    end.

(** A running thread has an open file and, until it is asked to stop, no
    failure. *)
Definition thread_ok c : Prop :=
  thread c = true -> output c = true /\ (stop_event c = false -> failure c = None).

Definition same_control c c' : Prop :=
  thread c' = thread c /\ stop_event c' = stop_event c /\ output c' = output c.

(** A sample was taken or written only in part, nothing is recorded yet. *)
Definition broken c : Prop :=
  failure c = None /\ exists l, file c = map SampleLine l /\ chained None l.

Lemma map_SampleLine_inj l l' : map SampleLine l = map SampleLine l' -> l = l'.
Proof.
  revert l'. induction l as [|x l IH]; intros [|y l']; try done. cbn. intros [= -> H].
  f_equal. auto.
Qed.

Lemma shape_broken c : shape c -> failure c = None -> broken c.
Proof.
  intros (l & tail & Hf & Hc & Ht) Hn. rewrite Hn in Ht. destruct Ht as [-> _].
  split; [done|]. exists l. by rewrite app_nil_r in Hf.
Qed.

Lemma build_sample_fields r prev ph s :
  build_sample r prev ph = Ret s -> reading s = r /\ phases s = ph.
Proof.
  unfold build_sample, mbind, outcome_bind. destruct prev as [p|]; [|by intros [= <-]].
  destruct (fle _ _); [by intros [= <-]|].
  destruct (rate _ _ _); [|done]. destruct (rate _ _ _); [|done]. by intros [= <-].
Qed.

Lemma write_wp l c :
  wp (write l) (fun _ c' => file c' = file c ++ [l] /\ same_control c c' /\
                  failure c' = failure c /\ previous c' = previous c)
    (fun _ c' => file c' = file c /\ same_control c c' /\ failure c' = failure c /\
                 previous c' = previous c) c.
Proof.
  unfold wp, write, call_file, mbind, M_bind, modify.
  by destruct (file_call (file_calls c)) as [[]|e].
Qed.

Lemma call_file_wp c :
  wp call_file (fun _ c' => file c' = file c /\ same_control c c' /\
                  failure c' = failure c /\ previous c' = previous c)
    (fun _ c' => file c' = file c /\ same_control c c' /\ failure c' = failure c /\
                 previous c' = previous c) c.
Proof. unfold wp, call_file. by destruct (file_call (file_calls c)) as [[]|e]. Qed.

Lemma read_wp c :
  wp read (fun _ c' => c' = set_reads (S (reads c)) c)
    (fun _ c' => c' = set_reads (S (reads c)) c) c.
Proof.
  unfold wp, read, mbind, M_bind, get, modify, lift, mret, M_ret.
  destruct (read_raw (reads c)) as [raw|e]; [|done]. cbn.
  by destruct (aggregate_nic_counters (raw_per_nic raw) (nic_names (config c))).
Qed.

Lemma sample_once_wp c :
  shape c -> failure c = None -> output c = true ->
  wp sample_once (fun _ c' => shape c' /\ failure c' = None /\ same_control c c')
    (fun _ c' => broken c' /\ same_control c c') c.
Proof.
  intros Hsh Hn Ho. destruct (shape_broken c Hsh Hn) as [_ (l & Hl & Hch)].
  assert (Hprev : previous c = last_reading l).
  { destruct Hsh as (l' & tail & Hf & _ & Ht). rewrite Hn in Ht. destruct Ht as [-> Hp].
    rewrite app_nil_r in Hf. rewrite Hf in Hl. apply map_SampleLine_inj in Hl.
    by subst l'. }
  apply wp_bind. eapply wp_mono; [| |apply read_wp].
  2:{ intros e c1 ->. split; [|done]. split; [done|by exists l]. }
  intros r c1 ->. apply wp_bind. unfold wp at 1, get. apply wp_bind. unfold wp at 1, lift.
  cbn [previous c_phases set_reads].
  destruct (build_sample r (previous c) _) as [s|e] eqn:Hb.
  2:{ split; [|done]. split; [done|by exists l]. }
  destruct (build_sample_fields _ _ _ _ Hb) as [Hr Hph].
  assert (Hch' : chained None (l ++ [s])).
  { apply chained_snoc; [done|]. rewrite Hr, Hph, <- Hprev.
    cbn in Hb. by destruct (previous c). }
  apply wp_bind. unfold wp at 1, modify. cbn [output set_previous set_reads].
  rewrite Ho. cbn [when]. set (c2 := set_previous _ _). apply wp_bind.
  eapply wp_mono; [| |apply (write_wp (SampleLine s) c2)].
  2:{ intros e c3 (Hf & Hsame & Hfail & _). split; [|exact Hsame].
      split; [by rewrite Hfail|]. exists l. by rewrite Hf. }
  intros _ c3 (Hf & (Ht3 & Hs3 & Ho3) & Hfail & Hp3).
  eapply wp_mono; [| |apply call_file_wp].
  - intros _ c4 (Hf4 & (Ht4 & Hs4 & Ho4) & Hfail4 & Hp4). split_and!.
    + exists (l ++ [s]), []. rewrite Hfail4, Hfail. cbn [failure c2 set_previous set_reads].
      rewrite Hn. split_and!; [|done|done|].
      * rewrite Hf4, Hf. cbn. by rewrite Hl, map_app, app_nil_r.
      * rewrite Hp4, Hp3. unfold last_reading. rewrite last_snoc. cbn. by rewrite Hr.
    + by rewrite Hfail4, Hfail.
    + unfold same_control. by rewrite Ht4, Hs4, Ho4.
  - intros e c4 (Hf4 & (Ht4 & Hs4 & Ho4) & Hfail4 & Hp4). split.
    + split; [by rewrite Hfail4, Hfail|]. exists (l ++ [s]). split; [|done].
      rewrite Hf4, Hf. cbn. by rewrite Hl, map_app.
    + unfold same_control. by rewrite Ht4, Hs4, Ho4.
Qed.

(** Recording a failure keeps the shape; the first failure stays. *)
Lemma record_failure_wp e c :
  broken c ->
  wp (record_failure e)
    (fun f c' => shape c' /\ same_control c c' /\ failure c' = Some f)
    (fun _ c' => shape c' /\ same_control c c' /\ is_Some (failure c')) c.
Proof.
  intros [Hn (l & Hl & Hch)]. unfold record_failure. apply wp_bind. unfold wp at 1, get.
  rewrite Hn. set (f := mk_failure _ _). apply wp_bind. unfold wp at 1, modify.
  apply wp_bind. unfold wp at 1, get.
  set (c1 := set_failure (Some f) c). cbn [output c1 set_failure].
  assert (Hend : forall c2 tail, file c2 = file c ++ tail -> failure c2 = Some f ->
    (tail = [] \/ exists t, tail = [TerminalLine t f]) -> shape c2).
  { intros c2 tail Hf Hfail Ht. exists l, tail. rewrite Hfail. split_and!; [|done|done].
    by rewrite Hf, Hl. }
  assert (Hrep : wp (when (output c) (reporting "Coordinator metrics terminal write failed: "
        (write (TerminalLine (time_time (file_calls c1)) f);; flush)))
      (fun _ c2 => shape c2 /\ same_control c c2 /\ failure c2 = Some f)
      (fun _ c2 => shape c2 /\ same_control c c2 /\ failure c2 = Some f) c1).
  { destruct (output c); cbn [when].
    2:{ apply wp_ret. split_and!; [|done|done]. apply (Hend c1 []); [by rewrite app_nil_r|done|by left]. }
    set (t := time_time _).
    assert (Hwf : wp (write (TerminalLine t f);; flush)
      (fun _ c2 => shape c2 /\ same_control c c2 /\ failure c2 = Some f)
      (fun _ c2 => shape c2 /\ same_control c c2 /\ failure c2 = Some f) c1).
    { apply wp_bind. eapply wp_mono; [| |apply (write_wp (TerminalLine t f) c1)].
      - intros _ c2 (Hf2 & (Ht2 & Hs2 & Ho2) & Hfail2 & _).
        assert (Hsh : forall c3, file c3 = file c2 -> failure c3 = failure c2 -> shape c3).
        { intros c3 Hf3 Hfail3. apply (Hend c3 [TerminalLine t f]).
          - by rewrite Hf3, Hf2.
          - by rewrite Hfail3, Hfail2.
          - right. by exists t. }
        eapply wp_mono; [| |apply call_file_wp];
          intros ? c3 (Hf3 & (Ht3 & Hs3 & Ho3) & Hfail3 & _);
          (split_and!; [by apply Hsh| |by rewrite Hfail3, Hfail2]);
          unfold same_control; by rewrite Ht3, Hs3, Ho3, Ht2, Hs2, Ho2.
      - intros ? c2 (Hf2 & Hsame & Hfail2 & _). split_and!; [|exact Hsame|by rewrite Hfail2].
        apply (Hend c2 []); [by rewrite app_nil_r, Hf2|by rewrite Hfail2|by left]. }
    unfold wp, reporting, try_except in *.
    destruct ((write (TerminalLine t f);; flush) c1) as [[[]|e2] c2]; [exact Hwf|].
    destruct Hwf as (Hsh & Hsame & Hfail). by destruct e2. }
  apply wp_bind. eapply wp_mono; [| |exact Hrep].
  - intros _ c2 (Hsh & Hsame & Hfail). apply wp_bind. unfold wp at 1, eprint, modify.
    by apply wp_ret.
  - intros e2 c2 (Hsh & Hsame & Hfail). split_and!; [done|done|by rewrite Hfail].
Qed.

Lemma reporting_quiet prefix m c :
  wp m (fun _ c' => shape c' /\ same_control c c' /\ failure c' = failure c)
       (fun _ c' => shape c' /\ same_control c c' /\ failure c' = failure c) c ->
  wp (reporting prefix m)
       (fun _ c' => shape c' /\ same_control c c' /\ failure c' = failure c)
       (fun _ c' => shape c' /\ same_control c c' /\ failure c' = failure c) c.
Proof.
  unfold wp, reporting, try_except. destruct (m c) as [[[]|e] c1]; [done|].
  intros (? & ? & ?). by destruct e.
Qed.

Lemma shape_frame c c' :
  shape c -> file c' = file c -> failure c' = failure c -> previous c' = previous c -> shape c'.
Proof.
  intros (l & tail & Hf & Hc & Ht) H1 H2 H3. exists l, tail. by rewrite H1, H2, H3.
Qed.

Lemma call_file_shape c :
  shape c ->
  wp call_file (fun _ c' => shape c' /\ same_control c c' /\ failure c' = failure c)
       (fun _ c' => shape c' /\ same_control c c' /\ failure c' = failure c) c.
Proof.
  intros Hsh. eapply wp_mono; [| |apply call_file_wp];
    intros ? c1 (Hf & Hs & Hfail & Hp); (split_and!; [by eapply shape_frame|done|done]).
Qed.

Lemma close_output_wp c :
  shape c ->
  let post := fun (c' : collector) => shape c' /\ thread c' = thread c /\
    stop_event c' = stop_event c /\ output c' = false /\ failure c' = failure c in
  wp close_output (fun _ => post) (fun _ => post) c.
Proof.
  intros Hsh post. unfold close_output. apply wp_bind. unfold wp at 1, get.
  apply wp_bind. unfold wp at 1, modify. set (c1 := set_output false c).
  assert (H1 : shape c1) by by apply (shape_frame c).
  destruct (output c); cbn [when]; [|by apply wp_ret].
  apply wp_bind. eapply wp_mono; [| |apply reporting_quiet, call_file_shape, H1].
  - intros _ c2 (Hsh2 & (Ht2 & Hs2 & Ho2) & Hf2).
    eapply wp_mono; [| |apply reporting_quiet, call_file_shape, Hsh2];
      intros ? c3 (Hsh3 & (Ht3 & Hs3 & Ho3) & Hf3); unfold post;
      by rewrite Ht3, Hs3, Ho3, Hf3, Ht2, Hs2, Ho2, Hf2.
  - intros e c2 (Hsh2 & (Ht2 & Hs2 & Ho2) & Hf2). unfold post.
    by rewrite Ht2, Hs2, Ho2, Hf2.
Qed.

(** ** The invariant of a started collector *)

Definition collector_ok c : Prop := shape c /\ thread_ok c.

Lemma run_turn_ok c :
  collector_ok c -> thread c = true -> stop_event c = false ->
  collector_ok (snd (run_turn c)).
Proof.
  intros [Hsh Hth] Ht Hs. destruct (Hth Ht) as [Ho Hf]. specialize (Hf Hs).
  unfold run_turn, try_except. pose proof (sample_once_wp c Hsh Hf Ho) as Hw. unfold wp in Hw.
  destruct (sample_once c) as [[[]|e] c1].
  - destruct Hw as (Hsh1 & Hf1 & Ht1 & Hs1 & Ho1). split; [done|].
    intros _. cbn [snd]. by rewrite Ho1.
  - destruct Hw as (Hbr & _). pose proof (record_failure_wp e c1 Hbr) as Hr. unfold wp in Hr.
    unfold try_finally, mbind, M_bind, modify.
    destruct (record_failure e c1) as [[f|e2] c2]; cbn;
      (split; [by apply (shape_frame c2); [apply Hr|..]|by intros ?]).
Qed.

Lemma stop_ok c : collector_ok c -> collector_ok (snd (stop c)).
Proof.
  intros [Hsh Hth]. unfold stop, mbind at 1, M_bind at 1, get at 1.
  destruct (output c) eqn:Ho; cbn [when]; [|done].
  unfold mbind at 1, M_bind at 1, modify at 1.
  set (c1 := set_thread false (set_stop_event true c)).
  assert (H1 : shape c1) by by apply (shape_frame c).
  assert (Hsam : let '(_, c2) := when (match failure c1 with None => true | Some _ => false end)
        (try_except sample_once (fun e => Some (f ← record_failure e; mret tt))) c1 in
      shape c2 /\ thread c2 = false).
  { destruct (failure c1) as [f|] eqn:Hf1; cbn [when].
    - by split.
    - unfold try_except. pose proof (sample_once_wp c1 H1 Hf1 Ho) as Hw. unfold wp in Hw.
      destruct (sample_once c1) as [[[]|e] c2].
      + destruct Hw as (Hsh2 & _ & Ht2 & _). by split.
      + destruct Hw as (Hbr & Ht2 & _). pose proof (record_failure_wp e c2 Hbr) as Hr.
        unfold wp in Hr. unfold mbind, M_bind.
        destruct (record_failure e c2) as [[f|e2] c3]; cbn;
          destruct Hr as (Hsh3 & (Ht3 & _) & _); (split; [done|by rewrite Ht3, Ht2]). }
  unfold mbind at 1, M_bind at 1, get at 1. unfold mbind at 1, M_bind at 1.
  destruct (when _ _ c1) as [[[]|e] c2]; destruct Hsam as [Hsh2 Ht2].
  - pose proof (close_output_wp c2 Hsh2) as Hcl. unfold wp in Hcl.
    unfold mbind at 1, M_bind at 1.
    destruct (close_output c2) as [[[]|e] c3]; destruct Hcl as (Hsh3 & Ht3 & _).
    + split; [by apply (shape_frame c3)|by intros ?].
    + split; [done|]. intros Ht. cbn in Ht. congruence.
  - split; [done|]. intros Ht. cbn in Ht. congruence.
Qed.

Lemma collector_step_ok c c' : collector_step c c' -> collector_ok c -> collector_ok c'.
Proof.
  destruct 1 as [name d t c|c Ht Hs|c]; intros Hok.
  - destruct Hok as [Hsh Hth]. split; [by apply (shape_frame c)|exact Hth].
  - by apply run_turn_ok.
  - by apply stop_ok.
Qed.

Lemma start_ok cfg recorder c :
  start (new_collector cfg recorder) = (Ret tt, c) -> collector_ok c /\ failure c = None.
Proof.
  unfold start, mbind, M_bind, get, lift, modify.
  destruct (mkdir_parents _); [|done]. destruct (open_output _); [|done].
  set (c1 := set_file [] _). assert (H1 : shape c1).
  { exists [], []. by split_and!. }
  unfold try_except. destruct prime as [[]|e].
  - pose proof (sample_once_wp c1 H1 eq_refl eq_refl) as Hw. unfold wp in Hw.
    destruct (sample_once c1) as [[[]|e] c2].
    + destruct Hw as (Hsh & Hf & _ & _ & Ho). intros [= <-]. split; [|done].
      split; [by apply (shape_frame c2)|]. intros _. cbn. rewrite Ho. by split.
    + destruct (record_failure e c2) as [[f|e2] c3]; [|done].
      by destruct (close_output c3) as [[[]|e2] c4].
  - destruct (record_failure e c1) as [[f|e2] c3]; [|done].
    by destruct (close_output c3) as [[[]|e2] c4].
Qed.

Lemma collector_steps_ok c c' : rtc collector_step c c' -> collector_ok c -> collector_ok c'.
Proof. induction 1; eauto using collector_step_ok. Qed.

(** C8: the metrics file of a started collector, at every moment and under every
    interleaving with the training code, holds samples whose rates are taken
    against the reading of the sample just before, followed by at most one
    terminal line, which only a recorded failure writes and which is always the
    last one. *)
Theorem metrics_file_shape cfg recorder c0 c
    (Hstart : start (new_collector cfg recorder) = (Ret tt, c0))
    (Hsteps : rtc collector_step c0 c) :
  exists l tail, file c = map SampleLine l ++ tail /\ chained None l /\
    match failure c with
    | None => tail = []
    | Some f => tail = [] \/ exists t, tail = [TerminalLine t f]
    end.
Proof.
  destruct (start_ok _ _ _ Hstart) as [Hok _].
  destruct (collector_steps_ok _ _ Hsteps Hok) as [(l & tail & Hf & Hc & Ht) _].
  exists l, tail. split_and!; [done|done|]. destruct (failure c); [done|]. by destruct Ht.
Qed.

(** After a failure nothing is sampled any more. *)
Lemma stop_failed f c :
  failure c = Some f -> failure (snd (stop c)) = Some f /\ file (snd (stop c)) = file c.
Proof.
  intros Hf. unfold stop, close_output, mbind, M_bind, modify, get.
  destruct (output c) eqn:Ho; cbn [when]; [|done].
  cbn [failure set_thread set_stop_event]. rewrite Hf. cbn [when]. unfold mret, M_ret.
  cbn [output set_thread set_stop_event]. rewrite Ho. cbn [when].
  unfold reporting, try_except, flush, call_file, eprint, modify, mbind, M_bind. cbn.
  destruct (file_call (file_calls c)) as [[]|[]]; cbn; try done;
    destruct (file_call (S (file_calls c))) as [[]|[]]; done.
Qed.

(** The first failure is final: whatever is called afterwards, the collector
    keeps reporting it and the file never changes again. *)
Theorem metrics_failure_final cfg recorder c0 c f c'
    (Hstart : start (new_collector cfg recorder) = (Ret tt, c0))
    (Hsteps : rtc collector_step c0 c) (Hf : failure c = Some f)
    (Hmore : rtc collector_step c c') :
  failure c' = Some f /\ file c' = file c.
Proof.
  destruct (start_ok _ _ _ Hstart) as [Hok0 _].
  pose proof (collector_steps_ok _ _ Hsteps Hok0) as Hok. clear Hstart Hsteps Hok0.
  induction Hmore as [c|c c1 c2 H12 Hmore IH]; [done|].
  assert (H1 : failure c1 = Some f /\ file c1 = file c).
  { destruct H12 as [name d t c|c Ht Hs|c]; [done| |by apply stop_failed].
    destruct Hok as [_ Hth]. destruct (Hth Ht) as [_ Hno]. rewrite Hno in Hf; done. }
  destruct H1 as [Hf1 Hfile1]. rewrite <- Hfile1.
  apply IH; [done|]. by eapply collector_step_ok.
Qed.

(** A failure to create the metrics directory or to open the metrics file
    escapes from [start_metrics_collector] to the training code; only failures
    after that are turned into [None]. *)
Theorem metrics_setup_failure_escapes cfg recorder e
    (Hsetup : mkdir_parents (output_path cfg) = Raise e \/
       (mkdir_parents (output_path cfg) = Ret tt /\ open_output (output_path cfg) = Raise e))
    (He : match e with MetricsCollectionError _ _ => False | _ => True end) :
  start_metrics_collector cfg recorder = Raise e.
Proof.
  unfold start_metrics_collector, start, new_collector, mbind, M_bind, get, lift.
  cbn [config output_path].
  destruct Hsetup as [->|[-> ->]]; by destruct e.
Qed.

End collector.

(** ** A host whose second reading fails *)
Definition demo_host : MetricsHost := {|
  mkdir_parents := fun _ => Ret tt;
  open_output := fun p => if String.eqb (name p) "full.jsonl"
                          then Raise (OSError "No space left on device") else Ret tt;
  prime := Ret tt;
  read_raw := fun n =>
    match n with
    | 2%nat => Raise (RuntimeError "process gone")
    | _ => Ret (mk_raw [("eth0"%string, mk_NicCounters (100 * Z.of_nat n) 7)]
                  (f_of_Z (Z.of_nat n)) (f_of_Z (Z.of_nat n)) fzero 4096)
    end;
  file_call := fun _ => Ret tt;
  time_time := fun n => f_of_Z (Z.of_nat n);
|}.

Definition demo_cfg : MetricsConfig :=
  mk_config (mk_path "" ["out"; "m.jsonl"]%string) (f_of_Z 1) None.

Definition demo_started : collector := snd (start (host := demo_host) (new_collector demo_cfg None)).
Definition demo_turn (c : collector) : collector := snd (run_turn (host := demo_host) c).

Lemma demo_started_eq :
  start (host := demo_host) (new_collector demo_cfg None) = (Ret tt, demo_started).
Proof. vm_compute. reflexivity. Qed.

Lemma demo_two_turns :
  rtc (collector_step (host := demo_host)) demo_started (demo_turn (demo_turn demo_started)).
Proof.
  eapply rtc_l; [apply (step_turn (host := demo_host)); vm_compute; reflexivity|].
  apply rtc_once. apply (step_turn (host := demo_host)); vm_compute; reflexivity.
Qed.

Lemma metrics_file_shape_witness :
  let c := demo_turn (demo_turn demo_started) in
  length (file c) = 3%nat /\ failure c = Some (mk_failure "RuntimeError" "process gone") /\
  exists l tail, file c = map SampleLine l ++ tail /\ chained None l.
Proof.
  intros c. split; [vm_compute; reflexivity|]. split; [vm_compute; reflexivity|].
  destruct (metrics_file_shape (host := demo_host) demo_cfg None _ c demo_started_eq
    demo_two_turns) as (l & tail & Hf & Hc & _).
  exists l, tail. split; [exact Hf|exact Hc].
Defined.

Lemma metrics_failure_final_witness :
  let c := demo_turn (demo_turn demo_started) in
  failure c = Some (mk_failure "RuntimeError" "process gone") /\
  file (snd (stop (host := demo_host) c)) = file c.
Proof.
  intros c. split; [vm_compute; reflexivity|].
  eapply (metrics_failure_final (host := demo_host) demo_cfg None _ c);
    [exact demo_started_eq|exact demo_two_turns|vm_compute; reflexivity|].
  apply rtc_once. apply (step_stop (host := demo_host)).
Defined.

Lemma metrics_setup_failure_escapes_witness :
  start_metrics_collector (host := demo_host)
    (mk_config (mk_path "" ["full.jsonl"%string]) (f_of_Z 1) None) new_recorder
  = Raise (OSError "No space left on device").
Proof.
  apply (metrics_setup_failure_escapes (host := demo_host)); [|exact I].
  right. split; reflexivity.
Defined.

End Collector.

Lemma rates_never_negative_witness :
  let r n t := Models.mk_reading fzero (f_of_Z t) fzero 0 (Models.mk_NicCounters n 0) [] in
  exists s, Models.build_sample (r 100 3) (Some (r 400 1)) Models.empty = Ret s /\
    pos_sign (Models.nic_tx_bytes_per_sec s) = true.
Proof.
  intros r. eexists. split; [vm_compute; reflexivity|].
  refine (proj1 (Models.rates_never_negative (r 100 3) (Some (r 400 1)) Models.empty _ _ _)).
  - intros p [= <-]. vm_compute. reflexivity.
  - vm_compute. reflexivity.
Defined.

Lemma nic_aggregation_correct_witness :
  exists sel, Models.aggregate_nic_counters
    [("lo", Models.mk_NicCounters 1 2); ("eth0", Models.mk_NicCounters 10 20)]%string None
    = Ret sel /\ Models.selected_names sel = ["eth0"; "lo"]%string /\
    NoDup (Models.selected_names sel).
Proof.
  set (cs := [("lo", Models.mk_NicCounters 1 2); ("eth0", Models.mk_NicCounters 10 20)]%string).
  eexists. split; [vm_compute; reflexivity|]. split; [reflexivity|].
  assert (Hwf : dict_wf cs).
  { unfold dict_wf. cbn. apply NoDup_cons. split; [|apply NoDup_singleton].
    intros H. apply list_elem_of_singleton in H. discriminate H. }
  pose proof (Models.nic_aggregation_correct cs None Hwf) as H. vm_compute in H. apply H.
Defined.

Lemma metrics_paths_disjoint_witness :
  let d := Cli.mk_path "" ["runs"; "a.jsonl"]%string in
  Cli.metrics_output_path d (Some 1) = Ret (Cli.mk_path "" ["runs"; "a-rank-1.jsonl"]%string) /\
  Cli.mk_path "" ["runs"; "a-rank-1.jsonl"]%string <> Cli.mk_path "" ["runs"; "a-rank-12.jsonl"]%string.
Proof.
  intros d. split; [reflexivity|].
  apply (proj1 (Cli.metrics_paths_disjoint d 1 12 _ _ eq_refl eq_refl)). discriminate.
Defined.
