(* ===== verification/VTimeSync.v ===== *)
(** * Virtual-time synchronisation ([scripts/sync_virtual_time.py])

    The script reads a merged performance log, shifts every device's virtual times
    so that all devices start the computation of a GEMM together, normalises them
    to start from zero and writes the log back.  Files are strings; what the
    script prints on the way is [print_statistics]' lines only. *)

From Stdlib Require Import Ascii.
From S2P Require Import Prelude PyDict PyStr PyFloat.

Record VTEvent : Type := mk_VTEvent {
  v_line : string;
  v_timestamp_us : Z;
  v_device_id : Z;
  v_gemm_id : Z;
  phase : string;
  event : string;
  vt_start_us : Z;
  vt_end_us : Z;
  vt_duration_us : Z;
}.

Record ThroughputEvent : Type := mk_ThroughputEvent {
  t_line : string;
  t_timestamp_us : Z;
  t_device_id : Z;
  t_gemm_id : Z;
  direction : string;
  bytes : Z;
  throughput_b_s : float;
  epoch_start_us : Z;
  epoch_end_us : Z;
  packet_duration_us : Z;
}.

(** [parse_vtime_event]: every [ValueError] of [int] ends in [None]; fields
    after the ninth are ignored. *)
Definition parse_vtime_event (line : string) : option VTEvent :=
  if startswith "VTIME," line then
    match split_on "," (strip line) with
    | _ :: ts :: dev :: gemm :: ph :: ev :: st :: en :: dur :: _ =>
        ts ← int_of_str ts; dev ← int_of_str dev; gemm ← int_of_str gemm;
        st ← int_of_str st; en ← int_of_str en; dur ← int_of_str dur;
        Some (mk_VTEvent line ts dev gemm ph ev st en dur)
    | _ => None
    end
  else None.

(** [parse_throughput_event]: [line[0]] is evaluated outside the [try]. *)
Definition parse_throughput_event (line : string) : outcome (option ThroughputEvent) :=
  if startswith "VTIME," line || startswith "#" line then Ret None
  else
    match line with
    | EmptyString => Raise (IndexError "string index out of range")
    | String c _ =>
        if negb (is_digit c) then Ret None
        else
          Ret match split_on "," (strip line) with
              | ts :: dev :: gemm :: dir :: by_ :: thr :: st :: en :: dur :: _ =>
                  ts ← int_of_str ts; dev ← int_of_str dev; gemm ← int_of_str gemm;
                  by_ ← int_of_str by_; thr ← float_of_str thr;
                  st ← int_of_str st; en ← int_of_str en; dur ← int_of_str dur;
                  Some (mk_ThroughputEvent line ts dev gemm dir by_ thr st en dur)
              | _ => None
              end
    end.

Record log : Type := mk_log {
  vtime_events : list VTEvent;
  throughput_events : list ThroughputEvent;
  other_lines : list string;
}.

Definition read_line (l : log) (line : string) : outcome log :=
  match parse_vtime_event line with
  | Some e => Ret (mk_log (vtime_events l ++ [e]) (throughput_events l) (other_lines l))
  | None =>
      t ← parse_throughput_event line;
      match t with
      | Some t => Ret (mk_log (vtime_events l) (throughput_events l ++ [t]) (other_lines l))
      | None => Ret (mk_log (vtime_events l) (throughput_events l) (other_lines l ++ [line]))
      end
  end.

Fixpoint read_lines (l : log) (lines : list string) : outcome log :=
  match lines with
  | [] => Ret l
  | line :: lines => l ← read_line l line; read_lines l lines
  end.

Definition read_log (text : string) : outcome log :=
  read_lines (mk_log [] [] []) (file_lines text).

(** A dictionary of dictionaries, [defaultdict(dict)] *)
Definition nested : Type := list (Z * list (Z * Z)).

(** [d[g][k] = v] *)
Definition set_nested (g k v : Z) (d : nested) : nested :=
  dict_alter (fun inner => dict_set k v (default [] inner)) g d.

(** [d.get(g, {}).get(k, 0)] *)
Definition get_nested (g k : Z) (d : nested) : Z :=
  dict_get_default k 0 (dict_get_default g [] d).

Definition is_compute_start (e : VTEvent) : bool :=
  String.eqb (phase e) "COMPUTE" && String.eqb (event e) "START".

Definition find_compute_start_times (events : list VTEvent) : nested :=
  foldl (fun d e => if is_compute_start e
                    then set_nested (v_gemm_id e) (v_device_id e) (vt_start_us e) d else d)
    [] events.

(** The baseline of one GEMM *)
Definition baseline (method : string) (device_times : list (Z * Z)) : outcome Z :=
  if String.eqb method "earliest" then
    of_option (ValueError "min() arg is an empty sequence") (min_list (dict_values device_times))
  else if String.eqb method "latest" then
    of_option (ValueError "max() arg is an empty sequence") (max_list (dict_values device_times))
  else Raise (ValueError ("Unknown method: " +:+ method)).

(** One turn of the loop of [calculate_offsets] *)
Definition offsets_of_gemm (method : string) (offsets : nested) (gemm : Z * list (Z * Z)) :
    outcome nested :=
  match gemm.2 with
  | [] => Ret offsets
  | _ =>
      base ← baseline method gemm.2;
      Ret (foldl (fun offsets dt => set_nested gemm.1 dt.1 (base - dt.2) offsets)
             offsets gemm.2)
  end.

Fixpoint offsets_loop (method : string) (offsets : nested) (gemms : nested) : outcome nested :=
  match gemms with
  | [] => Ret offsets
  | gemm :: gemms =>
      offsets ← offsets_of_gemm method offsets gemm; offsets_loop method offsets gemms
  end.

Definition calculate_offsets (compute_starts : nested) (method : string) : outcome nested :=
  offsets_loop method [] compute_starts.

(** ** [apply_offsets] *)

Definition adjust_vtime (offsets : nested) (e : VTEvent) : VTEvent :=
  let offset := get_nested (v_gemm_id e) (v_device_id e) offsets in
  mk_VTEvent (v_line e) (v_timestamp_us e) (v_device_id e) (v_gemm_id e) (phase e) (event e)
    (vt_start_us e + offset) (vt_end_us e + offset) (vt_duration_us e).

(** An epoch time is shifted when it is valid, that is, positive. *)
Definition shift_valid (t offset : Z) : Z := if 0 <? t then t + offset else t.

Definition adjust_throughput (offsets : nested) (e : ThroughputEvent) : ThroughputEvent :=
  let offset := get_nested (t_gemm_id e) (t_device_id e) offsets in
  mk_ThroughputEvent (t_line e) (t_timestamp_us e) (t_device_id e) (t_gemm_id e) (direction e)
    (bytes e) (throughput_b_s e) (shift_valid (epoch_start_us e) offset)
    (shift_valid (epoch_end_us e) offset) (packet_duration_us e).

(** [min_vt], [None] while it is still [float("inf")] *)
Definition min_step (m : option Z) (t : Z) : option Z :=
  if 0 <? t then Some (match m with Some x => Z.min x t | None => t end) else m.

Definition min_virtual_time (vs : list VTEvent) (ts : list ThroughputEvent) : Z :=
  default 0 (foldl min_step (foldl min_step None (map vt_start_us vs)) (map epoch_start_us ts)).

Definition render_vtime (e : VTEvent) : string :=
  join "," ["VTIME"; str_of_Z (v_timestamp_us e); str_of_Z (v_device_id e);
    str_of_Z (v_gemm_id e); phase e; event e; str_of_Z (vt_start_us e);
    str_of_Z (vt_end_us e); str_of_Z (vt_duration_us e)]%string.

Definition render_throughput (e : ThroughputEvent) : string :=
  join "," [str_of_Z (t_timestamp_us e); str_of_Z (t_device_id e); str_of_Z (t_gemm_id e);
    direction e; str_of_Z (bytes e); fmt_fixed 2 (throughput_b_s e);
    str_of_Z (epoch_start_us e); str_of_Z (epoch_end_us e);
    str_of_Z (packet_duration_us e)]%string.

Definition normalize_vtime (m : Z) (e : VTEvent) : VTEvent :=
  mk_VTEvent (v_line e) (v_timestamp_us e) (v_device_id e) (v_gemm_id e) (phase e) (event e)
    (vt_start_us e - m) (vt_end_us e - m) (vt_duration_us e).

Definition normalize_throughput (m : Z) (e : ThroughputEvent) : ThroughputEvent :=
  mk_ThroughputEvent (t_line e) (t_timestamp_us e) (t_device_id e) (t_gemm_id e) (direction e)
    (bytes e) (throughput_b_s e) (shift_valid (epoch_start_us e) (- m))
    (shift_valid (epoch_end_us e) (- m)) (packet_duration_us e).

(** The events behind the lines [apply_offsets] returns *)
Definition synced_vtime (l : log) (offsets : nested) : list VTEvent :=
  let vs := map (adjust_vtime offsets) (vtime_events l) in
  let ts := map (adjust_throughput offsets) (throughput_events l) in
  map (normalize_vtime (min_virtual_time vs ts)) vs.

Definition synced_throughput (l : log) (offsets : nested) : list ThroughputEvent :=
  let vs := map (adjust_vtime offsets) (vtime_events l) in
  let ts := map (adjust_throughput offsets) (throughput_events l) in
  map (normalize_throughput (min_virtual_time vs ts)) ts.

Definition apply_offsets (l : log) (offsets : nested) : list string * list string :=
  (map render_vtime (synced_vtime l offsets),
   map render_throughput (synced_throughput l offsets)).

(** ** [write_synchronized_log] *)

(** A line with its sort key; a line whose timestamp is not a number raises. *)
Definition keyed (field : nat) (line : string) : outcome ((Z * Z) * string) :=
  part ← of_option (IndexError "list index out of range") (split_on "," line !! field);
  ts ← of_option (ValueError "invalid literal for int()") (int_of_str part);
  Ret ((ts, 1), line).

Definition key_le (x y : (Z * Z) * string) : bool :=
  (x.1.1 <? y.1.1) || ((x.1.1 =? y.1.1) && (x.1.2 <=? y.1.2)).

Definition write_synchronized_log (other vlines tlines : list string) : outcome string :=
  vs ← mapO (keyed 1) vlines;
  ts ← mapO (keyed 0) tlines;
  let all_events := map (fun line => ((0, 0), line)) other ++ vs ++ ts in
  Ret (String.concat "" (map (fun e => e.2 +:+ nl) (sort_by key_le all_events))).

(** [main] between reading and writing the files *)
Definition synchronize (text method : string) : outcome string :=
  l ← read_log text;
  offsets ← calculate_offsets (find_compute_start_times (vtime_events l)) method;
  let '(vlines, tlines) := apply_offsets l offsets in
  write_synchronized_log (other_lines l) vlines tlines.

(** ** [print_statistics]: the numbers it prints *)

Record statistics : Type := mk_statistics {
  n_vtime : nat;
  n_throughput : nat;
  n_gemms : nat;
  gemms_per_device : list (Z * nat);
  total_adjusted : nat;
  offset_range : option (Z * Z);
}.

Definition gemm_counts (events : list VTEvent) : list (Z * gset Z) :=
  foldl (fun d e => if is_compute_start e
                    then dict_alter (fun s => {[v_gemm_id e]} ∪ default ∅ s) (v_device_id e) d
                    else d) [] events.

Definition print_statistics (l : log) (offsets : nested) : statistics :=
  let counts := gemm_counts (vtime_events l) in
  let all_offsets := concat (map (fun g => dict_values g.2) offsets) in
  mk_statistics (length (vtime_events l)) (length (throughput_events l)) (length offsets)
    (map (fun d => (d, size (default ∅ (dict_get d counts)))) (sort_by Z.leb (dict_keys counts)))
    (length (filter (fun o => o <> 0) all_offsets))
    (match min_list all_offsets, max_list all_offsets with
     | Some lo, Some hi => Some (lo, hi)
     | _, _ => None
     end).

(** ** Nested dictionaries *)

Definition lookup2 (g k : Z) (d : nested) : option Z := dict_get g d ≫= dict_get k.

Lemma lookup2_set g k g' k' v d :
  lookup2 g k (set_nested g' k' v d) =
  if decide (g = g' /\ k = k') then Some v else lookup2 g k d.
Proof.
  unfold lookup2, set_nested. rewrite dict_get_alter.
  destruct (decide (g = g')) as [->|Hg]; cbn.
  - rewrite dict_get_set. destruct (decide (k = k')) as [->|Hk].
    + by rewrite decide_True.
    + rewrite decide_False by naive_solver. by destruct (dict_get g' d).
  - by rewrite decide_False by naive_solver.
Qed.

Lemma get_nested_lookup g k d : get_nested g k d = default 0 (lookup2 g k d).
Proof. unfold get_nested, lookup2, dict_get_default. by destruct (dict_get g d). Qed.

(** Inner and outer keys are distinct, and no inner dictionary is empty. *)
Definition nested_wf (d : nested) : Prop :=
  dict_wf d /\ forall g inner, dict_get g d = Some inner -> dict_wf inner /\ inner <> [].

Lemma nested_wf_nil : nested_wf [].
Proof. split; [apply dict_wf_nil|done]. Qed.

Lemma nested_wf_set g k v d : nested_wf d -> nested_wf (set_nested g k v d).
Proof.
  intros [Hd Hi]. split; [by apply dict_wf_alter|]. intros g' inner.
  unfold set_nested. rewrite dict_get_alter. destruct (decide (g' = g)) as [->|Hne]; [|by apply Hi].
  intros [= <-]. split.
  - apply dict_wf_set. destruct (dict_get g d) as [i|] eqn:Hg; [by eapply Hi|apply dict_wf_nil].
  - by destruct (default [] (dict_get g d)) as [|[] ?]; cbn; [|case_decide].
Qed.

(** ** Compute starts and offsets *)

Definition starts_of (g k : Z) (events : list VTEvent) : list VTEvent :=
  filter (fun e => is_compute_start e = true /\ v_gemm_id e = g /\ v_device_id e = k) events.

Lemma find_compute_start_times_spec events :
  nested_wf (find_compute_start_times events) /\
  forall g k, lookup2 g k (find_compute_start_times events) =
              vt_start_us <$> last (starts_of g k events).
Proof.
  induction events as [|e events [Hwf IH]] using rev_ind; [by split; [apply nested_wf_nil|]|].
  unfold find_compute_start_times, starts_of in *. rewrite foldl_app. cbn [foldl].
  destruct (is_compute_start e) eqn:He.
  - split; [by apply nested_wf_set|]. intros g k. rewrite lookup2_set, IH, filter_app.
    destruct (decide (g = v_gemm_id e /\ k = v_device_id e)) as [[-> ->]|Hne].
    + rewrite filter_cons_True by done. by rewrite filter_nil, last_snoc.
    + rewrite filter_cons_False by (intros (_ & ? & ?); by apply Hne).
      by rewrite filter_nil, app_nil_r.
  - split; [done|]. intros g k. rewrite IH, filter_app.
    rewrite filter_cons_False by (intros [? _]; congruence). by rewrite filter_nil, app_nil_r.
Qed.

Lemma inner_fold_spec g base dts offs g' k :
  NoDup dts.*1 ->
  lookup2 g' k (foldl (fun o dt => set_nested g dt.1 (base - dt.2) o) offs dts) =
  if decide (g' = g) then match dict_get k dts with
                          | Some t => Some (base - t)
                          | None => lookup2 g' k offs
                          end
  else lookup2 g' k offs.
Proof.
  revert offs. induction dts as [|[d t] dts IH]; intros offs Hnd; cbn [foldl dict_get].
  { by destruct (decide (g' = g)). }
  rewrite fmap_cons in Hnd. apply NoDup_cons in Hnd as [Hd Hnd]. cbn in Hd.
  rewrite IH by done. cbn [fst snd]. rewrite lookup2_set.
  destruct (decide (g' = g)) as [->|Hg].
  - destruct (decide (k = d)) as [->|Hk].
    + assert (dict_get d dts = None) as -> by by apply dict_get_None.
      by rewrite decide_True.
    + rewrite (decide_False (P := g = g /\ k = d)) by naive_solver. done.
  - by rewrite decide_False by naive_solver.
Qed.

Lemma offsets_loop_spec method gemms init offs :
  nested_wf gemms -> offsets_loop method init gemms = Ret offs ->
  forall g k, match dict_get g gemms with
    | Some dts => exists base, baseline method dts = Ret base /\
        lookup2 g k offs = match dict_get k dts with
                           | Some t => Some (base - t)
                           | None => lookup2 g k init
                           end
    | None => lookup2 g k offs = lookup2 g k init
    end.
Proof.
  revert init. induction gemms as [|[g0 dts0] gemms IH]; intros init Hwf Hoff g k.
  { cbn in *. by injection Hoff as ->. }
  destruct Hwf as [Hk Hi]. destruct (Hi g0 dts0) as [Hnd Hne]; [cbn; by rewrite decide_True|].
  assert (Hwf' : nested_wf gemms).
  { split; [by apply NoDup_cons in Hk as [_ ?]|]. intros g' inner Hg'. apply (Hi g'). cbn.
    rewrite decide_False; [done|]. intros ->. apply NoDup_cons in Hk as [Hn _].
    apply Hn. apply dict_get_is_Some. by eexists. }
  cbn [offsets_loop offsets_of_gemm] in Hoff. unfold mbind, outcome_bind in Hoff.
  unfold offsets_of_gemm in Hoff. cbn [fst snd] in Hoff.
  destruct dts0 as [|dt0 dts0]; [done|].
  unfold mbind, outcome_bind in Hoff.
  destruct (baseline method (dt0 :: dts0)) as [base|e] eqn:Hb; [|done].
  specialize (IH _ Hwf' Hoff g k). cbn [dict_get].
  destruct (decide (g = g0)) as [->|Hg].
  - assert (Hg0 : dict_get g0 gemms = None).
    { apply dict_get_None. by apply NoDup_cons in Hk as [? _]. }
    rewrite Hg0 in IH. exists base. split; [done|]. rewrite IH.
    rewrite inner_fold_spec by done. by rewrite decide_True.
  - destruct (dict_get g gemms) as [dts|] eqn:Hdts.
    + destruct IH as (base' & Hb' & Hl). exists base'. split; [done|]. rewrite Hl.
      rewrite inner_fold_spec by done. by rewrite decide_False.
    + rewrite IH, inner_fold_spec by done. by rewrite decide_False.
Qed.

(** The recorded start times of a GEMM on all its devices *)
Definition start_times (l : log) (g : Z) : list (Z * Z) :=
  dict_get_default g [] (find_compute_start_times (vtime_events l)).

Lemma offset_of_start l method offs g k t :
  calculate_offsets (find_compute_start_times (vtime_events l)) method = Ret offs ->
  lookup2 g k (find_compute_start_times (vtime_events l)) = Some t ->
  exists base, baseline method (start_times l g) = Ret base /\ get_nested g k offs = base - t.
Proof.
  intros Hoff Hl. destruct (find_compute_start_times_spec (vtime_events l)) as [Hwf _].
  pose proof (offsets_loop_spec _ _ _ _ Hwf Hoff g k) as Hs.
  unfold start_times, dict_get_default. unfold lookup2 in Hl.
  destruct (dict_get g (find_compute_start_times _)) as [dts|]; [|done]. cbn in *.
  destruct Hs as (base & Hb & Hs). exists base. split; [done|].
  rewrite get_nested_lookup, Hs, Hl. done.
Qed.

(** The recorded start of a GEMM on a device: that of the last [COMPUTE START]
    event in reading order.  The emulator logs one per partition. *)
Definition last_start (g k : Z) (events : list VTEvent) : option Z :=
  vt_start_us <$> last (starts_of g k events).

Lemma lookup_last_start g k events :
  lookup2 g k (find_compute_start_times events) = last_start g k events.
Proof. apply find_compute_start_times_spec. Qed.

(** The recorded starts of a GEMM are those of its devices. *)
Lemma start_times_elem l g t :
  t ∈ dict_values (start_times l g) <-> exists k, last_start g k (vtime_events l) = Some t.
Proof.
  destruct (find_compute_start_times_spec (vtime_events l)) as [[_ Hwf] _].
  setoid_rewrite <- lookup_last_start. unfold lookup2, start_times, dict_get_default, dict_values.
  destruct (dict_get g _) as [dts|] eqn:Hg; cbn [default from_option mbind option_bind].
  2:{ split; [by intros ?%not_elem_of_nil|by intros [k ?]]. }
  unfold id. rewrite list_elem_of_fmap. split.
  - intros ([k t'] & -> & Hin). exists k. apply dict_elem_get; [by apply (Hwf g)|done].
  - intros [k Hk]. exists (k, t). split; [done|]. by apply dict_get_Some_elem.
Qed.

(** ** What synchronising achieves *)

Lemma baseline_spec method dts base :
  baseline method dts = Ret base ->
  base ∈ dict_values dts /\
  ((method = "earliest"%string /\ forall t, t ∈ dict_values dts -> base <= t) \/
   (method = "latest"%string /\ forall t, t ∈ dict_values dts -> t <= base)).
Proof.
  unfold baseline. destruct (String.eqb method "earliest") eqn:He.
  - apply String.eqb_eq in He. destruct (min_list (dict_values dts)) as [m|] eqn:Hm; [|done].
    intros [= <-]. apply min_list_spec in Hm as [? ?]. auto.
  - destruct (String.eqb method "latest") eqn:Hl; [|done].
    apply String.eqb_eq in Hl. destruct (max_list (dict_values dts)) as [m|] eqn:Hm; [|done].
    intros [= <-]. apply max_list_spec in Hm as [? ?]. auto.
Qed.

Lemma synced_vtime_elem l offs e :
  e ∈ synced_vtime l offs ->
  exists e0 m, e0 ∈ vtime_events l /\ e = normalize_vtime m (adjust_vtime offs e0) /\
    m = min_virtual_time (map (adjust_vtime offs) (vtime_events l))
          (map (adjust_throughput offs) (throughput_events l)).
Proof.
  unfold synced_vtime. intros (e1 & -> & H)%list_elem_of_fmap.
  apply list_elem_of_fmap in H as (e0 & -> & H). by eexists _, _.
Qed.

Lemma last_fmap {A B} (f : A -> B) l : last (map f l) = f <$> last l.
Proof. apply fmap_last. Qed.

Lemma starts_of_map (f : VTEvent -> VTEvent) g k events :
  (forall e, is_compute_start (f e) = is_compute_start e /\ v_gemm_id (f e) = v_gemm_id e /\
             v_device_id (f e) = v_device_id e) ->
  starts_of g k (map f events) = map f (starts_of g k events).
Proof.
  intros Hf. unfold starts_of. induction events as [|e es IH]; [done|]. cbn [map].
  rewrite !filter_cons, IH. destruct (Hf e) as (-> & -> & ->).
  by destruct (decide (is_compute_start e = true /\ v_gemm_id e = g /\ v_device_id e = k)).
Qed.

Lemma adjusted_last_start l offs g k :
  last_start g k (map (adjust_vtime offs) (vtime_events l)) =
    (fun t => t + get_nested g k offs) <$> last_start g k (vtime_events l).
Proof.
  unfold last_start. rewrite starts_of_map by done. rewrite last_fmap.
  destruct (last (starts_of g k (vtime_events l))) as [e|] eqn:Hl; [|done].
  by apply last_Some_elem_of, list_elem_of_filter in Hl as ((_ & <- & <-) & _).
Qed.

(** The recorded start of a device, shifted by the offset of the device *)
Lemma synced_last_start l offs :
  exists m, forall g k, last_start g k (synced_vtime l offs) =
    (fun t => t + get_nested g k offs - m) <$> last_start g k (vtime_events l).
Proof.
  unfold synced_vtime. eexists. intros g k. unfold last_start at 1.
  rewrite starts_of_map by done. rewrite last_fmap.
  pose proof (adjusted_last_start l offs g k) as Ha. unfold last_start at 1 in Ha.
  destruct (last (starts_of g k (map _ _))) as [e|]; destruct (last_start g k (vtime_events l));
    try done. injection Ha as Ha. cbn. by rewrite Ha.
Qed.

Lemma adjusted_start l method offs g k t :
  calculate_offsets (find_compute_start_times (vtime_events l)) method = Ret offs ->
  last_start g k (vtime_events l) = Some t ->
  exists base, baseline method (start_times l g) = Ret base /\ t + get_nested g k offs = base.
Proof.
  intros Hoff Hl. rewrite <- lookup_last_start in Hl.
  destruct (offset_of_start l method offs _ _ _ Hoff Hl) as (base & Hb & Ho).
  exists base. split; [done|]. rewrite Ho. lia.
Qed.

Lemma synced_starts_equal l method offs g k1 k2 t1 t2 :
  calculate_offsets (find_compute_start_times (vtime_events l)) method = Ret offs ->
  last_start g k1 (synced_vtime l offs) = Some t1 ->
  last_start g k2 (synced_vtime l offs) = Some t2 -> t1 = t2.
Proof.
  intros Hoff. destruct (synced_last_start l offs) as [m Hm]. rewrite !Hm.
  destruct (last_start g k1 (vtime_events l)) as [u1|] eqn:H1; [|done].
  destruct (last_start g k2 (vtime_events l)) as [u2|] eqn:H2; [|done].
  destruct (adjusted_start l method offs g k1 u1 Hoff H1) as (b1 & Hb1 & Hs1).
  destruct (adjusted_start l method offs g k2 u2 Hoff H2) as (b2 & Hb2 & Hs2).
  rewrite Hb2 in Hb1. injection Hb1 as ->. cbn. intros [= <-] [= <-]. lia.
Qed.

(** [e'] is [e] moved by [d]: nothing else differs. *)
Definition shifted (d : Z) (e e' : VTEvent) : Prop :=
  e' = mk_VTEvent (v_line e) (v_timestamp_us e) (v_device_id e) (v_gemm_id e) (phase e) (event e)
         (vt_start_us e + d) (vt_end_us e + d) (vt_duration_us e).

(** C10: after synchronisation the last [COMPUTE START] of a GEMM has the same
    virtual time on all its devices (there may be several on a device, one per
    partition, and the last one read is the one the script uses); before
    normalisation that is the latest, or the earliest, of the recorded ones of
    that GEMM; and all events of a GEMM on a device are moved by the same amount,
    which keeps their durations. *)
Theorem sync_aligns_devices l method offs
    (Hoff : calculate_offsets (find_compute_start_times (vtime_events l)) method = Ret offs) :
  (forall g k1 k2 t1 t2, last_start g k1 (synced_vtime l offs) = Some t1 ->
     last_start g k2 (synced_vtime l offs) = Some t2 -> t1 = t2) /\
  (forall g k, last_start g k (vtime_events l) <> None ->
     exists k0 t, last_start g k0 (vtime_events l) = Some t /\
       last_start g k (map (adjust_vtime offs) (vtime_events l)) = Some t /\
       forall k' t', last_start g k' (vtime_events l) = Some t' ->
         if String.eqb method "latest" then t' <= t else t <= t') /\
  (forall g k, exists d, forall i e, vtime_events l !! i = Some e ->
     v_gemm_id e = g -> v_device_id e = k ->
     exists e', synced_vtime l offs !! i = Some e' /\ shifted d e e').
Proof.
  split_and!.
  - intros g k1 k2 t1 t2. by apply (synced_starts_equal l method).
  - intros g k Hk. destruct (last_start g k (vtime_events l)) as [t|] eqn:Ht; [|done]. clear Hk.
    destruct (adjusted_start l method offs g k t Hoff Ht) as (b & Hb & Hs).
    pose proof (adjusted_last_start l offs g k) as Hadj. rewrite Ht in Hadj.
    destruct (baseline_spec _ _ _ Hb) as (Hin & Hle). apply start_times_elem in Hin as [k0 Hk0].
    exists k0, b. split_and!; [done|by rewrite Hadj; cbn; rewrite Hs|]. intros k' t' Ht'.
    assert (Hin : t' ∈ dict_values (start_times l g)) by (apply start_times_elem; by exists k').
    destruct Hle as [[-> Hle]|[-> Hle]]; by apply Hle.
  - intros g k. set (m := min_virtual_time (map (adjust_vtime offs) (vtime_events l))
      (map (adjust_throughput offs) (throughput_events l))).
    exists (get_nested g k offs - m). intros i e He <- <-. unfold synced_vtime. fold m.
    rewrite !list_lookup_fmap, He. eexists. split; [reflexivity|]. unfold shifted.
    unfold normalize_vtime, adjust_vtime. cbn. by rewrite !Z.add_sub_assoc.
Qed.

(** Offsets have the documented signs: synchronising to the latest device
    never moves a device back, to the earliest never forward, and one device of
    every GEMM stays where it is. *)
Theorem sync_offset_signs l method offs g k t
    (Hoff : calculate_offsets (find_compute_start_times (vtime_events l)) method = Ret offs)
    (Hstart : lookup2 g k (find_compute_start_times (vtime_events l)) = Some t) :
  (method = "latest"%string -> 0 <= get_nested g k offs) /\
  (method = "earliest"%string -> get_nested g k offs <= 0) /\
  exists k' t', lookup2 g k' (find_compute_start_times (vtime_events l)) = Some t' /\
                get_nested g k' offs = 0.
Proof.
  destruct (offset_of_start l method offs g k t Hoff Hstart) as (base & Hb & Ho).
  destruct (baseline_spec _ _ _ Hb) as (Hin & Hle).
  assert (Ht : t ∈ dict_values (start_times l g)).
  { unfold lookup2 in Hstart. unfold start_times, dict_get_default, dict_values.
    destruct (dict_get g _) as [dts|]; [|done]. cbn in *.
    apply list_elem_of_fmap. exists (k, t). split; [done|]. by apply dict_get_Some_elem. }
  split_and!.
  - intros ->. destruct Hle as [[? _]|[_ Hle]]; [done|]. specialize (Hle t Ht). lia.
  - intros ->. destruct Hle as [[_ Hle]|[? _]]; [|done]. specialize (Hle t Ht). lia.
  - apply list_elem_of_fmap in Hin as ([k' b] & Hbase & Hin). cbn in Hbase. subst b.
    destruct (find_compute_start_times_spec (vtime_events l)) as [[_ Hwf] _].
    assert (Hl : lookup2 g k' (find_compute_start_times (vtime_events l)) = Some base).
    { unfold start_times, dict_get_default in Hin. unfold lookup2.
      destruct (dict_get g _) as [dts|] eqn:Hg; cbn in *; [|by apply not_elem_of_nil in Hin].
      apply dict_elem_get; [by apply (Hwf g)|done]. }
    exists k', base. split; [done|].
    destruct (offset_of_start l method offs g k' base Hoff Hl) as (b' & Hb' & ->).
    rewrite Hb in Hb'. injection Hb' as <-. lia.
Qed.

(** Synchronising is idempotent: the offsets computed from a synchronised
    log, by either method, are all zero. *)
Theorem sync_idempotent l method offs method' offs' g k
    (Hoff : calculate_offsets (find_compute_start_times (vtime_events l)) method = Ret offs)
    (Hoff' : calculate_offsets (find_compute_start_times (synced_vtime l offs)) method'
             = Ret offs') :
  get_nested g k offs' = 0.
Proof.
  set (l' := mk_log (synced_vtime l offs) [] []).
  change (synced_vtime l offs) with (vtime_events l') in Hoff'.
  destruct (last_start g k (vtime_events l')) as [t|] eqn:Ht.
  - destruct (adjusted_start l' method' offs' g k t Hoff' Ht) as (b & Hb & Hs).
    apply baseline_spec in Hb as [Hin _]. apply start_times_elem in Hin as [k0 Hk0].
    rewrite (synced_starts_equal l method offs g k0 k b t Hoff Hk0 Ht) in Hs. lia.
  - destruct (find_compute_start_times_spec (vtime_events l')) as [Hwf _].
    pose proof (offsets_loop_spec _ _ _ _ Hwf Hoff' g k) as Hs.
    rewrite <- lookup_last_start in Ht. rewrite get_nested_lookup. unfold lookup2 in Ht at 1.
    destruct (dict_get g (find_compute_start_times _)) as [dts|]; [|by rewrite Hs].
    cbn in Ht. destruct Hs as (base & _ & ->). by rewrite Ht.
Qed.

(** ** Normalisation *)

Lemma min_step_fold ts m :
  (forall x, m = Some x -> 0 < x) ->
  match foldl min_step m ts with
  | Some x => 0 < x /\ (m = Some x \/ x ∈ ts) /\
      (forall t, t ∈ ts -> 0 < t -> x <= t) /\ (forall y, m = Some y -> x <= y)
  | None => m = None /\ forall t, t ∈ ts -> t <= 0
  end.
Proof.
  revert m. induction ts as [|t ts IH]; intros m Hm; cbn [foldl].
  { destruct m as [x|]; [|split; [done|by intros ? ?%not_elem_of_nil]].
    split_and!; [by apply Hm|by left|by intros ? ?%not_elem_of_nil|]. intros y [= <-]. lia. }
  assert (Hm' : forall x, min_step m t = Some x -> 0 < x).
  { unfold min_step. intros x. destruct (0 <? t) eqn:Ht; [|by apply Hm].
    apply Z.ltb_lt in Ht. destruct m as [y|]; intros [= <-]; [specialize (Hm y eq_refl)|]; lia. }
  specialize (IH _ Hm').
  destruct (foldl min_step (min_step m t) ts) as [x|].
  - destruct IH as (Hx & Hin & Hle & Hb). unfold min_step in Hin, Hb.
    destruct (0 <? t) eqn:Ht.
    + apply Z.ltb_lt in Ht. destruct m as [y|].
      * specialize (Hb _ eq_refl). split_and!; [done| | |].
        { destruct Hin as [[= Hin]|Hin]; [|right; by right].
          destruct (Z.min_spec y t) as [[? Hy]|[? Hy]]; rewrite Hy in Hin; subst x;
            [by left|right; left]. }
        { intros t' [->|Ht']%elem_of_cons ?; [lia|auto]. }
        { intros ? [= <-]. lia. }
      * specialize (Hb _ eq_refl). split_and!; [done| | |done].
        { destruct Hin as [[= Hin]|Hin]; [subst; right; left|right; by right]. }
        { intros t' [->|Ht']%elem_of_cons ?; [lia|auto]. }
    + apply Z.ltb_ge in Ht. split_and!; [done| | |done].
      { destruct Hin as [Hin|Hin]; [by left|right; by right]. }
      { intros t' [->|Ht']%elem_of_cons ?; [lia|auto]. }
  - destruct IH as [Hn Hle]. unfold min_step in Hn. destruct (0 <? t) eqn:Ht; [done|].
    apply Z.ltb_ge in Ht. split; [done|]. intros t' [->|Ht']%elem_of_cons; auto.
Qed.

Lemma min_virtual_time_spec vs ts :
  let times := map vt_start_us vs ++ map epoch_start_us ts in
  (forall t, t ∈ times -> 0 < t -> min_virtual_time vs ts <= t) /\
  ((exists t, t ∈ times /\ 0 < t) ->
     0 < min_virtual_time vs ts /\ min_virtual_time vs ts ∈ times).
Proof.
  cbn. unfold min_virtual_time. rewrite <- foldl_app.
  set (times := _ ++ _). pose proof (min_step_fold times None (fun x H => match H with end)) as Hf.
  destruct (foldl min_step None times) as [x|].
  - destruct Hf as (Hx & Hin & Hle & _). destruct Hin as [?|Hin]; [done|]. by split.
  - destruct Hf as (_ & Hle). split.
    + intros t Ht Hpos. specialize (Hle t Ht). lia.
    + intros (t & Ht & Hpos). specialize (Hle t Ht). lia.
Qed.

(** Normalisation maps the least positive start time to 0 and no positive one
    below it; but a start time that is zero or negative (after the offsets) is
    shifted as well and ends below zero, so the least start time of the result is
    0 only when all of them were positive. *)
Theorem sync_normalises_positive_times l offs e
    (He : e ∈ vtime_events l) :
  let vs := map (adjust_vtime offs) (vtime_events l) in
  let ts := map (adjust_throughput offs) (throughput_events l) in
  let times := map vt_start_us vs ++ map epoch_start_us ts in
  let e' := normalize_vtime (min_virtual_time vs ts) (adjust_vtime offs e) in
  e' ∈ synced_vtime l offs /\
  (0 < vt_start_us (adjust_vtime offs e) -> 0 <= vt_start_us e') /\
  ((exists t, t ∈ times /\ 0 < t) -> vt_start_us (adjust_vtime offs e) <= 0 ->
   vt_start_us e' < 0) /\
  ((exists t, t ∈ times /\ 0 < t) -> exists t, t ∈ times /\ t - min_virtual_time vs ts = 0).
Proof.
  intros vs ts times e'. destruct (min_virtual_time_spec vs ts) as [Hle Hpos].
  assert (Hin : adjust_vtime offs e ∈ vs) by (apply list_elem_of_fmap; by exists e).
  assert (Ht : vt_start_us (adjust_vtime offs e) ∈ times).
  { apply elem_of_app. left. apply list_elem_of_fmap. by eexists. }
  split_and!.
  - unfold synced_vtime. apply list_elem_of_fmap. by exists (adjust_vtime offs e).
  - intros H. specialize (Hle _ Ht H). cbn [e' normalize_vtime vt_start_us]. lia.
  - intros Hex H. destruct (Hpos Hex) as [Hm _]. cbn [e' normalize_vtime vt_start_us]. lia.
  - intros Hex. destruct (Hpos Hex) as [_ Hm]. exists (min_virtual_time vs ts). split; [done|lia].
Qed.

(** ** Parsing *)

(** Reading a log raises exactly when it has an empty line, and then it is an
    [IndexError]: every other malformed line is kept as it is. *)
Theorem read_log_raises_on_blank_line text :
  ("" ∈ file_lines text <-> exists e, read_log text = Raise e) /\
  (forall e, read_log text = Raise e -> e = IndexError "string index out of range").
Proof.
  unfold read_log. generalize (mk_log [] [] []) as l.
  assert (Hline : forall l line, match read_line l line with
    | Raise e => line = ""%string /\ e = IndexError "string index out of range"
    | Ret _ => line <> ""%string end).
  { intros l line. unfold read_line, mbind, outcome_bind.
    destruct line as [|c line]; [by cbn|].
    destruct (parse_vtime_event _) as [v|]; [done|].
    destruct (parse_throughput_event (String c line)) as [[t|]|e] eqn:Ht; [done|done|].
    unfold parse_throughput_event in Ht. destruct (_ || _); [done|].
    by destruct (negb (is_digit c)). }
  induction (file_lines text) as [|line lines IH]; intros l; cbn [read_lines].
  - split; [|done]. split; [by intros ?%not_elem_of_nil|by intros [e ?]].
  - unfold mbind, outcome_bind. specialize (Hline l line).
    destruct (read_line l line) as [l'|e].
    + destruct (IH l') as [IH1 IH2]. split; [|done]. rewrite elem_of_cons, <- IH1.
      split; [by intros [?|?]|by right].
    + destruct Hline as [-> ->]. split; [|by intros ? [= <-]].
      split; [intros _; by eexists|intros _; left].
Qed.

Lemma render_vtime_split e :
  no_char "," (phase e) = true -> no_char "," (event e) = true ->
  split_on "," (render_vtime e) = ["VTIME"; str_of_Z (v_timestamp_us e);
    str_of_Z (v_device_id e); str_of_Z (v_gemm_id e); phase e; event e;
    str_of_Z (vt_start_us e); str_of_Z (vt_end_us e); str_of_Z (vt_duration_us e)]%string.
Proof.
  intros Hp He. unfold render_vtime. apply (split_on_join ","); [done|].
  cbn [forallb]. rewrite Hp, He, !str_of_Z_no_char by done. done.
Qed.

Lemma str_of_Z_nonempty z : str_of_Z z <> "".
Proof. unfold str_of_Z. destruct (z <? 0); [done|apply str_of_N_nonempty]. Qed.

Lemma render_vtime_strip e : strip (render_vtime e) = render_vtime e.
Proof.
  unfold render_vtime. cbn [join].
  set (d := str_of_Z (vt_duration_us e)).
  match goal with |- strip ("VTIME" +:+ ?s) = _ => set (rest := s) end.
  assert (Hr : exists a, "VTIME" +:+ rest = String "V" ("TIME" +:+ a) +:+ d).
  { exists ("," +:+ str_of_Z (v_timestamp_us e) +:+ "," +:+ str_of_Z (v_device_id e) +:+ "," +:+
      str_of_Z (v_gemm_id e) +:+ "," +:+ phase e +:+ "," +:+ event e +:+ "," +:+
      str_of_Z (vt_start_us e) +:+ "," +:+ str_of_Z (vt_end_us e) +:+ ",").
    change (String "V" ("TIME" +:+ ?a)) with ("VTIME" +:+ a). subst rest.
    by rewrite !str_append_assoc. }
  destruct Hr as [a ->]. apply strip_visible; [done|apply str_of_Z_no_space|apply str_of_Z_nonempty].
Qed.

(** The lines the script writes for virtual-time events read back as the
    events they stand for, as long as the phase and event names have no comma. *)
Theorem vtime_line_roundtrip e
    (Hp : no_char "," (phase e) = true) (He : no_char "," (event e) = true) :
  parse_vtime_event (render_vtime e) =
  Some (mk_VTEvent (render_vtime e) (v_timestamp_us e) (v_device_id e) (v_gemm_id e)
          (phase e) (event e) (vt_start_us e) (vt_end_us e) (vt_duration_us e)).
Proof.
  unfold parse_vtime_event.
  assert (startswith "VTIME," (render_vtime e) = true) as -> by done.
  rewrite render_vtime_strip, render_vtime_split by done.
  by rewrite !int_of_str_of_Z.
Qed.

(** ** The written file *)

Lemma key_le_total x y : key_le x y = true \/ key_le y x = true.
Proof.
  unfold key_le. rewrite !orb_true_iff, !andb_true_iff, !Z.ltb_lt, !Z.eqb_eq, !Z.leb_le. lia.
Qed.

Lemma key_le_trans x y z : key_le x y = true -> key_le y z = true -> key_le x z = true.
Proof.
  unfold key_le. rewrite !orb_true_iff, !andb_true_iff, !Z.ltb_lt, !Z.eqb_eq, !Z.leb_le. lia.
Qed.

(** The written file has exactly the given lines, in the order of their
    timestamps; comment and header lines keep their relative order, as do the
    events of one timestamp. *)
Theorem written_log_sorted other vlines tlines out
    (Hout : write_synchronized_log other vlines tlines = Ret out) :
  exists vs ts es, mapO (keyed 1) vlines = Ret vs /\ mapO (keyed 0) tlines = Ret ts /\
    out = String.concat "" (map (fun e => e.2 +:+ nl) es) /\
    map snd es ≡ₚ other ++ vlines ++ tlines /\
    StronglySorted (fun x y => key_le x y = true) es /\
    (forall k, filter (fun e => e.1 = k) es =
       filter (fun e => e.1 = k) (map (fun line => ((0, 0), line)) other ++ vs ++ ts)).
Proof.
  unfold write_synchronized_log, mbind, outcome_bind in Hout.
  destruct (mapO (keyed 1) vlines) as [vs|] eqn:Hv; [|done].
  destruct (mapO (keyed 0) tlines) as [ts|] eqn:Ht; [|done]. injection Hout as <-. cbn.
  assert (Hsnd : forall f lines ks, mapO (keyed f) lines = Ret ks -> map snd ks = lines).
  { intros f. induction lines as [|line lines IH]; cbn; intros ks; [by intros [= <-]|].
    unfold keyed at 1, mbind, outcome_bind.
    destruct (of_option _ (split_on "," line !! f)) as [part|]; cbn; [|done].
    destruct (of_option _ (int_of_str part)) as [t|]; cbn; [|done].
    destruct (mapO (keyed f) lines) as [ks'|]; [|done]. intros [= <-]. cbn. f_equal. auto. }
  exists vs, ts. eexists. split; [done|]. split; [done|]. split; [done|]. split_and!.
  - rewrite (sort_by_perm key_le). rewrite !map_app, (Hsnd _ _ _ Hv), (Hsnd _ _ _ Ht).
    f_equiv. induction other as [|o other IH]; [done|]. cbn. by rewrite IH.
  - apply sort_by_sorted; [apply key_le_total|apply key_le_trans].
  - intros k. apply sort_by_stable.
    intros x y Hx Hy. unfold key_le. rewrite Hx, Hy, Z.eqb_refl, Z.leb_refl. apply orb_true_r.
Qed.

(** ** Witnesses *)

Definition demo_event (dev gemm : Z) (ev : string) (st en : Z) : VTEvent :=
  mk_VTEvent "" 5 dev gemm "COMPUTE" ev st en (en - st).
Definition demo_events : list VTEvent :=
  [demo_event 0 1 "START" 100 140; demo_event 1 1 "START" 130 150; demo_event 1 1 "END" 0 7].
Definition demo_log : log := mk_log demo_events [] ["# header"%string].
Definition demo_offsets : nested := [(1, [(0, 30); (1, 0)])].

Lemma demo_offsets_ok :
  calculate_offsets (find_compute_start_times (vtime_events demo_log)) "latest"
  = Ret demo_offsets.
Proof. vm_compute. reflexivity. Qed.

(** Two partitions on device 0, as the emulator logs them *)
Definition demo_partitions : log :=
  mk_log (demo_event 0 1 "START" 90 140 :: demo_events) [] [].

Lemma sync_aligns_devices_witness :
  exists offs, calculate_offsets (find_compute_start_times (vtime_events demo_partitions)) "latest"
    = Ret offs /\
  map vt_start_us (synced_vtime demo_partitions offs) = [0; 10; 10; -120] /\
  forall k1 k2 t1 t2, last_start 1 k1 (synced_vtime demo_partitions offs) = Some t1 ->
    last_start 1 k2 (synced_vtime demo_partitions offs) = Some t2 -> t1 = t2.
Proof.
  eexists. split; [vm_compute; reflexivity|]. split; [vm_compute; reflexivity|].
  apply (sync_aligns_devices demo_partitions "latest"). vm_compute. reflexivity.
Defined.

Lemma sync_offset_signs_witness : 0 <= get_nested 1 0 demo_offsets.
Proof.
  apply (sync_offset_signs demo_log "latest" demo_offsets 1 0 100 demo_offsets_ok eq_refl).
  reflexivity.
Defined.

Lemma sync_idempotent_witness :
  exists offs', calculate_offsets
      (find_compute_start_times (synced_vtime demo_log demo_offsets)) "earliest" = Ret offs' /\
    get_nested 1 0 offs' = 0.
Proof.
  eexists. split; [vm_compute; reflexivity|].
  eapply (sync_idempotent demo_log "latest" demo_offsets "earliest");
    [exact demo_offsets_ok|vm_compute; reflexivity].
Defined.

Lemma sync_normalises_positive_times_witness :
  let vs := map (adjust_vtime demo_offsets) demo_events in
  vt_start_us (normalize_vtime (min_virtual_time vs [])
                 (adjust_vtime demo_offsets (demo_event 1 1 "END" 0 7))) < 0.
Proof.
  intros vs.
  apply (sync_normalises_positive_times demo_log demo_offsets (demo_event 1 1 "END" 0 7)).
  - unfold demo_log, demo_events. cbn [vtime_events]. rewrite !elem_of_cons.
    right. right. left. reflexivity.
  - exists 130. split; [|lia]. apply elem_of_app. left. apply list_elem_of_fmap.
    exists (adjust_vtime demo_offsets (demo_event 0 1 "START" 100 140)). split; [reflexivity|].
    apply list_elem_of_fmap. eexists. split; [reflexivity|]. left.
  - vm_compute. discriminate.
Defined.

Lemma vtime_line_roundtrip_witness :
  exists e, parse_vtime_event "VTIME,5,0,1,COMPUTE,START,100,140,40" = Some e /\
            vt_start_us e = 100.
Proof.
  eexists. split; [exact (vtime_line_roundtrip (demo_event 0 1 "START" 100 140) eq_refl eq_refl)|].
  reflexivity.
Defined.

Lemma written_log_sorted_witness :
  exists out, write_synchronized_log ["# header"] ["VTIME,7,0"; "VTIME,3,1"] ["5,0"]%string
    = Ret out /\
  exists es, out = String.concat "" (map (fun e => e.2 +:+ nl) es) /\
    StronglySorted (fun x y => key_le x y = true) es.
Proof.
  eexists. split; [vm_compute; reflexivity|].
  edestruct (written_log_sorted ["# header"] ["VTIME,7,0"; "VTIME,3,1"] ["5,0"]%string)
    as (vs & ts & es & _ & _ & H1 & _ & H2 & _); [vm_compute; reflexivity|].
  exists es. split; [exact H1|exact H2].
Defined.
