(* ===== verification/PyJson.v ===== *)
(** * JSON values

    What [json.load] returns, and the conversions of Python's [int], [float] and
    [bool] on such values.  An object is an insertion-ordered dictionary. *)

From S2P Require Import Prelude PyDict PyStr PyFloat.

Inductive json : Type :=
  | JNull
  | JBool (b : bool)
  | JInt (z : Z)
  | JFloat (x : float)
  | JStr (s : string)
  | JList (l : list json)
  | JObj (d : list (string * json)).

Definition obj : Type := list (string * json).

Definition is_list (j : json) : bool := match j with JList _ => true | _ => false end.
Definition as_obj (j : json) : option obj := match j with JObj d => Some d | _ => None end.

(** [d.get(k)] *)
Definition jget (k : string) (d : obj) : json := default JNull (dict_get k d).

(** [[x for x in l if isinstance(x, dict)]] *)
Definition dicts_of (l : list json) : list obj := omap as_obj l.

(** [bool(j)] *)
Definition truthy (j : json) : bool :=
  match j with
  | JNull => false
  | JBool b => b
  | JInt z => negb (z =? 0)
  | JFloat x => ftruthy x
  | JStr s => negb (is_empty s)
  | JList l => match l with [] => false | _ => true end
  | JObj d => match d with [] => false | _ => true end
  end.

Definition bool_int (b : bool) : Z := if b then 1 else 0.

(** [int(j)] *)
Definition py_int (j : json) : outcome Z :=
  match j with
  | JBool b => Ret (bool_int b)
  | JInt z => Ret z
  | JFloat x => int_of_float x
  | JStr s => of_option (ValueError "invalid literal for int()") (int_of_str s)
  | _ => Raise (TypeError "int() argument must be a string or a real number")
  end.

(** [float(j)] *)
Definition py_float (j : json) : outcome float :=
  match j with
  | JBool b => Ret (f_of_Z (bool_int b))
  | JInt z => float_of_int z
  | JFloat x => Ret x
  | JStr s => of_option (ValueError "could not convert string to float") (float_of_str s)
  | _ => Raise (TypeError "float() argument must be a string or a real number")
  end.

(** [except (TypeError, ValueError)], around the conversions above *)
Definition type_or_value_error (e : exn) : bool :=
  match e with TypeError _ | ValueError _ => true | _ => false end.

(** The key a hashable value is under in a dictionary: numbers that compare equal
    share it.  Lists and objects are not hashable.  [json.load] makes one NaN
    object, which is equal to itself as a dictionary key. *)
Inductive hkey : Type :=
  | HNull | HInt (z : Z) | HFloat (x : float) | HStr (s : string).

#[export] Instance spec_float_eq_dec : EqDecision spec_float.
Proof. solve_decision. Defined.

#[export] Instance hkey_eq_dec : EqDecision hkey.
Proof. solve_decision. Defined.

(** An integral float is under the key of its integer. *)
Definition hash_float (x : float) : hkey :=
  match int_of_float x with
  | Ret z => if feqb x (f_of_Z z) then HInt z else HFloat x
  | Raise _ => HFloat x
  end.

Definition hash_json (j : json) : outcome hkey :=
  match j with
  | JNull => Ret HNull
  | JBool b => Ret (HInt (bool_int b))
  | JInt z => Ret (HInt z)
  | JFloat x => Ret (hash_float x)
  | JStr s => Ret (HStr s)
  | JList _ => Raise (TypeError "unhashable type: 'list'")
  | JObj _ => Raise (TypeError "unhashable type: 'dict'")
  end.

(** [j[k]] for a string key *)
Definition json_item (k : string) (j : json) : outcome json :=
  match j with
  | JObj d => of_option (KeyError k) (dict_get k d)
  | JList _ => Raise (TypeError "list indices must be integers or slices, not str")
  | JStr _ => Raise (TypeError "string indices must be integers, not 'str'")
  | _ => Raise (TypeError "object is not subscriptable")
  end.

(** [for x in j] *)
Definition json_iter (j : json) : outcome (list json) :=
  match j with
  | JList l => Ret l
  | JStr s => Ret (map (fun c => JStr (String c "")) (String.list_ascii_of_string s))
  | JObj d => Ret (map JStr (dict_keys d))
  | _ => Raise (TypeError "object is not iterable")
  end.

(** What [json.dumps(j, sort_keys=True)] writes, as a value: the keys in order *)
Fixpoint sort_keys (j : json) : json :=
  match j with
  | JList l => JList (map sort_keys l)
  | JObj d => JObj (sort_by (fun x y => String.leb x.1 y.1)
                      (map (fun kv => match kv with (k, v) => (k, sort_keys v) end) d))
  | _ => j
  end.

(** [l[b]] for a list or a string: a negative index counts from the end. *)
Definition py_index {A} (l : list A) (b : Z) : outcome A :=
  let i := if b <? 0 then b + Z.of_nat (length l) else b in
  if i <? 0 then Raise (IndexError "index out of range")
  else of_option (IndexError "index out of range") (l !! Z.to_nat i).

Lemma py_index_ok {A} (l : list A) b :
  0 <= b < Z.of_nat (length l) -> exists x, py_index l b = Ret x /\ x ∈ l.
Proof.
  intros Hb. unfold py_index. rewrite !(proj2 (Z.ltb_ge b 0)) by lia.
  destruct (lookup_lt_is_Some_2 l (Z.to_nat b) ltac:(lia)) as [x Hx].
  exists x. rewrite Hx. split; [done|]. by eapply list_elem_of_lookup_2.
Qed.

Lemma py_index_lookup {A} (l : list A) b x :
  0 <= b -> py_index l b = Ret x -> l !! Z.to_nat b = Some x.
Proof.
  intros Hb. unfold py_index. rewrite !(proj2 (Z.ltb_ge b 0)) by lia.
  by destruct (l !! Z.to_nat b); intros [= ->].
Qed.

Example json_ex :
  hash_json (JFloat (f_of_Z 2)) = hash_json (JInt 2) /\
  hash_json (JBool true) = hash_json (JInt 1) /\
  py_int (JFloat (f_lit (-27) 1)) = Ret (-2) /\
  py_index [1; 2; 3] (-1) = Ret 3 /\
  py_index [1; 2; 3] 3 = Raise (IndexError "index out of range").
Proof. by vm_compute. Qed.
