(* ===== verification/BatchRuntime.v ===== *)
(** * Batch runtime accounting ([scripts/compute_batch_runtime.py])

    The script turns the virtual-time log of one training batch, or without a log
    the device profiles, and the dispatch manifest into the time the batch takes:
    per device, per level, and with the pipeline overlay in total.  Manifests and
    profiles are JSON values; the log is its text.  Built-in [sum] is the left
    fold of CPython 3.10, the version of the repository's environment file. *)

From Stdlib Require Import Ascii String.
From S2P Require Import Prelude PyDict PyStr PyFloat PyJson.
From S2P Require VTimeSync.

Definition PHASES : list string := ["SEND"; "DOWNLOAD"; "COMPUTE"; "UPLOAD"; "RECEIVE"].
Definition ALLREDUCE_TYPES : list string := ["dp_allreduce"; "tp_allreduce"].

(** [s in {...}] *)
Definition mem (s : string) (l : list string) : bool := existsb (String.eqb s) l.

Record VTimeEvent : Type := mk_VTimeEvent {
  timestamp_us : Z;
  ev_device_id : Z;
  ev_gemm_id : Z;
  phase : string;
  event : string;
  vt_start_us : Z;
  vt_end_us : Z;
  vt_duration_us : Z;
}.

(** ** Conversions *)

(** [_to_int]: a value neither [int] nor [float] accepts is the default; an
    infinite float raises [OverflowError], which is not caught. *)
Definition to_int (value : json) (dflt : Z) : outcome Z :=
  match value with
  | JNull => Ret dflt
  | _ =>
      match py_int value with
      | Ret z => Ret z
      | Raise e =>
          if type_or_value_error e then
            match (x ← py_float value; int_of_float x) with
            | Ret z => Ret z
            | Raise e => if type_or_value_error e then Ret dflt else Raise e
            end
          else Raise e
      end
  end.

Definition to_float (value : json) (dflt : float) : outcome float :=
  match value with
  | JNull => Ret dflt
  | _ => match py_float value with
         | Ret x => Ret x
         | Raise e => if type_or_value_error e then Ret dflt else Raise e
         end
  end.

Definition to_bool (value : json) (dflt : bool) : bool :=
  match value with
  | JBool b => b
  | JNull => dflt
  | JStr s =>
      let lowered := lower (strip s) in
      if mem lowered ["1"; "true"; "yes"; "y"] then true
      else if mem lowered ["0"; "false"; "no"; "n"] then false
      else truthy value
  | _ => truthy value
  end.

(** ** The log *)

Definition vtime_fields (parts : list string) : outcome (option VTimeEvent) :=
  let keep ts dev gemm ph ev st en dur :=
    let ph := upper (strip ph) in
    let ev := upper (strip ev) in
    if negb (String.eqb ev "END") then Ret None
    else if negb (mem ph PHASES) then Ret None
    else Ret (Some (mk_VTimeEvent ts dev gemm ph ev st en dur)) in
  match parts with
  | [_; ts; dev; gemm; ph; ev; st; en; dur] =>
      ts ← to_int (JStr ts) 0; dev ← to_int (JStr dev) 0; gemm ← to_int (JStr gemm) (-1);
      st ← to_int (JStr st) 0; en ← to_int (JStr en) 0; dur ← to_int (JStr dur) 0;
      keep ts dev gemm ph ev st en dur
  | [_; ts; dev; ph; ev; st; en; dur] =>
      ts ← to_int (JStr ts) 0; dev ← to_int (JStr dev) 0;
      st ← to_int (JStr st) 0; en ← to_int (JStr en) 0; dur ← to_int (JStr dur) 0;
      keep ts dev (-1) ph ev st en dur
  | _ => Ret None
  end.

(** One line: every exception becomes a [ValueError] that names the line. *)
Definition parse_vtime_line (line_no : Z) (line : string) : outcome (option VTimeEvent) :=
  let stripped := strip line in
  if is_empty stripped || negb (startswith "VTIME" stripped) then Ret None
  else
    match vtime_fields (split_on "," stripped) with
    | Ret o => Ret o
    | Raise _ =>
        Raise (ValueError ("Failed to parse VTIME line " +:+ str_of_Z line_no +:+ ": "
                           +:+ stripped))
    end.

Fixpoint parse_vtime_lines (line_no : Z) (lines : list string) : outcome (list VTimeEvent) :=
  match lines with
  | [] => Ret []
  | line :: lines =>
      o ← parse_vtime_line line_no line;
      events ← parse_vtime_lines (line_no + 1) lines;
      Ret (match o with Some e => e :: events | None => events end)
  end.

Definition parse_vtime_log (text : string) : outcome (list VTimeEvent) :=
  parse_vtime_lines 1 (file_lines text).

(** ** The manifest *)

Definition list_keys : list string :=
  ["entries"; "dispatch_entries"; "dispatches"; "sequence"; "items"].

(** The first of [keys] whose value is a list *)
Fixpoint first_list (keys : list string) (d : obj) : option (list json) :=
  match keys with
  | [] => None
  | k :: keys => match dict_get k d with
                 | Some (JList l) => Some l
                 | _ => first_list keys d
                 end
  end.

(** [merged = dict(raw); merged.setdefault("level", level)] *)
Definition with_level (level : json) (raw : obj) : obj := dict_setdefault "level" level raw.

Definition level_entries (level_item : json) : list obj :=
  match level_item with
  | JObj item =>
      match dict_get_default "entries" (JList []) item with
      | JList l => with_level (jget "level" item) <$> dicts_of l
      | _ => []
      end
  | _ => []
  end.

Definition entries_of_levels (d : obj) : list obj :=
  match dict_get "levels" d with
  | Some (JList levels) => levels ≫= level_entries
  | _ => []
  end.

Definition extract_manifest_entries (manifest : json) : outcome (list obj) :=
  match manifest with
  | JList l => Ret (dicts_of l)
  | JObj d =>
      match first_list list_keys d with
      | Some l => Ret (dicts_of l)
      | None =>
          match entries_of_levels d with
          | (_ :: _) as out => Ret out
          | [] =>
              match dicts_of (dict_values d) with
              | (_ :: _) as vs =>
                  if forallb (dict_mem "gemm_id") vs then Ret vs
                  else Raise (ValueError "Could not locate dispatch entries in manifest JSON")
              | [] => Raise (ValueError "Could not locate dispatch entries in manifest JSON")
              end
          end
      end
  | _ => Raise (ValueError "Manifest must be a dict or list")
  end.

Record entry : Type := mk_entry {
  gemm_id : Z;
  level : Z;
  device_id : Z;
  alpha : float;
  beta : float;
  n : float;
  m_total : float;
  q_total : float;
  is_local : bool;
  stage_id : Z;
  parallelism_type : string;
  raw : obj;
}.

Section normalize.
(** The text [str] gives a float, a list or an object *)
Context (repr : json -> string).

Definition py_str (j : json) : string :=
  match j with
  | JNull => "None"
  | JBool b => if b then "True" else "False"
  | JInt z => str_of_Z z
  | JStr s => s
  | _ => repr j
  end.

Definition normalize_entry (raw : obj) : outcome entry :=
  let ptype := lower (py_str (dict_get_default "parallelism_type"
                                (dict_get_default "type" (JStr "") raw) raw)) in
  gemm_id ← to_int (jget "gemm_id" raw) (-1);
  level ← to_int (jget "level" raw) 0;
  device_id ← to_int (jget "device_id" raw) (-1);
  alpha ← to_float (jget "alpha" raw) fzero;
  beta ← to_float (jget "beta" raw) fzero;
  n ← to_float (jget "n" raw) fzero;
  m_total ← to_float (jget "m_total" raw) fzero;
  q_total ← to_float (jget "q_total" raw) fzero;
  let is_local := to_bool (jget "is_local" raw) false in
  stage_id ← to_int (jget "stage_id" raw) 0;
  Ret (mk_entry gemm_id level device_id alpha beta n m_total q_total is_local stage_id
         ptype raw).
End normalize.

(** ** Device profiles *)

Definition profile : Type := list (string * float).
Definition profiles : Type := list (Z * profile).

Definition profile_items (raw : json) : list json :=
  match raw with
  | JList l => l
  | JObj d => match dict_get "devices" d with
              | Some (JList l) => l
              | _ => JObj <$> dicts_of (dict_values d)
              end
  | _ => []
  end.

Definition add_profile (ps : profiles) (item : json) : outcome profiles :=
  match item with
  | JObj item =>
      rank ← to_int (dict_get_default "rank" (jget "device_id" item) item) (-1);
      if rank <? 0 then Ret ps
      else
        flops ← to_float (jget "flops" item) fzero;
        ul_bw ← to_float (jget "ul_bw" item) fzero;
        dl_bw ← to_float (jget "dl_bw" item) fzero;
        ul_lat ← to_float (jget "ul_lat" item) fzero;
        dl_lat ← to_float (jget "dl_lat" item) fzero;
        Ret (dict_set rank [("flops", flops); ("ul_bw", ul_bw); ("dl_bw", dl_bw);
                            ("ul_lat", ul_lat); ("dl_lat", dl_lat)] ps)
  | _ => Ret ps
  end.

(** [raw] is the file's content; no path gives no profiles. *)
Definition load_device_profiles (raw : option json) : outcome profiles :=
  match raw with
  | None => Ret []
  | Some raw => foldO add_profile (profile_items raw) []
  end.

(** ** Look-ups *)

Definition build_entry_lookup (entries : list entry) :
    list ((Z * Z) * entry) * list (Z * list entry) :=
  foldl (fun '(by_device_gemm, by_gemm) e =>
           (dict_set (device_id e, gemm_id e) e by_device_gemm,
            dict_alter (fun o => default [] o ++ [e]) (gemm_id e) by_gemm))
    ([], []) entries.

Definition pick_entry_for_event (ev : VTimeEvent) (by_device_gemm : list ((Z * Z) * entry))
    (by_gemm : list (Z * list entry)) : option entry :=
  match dict_get (ev_device_id ev, ev_gemm_id ev) by_device_gemm with
  | Some e => Some e
  | None => match dict_get_default (ev_gemm_id ev) [] by_gemm with
            | [e] => Some e
            | _ => None
            end
  end.

(** ** Collectives *)

(** The first of [keys] with a value above zero *)
Fixpoint explicit_bytes (keys : list string) (d : obj) : outcome (option float) :=
  match keys with
  | [] => Ret None
  | k :: keys =>
      match jget k d with
      | JNull => explicit_bytes keys d
      | v =>
          candidate ← to_float v fzero;
          if flt fzero candidate then Ret (Some candidate) else explicit_bytes keys d
      end
  end.

Definition entry_data_bytes (e : entry) (bytes_per_element : float) : outcome float :=
  o ← explicit_bytes ["data_bytes"; "gradient_bytes"; "bytes"] (raw e);
  match o with
  | Some x => Ret x
  | None =>
      let a := fmax (alpha e) fzero in
      let b := fmax (beta e) fzero in
      if flt fzero a && flt fzero b then Ret (fmul (fmul a b) bytes_per_element)
      else
        let m := fmax (m_total e) fzero in
        let q := fmax (q_total e) fzero in
        if flt fzero m && flt fzero q then Ret (fmul (fmul m q) bytes_per_element)
        else Ret fzero
  end.

Definition group_key : Type := string * Z * Z * hkey.

Definition non_null (j j' : json) : json := match j with JNull => j' | _ => j end.

(** Using the tuple as a dictionary key hashes the group id. *)
Definition collective_group_key (e : entry) : outcome group_key :=
  let group_id := non_null (non_null (jget "group_id" (raw e)) (jget "dp_group_id" (raw e)))
                    (jget "tp_group_id" (raw e)) in
  h ← hash_json group_id;
  Ret (parallelism_type e, level e, stage_id e, h).

Definition is_allreduce (e : entry) : bool := mem (parallelism_type e) ALLREDUCE_TYPES.

Definition groups : Type := list (group_key * gset Z).

Definition add_to_group (gs : groups) (e : entry) : outcome groups :=
  if is_allreduce e then
    k ← collective_group_key e;
    Ret (dict_alter (fun o => {[device_id e]} ∪ default ∅ o) k gs)
  else Ret gs.

Definition build_collective_groups (entries : list entry) : outcome groups :=
  foldO add_to_group entries [].

(** [min] of a list that is not empty *)
Definition fmin_list (l : list float) : option float :=
  match l with [] => None | x :: l => Some (foldl fmin x l) end.

(** [min(ul, dl)] of a device whose two bandwidths are positive *)
Definition device_bandwidth (ps : profiles) (d : Z) : option float :=
  match dict_get d ps with
  | None | Some [] => None
  | Some p =>
      let ul := dict_get_default "ul_bw" fzero p in
      let dl := dict_get_default "dl_bw" fzero p in
      if flt fzero ul && flt fzero dl then Some (fmin ul dl) else None
  end.

(** The bandwidth of the ring: the entry's, the option's, or the slowest device's *)
Definition ring_bandwidth (e : entry) (group : gset Z) (ps : profiles)
    (allreduce_bandwidth_bps : option float) : outcome (option float) :=
  explicit ←
    match dict_get_default "min_bandwidth_bps" (jget "bandwidth_bps" (raw e)) (raw e) with
    | JNull => Ret None
    | v => x ← to_float v fzero; Ret (if flt fzero x then Some x else None)
    end;
  let given := match allreduce_bandwidth_bps with
               | Some b => if ftruthy b && flt fzero b then Some b else None
               | None => None
               end in
  let slowest := fmin_list (omap (device_bandwidth ps) (elements group)) in
  Ret match explicit with
      | Some b => Some b
      | None => match given with Some b => Some b | None => slowest end
      end.

Definition explicit_group_size (e : entry) : json :=
  non_null (non_null (jget "group_size" (raw e))
              (if String.eqb (parallelism_type e) "dp_allreduce"
               then jget "dp_size" (raw e) else JNull))
    (if String.eqb (parallelism_type e) "tp_allreduce" then jget "tp_size" (raw e) else JNull).

(** [2.0 * (k - 1) / k * data_bytes / bw], in milliseconds *)
Definition ring_ms (k : Z) (data_bytes bw : float) : outcome float :=
  k1 ← float_of_int (k - 1);
  kf ← float_of_int k;
  share ← fdiv (fmul (f_of_Z 2) k1) kf;
  sec ← fdiv (fmul share data_bytes) bw;
  Ret (fmul sec (f_of_Z 1000)).

Definition estimate_allreduce_ms (e : entry) (group : gset Z) (ps : profiles)
    (bytes_per_element : float) (allreduce_bandwidth_bps : option float) : outcome float :=
  k ← to_int (explicit_group_size e) 0;
  let k := if k <=? 0 then Z.of_nat (size group) else k in
  if k <=? 1 then Ret fzero
  else
    data_bytes ← entry_data_bytes e bytes_per_element;
    if fle data_bytes fzero then Ret fzero
    else
      bw ← ring_bandwidth e group ps allreduce_bandwidth_bps;
      match bw with
      | None => Ret fzero
      | Some bw => if fle bw fzero then Ret fzero else ring_ms k data_bytes bw
      end.

(** ** Phase durations *)

Definition or_zero (x : option float) : float := default fzero x.

(** [d[k] += x] on a [defaultdict(float)] *)
Definition add_to {K} `{EqDecision K} (k : K) (x : float) (d : list (K * float)) :
    list (K * float) :=
  dict_alter (fun o => fadd (or_zero o) x) k d.

(** [d[k1][k2] += x] on nested ones *)
Definition add_nested {K K'} `{EqDecision K, EqDecision K'} (k1 : K) (k2 : K') (x : float)
    (d : list (K * list (K' * float))) : list (K * list (K' * float)) :=
  dict_alter (fun o => add_to k2 x (default [] o)) k1 d.

Definition get_float (k : string) (p : profile) : float := dict_get_default k fzero p.

Definition compute_analytical_phase_us (e : entry) (ps : profiles) (bytes_per_element : float) :
    outcome (list (string * float)) :=
  let p := dict_get_default (device_id e) [] ps in
  let flops := get_float "flops" p in
  let dl_bw := get_float "dl_bw" p in
  let ul_bw := get_float "ul_bw" p in
  let dl_lat := get_float "dl_lat" p in
  let ul_lat := get_float "ul_lat" p in
  let a := fmax (alpha e) fzero in
  let b := fmax (beta e) fzero in
  let n := fmax (n e) fzero in
  let sized := flt fzero a && flt fzero b in
  compute_s ←
    (if flt fzero flops && sized && flt fzero n
     then fdiv (fmul (fmul (fmul (f_of_Z 2) a) b) n) flops else Ret fzero);
  download_s ←
    (if flt fzero dl_bw && sized && flt fzero n
     then
       let download_bytes := fadd (fmul (fmul a n) bytes_per_element)
                               (fmul (fmul n b) bytes_per_element) in
       x ← fdiv download_bytes dl_bw; Ret (fadd x dl_lat)
     else Ret fzero);
  upload_s ←
    (if flt fzero ul_bw && sized
     then x ← fdiv (fmul (fmul a b) bytes_per_element) ul_bw; Ret (fadd x ul_lat)
     else Ret fzero);
  let us x := fmul x (f_of_Z 1000000) in
  Ret [("SEND", fzero); ("DOWNLOAD", us download_s); ("COMPUTE", us compute_s);
       ("UPLOAD", us upload_s); ("RECEIVE", fzero)].

(** *** The within-batch trace *)

(** [arr[b] if b < len(arr) else arr[-1]], for an [arr] that is true *)
Definition bin_value (arr : json) (b : Z) : outcome json :=
  let pick {A} (l : list A) := if b <? Z.of_nat (length l) then py_index l b else py_index l (-1) in
  match arr with
  | JList l => pick l
  | JStr s => c ← pick (String.list_ascii_of_string s); Ret (JStr (String c EmptyString))
  | JObj _ => Raise (KeyError "bin")
  | _ => Raise (TypeError "object has no len()")
  end.

Definition least_multiplier : float := f_lit 1 6.

(** [_at(key)] *)
Definition multiplier_at (dev : obj) (b : Z) (key : string) : outcome float :=
  let arr := jget key dev in
  if negb (truthy arr) then Ret (f_of_Z 1)
  else
    v ← bin_value arr b;
    v ← py_float v;
    Ret (if flt least_multiplier v then v else least_multiplier).

(** The bin of a level: [min(num_bins - 1, int(frac * num_bins))] *)
Definition level_bin (num_bins level num_levels : Z) : outcome Z :=
  frac ← (if num_levels <=? 1 then Ret fzero
          else x ← int_truediv level num_levels; Ret (fmin (f_lit 999999 6) (fmax fzero x)));
  nb ← float_of_int num_bins;
  i ← int_of_float (fmul frac nb);
  Ret (Z.min (num_bins - 1) i).

Definition ones : float * float * float := (f_of_Z 1, f_of_Z 1, f_of_Z 1).

Definition within_batch_multiplier (trace : option obj) (device_id level num_levels : Z) :
    outcome (float * float * float) :=
  match trace with
  | None | Some [] => Ret ones
  | Some t =>
      match dict_get_default "devices" (JObj []) t with
      | JObj devices =>
          let dev := jget (str_of_Z device_id) devices in
          if negb (truthy dev) then Ret ones
          else
            num_bins ← py_int (dict_get_default "num_bins" (JInt 1) t);
            let num_bins := if num_bins =? 0 then 1 else num_bins in
            b ← level_bin num_bins level num_levels;
            match dev with
            | JObj dev =>
                fm ← multiplier_at dev b "flops_mult";
                um ← multiplier_at dev b "ul_bw_mult";
                dm ← multiplier_at dev b "dl_bw_mult";
                Ret (fm, um, dm)
            | _ => Raise (AttributeError "object has no attribute 'get'")
            end
      | _ => Raise (AttributeError "object has no attribute 'get'")
      end
  end.

Definition scale_phase (phase : string) (dur_us fm um dm : float) : outcome float :=
  if String.eqb phase "COMPUTE" then fdiv dur_us fm
  else if String.eqb phase "DOWNLOAD" then fdiv dur_us dm
  else if String.eqb phase "UPLOAD" then fdiv dur_us um
  else Ret dur_us.

(** *** Durations per entry *)

Definition phase_map : Type := list (string * float).

(** level, device, GEMM, type, stage, local *)
Definition phase_key : Type := Z * Z * Z * string * Z * bool.

Definition key_of (e : entry) : phase_key :=
  (level e, device_id e, gemm_id e, parallelism_type e, stage_id e, is_local e).

(** [vtime_phases[ev.gemm_id][ev.phase] += max(ev.vt_duration_us, 0)] *)
Definition add_event (d : list (Z * phase_map)) (ev : VTimeEvent) :
    outcome (list (Z * phase_map)) :=
  x ← float_of_int (Z.max (vt_duration_us ev) 0);
  Ret (add_nested (ev_gemm_id ev) (phase ev) x d).

Definition vtime_phases (events : list VTimeEvent) : outcome (list (Z * phase_map)) :=
  foldO add_event events [].

Definition durations : Type := list (phase_key * phase_map).

(** The inner loop over the phases of an entry *)
Definition add_scaled (key : phase_key) (m : float * float * float) (d : durations)
    (ph : string * float) : outcome durations :=
  let '(fm, um, dm) := m in
  x ← scale_phase ph.1 ph.2 fm um dm; Ret (add_nested key ph.1 x d).

Record options : Type := mk_options {
  opt_pp_size : option Z;
  opt_num_microbatches : option Z;
  opt_optimizer_tail_ms : option float;
  opt_device_profiles : option profiles;
  opt_bytes_per_element : float;
  opt_allreduce_bandwidth_bps : option float;
  opt_within_batch_trace : option obj;
}.

Definition device_profiles (o : options) : profiles := default [] (opt_device_profiles o).

Section durations.
Context (o : options) (num_levels : Z).

Definition entry_multiplier (e : entry) : outcome (float * float * float) :=
  within_batch_multiplier (opt_within_batch_trace o) (device_id e) (level e) num_levels.

Definition add_measured (phases : list (Z * phase_map)) (d : durations) (e : entry) :
    outcome durations :=
  match dict_get (gemm_id e) phases with
  | None => Ret d
  | Some m => x ← entry_multiplier e; foldO (add_scaled (key_of e) x) m d
  end.

Definition add_synthetic (d : durations) (e : entry) : outcome durations :=
  synthetic ← compute_analytical_phase_us e (device_profiles o) (opt_bytes_per_element o);
  x ← entry_multiplier e;
  foldO (add_scaled (key_of e) x) ((fun ph => (ph.1, fmax ph.2 fzero)) <$> synthetic) d.

Definition phase_us_by_key (events : list VTimeEvent) (entries : list entry) :
    outcome durations :=
  match events with
  | _ :: _ => phases ← vtime_phases events; foldO (add_measured phases) entries []
  | [] => foldO add_synthetic entries []
  end.
End durations.

(** ** Accounting *)

Record breakdown : Type := mk_breakdown {
  compute_ms : float;
  network_ms : float;
  total_ms : float;
}.

Definition no_breakdown : breakdown := mk_breakdown fzero fzero fzero.

(** The accumulators of [compute_batch_runtime] *)
Record totals : Type := mk_totals {
  per_device_breakdown : list (Z * breakdown);
  level_device_runtime_ms : list (Z * list (Z * float));
  stage_device_runtime_ms : list (Z * list (Z * float));
  stage_compute_ms : list (Z * float);
  stage_network_ms : list (Z * float);
  compute_time_ms : float;
  network_time_ms : float;
  allreduce_time_ms : float;
}.

Definition no_totals : totals := mk_totals [] [] [] [] [] fzero fzero fzero.

(** [level], [device] and [stage] are charged [c] of computation, [n] of network and
    [t] of elapsed time; [c] and [n] enter the batch's sums too. *)
Definition charge (level device stage : Z) (c n t : float) (s : totals) : totals :=
  mk_totals
    (dict_alter (fun o => let b := default no_breakdown o in
                          mk_breakdown (fadd (compute_ms b) c) (fadd (network_ms b) n)
                            (fadd (total_ms b) t)) device (per_device_breakdown s))
    (add_nested level device t (level_device_runtime_ms s))
    (add_nested stage device t (stage_device_runtime_ms s))
    (add_to stage c (stage_compute_ms s))
    (add_to stage n (stage_network_ms s))
    (fadd (compute_time_ms s) c) (fadd (network_time_ms s) n) (allreduce_time_ms s).

(** [phase_map.get(phase, 0.0) / 1000.0] *)
Definition phase_ms (m : phase_map) (ph : string) : outcome float :=
  fdiv (dict_get_default ph fzero m) (f_of_Z 1000).

(** One turn of the loop over the durations *)
Definition account (baseline : string) (s : totals) (kd : phase_key * phase_map) :
    outcome totals :=
  let '(level, device, _, ptype, stage, _) := kd.1 in
  send_ms ← phase_ms kd.2 "SEND";
  dl_ms ← phase_ms kd.2 "DOWNLOAD";
  comp_ms ← phase_ms kd.2 "COMPUTE";
  ul_ms ← phase_ms kd.2 "UPLOAD";
  recv_ms ← phase_ms kd.2 "RECEIVE";
  let xfer_ms := fadd (fadd (fadd send_ms dl_ms) ul_ms) recv_ms in
  if String.eqb baseline "cleave" then
    if negb (String.eqb ptype "cleave_tp") then Ret s
    else
      let effective_ms := fadd (fadd (fmax (fmax dl_ms comp_ms) ul_ms) send_ms) recv_ms in
      Ret (charge level device stage comp_ms xfer_ms effective_ms s)
  else
    let '(c, n) := if String.eqb ptype "pp_local" then (comp_ms, xfer_ms)
                   else if String.eqb ptype "pp_boundary" then (fzero, fadd comp_ms xfer_ms)
                   else (fzero, fzero) in
    Ret (charge level device stage c n (fadd c n) s).

(** The time of a collective is charged to every entry, and once per group to the
    batch. *)
Definition charge_collective (level device stage : Z) (ar_ms : float) (first : bool)
    (s : totals) : totals :=
  mk_totals
    (dict_alter (fun o => let b := default no_breakdown o in
                          mk_breakdown (compute_ms b) (fadd (network_ms b) ar_ms)
                            (fadd (total_ms b) ar_ms)) device (per_device_breakdown s))
    (add_nested level device ar_ms (level_device_runtime_ms s))
    (add_nested stage device ar_ms (stage_device_runtime_ms s))
    (stage_compute_ms s)
    (add_to stage ar_ms (stage_network_ms s))
    (compute_time_ms s) (network_time_ms s)
    (if first then fadd (allreduce_time_ms s) ar_ms else allreduce_time_ms s).

(** One turn of the loop over the entries, with the groups seen so far *)
Definition account_collective (o : options) (gs : groups) (st : totals * list group_key)
    (e : entry) : outcome (totals * list group_key) :=
  let '(s, seen) := st in
  if negb (is_allreduce e) then Ret (s, seen)
  else
    k ← collective_group_key e;
    ar_ms ← estimate_allreduce_ms e (dict_get_default k ∅ gs) (device_profiles o)
              (opt_bytes_per_element o) (opt_allreduce_bandwidth_bps o);
    if fle ar_ms fzero then Ret (s, seen)
    else
      let first := bool_decide (k ∉ seen) in
      Ret (charge_collective (level e) (device_id e) (stage_id e) ar_ms first s,
           if first then k :: seen else seen).

(** ** The result *)

(** [max(d.items(), key=lambda kv: kv[1])] *)
Definition max_item (d : list (Z * float)) : option (Z * float) :=
  match d with
  | [] => None
  | x :: d => Some (foldl (fun best kv => if flt best.2 kv.2 then kv else best) x d)
  end.

Record level_row : Type := mk_level_row {
  row_level : Z;
  runtime_ms : float;
  bottleneck_device : Z;
}.

Definition sorted_keys {V} (d : list (Z * V)) : list Z := sort_by Z.leb (dict_keys d).

(** A level without devices has no row. *)
Definition level_row_of (times : list (Z * list (Z * float))) (l : Z) : option level_row :=
  match max_item (dict_get_default l [] times) with
  | Some (d, t) => Some (mk_level_row l t d)
  | None => None
  end.

Definition level_rows (times : list (Z * list (Z * float))) : list level_row :=
  omap (level_row_of times) (sorted_keys times).

(** CPython 3.10's [sum] of floats, from the integer 0 *)
Definition py_sum (l : list float) : float := foldl fadd fzero l.

(** The argument, or the manifest's value for it *)
Definition pipeline_param (manifest : json) (k : string) (arg : option Z) :
    outcome (option Z) :=
  match arg, manifest with
  | None, JObj d => z ← to_int (jget k d) 0; Ret (Some z)
  | _, _ => Ret arg
  end.

Definition infer_pipeline_params (manifest : json) (entries : list entry)
    (pp_size_arg num_microbatches_arg : option Z) : outcome (Z * Z) :=
  pp_size ← pipeline_param manifest "pp_size" pp_size_arg;
  num_microbatches ← pipeline_param manifest "num_microbatches" num_microbatches_arg;
  let positive (o : option Z) dflt := match o with
                                      | Some z => if z <=? 0 then dflt else z
                                      | None => dflt
                                      end in
  let stages : gset Z := list_to_set (stage_id <$> entries) in
  Ret (positive pp_size (if decide (stages = ∅) then 1 else Z.of_nat (size stages)),
       positive num_microbatches 1).

Definition baseline_uses_pipeline_overlay (baseline_type : string) (pp_size : Z) : bool :=
  let b := lower baseline_type in
  if String.eqb b "cleave" then false
  else if contains "pp" b || mem b ["dtfm"; "asteroid"; "confident"; "alpa"] then true
  else 1 <? pp_size.

Definition bottleneck_stage_time (times : list (Z * list (Z * float))) : outcome float :=
  match times with
  | [] => Ret fzero
  | _ => of_option (ValueError "max() arg is an empty sequence")
           (fmax_list (omap (fun d => fmax_list (dict_values d)) (dict_values times)))
  end.

(** [max(pp_size - 1, 0) * t] and [num_microbatches * t + bubble] *)
Definition overlay (pp_size num_microbatches : Z) (t : float) : outcome (float * float) :=
  f ← float_of_int (Z.max (pp_size - 1) 0);
  let bubble := fmul f t in
  g ← float_of_int num_microbatches;
  Ret (fadd (fmul g t) bubble, bubble).

Record BatchRuntimeResult : Type := mk_BatchRuntimeResult {
  baseline_name : string;
  total_runtime_ms : float;
  r_compute_time_ms : float;
  r_network_time_ms : float;
  pipeline_bubble_ms : float;
  r_allreduce_time_ms : float;
  optimizer_tail_ms : float;
  r_per_device_breakdown : list (Z * breakdown);
  per_level_breakdown : list level_row;
}.

(** The total and the bubble *)
Definition total_runtime (o : options) (manifest : json) (baseline : string)
    (entries : list entry) (s : totals) (tail : float) : outcome (float * float) :=
  let level_times := runtime_ms <$> level_rows (level_device_runtime_ms s) in
  if String.eqb baseline "cleave" then Ret (fadd (py_sum level_times) tail, fzero)
  else
    '(pp_size, num_microbatches) ←
      infer_pipeline_params manifest entries (opt_pp_size o) (opt_num_microbatches o);
    if baseline_uses_pipeline_overlay baseline pp_size then
      t ← bottleneck_stage_time (stage_device_runtime_ms s);
      overlay pp_size num_microbatches t
    else Ret (py_sum level_times, fzero).

Definition optimizer_tail (o : options) (manifest : json) : outcome float :=
  inferred ← match manifest with
             | JObj d => to_float (jget "optimizer_tail_ms" d) fzero
             | _ => Ret fzero
             end;
  Ret match opt_optimizer_tail_ms o with
      | None => inferred
      | Some x => fmax x fzero
      end.

Definition make_result (baseline : string) (s : totals) (total bubble tail : float) :
    BatchRuntimeResult :=
  mk_BatchRuntimeResult baseline total (compute_time_ms s) (network_time_ms s) bubble
    (allreduce_time_ms s) (if String.eqb baseline "cleave" then tail else fzero)
    ((fun d => (d, dict_get_default d no_breakdown (per_device_breakdown s)))
       <$> sorted_keys (per_device_breakdown s))
    (level_rows (level_device_runtime_ms s)).

(** [max(e["level"] for e in entries) + 1] *)
Definition count_levels (entries : list entry) : Z := default 0 (max_list (level <$> entries)) + 1.

(** Both accounting loops, for entries that are already normalised *)
Definition account_entries (o : options) (baseline : string) (events : list VTimeEvent)
    (entries : list entry) : outcome totals :=
  gs ← build_collective_groups entries;
  d ← phase_us_by_key o (count_levels entries) events entries;
  s ← foldO (account baseline) d no_totals;
  '(s, _) ← foldO (account_collective o gs) entries (s, []);
  Ret s.

Definition compute_batch_runtime (repr : json -> string) (events : list VTimeEvent)
    (manifest : json) (baseline_type : string) (o : options) : outcome BatchRuntimeResult :=
  let baseline := lower baseline_type in
  raw_entries ← extract_manifest_entries manifest;
  entries ← mapO (normalize_entry repr) raw_entries;
  if bool_decide (entries = []) then Raise (ValueError "Manifest has no dispatch entries")
  else
    s ← account_entries o baseline events entries;
    tail ← optimizer_tail o manifest;
    '(total, bubble) ← total_runtime o manifest baseline entries s tail;
    Ret (make_result baseline s total bubble tail).

(** ** The report *)

Definition breakdown_json (b : breakdown) : json :=
  JObj [("compute_ms", JFloat (compute_ms b)); ("network_ms", JFloat (network_ms b));
        ("total_ms", JFloat (total_ms b))].

Definition row_json (r : level_row) : json :=
  JObj [("level", JInt (row_level r)); ("runtime_ms", JFloat (runtime_ms r));
        ("bottleneck_device", JInt (bottleneck_device r))].

(** [asdict(result)], its integer keys as [json.dump] writes them *)
Definition result_json (r : BatchRuntimeResult) : obj :=
  [("baseline_name", JStr (baseline_name r));
   ("total_runtime_ms", JFloat (total_runtime_ms r));
   ("compute_time_ms", JFloat (r_compute_time_ms r));
   ("network_time_ms", JFloat (r_network_time_ms r));
   ("pipeline_bubble_ms", JFloat (pipeline_bubble_ms r));
   ("allreduce_time_ms", JFloat (r_allreduce_time_ms r));
   ("optimizer_tail_ms", JFloat (optimizer_tail_ms r));
   ("per_device_breakdown",
    JObj ((fun kv => (str_of_Z kv.1, breakdown_json kv.2)) <$> r_per_device_breakdown r));
   ("per_level_breakdown", JList (row_json <$> per_level_breakdown r))].

(** [payload[k] = x / 1000.0] *)
Definition set_seconds (p : obj) (k : string) (x : float) : outcome obj :=
  s ← fdiv x (f_of_Z 1000); Ret (dict_set k (JFloat s) p).

Definition make_output_payload (r : BatchRuntimeResult) (used_vtime_log : bool)
    (manifest_path baseline_type : string) : outcome obj :=
  p ← foldO (fun p kx => set_seconds p kx.1 kx.2)
        [("total_runtime_s", total_runtime_ms r); ("compute_time_s", r_compute_time_ms r);
         ("network_time_s", r_network_time_ms r); ("pipeline_bubble_s", pipeline_bubble_ms r);
         ("allreduce_time_s", r_allreduce_time_ms r);
         ("optimizer_tail_s", optimizer_tail_ms r)]
        (result_json r);
  let p := dict_set "mode" (JStr (if used_vtime_log then "vtime" else "analytical")) p in
  let p := dict_set "manifest_path" (JStr manifest_path) p in
  Ret (dict_set "baseline_type" (JStr baseline_type) p).

Record arguments : Type := mk_arguments {
  arg_vtime_log : option string;
  arg_manifest : string;
  arg_baseline_type : string;
  arg_pp_size : option Z;
  arg_num_microbatches : option Z;
  arg_device_config : option string;
  arg_optimizer_tail_ms : option float;
  arg_bytes_per_element : float;
  arg_allreduce_bandwidth_bps : option float;
}.

Section main.
(** The file system, the JSON reader and [str] *)
Context (exists_ : string -> bool) (read_text : string -> outcome string)
  (json_loads : string -> outcome json) (repr : json -> string).

Definition load_json (path : string) : outcome json := text ← read_text path; json_loads text.

(** An option that is absent or empty *)
Definition given (o : option string) : option string :=
  match o with Some "" => None | _ => o end.

Definition load_profiles (path : option string) : outcome profiles :=
  match given path with
  | None => load_device_profiles None
  | Some path => raw ← load_json path; load_device_profiles (Some raw)
  end.

Definition load_events (path : option string) : outcome (list VTimeEvent) :=
  match given path with
  | None => Ret []
  | Some path =>
      if exists_ path then text ← read_text path; parse_vtime_log text
      else Raise (OSError ("VTIME log not found: " +:+ path))
  end.

(** [main] up to the writing of its payload *)
Definition main (args : arguments) : outcome obj :=
  if negb (exists_ (arg_manifest args)) then
    Raise (OSError ("Manifest not found: " +:+ arg_manifest args))
  else
    manifest ← load_json (arg_manifest args);
    device_profiles ← load_profiles (arg_device_config args);
    events ← load_events (arg_vtime_log args);
    result ← compute_batch_runtime repr events manifest (arg_baseline_type args)
      (mk_options (arg_pp_size args) (arg_num_microbatches args) (arg_optimizer_tail_ms args)
         (Some device_profiles) (arg_bytes_per_element args)
         (arg_allreduce_bandwidth_bps args) None);
    make_output_payload result (bool_decide (is_Some (given (arg_vtime_log args))))
      (arg_manifest args) (arg_baseline_type args).
End main.

(** ** What can be raised, and what is never negative *)

Definition documented (e : exn) : Prop :=
  match e with
  | OverflowError _ => True
  | ValueError m =>
      m ∈ ["Manifest must be a dict or list";
           "Could not locate dispatch entries in manifest JSON";
           "Manifest has no dispatch entries"]
  | TypeError m => m ∈ ["unhashable type: 'list'"; "unhashable type: 'dict'"]
  | _ => False
  end.

(** What a malformed within-batch trace raises *)
Definition trace_error (e : exn) : Prop :=
  match e with
  | ValueError _ | TypeError _ | OverflowError _ | AttributeError _ | IndexError _
  | KeyError _ => True
  | _ => False
  end.

Definition raised (o : options) (e : exn) : Prop :=
  documented e \/ is_Some (opt_within_batch_trace o) /\ trace_error e.

Definition nn (x : float) : Prop := not_neg x = true.
Definition nn_dict {K} (d : list (K * float)) : Prop := dict_all nn d.
Definition nn_nested {K K'} (d : list (K * list (K' * float))) : Prop := dict_all nn_dict d.

Definition nn_breakdown (b : breakdown) : Prop :=
  nn (compute_ms b) /\ nn (network_ms b) /\ nn (total_ms b).

Record nn_totals (s : totals) : Prop := {
  nn_device : dict_all nn_breakdown (per_device_breakdown s);
  nn_level : nn_nested (level_device_runtime_ms s);
  nn_stage : nn_nested (stage_device_runtime_ms s);
  stages_nonempty : dict_all (fun d => d <> []) (stage_device_runtime_ms s);
  nn_compute : nn (compute_time_ms s);
  nn_network : nn (network_time_ms s);
  nn_allreduce : nn (allreduce_time_ms s);
}.

#[local] Hint Unfold nn nn_dict nn_nested : morph.

Lemma nn_zero : nn fzero.
Proof. done. Qed.

Lemma nn_add x y : nn x -> nn y -> nn (fadd x y).
Proof. apply not_neg_add. Qed.

Lemma nn_add_to {K} `{EqDecision K} (k : K) x d : nn_dict d -> nn x -> nn_dict (add_to k x d).
Proof.
  intros Hd Hx. apply dict_all_alter; [done| |]; intros; apply nn_add; auto using nn_zero.
Qed.

Lemma nn_add_nested {K K'} `{EqDecision K, EqDecision K'} (k : K) (k' : K') x d :
  nn_nested d -> nn x -> nn_nested (add_nested k k' x d).
Proof.
  intros Hd Hx. apply dict_all_alter; [done| |]; intros; apply nn_add_to; auto.
  apply dict_all_nil.
Qed.

Lemma dict_set_nonempty {K V} `{EqDecision K} (k : K) (v : V) d : dict_set k v d <> [].
Proof. destruct d as [|[k' v'] d]; [done|]. cbn. by destruct (decide (k = k')). Qed.

(** A key of a nested [defaultdict] is only made together with an inner one. *)
Lemma add_nested_nonempty {K K'} `{EqDecision K, EqDecision K'} (k : K) (k' : K') x d :
  dict_all (fun d => d <> []) d -> dict_all (fun d => d <> []) (add_nested k k' x d).
Proof. intros Hd. apply dict_all_alter; [done| |]; intros; apply dict_set_nonempty. Qed.

#[local] Hint Resolve nn_zero nn_add nn_add_to nn_add_nested add_nested_nonempty : morph.

Lemma nn_breakdown_of (d : list (Z * breakdown)) k :
  dict_all nn_breakdown d -> nn_breakdown (dict_get_default k no_breakdown d).
Proof. intros Hd. by apply dict_all_get_default. Qed.

Lemma nn_charge l d st c n t s :
  nn_totals s -> nn c -> nn n -> nn t -> nn_totals (charge l d st c n t s).
Proof.
  intros [] Hc Hn Ht. split; cbn; auto with morph.
  apply dict_all_alter; [done| |]; [|intros b (?&?&?)]; split_and!; apply nn_add; done.
Qed.

Lemma nn_charge_collective l d st ar b s :
  nn_totals s -> nn ar -> nn_totals (charge_collective l d st ar b s).
Proof.
  intros [] Har. split; cbn; auto with morph.
  - apply dict_all_alter; [done| |]; [|intros ? (?&?&?)]; split_and!; first [done | by apply nn_add].
  - destruct b; auto with morph.
Qed.

Section raising.
Context (E : exn -> Prop) (HE : forall m, E (OverflowError m)).

Lemma float_of_int_owp z Q :
  (forall x, float_of_int z = Ret x -> Q x) -> owp (float_of_int z) Q E.
Proof.
  intros H. destruct (float_of_int z) as [x|e] eqn:Hf; [by apply H|].
  unfold float_of_int in Hf. destruct (f_of_Z z); simplify_eq; apply HE.
Qed.

Lemma int_of_float_errors x e :
  int_of_float x = Raise e -> type_or_value_error e = true \/ exists m, e = OverflowError m.
Proof. destruct x; cbn; intros [= <-]; eauto. Qed.

Lemma py_float_errors j e :
  py_float j = Raise e -> type_or_value_error e = true \/ exists m, e = OverflowError m.
Proof.
  destruct j; cbn; try (intros [= <-]; by left); try done.
  - unfold float_of_int. destruct (f_of_Z z); intros [= <-]; eauto.
  - destruct (float_of_str s); intros [= <-]; by left.
Qed.

Lemma py_int_errors j e :
  py_int j = Raise e -> type_or_value_error e = true \/ exists m, e = OverflowError m.
Proof.
  destruct j; cbn -[int_of_float]; try (intros [= <-]; by left); try done.
  - apply int_of_float_errors.
  - destruct (int_of_str s); intros [= <-]; by left.
Qed.

Lemma to_int_owp v d (Q : Z -> Prop) : (forall z, Q z) -> owp (to_int v d) Q E.
Proof.
  intros HQ. unfold to_int. destruct v as [|b|z|x|s|l|d'] eqn:Hv; [exact (HQ _)|..];
    rewrite <- Hv;
    (destruct (py_int v) as [z'|e] eqn:Hi; [exact (HQ _)|];
     destruct (py_int_errors _ _ Hi) as [->|[m ->]]; [|apply HE]; clear Hi;
     destruct (x ← py_float v; int_of_float x) as [z'|e'] eqn:Hf; [exact (HQ _)|];
     assert (type_or_value_error e' = true \/ exists m, e' = OverflowError m) as [->|[m ->]];
       [|exact (HQ _)|apply HE];
     destruct (py_float v) as [y|e''] eqn:Hp; cbn -[int_of_float] in Hf;
       [by apply int_of_float_errors in Hf|injection Hf as ->; by apply py_float_errors in Hp]).
Qed.

Lemma to_float_owp v d (Q : float -> Prop) : (forall x, Q x) -> owp (to_float v d) Q E.
Proof.
  intros HQ. unfold to_float. destruct v as [|b|z|x|s|l|d'] eqn:Hv; [exact (HQ _)|..];
    rewrite <- Hv;
    (destruct (py_float v) as [x'|e] eqn:Hi; [exact (HQ _)|];
     destruct (py_float_errors _ _ Hi) as [->|[m ->]]; [exact (HQ _)|apply HE]).
Qed.

Lemma normalize_entry_owp repr r : owp (normalize_entry repr r) (fun _ => True) E.
Proof.
  unfold normalize_entry.
  repeat (apply owp_bind; first [apply to_int_owp | apply to_float_owp]; intros ?).
  by apply owp_ret.
Qed.

(** *** Durations *)

Definition positive_multiplier (m : float * float * float) : Prop :=
  flt fzero m.1.1 = true /\ flt fzero m.1.2 = true /\ flt fzero m.2 = true.

Lemma scale_phase_owp ph x m Q :
  nn x -> positive_multiplier m -> (forall y, nn y -> Q y) ->
  owp (scale_phase ph x m.1.1 m.1.2 m.2) Q E.
Proof.
  intros Hx (H1&H2&H3) HQ. unfold scale_phase.
  assert (Hdiv : forall y, flt fzero y = true -> owp (fdiv x y) Q E).
  { intros y Hy. pose proof (fdiv_pos x y Hy). destruct (fdiv x y) as [z|e] eqn:Hd; [|done].
    apply HQ. by eapply not_neg_div. }
  repeat case_match; auto. by apply owp_ret, HQ.
Qed.

Lemma add_scaled_owp key m d ph :
  nn_nested d -> nn ph.2 -> positive_multiplier m -> owp (add_scaled key m d ph) nn_nested E.
Proof.
  intros Hd Hx Hm. destruct m as [[fm um] dm]. cbn [add_scaled].
  apply owp_bind, (scale_phase_owp _ _ (fm, um, dm)); [done..|]. intros y Hy.
  by apply owp_ret, nn_add_nested.
Qed.

Lemma add_event_owp d ev : nn_nested d -> owp (add_event d ev) nn_nested E.
Proof.
  intros Hd. apply owp_bind, float_of_int_owp. intros x Hx.
  apply owp_ret, nn_add_nested; [done|]. eapply not_neg_of_int; [|done]. lia.
Qed.

Lemma vtime_phases_owp events : owp (vtime_phases events) nn_nested E.
Proof. apply owp_foldO; [apply dict_all_nil|]. intros; by apply add_event_owp. Qed.

Lemma fdiv_pos_owp x y (Q : float -> Prop) :
  flt fzero y = true -> (forall z, Q z) -> owp (fdiv x y) Q E.
Proof. intros Hy HQ. pose proof (fdiv_pos x y Hy). destruct (fdiv x y); [exact (HQ _)|done]. Qed.

(** A quotient computed only behind a guard that includes the sign of the divisor *)
Lemma guarded_div_owp (g : bool) x y z f (Q : float -> Prop) :
  (g = true -> flt fzero y = true) -> (forall w, Q w) ->
  owp (if g then w ← fdiv x y; Ret (f w) else Ret z) Q E.
Proof.
  intros Hg HQ. destruct g; [|exact (HQ _)].
  apply owp_bind, fdiv_pos_owp; [auto|]. intros w. exact (HQ _).
Qed.

Lemma analytical_owp e ps b : owp (compute_analytical_phase_us e ps b) (fun _ => True) E.
Proof.
  unfold compute_analytical_phase_us. apply owp_bind.
  set (flops := get_float "flops" _).
  destruct (flt fzero flops && _ && _) eqn:Hg.
  1: apply andb_true_iff in Hg as [[Hf _]%andb_true_iff _]; apply fdiv_pos_owp; [done|]; intros ?.
  2: apply owp_ret.
  all: apply owp_bind, guarded_div_owp; [by intros [[? _]%andb_true_iff _]%andb_true_iff|];
    intros ?; apply owp_bind, guarded_div_owp; [by intros [? _]%andb_true_iff|]; done.
Qed.
End raising.

(** *** The within-batch trace *)

Lemma least_multiplier_pos : flt fzero least_multiplier = true.
Proof. by vm_compute. Qed.

Lemma py_index_owp {A} (l : list A) b (Q : A -> Prop) :
  (forall x, Q x) -> owp (py_index l b) Q trace_error.
Proof.
  intros HQ. unfold py_index. case_match; [done|].
  destruct (l !! _); [exact (HQ _)|done].
Qed.

Lemma bin_value_owp arr b : owp (bin_value arr b) (fun _ => True) trace_error.
Proof.
  destruct arr; try done; cbn [bin_value].
  - apply owp_bind. case_match; by apply py_index_owp.
  - case_match; by apply py_index_owp.
Qed.

Lemma multiplier_at_owp dev b key :
  owp (multiplier_at dev b key) (fun x => flt fzero x = true) trace_error.
Proof.
  unfold multiplier_at. case_match; [done|]. apply owp_bind.
  eapply owp_mono; [apply bin_value_owp| |done]. intros v _. apply owp_bind.
  destruct (py_float v) as [x|e] eqn:Hv; cbn [owp].
  - destruct (flt least_multiplier x) eqn:Hx; cbn [owp mret outcome_ret].
    + eapply flt_trans, Hx. apply least_multiplier_pos.
    + apply least_multiplier_pos.
  - apply py_float_errors in Hv as [Hv|[m ->]]; [|done]. by destruct e.
Qed.

Lemma level_bin_owp nb l nl : owp (level_bin nb l nl) (fun _ => True) trace_error.
Proof.
  unfold level_bin. apply owp_bind.
  assert (Hrest : forall frac,
    owp (nb' ← float_of_int nb; i ← int_of_float (fmul frac nb'); Ret (Z.min (nb - 1) i))
      (fun _ => True) trace_error).
  { intros frac. apply owp_bind, float_of_int_owp; [done|]. intros x _. apply owp_bind.
    by destruct (fmul frac x). }
  destruct (nl <=? 1) eqn:Hnl; [exact (Hrest _)|]. apply Z.leb_gt in Hnl.
  apply owp_bind. assert (owp (int_truediv l nl) (fun _ => True) trace_error) as H.
  { unfold int_truediv. destruct l, nl; try lia; try done; by destruct (f_quot_pos _ _ _). }
  eapply owp_mono; [exact H| |done]. intros x _. exact (Hrest _).
Qed.

Lemma within_batch_multiplier_owp (E : exn -> Prop) trace d l nl :
  (is_Some trace -> forall e, trace_error e -> E e) ->
  owp (within_batch_multiplier trace d l nl) positive_multiplier E.
Proof.
  intros HE. unfold within_batch_multiplier.
  destruct trace as [t|]; [|by repeat split]. specialize (HE ltac:(by eexists)).
  destruct t as [|kv t]; [by repeat split|].
  case_match; try (by apply HE).
  case_match; [by repeat split|]. apply owp_bind.
  destruct (py_int _) as [nb|e] eqn:Hnb; cbn [owp].
  2:{ apply HE. apply py_int_errors in Hnb as [Hnb|[m ->]]; [by destruct e|done]. }
  apply owp_bind. eapply owp_mono; [apply level_bin_owp| |done]. intros b _.
  case_match; try (by apply HE).
  do 3 (apply owp_bind; eapply owp_mono; [apply multiplier_at_owp| |done]; intros ??).
  by repeat split.
Qed.

(** *** Collectives *)

Section collectives.
Context (E : exn -> Prop) (HE : forall m, E (OverflowError m)).

Lemma collective_group_key_owp e (Q : group_key -> Prop) :
  (forall m, m ∈ ["unhashable type: 'list'"; "unhashable type: 'dict'"] -> E (TypeError m)) ->
  (forall k, Q k) -> owp (collective_group_key e) Q E.
Proof.
  clear HE. intros HT HQ. unfold collective_group_key. apply owp_bind.
  destruct (non_null _ _); try exact (HQ _); apply HT; set_solver.
Qed.

Lemma explicit_bytes_owp keys d : owp (explicit_bytes keys d) (fun _ => True) E.
Proof.
  induction keys as [|k keys IH]; cbn [explicit_bytes]; [done|].
  case_match; [done|..]; apply owp_bind, to_float_owp; try done; intros y; by case_match.
Qed.

Lemma entry_data_bytes_owp e b : owp (entry_data_bytes e b) (fun _ => True) E.
Proof.
  unfold entry_data_bytes. apply owp_bind.
  eapply owp_mono; [apply explicit_bytes_owp| |done]. intros o _. by repeat case_match.
Qed.

Lemma ring_bandwidth_owp e g ps o : owp (ring_bandwidth e g ps o) (fun _ => True) E.
Proof.
  unfold ring_bandwidth. apply owp_bind.
  case_match; [done|..]; apply owp_bind, to_float_owp; done.
Qed.

Lemma fdiv_nonzero_owp x y (Q : float -> Prop) :
  fle y fzero = false -> (forall z, Q z) -> owp (fdiv x y) Q E.
Proof. intros Hy HQ. destruct y; try exact (HQ _). by destruct s. Qed.

Lemma ring_ms_owp k x bw :
  1 < k -> fle bw fzero = false -> owp (ring_ms k x bw) (fun _ => True) E.
Proof.
  intros Hk Hbw. unfold ring_ms.
  apply owp_bind, float_of_int_owp; [done|]. intros k1 _.
  apply owp_bind, float_of_int_owp; [done|]. intros kf Hkf.
  apply owp_bind, fdiv_pos_owp; [apply (float_of_int_pos k); [lia|done]|]. intros y.
  apply owp_bind, fdiv_nonzero_owp; done.
Qed.

Lemma estimate_allreduce_ms_owp e g ps b o :
  owp (estimate_allreduce_ms e g ps b o) (fun _ => True) E.
Proof.
  unfold estimate_allreduce_ms. apply owp_bind, to_int_owp; [done|]. intros k.
  set (k' := if k <=? 0 then _ else k). clearbody k'.
  destruct (k' <=? 1) eqn:Hk; [done|]. apply Z.leb_gt in Hk.
  apply owp_bind. eapply owp_mono; [apply entry_data_bytes_owp| |done]. intros x _.
  case_match; [done|]. apply owp_bind. eapply owp_mono; [apply ring_bandwidth_owp| |done].
  intros [bw|] _; [|done]. destruct (fle bw fzero) eqn:Hbw; [done|]. by apply ring_ms_owp.
Qed.
End collectives.

(** *** The whole computation *)

Section whole.
Context (o : options).

Let E : exn -> Prop := raised o.

Lemma raised_overflow m : E (OverflowError m).
Proof. by left. Qed.

#[local] Hint Resolve raised_overflow : core.

Lemma entry_multiplier_owp nl e : owp (entry_multiplier o nl e) positive_multiplier E.
Proof. apply within_batch_multiplier_owp. intros Hs e' He. by right. Qed.

Lemma add_all_owp key m d (l : list (string * float)) :
  nn_nested d -> nn_dict l -> positive_multiplier m ->
  owp (foldO (add_scaled key m) l d) nn_nested E.
Proof.
  intros Hd Hl Hm. apply owp_foldO; [done|]. intros d' ph Hin Hd'.
  apply add_scaled_owp; [done| |done].
  unfold nn_dict, dict_all in Hl. rewrite Forall_forall in Hl. by apply Hl.
Qed.

Lemma phase_us_by_key_owp nl events entries :
  owp (phase_us_by_key o nl events entries) nn_nested E.
Proof.
  destruct events as [|ev events]; cbn [phase_us_by_key].
  - apply owp_foldO; [apply dict_all_nil|]. intros d e _ Hd. unfold add_synthetic.
    apply owp_bind. eapply (owp_mono _ _ _ E); [by apply analytical_owp| |done]. intros ph _.
    apply owp_bind. eapply owp_mono; [apply entry_multiplier_owp| |done]. intros m Hm.
    apply add_all_owp; [done| |done]. apply Forall_fmap, Forall_true. intros; apply not_neg_clamp.
  - apply owp_bind. eapply (owp_mono _ _ _ E); [by apply vtime_phases_owp| |done]. intros phs Hphs.
    apply owp_foldO; [apply dict_all_nil|]. intros d e _ Hd. unfold add_measured.
    destruct (dict_get _ phs) as [m|] eqn:Hg; [|done].
    apply owp_bind. eapply owp_mono; [apply entry_multiplier_owp| |done]. intros x Hx.
    apply add_all_owp; [done| |done]. exact (dict_all_get nn_dict _ _ _ Hphs Hg).
Qed.

Lemma phase_ms_owp m ph Q :
  nn_dict m -> (forall x, nn x -> Q x) -> owp (phase_ms m ph) Q E.
Proof.
  intros Hm HQ. unfold phase_ms. set (x := dict_get_default ph fzero m).
  assert (nn x) by (apply (dict_all_get_default nn); done).
  assert (Hp : flt fzero (f_of_Z 1000) = true) by (by vm_compute).
  pose proof (fdiv_pos x _ Hp). destruct (fdiv x (f_of_Z 1000)) as [y|] eqn:Hd; [|done].
  apply HQ. by eapply not_neg_div.
Qed.

Lemma account_owp baseline s kd :
  nn_totals s -> nn_dict kd.2 -> owp (account baseline s kd) nn_totals E.
Proof.
  destruct kd as [[[[[[l d] g] pt] st] loc] m]. intros Hs Hd. unfold account. cbn [fst snd] in *.
  do 5 (apply owp_bind, phase_ms_owp; [done|]; intros ??).
  repeat case_match; simplify_eq; apply owp_ret; try done; apply nn_charge; auto with morph;
    repeat (first [apply nn_add | apply not_neg_max]); done.
Qed.

Lemma account_collective_owp gs st e :
  nn_totals st.1 ->
  owp (account_collective o gs st e) (fun st => nn_totals st.1) E.
Proof.
  intros Hs. unfold account_collective. destruct st as [s seen].
  case_match; [done|].
  apply owp_bind, collective_group_key_owp; [intros; by left|]. intros k.
  apply owp_bind. eapply (owp_mono _ _ _ E); [by apply estimate_allreduce_ms_owp| |done].
  intros x _. destruct (fle x fzero) eqn:Hx; [done|].
  apply owp_ret, nn_charge_collective; [done|].
  unfold nn. by destruct x as [[]|[]| |[] m ex].
Qed.

Lemma build_collective_groups_owp entries :
  owp (build_collective_groups entries) (fun _ => True) E.
Proof.
  apply owp_foldO; [done|]. intros gs e _ _. unfold add_to_group. case_match; [|done].
  apply owp_bind, collective_group_key_owp; [intros; by left|done].
Qed.

Lemma account_entries_owp baseline events entries :
  owp (account_entries o baseline events entries) nn_totals E.
Proof.
  unfold account_entries. apply owp_bind.
  eapply owp_mono; [apply build_collective_groups_owp| |done]. intros gs _.
  apply owp_bind. eapply owp_mono; [apply phase_us_by_key_owp| |done]. intros d Hd.
  apply owp_bind. eapply owp_mono; [apply (owp_foldO nn_totals)| |done].
  { split; cbn; try apply dict_all_nil; done. }
  { intros s kd Hin Hs. apply account_owp; [done|].
    unfold nn_nested, dict_all in Hd. rewrite Forall_forall in Hd. by apply Hd. }
  intros s Hs. apply owp_bind.
  eapply owp_mono; [apply (owp_foldO (fun st => nn_totals st.1))| |done]; [done| |].
  - intros st e _ Hst. by apply account_collective_owp.
  - by intros [s' seen] ?.
Qed.

Lemma extract_owp manifest : owp (extract_manifest_entries manifest) (fun _ => True) E.
Proof.
  unfold extract_manifest_entries. repeat case_match; try done; cbn; left; cbn; set_solver.
Qed.

Lemma optimizer_tail_owp manifest :
  owp (optimizer_tail o manifest)
    (fun t => is_Some (opt_optimizer_tail_ms o) -> nn t) E.
Proof.
  unfold optimizer_tail. apply owp_bind.
  assert (forall x : float, owp (Ret match opt_optimizer_tail_ms o with
                                     | None => x | Some y => fmax y fzero end)
            (fun t => is_Some (opt_optimizer_tail_ms o) -> nn t) E) as H.
  { intros x. destruct (opt_optimizer_tail_ms o); intros [? [=]]. apply not_neg_clamp. }
  destruct manifest; try exact (H _). apply to_float_owp; [done|]. exact H.
Qed.

Lemma foldl_pick {A} (f : A -> A -> A) (P : A -> Prop) l x :
  (forall a b, f a b = a \/ f a b = b) -> P x -> Forall P l -> P (foldl f x l).
Proof.
  intros Hf Hx Hl. apply foldl_invariant; [done|]. intros a b Hin Ha.
  destruct (Hf a b) as [->| ->]; [done|]. by eapply Forall_forall in Hl.
Qed.

Lemma max_item_elem d kv : max_item d = Some kv -> kv ∈ d.
Proof.
  destruct d as [|x d]; intros [= <-].
  apply (foldl_pick _ (fun kv => kv ∈ x :: d)); [|by left|by apply Forall_forall; right].
  intros a b. destruct (flt a.2 b.2); auto.
Qed.

Lemma level_rows_nn times :
  nn_nested times -> Forall (fun r => nn (runtime_ms r)) (level_rows times).
Proof.
  intros Ht. unfold level_rows. rewrite Forall_forall. intros r Hr.
  apply list_elem_of_omap in Hr as (l & _ & Hr). unfold level_row_of in Hr.
  destruct (max_item _) as [[d x]|] eqn:Hm; simplify_eq. cbn [runtime_ms].
  apply max_item_elem in Hm.
  assert (nn_dict (dict_get_default l [] times)) as Hd
    by (apply (dict_all_get_default nn_dict); [done|constructor]).
  unfold nn_dict, dict_all in Hd. rewrite Forall_forall in Hd. apply (Hd _ Hm).
Qed.

Lemma py_sum_nn l : Forall nn l -> nn (py_sum l).
Proof.
  intros Hl. unfold py_sum. apply foldl_invariant; [done|].
  intros b a Hin Hb. apply nn_add; [done|]. by eapply Forall_forall in Hl.
Qed.

Lemma fmax_list_nn l x : Forall nn l -> fmax_list l = Some x -> nn x.
Proof.
  destruct l as [|y l]; [done|]. intros [Hy Hl]%Forall_cons [= <-].
  apply foldl_pick; auto. intros a b. unfold fmax. destruct (flt a b); auto.
Qed.

Lemma bottleneck_stage_time_owp times :
  nn_nested times -> dict_all (fun d => d <> []) times ->
  owp (bottleneck_stage_time times) nn E.
Proof.
  intros Ht Hne. unfold bottleneck_stage_time.
  assert (Hall : Forall nn (omap (fun d : list (Z * float) => fmax_list (dict_values d))
                              (dict_values times))).
  { rewrite Forall_forall. intros x (d & Hd & Hx)%list_elem_of_omap.
    apply list_elem_of_fmap in Hd as ([k d'] & -> & Hd).
    unfold nn_nested, dict_all in Ht. rewrite Forall_forall in Ht.
    eapply fmax_list_nn, Hx. apply Forall_fmap. apply (Ht _ Hd). }
  destruct times as [|[k d] times]; [done|].
  apply Forall_cons in Hne as [Hd _]. destruct d as [|[k' x'] d]; [done|].
  cbn [dict_values fmap list_fmap omap list_omap snd fmax_list of_option owp] in *.
  apply Forall_cons in Hall as [Hx Hall].
  apply foldl_pick; [|done|done]. intros a b. unfold fmax. destruct (flt a b); auto.
Qed.

Lemma infer_pipeline_params_owp manifest entries pp mb :
  owp (infer_pipeline_params manifest entries pp mb) (fun r => 1 <= r.2) E.
Proof.
  unfold infer_pipeline_params.
  assert (Hf : forall k arg (Q : option Z -> Prop), (forall z, Q z) ->
    owp (pipeline_param manifest k arg) Q E).
  { intros k arg Q HQ. unfold pipeline_param. destruct arg; [exact (HQ _)|].
    destruct manifest; try exact (HQ _).
    apply owp_bind, to_int_owp; [done|]. intros z. exact (HQ _). }
  apply owp_bind, Hf. intros p. apply owp_bind, Hf. intros q. apply owp_ret. cbn [snd].
  destruct q as [z|]; [|done]. destruct (z <=? 0) eqn:Hz; [done|]. apply Z.leb_gt in Hz. lia.
Qed.

Lemma overlay_owp pp mb t :
  0 <= mb -> nn t -> owp (overlay pp mb t) (fun r => nn r.1 /\ nn r.2) E.
Proof.
  intros Hmb Ht. unfold overlay.
  apply owp_bind, float_of_int_owp; [done|]. intros x Hx.
  apply owp_bind, float_of_int_owp; [done|]. intros y Hy. apply owp_ret. cbn [fst snd].
  assert (nn x) by (eapply not_neg_of_int, Hx; lia).
  assert (nn y) by (eapply not_neg_of_int, Hy; lia).
  split; [apply nn_add|]; by apply not_neg_mul.
Qed.

Lemma total_runtime_owp manifest baseline entries s tail :
  nn_totals s ->
  owp (total_runtime o manifest baseline entries s tail)
    (fun r => (baseline <> "cleave" \/ nn tail -> nn r.1) /\ nn r.2) E.
Proof.
  intros Hs. unfold total_runtime.
  set (times := runtime_ms <$> level_rows (level_device_runtime_ms s)).
  assert (Hsum : nn (py_sum times)).
  { apply py_sum_nn, Forall_fmap, level_rows_nn, nn_level, Hs. }
  destruct (String.eqb_spec baseline "cleave") as [->|Hb].
  { apply owp_ret. cbn [fst snd]. split; [|done]. intros [?|?]; [done|by apply nn_add]. }
  apply owp_bind. eapply owp_mono; [apply infer_pipeline_params_owp| |done].
  intros [pp mb] Hmb. cbn [snd] in Hmb. case_match; [|by apply owp_ret].
  apply owp_bind. eapply owp_mono; [apply bottleneck_stage_time_owp; apply Hs| |done].
  intros t Ht. eapply owp_mono; [apply overlay_owp; [lia|done]| |done].
  intros [a b] [Ha Hb']. by split.
Qed.
End whole.

(** Every time a result reports, the total apart *)
Record not_negative (r : BatchRuntimeResult) : Prop := {
  nn_r_compute : nn (r_compute_time_ms r);
  nn_r_network : nn (r_network_time_ms r);
  nn_r_allreduce : nn (r_allreduce_time_ms r);
  nn_r_bubble : nn (pipeline_bubble_ms r);
  nn_r_devices : dict_all nn_breakdown (r_per_device_breakdown r);
  nn_r_levels : Forall (fun row => nn (runtime_ms row)) (per_level_breakdown r);
}.

Lemma compute_batch_runtime_owp repr events manifest baseline_type o :
  owp (compute_batch_runtime repr events manifest baseline_type o)
    (fun r => not_negative r /\
              (lower baseline_type <> "cleave" \/ is_Some (opt_optimizer_tail_ms o) ->
               nn (total_runtime_ms r))) (raised o).
Proof.
  unfold compute_batch_runtime. apply owp_bind.
  eapply owp_mono; [apply extract_owp| |done]. intros raws _.
  apply owp_bind. eapply (owp_mono _ _ _ (raised o));
    [apply (owp_mapO (fun _ => True)); intros; apply normalize_entry_owp, raised_overflow| |done].
  intros entries _. case_match; [cbn; left; cbn; set_solver|].
  apply owp_bind. eapply owp_mono; [apply account_entries_owp| |done]. intros s Hs.
  apply owp_bind. eapply owp_mono; [apply optimizer_tail_owp| |done]. intros tail Htail.
  apply owp_bind. eapply owp_mono; [by apply total_runtime_owp| |done].
  intros [total bubble] [Ht Hb]. apply owp_ret. cbn [fst snd] in *.
  split; [|cbn; intros [?|?]; apply Ht; auto].
  split; cbn; try apply Hs; [done| |apply level_rows_nn, Hs].
  apply Forall_fmap, Forall_forall. intros d _. cbn. apply nn_breakdown_of, Hs.
Qed.

(** No time a batch result reports is negative: the sums of computation,
    network and collectives, the pipeline bubble, every device's breakdown and every
    level's runtime are zero, positive or (after an overflow to infinity) NaN; so is
    the total, unless the batch is a [cleave] one whose optimizer tail is read from
    the manifest. *)
Theorem batch_times_not_negative repr events manifest baseline_type o r :
  compute_batch_runtime repr events manifest baseline_type o = Ret r ->
  not_negative r /\
  (lower baseline_type <> "cleave" \/ is_Some (opt_optimizer_tail_ms o) ->
   not_neg (total_runtime_ms r) = true).
Proof.
  intros Hr. pose proof (compute_batch_runtime_owp repr events manifest baseline_type o) as H.
  by rewrite Hr in H.
Qed.

(** C9: the exceptions of [compute_batch_runtime].  Whatever the log, the manifest and
    the profiles hold, it raises only [ValueError] for a manifest without entries,
    [TypeError] for a group id that is not hashable and [OverflowError] for numbers
    outside the floats; a malformed within-batch trace adds the errors of its look-ups.
    In particular no division by zero and no maximum of an empty sequence occurs. *)
Theorem batch_runtime_errors repr events manifest baseline_type o e :
  compute_batch_runtime repr events manifest baseline_type o = Raise e -> raised o e.
Proof.
  intros Hr. pose proof (compute_batch_runtime_owp repr events manifest baseline_type o) as H.
  by rewrite Hr in H.
Qed.

(** *** The rows of the levels *)

(** No element is above the chosen one. *)
Lemma max_item_greatest d kv : max_item d = Some kv -> Forall (fun x => flt kv.2 x.2 = false) d.
Proof.
  destruct d as [|x d]; intros [= <-].
  assert (H : forall (m : list (Z * float)) best seen,
    Forall (fun x => flt best.2 x.2 = false) seen ->
    Forall (fun x => flt (foldl (fun best kv => if flt best.2 kv.2 then kv else best) best m).2
                       x.2 = false) (seen ++ m)).
  { induction m as [|y m IH]; intros best seen Hs; [by rewrite app_nil_r|].
    cbn [foldl]. replace (seen ++ y :: m) with ((seen ++ [y]) ++ m) by (by rewrite <- app_assoc).
    destruct (flt best.2 y.2) eqn:Hb; apply IH; apply Forall_app.
    - split; [|constructor; [apply flt_irrefl|constructor]].
      eapply Forall_impl; [exact Hs|]. intros z Hz. cbn beta in *.
      destruct (flt y.2 z.2) eqn:Hyz; [|done]. by rewrite (flt_trans _ _ _ Hb Hyz) in Hz.
    - split; [done|]. by repeat constructor. }
  apply (H d x [x]). repeat constructor. apply flt_irrefl.
Qed.

(** The devices of a level and their times, as a finished computation has them *)
Definition levels_wf (times : list (Z * list (Z * float))) : Prop :=
  dict_wf times /\ dict_all (fun d => d <> []) times.

Lemma levels_wf_add l d x times : levels_wf times -> levels_wf (add_nested l d x times).
Proof. intros [Hw Hn]. split; [by apply dict_wf_alter|by apply add_nested_nonempty]. Qed.

Lemma account_wf baseline s kd E :
  E = (fun _ => True) -> levels_wf (level_device_runtime_ms s) ->
  owp (account baseline s kd) (fun s => levels_wf (level_device_runtime_ms s)) E.
Proof.
  intros -> Hs. destruct kd as [[[[[[l d] g] pt] st] loc] m]. unfold account. cbn [fst snd] in *.
  do 5 (apply owp_bind; destruct (phase_ms _ _); [|done]; cbn [owp]).
  repeat case_match; simplify_eq; try done; by apply levels_wf_add.
Qed.

Lemma account_entries_wf o baseline events entries s :
  account_entries o baseline events entries = Ret s -> levels_wf (level_device_runtime_ms s).
Proof.
  assert (owp (account_entries o baseline events entries)
            (fun s => levels_wf (level_device_runtime_ms s)) (fun _ => True)) as H.
  2:{ intros Hs. by rewrite Hs in H. }
  unfold account_entries.
  apply owp_bind. destruct (build_collective_groups entries) as [gs|]; [|done]. cbn [owp].
  apply owp_bind. destruct (phase_us_by_key _ _ _ _) as [d|]; [|done]. cbn [owp].
  apply owp_bind. eapply (owp_mono _ _ _ (fun _ => True));
    [apply (owp_foldO (fun s => levels_wf (level_device_runtime_ms s)))| |done].
  { split; constructor. }
  { intros s' kd _ Hs'. by apply account_wf. }
  intros s' Hs'. apply owp_bind. eapply (owp_mono _ _ _ (fun _ => True));
    [apply (owp_foldO (fun st => levels_wf (level_device_runtime_ms st.1)))| |done]; [done| |].
  - intros [t seen] e _ Ht. unfold account_collective. destruct (negb _); [exact Ht|].
    apply owp_bind. destruct (collective_group_key e); [|done]. cbn [owp].
    apply owp_bind. destruct (estimate_allreduce_ms _ _ _ _ _) as [x|]; [|done]. cbn [owp].
    destruct (fle x fzero); [exact Ht|]. by apply levels_wf_add.
  - by intros [s'' seen] ?.
Qed.

Lemma level_rows_levels times :
  levels_wf times -> row_level <$> level_rows times = sorted_keys times.
Proof.
  intros [Hw Hn].
  assert (H : forall ls, (forall l, l ∈ ls -> l ∈ dict_keys times) ->
    row_level <$> (omap (level_row_of times) ls : list level_row) = ls).
  { induction ls as [|l ls IH]; intros Hin; [done|]. cbn [omap list_omap].
    destruct (proj2 (dict_get_is_Some times l) (Hin l ltac:(left))) as [d Hd].
    unfold level_row_of at 1, dict_get_default. rewrite Hd. cbn [default from_option].
    pose proof (dict_all_get (fun d => d <> []) _ _ _ Hn Hd) as Hne.
    destruct d as [|kv d]; [done|]. cbn [max_item id].
    destruct (foldl _ kv d) as [dev t]. cbn [fmap list_fmap row_level]. f_equal.
    apply IH. intros; apply Hin. by right. }
  apply H. intros l. apply elem_of_sort_by.
Qed.

Lemma level_rows_spec times row :
  row ∈ level_rows times ->
  exists d, dict_get (row_level row) times = Some d /\
            (bottleneck_device row, runtime_ms row) ∈ d /\
            Forall (fun kv => flt (runtime_ms row) kv.2 = false) d.
Proof.
  unfold level_rows. intros (l & Hl & Hr)%list_elem_of_omap. unfold level_row_of in Hr.
  destruct (max_item _) as [[dev t]|] eqn:Hm; simplify_eq. cbn.
  unfold dict_get_default in Hm. destruct (dict_get l times) as [d|]; [|done]. cbn in Hm.
  exists d. split; [done|]. split; [by apply max_item_elem|by apply max_item_greatest in Hm].
Qed.

Lemma sorted_keys_sorted {V} (d : list (Z * V)) :
  dict_wf d -> StronglySorted Z.lt (sorted_keys d).
Proof.
  intros Hw. unfold sorted_keys.
  pose proof (sort_by_sorted Z.leb ltac:(intros; rewrite !Z.leb_le; lia)
                ltac:(intros ???; rewrite !Z.leb_le; lia) (dict_keys d)) as Hs.
  assert (Hnd : NoDup (sort_by Z.leb (dict_keys d))) by (by rewrite sort_by_perm).
  induction Hs as [|x l Hs IH Hf]; [constructor|].
  apply NoDup_cons in Hnd as [Hx Hnd]. constructor; [auto|].
  rewrite Forall_forall in *. intros y Hy. specialize (Hf y Hy). apply Z.leb_le in Hf.
  assert (x <> y) by (by intros ->). lia.
Qed.

(** The level rows of a result.  They are in increasing order of level, one for
    each level that was charged any time; a row's bottleneck is a device of its level,
    its runtime is that device's time there, and no device of the level has a larger
    one. *)
Theorem batch_level_rows repr events manifest baseline_type o r :
  compute_batch_runtime repr events manifest baseline_type o = Ret r ->
  exists entries s,
    mbind (mapO (normalize_entry repr)) (extract_manifest_entries manifest) = Ret entries /\
    account_entries o (lower baseline_type) events entries = Ret s /\
    StronglySorted Z.lt (row_level <$> per_level_breakdown r) /\
    (forall l, l ∈ row_level <$> per_level_breakdown r <->
               l ∈ dict_keys (level_device_runtime_ms s)) /\
    (forall row, row ∈ per_level_breakdown r ->
     exists times, dict_get (row_level row) (level_device_runtime_ms s) = Some times /\
       (bottleneck_device row, runtime_ms row) ∈ times /\
       Forall (fun kv => flt (runtime_ms row) kv.2 = false) times).
Proof.
  unfold compute_batch_runtime.
  destruct (extract_manifest_entries manifest) as [raws|]; cbn [mbind outcome_bind]; [|done].
  destruct (mapO _ raws) as [entries|]; cbn [mbind outcome_bind]; [|done].
  case_match; [done|].
  destruct (account_entries _ _ _ _) as [s|] eqn:Hs; cbn [mbind outcome_bind]; [|done].
  destruct (optimizer_tail _ _) as [tail|]; cbn [mbind outcome_bind]; [|done].
  destruct (total_runtime _ _ _ _ _ _) as [[total bubble]|]; cbn [mbind outcome_bind]; [|done].
  intros [= <-]. exists entries, s. pose proof (account_entries_wf _ _ _ _ _ Hs) as Hw.
  cbn [per_level_breakdown make_result].
  rewrite level_rows_levels by done. split_and!; [done|done| | |].
  - apply sorted_keys_sorted, Hw.
  - intros l. apply elem_of_sort_by.
  - apply level_rows_spec.
Qed.

(** *** Reading what the synchronisation script writes *)

(** What the accounting keeps of a synchronised event *)
Definition measured (e : VTimeSync.VTEvent) : option VTimeEvent :=
  let ph := upper (strip (VTimeSync.phase e)) in
  if String.eqb (upper (strip (VTimeSync.event e))) "END" && mem ph PHASES
  then Some (mk_VTimeEvent (VTimeSync.v_timestamp_us e) (VTimeSync.v_device_id e)
               (VTimeSync.v_gemm_id e) ph "END" (VTimeSync.vt_start_us e)
               (VTimeSync.vt_end_us e) (VTimeSync.vt_duration_us e))
  else None.

Lemma to_int_str_of_Z z d : to_int (JStr (str_of_Z z)) d = Ret z.
Proof. unfold to_int. cbn [py_int]. by rewrite int_of_str_of_Z. Qed.

Lemma parse_rendered line_no e :
  no_char "," (VTimeSync.phase e) = true -> no_char "," (VTimeSync.event e) = true ->
  parse_vtime_line line_no (VTimeSync.render_vtime e) = Ret (measured e).
Proof.
  intros Hp He. unfold parse_vtime_line.
  rewrite VTimeSync.render_vtime_strip, VTimeSync.render_vtime_split by done.
  change (is_empty (VTimeSync.render_vtime e)) with false.
  change (startswith "VTIME" (VTimeSync.render_vtime e)) with true.
  cbn [orb negb]. unfold vtime_fields. rewrite !to_int_str_of_Z.
  cbn [mbind outcome_bind]. unfold measured.
  destruct (String.eqb_spec (upper (strip (VTimeSync.event e))) "END") as [->|]; cbn [andb negb];
    [|done].
  by destruct (mem _ PHASES).
Qed.

(** ** Examples *)

Definition demo_repr (j : json) : string := "?".

Definition demo_entry (gemm level device : Z) (ptype : string) (more : obj) : json :=
  JObj ([("gemm_id", JInt gemm); ("level", JInt level); ("device_id", JStr (str_of_Z device));
         ("parallelism_type", JStr ptype); ("alpha", JInt 1000); ("beta", JFloat (f_of_Z 1000));
         ("n", JInt 10)] ++ more)%list.

Definition demo_manifest (tail : json) : json :=
  JObj [("optimizer_tail_ms", tail);
        ("levels", JList
           [JObj [("level", JInt 0);
                  ("entries", JList
                     [JObj [("gemm_id", JInt 1); ("device_id", JInt 0); ("type", JStr "Cleave_TP")];
                      JObj [("gemm_id", JInt 1); ("device_id", JInt 1);
                            ("parallelism_type", JStr "cleave_tp")]])];
            JObj [("level", JInt 1);
                  ("entries", JList
                     [demo_entry 2 1 1 "cleave_tp" [];
                      demo_entry 3 1 0 "dp_allreduce"
                        [("group_size", JInt 4); ("bandwidth_bps", JInt 1000000)]])]])].

Definition demo_events : list VTimeEvent :=
  [mk_VTimeEvent 0 0 1 "DOWNLOAD" "END" 0 4000 4000;
   mk_VTimeEvent 0 0 1 "COMPUTE" "END" 4000 9000 5000;
   mk_VTimeEvent 0 0 2 "UPLOAD" "END" 0 7000 7000].

Definition demo_options : options := mk_options None None None None (f_of_Z 2) None None.

Lemma demo_ok :
  compute_batch_runtime demo_repr demo_events (demo_manifest (JInt 1)) "CLEAVE" demo_options
  = Ret (mk_BatchRuntimeResult "cleave" (f_of_Z 3006) (f_of_Z 10) (f_of_Z 15) fzero
           (f_of_Z 3000) (f_of_Z 1)
           [(0, mk_breakdown (f_of_Z 5) (f_of_Z 3004) (f_of_Z 3005));
            (1, mk_breakdown (f_of_Z 5) (f_of_Z 11) (f_of_Z 12))]
           [mk_level_row 0 (f_of_Z 5) 0; mk_level_row 1 (f_of_Z 3000) 0]).
Proof. vm_compute. reflexivity. Qed.

Lemma batch_times_not_negative_witness :
  exists r, compute_batch_runtime demo_repr demo_events (demo_manifest (JInt 1)) "CLEAVE"
              (mk_options None None (Some (f_of_Z 2)) None (f_of_Z 2) None None) = Ret r /\
            not_neg (total_runtime_ms r) = true.
Proof.
  eexists. split; [vm_compute; reflexivity|].
  eapply (batch_times_not_negative demo_repr demo_events (demo_manifest (JInt 1)) "CLEAVE"
            (mk_options None None (Some (f_of_Z 2)) None (f_of_Z 2) None None)).
  - vm_compute; reflexivity.
  - right. eexists. reflexivity.
Defined.

(** The tail of the manifest is not clamped, so the total can be negative. *)
Example negative_total :
  (total_runtime_ms <$> (match compute_batch_runtime demo_repr demo_events
      (demo_manifest (JInt (-10000))) "cleave" demo_options with Ret r => Some r | _ => None end))
  = Some (f_of_Z (-6995)).
Proof. vm_compute. reflexivity. Qed.

Lemma batch_level_rows_witness :
  exists r, compute_batch_runtime demo_repr demo_events (demo_manifest (JInt 1)) "CLEAVE"
              demo_options = Ret r /\ StronglySorted Z.lt (row_level <$> per_level_breakdown r).
Proof.
  eexists. split; [exact demo_ok|].
  destruct (batch_level_rows demo_repr demo_events (demo_manifest (JInt 1)) "CLEAVE"
              demo_options _ demo_ok) as (entries & s & _ & _ & H & _).
  exact H.
Defined.

Lemma batch_runtime_errors_witness :
  exists e, compute_batch_runtime demo_repr [] (JList [demo_entry 1 0 0 "dp_allreduce"
              [("group_id", JList [])]]) "dtfm" demo_options = Raise e /\ raised demo_options e.
Proof.
  eexists. split; [vm_compute; reflexivity|].
  apply (batch_runtime_errors demo_repr [] (JList [demo_entry 1 0 0 "dp_allreduce"
           [("group_id", JList [])]]) "dtfm" demo_options).
  vm_compute. reflexivity.
Defined.
