(* ===== verification/GemmShapes.v ===== *)
(** * GEMM shapes of a model ([utils/hfparser.py])

    The dimensions of every matrix product of a transformer layer, forward and
    backward, and the shapes of the blocks the products are sharded into.  The
    Hugging Face configuration is a parameter; a shape is the list of its
    dimensions. *)

From Stdlib Require Import Ascii.
From S2P Require Import Prelude PyDict PyStr.

(** What [AutoConfig.from_pretrained] returns: the architectures and the integer
    attributes *)
Record PretrainedConfig : Type := mk_PretrainedConfig {
  architectures : list string;
  attribute : string -> option Z;
}.

Record model_meta : Type := mk_model_meta {
  model_type : string;
  d_model : Z;
  d_ffn : Z;
  n_head : Z;
  n_layer : Z;
  n_kv_head : Z;
}.

Definition attr (config : PretrainedConfig) (name : string) : outcome Z :=
  of_option (AttributeError ("'PretrainedConfig' object has no attribute " +:+ name))
    (attribute config name).

(** [config.architectures[0].split("F")[0].lower()] *)
Definition architecture_type (config : PretrainedConfig) : outcome string :=
  match architectures config with
  | [] => Raise (IndexError "list index out of range")
  | a :: _ => match split_on "F"%char a with
              | p :: _ => Ret (lower p)
              | [] => Raise (IndexError "list index out of range")
              end
  end.

Section parser.
(** [AutoConfig.from_pretrained] *)
Context (from_pretrained : string -> outcome PretrainedConfig).

Definition parse_model_meta (model_name : string) : outcome model_meta :=
  config ← from_pretrained model_name;
  model_type ← architecture_type config;
  if String.eqb model_type "opt" then
    d_model ← attr config "hidden_size";
    d_ffn ← attr config "ffn_dim";
    n_head ← attr config "num_attention_heads";
    n_layer ← attr config "num_hidden_layers";
    Ret (mk_model_meta model_type d_model d_ffn n_head n_layer 0)
  else if String.eqb model_type "llama" then
    d_model ← attr config "hidden_size";
    d_ffn ← attr config "intermediate_size";
    n_head ← attr config "num_attention_heads";
    n_layer ← attr config "num_hidden_layers";
    n_kv_head ← attr config "num_key_value_heads";
    Ret (mk_model_meta model_type d_model d_ffn n_head n_layer n_kv_head)
  else Raise (ValueError ("Model type not supported " +:+ model_type)).

Definition shape : Type := list Z.
Definition gemm : Type := shape * shape.

(** The products both model types have *)
Definition attention_shapes (b s d h hd : Z) : list (string * gemm) :=
  [("fw_attn_qkvo", ([b; s; d], [d; d]));
   ("fw_attn_weight", ([b; h; s; hd], [b; h; hd; s]));
   ("fw_attn_output", ([b; h; s; s], [b; h; s; hd]));
   ("bw_input_attn_qkvo", ([b; s; d], [d; d]));
   ("bw_weight_attn_qkvo", ([b; d; s], [b; s; d]));
   ("bw_input_attn_weight", ([b; h; s; hd], [b; h; hd; s]));
   ("bw_weight_attn_weight", ([b; h; s; s], [b; h; s; hd]));
   ("bw_input_attn_output", ([b; h; s; s], [b; h; s; hd]));
   ("bw_weight_attn_output", ([b; h; s; hd], [b; h; hd; s]))]%string.

Definition mlp_shapes (b s d f : Z) : list (string * gemm) :=
  [("fw_mlp_up", ([b; s; d], [d; f]));
   ("fw_mlp_down", ([b; s; f], [f; d]));
   ("bw_input_mlp_up", ([b; s; f], [f; d]));
   ("bw_weight_mlp_up", ([b; f; s], [b; s; d]));
   ("bw_input_mlp_down", ([b; s; d], [d; f]));
   ("bw_weight_mlp_down", ([b; d; s], [b; s; f]))]%string.

(** [d[k] = d[k']] for a key that is there *)
Definition copy_key (k k' : string) (d : list (string * gemm)) : list (string * gemm) :=
  match dict_get k' d with Some v => dict_set k v d | None => d end.

Definition parse_gemm_shapes (model_name : string) (batch_size seq_len : Z) :
    outcome (list (string * gemm)) :=
  meta ← parse_model_meta model_name;
  if n_head meta =? 0 then
    Raise (ZeroDivisionError "integer division or modulo by zero")
  else
    let head_dim := d_model meta / n_head meta in
    let shapes := attention_shapes batch_size seq_len (d_model meta) (n_head meta) head_dim in
    let shapes := foldl (fun d kv => dict_set kv.1 kv.2 d) shapes
                    (mlp_shapes batch_size seq_len (d_model meta) (d_ffn meta)) in
    Ret (if String.eqb (model_type meta) "llama" then
           copy_key "bw_weight_mlp_gate" "bw_weight_mlp_up"
             (copy_key "bw_input_mlp_gate" "bw_input_mlp_up"
                (copy_key "fw_mlp_gate" "fw_mlp_up" shapes))
         else shapes).

(** [s[-2:]] *)
Definition last_two (s : shape) : shape := drop (length s - 2) s.

(** A two-dimensional block product *)
Definition block : Type := (Z * Z) * (Z * Z).

(** The dimensions [m, k] and [k', n] of a product *)
Definition dims (g : gemm) : outcome (Z * Z * Z * Z) :=
  match last_two g.1, last_two g.2 with
  | [m; k], [k'; n] => Ret (m, k, k', n)
  | _, _ => Raise (IndexError "tuple index out of range")
  end.

(** The blocks one shard size adds: full ones and the remainders *)
Definition rc_blocks (m k k' n shard : Z) : list block :=
  if (m <? shard) || (n <? shard) then []
  else
    let rm := m mod shard in
    let rn := n mod shard in
    [((shard, k), (k', shard))] ++
    (if negb (rm =? 0) then [((rm, k), (k', shard))] else []) ++
    (if negb (rn =? 0) then [((shard, k), (k', rn))] else []) ++
    (if negb (rm =? 0) && negb (rn =? 0) then [((rm, k), (k', rn))] else []).

Definition summa_blocks (m n shard : Z) : list block :=
  if (m <? shard) || (n <? shard) then []
  else
    let rm := m mod shard in
    let rn := n mod shard in
    [((shard, shard), (shard, shard))] ++
    (if negb (rm =? 0) then [((rm, shard), (shard, shard))] else []) ++
    (if negb (rn =? 0) then [((shard, shard), (shard, rn))] else []) ++
    (if negb (rm =? 0) && negb (rn =? 0) then [((rm, shard), (shard, rn))] else []).

(** The loop that keeps the first of equal shapes *)
Definition unique_shapes (l : list block) : list block :=
  foldl (fun acc x => if bool_decide (x ∈ acc) then acc else acc ++ [x]) [] l.

Definition rc_shard_list : list Z := [8; 16; 32; 64; 128; 256; 512; 1024; 2048].
Definition summa_shard_list : list Z := [128; 256; 512; 1024; 2048].

Definition shard_shapes (blocks : Z * Z * Z * Z -> Z -> list block) (shards : list Z)
    (acc : list block) (kg : string * gemm) : outcome (list block) :=
  d ← dims kg.2; Ret (acc ++ (shards ≫= blocks d)).

Definition parse_shapes_rc_shard (model_name : string) (batch_size seq_len : Z) :
    outcome (list block) :=
  shapes ← parse_gemm_shapes model_name batch_size seq_len;
  blocks ← foldO (shard_shapes (fun '(m, k, k', n) => rc_blocks m k k' n) rc_shard_list)
             shapes [];
  Ret (unique_shapes blocks).

Definition parse_shapes_summa_shard (model_name : string) (batch_size seq_len : Z) :
    outcome (list block) :=
  shapes ← parse_gemm_shapes model_name batch_size seq_len;
  blocks ← foldO (shard_shapes (fun '(m, k, k', n) => summa_blocks m n) summa_shard_list)
             shapes [];
  Ret (unique_shapes blocks).

(** ** The products are well formed *)

(** Both operands have two dimensions at least, the inner ones agree, and so do the
    batch dimensions of a batched right operand. *)
Definition multiplies (g : gemm) : Prop :=
  exists pre pre' m k n, g = (pre ++ [m; k], pre' ++ [k; n]) /\ (pre' = [] \/ pre' = pre).

Lemma multiplies_dims g : multiplies g -> exists m k n, dims g = Ret (m, k, k, n).
Proof.
  intros (pre & pre' & m & k & n & -> & _). exists m, k, n. unfold dims, last_two. cbn [fst snd].
  rewrite !length_app. cbn [length]. rewrite !Nat.add_sub, !drop_app_length. done.
Qed.

Lemma dict_all_copy P k k' d : dict_all P d -> dict_all P (copy_key k k' d).
Proof.
  intros Hd. unfold copy_key. destruct (dict_get k' d) eqn:Hk; [|done].
  apply dict_all_set; [done|]. by eapply dict_all_get.
Qed.

Lemma dict_all_fold P (l d : list (string * gemm)) :
  dict_all P d -> dict_all P l -> dict_all P (foldl (fun d kv => dict_set kv.1 kv.2 d) d l).
Proof.
  intros Hd Hl. unfold dict_all in Hl. rewrite Forall_forall in Hl.
  apply foldl_invariant; [done|]. intros d' kv Hin Hd'. apply dict_all_set; [done|by apply Hl].
Qed.

Ltac shape_multiplies :=
  first [ by eexists [_], [], _, _, _; split; [reflexivity|left]
        | by eexists [_], [_], _, _, _; split; [reflexivity|right]
        | by eexists [_; _], [_; _], _, _, _; split; [reflexivity|right] ].

Lemma parse_gemm_shapes_multiply model_name b s shapes :
  parse_gemm_shapes model_name b s = Ret shapes -> dict_all multiplies shapes.
Proof.
  unfold parse_gemm_shapes. destruct (parse_model_meta model_name) as [meta|]; [|done].
  cbn [mbind outcome_bind]. case_match; [done|]. intros [= <-].
  assert (dict_all multiplies (foldl (fun d kv => dict_set kv.1 kv.2 d)
    (attention_shapes b s (d_model meta) (n_head meta) (d_model meta / n_head meta))
    (mlp_shapes b s (d_model meta) (d_ffn meta)))).
  { apply dict_all_fold; repeat constructor; shape_multiplies. }
  case_match; [|done]. by repeat apply dict_all_copy.
Qed.

(** ** Uniqueness *)

Lemma unique_shapes_spec l :
  NoDup (unique_shapes l) /\ forall x, x ∈ unique_shapes l <-> x ∈ l.
Proof.
  unfold unique_shapes. induction l as [|x l [IH1 IH2]] using rev_ind.
  { split; [constructor|set_solver]. }
  rewrite foldl_app. cbn [foldl]. case_bool_decide as Hx.
  - split; [done|]. intros y. rewrite elem_of_app, <- IH2. set_solver.
  - split.
    + apply NoDup_app. split_and!; [done|set_solver|apply NoDup_singleton].
    + intros y. rewrite !elem_of_app, IH2. done.
Qed.

(** ** Tiling *)

(** The extent of the [i]-th block of a dimension of [m] cut into blocks of [shard] *)
Definition extent (m shard i : Z) : Z := Z.min shard (m - i * shard).

Lemma extent_cases m shard i :
  0 < shard -> 0 <= i -> i * shard < m ->
  extent m shard i = shard \/ extent m shard i = m mod shard /\ m mod shard <> 0.
Proof.
  intros Hs Hi Hlt. unfold extent.
  destruct (Z.le_gt_cases shard (m - i * shard)) as [Hle|Hgt]; [left; lia|].
  right. assert (m mod shard = m - i * shard) as ->; [|lia].
  symmetry. apply (Z.mod_unique_pos _ _ i); lia.
Qed.

Lemma rc_blocks_tile m k k' n shard i j :
  0 < shard -> shard <= m -> shard <= n ->
  0 <= i -> i * shard < m -> 0 <= j -> j * shard < n ->
  ((extent m shard i, k), (k', extent n shard j)) ∈ rc_blocks m k k' n shard.
Proof.
  intros Hs Hm Hn Hi Him Hj Hjn. unfold rc_blocks.
  rewrite (proj2 (Z.ltb_ge m shard)), (proj2 (Z.ltb_ge n shard)) by lia. cbn [orb].
  destruct (extent_cases m shard i Hs Hi Him) as [->|[-> Hrm]];
    destruct (extent_cases n shard j Hs Hj Hjn) as [->|[-> Hrn]];
    rewrite ?(proj2 (Z.eqb_neq _ _) Hrm), ?(proj2 (Z.eqb_neq _ _) Hrn);
    cbn [negb andb]; rewrite !elem_of_app, !list_elem_of_singleton; auto.
Qed.

Lemma shard_shapes_spec blocks shards shapes acc out :
  foldO (shard_shapes blocks shards) shapes acc = Ret out ->
  forall x, x ∈ out <-> x ∈ acc \/ exists kg d s, kg ∈ shapes /\ dims kg.2 = Ret d /\
                                                  s ∈ shards /\ x ∈ blocks d s.
Proof.
  revert acc. induction shapes as [|kg shapes IH]; intros acc H x; cbn [foldO] in H.
  { injection H as <-. split; [by left|]. intros [?|(?&?&?&?%not_elem_of_nil&_)]; done. }
  unfold shard_shapes in H at 1. destruct (dims kg.2) as [d|] eqn:Hd; cbn in H; [|done].
  rewrite (IH _ H), elem_of_app, list_elem_of_bind. split.
  - intros [[?|(s & ? & ?)]|(kg' & d' & s & Hin & ?)]; [by left| |];
      right; [exists kg, d, s|exists kg', d', s]; rewrite elem_of_cons; tauto.
  - intros [?|(kg' & d' & s & [->|Hin]%elem_of_cons & Hd' & Hs & Hx)]; [tauto| |].
    + rewrite Hd in Hd'. simplify_eq. left. right. by exists s.
    + right. exists kg', d', s. tauto.
Qed.

(** A block of the product with dimensions [m], [k], [n] cut by [shard] *)
Definition tile (m k n shard : Z) (x : block) : Prop :=
  shard <= m /\ shard <= n /\
  exists i j, 0 <= i /\ i * shard < m /\ 0 <= j /\ j * shard < n /\
              x = ((extent m shard i, k), (k, extent n shard j)).

(** The last block of a dimension *)
Lemma extent_last m shard :
  0 < shard -> shard <= m -> m mod shard <> 0 ->
  0 <= m / shard /\ m / shard * shard < m /\ extent m shard (m / shard) = m mod shard.
Proof.
  intros Hs Hm Hr. pose proof (Z.div_mod m shard ltac:(lia)) as Hd.
  pose proof (Z.mod_pos_bound m shard Hs). pose proof (Z.div_pos m shard ltac:(lia) Hs).
  unfold extent. rewrite (Z.mul_comm (m / shard)). lia.
Qed.

Lemma rc_blocks_spec m k n shard x :
  0 < shard -> x ∈ rc_blocks m k k n shard <-> tile m k n shard x.
Proof.
  intros Hs. split.
  - unfold rc_blocks. destruct (Z.ltb_spec m shard); [by intros ?%not_elem_of_nil|].
    destruct (Z.ltb_spec n shard); [by intros ?%not_elem_of_nil|]. cbn [orb].
    assert (Hfull : forall d, shard <= d -> exists i, 0 <= i /\ i * shard < d /\
                                            shard = extent d shard i).
    { intros d Hd. exists 0. unfold extent. lia. }
    assert (Hrem : forall d, shard <= d -> negb (d mod shard =? 0) = true ->
      exists i, 0 <= i /\ i * shard < d /\ d mod shard = extent d shard i).
    { intros d Hd Hr%negb_true_iff%Z.eqb_neq. destruct (extent_last d shard Hs Hd Hr) as (?&?&?).
      by exists (d / shard). }
    rewrite !elem_of_app, list_elem_of_singleton. intros Hx. split_and!; [done|done|].
    destruct (Hfull m) as (i0 & ? & ? & Hi0); [done|]. destruct (Hfull n) as (j0 & ? & ? & Hj0); [done|].
    destruct Hx as [->|[Hx|[Hx|Hx]]].
    + exists i0, j0. rewrite <- Hi0, <- Hj0. auto.
    + destruct (negb (m mod shard =? 0)) eqn:Hm; [|by apply not_elem_of_nil in Hx].
      apply list_elem_of_singleton in Hx as ->. destruct (Hrem m) as (i & ? & ? & ->); [done..|].
      exists i, j0. rewrite <- Hj0. auto.
    + destruct (negb (n mod shard =? 0)) eqn:Hn; [|by apply not_elem_of_nil in Hx].
      apply list_elem_of_singleton in Hx as ->. destruct (Hrem n) as (j & ? & ? & ->); [done..|].
      exists i0, j. rewrite <- Hi0. auto.
    + destruct (negb (m mod shard =? 0)) eqn:Hm, (negb (n mod shard =? 0)) eqn:Hn;
        try (by apply not_elem_of_nil in Hx).
      apply list_elem_of_singleton in Hx as ->. destruct (Hrem m) as (i & ? & ? & ->); [done..|].
      destruct (Hrem n) as (j & ? & ? & ->); [done..|]. exists i, j. auto.
  - intros (Hm & Hn & i & j & ? & ? & ? & ? & ->). by apply rc_blocks_tile.
Qed.

(** C11: the row/column sharding computes exactly the block shapes of its GEMMs.  All
    products of the model have agreeing inner dimensions; the result lists without
    duplicates the shape of every block when the rows of the left operand and the
    columns of the right one are cut by a shard size that fits both, remainder blocks
    included, and nothing else. *)
Theorem rc_shards_tile model_name batch_size seq_len shapes out :
  parse_gemm_shapes model_name batch_size seq_len = Ret shapes ->
  parse_shapes_rc_shard model_name batch_size seq_len = Ret out ->
  dict_all multiplies shapes /\ NoDup out /\
  forall x, x ∈ out <->
    exists name g m k n shard,
      (name, g) ∈ shapes /\ dims g = Ret (m, k, k, n) /\ shard ∈ rc_shard_list /\
      tile m k n shard x.
Proof.
  intros Hs. pose proof (parse_gemm_shapes_multiply _ _ _ _ Hs) as Hmul.
  unfold parse_shapes_rc_shard. rewrite Hs. cbn [mbind outcome_bind].
  destruct (foldO _ shapes []) as [blocks|] eqn:Hb; cbn [mbind outcome_bind]; [|done].
  intros [= <-]. destruct (unique_shapes_spec blocks) as [Hnd Hin].
  split; [done|]. split; [done|]. intros x. rewrite Hin, (shard_shapes_spec _ _ _ _ _ Hb).
  unfold dict_all in Hmul. rewrite Forall_forall in Hmul.
  assert (Hpos : forall s, s ∈ rc_shard_list -> 0 < s).
  { apply Forall_forall. unfold rc_shard_list. repeat constructor. }
  split.
  - intros [?%not_elem_of_nil|([name g] & [[[m k] k'] n] & s & Hg & Hd & Hsh & Hx)]; [done|].
    destruct (multiplies_dims g (Hmul _ Hg)) as (m' & k'' & n' & Hd'). cbn [snd] in Hd.
    rewrite Hd in Hd'. simplify_eq. exists name, g, m', k'', n', s.
    rewrite rc_blocks_spec in Hx by auto. auto.
  - intros (name & g & m & k & n & s & Hg & Hd & Hsh & Hx). right.
    exists (name, g), (m, k, k, n), s. rewrite rc_blocks_spec by auto. auto.
Qed.
End parser.

(** ** An example: a two-layer model with uneven dimensions *)

Definition demo_config (name : string) : outcome PretrainedConfig :=
  Ret (mk_PretrainedConfig ["LlamaForCausalLM"%string]
         (fun a => if String.eqb a "hidden_size" then Some 20
                   else if String.eqb a "intermediate_size" then Some 24
                   else if String.eqb a "num_attention_heads" then Some 2 else Some 2)).

Definition demo_blocks : list block :=
  match parse_shapes_rc_shard demo_config "m" 1 12 with Ret l => l | Raise _ => [] end.

Definition demo_shapes : list (string * gemm) :=
  match parse_gemm_shapes demo_config "m" 1 12 with Ret l => l | Raise _ => [] end.

Lemma rc_shards_tile_witness :
  length demo_shapes = 18%nat /\ NoDup demo_blocks /\
  (((4, 20), (20, 4)) : block) ∈ demo_blocks.
Proof.
  assert (Hs : parse_gemm_shapes demo_config "m" 1 12 = Ret demo_shapes) by (vm_compute; reflexivity).
  assert (Hb : parse_shapes_rc_shard demo_config "m" 1 12 = Ret demo_blocks)
    by (vm_compute; reflexivity).
  destruct (rc_shards_tile demo_config "m" 1 12 demo_shapes demo_blocks Hs Hb) as (_ & Hnd & Hx).
  split; [vm_compute; reflexivity|]. split; [exact Hnd|]. apply Hx.
  exists "fw_attn_qkvo"%string, ([1; 12; 20], [20; 20]), 12, 20, 20, 8.
  split; [|split; [reflexivity|split]].
  - apply dict_get_Some_elem. vm_compute. reflexivity.
  - unfold rc_shard_list. left.
  - split; [lia|]. split; [lia|]. exists 1, 2. repeat (split; [lia|]). reflexivity.
Defined.

(** The SUMMA shards of a product whose inner dimension is below the shard size are
    larger than the product: 64 columns of the heads are cut into blocks of 128. *)
Example summa_exceeds_inner :
  summa_blocks 256 256 128 = [((128, 128), (128, 128))] /\
  dims ([1; 4; 256; 64], [1; 4; 64; 256]) = Ret (256, 64, 64, 256).
Proof. by vm_compute. Qed.
