(* ===== verification/MemLayout.v ===== *)
(** * Tensor memory layout ([common/types_and_defs.py], [EmulatorConfig])

    Offsets of the model's tensors in the pinned and in the shared memory, and the
    start-up check of the emulator's configuration that uses them.  A parameter map is
    an insertion-ordered dictionary from tensor names to their ids and sizes. *)

From S2P Require Import Prelude PyDict PyStr.

Record param : Type := mk_param {
  id_ : Z;
  size_ : Z;
  shm_offset : option Z;
}.

Definition param_map : Type := list (string * param).

Implicit Types m : param_map.

(** The names of a size, in the order of the map *)
Definition names_of_size m (size : Z) : list string :=
  (filter (fun kv => size_ kv.2 = size) m).*1.

(** [np.array(ids, dtype=np.uint32)] *)
Definition to_uint32 (ids : list Z) : outcome (list Z) :=
  mapO (fun i => if (0 <=? i) && (i <? 2 ^ 32) then Ret i
                 else Raise (OverflowError "Python integer out of bounds for uint32")) ids.

Definition find_tensor_same_size m (size : Z) : outcome (list Z) :=
  ids ← mapO (fun name => of_option (KeyError name) (id_ <$> dict_get name m))
          (names_of_size m size);
  to_uint32 ids.

(** [Counter(sizes)] *)
Definition counter (l : list Z) : list (Z * Z) :=
  foldl (fun d s => dict_alter (fun o => default 0 o + 1) s d) [] l.

Definition sizes m : list Z := size_ <$> dict_values m.

(** [size + 4 * count] *)
Definition region (sc : Z * Z) : Z := sc.1 + 4 * sc.2.

(** A 64-bit integer's wrap-around *)
Definition wrap64 (z : Z) : Z := (z + 2 ^ 63) mod 2 ^ 64 - 2 ^ 63.

(** [np.cumsum], on 64-bit integers *)
Fixpoint cumsum (acc : Z) (l : list Z) : list Z :=
  match l with
  | [] => []
  | x :: l => wrap64 (acc + x) :: cumsum (wrap64 (acc + x)) l
  end.

(** [a - a[0]] *)
Definition minus_first (a : list Z) : outcome (list Z) :=
  match a with
  | [] => Raise (IndexError "index 0 is out of bounds for axis 0 with size 0")
  | x :: _ => Ret ((fun y => wrap64 (y - x)) <$> a)
  end.

Definition compute_shm_offsets m : outcome (Z * list (Z * Z)) :=
  let classes := counter (sizes m) in
  let shm_mem_size := sum_list (region <$> classes) in
  cum ← minus_first (cumsum 0 (region <$> classes));
  Ret (shm_mem_size, dict_of_pairs (zip (dict_keys classes) cum)).

(** One turn of the loop: the offset of a tensor is the sum of the sizes before it *)
Definition pin_step (st : Z * list (string * Z)) (kv : string * param) :
    Z * list (string * Z) :=
  (st.1 + size_ kv.2, dict_set kv.1 st.1 st.2).

Definition compute_pin_offsets m : Z * list (string * Z) :=
  (sum_list (sizes m), (foldl pin_step (0, []) m).2).

(** [param_meta_map[name]["shm_offset"] = off] *)
Definition set_shm_offset (name : string) (off : Z) m : param_map :=
  match dict_get name m with
  | Some p => dict_set name (mk_param (id_ p) (size_ p) (Some off)) m
  | None => m
  end.

(** The loop over the names of one size *)
Fixpoint place_names (off : Z) (names : list string) m : param_map :=
  match names with
  | [] => m
  | name :: names => place_names (off + 4) names (set_shm_offset name off m)
  end.

Definition place_class (offsets : list (Z * Z)) m (sc : Z * Z) : outcome param_map :=
  off ← of_option (KeyError (str_of_Z sc.1)) (dict_get sc.1 offsets);
  Ret (place_names off (names_of_size m sc.1) m).

Definition update_shm_offsets m : outcome param_map :=
  r ← compute_shm_offsets m;
  foldO (place_class r.2) (counter (sizes m)) m.

(** ** The emulator's configuration *)

Definition KB : Z := 1024.
Definition MB : Z := 1024 * KB.
Definition GB : Z := 1024 * MB.

Record EmulatorConfig : Type := mk_EmulatorConfig {
  gpu_memory : Z;
  cpu_memory : Z;
  ckpt_path : string;
}.

Definition environ : Type := list (string * string).

Definition setenv (k v : string) : M environ unit := modify (dict_set k v).

(** [__post_init__]; [param_meta_map] is what the file in the checkpoint directory
    holds.  The configuration returned has its sizes in bytes. *)
Definition post_init (c : EmulatorConfig) (param_meta_map : outcome param_map) :
    M environ EmulatorConfig :=
  let gpu := gpu_memory c * GB in
  let cpu := cpu_memory c * GB in
  setenv "MORPHLING_CKPT_PATH" (ckpt_path c);;
  setenv "MORPHLING_GPU_SIZE" (str_of_Z gpu);;
  m ← lift param_meta_map;
  lift (compute_shm_offsets m);;
  let '(pin_mem_size, _) := compute_pin_offsets m in
  setenv "MORPHLING_PIN_SIZE" (str_of_Z pin_mem_size);;
  setenv "MORPHLING_SHM_SIZE" (str_of_Z (cpu - pin_mem_size));;
  if cpu <=? pin_mem_size then
    raise (AssertionError "CPU memory should be greater than model size")
  else mret (mk_EmulatorConfig gpu cpu (ckpt_path c)).

(** ** Pinned memory *)

(** The tensors before the [i]-th one *)
Definition before (i : nat) m : Z := sum_list (sizes (take i m)).

Lemma sizes_app m m' : sizes (m ++ m') = sizes m ++ sizes m'.
Proof. unfold sizes, dict_values. by rewrite !fmap_app. Qed.

Lemma pin_fold m :
  dict_wf m ->
  foldl pin_step (0, []) m =
  (sum_list (sizes m), imap (fun i kv => (kv.1, before i m)) m).
Proof.
  induction m as [|[k p] m IH] using rev_ind; intros Hwf; [done|].
  unfold dict_wf, dict_keys in Hwf. rewrite fmap_app in Hwf.
  apply NoDup_app in Hwf as (Hwf & Hk & _).
  rewrite foldl_app, IH by done. cbn [foldl]. unfold pin_step. cbn [fst snd].
  rewrite sizes_app, sum_list_app. change (sizes [(k, p)]) with [size_ p].
  f_equal.
  rewrite imap_app. cbn [imap]. rewrite dict_set_fresh.
  - f_equal.
    + apply imap_ext. intros i kv Hi. f_equal. unfold before.
      by rewrite take_app_le by (apply lookup_lt_Some in Hi; lia).
    + cbn. unfold before. by rewrite Nat.add_0_r, take_app_length.
  - intros Hin. apply (Hk k); [|left].
    unfold dict_keys in Hin. rewrite fmap_imap in Hin. apply elem_of_lookup_imap in Hin
      as (i & kv & -> & Hi). cbn. apply list_elem_of_fmap. exists kv. split; [done|].
    by eapply list_elem_of_lookup_2.
Qed.

Lemma before_mono m i j :
  Forall (fun s => 0 <= s) (sizes m) -> (i <= j)%nat -> before i m <= before j m.
Proof.
  intros Hs Hij. unfold before.
  assert (take j m = take i m ++ take (j - i) (drop i m)) as ->.
  { rewrite take_take_drop. f_equal. lia. }
  rewrite sizes_app, sum_list_app.
  assert (0 <= sum_list (sizes (take (j - i) (drop i m)))); [|lia].
  apply sum_list_nonneg. intros x Hx. rewrite Forall_forall in Hs. apply Hs.
  unfold sizes, dict_values in *. rewrite <- list_fmap_compose in *.
  apply list_elem_of_fmap in Hx as (kv & -> & Hkv). apply list_elem_of_fmap. exists kv.
  split; [done|].
  apply list_elem_of_lookup in Hkv as [n Hn]. apply lookup_take_Some in Hn as [Hn _].
  rewrite lookup_drop in Hn. by eapply list_elem_of_lookup_2.
Qed.

Lemma before_S m i k p :
  m !! i = Some (k, p) -> before (S i) m = before i m + size_ p.
Proof.
  intros Hi. unfold before. rewrite (take_S_r _ _ _ Hi), sizes_app, sum_list_app.
  change (sizes [(k, p)]) with [size_ p]. unfold sum_list at 2. cbn [foldl]. lia.
Qed.

Lemma before_length m i : (length m <= i)%nat -> before i m = sum_list (sizes m).
Proof. intros Hi. unfold before. by rewrite take_ge. Qed.

(** Where the [i]-th tensor is put *)
Lemma pin_offset_at m i k p :
  dict_wf m -> m !! i = Some (k, p) ->
  dict_get k (compute_pin_offsets m).2 = Some (before i m).
Proof.
  intros Hwf Hi. unfold compute_pin_offsets. rewrite pin_fold by done. cbn [snd].
  apply dict_elem_get.
  - unfold dict_wf, dict_keys. rewrite fmap_imap.
    rewrite (imap_ext _ (const fst)) by done. by rewrite imap_const.
  - apply elem_of_lookup_imap. by exists i, (k, p).
Qed.

(** C15: the pinned tensors.  When the emulator's configuration is accepted, every tensor
    has an interval of its size inside the configured CPU memory, the intervals of two
    tensors do not overlap, and the shared-memory size exported to the C++ side is the
    positive rest. *)
Theorem pinned_tensors_fit c m env c' env' :
  dict_wf m -> Forall (fun s => 0 <= s) (sizes m) ->
  post_init c (Ret m) env = (Ret c', env') ->
  let offsets := (compute_pin_offsets m).2 in
  (forall k p, dict_get k m = Some p ->
   exists off, dict_get k offsets = Some off /\ 0 <= off /\ off + size_ p < cpu_memory c') /\
  (forall k1 k2 p1 p2 off1 off2, k1 <> k2 ->
   dict_get k1 m = Some p1 -> dict_get k2 m = Some p2 ->
   dict_get k1 offsets = Some off1 -> dict_get k2 offsets = Some off2 ->
   off1 + size_ p1 <= off2 \/ off2 + size_ p2 <= off1) /\
  exists rest, dict_get "MORPHLING_SHM_SIZE"%string env' = Some (str_of_Z rest) /\
               0 < rest /\ rest + sum_list (sizes m) = cpu_memory c'.
Proof.
  intros Hwf Hs Hinit offsets.
  assert (Hcpu : sum_list (sizes m) < cpu_memory c' /\
                 dict_get "MORPHLING_SHM_SIZE"%string env'
                 = Some (str_of_Z (cpu_memory c' - sum_list (sizes m)))).
  { unfold post_init, setenv in Hinit. unfold mbind, M_bind, modify, lift in Hinit.
    destruct (compute_shm_offsets m); [|done].
    destruct (compute_pin_offsets m) as [pin offs] eqn:Hpin.
    assert (pin = sum_list (sizes m)) as -> by (by unfold compute_pin_offsets in Hpin; simplify_eq).
    destruct (_ <=? _) eqn:Hle; unfold raise, mret, M_ret in Hinit; simplify_eq.
    apply Z.leb_gt in Hle. cbn [cpu_memory]. split; [lia|]. apply dict_get_set_eq. }
  assert (Hat : forall k p, dict_get k m = Some p -> exists i, m !! i = Some (k, p) /\
    dict_get k offsets = Some (before i m)).
  { intros k p Hk%dict_get_Some_elem. apply list_elem_of_lookup in Hk as [i Hi].
    exists i. split; [done|]. by eapply pin_offset_at. }
  destruct Hcpu as [Hlt Henv]. split_and!.
  - intros k p Hk. destruct (Hat _ _ Hk) as (i & Hi & Ho). exists (before i m).
    split; [done|]. pose proof (before_S _ _ _ _ Hi).
    pose proof (before_mono m 0 i Hs ltac:(lia)) as H0. change (before 0 m) with 0 in H0.
    apply lookup_lt_Some in Hi.
    pose proof (before_mono m (S i) (length m) Hs ltac:(lia)).
    rewrite (before_length m (length m)) in * by done. lia.
  - intros k1 k2 p1 p2 off1 off2 Hne Hk1 Hk2 Ho1 Ho2.
    destruct (Hat _ _ Hk1) as (i & Hi & Ho1'), (Hat _ _ Hk2) as (j & Hj & Ho2').
    rewrite Ho1 in Ho1'. rewrite Ho2 in Ho2'. simplify_eq.
    pose proof (before_S _ _ _ _ Hi). pose proof (before_S _ _ _ _ Hj).
    destruct (Nat.lt_total i j) as [Hij|[->|Hij]]; [|congruence|].
    + pose proof (before_mono m (S i) j Hs ltac:(lia)). lia.
    + pose proof (before_mono m (S j) i Hs ltac:(lia)). lia.
  - exists (cpu_memory c' - sum_list (sizes m)). split; [done|]. lia.
Qed.

(** ** Shared memory *)

Lemma wrap64_id z : - 2 ^ 63 <= z < 2 ^ 63 -> wrap64 z = z.
Proof. intros Hz. unfold wrap64. rewrite Z.mod_small; lia. Qed.

(** The regions up to and including the [i]-th *)
Definition upto (i : nat) (l : list Z) : Z := sum_list (take (S i) l).

Lemma cumsum_lookup l acc i x :
  Forall (fun r => 0 <= r) l -> 0 <= acc -> acc + sum_list l < 2 ^ 63 ->
  l !! i = Some x -> cumsum acc l !! i = Some (acc + upto i l).
Proof.
  intros Hl. revert acc i. induction Hl as [|y l Hy Hl IH]; intros acc i Hacc Hs Hi; [done|].
  rewrite sum_list_cons in Hs. assert (0 <= sum_list l).
  { apply sum_list_nonneg. by rewrite <- Forall_forall. }
  cbn [cumsum]. rewrite wrap64_id by lia. destruct i as [|i]; cbn [lookup list_lookup].
  - done.
  - change (cumsum (acc + y) l !! i = Some (acc + upto (S i) (y :: l))).
    rewrite (IH (acc + y) i); [|lia|lia|done]. unfold upto. rewrite firstn_cons, sum_list_cons.
    f_equal. lia.
Qed.

Lemma counter_wf l : dict_wf (counter l).
Proof.
  unfold counter. apply foldl_invariant; [apply dict_wf_nil|]. intros; by apply dict_wf_alter.
Qed.

Lemma cumsum_length l acc : length (cumsum acc l) = length l.
Proof. revert acc. induction l as [|x l IH]; intros acc; [done|]. cbn. by rewrite IH. Qed.

Lemma upto_bounds l i :
  Forall (fun r => 0 <= r) l -> 0 <= upto i l <= sum_list l.
Proof.
  intros Hl. unfold upto. rewrite <- (take_drop (S i) l) at 3. rewrite sum_list_app.
  assert (0 <= sum_list (take (S i) l) /\ 0 <= sum_list (drop (S i) l)); [|lia].
  split; apply sum_list_nonneg; apply Forall_forall; [by apply Forall_take|by apply Forall_drop].
Qed.

Lemma upto_S l i x : l !! S i = Some x -> upto (S i) l = upto i l + x.
Proof.
  intros Hi. unfold upto. rewrite (take_S_r _ _ _ Hi), sum_list_app, sum_list_cons.
  change (sum_list []) with 0. lia.
Qed.

Lemma upto_first l i x : Forall (fun r => 0 <= r) l -> l !! 0%nat = Some x -> x <= upto i l.
Proof.
  intros Hl H0. destruct l as [|y l]; [done|]. injection H0 as ->.
  unfold upto. rewrite firstn_cons, sum_list_cons.
  assert (0 <= sum_list (take i l)); [|lia]. apply sum_list_nonneg, Forall_forall, Forall_take.
  by apply Forall_cons in Hl as [_ Hl].
Qed.

(** The shared-memory regions.  The offset of a size class counts the regions up to
    and including its own, less the first class's region; so from the second class on
    a region starts where one of the next class's size would have to end.  The last
    region ends [region last - region first] past the reported size, and a region
    overlaps the one before it whenever it is the smaller one. *)
Theorem shm_regions_shifted m total offsets first :
  let classes := counter (sizes m) in
  Forall (fun sc => 0 <= region sc) classes ->
  sum_list (region <$> classes) < 2 ^ 63 ->
  classes !! 0%nat = Some first ->
  compute_shm_offsets m = Ret (total, offsets) ->
  (forall i sc, classes !! i = Some sc ->
   dict_get sc.1 offsets = Some (upto i (region <$> classes) - region first)) /\
  (forall sc, last classes = Some sc ->
   exists off, dict_get sc.1 offsets = Some off /\
               off + region sc = total + (region sc - region first)) /\
  (forall i sc sc' off off', classes !! i = Some sc -> classes !! S i = Some sc' ->
   dict_get sc.1 offsets = Some off -> dict_get sc'.1 offsets = Some off' ->
   (off' < off + region sc <-> region sc' < region sc)).
Proof.
  intros classes Hr Hs Hfirst. unfold compute_shm_offsets. fold classes.
  assert (Hr' : Forall (fun r => 0 <= r) (region <$> classes)) by (by apply Forall_fmap).
  assert (Hcum : forall i sc, classes !! i = Some sc ->
    cumsum 0 (region <$> classes) !! i = Some (upto i (region <$> classes))).
  { intros i sc Hi. rewrite (cumsum_lookup _ 0 i (region sc)); [by rewrite Z.add_0_l|done..|].
    by rewrite list_lookup_fmap, Hi. }
  pose proof (Hcum _ _ Hfirst) as H0.
  assert (Hfirst' : upto 0 (region <$> classes) = region first).
  { destruct classes as [|c cs]; [done|]. by injection Hfirst as ->. }
  rewrite Hfirst' in H0.
  destruct (cumsum 0 (region <$> classes)) as [|x cum] eqn:Hc; [done|].
  cbn [minus_first mbind outcome_bind]. rewrite <- Hc in *. cbn in H0.
  assert (x = region first) as -> by (rewrite Hc in H0; by injection H0). clear H0.
  intros [= <- Ho].
  assert (Hat : forall i sc, classes !! i = Some sc ->
    dict_get sc.1 offsets = Some (upto i (region <$> classes) - region first)).
  { intros i sc Hi. rewrite <- Ho, dict_of_pairs_nodup.
    all: rewrite ?fst_zip by (unfold dict_keys; by rewrite !length_fmap, cumsum_length, length_fmap).
    all: try apply counter_wf. apply dict_elem_get.
    - unfold dict_wf, dict_keys at 1.
      rewrite fst_zip by (unfold dict_keys; by rewrite !length_fmap, cumsum_length, length_fmap).
      apply counter_wf.
    - assert (Hk : dict_keys classes !! i = Some sc.1)
        by (unfold dict_keys; by rewrite list_lookup_fmap, Hi).
      assert (Hv : ((fun y => wrap64 (y - region first)) <$> cumsum 0 (region <$> classes)) !! i
                   = Some (wrap64 (upto i (region <$> classes) - region first)))
        by (by rewrite list_lookup_fmap, (Hcum _ _ Hi)).
      apply list_elem_of_lookup. exists i. apply lookup_zip_with_Some.
      eexists _, _. split; [|split; [exact Hk|exact Hv]]. rewrite wrap64_id; [done|].
      pose proof (upto_bounds (region <$> classes) i Hr').
      assert (region first <= upto i (region <$> classes)).
      { apply upto_first; [done|]. by rewrite list_lookup_fmap, Hfirst. }
      rewrite Forall_forall in Hr. specialize (Hr first ltac:(by eapply list_elem_of_lookup_2)). lia. }
  split; [exact Hat|]. split.
  - intros sc Hlast. rewrite last_lookup in Hlast. eexists. split; [by apply Hat|].
    unfold upto. rewrite take_ge by (rewrite length_fmap; lia). lia.
  - intros i sc sc' off off' Hi Hi' Hoff Hoff'.
    rewrite (Hat _ _ Hi) in Hoff. rewrite (Hat _ _ Hi') in Hoff'. simplify_eq.
    rewrite (upto_S _ i (region sc')) by (by rewrite list_lookup_fmap, Hi'). lia.
Qed.

(** ** Examples *)

Definition tensor (i s : Z) : param := mk_param i s None.

Definition demo_map : param_map :=
  [("w", tensor 0 1000); ("b", tensor 1 8); ("v", tensor 2 1000); ("c", tensor 3 8);
   ("d", tensor 4 8)]%string.

Lemma demo_shm : compute_shm_offsets demo_map = Ret (1028, [(1000, 0); (8, 20)]).
Proof. reflexivity. Qed.

(** A region of 8 bytes and its slots start inside the 1,008 bytes of the first one. *)
Lemma shm_regions_shifted_witness :
  (20 < 0 + 1008 <-> 20 < 1008) /\
  exists off, dict_get 8 [(1000, 0); (8, 20)] = Some off /\ off + 20 = 1028 + (20 - 1008).
Proof.
  destruct (shm_regions_shifted demo_map 1028 [(1000, 0); (8, 20)] (1000, 2)) as (_ & Hl & H);
    [apply Forall_cons; split; [done|]; apply Forall_cons; split; [done|]; by apply Forall_nil
    |reflexivity|reflexivity|exact demo_shm|].
  split; [exact (H 0%nat (1000, 2) (8, 3) 0 20 eq_refl eq_refl eq_refl eq_refl)|].
  destruct (Hl (8, 3) eq_refl) as (off & Hoff & Heq). exists off. split; [exact Hoff|].
  unfold region in Heq. cbn [fst snd] in Heq. lia.
Defined.

(** With many tensors in the first class the slots of two classes collide. *)
Example slots_collide :
  (fun r => map (fun kv : string * param => (kv.1, shm_offset kv.2)) r) <$>
    match update_shm_offsets ([("a", tensor 0 8); ("b", tensor 1 8); ("c", tensor 2 8);
                               ("d", tensor 3 8); ("e", tensor 4 8); ("f", tensor 5 4)])%string with
    | Ret r => Some r | Raise _ => None end
  = Some [("a", Some 0); ("b", Some 4); ("c", Some 8); ("d", Some 12); ("e", Some 16);
          ("f", Some 8)]%string.
Proof. reflexivity. Qed.

Lemma pinned_tensors_fit_witness :
  exists off, dict_get "c"%string (compute_pin_offsets demo_map).2 = Some off /\
              0 <= off /\ off + 8 < GB.
Proof.
  destruct (pinned_tensors_fit (mk_EmulatorConfig 1 1 "ckpt") demo_map []
              (mk_EmulatorConfig GB GB "ckpt")
              [("MORPHLING_CKPT_PATH", "ckpt"); ("MORPHLING_GPU_SIZE", "1073741824");
               ("MORPHLING_PIN_SIZE", "2024"); ("MORPHLING_SHM_SIZE", "1073739800")]%string)
    as (H & _).
  - unfold dict_wf. apply (bool_decide_unpack _). vm_compute. exact I.
  - repeat constructor; cbn; lia.
  - vm_compute. reflexivity.
  - exact (H "c"%string (tensor 3 8) eq_refl).
Defined.
