(* ===== verification/Units.v ===== *)
(** * Sizes with units ([common/config.py])

    The conversions between numbers and texts such as "5T". *)

From Stdlib Require Import Ascii.
From S2P Require Import Prelude PyDict PyStr PyFloat.

Definition SYMBOLS : list (string * list string) :=
  [("customary", ["B"; "K"; "M"; "G"; "T"; "P"; "E"; "Z"; "Y"]);
   ("customary_ext", ["byte"; "kilo"; "mega"; "giga"; "tera"; "peta"; "exa"; "zetta";
                      "iotta"]);
   ("iec", ["Bi"; "Ki"; "Mi"; "Gi"; "Ti"; "Pi"; "Ei"; "Zi"; "Yi"]);
   ("iec_ext", ["byte"; "kibi"; "mebi"; "gibi"; "tebi"; "pebi"; "exbi"; "zebi";
                "yobi"])]%string.

(** [1 << (i + 1) * 10] for the symbols after the first one *)
Definition prefix_of (i : nat) : Z := Z.shiftl 1 ((Z.of_nat i + 1) * 10).

Definition prefixes (symbols : list string) : list (string * Z) :=
  imap (fun i s => (s, prefix_of i)) (tail symbols).

(** ** [bytes2human], with its default format and symbols *)

(** The loop over the symbols from the largest: the first prefix not above [n] *)
Fixpoint largest_prefix (n : Z) (ps : list (string * Z)) : option (string * Z) :=
  match ps with
  | [] => None
  | (s, p) :: ps => if p <=? n then Some (s, p) else largest_prefix n ps
  end.

Definition bytes2human (n : Z) (symbols : string) : outcome string :=
  if n <? 0 then Raise (ValueError "n < 0")
  else
    syms ← of_option (KeyError symbols) (dict_get symbols SYMBOLS);
    let show (x : float) (symbol : string) := fmt_fixed 1 x +:+ " " +:+ symbol in
    match largest_prefix n (reverse (prefixes syms)) with
    | Some (symbol, p) =>
        num ← float_of_int n; den ← float_of_int p;
        value ← fdiv num den; Ret (show value symbol)
    | None =>
        value ← float_of_int n;
        symbol ← of_option (IndexError "tuple index out of range") (head syms);
        Ret (show value symbol)
    end.

(** ** [human2bytes] *)

(** A Python number *)
Inductive number : Type := PInt (z : Z) | PFloat (x : float).

(** [s.replace(".", "", 1)] *)
Fixpoint drop_first_dot (s : string) : string :=
  match s with
  | EmptyString => EmptyString
  | String c s => if Ascii.eqb c "." then s else String c (drop_first_dot s)
  end.

(** The loop that takes digits and dots off the front *)
Fixpoint take_number (s : string) : string * string :=
  match s with
  | EmptyString => (EmptyString, EmptyString)
  | String c r =>
      if is_digit c || Ascii.eqb c "." then
        let '(num, rest) := take_number r in (String c num, rest)
      else (EmptyString, s)
  end.

(** The first symbol set that has the letter *)
Fixpoint symbol_set (letter : string) (sets : list (string * list string)) :
    option (list string) :=
  match sets with
  | [] => None
  | (_, sset) :: sets => if bool_decide (letter ∈ sset) then Some sset
                         else symbol_set letter sets
  end.

(** The multiplier of a letter in its set *)
Definition multiplier (letter : string) (sset : list string) : option Z :=
  match sset with
  | [] => None
  | s0 :: _ => dict_get letter (dict_of_pairs ((s0, 1) :: prefixes sset))
  end.

Definition human2bytes (s : string) : outcome number :=
  if isdigit s then z ← of_option (ValueError "invalid literal for int()") (int_of_str s); Ret (PInt z)
  else if isdigit (drop_first_dot s) then
    x ← of_option (ValueError "could not convert string to float") (float_of_str s);
    Ret (PFloat x)
  else
    let '(num, rest) := take_number s in
    num ← of_option (ValueError "could not convert string to float") (float_of_str num);
    let letter := strip rest in
    '(letter, sset) ←
      match symbol_set letter SYMBOLS with
      | Some sset => Ret (letter, sset)
      | None =>
          if String.eqb letter "k" then
            sset ← of_option (KeyError "customary") (dict_get "customary" SYMBOLS);
            Ret (upper letter, sset)
          else Raise (ValueError ("can't interpret '" +:+ s +:+ "'"))
      end;
    p ← of_option (KeyError letter) (multiplier letter sset);
    p ← float_of_int p;
    z ← int_of_float (fmul num p); Ret (PInt z).

(** The doc comment's examples *)
Example human2bytes_doc :
  human2bytes "0 B" = Ret (PInt 0) /\ human2bytes "1 K" = Ret (PInt 1024) /\
  human2bytes "1 M" = Ret (PInt 1048576) /\ human2bytes "1 Gi" = Ret (PInt 1073741824) /\
  human2bytes "1 tera" = Ret (PInt 1099511627776) /\ human2bytes "0.5kilo" = Ret (PInt 512) /\
  human2bytes "0.1  byte" = Ret (PInt 0) /\ human2bytes "1 k" = Ret (PInt 1024) /\
  human2bytes "12 foo" = Raise (ValueError "can't interpret '12 foo'").
Proof. by vm_compute. Qed.

Example bytes2human_doc :
  bytes2human 0 "customary" = Ret "0.0 B"%string /\ bytes2human 1 "customary" = Ret "1.0 B"%string /\
  bytes2human 1048576 "customary" = Ret "1.0 M"%string /\
  bytes2human 1099511627776127398123789121 "customary" = Ret "909.5 Y"%string /\
  bytes2human 9856 "customary_ext" = Ret "9.6 kilo"%string /\
  bytes2human 9856 "iec_ext" = Ret "9.6 kibi"%string.
Proof. by vm_compute. Qed.

(** ** A number with a unit reads back *)

Lemma dec_run_digits s b acc n v :
  all_chars is_digit s = true -> int_digits b acc s = Some v ->
  dec_run b acc n s = (v, n + Z.of_nat (String.length s), ""%string).
Proof.
  revert b acc n. induction s as [|c s IH]; intros b acc n; cbn [all_chars int_digits dec_run].
  - intros _. destruct b; intros [= ->]. cbn. by rewrite Z.add_0_r.
  - intros [Hc Hs]%andb_prop. unfold is_digit in Hc.
    destruct (digit_val c) as [d|]; [|done]. intros Hv. rewrite (IH _ _ (n + 1) Hs Hv).
    f_equal. f_equal. cbn [String.length]. lia.
Qed.

Lemma str_of_N_digits n : all_chars is_digit (str_of_N n) = true.
Proof. apply str_of_N_all. apply (digit_char_cases is_digit). done. Qed.

Lemma digit_facts c :
  is_digit c = true ->
  is_space c = false /\ Ascii.eqb c "-" = false /\ Ascii.eqb c "+" = false /\
  Ascii.eqb c "." = false /\ lower_char c = c.
Proof. by destruct c as [[] [] [] [] [] [] [] []]. Qed.

Lemma digits_not (p : Ascii.ascii -> bool) s :
  (forall c, is_digit c = true -> p c = true) -> all_chars is_digit s = true ->
  all_chars p s = true.
Proof. intros Hp. apply all_chars_impl. exact Hp. Qed.

Lemma strip_digits s : all_chars is_digit s = true -> strip s = s.
Proof.
  intros Hs. apply strip_no_space. apply (digits_not _ s); [|done].
  intros c Hc. by destruct (digit_facts c Hc) as [-> _].
Qed.

(** [float] of an integer's text *)
Lemma float_of_str_N n :
  float_of_str (str_of_N n) = Some (f_of_dec false (Z.of_N n) 0).
Proof.
  pose proof (str_of_N_digits n) as Hd. pose proof (str_of_N_nonempty n) as Hne.
  pose proof (int_digits_str_of_N n false) as Hv.
  unfold float_of_str. rewrite strip_digits by done.
  destruct (str_of_N n) as [|c r] eqn:Hs; [done|]. clear Hne Hs.
  pose proof Hd as Hd'. cbn [all_chars] in Hd'. apply andb_prop in Hd' as [Hc Hr].
  destruct (digit_facts c Hc) as (_ & -> & -> & _ & Hl). unfold float_unsigned.
  cbn [lower map_str]. rewrite Hl.
  assert (Hlet : forall a t, is_digit a = false -> String.eqb (String c (lower r)) (String a t) = false).
  { intros a t Ha. apply String.eqb_neq. intros [= -> _]. congruence. }
  change (map_str lower_char r) with (lower r). rewrite !Hlet by done. cbn [orb].
  rewrite (dec_run_digits (String c r) false 0 0 (Z.of_N n)) by done.
  cbn [String.length]. rewrite (proj2 (Z.ltb_lt _ _)) by lia. cbn. by rewrite Z.sub_0_r.
Qed.

Lemma take_number_digits s t :
  all_chars is_digit s = true ->
  match t with String c _ => is_digit c || Ascii.eqb c "." | EmptyString => false end = false ->
  take_number (s +:+ t) = (s, t).
Proof.
  intros Hs Ht. induction s as [|c s IH].
  - change ("" +:+ t) with t. destruct t as [|c t]; [done|].
    change (is_digit c || Ascii.eqb c "." = false) in Ht. cbn [take_number]. by rewrite Ht.
  - change (String c s +:+ t) with (String c (s +:+ t)).
    cbn [all_chars] in Hs. apply andb_prop in Hs as [Hc Hs].
    cbn [take_number]. rewrite Hc. cbn [orb]. by rewrite (IH Hs).
Qed.

Lemma drop_first_dot_none s : no_char "." s = true -> drop_first_dot s = s.
Proof.
  induction s as [|c s IH]; [done|]. unfold no_char. cbn [all_chars drop_first_dot].
  intros [Hc Hs]%andb_prop. apply negb_true_iff in Hc. rewrite Hc. f_equal. by apply IH.
Qed.

(** The letters of the symbols *)
Definition is_letter (c : Ascii.ascii) : bool :=
  let n := N_of_ascii c in ((65 <=? n) && (n <=? 122))%N.

Lemma letter_facts c :
  is_letter c = true -> is_space c = false /\ is_digit c = false /\ Ascii.eqb c "." = false.
Proof. by destruct c as [[] [] [] [] [] [] [] []]. Qed.

Definition is_name (s : string) : bool := negb (is_empty s) && all_chars is_letter s.

(** The symbol sets agree on the multipliers of the names they share. *)
Lemma symbols_ok name syms i letter :
  (name, syms) ∈ SYMBOLS -> syms !! i = Some letter ->
  is_name letter = true /\
  exists sset p, symbol_set letter SYMBOLS = Some sset /\ multiplier letter sset = Some p /\
    p = 2 ^ (10 * Z.of_nat i) /\
    float_of_int p = Ret (S754_finite false 4503599627370496 (10 * Z.of_nat i - 52)).
Proof.
  intros Hs Hi. unfold SYMBOLS in Hs. rewrite !elem_of_cons in Hs.
  destruct Hs as [[= -> ->]|[[= -> ->]|[[= -> ->]|[[= -> ->]|Hs]]]]; [..|by apply not_elem_of_nil in Hs].
  all: do 9 (destruct i as [|i]; [cbn in Hi; injection Hi as <-; split; [reflexivity|];
    eexists _, _; split; [vm_compute; reflexivity|]; split; [vm_compute; reflexivity|];
    split; vm_compute; reflexivity|]); done.
Qed.

Lemma strip_spaces_name sp letter :
  all_chars is_space sp = true -> is_name letter = true -> strip (sp +:+ letter) = letter.
Proof.
  intros Hsp [_ Hl]%andb_prop. unfold strip. rewrite lstrip_by_app by done.
  apply strip_no_space. eapply all_chars_impl, Hl. intros c Hc.
  by destruct (letter_facts c Hc) as [-> _].
Qed.

Lemma space_facts c : is_space c = true -> is_digit c = false /\ Ascii.eqb c "." = false.
Proof. by destruct c as [[] [] [] [] [] [] [] []]. Qed.

(** The text after the digits starts with neither a digit nor a dot and has no dot. *)
Lemma unit_text sp letter :
  all_chars is_space sp = true -> is_name letter = true ->
  match sp +:+ letter with
  | String c _ => is_digit c || Ascii.eqb c "."
  | EmptyString => false
  end = false /\
  all_chars is_digit (sp +:+ letter) = false /\ no_char "." (sp +:+ letter) = true.
Proof.
  intros Hsp [Hne Hl]%andb_prop. destruct letter as [|a letter]; [done|]. clear Hne.
  assert (Hdot : no_char "." (sp +:+ String a letter) = true).
  { unfold no_char. rewrite all_chars_app. apply andb_true_intro. split.
    - eapply all_chars_impl, Hsp. intros c Hc. by destruct (space_facts c Hc) as [_ ->].
    - eapply all_chars_impl, Hl. intros c Hc. by destruct (letter_facts c Hc) as (_ & _ & ->). }
  cbn [all_chars] in Hl. apply andb_prop in Hl as [Ha Hl].
  destruct (letter_facts a Ha) as (_ & Hda & Hdota).
  destruct sp as [|c sp].
  - change ("" +:+ String a letter) with (String a letter) in *. split_and!; [|cbn [all_chars]|done].
    + by rewrite Hda, Hdota.
    + by rewrite Hda.
  - change (String c sp +:+ String a letter) with (String c (sp +:+ String a letter)) in *.
    cbn [all_chars] in Hsp. apply andb_prop in Hsp as [Hc _].
    destruct (space_facts c Hc) as [Hdc Hdotc]. split_and!; [|cbn [all_chars]|done].
    + by rewrite Hdc, Hdotc.
    + by rewrite Hdc.
Qed.

(** A size with a unit is read exactly: for every symbol set, the text of an integer
    below 2^53, any blanks and the set's [i]-th symbol stand for that integer times
    [1024 ^ i], although the product is taken on floats. *)
Theorem human2bytes_exact n name syms i letter sp :
  0 <= n < 2 ^ 53 -> (name, syms) ∈ SYMBOLS -> syms !! i = Some letter ->
  all_chars is_space sp = true ->
  human2bytes (str_of_Z n +:+ sp +:+ letter) = Ret (PInt (n * 1024 ^ Z.of_nat i)).
Proof.
  intros Hn Hsyms Hi Hsp.
  destruct (symbols_ok _ _ _ _ Hsyms Hi) as (Hname & sset & p & Hset & Hmul & Hp & Hf).
  destruct (unit_text sp letter Hsp Hname) as (Hhead & Hnd & Hdot).
  assert (i < 9)%nat as Hi9.
  { apply lookup_lt_Some in Hi. unfold SYMBOLS in Hsyms. rewrite !elem_of_cons in Hsyms.
    destruct Hsyms as [[= _ ->]|[[= _ ->]|[[= _ ->]|[[= _ ->]|H]]]]; try done.
    by apply not_elem_of_nil in H. }
  assert (str_of_Z n = str_of_N (Z.to_N n)) as ->.
  { unfold str_of_Z. by rewrite (proj2 (Z.ltb_ge n 0)) by lia. }
  pose proof (str_of_N_digits (Z.to_N n)) as Hd. set (d := str_of_N (Z.to_N n)) in *.
  assert (Hdrop : drop_first_dot (d +:+ sp +:+ letter) = d +:+ sp +:+ letter).
  { apply drop_first_dot_none. unfold no_char in *. rewrite all_chars_app.
    apply andb_true_intro. split; [|done]. apply (digits_not _ d); [|done].
    intros c Hc. by destruct (digit_facts c Hc) as (_ & _ & _ & -> & _). }
  assert (His : isdigit (d +:+ sp +:+ letter) = false).
  { unfold isdigit. destruct (d +:+ sp +:+ letter) eqn:He; [done|].
    by rewrite <- He, all_chars_app, Hnd, andb_false_r. }
  unfold human2bytes. rewrite Hdrop, His, take_number_digits by done.
  assert (float_of_str d = Some (f_of_dec false n 0)) as ->
    by (unfold d; rewrite float_of_str_N, Z2N.id by lia; done).
  cbn [of_option mbind outcome_bind]. rewrite strip_spaces_name, Hset by done.
  cbn [mbind outcome_bind]. rewrite Hmul. cbn [of_option mbind outcome_bind].
  rewrite Hf. cbn [mbind outcome_bind].
  assert (1024 ^ Z.of_nat i = 2 ^ (10 * Z.of_nat i)) as -> by (by rewrite Z.pow_mul_r by lia).
  destruct n as [|q|q]; [done| |lia].
  assert (HL : Z.log2 (Zpos q) <= 52).
  { assert (Z.log2 (Zpos q) < 53); [|lia]. apply Z.log2_lt_pow2; lia. }
  pose proof (fmul_pow2_exact q 0 (10 * Z.of_nat i) _ HL ltac:(lia) (f_of_dec_exact q HL)) as He.
  rewrite (int_of_float_exact q (0 + 10 * Z.of_nat i) _ HL ltac:(lia) He). done.
Qed.

Lemma human2bytes_exact_witness :
  human2bytes ("9007199254740991" +:+ "  " +:+ "Ki") = Ret (PInt 9223372036854774784).
Proof.
  apply (human2bytes_exact 9007199254740991 "iec" ["Bi"; "Ki"; "Mi"; "Gi"; "Ti"; "Pi"; "Ei";
    "Zi"; "Yi"]%string 1 "Ki" "  "); [lia| |reflexivity|reflexivity].
  unfold SYMBOLS. do 2 right. left.
Defined.
