(* ===== verification/TraceGen.v ===== *)
(** * Trace generation ([scripts/generate_trace.py])

    Synthetic scheduling traces and the within-batch traces the batch accounting
    reads.  NumPy's random generator is a parameter ([Rng]): its draws are a function
    of its state.  The Fourier transform, the deviation of an array and the power and
    exponential functions of the C library are parameters too ([Numpy]); everything
    computed from them is modelled. *)

From Stdlib Require Import Ascii.
From S2P Require Import Prelude PyDict PyStr PyFloat FloatOrder NumPy PyJson.
From S2P Require BatchRuntime.

Record preset : Type := mk_preset { slot_ns : Z; budget_min_us : Z; budget_max_us : Z }.

Definition SCS_PRESETS : list (Z * preset) :=
  [(15, mk_preset 1000000 500 714); (30, mk_preset 500000 200 429);
   (60, mk_preset 250000 150 411); (120, mk_preset 125000 100 321)].

(** ** Rounding *)

(** [round(x, 6)] *)
Definition round6 (x : float) : float :=
  match x with
  | S754_finite s m e =>
      let num := Zpos m * 10 ^ 6 in
      f_of_dec s (if 0 <=? e then num * 2 ^ e else round_quot num (2 ^ (- e))) (-6)
  | _ => x
  end.

(** ** Loads *)

(** One element of [load_to_sm] *)
Definition load_to_sm (load : float) (sm_min sm_max sm_step : Z) : outcome Z :=
  steps ← int_truediv (sm_max - sm_min) sm_step;
  max_load ←
    (if flt fzero steps
     then half ← fdiv (f_lit 5 1) steps; Ret (fsub (fsub (f_of_Z 1) half) (f_lit 1 9))
     else Ret (f_of_Z 1));
  let arr := np_clip load fzero max_load in
  lo ← float_of_int sm_min;
  hi ← float_of_int sm_max;
  span ← float_of_int (sm_max - sm_min);
  step ← float_of_int sm_step;
  let target := fadd lo (fmul arr span) in
  q ← fdiv (fsub target lo) step;
  let sm := fadd lo (fmul (np_rint q) step) in
  Ret (as_int64 (np_clip sm lo hi)).

(** A complex number *)
Record complex : Type := mk_complex { re : float; im : float }.

Definition real (x : float) : complex := mk_complex x fzero.
Definition cadd (a b : complex) : complex := mk_complex (fadd (re a) (re b)) (fadd (im a) (im b)).
Definition cmul (a b : complex) : complex :=
  mk_complex (fsub (fmul (re a) (re b)) (fmul (im a) (im b)))
             (fadd (fmul (re a) (im b)) (fmul (im a) (re b))).
Definition conj (a : complex) : complex := mk_complex (re a) (fopp (im a)).

(** [x ** y] on floats, [np.fft.fft], [np.std] and [np.exp] *)
Class Numpy : Type := {
  float_pow : float -> float -> outcome float;
  np_fft : list complex -> list complex;
  np_std : list float -> float;
  np_exp : float -> float;
}.

(** NumPy's [Generator] *)
Class Rng (R : Type) : Type := {
  rng_integers : Z -> Z -> R -> Z * R;
  rng_uniform : float -> float -> R -> float * R;
  rng_normal : R -> float * R;
  rng_poisson : float -> R -> Z * R;
}.

(** The transform keeps the length; [integers] and [uniform] draw from their documented
    ranges. *)
Class NumpyLaws `{Numpy} : Prop := fft_length : forall l, length (np_fft l) = length l.
Class RngLaws (R : Type) `{Rng R} : Prop := {
  integers_range : forall lo hi r, lo < hi -> lo <= (rng_integers lo hi r).1 < hi;
  uniform_range : forall lo hi r, fin lo -> fin hi -> fval lo <= fval hi ->
    fin (rng_uniform lo hi r).1 /\ fval lo <= fval (rng_uniform lo hi r).1 <= fval hi;
}.

(** ** Fractional Gaussian noise *)

Section loads.
Context `{Numpy} {R : Type} `{Rng R}.

Definition fgn_autocov (h : float) (k : Z) : outcome float :=
  let k_abs := Z.abs k in
  let e := fmul (f_of_Z 2) h in
  below ← float_of_int (Z.abs (k_abs - 1)); p1 ← float_pow below e;
  at_ ← float_of_int k_abs; p2 ← float_pow at_ e;
  above ← float_of_int (k_abs + 1); p3 ← float_pow above e;
  Ret (fmul (f_lit 5 1) (fadd (fsub p1 (fmul (f_of_Z 2) p2)) p3)).

Definition eig_at (eig : list float) (k : Z) : float := default fzero (eig !! Z.to_nat k).

(** [V[k] = v] *)
Definition set_at (k : Z) (v : complex) (V : list complex) : list complex :=
  <[Z.to_nat k := v]> V.

(** The loop over the frequencies between 0 and [n] *)
Fixpoint fgn_loop (m : Z) (eig : list float) (ks : list Z) (V : list complex) :
    M R (list complex) :=
  match ks with
  | [] => mret V
  | k :: ks =>
      a ← draw rng_normal;
      b ← draw rng_normal;
      let scale := np_sqrt (np_div (eig_at eig k) (fmul (f_of_Z 2) (f_of_Z m))) in
      let v := cmul (real scale) (cadd (real a) (cmul (mk_complex fzero (f_of_Z 1)) (real b))) in
      fgn_loop m eig ks (set_at (m - k) (conj v) (set_at k v V))
  end.

Definition generate_fgn (n : Z) (h : float) : M R (list float) :=
  if n <=? 0 then mret []
  else if n =? 1 then x ← draw rng_normal; mret [x]
  else
    r ← lift (mapO (fgn_autocov h) (seqZ 0 n));
    let g := r ++ [fzero] ++ reverse (tail r) in
    let m := Z.of_nat (length g) in
    let eig := map (fun c => np_maximum (re c) fzero) (np_fft (map real g)) in
    let V := replicate (length g) (real fzero) in
    z0 ← draw rng_normal;
    let V := set_at 0 (real (fmul (np_sqrt (np_div (eig_at eig 0) (f_of_Z m))) z0)) V in
    zn ← draw rng_normal;
    let V := set_at n (real (fmul (np_sqrt (np_div (eig_at eig n) (f_of_Z m))) zn)) V in
    V ← fgn_loop m eig (seqZ 1 (n - 1)) V;
    mret (take (Z.to_nat n) (map re (np_fft V))).

(** [noise / std], or zeros for a constant noise *)
Definition normalise (noise : list float) : list float :=
  let std := np_std noise in
  if flt std (f_lit 1 12) then map (fun _ => fzero) noise
  else map (fun x => np_div x std) noise.

(** ** Synthetic loads

    [rng] is the generator [np.random.default_rng(seed)] starts with. *)

Definition generate_random_load (n : Z) (h mean_rho : float) (rng : R) :
    outcome (list float) :=
  noise ← (generate_fgn n h rng).1;
  Ret (map (fun x => np_clip (fadd mean_rho (fmul (f_lit 18 2) x)) fzero (f_of_Z 1))
         (normalise noise)).

(** One turn of the smoothing loop *)
Definition shape_step (alpha slew_cap : float) (state raw : float) : float :=
  let deadband := fmax (f_lit 4 2) (fmul (f_lit 5 1) slew_cap) in
  let ewma := fadd (fmul alpha raw) (fmul (fsub (f_of_Z 1) alpha) state) in
  let delta := np_clip (fsub ewma state) (fopp slew_cap) slew_cap in
  let next_state := np_clip (fadd state delta) fzero (f_of_Z 1) in
  if flt (SFabs (fsub next_state state)) deadband then state else next_state.

Fixpoint shape_loop (alpha slew_cap : float) (state : float) (raw : list float) : list float :=
  match raw with
  | [] => []
  | x :: raw => let state := shape_step alpha slew_cap state x in
                state :: shape_loop alpha slew_cap state raw
  end.

Definition generate_shaped_load (n : Z) (h mean_rho alpha slew_cap : float)
    (rng : R) : outcome (list float) :=
  raw ← generate_random_load n h mean_rho rng;
  if n <=? 0 then Ret raw
  else match raw with
       | [] => Raise (IndexError "index 0 is out of bounds for axis 0 with size 0")
       | x :: raw => Ret (x :: shape_loop alpha slew_cap x raw)
       end.
End loads.

(** ** Stability runs *)

Fixpoint runs_from (last run : Z) (sm : list Z) : list Z :=
  match sm with
  | [] => [run]
  | x :: sm => if x =? last then runs_from x (run + 1) sm else run :: runs_from x 1 sm
  end.

Definition stability_runs (sm : list Z) : list Z :=
  match sm with [] => [] | x :: sm => runs_from x 1 sm end.

(** ** Detection of the SM step *)

(** The step of a compute capability *)
Definition step_of_major (major : Z) : Z := if 9 <=? major then 8 else 2.

(** [_sm_step_from_nvidia_smi], from the output of the command; an exception anywhere
    is [None] *)
Definition sm_step_from_nvidia_smi (stdout : outcome string) : option Z :=
  match stdout with
  | Ret out =>
      match file_lines (strip out) with
      | line :: _ =>
          step_of_major <$> int_of_str (hd ""%string (split_on "."%char (strip line)))
      | [] => None
      end
  | Raise _ => None
  end.

(** [_sm_step_from_pynvml], from the device count and the first device's capability *)
Definition sm_step_from_pynvml (count : outcome Z) (major : outcome Z) : option Z :=
  match count with
  | Ret n => if n <=? 0 then None
             else match major with Ret m => Some (step_of_major m) | Raise _ => None end
  | Raise _ => None
  end.

Definition detect_sm_step (pynvml smi : option Z) : Z :=
  match pynvml with
  | Some s => s
  | None => match smi with Some s => s | None => 2 end
  end.

(** ** Drawing *)

Section draws.
Context `{Numpy} {R : Type} `{Rng R}.

(** [max(1, int(round(slot_ns_nom * (1.0 + jitter))))] *)
Definition slot_of (nominal : Z) (jitter : float) : outcome Z :=
  nom ← float_of_int nominal;
  z ← py_round (fmul nom (fadd (f_of_Z 1) jitter));
  Ret (Z.max 1 z).

Fixpoint timing_loop (p : preset) (n : nat) (t : Z) : M R (list (Z * Z)) :=
  match n with
  | O => mret []
  | S n =>
      sched ← lift (store64 t);
      budget_us ← draw (rng_integers (budget_min_us p) (budget_max_us p + 1));
      decode ← lift (store64 (t + budget_us * 1000));
      jitter ← draw (rng_uniform (f_lit (-2) 2) (f_lit 2 2));
      slot ← lift (slot_of (slot_ns p) jitter);
      rest ← timing_loop p n (t + slot);
      mret ((sched, decode) :: rest)
  end.

(** The scheduling and decoding times of every slot *)
Definition generate_timing (n scs : Z) : M R (list (Z * Z)) :=
  p ← lift (of_option (KeyError (str_of_Z scs)) (dict_get scs SCS_PRESETS));
  timing_loop p (Z.to_nat n) 0.

(** *** Within-batch traces *)

(** One throttling event: the bins from [start] to [end] are lowered *)
Definition throttle (start end_ : Z) (mult : float) (flops : list float) : list float :=
  imap (fun i x => if (start <=? Z.of_nat i) && (Z.of_nat i <? end_)
                   then np_minimum x mult else x) flops.

Fixpoint events_loop (n : nat) (num_bins dur_bins : Z) (magnitude : float)
    (flops : list float) : M R (list float) :=
  match n with
  | O => mret flops
  | S n =>
      start ← draw (rng_integers 0 num_bins);
      u ← draw (rng_uniform (f_lit 7 1) (f_of_Z 1));
      let mult := fmax (f_lit 1 1) (fsub (f_of_Z 1) (fmul magnitude u)) in
      events_loop n num_bins dur_bins magnitude
        (throttle start (Z.min num_bins (start + dur_bins)) mult flops)
  end.

Definition drift_series (n : Z) (hurst std : float) : M R (list float) :=
  noise ← generate_fgn n hurst;
  let s := np_std noise in
  mret ((fun x =>
           let norm := if flt (f_lit 1 12) s then np_div x s else fzero in
           np_clip (fadd (f_of_Z 1) (fmul std norm)) (f_lit 2 1) (f_lit 12 1)) <$> noise).

(** [ul[contention] *= 0.7] *)
Definition contend (flops ul : list float) : list float :=
  zip_with (fun f u => if flt f (f_of_Z 1) then fmul u (f_lit 7 1) else u) flops ul.

Definition rounded (l : list float) : json := JList ((fun x => JFloat (round6 x)) <$> l).

Record within_batch_args : Type := mk_within_batch_args {
  num_devices : Z;
  num_bins : Z;
  magnitude : float;
  event_rate : float;
  duration_frac : float;
  network_drift_std : float;
  hurst : float;
  seed : Z;
}.

Definition device_trace (a : within_batch_args) (dur_bins : Z) : M R json :=
  n_events ← draw (rng_poisson (event_rate a));
  flops ← events_loop (Z.to_nat n_events) (num_bins a) dur_bins (magnitude a)
            (replicate (Z.to_nat (num_bins a)) (f_of_Z 1));
  ul ← drift_series (num_bins a) (hurst a) (network_drift_std a);
  dl ← drift_series (num_bins a) (hurst a) (network_drift_std a);
  mret (JObj [("flops_mult", rounded flops); ("ul_bw_mult", rounded (contend flops ul));
              ("dl_bw_mult", rounded (contend flops dl))])%string.

Fixpoint devices_loop (a : within_batch_args) (dur_bins : Z) (devs : list Z) (acc : obj) :
    M R obj :=
  match devs with
  | [] => mret acc
  | dev :: devs =>
      j ← device_trace a dur_bins;
      devices_loop a dur_bins devs (dict_set (str_of_Z dev) j acc)
  end.

Definition meta_json (a : within_batch_args) : json :=
  JObj [("num_devices", JInt (num_devices a)); ("magnitude", JFloat (magnitude a));
        ("event_rate", JFloat (event_rate a)); ("duration_frac", JFloat (duration_frac a));
        ("network_drift_std", JFloat (network_drift_std a)); ("hurst", JFloat (hurst a));
        ("seed", JInt (seed a))]%string.

Definition generate_within_batch_traces (a : within_batch_args) : M R obj :=
  nb ← lift (float_of_int (num_bins a));
  d ← lift (py_round (fmul (duration_frac a) nb));
  devices ← devices_loop a (Z.max 1 d) (seqZ 0 (num_devices a)) [];
  mret [("schema", JStr "within_batch_trace_v1"); ("num_bins", JInt (num_bins a));
        ("meta", meta_json a); ("devices", JObj devices)]%string.

(** The checks of [main_within_batch] before it generates *)
Definition check_within_batch_args (a : within_batch_args) : outcome unit :=
  if (num_devices a <=? 0) || (num_bins a <=? 0) then
    Raise (ValueError "--num-devices and --num-bins must be > 0")
  else if negb (fle fzero (magnitude a) && fle (magnitude a) (f_of_Z 1)) then
    Raise (ValueError "--magnitude must be in [0, 1]")
  else if negb (flt fzero (hurst a) && flt (hurst a) (f_of_Z 1)) then
    Raise (ValueError "--hurst must be in (0, 1)")
  else if negb (fle fzero (duration_frac a) && fle (duration_frac a) (f_of_Z 1)) then
    Raise (ValueError "--duration-frac must be in [0, 1]")
  else Ret tt.
Definition np_number (j : json) : outcome float :=
  match j with
  | JBool _ | JInt _ | JFloat _ => py_float j
  | _ => Raise (TypeError "must be real number")
  end.

(** A row of numbers under a key of every device, for [np.array] *)
Definition number_row (key : string) (dev : json) : outcome (list float) :=
  match dev with
  | JObj d =>
      j ← of_option (KeyError key) (dict_get key d);
      match j with
      | JList l => mapO np_number l
      | _ => Raise (ValueError "setting an array element with a sequence.")
      end
  | _ => Raise (TypeError "indices must be integers")
  end.

(** [np.array([devices[k][key] for k in devices])], flattened; rows must have one length *)
Definition number_array (key : string) (devices : obj) : outcome (list float) :=
  rows ← mapO (fun kv => number_row key kv.2) devices;
  if forallb (fun r => (length r =? length (hd [] rows))%nat) rows then Ret (concat rows)
  else Raise (ValueError "setting an array element with a sequence.").

(** [l.min()] *)
Definition np_min (l : list float) : outcome float :=
  match l with
  | [] => Raise (ValueError "zero-size array to reduction operation minimum which has no identity")
  | x :: l => Ret (foldl np_minimum x l)
  end.

(** [np.mean(l < 1.0)] *)
Definition below_one_fraction (l : list float) : float :=
  np_div (f_of_Z (Z.of_nat (length (List.filter (fun x => flt x (f_of_Z 1)) l))))
         (f_of_Z (Z.of_nat (length l))).

Definition meta_float (key : string) (meta : obj) : outcome float :=
  j ← of_option (KeyError key) (dict_get key meta); py_float j.

Record batch_stats : Type := mk_batch_stats {
  throttled_bin_fraction : float;
  expected_throttled_fraction : float;
  min_flops_mult : float;
  network_mult_std : float;
  requested_network_std : float;
}.

(** The object under a key *)
Definition obj_at (key : string) (d : obj) : outcome obj :=
  j ← of_option (KeyError key) (dict_get key d);
  of_option (TypeError "indices must be integers") (as_obj j).

(** The assertions on the statistics, for a throttled trace and for a drifting one *)
Definition check_throttle (m : float) (s : batch_stats) : outcome unit :=
  if negb (fle (min_flops_mult s) (fsub (f_of_Z 1) (fmul (f_lit 5 1) m))) then
    Raise (AssertionError "throttle depth too shallow")
  else
    let tol := fmax (f_lit 15 2) (fmul (f_lit 6 1) (expected_throttled_fraction s)) in
    if negb (fle (SFabs (fsub (throttled_bin_fraction s) (expected_throttled_fraction s))) tol)
    then Raise (AssertionError "event coverage off")
    else Ret tt.

Definition check_drift (std : float) (s : batch_stats) : outcome unit :=
  if negb (fle (fmul (f_lit 3 1) std) (network_mult_std s)) then
    Raise (AssertionError "network drift too small")
  else Ret tt.

Definition validate_within_batch (trace : obj) : outcome batch_stats :=
  meta ← obj_at "meta" trace;
  devices ← obj_at "devices" trace;
  flops ← number_array "flops_mult" devices;
  ul ← number_array "ul_bw_mult" devices;
  rate ← meta_float "event_rate" meta;
  dur ← meta_float "duration_frac" meta;
  min_mult ← np_min flops;
  requested ← meta_float "network_drift_std" meta;
  let s := mk_batch_stats (below_one_fraction flops)
             (fsub (f_of_Z 1) (np_exp (fmul (fopp rate) dur))) min_mult (np_std ul) requested in
  m ← meta_float "magnitude" meta;
  (if flt fzero m && flt fzero rate then check_throttle m s else Ret tt);;
  (if flt fzero requested then check_drift requested s else Ret tt);;
  Ret s.

(** What [main_within_batch] writes: the trace, once it is checked *)
Definition main_within_batch (a : within_batch_args) (rng : R) : outcome obj :=
  check_within_batch_args a;;
  trace ← (generate_within_batch_traces a rng).1;
  validate_within_batch trace;;
  Ret trace.

(** *** The scheduling trace *)

Record ran_args : Type := mk_ran_args {
  num_slots : Z;
  shaped : bool;
  scs : Z;
  sm_min : Z;
  sm_max : Z;
  sm_step_arg : string;
  ran_hurst : float;
  mean_load : float;
  alpha : float;
  slew : float;
}.

Definition check_ran_args (a : ran_args) : outcome unit :=
  if num_slots a <=? 0 then Raise (ValueError "--num-slots must be > 0")
  else if negb (flt fzero (ran_hurst a) && flt (ran_hurst a) (f_of_Z 1)) then
    Raise (ValueError "--hurst must be in (0, 1)")
  else if negb (fle fzero (mean_load a) && fle (mean_load a) (f_of_Z 1)) then
    Raise (ValueError "--mean-load must be in [0, 1]")
  else if (sm_min a <=? 0) || (sm_max a <? sm_min a) then
    Raise (ValueError "Require 0 < --sm-min <= --sm-max")
  else Ret tt.

(** [--sm-step]; [detected] is what [detect_sm_step] finds *)
Definition chosen_sm_step (a : ran_args) (detected : Z) : outcome Z :=
  step ← (if String.eqb (lower (sm_step_arg a)) "auto" then Ret detected
          else of_option (ValueError ("invalid literal for int() with base 10: '"
                                      +:+ sm_step_arg a +:+ "'"))
                 (int_of_str (sm_step_arg a)));
  if step <=? 0 then Raise (ValueError "--sm-step must be positive") else Ret step.

Definition make_load (a : ran_args) (rng : R) : outcome (list float) :=
  if shaped a then
    generate_shaped_load (num_slots a) (ran_hurst a) (mean_load a) (alpha a) (slew a) rng
  else generate_random_load (num_slots a) (ran_hurst a) (mean_load a) rng.

(** The rows [main_ran] writes: scheduling time, estimated decoding time, SM count.
    Both the load and the timing start from a generator with the given seed. *)
Definition main_ran (a : ran_args) (detected : Z) (rng_load rng : R) :
    outcome (list (Z * Z * Z)) :=
  check_ran_args a;;
  step ← chosen_sm_step a detected;
  load ← make_load a rng_load;
  timing ← (generate_timing (num_slots a) (scs a) rng).1;
  sm_count ← mapO (fun x => load_to_sm x (sm_min a) (sm_max a) step) load;
  Ret (zip timing sm_count).

Definition transitions (sm : list Z) : Z :=
  Z.of_nat (length (filter (fun p => p.1 <> p.2) (zip (tail sm) sm))).

(** The text of the output file *)
Definition csv_row (r : Z * Z * Z) : string :=
  (join "," [str_of_Z r.1.1; str_of_Z r.1.2; str_of_Z r.2] +:+ nl)%string.
Definition csv_text (rows : list (Z * Z * Z)) : string :=
  (foldr String.append "" (("time_slot_sched_ns,time_decode_start_est_ns,sm_count" +:+ nl)
                             :: map csv_row rows))%string.

End draws.

(** ** SM counts stay on the grid *)

(** The upper bound of the load *)
Lemma max_load_between span step :
  0 < step <= span -> span < 2 ^ 52 ->
  exists steps half, int_truediv span step = Ret steps /\ flt fzero steps = true /\
    fdiv (f_lit 5 1) steps = Ret half /\
    pfin (fsub (fsub (f_of_Z 1) half) (f_lit 1 9)) /\
    fval (fsub (fsub (f_of_Z 1) half) (f_lit 1 9)) <= one.
Proof.
  intros Hstep Hspan. pose proof one_pos as H1.
  assert (Hone : pfin (f_of_Z 1) /\ fval (f_of_Z 1) = one) by (apply f_of_Z_fval; lia).
  destruct Hone as [Hp1 Hv1].
  assert (Hhalf : pfin (f_lit 5 1) /\ 2 * fval (f_lit 5 1) = one)
    by (split; [by apply pfinb_pfin|by vm_compute]).
  destruct Hhalf as [Hph Hvh].
  assert (Hnano : pfin (f_lit 1 9) /\ 4 * fval (f_lit 1 9) <= one)
    by (split; [by apply pfinb_pfin|by vm_compute]).
  destruct Hnano as [Hpn Hvn].
  destruct (int_truediv_between span step (f_of_Z 1) (f_of_Z span)) as (steps & Hs & Hps & Hvs);
    [lia|lia|done|apply pfin_small_int; lia|nia| |].
  { rewrite fval_small_int by lia. assert (0 <= span * one) by nia.
    rewrite <- (Z.mul_1_r (span * one)) at 1. apply Z.mul_le_mono_nonneg_l; lia. }
  rewrite Hv1 in Hvs.
  assert (Hpos : flt fzero steps = true).
  { apply flt_fval; [by repeat split|apply Hps|]. cbn [fval fzero]. lia. }
  destruct (fdiv (f_lit 5 1) steps) as [half|] eqn:Hd;
    [|by pose proof (fdiv_pos (f_lit 5 1) steps Hpos) as Hr; rewrite Hd in Hr].
  destruct (fdiv_le _ _ (f_lit 5 1) half Hph Hps Hph Hd) as [Hphalf Hvhalf].
  { apply Z.mul_le_mono_nonneg_l; [by apply pfin_fval|lia]. }
  pose proof (pfin_fval _ Hphalf) as Hhalf0. pose proof (pfin_fval _ Hpn) as Hnano0.
  destruct (fsub_le (f_of_Z 1) half (f_of_Z 1) Hp1 Hphalf Hp1) as [Hpd Hvd]; [lia|lia|].
  pose proof (fsub_ge (f_of_Z 1) half (f_lit 5 1) Hp1 Hphalf Hph ltac:(lia) ltac:(lia)) as Hgd.
  destruct (fsub_le (fsub (f_of_Z 1) half) (f_lit 1 9) (f_of_Z 1) Hpd Hpn Hp1) as [Hpe Hve];
    [lia|lia|].
  exists steps, half. rewrite <- Hv1. done.
Qed.

(** The bound the code clips a load with is a number of at most one. *)
Lemma chosen_max_load span step :
  0 <= span < 2 ^ 26 -> 0 < step < 2 ^ 26 -> span = 0 \/ step <= span ->
  exists steps max_load, int_truediv span step = Ret steps /\
    (if flt fzero steps
     then half ← fdiv (f_lit 5 1) steps; Ret (fsub (fsub (f_of_Z 1) half) (f_lit 1 9))
     else Ret (f_of_Z 1)) = Ret max_load /\ pfin max_load /\ fval max_load <= one.
Proof.
  intros Hspan Hstep Hor. destruct (decide (span = 0)) as [->|H0].
  - exists fzero, (f_of_Z 1). destruct step; [lia| |lia].
    split_and!; [done|done|apply pfin_small_int; lia|rewrite fval_small_int; lia].
  - destruct (max_load_between span step) as (steps & half & Hs & Hpos & Hd & Hp & Hv);
      [lia|lia|].
    eexists steps, _. rewrite Hpos, Hd. split_and!; [done|done|exact Hp|exact Hv].
Qed.

(** The target above the lower limit, in steps, is a number of at most the span. *)
Lemma target_steps load lo hi step :
  pfin load -> fval load <= one -> 0 < lo <= hi -> 0 < step -> hi + step < 2 ^ 26 ->
  exists q, fdiv (fsub (fadd (f_of_Z lo) (fmul load (f_of_Z (hi - lo)))) (f_of_Z lo))
                 (f_of_Z step) = Ret q /\
    pfin q /\ fval q <= (hi - lo) * one.
Proof.
  intros Hpa Hva Hlo Hstep Hsmall. pose proof one_pos as H1.
  set (span := hi - lo) in *.
  assert (Hp : forall z, 0 <= z <= hi + step -> pfin (f_of_Z z) /\ fval (f_of_Z z) = z * one)
    by (intros; apply f_of_Z_fval; lia).
  destruct (Hp span ltac:(lia)) as [Hps Hvs]. destruct (Hp lo ltac:(lia)) as [Hpl Hvl].
  destruct (Hp hi ltac:(lia)) as [Hph Hvh]. destruct (Hp step ltac:(lia)) as [Hpt Hvt].
  destruct (fmul_le load (f_of_Z span) (f_of_Z span) Hpa Hps Hps) as [Hpx Hvx].
  { rewrite Hvs. pose proof (pfin_fval _ Hpa). nia. }
  pose proof (pfin_fval _ Hpx) as Hx0.
  destruct (fadd_le (f_of_Z lo) (fmul load (f_of_Z span)) (f_of_Z hi)) as [Hpy Hvy];
    [done|done|done|lia|].
  set (target := fadd (f_of_Z lo) (fmul load (f_of_Z span))) in *.
  assert (Hgy : fval (f_of_Z lo) <= fval target).
  { destruct (fadd_ge (f_of_Z lo) (fmul load (f_of_Z span)) (f_of_Z lo) Hpl Hpx Hpl)
      as [Hinf|[_ ?]]; [lia| |done].
    fold target in Hinf. destruct Hpy as [[Hf _] _]. by rewrite Hinf in Hf. }
  destruct (fsub_le target (f_of_Z lo) (f_of_Z span)) as [Hpd Hvd]; [done|done|done|lia|lia|].
  assert (Hstep0 : flt fzero (f_of_Z step) = true) by (apply f_of_Z_pos; lia).
  destruct (fdiv (fsub target (f_of_Z lo)) (f_of_Z step)) as [q|] eqn:Hq;
    [|by pose proof (fdiv_pos (fsub target (f_of_Z lo)) _ Hstep0) as Hr; rewrite Hq in Hr].
  destruct (fdiv_le _ _ (f_of_Z span) q Hpd Hpt Hps Hq) as [Hpq Hvq].
  { apply Z.mul_le_mono_nonneg; [by apply pfin_fval|done|lia|]. rewrite Hvt. nia. }
  exists q. rewrite <- Hvs. done.
Qed.

(** The SM count of a load.  For every load that is a number, the SM count lies
    between the two limits, and it is a whole number of steps above the lower one
    unless it is the upper one. *)
Theorem load_to_sm_on_grid load sm_min sm_max sm_step :
  is_nan load = false -> canonical load ->
  0 < sm_min <= sm_max -> 0 < sm_step -> sm_max + sm_step < 2 ^ 26 ->
  sm_max = sm_min \/ sm_step <= sm_max - sm_min ->
  exists k, 0 <= k /\
    load_to_sm load sm_min sm_max sm_step = Ret (Z.min (sm_min + k * sm_step) sm_max).
Proof.
  intros Hnan Hcan Hmin Hstep Hsmall Hspan. pose proof one_pos as H1.
  destruct (chosen_max_load (sm_max - sm_min) sm_step) as (steps & max_load & Hs & Hmax & Hpm & Hvm);
    [lia..|].
  destruct (np_clip_between load fzero max_load) as [Hpa Hva]; try done.
  { by apply pfin_fval. }
  destruct (target_steps (np_clip load fzero max_load) sm_min sm_max sm_step) as (q & Hq & Hpq & Hvq);
    [done|lia|done..|].
  unfold load_to_sm. rewrite Hs. cbn [mbind outcome_bind]. rewrite Hmax. cbn [mbind outcome_bind].
  rewrite !float_of_small_int by lia. cbn [mbind outcome_bind]. rewrite Hq.
  destruct (np_rint_between q (sm_max - sm_min) Hpq) as (k & Hk & Hk0); [lia|lia|].
  cbn [mbind outcome_bind]. rewrite Hk. exists k. split; [lia|].
  assert (Hks : k * sm_step < 2 ^ 52) by nia.
  assert (Hsm : forall z, 0 <= z < 2 ^ 53 -> pfin (f_of_Z z) /\ fval (f_of_Z z) = z * one)
    by (intros; apply f_of_Z_fval; lia).
  destruct (Hsm sm_step ltac:(lia)) as [Hpt Hvt]. destruct (Hsm sm_min ltac:(lia)) as [Hpl Hvl].
  rewrite (fmul_exact (f_of_Z k) (f_of_Z sm_step) (f_of_Z (k * sm_step)));
    [|apply pfin_small_int; lia|done|apply pfin_small_int; nia|rewrite Hvt, !fval_small_int by nia; ring].
  rewrite (fadd_exact (f_of_Z sm_min) (f_of_Z (k * sm_step)) (f_of_Z (sm_min + k * sm_step)));
    [|done|apply pfin_small_int; nia|apply pfin_small_int; nia|rewrite Hvl, !fval_small_int by nia; ring].
  rewrite np_clip_int, as_int64_small by nia. done.
Qed.

(** ** The timing of the slots *)

Section timing.
Context {R : Type} `{Rng R} `{!RngLaws R}.

Lemma slot_of_pos nominal jitter z : slot_of nominal jitter = Ret z -> 1 <= z.
Proof.
  unfold slot_of. destruct (float_of_int nominal); cbn [mbind outcome_bind]; [|done].
  destruct (py_round _); cbn [mbind outcome_bind]; [|done]. intros [= <-]. lia.
Qed.

(** The budget of a slot *)
Definition in_budget (p : preset) (sd : Z * Z) : Prop :=
  budget_min_us p * 1000 <= sd.2 - sd.1 <= budget_max_us p * 1000.

Lemma timing_loop_spec p n t r l r' :
  budget_min_us p <= budget_max_us p ->
  timing_loop p n t r = (Ret l, r') ->
  length l = n /\ Forall (in_budget p) l /\ StronglySorted Z.lt l.*1 /\
  Forall (fun sd => t <= sd.1) l /\ (forall sd, head l = Some sd -> sd.1 = t).
Proof.
  intros Hp. revert t r l r'. induction n as [|n IH]; intros t r l r'.
  { intros [= <- _]. repeat split; try constructor; done. }
  cbn [timing_loop]. unfold mbind, M_bind, draw.
  destruct (lift (store64 t) r) as [[sched|] r1] eqn:Hs; [|done].
  apply lift_Ret in Hs as [Hs ->]. apply store64_Ret in Hs as ->.
  pose proof (integers_range (budget_min_us p) (budget_max_us p + 1) r ltac:(lia)) as Hb.
  destruct (rng_integers _ _ r) as [b r2]. cbn [fst snd] in *.
  destruct (lift (store64 _) r2) as [[decode|] r3] eqn:Hd; [|done].
  apply lift_Ret in Hd as [Hd ->]. apply store64_Ret in Hd as ->.
  destruct (rng_uniform _ _ r2) as [j r4]. cbn [fst snd].
  destruct (lift (slot_of _ _) r4) as [[slot|] r5] eqn:Hsl; [|done].
  apply lift_Ret in Hsl as [Hsl ->]. apply slot_of_pos in Hsl.
  destruct (timing_loop p n (t + slot) r4) as [[rest|] r6] eqn:Hrest; [|done].
  unfold mret, M_ret. intros [= <- _].
  destruct (IH _ _ _ _ Hrest) as (Hlen & Hbud & Hsort & Hge & _).
  rewrite Forall_forall in Hge. split_and!.
  - cbn. by rewrite Hlen.
  - constructor; [|done]. unfold in_budget. cbn [fst snd]. lia.
  - rewrite fmap_cons. constructor; [done|]. apply Forall_fmap, Forall_forall.
    intros sd Hsd. specialize (Hge sd Hsd). cbn in *. lia.
  - constructor; [cbn; lia|]. apply Forall_forall. intros sd Hsd. specialize (Hge sd Hsd). lia.
  - by intros sd [= <-].
Qed.

Lemma generate_timing_spec n scs p r l r' :
  0 <= n -> dict_get scs SCS_PRESETS = Some p ->
  generate_timing n scs r = (Ret l, r') ->
  Z.of_nat (length l) = n /\ StronglySorted Z.lt l.*1 /\ Forall (in_budget p) l /\
  (forall sd, head l = Some sd -> sd.1 = 0).
Proof.
  intros Hn Hp. unfold generate_timing. rewrite Hp. cbn [of_option].
  change (timing_loop p (Z.to_nat n) 0 r = (Ret l, r') -> Z.of_nat (length l) = n /\
    StronglySorted Z.lt l.*1 /\ Forall (in_budget p) l /\ (forall sd, head l = Some sd -> sd.1 = 0)).
  intros Hl. apply timing_loop_spec in Hl as (Hlen & Hb & Hs & _ & Hh).
  { split_and!; [lia|done..]. }
  apply dict_get_Some_elem in Hp. unfold SCS_PRESETS in Hp. rewrite !elem_of_cons in Hp.
  destruct Hp as [[= -> ->]|[[= -> ->]|[[= -> ->]|[[= -> ->]|Hp]]]]; try done.
  by apply not_elem_of_nil in Hp.
Qed.
End timing.

(** ** Run lengths *)

(** Neighbours differ. *)
Fixpoint no_repeats (l : list Z) : Prop :=
  match l with
  | x :: (y :: _) as l' => x <> y /\ no_repeats l'
  | _ => True
  end.

(** The values a list of runs stands for *)
Definition expand (runs vals : list Z) : list Z :=
  mjoin (zip_with (fun n v => replicate (Z.to_nat n) v) runs vals).

Lemma runs_from_spec x run sm :
  1 <= run ->
  exists vals, length vals = length (runs_from x run sm) /\ head vals = Some x /\
    no_repeats vals /\ Forall (fun n => 1 <= n) (runs_from x run sm) /\
    expand (runs_from x run sm) vals = replicate (Z.to_nat run) x ++ sm.
Proof.
  revert x run. induction sm as [|y sm IH]; intros x run Hrun; cbn [runs_from].
  { exists [x]. split_and!; [done|done|done| |done]. by repeat constructor. }
  destruct (Z.eqb_spec y x) as [->|Hne].
  - destruct (IH x (run + 1) ltac:(lia)) as (vals & H1 & H2 & H3 & H4 & H5).
    exists vals. split_and!; [done..|]. rewrite H5.
    replace (Z.to_nat (run + 1)) with (S (Z.to_nat run)) by lia.
    by rewrite replicate_S_end, <- app_assoc.
  - destruct (IH y 1 ltac:(lia)) as (vals & H1 & H2 & H3 & H4 & H5).
    exists (x :: vals). split_and!; [by cbn; rewrite H1|done| |by constructor|].
    + destruct vals as [|v vals]; [done|]. injection H2 as ->. cbn. auto.
    + change (replicate (Z.to_nat run) x ++ expand (runs_from y 1 sm) vals
              = replicate (Z.to_nat run) x ++ y :: sm). by rewrite H5.
Qed.

Lemma runs_transitions x run sm :
  Z.of_nat (length (runs_from x run sm)) = transitions (x :: sm) + 1.
Proof.
  revert x run. induction sm as [|y sm IH]; intros x run; [done|]. cbn [runs_from].
  unfold transitions. cbn [tail zip_with]. rewrite filter_cons. cbn [fst snd].
  destruct (Z.eqb_spec y x) as [->|Hne].
  - rewrite decide_False by tauto. rewrite IH. unfold transitions. cbn [tail]. done.
  - rewrite decide_True by done. cbn [length]. rewrite Nat2Z.inj_succ, IH. unfold transitions.
    cbn [tail length]. lia.
Qed.

(** The stability runs are the run-length encoding of the SM counts: there are
    values, one per run and no two neighbours equal, that repeated as often as the runs
    say give back the counts; no run is empty, and there is one run more than the
    transitions the script reports. *)
Theorem stability_runs_encode sm :
  (exists vals, length vals = length (stability_runs sm) /\ no_repeats vals /\
     Forall (fun n => 1 <= n) (stability_runs sm) /\ expand (stability_runs sm) vals = sm) /\
  Z.of_nat (length (stability_runs sm)) = match sm with [] => 0 | _ => transitions sm + 1 end.
Proof.
  destruct sm as [|x sm]; [split; [by exists []|done]|].
  split; [|apply runs_transitions].
  destruct (runs_from_spec x 1 sm ltac:(lia)) as (vals & H1 & _ & H3 & H4 & H5).
  by exists vals.
Qed.

(** ** The batch accounting accepts the generated traces *)

Lemma small_int_float z :
  0 < z < 2 ^ 53 ->
  exists m e, float_of_int z = Ret (S754_finite false m e) /\ Zpos m < 2 ^ 53 /\ e <= 0.
Proof.
  intros Hz. destruct z as [|p|p]; [lia| |lia].
  assert (HL : Z.log2 (Zpos p) <= 52).
  { assert (Z.log2 (Zpos p) < 53); [|lia]. apply Z.log2_lt_pow2; lia. }
  destruct (f_of_Z_exact p HL) as (m & Hm & Hx).
  exists m, (Z.log2 (Zpos p) - 52 + 0). unfold float_of_int. rewrite Hx.
  pose proof (exact_mantissa p m HL Hm). split; [done|]. split; [|lia].
  apply Z.log2_lt_pow2; lia.
Qed.

(** [0.999999] *)
Definition most_frac : float := f_lit 999999 6.

(** The position of a level in the batch is a small number. *)
Lemma level_frac l nl :
  0 <= l < nl ->
  exists x, int_truediv l nl = Ret x /\
    (fmin most_frac (fmax fzero x) = fzero \/
     exists m e, fmin most_frac (fmax fzero x) = S754_finite false m e /\ Zpos m < 2 ^ 53 /\ e <= 0).
Proof.
  intros Hl. destruct (int_truediv_below_one l nl Hl) as (x & Hx & Hfin & Hm & Hs).
  exists x. split; [done|].
  assert (Hmost : most_frac = S754_finite false 9007190247541737 (-53)) by (by vm_compute).
  destruct x as [[]|[]| |[] m e];
    [discriminate Hs|left; vm_compute; reflexivity|discriminate Hfin..|discriminate Hs|].
  right. change (fmax fzero (S754_finite false m e)) with (S754_finite false m e).
  unfold fmin. rewrite Hmost. destruct (flt (S754_finite false m e) _) eqn:Hlt.
  - exists m, e. split; [reflexivity|]. split; [exact Hm|].
    apply flt_exponent in Hlt. lia.
  - exists 9007190247541737%positive, (-53). split; [reflexivity|lia].
Qed.

Lemma level_bin_ok nb l nl :
  0 < nb < 2 ^ 53 -> 0 <= l < nl ->
  exists b, BatchRuntime.level_bin nb l nl = Ret b /\ 0 <= b < nb.
Proof.
  intros Hnb Hl. destruct (small_int_float nb Hnb) as (m & e & Hf & Hm & He).
  assert (Hrest : forall frac,
    (frac = fzero \/ exists m' e', frac = S754_finite false m' e' /\ Zpos m' < 2 ^ 53 /\ e' <= 0) ->
    exists b, (nb' ← float_of_int nb; i ← int_of_float (fmul frac nb'); Ret (Z.min (nb - 1) i))
              = Ret b /\ 0 <= b < nb).
  { intros frac Hfrac. rewrite Hf. cbn [mbind outcome_bind].
    assert (exists i, int_of_float (fmul frac (S754_finite false m e)) = Ret i /\ 0 <= i)
      as (i & Hi & Hi0).
    { destruct Hfrac as [->|(m' & e' & -> & Hm' & He')]; [by exists 0|].
      destruct (int_of_float_finite (fmul (S754_finite false m' e') (S754_finite false m e)))
        as [i Hi]; [apply fmul_finite; [done|done|lia]|].
      exists i. split; [done|]. eapply int_of_float_nonneg, Hi.
      destruct (fmul_sign (S754_finite false m' e') (S754_finite false m e)) as [Hn|Hn]; try done.
      - by rewrite Hn in Hi.
      - by apply pos_sign_nonneg. }
    rewrite Hi. cbn [mbind outcome_bind]. exists (Z.min (nb - 1) i). split; [done|]. lia. }
  unfold BatchRuntime.level_bin. destruct (nl <=? 1); [apply Hrest; by left|].
  destruct (level_frac l nl Hl) as (x & Hx & Hfrac). rewrite Hx. cbn [mbind outcome_bind].
  apply Hrest. exact Hfrac.
Qed.

(** A list of [n] multipliers *)
Definition mults (n : Z) (j : json) : Prop :=
  exists l, j = JList (map JFloat l) /\ Z.of_nat (length l) = n.

Definition device_ok (n : Z) (j : json) : Prop :=
  exists fl ul dl, j = JObj [("flops_mult", fl); ("ul_bw_mult", ul); ("dl_bw_mult", dl)]%string /\
                   mults n fl /\ mults n ul /\ mults n dl.

Lemma multiplier_at_mults n dev b key j :
  jget key dev = j -> mults n j -> 0 <= b < n ->
  exists x, BatchRuntime.multiplier_at dev b key = Ret x /\ flt fzero x = true.
Proof.
  intros Hj (l & -> & Hn) Hb. unfold BatchRuntime.multiplier_at. rewrite Hj.
  destruct l as [|y l]; [cbn in Hn; lia|]. cbn [map truthy negb].
  change (JFloat y :: map JFloat l) with (map JFloat (y :: l)).
  unfold BatchRuntime.bin_value. rewrite length_map.
  rewrite (proj2 (Z.ltb_lt b _)) by lia.
  destruct (py_index_ok (map JFloat (y :: l)) b) as (j & -> & Hin); [rewrite length_map; lia|].
  apply list_elem_of_In, in_map_iff in Hin as (x & <- & _). cbn [mbind outcome_bind py_float].
  eexists. split; [done|]. destruct (flt BatchRuntime.least_multiplier x) eqn:Hx.
  - eapply flt_trans, Hx. apply BatchRuntime.least_multiplier_pos.
  - apply BatchRuntime.least_multiplier_pos.
Qed.

Section accepted.
Context `{Numpy} `{!NumpyLaws} {R : Type} `{Rng R}.

Lemma rounded_mults l : mults (Z.of_nat (length l)) (rounded l).
Proof.
  exists (map round6 l). unfold rounded. split; [|by rewrite length_map].
  f_equal. by rewrite map_map.
Qed.

Lemma fgn_loop_length m eig ks V :
  returns (fgn_loop m eig ks V : M R _) (fun V' => length V' = length V).
Proof.
  revert V. induction ks as [|k ks IH]; intros V; cbn [fgn_loop]; [by apply returns_ret|].
  eapply returns_bind; [apply returns_any|]; intros a _.
  eapply returns_bind; [apply returns_any|]; intros b _.
  eapply returns_impl; [apply IH|]. intros V'. cbn beta. unfold set_at. by rewrite !length_insert.
Qed.

(** The noise has the length it was asked for. *)
Lemma generate_fgn_length n h :
  returns (generate_fgn n h : M R _) (fun l => Z.of_nat (length l) = Z.max 0 n).
Proof.
  unfold generate_fgn. destruct (Z.leb_spec n 0) as [Hn|Hn]; [apply returns_ret; cbn; lia|].
  destruct (Z.eqb_spec n 1) as [->|Hn1].
  { eapply returns_bind; [apply returns_any|]; intros x _. by apply returns_ret. }
  eapply returns_bind.
  { apply returns_lift. intros r. apply mapO_length. }
  intros r Hr. cbn beta in *. rewrite length_seqZ in Hr.
  eapply returns_bind; [apply returns_any|]; intros z0 _.
  eapply returns_bind; [apply returns_any|]; intros zn _.
  eapply returns_bind; [apply fgn_loop_length|]. intros V HV. apply returns_ret.
  cbn beta in *. unfold set_at in HV. rewrite !length_insert, length_replicate in HV.
  rewrite !length_app in HV. rewrite length_take, length_map, fft_length, HV. lia.
Qed.

Lemma events_loop_length n nb dur mag flops :
  returns (events_loop n nb dur mag flops : M R _) (fun fl => length fl = length flops).
Proof.
  revert flops. induction n as [|n IH]; intros flops; cbn [events_loop]; [by apply returns_ret|].
  eapply returns_bind; [apply returns_any|]; intros start _.
  eapply returns_bind; [apply returns_any|]; intros u _.
  eapply returns_impl; [apply IH|]. intros fl. cbn beta. intros ->. apply length_imap.
Qed.

Lemma drift_series_length n h std :
  returns (drift_series n h std : M R _) (fun l => Z.of_nat (length l) = Z.max 0 n).
Proof.
  unfold drift_series. eapply returns_bind; [apply generate_fgn_length|]. intros noise Hn.
  apply returns_ret. by rewrite length_fmap.
Qed.

Lemma device_trace_ok a dur :
  0 <= num_bins a -> returns (device_trace a dur : M R _) (device_ok (num_bins a)).
Proof.
  intros Hnb. unfold device_trace.
  eapply returns_bind; [apply returns_any|]; intros ev _.
  eapply returns_bind; [apply events_loop_length|]; intros fl Hfl.
  eapply returns_bind; [apply drift_series_length|]; intros ul Hul.
  eapply returns_bind; [apply drift_series_length|]; intros dl Hdl.
  cbn beta in *. rewrite length_replicate in Hfl.
  apply returns_ret. eexists _, _, _. split; [done|].
  assert (forall u, Z.of_nat (length u) = Z.max 0 (num_bins a) ->
    Z.of_nat (length (contend fl u)) = num_bins a) as Hc.
  { intros u Hu. unfold contend. rewrite length_zip_with. lia. }
  split_and!.
  - replace (num_bins a) with (Z.of_nat (length fl)) by lia. apply rounded_mults.
  - rewrite <- (Hc ul Hul). apply rounded_mults.
  - rewrite <- (Hc dl Hdl). apply rounded_mults.
Qed.

Lemma devices_loop_all (P : json -> Prop) a dur devs acc :
  returns (device_trace a dur : M R _) P -> dict_all P acc ->
  returns (devices_loop a dur devs acc : M R _) (dict_all P).
Proof.
  intros HP. revert acc. induction devs as [|dev devs IH]; intros acc Hacc;
    cbn [devices_loop]; [by apply returns_ret|].
  eapply returns_bind; [exact HP|]. intros j Hj. apply IH. by apply dict_all_set.
Qed.

Lemma devices_loop_ok a dur devs acc :
  0 <= num_bins a -> dict_all (device_ok (num_bins a)) acc ->
  returns (devices_loop a dur devs acc : M R _) (dict_all (device_ok (num_bins a))).
Proof. intros Hnb. apply devices_loop_all. by apply device_trace_ok. Qed.

Lemma shape_loop_length alpha slew s l : length (shape_loop alpha slew s l) = length l.
Proof. revert s. induction l as [|x l IH]; intros s; cbn; [done|by rewrite IH]. Qed.

(** Both kinds of load have one element per slot. *)
Lemma make_load_length a r l :
  make_load a r = Ret l -> Z.of_nat (length l) = Z.max 0 (num_slots a).
Proof.
  assert (Hrandom : forall l, generate_random_load (num_slots a) (ran_hurst a) (mean_load a) r = Ret l ->
    Z.of_nat (length l) = Z.max 0 (num_slots a)).
  { intros l'. unfold generate_random_load.
    destruct (generate_fgn (num_slots a) (ran_hurst a) r) as [[noise|] r'] eqn:Hf; [|done].
    cbn [fst mbind outcome_bind]. intros [= <-]. rewrite length_map, <- (generate_fgn_length _ _ _ _ _ Hf).
    unfold normalise. by destruct (flt _ _); rewrite length_map. }
  unfold make_load. destruct (shaped a); [|apply Hrandom]. unfold generate_shaped_load.
  destruct (generate_random_load _ _ _ r) as [raw|]; [|done]. cbn [mbind outcome_bind].
  specialize (Hrandom raw eq_refl). destruct (num_slots a <=? 0); [by intros [= <-]|].
  destruct raw as [|x raw]; [done|]. intros [= <-]. cbn in *. by rewrite shape_loop_length.
Qed.

(** The synthetic scheduling trace.  Whatever the generators draw, a trace that is
    written has one row per slot; the slots start at time zero and at strictly
    increasing times, and every slot's decoding is scheduled within the budget of the
    subcarrier spacing. *)
Theorem synthetic_trace_rows `{!RngLaws R} a detected rng_load rng p rows :
  dict_get (scs a) SCS_PRESETS = Some p ->
  main_ran a detected rng_load rng = Ret rows ->
  Z.of_nat (length rows) = num_slots a /\ StronglySorted Z.lt (rows.*1).*1 /\
  Forall (in_budget p) rows.*1 /\ (forall row, head rows = Some row -> row.1.1 = 0).
Proof.
  intros Hp. unfold main_ran, check_ran_args.
  destruct (Z.leb_spec (num_slots a) 0) as [|Hn]; [done|].
  do 3 (case_match; [done|]). cbn [mbind outcome_bind].
  destruct (chosen_sm_step a detected) as [step|]; [|done]. cbn [mbind outcome_bind].
  destruct (make_load a rng_load) as [load|] eqn:Hload; [|done]. cbn [mbind outcome_bind].
  apply make_load_length in Hload.
  destruct (generate_timing (num_slots a) (scs a) rng) as [[timing|] r'] eqn:Ht; [|done].
  cbn [fst mbind outcome_bind].
  destruct (mapO _ load) as [sm_count|] eqn:Hsm; [|done]. apply mapO_length in Hsm.
  apply (generate_timing_spec _ _ p) in Ht as (Hlen & Hs & Hb & Hh); [|lia|done].
  intros [= <-]. rewrite fst_zip by lia. split_and!; [|done|done|].
  - rewrite length_zip_with. lia.
  - intros row Hrow. destruct timing as [|t0 timing]; [done|].
    destruct sm_count; [done|]. injection Hrow as <-. cbn. by apply Hh.
Qed.

(** A generated within-batch trace is accepted by the batch accounting.  Whatever
    the generator draws, for every device, generated or not, and every level of the
    batch, looking up the multipliers raises nothing and gives positive divisors. *)
Theorem generated_trace_accepted a r trace r' device level num_levels :
  0 < num_bins a < 2 ^ 53 -> 0 <= level < num_levels ->
  generate_within_batch_traces a r = (Ret trace, r') ->
  exists m, BatchRuntime.within_batch_multiplier (Some trace) device level num_levels = Ret m /\
            BatchRuntime.positive_multiplier m.
Proof.
  intros Hnb Hl. unfold generate_within_batch_traces, mbind, M_bind, lift, mret, M_ret.
  destruct (float_of_int (num_bins a)) as [nb|]; [|done].
  destruct (py_round _) as [d|]; [|done].
  destruct (devices_loop a (Z.max 1 d) (seqZ 0 (num_devices a)) [] r) as [[devs|] r1] eqn:Hl';
    [|done].
  pose proof (devices_loop_ok a (Z.max 1 d) (seqZ 0 (num_devices a)) [] ltac:(lia)
                (dict_all_nil _) r devs r1 Hl') as Hd.
  intros [= <- _].
  set (trace := [_; _; _; _]).
  assert (Hdev : dict_get_default "devices" (JObj []) trace = JObj devs) by done.
  assert (Hbins : dict_get_default "num_bins" (JInt 1) trace = JInt (num_bins a)) by done.
  unfold BatchRuntime.within_batch_multiplier. unfold trace at 1.
  fold trace. rewrite Hdev, Hbins.
  assert (Hones : BatchRuntime.positive_multiplier BatchRuntime.ones) by (by repeat split).
  unfold jget. destruct (dict_get (str_of_Z device) devs) as [j|] eqn:Hj; [|by eexists].
  apply (dict_all_get _ _ _ _ Hd) in Hj as (fl & ul & dl & -> & Hfl & Hul & Hdl).
  cbn [default from_option id truthy negb py_int mbind outcome_bind].
  rewrite (proj2 (Z.eqb_neq (num_bins a) 0)) by lia.
  destruct (level_bin_ok (num_bins a) level num_levels Hnb Hl) as (b & Hb & Hb').
  rewrite Hb. cbn [mbind outcome_bind]. set (dev := [_; _; _]).
  destruct (multiplier_at_mults (num_bins a) dev b "flops_mult" fl) as (x & Hx & Hx'); [done..|].
  destruct (multiplier_at_mults (num_bins a) dev b "ul_bw_mult" ul) as (y & Hy & Hy'); [done..|].
  destruct (multiplier_at_mults (num_bins a) dev b "dl_bw_mult" dl) as (z & Hz & Hz'); [done..|].
  exists (x, y, z). rewrite Hx. cbn [mbind outcome_bind]. rewrite Hy. cbn [mbind outcome_bind].
  rewrite Hz. done.
Qed.
End accepted.

(** ** The compute multipliers *)

(** A slowdown: at least a tenth of the speed, at most all of it *)
Definition slowdown (x : float) : Prop :=
  pfin x /\ fval (f_lit 1 1) <= fval x <= one.

Lemma slowdown_one : slowdown (f_of_Z 1).
Proof. split; [by apply pfin_small_int|]. by vm_compute. Qed.

Lemma slowdown_min x y : slowdown x -> slowdown y -> slowdown (np_minimum x y).
Proof.
  intros Hx Hy. unfold np_minimum.
  rewrite !fin_not_nan by (apply Hx || apply Hy). cbn [orb]. by destruct (flt x y).
Qed.

(** A depth between zero (of either sign) and one *)
Definition depth (x : float) : Prop :=
  x = S754_zero true \/ pfin x /\ fval x <= one.

(** The multiplier of an event *)
Lemma event_multiplier magnitude u :
  depth magnitude -> pfin u -> fval u <= one ->
  slowdown (fmax (f_lit 1 1) (fsub (f_of_Z 1) (fmul magnitude u))).
Proof.
  intros [->|[Hm Hm1]] Hu Hu1.
  { replace (fmul (S754_zero true) u) with (S754_zero true)
      by (by apply pfin_cases in Hu as [->|(m & e & -> & _)]).
    split; [by apply pfinb_pfin|]. by vm_compute. }
  pose proof one_pos. assert (Hone : pfin (f_of_Z 1) /\ fval (f_of_Z 1) = one) by (apply f_of_Z_fval; lia).
  destruct Hone as [Hp1 Hv1].
  assert (Htenth : pfin (f_lit 1 1) /\ fval (f_lit 1 1) <= one)
    by (split; [by apply pfinb_pfin|by vm_compute]).
  destruct Htenth as [Hpt Hvt].
  destruct (fmul_le magnitude u (f_of_Z 1) Hm Hu Hp1) as [Hpx Hvx].
  { rewrite Hv1. apply Z.mul_le_mono_nonneg; try done; by apply pfin_fval. }
  pose proof (pfin_fval _ Hpx).
  destruct (fsub_le (f_of_Z 1) (fmul magnitude u) (f_of_Z 1) Hp1 Hpx Hp1) as [Hpd Hvd]; [lia|lia|].
  pose proof (fmax_fval _ _ (proj1 Hpt) (proj1 Hpd)) as Hmax. split; [|lia].
  unfold fmax. by destruct (flt _ _).
Qed.

(** [n / 10 ^ 6] *)
Lemma slowdown_dec n : 10 ^ 5 <= n <= 10 ^ 6 -> slowdown (f_of_dec false n (-6)).
Proof.
  intros Hn. destruct (decide (n = 10 ^ 5)) as [->|Hne].
  { split; [by apply pfinb_pfin|]. by vm_compute. }
  destruct n as [|p|p]; [lia| |lia].
  change (f_of_dec false (Zpos p) (-6)) with (f_quot_pos false p (pow10 6)).
  change (pow10 6) with 1000000%positive. pose proof one_pos.
  assert (Hone : pfin (f_of_Z 1) /\ fval (f_of_Z 1) = one) by (apply f_of_Z_fval; lia).
  destruct (f_quot_pos_le p 1000000 (f_of_Z 1) (proj1 Hone)) as [Hp Hle]; [nia|].
  destruct (f_quot_pos_ge p 1000000 (f_lit 1 1)) as [Hinf|[_ Hge]].
  - by apply pfinb_pfin.
  - assert (fval (f_lit 1 1) * 1000000 <= 100001 * one) by (by vm_compute). nia.
  - destruct Hp as [[Hf _] _]. by rewrite Hinf in Hf.
  - split; [done|lia].
Qed.

(** Six decimals keep a slowdown a slowdown. *)
Lemma slowdown_round6 x : slowdown x -> slowdown (round6 x).
Proof.
  intros [Hp [Hlo Hhi]]. apply pfin_cases in Hp as [->|(m & e & -> & Hc)].
  { exfalso. revert Hlo. by vm_compute. }
  assert (He : e <= 0).
  { destruct (Z.le_gt_cases e 0) as [|He]; [done|]. exfalso.
    destruct Hc as (_ & _ & [Hm|Hm]); [|unfold emin in Hm; lia].
    cbn [fval] in Hhi. assert (2 ^ (1 - emin) <= 2 ^ (e - emin)) by (apply Z.pow_le_mono_r; unfold emin; lia).
    assert (one < 2 ^ 52 * 2 ^ (1 - emin)) by done. nia. }
  (* the value as a fraction of [2 ^ - e] *)
  assert (Hv : fval (S754_finite false m e) * 2 ^ (- e) = Zpos m * one).
  { cbn [fval]. destruct Hc as [Hc _]. rewrite Z.mul_1_l, <- Z.mul_assoc, <- Z.pow_add_r by (unfold emin in *; lia).
    unfold one. do 2 f_equal. unfold emin. lia. }
  set (b := 2 ^ (- e)) in *. assert (Hb : 0 < b) by (apply pow_pos; lia).
  assert (Hr : 10 ^ 5 <= round_quot (Zpos m * 10 ^ 6) b <= 10 ^ 6).
  { split.
    - apply round_quot_ge; [lia|done|]. apply (mul_le_cancel _ _ one); [apply one_pos|].
      replace (Zpos m * 10 ^ 6 * one) with (fval (S754_finite false m e) * b * 10 ^ 6) by (rewrite Hv; ring).
      assert (one <= 10 * fval (f_lit 1 1)) by (by vm_compute). nia.
    - apply round_quot_bounds; [lia|done|]. apply (mul_le_cancel _ _ one); [apply one_pos|].
      replace (Zpos m * 10 ^ 6 * one) with (fval (S754_finite false m e) * b * 10 ^ 6) by (rewrite Hv; ring).
      nia. }
  unfold round6.
  assert (Hif : (if 0 <=? e then Zpos m * 10 ^ 6 * 2 ^ e else round_quot (Zpos m * 10 ^ 6) (2 ^ (- e)))
                = round_quot (Zpos m * 10 ^ 6) b).
  { destruct (Z.leb_spec 0 e); [|done]. assert (e = 0) as -> by lia. unfold b.
    change (2 ^ (- 0)) with 1.
    unfold round_quot. rewrite Z.div_1_r, Z.mod_1_r. change (2 * 0 ?= 1) with Lt. apply Z.mul_1_r. }
  rewrite Hif. apply slowdown_dec. exact Hr.
Qed.

Section multipliers.
Context `{Numpy} {R : Type} `{Rng R} `{!RngLaws R}.
Context (a : within_batch_args) (Hmag : depth (magnitude a)).

Lemma returns_uniform :
  returns (draw (rng_uniform (f_lit 7 1) (f_of_Z 1)) : M R _) (fun u => pfin u /\ fval u <= one).
Proof.
  intros r u r' Hu.
  assert (u = (rng_uniform (f_lit 7 1) (f_of_Z 1) r).1) as -> by (by injection Hu as <- _).
  destruct (f_of_Z_fval 1 ltac:(lia)) as [Hone Hv1].
  assert (Hlo : pfin (f_lit 7 1)) by (by apply pfinb_pfin).
  assert (Hpos : 0 < fval (f_lit 7 1) <= one) by (by vm_compute).
  destruct (uniform_range (f_lit 7 1) (f_of_Z 1) r) as [Hf Hv]; [apply Hlo|apply Hone|lia|].
  split; [apply fin_nonneg; [done|lia]|lia].
Qed.

Lemma events_loop_slowdown n dur flops :
  Forall slowdown flops ->
  returns (events_loop n (num_bins a) dur (magnitude a) flops : M R _) (Forall slowdown).
Proof using All.
  revert flops. induction n as [|n IH]; intros flops Hf; cbn [events_loop]; [by apply returns_ret|].
  eapply returns_bind; [apply returns_any|]; intros start _.
  eapply returns_bind; [apply returns_uniform|]; intros u [Hu Hu1].
  apply IH. apply Forall_lookup. intros i x. unfold throttle. rewrite list_lookup_imap.
  intros (y & Hy & ->)%fmap_Some. pose proof (proj1 (Forall_lookup _ _) Hf i y Hy) as Hs.
  destruct (_ && _); [|done]. by apply slowdown_min; [|apply event_multiplier].
Qed.

(** The compute multipliers of a device *)
Definition slowed (j : json) : Prop :=
  exists d l, j = JObj d /\ jget "flops_mult" d = JList (map JFloat l) /\
    Z.of_nat (length l) = num_bins a /\ Forall slowdown l.

Lemma device_trace_slowed dur :
  0 <= num_bins a -> returns (device_trace a dur : M R _) slowed.
Proof using All.
  intros Hnb. unfold device_trace.
  eapply returns_bind; [apply returns_any|]; intros ev _.
  eapply (returns_bind _ _ (fun fl => length fl = Z.to_nat (num_bins a) /\ Forall slowdown fl)).
  { intros r fl r' Hfl. split; [rewrite <- (length_replicate (Z.to_nat (num_bins a)) (f_of_Z 1)); exact (events_loop_length _ _ _ _ _ _ _ _ Hfl)|].
    eapply events_loop_slowdown, Hfl. apply Forall_replicate, slowdown_one. }
  intros fl [Hlen Hfl].
  eapply returns_bind; [apply returns_any|]; intros ul _.
  eapply returns_bind; [apply returns_any|]; intros dl _.
  apply returns_ret. eexists _, (map round6 fl). split; [done|]. split_and!.
  - change (rounded fl = JList (map JFloat (map round6 fl))). unfold rounded. by rewrite map_map.
  - rewrite length_map. lia.
  - apply Forall_fmap. eapply Forall_impl; [exact Hfl|]. intros x. apply slowdown_round6.
Qed.

Lemma devices_loop_slowed dur devs acc :
  0 <= num_bins a -> dict_all slowed acc ->
  returns (devices_loop a dur devs acc : M R _)
    (fun d => dict_all slowed d /\ forall k, k ∈ dict_keys acc \/ k ∈ map str_of_Z devs -> k ∈ dict_keys d).
Proof using All.
  intros Hnb. revert acc. induction devs as [|dev devs IH]; intros acc Hacc;
    cbn [devices_loop].
  { apply returns_ret. split; [done|]. intros k [Hk|Hk]; [done|]. by apply not_elem_of_nil in Hk. }
  eapply returns_bind; [by apply device_trace_slowed|]. intros j Hj.
  eapply returns_impl; [apply IH; by apply dict_all_set|]. intros d [Hd Hk]. split; [done|].
  intros k Hin. apply Hk. rewrite <- !dict_get_is_Some, dict_get_set in *.
  destruct (decide (k = str_of_Z dev)) as [->|Hne]; [by left; eexists|].
  destruct Hin as [Hin|Hin]; [by left|right]. cbn [map] in Hin.
  apply elem_of_cons in Hin as [?|?]; done.
Qed.
End multipliers.

(** The compute multipliers of a written within-batch trace.  Whatever the
    generator draws, a trace that [main_within_batch] writes gives every device one
    multiplier per bin, and each is at least a tenth and at most one, also after it is
    rounded to six decimals: no phase gets faster, and none more than ten times slower. *)
Theorem written_slowdown_bounded `{Numpy} {R : Type} `{Rng R} `{!RngLaws R} a (r : R) trace :
  canonical (magnitude a) -> main_within_batch a r = Ret trace ->
  exists devices, jget "devices" trace = JObj devices /\
    forall dev, 0 <= dev < num_devices a ->
      exists j, dict_get (str_of_Z dev) devices = Some j /\ slowed a j.
Proof.
  intros Hcan. unfold main_within_batch.
  destruct (check_within_batch_args a) as [[]|] eqn:Hcheck; [|done]. cbn [mbind outcome_bind].
  destruct (generate_within_batch_traces a r) as [[t|] r'] eqn:Hgen; [|done].
  cbn [fst mbind outcome_bind]. destruct (validate_within_batch t); [|done]. intros [= <-].
  revert Hgen. unfold check_within_batch_args in Hcheck.
  destruct (_ || _) eqn:Hpos; [done|]. apply orb_false_iff in Hpos as [_ Hnb%Z.leb_gt].
  destruct (fle fzero (magnitude a) && fle (magnitude a) (f_of_Z 1)) eqn:Hmag; [|done].
  apply andb_true_iff in Hmag as [Hm0 Hm1]. clear Hcheck.
  assert (Hdepth : depth (magnitude a)).
  { destruct (f_of_Z_fval 1 ltac:(lia)) as [Hone Hv1]. unfold depth.
    destruct (magnitude a) as [[]|[]| |[] m e]; try done; [by left|by right|right].
    split; [done|]. apply fle_fval in Hm1; [lia|done|apply Hone]. }
  unfold generate_within_batch_traces, mbind, M_bind, lift, mret, M_ret.
  destruct (float_of_int (num_bins a)) as [nb|]; [|done]. destruct (py_round _) as [d|]; [|done].
  destruct (devices_loop a (Z.max 1 d) (seqZ 0 (num_devices a)) [] r) as [[devs|] r1] eqn:Hl;
    [|done].
  intros [= <- _]. exists devs. split; [done|]. intros dev Hdev.
  destruct (devices_loop_slowed a Hdepth (Z.max 1 d) (seqZ 0 (num_devices a)) [] ltac:(lia)
              (dict_all_nil _) r devs r1 Hl) as [Hall Hkeys].
  destruct (proj2 (dict_get_is_Some devs (str_of_Z dev))) as [j Hj].
  { apply Hkeys. right. apply list_elem_of_fmap. exists dev. split; [done|].
    apply elem_of_seqZ. lia. }
  exists j. split; [done|]. by eapply dict_all_get.
Qed.

(** ** Examples *)

(** A generator that draws the lower bound, and a transform that does nothing *)
Definition demo_rng : Rng unit := {|
  rng_integers lo hi r := (lo, r);
  rng_uniform lo hi r := (lo, r);
  rng_normal r := (f_of_Z 1, r);
  rng_poisson x r := (1, r);
|}.

Definition demo_numpy : Numpy := {|
  float_pow x y := Ret x;
  np_fft l := l;
  np_std l := f_of_Z 1;
  np_exp x := f_lit 5 1;
|}.

#[local] Existing Instance demo_rng.
#[local] Existing Instance demo_numpy.

#[local] Instance demo_rng_laws : RngLaws unit.
Proof. split; [intros lo hi r Hlt; cbn; lia|by intros lo hi r]. Qed.

#[local] Instance demo_numpy_laws : NumpyLaws.
Proof. done. Qed.

Lemma demo_timing :
  generate_timing 3 30 tt = (Ret [(0, 200000); (490000, 690000); (980000, 1180000)], tt).
Proof. vm_compute. reflexivity. Qed.

Definition demo_ran : ran_args :=
  mk_ran_args 3 true 30 8 64 "8" (f_lit 85 2) (f_lit 4 1) (f_lit 15 2) (f_lit 8 2).

Lemma demo_rows :
  main_ran demo_ran 2 tt tt = Ret [(0, 200000, 32); (490000, 690000, 32); (980000, 1180000, 32)].
Proof. vm_compute. reflexivity. Qed.

Lemma synthetic_trace_rows_witness : StronglySorted Z.lt [0; 490000; 980000].
Proof.
  apply (synthetic_trace_rows demo_ran 2 tt tt (mk_preset 500000 200 429)
           [(0, 200000, 32); (490000, 690000, 32); (980000, 1180000, 32)]);
    [reflexivity|exact demo_rows].
Defined.

Example demo_text : csv_text [(0, 200000, 40)] =
  ("time_slot_sched_ns,time_decode_start_est_ns,sm_count" +:+ nl +:+ "0,200000,40" +:+ nl)%string.
Proof. vm_compute. reflexivity. Qed.

Lemma load_to_sm_on_grid_witness :
  exists k, 0 <= k /\ load_to_sm (f_lit 4 1) 8 64 8 = Ret (Z.min (8 + k * 8) 64).
Proof.
  apply (load_to_sm_on_grid (f_lit 4 1) 8 64 8); [reflexivity| |lia|lia|lia|right; lia].
  apply (pfinb_pfin (f_lit 4 1)). reflexivity.
Defined.

Definition demo_args : within_batch_args :=
  mk_within_batch_args 2 4 (f_lit 5 1) (f_of_Z 1) (f_lit 5 1) (f_lit 15 2) (f_lit 85 2) 42.

Definition demo_trace : obj :=
  match generate_within_batch_traces demo_args tt with
  | (Ret t, _) => t
  | _ => []
  end.

Lemma generated_trace_accepted_witness :
  length demo_trace = 4%nat /\
  exists m, BatchRuntime.within_batch_multiplier (Some demo_trace) 1 2 3 = Ret m /\
            BatchRuntime.positive_multiplier m.
Proof.
  assert (H : generate_within_batch_traces demo_args tt = (Ret demo_trace, tt))
    by (vm_compute; reflexivity).
  split; [vm_compute; reflexivity|].
  apply (generated_trace_accepted demo_args tt demo_trace tt 1 2 3);
    [cbn; lia|lia|exact H].
Defined.

Lemma written_slowdown_bounded_witness :
  exists devices, jget "devices" demo_trace = JObj devices /\
    exists j, dict_get "1" devices = Some j /\ slowed demo_args j.
Proof.
  assert (H : main_within_batch demo_args tt = Ret demo_trace) by (vm_compute; reflexivity).
  destruct (written_slowdown_bounded demo_args tt demo_trace) as (devices & Hd & Hall);
    [apply (pfinb_pfin (f_lit 5 1)); reflexivity|exact H|].
  exists devices. split; [exact Hd|]. apply (Hall 1). split; [lia|reflexivity].
Defined.

(** The multipliers of the example: half speed in the throttled bins *)
Example demo_multipliers :
  BatchRuntime.within_batch_multiplier (Some demo_trace) 0 0 1 =
  Ret (f_lit 65 2, f_lit 737123 6, f_lit 737123 6).
Proof. vm_compute. reflexivity. Qed.

Example stability_ex : stability_runs [8; 8; 16; 8; 8; 8] = [2; 1; 3].
Proof. reflexivity. Qed.

Example load_to_sm_ex :
  map (fun k => load_to_sm (f_lit k 2) 8 64 8) [0; 40; 50; 99] = [Ret 8; Ret 32; Ret 40; Ret 56].
Proof. vm_compute. reflexivity. Qed.
