(* ===== verification/Messages.v ===== *)
(** * Matrix-product messages ([backend/base.py], [backend/__init__.py])

    The request for one block of a product and its answer.  All instances of a class
    share one protobuf message object, and a deserialized instance keeps a reference to
    that object's list: the store of list objects is modelled.  The protobuf encoding and
    the bytes of a saved tensor are parameters. *)

From S2P Require Import Prelude PyDict PyStr PyFloat PyJson.

(** ** Blocks of a matrix *)

(** [l[lo:hi]] *)
Definition clip_index (n : nat) (i : Z) : nat :=
  Z.to_nat (if i <? 0 then Z.max 0 (i + Z.of_nat n) else Z.min i (Z.of_nat n)).
Definition py_slice {A} (lo hi : Z) (l : list A) : list A :=
  drop (clip_index (length l) lo) (take (clip_index (length l) hi) l).

(** A matrix is the list of its rows. *)
Definition row_block {A} (r block_size : Z) (m : list (list A)) : list (list A) :=
  py_slice (r * block_size) ((r + 1) * block_size) m.
Definition col_block {A} (c block_size : Z) (m : list (list A)) : list (list A) :=
  map (py_slice (c * block_size) ((c + 1) * block_size)) m.

(** ** The shared message *)

(** The class attribute [msg]: its scalar fields, and the lists that were ever its [ld]
    field; [ld_ref] is the current one. *)
Record shared (B : Type) : Type := mk_shared {
  row : Z;
  col : Z;
  mat : list B;
  ld_heap : list (list Z);
  ld_ref : nat;
}.
Arguments mk_shared {B}. Arguments row {B}. Arguments col {B}. Arguments mat {B}.
Arguments ld_heap {B}. Arguments ld_ref {B}.

Definition new_shared {B} : shared B := mk_shared 0 0 [] [[]] 0.

(** The list an instance holds: its own, or a reference to a field of the message *)
Inductive ld_field : Type := LdList (l : list Z) | LdRef (ref : nat).

Definition read_ld {B} (s : shared B) (f : ld_field) : list Z :=
  match f with LdList l => l | LdRef ref => default [] (ld_heap s !! ref) end.

(** What goes over the wire: the fields, with byte strings of type [B] *)
Record wire (B : Type) : Type := mk_wire { w_row : Z; w_col : Z; w_ld : list Z; w_mat : list B }.
Arguments mk_wire {B}. Arguments w_row {B}. Arguments w_col {B}. Arguments w_ld {B}.
Arguments w_mat {B}.

Class Wire (T B : Type) : Type := {
  encode_wire : wire B -> B;
  decode_wire : B -> outcome (wire B);
  torch_save : T -> B;
  torch_load : B -> outcome T;
  (** the value of a field that is not there *)
  empty_bytes : B;
  (** what a list object shows once its message was parsed again *)
  detached : list Z -> list Z;
}.

(** A [uint32] field *)
Definition uint32 (z : Z) : bool := (0 <=? z) && (z <? 2 ^ 32).

(** Encoding and saving can be undone. *)
Class WireLaws (T B : Type) `{Wire T B} : Prop := {
  decode_encode : forall w, uint32 (w_row w) = true -> uint32 (w_col w) = true ->
    forallb uint32 (w_ld w) = true -> decode_wire (encode_wire w) = Ret w;
  load_save : forall t : T, torch_load (torch_save t) = Ret t;
}.

Definition out_of_range (z : Z) : exn := ValueError ("Value out of range: " +:+ str_of_Z z).

(** [self.msg.row = r] and [self.msg.col = c] *)
Section fields.
Context {B : Type}.

Definition set_row (r : Z) : M (shared B) unit :=
  if uint32 r then modify (fun s => mk_shared r (col s) (mat s) (ld_heap s) (ld_ref s))
  else raise (out_of_range r).
Definition set_col (c : Z) : M (shared B) unit :=
  if uint32 c then modify (fun s => mk_shared (row s) c (mat s) (ld_heap s) (ld_ref s))
  else raise (out_of_range c).

(** [self.msg.ld[:] = self.ld] writes into the list object of the message. *)
Definition set_ld (f : ld_field) : M (shared B) unit :=
  s ← get;
  let l := read_ld s f in
  match List.find (fun z => negb (uint32 z)) l with
  | Some z => raise (out_of_range z)
  | None => modify (fun s => mk_shared (row s) (col s) (mat s) (<[ld_ref s := l]> (ld_heap s)) (ld_ref s))
  end.

Definition set_mat (m : list B) : M (shared B) unit :=
  modify (fun s => mk_shared (row s) (col s) m (ld_heap s) (ld_ref s)).

Definition wire_of (s : shared B) : wire B :=
  mk_wire (row s) (col s) (read_ld s (LdRef (ld_ref s))) (mat s).
End fields.

(** [self.msg.ParseFromString(body)]: the message gets a new list object; what the old
    one shows from then on depends on the protobuf implementation. *)
Definition parse_message {T B} `{Wire T B} (body : B) : M (shared B) unit :=
  w ← lift (decode_wire body);
  modify (fun s => mk_shared (w_row w) (w_col w) (w_mat w)
                     (alter detached (ld_ref s) (ld_heap s) ++ [w_ld w]) (length (ld_heap s))).

(** ** Requests *)

Record request (T : Type) : Type := mk_request { req_a : T; req_b : T; req_r : Z; req_c : Z; req_ld : ld_field }.
Arguments mk_request {T}. Arguments req_a {T}. Arguments req_b {T}. Arguments req_r {T}.
Arguments req_c {T}. Arguments req_ld {T}.

(** [MatMulRequestMessage.set] *)
Definition set_request {A} (mat_a mat_b : list (list A)) (r c block_size : Z) (ld : list Z) :
    request (list (list A)) :=
  mk_request (row_block r block_size mat_a) (col_block c block_size mat_b) r c (LdList ld).

Section request.
Context {T B : Type} `{Wire T B}.

Definition serialize_request (m : request T) : M (shared B) B :=
  set_row (req_r m);;
  set_col (req_c m);;
  set_ld (req_ld m);;
  set_mat [torch_save (req_a m); torch_save (req_b m)];;
  gets (fun s => encode_wire (wire_of s)).

Definition deserialize_request (body : B) : M (shared B) (request T) :=
  parse_message body;;
  s ← get;
  a_bytes ← lift (py_index (mat s) 0);
  b_bytes ← lift (py_index (mat s) 1);
  a ← lift (torch_load a_bytes);
  b ← lift (torch_load b_bytes);
  mret (mk_request a b (row s) (col s) (LdRef (ld_ref s))).
End request.

(** ** Responses: the same with one tensor, in a field that is not repeated *)

Record response (T : Type) : Type := mk_response { resp_result : T; resp_r : Z; resp_c : Z; resp_ld : ld_field }.
Arguments mk_response {T}. Arguments resp_result {T}. Arguments resp_r {T}.
Arguments resp_c {T}. Arguments resp_ld {T}.

Definition set_response {T} (result : T) (r c : Z) (ld : list Z) : response T :=
  mk_response result r c (LdList ld).

Section response.
Context {T B : Type} `{Wire T B}.

Definition serialize_response (m : response T) : M (shared B) B :=
  set_row (resp_r m);;
  set_col (resp_c m);;
  set_ld (resp_ld m);;
  set_mat [torch_save (resp_result m)];;
  gets (fun s => encode_wire (wire_of s)).

Definition deserialize_response (body : B) : M (shared B) (response T) :=
  parse_message body;;
  s ← get;
  result ← lift (torch_load (default empty_bytes (last (mat s))));
  mret (mk_response result (row s) (col s) (LdRef (ld_ref s))).
End response.

(** ** Backends by name *)

Section backends.
Context {S : Type} (ProxySvr ProxyCli : outcome S).

Definition backend_from_name (name : string) : outcome S :=
  if String.eqb name "proxy" then ProxySvr
  else Raise (ValueError ("Unknown backend: " +:+ name)).
Definition worker_from_name (name : string) : outcome S :=
  if String.eqb name "proxy" then ProxyCli
  else Raise (ValueError ("Unknown worker: " +:+ name)).
End backends.

(** ** The blocks make up the product *)

Lemma clip_index_pos n i : 0 <= i -> clip_index n i = Z.to_nat (Z.min i (Z.of_nat n)).
Proof. intros Hi. unfold clip_index. by rewrite (proj2 (Z.ltb_ge _ _)) by lia. Qed.

(** Position [i] of a list is position [i mod b] of its block [i / b]. *)
Lemma py_slice_lookup {A} (l : list A) b i :
  0 < b -> 0 <= i ->
  py_slice (i / b * b) ((i / b + 1) * b) l !! Z.to_nat (i mod b) = l !! Z.to_nat i.
Proof.
  intros Hb Hi. pose proof (Z.div_mod i b ltac:(lia)) as Hd.
  pose proof (Z.mod_pos_bound i b Hb) as Hm. assert (0 <= i / b) by (apply Z.div_pos; lia).
  unfold py_slice. rewrite !clip_index_pos by nia. rewrite lookup_drop.
  destruct (Z.lt_ge_cases i (Z.of_nat (length l))) as [Hlt|Hge].
  - rewrite lookup_take_lt by nia. f_equal. nia.
  - rewrite (lookup_ge_None_2 l (Z.to_nat i)) by lia.
    apply lookup_ge_None_2. rewrite length_take. nia.
Qed.

(** Row [i] and column [j] *)
Definition column {A} (j : nat) (m : list (list A)) : option (list A) := mapM (fun r => r !! j) m.

Lemma col_block_column {A} (m : list (list A)) b j :
  0 < b -> 0 <= j ->
  column (Z.to_nat (j mod b)) (col_block (j / b) b m) = column (Z.to_nat j) m.
Proof.
  intros Hb Hj. unfold column, col_block. induction m as [|r m IH]; [done|].
  cbn [map mapM]. rewrite IH, py_slice_lookup by done. done.
Qed.

(** An entry of a product, for any inner product [dot] *)
Definition entry {A B} (dot : list A -> list A -> B) (a b : list (list A)) (i j : nat) : option B :=
  match a !! i, column j b with Some r, Some c => Some (dot r c) | _, _ => None end.

(** C18: the requests for the blocks of a product compute the product.  Entry (i, j) of
    the product of two matrices is entry (i mod b, j mod b) of the product of the two
    blocks in the request for block (i / b, j / b); the last blocks may be smaller. *)
Theorem block_requests_tile {A B} (dot : list A -> list A -> B) mat_a mat_b b ld i j :
  0 < b -> 0 <= i -> 0 <= j ->
  let m := set_request mat_a mat_b (i / b) (j / b) b ld in
  entry dot (req_a m) (req_b m) (Z.to_nat (i mod b)) (Z.to_nat (j mod b))
  = entry dot mat_a mat_b (Z.to_nat i) (Z.to_nat j).
Proof.
  intros Hb Hi Hj. cbn zeta. unfold entry. cbn [req_a req_b set_request].
  rewrite col_block_column by done. unfold row_block. by rewrite py_slice_lookup.
Qed.

(** ** Round trip, and what sharing does to it *)

(** The list object of the message exists. *)
Definition shared_wf {B} (s : shared B) : Prop := (ld_ref s < length (ld_heap s))%nat.

Section roundtrip.
Context {T B : Type} `{Wire T B} `{!WireLaws T B}.

Lemma find_uint32 l :
  forallb uint32 l = true -> List.find (fun z => negb (uint32 z)) l = None.
Proof.
  induction l as [|z l IH]; [done|]. cbn. intros [Hz Hl]%andb_prop. rewrite Hz. by apply IH.
Qed.

(** Serializing a message with numbers in range *)
Lemma set_fields_run s r c f m :
  shared_wf s -> uint32 r = true -> uint32 c = true -> forallb uint32 (read_ld s f) = true ->
  (set_row r;; set_col c;; set_ld f;; set_mat m;;
   gets (fun s => encode_wire (wire_of s) : B)) s =
  (Ret (encode_wire (mk_wire r c (read_ld s f) m)),
   mk_shared r c m (<[ld_ref s := read_ld s f]> (ld_heap s)) (ld_ref s)).
Proof.
  intros Hwf Hr Hc Hl. unfold set_row, set_col, set_ld, set_mat. rewrite Hr, Hc.
  unfold mbind, M_bind, modify, get, gets. cbn [row col mat ld_heap ld_ref].
  change (read_ld (mk_shared r c (mat s) (ld_heap s) (ld_ref s)) f) with (read_ld s f).
  rewrite find_uint32 by done. cbn [row col mat ld_heap ld_ref]. do 3 f_equal.
  unfold wire_of. cbn [row col mat ld_heap ld_ref read_ld].
  by rewrite list_lookup_insert_eq by exact Hwf.
Qed.

Definition request_in_range (s : shared B) (m : request T) : Prop :=
  uint32 (req_r m) = true /\ uint32 (req_c m) = true /\
  forallb uint32 (read_ld s (req_ld m)) = true.

(** Requests round trip.  A request whose numbers are unsigned 32-bit integers
    serializes, and deserializing the bytes in any process gives a request with the same
    blocks, the same position and the same [ld]. *)
Theorem request_roundtrip s m s' :
  shared_wf s -> shared_wf s' -> request_in_range s m ->
  exists body s1 d s2, serialize_request m s = (Ret body, s1) /\
    deserialize_request body s' = (Ret d, s2) /\
    req_a d = req_a m /\ req_b d = req_b m /\ req_r d = req_r m /\ req_c d = req_c m /\
    read_ld s2 (req_ld d) = read_ld s (req_ld m).
Proof.
  intros Hwf Hwf' (Hr & Hc & Hl). unfold serialize_request. rewrite set_fields_run by done.
  eexists _, _, _, _. split; [reflexivity|].
  unfold deserialize_request, parse_message, mbind, M_bind, lift, modify, get.
  rewrite decode_encode by done. cbn [w_row w_col w_ld w_mat row col mat ld_heap ld_ref].
  change (py_index [torch_save (req_a m); torch_save (req_b m)] 0) with (Ret (torch_save (req_a m))).
  change (py_index [torch_save (req_a m); torch_save (req_b m)] 1) with (Ret (torch_save (req_b m))).
  cbn iota beta. rewrite !load_save. split; [reflexivity|].
  cbn [req_a req_b req_r req_c req_ld read_ld ld_heap]. split_and!; try done.
  by rewrite lookup_app_r, length_alter, Nat.sub_diag by (rewrite length_alter; lia).
Qed.

Lemma deserialize_ref s body d s1 :
  deserialize_request body s = (Ret d, s1) ->
  req_ld d = LdRef (ld_ref s1) /\ shared_wf s1.
Proof using.
  unfold deserialize_request, parse_message, mbind, M_bind, lift, modify, get.
  destruct (decode_wire body) as [w|]; [|done]. cbn [mat row col ld_ref].
  destruct (py_index (w_mat w) 0) as [x|]; [|done].
  destruct (py_index (w_mat w) 1) as [y|]; [|done].
  destruct (torch_load x); [|done]. destruct (torch_load y); [|done].
  intros [= <- <-]. split; [done|].
  unfold shared_wf. cbn. rewrite length_app, length_alter. cbn. lia.
Qed.

(** Sharing the message.  Deserializing a request makes its [ld] a reference to the
    class's message object.  Serializing any other request afterwards, before it is read,
    overwrites it: the deserialized request then shows the other request's [ld]. *)
Theorem serialize_overwrites_ld s body d s1 m body' s2 :
  deserialize_request body s = (Ret d, s1) -> serialize_request m s1 = (Ret body', s2) ->
  read_ld s2 (req_ld d) = read_ld s1 (req_ld m).
Proof using.
  intros Hd Hm. destruct (deserialize_ref _ _ _ _ Hd) as [-> Hwf].
  revert Hm. unfold serialize_request, set_row, set_col, set_ld, set_mat, raise.
  unfold mbind, M_bind, modify, get, gets.
  destruct (uint32 (req_r m)); [|done]. destruct (uint32 (req_c m)); [|done].
  change (read_ld (mk_shared (req_r m) (req_c m) (mat s1) (ld_heap s1) (ld_ref s1)) (req_ld m))
    with (read_ld s1 (req_ld m)).
  cbn iota beta. cbn [read_ld]. destruct (List.find _ _); [done|]. intros [= _ <-].
  cbn [read_ld ld_heap ld_ref]. by rewrite list_lookup_insert_eq by exact Hwf.
Qed.
End roundtrip.

(** ** Examples *)

(** Bytes as terms: what was encoded is kept as it is. *)
Inductive demo_bytes : Type :=
  | BTensor (m : list (list Z))
  | BWire (r c : Z) (ld : list Z) (mat : list demo_bytes).

Definition demo_wire : Wire (list (list Z)) demo_bytes := {|
  encode_wire w := BWire (w_row w) (w_col w) (w_ld w) (w_mat w);
  decode_wire b := match b with
                   | BWire r c ld mat => Ret (mk_wire r c ld mat)
                   | _ => Raise (ValueError "Error parsing message")
                   end;
  torch_save := BTensor;
  torch_load b := match b with BTensor m => Ret m | _ => Raise (RuntimeError "invalid") end;
  empty_bytes := BTensor [];
  detached l := l;
|}.

#[local] Existing Instance demo_wire.

#[local] Instance demo_wire_laws : WireLaws (list (list Z)) demo_bytes.
Proof. split; [by intros []|done]. Qed.

Definition demo_a : list (list Z) := [[0; 1; 2]; [3; 4; 5]; [6; 7; 8]].

Definition demo_request (ld : list Z) : request (list (list Z)) := set_request demo_a demo_a 1 0 2 ld.

Example demo_blocks :
  req_a (demo_request []) = [[6; 7; 8]] /\ req_b (demo_request []) = [[0; 1]; [3; 4]; [6; 7]].
Proof. by vm_compute. Qed.

Definition dot (x y : list Z) : Z := sum_list (zip_with Z.mul x y).

Lemma block_requests_tile_witness :
  entry dot (req_a (demo_request [])) (req_b (demo_request [])) 0 1 = entry dot demo_a demo_a 2 1.
Proof. exact (block_requests_tile dot demo_a demo_a 2 [] 2 1 eq_refl ltac:(lia) ltac:(lia)). Defined.

Lemma request_roundtrip_witness :
  exists body s1 d s2, serialize_request (demo_request [7]) new_shared = (Ret body, s1) /\
    deserialize_request body new_shared = (Ret d, s2) /\ read_ld s2 (req_ld d) = [7].
Proof.
  destruct (request_roundtrip (B := demo_bytes) new_shared (demo_request [7]) new_shared)
    as (body & s1 & d & s2 & H1 & H2 & _ & _ & _ & _ & H3);
    [vm_compute; lia|vm_compute; lia|repeat split|].
  exists body, s1, d, s2. exact (conj H1 (conj H2 H3)).
Defined.

(** The state after a request with [ld = [7]] was read *)
Definition demo_read : outcome (request (list (list Z))) * shared demo_bytes :=
  deserialize_request (BWire 1 0 [7] [BTensor []; BTensor []]) new_shared.

Lemma serialize_overwrites_ld_witness :
  exists d, demo_read.1 = Ret d /\ read_ld demo_read.2 (req_ld d) = [7] /\
    read_ld (serialize_request (demo_request [9; 9]) demo_read.2).2 (req_ld d) = [9; 9].
Proof.
  eexists. split; [vm_compute; reflexivity|]. split; [vm_compute; reflexivity|].
  exact ((serialize_overwrites_ld (B := demo_bytes) new_shared
    (BWire 1 0 [7] [BTensor []; BTensor []]) _ demo_read.2 (demo_request [9; 9]) _ _
    eq_refl eq_refl)).
Defined.
