(* ===== verification/DeviceGen.v ===== *)
(** * Generated devices ([entrypoint/generate_device_config.py], [entrypoint/run_device.py])

    The generator of random device configurations and the start-up of one device.
    NumPy's global generator and [repr] of floats are parameters. *)

From Stdlib Require Import Ascii.
From S2P Require Import Prelude PyDict PyStr PyFloat FloatOrder NumPy PyJson Units.
From S2P Require Messages.

(** ** Numbers *)

(** [int(x)] of a Python number *)
Definition int_of_number (x : number) : outcome Z :=
  match x with PInt z => Ret z | PFloat x => int_of_float x end.

(** An integer and a float compare by their exact values; [None] with a NaN. *)
Definition compare_int_float (z : Z) (x : float) : option comparison :=
  match x with
  | S754_nan => None
  | S754_infinity s => Some (if s then Gt else Lt)
  | S754_zero _ => Some (z ?= 0)
  | S754_finite s m e =>
      let m := if s then Zneg m else Zpos m in
      Some (if 0 <=? e then z ?= m * 2 ^ e else z * 2 ^ (- e) ?= m)
  end.

(** [a > b] *)
Definition number_gt (a b : number) : bool :=
  match a, b with
  | PInt a, PInt b => b <? a
  | PFloat x, PFloat y => flt y x
  | PInt z, PFloat x => match compare_int_float z x with Some Gt => true | _ => false end
  | PFloat x, PInt z => match compare_int_float z x with Some Lt => true | _ => false end
  end.

(** [int(np.ceil(x))] *)
Definition int_ceil (x : float) : outcome Z :=
  match x with
  | S754_finite false m e => Ret (if 0 <=? e then Zpos m * 2 ^ e else - (Zneg m / 2 ^ (- e)))
  | _ => int_of_float x
  end.

(** ** The generator *)

Record DeviceConfigArguments : Type := mk_arguments {
  num_devices : Z;
  flops_lb : string; flops_ub : string;
  ul_bw_lb : string; ul_bw_ub : string;
  dl_bw_lb : string; dl_bw_ub : string;
  ul_latency_lb : float; ul_latency_ub : float;
  dl_latency_lb : float; dl_latency_ub : float;
  mem_lb : string; mem_ub : string;
  seed : Z;
  straggler_ratio : float;
  straggler_num : Z;
  straggler_ul_scale : float;
  straggler_dl_scale : float;
  straggler_flops_scale : float;
}.

(** The bounds, once they are numbers *)
Record bounds : Type := mk_bounds {
  flops_range : number * number;
  ul_range : number * number;
  dl_range : number * number;
  mem_range : number * number;
}.

(** The attributes [__post_init__] adds *)
Record devices : Type := mk_devices {
  device_flops : list Z;
  ul_bw : list Z;
  dl_bw : list Z;
  device_mem : list Z;
  ul_lat : list float;
  dl_lat : list float;
  num_stragglers : Z;
  straggler_idx : list Z;
}.

(** NumPy's global generator, and [set_seed] of [transformers], which seeds it *)
Class GlobalRng (R : Type) : Type := {
  set_seed : Z -> R;
  randint : number -> number -> Z -> R -> outcome (list Z) * R;
  choice : Z -> Z -> R -> outcome (list Z) * R;
}.

(** [randint] draws integers of the half-open range; [choice] without replacement draws
    distinct indices. *)
Class GlobalRngLaws (R : Type) `{GlobalRng R} : Prop := {
  randint_law : forall lo hi n r l r', randint lo hi n r = (Ret l, r') ->
    exists a b, int_of_number lo = Ret a /\ int_of_number hi = Ret b /\
      Z.of_nat (length l) = n /\ Forall (fun x => a <= x < b) l;
  choice_law : forall n k r l r', choice n k r = (Ret l, r') ->
    NoDup l /\ Z.of_nat (length l) = k /\ Forall (fun i => 0 <= i < n) l;
}.

Definition convert_range (lb ub : string) : outcome (number * number) :=
  lb ← human2bytes lb; ub ← human2bytes ub; Ret (lb, ub).

Definition assert_greater (ub_gt_lb : bool) (what : string) : outcome unit :=
  if ub_gt_lb then Ret tt
  else Raise (AssertionError ("Upper bound of device " +:+ what +:+
                              " must be greater than lower bound")).

Definition checked_bounds (a : DeviceConfigArguments) : outcome bounds :=
  flops ← convert_range (flops_lb a) (flops_ub a);
  ul ← convert_range (ul_bw_lb a) (ul_bw_ub a);
  dl ← convert_range (dl_bw_lb a) (dl_bw_ub a);
  mem ← convert_range (mem_lb a) (mem_ub a);
  assert_greater (number_gt flops.2 flops.1) "FLOPS";;
  assert_greater (number_gt ul.2 ul.1) "uplink bandwidth";;
  assert_greater (number_gt dl.2 dl.1) "downlink bandwidth";;
  assert_greater (flt (ul_latency_lb a) (ul_latency_ub a)) "uplink latency";;
  assert_greater (flt (dl_latency_lb a) (dl_latency_ub a)) "downlink latency";;
  Ret (mk_bounds flops ul dl mem).

(** How many devices are stragglers: an explicit number wins over a ratio. *)
Definition count_stragglers (a : DeviceConfigArguments) : outcome Z :=
  k ← (if flt fzero (straggler_ratio a)
       then n ← float_of_int (num_devices a); int_ceil (fmul n (straggler_ratio a))
       else Ret 0);
  Ret (if 0 <? straggler_num a then straggler_num a else k).

(** [l[idx] = l[idx] * scale] on an [int64] array *)
Definition scaled (scale : float) (x : Z) : Z := as_int64 (fmul (f_of_Z x) scale).

Definition scale_at (idx : list Z) (scale : float) (l : list Z) : list Z :=
  imap (fun i x => if bool_decide (Z.of_nat i ∈ idx) then scaled scale x else x) l.

Section generator.
Context {R : Type} `{GlobalRng R}.

Definition draw_devices (a : DeviceConfigArguments) (b : bounds) : M R devices :=
  let n := num_devices a in
  flops ← randint (flops_range b).1 (flops_range b).2 n;
  ul ← randint (ul_range b).1 (ul_range b).2 n;
  dl ← randint (dl_range b).1 (dl_range b).2 n;
  mem ← randint (mem_range b).1 (mem_range b).2 n;
  let zeros := replicate (Z.to_nat n) fzero in
  mret (mk_devices flops ul dl mem zeros zeros 0 []).

Definition pick_stragglers (a : DeviceConfigArguments) (d : devices) : M R devices :=
  k ← lift (count_stragglers a);
  if 0 <? k then
    idx ← choice (num_devices a) k;
    mret (mk_devices (scale_at idx (straggler_flops_scale a) (device_flops d))
            (scale_at idx (straggler_ul_scale a) (ul_bw d))
            (scale_at idx (straggler_dl_scale a) (dl_bw d))
            (device_mem d) (ul_lat d) (dl_lat d) k idx)
  else mret (mk_devices (device_flops d) (ul_bw d) (dl_bw d) (device_mem d)
               (ul_lat d) (dl_lat d) k []).

(** [__post_init__]: the generator is always seeded with 42. *)
Definition post_init (a : DeviceConfigArguments) : outcome devices :=
  b ← checked_bounds a;
  ((draw_devices a b ≫= pick_stragglers a) (set_seed 42 : R)).1.

(** *** The configuration file *)

Record DeviceConfig : Type := mk_config {
  rank : Z; flops : Z; memory : Z; cfg_ul_bw : float; cfg_dl_bw : float;
  cfg_ul_lat : float; cfg_dl_lat : float;
}.

(** [DeviceConfig(rank=id, ...)]; a look-up past the end of an array raises. *)
Definition device_meta (d : devices) (id : Z) : outcome DeviceConfig :=
  flops ← py_index (device_flops d) id;
  memory ← py_index (device_mem d) id;
  ul ← py_index (ul_bw d) id;
  dl ← py_index (dl_bw d) id;
  ul_lat ← py_index (ul_lat d) id;
  dl_lat ← py_index (dl_lat d) id;
  Ret (mk_config id flops memory (f_of_Z ul) (f_of_Z dl) ul_lat dl_lat).

(** [EnhancedJSONEncoder]: a data class is written as its dictionary. *)
Definition encode (c : DeviceConfig) : json :=
  JObj [("rank", JInt (rank c)); ("flops", JInt (flops c)); ("memory", JInt (memory c));
        ("ul_bw", JFloat (cfg_ul_bw c)); ("dl_bw", JFloat (cfg_dl_bw c));
        ("ul_lat", JFloat (cfg_ul_lat c)); ("dl_lat", JFloat (cfg_dl_lat c))]%string.

Definition meta_list (a : DeviceConfigArguments) : outcome (list DeviceConfig) :=
  d ← post_init a; mapO (device_meta d) (seqZ 0 (num_devices a)).

(** What [main] writes *)
Definition main (a : DeviceConfigArguments) : outcome json :=
  l ← meta_list a; Ret (JList (map encode l)).
End generator.

(** ** Every device is drawn from its ranges *)

Definition in_range (r : number * number) (x : Z) : Prop :=
  exists lo hi, int_of_number r.1 = Ret lo /\ int_of_number r.2 = Ret hi /\ lo <= x < hi.

(** A scale between zero and one *)
Definition unit_scale (s : float) : Prop := pfin s /\ fval s <= one.

(** The range holds integers that floats hold exactly. *)
Definition exact_range (r : number * number) : Prop :=
  forall x, in_range r x -> 0 <= x < 2 ^ 53.

(** Scaling down stays between zero and the value. *)
Lemma scaled_le s x : unit_scale s -> 0 <= x < 2 ^ 53 -> 0 <= scaled s x <= x.
Proof.
  intros [Hs Hs1] Hx. destruct (f_of_Z_fval x Hx) as [Hp Hv]. pose proof one_pos.
  destruct (fmul_le (f_of_Z x) s (f_of_Z x) Hp Hs Hp) as [Hq Hle].
  { apply Z.mul_le_mono_nonneg_l; [by apply pfin_fval|done]. }
  pose proof (pfin_fval _ Hq) as Hq0. unfold scaled, as_int64.
  rewrite int_of_float_fval by (try apply Hq; done).
  assert (0 <= fval (fmul (f_of_Z x) s) / one <= x).
  { split; [by apply Z.div_pos|]. apply Z.div_le_upper_bound; lia. }
  rewrite (proj2 (Z.leb_le _ _)), (proj2 (Z.ltb_lt _ _)) by lia. done.
Qed.

(** A drawn value, scaled down on a straggler *)
Definition device_value (r : number * number) (s : float) (straggler : bool) (x : Z) : Prop :=
  exists y, in_range r y /\ if straggler then x = scaled s y /\ 0 <= x <= y else x = y.

Section generated.
Context {R : Type} `{GlobalRng R} `{!GlobalRngLaws R}.

Lemma randint_in_range r n g l g' :
  randint r.1 r.2 n g = (Ret l, g') -> Z.of_nat (length l) = n /\ Forall (in_range r) l.
Proof.
  intros (lo & hi & Hlo & Hhi & Hlen & Hl)%randint_law. split; [done|].
  eapply Forall_impl; [exact Hl|]. intros x Hx. by exists lo, hi.
Qed.

(** All the arrays of a device list *)
Definition drawn (a : DeviceConfigArguments) (b : bounds) (d : devices) : Prop :=
  let n := num_devices a in
  (Z.of_nat (length (device_flops d)) = n /\ Forall (in_range (flops_range b)) (device_flops d)) /\
  (Z.of_nat (length (ul_bw d)) = n /\ Forall (in_range (ul_range b)) (ul_bw d)) /\
  (Z.of_nat (length (dl_bw d)) = n /\ Forall (in_range (dl_range b)) (dl_bw d)) /\
  (Z.of_nat (length (device_mem d)) = n /\ Forall (in_range (mem_range b)) (device_mem d)) /\
  ul_lat d = replicate (Z.to_nat n) fzero /\ dl_lat d = replicate (Z.to_nat n) fzero.

Lemma draw_devices_drawn a b : returns (draw_devices a b : M R _) (drawn a b).
Proof.
  unfold draw_devices, drawn. cbn zeta.
  eapply returns_bind; [intros g l g'; apply randint_in_range|]; intros fl Hfl.
  eapply returns_bind; [intros g l g'; apply randint_in_range|]; intros ul Hul.
  eapply returns_bind; [intros g l g'; apply randint_in_range|]; intros dl Hdl.
  eapply returns_bind; [intros g l g'; apply randint_in_range|]; intros mem Hmem.
  by apply returns_ret.
Qed.

Lemma scale_at_lookup idx s r l i x :
  Forall (in_range r) l -> exact_range r -> unit_scale s -> scale_at idx s l !! i = Some x ->
  device_value r s (bool_decide (Z.of_nat i ∈ idx)) x.
Proof.
  intros Hl Hr Hs. unfold scale_at. rewrite list_lookup_imap. intros (y & Hy & ->)%fmap_Some.
  pose proof (proj1 (Forall_lookup _ _) Hl i y Hy) as Hin. exists y. split; [done|].
  destruct (bool_decide _); [|done]. split; [done|]. apply scaled_le; [done|by apply Hr].
Qed.

Lemma scale_at_length idx s l : length (scale_at idx s l) = length l.
Proof. apply length_imap. Qed.

Lemma scale_at_nil s l : scale_at [] s l = l.
Proof.
  unfold scale_at. apply list_eq. intros i. rewrite list_lookup_imap.
  by destruct (l !! i).
Qed.
(** What is known of the devices after the stragglers are scaled *)
Definition generated (a : DeviceConfigArguments) (b : bounds) (d : devices) : Prop :=
  let n := num_devices a in
  let value {A} (l : list A) (P : bool -> A -> Prop) :=
    forall i x, l !! i = Some x -> P (bool_decide (Z.of_nat i ∈ straggler_idx d)) x in
  value (device_flops d) (device_value (flops_range b) (straggler_flops_scale a)) /\
  value (ul_bw d) (device_value (ul_range b) (straggler_ul_scale a)) /\
  value (dl_bw d) (device_value (dl_range b) (straggler_dl_scale a)) /\
  value (device_mem d) (fun _ => in_range (mem_range b)) /\
  value (ul_lat d) (fun _ x => x = fzero) /\ value (dl_lat d) (fun _ x => x = fzero) /\
  NoDup (straggler_idx d) /\ Forall (fun i => 0 <= i < n) (straggler_idx d) /\
  count_stragglers a = Ret (num_stragglers d) /\
  Z.of_nat (length (straggler_idx d)) = Z.max 0 (num_stragglers d) /\
  Z.of_nat (length (device_flops d)) = n.

Lemma replicate_zero i n (x : float) : replicate n fzero !! i = Some x -> x = fzero.
Proof. by intros [-> _]%lookup_replicate. Qed.

Lemma pick_stragglers_generated a b d :
  exact_range (flops_range b) -> exact_range (ul_range b) -> exact_range (dl_range b) ->
  unit_scale (straggler_flops_scale a) -> unit_scale (straggler_ul_scale a) ->
  unit_scale (straggler_dl_scale a) ->
  drawn a b d -> returns (pick_stragglers a d : M R _) (generated a b).
Proof.
  intros Ef Eu Ed Sf Su Sd ((Hfl & Hf) & (Hul & Hu) & (Hdl & Hd) & (Hml & Hm) & Hlu & Hld).
  unfold pick_stragglers.
  eapply (returns_bind _ _ (fun k => count_stragglers a = Ret k)); [by apply returns_lift|].
  intros k Hk. destruct (Z.ltb_spec 0 k) as [Hk0|Hk0].
  - eapply returns_bind; [intros g l g'; apply choice_law|]. intros idx (Hnd & Hlen & Hin).
    apply returns_ret. unfold generated. cbn. rewrite Hlu, Hld, scale_at_length.
    split_and!; try done; try lia.
    + intros i x. by apply scale_at_lookup.
    + intros i x. by apply scale_at_lookup.
    + intros i x. by apply scale_at_lookup.
    + intros i x Hx. by apply (proj1 (Forall_lookup _ _) Hm i).
    + intros i x. apply replicate_zero.
    + intros i x. apply replicate_zero.
  - apply returns_ret. unfold generated. cbn. rewrite Hlu, Hld.
    assert (Hnone : forall i, bool_decide (Z.of_nat i ∈ ([] : list Z)) = false).
    { intros i. apply bool_decide_eq_false, not_elem_of_nil. }
    split_and!; try done; try lia; try constructor; intros i x Hx; rewrite ?Hnone.
    + exists x. split; [|done]. by apply (proj1 (Forall_lookup _ _) Hf i).
    + exists x. split; [|done]. by apply (proj1 (Forall_lookup _ _) Hu i).
    + exists x. split; [|done]. by apply (proj1 (Forall_lookup _ _) Hd i).
    + by apply (proj1 (Forall_lookup _ _) Hm i).
    + by apply replicate_zero in Hx.
    + by apply replicate_zero in Hx.
Qed.

Lemma post_init_generated a d :
  post_init a = Ret d ->
  exists b, checked_bounds a = Ret b /\
    (exact_range (flops_range b) -> exact_range (ul_range b) -> exact_range (dl_range b) ->
     unit_scale (straggler_flops_scale a) -> unit_scale (straggler_ul_scale a) ->
     unit_scale (straggler_dl_scale a) -> generated a b d).
Proof.
  unfold post_init. destruct (checked_bounds a) as [b|]; [|done]. cbn [mbind outcome_bind].
  intros Hd. exists b. split; [done|]. intros. revert Hd.
  destruct ((draw_devices a b ≫= pick_stragglers a) (set_seed 42 : R)) as [r g] eqn:Hrun.
  cbn [fst]. intros ->.
  eapply (returns_bind (draw_devices a b) (pick_stragglers a) (drawn a b) (generated a b)); [| |exact Hrun].
  - apply draw_devices_drawn.
  - intros d' Hd'. by apply pick_stragglers_generated.
Qed.

(** A generated configuration: its rank, its values within the ranges, scaled down
    exactly on a straggler, and no latency *)
Definition config_ok (a : DeviceConfigArguments) (b : bounds) (idx : list Z) (i : Z)
    (c : DeviceConfig) : Prop :=
  let s := bool_decide (i ∈ idx) in
  rank c = i /\
  device_value (flops_range b) (straggler_flops_scale a) s (flops c) /\
  (exists x, cfg_ul_bw c = f_of_Z x /\ device_value (ul_range b) (straggler_ul_scale a) s x) /\
  (exists x, cfg_dl_bw c = f_of_Z x /\ device_value (dl_range b) (straggler_dl_scale a) s x) /\
  in_range (mem_range b) (memory c) /\ cfg_ul_lat c = fzero /\ cfg_dl_lat c = fzero.

(** The generated device configurations.  With the checked ranges of the arguments
    (below 2^53) and scales between zero and one, the file lists every device once, in
    the order of its rank.  Exactly the requested number of devices are stragglers; a
    straggler has a value of the range scaled down (never up, never below zero), every
    other device a value of the range itself.  Memory is never scaled, and all
    latencies are zero whatever latency range was asked for. *)
Theorem generated_configs_in_range a l :
  meta_list a = Ret l ->
  (forall b, checked_bounds a = Ret b ->
     exact_range (flops_range b) /\ exact_range (ul_range b) /\ exact_range (dl_range b)) ->
  unit_scale (straggler_flops_scale a) -> unit_scale (straggler_ul_scale a) ->
  unit_scale (straggler_dl_scale a) ->
  exists b idx k, checked_bounds a = Ret b /\ count_stragglers a = Ret k /\
    NoDup idx /\ Forall (fun i => 0 <= i < num_devices a) idx /\
    Z.of_nat (length idx) = Z.max 0 k /\ Z.of_nat (length l) = num_devices a /\
    forall i c, l !! i = Some c -> config_ok a b idx (Z.of_nat i) c.
Proof.
  unfold meta_list. intros Hl Hr Sf Su Sd.
  destruct (post_init a) as [d|] eqn:Hd; [|done]. cbn [mbind outcome_bind] in Hl.
  apply post_init_generated in Hd as (b & Hb & Hgen).
  destruct (Hr b Hb) as (Ef & Eu & Ed).
  destruct (Hgen Ef Eu Ed Sf Su Sd)
    as (Vf & Vu & Vd & Vm & Vlu & Vld & Hnd & Hin & Hk & Hlen & Hn).
  exists b, (straggler_idx d), (num_stragglers d). split_and!; try done.
  - apply mapO_length in Hl. rewrite Hl, length_seqZ. lia.
  - intros i c Hc. destruct (mapO_lookup _ _ _ _ _ Hl Hc) as (j & Hj & Hmeta).
    apply lookup_seqZ in Hj as [-> _]. rewrite Z.add_0_l in Hmeta. revert Hmeta.
    unfold device_meta.
    destruct (py_index (device_flops d) _) as [xf|] eqn:Hf; [|done].
    destruct (py_index (device_mem d) _) as [xm|] eqn:Hm; [|done].
    destruct (py_index (ul_bw d) _) as [xu|] eqn:Hu; [|done].
    destruct (py_index (dl_bw d) _) as [xd|] eqn:Hdl; [|done].
    destruct (py_index (ul_lat d) _) as [xlu|] eqn:Hlu; [|done].
    destruct (py_index (dl_lat d) _) as [xld|] eqn:Hld; [|done].
    intros [= <-].
    apply py_index_lookup in Hf, Hm, Hu, Hdl, Hlu, Hld; try lia. rewrite Nat2Z.id in *.
    unfold config_ok. cbn. split_and!; [done|by apply Vf|exists xu; eauto|exists xd; eauto| | |].
    + by apply (Vm i). + by apply (Vlu i). + by apply (Vld i).
Qed.
End generated.

(** ** Starting a device *)

Record run_args : Type := mk_run_args {
  id : option Z;
  run_flops : option string;
  run_memory : option string;
  run_ul_bw : option string;
  run_dl_bw : option string;
  run_ul_lat : option float;
  run_dl_lat : option float;
  proxy_host : string;
  backend : string;
}.

(** [human2bytes(args.x)], where an option that was not given is [None] *)
Definition given_bytes (s : option string) : outcome number :=
  match s with
  | Some s => human2bytes s
  | None => Raise (AttributeError "'NoneType' object has no attribute 'isdigit'")
  end.

(** [int(args.x * 1e6)] *)
Definition microseconds (x : option float) : outcome Z :=
  match x with
  | Some x => int_of_float (fmul x (f_of_Z 1000000))
  | None => Raise (TypeError "unsupported operand type(s) for *: 'NoneType' and 'float'")
  end.

Section run_device.
Context (str_float : float -> string).

Definition str_number (x : number) : string :=
  match x with PInt z => str_of_Z z | PFloat x => str_float x end.

(** [os.environ] *)
Definition environ : Type := pydict string string.
Definition setenv (k v : string) : M environ unit := modify (dict_set k v).

(** The variables of the proxy server; [false] when the host is not [host:port] *)
Definition set_proxy_host (host : string) : M environ bool :=
  if is_empty host then mret true
  else match split_on ":"%char host with
       | [h; p] =>
           setenv "MORPHLING_PROXY_HOST" h;; setenv "MORPHLING_PROXY_PORT" p;; mret true
       | _ => mret false
       end.

(** [main] up to the worker's start: [true] when the worker is started *)
Definition run_main (a : run_args) : M environ bool :=
  flops ← lift (given_bytes (run_flops a));
  memory ← lift (given_bytes (run_memory a));
  ul ← lift (given_bytes (run_ul_bw a));
  dl ← lift (given_bytes (run_dl_bw a));
  setenv "MORPHLING_PIN_SIZE" (str_number memory);;
  ul_lat ← lift (microseconds (run_ul_lat a));
  dl_lat ← lift (microseconds (run_dl_lat a));
  host_ok ←
    (if String.eqb (backend a) "proxy" then
       setenv "MORPHLING_FLOPS" (str_number flops);;
       setenv "MORPHLING_MEMORY" (str_number memory);;
       setenv "MORPHLING_UL_BW" (str_number ul);;
       setenv "MORPHLING_DL_BW" (str_number dl);;
       setenv "MORPHLING_UL_LAT" (str_of_Z ul_lat);;
       setenv "MORPHLING_DL_LAT" (str_of_Z dl_lat);;
       set_proxy_host (proxy_host a)
     else mret true);
  if (host_ok : bool) then lift (Messages.worker_from_name (Ret tt) (backend a));; mret true else mret false.

(** A started device's environment holds the numbers it was given, in bytes and in
    microseconds, and the same memory as the pinned size. *)
Lemma run_main_environment a env env' :
  run_main a env = (Ret true, env') ->
  exists flops memory ul dl ul_lat dl_lat,
    given_bytes (run_flops a) = Ret flops /\ given_bytes (run_memory a) = Ret memory /\
    given_bytes (run_ul_bw a) = Ret ul /\ given_bytes (run_dl_bw a) = Ret dl /\
    microseconds (run_ul_lat a) = Ret ul_lat /\ microseconds (run_dl_lat a) = Ret dl_lat /\
    dict_get "MORPHLING_FLOPS" env' = Some (str_number flops) /\
    dict_get "MORPHLING_MEMORY" env' = Some (str_number memory) /\
    dict_get "MORPHLING_PIN_SIZE" env' = Some (str_number memory) /\
    dict_get "MORPHLING_UL_BW" env' = Some (str_number ul) /\
    dict_get "MORPHLING_DL_BW" env' = Some (str_number dl) /\
    dict_get "MORPHLING_UL_LAT" env' = Some (str_of_Z ul_lat) /\
    dict_get "MORPHLING_DL_LAT" env' = Some (str_of_Z dl_lat).
Proof.
  unfold run_main, mbind, M_bind, lift, setenv, modify.
  destruct (given_bytes (run_flops a)) as [flops|]; [|done].
  destruct (given_bytes (run_memory a)) as [memory|]; [|done].
  destruct (given_bytes (run_ul_bw a)) as [ul|]; [|done].
  destruct (given_bytes (run_dl_bw a)) as [dl|]; [|done].
  destruct (microseconds (run_ul_lat a)) as [ul_lat|]; [|done].
  destruct (microseconds (run_dl_lat a)) as [dl_lat|]; [|done].
  unfold Messages.worker_from_name. destruct (String.eqb (backend a) "proxy"); [|done].
  intros Hrun. exists flops, memory, ul, dl, ul_lat, dl_lat. do 6 (split; [done|]). revert Hrun.
  unfold set_proxy_host, setenv, modify, mbind, M_bind, mret, M_ret.
  assert (Hskip : forall (k k' v : string) (e : environ), k <> k' -> dict_get k (dict_set k' v e) = dict_get k e)
    by (intros; by apply dict_get_set_ne).
  destruct (is_empty (proxy_host a)); [|destruct (split_on _ _) as [|h [|p [|]]]; try done];
    intros [= <-]; repeat (rewrite dict_get_set_eq || rewrite Hskip by done); done.
Qed.
End run_device.

(** ** Examples *)

(** A generator that draws the lower bound and chooses the first devices *)
Definition demo_rng : GlobalRng unit := {|
  set_seed _ := tt;
  randint lo hi n g :=
    (match int_of_number lo, int_of_number hi with
     | Ret a, Ret b => if (a <? b) && (0 <=? n) then Ret (replicate (Z.to_nat n) a)
                       else Raise (ValueError "low >= high")
     | _, _ => Raise (ValueError "low >= high")
     end, g);
  choice n k g :=
    (if (0 <=? k) && (k <=? n) then Ret (seqZ 0 k)
     else Raise (ValueError "Cannot take a larger sample than population when replace is False"),
     g);
|}.

#[local] Existing Instance demo_rng.

#[local] Instance demo_rng_laws : GlobalRngLaws unit.
Proof.
  split.
  - intros lo hi n r l r'. cbn [randint demo_rng].
    destruct (int_of_number lo) as [a|]; [|done]. destruct (int_of_number hi) as [b|]; [|done].
    destruct ((a <? b) && (0 <=? n)) eqn:Hab; [|done]. intros [= <- _]. exists a, b.
    split_and!; [done|done|rewrite length_replicate; lia|]. apply Forall_replicate. lia.
  - intros n k r l r'. cbn [choice demo_rng]. destruct ((0 <=? k) && (k <=? n)) eqn:Hk; [|done].
    intros [= <- _]. split_and!; [apply NoDup_seqZ|rewrite length_seqZ; lia|].
    apply Forall_forall. intros i Hi%elem_of_seqZ. lia.
Qed.

Definition demo_arguments : DeviceConfigArguments :=
  mk_arguments 3 "5T" "7T" "5M" "10M" "10M" "100M" fzero (f_lit 5 1) fzero (f_lit 5 1)
    "1G" "3G" 42 (fopp (f_of_Z 1)) 1 (f_lit 1 1) (f_lit 1 1) (f_lit 1 1).

Definition demo_list : list DeviceConfig :=
  match meta_list demo_arguments with Ret l => l | Raise _ => [] end.

Example demo_flops : map flops demo_list = [549755813888; 5497558138880; 5497558138880].
Proof. vm_compute. reflexivity. Qed.

Lemma exact_range_ints a b : 0 <= a -> b <= 2 ^ 53 -> exact_range (PInt a, PInt b).
Proof. intros Ha Hb x (lo & hi & [= <-] & [= <-] & Hx). lia. Qed.

Lemma generated_configs_in_range_witness :
  length demo_list = 3%nat /\
  exists b idx k, checked_bounds demo_arguments = Ret b /\ count_stragglers demo_arguments = Ret k /\
    NoDup idx /\ Forall (fun i => 0 <= i < 3) idx /\ Z.of_nat (length idx) = Z.max 0 k /\
    Z.of_nat (length demo_list) = 3.
Proof.
  split; [vm_compute; reflexivity|].
  destruct (generated_configs_in_range demo_arguments demo_list)
    as (b & idx & k & H1 & H2 & H3 & H4 & H5 & H6 & _).
  - vm_compute. reflexivity.
  - intros b Hb.
    assert (Hb' : checked_bounds demo_arguments =
      Ret (mk_bounds (PInt 5497558138880, PInt 7696581394432) (PInt 5242880, PInt 10485760)
             (PInt 10485760, PInt 104857600) (PInt 1073741824, PInt 3221225472)))
      by (vm_compute; reflexivity).
    rewrite Hb' in Hb. injection Hb as <-.
    split; [|split]; apply exact_range_ints; vm_compute; discriminate.
  - split; [apply pfinb_pfin; reflexivity|vm_compute; discriminate].
  - split; [apply pfinb_pfin; reflexivity|vm_compute; discriminate].
  - split; [apply pfinb_pfin; reflexivity|vm_compute; discriminate].
  - exists b, idx, k. exact (conj H1 (conj H2 (conj H3 (conj H4 (conj H5 H6))))).
Defined.
