(* ===== verification/Ldpc.v ===== *)
(** * LDPC traces ([morphling/runtime/ldpc_trace_adapter.py], [scripts/validate_traces.py])

    The adapter that turns the trace of an LDPC decoder into an SM trace, and the
    validator of such traces.  A CSV file is its columns, as [pd.read_csv] gives them;
    how pandas reads a number from a text is a parameter. *)

From Stdlib Require Import Ascii.
From S2P Require Import Prelude PyDict PyStr PyFloat NumPy Units.
From S2P Require Trace.

(** A cell: an integer, a float (a missing cell is a NaN) or a text *)
Inductive cell : Type := CInt (z : Z) | CFloat (x : float) | CStr (s : string).

(** A data frame: its columns, of equal lengths *)
Definition frame : Type := list (string * list cell).

Definition num_rows (df : frame) : nat :=
  match df with [] => 0 | (_, cells) :: _ => length cells end.

Definition REQUIRED_COLUMNS : list string :=
  ["time_slot_sched_ns"; "sm_count"; "time_decode_start_actual_ns"]%string.

Definition is_number_nan (x : option number) : bool :=
  match x with Some (PInt _) => false | Some (PFloat x) => is_nan x | None => true end.

(** A column of numbers as [int64]: all integers, or all converted from floats *)
Definition all_ints (l : list number) : option (list Z) :=
  mapM (fun x => match x with PInt z => Some z | PFloat _ => None end) l.

Definition float_to_int64 (x : number) : outcome Z :=
  let f := match x with PInt z => f_of_Z z | PFloat f => f end in
  if is_finite f then Ret (as_int64 f)
  else Raise (ValueError "Cannot convert non-finite values (NA or inf) to integer").

Definition astype_int (l : list number) : outcome (list Z) :=
  match all_ints l with Some l => Ret l | None => mapO float_to_int64 l end.

(** [str] of a list of integers *)
Definition str_ints (l : list Z) : string := "[" +:+ join ", " (map str_of_Z l) +:+ "]".

(** Addition and subtraction of [int64] arrays wrap around. *)
Definition wrap64 (z : Z) : Z := (z + 2 ^ 63) mod 2 ^ 64 - 2 ^ 63.

(** The columns the adapter keeps *)
Record adapter : Type := mk_adapter {
  total_sms : Z;
  time_slot_sched_ns : list Z;
  sm_count : list Z;
  time_decode_start_actual_ns : list Z;
  profile_idx : list Z;
  effective_sm_count : list Z;
  warned : bool;
}.

(** [clip(lower=0, upper=total)] *)
Definition clamp (total sm : Z) : Z := Z.min (Z.max sm 0) total.

Section adapter.
(** How pandas reads a number *)
Context (parse_number : string -> option number).

(** [pd.to_numeric(..., errors="coerce")] of one cell; [None] is a NaN *)
Definition to_numeric (c : cell) : option number :=
  match c with CInt z => Some (PInt z) | CFloat x => Some (PFloat x) | CStr s => parse_number s end.

Definition nan_rows (l : list (option number)) : list Z :=
  omap (fun p => if is_number_nan p.2 then Some (Z.of_nat p.1) else None)
    (imap (fun i x => (i, x)) l).

Definition to_int_series (series : list cell) (col_name : string) : outcome (list Z) :=
  let numeric := map to_numeric series in
  match nan_rows numeric with
  | [] => astype_int (omap (fun x => x) numeric)
  | bad_idx =>
      Raise (ValueError ("Column '" +:+ col_name +:+ "' contains non-numeric values at " +:+
                         "rows: " +:+ str_ints (take 10 bad_idx)))
  end.

(** [to_numeric(...).fillna(0).astype(int)]: a NaN turns the column into floats. *)
Definition profile_series (series : list cell) : outcome (list Z) :=
  let numeric := map to_numeric series in
  if existsb is_number_nan numeric then
    astype_int (map (fun x => if is_number_nan x then PFloat fzero
                              else default (PInt 0) x) numeric)
  else astype_int (omap (fun x => x) numeric).

Definition column (name : string) (df : frame) : outcome (list cell) :=
  of_option (KeyError name) (dict_get name df).

(** [LdpcTraceAdapter.__init__], from the columns of the file *)
Definition init (csv_path : string) (total : Z) (read_csv : outcome frame) : outcome adapter :=
  if total <=? 0 then Raise (ValueError "total_sms must be > 0")
  else
    df ← read_csv;
    if (num_rows df =? 0)%nat then
      Raise (ValueError ("LDPC CSV '" +:+ csv_path +:+ "' is empty; expected at least one row"))
    else
      match sort_by String.leb (filter (fun c => c ∉ dict_keys df) REQUIRED_COLUMNS) with
      | [] =>
          sched ← column "time_slot_sched_ns" df;
          sched ← to_int_series sched "time_slot_sched_ns";
          sm ← column "sm_count" df;
          sm ← to_int_series sm "sm_count";
          actual ← column "time_decode_start_actual_ns" df;
          actual ← to_int_series actual "time_decode_start_actual_ns";
          profile ← match dict_get "profile_idx" df with
                    | Some c => profile_series c
                    | None => Ret (replicate (num_rows df) 0)
                    end;
          Ret (mk_adapter total sched sm actual profile (map (clamp total) sm)
                 (existsb (fun x => total <? x) sm))
      | missing =>
          Raise (ValueError ("LDPC CSV is missing required columns: " +:+
            join ", " missing +:+ ". Available columns: " +:+ join ", " (dict_keys df)))
      end.
End adapter.

(** [to_v2_dataframe] and [__iter__]: the rows [(timestamp_ns, num_sms, tag)] *)
Definition v2_rows (a : adapter) : list (Z * Z * Z) :=
  zip (zip (time_slot_sched_ns a) (map (fun e => total_sms a - e) (effective_sm_count a)))
    (profile_idx a).

(** [to_v2_file]: the text [to_csv(index=False)] writes *)
Definition v2_header : string := "timestamp_ns,num_sms,tag".
Definition v2_row_text (r : Z * Z * Z) : string :=
  join "," [str_of_Z r.1.1; str_of_Z r.1.2; str_of_Z r.2].
Definition to_v2_file (a : adapter) : string :=
  terminated (v2_header :: map v2_row_text (v2_rows a)).

(** A row of the tables of deltas *)
Record delta : Type := mk_delta {
  row_idx : Z; prev_sm : Z; curr_sm : Z; switch_gap_ns : Z;
}.

(** Row [i] compared with the one before: [shift] makes the previous counts floats. *)
Definition delta_at (increase : bool) (i prev curr sched actual : Z) : option delta :=
  if (if increase then flt (f_of_Z prev) (f_of_Z curr) else flt (f_of_Z curr) (f_of_Z prev))
  then Some (mk_delta i (as_int64 (f_of_Z prev)) curr (wrap64 (actual - sched)))
  else None.

Fixpoint deltas_from (increase : bool) (i prev : Z) (rows : list (Z * Z * Z)) : list delta :=
  match rows with
  | [] => []
  | (curr, sched, actual) :: rows =>
      option_list (delta_at increase i prev curr sched actual)
      ++ deltas_from increase (i + 1) curr rows
  end.

Definition detect_deltas (a : adapter) (increase : bool) : list delta :=
  match zip (zip (sm_count a) (time_slot_sched_ns a)) (time_decode_start_actual_ns a) with
  | [] => []
  | (first, _, _) :: rows => deltas_from increase 1 first rows
  end.

Definition detect_violations (a : adapter) : list delta := detect_deltas a true.
Definition detect_inefficiencies (a : adapter) : list delta := detect_deltas a false.

(** ** The validator *)

Definition VALID_SM_COUNTS : list Z := [8; 16; 24].

(** The kinds of error [validate_trace] reports *)
Inductive trace_error : Type :=
  | MissingColumn (col : string)
  | InvalidCounts (values : list cell)
  | NanValues (count : Z)
  | NotMonotonic.

Definition valid_count (c : cell) : bool :=
  match c with
  | CInt z => bool_decide (z ∈ VALID_SM_COUNTS)
  | CFloat x => existsb (fun z => feqb x (f_of_Z z)) VALID_SM_COUNTS
  | CStr _ => false
  end.

Definition is_na (c : cell) : bool := match c with CFloat x => is_nan x | _ => false end.

(** [to_numpy(dtype=np.int64)] *)
Definition cell_int64 (c : cell) : outcome Z :=
  match c with
  | CInt z => Ret z
  | CFloat x => Ret (as_int64 x)
  | CStr s => of_option (ValueError "invalid literal for int()") (int_of_str s)
  end.

(** [np.all(ts[1:] >= ts[:-1])] *)
Fixpoint not_decreasing (l : list Z) : bool :=
  match l with
  | x :: (y :: _) as l' => (x <=? y) && not_decreasing l'
  | _ => true
  end.

Definition validate_trace (df : frame) : outcome (list trace_error) :=
  match filter (fun c => c ∉ dict_keys df) REQUIRED_COLUMNS with
  | [] =>
      sm ← column "sm_count" df;
      let invalid := List.filter (fun c => negb (valid_count c)) sm in
      let nan_count := length (List.filter is_na (concat df.*2)) in
      ts ← column "time_slot_sched_ns" df;
      ts ← mapO cell_int64 ts;
      Ret ((match invalid with [] => [] | _ => [InvalidCounts invalid] end)
           ++ (if (0 <? nan_count)%nat then [NanValues (Z.of_nat nan_count)] else [])
           ++ (if not_decreasing ts then [] else [NotMonotonic]))
  | missing => Ret (map MissingColumn missing)
  end.

(** ** Reading a converted trace back *)

(** All columns have one length. *)
Definition frame_wf (df : frame) : Prop :=
  Forall (fun c => length c.2 = num_rows df) df.

Lemma dict_get_length df name cells :
  frame_wf df -> dict_get name df = Some cells -> length cells = num_rows df.
Proof.
  intros Hwf Hget%dict_get_Some_elem. unfold frame_wf in Hwf. rewrite Forall_forall in Hwf.
  exact (Hwf _ Hget).
Qed.

Lemma all_ints_length l l' : all_ints l = Some l' -> length l' = length l.
Proof. intros H%mapM_Some. symmetry. by eapply Forall2_length. Qed.

Lemma astype_int_length l l' : astype_int l = Ret l' -> length l' = length l.
Proof.
  unfold astype_int. destruct (all_ints l) eqn:Ha; [|apply mapO_length].
  intros [= <-]. by apply all_ints_length.
Qed.

Section adapter_lemmas.
Context (parse_number : string -> option number).

Lemma nan_rows_from l k :
  omap (fun p : nat * option number => if is_number_nan p.2 then Some (Z.of_nat p.1) else None)
    (imap (fun i x => ((k + i)%nat, x)) l) = [] -> Forall (fun x => is_number_nan x = false) l.
Proof.
  revert k. induction l as [|x l IH]; intros k; [constructor|]. cbn.
  destruct (is_number_nan x) eqn:Hx; [done|]. intros H. constructor; [done|].
  apply (IH (S k)). rewrite <- H. f_equal. apply imap_ext. intros i y _. cbn. f_equal. lia.
Qed.

Lemma nan_rows_nil l : nan_rows l = [] -> Forall (fun x => is_number_nan x = false) l.
Proof. apply (nan_rows_from l 0). Qed.

Lemma omap_numbers_length (l : list (option number)) :
  Forall (fun x => is_number_nan x = false) l -> length (omap (fun x => x) l) = length l.
Proof. induction 1 as [|[x|] l Hx Hl IH]; cbn; [done|by f_equal|done]. Qed.

Lemma to_int_series_length series name l :
  to_int_series parse_number series name = Ret l -> length l = length series.
Proof.
  unfold to_int_series. destruct (nan_rows _) eqn:Hn; [|done]. apply nan_rows_nil in Hn.
  intros ->%astype_int_length. by rewrite omap_numbers_length, length_map.
Qed.

Lemma existsb_numbers (l : list (option number)) :
  existsb is_number_nan l = false -> Forall (fun x => is_number_nan x = false) l.
Proof.
  induction l as [|x l IH]; [constructor|]. cbn. rewrite orb_false_iff. intros [Hx Hl].
  constructor; [done|by apply IH].
Qed.

Lemma profile_series_length series l :
  profile_series parse_number series = Ret l -> length l = length series.
Proof.
  unfold profile_series. destruct (existsb _ _) eqn:He.
  - intros ->%astype_int_length. by rewrite !length_map.
  - apply existsb_numbers in He. intros ->%astype_int_length.
    by rewrite omap_numbers_length, length_map.
Qed.

(** What the constructor establishes *)
Definition adapter_ok (n : nat) (a : adapter) : Prop :=
  0 < total_sms a /\ length (time_slot_sched_ns a) = n /\ length (sm_count a) = n /\
  length (time_decode_start_actual_ns a) = n /\ length (profile_idx a) = n /\
  effective_sm_count a = map (clamp (total_sms a)) (sm_count a).

Lemma adapter_init_ok path total df a :
  frame_wf df -> init parse_number path total (Ret df) = Ret a ->
  (0 < num_rows df)%nat /\ adapter_ok (num_rows df) a.
Proof.
  intros Hwf. unfold init. destruct (Z.leb_spec total 0) as [|Ht]; [done|].
  cbn [mbind outcome_bind]. destruct (Nat.eqb_spec (num_rows df) 0) as [|Hn]; [done|].
  destruct (sort_by _ _); [|done]. unfold column.
  assert (Hcol : forall name s l,
    (of_option (KeyError name) (dict_get name df) ≫= fun c => to_int_series parse_number c s) = Ret l ->
    length l = num_rows df).
  { intros name s l. destruct (dict_get name df) as [c|] eqn:Hc; [|done]. cbn.
    intros ->%to_int_series_length. by eapply dict_get_length. }
  pose proof (Hcol "time_slot_sched_ns" "time_slot_sched_ns")%string as H1.
  pose proof (Hcol "sm_count" "sm_count")%string as H2.
  pose proof (Hcol "time_decode_start_actual_ns" "time_decode_start_actual_ns")%string as H3.
  clear Hcol.
  destruct (dict_get "time_slot_sched_ns" df) as [c1|]; [|done]. cbn [of_option mbind outcome_bind] in *.
  destruct (to_int_series _ c1 _) as [sched|]; [|done]. cbn [mbind outcome_bind].
  destruct (dict_get "sm_count" df) as [c2|]; [|done]. cbn [of_option mbind outcome_bind] in *.
  destruct (to_int_series _ c2 _) as [sm|]; [|done]. cbn [mbind outcome_bind].
  destruct (dict_get "time_decode_start_actual_ns" df) as [c3|]; [|done].
  cbn [of_option mbind outcome_bind] in *.
  destruct (to_int_series _ c3 _) as [actual|]; [|done]. cbn [mbind outcome_bind].
  assert (Hp : forall p, match dict_get "profile_idx" df with
                         | Some c => profile_series parse_number c
                         | None => Ret (replicate (num_rows df) 0)
                         end = Ret p -> length p = num_rows df).
  { intros p. destruct (dict_get "profile_idx" df) as [c|] eqn:Hc.
    - intros ->%profile_series_length. by eapply dict_get_length.
    - intros [= <-]. apply length_replicate. }
  destruct (match dict_get _ df with Some _ => _ | None => _ end) as [p|]; [|done].
  intros [= <-]. split; [lia|]. unfold adapter_ok. cbn. split_and!; auto.
Qed.

(** The SM counts of the converted trace *)
Definition v2_counts (a : adapter) : list Z :=
  map (fun sm => total_sms a - clamp (total_sms a) sm) (sm_count a).

Lemma v2_rows_counts n a :
  adapter_ok n a -> (v2_rows a).*1 = zip (time_slot_sched_ns a) (v2_counts a).
Proof.
  intros (_ & H1 & H2 & _ & H4 & He). unfold v2_rows, v2_counts. rewrite He, map_map.
  apply fst_zip. rewrite length_zip_with, length_map. lia.
Qed.

Lemma v2_text_lines a :
  file_lines (to_v2_file a) = v2_header :: map v2_row_text (v2_rows a).
Proof.
  apply file_lines_terminated. cbn [forallb]. apply andb_true_intro. split; [done|].
  apply forallb_forall. intros s Hs. apply in_map_iff in Hs as (r & <- & _).
  unfold v2_row_text. cbn [join]. unfold no_char.
  rewrite !all_chars_app, !andb_true_iff. repeat split; try done; by apply str_of_Z_no_char.
Qed.

Lemma parse_v2_rows st rows :
  Trace.header_skipped st = true ->
  foldl Trace.parse_line st (map v2_row_text rows) =
  Trace.mk_parse_state (Trace.entries st ++ rows.*1) (Trace.time_unit st) (Trace.clock_mode st) true.
Proof.
  revert st. induction rows as [|r rows IH]; intros st Hst; cbn [map foldl].
  { rewrite app_nil_r. destruct st. cbn in *. by subst. }
  assert (Htag : Trace.plain_field (str_of_Z r.2) = true).
  { unfold Trace.plain_field. rewrite all_chars_and, str_of_Z_no_space.
    by apply (str_of_Z_no_char ","). }
  change (v2_row_text r) with (Trace.render_entry r.1 (str_of_Z r.2)).
  rewrite Trace.parse_entry_line, IH by done. cbn. by rewrite <- app_assoc, <- surjective_pairing.
Qed.

(** C16: a converted LDPC trace, read by the trace reader.  The file the adapter writes
    is read back as exactly one entry per row, in order: the row's scheduling time and
    the SMs the LDPC load leaves free, a number between zero and the total.  But the
    file names no time unit, so times in nanoseconds are looked up as microseconds. *)
Theorem ldpc_trace_read_back path total df a :
  frame_wf df -> init parse_number path total (Ret df) = Ret a ->
  let entries := zip (time_slot_sched_ns a) (v2_counts a) in
  Trace.parse_trace_text (to_v2_file a) = (entries, "us", "step")%string /\
  length entries = num_rows df /\
  Forall (fun e => 0 <= e.2 <= total_sms a) entries /\
  forall t dflt, Trace.sm_count_at_time entries t "us" dflt = Trace.sm_count_at_step entries t dflt.
Proof.
  intros Hwf Hinit. cbn zeta. destruct (adapter_init_ok path total df a Hwf Hinit) as [_ Hok].
  pose proof (v2_rows_counts _ _ Hok) as Hrows. destruct Hok as (Ht & H1 & H2 & _).
  split_and!.
  - unfold Trace.parse_trace_text. rewrite v2_text_lines. cbn [foldl].
    change (Trace.parse_line Trace.parse_init v2_header) with (Trace.skip_header Trace.parse_init).
    by rewrite parse_v2_rows, Hrows.
  - rewrite length_zip_with. unfold v2_counts. rewrite length_map. lia.
  - apply Forall_forall. intros [ts sms] Hin%elem_of_zip_r. unfold v2_counts in Hin.
    apply list_elem_of_fmap in Hin as (sm & -> & _). cbn. unfold clamp. lia.
  - intros t dflt. unfold Trace.sm_count_at_time.
    rewrite Trace.at_time_loop_step by done. by rewrite Z.div_1_r.
Qed.
End adapter_lemmas.

(** ** The deltas *)

Definition small_count (z : Z) : Prop := 0 <= z < 2 ^ 53.

Lemma flt_small a b : small_count a -> small_count b -> flt (f_of_Z a) (f_of_Z b) = (a <? b).
Proof.
  intros Ha Hb. destruct (FloatOrder.f_of_Z_fval a Ha) as [Hpa Hva].
  destruct (FloatOrder.f_of_Z_fval b Hb) as [Hpb Hvb].
  pose proof (FloatOrder.flt_fval _ _ (proj1 Hpa) (proj1 Hpb)) as H.
  rewrite Hva, Hvb in H. pose proof FloatOrder.one_pos.
  destruct (Z.ltb_spec a b).
  - apply H. nia.
  - apply not_true_is_false. rewrite H. nia.
Qed.

(** The change a kind of delta looks for *)
Definition changed (increase : bool) (prev curr : Z) : Prop :=
  if increase then prev < curr else curr < prev.

Lemma delta_at_spec inc i p c s t d :
  small_count p -> small_count c ->
  delta_at inc i p c s t = Some d <-> changed inc p c /\ d = mk_delta i p c (wrap64 (t - s)).
Proof.
  intros Hp Hc. unfold delta_at, changed. rewrite as_int64_small by done.
  destruct inc; rewrite flt_small by done; destruct (Z.ltb_spec c p), (Z.ltb_spec p c);
    split; try (intros [= <-]); try (intros [? ->]); try lia; try done; split; done || lia.
Qed.

Lemma option_list_elem {A} (x : A) o : x ∈ option_list o <-> o = Some x.
Proof. destruct o; cbn; set_solver. Qed.

Lemma deltas_from_spec inc i p rows d :
  small_count p -> Forall small_count (rows.*1).*1 ->
  d ∈ deltas_from inc i p rows <->
  exists k c s t q, rows !! k = Some (c, s, t) /\ (p :: (rows.*1).*1) !! k = Some q /\
    changed inc q c /\ d = mk_delta (i + Z.of_nat k) q c (wrap64 (t - s)).
Proof.
  intros Hp. revert i p Hp. induction rows as [|[[c s] t] rows IH]; intros i p Hp Hall.
  { cbn. split; [by intros ?%not_elem_of_nil|]. intros (k & ? & ? & ? & ? & H & _).
    by rewrite lookup_nil in H. }
  cbn [fmap list_fmap fst] in Hall. apply Forall_cons in Hall as [Hc Hall].
  cbn [deltas_from]. rewrite elem_of_app, option_list_elem, delta_at_spec, IH by done. split.
  - intros [[Hch ->]|(k & c' & s' & t' & q & Hk & Hq & Hch & ->)].
    + exists 0%nat, c, s, t, p. rewrite Z.add_0_r. done.
    + exists (S k), c', s', t', q. split_and!; [done|done|done|]. f_equal. lia.
  - intros (k & c' & s' & t' & q & Hk & Hq & Hch & ->). destruct k as [|k].
    + left. cbn in Hk, Hq. simplify_eq. by rewrite Z.add_0_r.
    + right. exists k, c', s', t', q. split_and!; [done|done|done|]. f_equal. lia.
Qed.

Lemma deltas_from_sorted inc i p rows :
  StronglySorted Z.lt (map row_idx (deltas_from inc i p rows)) /\
  Forall (fun d => i <= row_idx d) (deltas_from inc i p rows).
Proof.
  revert i p. induction rows as [|[[c s] t] rows IH]; intros i p; [by repeat constructor|].
  cbn [deltas_from]. destruct (IH (i + 1) c) as [Hs Hf].
  assert (Hf' : Forall (fun d => i <= row_idx d) (deltas_from inc (i + 1) c rows)).
  { eapply Forall_impl; [exact Hf|]. cbn. lia. }
  destruct (delta_at inc i p c s t) as [d|] eqn:Hd; cbn; [|done].
  assert (Hi : row_idx d = i) by (unfold delta_at in Hd; case_match; by simplify_eq).
  split; constructor; [done| |lia|done]. apply Forall_fmap. eapply Forall_impl; [exact Hf|].
  cbn. lia.
Qed.

(** The rows [(sm_count, sched, actual)] of the adapter *)
Definition count_rows (a : adapter) : list (Z * Z * Z) :=
  zip (zip (sm_count a) (time_slot_sched_ns a)) (time_decode_start_actual_ns a).

(** Row [i + 1] of the trace changes the count of row [i]. *)
Definition changes_row (a : adapter) (increase : bool) (d : delta) : Prop :=
  exists i p c s t, sm_count a !! i = Some p /\ count_rows a !! S i = Some (c, s, t) /\
    changed increase p c /\ d = mk_delta (Z.of_nat (S i)) p c (wrap64 (t - s)).

Lemma count_rows_counts n a : adapter_ok n a -> ((count_rows a).*1).*1 = sm_count a.
Proof.
  intros (_ & H1 & H2 & H3 & _). unfold count_rows.
  rewrite (fst_zip (zip _ _)) by (rewrite length_zip_with; lia). apply fst_zip. lia.
Qed.

Lemma detect_deltas_spec n a inc d :
  adapter_ok n a -> Forall small_count (sm_count a) ->
  d ∈ detect_deltas a inc <-> changes_row a inc d.
Proof.
  intros Hok Hsmall. pose proof (count_rows_counts n a Hok) as Hc.
  unfold detect_deltas, changes_row. fold (count_rows a). rewrite <- Hc in *.
  destruct (count_rows a) as [|[[p0 s0] t0] rows].
  { split; [by intros ?%not_elem_of_nil|]. intros (i & ? & ? & ? & ? & H & _). done. }
  cbn [fmap list_fmap fst] in *. apply Forall_cons in Hsmall as [Hp Hall].
  rewrite deltas_from_spec by done. split.
  - intros (k & c & s & t & q & Hk & Hq & Hch & ->). exists k, q, c, s, t.
    split_and!; [done|done|done|]. f_equal. lia.
  - intros (k & q & c & s & t & Hq & Hk & Hch & ->). exists k, c, s, t, q.
    split_and!; [done|done|done|]. f_equal. lia.
Qed.

Lemma detect_deltas_sorted a inc : StronglySorted Z.lt (map row_idx (detect_deltas a inc)).
Proof.
  unfold detect_deltas. destruct (zip _ _) as [|[[p s] t] rows]; [constructor|].
  apply deltas_from_sorted.
Qed.

(** Violations and inefficiencies.  A delta is reported as a violation exactly for
    the rows whose SM count is larger than the row before, and as an inefficiency
    exactly for those where it is smaller, with both counts and the delay of the
    decoding; each row is reported at most once and the rows come in order. *)
Theorem deltas_classify_changes parse_number path total df a :
  frame_wf df -> init parse_number path total (Ret df) = Ret a ->
  Forall small_count (sm_count a) ->
  (forall d, d ∈ detect_violations a <-> changes_row a true d) /\
  (forall d, d ∈ detect_inefficiencies a <-> changes_row a false d) /\
  StronglySorted Z.lt (map row_idx (detect_violations a)) /\
  StronglySorted Z.lt (map row_idx (detect_inefficiencies a)).
Proof.
  intros Hwf Hinit Hsmall. destruct (adapter_init_ok _ _ _ _ _ Hwf Hinit) as [_ Hok].
  split_and!; [| |apply detect_deltas_sorted..]; intros d; by eapply detect_deltas_spec.
Qed.

(** ** A validated trace converts *)

Section validated.
Context (parse_number : string -> option number).

Lemma int_numbers l : all_ints (omap (fun x => x) (map (to_numeric parse_number) (map CInt l))) = Some l.
Proof. induction l as [|z l IH]; [done|]. cbn. unfold all_ints in IH. by rewrite IH. Qed.

Lemma nan_rows_ints l k :
  omap (fun p : nat * option number => if is_number_nan p.2 then Some (Z.of_nat p.1) else None)
    (imap (fun i x => ((k + i)%nat, x)) (map (to_numeric parse_number) (map CInt l))) = [].
Proof.
  revert k. induction l as [|z l IH]; intros k; [done|]. cbn. rewrite <- (IH (S k)). f_equal.
  apply imap_ext. intros i x _. cbn. f_equal. lia.
Qed.

Lemma to_int_series_ints l name : to_int_series parse_number (map CInt l) name = Ret l.
Proof.
  unfold to_int_series.
  assert (nan_rows (map (to_numeric parse_number) (map CInt l)) = []) as -> by exact (nan_rows_ints l 0).
  unfold astype_int.
  by rewrite int_numbers.
Qed.

Lemma profile_series_ints l : profile_series parse_number (map CInt l) = Ret l.
Proof.
  unfold profile_series.
  assert (existsb is_number_nan (map (to_numeric parse_number) (map CInt l)) = false) as ->.
  { induction l as [|z l IH]; [done|]. cbn. exact IH. }
  unfold astype_int. by rewrite int_numbers.
Qed.

Lemma cell_int64_ints l : mapO cell_int64 (map CInt l) = Ret l.
Proof. induction l as [|z l IH]; [done|]. cbn. by rewrite IH. Qed.

Lemma invalid_none l :
  List.filter (fun c => negb (valid_count c)) (map CInt l) = [] ->
  Forall (fun z => z ∈ VALID_SM_COUNTS) l.
Proof.
  induction l as [|z l IH]; [constructor|]. cbn [map List.filter valid_count].
  destruct (decide (z ∈ VALID_SM_COUNTS)) as [Hz|Hz].
  - rewrite bool_decide_eq_true_2 by done. cbn [negb]. intros H. constructor; auto.
  - by rewrite bool_decide_eq_false_2 by done.
Qed.

Lemma not_decreasing_ordered l vals :
  not_decreasing l = true -> Trace.ordered (zip l vals).
Proof.
  revert vals. induction l as [|x l IH]; intros vals Hl; [done|].
  destruct vals as [|v vals]; [done|]. cbn [zip_with Trace.ordered].
  assert (Hx : not_decreasing l = true /\ forall y, y ∈ l -> x <= y).
  { clear IH. revert x Hl. induction l as [|y l IH]; intros x Hl.
    - split; [done|]. by intros y ?%not_elem_of_nil.
    - cbn [not_decreasing] in Hl. apply andb_prop in Hl as [Hxy%Z.leb_le Hl].
      split; [done|]. destruct (IH y Hl) as [_ Hall].
      intros w [->|Hw]%elem_of_cons; [done|]. specialize (Hall w Hw). lia. }
  destruct Hx as [Hl' Hall]. split; [|by apply IH].
  intros [w u] Hin. cbn. apply Hall. by apply elem_of_zip_l in Hin.
Qed.

(** A trace that passes the validator converts.  When its columns hold integers, it
    has a row and the GPU has at least 24 SMs, the adapter is built without an error
    and without a warning, clamps nothing, and the SM trace is in time order: every
    look-up gives the count of the last row already due. *)
Theorem validated_trace_converts path total df ts sm actual :
  frame_wf df -> (0 < num_rows df)%nat -> 24 <= total ->
  dict_get "time_slot_sched_ns" df = Some (map CInt ts) ->
  dict_get "sm_count" df = Some (map CInt sm) ->
  dict_get "time_decode_start_actual_ns" df = Some (map CInt actual) ->
  dict_get "profile_idx" df = None ->
  validate_trace df = Ret [] ->
  exists a, init parse_number path total (Ret df) = Ret a /\
    warned a = false /\ effective_sm_count a = sm /\
    let entries := zip ts (map (fun x => total - x) sm) in
    (v2_rows a).*1 = entries /\
    forall t dflt, Trace.sm_count_at_step entries t dflt = Trace.last_at entries t dflt.
Proof.
  intros Hwf Hn Ht H1 H2 H3 Hp Hv.
  assert (Hreq : filter (fun c => c ∉ dict_keys df) REQUIRED_COLUMNS = []).
  { unfold REQUIRED_COLUMNS. rewrite !filter_cons, filter_nil.
    rewrite !decide_False; [done|..]; intros Hno; apply Hno, dict_get_is_Some; by eexists. }
  revert Hv. unfold validate_trace. rewrite Hreq. unfold column. rewrite H1, H2.
  cbn [of_option mbind outcome_bind]. rewrite cell_int64_ints. cbn [mbind outcome_bind].
  destruct (List.filter (fun c => negb (valid_count c)) (map CInt sm)) eqn:Hinv; [|by intros [=]].
  apply invalid_none in Hinv. destruct (_ <? _)%nat; [by intros [=]|].
  destruct (not_decreasing ts) eqn:Hord; [|by intros [=]]. intros _.
  assert (Hclamp : map (clamp total) sm = sm /\ existsb (fun x => total <? x) sm = false).
  { clear -Hinv Ht. induction Hinv as [|z sm Hz _ [IH1 IH2]]; [done|]. cbn.
    assert (0 <= z <= 24).
    { unfold VALID_SM_COUNTS in Hz. rewrite !elem_of_cons, elem_of_nil in Hz. lia. }
    rewrite IH1, IH2. rewrite (proj2 (Z.ltb_ge _ _)) by lia. split; [|done].
    f_equal. unfold clamp. lia. }
  destruct Hclamp as [Hclamp Hwarn].
  eexists. split.
  { unfold init. rewrite (proj2 (Z.leb_gt _ _)) by lia. cbn [mbind outcome_bind].
    rewrite (proj2 (Nat.eqb_neq _ _)) by lia. rewrite Hreq. cbn [sort_by foldr].
    unfold column. rewrite H1, H2, H3, Hp. cbn [of_option mbind outcome_bind].
    repeat (rewrite to_int_series_ints; cbn [mbind outcome_bind]).
    rewrite Hclamp, Hwarn. reflexivity. }
  split; [done|]. split; [done|]. cbn zeta. split.
  - unfold v2_rows. cbn. apply fst_zip. rewrite length_zip_with, length_replicate.
    pose proof (dict_get_length _ _ _ Hwf H1) as Hlen. rewrite length_map in Hlen. lia.
  - intros t dflt. by apply Trace.sm_count_at_step_last, not_decreasing_ordered.
Qed.
End validated.

(** ** Examples *)

Definition demo_frame : frame :=
  [("time_slot_sched_ns", map CInt [100; 200; 300; 400]);
   ("sm_count", map CInt [8; 24; 16; 16]);
   ("time_decode_start_actual_ns", map CInt [120; 235; 331; 470])]%string.

Definition no_number (s : string) : option number := None.

Definition demo_adapter : adapter :=
  mk_adapter 48 [100; 200; 300; 400] [8; 24; 16; 16] [120; 235; 331; 470] [0; 0; 0; 0]
    [8; 24; 16; 16] false.

Lemma demo_init : init no_number "t.csv" 48 (Ret demo_frame) = Ret demo_adapter.
Proof. vm_compute. reflexivity. Qed.

Lemma demo_wf : frame_wf demo_frame.
Proof. repeat constructor. Qed.

Lemma ldpc_trace_read_back_witness :
  Trace.parse_trace_text (to_v2_file demo_adapter) =
    ([(100, 40); (200, 24); (300, 32); (400, 32)], "us", "step")%string.
Proof. exact (proj1 (ldpc_trace_read_back no_number "t.csv" 48 demo_frame demo_adapter demo_wf demo_init)). Defined.

(** 200 microseconds into the run the reader is still at the row of 200 nanoseconds. *)
Example demo_lookup :
  Trace.sm_count_at_time [(100, 40); (200, 24); (300, 32)] 250 "us" 48 = 24.
Proof. reflexivity. Qed.

Example demo_violations :
  detect_violations demo_adapter = [mk_delta 1 8 24 35] /\
  detect_inefficiencies demo_adapter = [mk_delta 2 24 16 31].
Proof. by vm_compute. Qed.

Lemma deltas_classify_changes_witness :
  changes_row demo_adapter true (mk_delta 1 8 24 35) /\
  changes_row demo_adapter false (mk_delta 2 24 16 31).
Proof.
  destruct (deltas_classify_changes no_number "t.csv" 48 demo_frame demo_adapter demo_wf demo_init)
    as (Hv & Hi & _).
  { repeat constructor; vm_compute; discriminate. }
  split; [apply Hv|apply Hi]; vm_compute; left.
Defined.

Lemma validated_trace_converts_witness :
  exists a, init no_number "t.csv" 48 (Ret demo_frame) = Ret a /\ warned a = false.
Proof.
  destruct (validated_trace_converts no_number "t.csv" 48 demo_frame [100; 200; 300; 400]
              [8; 24; 16; 16] [120; 235; 331; 470]) as (a & Ha & Hw & _);
    [exact demo_wf|cbn; lia|lia|reflexivity..|vm_compute; reflexivity|].
  exists a. exact (conj Ha Hw).
Defined.

Example bad_cells :
  to_int_series no_number [CInt 1; CStr "x"; CFloat fnan] "sm_count" =
  Raise (ValueError "Column 'sm_count' contains non-numeric values at rows: [1, 2]").
Proof. by vm_compute. Qed.
