(* ===== verification/Checkpoints.v ===== *)
(** * Checkpoints ([utils/checkpoints.py], [runtime/checkpoint_loader.py],
      [entrypoint/cmdline.py], [checkpoint/save_and_load.py])

    Finding the files of a checkpoint, and moving their tensors into the tensor store
    with an index of what is where.  The file system, the file formats, the hub
    download and the compiled tensor stores are parameters. *)

From Stdlib Require Import Ascii.
From S2P Require Import Prelude PyDict PyStr PyFloat PyJson.

(** ** Paths *)

(** [os.path.join] of two parts *)
Definition path_join (a b : string) : string :=
  if startswith "/" b then b
  else if is_empty a || endswith "/" a then a +:+ b
  else a +:+ "/" +:+ b.

(** The part up to and with the last slash *)
Fixpoint upto_slash (s : string) : string :=
  match s with
  | EmptyString => EmptyString
  | String c r =>
      if contains "/" r then String c (upto_slash r)
      else if Ascii.eqb c "/" then String c EmptyString else EmptyString
  end.

(** [os.path.split(p)[0]]: trailing slashes go unless the head is nothing else. *)
Definition path_head (p : string) : string :=
  let head := upto_slash p in
  let bare := rstrip_by (fun c => Ascii.eqb c "/") head in
  if is_empty bare then head else bare.

(** ** Finding the files *)

(** What the code asks of the file system, and the two file names [accelerate] defines *)
Class Files : Type := {
  isfile : string -> bool;
  isdir : string -> bool;
  listdir : string -> list string;
  read_json : string -> outcome json;
  WEIGHTS_NAME : string;
  SAFE_WEIGHTS_NAME : string;
}.

Definition as_str (j : json) : option string := match j with JStr s => Some s | _ => None end.

(** [[os.path.join(folder, f) for f in sorted(list(set(values)))]] *)
Definition shard_paths (folder : string) (values : list json) : outcome (list string) :=
  match mapM as_str values with
  | Some names => Ret (map (path_join folder) (sort_by String.leb (remove_dups names)))
  | None => Raise (TypeError "expected str")
  end.

(** The values of [index["weight_map"]], or of the index itself *)
Definition index_values (index : json) : outcome (list json) :=
  d ← of_option (AttributeError "object has no attribute 'values'") (as_obj index);
  d ← match dict_get "weight_map" d with
      | Some j => of_option (AttributeError "object has no attribute 'values'") (as_obj j)
      | None => Ret d
      end;
  Ret (dict_values d).

Section finding.
Context `{Files}.

Definition index_paths (index_filename : string) : outcome (list string) :=
  index ← read_json index_filename;
  values ← index_values index;
  shard_paths (path_head index_filename) values.

Definition get_checkpoint_paths (checkpoint : string) : outcome (list string) :=
  if isfile checkpoint then
    if endswith ".json" checkpoint then index_paths checkpoint else Ret [checkpoint]
  else if isdir checkpoint then
    let files := listdir checkpoint in
    match filter (fun f => f = WEIGHTS_NAME) files with
    | [f] => Ret [path_join checkpoint f]
    | _ =>
        match filter (fun f => f = SAFE_WEIGHTS_NAME) files with
        | [f] => Ret [path_join checkpoint f]
        | _ =>
            match List.filter (endswith ".index.json") files with
            | [] => Raise (ValueError (checkpoint +:+
                      " is not a folder containing a `.index.json` file or a " +:+ WEIGHTS_NAME
                      +:+ " or a " +:+ SAFE_WEIGHTS_NAME +:+ " file"))
            | [f] => index_paths (path_join checkpoint f)
            | _ => Raise (ValueError (checkpoint +:+
                      " containing more than one `.index.json` file, delete the irrelevant ones."))
            end
        end
    end
  else Raise (ValueError ("`checkpoint` should be the path to a file containing a whole state dict, or the index of a sharded checkpoint, or a folder containing a sharded checkpoint or the whole state dict, but got " +:+ checkpoint +:+ ".")).

(** [discover_checkpoints]; [download] is [snapshot_download]. *)
Definition discover_checkpoints (exists_ : string -> bool)
    (download : string -> outcome (option string)) (name : string) : outcome (list string) :=
  if exists_ name then get_checkpoint_paths name
  else
    p ← download name;
    match p with
    | Some path => get_checkpoint_paths path
    | None => Raise (RuntimeError ("The `snapshot_download` function could not find the checkpoint "
                +:+ name +:+ ". Please provide a valid checkpoint."))
    end.
End finding.

(** ** The parameter map *)

(** What the code reads of a tensor *)
Record tensor_meta : Type := mk_tensor_meta {
  numel : Z; element_size : Z; shape : list Z; stride : list Z; dtype : string;
}.

(** An entry of [param_meta_map] *)
Record param_meta : Type := mk_param_meta {
  param_id : Z; param_size : Z; file_offset : Z;
  param_shape : list Z; param_stride : list Z; param_dtype : string;
}.

(** Tensors, checkpoint files and the compiled tensor handle *)
Class TensorStore (T H : Type) : Type := {
  meta : T -> tensor_meta;
  to_dtype : T -> outcome T;
  safe_load : string -> outcome (list (string * T));
  torch_load : string -> outcome (list (string * T));
  offload_tensor : T -> Z -> H -> outcome Z * H;
}.

Section offload.
Context {T H : Type} `{TensorStore T H}.

(** The state dictionary of a file, converted *)
Definition load_ckpt (ckpt : string) : outcome (list (string * T)) :=
  d ← (if contains "safetensors" ckpt then safe_load ckpt else torch_load ckpt);
  mapO (fun kv => t ← to_dtype kv.2; Ret (kv.1, t)) d.

Definition meta_of (t : T) (id offset : Z) : param_meta :=
  let m := meta t in
  mk_param_meta id (numel m * element_size m) offset (shape m) (stride m) (dtype m).

(** The map and the next identifier; a name seen before is skipped. *)
Definition offload_param (st : pydict string param_meta * Z) (name : string) (t : T) :
    M H (pydict string param_meta * Z) :=
  if dict_mem name st.1 then mret st
  else
    offset ← offload_tensor t st.2;
    mret (dict_set name (meta_of t st.2 offset) st.1, st.2 + 1).

Fixpoint offload_params (st : pydict string param_meta * Z) (d : list (string * T)) :
    M H (pydict string param_meta * Z) :=
  match d with
  | [] => mret st
  | (name, t) :: d => st ← offload_param st name t; offload_params st d
  end.

Fixpoint offload_files (st : pydict string param_meta * Z) (ckpt_files : list string) :
    M H (pydict string param_meta * Z) :=
  match ckpt_files with
  | [] => mret st
  | ckpt :: files =>
      d ← lift (load_ckpt ckpt);
      st ← offload_params st d;
      offload_files st files
  end.

Definition offload_state_dict (ckpt_files : list string) : M H (pydict string param_meta) :=
  st ← offload_files ([], 0) ckpt_files; mret st.1.

(** *** Saving a model into an empty store ([cmdline.save_model])

    The store is [param_meta_map.json], if it was written, and the handle. *)
Record store : Type := mk_store {
  saved_map : option (pydict string param_meta);
  handle : H;
}.

Context (is_tensor_index_initialized : H -> bool) (fresh_handle : H).

Definition clear_store (force : bool) (s : store) : store :=
  if force then mk_store None fresh_handle else s.

Definition save_params (ckpt_files : list string) : M store unit := fun s =>
  let '(r, h) := offload_state_dict ckpt_files (handle s) in
  match r with
  | Ret m => (Ret tt, mk_store (Some m) h)
  | Raise e => (Raise e, mk_store (saved_map s) h)
  end.

Definition save_model (checkpoint_paths : outcome (list string)) (force : bool) : M store unit :=
  paths ← lift checkpoint_paths;
  modify (clear_store force);;
  s ← get;
  if negb (is_tensor_index_initialized (handle s)) || negb (bool_decide (is_Some (saved_map s)))
  then save_params paths
  else mret tt.
End offload.

(** ** The tensor index ([save_dict] and [save_model] of [save_and_load.py]) *)

(** A parameter as the code reads it: its storage, and its meta data *)
Record stored_param : Type := mk_stored_param {
  data_ptr : Z; storage_size : Z; stored_meta : tensor_meta;
}.

(** An entry of [tensor_index.json] *)
Record index_entry : Type := mk_index_entry {
  offset : Z; size : Z; entry_shape : list Z; entry_stride : list Z; entry_dtype : string;
}.

Definition tensor_data_index (d : list (string * stored_param)) : list (string * (Z * Z)) :=
  map (fun kv => (kv.1, (data_ptr kv.2, storage_size kv.2))) d.

(** [tensor_offsets] is what [save_tensors] returns. *)
Definition tensor_entry (tensor_offsets : pydict string Z) (kv : string * stored_param) :
    outcome (string * index_entry) :=
  o ← of_option (KeyError kv.1) (dict_get kv.1 tensor_offsets);
  let m := stored_meta kv.2 in
  Ret (kv.1, mk_index_entry o (storage_size kv.2) (shape m) (stride m) (dtype m)).

Definition save_dict
    (save_tensors : list string -> list (string * (Z * Z)) -> outcome (pydict string Z))
    (d : list (string * stored_param)) : outcome (pydict string index_entry) :=
  offsets ← save_tensors d.*1 (tensor_data_index d);
  mapO (tensor_entry offsets) d.

(** ** The files of a sharded checkpoint *)

Lemma mapM_as_str names : mapM as_str (map JStr names) = Some names.
Proof. induction names as [|n names IH]; [done|]. cbn [map mapM as_str mbind option_bind]. by rewrite IH. Qed.

Lemma index_values_weight_map d m :
  dict_get "weight_map" d = Some (JObj m) -> index_values (JObj d) = Ret (dict_values m).
Proof. intros Hd. unfold index_values. cbn. by rewrite Hd. Qed.

(** The files of a sharded checkpoint.  For a folder with one index file and no
    whole-state file, the paths are the folder joined with the shard names of the
    index's weight map: every name once, in sorted order, none missing. *)
Theorem sharded_checkpoint_paths `{Files} checkpoint f d m names :
  isfile checkpoint = false -> isdir checkpoint = true ->
  WEIGHTS_NAME ∉ listdir checkpoint -> SAFE_WEIGHTS_NAME ∉ listdir checkpoint ->
  List.filter (endswith ".index.json") (listdir checkpoint) = [f] ->
  read_json (path_join checkpoint f) = Ret (JObj d) ->
  dict_get "weight_map" d = Some (JObj m) -> dict_values m = map JStr names ->
  exists shards, get_checkpoint_paths checkpoint =
      Ret (map (path_join (path_head (path_join checkpoint f))) shards) /\
    NoDup shards /\ StronglySorted (fun x y => String.leb x y = true) shards /\
    forall s, s ∈ shards <-> s ∈ names.
Proof.
  intros Hf Hd Hw Hs Hi Hr Hm Hn. unfold get_checkpoint_paths. rewrite Hf, Hd.
  assert (Hno : forall x l, x ∉ l -> filter (fun f => f = x) l = ([] : list string)).
  { intros x l Hx. induction l as [|y l IH]; [done|].
    rewrite not_elem_of_cons in Hx. rewrite filter_cons_False by naive_solver. tauto. }
  rewrite !Hno by done. rewrite Hi. unfold index_paths. rewrite Hr. cbn [mbind outcome_bind].
  rewrite (index_values_weight_map d m Hm). cbn [mbind outcome_bind]. unfold shard_paths.
  rewrite Hn, mapM_as_str. eexists. split; [done|]. split_and!.
  - rewrite sort_by_perm. apply NoDup_remove_dups.
  - apply sort_strings_sorted.
  - intros s. by rewrite elem_of_sort_by, elem_of_remove_dups.
Qed.

(** ** Every parameter once *)

(** The first occurrence of every name that is not among [seen] *)
Fixpoint first_seen {T} (seen : list string) (d : list (string * T)) : list (string * T) :=
  match d with
  | [] => []
  | (name, t) :: d =>
      if bool_decide (name ∈ seen) then first_seen seen d
      else (name, t) :: first_seen (seen ++ [name]) d
  end.

Section reference.
Context {T H : Type} `{TensorStore T H}.

(** The reference: every parameter of the list, in order, with consecutive numbers *)
Fixpoint offload_all (id : Z) (d : list (string * T)) : M H (pydict string param_meta) :=
  match d with
  | [] => mret []
  | (name, t) :: d =>
      o ← offload_tensor t id;
      rest ← offload_all (id + 1) d;
      mret ((name, meta_of t id o) :: rest)
  end.

Lemma first_seen_app {A} seen (d1 d2 : list (string * A)) :
  first_seen seen (d1 ++ d2) = first_seen seen d1 ++ first_seen (seen ++ (first_seen seen d1).*1) d2.
Proof.
  revert seen. induction d1 as [|[n t] d1 IH]; intros seen; cbn; [by rewrite app_nil_r|].
  destruct (bool_decide (n ∈ seen)); [apply IH|]. cbn. rewrite IH. cbn. by rewrite <- app_assoc.
Qed.

(** What the loop over one dictionary does, against the reference *)
Lemma offload_params_reference m id d h :
  offload_params (m, id) d h =
  match offload_all id (first_seen (dict_keys m) d) h with
  | (Ret l, h') => (Ret (m ++ l, id + Z.of_nat (length l)), h')
  | (Raise e, h') => (Raise e, h')
  end.
Proof.
  revert m id h. induction d as [|[name t] d IH]; intros m id h; cbn [offload_params first_seen].
  { cbn. by rewrite app_nil_r, Z.add_0_r. }
  unfold mbind at 1, M_bind at 1, offload_param. cbn [fst snd].
  assert (Hmem : dict_mem name m = bool_decide (name ∈ dict_keys m)).
  { unfold dict_mem. destruct (dict_get name m) eqn:Hg.
    - symmetry. apply bool_decide_eq_true_2, dict_get_is_Some. by eexists.
    - symmetry. by apply bool_decide_eq_false_2, dict_get_None. }
  rewrite Hmem. destruct (bool_decide (name ∈ dict_keys m)) eqn:Hin; [apply IH|].
  apply bool_decide_eq_false in Hin. unfold mbind, M_bind, mret, M_ret. cbn [offload_all].
  unfold mbind, M_bind, mret, M_ret.
  destruct (offload_tensor t id h) as [[o|e] h1]; [|done].
  rewrite dict_set_fresh, IH by done.
  assert (dict_keys (m ++ [(name, meta_of t id o)]) = dict_keys m ++ [name]) as ->
    by (unfold dict_keys; by rewrite fmap_app).
  destruct (offload_all (id + 1) _ h1) as [[l|e] h2]; [|done].
  rewrite <- app_assoc. cbn. do 3 f_equal. lia.
Qed.
Lemma offload_all_app id d1 d2 h :
  offload_all id (d1 ++ d2) h =
  match offload_all id d1 h with
  | (Ret l1, h') => match offload_all (id + Z.of_nat (length d1)) d2 h' with
                    | (Ret l2, h'') => (Ret (l1 ++ l2), h'')
                    | (Raise e, h'') => (Raise e, h'')
                    end
  | (Raise e, h') => (Raise e, h')
  end.
Proof.
  revert id h. induction d1 as [|[n t] d1 IH]; intros id h; cbn [app offload_all].
  { cbn. rewrite Z.add_0_r. by destruct (offload_all id d2 h) as [[]]. }
  unfold mbind, M_bind, mret, M_ret. destruct (offload_tensor t id h) as [[o|e] h1]; [|done].
  rewrite IH. replace (id + Z.of_nat (length ((n, t) :: d1))) with (id + 1 + Z.of_nat (length d1))
    by (cbn; lia).
  destruct (offload_all (id + 1) d1 h1) as [[l1|e] h2]; [|done].
  by destruct (offload_all _ d2 h2) as [[l2|e] h3].
Qed.

(** The result has one entry per parameter, numbered in order. *)
Lemma offload_all_spec id d h l h' :
  offload_all id d h = (Ret l, h') ->
  dict_keys l = d.*1 /\ map param_id (dict_values l) = seqZ id (Z.of_nat (length d)).
Proof.
  revert id h l. induction d as [|[n t] d IH]; intros id h l; cbn [offload_all].
  { by intros [= <- _]. }
  unfold mbind, M_bind, mret, M_ret. destruct (offload_tensor t id h) as [[o|e] h1]; [|done].
  destruct (offload_all (id + 1) d h1) as [[rest|e] h2] eqn:Hr; [|done].
  intros [= <- <-]. destruct (IH _ _ _ Hr) as [IH1 IH2]. unfold dict_keys, dict_values in *.
  cbn [fmap list_fmap fst snd map length]. rewrite IH1, IH2. split; [done|].
  rewrite Nat2Z.inj_succ, (seqZ_cons id), Z.pred_succ, <- Z.add_1_r by lia. done.
Qed.

Lemma offload_files_reference m id files ds h :
  mapO load_ckpt files = Ret ds ->
  (offload_files (m, id) files h).1 =
  match (offload_all id (first_seen (dict_keys m) (concat ds)) h).1 with
  | Ret l => Ret (m ++ l, id + Z.of_nat (length l))
  | Raise e => Raise e
  end /\
  (offload_files (m, id) files h).2 =
  (offload_all id (first_seen (dict_keys m) (concat ds)) h).2.
Proof.
  revert m id ds h. induction files as [|f files IH]; intros m id ds h; cbn [mapO offload_files].
  { intros [= <-]. cbn. by rewrite app_nil_r, Z.add_0_r. }
  destruct (load_ckpt f) as [d|] eqn:Hd; [|done].
  destruct (mapO load_ckpt files) as [ds'|] eqn:Hds; [|done]. intros [= <-].
  unfold mbind, M_bind, lift. cbn [concat]. rewrite first_seen_app, offload_all_app.
  rewrite offload_params_reference.
  destruct (offload_all id (first_seen (dict_keys m) d) h) as [[l|e] h1] eqn:Hl; [|done].
  destruct (offload_all_spec _ _ _ _ _ Hl) as [Hk _].
  destruct (IH (m ++ l) (id + Z.of_nat (length l)) ds' h1 eq_refl) as [IH1 IH2].
  assert (Hkeys : dict_keys (m ++ l) = dict_keys m ++ (first_seen (dict_keys m) d).*1).
  { unfold dict_keys in *. by rewrite fmap_app, Hk. }
  assert (Hlen : length l = length (first_seen (dict_keys m) d)).
  { rewrite <- (length_fmap fst l), <- (length_fmap fst (first_seen _ d)).
    unfold dict_keys in Hk. by rewrite Hk. }
  rewrite Hkeys, Hlen in IH1, IH2. rewrite Hlen.
  split; [etransitivity; [exact IH1|]|etransitivity; [exact IH2|]];
    destruct (offload_all _ (first_seen (dict_keys m ++ _) _) h1) as [[l2|e] h2]; try done.
  cbn [fst]. rewrite <- app_assoc, length_app, Hlen. f_equal. f_equal. lia.
Qed.

Lemma first_seen_NoDup {A} seen (d : list (string * A)) :
  NoDup (first_seen seen d).*1 /\ forall n, n ∈ (first_seen seen d).*1 <-> n ∈ d.*1 /\ n ∉ seen.
Proof.
  revert seen. induction d as [|[n t] d IH]; intros seen; cbn.
  { split; [constructor|]. set_solver. }
  destruct (decide (n ∈ seen)) as [Hn|Hn].
  - rewrite bool_decide_eq_true_2 by done. destruct (IH seen) as [H1 H2]. split; [done|].
    intros x. rewrite H2. set_solver.
  - rewrite bool_decide_eq_false_2 by done. destruct (IH (seen ++ [n])) as [H1 H2]. cbn.
    split; [constructor; [|done]; rewrite H2; set_solver|].
    intros x. rewrite elem_of_cons, H2. destruct (decide (x = n)) as [->|]; set_solver.
Qed.

(** C17: offloading a checkpoint.  When its files load, the loop over files and
    parameters does exactly what offloading the first occurrence of every name does, in
    order and with numbers counted up from zero: same calls on the tensor handle, same
    result, same exception.  In particular the map has one entry per parameter name of
    the checkpoint and the identifiers are consecutive. *)
Theorem offload_equals_reference files ds h :
  mapO load_ckpt files = Ret ds ->
  offload_state_dict files h = offload_all 0 (first_seen [] (concat ds)) h /\
  forall m h', offload_state_dict files h = (Ret m, h') ->
    dict_wf m /\ map param_id (dict_values m) = seqZ 0 (Z.of_nat (length m)) /\
    forall n, n ∈ dict_keys m <-> exists d, d ∈ ds /\ n ∈ d.*1.
Proof.
  intros Hds. destruct (offload_files_reference [] 0 files ds h Hds) as [H1 H2].
  change (dict_keys ([] : pydict string param_meta)) with ([] : list string) in H1, H2.
  assert (Heq : offload_state_dict files h = offload_all 0 (first_seen [] (concat ds)) h).
  { unfold offload_state_dict, mbind, M_bind, mret, M_ret. revert H1 H2.
    destruct (offload_files _ files h) as [r h1].
    destruct (offload_all _ _ h) as [[l|e] h2]; cbn [fst snd]; by intros -> ->. }
  split; [done|]. intros m h'. rewrite Heq. intros Hm.
  destruct (offload_all_spec _ _ _ _ _ Hm) as [Hk Hid].
  destruct (first_seen_NoDup [] (concat ds)) as [Hnd Hin].
  unfold dict_wf. rewrite Hk. split; [done|]. split.
  - rewrite Hid. f_equal. rewrite <- (length_fmap fst m).
    unfold dict_keys in Hk. by rewrite Hk, length_fmap.
  - intros n. rewrite Hin. split.
    + intros [Hn _]. apply list_elem_of_fmap in Hn as (kv & -> & Hkv).
      apply list_elem_of_In, in_concat in Hkv as (d & Hd & Hkv).
      exists d. split; [by apply list_elem_of_In|]. apply list_elem_of_fmap.
      exists kv. split; [done|]. by apply list_elem_of_In.
    + intros (d & Hd & Hn). split; [|apply not_elem_of_nil].
      apply list_elem_of_fmap in Hn as (kv & -> & Hkv). apply list_elem_of_fmap.
      exists kv. split; [done|]. apply list_elem_of_In, in_concat. exists d.
      split; by apply list_elem_of_In.
Qed.
End reference.

(** ** Saving twice *)

(** Once a model is saved into a store whose handle has its index, saving again without
    [force] reads the checkpoint paths and changes nothing. *)
Lemma saved_model_kept {T H : Type} `{TensorStore T H} (ini : H -> bool) (fresh : H) paths s force s' :
  save_model ini fresh (Ret paths) force s = (Ret tt, s') ->
  ini (handle s') = true -> is_Some (saved_map s') ->
  save_model ini fresh (Ret paths) false s' = (Ret tt, s').
Proof.
  intros _ Hini Hs. unfold save_model, mbind, M_bind, lift, modify, get, clear_store.
  rewrite Hini, bool_decide_eq_true_2 by done. done.
Qed.

(** Every successful save leaves a map in the store. *)
Lemma save_model_saves {T H : Type} `{TensorStore T H} (ini : H -> bool) (fresh : H) paths s force s' :
  save_model ini fresh (Ret paths) force s = (Ret tt, s') -> is_Some (saved_map s').
Proof.
  unfold save_model, mbind, M_bind, lift, modify, get.
  destruct (negb _ || _) eqn:Hb.
  - unfold save_params. destruct (offload_state_dict paths _) as [[m|e] h]; [|done].
    intros [= <-]. by eexists.
  - intros [= <-]. apply orb_false_iff in Hb as [_ Hb]. apply negb_false_iff in Hb.
    by apply bool_decide_eq_true in Hb.
Qed.

(** ** The tensor index *)

(** The index of a saved dictionary has an entry per parameter, in order: the offset the
    store gave it and the size of its storage. *)
Lemma save_dict_entries save_tensors d idx i name e :
  save_dict save_tensors d = Ret idx -> idx !! i = Some (name, e) ->
  exists p offsets, d !! i = Some (name, p) /\
    save_tensors d.*1 (tensor_data_index d) = Ret offsets /\
    dict_get name offsets = Some (offset e) /\ size e = storage_size p /\
    entry_shape e = shape (stored_meta p).
Proof.
  unfold save_dict. destruct (save_tensors _ _) as [offsets|] eqn:Ho; [|done].
  cbn [mbind outcome_bind]. intros Hidx Hi.
  destruct (mapO_lookup _ _ _ _ _ Hidx Hi) as ([n p] & Hp & He). unfold tensor_entry in He.
  cbn [fst snd] in He. destruct (dict_get n offsets) as [o|] eqn:Hn; [|done].
  injection He as <- <-. by exists p, offsets.
Qed.

(** ** Examples *)

Definition demo_files : Files := {|
  isfile p := false;
  isdir p := true;
  listdir p := ["config.json"; "model.index.json"; "b.safetensors"; "a.safetensors"]%string;
  read_json p :=
    Ret (JObj [("metadata", JObj []);
               ("weight_map", JObj [("w1", JStr "b.safetensors"); ("w2", JStr "a.safetensors");
                                    ("w3", JStr "b.safetensors")])])%string;
  WEIGHTS_NAME := "pytorch_model.bin";
  SAFE_WEIGHTS_NAME := "model.safetensors";
|}.

#[local] Existing Instance demo_files.

Example demo_paths :
  get_checkpoint_paths "ckpt/" = Ret ["ckpt/a.safetensors"; "ckpt/b.safetensors"]%string.
Proof. by vm_compute. Qed.

Example path_ex :
  path_join "a" "b" = "a/b"%string /\ path_join "a/" "b" = "a/b"%string /\
  path_join "a" "/b" = "/b"%string /\ path_head "x/y/z.json" = "x/y"%string /\
  path_head "z.json" = ""%string /\ path_head "/z" = "/"%string.
Proof. by vm_compute. Qed.

Lemma sharded_checkpoint_paths_witness :
  exists shards, get_checkpoint_paths "ckpt" = Ret (map (path_join "ckpt") shards) /\ NoDup shards.
Proof.
  destruct (sharded_checkpoint_paths "ckpt" "model.index.json"
              [("metadata", JObj []);
               ("weight_map", JObj [("w1", JStr "b.safetensors"); ("w2", JStr "a.safetensors");
                                    ("w3", JStr "b.safetensors")])]%string
              [("w1", JStr "b.safetensors"); ("w2", JStr "a.safetensors");
               ("w3", JStr "b.safetensors")]%string
              ["b.safetensors"; "a.safetensors"; "b.safetensors"]%string)
    as (shards & Hs & Hnd & _); [reflexivity..| | | | | | |].
  - apply (bool_decide_unpack _). vm_compute. exact I.
  - apply (bool_decide_unpack _). vm_compute. exact I.
  - vm_compute. reflexivity.
  - reflexivity.
  - reflexivity.
  - reflexivity.
  - exists shards. exact (conj Hs Hnd).
Defined.

(** Tensors are numbers, and the handle is the list of offloaded ones *)
Definition demo_store : TensorStore Z (list Z) := {|
  meta t := mk_tensor_meta t 4 [t] [1] "torch.float32";
  to_dtype t := Ret t;
  safe_load f := Ret [("w1", 10); ("w2", 20)]%string;
  torch_load f := Ret [("w2", 99); ("w3", 30)]%string;
  offload_tensor t id h := (Ret (100 * id), h ++ [t]);
|}.

#[local] Existing Instance demo_store.

Example demo_offload :
  (offload_state_dict ["a.safetensors"; "b.bin"]%string []).2 = [10; 20; 30] /\
  match (offload_state_dict ["a.safetensors"; "b.bin"]%string []).1 with
  | Ret m => map (fun kv => (kv.1, param_id kv.2, param_size kv.2)) m =
             [("w1", 0, 40); ("w2", 1, 80); ("w3", 2, 120)]%string
  | Raise _ => False
  end.
Proof. by vm_compute. Qed.

Lemma offload_equals_reference_witness :
  offload_state_dict ["a.safetensors"; "b.bin"]%string ([] : list Z) =
  offload_all 0 [("w1", 10); ("w2", 20); ("w3", 30)]%string [].
Proof.
  exact (proj1 (offload_equals_reference ["a.safetensors"; "b.bin"]%string
    [[("w1", 10); ("w2", 20)]; [("w2", 99); ("w3", 30)]]%string [] eq_refl)).
Defined.
