(* ===== verification/Collectives.v ===== *)
(** * Collective operations between processes

    The part of [torch.distributed] the multi-coordinator training uses: asynchronous
    sum reductions that are matched by their order, and waiting for one.  A process is a
    tree of the operations it asks for; a group of processes runs in any interleaving.
    What is summed, and how, is a parameter. *)

From stdpp Require Import relations.
From S2P Require Import Prelude.

Section comm.
Context {T : Type}.

(** A process that returns an [A]: it contributes a tensor to its next reduction and
    goes on with the number of that reduction, or it waits for the sum. *)
Inductive comm (A : Type) : Type :=
  | Done (a : A)
  | Contribute (t : T) (k : nat -> comm A)
  | Wait (work : nat) (k : T -> comm A).
#[local] Arguments Done {A}.
#[local] Arguments Contribute {A}.
#[local] Arguments Wait {A}.

Fixpoint comm_then {A B} (c : comm A) (f : A -> comm B) : comm B :=
  match c with
  | Done a => f a
  | Contribute t k => Contribute t (fun w => comm_then (k w) f)
  | Wait w k => Wait w (fun x => comm_then (k x) f)
  end.

#[export] Instance comm_ret : MRet comm := @Done.
#[export] Instance comm_bind : MBind comm := fun A B f c => comm_then c f.

(** [dist.all_reduce(t, op=SUM, async_op=True)], [work.wait()] and the blocking call *)
Definition all_reduce_async (t : T) : comm nat := Contribute t mret.
Definition wait (work : nat) : comm T := Wait work mret.
Definition all_reduce (t : T) : comm T := work ← all_reduce_async t; wait work.

(** ** A group of processes *)

(** What is left of a process, and what it contributed so far *)
Record process (A : Type) : Type := mk_process { prog : comm A; sent : list T }.
#[local] Arguments mk_process {A}.
#[local] Arguments prog {A}.
#[local] Arguments sent {A}.

#[local] Notation group A := (list (process A)).

Definition started {A} (c : comm A) : process A := mk_process c [].

Context (tsum : list T -> T).

(** A reduction has its result once every process contributed to it. *)
Definition result {A} (g : group A) (work : nat) : option T :=
  tsum <$> mapM (fun p => sent p !! work) g.

(** One step of process [i]; a wait for a reduction without a result cannot go on. *)
Definition advance {A} (i : nat) (g : group A) : option (group A) :=
  p ← g !! i;
  match prog p with
  | Done _ => None
  | Contribute t k => Some (<[i := mk_process (k (length (sent p))) (sent p ++ [t])]> g)
  | Wait work k => x ← result g work; Some (<[i := mk_process (k x) (sent p)]> g)
  end.

Definition gstep {A} (g g' : group A) : Prop := exists i, advance i g = Some g'.

(** Running the processes in an order; the ones that cannot go on are passed over. *)
Definition run {A} (order : list nat) (g : group A) : group A :=
  foldl (fun g i => default g (advance i g)) g order.

Lemma run_nsteps {A} order (g : group A) : exists n, nsteps gstep n g (run order g).
Proof.
  unfold run. revert g. induction order as [|i order IH]; intros g; [by exists 0%nat; constructor|].
  cbn [foldl]. destruct (advance i g) as [g'|] eqn:Ha; cbn [default from_option id].
  - destruct (IH g') as [n Hn]. exists (S n). econstructor; [|exact Hn]. by exists i.
  - apply IH.
Qed.

Definition is_done {A} (c : comm A) : bool := match c with Done _ => true | _ => false end.

Lemma finished_nf {A} (g : group A) : forallb (fun p => is_done (prog p)) g = true -> nf gstep g.
Proof.
  rewrite forallb_forall. intros Hd (g' & i & Ha). unfold advance in Ha.
  destruct (g !! i) as [p|] eqn:Hi; [|discriminate]. cbn in Ha.
  assert (Hp : is_done (prog p) = true).
  { apply Hd, list_elem_of_In. by eapply list_elem_of_lookup_2. }
  by destruct (prog p).
Qed.

(** ** A process on its own, with the results given by [O] *)
Section alone.
Context (O : nat -> T).

Fixpoint alone {A} (c : comm A) (s : list T) : A * list T :=
  match c with
  | Done a => (a, s)
  | Contribute t k => alone (k (length s)) (s ++ [t])
  | Wait work k => alone (k (O work)) s
  end.

(** It waits for its own reductions only. *)
Fixpoint waits_own {A} (c : comm A) (s : list T) : Prop :=
  match c with
  | Done _ => True
  | Contribute t k => waits_own (k (length s)) (s ++ [t])
  | Wait work k => (work < length s)%nat /\ waits_own (k (O work)) s
  end.

Fixpoint num_steps {A} (c : comm A) (s : list T) : nat :=
  match c with
  | Done _ => 0
  | Contribute t k => S (num_steps (k (length s)) (s ++ [t]))
  | Wait work k => S (num_steps (k (O work)) s)
  end.

Lemma alone_bind {A B} (c : comm A) (f : A -> comm B) s :
  alone (c ≫= f) s = alone (f (alone c s).1) (alone c s).2.
Proof. unfold mbind, comm_bind. revert s. induction c; intros s; cbn; auto. Qed.

Lemma waits_own_bind {A B} (c : comm A) (f : A -> comm B) s :
  waits_own c s -> waits_own (f (alone c s).1) (alone c s).2 -> waits_own (c ≫= f) s.
Proof.
  unfold mbind, comm_bind. revert s.
  induction c; intros s; cbn; [done|auto|]. intros [Hw Hc] Hf. auto.
Qed.

Lemma alone_prefix {A} (c : comm A) s : s `prefix_of` (alone c s).2.
Proof.
  revert s. induction c as [a|t k IH|w k IH]; intros s; cbn; [done| |apply IH].
  etransitivity; [|apply IH]. by apply prefix_app_r.
Qed.
End alone.

(** ** Groups whose processes agree on the results

    [final] is what every process returns and contributes when it runs on its own with
    the results [O], and [O] is the sum of those contributions. *)
Section agreement.
Context {A : Type} (O : nat -> T) (K : nat) (final : list (A * list T)).

Definition agrees (p : process A) (f : A * list T) : Prop :=
  alone O (prog p) (sent p) = f /\ waits_own O (prog p) (sent p).

Definition consistent : Prop :=
  Forall (fun f => length f.2 = K) final /\
  forall w xs, (w < K)%nat -> mapM (fun f => f.2 !! w) final = Some xs -> tsum xs = O w.

Definition total_steps (g : group A) : nat :=
  sum_list_with (fun p => num_steps O (prog p) (sent p)) g.

Lemma agrees_sent p f : agrees p f -> sent p `prefix_of` f.2.
Proof. intros [<- _]. apply alone_prefix. Qed.

Lemma mapM_sent g w xs :
  Forall2 agrees g final -> mapM (fun p => sent p !! w) g = Some xs ->
  mapM (fun f => f.2 !! w) final = Some xs.
Proof.
  intros Hg. revert xs. induction Hg as [|p f g fs Hp _ IH]; intros xs; [done|].
  cbn. destruct (sent p !! w) as [x|] eqn:Hx; [|done]. cbn.
  rewrite (prefix_lookup_Some _ _ _ _ Hx (agrees_sent _ _ Hp)). cbn.
  destruct (mapM _ g) as [ys|]; [|done]. cbn. intros [= <-]. by rewrite (IH ys).
Qed.

Context (Hcons : consistent).

Lemma final_length i f : final !! i = Some f -> length f.2 = K.
Proof. intros Hi. destruct Hcons as [Hl _]. by apply (Forall_lookup_1 _ _ _ _ Hl Hi). Qed.

(** In an agreeing group a wait gets the result [O]. *)
Lemma result_agrees g i p w x :
  Forall2 agrees g final -> g !! i = Some p -> result g w = Some x -> x = O w.
Proof.
  unfold result. intros Hg Hi. destruct (mapM _ g) as [xs|] eqn:Hm; [|done].
  intros [= <-]. pose proof (mapM_sent _ _ _ Hg Hm) as Hf.
  destruct (Forall2_lookup_l _ _ _ _ _ Hg Hi) as (f & Hfi & Hp).
  assert (is_Some (sent p !! w)) as [y Hy].
  { apply mapM_Some_1 in Hm. by destruct (Forall2_lookup_l _ _ _ _ _ Hm Hi) as (? & _ & ?); eauto. }
  destruct Hcons as [_ Hsum]. apply Hsum; [|done].
  rewrite <- (final_length i f Hfi). eapply Nat.lt_le_trans; [by eapply lookup_lt_Some|].
  apply prefix_length. by apply agrees_sent.
Qed.

Lemma total_steps_insert g i p p' :
  g !! i = Some p ->
  num_steps O (prog p) (sent p) = S (num_steps O (prog p') (sent p')) ->
  total_steps g = S (total_steps (<[i := p']> g)).
Proof.
  unfold total_steps. intros Hi Hs. revert i Hi. induction g as [|q g IH]; intros i; [done|].
  destruct i as [|i]; cbn.
  - intros [= ->]. by rewrite Hs.
  - intros Hi. rewrite (IH i Hi). apply Nat.add_succ_r.
Qed.

(** A step keeps the agreement and is one of the steps that were left. *)
Lemma gstep_agrees g g' :
  Forall2 agrees g final -> gstep g g' ->
  Forall2 agrees g' final /\ total_steps g = S (total_steps g').
Proof.
  intros Hg [i Ha]. unfold advance in Ha.
  destruct (g !! i) as [[c s]|] eqn:Hi; cbn in Ha; [|discriminate].
  destruct (Forall2_lookup_l _ _ _ _ _ Hg Hi) as (f & Hfi & [Hal Hw]). cbn in Hal, Hw.
  assert (Hins : forall p', agrees p' f -> Forall2 agrees (<[i := p']> g) final).
  { intros p' Hp'. rewrite <- (list_insert_id final i f Hfi). by apply Forall2_insert. }
  destruct c as [a|t k|w k]; [discriminate| |].
  - injection Ha as <-. split; [by apply Hins|]. by apply (total_steps_insert g i _ _ Hi).
  - destruct (result g w) as [x|] eqn:Hr; cbn in Ha; [|discriminate]. injection Ha as <-.
    rewrite (result_agrees g i _ w x Hg Hi Hr). destruct Hw as [_ Hw].
    split; [by apply Hins|]. by apply (total_steps_insert g i _ _ Hi).
Qed.

(** A process that waits without a result waits for one that contributed less. *)
Lemma waiting_for g i w k s :
  Forall2 agrees g final -> g !! i = Some (mk_process (Wait w k) s) -> result g w = None ->
  exists j q, g !! j = Some q /\ (length (sent q) <= w)%nat /\ is_done (prog q) = false.
Proof.
  intros Hg Hi Hr. unfold result in Hr. destruct (mapM _ g) as [xs|] eqn:Hm; [done|].
  apply mapM_None in Hm. apply Exists_exists in Hm as (q & Hq & Hn).
  apply list_elem_of_lookup in Hq as [j Hj]. exists j, q. split; [done|].
  apply lookup_ge_None in Hn. split; [done|]. destruct (prog q) as [a| |] eqn:Hd; try done.
  destruct (Forall2_lookup_l _ _ _ _ _ Hg Hj) as (f & Hf & [Hal _]).
  rewrite Hd in Hal. cbn in Hal. pose proof (final_length j f Hf) as Hl. rewrite <- Hal in Hl. cbn in Hl.
  destruct (Forall2_lookup_l _ _ _ _ _ Hg Hi) as (fi & Hfi & Hag). pose proof (agrees_sent _ _ Hag) as Hpre.
  destruct Hag as [_ [Hw _]]. apply prefix_length in Hpre. cbn in Hpre, Hw.
  rewrite (final_length i fi Hfi) in Hpre. lia.
Qed.

(** The process that contributed least among the unfinished ones can go on. *)
Lemma agrees_progress g :
  Forall2 agrees g final -> (exists p, p ∈ g /\ is_done (prog p) = false) ->
  exists g', gstep g g'.
Proof.
  intros Hg (p & Hp & Hd). apply list_elem_of_lookup in Hp as [i Hi].
  remember (length (sent p)) as n eqn:Hn. revert i p Hi Hd Hn.
  induction (lt_wf n) as [n _ IH]; intros i [c s] Hi Hd Hn. cbn in Hd, Hn.
  destruct c as [a|t k|w k]; [done| |].
  - eexists. exists i. unfold advance. rewrite Hi. reflexivity.
  - destruct (result g w) as [x|] eqn:Hr.
    + eexists. exists i. unfold advance. rewrite Hi. cbn. rewrite Hr. reflexivity.
    + destruct (waiting_for g i w k s Hg Hi Hr) as (j & q & Hj & Hl & Hq).
      destruct (Forall2_lookup_l _ _ _ _ _ Hg Hi) as (f & _ & [_ [Hw _]]). cbn in Hw.
      apply (IH (length (sent q)) ltac:(lia) j q Hj Hq eq_refl).
Qed.

(** An agreeing group reaches no deadlock, takes at most [total_steps] steps, and
    when it cannot go on every process has returned its result. *)
Lemma agreeing_group_completes g g' n :
  Forall2 agrees g final -> nsteps gstep n g g' ->
  (n + total_steps g' = total_steps g)%nat /\
  (nf gstep g' -> Forall2 (fun p f => prog p = Done f.1) g' final).
Proof.
  intros Hg Hn. induction Hn as [g|n g g1 g' Hs Hn IH].
  - split; [lia|]. intros Hnf. apply Forall2_same_length_lookup_2; [by eapply Forall2_length|].
    intros i p f Hi Hf. destruct (prog p) as [a|t k|w k] eqn:Hp.
    { assert (Hag : agrees p f) by (by eapply Forall2_lookup_lr). destruct Hag as [<- _]. by rewrite Hp. }
    all: destruct Hnf; apply (agrees_progress g Hg); exists p;
      split; [by eapply list_elem_of_lookup_2|by rewrite Hp].
  - destruct (gstep_agrees g g1 Hg Hs) as [Hg1 Ht]. destruct (IH Hg1) as [IHn IHf].
    split; [lia|done].
Qed.
End agreement.
End comm.

#[global] Arguments comm T A : clear implicits.
#[global] Arguments Done {T A}.
#[global] Arguments Contribute {T A}.
#[global] Arguments Wait {T A}.
#[global] Arguments process T A : clear implicits.
#[global] Arguments mk_process {T A}.
#[global] Arguments prog {T A}.
#[global] Arguments sent {T A}.
Notation group T A := (list (process T A)).
