(* ===== verification/Scaling.v ===== *)
(** * Scaling experiments ([scripts/multi_coordinator_scaling_*.py],
      [scripts/run_multi_coordinator_scaling.py])

    Experiments with one or two coordinators: their configurations and launch commands,
    the results of the ranks, and the conclusions drawn from two points.  The text of a
    float is a parameter. *)

From Stdlib Require Import Ascii.
From stdpp Require Import sorting.
From S2P Require Import Prelude PyDict PyStr PyFloat FloatOrder PyJson.

(** ** Configurations ([multi_coordinator_scaling_config.py]) *)

Definition NUMA_CPU_RANGES : list string := ["0-27"; "28-55"]%string.
Definition WARMUP_ITERATIONS : Z := 1.

(** [assert_never]: a [Literal] that is none of its values *)
Definition assert_never {A} (x : string) : outcome A :=
  Raise (AssertionError ("Expected code to be unreachable, but got: '" +:+ x +:+ "'")).

Record WorkloadConfig : Type := mk_workload {
  w_tiny : bool;
  w_model_name : string;
  w_sequence_length : Z;
  w_measured_iterations : Z;
  w_block_size : Z;
  w_learning_rate : float;
}.

Definition TINY_WORKLOAD : WorkloadConfig :=
  mk_workload true "tiny-mlp" 1 3 128 (f_lit 1 2).
Definition OPT_125M_WORKLOAD : WorkloadConfig :=
  mk_workload false "facebook/opt-125m" 32 2 256 (f_lit 5 5).

Record ScalingConfig : Type := mk_scaling {
  mode : string;
  coordinators : Z;
  total_devices : Z;
  global_batch : Z;
  devices_per_coordinator : Z;
  local_batch : Z;
  warmup_iterations : Z;
  measured_iterations : Z;
  affinity_mode : string;
  relative_tolerance : float;
  tiny : bool;
  model_name : string;
  sequence_length : Z;
  block_size : Z;
  learning_rate : float;
  distributed_timeout_seconds : Z;
}.

Definition set_affinity (a : string) (c : ScalingConfig) : ScalingConfig :=
  mk_scaling (mode c) (coordinators c) (total_devices c) (global_batch c)
    (devices_per_coordinator c) (local_batch c) (warmup_iterations c) (measured_iterations c) a
    (relative_tolerance c) (tiny c) (model_name c) (sequence_length c) (block_size c)
    (learning_rate c) (distributed_timeout_seconds c).

(** A point of the matrix: coordinators, all devices, global batch, devices and batch
    of one coordinator *)
Definition point : Type := Z * Z * Z * Z * Z.

Definition strong_points (tiny : bool) : list point :=
  if tiny then [(1, 8, 16, 8, 16); (2, 8, 16, 4, 8)] else [(1, 8, 2, 8, 2); (2, 8, 2, 4, 1)].
Definition weak_points (tiny : bool) : list point :=
  if tiny then [(1, 4, 8, 4, 8); (2, 8, 16, 4, 8)] else [(1, 4, 1, 4, 1); (2, 8, 2, 4, 1)].

Definition scaling_config (mode : string) (w : WorkloadConfig) (p : point) : ScalingConfig :=
  let '(coordinators, total, global, devices, local) := p in
  mk_scaling mode coordinators total global devices local WARMUP_ITERATIONS
    (w_measured_iterations w) "numactl" (f_lit 5 2) (w_tiny w) (w_model_name w)
    (w_sequence_length w) (w_block_size w) (w_learning_rate w) 120.

Definition build_scaling_configs (mode : string) (w : WorkloadConfig) :
    outcome (list ScalingConfig) :=
  points ← (if String.eqb mode "strong" then Ret (strong_points (w_tiny w))
            else if String.eqb mode "weak" then Ret (weak_points (w_tiny w))
            else assert_never mode);
  Ret (map (scaling_config mode w) points).

Definition select_affinity_mode (numactl_available memory_binding_available : bool) : string :=
  if numactl_available && memory_binding_available then "numactl" else "taskset".

Definition build_iteration_plan (c : ScalingConfig) : list string :=
  replicate (Z.to_nat (warmup_iterations c)) "warmup"%string
  ++ replicate (Z.to_nat (measured_iterations c)) "measured"%string.

(** [directory / x], as text *)
Definition path_append (directory x : string) : string := directory +:+ "/" +:+ x.

Record RankLaunch : Type := mk_launch {
  rank : Z;
  numa_node : Z;
  cpu_range : string;
  command : list string;
  environment : list (string * string);
  substrate : string;
}.

Section launch.
Context (str_float : float -> string).

Definition common_arguments (c : ScalingConfig) (rank : Z) (output_directory : string) : list string :=
  ["python3"; "scripts/run_multi_coordinator.py"; "--worker";
   "--coords"; str_of_Z (coordinators c);
   "--devices_per_coord"; str_of_Z (devices_per_coordinator c);
   "--local_batch"; str_of_Z (local_batch c);
   "--warmup_steps"; str_of_Z (warmup_iterations c);
   "--steps"; str_of_Z (measured_iterations c);
   "--rtol"; str_float (relative_tolerance c);
   "--model-name"; model_name c;
   "--sequence-length"; str_of_Z (sequence_length c);
   "--block_size"; str_of_Z (block_size c);
   "--lr"; str_float (learning_rate c);
   "--distributed-timeout-seconds"; str_of_Z (distributed_timeout_seconds c);
   "--metrics_output"; path_append output_directory "metrics.jsonl";
   "--result_output"; path_append output_directory ("rank-" +:+ str_of_Z rank +:+ ".json");
   "--metrics_nics"; "lo"]%string.

(** The command prefix that binds a rank to its node, and the name of the substrate *)
Definition binding (affinity : string) (node : Z) (cpu_range : string) :
    outcome (list string * string) :=
  if String.eqb affinity "numactl" then
    Ret (["numactl"; "--cpunodebind=" +:+ str_of_Z node; "--membind=" +:+ str_of_Z node],
         "same-host Gloo loopback lower bound; NUMA CPU and memory binding")%string
  else if String.eqb affinity "taskset" then
    Ret (["taskset"; "--cpu-list"; cpu_range],
         "same-host Gloo loopback lower bound; CPU affinity with first-touch memory")%string
  else assert_never affinity.

Definition build_rank_launch (c : ScalingConfig) (rank : Z) (output_directory : string) :
    outcome RankLaunch :=
  cpu_range ← py_index NUMA_CPU_RANGES rank;
  '(prefix, substrate) ← binding (affinity_mode c) rank cpu_range;
  Ret (mk_launch rank rank cpu_range
         (prefix ++ common_arguments c rank output_directory
          ++ (if tiny c then ["--tiny"%string] else []))
         [("RANK", str_of_Z rank); ("WORLD_SIZE", str_of_Z (coordinators c));
          ("MASTER_ADDR", "127.0.0.1")]%string
         substrate).

(** ** The plan ([multi_coordinator_scaling_execution.py]) *)

Record ExperimentRun : Type := mk_run {
  config : ScalingConfig;
  run_directory : string;
  master_port : Z;
  base_proxy_port : Z;
}.

Definition plan_run (output_root mode : string) (index : Z) (c : ScalingConfig) : ExperimentRun :=
  mk_run c (path_append (path_append output_root mode) ("coordinators-" +:+ str_of_Z (coordinators c)))
    (29600 + index) (39200 + index * 10).

(** [index] counts the runs of all modes. *)
Fixpoint plan_from (index : Z) (modes : list string) (output_root : string) (w : WorkloadConfig) :
    outcome (list ExperimentRun) :=
  match modes with
  | [] => Ret []
  | mode :: modes =>
      configs ← build_scaling_configs mode w;
      let runs := imap (fun i c => plan_run output_root mode (index + Z.of_nat i) c) configs in
      rest ← plan_from (index + Z.of_nat (length configs)) modes output_root w;
      Ret (runs ++ rest)
  end.
Definition build_experiment_plan := plan_from 0.

Definition apply_affinity_mode (runs : list ExperimentRun) (affinity : string) : list ExperimentRun :=
  map (fun r => mk_run (set_affinity affinity (config r)) (run_directory r) (master_port r)
                  (base_proxy_port r)) runs.

(** The commands of a run ([_rank_commands]) *)
Definition rank_commands (r : ExperimentRun) (affinity : string) : outcome (list (list string)) :=
  let c := set_affinity affinity (config r) in
  mapO (fun rank =>
          launch ← build_rank_launch c rank (run_directory r);
          Ret (command launch ++ ["--scaling_mode"; mode c; "--master_port"; str_of_Z (master_port r);
                                  "--base_proxy_port"; str_of_Z (base_proxy_port r)]%string))
    (seqZ 0 (coordinators c)).

(** The port rank [rank] of a run listens on ([run_coordinator]) *)
Definition proxy_port (r : ExperimentRun) (rank : Z) : Z := base_proxy_port r + rank.
End launch.

(** ** Analysis ([multi_coordinator_scaling_analysis.py]) *)

Definition scaling_efficiency (mode : string) (baseline measured : float) (coordinators : Z) :
    outcome float :=
  if String.eqb mode "strong" then
    n ← float_of_int coordinators; fdiv baseline (fmul n measured)
  else if String.eqb mode "weak" then fdiv baseline measured
  else assert_never mode.

(** A record of a response counter *)
Record counter_record : Type := mk_counter {
  operation_id : Z; count : Z; previous : Z; current : Z;
}.

Definition good_record (r : counter_record) : bool :=
  (count r =? 1) && (previous r =? current r + 1) && (0 <=? current r).

(** The records by operation; [None] when one is bad *)
Fixpoint group_records (grouped : pydict Z (list counter_record)) (records : list counter_record) :
    option (pydict Z (list counter_record)) :=
  match records with
  | [] => Some grouped
  | r :: records =>
      if good_record r then
        group_records (dict_alter (fun l => default [] l ++ [r]) (operation_id r) grouped) records
      else None
  end.

Definition response_counters_are_balanced (records : list counter_record) : bool :=
  match group_records [] records with
  | None | Some [] => false
  | Some grouped =>
      forallb (fun kv => bool_decide (sort_by Z.leb (map previous kv.2)
                                      = seqZ 1 (Z.of_nat (length kv.2)))) grouped
  end.

Record PhaseBreakdown : Type := mk_breakdown {
  bd_iteration_total : float;
  bd_device : float;
  bd_gradient_sync : float;
  bd_optimizer : float;
  bd_idle_other : float;
  reconciles : bool;
}.

Definition reconcile_breakdown (total forward backward sync optimizer tolerance : float) :
    outcome PhaseBreakdown :=
  let device := fadd forward backward in
  let accounted := fadd (fadd device sync) optimizer in
  let residual := fsub total accounted in
  if flt residual (fopp tolerance) then
    Raise (ValueError ("breakdown components exceed iteration total by "
                       +:+ fmt_fixed 9 (fopp residual) +:+ "s"))
  else
    let idle := fmax fzero residual in
    Ret (mk_breakdown total device sync optimizer idle
           (fle (fabs (fsub (fadd accounted idle) total)) tolerance)).

(** ** Results ([multi_coordinator_scaling_results.py]) *)

Record RankMeasurement : Type := mk_measurement {
  m_rank : Z;
  phase_durations : pydict string float;
  m_measured_losses : list float;
  m_golden_losses : list float;
}.

Record LossCorrectness : Type := mk_correctness {
  passed : bool; decreasing : bool; tracks_golden : bool; max_relative_error : float;
}.

Record RankResult : Type := mk_rank_result {
  r_rank : Z;
  warmup_iteration_seconds : float;
  iteration_total_seconds : float;
  device_dispatch_aggregation_seconds : float;
  gradient_sync_seconds : float;
  optimizer_seconds : float;
  idle_other_seconds : float;
  throughput_samples_per_second : float;
  measured_losses : list float;
  golden_losses : list float;
  loss_correctness : LossCorrectness;
}.

Record GlobalResult : Type := mk_global {
  g_coordinators : Z;
  g_iteration_total_seconds : float;
  g_throughput_samples_per_second : float;
  g_loss_correctness : LossCorrectness;
  g_substrate : string;
  ranks : list RankResult;
}.

(** [abs(actual - expected) / max(abs(expected), 1e-6)] *)
Definition relative_error (actual expected : float) : outcome float :=
  fdiv (fabs (fsub actual expected)) (fmax (fabs expected) (f_lit 1 6)).

Definition loss_correctness_of (measured golden : list float) (tol : float) :
    outcome LossCorrectness :=
  let finite := forallb is_finite measured in
  let decreasing := finite && (1 <? length measured)%nat &&
    match head measured, last measured with
    | Some first, Some last => flt last first
    | _, _ => false
    end in
  errors ← mapO (fun p => relative_error p.1 p.2) (zip measured golden);
  let max_error := default finf (fmax_list errors) in
  let tracks := finite && (length measured =? length golden)%nat && fle max_error tol in
  Ret (mk_correctness tracks decreasing tracks max_error).

(** [n / x], for an integer [n] *)
Definition int_over (n : Z) (x : float) : outcome float := f ← float_of_int n; fdiv f x.

Definition phase (name : string) (d : pydict string float) : float := dict_get_default name fzero d.

Definition build_rank_result (c : ScalingConfig) (m : RankMeasurement) : outcome RankResult :=
  let phases := phase_durations m in
  let total := phase "iteration_total" phases in
  b ← reconcile_breakdown total
        (phase "forward_device_dispatch_aggregation" phases)
        (phase "backward_device_dispatch_aggregation" phases)
        (phase "gradient_sync" phases) (phase "optimizer" phases)
        (fmax (f_lit 1 9) (fmul total (f_lit 1 6)));
  throughput ← (if flt fzero total then int_over (local_batch c * measured_iterations c) total
                else Ret fzero);
  correctness ← loss_correctness_of (m_measured_losses m) (m_golden_losses m) (relative_tolerance c);
  Ret (mk_rank_result (m_rank m) (phase "warmup_iteration" phases) total (bd_device b)
         (bd_gradient_sync b) (bd_optimizer b) (bd_idle_other b) throughput
         (m_measured_losses m) (m_golden_losses m) correctness).

Definition max_of (l : list float) : outcome float :=
  of_option (ValueError "max() iterable argument is empty") (fmax_list l).

Definition build_global_result (c : ScalingConfig) (ranks : list RankResult) : outcome GlobalResult :=
  makespan ← max_of (map iteration_total_seconds ranks);
  throughput ← (if flt fzero makespan
                then int_over (global_batch c * measured_iterations c) makespan else Ret fzero);
  max_error ← max_of (map (fun r => max_relative_error (loss_correctness r)) ranks);
  placement ← (if String.eqb (affinity_mode c) "numactl" then Ret "NUMA CPU and memory binding"%string
               else if String.eqb (affinity_mode c) "taskset"
               then Ret "CPU affinity with first-touch memory"%string
               else assert_never (affinity_mode c));
  Ret (mk_global (coordinators c) makespan throughput
         (mk_correctness (forallb (fun r => passed (loss_correctness r)) ranks)
            (forallb (fun r => decreasing (loss_correctness r)) ranks)
            (forallb (fun r => tracks_golden (loss_correctness r)) ranks) max_error)
         ("same-host Gloo loopback lower bound; " +:+ placement
          +:+ "; no physical NIC-to-NIC routing")
         ranks).

Definition rank_result_payload (c : ScalingConfig) (r : RankResult) : json :=
  let k := loss_correctness r in
  JObj
    [("schema_version", JInt 1);
     ("rank", JInt (r_rank r));
     ("coordinators", JInt (coordinators c));
     ("warmup_iterations", JInt (warmup_iterations c));
     ("measured_iterations", JInt (measured_iterations c));
     ("local_batch", JInt (local_batch c));
     ("devices_per_coordinator", JInt (devices_per_coordinator c));
     ("relative_tolerance", JFloat (relative_tolerance c));
     ("model_name", JStr (model_name c));
     ("sequence_length", JInt (sequence_length c));
     ("warmup_iteration_seconds", JFloat (warmup_iteration_seconds r));
     ("throughput_samples_per_second", JFloat (throughput_samples_per_second r));
     ("measured_losses", JList (map JFloat (measured_losses r)));
     ("golden_losses", JList (map JFloat (golden_losses r)));
     ("loss_correctness", JObj
       [("passed", JBool (passed k)); ("decreasing", JBool (decreasing k));
        ("tracks_golden", JBool (tracks_golden k));
        ("max_relative_error", JFloat (max_relative_error k))]);
     ("phases_seconds", JObj
       [("iteration_total", JFloat (iteration_total_seconds r));
        ("device_dispatch_aggregation", JFloat (device_dispatch_aggregation_seconds r));
        ("gradient_sync", JFloat (gradient_sync_seconds r));
        ("optimizer", JFloat (optimizer_seconds r));
        ("idle_other", JFloat (idle_other_seconds r))])]%string.

(** ** Reading a rank's file back ([run_multi_coordinator_scaling._load_rank_result]) *)

Definition float_item (k : string) (j : json) : outcome float := v ← json_item k j; py_float v.
Definition bool_item (k : string) (j : json) : outcome bool := v ← json_item k j; Ret (truthy v).
Definition floats_item (k : string) (j : json) : outcome (list float) :=
  v ← json_item k j; l ← json_iter v; mapO py_float l.

Definition load_rank_result (payload : json) : outcome RankResult :=
  correctness ← json_item "loss_correctness" payload;
  phases ← json_item "phases_seconds" payload;
  rank ← json_item "rank" payload; rank ← py_int rank;
  warmup ← float_item "warmup_iteration_seconds" payload;
  total ← float_item "iteration_total" phases;
  device ← float_item "device_dispatch_aggregation" phases;
  sync ← float_item "gradient_sync" phases;
  optimizer ← float_item "optimizer" phases;
  idle ← float_item "idle_other" phases;
  throughput ← float_item "throughput_samples_per_second" payload;
  measured ← floats_item "measured_losses" payload;
  golden ← floats_item "golden_losses" payload;
  passed ← bool_item "passed" correctness;
  decreasing ← bool_item "decreasing" correctness;
  tracks ← bool_item "tracks_golden" correctness;
  error ← float_item "max_relative_error" correctness;
  Ret (mk_rank_result rank warmup total device sync optimizer idle throughput measured golden
         (mk_correctness passed decreasing tracks error)).

(** ** Conclusions ([multi_coordinator_scaling_conclusions.py], [_write_summaries]) *)

Record ScalingConclusion : Type := mk_conclusion {
  c_mode : string; speedup : float; efficiency : float; throughput_ratio : float;
  correctness_passed : bool;
}.

Definition build_scaling_conclusion (baseline_config scaled_config : ScalingConfig)
    (baseline scaled : GlobalResult) : outcome ScalingConclusion :=
  speedup ← fdiv (g_iteration_total_seconds baseline) (g_iteration_total_seconds scaled);
  efficiency ← scaling_efficiency (mode baseline_config) (g_iteration_total_seconds baseline)
                 (g_iteration_total_seconds scaled) (coordinators scaled_config);
  ratio ← fdiv (g_throughput_samples_per_second scaled) (g_throughput_samples_per_second baseline);
  Ret (mk_conclusion (mode baseline_config) speedup efficiency ratio
         (passed (g_loss_correctness baseline) && passed (g_loss_correctness scaled))).

(** [max(ranks, key=lambda rank: rank.iteration_total_seconds)] *)
Definition slowest (l : list RankResult) : outcome RankResult :=
  match l with
  | [] => Raise (ValueError "max() iterable argument is empty")
  | r :: l => Ret (foldl (fun best r => if flt (iteration_total_seconds best)
                                             (iteration_total_seconds r) then r else best) r l)
  end.

(** A row of [breakdown.json] *)
Definition breakdown_row (mode : string) (c : ScalingConfig) (r : RankResult) : json :=
  JObj [("mode", JStr mode); ("coordinators", JInt (coordinators c));
        ("iteration_total", JFloat (iteration_total_seconds r));
        ("device_dispatch_aggregation", JFloat (device_dispatch_aggregation_seconds r));
        ("gradient_sync", JFloat (gradient_sync_seconds r));
        ("optimizer", JFloat (optimizer_seconds r));
        ("idle_other", JFloat (idle_other_seconds r))]%string.

Definition component_semantics : json :=
  JObj [("device_dispatch_aggregation", JStr "combined forward and backward device-facing dispatch and aggregation");
        ("gradient_sync", JStr "inter-coordinator Gloo AllReduce over loopback");
        ("optimizer", JStr "rank-local optimizer step");
        ("idle_other", JStr "residual uninstrumented work and waiting")]%string.

(** The points of one mode: its conclusion and its rows *)
Definition summarise_mode (mode : string) (points : list (ExperimentRun * GlobalResult)) :
    outcome (ScalingConclusion * list json) :=
  match points with
  | [baseline; scaled] =>
      conclusion ← build_scaling_conclusion (config baseline.1) (config scaled.1) baseline.2 scaled.2;
      rows ← mapO (fun p => r ← slowest (ranks p.2);
                             Ret (breakdown_row mode (config p.1) r)) points;
      Ret (conclusion, rows)
  | [] | [_] => Raise (ValueError "not enough values to unpack (expected 2)")
  | _ => Raise (ValueError "too many values to unpack (expected 2)")
  end.

Definition grouped_points (points : list (ExperimentRun * GlobalResult)) :
    pydict string (list (ExperimentRun * GlobalResult)) :=
  foldl (fun d p => dict_alter (fun l => default [] l ++ [p]) (mode (config p.1)) d) [] points.

(** [dataclasses.asdict] of the records, with the fields in order *)
Definition configuration_json (c : ScalingConfig) : json :=
  JObj [("mode", JStr (mode c)); ("coordinators", JInt (coordinators c));
        ("total_devices", JInt (total_devices c)); ("global_batch", JInt (global_batch c));
        ("devices_per_coordinator", JInt (devices_per_coordinator c));
        ("local_batch", JInt (local_batch c)); ("warmup_iterations", JInt (warmup_iterations c));
        ("measured_iterations", JInt (measured_iterations c));
        ("affinity_mode", JStr (affinity_mode c));
        ("relative_tolerance", JFloat (relative_tolerance c)); ("tiny", JBool (tiny c));
        ("model_name", JStr (model_name c)); ("sequence_length", JInt (sequence_length c));
        ("block_size", JInt (block_size c)); ("learning_rate", JFloat (learning_rate c));
        ("distributed_timeout_seconds", JInt (distributed_timeout_seconds c))]%string.

Definition correctness_json (k : LossCorrectness) : json :=
  JObj [("passed", JBool (passed k)); ("decreasing", JBool (decreasing k));
        ("tracks_golden", JBool (tracks_golden k));
        ("max_relative_error", JFloat (max_relative_error k))]%string.

Definition rank_json (r : RankResult) : json :=
  JObj [("rank", JInt (r_rank r));
        ("warmup_iteration_seconds", JFloat (warmup_iteration_seconds r));
        ("iteration_total_seconds", JFloat (iteration_total_seconds r));
        ("device_dispatch_aggregation_seconds", JFloat (device_dispatch_aggregation_seconds r));
        ("gradient_sync_seconds", JFloat (gradient_sync_seconds r));
        ("optimizer_seconds", JFloat (optimizer_seconds r));
        ("idle_other_seconds", JFloat (idle_other_seconds r));
        ("throughput_samples_per_second", JFloat (throughput_samples_per_second r));
        ("measured_losses", JList (map JFloat (measured_losses r)));
        ("golden_losses", JList (map JFloat (golden_losses r)));
        ("loss_correctness", correctness_json (loss_correctness r))]%string.

Definition global_json (g : GlobalResult) : json :=
  JObj [("coordinators", JInt (g_coordinators g));
        ("iteration_total_seconds", JFloat (g_iteration_total_seconds g));
        ("throughput_samples_per_second", JFloat (g_throughput_samples_per_second g));
        ("loss_correctness", correctness_json (g_loss_correctness g));
        ("substrate", JStr (g_substrate g)); ("ranks", JList (map rank_json (ranks g)))]%string.

Definition conclusion_json (k : ScalingConclusion) : json :=
  JObj [("mode", JStr (c_mode k)); ("speedup", JFloat (speedup k));
        ("efficiency", JFloat (efficiency k)); ("throughput_ratio", JFloat (throughput_ratio k));
        ("correctness_passed", JBool (correctness_passed k))]%string.

(** [<mode>.json] *)
Definition mode_summary (timestamp : string) (invocation : list string) (mode : string)
    (points : list (ExperimentRun * GlobalResult)) (conclusion : ScalingConclusion) : json :=
  JObj [("schema_version", JInt 1); ("experiment", JStr (mode +:+ " multi-coordinator scaling"));
        ("timestamp", JStr timestamp); ("invocation", JList (map JStr invocation));
        ("transport", JStr "Gloo over loopback");
        ("substrate", JStr "same-host loopback lower bound");
        ("physical_nic_routing", JBool false);
        ("points", JList (map (fun p => JObj [("configuration", configuration_json (config p.1));
                                              ("result", global_json p.2)]) points));
        ("conclusion", conclusion_json conclusion)]%string.

(** [breakdown.json] *)
Definition breakdown_json (timestamp : string) (rows : list json) : json :=
  JObj [("schema_version", JInt 1); ("timestamp", JStr timestamp);
        ("component_semantics", component_semantics); ("rows", JList rows)]%string.

(** The files written: a summary of every mode, and the breakdown; [utc_now] gives the time
    stamp of each. *)
Definition write_summaries (utc_now : string -> string) (invocation : list string)
    (runs : list ExperimentRun) (results : list GlobalResult) :
    outcome (list (string * json) * json) :=
  parts ← mapO (fun kv => s ← summarise_mode kv.1 kv.2;
                           Ret ((kv.1, mode_summary (utc_now kv.1) invocation kv.1 kv.2 s.1), s.2))
            (grouped_points (zip runs results));
  Ret (map fst parts, breakdown_json (utc_now "breakdown") (concat (map snd parts))).

(** ** Balanced counters *)

Lemma group_records_spec g records :
  group_records g records =
  if forallb good_record records then Some (foldl (group_step operation_id) g records) else None.
Proof.
  revert g. induction records as [|r records IH]; intros g; [done|]. cbn [group_records forallb].
  destruct (good_record r); [|done]. cbn [andb foldl]. rewrite IH. done.
Qed.

Lemma good_record_spec r :
  good_record r = true <-> count r = 1 /\ previous r = current r + 1 /\ 0 <= current r.
Proof. unfold good_record. rewrite !andb_true_iff, !Z.eqb_eq, Z.leb_le. tauto. Qed.

Lemma sorted_le l : StronglySorted (fun x y => Z.leb x y = true) l -> StronglySorted Z.le l.
Proof.
  induction 1 as [|x l _ IH Hx]; constructor; [done|].
  eapply Forall_impl; [exact Hx|]. intros y Hy. by apply Z.leb_le.
Qed.

Lemma seqZ_sorted a n : StronglySorted Z.le (seqZ a n).
Proof.
  destruct (Z.le_ge_cases 0 n) as [Hn|Hn]; [|by rewrite seqZ_nil by lia; constructor].
  revert a. pattern n. apply natlike_ind; [intros a; by rewrite seqZ_nil by lia; constructor| |done].
  intros k Hk IH a. rewrite seqZ_cons by lia. rewrite Z.pred_succ. constructor; [apply IH|].
  apply Forall_forall. intros x Hx%elem_of_seqZ. lia.
Qed.

(** A list sorts to a range when it is a permutation of it. *)
Lemma sort_is_range l a n : sort_by Z.leb l = seqZ a n <-> l ≡ₚ seqZ a n.
Proof.
  split; [intros <-; by rewrite sort_by_perm|]. intros Hp.
  apply (StronglySorted_unique Z.le).
  - apply sorted_le, sort_by_sorted; intros; lia.
  - apply seqZ_sorted.
  - by rewrite sort_by_perm.
Qed.

(** Balanced response counters.  The records are balanced exactly when there are
    some, every one of them counts one response down by one and not below zero, and the
    values before the responses of every operation are 1, ..., n in some order, for the
    number n of its records: every operation's counter went from n down to 0, whatever
    the order the responses were logged in. *)
Theorem balanced_iff_countdown records :
  response_counters_are_balanced records = true <->
  records <> [] /\
  (forall r, r ∈ records -> count r = 1 /\ previous r = current r + 1 /\ 0 <= current r) /\
  forall op, let of_op := filter (fun r => operation_id r = op) records in
    map previous of_op ≡ₚ seqZ 1 (Z.of_nat (length of_op)).
Proof.
  unfold response_counters_are_balanced. rewrite group_records_spec.
  change (foldl (group_step operation_id) [] records) with (group_by operation_id records).
  assert (Hgood : forallb good_record records = true <->
    forall r, r ∈ records -> count r = 1 /\ previous r = current r + 1 /\ 0 <= current r).
  { rewrite forallb_forall. setoid_rewrite good_record_spec. by setoid_rewrite list_elem_of_In. }
  destruct (forallb good_record records); [|naive_solver].
  assert (Hnil : group_by operation_id records = [] <-> records = []) by apply group_by_nonempty.
  assert (Hall : forallb (fun kv => bool_decide (sort_by Z.leb (map previous kv.2)
        = seqZ 1 (Z.of_nat (length kv.2)))) (group_by operation_id records) = true <->
    forall op, let of_op := filter (fun r => operation_id r = op) records in
      map previous of_op ≡ₚ seqZ 1 (Z.of_nat (length of_op))).
  { rewrite forallb_forall. setoid_rewrite bool_decide_eq_true. setoid_rewrite sort_is_range.
    split; cbn zeta.
    - intros H op. destruct (filter _ records) eqn:Hf; [done|].
      apply (H (op, _)). apply list_elem_of_In, group_by_elem. by rewrite Hf.
    - intros H [op g] Hin%list_elem_of_In. apply group_by_elem in Hin as [-> _]. apply H. }
  destruct (group_by operation_id records) as [|kv d]; [naive_solver|].
  rewrite Hall. naive_solver.
Qed.

(** ** Ports *)

Definition ports (r : ExperimentRun) : list Z :=
  master_port r :: map (proxy_port r) (seqZ 0 (coordinators (config r))).

Definition planned (i : Z) (r : ExperimentRun) : Prop :=
  master_port r = 29600 + i /\ base_proxy_port r = 39200 + i * 10 /\
  1 <= coordinators (config r) <= 2.

Lemma build_scaling_configs_small m w l :
  build_scaling_configs m w = Ret l ->
  length l = 2%nat /\ Forall (fun c => 1 <= coordinators c <= 2) l.
Proof.
  unfold build_scaling_configs, assert_never.
  destruct (String.eqb m "strong"); [|destruct (String.eqb m "weak"); [|done]];
    unfold strong_points, weak_points; destruct (w_tiny w); cbn; intros [= <-];
    (split; [done|repeat constructor; cbn; lia]).
Qed.

Lemma plan_from_planned index modes root w runs :
  plan_from index modes root w = Ret runs ->
  length runs = (2 * length modes)%nat /\
  forall i r, runs !! i = Some r -> planned (index + Z.of_nat i) r.
Proof.
  revert index runs. induction modes as [|m modes IH]; intros index runs; cbn [plan_from].
  { by intros [= <-]. }
  destruct (build_scaling_configs m w) as [cs|] eqn:Hc; [|done]. cbn [mbind outcome_bind].
  destruct (build_scaling_configs_small m w cs Hc) as [Hl Hall].
  destruct (plan_from _ modes root w) as [rest|] eqn:Hr; [|done]. intros [= <-].
  destruct (IH _ _ Hr) as [IHl IHp]. rewrite Hl in *. rewrite length_app, length_imap. split; [cbn; lia|].
  intros i r. rewrite lookup_app, length_imap. destruct (imap _ cs !! i) as [r'|] eqn:Hi.
  - intros [= <-]. rewrite list_lookup_imap in Hi. apply fmap_Some in Hi as (c & Hci & ->).
    rewrite Forall_lookup in Hall. specialize (Hall i c Hci).
    split_and!; [done|done|apply Hall..].
  - rewrite list_lookup_imap in Hi. apply fmap_None, lookup_ge_None in Hi.
    intros Hj. apply IHp in Hj. rewrite Hl in *. by replace (index + Z.of_nat i)
      with (index + Z.of_nat 2 + Z.of_nat (i - 2)) by lia.
Qed.

Lemma elem_of_ports i r p :
  planned i r -> p ∈ ports r ->
  p = 29600 + i \/ (p = 39200 + i * 10 \/ p = 39200 + i * 10 + 1).
Proof.
  intros (Hm & Hb & Hc). unfold ports, proxy_port. rewrite elem_of_cons, Hm, Hb.
  intros [->|Hp]; [by left|right]. apply list_elem_of_fmap in Hp as (k & -> & Hk%elem_of_seqZ). lia.
Qed.

(** The ports of a plan.  No two runs of an experiment plan share a port, and the
    coordinators of one run listen on distinct ports different from the run's own; for
    up to a thousand modes they all are user ports. *)
Theorem experiment_ports_distinct modes root w runs :
  build_experiment_plan modes root w = Ret runs -> (length modes <= 1000)%nat ->
  (forall i j ri rj p, runs !! i = Some ri -> runs !! j = Some rj ->
     p ∈ ports ri -> p ∈ ports rj -> i = j) /\
  (forall r, r ∈ runs -> NoDup (ports r) /\ Forall (fun p => 1024 <= p <= 65535) (ports r)).
Proof.
  intros Hplan Hlen. destruct (plan_from_planned _ _ _ _ _ Hplan) as [Hl Hp].
  assert (Hlt : forall i r, runs !! i = Some r -> (i < 2000)%nat).
  { intros i r Hi%lookup_lt_Some. lia. }
  split.
  - intros i j ri rj p Hi Hj Hpi Hpj. pose proof (Hlt _ _ Hi). pose proof (Hlt _ _ Hj).
    apply (elem_of_ports _ _ _ (Hp _ _ Hi)) in Hpi. apply (elem_of_ports _ _ _ (Hp _ _ Hj)) in Hpj. lia.
  - intros r [i Hi]%list_elem_of_lookup. pose proof (Hlt _ _ Hi). pose proof (Hp _ _ Hi) as Hpl. split.
    + destruct Hpl as (Hm & Hb & Hc). unfold ports, proxy_port. rewrite Hm, Hb. constructor.
      * intros (k & Hk & Hin%elem_of_seqZ)%list_elem_of_fmap. lia.
      * apply NoDup_fmap; [intros x y; lia|]. apply NoDup_seqZ.
    + apply Forall_forall. intros p Hin. apply (elem_of_ports _ _ _ Hpl) in Hin. lia.
Qed.

(** ** Results go through files *)

Lemma mapO_floats l : mapO py_float (map sort_keys (map JFloat l)) = Ret l.
Proof. induction l as [|x l IH]; [done|]. cbn [map mapO sort_keys py_float]. by rewrite IH. Qed.

Lemma floats_item_sorted k j l :
  json_item k j = Ret (JList (map sort_keys (map JFloat l))) -> floats_item k j = Ret l.
Proof. intros Hj. unfold floats_item. rewrite Hj. apply mapO_floats. Qed.

(** A rank's result file.  Reading the file a rank writes (its payload with sorted
    keys) gives the rank's result back, in every configuration. *)
Theorem rank_result_roundtrip c r : load_rank_result (sort_keys (rank_result_payload c r)) = Ret r.
Proof.
  unfold load_rank_result. set (j := sort_keys _).
  rewrite (floats_item_sorted "measured_losses" j (measured_losses r)) by reflexivity.
  rewrite (floats_item_sorted "golden_losses" j (golden_losses r)) by reflexivity.
  subst j. by destruct r as [? ? ? ? ? ? ? ? ? ? []].
Qed.

(** ** The verdict on the losses *)

Lemma binary_round_not_nan b p e : is_nan (binary_round prec emax b p e) = false.
Proof.
  unfold binary_round. destruct (shl_align _ _ _) as [mz ez].
  by destruct (binary_round_aux_cases b (Zpos mz) ez loc_Exact ltac:(lia)) as [->|[->|(m' & e' & ->)]].
Qed.

Lemma binary_normalize_not_nan m e s : is_nan (binary_normalize prec emax m e s) = false.
Proof. destruct m as [|p|p]; [done|apply binary_round_not_nan..]. Qed.

Lemma fsub_not_nan x y : is_finite x = true -> is_finite y = true -> is_nan (fsub x y) = false.
Proof.
  intros Hx Hy. destruct x as [[]|[]| |sx mx ex], y as [[]|[]| |sy my ey]; try done.
  apply binary_normalize_not_nan.
Qed.

Lemma fabs_not_nan x : is_nan (fabs x) = is_nan x.
Proof. by destruct x. Qed.

(** A relative error to a finite loss is a number that is not NaN. *)
Lemma relative_error_number actual expected :
  is_finite actual = true -> is_finite expected = true ->
  exists x, relative_error actual expected = Ret x /\ is_nan x = false.
Proof.
  intros Ha He. unfold relative_error.
  pose proof (fsub_not_nan _ _ Ha He) as Hn. rewrite <- fabs_not_nan in Hn.
  set (n := fabs (fsub actual expected)) in *.
  assert (Hd : exists m e, fmax (fabs expected) (f_lit 1 6) = S754_finite false m e).
  { unfold fmax. destruct (flt (fabs expected) (f_lit 1 6)) eqn:Hf.
    - vm_compute. eauto.
    - destruct expected as [s|s| |s m e]; [|discriminate He..|].
      + exfalso. revert Hf. vm_compute. discriminate.
      + cbn. eauto. }
  destruct Hd as (m & e & ->). cbn [fdiv]. eexists. split; [done|].
  destruct n as [s|s| |s mn en] eqn:Hneq; try done.
  cbn -[SFdiv_core_binary].
  pose proof (fdiv_core_nonneg mn en m e) as Hq.
  destruct (SFdiv_core_binary prec emax (Z.pos mn) en (Z.pos m) e) as [[q k] l].
  destruct (binary_round_aux_cases (xorb s false) q k l Hq) as [->|[->|(m' & e' & ->)]]; done.
Qed.

(** The errors of finite losses against finite golden losses *)
Lemma errors_numbers measured golden :
  Forall (fun x => is_finite x = true) measured -> Forall (fun x => is_finite x = true) golden ->
  exists errors, mapO (fun p => relative_error p.1 p.2) (zip measured golden) = Ret errors /\
    Forall (fun x => is_nan x = false) errors.
Proof.
  intros Hm. revert golden. induction Hm as [|a m Ha Hm IH]; intros golden Hg; [by exists []|].
  destruct Hg as [|e g He Hg]; [by exists []|]. cbn [zip zip_with mapO fst snd].
  destruct (relative_error_number a e Ha He) as (x & -> & Hx).
  destruct (IH g Hg) as (xs & Hxs & Hall). fold (zip m g). rewrite Hxs. eauto.
Qed.

Definition within (tol actual expected : float) : Prop :=
  exists x, relative_error actual expected = Ret x /\ fle x tol = true.

Lemma mapO_within measured golden tol errors :
  length measured = length golden ->
  mapO (fun p => relative_error p.1 p.2) (zip measured golden) = Ret errors ->
  Forall (fun x => fle x tol = true) errors <-> Forall2 (within tol) measured golden.
Proof.
  revert golden errors. induction measured as [|a m IH]; intros [|e g] errors Hl; try done.
  { cbn. intros [= <-]. split; constructor. }
  cbn [zip zip_with mapO fst snd]. destruct (relative_error a e) as [x|] eqn:Hx; [|done].
  fold (zip m g). destruct (mapO _ (zip m g)) as [xs|] eqn:Hxs; [|done]. intros [= <-].
  injection Hl as Hl. rewrite Forall_cons, (IH g xs Hl Hxs). split.
  - intros [Ht Hf]. constructor; [by exists x|done].
  - intros H. inversion H as [|? ? ? ? (x' & Hx' & Ht) Hf]; subst.
    rewrite Hx in Hx'. injection Hx' as <-. done.
Qed.

Lemma max_error_within errors tol :
  Forall (fun x => is_nan x = false) errors -> is_finite tol = true ->
  fle (default finf (fmax_list errors)) tol = true <->
  errors <> [] /\ Forall (fun x => fle x tol = true) errors.
Proof.
  intros Hn Ht. destruct (fmax_list errors) as [m|] eqn:Hm; cbn [default from_option id].
  - destruct (fmax_list_spec errors m Hn Hm) as [Hin Hge]. rewrite Forall_forall. split.
    + intros Hle. split; [by intros ->|]. intros x Hx. eapply fle_trans; [by apply Hge|done].
    + intros [_ Hall]. by apply Hall.
  - destruct errors; [|done]. split; [|naive_solver]. by destruct tol.
Qed.

(** The verdict on a rank's losses.  Against a finite golden trajectory and a finite
    tolerance the verdict is always reached, and it is positive exactly when the
    measured trajectory is not empty, finite, as long as the golden one, and every loss
    is within the relative tolerance of its golden loss. *)
Theorem loss_verdict measured golden tol :
  Forall (fun x => is_finite x = true) golden -> is_finite tol = true ->
  Forall (fun x => is_finite x = true) measured ->
  exists k, loss_correctness_of measured golden tol = Ret k /\
    (passed k = true <-> measured <> [] /\ Forall2 (within tol) measured golden).
Proof.
  intros Hg Ht Hm. unfold loss_correctness_of.
  destruct (errors_numbers measured golden Hm Hg) as (errors & He & Hn).
  rewrite He. cbn [mbind outcome_bind]. eexists. split; [done|]. cbn [passed].
  assert (Hfin : forallb is_finite measured = true).
  { apply forallb_forall. intros x Hx. rewrite Forall_forall in Hm. by apply Hm, list_elem_of_In. }
  rewrite Hfin. cbn [andb]. rewrite andb_true_iff, Nat.eqb_eq, (max_error_within _ _ Hn Ht).
  assert (Hnil : length measured = length golden -> errors <> [] <-> measured <> []).
  { intros Hl. apply mapO_length in He. rewrite length_zip_with in He.
    destruct errors, measured, golden; cbn in *; split; try done; lia. }
  split.
  - intros (Hl & Hne & Hall). split; [by apply Hnil|]. by apply (mapO_within _ _ _ errors).
  - intros [Hne Hf]. pose proof (Forall2_length _ _ _ Hf) as Hl. split; [done|].
    split; [by apply Hnil|]. by apply (mapO_within measured golden).
Qed.

Lemma mapO_snoc {A B} (f : A -> outcome B) l x ys y :
  mapO f l = Ret ys -> f x = Ret y -> mapO f (l ++ [x]) = Ret (ys ++ [y]).
Proof.
  intros Hl Hx. revert ys Hl. induction l as [|a l IH]; intros ys; cbn [mapO app].
  - intros [= <-]. by rewrite Hx.
  - destruct (f a) as [b|]; [|done]. destruct (mapO f l) as [bs|]; [|done]. intros [= <-].
    by rewrite (IH bs eq_refl).
Qed.

Lemma fmax_list_snoc_nan l : l <> [] -> fmax_list (l ++ [fnan]) = fmax_list l.
Proof.
  destruct l as [|x l]; [done|]. intros _. cbn [app fmax_list]. rewrite foldl_app. cbn [foldl].
  f_equal. unfold fmax at 1. by destruct (foldl fmax x l).
Qed.

(** A NaN golden loss is ignored.  When the golden run diverges after at least one
    step, the verdict and the reported error are those of the steps before, whatever the
    measured loss of that step is: [max] drops the NaN error. *)
Theorem nan_golden_ignored measured golden actual tol k :
  loss_correctness_of measured golden tol = Ret k -> measured <> [] -> golden <> [] ->
  length measured = length golden -> is_finite actual = true ->
  exists k', loss_correctness_of (measured ++ [actual]) (golden ++ [fnan]) tol = Ret k' /\
    passed k' = passed k /\ max_relative_error k' = max_relative_error k.
Proof.
  unfold loss_correctness_of. intros Hk Hm Hg Hl Ha.
  destruct (mapO _ (zip measured golden)) as [errors|] eqn:He; [|done].
  cbn [mbind outcome_bind] in Hk. injection Hk as <-.
  assert (Hz : zip (measured ++ [actual]) (golden ++ [fnan]) = zip measured golden ++ [(actual, fnan)]).
  { change [(actual, fnan)] with (zip [actual] [fnan]). by rewrite zip_with_app. }
  rewrite Hz.
  assert (Hn : relative_error actual fnan = Ret fnan) by (by destruct actual as [[]|[]| |[]]).
  rewrite (mapO_snoc _ _ (actual, fnan) _ fnan He Hn). cbn [mbind outcome_bind].
  assert (Hne : errors <> []).
  { apply mapO_length in He. rewrite length_zip_with in He. by destruct errors, measured, golden. }
  rewrite (fmax_list_snoc_nan errors Hne), forallb_app, !length_app, Hl. cbn [forallb length].
  rewrite Ha, !andb_true_r, !Nat.eqb_refl. by eexists.
Qed.

(** ** The breakdown of an iteration *)

(** The residual of a breakdown.  For phases and a total that are not negative and
    add up to a float, the breakdown is refused exactly when the phases exceed the total
    by more than the tolerance; otherwise the idle time lies between zero and the total,
    is zero when the phases use up the total, and the other components are the phases. *)
Theorem breakdown_residual total forward backward sync optimizer tolerance :
  let device := fadd forward backward in
  let accounted := fadd (fadd device sync) optimizer in
  pfin total -> pfin accounted ->
  if flt (fsub total accounted) (fopp tolerance)
  then exists msg, reconcile_breakdown total forward backward sync optimizer tolerance
                   = Raise (ValueError msg)
  else exists b, reconcile_breakdown total forward backward sync optimizer tolerance = Ret b /\
    bd_iteration_total b = total /\ bd_device b = device /\ bd_gradient_sync b = sync /\
    bd_optimizer b = optimizer /\
    pfin (bd_idle_other b) /\ fval (bd_idle_other b) <= fval total /\
    (fval total <= fval accounted -> bd_idle_other b = fzero).
Proof.
  intros device accounted Ht Ha. unfold reconcile_breakdown. fold device accounted.
  destruct (flt _ _); [by eexists|]. eexists. split; [done|]. cbn [bd_iteration_total
    bd_device bd_gradient_sync bd_optimizer bd_idle_other]. do 4 (split; [done|]).
  pose proof (pfin_fval _ Ht) as H0. pose proof (pfin_fval _ Ha) as H1.
  destruct (Z.lt_ge_cases (fval total) (fval accounted)) as [Hlt|Hge].
  { unfold fmax. rewrite fsub_neg by done. split; [by apply pfinb_pfin|]. by split. }
  destruct (fsub_le total accounted total Ht Ha Ht) as [Hp Hle]; [lia|lia|].
  unfold fmax. destruct (flt fzero (fsub total accounted)) eqn:Hf.
  - split; [done|]. split; [done|]. intros Heq. apply pfin_zero; [done|].
    destruct (fsub_le total accounted fzero Ht Ha) as [_ Hz];
      [by apply pfinb_pfin|lia|cbn [fval fzero]; lia|].
    pose proof (pfin_fval _ Hp). cbn [fval fzero] in Hz. lia.
  - split; [by apply pfinb_pfin|]. by split.
Qed.

(** ** Witnesses *)

(** The ports of the plan that the launcher makes for both modes *)
Lemma experiment_ports_distinct_witness :
  match build_experiment_plan ["strong"; "weak"]%string "results" TINY_WORKLOAD with
  | Ret runs =>
      map ports runs = [[29600; 39200]; [29601; 39210; 39211]; [29602; 39220]; [29603; 39230; 39231]] /\
      (forall i j ri rj p, runs !! i = Some ri -> runs !! j = Some rj ->
         p ∈ ports ri -> p ∈ ports rj -> i = j) /\
      (forall r, r ∈ runs -> NoDup (ports r) /\ Forall (fun p => 1024 <= p <= 65535) (ports r))
  | Raise _ => False
  end.
Proof.
  destruct (build_experiment_plan ["strong"; "weak"]%string "results" TINY_WORKLOAD) as [runs|e] eqn:Hp.
  - split; [|eapply experiment_ports_distinct; [exact Hp|cbn; lia]].
    revert Hp. vm_compute. by intros [= <-].
  - revert Hp. by vm_compute.
Defined.

Definition demo_losses : list float := [f_lit 40 1; f_lit 31 1].
Definition demo_golden : list float := [f_lit 40 1; f_lit 30 1].
Definition demo_tolerance : float := f_lit 5 2.

Lemma loss_verdict_witness :
  Forall (fun x => is_finite x = true) demo_golden /\ is_finite demo_tolerance = true /\
  Forall (fun x => is_finite x = true) demo_losses /\
  exists k, loss_correctness_of demo_losses demo_golden demo_tolerance = Ret k /\
    (passed k = true <-> demo_losses <> [] /\ Forall2 (within demo_tolerance) demo_losses demo_golden).
Proof.
  assert (Hg : Forall (fun x => is_finite x = true) demo_golden) by (by repeat constructor).
  assert (Hl : Forall (fun x => is_finite x = true) demo_losses) by (by repeat constructor).
  split; [exact Hg|]. split; [by vm_compute|]. split; [exact Hl|].
  by apply (loss_verdict demo_losses demo_golden demo_tolerance Hg).
Defined.

(** A first step that tracks, and a second that measures 1000 where the golden run has NaN *)
Lemma nan_golden_ignored_witness :
  match loss_correctness_of [f_lit 40 1] [f_lit 40 1] demo_tolerance with
  | Ret k =>
      passed k = true /\
      exists k', loss_correctness_of ([f_lit 40 1] ++ [f_lit 1000 0]) ([f_lit 40 1] ++ [fnan])
                   demo_tolerance = Ret k' /\
        passed k' = passed k /\ max_relative_error k' = max_relative_error k
  | Raise _ => False
  end.
Proof.
  destruct (loss_correctness_of [f_lit 40 1] [f_lit 40 1] demo_tolerance) as [k|e] eqn:Hk.
  - split; [|by eapply (nan_golden_ignored _ _ (f_lit 1000 0) _ k Hk)].
    revert Hk. vm_compute. intros Hk. assert (Hk' := f_equal (fun o => match o with Ret k => passed k | _ => true end) Hk).
    symmetry. exact Hk'.
  - revert Hk. vm_compute. discriminate.
Defined.

(** An iteration of ten seconds, nine of them in phases *)
Lemma breakdown_residual_witness :
  let total := f_of_Z 10 in
  let accounted := fadd (fadd (fadd (f_of_Z 3) (f_of_Z 4)) (f_of_Z 1)) (f_of_Z 1) in
  pfin total /\ pfin accounted /\
  if flt (fsub total accounted) (fopp (f_lit 1 5))
  then exists msg, reconcile_breakdown total (f_of_Z 3) (f_of_Z 4) (f_of_Z 1) (f_of_Z 1) (f_lit 1 5)
                   = Raise (ValueError msg)
  else exists b, reconcile_breakdown total (f_of_Z 3) (f_of_Z 4) (f_of_Z 1) (f_of_Z 1) (f_lit 1 5) = Ret b /\
    bd_iteration_total b = total /\ bd_device b = fadd (f_of_Z 3) (f_of_Z 4) /\
    bd_gradient_sync b = f_of_Z 1 /\ bd_optimizer b = f_of_Z 1 /\
    pfin (bd_idle_other b) /\ fval (bd_idle_other b) <= fval total /\
    (fval total <= fval accounted -> bd_idle_other b = fzero).
Proof.
  intros total accounted.
  assert (Ht : pfin total) by (by apply pfinb_pfin; vm_compute).
  assert (Ha : pfin accounted) by (by apply pfinb_pfin; vm_compute).
  split; [exact Ht|]. split; [exact Ha|].
  exact (breakdown_residual total (f_of_Z 3) (f_of_Z 4) (f_of_Z 1) (f_of_Z 1) (f_lit 1 5) Ht Ha).
Defined.
