(* ===== verification/PlotSchema.v ===== *)
(** * The figure's input ([scripts/coord_scaling_plot/schema.py])

    Result files of the scaling experiments are checked here once, and become records of
    typed values.  [repr] and [str] of a value are parameters; they only occur in messages,
    in the mode of a row and in the descriptions of the components. *)

From S2P Require Import Prelude PyDict PyStr PyFloat FloatOrder PyJson Scaling.

(** ** Typed values *)

Definition BREAKDOWN_COMPONENTS : list string :=
  ["device_dispatch_aggregation"; "gradient_sync"; "optimizer"; "idle_other"]%string.
Definition SCALING_MODES : list string := ["strong"; "weak"]%string.
Definition DEFAULT_SUBSTRATE : json := JStr "single-host loopback/emulated devices".
Definition RECON_RTOL : float := f_lit 2 2.
Definition RECON_ATOL : float := f_lit 1 6.

Record DeviceScalingPoint : Type := mk_device_point {
  device_count : Z;
  iteration_runtime_seconds : float;
  sustained_cpu_percent : float;
  peak_cpu_percent : option float;
}.

(** The substrate is whatever value the file has. *)
Record DeviceScaling : Type := mk_device_scaling {
  substrate : json;
  logical_cpu_count : Z;
  device_points : list DeviceScalingPoint;
}.

Record EfficiencyPoint : Type := mk_efficiency_point {
  e_coordinators : Z;
  e_iteration_total_seconds : float;
  e_efficiency : float;
  e_throughput : option float;
}.

Record ScalingEfficiency : Type := mk_efficiency {
  e_mode : string;
  e_points : list EfficiencyPoint;
}.

Record BreakdownRow : Type := mk_breakdown_row {
  b_mode : string;
  b_coordinators : Z;
  b_iteration_total : float;
  b_components : list float;
}.

Record Breakdown : Type := mk_plotted_breakdown {
  b_rows : list BreakdownRow;
  b_component_semantics : list (string * string);
}.

Section parsers.
Context (repr str : json -> string).

(** ** The checks of a value *)

Definition type_name (j : json) : string :=
  match j with
  | JNull => "NoneType" | JBool _ => "bool" | JInt _ => "int" | JFloat _ => "float"
  | JStr _ => "str" | JList _ => "list" | JObj _ => "dict"
  end%string.

Definition mapping (value : json) (ctx : string) : outcome obj :=
  match value with
  | JObj d => Ret d
  | _ => Raise (SchemaError (ctx +:+ ": expected an object, got " +:+ type_name value))
  end.

Definition sequence (value : json) (ctx : string) : outcome (list json) :=
  match value with
  | JList l => Ret l
  | _ => Raise (SchemaError (ctx +:+ ": expected a list, got " +:+ type_name value))
  end.

Definition require (d : obj) (key ctx : string) : outcome json :=
  of_option (SchemaError (ctx +:+ ": missing required field '" +:+ key +:+ "'")) (dict_get key d).

Definition as_float (value : json) (ctx : string) : outcome float :=
  match value with
  | JInt z => float_of_int z
  | JFloat x => Ret x
  | _ => Raise (SchemaError (ctx +:+ ": expected a number, got " +:+ repr value))
  end.

Definition as_int (value : json) (ctx : string) : outcome Z :=
  match value with
  | JInt z => Ret z
  | _ => Raise (SchemaError (ctx +:+ ": expected an integer, got " +:+ repr value))
  end.

(** [None if value is None else as_float(value, ctx)] *)
Definition as_float_or_none (value : json) (ctx : string) : outcome (option float) :=
  match value with JNull => Ret None | _ => x ← as_float value ctx; Ret (Some x) end.

(** [a or b] *)
Definition json_or (a b : json) : json := if truthy a then a else b.

Definition row_ctx (prefix : string) (index : nat) : string :=
  prefix +:+ "[" +:+ str_of_Z (Z.of_nat index) +:+ "]".

(** ** Device scaling *)

Definition device_point (logical : Z) (row : obj) (ctx : string) (runtime : json) :
    outcome DeviceScalingPoint :=
  count ← require row "device_count" ctx; count ← as_int count ctx;
  seconds ← as_float runtime ctx;
  median ← require row "median_cpu_percent" ctx; median ← as_float median ctx;
  cpus ← float_of_int logical; sustained ← fdiv median cpus;
  peak ← as_float_or_none (jget "peak_cpu_percent" row) ctx;
  Ret (mk_device_point count seconds sustained peak).

(** The rows from [index] on; a row without a runtime is passed over *)
Fixpoint device_rows (logical : Z) (index : nat) (rows : list json) (substrate : json) :
    outcome (list DeviceScalingPoint * json) :=
  match rows with
  | [] => Ret ([], substrate)
  | entry :: rows =>
      let ctx := row_ctx "summary.rows" index in
      row ← mapping entry ctx;
      runtime ← require row "iteration_runtime_seconds" ctx;
      match runtime with
      | JNull => device_rows logical (S index) rows substrate
      | _ =>
          let substrate := json_or substrate (jget "substrate" row) in
          point ← device_point logical row ctx runtime;
          rest ← device_rows logical (S index) rows substrate;
          Ret (point :: rest.1, rest.2)
      end
  end.

Definition parse_device_scaling (data : json) : outcome DeviceScaling :=
  root ← mapping data "summary";
  environment ← require root "environment" "summary";
  environment ← mapping environment "summary.environment";
  logical ← require environment "logical_cpu_count" "summary.environment";
  logical ← as_int logical "logical_cpu_count";
  if logical <=? 0 then
    Raise (SchemaError "summary.environment.logical_cpu_count must be positive")
  else
    rows ← require root "rows" "summary"; rows ← sequence rows "summary.rows";
    parsed ← device_rows logical 0 rows (jget "host_nic_substrate" environment);
    match parsed.1 with
    | [] => Raise (MissingDataError "summary.rows has no measured device points")
    | points => Ret (mk_device_scaling (json_or parsed.2 DEFAULT_SUBSTRATE) logical
                       (sort_by (fun a b => device_count a <=? device_count b) points))
    end.

(** ** Efficiency *)

(** A point of the file: coordinators, seconds, throughput *)
Definition raw_point : Type := Z * float * option float.

Definition raw_efficiency_point (mode : string) (index : nat) (entry : json) : outcome raw_point :=
  let ctx := row_ctx (mode +:+ ".points") index in
  point ← mapping entry ctx;
  config ← require point "configuration" ctx; config ← mapping config "configuration";
  result ← require point "result" ctx; result ← mapping result "result";
  coordinators ← require config "coordinators" "configuration";
  coordinators ← as_int coordinators "coordinators";
  seconds ← require result "iteration_total_seconds" "result";
  seconds ← as_float seconds "iteration_total_seconds";
  throughput ← as_float_or_none (jget "throughput_samples_per_second" result) "result";
  Ret (coordinators, seconds, throughput).

Definition seconds_by_coord (raw : list raw_point) : pydict Z float :=
  foldl (fun d p => dict_set p.1.1 p.1.2 d) [] raw.

Definition efficiency_point (mode : string) (baseline : float) (p : raw_point) :
    outcome EfficiencyPoint :=
  let '(coordinators, seconds, throughput) := p in
  efficiency ← (if String.eqb mode "strong"
                then n ← float_of_int coordinators; fdiv baseline (fmul n seconds)
                else fdiv baseline seconds);
  Ret (mk_efficiency_point coordinators seconds efficiency throughput).

Definition parse_scaling_efficiency (data : json) (mode : string) : outcome ScalingEfficiency :=
  if negb (bool_decide (mode ∈ SCALING_MODES)) then
    Raise (SchemaError ("unknown scaling mode " +:+ repr (JStr mode)
                        +:+ "; expected ('strong', 'weak')"))
  else
    root ← mapping data mode;
    entries ← require root "points" mode; entries ← sequence entries (mode +:+ ".points");
    raw ← mapO (fun ie => raw_efficiency_point mode ie.1 ie.2) (imap pair entries);
    match raw with
    | [] => Raise (MissingDataError (mode +:+ ".points is empty"))
    | _ =>
        match dict_get 1 (seconds_by_coord raw) with
        | None => Raise (MissingDataError
                           (mode +:+ " scaling lacks the single-coordinator baseline point"))
        | Some baseline =>
            points ← mapO (efficiency_point mode baseline)
                       (sort_by (fun a b => a.1.1 <=? b.1.1) raw);
            Ret (mk_efficiency mode points)
        end
    end.

(** ** The breakdown *)

(** [sum(components)] *)
Definition fsum (l : list float) : float := foldl fadd fzero l.

(** Whether the components miss the total *)
Definition unreconciled (components : list float) (total : float) : bool :=
  flt (fadd RECON_ATOL (fmul RECON_RTOL (fabs total))) (fabs (fsub (fsum components) total)).

Definition breakdown_entry (index : nat) (entry : json) : outcome BreakdownRow :=
  let ctx := row_ctx "breakdown.rows" index in
  row ← mapping entry ctx;
  total ← require row "iteration_total" ctx; total ← as_float total ctx;
  components ← mapO (fun name => v ← require row name ctx; as_float v ctx) BREAKDOWN_COMPONENTS;
  if unreconciled components total then
    Raise (SchemaError (ctx +:+ ": components " +:+ fmt_fixed 4 (fsum components)
      +:+ "s do not reconcile with iteration_total " +:+ fmt_fixed 4 total +:+ "s"))
  else
    mode ← require row "mode" ctx;
    coordinators ← require row "coordinators" ctx; coordinators ← as_int coordinators ctx;
    Ret (mk_breakdown_row (str mode) coordinators total components).

Definition parse_breakdown (data : json) : outcome Breakdown :=
  root ← mapping data "breakdown";
  entries ← require root "rows" "breakdown"; entries ← sequence entries "breakdown.rows";
  match entries with
  | [] => Raise (MissingDataError "breakdown.rows is empty")
  | _ =>
      rows ← mapO (fun ie => breakdown_entry ie.1 ie.2) (imap pair entries);
      semantics ← mapping (dict_get_default "component_semantics" (JObj []) root)
                    "breakdown.component_semantics";
      Ret (mk_plotted_breakdown rows (map (fun kv => (kv.1, str kv.2)) semantics))
  end.
End parsers.

(** ** A rank's row parses when its breakdown reconciles *)

Lemma fle_value x y : pfin x -> pfin y -> fval x <= fval y -> fle x y = true.
Proof.
  intros Hx Hy Hle. rewrite fle_flt by (by destruct Hx as [[? ?] _], Hy as [[? ?] _], x, y).
  destruct (flt y x) eqn:Hf; [|done]. apply flt_true in Hf; [lia|apply Hy|apply Hx].
Qed.

Lemma fle_finf x : is_nan x = false -> fle x (S754_infinity false) = true.
Proof. by destruct x as [[]|[]| |[]]. Qed.

Lemma pfin_not_nan x : pfin x -> is_nan x = false.
Proof. intros [[Hf _] _]. by destruct x. Qed.

Lemma fle_not_flt x y : fle x y = true -> flt y x = false.
Proof.
  intros H. destruct (fle_not_nan _ _ H) as [Hx Hy]. rewrite fle_flt in H by done.
  by apply negb_true_iff.
Qed.

Lemma fle_fmax x y z : fle x z = true -> fle y z = true -> fle (fmax x y) z = true.
Proof. unfold fmax. by destruct (flt x y). Qed.

Lemma fabs_pfin x : pfin x -> fabs x = x.
Proof. intros Hx. by apply pfin_cases in Hx as [->|(m & e & -> & _)]. Qed.

Lemma pfin_lits : pfin (f_lit 1 9) /\ pfin RECON_ATOL /\ pfin RECON_RTOL.
Proof. split_and!; apply pfinb_pfin; by vm_compute. Qed.

(** Two numbers below one bound *)
Lemma fadd_above x y z : pfin x -> pfin y -> pfin z -> fval z <= fval x + fval y -> fle z (fadd x y) = true.
Proof.
  intros Hx Hy Hz Hle. destruct (fadd_ge x y z Hx Hy Hz Hle) as [->|[Hp Hv]].
  - by apply fle_finf, pfin_not_nan.
  - by apply fle_value.
Qed.

(** A sixty-fourth of a number above one is exact. *)
Lemma sixty_fourth x : pfin x -> one < fval x -> exists z, pfin z /\ fval z * 64 = fval x.
Proof.
  intros Hx Hlt. apply pfin_cases in Hx as [->|(m & e & -> & He & Hm & Hc)].
  { pose proof one_pos. cbn [fval fzero] in Hlt. lia. }
  cbn [fval] in Hlt. rewrite Z.mul_1_l in Hlt.
  assert (He' : -60 <= e).
  { apply Z.le_ngt. intros Hsmall.
    assert (Zpos m * 2 ^ (e - emin) < 2 ^ 53 * 2 ^ (-61 - emin)).
    { apply Z.le_lt_trans with (Zpos m * 2 ^ (-61 - emin)).
      - apply Z.mul_le_mono_nonneg_l; [lia|]. apply Z.pow_le_mono_r; lia.
      - apply Z.mul_lt_mono_pos_r; [apply Z.pow_pos_nonneg; unfold emin; lia|lia]. }
    rewrite <- Z.pow_add_r in H by (unfold emin; lia).
    assert (2 ^ (53 + (-61 - emin)) <= one); [|lia].
    unfold one. apply Z.pow_le_mono_r; unfold emin; lia. }
  exists (S754_finite false m (e - 6)). split.
  - split; [split; [done|]|done]. split_and!; [unfold emin; lia|lia|done|]. left.
    destruct Hc as [Hc|Hc]; [done|]. unfold emin in Hc. lia.
  - cbn [fval]. rewrite !Z.mul_1_l, <- Z.mul_assoc. f_equal.
    change 64 with (2 ^ 6). rewrite <- Z.pow_add_r by (unfold emin; lia). f_equal. lia.
Qed.

(** The tolerance of a breakdown ([build_rank_result]) is below the one of this file. *)
Lemma tolerance_below total :
  pfin total ->
  fle (fmax (f_lit 1 9) (fmul total (f_lit 1 6))) (fadd RECON_ATOL (fmul RECON_RTOL (fabs total))) = true.
Proof.
  intros Ht. rewrite (fabs_pfin _ Ht). destruct pfin_lits as (H9 & Ha & Hr). pose proof one_pos as H1.
  assert (Hr1 : fval RECON_RTOL <= one) by (by vm_compute).
  assert (Hr64 : one <= 64 * fval RECON_RTOL) by (by vm_compute).
  assert (Ha64 : 64 * fval RECON_ATOL <= one) by (by vm_compute).
  assert (Ht0 : 0 <= fval total) by (by apply pfin_fval).
  destruct (fmul_le RECON_RTOL total total Hr Ht Ht) as [Hp _].
  { rewrite Z.mul_comm. by apply Z.mul_le_mono_nonneg_l. }
  pose proof (pfin_fval _ Hp) as Hp0. set (y := fmul RECON_RTOL total) in *.
  apply fle_fmax; [|destruct (Z.le_gt_cases (fval total) one) as [Hle|Hgt]].
  - apply fadd_above; [done..|]. assert (fval (f_lit 1 9) <= fval RECON_ATOL) by (by vm_compute). lia.
  - destruct (fmul_le total RECON_ATOL RECON_ATOL Ht Ha Ha) as [Hq Hqv].
    { rewrite (Z.mul_comm _ one). apply Z.mul_le_mono_nonneg_r; [by apply pfin_fval|done]. }
    apply fadd_above; [done..|]. change (f_lit 1 6) with RECON_ATOL. lia.
  - destruct (sixty_fourth total Ht Hgt) as (z & Hz & Hv).
    pose proof (pfin_fval _ Hz) as Hz0.
    destruct (fmul_le total RECON_ATOL z Ht Ha Hz) as [Hq Hqv].
    { rewrite <- Hv, <- Z.mul_assoc. by apply Z.mul_le_mono_nonneg_l. }
    apply fadd_above; [done..|]. change (f_lit 1 6) with RECON_ATOL.
    assert (fval z <= fval y); [|pose proof (pfin_fval _ Ha); lia].
    assert (Hge : fval z * one <= fval RECON_RTOL * fval total).
    { rewrite (Z.mul_comm (fval RECON_RTOL)), <- Hv, <- Z.mul_assoc. by apply Z.mul_le_mono_nonneg_l. }
    destruct (fmul_ge RECON_RTOL total z Hr Ht Hz Hge) as [Hinf|[_ Hy]]; [|exact Hy].
    destruct Hp as [[Hf _] _]. subst y. by rewrite Hinf in Hf.
Qed.

(** The breakdown of a rank's result reconciles: what [reconcile_breakdown] computed of it,
    for the tolerance that [build_rank_result] gives *)
Definition reconciled (r : RankResult) : Prop :=
  pfin (Scaling.iteration_total_seconds r) /\
  pos_sign (device_dispatch_aggregation_seconds r) = true /\
  fle (fabs (fsub (fadd (fadd (fadd (device_dispatch_aggregation_seconds r) (gradient_sync_seconds r))
                              (optimizer_seconds r)) (idle_other_seconds r))
                  (Scaling.iteration_total_seconds r)))
      (fmax (f_lit 1 9) (fmul (Scaling.iteration_total_seconds r) (f_lit 1 6))) = true.

Definition components_of (r : RankResult) : list float :=
  [device_dispatch_aggregation_seconds r; gradient_sync_seconds r; optimizer_seconds r;
   idle_other_seconds r].

Lemma reconciled_components r :
  reconciled r -> unreconciled (components_of r) (Scaling.iteration_total_seconds r) = false.
Proof.
  intros (Ht & Hd & Hf). unfold unreconciled, fsum, components_of. cbn [foldl].
  rewrite fadd_zero_l by done. apply fle_not_flt.
  eapply fle_trans; [exact Hf|by apply tolerance_below].
Qed.

Lemma breakdown_entry_row repr str i mode c r :
  breakdown_entry repr str i (sort_keys (breakdown_row mode c r)) =
  if unreconciled (components_of r) (Scaling.iteration_total_seconds r)
  then Raise (SchemaError (row_ctx "breakdown.rows" i +:+ ": components "
         +:+ fmt_fixed 4 (fsum (components_of r)) +:+ "s do not reconcile with iteration_total "
         +:+ fmt_fixed 4 (Scaling.iteration_total_seconds r) +:+ "s"))
  else Ret (mk_breakdown_row (str (JStr mode)) (coordinators c) (Scaling.iteration_total_seconds r)
              (components_of r)).
Proof. reflexivity. Qed.

(** ** What the launcher writes *)

Lemma mapO_elem {A B} (f : A -> outcome B) l l' y :
  mapO f l = Ret l' -> y ∈ l' <-> exists x, x ∈ l /\ f x = Ret y.
Proof.
  revert l'. induction l as [|a l IH]; intros l'; cbn [mapO].
  { intros [= <-]. split; [by intros ?%elem_of_nil|by intros (x & ?%elem_of_nil & _)]. }
  destruct (f a) as [b|] eqn:Ha; [|done]. destruct (mapO f l) as [bs|]; [|done]. intros [= <-].
  rewrite elem_of_cons, (IH bs eq_refl). split.
  - intros [->|(x & Hx & Hf)]; [exists a; by split; [left|]|exists x; by split; [right|]].
  - intros (x & [->|Hx]%elem_of_cons & Hf); [left; congruence|right; by exists x].
Qed.

Lemma mapO_returns {A B} (f : A -> outcome B) l l' x :
  mapO f l = Ret l' -> x ∈ l -> exists y, f x = Ret y.
Proof.
  intros Hm [i Hi]%list_elem_of_lookup. revert l' i Hm Hi.
  induction l as [|a l IH]; intros l' i; cbn [mapO]; [done|].
  destruct (f a) as [b|] eqn:Ha; [|done]. destruct (mapO f l) as [bs|]; [|done]. intros _.
  destruct i as [|i]; [intros [= <-]; by exists b|]. by apply (IH bs).
Qed.

Lemma mapO_all {A B} (f : A -> outcome B) l :
  (forall x, x ∈ l -> is_ret (f x) = true) -> exists l', mapO f l = Ret l'.
Proof.
  induction l as [|a l IH]; intros Hf; cbn [mapO]; [by exists []|].
  specialize (Hf a ltac:(left)) as Ha. destruct (f a) as [b|]; [|done].
  destruct IH as (bs & ->); [intros x Hx; apply Hf; by right|]. by exists (b :: bs).
Qed.

Lemma elem_of_indexed {A} (l : list A) i x : (i, x) ∈ imap pair l -> x ∈ l.
Proof.
  intros [j Hj]%list_elem_of_lookup. rewrite list_lookup_imap in Hj.
  apply fmap_Some in Hj as (y & Hy & [= <- <-]). by apply list_elem_of_lookup_2 in Hy.
Qed.

Lemma elem_of_indexed_2 {A} (l : list A) x : x ∈ l -> exists i, (i, x) ∈ imap pair l.
Proof.
  intros [i Hi]%list_elem_of_lookup. exists i. apply list_elem_of_lookup. exists i.
  by rewrite list_lookup_imap, Hi.
Qed.

Lemma summarise_mode_mapO m points s :
  summarise_mode m points = Ret s ->
  mapO (fun p => r ← slowest (ranks p.2); mret (breakdown_row m (config p.1) r)) points = Ret s.2.
Proof.
  unfold summarise_mode. intros Hs. destruct points as [|b [|c [|]]]; try done.
  destruct (build_scaling_conclusion _ _ _ _); [|done].
  cbn [mbind outcome_bind] in Hs. change (@mret outcome _) with (@Ret) in *.
  destruct (mapO _ [b; c]) as [rows|]; [|done]. by injection Hs as <-.
Qed.

Lemma summarise_mode_rows m points s row :
  summarise_mode m points = Ret s ->
  row ∈ s.2 <-> exists p r, p ∈ points /\ slowest (ranks p.2) = Ret r /\
                            row = breakdown_row m (config p.1) r.
Proof.
  intros Hs%summarise_mode_mapO. rewrite (mapO_elem _ _ _ row Hs). split.
  - intros (p & Hp & Hr). destruct (slowest (ranks p.2)) as [r|] eqn:Hsl; [|done].
    injection Hr as <-. by exists p, r.
  - intros (p & r & Hp & Hsl & ->). exists p. by rewrite Hsl.
Qed.

(** The group of a point among the parts *)
Lemma part_of_point now inv runs results parts p :
  mapO (fun kv => s ← summarise_mode kv.1 kv.2;
                  Ret ((kv.1, mode_summary (now kv.1) inv kv.1 kv.2 s.1), s.2))
    (grouped_points (zip runs results)) = Ret parts ->
  p ∈ zip runs results ->
  exists points s, summarise_mode (mode (config p.1)) points = Ret s /\ p ∈ points /\
    s.2 ∈ map snd parts.
Proof.
  intros Hp Hin. set (points := filter (fun q : ExperimentRun * GlobalResult =>
    mode (config q.1) = mode (config p.1)) (zip runs results)).
  assert (Hg : (mode (config p.1), points) ∈ grouped_points (zip runs results)).
  { change (grouped_points (zip runs results))
      with (group_by (fun p : ExperimentRun * GlobalResult => mode (config p.1)) (zip runs results)).
    apply group_by_elem. split; [done|]. intros Hnil. apply (not_elem_of_nil p).
    rewrite <- Hnil. by apply list_elem_of_filter. }
  destruct (mapO_returns _ _ _ _ Hp Hg) as (part & Hpart).
  assert (Hin' : part ∈ parts) by (by apply (mapO_elem _ _ _ _ Hp); eexists).
  cbn [fst snd] in Hpart. destruct (summarise_mode _ points) as [s|] eqn:Hsum; [|done].
  injection Hpart as <-. exists points, s. split; [done|]. split; [by apply list_elem_of_filter|].
  apply (list_elem_of_fmap_2 snd _ _ Hin').
Qed.

Lemma written_rows now inv runs results sums j :
  write_summaries now inv runs results = Ret (sums, j) ->
  exists rows, j = breakdown_json (now "breakdown"%string) rows /\
    (forall p, p ∈ zip runs results -> exists r, slowest (ranks p.2) = Ret r) /\
    forall row, row ∈ rows <-> exists p r, p ∈ zip runs results /\ slowest (ranks p.2) = Ret r /\
                                row = breakdown_row (mode (config p.1)) (config p.1) r.
Proof.
  unfold write_summaries. destruct (mapO _ (grouped_points _)) as [parts|] eqn:Hp; [|done].
  cbn [mbind outcome_bind]. intros [= _ <-]. eexists. split; [done|]. split.
  { intros p Hin. destruct (part_of_point _ _ _ _ _ _ Hp Hin) as (points & s & Hs%summarise_mode_mapO & Hpp & _).
    destruct (mapO_returns _ _ _ _ Hs Hpp) as (row & Hr).
    destruct (slowest (ranks p.2)) as [r|]; [by exists r|done]. }
  intros row. rewrite list_elem_of_In, in_concat. setoid_rewrite <- list_elem_of_In. split.
  - intros (rs & ((key & rs') & -> & Hpart)%list_elem_of_fmap & Hrow). cbn [snd] in Hrow.
    apply (mapO_elem _ _ _ _ Hp) in Hpart as ([m points] & Hg & Hs). cbn [fst snd] in Hs.
    destruct (summarise_mode m points) as [s|] eqn:Hsum; [|done]. injection Hs as <- <-.
    apply (summarise_mode_rows _ _ _ _ Hsum) in Hrow as (p & r & Hin & Hsl & ->).
    change (grouped_points (zip runs results))
      with (group_by (fun p : ExperimentRun * GlobalResult => mode (config p.1)) (zip runs results)) in Hg.
    apply group_by_elem in Hg as [-> _]. apply list_elem_of_filter in Hin as [<- Hin]. by exists p, r.
  - intros (p & r & Hin & Hsl & ->).
    destruct (part_of_point _ _ _ _ _ _ Hp Hin) as (points & s & Hs & Hpp & Hs2).
    exists s.2. split; [done|]. apply (summarise_mode_rows _ _ _ _ Hs). by exists p, r.
Qed.

Lemma slowest_elem l r : slowest l = Ret r -> r ∈ l.
Proof.
  destruct l as [|r0 l]; [done|]. cbn [slowest]. intros [= <-]. revert r0.
  induction l as [|r1 l IH]; intros r0; cbn [foldl]; [by left|].
  specialize (IH (if flt (Scaling.iteration_total_seconds r0) (Scaling.iteration_total_seconds r1)
                  then r1 else r0)).
  destruct (flt (Scaling.iteration_total_seconds r0) (Scaling.iteration_total_seconds r1)); set_solver.
Qed.

Lemma parse_breakdown_json repr str t rows :
  rows <> [] ->
  parse_breakdown repr str (sort_keys (breakdown_json t rows)) =
  (bs ← mapO (fun ie => breakdown_entry repr str ie.1 ie.2) (imap pair (map sort_keys rows));
   Ret (mk_plotted_breakdown bs (map (fun kv => (kv.1, str kv.2))
          (default [] (as_obj (sort_keys component_semantics)))))).
Proof. by destruct rows. Qed.

(** The launcher's [breakdown.json] is accepted.  When the breakdown of every rank
    reconciles, the figure's parser accepts the file written from at least one point, and
    its rows are exactly the slowest ranks of the points, with their mode, coordinators,
    total and components. *)
Theorem breakdown_file_parses repr str now inv runs results sums j :
  write_summaries now inv runs results = Ret (sums, j) ->
  zip runs results <> [] ->
  (forall g r, g ∈ results -> r ∈ ranks g -> reconciled r) ->
  exists b, parse_breakdown repr str (sort_keys j) = Ret b /\
    forall row, row ∈ b_rows b <->
      exists p r, p ∈ zip runs results /\ slowest (ranks p.2) = Ret r /\
        row = mk_breakdown_row (str (JStr (mode (config p.1)))) (coordinators (config p.1))
                (Scaling.iteration_total_seconds r) (components_of r).
Proof.
  intros Hw Hne Hrec. destruct (written_rows _ _ _ _ _ _ Hw) as (rows & -> & Hslow & Hrows).
  assert (Hentry : forall i row, (i, row) ∈ imap pair (map sort_keys rows) ->
    exists p r, p ∈ zip runs results /\ slowest (ranks p.2) = Ret r /\
      breakdown_entry repr str i row =
      Ret (mk_breakdown_row (str (JStr (mode (config p.1)))) (coordinators (config p.1))
             (Scaling.iteration_total_seconds r) (components_of r))).
  { intros i row (row' & -> & (p & r & Hin & Hsl & ->)%Hrows)%elem_of_indexed%list_elem_of_fmap.
    exists p, r. split; [done|]. split; [done|]. rewrite breakdown_entry_row.
    rewrite reconciled_components; [done|]. destruct p as [x g]. apply (Hrec g); [|by apply slowest_elem].
    by apply elem_of_zip_r in Hin. }
  destruct (mapO_all (fun ie => breakdown_entry repr str ie.1 ie.2) (imap pair (map sort_keys rows)))
    as (bs & Hbs).
  { intros [i row] (p & r & _ & _ & He)%Hentry. cbn [fst snd]. by rewrite He. }
  exists (mk_plotted_breakdown bs (map (fun kv => (kv.1, str kv.2))
            (default [] (as_obj (sort_keys component_semantics))))).
  split.
  - destruct (zip runs results) as [|p0 ps] eqn:Hz; [done|].
    destruct (Hslow p0 ltac:(left)) as (r0 & Hr0).
    assert (Hnil : rows <> []).
    { intros ->. apply (not_elem_of_nil (breakdown_row (mode (config p0.1)) (config p0.1) r0)), Hrows.
      exists p0, r0. split; [left|done]. }
    rewrite parse_breakdown_json by done. by rewrite Hbs.
  - intros row. cbn [b_rows]. rewrite (mapO_elem _ _ _ row Hbs). split.
    + intros ([i e] & (p & r & Hin & Hsl & He)%Hentry & Hrow). cbn [fst snd] in Hrow.
      exists p, r. split; [done|]. split; [done|]. congruence.
    + intros (p & r & Hin & Hsl & ->).
      assert (Hr : breakdown_row (mode (config p.1)) (config p.1) r ∈ rows) by (apply Hrows; eauto).
      apply (list_elem_of_fmap_2 sort_keys) in Hr. destruct (elem_of_indexed_2 _ _ Hr) as (i & Hi).
      eexists. split; [exact Hi|]. cbn [fst snd].
      rewrite breakdown_entry_row, reconciled_components; [done|].
      destruct p as [x g]. apply (Hrec g); [by apply elem_of_zip_r in Hin|by apply slowest_elem].
Qed.

(** ** The efficiency of the figure and of the summary *)

Definition raw_of (p : ExperimentRun * GlobalResult) : raw_point :=
  (coordinators (config p.1), g_iteration_total_seconds p.2,
   Some (g_throughput_samples_per_second p.2)).

Lemma raw_efficiency_point_json repr m i p :
  raw_efficiency_point repr m i (sort_keys
    (JObj [("configuration", configuration_json (config p.1)); ("result", global_json p.2)]%string)) =
  Ret (raw_of p).
Proof. reflexivity. Qed.

Lemma mapO_map {A B C} (f : B -> outcome C) (k : A -> B) l :
  mapO f (map k l) = mapO (fun x => f (k x)) l.
Proof. induction l as [|a l IH]; [done|]. cbn [map mapO]. by rewrite IH. Qed.

Lemma mapO_indexed {A B C} (h : nat -> B -> outcome C) (k : A -> B) (g : A -> C) l :
  (forall i x, h i (k x) = Ret (g x)) ->
  mapO (fun ie => h ie.1 ie.2) (imap pair (map k l)) = Ret (map g l).
Proof.
  intros Hh. revert h Hh. induction l as [|a l IH]; intros h Hh; [done|].
  cbn [map imap mapO fst snd]. rewrite Hh.
  replace (imap (pair ∘ S) (map k l))
    with (map (fun ie : nat * B => (S ie.1, ie.2)) (imap pair (map k l)))
    by (change (@map (nat * B) (nat * B)) with (@fmap list _ (nat * B) (nat * B)); by rewrite fmap_imap).
  rewrite mapO_map. cbn [fst snd]. by rewrite (IH (fun i => h (S i)) (fun i => Hh (S i))).
Qed.

Lemma parse_mode_summary repr t inv m points k :
  m ∈ SCALING_MODES ->
  parse_scaling_efficiency repr (sort_keys (mode_summary t inv m points k)) m =
  match map raw_of points with
  | [] => Raise (MissingDataError (m +:+ ".points is empty"))
  | raw =>
      match dict_get 1 (seconds_by_coord raw) with
      | None => Raise (MissingDataError
                         (m +:+ " scaling lacks the single-coordinator baseline point"))
      | Some baseline =>
          ps ← mapO (efficiency_point m baseline) (sort_by (fun a b => a.1.1 <=? b.1.1) raw);
          Ret (mk_efficiency m ps)
      end
  end.
Proof.
  intros Hm. unfold parse_scaling_efficiency. rewrite bool_decide_true by done. cbn [negb].
  change (mapping (sort_keys (mode_summary t inv m points k)) m)
    with (Ret (default [] (as_obj (sort_keys (mode_summary t inv m points k))))).
  cbn [mbind outcome_bind].
  change (require _ "points" m) with (Ret (sort_keys (JList (map (fun p =>
    JObj [("configuration", configuration_json (config p.1)); ("result", global_json p.2)]%string)
    points)))).
  cbn [mbind outcome_bind sort_keys sequence]. rewrite map_map.
  rewrite (mapO_indexed (raw_efficiency_point repr m) _ raw_of) by (intros; apply raw_efficiency_point_json).
  by destruct points.
Qed.

(** A positive number divided by itself is one. *)
Lemma fdiv_self x : pfin x -> 0 < fval x -> fdiv x x = Ret (f_of_Z 1).
Proof.
  intros Hx Hpos. destruct (fdiv x x) as [q|e] eqn:Hq.
  - destruct (f_of_Z_fval 1 ltac:(lia)) as [H1 Hv1]. rewrite Z.mul_1_l in Hv1.
    destruct (fdiv_le x x (f_of_Z 1) q Hx Hx H1 Hq ltac:(lia)) as [Hp Hle].
    destruct (fdiv_ge x x (f_of_Z 1) q Hx Hx H1 Hq ltac:(lia)) as [->|[_ Hge]].
    { by destruct Hp as [[? _] _]. }
    f_equal. apply fval_inj; [done..|lia].
  - by apply pfin_cases in Hx as [->|(m & k & -> & _)].
Qed.

Lemma fmul_one_l x : pfin x -> fmul (f_of_Z 1) x = x.
Proof.
  intros Hx. destruct (f_of_Z_fval 1 ltac:(lia)) as [H1 Hv1].
  apply fmul_exact; [done..|]. rewrite Hv1. lia.
Qed.

(** The figure shows the efficiency the launcher concludes.  From the summary of a mode
    with a one-coordinator baseline that took time and a point with more coordinators, the
    parser derives exactly two points: the baseline with efficiency one, and the scaled one
    with the efficiency of the summary's conclusion. *)
Theorem plotted_efficiency_is_concluded repr t inv m base scaled s :
  summarise_mode m [base; scaled] = Ret s -> mode (config base.1) = m ->
  coordinators (config base.1) = 1 -> 1 < coordinators (config scaled.1) ->
  pfin (g_iteration_total_seconds base.2) -> 0 < fval (g_iteration_total_seconds base.2) ->
  parse_scaling_efficiency repr (sort_keys (mode_summary t inv m [base; scaled] s.1)) m =
  Ret (mk_efficiency m
    [mk_efficiency_point 1 (g_iteration_total_seconds base.2) (f_of_Z 1)
       (Some (g_throughput_samples_per_second base.2));
     mk_efficiency_point (coordinators (config scaled.1)) (g_iteration_total_seconds scaled.2)
       (efficiency s.1) (Some (g_throughput_samples_per_second scaled.2))]).
Proof.
  intros Hs Hm H1 Hn Hp Hpos. unfold summarise_mode, build_scaling_conclusion in Hs.
  destruct (fdiv (g_iteration_total_seconds base.2) _) as [sp|]; [|done].
  destruct (scaling_efficiency _ _ _ _) as [eff|] eqn:He; [|done].
  destruct (fdiv (g_throughput_samples_per_second scaled.2) _) as [ra|]; [|done].
  cbn [mbind outcome_bind] in Hs. destruct (mapO _ _) as [rows|]; [|done].
  cbn [mbind outcome_bind] in Hs. injection Hs as <-. cbn [fst efficiency].
  unfold scaling_efficiency in He. rewrite Hm in He.
  assert (Hmode : m ∈ SCALING_MODES).
  { unfold SCALING_MODES. destruct (String.eqb_spec m "strong") as [->|]; [by left|].
    destruct (String.eqb_spec m "weak") as [->|]; [by right; left|done]. }
  rewrite parse_mode_summary by done. cbn [map raw_of fst snd]. unfold seconds_by_coord.
  cbn [foldl fst snd dict_set]. unfold raw_of. cbn [fst snd]. rewrite H1.
  rewrite decide_False by lia. cbn [dict_get]. rewrite decide_True by done.
  unfold sort_by. cbn [foldr insert_by fst snd]. destruct (Z.leb_spec 1 (coordinators (config scaled.1))); [|lia].
  cbn [mapO efficiency_point]. destruct (String.eqb m "strong") eqn:Hst.
  - change (float_of_int 1) with (Ret (f_of_Z 1)). cbn [mbind outcome_bind].
    rewrite fmul_one_l, fdiv_self by done. cbn [mbind outcome_bind]. by rewrite He.
  - rewrite fdiv_self by done. cbn [mbind outcome_bind].
    destruct (String.eqb m "weak"); [by rewrite He|done].
Qed.

(** ** Types and exceptions *)

Definition boundary_error (e : exn) : Prop :=
  match e with SchemaError _ | MissingDataError _ => True | _ => False end.
(** An integer that no float can hold *)
Definition overflow_error (e : exn) : Prop :=
  match e with OverflowError _ => True | _ => False end.
Definition division_error (e : exn) : Prop :=
  match e with ZeroDivisionError _ => True | _ => False end.

Definition parse_error (e : exn) : Prop := boundary_error e \/ overflow_error e.

(** The value is a number: [x], or an integer that is [x] as a float *)
Definition is_number (v : json) (x : float) : Prop :=
  v = JFloat x \/ exists z, v = JInt z /\ float_of_int z = Ret x.

(** A missing or null value is no number. *)
Definition number_or_none (v : json) (o : option float) : Prop :=
  match v with JNull => o = None | _ => exists x, o = Some x /\ is_number v x end.

Lemma owp_mapO2 {A B} (P : A -> B -> Prop) (f : A -> outcome B) l E :
  (forall a, a ∈ l -> owp (f a) (P a) E) -> owp (mapO f l) (Forall2 P l) E.
Proof.
  induction l as [|a l IH]; intros Hf; cbn [mapO]; [constructor|].
  pose proof (Hf a ltac:(left)) as H. destruct (f a) as [b|e]; [|done].
  assert (owp (mapO f l) (Forall2 P l) E) as H' by (apply IH; intros; apply Hf; by right).
  destruct (mapO f l); cbn in *; [by constructor|done].
Qed.

(** The same over a list and its indices *)
Lemma owp_enumerate {A B} (P : A -> B -> Prop) (f : nat * A -> outcome B) l E :
  (forall i a, owp (f (i, a)) (P a) E) -> owp (mapO f (imap pair l)) (Forall2 P l) E.
Proof.
  intros Hf. eapply owp_mono; [apply (owp_mapO2 (fun ia b => P ia.2 b)); by intros [i a] _| |done].
  cbn beta. intros bs Hbs. apply Forall2_fmap_l with (f := snd) in Hbs.
  assert (Hs : forall (g : nat -> nat), snd <$> imap (fun i a => (g i, a)) l = l).
  { clear. induction l as [|a l IH]; intros g; [done|]. cbn. f_equal.
    exact (IH (fun i => g (S i))). }
  assert (Hs' : snd <$> imap pair l = l) by exact (Hs (fun i => i)).
  by rewrite Hs' in Hbs.
Qed.

Section types.
Context (repr str : json -> string).

Lemma mapping_owp v ctx : owp (mapping v ctx) (fun d => v = JObj d) parse_error.
Proof. destruct v; cbn; [by left..|done]. Qed.
Lemma sequence_owp v ctx : owp (sequence v ctx) (fun l => v = JList l) parse_error.
Proof. destruct v; cbn; try by left. done. Qed.
Lemma require_owp d key ctx : owp (require d key ctx) (fun v => dict_get key d = Some v) parse_error.
Proof. unfold require, of_option. destruct (dict_get key d); [done|by left]. Qed.
Lemma float_of_int_value z : owp (float_of_int z) (fun x => float_of_int z = Ret x) parse_error.
Proof. unfold float_of_int. destruct (f_of_Z z); cbn; try done. by right. Qed.
Lemma as_float_owp v ctx : owp (as_float repr v ctx) (is_number v) parse_error.
Proof.
  destruct v; try (by left). eapply owp_mono; [apply float_of_int_value| |done].
  intros x Hx. right. by exists z.
Qed.
Lemma as_int_owp v ctx : owp (as_int repr v ctx) (fun z => v = JInt z) parse_error.
Proof. destruct v; try done; by left. Qed.
Lemma as_float_or_none_owp v ctx : owp (as_float_or_none repr v ctx) (number_or_none v) parse_error.
Proof.
  pose proof (as_float_owp v ctx) as H. destruct v; cbn in *; try done; [|by eexists; split; [|left]].
  destruct (float_of_int z) as [x|]; [|done]. by exists x.
Qed.

(** A step of a parser: the check of a value, and the rest *)
Lemma owp_then {A B} (o : outcome A) (f : A -> outcome B) P Q (E : exn -> Prop) :
  owp o P parse_error -> (forall e, parse_error e -> E e) ->
  (forall a, P a -> owp (f a) Q E) -> owp (o ≫= f) Q E.
Proof. intros Ho HE Hf. apply owp_bind. eapply owp_mono; [exact Ho|exact Hf|exact HE]. Qed.
End types.

#[local] Hint Resolve mapping_owp sequence_owp require_owp float_of_int_value as_float_owp as_int_owp
  as_float_or_none_owp : schema.

(** Check the next value; its fact is left in the goal. *)
Ltac checked := eapply owp_then; [solve [eauto with schema]|by auto|cbn beta].

Section typed.
Context (repr str : json -> string).

Lemma fdiv_owp x y Q (E : exn -> Prop) :
  (forall q, fdiv x y = Ret q -> Q q) -> (forall e, division_error e -> E e) -> owp (fdiv x y) Q E.
Proof. intros HQ HE. destruct (fdiv x y) as [q|e] eqn:Hf; cbn; [by apply HQ|]. destruct y; try done.
  injection Hf as <-. by apply HE. Qed.

(** The point of a measured row *)
Definition point_of_row (logical : Z) (row : obj) (p : DeviceScalingPoint) : Prop :=
  dict_get "device_count"%string row = Some (JInt (device_count p)) /\
  exists runtime median x cpus,
    dict_get "iteration_runtime_seconds"%string row = Some runtime /\ runtime <> JNull /\
    is_number runtime (iteration_runtime_seconds p) /\
    dict_get "median_cpu_percent"%string row = Some median /\ is_number median x /\
    float_of_int logical = Ret cpus /\ fdiv x cpus = Ret (sustained_cpu_percent p) /\
    number_or_none (jget "peak_cpu_percent" row) (peak_cpu_percent p).

(** The rows of the file that have a runtime *)
Definition measured_row (entry : json) : option obj :=
  match entry with
  | JObj row => match dict_get "iteration_runtime_seconds"%string row with
                | Some JNull | None => None
                | Some _ => Some row
                end
  | _ => None
  end.

Lemma device_point_owp logical row ctx runtime :
  0 < logical -> dict_get "iteration_runtime_seconds"%string row = Some runtime -> runtime <> JNull ->
  owp (device_point repr logical row ctx runtime) (point_of_row logical row) parse_error.
Proof.
  intros Hl Hrt Hne. unfold device_point.
  checked; intros count Hc. checked; intros n ->. checked; intros secs Hs.
  checked; intros median Hm. checked; intros x Hx. checked; intros cpus Hcpu.
  pose proof (fdiv_pos x cpus (float_of_int_pos _ _ Hl Hcpu)) as Hd.
  destruct (fdiv x cpus) as [sustained|] eqn:Hq; [|done]. cbn [mbind outcome_bind].
  checked; intros peak Hp. cbn. split; [done|]. exists runtime, median, x, cpus. by split_and!.
Qed.

(** Every row with a runtime gives a point; the substrate is the first one named. *)
Lemma device_rows_owp logical index rows substrate :
  0 < logical ->
  owp (device_rows repr logical index rows substrate)
    (fun res => Forall2 (point_of_row logical) (omap measured_row rows) res.1 /\
       res.2 = foldl (fun s row => json_or s (jget "substrate" row)) substrate (omap measured_row rows))
    parse_error.
Proof.
  intros Hl. revert index substrate. induction rows as [|entry rows IH]; intros index substrate; cbn [device_rows].
  { by split; [constructor|]. }
  checked; intros row ->. checked; intros runtime Hrt.
  assert (runtime = JNull \/ runtime <> JNull) as [->|Hne]
    by (destruct runtime; (by left) || (by right)).
  { cbn [omap list_omap measured_row]. rewrite Hrt. apply IH. }
  assert (Hm : omap measured_row (JObj row :: rows) = row :: omap measured_row rows).
  { cbn [omap list_omap measured_row]. rewrite Hrt. by destruct runtime. }
  rewrite Hm.
  destruct runtime; [done|..]; (eapply owp_then;
    [by apply device_point_owp|done|intros point Hp;
     eapply owp_then; [apply IH|done|]]);
    intros [ps sub] [Hps Hsub]; cbn in *; (split; [by constructor|done]).
Qed.

(** Sorting by an integer key *)
Lemma sort_by_key {A} (key : A -> Z) l :
  StronglySorted (fun a b => key a <= key b) (sort_by (fun a b => key a <=? key b) l).
Proof.
  pose proof (sort_by_sorted (fun a b => key a <=? key b) ltac:(intros; cbn beta; lia)
                ltac:(cbn beta; intros; lia) l) as Hs.
  induction Hs as [|x m Hs IH Hf]; constructor; [done|]. eapply Forall_impl; [exact Hf|].
  intros y. apply Z.leb_le.
Qed.

Lemma sort_by_nonempty {A} (le : A -> A -> bool) l : l <> [] -> sort_by le l <> [].
Proof. intros Hl Hs. apply Hl. apply Permutation_nil_r. by rewrite <- (sort_by_perm le l), Hs. Qed.

(** What [parse_device_scaling] makes of a file *)
Definition device_scaling_of (data : json) (ds : DeviceScaling) : Prop :=
  0 < logical_cpu_count ds /\ device_points ds <> [] /\
  StronglySorted (fun a b => device_count a <= device_count b) (device_points ds) /\
  exists root env rows points, data = JObj root /\
    dict_get "environment"%string root = Some (JObj env) /\
    dict_get "logical_cpu_count"%string env = Some (JInt (logical_cpu_count ds)) /\
    dict_get "rows"%string root = Some (JList rows) /\
    Forall2 (point_of_row (logical_cpu_count ds)) (omap measured_row rows) points /\
    device_points ds = sort_by (fun a b => device_count a <=? device_count b) points /\
    substrate ds = json_or (foldl (fun s row => json_or s (jget "substrate" row))
      (jget "host_nic_substrate" env) (omap measured_row rows)) DEFAULT_SUBSTRATE.

Lemma parse_device_scaling_owp data :
  owp (parse_device_scaling repr data) (device_scaling_of data) parse_error.
Proof.
  unfold parse_device_scaling. checked; intros root ->. checked; intros env Henv.
  checked; intros env' ->. checked; intros lj Hlj. checked; intros logical ->.
  destruct (Z.leb_spec logical 0); [by left|]. checked; intros rj Hrj. checked; intros rows ->.
  eapply owp_then; [by apply device_rows_owp|done|]. intros [points sub] [Hp Hsub]. cbn [fst snd] in *.
  assert (points = [] \/ points <> []) as [->|Hne] by (destruct points; (by left) || (by right));
    [by left|].
  destruct points as [|p0 ps]; [done|]. cbn -[sort_by].
  split; [done|]. split; [by apply sort_by_nonempty|]. split; [apply sort_by_key|].
  exists root, env', rows, (p0 :: ps). rewrite Hsub. by split_and!.
Qed.

(** *** Efficiency *)

Definition efficiency_of (mode : string) (baseline : float) (p : EfficiencyPoint) : Prop :=
  if String.eqb mode "strong"
  then exists n, float_of_int (e_coordinators p) = Ret n /\
                 fdiv baseline (fmul n (e_iteration_total_seconds p)) = Ret (e_efficiency p)
  else fdiv baseline (e_iteration_total_seconds p) = Ret (e_efficiency p).

Definition efficiency_error (e : exn) : Prop := parse_error e \/ division_error e.

(** A point of the file *)
Definition raw_of_entry (entry : json) (p : raw_point) : Prop :=
  exists point config result seconds, entry = JObj point /\
    dict_get "configuration"%string point = Some (JObj config) /\
    dict_get "result"%string point = Some (JObj result) /\
    dict_get "coordinators"%string config = Some (JInt p.1.1) /\
    dict_get "iteration_total_seconds"%string result = Some seconds /\ is_number seconds p.1.2 /\
    number_or_none (jget "throughput_samples_per_second" result) p.2.

(** The plotted point of a point of the file *)
Definition plotted (mode : string) (baseline : float) (p : raw_point) (q : EfficiencyPoint) : Prop :=
  e_coordinators q = p.1.1 /\ e_iteration_total_seconds q = p.1.2 /\ e_throughput q = p.2 /\
  efficiency_of mode baseline q.

Lemma efficiency_point_owp mode baseline p :
  owp (efficiency_point mode baseline p) (plotted mode baseline p) efficiency_error.
Proof.
  destruct p as [[n x] t]. unfold efficiency_point, plotted, efficiency_of.
  destruct (String.eqb mode "strong").
  - pose proof (float_of_int_value n) as Hn. destruct (float_of_int n) as [c|e] eqn:Hc; [|by left].
    cbn [mbind outcome_bind]. destruct (fdiv baseline (fmul c x)) as [q|e] eqn:Hq.
    + cbn. rewrite Hc. split_and!; try done. by exists c.
    + right. destruct (fmul c x); try done. by injection Hq as <-.
  - destruct (fdiv baseline x) as [q|e] eqn:Hq; [done|]. right. destruct x; try done.
    by injection Hq as <-.
Qed.

Lemma raw_efficiency_point_owp mode i entry :
  owp (raw_efficiency_point repr mode i entry) (raw_of_entry entry) parse_error.
Proof.
  unfold raw_efficiency_point. checked; intros point ->. checked; intros config Hc. checked; intros config' ->.
  checked; intros result Hr. checked; intros result' ->. checked; intros n Hn. checked; intros n' ->.
  checked; intros sec Hs. checked; intros x Hx. checked; intros y Hy.
  exists point, config', result', sec. by split_and!.
Qed.

(** The baseline is the time of the last one-coordinator point. *)
Lemma seconds_by_coord_get k raw :
  dict_get k (seconds_by_coord raw) = (fun p => p.1.2) <$> last (filter (fun p => p.1.1 = k) raw).
Proof.
  unfold seconds_by_coord. induction raw as [|p raw IH] using rev_ind; [done|].
  rewrite foldl_app, filter_app. cbn [foldl]. rewrite dict_get_set, IH.
  destruct (decide (k = p.1.1)) as [->|Hne].
  - rewrite (filter_cons_True (fun q : raw_point => q.1.1 = p.1.1)) by done. by rewrite filter_nil, last_snoc.
  - rewrite (filter_cons_False (fun q : raw_point => q.1.1 = k)) by congruence. by rewrite filter_nil, app_nil_r.
Qed.

Lemma plotted_sorted mode baseline l ps :
  StronglySorted (fun a b => a.1.1 <= b.1.1) l -> Forall2 (plotted mode baseline) l ps ->
  StronglySorted (fun a b => e_coordinators a <= e_coordinators b) ps.
Proof.
  intros Hs Hp. revert Hs. induction Hp as [|p q l ps (Hq & _) Hp IH]; intros Hs; [constructor|].
  apply StronglySorted_inv in Hs as [Hs Hf]. constructor; [by apply IH|].
  clear IH Hs. induction Hp as [|p' q' l ps (Hq' & _) Hp IH]; [constructor|].
  apply Forall_cons in Hf as [Hle Hf]. constructor; [lia|auto].
Qed.

(** What [parse_scaling_efficiency] makes of a file *)
Definition scaling_efficiency_of (data : json) (mode : string) (se : ScalingEfficiency) : Prop :=
  e_mode se = mode /\ mode ∈ SCALING_MODES /\ e_points se <> [] /\
  StronglySorted (fun a b => e_coordinators a <= e_coordinators b) (e_points se) /\
  exists root entries raw one, data = JObj root /\
    dict_get "points"%string root = Some (JList entries) /\ Forall2 raw_of_entry entries raw /\
    last (filter (fun p => p.1.1 = 1) raw) = Some one /\
    Forall2 (plotted mode one.1.2) (sort_by (fun a b => a.1.1 <=? b.1.1) raw) (e_points se).

Lemma parse_scaling_efficiency_owp data mode :
  owp (parse_scaling_efficiency repr data mode) (scaling_efficiency_of data mode) efficiency_error.
Proof.
  unfold parse_scaling_efficiency. destruct (bool_decide_reflect (mode ∈ SCALING_MODES)) as [Hm|];
    cbn [negb]; [|by left; left].
  assert (HE : forall e, parse_error e -> efficiency_error e) by (by left).
  eapply owp_then; [apply mapping_owp|exact HE|]. intros root ->.
  eapply owp_then; [apply require_owp|exact HE|]. intros ej Hej.
  eapply owp_then; [apply sequence_owp|exact HE|]. intros entries ->.
  eapply owp_then; [apply (owp_enumerate raw_of_entry); intros; apply raw_efficiency_point_owp|exact HE|].
  intros raw Hraw. rewrite seconds_by_coord_get.
  destruct (last (filter (fun p => p.1.1 = 1) raw)) as [one|] eqn:Hone;
    [|destruct raw; by left; left].
  assert (Hne : raw <> []) by by intros ->.
  destruct raw as [|r0 raw']; [done|]. cbn [fmap option_fmap option_map].
  set (raw := r0 :: raw') in *. clearbody raw. clear r0 raw'.
  apply owp_bind. eapply owp_mono;
    [apply (owp_mapO2 (plotted mode one.1.2)); intros; apply efficiency_point_owp| |done].
  intros ps Hps. cbn. split; [done|]. split; [done|]. split.
  - cbn [e_points]. intros ->. apply Forall2_length in Hps.
    rewrite (Permutation_length (sort_by_perm _ _)) in Hps. by destruct raw.
  - split; [|by exists root, entries, raw, one].
    eapply plotted_sorted; [|exact Hps]. apply (sort_by_key (fun p : raw_point => p.1.1)).
Qed.

(** *** The breakdown *)

(** The row of an entry of the file *)
Definition row_of_entry (entry : json) (r : BreakdownRow) : Prop :=
  exists row total mode, entry = JObj row /\
    dict_get "iteration_total"%string row = Some total /\ is_number total (b_iteration_total r) /\
    Forall2 (fun name x => exists v, dict_get name row = Some v /\ is_number v x)
      BREAKDOWN_COMPONENTS (b_components r) /\
    unreconciled (b_components r) (b_iteration_total r) = false /\
    dict_get "mode"%string row = Some mode /\ b_mode r = str mode /\
    dict_get "coordinators"%string row = Some (JInt (b_coordinators r)).

Lemma breakdown_entry_owp i entry :
  owp (breakdown_entry repr str i entry) (row_of_entry entry) parse_error.
Proof.
  unfold breakdown_entry. checked; intros row ->. checked; intros tj Ht. checked; intros total Htot.
  eapply owp_then; [apply (owp_mapO2 (fun name x => exists v, dict_get name row = Some v /\ is_number v x));
    intros name _; checked; intros v Hv; eapply owp_mono; [apply as_float_owp|by eexists|done]|done|].
  intros components Hc. destruct (unreconciled components total) eqn:Hu; [by left|].
  checked; intros mj Hmj. checked; intros cj Hcj. checked; intros n ->.
  exists row, tj, mj. by split_and!.
Qed.

(** What [parse_breakdown] makes of a file *)
Definition breakdown_of (data : json) (b : Breakdown) : Prop :=
  b_rows b <> [] /\
  exists root entries semantics, data = JObj root /\ dict_get "rows"%string root = Some (JList entries) /\
    Forall2 row_of_entry entries (b_rows b) /\
    dict_get_default "component_semantics"%string (JObj []) root = JObj semantics /\
    b_component_semantics b = map (fun kv => (kv.1, str kv.2)) semantics.

Lemma parse_breakdown_owp data :
  owp (parse_breakdown repr str data) (breakdown_of data) parse_error.
Proof.
  unfold parse_breakdown. checked; intros root ->. checked; intros rj Hrj. checked; intros entries ->.
  destruct entries as [|e0 entries']; [by left|]. set (entries := e0 :: entries') in *.
  assert (Hne : entries <> []) by done. clearbody entries.
  eapply owp_then; [apply (owp_enumerate row_of_entry); intros; apply breakdown_entry_owp|done|].
  intros rows Hrows. checked; intros sem Hsem. cbn. split.
  - cbn [b_rows]. intros ->. by apply Forall2_nil_inv_r in Hrows.
  - by exists root, entries, sem.
Qed.
End typed.

(** C19: the boundary of the figure is typed, and it loses and makes up nothing.
    Each parser either returns what its file says or raises a schema error; besides
    these only an integer beyond the floats raises [OverflowError], and a zero time or
    coordinator count [ZeroDivisionError].  The device points are those of the rows
    that have a runtime, one per row, with the CPU use divided by the positive CPU
    count, in stable order of their device counts; the efficiency points are all the
    points of the file in stable order of their coordinators, with the efficiency
    against the time of the last one-coordinator point; the breakdown's rows are those
    of the file in its order, with four components that are not known to miss the
    total. *)
Theorem figure_input_typed (repr str : json -> string) (data : json) (mode : string) :
  owp (parse_device_scaling repr data) (device_scaling_of data) parse_error /\
  owp (parse_scaling_efficiency repr data mode) (scaling_efficiency_of data mode) efficiency_error /\
  owp (parse_breakdown repr str data) (breakdown_of str data) parse_error.
Proof.
  split; [apply parse_device_scaling_owp|]. split; [apply parse_scaling_efficiency_owp|].
  apply parse_breakdown_owp.
Qed.

(** ** Witnesses *)

(** A rank that took ten seconds for nine seconds of phases *)
Definition demo_rank (total : Z) : RankResult :=
  mk_rank_result 0 fzero (f_of_Z total) (f_of_Z 6) (f_of_Z 2) (f_of_Z 1)
    (fsub (f_of_Z total) (f_of_Z 9)) (f_lit 5 1) [f_lit 40 1] [f_lit 40 1]
    (mk_correctness true false true fzero).

Definition demo_result (coords total : Z) : GlobalResult :=
  mk_global coords (f_of_Z total) (f_lit 5 1) (mk_correctness true false true fzero) "loopback"
    [demo_rank total].

Definition demo_runs : list ExperimentRun :=
  imap (fun i p => plan_run "results" "strong" (Z.of_nat i) (scaling_config "strong" TINY_WORKLOAD p))
    (strong_points true).

Definition demo_results : list GlobalResult := [demo_result 1 16; demo_result 2 10].

Lemma demo_rank_reconciled total : total = 16 \/ total = 10 -> reconciled (demo_rank total).
Proof.
  intros [->| ->]; (split; [by apply pfinb_pfin; vm_compute|split; by vm_compute]).
Qed.

Lemma breakdown_file_parses_witness :
  match write_summaries (fun name => name) [] demo_runs demo_results with
  | Ret (sums, j) =>
      zip demo_runs demo_results <> [] /\
      exists b, parse_breakdown type_name type_name (sort_keys j) = Ret b /\
        forall row, row ∈ b_rows b <->
          exists p r, p ∈ zip demo_runs demo_results /\ slowest (ranks p.2) = Ret r /\
            row = mk_breakdown_row (type_name (JStr (mode (config p.1)))) (coordinators (config p.1))
                    (Scaling.iteration_total_seconds r) (components_of r)
  | Raise _ => False
  end.
Proof.
  destruct (write_summaries (fun name => name) [] demo_runs demo_results) as [[sums j]|e] eqn:Hw.
  - split; [done|]. apply (breakdown_file_parses type_name type_name (fun name => name) []
      demo_runs demo_results sums j Hw); [done|].
    intros g r [->|[->|[]%elem_of_nil]%elem_of_cons]%elem_of_cons ->%list_elem_of_singleton;
      apply demo_rank_reconciled; [by left|by right].
  - revert Hw. vm_compute. discriminate.
Defined.

Lemma plotted_efficiency_is_concluded_witness :
  match zip demo_runs demo_results with
  | [base; scaled] =>
      match summarise_mode "strong" [base; scaled] with
      | Ret s =>
          feqb (efficiency s.1) (f_lit 8 1) = true /\
          parse_scaling_efficiency type_name (sort_keys (mode_summary "now" [] "strong" [base; scaled] s.1))
            "strong" =
          Ret (mk_efficiency "strong"
            [mk_efficiency_point 1 (g_iteration_total_seconds base.2) (f_of_Z 1)
               (Some (g_throughput_samples_per_second base.2));
             mk_efficiency_point (coordinators (config scaled.1)) (g_iteration_total_seconds scaled.2)
               (efficiency s.1) (Some (g_throughput_samples_per_second scaled.2))])
      | Raise _ => False
      end
  | _ => False
  end.
Proof.
  cbn [zip zip_with demo_runs demo_results imap strong_points].
  set (base := (_, demo_result 1 16)). set (scaled := (_, demo_result 2 10)).
  assert (He : match summarise_mode "strong" [base; scaled] with
               | Ret s => feqb (efficiency s.1) (f_lit 8 1) | Raise _ => false end = true)
    by (by vm_compute).
  destruct (summarise_mode "strong" [base; scaled]) as [s|e] eqn:Hs.
  - split.
    + exact He.
    + apply (plotted_efficiency_is_concluded type_name "now" [] "strong" base scaled s Hs);
        [reflexivity|reflexivity|by vm_compute|by apply pfinb_pfin; vm_compute|by vm_compute].
  - discriminate He.
Defined.

(** A file whose points are out of order, with two runs of one coordinator *)
Definition demo_point (n seconds : Z) : json :=
  JObj [("configuration", JObj [("coordinators", JInt n)]);
        ("result", JObj [("iteration_total_seconds", JInt seconds)])]%string.

Definition demo_file : json :=
  JObj [("points", JList [demo_point 4 3; demo_point 1 9; demo_point 2 5; demo_point 1 10])]%string.

Lemma figure_input_typed_witness :
  match parse_scaling_efficiency type_name demo_file "strong" with
  | Ret se => scaling_efficiency_of demo_file "strong" se /\
      map e_coordinators (e_points se) = [1; 1; 2; 4] /\
      map e_efficiency (e_points se) =
        match mapO (fun n => fdiv (f_of_Z 10) (f_of_Z n)) [9; 10; 10; 12] with Ret l => l | _ => [] end
  | Raise _ => False
  end.
Proof.
  destruct (figure_input_typed type_name type_name demo_file "strong") as (_ & He & _).
  destruct (parse_scaling_efficiency type_name demo_file "strong") as [se|e] eqn:Hp.
  - split; [exact He|]. vm_compute in Hp. injection Hp as <-. split; vm_compute; reflexivity.
  - vm_compute in Hp. discriminate Hp.
Defined.
