(* ===== verification/CoordScaling.v ===== *)
(** * Scaling of one coordinator ([scripts/coordinator_scaling_*.py],
      [scripts/run_coordinator_scaling.py])

    The metrics file of a run becomes a measurement, the measurements of the repetitions an
    aggregate per device count, and the aggregates a summary with an assessment of
    saturation.  [json.loads], which fails with a message, and [str] of a value that is no
    string are parameters. *)

From Stdlib Require Import Ascii.
From S2P Require Import Prelude PyDict PyStr PyFloat FloatOrder PyJson Scaling PlotSchema.

(** ** The [statistics] module *)

(** [sorted] on floats; without NaN every stable sort gives this order *)
Definition fsorted (l : list float) : list float := sort_by (fun x y => negb (flt y x)) l.

(** [statistics.median] *)
Definition median (l : list float) : outcome float :=
  let data := fsorted l in
  let n := length data in
  match n with
  | O => Raise (ValueError "no median for empty data")
  | _ =>
      if Nat.odd n then of_option (IndexError "list index out of range") (data !! (n / 2)%nat)
      else match data !! (n / 2 - 1)%nat, data !! (n / 2)%nat with
           | Some x, Some y => fdiv (fadd x y) (f_of_Z 2)
           | _, _ => Raise (IndexError "list index out of range")
           end
  end.

(** [statistics.mean] of floats: the exact sum, divided by their number and rounded once;
    when some are not finite, the float sum of these, divided *)
Definition mean (l : list float) : outcome float :=
  match l with
  | [] => Raise (ValueError "mean requires at least one data point")
  | _ =>
      let n := Z.of_nat (length l) in
      if forallb is_finite l
      then int_truediv (foldl (fun s x => s + fval x) 0 l) (n * one)
      else fdiv (foldl fadd fzero (filter (fun x => is_finite x = false) l)) (f_of_Z n)
  end.

(** [statistics.mean] of integers: an integer when the quotient is one *)
Definition mean_int (l : list Z) : outcome json :=
  match l with
  | [] => Raise (ValueError "mean requires at least one data point")
  | _ =>
      let n := Z.of_nat (length l) in
      let s := sum_list l in
      if s mod n =? 0 then Ret (JInt (s / n)) else x ← int_truediv s n; Ret (JFloat x)
  end.

(** ** A run ([coordinator_scaling_analysis.py]) *)

Record RunMeasurement : Type := mk_measured {
  iteration_runtime_seconds : option float;
  peak_cpu_percent : option float;
  median_cpu_percent : option float;
  peak_rss_bytes : option Z;
  peak_nic_tx : option float;
  median_nic_tx : option float;
  peak_nic_rx : option float;
  median_nic_rx : option float;
  phase_counts : pydict string Z;
  phase_durations : pydict string float;
  error : option string;
  warnings : list string;
}.

Definition empty_measurement (error : string) (warnings : list string) : RunMeasurement :=
  mk_measured None None None None None None None None [] [] (Some error) warnings.

(** [text.splitlines()], of a text whose newlines are translated *)
Definition is_line_break (c : ascii) : bool :=
  let n := N_of_ascii c in ((n =? 11) || (n =? 12) || ((28 <=? n) && (n <=? 30)))%N.
Definition splitlines (s : string) : list string :=
  file_lines (map_str (fun c => if is_line_break c then "010"%char else c) (universal_newlines s)).

Section runs.
Context (loads : string -> json + string) (str_other : json -> string).

(** [str] *)
Definition str (j : json) : string := match j with JStr s => s | _ => str_other j end.

(** The lines that are not blank, with their numbers *)
Definition numbered_lines (text : string) : list (Z * string) :=
  filter (fun p => negb (is_empty (strip p.2)) = true)
    (imap (fun i line => (Z.of_nat i + 1, line)) (splitlines text)).

(** The records and the warnings, or the message of a malformed line that is not the last *)
Fixpoint read_records (lines : list (Z * string)) : list json * list string + string :=
  match lines with
  | [] => inl ([], [])
  | (number, line) :: rest =>
      match loads line with
      | inl record =>
          match read_records rest with
          | inl (records, warnings) => inl (record :: records, warnings)
          | inr e => inr e
          end
      | inr msg =>
          match rest with
          | [] => inl ([], ["trailing partial metrics JSONL record at line " +:+ str_of_Z number
                            +:+ ": " +:+ msg])
          | _ => inr ("malformed metrics JSONL at line " +:+ str_of_Z number +:+ ": " +:+ msg)
          end
      end
  end%string.

(** [record.get(key, default)] *)
Definition get_or (key : string) (default : json) (record : json) : outcome json :=
  match record with
  | JObj d => Ret (dict_get_default key default d)
  | _ => Raise (AttributeError "object has no attribute 'get'")
  end.

Definition has_type (name : string) (record : json) : outcome bool :=
  t ← get_or "record_type" JNull record;
  Ret match t with JStr s => String.eqb s name | _ => false end.

(** [j > 0] *)
Definition positive_number (j : json) : outcome bool :=
  match j with
  | JBool b => Ret b
  | JInt z => Ret (0 <? z)
  | JFloat x => Ret (flt fzero x)
  | _ => Raise (TypeError "'>' not supported between instances")
  end.

(** [sample.get("phase_counts", {}).get("iteration_total", 0) > 0] *)
Definition is_measured (sample : json) : outcome bool :=
  counts ← get_or "phase_counts" (JObj []) sample;
  n ← get_or "iteration_total" (JInt 0) counts;
  positive_number n.

(** [[x for x in l if p(x)]] *)
Fixpoint filterO {A} (p : A -> outcome bool) (l : list A) : outcome (list A) :=
  match l with
  | [] => Ret []
  | x :: l =>
      match p x with
      | Ret b => xs ← filterO p l; Ret (if (b : bool) then x :: xs else xs)
      | Raise e => Raise e
      end
  end.

Definition terminal_text (terminal : json) : outcome string :=
  t ← json_item "error_type" terminal; m ← json_item "error_message" terminal;
  Ret (str t +:+ ": " +:+ str m).

(** [{name: convert(v) for name, v in final[key].items()}] *)
Definition converted_items {V} (convert : json -> outcome V) (key : string) (final : json) :
    outcome (pydict string V) :=
  d ← json_item key final;
  match d with
  | JObj d => mapO (fun kv => v ← convert kv.2; Ret (kv.1, v)) d
  | _ => Raise (AttributeError "object has no attribute 'items'")
  end.

(** [float(sample[key])] of every sample *)
Definition values_of (key : string) (measured : list json) : outcome (list float) :=
  mapO (float_item key) measured.

Definition peak_of (key : string) (measured : list json) : outcome float :=
  l ← values_of key measured; max_of l.
Definition median_of (key : string) (measured : list json) : outcome float :=
  l ← values_of key measured; median l.

(** The measurement from the samples with an iteration, the last of which is [final] *)
Definition measure (measured : list json) (final : json) (error : outcome (option string))
    (warnings : list string) : outcome RunMeasurement :=
  counts ← converted_items py_int "phase_counts" final;
  durations ← converted_items py_float "phase_durations_seconds" final;
  let n := dict_get_default "iteration_total"%string 0 counts in
  let total := dict_get_default "iteration_total"%string fzero durations in
  error ← error;
  runtime ← (if 0 <? n then f ← float_of_int n; x ← fdiv total f; Ret (Some x) else Ret None);
  peak_cpu ← peak_of "process_cpu_percent" measured;
  median_cpu ← median_of "process_cpu_percent" measured;
  rss ← mapO (fun s => v ← json_item "rss_bytes" s; py_int v) measured;
  rss ← of_option (ValueError "max() arg is an empty sequence") (max_list rss);
  peak_tx ← peak_of "nic_tx_bytes_per_sec" measured;
  median_tx ← median_of "nic_tx_bytes_per_sec" measured;
  peak_rx ← peak_of "nic_rx_bytes_per_sec" measured;
  median_rx ← median_of "nic_rx_bytes_per_sec" measured;
  Ret (mk_measured runtime (Some peak_cpu) (Some median_cpu) (Some rss) (Some peak_tx)
         (Some median_tx) (Some peak_rx) (Some median_rx) counts durations error warnings).

(** What is made of the records *)
Definition of_records (records : list json) (warnings : list string) : outcome RunMeasurement :=
  terminal_errors ← filterO (has_type "terminal_error") records;
  samples ← filterO (has_type "sample") records;
  measured ← filterO is_measured samples;
  match last measured with
  | None =>
      match last terminal_errors with
      | Some terminal => e ← terminal_text terminal; Ret (empty_measurement e warnings)
      | None => Ret (empty_measurement "no measured iteration samples" warnings)
      end
  | Some final =>
      measure measured final
        match last terminal_errors with
        | Some terminal => e ← terminal_text terminal; Ret (Some e)
        | None => Ret None
        end warnings
  end.

Definition parse_metrics_jsonl (text : string) : outcome RunMeasurement :=
  match read_records (numbered_lines text) with
  | inr message => Ret (empty_measurement message [])
  | inl (records, warnings) => of_records records warnings
  end.
End runs.

(** ** The repetitions of a device count *)

Record ScalingAggregate : Type := mk_aggregate {
  a_device_count : Z;
  a_repetitions : Z;
  a_successful_repetitions : Z;
  a_iteration_runtime_seconds : option float;
  a_peak_cpu_percent : option float;
  a_median_cpu_percent : option float;
  a_peak_rss_bytes : option Z;
  a_peak_nic_tx : option float;
  a_median_nic_tx : option float;
  a_peak_nic_rx : option float;
  a_median_nic_rx : option float;
  a_phase_counts : pydict string json;
  a_phase_durations : pydict string float;
}.

Definition mean_present (values : list (option float)) : outcome (option float) :=
  match omap id values with
  | [] => Ret None
  | present => m ← mean present; Ret (Some m)
  end.

(** [max] of a list that may hold [None] *)
Definition max_step (best : option float) (x : option float) : outcome (option float) :=
  match best, x with
  | Some b, Some x => Ret (Some (fmax b x))
  | _, _ => Raise (TypeError "'>' not supported between instances")
  end.
Definition max_values (l : list (option float)) : outcome (option float) :=
  match l with [] => Ret None | x :: l => foldO max_step l x end.

(** [x or 0.0] *)
Definition or_zero (x : option float) : float :=
  match x with Some x => if ftruthy x then x else fzero | None => fzero end.

(** [max(..., default=0.0) if successful else None] *)
Definition peak_present (l : list (option float)) : option float :=
  match l with [] => None | _ => fmax_list (map or_zero l) end.

(** The sorted keys of all the dictionaries *)
Definition names {V} (l : list (pydict string V)) : list string :=
  sort_by String.leb (remove_dups (concat (map dict_keys l))).

Definition is_successful (p : RunMeasurement * Z) : bool :=
  (p.2 =? 0) && match error p.1 with None => true | Some _ => false end
  && match iteration_runtime_seconds p.1 with Some _ => true | None => false end.

Definition aggregate_repetitions (device_count : Z) (measurements : list RunMeasurement)
    (exit_statuses : list Z) : outcome ScalingAggregate :=
  let successful := map fst (filter (fun p => is_successful p = true)
                               (zip measurements exit_statuses)) in
  let rss := omap peak_rss_bytes successful in
  runtime ← mean_present (map iteration_runtime_seconds successful);
  peak_cpu ← max_values (map peak_cpu_percent successful);
  median_cpu ← mean_present (map median_cpu_percent successful);
  median_tx ← mean_present (map median_nic_tx successful);
  median_rx ← mean_present (map median_nic_rx successful);
  counts ← mapO (fun name =>
      m ← mean_int (map (fun s => dict_get_default name 0 (phase_counts s)) successful);
      Ret (name, m)) (names (map phase_counts successful));
  durations ← mapO (fun name =>
      m ← mean (map (fun s => dict_get_default name fzero (phase_durations s)) successful);
      Ret (name, m)) (names (map phase_durations successful));
  Ret (mk_aggregate device_count (Z.of_nat (length measurements)) (Z.of_nat (length successful))
         runtime peak_cpu median_cpu (max_list rss) (peak_present (map peak_nic_tx successful))
         median_tx (peak_present (map peak_nic_rx successful)) median_rx counts durations).

(** ** Saturation ([coordinator_scaling_conclusions.py]) *)

Record ScalingPoint : Type := mk_point {
  p_device_count : Z;
  p_iteration_runtime_seconds : float;
  p_median_cpu_percent : float;
  p_peak_cpu_percent : float;
}.

Record SaturationAssessment : Type := mk_assessment {
  runtime_plateau_observed : bool;
  resource_saturation_observed : bool;
  median_cpu_normalized_percent : float;
  peak_cpu_normalized_percent : float;
  bottleneck : string;
  runtime_plateau_criterion : string;
  resource_saturation_criterion : string;
}.

Definition runtime_criterion : string :=
  "largest-device iteration runtime is at least 95% of the preceding point".
Definition resource_criterion : string :=
  "largest-device median process CPU is at least 90% of logical host CPU capacity".

(** The last two points, in the order given *)
Definition assess_saturation (points : list ScalingPoint) (logical_cpu_count : Z) :
    outcome SaturationAssessment :=
  match rev points with
  | current :: previous :: _ =>
      if (logical_cpu_count <=? 0)%Z then
        Ret (mk_assessment false false fzero fzero
               "none within measured range through local emulated devices"
               runtime_criterion resource_criterion)
      else
        cpus ← float_of_int logical_cpu_count;
        median_normalized ← fdiv (p_median_cpu_percent current) cpus;
        peak_normalized ← fdiv (p_peak_cpu_percent current) cpus;
        ratio ← fdiv (p_iteration_runtime_seconds current) (p_iteration_runtime_seconds previous);
        let plateau := fle (f_lit 95 2) ratio in
        let saturated := fle (f_of_Z 90) median_normalized in
        Ret (mk_assessment plateau saturated median_normalized peak_normalized
               (if plateau && saturated then "coordinator CPU"
                else if plateau then "coordinator-side host work / specific resource unisolated"
                else "none within measured range through " +:+ str_of_Z (p_device_count current)
                     +:+ " local emulated devices")
               runtime_criterion resource_criterion)
  | _ => Ret (mk_assessment false false fzero fzero
                "none within measured range through local emulated devices"
                runtime_criterion resource_criterion)
  end%string.

(** ** The sweep ([run_coordinator_scaling.py], [coordinator_scaling_execution.py]) *)

Definition BASE_PORT : Z := 39100.
Definition SUBSTRATE : string := "single-host loopback/emulated devices".

(** [PortAllocationError] is a [ValueError]. *)
Definition port_for_run (run_index : Z) : outcome Z :=
  let port := BASE_PORT + run_index in
  if (run_index <? 0) || (65535 <? port)
  then Raise (ValueError ("run index " +:+ str_of_Z run_index +:+ " exceeds port range"))
  else Ret port.

Record RunSpec : Type := mk_spec {
  s_device_count : Z;
  s_repetition : Z;
  s_port : Z;
  run_directory : string;
  container_directory : string;
}.

Definition docker_container_name (run : RunSpec) : string :=
  "morphling-d2-d" +:+ str_of_Z (s_device_count run) +:+ "-r" +:+ str_of_Z (s_repetition run)
  +:+ "-p" +:+ str_of_Z (s_port run).

(** [metrics_interval] is the text of the interval. *)
Definition build_inner_command (run : RunSpec) (metrics_interval : string) : list string :=
  ["python3"; "scripts/run_single_coordinator_training.py"; "--num_devices";
   str_of_Z (s_device_count run); "--model_name"; "facebook/opt-125m"; "--steps"; "3";
   "--warmup_steps"; "1"; "--batch_size"; "1"; "--seq_length"; "32"; "--block_size"; "256";
   "--cfg"; path_append (container_directory run) "proxy.ini";
   "--metrics_output"; path_append (container_directory run) "metrics.jsonl";
   "--metrics_interval"; metrics_interval; "--metrics_nics"; "lo"]%string.

Definition build_docker_command (run : RunSpec) (output_root image metrics_interval : string) :
    list string :=
  ["docker"; "run"; "--rm"; "--name"; docker_container_name run; "--gpus"; "all"; "--ulimit";
   "memlock=-1"; "--ipc"; "host"; "-v"; output_root +:+ ":/scaling-output"; "-e";
   "CFG_PATH=" +:+ path_append (container_directory run) "proxy.ini"; image]%string
  ++ build_inner_command run metrics_interval.

(** How the process of a run ends: an exit status with its output, or a timeout with the
    output so far, if any.  [subprocess] documents that the latter is bytes whatever [text]
    says, which [write_text] refuses. *)
Inductive process_end : Type :=
  | completed (status : Z) (stdout stderr : string)
  | timeout_expired (stdout stderr : option string).

Definition process_status (e : process_end) : Z :=
  match e with completed status _ _ => status | timeout_expired _ _ => 124 end.
Definition process_timed_out (e : process_end) : bool :=
  match e with completed _ _ _ => false | timeout_expired _ _ => true end.

(** [write_text] of [bytes or ""] *)
Definition write_bytes (output : option string) : outcome string :=
  match output with
  | Some (String _ _) => Raise (TypeError "data must be str, not bytes")
  | _ => Ret ""%string
  end.
(** [stdout.log] and [stderr.log] *)
Definition write_logs (e : process_end) : outcome (string * string) :=
  match e with
  | completed _ stdout stderr => Ret (stdout, stderr)
  | timeout_expired stdout stderr =>
      out ← write_bytes stdout; err ← write_bytes stderr; Ret (out, err)
  end.

(** What [run_command] runs and writes: the command, the [CFG_PATH] of its environment (the
    inherited one has none), the command that removes the container, the configuration, and
    the logs with the result *)
Record command_run : Type := mk_command_run {
  r_command : list string;
  r_cfg_path : option string;
  r_removal : option (list string);
  proxy_ini : string;
  logs_and_result : outcome (string * string * json);
}.

Definition run_configuration (run : RunSpec) (interval : float) (config_text : string) : json :=
  JObj [("device_count", JInt (s_device_count run)); ("repetition", JInt (s_repetition run));
        ("port", JInt (s_port run)); ("model", JStr "facebook/opt-125m"); ("batch_size", JInt 1);
        ("sequence_length", JInt 32); ("block_size", JInt 256); ("warmup_optimizer_steps", JInt 1);
        ("measured_optimizer_steps", JInt 3); ("worker_thread_count", JInt 56);
        ("metrics_interval_seconds", JFloat interval); ("metrics_nics", JList [JStr "lo"]);
        ("proxy_config", JStr config_text)]%string.

(** [config_text] is the rendered configuration, [interval_text] the text of [interval],
    [output_root] the resolved root; [process command cfg_path] is what [subprocess.run] does. *)
Definition run_command (process : list string -> option string -> process_end) (run : RunSpec)
    (output_root image : string) (interval : float) (interval_text config_text : string)
    (inside_docker : bool) (started finished : string) : command_run :=
  let command := if inside_docker then build_inner_command run interval_text
                 else build_docker_command run output_root image interval_text in
  let cfg_path := if inside_docker
                  then Some (path_append (container_directory run) "proxy.ini") else None in
  let ended := process command cfg_path in
  mk_command_run command cfg_path
    (if process_timed_out ended && negb inside_docker
     then Some ["docker"; "rm"; "-f"; docker_container_name run]%string else None)
    config_text
    (logs ← write_logs ended;
     Ret (logs, JObj [("command", JList (map JStr command));
           ("config", run_configuration run interval config_text);
           ("started_at", JStr started); ("finished_at", JStr finished);
           ("exit_status", JInt (process_status ended));
           ("timed_out", JBool (process_timed_out ended)); ("substrate", JStr SUBSTRATE);
           ("real_vs_emulated", JStr "real coordinator process; emulated devices")]%string)).

Definition run_of (output_dir : string) (inside_docker : bool) (index device_count repetition : Z) :
    outcome RunSpec :=
  let relative := path_append ("devices-" +:+ str_of_Z device_count)
                              ("rep-" +:+ str_of_Z repetition) in
  port ← port_for_run index;
  Ret (mk_spec device_count repetition port (path_append output_dir relative)
         (path_append (if inside_docker then output_dir else "/scaling-output") relative)).

(** The runs of the sweep, in order; a failure to allocate a port stops it (the
    runs before it have been made by then) *)
Definition sweep (output_dir : string) (inside_docker : bool) (device_counts : list Z)
    (repetitions : Z) : outcome (list RunSpec) :=
  mapO (fun iv => run_of output_dir inside_docker (Z.of_nat iv.1) iv.2.1 iv.2.2)
    (imap pair (concat (map (fun d => map (pair d) (seqZ 1 repetitions)) device_counts))).

(** ** The summary ([_load_run], [_write_summary]) *)

Definition failed_measurement (error : string) : RunMeasurement := empty_measurement error [].

(** What a run's directory holds: [result.json] and the text of [metrics.jsonl] *)
Record run_files : Type := mk_run_files { result_file : option json; metrics_file : option string }.

Record loaded_run : Type := mk_loaded {
  measurement : RunMeasurement; exit_status : Z; evidence : json }.

Definition json_of_option {A} (f : A -> json) (o : option A) : json :=
  match o with Some a => f a | None => JNull end.

Definition measurement_json (m : RunMeasurement) : json :=
  JObj [("iteration_runtime_seconds", json_of_option JFloat (iteration_runtime_seconds m));
        ("peak_cpu_percent", json_of_option JFloat (peak_cpu_percent m));
        ("median_cpu_percent", json_of_option JFloat (median_cpu_percent m));
        ("peak_rss_bytes", json_of_option JInt (peak_rss_bytes m));
        ("peak_nic_tx_bytes_per_sec", json_of_option JFloat (peak_nic_tx m));
        ("median_nic_tx_bytes_per_sec", json_of_option JFloat (median_nic_tx m));
        ("peak_nic_rx_bytes_per_sec", json_of_option JFloat (peak_nic_rx m));
        ("median_nic_rx_bytes_per_sec", json_of_option JFloat (median_nic_rx m));
        ("phase_counts", JObj (map (fun kv => (kv.1, JInt kv.2)) (phase_counts m)));
        ("phase_durations_seconds", JObj (map (fun kv => (kv.1, JFloat kv.2)) (phase_durations m)));
        ("error", json_of_option JStr (error m)); ("warnings", JList (map JStr (warnings m)))]%string.

(** A row: the fields of the aggregate, the runs and the substrate *)
Definition row_json (a : ScalingAggregate) (runs : list loaded_run) : json :=
  JObj [("device_count", JInt (a_device_count a)); ("repetitions", JInt (a_repetitions a));
        ("successful_repetitions", JInt (a_successful_repetitions a));
        ("iteration_runtime_seconds", json_of_option JFloat (a_iteration_runtime_seconds a));
        ("peak_cpu_percent", json_of_option JFloat (a_peak_cpu_percent a));
        ("median_cpu_percent", json_of_option JFloat (a_median_cpu_percent a));
        ("peak_rss_bytes", json_of_option JInt (a_peak_rss_bytes a));
        ("peak_nic_tx_bytes_per_sec", json_of_option JFloat (a_peak_nic_tx a));
        ("median_nic_tx_bytes_per_sec", json_of_option JFloat (a_median_nic_tx a));
        ("peak_nic_rx_bytes_per_sec", json_of_option JFloat (a_peak_nic_rx a));
        ("median_nic_rx_bytes_per_sec", json_of_option JFloat (a_median_nic_rx a));
        ("phase_counts", JObj (a_phase_counts a));
        ("phase_durations_seconds", JObj (map (fun kv => (kv.1, JFloat kv.2)) (a_phase_durations a)));
        ("runs", JList (map (fun r => JObj [("exit_status", JInt (exit_status r));
            ("measurement", measurement_json (measurement r)); ("evidence", evidence r)]) runs));
        ("substrate", JStr SUBSTRATE)]%string.

Definition saturation_json (s : SaturationAssessment) : json :=
  JObj [("runtime_plateau_observed", JBool (runtime_plateau_observed s));
        ("resource_saturation_observed", JBool (resource_saturation_observed s));
        ("median_cpu_normalized_percent", JFloat (median_cpu_normalized_percent s));
        ("peak_cpu_normalized_percent", JFloat (peak_cpu_normalized_percent s));
        ("bottleneck", JStr (bottleneck s));
        ("runtime_plateau_criterion", JStr (runtime_plateau_criterion s));
        ("resource_saturation_criterion", JStr (resource_saturation_criterion s))]%string.

(** The point of an aggregate that measured everything *)
Definition point_of (device_count : Z) (a : ScalingAggregate) : option ScalingPoint :=
  match a_iteration_runtime_seconds a, a_median_cpu_percent a, a_peak_cpu_percent a with
  | Some runtime, Some median, Some peak => Some (mk_point device_count runtime median peak)
  | _, _, _ => None
  end.

Section summary.
Context (loads : string -> json + string) (str_other : json -> string).

Definition load_run (files : run_files) : outcome loaded_run :=
  match result_file files with
  | None =>
      let error := "run result is unavailable"%string in
      Ret (mk_loaded (failed_measurement error) 125 (JObj [("error", JStr error)]%string))
  | Some result =>
      m ← match metrics_file files with
          | Some text => parse_metrics_jsonl loads str_other text
          | None => Ret (failed_measurement "metrics JSONL is unavailable")
          end;
      status ← json_item "exit_status" result; status ← py_int status;
      Ret (mk_loaded m status result)
  end.

(** [files device_count repetition] *)
Definition summarise_device (files : Z -> Z -> run_files) (repetitions device_count : Z) :
    outcome (ScalingAggregate * list loaded_run) :=
  loaded ← mapO (fun repetition => load_run (files device_count repetition)) (seqZ 1 repetitions);
  a ← aggregate_repetitions device_count (map measurement loaded) (map exit_status loaded);
  Ret (a, loaded).

Definition scaling_points (parts : list (ScalingAggregate * list loaded_run)) : list ScalingPoint :=
  omap (fun p => point_of (a_device_count p.1) p.1) parts.

(** The constant texts of the summary *)
Definition limitations : list string :=
  ["queue occupancy is unavailable in the current backend"; "worker thread count is fixed at 56";
   "coordinator process CPU includes local non-GEMM model work and optimizer execution";
   "single host and loopback networking do not represent a physical edge network";
   "results cover the measured range through 8 local emulated devices and do not establish a host real-connection limit";
   "one or few repetitions bound repeatability and do not establish tail distributions"]%string.

Definition summary_configuration (image : string) (device_counts : list Z) (repetitions : Z) : json :=
  JObj [("image", JStr image); ("device_counts", JList (map JInt device_counts));
        ("repetitions", JInt repetitions); ("model", JStr "facebook/opt-125m");
        ("batch_size", JInt 1); ("sequence_length", JInt 32); ("block_size", JInt 256);
        ("warmup_optimizer_steps", JInt 1); ("measured_optimizer_steps", JInt 3);
        ("worker_thread_count", JInt 56); ("metrics_nic", JStr "lo");
        ("aggregate_phase_semantics",
          JStr "per-repetition mean across successful repetitions; raw per-run totals retained in rows[].runs")]%string.

Definition summary_environment (logical_cpu_count : Z) : json :=
  JObj [("real_vs_emulated", JStr "real coordinator process; emulated devices");
        ("host_nic_substrate", JStr SUBSTRATE); ("logical_cpu_count", JInt logical_cpu_count);
        ("worker_thread_count", JInt 56);
        ("coordinator_cpu_scope",
          JStr "coordinator process CPU includes local non-GEMM model work and optimizer execution")]%string.

(** [cpu_count] is [os.cpu_count()]. *)
Definition write_summary (cpu_count : option Z) (files : Z -> Z -> run_files)
    (timestamp image : string) (invocation : list string) (device_counts : list Z) (repetitions : Z) :
    outcome json :=
  let logical := match cpu_count with Some 0 | None => 1 | Some n => n end in
  parts ← mapO (summarise_device files repetitions) device_counts;
  saturation ← assess_saturation (scaling_points parts) logical;
  Ret (JObj [("schema_version", JInt 1);
         ("experiment", JStr "D2 measured single-coordinator operating envelope");
         ("timestamp", JStr timestamp); ("invocation", JList (map JStr invocation));
         ("configuration", summary_configuration image device_counts repetitions);
         ("environment", summary_environment logical); ("saturation", saturation_json saturation);
         ("observed_bottleneck", JStr (bottleneck saturation));
         ("limitations", JList (map JStr limitations));
         ("rows", JList (map (fun p => row_json p.1 p.2) parts))]%string).
End summary.

(** ** What a measurement holds *)

(** Either everything is measured, or nothing is and there is an error. *)
Definition complete (m : RunMeasurement) : Prop :=
  is_Some (peak_cpu_percent m) /\ is_Some (median_cpu_percent m) /\ is_Some (peak_rss_bytes m) /\
  is_Some (peak_nic_tx m) /\ is_Some (median_nic_tx m) /\ is_Some (peak_nic_rx m) /\
  is_Some (median_nic_rx m).

Definition well_measured (m : RunMeasurement) : Prop :=
  complete m \/ iteration_runtime_seconds m = None /\ is_Some (error m).

Lemma empty_well_measured e w : well_measured (empty_measurement e w).
Proof. right. by split. Qed.

(** The value of a sequence of steps *)
Lemma bind_Ret {A B} (o : outcome A) (f : A -> outcome B) b :
  o ≫= f = Ret b -> exists a, o = Ret a /\ f a = Ret b.
Proof. destruct o as [a|]; [by exists a|done]. Qed.

Ltac steps H := repeat (apply bind_Ret in H as (? & _ & H)).

Lemma measure_complete measured final error warnings m :
  measure measured final error warnings = Ret m -> complete m.
Proof. unfold measure. intros H. steps H. injection H as <-. by split_and!. Qed.

Section shape.
Context (loads : string -> json + string) (str_other : json -> string).

Lemma parse_well_measured text m :
  parse_metrics_jsonl loads str_other text = Ret m -> well_measured m.
Proof.
  unfold parse_metrics_jsonl, of_records. destruct (read_records loads _) as [[records warnings]|e].
  - intros H. do 3 apply bind_Ret in H as (? & _ & H).
    destruct (last _); [by left; eapply measure_complete|].
    destruct (last _); [|by injection H as <-; apply empty_well_measured].
    apply bind_Ret in H as (? & _ & H). injection H as <-. apply empty_well_measured.
  - intros [= <-]. apply empty_well_measured.
Qed.

Lemma load_well_measured files r : load_run loads str_other files = Ret r -> well_measured (measurement r).
Proof.
  unfold load_run. destruct (result_file files); [|intros [= <-]; apply empty_well_measured].
  intros (m & Hm & H)%bind_Ret. steps H. injection H as <-. cbn [measurement].
  destruct (metrics_file files); [by eapply parse_well_measured|].
  injection Hm as <-. apply empty_well_measured.
Qed.
End shape.

(** ** Means *)

Lemma foldl_sum_shift l s : foldl (fun s x => s + fval x) s l = s + foldl (fun s x => s + fval x) 0 l.
Proof.
  revert s. induction l as [|x l IH]; intros s; cbn [foldl]; [lia|].
  rewrite (IH (s + fval x)), (IH (0 + fval x)). lia.
Qed.

Lemma sum_between l lo hi :
  Forall (fun x => lo <= fval x <= hi) l ->
  lo * Z.of_nat (length l) <= foldl (fun s x => s + fval x) 0 l <= hi * Z.of_nat (length l).
Proof.
  induction 1 as [|x l Hx Hl IH]; cbn [foldl length]; [lia|]. rewrite foldl_sum_shift. lia.
Qed.

(** The mean of numbers between two floats lies between them. *)
Lemma mean_between l lo hi :
  l <> [] -> pfin lo -> pfin hi -> Forall (fun x => pfin x /\ fval lo <= fval x <= fval hi) l ->
  exists m, mean l = Ret m /\ pfin m /\ fval lo <= fval m <= fval hi.
Proof.
  intros Hne Hlo Hhi Hl. unfold mean.
  assert (Hfin : forallb is_finite l = true).
  { apply forallb_forall. intros x Hx%list_elem_of_In. rewrite Forall_forall in Hl.
    by destruct (Hl x Hx) as [[[Hf _] _] _]. }
  destruct (sum_between l (fval lo) (fval hi)) as [H1 H2].
  { eapply Forall_impl; [exact Hl|]. by intros x [_ ?]. }
  set (s := foldl (fun s x => s + fval x) 0 l) in *. set (n := Z.of_nat (length l)) in *.
  assert (Hn : 0 < n) by (unfold n; destruct l; [done|cbn; lia]).
  pose proof one_pos as Ho. pose proof (pfin_fval lo Hlo).
  assert (0 <= fval lo * n) by (apply Z.mul_nonneg_nonneg; lia).
  destruct (int_truediv_between s (n * one) lo hi) as (m & Hm & Hp & Hb); [lia| |done|done| | |].
  { by apply Z.mul_pos_pos. }
  { rewrite Z.mul_assoc. apply Z.mul_le_mono_nonneg_r; lia. }
  { rewrite Z.mul_assoc. apply Z.mul_le_mono_nonneg_r; lia. }
  exists m. split; [|done]. destruct l; [done|]. rewrite Hfin. exact Hm.
Qed.

Lemma int_truediv_owp a b : b <> 0 -> owp (int_truediv a b) (fun _ => True) overflow_error.
Proof. intros Hb. destruct b, a; try done; cbn; by destruct (f_quot_pos _ _ _). Qed.

Lemma mean_owp l : l <> [] -> owp (mean l) (fun _ => True) overflow_error.
Proof.
  intros Hne. unfold mean. destruct l as [|x l]; [done|]. destruct (forallb is_finite (x :: l)).
  - apply int_truediv_owp. pose proof one_pos. cbn [length]. intros Hz.
    apply Z.eq_mul_0 in Hz as [Hz|Hz]; lia.
  - assert (Hn : 0 < Z.of_nat (length (x :: l))) by (cbn [length]; lia).
    pose proof (fdiv_pos (foldl fadd fzero (filter (fun x => is_finite x = false) (x :: l)))
      (f_of_Z (Z.of_nat (length (x :: l)))) (f_of_Z_pos _ Hn)) as Hd.
    by destruct (fdiv _ _).
Qed.

Lemma mean_int_owp l : l <> [] -> owp (mean_int l) (fun _ => True) overflow_error.
Proof.
  intros Hne. unfold mean_int. destruct l as [|x l]; [done|]. destruct (_ =? 0); [done|].
  apply owp_bind. eapply owp_mono; [apply int_truediv_owp; cbn [length]; lia|done|done].
Qed.

Lemma mean_present_owp l :
  owp (mean_present l) (fun m => omap id l <> [] -> is_Some m) overflow_error.
Proof.
  unfold mean_present. destruct (omap id l) as [|x p] eqn:Hp; [by cbn; intros []|]. apply owp_bind.
  eapply owp_mono; [by apply mean_owp|intros m _ _; by exists m|by intros e].
Qed.

(** ** Aggregates *)

Definition successful (ms : list RunMeasurement) (ss : list Z) : list RunMeasurement :=
  map fst (filter (fun p => is_successful p = true) (zip ms ss)).

Lemma successful_complete ms ss :
  Forall well_measured ms ->
  Forall (fun m => complete m /\ is_Some (iteration_runtime_seconds m)) (successful ms ss).
Proof.
  intros Hms. apply Forall_forall. intros m ([m' s] & -> & Hin)%list_elem_of_fmap. cbn [fst].
  apply list_elem_of_filter in Hin as [Hs Hin]. apply elem_of_zip_l in Hin.
  rewrite Forall_forall in Hms. specialize (Hms m' Hin).
  unfold is_successful in Hs. cbn [fst snd] in Hs.
  apply andb_prop in Hs as [_ Hr]. destruct (iteration_runtime_seconds m') as [r|] eqn:Hrt; [|done].
  destruct Hms as [Hc|[Hn _]]; [|congruence]. split; [done|by eexists].
Qed.

(** A field that every successful run has *)
Lemma field_present {A} (f : RunMeasurement -> option A) l :
  Forall (fun m => is_Some (f m)) l -> l <> [] -> omap id (map f l) <> [].
Proof. intros Hl Hne. destruct Hl as [|m l [x Hx] Hl]; [done|]. cbn. by rewrite Hx. Qed.

Lemma max_values_owp l :
  Forall is_Some l -> owp (max_values l) (fun m => l <> [] -> is_Some m) overflow_error.
Proof.
  intros Hl. destruct Hl as [|x l [v ->] Hl]; [by cbn; intros []|]. cbn [max_values].
  apply owp_mono with (Q := is_Some) (E := overflow_error); [|done|done].
  apply owp_foldO; [by eexists|]. intros b a Ha [c ->]. rewrite Forall_forall in Hl.
  destruct (Hl a Ha) as [d ->]. by eexists.
Qed.

Lemma peak_present_some l : l <> [] -> is_Some (peak_present l).
Proof. destruct l; [done|]. by eexists. Qed.

Lemma max_list_some (l : list Z) : l <> [] -> is_Some (max_list l).
Proof. apply min_by_Some. Qed.

(** The aggregate of the runs with these measurements *)
Record represents (device_count : Z) (ms : list RunMeasurement) (ok : list RunMeasurement)
    (a : ScalingAggregate) : Prop := {
  rep_count : a_device_count a = device_count;
  rep_runs : a_repetitions a = Z.of_nat (length ms);
  rep_successes : a_successful_repetitions a = Z.of_nat (length ok);
  rep_present : ok <> [] -> is_Some (a_iteration_runtime_seconds a) /\ is_Some (a_peak_cpu_percent a) /\
    is_Some (a_median_cpu_percent a) /\ is_Some (a_peak_rss_bytes a) /\ is_Some (a_peak_nic_tx a) /\
    is_Some (a_median_nic_tx a) /\ is_Some (a_peak_nic_rx a) /\ is_Some (a_median_nic_rx a);
  rep_absent : ok = [] -> a_iteration_runtime_seconds a = None /\ a_median_cpu_percent a = None;
  rep_between : forall lo hi, ok <> [] -> pfin lo -> pfin hi ->
    Forall (fun m => exists r, iteration_runtime_seconds m = Some r /\ pfin r /\
                               fval lo <= fval r <= fval hi) ok ->
    exists r, a_iteration_runtime_seconds a = Some r /\ pfin r /\ fval lo <= fval r <= fval hi;
}.

Lemma names_nil {V} : names (V := V) [] = [].
Proof. done. Qed.

Lemma list_omap_id_map {A B} (f : A -> option B) l : omap id (map f l) = omap f l.
Proof. induction l as [|x l IH]; [done|]. cbn. destruct (f x); [by f_equal|done]. Qed.

(** The step of [aggregate_repetitions] that takes a mean over the successful runs *)
Lemma mean_runs_between ok lo hi m :
  mean_present (map iteration_runtime_seconds ok) = Ret m -> ok <> [] -> pfin lo -> pfin hi ->
  Forall (fun m => exists r, iteration_runtime_seconds m = Some r /\ pfin r /\
                             fval lo <= fval r <= fval hi) ok ->
  exists r, m = Some r /\ pfin r /\ fval lo <= fval r <= fval hi.
Proof.
  intros Hm Hne Hlo Hhi Hall. unfold mean_present in Hm.
  assert (Hp : Forall (fun r => pfin r /\ fval lo <= fval r <= fval hi)
                 (omap id (map iteration_runtime_seconds ok))).
  { apply Forall_forall. intros r (o & Ho & Hid)%list_elem_of_omap. cbn in Hid. subst o.
    apply list_elem_of_fmap in Ho as (x & Hx & Hin). rewrite Forall_forall in Hall.
    destruct (Hall x Hin) as (r' & Hr' & Hb). rewrite Hr' in Hx. by injection Hx as ->. }
  assert (Hn : omap id (map iteration_runtime_seconds ok) <> []).
  { apply field_present; [|done]. eapply Forall_impl; [exact Hall|]. intros x (r & -> & _). by eexists. }
  destruct (mean_between _ lo hi Hn Hlo Hhi Hp) as (r & Hr & Hb).
  destruct (omap id (map iteration_runtime_seconds ok)); [done|]. rewrite Hr in Hm.
  injection Hm as <-. by exists r.
Qed.

Lemma owp_step {A B} (o : outcome A) (f : A -> outcome B) P Q E :
  owp o P E -> (forall a, o = Ret a -> P a -> owp (f a) Q E) -> owp (o ≫= f) Q E.
Proof. destruct o as [a|e]; [|done]. intros Ho Hf. by apply (Hf a). Qed.

(** The means by name *)
Lemma by_name_owp {V R} (d : RunMeasurement -> pydict string V) (f : string -> outcome R) ok :
  (ok <> [] -> forall name, owp (f name) (fun _ => True) overflow_error) ->
  owp (mapO (fun name => m ← f name; Ret (name, m)) (names (map d ok))) (fun _ => True) overflow_error.
Proof.
  intros Hf. eapply owp_mono; [apply (owp_mapO (fun _ => True))|done|done].
  intros name Hin. destruct ok as [|m ok]; [by apply elem_of_nil in Hin|].
  apply owp_bind. eapply owp_mono; [by apply Hf|done|done].
Qed.

Lemma map_nonempty {A B} (f : A -> B) l : l <> [] -> map f l <> [].
Proof. by destruct l. Qed.

Lemma aggregate_represents device_count ms ss :
  Forall well_measured ms ->
  owp (aggregate_repetitions device_count ms ss)
    (represents device_count ms (successful ms ss)) overflow_error.
Proof.
  intros Hms. pose proof (successful_complete ms ss Hms) as Hok.
  unfold aggregate_repetitions. fold (successful ms ss). set (ok := successful ms ss) in *.
  assert (Hf : forall {A} (f : RunMeasurement -> option A), (forall m, complete m -> is_Some (f m)) ->
    Forall (fun m => is_Some (f m)) ok).
  { intros A f Hc. eapply Forall_impl; [exact Hok|]. intros m [? _]. by apply Hc. }
  assert (Hrt : Forall (fun m => is_Some (iteration_runtime_seconds m)) ok).
  { eapply Forall_impl; [exact Hok|]. by intros m [_ ?]. }
  eapply owp_step; [apply mean_present_owp|]. intros runtime Hr Hr1.
  eapply owp_step; [apply max_values_owp, Forall_fmap, (Hf _ peak_cpu_percent); by intros m (? & _)|].
  intros peak _ Hpeak.
  eapply owp_step; [apply mean_present_owp|]. intros cpu Hcpu Hcpu1.
  eapply owp_step; [apply mean_present_owp|]. intros tx _ Htx.
  eapply owp_step; [apply mean_present_owp|]. intros rx _ Hrx.
  eapply owp_step; [apply by_name_owp; intros Hne name; by apply mean_int_owp, map_nonempty|].
  intros counts _ _.
  eapply owp_step; [apply by_name_owp; intros Hne name; by apply mean_owp, map_nonempty|].
  intros durations _ _. cbn [owp]. split; try done; cbn.
  - intros Hne. split_and!.
    + by apply Hr1, field_present.
    + by apply Hpeak, map_nonempty.
    + apply Hcpu1, field_present; [|done]. apply Hf. unfold complete. tauto.
    + apply max_list_some. rewrite <- (list_omap_id_map peak_rss_bytes).
      apply field_present; [|done]. apply Hf. unfold complete. tauto.
    + by apply peak_present_some, map_nonempty.
    + apply Htx, field_present; [|done]. apply Hf. unfold complete. tauto.
    + by apply peak_present_some, map_nonempty.
    + apply Hrx, field_present; [|done]. apply Hf. unfold complete. tauto.
  - intros ->. cbn in Hr, Hcpu. by split; [injection Hr as <-|injection Hcpu as <-].
  - intros lo hi Hne Hlo Hhi Hall. by eapply mean_runs_between.
Qed.

(** ** Lines that are torn or malformed *)

(** A line that [splitlines] keeps whole, and that is not blank *)
Definition clean_line (s : string) : Prop :=
  all_chars (fun c => negb (is_line_break c)) s = true /\ no_char "010" s = true /\
  no_char "013" s = true /\ is_empty (strip s) = false.

Lemma map_str_id (p : ascii -> bool) d s :
  all_chars (fun c => negb (p c)) s = true -> map_str (fun c => if p c then d else c) s = s.
Proof.
  induction s as [|c s IH]; [done|]. cbn. intros [Hc Hs]%andb_prop.
  apply negb_true_iff in Hc. by rewrite Hc, IH.
Qed.

Lemma all_chars_join_nl (p : ascii -> bool) ls :
  p "010"%char = true -> Forall (fun s => all_chars p s = true) ls -> all_chars p (join nl ls) = true.
Proof.
  intros Hp. induction 1 as [|a ls Ha Hls IH]; [done|]. cbn [join]. destruct ls as [|b ls]; [done|].
  rewrite !all_chars_app, Ha, IH. cbn. by rewrite Hp.
Qed.

Lemma splitlines_join ls : Forall clean_line ls -> splitlines (join nl ls) = ls.
Proof.
  intros Hls. unfold splitlines.
  rewrite universal_newlines_id, map_str_id; last first.
  { apply (all_chars_join_nl (fun c => negb (Ascii.eqb c "013"))); [done|].
    eapply Forall_impl; [exact Hls|]. by intros s (_ & _ & ? & _). }
  { apply all_chars_join_nl; [done|]. eapply Forall_impl; [exact Hls|]. by intros s (? & _). }
  destruct (decide (ls = [])) as [->|Hne]; [done|].
  destruct (exists_last Hne) as (ls' & l & ->).
  apply file_lines_join.
  - apply forallb_forall. intros s Hs%list_elem_of_In. rewrite Forall_forall in Hls.
    destruct (Hls s Hs) as (_ & H1 & H2 & _). by rewrite H1, H2.
  - intros ->. apply Forall_app in Hls as [_ Hl]. inversion Hl as [|? ? (_ & _ & _ & He)]; by subst.
Qed.

Definition numbered (base : Z) (ls : list string) : list (Z * string) :=
  imap (fun i line => (base + Z.of_nat i + 1, line)) ls.

Lemma numbered_cons base l ls : numbered base (l :: ls) = (base + 1, l) :: numbered (base + 1) ls.
Proof.
  unfold numbered. cbn [imap]. f_equal; [f_equal; lia|]. apply imap_ext. intros i x _. cbn. f_equal. lia.
Qed.

Lemma numbered_app base ls rs :
  numbered base (ls ++ rs) = numbered base ls ++ numbered (base + Z.of_nat (length ls)) rs.
Proof.
  revert base. induction ls as [|l ls IH]; intros base; cbn [app length].
  { cbn [numbered imap app]. by rewrite Z.add_0_r. }
  rewrite !numbered_cons, IH. cbn [app]. do 3 f_equal. lia.
Qed.

Lemma numbered_lines_join ls : Forall clean_line ls -> numbered_lines (join nl ls) = numbered 0 ls.
Proof.
  intros Hls. unfold numbered_lines. rewrite splitlines_join by done. rewrite filter_all.
  - unfold numbered. apply imap_ext. intros i x _. f_equal.
  - apply Forall_forall. intros p [i Hi]%list_elem_of_lookup. rewrite list_lookup_imap in Hi.
    apply fmap_Some in Hi as (l & Hl & ->). rewrite Forall_forall in Hls.
    destruct (Hls l) as (_ & _ & _ & He); [by apply list_elem_of_lookup_2 in Hl|]. cbn [snd]. by rewrite He.
Qed.

Lemma outcome_bind_assoc {A B C} (o : outcome A) (f : A -> outcome B) (g : B -> outcome C) :
  (o ≫= f) ≫= g = o ≫= (fun x => f x ≫= g).
Proof. by destruct o. Qed.

Lemma outcome_bind_ext {A B} (o : outcome A) (f g : A -> outcome B) :
  (forall x, f x = g x) -> o ≫= f = o ≫= g.
Proof. intros H. destruct o; [apply H|done]. Qed.

Section torn.
Context (loads : string -> json + string) (str_other : json -> string).

Lemma read_records_app base ls rs rest :
  Forall2 (fun l r => loads l = inl r) ls rs ->
  read_records loads (numbered base ls ++ rest) =
  match read_records loads rest with
  | inl (records, warnings) => inl (rs ++ records, warnings)
  | inr e => inr e
  end.
Proof.
  intros Hls. revert base. induction Hls as [|l r ls rs Hl Hls IH]; intros base.
  { cbn. by destruct (read_records loads rest) as [[]|]. }
  rewrite numbered_cons. cbn [app read_records]. rewrite Hl, IH.
  by destruct (read_records loads rest) as [[]|].
Qed.

Definition warn (w : string) (m : RunMeasurement) : RunMeasurement :=
  mk_measured (iteration_runtime_seconds m) (peak_cpu_percent m) (median_cpu_percent m)
    (peak_rss_bytes m) (peak_nic_tx m) (median_nic_tx m) (peak_nic_rx m) (median_nic_rx m)
    (phase_counts m) (phase_durations m) (error m) (warnings m ++ [w]).

(** A measurement depends on the warnings only in that it keeps them. *)
Lemma measure_warn measured final error w :
  measure measured final error [w] = (m ← measure measured final error []; Ret (warn w m)).
Proof. unfold measure. by repeat (rewrite outcome_bind_assoc; apply outcome_bind_ext; intros ?). Qed.

Lemma of_records_warn records w :
  of_records str_other records [w] = (m ← of_records str_other records []; Ret (warn w m)).
Proof.
  unfold of_records. do 3 (rewrite outcome_bind_assoc; apply outcome_bind_ext; intros ?).
  destruct (last _) as [final|]; [apply measure_warn|].
  destruct (last _) as [terminal|]; [|done]. by destruct (terminal_text _ _).
Qed.
End torn.

(** A metrics file whose last line is torn is read as the file without that line, with a
    warning that names the line; the same line before another one makes the run a failed
    one, whose error names the line. *)
Theorem torn_metrics (loads : string -> json + string) (str_other : json -> string)
    (ls : list string) (rs : list json) (torn msg : string) :
  Forall2 (fun l r => loads l = inl r) ls rs -> loads torn = inr msg ->
  Forall clean_line (ls ++ [torn]) ->
  let number := (str_of_Z (Z.of_nat (length ls) + 1) +:+ ": " +:+ msg)%string in
  parse_metrics_jsonl loads str_other (join nl (ls ++ [torn])) =
    (m ← parse_metrics_jsonl loads str_other (join nl ls);
     Ret (warn ("trailing partial metrics JSONL record at line " +:+ number) m)) /\
  forall l rest, Forall clean_line (l :: rest) ->
    parse_metrics_jsonl loads str_other (join nl (ls ++ torn :: l :: rest)) =
    Ret (empty_measurement ("malformed metrics JSONL at line " +:+ number) []).
Proof.
  intros Hls Ht Hc. apply Forall_app in Hc as [Hcl Hct]. cbn zeta. unfold parse_metrics_jsonl. split.
  - rewrite !numbered_lines_join, numbered_app by (by try apply Forall_app).
    erewrite read_records_app by done. rewrite <- (app_nil_r (numbered 0 ls)).
    erewrite read_records_app by done. rewrite numbered_cons. cbn [read_records numbered imap].
    rewrite Ht. cbn [read_records]. rewrite !app_nil_r, Z.add_0_l. apply of_records_warn.
  - intros l rest Hr. inversion Hct; subst.
    rewrite numbered_lines_join, numbered_app by (apply Forall_app; split; [done|by constructor]).
    erewrite read_records_app by done. rewrite !numbered_cons. cbn [read_records].
    by rewrite Ht, Z.add_0_l.
Qed.

(** The aggregate of the runs of a device count counts the runs and the successful ones,
    has a runtime and every peak and median exactly when a run was successful, has a runtime
    between any two bounds on theirs, and fails only where a float overflows. *)
Theorem repetitions_aggregated (loads : string -> json + string) (str_other : json -> string)
    (files : list run_files) (loaded : list loaded_run) (count : Z) :
  mapO (load_run loads str_other) files = Ret loaded ->
  let ok := successful (map measurement loaded) (map exit_status loaded) in
  match aggregate_repetitions count (map measurement loaded) (map exit_status loaded) with
  | Ret a =>
      a_device_count a = count /\ a_repetitions a = Z.of_nat (length files) /\
      a_successful_repetitions a = Z.of_nat (length ok) /\
      (ok = [] -> point_of count a = None) /\
      (ok <> [] -> is_Some (point_of count a) /\ is_Some (a_peak_rss_bytes a) /\
        is_Some (a_peak_nic_tx a) /\ is_Some (a_median_nic_tx a) /\
        is_Some (a_peak_nic_rx a) /\ is_Some (a_median_nic_rx a)) /\
      forall lo hi, ok <> [] -> pfin lo -> pfin hi ->
        Forall (fun m => exists r, iteration_runtime_seconds m = Some r /\ pfin r /\
                                   fval lo <= fval r <= fval hi) ok ->
        exists r, a_iteration_runtime_seconds a = Some r /\ pfin r /\ fval lo <= fval r <= fval hi
  | Raise e => exists msg, e = OverflowError msg
  end.
Proof.
  intros Hl ok.
  assert (Hw : Forall well_measured (map measurement loaded)).
  { apply Forall_fmap, Forall_forall. intros r Hr.
    destruct (proj1 (mapO_elem _ _ _ r Hl) Hr) as (f & _ & Hf). by eapply load_well_measured. }
  pose proof (aggregate_represents count _ (map exit_status loaded) Hw) as Ha. fold ok in Ha.
  destruct (aggregate_repetitions _ _ _) as [a|e]; [|by destruct e; try done; eexists].
  cbn [owp] in Ha.
  destruct Ha as [H1 H2 H3 H4 H5 H6].
  split_and!; [done| |done| | |done].
  - rewrite H2, length_map. f_equal. by apply mapO_length in Hl.
  - intros Hok. destruct (H5 Hok) as [Hr _]. unfold point_of. by rewrite Hr.
  - intros Hok. destruct (H4 Hok) as ([r Hr] & [p Hp] & [m Hm] & H). unfold point_of.
    rewrite Hr, Hp, Hm. split; [by eexists|]. tauto.
Qed.

(** ** The summary is a figure's input *)

(** Sorting keeps a relation between lists whose keys agree. *)
Lemma insert_by_Forall2 {A B} (R : A -> B -> Prop) (le : A -> A -> bool) (le' : B -> B -> bool) x y l l' :
  (forall a a' b b', R a b -> R a' b' -> le a a' = le' b b') ->
  R x y -> Forall2 R l l' -> Forall2 R (insert_by le x l) (insert_by le' y l').
Proof.
  intros Hle Hxy Hl. induction Hl as [|a b l l' Hab Hl IH]; cbn [insert_by]; [by repeat constructor|].
  rewrite (Hle _ _ _ _ Hxy Hab). destruct (le' y b); by repeat constructor.
Qed.

Lemma sort_by_Forall2 {A B} (R : A -> B -> Prop) (le : A -> A -> bool) (le' : B -> B -> bool) l l' :
  (forall a a' b b', R a b -> R a' b' -> le a a' = le' b b') ->
  Forall2 R l l' -> Forall2 R (sort_by le l) (sort_by le' l').
Proof.
  intros Hle Hl. induction Hl as [|a b l l' Hab Hl IH]; [constructor|]. by apply insert_by_Forall2.
Qed.

(** The plotted point of a measured one *)
Definition plotted (logical : Z) (p : ScalingPoint) (q : DeviceScalingPoint) : Prop :=
  PlotSchema.device_count q = p_device_count p /\
  PlotSchema.iteration_runtime_seconds q = p_iteration_runtime_seconds p /\
  (exists cpus, float_of_int logical = Ret cpus /\
     fdiv (p_median_cpu_percent p) cpus = Ret (PlotSchema.sustained_cpu_percent q)) /\
  PlotSchema.peak_cpu_percent q = Some (p_peak_cpu_percent p).

(** An aggregate that measured everything or has no runtime *)
Definition ready (a : ScalingAggregate) : Prop :=
  a_iteration_runtime_seconds a = None \/ is_Some (point_of (a_device_count a) a).

Lemma device_rows_skip repr logical i a runs rows :
  a_iteration_runtime_seconds a = None ->
  device_rows repr logical i (sort_keys (row_json a runs) :: rows) (JStr SUBSTRATE) =
  device_rows repr logical (S i) rows (JStr SUBSTRATE).
Proof.
  intros Ha. cbn [device_rows].
  change (mapping (sort_keys (row_json a runs)) (row_ctx "summary.rows" i))
    with (Ret (default [] (as_obj (sort_keys (row_json a runs))))). cbn [mbind outcome_bind].
  change (require _ "iteration_runtime_seconds" _)
    with (Ret (sort_keys (json_of_option JFloat (a_iteration_runtime_seconds a)))).
  by rewrite Ha.
Qed.

Lemma device_rows_point repr logical cpus i a runs rows p :
  float_of_int logical = Ret cpus -> flt fzero cpus = true ->
  point_of (a_device_count a) a = Some p ->
  exists q, plotted logical p q /\
    device_rows repr logical i (sort_keys (row_json a runs) :: rows) (JStr SUBSTRATE) =
    (rest ← device_rows repr logical (S i) rows (JStr SUBSTRATE); Ret (q :: rest.1, rest.2)).
Proof.
  intros Hc Hp Ha. unfold point_of in Ha.
  destruct (a_iteration_runtime_seconds a) as [runtime|] eqn:Hr; [|done].
  destruct (a_median_cpu_percent a) as [median|] eqn:Hm; [|done].
  destruct (a_peak_cpu_percent a) as [peak|] eqn:Hk; [|done]. injection Ha as <-.
  pose proof (fdiv_pos median cpus Hp) as Hd.
  destruct (fdiv median cpus) as [sustained|] eqn:Hq; [|done].
  exists (mk_device_point (a_device_count a) runtime sustained (Some peak)).
  split; [split_and!; [done|done|by exists cpus|done]|]. cbn [device_rows].
  change (mapping (sort_keys (row_json a runs)) (row_ctx "summary.rows" i))
    with (Ret (default [] (as_obj (sort_keys (row_json a runs))))). cbn [mbind outcome_bind].
  change (require _ "iteration_runtime_seconds" _)
    with (Ret (sort_keys (json_of_option JFloat (a_iteration_runtime_seconds a)))).
  rewrite Hr. cbn [mbind outcome_bind json_of_option sort_keys]. unfold device_point.
  change (require _ "device_count" _) with (Ret (JInt (a_device_count a))).
  change (require _ "median_cpu_percent" _)
    with (Ret (sort_keys (json_of_option JFloat (a_median_cpu_percent a)))).
  change (jget "peak_cpu_percent" _) with (sort_keys (json_of_option JFloat (a_peak_cpu_percent a))).
  rewrite Hm, Hk. cbn [mbind outcome_bind json_of_option sort_keys as_int as_float as_float_or_none].
  rewrite Hc. cbn [mbind outcome_bind]. by rewrite Hq.
Qed.

Lemma device_rows_written repr logical cpus parts i :
  float_of_int logical = Ret cpus -> flt fzero cpus = true -> Forall (fun p => ready p.1) parts ->
  exists qs, Forall2 (plotted logical) (scaling_points parts) qs /\
    device_rows repr logical i (map (fun p => sort_keys (row_json p.1 p.2)) parts) (JStr SUBSTRATE) =
    Ret (qs, JStr SUBSTRATE).
Proof.
  intros Hc Hp Hparts. revert i. induction Hparts as [|[a runs] parts Ha Hparts IH]; intros i.
  { exists []. by split; [constructor|]. }
  destruct (IH (S i)) as (qs & Hqs & Hrows). cbn [map fst snd].
  unfold scaling_points. cbn [omap list_omap fst]. destruct (point_of (a_device_count a) a) as [p|] eqn:Hpt.
  - destruct (device_rows_point repr logical cpus i a runs
      (map (fun p => sort_keys (row_json p.1 p.2)) parts) p Hc Hp Hpt) as (q & Hq & ->).
    rewrite Hrows. exists (q :: qs). split; [by constructor|done].
  - exists qs. split; [exact Hqs|]. rewrite device_rows_skip; [done|].
    destruct Ha as [Ha|[p Hs]]; [done|cbn [fst] in Hs; congruence].
Qed.

Lemma summarise_ready loads str_other files reps count part :
  summarise_device loads str_other files reps count = Ret part -> ready part.1.
Proof.
  unfold summarise_device. intros (loaded & Hl & (a & Ha & H)%bind_Ret)%bind_Ret. injection H as <-.
  assert (Hw : Forall well_measured (map measurement loaded)).
  { apply Forall_fmap, Forall_forall. intros r Hr.
    destruct (proj1 (mapO_elem _ _ _ r Hl) Hr) as (f & _ & Hf). by eapply load_well_measured. }
  pose proof (aggregate_represents count _ (map exit_status loaded) Hw) as Hr. rewrite Ha in Hr.
  destruct Hr as [_ _ _ H4 H5 _]. unfold ready, point_of. cbn [fst].
  set (ok := successful _ _) in *.
  assert (ok = [] \/ ok <> []) as [Hok|Hok] by (destruct ok; (by left) || (by right)).
  - left. by destruct (H5 Hok).
  - right. destruct (H4 Hok) as ([r ->] & [p ->] & [m ->] & _). by eexists.
Qed.

(** C20: [parse_device_scaling] accepts the summary that the analysis writes, whenever it has
    a measured point, and its points are the measured ones in order of their device counts,
    with the CPU time per processor; without a point it reports missing data. *)
Theorem summary_file_parses (repr : json -> string) (loads : string -> json + string)
    (str_other : json -> string) (cpus : option Z) (files : Z -> Z -> run_files) (t image : string)
    (invocation : list string) (counts : list Z) (reps : Z) (j : json) :
  (forall n, cpus = Some n -> 0 <= n < 2 ^ 53) ->
  write_summary loads str_other cpus files t image invocation counts reps = Ret j ->
  exists parts, mapO (summarise_device loads str_other files reps) counts = Ret parts /\
    match scaling_points parts with
    | [] => parse_device_scaling repr (sort_keys j) =
              Raise (MissingDataError "summary.rows has no measured device points")
    | points =>
        exists ds, parse_device_scaling repr (sort_keys j) = Ret ds /\
          substrate ds = JStr SUBSTRATE /\
          logical_cpu_count ds = match cpus with Some 0 | None => 1 | Some n => n end /\
          Forall2 (plotted (logical_cpu_count ds))
            (sort_by (fun p q => p_device_count p <=? p_device_count q) points) (device_points ds)
    end.
Proof.
  intros Hcpus. unfold write_summary.
  set (logical := match cpus with Some 0 | None => 1 | Some n => n end).
  assert (Hl : 0 < logical < 2 ^ 53).
  { unfold logical. destruct cpus as [[|n|n]|]; try lia.
    - pose proof (Hcpus _ eq_refl). lia.
    - pose proof (Hcpus _ eq_refl). lia. }
  destruct (float_of_int_fval logical ltac:(lia)) as (c & Hc & _).
  pose proof (float_of_int_pos _ _ (proj1 Hl) Hc) as Hpos. clearbody logical.
  intros (parts & Hparts & (sat & _ & H)%bind_Ret)%bind_Ret. injection H as <-.
  exists parts. split; [done|].
  destruct (device_rows_written repr logical c parts 0 Hc Hpos) as (qs & Hqs & Hrows).
  { apply Forall_forall. intros p Hp. destruct (proj1 (mapO_elem _ _ _ p Hparts) Hp) as (n & _ & Hn).
    by eapply summarise_ready. }
  unfold parse_device_scaling.
  match goal with |- context [mapping (sort_keys ?j) _] =>
    set (root := default [] (as_obj (sort_keys j)));
    change (mapping (sort_keys j) "summary") with (Ret root)
  end. cbn [mbind outcome_bind].
  change (require root "environment" "summary") with (Ret (sort_keys (summary_environment logical))).
  change (require root "rows" "summary")
    with (Ret (sort_keys (JList (map (fun p => row_json p.1 p.2) parts)))).
  set (env := default [] (as_obj (sort_keys (summary_environment logical)))).
  cbn [mbind outcome_bind].
  change (mapping (sort_keys (summary_environment logical)) _) with (Ret env).
  cbn [mbind outcome_bind].
  change (require env "logical_cpu_count" _) with (Ret (JInt logical)).
  change (jget "host_nic_substrate" env) with (JStr SUBSTRATE).
  cbn [mbind outcome_bind as_int]. rewrite (proj2 (Z.leb_gt logical 0)) by lia.
  cbn [sort_keys sequence mbind outcome_bind]. rewrite map_map, Hrows. cbn [mbind outcome_bind fst snd].
  destruct Hqs as [|p q ps qs Hpq Hqs]; [done|].
  eexists. split; [reflexivity|]. split_and!; [done|done|].
  apply sort_by_Forall2; [|by constructor]. by intros a a' b b' (-> & _) (-> & _).
Qed.

Lemma write_bytes_raises o e :
  write_bytes o = Raise e ->
  e = TypeError "data must be str, not bytes" /\ exists b bs, o = Some (String b bs).
Proof. destruct o as [[|b bs]|]; [done| |done]. intros [= <-]. split; [done|by exists b, bs]. Qed.

Lemma write_logs_raises ended e :
  write_logs ended = Raise e ->
  e = TypeError "data must be str, not bytes" /\
  exists out err b bs, ended = timeout_expired out err /\
    (out = Some (String b bs) \/ err = Some (String b bs)).
Proof.
  destruct ended as [|out err]; [done|]. cbn [write_logs].
  destruct (write_bytes out) as [o|e'] eqn:Ho; cbn [mbind outcome_bind].
  - destruct (write_bytes err) as [o'|e'] eqn:He; [done|]. intros [= <-].
    apply write_bytes_raises in He as (-> & b & bs & ->). split; [done|].
    exists out, (Some (String b bs)), b, bs. by split; [|right].
  - intros [= <-]. apply write_bytes_raises in Ho as (-> & b & bs & ->). split; [done|].
    exists (Some (String b bs)), err, b, bs. by split; [|left].
Qed.

Lemma write_logs_returns out err logs :
  write_logs (timeout_expired out err) = Ret logs ->
  default ""%string out = ""%string /\ default ""%string err = ""%string.
Proof. by destruct out as [[]|], err as [[]|]. Qed.

(** [load_run] reads back the exit status that [run_command] wrote, and the run counts as
    a success only when its process ended by itself with status zero.  [run_command] raises
    [TypeError], without a result, exactly when the process timed out after it had written
    something.  The container of a process that timed out is removed by the name it was
    started with. *)
Theorem run_result_loads (loads : string -> json + string) (str_other : json -> string)
    (process : list string -> option string -> process_end) (run : RunSpec)
    (output_root image : string) (interval : float) (interval_text config_text : string)
    (inside_docker : bool) (started finished : string) :
  let c := run_command process run output_root image interval interval_text config_text
             inside_docker started finished in
  let ended := process (r_command c) (r_cfg_path c) in
  match logs_and_result c with
  | Ret (_, result) =>
      (forall out err, ended = timeout_expired out err ->
        default ""%string out = ""%string /\ default ""%string err = ""%string) /\
      forall metrics r, load_run loads str_other (mk_run_files (Some (sort_keys result)) metrics) = Ret r ->
        exit_status r = process_status ended /\
        (is_successful (measurement r, exit_status r) = true ->
          exists out err, ended = completed 0 out err)
  | Raise e =>
      e = TypeError "data must be str, not bytes" /\
      exists out err b bs, ended = timeout_expired out err /\
        (out = Some (String b bs) \/ err = Some (String b bs))
  end /\
  forall name, r_removal c = Some (["docker"; "rm"; "-f"; name]%string) ->
    (exists out err, ended = timeout_expired out err) /\
    exists before after, r_command c = before ++ ["--name"; name]%string ++ after.
Proof.
  cbn zeta. set (c := run_command _ _ _ _ _ _ _ _ _ _). split.
  - set (ended := process (r_command c) (r_cfg_path c)).
    change (logs_and_result c) with (logs ← write_logs ended; Ret (logs, JObj
      [("command", JList (map JStr (r_command c)));
       ("config", run_configuration run interval config_text);
       ("started_at", JStr started); ("finished_at", JStr finished);
       ("exit_status", JInt (process_status ended));
       ("timed_out", JBool (process_timed_out ended)); ("substrate", JStr SUBSTRATE);
       ("real_vs_emulated", JStr "real coordinator process; emulated devices")]%string)).
    clearbody ended. destruct (write_logs ended) as [logs|e] eqn:Hw; cbn [mbind outcome_bind].
    + split; [intros out err ->; by eapply write_logs_returns|]. intros metrics r. unfold load_run. cbn [result_file metrics_file].
      intros (m & Hm & H)%bind_Ret.
      change (json_item "exit_status" _) with (Ret (JInt (process_status ended))) in H.
      cbn [mbind outcome_bind py_int] in H. injection H as <-. cbn [exit_status measurement].
      split; [done|]. unfold is_successful. cbn [fst snd]. intros [[Hs _]%andb_prop _]%andb_prop.
      apply Z.eqb_eq in Hs. destruct ended as [status out err|out err]; cbn in Hs; [|done].
      subst. by exists out, err.
    + by apply write_logs_raises.
  - intros name. unfold c, run_command. cbn [r_removal r_command r_cfg_path].
    destruct inside_docker; [by rewrite andb_false_r|]. rewrite andb_true_r.
    destruct (process _ _) as [|out err]; [done|]. cbn [process_timed_out]. intros [= <-].
    split; [by exists out, err|]. exists ["docker"; "run"; "--rm"]%string. eexists. reflexivity.
Qed.

(** ** Concrete inputs *)

Definition demo_metrics (n : Z) (seconds cpu : float) : json :=
  JObj [("record_type", JStr "sample"); ("phase_counts", JObj [("iteration_total", JInt n)]);
        ("phase_durations_seconds", JObj [("iteration_total", JFloat seconds)]);
        ("process_cpu_percent", JFloat cpu); ("rss_bytes", JInt 4096);
        ("nic_tx_bytes_per_sec", JFloat (f_of_Z 10)); ("nic_rx_bytes_per_sec", JFloat (f_of_Z 20))]%string.

Definition demo_loads (s : string) : json + string :=
  if String.eqb s "first" then inl (demo_metrics 1 (f_of_Z 3) (f_of_Z 150))
  else if String.eqb s "second" then inl (demo_metrics 2 (f_of_Z 8) (f_of_Z 250))
  else inr "Expecting value"%string.

Definition demo_str (j : json) : string := "?".

Definition demo_files (device_count repetition : Z) : run_files :=
  mk_run_files (Some (JObj [("exit_status", JInt 0)]%string)) (Some (join nl ["first"; "second"]%string)).

Definition demo_summary : json :=
  match write_summary demo_loads demo_str (Some 4) demo_files "now" "image" [] [2; 1] 1 with
  | Ret j => j | Raise _ => JNull end.

Lemma torn_metrics_witness :
  parse_metrics_jsonl demo_loads demo_str (join nl (["first"; "second"]%string ++ ["{"]%string)) =
  (m ← parse_metrics_jsonl demo_loads demo_str (join nl ["first"; "second"]%string);
   Ret (warn ("trailing partial metrics JSONL record at line " +:+ "3: Expecting value") m)).
Proof.
  destruct (torn_metrics demo_loads demo_str ["first"; "second"]%string
    [demo_metrics 1 (f_of_Z 3) (f_of_Z 150); demo_metrics 2 (f_of_Z 8) (f_of_Z 250)]
    "{" "Expecting value") as [H _].
  - by repeat constructor.
  - reflexivity.
  - repeat constructor; by vm_compute.
  - exact H.
Defined.

Lemma summary_file_parses_witness :
  match parse_device_scaling demo_str (sort_keys demo_summary) with
  | Ret ds => map PlotSchema.device_count (device_points ds) = [1; 2]
  | Raise _ => False
  end.
Proof.
  assert (Hw : write_summary demo_loads demo_str (Some 4) demo_files "now" "image" [] [2; 1] 1 =
               Ret demo_summary) by (vm_compute; reflexivity).
  destruct (summary_file_parses demo_str demo_loads demo_str (Some 4) demo_files "now" "image" []
              [2; 1] 1 demo_summary) as (parts & Hp & H); [intros n [= <-]; lia|exact Hw|].
  assert (Hs : map p_device_count (scaling_points parts) = [2; 1]).
  { revert Hp. vm_compute. by intros [= <-]. }
  destruct (scaling_points parts) as [|p [|q [|? ?]]]; cbn [map] in Hs;
    [discriminate Hs|discriminate Hs| |discriminate Hs].
  destruct H as (ds & -> & _ & _ & Hd). injection Hs as Hp2 Hq1.
  unfold sort_by in Hd. cbn [foldr insert_by] in Hd. rewrite Hp2, Hq1 in Hd. cbn in Hd.
  inversion Hd as [|? d1 ? l1 (H1 & _) Hr E1 E2]. inversion Hr as [|? d2 ? l2 (H2 & _) Hn E3 E4].
  inversion Hn. cbn [map]. by rewrite H1, H2, Hp2, Hq1.
Defined.

Definition demo_loaded : outcome (list loaded_run) :=
  mapO (load_run demo_loads demo_str) [demo_files 1 1; mk_run_files None None].

Lemma demo_loaded_ok :
  match demo_loaded with
  | Ret loaded =>
      match aggregate_repetitions 1 (map measurement loaded) (map exit_status loaded) with
      | Ret _ => length (successful (map measurement loaded) (map exit_status loaded)) = 1%nat
      | Raise _ => False
      end
  | Raise _ => False
  end.
Proof. by vm_compute. Qed.

Lemma repetitions_aggregated_witness :
  match demo_loaded with
  | Ret loaded =>
      match aggregate_repetitions 1 (map measurement loaded) (map exit_status loaded) with
      | Ret a => a_repetitions a = 2 /\ a_successful_repetitions a = 1
      | Raise _ => False
      end
  | Raise _ => False
  end.
Proof.
  pose proof demo_loaded_ok as Hok. destruct demo_loaded as [loaded|e] eqn:Hl; [|exact Hok].
  pose proof (repetitions_aggregated demo_loads demo_str _ loaded 1 Hl) as H. cbn zeta in H.
  destruct (aggregate_repetitions _ _ _) as [a|]; [|exact Hok].
  destruct H as (_ & H1 & H2 & _). rewrite Hok in H2. split; [exact H1|exact H2].
Defined.

Definition demo_spec : RunSpec := mk_spec 1 1 39100 "out/devices-1/rep-1" "/scaling-output/devices-1/rep-1".

Definition demo_command (ended : process_end) : command_run :=
  run_command (fun _ _ => ended) demo_spec "out" "image" (f_lit 2 1) "0.2" "" false "now" "then".

Lemma run_result_loads_witness :
  logs_and_result (demo_command (timeout_expired (Some "step 1") None)) =
    Raise (TypeError "data must be str, not bytes") /\
  match logs_and_result (demo_command (timeout_expired None None)) with
  | Ret (_, result) =>
      match load_run demo_loads demo_str (mk_run_files (Some (sort_keys result)) None) with
      | Ret r => exit_status r = 124 /\ is_successful (measurement r, exit_status r) = false
      | Raise _ => False
      end
  | Raise _ => False
  end.
Proof.
  assert (Hc : forall ended, _) by (intros ended; exact (run_result_loads demo_loads demo_str (fun _ _ => ended)
    demo_spec "out" "image" (f_lit 2 1) "0.2" "" false "now" "then")). cbn zeta in Hc. split.
  - destruct (Hc (timeout_expired (Some "step 1"%string) None)) as [H _]. unfold demo_command.
    destruct (logs_and_result _) as [[logs result]|e] eqn:Hl; [|destruct H as [-> _]; reflexivity].
    destruct H as [H _]. destruct (H _ _ eq_refl) as [Hs _]. discriminate Hs.
  - destruct (Hc (timeout_expired None None)) as [H _]. unfold demo_command.
    destruct (logs_and_result _) as [[logs result]|e] eqn:Hl.
    + destruct H as [_ H]. destruct (load_run _ _ _) as [r|e] eqn:Hr.
      * destruct (H None r Hr) as [H1 H2]. split; [exact H1|].
        destruct (is_successful _); [|reflexivity]. destruct (H2 eq_refl) as (? & ? & Hf). discriminate Hf.
      * injection Hl as _ <-. discriminate Hr.
    + discriminate Hl.
Defined.
