(* ===== verification/LogMerge.v ===== *)
(** * Merging the performance logs ([scripts/merge_perf_logs.py])

    The script collects the events of all logs of a directory, orders them by their
    timestamps and writes them to one log.  A log is a string. *)

From Stdlib Require Import Ascii.
From S2P Require Import Prelude PyDict PyStr PyFloat VTimeSync.

(** ** Events *)

(** An event: the timestamp and the line *)
Definition entry : Type := Z * string.

Definition parse_vtime_entry (line : string) : option entry :=
  match split_on "," (strip line) with
  | _ :: ts :: _ => ts ← int_of_str ts; Some (ts, line)
  | _ => None
  end.

Definition parse_throughput_entry (line : string) : option entry :=
  match split_on "," (strip line) with
  | ts :: _ => if isdigit ts then ts ← int_of_str ts; Some (ts, line) else None
  | _ => None
  end.

(** [line[0].isdigit()], false for the empty line as [line and ...] is *)
Definition digit_first (line : string) : bool :=
  match line with EmptyString => false | String c _ => is_digit c end.

(** [all_events] and [header_written] *)
Record merged : Type := mk_merged { all_events : list entry; header_written : bool }.

Definition is_header (line : string) : bool :=
  startswith "timestamp_us," line || startswith "#" line.

Definition add_event (m : merged) (parsed : option entry) : merged :=
  match parsed with
  | Some e => mk_merged (all_events m ++ [e]) (header_written m)
  | None => m
  end.

Definition merge_line (m : merged) (line : string) : merged :=
  if is_empty line then m
  else if is_header line then
    if negb (header_written m) && startswith "timestamp_us," line
    then mk_merged (all_events m ++ [(0, line)]) true else m
  else if startswith "VTIME," line then add_event m (parse_vtime_entry line)
  else if digit_first line then add_event m (parse_throughput_entry line)
  else m.

Definition merge_file (m : merged) (text : string) : merged := foldl merge_line m (file_lines text).

Definition vtime_header : string :=
  "# VTIME format: VTIME,timestamp_us,device_id,gemm_id,phase,event,vt_start_us,vt_end_us,vt_duration_us".
Definition throughput_header : string :=
  "# Throughput format: timestamp_us,device_id,gemm_id,direction,bytes,throughput_b_s,epoch_start_us,epoch_end_us,packet_duration_us".

(** The events of all logs, with the headers when no log has one *)
Definition collected (files : list string) : list entry :=
  let m := foldl merge_file (mk_merged [] false) files in
  if header_written m then all_events m
  else (0, vtime_header) :: (0, throughput_header) :: all_events m.

Definition by_timestamp (x y : entry) : bool := x.1 <=? y.1.

(** The numbers the script prints *)
Record merge_statistics : Type := mk_merge_statistics {
  total_events : Z; vtime_count : Z; throughput_count : Z; header_count : Z }.

Definition count_lines (p : string -> bool) (events : list entry) : Z :=
  Z.of_nat (length (filter (fun e => p e.2 = true) events)).

Definition statistics_of (events : list entry) : merge_statistics :=
  let headers := count_lines (startswith "#") events in
  mk_merge_statistics (Z.of_nat (length events) - headers) (count_lines (startswith "VTIME,") events)
    (count_lines (fun l => digit_first l && negb (startswith "#" l)) events) headers.

(** [merge_logs]: [files] are the logs of the directory in the order of their paths, [None]
    when there is no directory; [None] stands for [False], and the result is the merged log
    with the numbers printed. *)
Definition merge_logs (files : option (list string)) : option (string * merge_statistics) :=
  match files with
  | None | Some [] => None
  | Some files =>
      match sort_by by_timestamp (collected files) with
      | [] => None
      | events => Some (terminated (map snd events), statistics_of events)
      end
  end.

(** ** The collected events *)

(** A line of a text has no line break. *)
Definition one_line (s : string) : Prop := no_char "010" s = true /\ no_char "013" s = true.

(** The parts of a string have the characters it has, but the separator. *)
Lemma split_on_parts (p : ascii -> bool) c s part :
  all_chars p s = true -> part ∈ split_on c s -> all_chars p part = true /\ no_char c part = true.
Proof.
  revert part. induction s as [|a s IH]; intros part; cbn [split_on all_chars].
  { by intros _ ->%list_elem_of_singleton. }
  intros [Ha Hs]%andb_prop. destruct (Ascii.eqb a c) eqn:Hac.
  { intros [->|Hin]%elem_of_cons; [done|by apply IH]. }
  destruct (split_on c s) as [|q qs] eqn:Hq; [by apply split_on_nonempty in Hq|].
  intros [->|Hin]%elem_of_cons; [|by apply IH; [|right]].
  destruct (IH q Hs ltac:(left)) as [H1 H2]. unfold no_char in *. cbn [all_chars].
  by rewrite Ha, Hac.
Qed.

Lemma file_lines_one_line text line : line ∈ file_lines text -> one_line line.
Proof.
  intros Hl. pose proof (universal_newlines_no_cr text) as Hcr.
  assert (Hin : line ∈ split_on "010" (universal_newlines text)).
  { unfold file_lines in Hl. destruct (universal_newlines text) as [|c t]; [by apply elem_of_nil in Hl|].
    destruct (last _) as [[|]|]; [|done|done]. by apply elem_of_take in Hl as (i & Hi%list_elem_of_lookup_2 & _). }
  destruct (split_on_parts (fun a => negb (Ascii.eqb a "013")) "010" _ _ Hcr Hin) as [H1 H2].
  by split.
Qed.

(** What a line is taken for *)
Inductive line_kind : Type := ts_header | comment | vtime_line | throughput_line.

#[export] Instance line_kind_eq_dec : EqDecision line_kind.
Proof. solve_decision. Defined.

Definition kind_of (line : string) : option line_kind :=
  if startswith "timestamp_us," line then Some ts_header
  else if startswith "#" line then Some comment
  else if startswith "VTIME," line then Some vtime_line
  else if digit_first line then Some throughput_line else None.

Definition has_kind (k : line_kind) (e : entry) : Prop := kind_of e.2 = Some k.
#[export] Instance has_kind_dec k e : Decision (has_kind k e).
Proof. unfold has_kind. solve_decision. Defined.

(** The parser of a kind gives the entry *)
Definition well_parsed (e : entry) : Prop :=
  one_line e.2 /\
  ((has_kind ts_header e /\ e.1 = 0) \/ (has_kind comment e /\ e.1 = 0) \/
   (has_kind vtime_line e /\ parse_vtime_entry e.2 = Some e) \/
   (has_kind throughput_line e /\ parse_throughput_entry e.2 = Some e)).

Lemma well_parsed_nonempty e : well_parsed e -> e.2 <> "".
Proof. unfold well_parsed, has_kind. intros (_ & H) Hn. rewrite Hn in H. cbn in H. naive_solver. Qed.

Lemma parse_vtime_entry_line line e : parse_vtime_entry line = Some e -> e.2 = line.
Proof.
  unfold parse_vtime_entry. destruct (split_on _ _) as [|? [|ts ?]]; [done..|].
  cbn. destruct (int_of_str ts); [by intros [= <-]|done].
Qed.

Lemma parse_throughput_entry_line line e : parse_throughput_entry line = Some e -> e.2 = line.
Proof.
  unfold parse_throughput_entry. destruct (split_on _ _) as [|ts ?]; [done|].
  destruct (isdigit ts); [|done]. cbn. destruct (int_of_str ts); [by intros [= <-]|done].
Qed.

(** The invariant of the loop: at most one header, which is remembered *)
Definition merging (m : merged) : Prop :=
  Forall well_parsed (all_events m) /\ filter (has_kind comment) (all_events m) = [] /\
  length (filter (has_kind ts_header) (all_events m)) = if header_written m then 1%nat else 0%nat.

Lemma merging_add m e w :
  merging m -> well_parsed e -> ~ has_kind comment e ->
  (has_kind ts_header e -> header_written m = false /\ w = true) ->
  (~ has_kind ts_header e -> w = header_written m) ->
  merging (mk_merged (all_events m ++ [e]) w).
Proof.
  intros (H1 & H2 & H3) He Hc Hh Hn. unfold merging. cbn [all_events header_written].
  rewrite !filter_app, H2, length_app, H3, (filter_cons_False (has_kind comment)) by done.
  split; [apply Forall_app; by split; [|constructor]|]. split; [done|].
  destruct (decide (has_kind ts_header e)) as [Hk|Hk].
  - rewrite filter_cons_True by done. destruct (Hh Hk) as [-> ->]. done.
  - rewrite filter_cons_False, Hn by done. cbn. lia.
Qed.

Lemma merge_line_merging m line : merging m -> one_line line -> merging (merge_line m line).
Proof.
  intros Hm Hl. unfold merge_line. destruct (is_empty line); [done|]. unfold is_header.
  destruct (startswith "timestamp_us," line) eqn:Hts; cbn [orb].
  { rewrite andb_true_r. destruct (header_written m) eqn:Hw; [done|]. cbn [negb].
    assert (Hk : has_kind ts_header (0, line)) by (unfold has_kind, kind_of; cbn [snd]; by rewrite Hts).
    apply merging_add; [done| | |done|done].
    - split; [done|]. by left.
    - unfold has_kind in *. cbn [snd] in *. congruence. }
  destruct (startswith "#" line) eqn:Hhash; [by rewrite andb_false_r|].
  assert (Hadd : forall k e, k = vtime_line \/ k = throughput_line -> e.2 = line ->
    kind_of line = Some k -> well_parsed e -> merging (mk_merged (all_events m ++ [e]) (header_written m))).
  { intros k e Hor He Hk Hw. apply merging_add; [done|done| |intros Hh|done];
      unfold has_kind in *; rewrite He, Hk in *; destruct Hor; congruence. }
  destruct (startswith "VTIME," line) eqn:Hv; [|destruct (digit_first line) eqn:Hd; [|done]].
  - unfold add_event. destruct (parse_vtime_entry line) as [e|] eqn:Hp; [|done].
    pose proof (parse_vtime_entry_line _ _ Hp) as He.
    assert (Hk : kind_of line = Some vtime_line) by (unfold kind_of; by rewrite Hts, Hhash, Hv).
    apply (Hadd vtime_line); [by left|done|done|]. unfold well_parsed, has_kind. rewrite He. split; [done|].
    right. right. by left.
  - unfold add_event. destruct (parse_throughput_entry line) as [e|] eqn:Hp; [|done].
    pose proof (parse_throughput_entry_line _ _ Hp) as He.
    assert (Hk : kind_of line = Some throughput_line) by (unfold kind_of; by rewrite Hts, Hhash, Hv, Hd).
    apply (Hadd throughput_line); [by right|done|done|]. unfold well_parsed, has_kind. rewrite He. split; [done|].
    right. right. by right.
Qed.

Lemma foldl_merging {A} (f : merged -> A -> merged) (P : A -> Prop) l m :
  (forall m x, merging m -> P x -> merging (f m x)) -> merging m -> Forall P l -> merging (foldl f m l).
Proof. intros Hf Hm Hl. revert m Hm. induction Hl; intros m Hm; [done|]. cbn. auto. Qed.

Lemma merge_files_merging files : merging (foldl merge_file (mk_merged [] false) files).
Proof.
  apply (foldl_merging _ (fun _ => True)); [|by split; [constructor|]|by apply Forall_true].
  intros m text Hm _. apply (foldl_merging _ one_line); [apply merge_line_merging|done|].
  apply Forall_forall. intros line. apply file_lines_one_line.
Qed.

(** The headers among the collected events: the first one of the logs, or the two comments *)
Lemma collected_spec files :
  let written := header_written (foldl merge_file (mk_merged [] false) files) in
  Forall well_parsed (collected files) /\ collected files <> [] /\
  length (filter (has_kind ts_header) (collected files)) = (if written then 1 else 0)%nat /\
  length (filter (has_kind comment) (collected files)) = (if written then 0 else 2)%nat.
Proof.
  cbn zeta. destruct (merge_files_merging files) as (H1 & H2 & H3). unfold collected.
  destruct (header_written _).
  - rewrite H2, H3. split_and!; [done| |done|done]. intros Hn. by rewrite Hn in H3.
  - rewrite !(filter_cons_False (has_kind ts_header)) by done.
    rewrite !(filter_cons_True (has_kind comment)) by done. rewrite H3.
    change (@length entry (?a :: ?b :: filter ?P ?l)) with (S (S (length (filter P l)))).
    rewrite H2. split_and!; [|done|done|done].
    constructor; [|constructor; [|done]]; (split; [by vm_compute|]); right; by left.
Qed.

(** ** The merged log is a log *)

Lemma read_lines_vtime l lines l' :
  read_lines l lines = Ret l' -> vtime_events l' = vtime_events l ++ omap parse_vtime_event lines.
Proof.
  revert l. induction lines as [|line lines IH]; intros l; cbn [read_lines].
  { intros [= <-]. by rewrite app_nil_r. }
  unfold read_line. cbn [omap list_omap].
  destruct (parse_vtime_event line) as [e|]; cbn [mbind outcome_bind].
  { intros ->%IH. cbn [vtime_events]. by rewrite <- app_assoc. }
  destruct (parse_throughput_event line) as [[t|]|]; [| |done]; by intros ->%IH.
Qed.

Lemma by_timestamp_sorted l : StronglySorted (fun x y => x.1 <= y.1) (sort_by by_timestamp l).
Proof.
  assert (Hs : StronglySorted (fun x y => by_timestamp x y = true) (sort_by by_timestamp l))
    by (apply sort_by_sorted; unfold by_timestamp; intros; rewrite ?Z.leb_le in *; lia).
  induction Hs as [|x m Hs IH Hf]; constructor; [done|]. eapply Forall_impl; [exact Hf|].
  intros y. apply Z.leb_le.
Qed.

(** The kinds of lines are told apart by how they start. *)
Lemma kind_prefix line k :
  kind_of line = Some k ->
  startswith "#" line = bool_decide (k = comment) /\
  startswith "VTIME," line = bool_decide (k = vtime_line) /\
  digit_first line = bool_decide (k = throughput_line).
Proof.
  destruct line as [|c line]; [done|]. unfold kind_of. cbn [digit_first].
  destruct (Ascii.eqb "t" c) eqn:H1; [|destruct (Ascii.eqb "#" c) eqn:H2;
    [|destruct (Ascii.eqb "V" c) eqn:H3]].
  - apply Ascii.eqb_eq in H1 as <-. change (startswith "#" (String "t" line)) with false.
    change (startswith "VTIME," (String "t" line)) with false. change (is_digit "t") with false.
    destruct (startswith _ _); [|done]. by intros [= <-].
  - apply Ascii.eqb_eq in H2 as <-. change (startswith "#" (String "#" line)) with true.
    change (startswith "VTIME," (String "#" line)) with false. change (is_digit "#") with false.
    change (startswith "timestamp_us," (String "#" line)) with false. by intros [= <-].
  - apply Ascii.eqb_eq in H3 as <-. change (startswith "#" (String "V" line)) with false.
    change (startswith "timestamp_us," (String "V" line)) with false. change (is_digit "V") with false.
    destruct (startswith _ _); [|done]. by intros [= <-].
  - cbn [startswith]. rewrite H1, H2, H3. cbn [andb].
    destruct (is_digit c); [by intros [= <-]|done].
Qed.

Lemma filter_kind_cons k k' e l :
  kind_of e.2 = Some k' ->
  filter (has_kind k) (e :: l) =
  if decide (k' = k) then e :: filter (has_kind k) l else filter (has_kind k) l.
Proof.
  intros Hk. destruct (decide (k' = k)) as [->|Hne]; [by apply filter_cons_True|].
  apply filter_cons_False. unfold has_kind. congruence.
Qed.

Lemma filter_kinds (p : string -> bool) k l :
  Forall well_parsed l ->
  (forall line k', kind_of line = Some k' -> p line = bool_decide (k' = k)) ->
  filter (fun e : entry => p e.2 = true) l = filter (has_kind k) l.
Proof.
  intros Hl Hp. induction Hl as [|e l He Hl IH]; [done|].
  assert (exists k', kind_of e.2 = Some k') as [k' Hk'].
  { unfold well_parsed, has_kind in He. naive_solver. }
  specialize (Hp _ _ Hk'). rewrite (filter_kind_cons k k') by done. rewrite filter_cons, IH, Hp.
  by destruct (decide (k' = k)) as [->|Hne]; [rewrite bool_decide_true|rewrite bool_decide_false].
Qed.

(** Every entry has one kind. *)
Lemma kinds_partition l :
  Forall well_parsed l ->
  length l = (length (filter (has_kind ts_header) l) + length (filter (has_kind comment) l) +
              length (filter (has_kind vtime_line) l) + length (filter (has_kind throughput_line) l))%nat.
Proof.
  induction 1 as [|e l He Hl IH]; [done|].
  assert (exists k, kind_of e.2 = Some k) as [k Hk].
  { unfold well_parsed, has_kind in He. naive_solver. }
  rewrite !(filter_kind_cons _ k) by done. cbn [length]. rewrite IH.
  destruct k; repeat (case_decide; try done); unfold entry in *; cbn [length]; lia.
Qed.

(** Whatever the logs hold, the merged log is one [sync_virtual_time.py] reads without an
    exception.  It has the events and headers of the logs, each once, ordered by their
    timestamps, and those of one timestamp in the order of the logs.  The total that is
    printed counts a header of the logs as an event. *)
Theorem merged_log_read files text st :
  merge_logs (Some files) = Some (text, st) ->
  exists es l, text = terminated (map snd es) /\ es ≡ₚ collected files /\
    StronglySorted (fun x y => x.1 <= y.1) es /\
    (forall t, filter (fun e => e.1 = t) es = filter (fun e => e.1 = t) (collected files)) /\
    read_log text = Ret l /\ vtime_events l = omap parse_vtime_event (map snd es) /\
    total_events st = vtime_count st + throughput_count st +
      (if header_written (foldl merge_file (mk_merged [] false) files) then 1 else 0).
Proof.
  destruct (collected_spec files) as (Hw & Hne & Hts & Hc). unfold merge_logs.
  destruct files as [|f files]; [done|]. set (fs := f :: files) in *.
  set (es := sort_by by_timestamp (collected fs)). intros Hm.
  assert (text = terminated (map snd es) /\ st = statistics_of es) as [-> ->]
    by (destruct es; [done|by injection Hm as <- <-]). clear Hm.
  assert (Hp : es ≡ₚ collected fs) by apply sort_by_perm.
  assert (Hwe : Forall well_parsed es) by (by rewrite Hp).
  assert (Hlines : file_lines (terminated (map snd es)) = map snd es).
  { apply file_lines_terminated, forallb_forall. intros line Hin%list_elem_of_In.
    apply list_elem_of_fmap in Hin as (e & -> & He). rewrite Forall_forall in Hwe.
    destruct (Hwe e He) as [[H1 H2] _]. by rewrite H1, H2. }
  destruct (read_log (terminated (map snd es))) as [l|e] eqn:Hr.
  - exists es, l. split; [done|]. split; [done|]. split; [apply by_timestamp_sorted|]. split.
    { intros t. apply sort_by_stable. intros x y Hx Hy. unfold by_timestamp. apply Z.leb_le. lia. }
    split; [done|]. split.
    { unfold read_log in Hr. rewrite Hlines in Hr. by apply read_lines_vtime in Hr as ->. }
    unfold statistics_of, count_lines. cbn [total_events vtime_count throughput_count].
    rewrite (filter_kinds (startswith "#") comment), (filter_kinds (startswith "VTIME,") vtime_line),
      (filter_kinds (fun l => digit_first l && negb (startswith "#" l)) throughput_line) by
      (done || (intros line k Hk; destruct (kind_prefix _ _ Hk) as (H1 & H2 & H3);
             rewrite ?H1, ?H2, ?H3; by destruct k)).
    rewrite (kinds_partition es) by done.
    rewrite <- Hp in Hts. rewrite Hts. destruct (header_written _); lia.
  - exfalso. assert (Hblank : "" ∈ file_lines (terminated (map snd es))).
    { apply (read_log_raises_on_blank_line _). by exists e. }
    rewrite Hlines in Hblank. apply list_elem_of_fmap in Hblank as (e' & He' & Hin).
    rewrite Forall_forall in Hwe. by destruct (well_parsed_nonempty _ (Hwe _ Hin)).
Qed.

(** ** A concrete input *)

Definition demo_logs : list string :=
  [terminated ["VTIME,7,0,1,COMPUTE,START,30,60,30"; "junk"];
   terminated ["timestamp_us,device_id"; "5,0,1,DOWN,100,2.5,10,20,10"]]%string.

Lemma merged_log_read_witness :
  match merge_logs (Some demo_logs) with
  | Some (text, st) =>
      file_lines text = ["timestamp_us,device_id"; "5,0,1,DOWN,100,2.5,10,20,10";
                         "VTIME,7,0,1,COMPUTE,START,30,60,30"]%string /\
      total_events st = 3 /\ exists l, read_log text = Ret l
  | None => False
  end.
Proof.
  destruct (merge_logs (Some demo_logs)) as [[text st]|] eqn:Hm.
  - destruct (merged_log_read demo_logs text st Hm) as (es & l & _ & _ & _ & _ & Hl & _ & Ht).
    revert Hm. vm_compute (merge_logs _). intros [= <- <-]. split; [reflexivity|].
    split; [reflexivity|]. by exists l.
  - revert Hm. vm_compute. discriminate.
Defined.
