(* ===== verification/SyncAnalysis.v ===== *)
(** * Analyses of the synchronisation
      ([scripts/analyze_sync.py], [verify_sync_correctness.py],
      [compare_sync_strategies.py], [compare_sync_methods.py])

    Four scripts read performance logs and compare the virtual times of the devices, before
    and after [sync_virtual_time.py] or under its two methods.  Of what they print, the
    numbers are modelled. *)

From Stdlib Require Import Ascii.
From S2P Require Import Prelude PyDict PyStr PyFloat FloatOrder PyJson VTimeSync LogMerge.
From S2P Require BatchRuntime.

(** [max(values) - min(values)]; the values of an empty dictionary raise *)
Definition max_of_values (l : list Z) : outcome Z :=
  of_option (ValueError "max() arg is an empty sequence") (max_list l).
Definition min_of_values (l : list Z) : outcome Z :=
  of_option (ValueError "min() arg is an empty sequence") (min_list l).
Definition spread (l : list Z) : outcome Z :=
  hi ← max_of_values l; lo ← min_of_values l; Ret (hi - lo).

(** [d[k]] *)
Definition item {K V} `{EqDecision K} (k : K) (d : list (K * V)) : outcome V :=
  of_option (KeyError "") (dict_get k d).

Definition floordiv (a b : Z) : outcome Z :=
  if b =? 0 then Raise (ZeroDivisionError "integer division or modulo by zero") else Ret (a / b).

(** ** Before and after ([analyze_sync.py]) *)

Module Metrics.

Record ComputeEvent : Type := mk_compute {
  gemm_id : Z;
  device_id : Z;
  vt_start_us : Z;
  vt_end_us : Z;
}.

(** One line: every COMPUTE event counts, whatever its event. *)
Definition parse_compute_line (line : string) : option ComputeEvent :=
  if startswith "VTIME," line then
    match split_on "," line with
    | _ :: _ :: dev :: gemm :: phase :: _ :: st :: en :: _ :: _ =>
        if String.eqb phase "COMPUTE" then
          gemm ← int_of_str gemm; dev ← int_of_str dev; st ← int_of_str st; en ← int_of_str en;
          Some (mk_compute gemm dev st en)
        else None
    | _ => None
    end
  else None.

Definition parse_log_for_compute_events (text : string) : list ComputeEvent :=
  omap parse_compute_line (file_lines text).

Definition organize_by_gemm (events : list ComputeEvent) : pydict Z (list ComputeEvent) :=
  group_by gemm_id events.

Record SyncMetrics : Type := mk_metrics {
  devices : list Z;
  original_vt_starts : pydict Z Z;
  synced_vt_starts : pydict Z Z;
  original_spread_us : Z;
  synced_spread_us : Z;
  improvement_us : Z;
  improvement_pct : json;
  is_synchronized : bool;
}.

Definition SYNC_THRESHOLD_US : Z := 100.

(** [{e.device_id: e for e in events}] *)
Definition by_device (events : list ComputeEvent) : pydict Z ComputeEvent :=
  dict_of_pairs (map (fun e => (device_id e, e)) events).

(** [{d: by_device[d].vt_start_us for d in devices}] *)
Definition starts_by_device (d : pydict Z ComputeEvent) (devices : list Z) : outcome (pydict Z Z) :=
  mapO (fun k => e ← item k d; Ret (k, vt_start_us e)) devices.

Definition percent_of (improvement original : Z) : outcome json :=
  if 0 <? original
  then x ← int_truediv improvement original; Ret (JFloat (fmul x (f_of_Z 100)))
  else Ret (JInt 0).

Definition metrics_of (orig_events sync_events : list ComputeEvent) : outcome SyncMetrics :=
  let orig_by_device := by_device orig_events in
  let devices := sort_by Z.leb (dict_keys orig_by_device) in
  orig_vt_starts ← starts_by_device orig_by_device devices;
  sync_vt_starts ← starts_by_device (by_device sync_events) devices;
  orig_spread ← spread (dict_values orig_vt_starts);
  sync_spread ← spread (dict_values sync_vt_starts);
  let improvement := orig_spread - sync_spread in
  pct ← percent_of improvement orig_spread;
  Ret (mk_metrics devices orig_vt_starts sync_vt_starts orig_spread sync_spread improvement pct
         (sync_spread <? SYNC_THRESHOLD_US)).

(** The GEMMs of the original log that the synchronised one has too *)
Fixpoint calculate_sync_metrics (original_events synced_events : pydict Z (list ComputeEvent)) :
    outcome (pydict Z SyncMetrics) :=
  match original_events with
  | [] => Ret []
  | (g, orig) :: original_events =>
      match dict_get g synced_events with
      | None => calculate_sync_metrics original_events synced_events
      | Some sync =>
          m ← metrics_of orig sync;
          ms ← calculate_sync_metrics original_events synced_events;
          Ret ((g, m) :: ms)
      end
  end.

(** [print_comparison]: the number of GEMMs, of synchronised ones, and their percentage *)
Definition overall_results (metrics : pydict Z SyncMetrics) : outcome (Z * Z * Z) :=
  let total_gemm := Z.of_nat (length metrics) in
  let synced_count := Z.of_nat (length (filter (fun m => is_synchronized m.2 = true) metrics)) in
  pct ← floordiv (synced_count * 100) total_gemm;
  Ret (total_gemm, synced_count, pct).

(** [print_timeline]: a bar's length and the offset from the earliest device *)
Definition timeline_of (devices : list Z) (times : pydict Z Z) : outcome (list (Z * Z * Z)) :=
  min_time ← min_of_values (dict_values times);
  mapO (fun d => vt ← item d times;
                 let offset_from_min := vt - min_time in
                 Ret (Z.max 1 (offset_from_min / 50), vt, offset_from_min)) devices.

Definition timeline (metrics : pydict Z SyncMetrics) :
    outcome (list (Z * (list (Z * Z * Z) * list (Z * Z * Z)))) :=
  mapO (fun g => m ← item g metrics;
                 before ← timeline_of (devices m) (original_vt_starts m);
                 after ← timeline_of (devices m) (synced_vt_starts m);
                 Ret (g, (before, after)))
    (take 5 (sort_by Z.leb (dict_keys metrics))).

(** [main]: both logs analysed, the comparison and the timeline printed *)
Definition analyze_main (original_log synced_log : string) :
    outcome (pydict Z SyncMetrics * (Z * Z * Z) * list (Z * (list (Z * Z * Z) * list (Z * Z * Z)))) :=
  metrics ← calculate_sync_metrics (organize_by_gemm (parse_log_for_compute_events original_log))
              (organize_by_gemm (parse_log_for_compute_events synced_log));
  results ← overall_results metrics;
  lines ← timeline metrics;
  Ret (metrics, results, lines).
End Metrics.

(** ** Checking a synchronised log ([verify_sync_correctness.py]) *)

Module Verify.

Record event : Type := mk_event {
  timestamp : Z;
  device_id : Z;
  gemm_id : Z;
  phase : string;
  event_name : string;
  vt_start_us : Z;
  vt_end_us : Z;
  vt_duration_us : Z;
}.

Definition to_int (s : string) : outcome Z :=
  of_option (ValueError "invalid literal for int()") (int_of_str s).

(** A malformed number raises. *)
Definition parse_vtime_event (line : string) : outcome (option event) :=
  match split_on "," (strip line) with
  | _ :: ts :: dev :: gemm :: ph :: ev :: st :: en :: dur :: _ =>
      ts ← to_int ts; dev ← to_int dev; gemm ← to_int gemm;
      st ← to_int st; en ← to_int en; dur ← to_int dur;
      Ret (Some (mk_event ts dev gemm ph ev st en dur))
  | _ => Ret None
  end.

Fixpoint read_events (lines : list string) : outcome (list event) :=
  match lines with
  | [] => Ret []
  | line :: lines =>
      if startswith "VTIME," line then
        e ← parse_vtime_event line; es ← read_events lines;
        Ret (match e with Some e => e :: es | None => es end)
      else read_events lines
  end.

Definition read_log (filepath : string) : outcome (pydict Z (list event)) :=
  es ← read_events (file_lines filepath); Ret (group_by gemm_id es).

Definition is_start (e : event) : bool :=
  String.eqb (phase e) "COMPUTE" && String.eqb (event_name e) "START".

(** [{evt["device_id"]: evt for evt in events if ...}] *)
Definition starts_of_device (events : list event) : pydict Z event :=
  dict_of_pairs (map (fun e => (device_id e, e)) (filter (fun e => is_start e = true) events)).

(** A device with its times before and after and the offset *)
Record shift : Type := mk_shift { s_device : Z; s_before : Z; s_after : Z; s_offset : Z }.

(** What is found of a GEMM: no starts; different times; or one time for all devices, with
    the changes of all events *)
Inductive verdict : Type :=
  | no_starts
  | different (shifts : list shift) (times : list Z)
  | synchronised (shifts : list shift) (baseline_vt : Z)
      (changes : list (Z * string * string * Z * Z * Z)).

Definition shifts_of (before after : pydict Z event) : outcome (list shift) :=
  mapO (fun d => b ← item d before; a ← item d after;
                 Ret (mk_shift d (vt_start_us b) (vt_start_us a) (vt_start_us a - vt_start_us b)))
    (sort_by Z.leb (dict_keys before)).

Definition event_key (e : event) : Z * string * string := (device_id e, phase e, event_name e).
Definition all_by_key (events : list event) : pydict (Z * string * string) event :=
  dict_of_pairs (map (fun e => (event_key e, e)) events).

(** The order of tuples *)
Definition key_leb (x y : Z * string * string) : bool :=
  (x.1.1 <? y.1.1) ||
  ((x.1.1 =? y.1.1) && (String.ltb x.1.2 y.1.2 || (String.eqb x.1.2 y.1.2 && String.leb x.2 y.2))).

Definition changes_of (before after : list event) : list (Z * string * string * Z * Z * Z) :=
  let before_all := all_by_key before in
  let after_all := all_by_key after in
  omap (fun k => b ← dict_get k before_all; a ← dict_get k after_all;
                 Some (k, vt_start_us b, vt_start_us a, vt_start_us a - vt_start_us b))
    (sort_by key_leb (dict_keys before_all)).

Definition analyze_gemm (before_events after_events : pydict Z (list event)) (gemm_id : Z) :
    outcome verdict :=
  let bs := dict_get_default gemm_id [] before_events in
  let as_ := dict_get_default gemm_id [] after_events in
  let before := starts_of_device bs in
  let after := starts_of_device as_ in
  match before, after with
  | [], _ | _, [] => Ret no_starts
  | _, _ =>
      shifts ← shifts_of before after;
      match remove_dups (map s_after shifts) with
      | [baseline_vt] => Ret (synchronised shifts baseline_vt (changes_of bs as_))
      | unique_vts => Ret (different shifts unique_vts)
      end
  end.

(** The offsets of every device over the GEMMs of the log before; [after[gemm_id]] of the
    default dictionary is empty for a GEMM the log after does not have *)
Definition offsets_of_gemm (before after : pydict Z (list event)) (offsets : pydict Z (list Z))
    (g : Z * list event) : outcome (pydict Z (list Z)) :=
  let b := starts_of_device g.2 in
  let a := starts_of_device (dict_get_default g.1 [] after) in
  match b, a with
  | [], _ | _, [] => Ret offsets
  | _, _ =>
      foldO (fun offsets de => x ← item de.1 a;
               Ret (dict_alter (fun l => default [] l ++ [vt_start_us x - vt_start_us de.2]) de.1 offsets))
        b offsets
  end.

Record device_statistics : Type := mk_device_statistics {
  d_device : Z; d_average : float; d_min : Z; d_max : Z; d_total : Z }.

Definition device_statistics_of (do : Z * list Z) : outcome device_statistics :=
  avg ← int_truediv (sum_list do.2) (Z.of_nat (length do.2));
  lo ← min_of_values do.2; hi ← max_of_values do.2;
  Ret (mk_device_statistics do.1 avg lo hi (sum_list do.2)).

(** What [main] prints: the verdicts on the first GEMMs, the numbers of GEMMs and of pairs of
    devices and GEMMs, and the offsets of every device *)
Record report : Type := mk_report {
  verdicts : list verdict;
  synced_gemms : Z;
  total_events : Z;
  offset_statistics : list device_statistics;
}.

Definition verify_main (before_path after_path : string) : outcome report :=
  before ← read_log before_path;
  after ← read_log after_path;
  vs ← mapO (analyze_gemm before after) (seqZ 0 (Z.min 5 (Z.of_nat (length before))));
  offsets ← foldO (offsets_of_gemm before after) before [];
  stats ← mapO (fun d => o ← item d offsets; device_statistics_of (d, o))
            (sort_by Z.leb (dict_keys offsets));
  Ret (mk_report vs (Z.of_nat (length before))
         (sum_list (map (fun do => Z.of_nat (length do.2)) offsets)) stats).
End Verify.

(** ** The two strategies ([compare_sync_strategies.py]) *)

Module Strategies.

(** The start and the end of a device, as far as recorded *)
Definition times : Type := option Z * option Z.
(** [defaultdict(dict)]: by GEMM, then by device *)
Definition table : Type := pydict Z (pydict Z times).

(** [compute_times[g][d] = t] *)
Definition put (g d : Z) (t : times) (table : table) : Strategies.table :=
  dict_alter (fun inner => dict_set d t (default [] inner)) g table.

(** [g in compute_times[d]] creates [compute_times[d]]. *)
Definition touch (d : Z) (table : table) : Strategies.table :=
  match dict_get d table with Some _ => table | None => table ++ [(d, [])] end.

Definition entry_of (g d : Z) (table : table) : option times := dict_get g table ≫= dict_get d.

(** A START event is recorded unless the device's number, taken as a GEMM, has an entry for
    the GEMM's number, taken as a device. *)
Definition record_event (gemm_id device_id : Z) (event : string) (vt_start vt_end : Z)
    (table : table) : Strategies.table :=
  if String.eqb event "START" then
    let table := touch device_id table in
    match entry_of device_id gemm_id table with
    | None => put gemm_id device_id (Some vt_start, None) table
    | Some _ => table
    end
  else if String.eqb event "END" then
    match entry_of gemm_id device_id table with
    | Some (start_time, _) => put gemm_id device_id (start_time, Some vt_end) table
    | None => put gemm_id device_id (None, Some vt_end) table
    end
  else table.

Record compute_line : Type := mk_compute_line {
  c_gemm : Z; c_device : Z; c_event : string; c_start : Z; c_end : Z }.

Definition parse_strategy_line (line : string) : option compute_line :=
  if startswith "VTIME," line then
    match split_on "," line with
    | _ :: _ :: dev :: gemm :: phase :: event :: st :: en :: _ :: _ =>
        if String.eqb phase "COMPUTE" then
          gemm ← int_of_str gemm; dev ← int_of_str dev; st ← int_of_str st; en ← int_of_str en;
          Some (mk_compute_line gemm dev event st en)
        else None
    | _ => None
    end
  else None.

Definition record_line (t : table) (c : compute_line) : table :=
  record_event (c_gemm c) (c_device c) (c_event c) (c_start c) (c_end c) t.

Definition parse_log_for_compute_times (text : string) : table :=
  foldl record_line [] (omap parse_strategy_line (file_lines text)).

Record strategy : Type := mk_strategy {
  baseline : Z;
  offsets : pydict Z Z;
  max_offset : Z;
  min_offset : Z;
  spread_before : Z;
  spread_after : Z;
  baseline_device : Z;
  strategy_name : string;
}.

Definition EARLIEST : string := "EARLIEST (最早对齐)".
Definition LATEST : string := "LATEST (最晚对齐)".

(** The recorded starts and ends, by device *)
Definition starts (devices : pydict Z times) : pydict Z Z :=
  omap (fun dt => t ← dt.2.1; Some (dt.1, t)) devices.
Definition ends (devices : pydict Z times) : pydict Z Z :=
  omap (fun dt => t ← dt.2.2; Some (dt.1, t)) devices.

Definition strategy_of (name : string) (base : Z) (device : Z) (vt_starts : pydict Z Z) :
    outcome strategy :=
  let offsets := map (fun dt => (dt.1, base - dt.2)) vt_starts in
  max_offset ← max_of_values (map Z.abs (dict_values offsets));
  min_offset ← min_of_values (map Z.abs (dict_values offsets));
  before ← spread (dict_values vt_starts);
  Ret (mk_strategy base offsets max_offset min_offset before 0 device name).

(** The device with the shortest computation, when any has a start and an end *)
Definition fastest (vt_starts vt_ends : pydict Z Z) : option Z :=
  fst <$> min_by snd (omap (fun dt => e ← dict_get dt.1 vt_ends; Some (dt.1, e - dt.2)) vt_starts).

Definition strategies_of (vt_starts vt_ends : pydict Z Z) :
    outcome (strategy * (strategy * option Z)) :=
  earliest_base ← min_of_values (dict_values vt_starts);
  latest_base ← max_of_values (dict_values vt_starts);
  first ← of_option (ValueError "min() arg is an empty sequence") (min_by snd vt_starts);
  last ← of_option (ValueError "max() arg is an empty sequence") (min_by (fun dt => - dt.2) vt_starts);
  earliest ← strategy_of EARLIEST earliest_base first.1 vt_starts;
  latest ← strategy_of LATEST latest_base last.1 vt_starts;
  Ret (earliest, (latest, fastest vt_starts vt_ends)).

(** The results by GEMM: the two dictionaries the script returns, side by side *)
Definition results : Type := pydict Z (strategy * (strategy * option Z)).

Fixpoint differences (compute_times : table) (gemms : list Z) : outcome results :=
  match gemms with
  | [] => Ret []
  | g :: gemms =>
      devices ← item g compute_times;
      match starts devices with
      | [] => differences compute_times gemms
      | vt_starts =>
          s ← strategies_of vt_starts (ends devices);
          rest ← differences compute_times gemms;
          Ret ((g, s) :: rest)
      end
  end.

Definition analyze_strategy_differences (compute_times : table) : outcome results :=
  differences compute_times (sort_by Z.leb (dict_keys compute_times)).

(** *** What is printed *)

(** The synchronised times of a strategy: device, new time, offset *)
Definition synced_times (s : strategy) (vt_starts : pydict Z Z) : outcome (list (Z * Z * Z)) :=
  mapO (fun d => o ← item d (offsets s); t ← item d vt_starts; Ret (d, t + o, o))
    (sort_by Z.leb (dict_keys vt_starts)).

Record detail : Type := mk_detail {
  d_gemm : Z;
  d_starts : pydict Z Z;
  d_spread : Z;
  d_earliest : list (Z * Z * Z);
  d_latest : list (Z * Z * Z);
  d_shift : Z;
  latest_is_larger : bool;
}.

(** [print_detailed_comparison]: the GEMMs with the first numbers that have a result *)
Definition detail_of (results : results) (compute_times : table) (gemm_id : Z) :
    outcome (option detail) :=
  match dict_get gemm_id results with
  | None => Ret None
  | Some (early, (late, _)) =>
      devices ← item gemm_id compute_times;
      let vt_starts := starts devices in
      spread ← spread (dict_values vt_starts);
      e ← synced_times early vt_starts;
      l ← synced_times late vt_starts;
      Ret (Some (mk_detail gemm_id vt_starts spread e l (baseline late - baseline early)
                   (max_offset early <? max_offset late)))
  end.

Definition print_detailed_comparison (results : results) (compute_times : table) :
    outcome (list (option detail)) :=
  mapO (detail_of results compute_times) (seqZ 0 (Z.min 5 (Z.of_nat (length results)))).

(** The average, the least and the greatest number *)
Definition average_range (l : list Z) : outcome (float * Z * Z) :=
  avg ← int_truediv (sum_list l) (Z.of_nat (length l));
  lo ← min_of_values l; hi ← max_of_values l; Ret (avg, lo, hi).

(** How often a device is the baseline, and the percentage *)
Definition baseline_counts (devices : list Z) (total : Z) : outcome (list (Z * Z * float)) :=
  mapO (fun d => let count := Z.of_nat (length (filter (fun x => x = d) devices)) in
                 pct ← int_truediv (count * 100) total; Ret (d, count, pct))
    (sort_by Z.leb (remove_dups devices)).

Record statistical_comparison : Type := mk_statistical_comparison {
  earliest_baselines : float * Z * Z;
  latest_baselines : float * Z * Z;
  baseline_shift : float;
  earliest_max_offsets : float * Z * Z;
  latest_max_offsets : float * Z * Z;
  earliest_devices : list (Z * Z * float);
  latest_devices : list (Z * Z * float);
}.

Definition print_statistical_comparison (results : results) : outcome statistical_comparison :=
  let earliest := map (fun r => r.2.1) results in
  let latest := map (fun r => r.2.2.1) results in
  let total := Z.of_nat (length results) in
  eb ← average_range (map baseline earliest);
  lb ← average_range (map baseline latest);
  let shift := fsub lb.1.1 eb.1.1 in
  eo ← average_range (map max_offset earliest);
  lo ← average_range (map max_offset latest);
  ed ← baseline_counts (map baseline_device earliest) total;
  ld ← baseline_counts (map baseline_device latest) total;
  Ret (mk_statistical_comparison eb lb shift eo lo ed ld).

Definition strategies_main (log_file : string) :
    outcome (results * list (option detail) * statistical_comparison) :=
  let compute_times := parse_log_for_compute_times log_file in
  rs ← analyze_strategy_differences compute_times;
  ds ← print_detailed_comparison rs compute_times;
  st ← print_statistical_comparison rs;
  Ret (rs, ds, st).
End Strategies.

(** ** The two methods ([compare_sync_methods.py]) *)

Module Methods.

(** [events[gemm_id][device_id] = vt_start], of the START events *)
Definition parse_start_line (line : string) : option (Z * Z * Z) :=
  if startswith "VTIME," line then
    match split_on "," line with
    | _ :: _ :: dev :: gemm :: phase :: event :: st :: _ :: _ :: _ =>
        if String.eqb phase "COMPUTE" && String.eqb event "START" then
          gemm ← int_of_str gemm; dev ← int_of_str dev; st ← int_of_str st; Some (gemm, dev, st)
        else None
    | _ => None
    end
  else None.

Definition parse_start_events (text : string) : nested :=
  foldl (fun d e => set_nested e.1.1 e.1.2 e.2 d) [] (omap parse_start_line (file_lines text)).

(** The offsets to a baseline *)
Definition offsets_to (base : Z) (device_times : pydict Z Z) : pydict Z Z :=
  map (fun dt => (dt.1, base - dt.2)) device_times.

(** A line of a device: the offset and the new start *)
Definition device_line (device_times offsets : pydict Z Z) (d : Z) : outcome (Z * Z) :=
  o ← item d offsets; t ← item d device_times; Ret (o, t + o).

(** What is printed of one GEMM: for either method the lines of the devices 0, 1 and 2, and
    the difference of the offsets for every device *)
Record comparison : Type := mk_comparison {
  c_gemm : Z;
  c_range : Z;
  c_earliest : Z * list (Z * Z);
  c_latest : Z * list (Z * Z);
  c_differences : list (Z * Z);
}.

Definition compare_gemm (events : nested) (gemm_id : Z) : outcome comparison :=
  device_times ← item gemm_id events;
  earliest_baseline ← min_of_values (dict_values device_times);
  latest_baseline ← max_of_values (dict_values device_times);
  let earliest_offsets := offsets_to earliest_baseline device_times in
  let latest_offsets := offsets_to latest_baseline device_times in
  mapO (fun d => item d device_times) [0; 1; 2];;
  range ← spread (dict_values device_times);
  es ← mapO (device_line device_times earliest_offsets) [0; 1; 2];
  ls ← mapO (device_line device_times latest_offsets) [0; 1; 2];
  diffs ← mapO (fun d => e ← item d earliest_offsets; l ← item d latest_offsets; Ret (d, l - e))
            (sort_by Z.leb (dict_keys device_times));
  Ret (mk_comparison gemm_id range (earliest_baseline, es) (latest_baseline, ls) diffs).

(** The totals of a method: the devices that advance, and the absolute offsets *)
Record totals : Type := mk_totals {
  earliest_total_advances : Z;
  latest_total_advances : Z;
  earliest_total_offset : Z;
  latest_total_offset : Z;
}.

Definition advances (offsets : pydict Z Z) : Z :=
  Z.of_nat (length (filter (fun o => 0 < o) (dict_values offsets))).
Definition total_offset (offsets : pydict Z Z) : Z := sum_list (map Z.abs (dict_values offsets)).

Definition add_totals (t : totals) (g : Z * list (Z * Z)) : outcome totals :=
  earliest_baseline ← min_of_values (dict_values g.2);
  latest_baseline ← max_of_values (dict_values g.2);
  let e := offsets_to earliest_baseline g.2 in
  let l := offsets_to latest_baseline g.2 in
  Ret (mk_totals (earliest_total_advances t + advances e) (latest_total_advances t + advances l)
         (earliest_total_offset t + total_offset e) (latest_total_offset t + total_offset l)).

(** The averages that are printed of a method *)
Definition averages (advances offset total_gemms : Z) : outcome (Z * Z) :=
  pct ← floordiv (advances * 100) (total_gemms * 3); avg ← floordiv offset total_gemms;
  Ret (pct, avg).

Definition compare_methods (events : nested) :
    outcome (list comparison * totals * ((Z * Z) * (Z * Z)) * Z) :=
  let total_gemms := Z.of_nat (length events) in
  shown ← mapO (compare_gemm events) (take 5 (sort_by Z.leb (dict_keys events)));
  t ← foldO add_totals events (mk_totals 0 0 0 0);
  e ← averages (earliest_total_advances t) (earliest_total_offset t) total_gemms;
  l ← averages (latest_total_advances t) (latest_total_offset t) total_gemms;
  Ret (shown, t, (e, l), latest_total_offset t - earliest_total_offset t).

(** [main]: [events[0]] creates an entry when there is no GEMM 0. *)
Definition methods_main (log_file : string) :
    outcome (list comparison * totals * ((Z * Z) * (Z * Z)) * Z) :=
  let events := parse_start_events log_file in
  compare_methods match dict_get 0 events with Some _ => events | None => events ++ [(0, [])] end.
End Methods.

(** ** Lines and their fields *)

(** A string is its first field and the rest. *)
Lemma split_on_inv c s f fs :
  split_on c s = f :: fs ->
  no_char c f = true /\
  ((fs = [] /\ s = f) \/ exists s', s = f +:+ String c s' /\ split_on c s' = fs).
Proof.
  revert f fs. induction s as [|a s IH]; intros f fs; cbn [split_on]; [intros [= <- <-]; auto|].
  destruct (Ascii.eqb a c) eqn:Hac.
  - apply Ascii.eqb_eq in Hac as ->. intros [= <- <-]. split; [done|]. right. by exists s.
  - destruct (split_on c s) as [|g gs] eqn:Hs; [by apply split_on_nonempty in Hs|].
    intros [= <- <-]. destruct (IH _ _ eq_refl) as [Hg H]. unfold no_char in *. cbn [all_chars].
    rewrite Hac, Hg. split; [done|]. destruct H as [[-> ->]|(s' & -> & Hs')]; [by left|].
    right. by exists s'.
Qed.

Lemma rstrip_by_sep p c x s : p c = false -> rstrip_by p (x +:+ String c s) = x +:+ String c (rstrip_by p s).
Proof.
  intros Hc. induction x as [|a x IH].
  - change ("" +:+ String c ?y) with (String c y). cbn [rstrip_by]. rewrite Hc.
    by destruct (rstrip_by p s).
  - change (String a x +:+ ?y) with (String a (x +:+ y)). cbn [rstrip_by]. rewrite IH. by destruct x.
Qed.

Lemma rstrip_by_no_char p c s : no_char c s = true -> no_char c (rstrip_by p s) = true.
Proof.
  unfold no_char. induction s as [|a s IH]; [done|]. cbn [all_chars rstrip_by].
  intros [Ha Hs]%andb_prop. specialize (IH Hs). destruct (rstrip_by p s) as [|b r] eqn:Hr.
  - destruct (p a); [done|]. cbn [all_chars]. by rewrite Ha.
  - cbn [all_chars] in *. by rewrite Ha.
Qed.

(** Stripping the end of a line changes its last field only. *)
Lemma split_rstrip c p s :
  p c = false ->
  exists ps q, split_on c s = ps ++ [q] /\ split_on c (rstrip_by p s) = ps ++ [rstrip_by p q].
Proof.
  intros Hc. destruct (split_on c s) as [|f fs] eqn:Hs; [by apply split_on_nonempty in Hs|].
  revert s f Hs. induction fs as [|g fs IH]; intros s f Hs;
    destruct (split_on_inv _ _ _ _ Hs) as [Hf [[Hn ->]|(s' & -> & Hs')]]; try done.
  - exists [], f. split; [done|]. by apply split_on_no_char, rstrip_by_no_char.
  - by apply split_on_nonempty in Hs'.
  - destruct (IH _ _ Hs') as (ps & q & H1 & H2). exists (f :: ps), q. rewrite H1. split; [done|].
    rewrite rstrip_by_sep, split_on_app by done. by rewrite H2.
Qed.

(** The first eight fields of a virtual-time line, which [strip] does not change *)
Lemma strip_fields line f0 f1 f2 f3 f4 f5 f6 f7 f8 fs :
  startswith "VTIME," line = true ->
  split_on "," (strip line) = f0 :: f1 :: f2 :: f3 :: f4 :: f5 :: f6 :: f7 :: f8 :: fs ->
  exists f8' fs', split_on "," line = f0 :: f1 :: f2 :: f3 :: f4 :: f5 :: f6 :: f7 :: f8' :: fs'.
Proof.
  intros Hv Hs. destruct line as [|v line]; [done|].
  assert (Hv' : v = "V"%char).
  { cbn [startswith] in Hv. apply andb_prop in Hv as [Hv _]. by apply Ascii.eqb_eq in Hv. }
  unfold strip in Hs. rewrite lstrip_by_id in Hs by (by subst v).
  destruct (split_rstrip "," is_space (String v line) eq_refl) as (ps & q & H1 & H2).
  rewrite H2 in Hs. rewrite H1. clear -Hs.
  do 8 (destruct ps as [|? ps]; [done|cbn [app] in Hs; injection Hs as ? Hs; subst]).
  destruct ps as [|p8 ps]; [by exists q, []|]. cbn [app] in Hs. injection Hs as ? Hs.
  by exists p8, (ps ++ [q]).
Qed.

(** The COMPUTE event of a virtual-time event *)
Definition compute_of (e : VTEvent) : option Metrics.ComputeEvent :=
  if String.eqb (phase e) "COMPUTE"
  then Some (Metrics.mk_compute (v_gemm_id e) (v_device_id e) (vt_start_us e) (vt_end_us e))
  else None.

Lemma parse_compute_of line e :
  parse_vtime_event line = Some e -> Metrics.parse_compute_line line = compute_of e.
Proof.
  unfold parse_vtime_event, Metrics.parse_compute_line.
  destruct (startswith "VTIME," line) eqn:Hv; [|done].
  destruct (split_on "," (strip line)) as [|f0 [|f1 [|f2 [|f3 [|f4 [|f5 [|f6 [|f7 [|f8 fs]]]]]]]]] eqn:Hs;
    try done.
  destruct (strip_fields line _ _ _ _ _ _ _ _ _ _ Hv Hs) as (f8' & fs' & ->).
  destruct (int_of_str f1) as [ts|]; [|done]. cbn [mbind option_bind].
  destruct (int_of_str f2) as [dev|]; [|done]. destruct (int_of_str f3) as [gemm|]; [|done].
  destruct (int_of_str f6) as [st|]; [|done]. destruct (int_of_str f7) as [en|]; [|done].
  destruct (int_of_str f8) as [dur|]; [|done]. cbn [mbind option_bind]. by intros [= <-].
Qed.

(** *** Characters of a written line *)

(** Characters that no number is written with *)
Definition no_number_char (p : ascii -> bool) : Prop :=
  forallb (fun k => p (digit_char (N.of_nat k))) (seq 0 10) = true /\
  forallb p ["-"; "."; "n"; "a"; "i"; "f"]%char = true.

Section written.
Context (p : ascii -> bool) (Hp : no_number_char p).

Lemma str_of_Z_all z : all_chars p (str_of_Z z) = true.
Proof.
  destruct Hp as [Hd Hm]. cbn [forallb] in Hm. apply andb_prop in Hm as [Hm _].
  assert (H : forall n, all_chars p (str_of_N n) = true)
    by (intros n; apply str_of_N_all; exact (digit_char_cases p Hd)).
  unfold str_of_Z. destruct (z <? 0); [|done]. cbn [all_chars]. by rewrite Hm, H.
Qed.

Lemma pad_zeros_all n s : all_chars p s = true -> all_chars p (pad_zeros n s) = true.
Proof.
  intros Hs. destruct Hp as [Hd _]. cbn [forallb seq] in Hd. apply andb_prop in Hd as [Hd _].
  induction n as [|n IH]; cbn [pad_zeros]; destruct (_ <? _)%nat; try done.
  cbn [all_chars]. rewrite IH, andb_true_r. exact Hd.
Qed.

Lemma fmt_fixed_all d x : all_chars p (fmt_fixed d x) = true.
Proof.
  pose proof Hp as [_ Hm]. cbn [forallb] in Hm. rewrite !andb_true_iff in Hm.
  destruct Hm as (H1 & H2 & H3 & H4 & H5 & H6 & _). unfold fmt_fixed.
  set (sign := fun (s : bool) t => if s then String "-" t else t).
  assert (Hsign : forall s t, all_chars p t = true -> all_chars p (sign s t) = true).
  { intros [] t Ht; cbn [sign all_chars]; [by rewrite H1|done]. }
  assert (Hdig : forall a, all_chars p match d with
      | O => str_of_Z (a / 10 ^ Z.of_nat d)
      | _ => str_of_Z (a / 10 ^ Z.of_nat d) +:+ "." +:+ pad_zeros d (str_of_Z (a mod 10 ^ Z.of_nat d))
      end = true).
  { intros a. destruct d; [apply str_of_Z_all|]. rewrite all_chars_app, str_of_Z_all. cbn [all_chars].
    change ("." +:+ ?s) with (String "." s). cbn [all_chars].
    rewrite H2, pad_zeros_all by apply str_of_Z_all. done. }
  destruct x as [s|s| |s m e].
  - apply Hsign, Hdig.
  - apply Hsign. cbn [all_chars]. by rewrite H5, H3, H6.
  - cbn [all_chars]. by rewrite H3, H4.
  - apply Hsign, Hdig.
Qed.

Lemma join_all sep parts :
  all_chars p sep = true -> forallb (all_chars p) parts = true -> all_chars p (join sep parts) = true.
Proof.
  intros Hs. induction parts as [|a parts IH]; [done|]. cbn [forallb]. intros [Ha Hps]%andb_prop.
  destruct parts as [|b parts]; [done|]. change (join sep (a :: b :: parts)) with (a +:+ sep +:+ join sep (b :: parts)).
  by rewrite !all_chars_app, Ha, Hs, IH.
Qed.
End written.

Lemma line_break_chars : no_number_char (fun a => negb (Ascii.eqb a "010")) /\
  no_number_char (fun a => negb (Ascii.eqb a "013")).
Proof. by vm_compute. Qed.

Ltac written := apply join_all; [done|cbn [forallb]; rewrite ?str_of_Z_all, ?fmt_fixed_all by apply line_break_chars].

Lemma render_vtime_one_line e :
  one_line (phase e) -> one_line (event e) -> one_line (render_vtime e).
Proof.
  intros [Hp1 Hp2] [He1 He2]. unfold render_vtime. split; unfold no_char in *; written;
    [by rewrite Hp1, He1|by rewrite Hp2, He2].
Qed.

Lemma render_throughput_one_line e : one_line (direction e) -> one_line (render_throughput e).
Proof.
  intros [Hd1 Hd2]. unfold render_throughput. split; unfold no_char in *; written;
    [by rewrite Hd1|by rewrite Hd2].
Qed.

(** *** What reading gives *)

Lemma lstrip_by_all p q s : all_chars p s = true -> all_chars p (lstrip_by q s) = true.
Proof.
  induction s as [|a s IH]; [done|]. cbn [all_chars lstrip_by]. intros [Ha Hs]%andb_prop.
  destruct (q a); [by apply IH|]. cbn [all_chars]. by rewrite Ha.
Qed.

Lemma rstrip_by_all p q s : all_chars p s = true -> all_chars p (rstrip_by q s) = true.
Proof.
  induction s as [|a s IH]; [done|]. cbn [all_chars rstrip_by]. intros [Ha Hs]%andb_prop.
  specialize (IH Hs). destruct (rstrip_by q s); [destruct (q a)|]; cbn [all_chars] in *;
    by rewrite ?Ha, ?IH.
Qed.

Lemma field_clean line f :
  one_line line -> f ∈ split_on "," (strip line) -> one_line f /\ no_char "," f = true.
Proof.
  intros [H1 H2] Hf. unfold one_line, no_char in *. unfold strip in Hf.
  destruct (split_on_parts _ "," _ f (rstrip_by_all _ is_space _ (lstrip_by_all _ is_space _ H1)) Hf) as [? ?].
  destruct (split_on_parts _ "," _ f (rstrip_by_all _ is_space _ (lstrip_by_all _ is_space _ H2)) Hf) as [? ?].
  done.
Qed.

Definition clean_event (e : VTEvent) : Prop :=
  (one_line (phase e) /\ no_char "," (phase e) = true) /\
  (one_line (event e) /\ no_char "," (event e) = true).

(** The next number of a line is read. *)
Ltac open_field H :=
  match type of H with
  | ?o ≫= _ = Some _ => let z := fresh in destruct o as [z|]; cbn [mbind option_bind] in H; [|discriminate H]
  end.

Lemma parsed_clean line e : one_line line -> parse_vtime_event line = Some e -> clean_event e.
Proof.
  intros Hl. unfold parse_vtime_event. destruct (startswith "VTIME," line); [|done].
  pose proof (fun f => field_clean line f Hl) as Hf.
  destruct (split_on "," (strip line)) as [|f0 [|f1 [|f2 [|f3 [|f4 [|f5 [|f6 [|f7 [|f8 fs]]]]]]]]]; try done.
  assert (Hph : f4 ∈ f0 :: f1 :: f2 :: f3 :: f4 :: f5 :: f6 :: f7 :: f8 :: fs)
    by (do 4 right; left).
  assert (Hev : f5 ∈ f0 :: f1 :: f2 :: f3 :: f4 :: f5 :: f6 :: f7 :: f8 :: fs)
    by (do 5 right; left).
  intros H. do 6 open_field H. injection H as <-.
  split; cbn [phase event]; by apply Hf.
Qed.

Lemma parsed_direction line t :
  one_line line -> parse_throughput_event line = Ret (Some t) -> one_line (direction t).
Proof.
  intros Hl. unfold parse_throughput_event. destruct (_ || _); [done|]. destruct line as [|c line]; [done|].
  destruct (negb (is_digit c)); [done|]. pose proof (fun f => field_clean _ f Hl) as Hf.
  destruct (split_on "," (strip (String c line))) as
    [|f0 [|f1 [|f2 [|f3 [|f4 [|f5 [|f6 [|f7 [|f8 fs]]]]]]]]]; try done.
  assert (Hdir : f3 ∈ f0 :: f1 :: f2 :: f3 :: f4 :: f5 :: f6 :: f7 :: f8 :: fs) by (do 3 right; left).
  intros H. injection H as H.
  do 8 open_field H. injection H as <-.
  cbn [direction]. by apply Hf.
Qed.

(** A line is kept as an event or as it is. *)
Definition log_of_lines (lines : list string) (l : log) : Prop :=
  Forall clean_event (vtime_events l) /\ Forall (fun t => one_line (direction t)) (throughput_events l) /\
  Forall (fun line => line ∈ lines /\ parse_vtime_event line = None) (other_lines l).

Lemma read_line_log line lines l l' :
  one_line line -> line ∈ lines -> read_line l line = Ret l' -> log_of_lines lines l ->
  log_of_lines lines l'.
Proof.
  intros Hl Hin H (H1 & H2 & H3). unfold read_line in H.
  destruct (parse_vtime_event line) as [e|] eqn:Hv.
  { injection H as <-. split_and!; [|done|done]. apply Forall_app; split; [done|].
    constructor; [by eapply parsed_clean|done]. }
  destruct (parse_throughput_event line) as [[t|]|] eqn:Ht; cbn [mbind outcome_bind] in H; [| |done];
    injection H as <-.
  - split_and!; [done| |done]. apply Forall_app; split; [done|].
    constructor; [by eapply parsed_direction|done].
  - split_and!; [done|done|]. apply Forall_app; split; [done|]. by constructor.
Qed.

Lemma read_log_lines text l : read_log text = Ret l -> log_of_lines (file_lines text) l.
Proof.
  unfold read_log. pose proof (fun line => file_lines_one_line text line) as Hone.
  set (lines := file_lines text) in *. clearbody lines.
  assert (Hall : forall rest l0, (forall x, x ∈ rest -> x ∈ lines) -> log_of_lines lines l0 ->
    forall l, read_lines l0 rest = Ret l -> log_of_lines lines l).
  { induction rest as [|line rest IH]; intros l0 Hsub Hl0 l'; cbn [read_lines]; [by intros [= <-]|].
    destruct (read_line l0 line) as [l1|] eqn:H1; [|done]. cbn [mbind outcome_bind].
    apply IH; [intros x Hx; apply Hsub; by right|]. eapply read_line_log; [| |done|done];
      [apply Hone|]; apply Hsub; left. }
  apply Hall; [done|]. by split_and!; constructor.
Qed.

(** ** The events of a log before and after *)

(** Every virtual-time line of a log is well formed. *)
Definition well_formed (text : string) : Prop :=
  forall line, line ∈ file_lines text -> startswith "VTIME," line = true ->
  is_Some (parse_vtime_event line).

Lemma no_prefix_no_event line :
  startswith "VTIME," line = false ->
  parse_vtime_event line = None /\ Metrics.parse_compute_line line = None.
Proof. intros H. unfold parse_vtime_event, Metrics.parse_compute_line. by rewrite H. Qed.

Lemma omap_none {A B} (f : A -> option B) l : Forall (fun x => f x = None) l -> omap f l = [].
Proof. induction 1 as [|x l Hx Hl IH]; [done|]. cbn. by rewrite Hx. Qed.

Lemma parsed_before text l :
  well_formed text -> read_log text = Ret l ->
  Metrics.parse_log_for_compute_events text = omap compute_of (vtime_events l).
Proof.
  intros Hw Hr. unfold read_log in Hr. apply read_lines_vtime in Hr as ->. cbn [vtime_events app].
  unfold Metrics.parse_log_for_compute_events. unfold well_formed in Hw.
  induction (file_lines text) as [|line lines IH]; [done|]. cbn [omap list_omap].
  rewrite IH by (intros x Hx; apply Hw; by right). clear IH.
  destruct (startswith "VTIME," line) eqn:Hv.
  - destruct (Hw line ltac:(left) Hv) as [e He]. by rewrite (parse_compute_of _ _ He), He.
  - by destruct (no_prefix_no_event _ Hv) as [-> ->].
Qed.

Lemma concat_cons a l : String.concat "" (a :: l) = a +:+ String.concat "" l.
Proof.
  destruct l as [|b l]; [|done]. change (a = a +:+ ""). induction a as [|c a IH]; [done|].
  change (String c a +:+ "") with (String c (a +:+ "")). by rewrite <- IH.
Qed.

Lemma concat_terminated {A} (f : A -> string) l :
  String.concat "" (map (fun e => f e +:+ nl) l) = terminated (map f l).
Proof.
  induction l as [|x l IH]; [done|]. cbn [map terminated foldr]. fold (terminated (map f l)).
  by rewrite concat_cons, str_append_assoc, IH.
Qed.

Lemma compute_of_rendered e :
  clean_event e -> Metrics.parse_compute_line (render_vtime e) = compute_of e.
Proof.
  intros [[_ Hp] [_ He]]. erewrite parse_compute_of by (by apply vtime_line_roundtrip). done.
Qed.

Lemma synced_clean l offs : Forall clean_event (vtime_events l) -> Forall clean_event (synced_vtime l offs).
Proof.
  intros Hl. apply Forall_forall. intros e (e0 & m & He0 & -> & _)%synced_vtime_elem.
  rewrite Forall_forall in Hl. exact (Hl e0 He0).
Qed.

Lemma synced_direction l offs t :
  Forall (fun t => one_line (direction t)) (throughput_events l) ->
  t ∈ synced_throughput l offs -> one_line (direction t).
Proof.
  unfold synced_throughput. intros Hd (t1 & -> & Ht)%list_elem_of_fmap.
  apply list_elem_of_fmap in Ht as (t0 & -> & Ht). rewrite Forall_forall in Hd. exact (Hd _ Ht).
Qed.

(** The order of the written events *)
Definition vtime_le (x y : VTEvent) : bool := v_timestamp_us x <=? v_timestamp_us y.

Lemma keyed_rendered events vs :
  Forall clean_event events -> mapO (keyed 1) (map render_vtime events) = Ret vs ->
  vs = map (fun e => ((v_timestamp_us e, 1), render_vtime e)) events.
Proof.
  intros H. revert vs. induction H as [|e events [[_ Hp] [_ He]] H IH]; intros vs; [by intros [= <-]|].
  cbn [map mapO]. unfold keyed at 1. rewrite render_vtime_split by done.
  cbn [list_lookup lookup of_option mbind outcome_bind]. rewrite int_of_str_of_Z.
  cbn [of_option mbind outcome_bind].
  destruct (mapO (keyed 1) (map render_vtime events)) as [vs'|]; [|done]. cbn [mbind outcome_bind].
  intros [= <-]. by rewrite (IH vs').
Qed.

Lemma keyed_snd f lines ks : mapO (keyed f) lines = Ret ks -> map snd ks = lines.
Proof.
  revert ks. induction lines as [|line lines IH]; cbn; intros ks; [by intros [= <-]|].
  unfold keyed at 1, mbind, outcome_bind.
  destruct (of_option _ (split_on "," line !! f)) as [part|]; cbn; [|done].
  destruct (of_option _ (int_of_str part)) as [t|]; cbn; [|done].
  destruct (mapO (keyed f) lines) as [ks'|]; [|done]. intros [= <-]. cbn. f_equal. auto.
Qed.

(** A written line: that of an event, or another one with its key *)
Definition written_line : Type := VTEvent + (Z * Z) * string.
Definition line_key (w : written_line) : (Z * Z) * string :=
  match w with inl e => ((v_timestamp_us e, 1), render_vtime e) | inr k => k end.
Definition written_event (w : written_line) : option VTEvent :=
  match w with inl e => Some e | inr _ => None end.

(** The lines before they are sorted *)
Definition unsorted (other : list string) (events : list VTEvent) (ts : list ((Z * Z) * string)) :
    list written_line :=
  map (fun line => inr ((0, 0), line)) other ++ map inl events ++ map inr ts.

Lemma unsorted_keys other events ts :
  map line_key (unsorted other events ts) =
  map (fun line => ((0, 0), line)) other ++
  map (fun e => ((v_timestamp_us e, 1), render_vtime e)) events ++ ts.
Proof. unfold unsorted. rewrite !map_app, !map_map, map_id. done. Qed.

Lemma unsorted_elem other events ts w :
  w ∈ unsorted other events ts ->
  match w with inl e => e ∈ events | inr k => k.2 ∈ other \/ k.2 ∈ map snd ts end.
Proof.
  unfold unsorted. rewrite !elem_of_app, !list_elem_of_fmap.
  intros [(line & -> & H)|[(e & -> & H)|(k & -> & H)]]; [by left|done|right].
  apply list_elem_of_fmap. by exists k.
Qed.

Lemma unsorted_events other events ts : omap written_event (unsorted other events ts) = events.
Proof.
  unfold unsorted. rewrite !omap_app.
  rewrite (omap_none written_event (map _ other)), (omap_none written_event (map _ ts)), app_nil_r;
    [|apply Forall_forall; by intros w (x & -> & _)%list_elem_of_fmap..]. cbn [app].
  induction events as [|e events IH]; [done|]. cbn. by rewrite IH.
Qed.

(** The written file, line by line: in the order of the timestamps the events of
    the log, between lines that stand for none *)
Lemma written_lines text method out l offs :
  read_log text = Ret l ->
  calculate_offsets (find_compute_start_times (vtime_events l)) method = Ret offs ->
  synchronize text method = Ret out ->
  exists ws, file_lines out = map (fun w => (line_key w).2) ws /\
    omap written_event ws = sort_by vtime_le (synced_vtime l offs) /\
    forall w, w ∈ ws -> match w with
      | inl e => e ∈ synced_vtime l offs
      | inr k => k.2 ∈ other_lines l \/ k.2 ∈ map render_throughput (synced_throughput l offs)
      end.
Proof.
  intros Hr Ho Hs. unfold synchronize in Hs. rewrite Hr in Hs. cbn [mbind outcome_bind] in Hs.
  rewrite Ho in Hs. cbn [mbind outcome_bind apply_offsets] in Hs.
  unfold write_synchronized_log in Hs.
  destruct (read_log_lines _ _ Hr) as (Hc & Hd & Hot). pose proof (synced_clean _ offs Hc) as Hsc.
  destruct (mapO (keyed 1) _) as [vs|] eqn:Hvs; [|done]. cbn [mbind outcome_bind] in Hs.
  destruct (mapO (keyed 0) _) as [ts|] eqn:Hts; [|done]. cbn [mbind outcome_bind] in Hs.
  apply keyed_rendered in Hvs as ->; [|done]. apply keyed_snd in Hts.
  rewrite <- unsorted_keys, sort_by_map in Hs. injection Hs as <-.
  set (le := fun x y => key_le (line_key x) (line_key y)).
  set (us := unsorted (other_lines l) (synced_vtime l offs) ts).
  exists (sort_by le us).
  assert (Hin : forall w, w ∈ sort_by le us -> match w with
      | inl e => e ∈ synced_vtime l offs
      | inr k => k.2 ∈ other_lines l \/ k.2 ∈ map render_throughput (synced_throughput l offs)
      end) by (intros w Hw%elem_of_sort_by%unsorted_elem; by rewrite Hts in Hw).
  split; [|split; [|exact Hin]].
  - rewrite (concat_terminated snd), map_map. apply file_lines_terminated, forallb_forall.
    intros line (w & -> & Hw%Hin)%list_elem_of_In%list_elem_of_fmap.
    assert (Hone : one_line (line_key w).2); [|by destruct Hone as [-> ->]].
    destruct w as [e|k]; [|destruct Hw as [Hw|Hw]].
    + rewrite Forall_forall in Hsc. destruct (Hsc _ Hw) as [[? _] [? _]]. by apply render_vtime_one_line.
    + rewrite Forall_forall in Hot. destruct (Hot _ Hw) as [Hl _]. by eapply file_lines_one_line.
    + apply list_elem_of_fmap in Hw as (t & Heq & Ht). cbn [line_key]. rewrite Heq.
      by apply render_throughput_one_line, (synced_direction l offs t Hd).
  - rewrite (omap_sort_by written_event le vtime_le); [by unfold us; rewrite unsorted_events|..].
    + intros x y. apply key_le_total.
    + intros x y z'. apply key_le_trans.
    + intros [e|] [e'|] b c; cbn; try done. intros [= <-] [= <-]. unfold le, key_le, vtime_le. cbn.
      rewrite andb_true_r. apply eq_true_iff_eq.
      rewrite orb_true_iff, Z.ltb_lt, Z.eqb_eq, Z.leb_le. lia.
Qed.

(** What a reader of single lines finds in the written file *)
Lemma written_read {A} (f : string -> option A) (F : VTEvent -> option A) text method out l offs :
  read_log text = Ret l ->
  calculate_offsets (find_compute_start_times (vtime_events l)) method = Ret offs ->
  synchronize text method = Ret out ->
  (forall e, clean_event e -> f (render_vtime e) = F e) ->
  (forall line, line ∈ other_lines l -> f line = None) ->
  (forall t, f (render_throughput t) = None) ->
  omap f (file_lines out) = omap F (sort_by vtime_le (synced_vtime l offs)).
Proof.
  intros Hr Ho Hs HF Hot Hth. destruct (written_lines _ _ _ _ _ Hr Ho Hs) as (ws & -> & <- & Hin).
  destruct (read_log_lines _ _ Hr) as (Hc & _ & _). pose proof (synced_clean _ offs Hc) as Hsc.
  rewrite Forall_forall in Hsc. induction ws as [|w ws IH]; [done|].
  cbn [map omap list_omap]. rewrite IH by (intros w' Hw'; apply Hin; by right). clear IH.
  specialize (Hin w ltac:(left)). destruct w as [e|k]; cbn [line_key written_event snd].
  - rewrite HF by by apply Hsc. done.
  - assert (f k.2 = None) as ->; [|done].
    destruct Hin as [Hk|(t & -> & _)%list_elem_of_fmap]; auto.
Qed.

(** A line of a throughput event starts with a number. *)
Lemma render_throughput_prefix t : startswith "VTIME," (render_throughput t) = false.
Proof.
  unfold render_throughput. cbn [join]. unfold str_of_Z at 1. destruct (_ <? 0); [done|].
  destruct (str_of_N _) as [|c s] eqn:Hn; [by apply str_of_N_nonempty in Hn|].
  pose proof (str_of_N_all (fun c => negb (Ascii.eqb "V" c)) (Z.to_N (t_timestamp_us t))
                (digit_char_cases (fun c => negb (Ascii.eqb "V" c)) eq_refl)) as Hd.
  rewrite Hn in Hd. cbn [all_chars] in Hd. apply andb_prop in Hd as [Hd%negb_true_iff _].
  change (String c s +:+ ?t) with (String c (s +:+ t)). cbn [startswith]. by rewrite Hd.
Qed.

Lemma other_prefix text l line :
  well_formed text -> read_log text = Ret l -> line ∈ other_lines l -> startswith "VTIME," line = false.
Proof.
  intros Hw Hr Hin. destruct (read_log_lines _ _ Hr) as (_ & _ & Hot). rewrite Forall_forall in Hot.
  destruct (Hot _ Hin) as [Hl Hn]. destruct (startswith "VTIME," line) eqn:Hv; [|done].
  destruct (Hw _ Hl Hv). congruence.
Qed.

Lemma parsed_after text method out l offs :
  well_formed text -> read_log text = Ret l ->
  calculate_offsets (find_compute_start_times (vtime_events l)) method = Ret offs ->
  synchronize text method = Ret out ->
  Metrics.parse_log_for_compute_events out =
    omap compute_of (sort_by vtime_le (synced_vtime l offs)).
Proof.
  intros Hw Hr Ho Hs. eapply written_read; try done.
  - apply compute_of_rendered.
  - intros line Hin. eapply no_prefix_no_event, other_prefix; done.
  - intros t. apply no_prefix_no_event, render_throughput_prefix.
Qed.

(** ** The metrics of a synchronised log *)

Section by_key.
Context {K V : Type} `{EqDecision K} (key : V -> K).

(** [{key(e): e for e in events}] *)
Lemma dict_get_by_key k (events : list V) :
  dict_get k (dict_of_pairs (map (fun e => (key e, e)) events)) =
  last (filter (fun e => key e = k) events).
Proof.
  unfold dict_of_pairs. induction events as [|e events IH] using rev_ind; [done|].
  rewrite map_app, foldl_app, filter_app. cbn [map foldl fst snd]. rewrite dict_get_set.
  destruct (decide (k = key e)) as [->|Hne].
  - rewrite (filter_cons_True (fun e0 => key e0 = key e)) by done. by rewrite filter_nil, last_snoc.
  - rewrite (filter_cons_False (fun e0 => key e0 = k)) by congruence. by rewrite filter_nil, app_nil_r.
Qed.

Lemma by_key_get k events :
  match dict_get k (dict_of_pairs (map (fun e => (key e, e)) events)) with
  | Some e => e ∈ events /\ key e = k
  | None => forall e, e ∈ events -> key e <> k
  end.
Proof.
  rewrite dict_get_by_key. destruct (last _) as [e|] eqn:Hl.
  - apply last_Some_elem_of, list_elem_of_filter in Hl. tauto.
  - apply last_None in Hl. intros e He Hk. assert (e ∈ filter (fun e => key e = k) events) as Hin
      by (by apply list_elem_of_filter). rewrite Hl in Hin. by apply elem_of_nil in Hin.
Qed.

Lemma by_key_keys k events :
  k ∈ dict_keys (dict_of_pairs (map (fun e => (key e, e)) events)) <->
  exists e, e ∈ events /\ key e = k.
Proof.
  rewrite <- dict_get_is_Some. pose proof (by_key_get k events) as H.
  destruct (dict_get _ _) as [e|]; split; [by exists e|by eexists|by intros []|].
  intros (e & He & Hk). by destruct (H e He).
Qed.
End by_key.

Lemma spread_constant l b : l <> [] -> Forall (fun x => x = b) l -> spread l = Ret 0.
Proof.
  intros Hne Hl. rewrite Forall_forall in Hl. unfold spread, max_of_values, min_of_values.
  destruct (max_list l) as [hi|] eqn:Hhi; [|by destruct (min_by_Some (fun x => - x) l Hne); unfold max_list in Hhi; congruence].
  destruct (min_list l) as [lo|] eqn:Hlo; [|by destruct (min_by_Some (fun x => x) l Hne); unfold min_list in Hlo; congruence].
  apply max_list_spec in Hhi as [Hhi _]. apply min_list_spec in Hlo as [Hlo _].
  cbn. f_equal. rewrite (Hl _ Hhi), (Hl _ Hlo). lia.
Qed.

Lemma spread_returns l : l <> [] -> exists s, spread l = Ret s /\ 0 <= s.
Proof.
  intros Hne. unfold spread, max_of_values, min_of_values.
  destruct (min_by_Some (fun x => - x) l Hne) as [hi Hhi]. destruct (min_by_Some (fun x => x) l Hne) as [lo Hlo].
  change (min_by _ l) with (max_list l) in Hhi. change (min_by _ l) with (min_list l) in Hlo.
  rewrite Hhi, Hlo. exists (hi - lo). split; [done|].
  apply max_list_spec in Hhi as [_ Hhi]. apply min_list_spec in Hlo as [Hlo _]. specialize (Hhi _ Hlo). lia.
Qed.

(** A number divided by itself is exactly one. *)
Lemma percent_of_all n : 0 <= n -> Metrics.percent_of n n = Ret (if 0 <? n then JFloat (f_of_Z 100) else JInt 0).
Proof.
  intros Hn. unfold Metrics.percent_of. destruct (Z.ltb_spec 0 n) as [Hpos|]; [|done].
  destruct (f_of_Z_fval 1 ltac:(lia)) as [H1 Hv]. rewrite Z.mul_1_l in Hv.
  destruct (int_truediv_between n n (f_of_Z 1) (f_of_Z 1)) as (x & -> & Hp & Hle); [lia|lia|done|done| | |].
  - rewrite Hv, Z.mul_comm. lia.
  - rewrite Hv, Z.mul_comm. lia.
  - cbn [mbind outcome_bind]. replace x with (f_of_Z 1); [by vm_compute|]. apply fval_inj; [done..|lia].
Qed.

(** The event of a device that counts is its last one. *)
Definition last_of (d : Z) (events : list Metrics.ComputeEvent) : option Metrics.ComputeEvent :=
  last (filter (fun e => Metrics.device_id e = d) events).

Lemma last_of_Some d events e :
  e ∈ events -> Metrics.device_id e = d -> is_Some (last_of d events).
Proof.
  intros He Hd. unfold last_of. apply last_is_Some. intros Hn.
  assert (Hin : e ∈ filter (fun e => Metrics.device_id e = d) events) by by apply list_elem_of_filter.
  rewrite Hn in Hin. by apply elem_of_nil in Hin.
Qed.

Lemma starts_by_device_spec (P : Z -> Prop) events ds :
  (forall d, d ∈ ds -> exists e, last_of d events = Some e /\ P (Metrics.vt_start_us e)) ->
  exists ts, Metrics.starts_by_device (Metrics.by_device events) ds = Ret ts /\ dict_keys ts = ds /\
    Forall P (dict_values ts).
Proof.
  intros Hds. unfold Metrics.starts_by_device, Metrics.by_device, item.
  induction ds as [|d ds IH]; cbn [mapO]; [exists []; split_and!; [done|done|constructor]|].
  destruct IH as (ts & Hts & Hk & Hv); [intros x Hx; apply Hds; by right|].
  destruct (Hds d ltac:(left)) as (e & He & HP). rewrite dict_get_by_key. unfold last_of in He.
  rewrite He. cbn [of_option mbind outcome_bind]. rewrite Hts. exists ((d, Metrics.vt_start_us e) :: ts).
  unfold dict_keys, dict_values in *. cbn. rewrite Hk. split; [done|]. split; [done|]. by constructor.
Qed.

(** All devices of [orig] have their last event in [sync], and it starts at [base]. *)
Definition aligned_at (base : Z) (orig sync : list Metrics.ComputeEvent) : Prop :=
  forall e, e ∈ orig -> exists e', last_of (Metrics.device_id e) sync = Some e' /\
                                   Metrics.vt_start_us e' = base.

Lemma metrics_of_aligned orig sync base :
  orig <> [] -> aligned_at base orig sync ->
  exists m, Metrics.metrics_of orig sync = Ret m /\ Metrics.synced_spread_us m = 0 /\
    Metrics.is_synchronized m = true /\
    Metrics.improvement_us m = Metrics.original_spread_us m /\
    Metrics.improvement_pct m =
      (if 0 <? Metrics.original_spread_us m then JFloat (f_of_Z 100) else JInt 0).
Proof.
  intros Hne Hsub. unfold Metrics.metrics_of.
  set (ds := sort_by Z.leb (dict_keys (Metrics.by_device orig))).
  assert (Hds : forall d, d ∈ ds <-> exists e, e ∈ orig /\ Metrics.device_id e = d).
  { intros d. unfold ds. rewrite elem_of_sort_by. apply by_key_keys. }
  destruct (starts_by_device_spec (fun _ => True) orig ds) as (os & -> & Hok & _).
  { intros d (e & He & Hd)%Hds. destruct (last_of_Some d orig e He Hd) as [e' He']. by exists e'. }
  destruct (starts_by_device_spec (fun x => x = base) sync ds) as (ss & -> & Hsk & Hsv).
  { intros d (e & He & <-)%Hds. by apply Hsub. }
  assert (Hds0 : ds <> []).
  { destruct orig as [|e orig]; [done|]. intros Hn. assert (Hin : Metrics.device_id e ∈ ds)
      by (apply Hds; exists e; by split; [left|]). rewrite Hn in Hin. by apply elem_of_nil in Hin. }
  cbn [mbind outcome_bind].
  assert (Hne' : forall ts : pydict Z Z, dict_keys ts = ds -> dict_values ts <> []) by (by intros [] <-).
  destruct (spread_returns (dict_values os)) as (s & -> & Hs); [by apply Hne'|]. cbn [mbind outcome_bind].
  rewrite (spread_constant _ base); [|by apply Hne'|done].
  cbn [mbind outcome_bind]. rewrite Z.sub_0_r, percent_of_all by done. cbn [mbind outcome_bind].
  eexists. split; [reflexivity|]. by split_and!.
Qed.

Lemma sync_metrics_aligned orig sync :
  dict_wf orig -> (forall g es, (g, es) ∈ orig -> es <> []) ->
  (forall g es, (g, es) ∈ orig -> exists ss base, dict_get g sync = Some ss /\ aligned_at base es ss) ->
  exists ms, Metrics.calculate_sync_metrics orig sync = Ret ms /\ dict_keys ms = dict_keys orig /\
    forall g m, (g, m) ∈ ms -> Metrics.synced_spread_us m = 0 /\
      Metrics.is_synchronized m = true /\
      Metrics.improvement_us m = Metrics.original_spread_us m /\
      Metrics.improvement_pct m =
        (if 0 <? Metrics.original_spread_us m then JFloat (f_of_Z 100) else JInt 0).
Proof.
  intros Hwf Hne Hall. induction orig as [|[g es] orig IH]; cbn [Metrics.calculate_sync_metrics].
  { exists []. split; [done|]. split; [done|]. by intros g m ?%elem_of_nil. }
  destruct (Hall g es ltac:(left)) as (ss & base & -> & Hsub).
  destruct (metrics_of_aligned es ss base) as (m & -> & Hm); [by apply (Hne g); left|done|].
  destruct IH as (ms & -> & Hk & Hms).
  - by apply NoDup_cons in Hwf as [_ ?].
  - intros g' es' Hin. apply (Hne g'). by right.
  - intros g' es' Hin. apply Hall. by right.
  - exists ((g, m) :: ms). split; [done|]. unfold dict_keys in *. cbn. rewrite Hk. split; [done|].
    intros g' m' [Heq|Hin]%elem_of_cons; [by simplify_eq|by eapply Hms].
Qed.

(** The COMPUTE events of a GEMM on a device *)
Definition computes_of (g d : Z) (events : list VTEvent) : list VTEvent :=
  filter (fun e => phase e = "COMPUTE"%string /\ v_gemm_id e = g /\ v_device_id e = d) events.

(** The last COMPUTE event of a GEMM on a device in the order of the timestamps
    starts when the last COMPUTE START of them in the log does (in the emulator's
    log it is the END of the same partition). *)
Definition last_computes_agree (events : list VTEvent) : Prop :=
  forall g d, vt_start_us <$> last (computes_of g d (sort_by vtime_le events)) = last_start g d events.

(** The synchronised form of an event *)
Definition synced_event (l : log) (offs : nested) (e : VTEvent) : VTEvent :=
  normalize_vtime (min_virtual_time (map (adjust_vtime offs) (vtime_events l))
                     (map (adjust_throughput offs) (throughput_events l))) (adjust_vtime offs e).

Lemma synced_vtime_events l offs : synced_vtime l offs = map (synced_event l offs) (vtime_events l).
Proof. unfold synced_vtime. by rewrite map_map. Qed.

Lemma sorted_synced l offs :
  sort_by vtime_le (synced_vtime l offs) = map (synced_event l offs) (sort_by vtime_le (vtime_events l)).
Proof. by rewrite synced_vtime_events, sort_by_map. Qed.

Lemma computes_of_synced g d l offs es :
  computes_of g d (map (synced_event l offs) es) = map (synced_event l offs) (computes_of g d es).
Proof.
  unfold computes_of. induction es as [|e es IH]; [done|]. cbn [map]. rewrite !filter_cons, IH.
  cbn [synced_event normalize_vtime adjust_vtime phase v_gemm_id v_device_id].
  by destruct (decide (phase e = "COMPUTE"%string /\ v_gemm_id e = g /\ v_device_id e = d)).
Qed.

(** After synchronisation the last COMPUTE event of a device starts when the last
    COMPUTE START of it does. *)
Lemma synced_last_compute l offs g d :
  last_computes_agree (vtime_events l) ->
  vt_start_us <$> last (computes_of g d (sort_by vtime_le (synced_vtime l offs))) =
  last_start g d (synced_vtime l offs).
Proof.
  intros Ha. specialize (Ha g d). rewrite sorted_synced, computes_of_synced, last_fmap.
  rewrite synced_vtime_events. unfold last_start in *.
  rewrite starts_of_map by done. rewrite last_fmap.
  assert (Hs : forall e, v_gemm_id e = g -> v_device_id e = d -> vt_start_us (synced_event l offs e) =
    vt_start_us e + get_nested g d offs - min_virtual_time (map (adjust_vtime offs) (vtime_events l))
      (map (adjust_throughput offs) (throughput_events l))) by by intros e <- <-.
  destruct (last (computes_of g d _)) as [e|] eqn:He, (last (starts_of g d _)) as [e'|] eqn:He'; try done.
  apply last_Some_elem_of, list_elem_of_filter in He as ((_ & Hg & Hd) & _).
  apply last_Some_elem_of, list_elem_of_filter in He' as ((_ & Hg' & Hd') & _).
  cbn in *. injection Ha as Ha. by rewrite (Hs e), (Hs e'), Ha.
Qed.

Lemma last_of_computes g d events :
  last_of d (filter (fun c => Metrics.gemm_id c = g) (omap compute_of events)) =
  last (computes_of g d events) ≫= compute_of.
Proof.
  unfold last_of, computes_of.
  induction events as [|e events IH] using rev_ind; [done|].
  rewrite omap_app, !filter_app. cbn [omap list_omap]. unfold compute_of at 2.
  destruct (String.eqb_spec (phase e) "COMPUTE") as [Hp|Hp].
  - destruct (decide (v_gemm_id e = g /\ v_device_id e = d)) as [[Hg Hd]|Hn].
    + rewrite (filter_cons_True (fun c => Metrics.gemm_id c = g)) by done.
      rewrite (filter_cons_True (fun e => phase e = "COMPUTE"%string /\ _)) by done.
      rewrite !filter_nil, filter_cons_True by done. rewrite filter_nil, !last_snoc. cbn.
      unfold compute_of. by rewrite Hp.
    + rewrite (filter_cons_False (fun e => phase e = "COMPUTE"%string /\ _)) by naive_solver.
      rewrite (filter_nil (fun e => phase e = _ /\ _)), app_nil_r, filter_cons, filter_nil.
      cbn [Metrics.gemm_id]. case_decide as Hg; [|by rewrite filter_nil, app_nil_r].
      rewrite filter_cons_False by (cbn; naive_solver). by rewrite filter_nil, app_nil_r.
  - rewrite (filter_cons_False (fun e => phase e = "COMPUTE"%string /\ _)) by naive_solver.
    by rewrite !filter_nil, !app_nil_r.
Qed.

Lemma compute_of_elem c (events : list VTEvent) :
  c ∈ omap compute_of events <->
  exists e, e ∈ events /\ phase e = "COMPUTE"%string /\
    c = Metrics.mk_compute (v_gemm_id e) (v_device_id e) (vt_start_us e) (vt_end_us e).
Proof.
  rewrite list_elem_of_omap. unfold compute_of. split; intros (e & He & H); exists e; split; try done.
  - destruct (String.eqb_spec (phase e) "COMPUTE"); [|done]. by injection H as <-.
  - destruct H as [-> ->]. done.
Qed.

Section aligned.
Context (l : log) (method : string) (offs : nested)
  (Ha : last_computes_agree (vtime_events l))
  (Ho : calculate_offsets (find_compute_start_times (vtime_events l)) method = Ret offs).

Let before := omap compute_of (vtime_events l).
Let after := omap compute_of (sort_by vtime_le (synced_vtime l offs)).

(** A COMPUTE event of the log before: the last one of its device in the log after *)
Lemma last_after g c :
  c ∈ filter (fun x => Metrics.gemm_id x = g) before ->
  exists c' t, last_of (Metrics.device_id c) (filter (fun x => Metrics.gemm_id x = g) after) = Some c' /\
    Metrics.vt_start_us c' = t /\ last_start g (Metrics.device_id c) (synced_vtime l offs) = Some t.
Proof.
  intros [Hg (e & He & Hp & ->)%compute_of_elem]%list_elem_of_filter. cbn in Hg |- *. subst g.
  unfold after. rewrite last_of_computes.
  pose proof (synced_last_compute l offs (v_gemm_id e) (v_device_id e) Ha) as Hl.
  assert (Hin : synced_event l offs e ∈ computes_of (v_gemm_id e) (v_device_id e)
                  (sort_by vtime_le (synced_vtime l offs))).
  { apply list_elem_of_filter. split; [done|]. rewrite elem_of_sort_by, synced_vtime_events.
    apply list_elem_of_fmap. by exists e. }
  destruct (last (computes_of _ _ _)) as [x|] eqn:Hx.
  - apply last_Some_elem_of, list_elem_of_filter in Hx as ((Hpx & _ & _) & _).
    cbn [mbind option_bind]. unfold compute_of. rewrite Hpx. by eexists _, _.
  - apply last_None in Hx. rewrite Hx in Hin. by apply elem_of_nil in Hin.
Qed.

(** A GEMM of the log before, in the log after *)
Lemma group_after g es :
  (g, es) ∈ Metrics.organize_by_gemm before ->
  exists ss base, dict_get g (Metrics.organize_by_gemm after) = Some ss /\ aligned_at base es ss.
Proof.
  intros [-> Hne]%group_by_elem.
  destruct (filter (fun x => Metrics.gemm_id x = g) before) as [|c0 cs] eqn:Hf; [done|].
  assert (Hc0 : c0 ∈ filter (fun x => Metrics.gemm_id x = g) before) by (rewrite Hf; left).
  rewrite <- Hf. destruct (last_after g c0 Hc0) as (c0' & t & Hl0 & _ & Ht).
  exists (filter (fun x => Metrics.gemm_id x = g) after), t. split.
  - unfold Metrics.organize_by_gemm. rewrite dict_get_group_by.
    destruct (filter _ after) as [|x xs]; [|done]. done.
  - intros c Hc. destruct (last_after g c Hc) as (c' & t' & Hl & Hs & Ht').
    exists c'. split; [done|]. rewrite Hs. by eapply synced_starts_equal.
Qed.

Lemma gemms_before g :
  g ∈ dict_keys (Metrics.organize_by_gemm before) <->
  exists e, e ∈ vtime_events l /\ phase e = "COMPUTE"%string /\ v_gemm_id e = g.
Proof.
  rewrite <- dict_get_is_Some. unfold Metrics.organize_by_gemm. rewrite dict_get_group_by. split.
  - intros [es Hes]. destruct (filter _ before) as [|c cs] eqn:Hf; [done|].
    assert (Hc : c ∈ filter (fun x => Metrics.gemm_id x = g) before) by (rewrite Hf; left).
    apply list_elem_of_filter in Hc as [Hg (e & He & Hx & ->)%compute_of_elem]. by exists e.
  - intros (e & He & Hx & Hg). destruct (filter _ before) as [|c cs] eqn:Hf; [|by eexists].
    assert (Hc : Metrics.mk_compute (v_gemm_id e) (v_device_id e) (vt_start_us e) (vt_end_us e)
      ∈ filter (fun x => Metrics.gemm_id x = g) before)
      by (apply list_elem_of_filter; split; [done|apply compute_of_elem; by exists e]).
    rewrite Hf in Hc. by apply elem_of_nil in Hc.
Qed.
End aligned.

(** C21: what [sync_virtual_time.py] writes is a log [analyze_sync.py] reports as
    synchronised: no GEMM is left out, every spread is zero and every improvement
    whole.  Every line of the original log that starts with "VTIME," must parse,
    and the last COMPUTE event of a GEMM on a device in the order of the timestamps,
    the one the analysis looks at, must start when the last COMPUTE START of them in
    the log does, the one the synchronisation aligns; there may be several on a
    device, one per partition. *)
Theorem synchronised_log_verified text method out l offs :
  well_formed text -> read_log text = Ret l -> last_computes_agree (vtime_events l) ->
  calculate_offsets (find_compute_start_times (vtime_events l)) method = Ret offs ->
  synchronize text method = Ret out ->
  exists ms,
    Metrics.calculate_sync_metrics
      (Metrics.organize_by_gemm (Metrics.parse_log_for_compute_events text))
      (Metrics.organize_by_gemm (Metrics.parse_log_for_compute_events out)) = Ret ms /\
    (forall g, g ∈ dict_keys ms <-> exists e, e ∈ vtime_events l /\ phase e = "COMPUTE"%string /\ v_gemm_id e = g) /\
    forall g m, (g, m) ∈ ms -> Metrics.synced_spread_us m = 0 /\
      Metrics.is_synchronized m = true /\
      Metrics.improvement_us m = Metrics.original_spread_us m /\
      Metrics.improvement_pct m =
        (if 0 <? Metrics.original_spread_us m then JFloat (f_of_Z 100) else JInt 0).
Proof.
  intros Hw Hr Ha Ho Hs. rewrite (parsed_before _ _ Hw Hr), (parsed_after _ _ _ _ _ Hw Hr Ho Hs).
  destruct (sync_metrics_aligned (Metrics.organize_by_gemm (omap compute_of (vtime_events l)))
    (Metrics.organize_by_gemm (omap compute_of (sort_by vtime_le (synced_vtime l offs)))))
    as (ms & Hms & Hk & Hm).
  - apply group_by_wf.
  - by intros g es [-> ?]%group_by_elem.
  - intros g es. by eapply group_after.
  - exists ms. split; [done|]. split; [|done]. intros g. rewrite Hk. apply gemms_before.
Qed.

(** ** The strategies *)

Module StrategyFacts.
Import Strategies.

(** Every inner dictionary, and the outer one, has distinct keys. *)
Definition table_wf (t : table) : Prop :=
  dict_wf t /\ forall g inner, dict_get g t = Some inner -> dict_wf inner.

Lemma table_wf_put g d x t : table_wf t -> table_wf (put g d x t).
Proof.
  intros [H1 H2]. split; [by apply dict_wf_alter|]. intros g' inner. unfold put. rewrite dict_get_alter.
  destruct (decide (g' = g)) as [->|]; [|apply H2]. intros [= <-]. apply dict_wf_set.
  destruct (dict_get g t) as [i|] eqn:Hg; [by eapply H2|apply dict_wf_nil].
Qed.

Lemma touch_set d t : touch d t = match dict_get d t with Some _ => t | None => dict_set d [] t end.
Proof.
  unfold touch. destruct (dict_get d t) eqn:Hd; [done|]. rewrite dict_set_fresh; [done|].
  by apply dict_get_None.
Qed.

Lemma table_wf_touch d t : table_wf t -> table_wf (touch d t).
Proof.
  intros [H1 H2]. rewrite touch_set. destruct (dict_get d t) eqn:Hd; [done|].
  split; [by apply dict_wf_set|]. intros g inner. rewrite dict_get_set.
  destruct (decide (g = d)); [|apply H2]. intros [= <-]. apply dict_wf_nil.
Qed.

Lemma table_wf_record t c : table_wf t -> table_wf (record_line t c).
Proof.
  intros Ht. unfold record_line, record_event. destruct (String.eqb _ "START").
  - pose proof (table_wf_touch (c_device c) t Ht). destruct (entry_of _ _ _); [done|by apply table_wf_put].
  - destruct (String.eqb _ "END"); [|done]. destruct (entry_of _ _ _) as [[]|]; by apply table_wf_put.
Qed.

Lemma table_wf_parsed text : table_wf (parse_log_for_compute_times text).
Proof.
  unfold parse_log_for_compute_times.
  assert (Hnil : table_wf []) by (split; [apply dict_wf_nil|done]).
  revert Hnil. generalize ([] : table). induction (omap _ _) as [|c cs IH]; intros t Ht; [done|].
  cbn [foldl]. by apply IH, table_wf_record.
Qed.

Lemma starts_elem d s (devices : pydict Z times) :
  (d, s) ∈ starts devices <-> exists e, (d, (Some s, e)) ∈ devices.
Proof.
  unfold starts. rewrite list_elem_of_omap. split.
  - intros ([d' [[s'|] e]] & Hin & H); [|done]. cbn in H. injection H as <- <-. by exists e.
  - intros [e Hin]. by exists (d, (Some s, e)).
Qed.

Lemma starts_wf (devices : pydict Z times) : dict_wf devices -> dict_wf (starts devices).
Proof.
  unfold dict_wf, dict_keys. induction devices as [|[d [[s|] e]] devices IH]; [done| |].
  - cbn. intros [Hn Hd]%NoDup_cons. constructor; [|by apply IH].
    intros ([d' s'] & -> & Hin)%list_elem_of_fmap. apply starts_elem in Hin as [e' Hin].
    apply Hn. apply list_elem_of_fmap. by exists (d', (Some s', e')).
  - cbn. intros [_ Hd]%NoDup_cons. by apply IH.
Qed.

Lemma max_of_values_spec l : l <> [] -> exists m, max_of_values l = Ret m /\ m ∈ l /\ forall y, y ∈ l -> y <= m.
Proof.
  intros Hne. unfold max_of_values. destruct (min_by_Some (fun x => - x) l Hne) as [m Hm].
  change (min_by _ l) with (max_list l) in Hm. rewrite Hm. exists m. split; [done|]. by apply max_list_spec.
Qed.

Lemma min_of_values_spec l : l <> [] -> exists m, min_of_values l = Ret m /\ m ∈ l /\ forall y, y ∈ l -> m <= y.
Proof.
  intros Hne. unfold min_of_values. destruct (min_by_Some (fun x => x) l Hne) as [m Hm].
  change (min_by _ l) with (min_list l) in Hm. rewrite Hm. exists m. split; [done|]. by apply min_list_spec.
Qed.

Lemma max_of_values_unique l m : m ∈ l -> (forall y, y ∈ l -> y <= m) -> max_of_values l = Ret m.
Proof.
  intros Hin Hle. destruct (max_of_values_spec l) as (m' & -> & Hin' & Hle'); [by intros ->; apply elem_of_nil in Hin|].
  f_equal. apply Z.le_antisymm; auto.
Qed.

Lemma min_of_values_unique l m : m ∈ l -> (forall y, y ∈ l -> m <= y) -> min_of_values l = Ret m.
Proof.
  intros Hin Hle. destruct (min_of_values_spec l) as (m' & -> & Hin' & Hle'); [by intros ->; apply elem_of_nil in Hin|].
  f_equal. apply Z.le_antisymm; auto.
Qed.

(** What a strategy with a baseline among the starts is; [far] is the start the farthest
    from the baseline, so that all others lie between the two. *)
Lemma strategy_of_spec name base device vt_starts lo hi :
  min_of_values (dict_values vt_starts) = Ret lo -> max_of_values (dict_values vt_starts) = Ret hi ->
  lo ∈ dict_values vt_starts -> hi ∈ dict_values vt_starts ->
  (forall t, t ∈ dict_values vt_starts -> lo <= t <= hi) -> base = lo \/ base = hi ->
  strategy_of name base device vt_starts =
  Ret (mk_strategy base (map (fun dt => (dt.1, base - dt.2)) vt_starts) (hi - lo) 0 (hi - lo) 0 device name).
Proof.
  intros Hlo Hhi Hilo Hihi Hb Hbase. unfold strategy_of.
  assert (Hvals : map Z.abs (dict_values (map (fun dt : Z * Z => (dt.1, base - dt.2)) vt_starts))
                  = map (fun t => Z.abs (base - t)) (dict_values vt_starts)).
  { unfold dict_values. rewrite <- !list_fmap_compose. by apply map_ext. }
  rewrite Hvals, (max_of_values_unique _ (hi - lo)), (min_of_values_unique _ 0).
  - cbn [mbind outcome_bind]. unfold spread. by rewrite Hhi, Hlo.
  - apply list_elem_of_fmap. exists base. split; [lia|]. by destruct Hbase as [-> | ->].
  - intros y (t & -> & _)%list_elem_of_fmap. lia.
  - apply list_elem_of_fmap. exists (if decide (base = lo) then hi else lo).
    specialize (Hb _ Hilo). destruct (decide _) as [->|]; split; try done; destruct Hbase; lia.
  - intros y (t & -> & Ht%Hb)%list_elem_of_fmap. destruct Hbase as [-> | ->]; lia.
Qed.

(** The two strategies of one GEMM *)
Definition strategies_agree (vt_starts : pydict Z Z) (early late : strategy) : Prop :=
  VTimeSync.baseline "earliest" vt_starts = Ret (Strategies.baseline early) /\
  VTimeSync.baseline "latest" vt_starts = Ret (Strategies.baseline late) /\
  (forall d t, dict_get d vt_starts = Some t -> exists oe ol,
     dict_get d (offsets early) = Some oe /\ dict_get d (offsets late) = Some ol /\
     t + oe = Strategies.baseline early /\ t + ol = Strategies.baseline late /\
     oe <= 0 <= ol /\ ol - oe = spread_before early) /\
  max_offset early = spread_before early /\ max_offset late = spread_before early /\
  spread_before late = spread_before early /\ min_offset early = 0 /\ min_offset late = 0.

Lemma dict_get_map (f : Z -> Z) (d : pydict Z Z) k :
  dict_get k (map (fun dt => (dt.1, f dt.2)) d) = f <$> dict_get k d.
Proof. induction d as [|[k' v] d IH]; [done|]. cbn. by destruct (decide (k = k')). Qed.

Lemma strategies_of_agree vt_starts vt_ends :
  vt_starts <> [] ->
  exists early late fast, strategies_of vt_starts vt_ends = Ret (early, (late, fast)) /\
    strategies_agree vt_starts early late.
Proof.
  intros Hne. assert (Hv : dict_values vt_starts <> []) by (by destruct vt_starts).
  destruct (min_of_values_spec _ Hv) as (lo & Hlo & Hilo & Hle).
  destruct (max_of_values_spec _ Hv) as (hi & Hhi & Hihi & Hge).
  destruct (min_by_Some snd vt_starts Hne) as [first Hfirst].
  destruct (min_by_Some (fun dt => - dt.2) vt_starts Hne) as [lst Hlst].
  unfold strategies_of. rewrite Hlo, Hhi, Hfirst, Hlst. cbn [mbind outcome_bind of_option].
  assert (Hb : forall t, t ∈ dict_values vt_starts -> lo <= t <= hi) by (intros t Ht; auto).
  rewrite !(strategy_of_spec _ _ _ _ lo hi) by auto. cbn [mbind outcome_bind].
  do 3 eexists. split; [reflexivity|]. unfold strategies_agree. cbn [Strategies.baseline offsets
    max_offset min_offset spread_before]. unfold VTimeSync.baseline.
  split_and!; try done. intros d t Hd.
  rewrite (dict_get_map (fun x => lo - x)), (dict_get_map (fun x => hi - x)), Hd.
  exists (lo - t), (hi - t).
  assert (Ht : t ∈ dict_values vt_starts).
  { apply dict_get_Some_elem in Hd. apply list_elem_of_fmap. by exists (d, t). }
  specialize (Hb t Ht). split_and!; try done; lia.
Qed.

Lemma differences_agree t gs :
  Forall (fun g => is_Some (dict_get g t)) gs ->
  exists rs, differences t gs = Ret rs /\
    (forall g, g ∈ dict_keys rs <-> g ∈ gs /\ exists ds, dict_get g t = Some ds /\ starts ds <> []) /\
    forall g early late fast, (g, (early, (late, fast))) ∈ rs ->
      exists ds, dict_get g t = Some ds /\ strategies_agree (starts ds) early late.
Proof.
  induction 1 as [|g gs [ds Hds] Hgs IH]; cbn [differences].
  { exists []. split; [done|]. split; [|by intros ? ? ? ? ?%elem_of_nil].
    intros g. split; [by intros ?%elem_of_nil|by intros [?%elem_of_nil _]]. }
  destruct IH as (rs & Hrs & Hk & Hall). unfold item. rewrite Hds. cbn [of_option mbind outcome_bind].
  destruct (starts ds) as [|s ss] eqn:Hst.
  - exists rs. split; [done|]. split; [|done]. intros g'. rewrite Hk, elem_of_cons. split; [tauto|].
    intros [[->|Hin] (ds' & Hd' & Hn)]; [congruence|]. split; [done|by exists ds'].
  - destruct (strategies_of_agree (s :: ss) (ends ds)) as (early & late & fast & -> & Hag); [done|].
    cbn [mbind outcome_bind]. rewrite Hrs. exists ((g, (early, (late, fast))) :: rs). split; [done|]. split.
    + intros g'. unfold dict_keys in *. cbn. rewrite !elem_of_cons, Hk. split.
      * intros [->|[? ?]]; [|tauto]. split; [by left|]. exists ds. by rewrite Hst.
      * intros [[->|?] ?]; tauto.
    + intros g' e l f [Heq|Hin]%elem_of_cons; [|by eapply Hall]. simplify_eq. exists ds. by rewrite Hst.
Qed.
End StrategyFacts.

(** On every log the comparison of the strategies succeeds, and for every GEMM with a
    recorded start the baselines are those [sync_virtual_time.py] computes from the recorded
    starts by its two methods.  Either strategy brings all devices to its baseline, never
    forward and never back respectively; the offsets of a device differ by the spread, and
    the greatest offset of either strategy is the spread, so neither is ever the larger. *)
Theorem strategies_compared text :
  let t := Strategies.parse_log_for_compute_times text in
  exists rs, Strategies.analyze_strategy_differences t = Ret rs /\
    (forall g, g ∈ dict_keys rs <->
       exists ds, dict_get g t = Some ds /\ Strategies.starts ds <> []) /\
    forall g early late fast, (g, (early, (late, fast))) ∈ rs ->
      exists ds, dict_get g t = Some ds /\
        StrategyFacts.strategies_agree (Strategies.starts ds) early late.
Proof.
  intros t. unfold Strategies.analyze_strategy_differences.
  destruct (StrategyFacts.differences_agree t (sort_by Z.leb (dict_keys t))) as (rs & -> & Hk & Hall).
  { apply Forall_forall. intros g Hg%elem_of_sort_by. by apply dict_get_is_Some. }
  exists rs. split; [done|]. split; [|done]. intros g. rewrite Hk, elem_of_sort_by. split; [tauto|].
  intros (ds & Hds & Hne). split; [|by exists ds]. apply dict_get_is_Some. by rewrite Hds.
Qed.

(** ** The starts that are recorded *)

Section recorded.
Import Strategies.

Definition pair_of (g d : Z) (c : compute_line) : Prop := c_gemm c = g /\ c_device c = d.

Definition recorded_start (g d : Z) (t : table) : option Z := entry_of g d t ≫= fst.

Lemma entry_of_put g d g' d' x t :
  entry_of g d (put g' d' x t) = if decide (g = g' /\ d = d') then Some x else entry_of g d t.
Proof.
  unfold entry_of, put. rewrite dict_get_alter. destruct (decide (g = g')) as [->|Hg]; cbn.
  - rewrite dict_get_set. destruct (decide (d = d')) as [->|Hd]; [by rewrite decide_True|].
    rewrite decide_False by naive_solver. by destruct (dict_get g' t).
  - by rewrite decide_False by naive_solver.
Qed.

Lemma entry_of_touch g d k t : entry_of g d (touch k t) = entry_of g d t.
Proof.
  rewrite StrategyFacts.touch_set. unfold entry_of. destruct (dict_get k t) eqn:Hk; [done|].
  rewrite dict_get_set. destruct (decide (g = k)) as [->|]; [by rewrite Hk|done].
Qed.

Lemma entry_of_record g d t c :
  entry_of g d (record_line t c) =
  if decide (c_gemm c = g /\ c_device c = d) then
    if String.eqb (c_event c) "START" then
      match entry_of d g t with Some _ => entry_of g d t | None => Some (Some (c_start c), None) end
    else if String.eqb (c_event c) "END" then Some (recorded_start g d t, Some (c_end c))
    else entry_of g d t
  else entry_of g d t.
Proof.
  unfold record_line, record_event, recorded_start.
  destruct (String.eqb _ "START"); [|destruct (String.eqb _ "END")].
  - rewrite entry_of_touch. destruct (decide (c_gemm c = g /\ c_device c = d)) as [[-> ->]|Hne].
    + destruct (entry_of d g t); [apply entry_of_touch|]. by rewrite entry_of_put, decide_True by done.
    + destruct (entry_of (c_device c) (c_gemm c) t); [apply entry_of_touch|].
      rewrite entry_of_put, decide_False by naive_solver. apply entry_of_touch.
  - destruct (decide (c_gemm c = g /\ c_device c = d)) as [[-> ->]|Hne].
    + destruct (entry_of g d t) as [[s e]|]; by rewrite entry_of_put, decide_True by done.
    + destruct (entry_of _ _ t) as [[s e]|]; by rewrite entry_of_put, decide_False by naive_solver.
  - by destruct (decide _).
Qed.

(** A START or an END of a GEMM on a device *)
Definition counts (g d : Z) (c : compute_line) : Prop :=
  pair_of g d c /\ (c_event c = "START" \/ c_event c = "END")%string.

Lemma entry_other g d t c : ~ counts g d c -> entry_of g d (record_line t c) = entry_of g d t.
Proof.
  intros Hn. rewrite entry_of_record. destruct (decide _) as [Hp|]; [|done].
  destruct (String.eqb_spec (c_event c) "START"); [destruct Hn; split; [done|by left]|].
  destruct (String.eqb_spec (c_event c) "END"); [destruct Hn; split; [done|by right]|done].
Qed.

Lemma entries_other g d cs t :
  Forall (fun c => ~ counts g d c) cs -> entry_of g d (foldl record_line t cs) = entry_of g d t.
Proof.
  intros Hcs. revert t. induction Hcs as [|c cs Hc Hcs IH]; intros t; [done|]. cbn [foldl].
  by rewrite IH, entry_other.
Qed.

Lemma entry_stays g d t c : is_Some (entry_of g d t) -> is_Some (entry_of g d (record_line t c)).
Proof.
  intros Ht. rewrite entry_of_record. destruct (decide _); [|done].
  destruct (String.eqb _ "START"); [by destruct (entry_of d g t)|]. by destruct (String.eqb _ "END").
Qed.

Lemma entry_made g d t c : counts d g c -> entry_of g d t = None -> is_Some (entry_of d g (record_line t c)).
Proof.
  intros [[H1 H2] He] Ht. rewrite entry_of_record, decide_True by done. rewrite Ht.
  destruct He as [-> | ->]; by eexists.
Qed.

(** The state in which the starts of a GEMM on a device are no longer recorded *)
Lemma start_stays_lost g d cs t :
  is_Some (entry_of d g t) -> recorded_start g d t = None ->
  recorded_start g d (foldl record_line t cs) = None.
Proof.
  revert t. induction cs as [|c cs IH]; intros t Hs Hn; [done|]. cbn [foldl].
  apply IH; [by apply entry_stays|]. unfold recorded_start. rewrite entry_of_record.
  destruct (decide _); [|exact Hn]. destruct Hs as [x ->].
  destruct (String.eqb _ "START"); [exact Hn|]. destruct (String.eqb _ "END"); [|exact Hn].
  cbn. exact Hn.
Qed.

Definition starts_in (g d : Z) (cs : list compute_line) : list compute_line :=
  filter (fun c => c_gemm c = g /\ c_device c = d /\ c_event c = "START"%string) cs.

Lemma start_kept g d cs :
  Forall (fun c => ~ counts d g c) cs ->
  recorded_start g d (foldl record_line [] cs) = c_start <$> last (starts_in g d cs).
Proof.
  induction cs as [|c cs IH] using rev_ind; [done|]. intros [Hcs Hc]%Forall_app.
  specialize (IH Hcs). rewrite foldl_app. cbn [foldl]. unfold starts_in. rewrite filter_app.
  unfold recorded_start at 1. rewrite entry_of_record, (entries_other d g) by done.
  destruct (decide (c_gemm c = g /\ c_device c = d)) as [[Hg Hd]|Hne].
  - destruct (String.eqb_spec (c_event c) "START") as [He|He].
    + rewrite filter_cons_True by done. cbn [filter list_filter]. by rewrite last_snoc.
    + rewrite (filter_cons_False _ c) by (by intros (_ & _ & ?)). cbn [filter list_filter].
      rewrite app_nil_r. destruct (String.eqb _ "END"); exact IH.
  - rewrite (filter_cons_False _ c) by (intros (? & ? & _); by apply Hne).
    cbn [filter list_filter]. rewrite app_nil_r. exact IH.
Qed.
End recorded.

(** Of the two pairs (GEMM g, device d) and (GEMM d, device g) the strategies only see the
    starts of the one that a log mentions first: the other's are dropped.  Without an event
    of the second pair the last start of the first one is seen. *)
Theorem recorded_starts (g d : Z) (before after cs : list Strategies.compute_line) :
  Exists (counts d g) before -> Forall (fun c => ~ counts g d c) before ->
  Forall (fun c => ~ counts d g c) cs ->
  recorded_start g d (foldl Strategies.record_line [] (before ++ after)) = None /\
  recorded_start g d (foldl Strategies.record_line [] cs) =
    Strategies.c_start <$> last (starts_in g d cs).
Proof.
  intros Hex Hno Hcs. split; [|by apply start_kept]. rewrite foldl_app.
  apply start_stays_lost; [|unfold recorded_start; by rewrite entries_other].
  apply Exists_exists in Hex as (c & (l1 & l2 & ->)%list_elem_of_split & Hc).
  apply Forall_app in Hno as [Hl1 _]. rewrite foldl_app. cbn [foldl].
  assert (Hmade : is_Some (Strategies.entry_of d g (Strategies.record_line (foldl Strategies.record_line [] l1) c)))
    by (apply entry_made; [done|by rewrite entries_other]).
  revert Hmade. generalize (Strategies.record_line (foldl Strategies.record_line [] l1) c).
  induction l2 as [|c' l2 IH]; intros t Ht; [done|]. cbn [foldl]. by apply IH, entry_stays.
Qed.

(** ** The check of a synchronised log *)

(** The event as [verify_sync_correctness.py] reads it *)
Definition verify_event (e : VTEvent) : Verify.event :=
  Verify.mk_event (v_timestamp_us e) (v_device_id e) (v_gemm_id e) (phase e) (event e)
    (vt_start_us e) (vt_end_us e) (vt_duration_us e).

Lemma verify_parse line e :
  parse_vtime_event line = Some e -> Verify.parse_vtime_event line = Ret (Some (verify_event e)).
Proof.
  unfold parse_vtime_event, Verify.parse_vtime_event, Verify.to_int.
  destruct (startswith "VTIME," line); [|done].
  destruct (split_on "," (strip line)) as [|f0 [|f1 [|f2 [|f3 [|f4 [|f5 [|f6 [|f7 [|f8 fs]]]]]]]]]; try done.
  intros H.
  do 6 (match type of H with
        | ?o ≫= _ = Some _ =>
            let z := fresh in destruct o as [z|]; cbn [mbind option_bind outcome_bind of_option] in H |- *;
            [|discriminate H]
        end).
  injection H as <-. done.
Qed.

Lemma read_events_spec lines :
  (forall line, line ∈ lines -> startswith "VTIME," line = true -> is_Some (parse_vtime_event line)) ->
  Verify.read_events lines = Ret (map verify_event (omap parse_vtime_event lines)).
Proof.
  induction lines as [|line lines IH]; intros Hw; [done|]. cbn [Verify.read_events omap list_omap].
  rewrite IH by (intros x Hx; apply Hw; by right). destruct (startswith "VTIME," line) eqn:Hv.
  - destruct (Hw line ltac:(left) Hv) as [e He]. rewrite (verify_parse _ _ He), He. done.
  - by destruct (no_prefix_no_event _ Hv) as [-> _].
Qed.

Lemma starts_of_device_get k events :
  match dict_get k (Verify.starts_of_device events) with
  | Some e => (e ∈ events /\ Verify.is_start e = true) /\ Verify.device_id e = k
  | None => forall e, e ∈ events -> Verify.is_start e = true -> Verify.device_id e <> k
  end.
Proof.
  unfold Verify.starts_of_device.
  pose proof (by_key_get Verify.device_id k (filter (fun e => Verify.is_start e = true) events)) as H.
  destruct (dict_get k _) as [e|].
  - destruct H as [[? ?]%list_elem_of_filter ?]. done.
  - intros e He Hs. apply H. by apply list_elem_of_filter.
Qed.

Lemma remove_dups_constant {A} `{EqDecision A} (l : list A) b :
  l <> [] -> Forall (fun x => x = b) l -> remove_dups l = [b].
Proof.
  intros Hne Hl. induction Hl as [|x l -> Hl IH]; [done|]. cbn [remove_dups].
  destruct (decide_rel elem_of b l) as [Hin|Hn].
  - apply IH. by intros ->; apply elem_of_nil in Hin.
  - destruct Hl as [|y l -> Hl]; [done|]. by destruct Hn; left.
Qed.

(** The shifts of devices that all start at [base] afterwards *)
Lemma shifts_aligned (B A : pydict Z Verify.event) base ds :
  (forall d, d ∈ ds -> exists b a, dict_get d B = Some b /\ dict_get d A = Some a /\ Verify.vt_start_us a = base) ->
  exists ss, mapO (fun d => b ← item d B; a ← item d A;
      Ret (Verify.mk_shift d (Verify.vt_start_us b) (Verify.vt_start_us a)
             (Verify.vt_start_us a - Verify.vt_start_us b))) ds = Ret ss /\
    length ss = length ds /\ Forall (fun x => x = base) (map Verify.s_after ss).
Proof.
  induction ds as [|d ds IH]; intros Hds; cbn [mapO]; [exists []; by split_and!; [| |constructor]|].
  destruct IH as (ss & Hss & Hlen & Hf); [intros; apply Hds; by right|].
  destruct (Hds d ltac:(left)) as (b & a & Hb & Ha & Hab).
  unfold item at 1 2. rewrite Hb, Ha. cbn [of_option mbind outcome_bind]. rewrite Hss.
  eexists. split; [reflexivity|]. cbn. rewrite Hlen. split; [done|]. by constructor.
Qed.

(** The start of a device that counts is its last one. *)
Definition last_start_of (d : Z) (events : list Verify.event) : option Verify.event :=
  last (filter (fun e => Verify.device_id e = d) (filter (fun e => Verify.is_start e = true) events)).

Lemma analyze_gemm_aligned before after g bs as_ base :
  dict_get_default g [] before = bs -> dict_get_default g [] after = as_ ->
  (exists e, e ∈ bs /\ Verify.is_start e = true) ->
  (forall e, e ∈ bs -> Verify.is_start e = true -> exists e',
     last_start_of (Verify.device_id e) as_ = Some e' /\ Verify.vt_start_us e' = base) ->
  exists shifts, Verify.analyze_gemm before after g =
    Ret (Verify.synchronised shifts base (Verify.changes_of bs as_)).
Proof.
  intros Hb Ha Hex Hsub. unfold Verify.analyze_gemm. rewrite Hb, Ha.
  set (B := Verify.starts_of_device bs). set (A := Verify.starts_of_device as_).
  assert (Hget : forall d e, dict_get d B = Some e -> exists e', dict_get d A = Some e' /\ Verify.vt_start_us e' = base).
  { intros d e He. pose proof (starts_of_device_get d bs) as H. fold B in H. rewrite He in H.
    destruct H as [[Hin Hs] Hd]. destruct (Hsub e Hin Hs) as (e' & Hl & Hbase). exists e'.
    split; [|done]. unfold A, Verify.starts_of_device. rewrite dict_get_by_key, <- Hd. exact Hl. }
  destruct Hex as (e & He & Hs). pose proof (starts_of_device_get (Verify.device_id e) bs) as H0.
  fold B in H0. destruct (dict_get (Verify.device_id e) B) as [b|] eqn:Hbe; [|by destruct (H0 e He Hs)].
  destruct (Hget _ _ Hbe) as (a & Hae & _).
  destruct (shifts_aligned B A base (sort_by Z.leb (dict_keys B))) as (ss & Hss & Hlen & Hf).
  { intros d [x Hx]%elem_of_sort_by%dict_get_is_Some. destruct (Hget _ _ Hx) as (y & Hy & Hyb).
    by exists x, y. }
  destruct B as [|b0 B']; [done|]. destruct A as [|a0 A']; [done|]. unfold Verify.shifts_of.
  rewrite Hss. cbn [mbind outcome_bind]. rewrite (remove_dups_constant _ base); [by exists ss| |done].
  intros Hn. apply (f_equal length) in Hn. rewrite length_map, Hlen in Hn.
  by rewrite (Permutation_length (sort_by_perm _ _)) in Hn.
Qed.

Lemma verify_start e : Verify.is_start (verify_event e) = is_compute_start e.
Proof. done. Qed.

Lemma map_omap {A B C} (f : A -> option B) (h : B -> C) (l : list A) :
  map h (omap f l) = omap (fun x => h <$> f x) l.
Proof. induction l as [|x l IH]; [done|]. cbn. destruct (f x); cbn; by rewrite ?IH. Qed.

Lemma events_after text method out l offs :
  well_formed text -> read_log text = Ret l ->
  calculate_offsets (find_compute_start_times (vtime_events l)) method = Ret offs ->
  synchronize text method = Ret out ->
  Verify.read_events (file_lines out) =
    Ret (map verify_event (sort_by vtime_le (synced_vtime l offs))).
Proof.
  intros Hw Hr Ho Hs. destruct (written_lines _ _ _ _ _ Hr Ho Hs) as (ws & Hws & _ & Hin).
  destruct (read_log_lines _ _ Hr) as (Hc & _ & _). pose proof (synced_clean _ offs Hc) as Hsc.
  rewrite Forall_forall in Hsc. rewrite read_events_spec.
  - f_equal. rewrite map_omap.
    rewrite (written_read _ (fun e => Some (verify_event e)) _ _ _ _ _ Hr Ho Hs).
    + generalize (sort_by vtime_le (synced_vtime l offs)). intros es.
      induction es as [|e es IH]; [done|]. cbn. by rewrite IH.
    + intros e [[_ He1] [_ He2]]. by rewrite vtime_line_roundtrip.
    + intros line Hl. destruct (no_prefix_no_event line) as [-> _]; [by eapply other_prefix|done].
    + intros t. by destruct (no_prefix_no_event _ (render_throughput_prefix t)) as [-> _].
  - rewrite Hws. intros line (w & -> & Hw'%Hin)%list_elem_of_fmap Hv.
    destruct w as [e|k]; [|destruct Hw' as [Hk|(t & Hk & _)%list_elem_of_fmap]]; cbn [line_key snd] in *.
    + destruct (Hsc _ Hw') as [[_ He1] [_ He2]]. rewrite vtime_line_roundtrip by done. by eexists.
    + by rewrite (other_prefix _ _ _ Hw Hr Hk) in Hv.
    + by rewrite Hk, render_throughput_prefix in Hv.
Qed.

Lemma get_default_group {V} (key : V -> Z) k (l : list V) :
  dict_get_default k [] (group_by key l) = filter (fun x => key x = k) l.
Proof. unfold dict_get_default. rewrite dict_get_group_by. by destruct (filter _ l). Qed.

(** The last COMPUTE START of a GEMM on a device is the last one in the order of
    the timestamps too. *)
Definition starts_in_time_order (events : list VTEvent) : Prop :=
  forall g d, last_start g d (sort_by vtime_le events) = last_start g d events.

Lemma synced_in_order l offs g d :
  starts_in_time_order (vtime_events l) ->
  last_start g d (sort_by vtime_le (synced_vtime l offs)) = last_start g d (synced_vtime l offs).
Proof.
  intros Hu. rewrite sorted_synced, synced_vtime_events. specialize (Hu g d). unfold last_start in *.
  rewrite !starts_of_map, !last_fmap by done.
  destruct (last (starts_of g d _)) as [e|] eqn:He, (last (starts_of g d (vtime_events l))) as [e'|] eqn:He';
    try done.
  apply last_Some_elem_of, list_elem_of_filter in He as ((_ & Hg & Hd) & _).
  apply last_Some_elem_of, list_elem_of_filter in He' as ((_ & Hg' & Hd') & _).
  cbn in *. injection Hu as Hu. by rewrite Hg, Hg', Hd, Hd', Hu.
Qed.

Lemma last_start_of_verify g d events :
  Verify.vt_start_us <$> last_start_of d (filter (fun x => Verify.gemm_id x = g) (map verify_event events)) =
  last_start g d events.
Proof.
  unfold last_start_of, last_start, starts_of.
  assert (Hf : filter (fun e => Verify.device_id e = d) (filter (fun e => Verify.is_start e = true)
      (filter (fun x => Verify.gemm_id x = g) (map verify_event events))) =
    map verify_event (filter (fun e => is_compute_start e = true /\ v_gemm_id e = g /\ v_device_id e = d) events)).
  { induction events as [|e events IH]; [done|]. cbn [map]. rewrite !filter_cons.
    cbn [verify_event Verify.gemm_id].
    destruct (decide (v_gemm_id e = g)) as [Hg|Hg]; [|by rewrite decide_False by naive_solver].
    rewrite !filter_cons. change (Verify.is_start (verify_event e)) with (is_compute_start e).
    destruct (decide (is_compute_start e = true)); [|by rewrite decide_False by naive_solver].
    rewrite filter_cons. cbn [verify_event Verify.device_id].
    destruct (decide (v_device_id e = d)); [|by rewrite decide_False by naive_solver].
    rewrite decide_True by done. cbn [map]. by rewrite IH. }
  rewrite Hf, last_fmap. by destruct (last _).
Qed.

(** [verify_sync_correctness.py] reads the log before and the one that
    [sync_virtual_time.py] writes of it, and finds every GEMM that has a computation start
    synchronised. *)
Theorem synchronised_log_accepted text method out l offs :
  well_formed text -> read_log text = Ret l -> starts_in_time_order (vtime_events l) ->
  calculate_offsets (find_compute_start_times (vtime_events l)) method = Ret offs ->
  synchronize text method = Ret out ->
  exists before after, Verify.read_log text = Ret before /\ Verify.read_log out = Ret after /\
    forall g, (exists e, e ∈ vtime_events l /\ is_compute_start e = true /\ v_gemm_id e = g) ->
      exists shifts base changes,
        Verify.analyze_gemm before after g = Ret (Verify.synchronised shifts base changes).
Proof.
  intros Hw Hr Hu Ho Hs. set (es := map verify_event (sort_by vtime_le (synced_vtime l offs))).
  exists (group_by Verify.gemm_id (map verify_event (vtime_events l))), (group_by Verify.gemm_id es).
  unfold Verify.read_log. rewrite (events_after _ _ _ _ _ Hw Hr Ho Hs), read_events_spec by exact Hw.
  pose proof Hr as Hr'. unfold read_log in Hr'. apply read_lines_vtime in Hr'. cbn [vtime_events app] in Hr'.
  rewrite <- Hr'. split; [done|]. split; [done|]. intros g (e0 & He0 & Hc0 & Hg0).
  assert (Hlast : forall e, e ∈ vtime_events l -> is_compute_start e = true -> v_gemm_id e = g ->
    exists e' t, last_start_of (v_device_id e) (dict_get_default g [] (group_by Verify.gemm_id es)) = Some e' /\
      Verify.vt_start_us e' = t /\ last_start g (v_device_id e) (synced_vtime l offs) = Some t).
  { intros e He Hc Hg. rewrite get_default_group. unfold es.
    pose proof (last_start_of_verify g (v_device_id e) (sort_by vtime_le (synced_vtime l offs))) as Hv.
    rewrite (synced_in_order l offs g (v_device_id e) Hu) in Hv.
    assert (Hs' : is_Some (last_start g (v_device_id e) (synced_vtime l offs))).
    { destruct (synced_last_start l offs) as [m ->]. rewrite fmap_is_Some. unfold last_start.
      rewrite fmap_is_Some. apply last_is_Some. intros Hn.
      assert (Hin : e ∈ starts_of g (v_device_id e) (vtime_events l)) by by apply list_elem_of_filter.
      rewrite Hn in Hin. by apply elem_of_nil in Hin. }
    destruct Hs' as [t Ht]. rewrite Ht in Hv. destruct (last_start_of _ _) as [e'|]; [|done].
    injection Hv as Hv. by exists e', t. }
  destruct (Hlast e0 He0 Hc0 Hg0) as (x0 & t0 & _ & _ & Ht0).
  destruct (analyze_gemm_aligned (group_by Verify.gemm_id (map verify_event (vtime_events l)))
    (group_by Verify.gemm_id es) g _ _ t0 eq_refl eq_refl) as (ss & ->); [| |by do 3 eexists].
  - exists (verify_event e0). split; [|done]. rewrite get_default_group. apply list_elem_of_filter.
    split; [done|]. apply list_elem_of_fmap. by exists e0.
  - intros x Hx Hst. rewrite get_default_group in Hx.
    apply list_elem_of_filter in Hx as [Hg (e & -> & He)%list_elem_of_fmap].
    destruct (Hlast e He Hst Hg) as (e' & t & Hl & Hv & Ht). exists e'. split; [done|]. rewrite Hv.
    by eapply synced_starts_equal.
Qed.

(** ** The batch runtime reads the written log *)

Lemma parse_lines_omap f n lines :
  (forall line k, line ∈ lines -> BatchRuntime.parse_vtime_line k line = Ret (f line)) ->
  BatchRuntime.parse_vtime_lines n lines = Ret (omap f lines).
Proof.
  revert n. induction lines as [|line lines IH]; intros n H; [done|].
  cbn [BatchRuntime.parse_vtime_lines omap list_omap]. rewrite H by left. cbn [mbind outcome_bind].
  rewrite IH by (intros x k Hx; apply H; by right). by destruct (f line).
Qed.

Lemma strip_first c s : is_space c = false -> exists s', strip (String c s) = String c s'.
Proof.
  intros Hc. unfold strip. cbn [lstrip_by]. rewrite Hc. cbn [rstrip_by]. rewrite Hc.
  destruct (rstrip_by is_space s); by eexists.
Qed.

Lemma throughput_not_vtime k t : BatchRuntime.parse_vtime_line k (render_throughput t) = Ret None.
Proof.
  assert (Hs : exists c s, render_throughput t = String c s /\ is_space c = false /\
                           Ascii.eqb "V" c = false).
  { unfold render_throughput. cbn [join]. unfold str_of_Z at 1.
    destruct (_ <? 0); [by eexists "-"%char, _|].
    destruct (str_of_N _) as [|c s] eqn:Hn; [by apply str_of_N_nonempty in Hn|].
    set (p := fun c => negb (is_space c) && negb (Ascii.eqb "V" c)).
    pose proof (str_of_N_all p (Z.to_N (t_timestamp_us t)) (digit_char_cases p eq_refl)) as Hd.
    rewrite Hn in Hd. cbn [all_chars] in Hd. apply andb_prop in Hd as [Hd _].
    apply andb_prop in Hd as [Hd1%negb_true_iff Hd2%negb_true_iff].
    exists c. eexists. split; [|by split]. by rewrite str_cons_app. }
  destruct Hs as (c & s & -> & Hc & HV). destruct (strip_first c s Hc) as [s' Hs'].
  unfold BatchRuntime.parse_vtime_line. rewrite Hs'. cbn [is_empty startswith]. by rewrite HV.
Qed.

(** C12: the log [sync_virtual_time.py] writes, headers, comments, throughput lines
    and all, is one [compute_batch_runtime.py] reads: it gets, in the order of their
    timestamps, exactly the END events with a known phase, with their synchronised
    times.  In the original log a line that starts with VTIME but for white space
    must parse. *)
Theorem synchronised_log_read text method out
    (Hw : forall line, line ∈ file_lines text -> startswith "VTIME" (strip line) = true ->
          is_Some (parse_vtime_event line))
    (Hs : synchronize text method = Ret out) :
  exists l offs, read_log text = Ret l /\
    calculate_offsets (find_compute_start_times (vtime_events l)) method = Ret offs /\
    BatchRuntime.parse_vtime_log out =
      Ret (omap BatchRuntime.measured (sort_by vtime_le (synced_vtime l offs))).
Proof.
  pose proof Hs as Hs'. unfold synchronize in Hs'.
  destruct (read_log text) as [l|] eqn:Hr; [|done]. cbn [mbind outcome_bind] in Hs'.
  destruct (calculate_offsets _ _) as [offs|] eqn:Ho; [|done]. clear Hs'.
  exists l, offs. split; [done|]. split; [done|].
  destruct (read_log_lines _ _ Hr) as (Hc & _ & Hot). pose proof (synced_clean _ offs Hc) as Hsc.
  rewrite Forall_forall in Hsc. rewrite Forall_forall in Hot.
  set (f := fun line => match BatchRuntime.parse_vtime_line 0 line with Ret o => o | Raise _ => None end).
  assert (Hev : forall e k, clean_event e ->
    BatchRuntime.parse_vtime_line k (render_vtime e) = Ret (BatchRuntime.measured e)).
  { intros e k [[_ Hp] [_ He]]. by apply BatchRuntime.parse_rendered. }
  assert (Hother : forall line k, line ∈ other_lines l -> BatchRuntime.parse_vtime_line k line = Ret None).
  { intros line k Hl. destruct (Hot _ Hl) as [Hin Hn]. unfold BatchRuntime.parse_vtime_line.
    destruct (startswith "VTIME" (strip line)) eqn:Hv; [|by rewrite orb_true_r].
    destruct (Hw line Hin Hv). congruence. }
  unfold BatchRuntime.parse_vtime_log. rewrite (parse_lines_omap f).
  - f_equal. eapply written_read; [done..| | |].
    + intros e He. unfold f. by rewrite Hev.
    + intros line Hl. unfold f. by rewrite Hother.
    + intros t. unfold f. by rewrite throughput_not_vtime.
  - destruct (written_lines _ _ _ _ _ Hr Ho Hs) as (ws & -> & _ & Hin).
    intros line k (w & -> & Hw'%Hin)%list_elem_of_fmap. unfold f.
    destruct w as [e|kl]; [|destruct Hw' as [Hk|(t & Hk & _)%list_elem_of_fmap]]; cbn [line_key snd].
    + by rewrite !Hev by by apply Hsc.
    + by rewrite !Hother.
    + by rewrite Hk, !throughput_not_vtime.
Qed.

(** ** The two methods *)

(** The earliest method advances no device, and for every GEMM the offsets of the two
    methods add up to the spread, once per device. *)
Lemma advances_earliest lo (d : pydict Z Z) :
  (forall t, t ∈ dict_values d -> lo <= t) -> Methods.advances (Methods.offsets_to lo d) = 0.
Proof.
  intros Hlo. unfold Methods.advances. rewrite filter_false; [done|].
  apply Forall_forall. intros o (dt & -> & Hin)%list_elem_of_fmap.
  apply list_elem_of_fmap in Hin as ([d' t] & -> & Hin). cbn.
  assert (lo <= t); [|lia]. apply Hlo, list_elem_of_fmap. by exists (d', t).
Qed.

Lemma total_offset_sum base (d : pydict Z Z) :
  Methods.total_offset (Methods.offsets_to base d) = sum_list (map (fun dt => Z.abs (base - dt.2)) d).
Proof.
  unfold Methods.total_offset, Methods.offsets_to, dict_values. f_equal.
  induction d as [|dt d IH]; [done|]. cbn in *. by rewrite IH.
Qed.

Lemma total_offsets lo hi (d : pydict Z Z) :
  (forall t, t ∈ dict_values d -> lo <= t <= hi) ->
  Methods.total_offset (Methods.offsets_to lo d) + Methods.total_offset (Methods.offsets_to hi d)
  = Z.of_nat (length d) * (hi - lo).
Proof.
  rewrite !total_offset_sum. induction d as [|[k t] d IH]; intros Hb; [done|].
  cbn [map length snd]. rewrite !sum_list_cons. assert (lo <= t <= hi) by (apply Hb; left).
  specialize (IH ltac:(intros; apply Hb; by right)). lia.
Qed.

(** Two devices that compute GEMM 1, device 0 two partitions of it *)
Definition demo_text : string :=
  terminated ["# header"; "VTIME,5,0,1,COMPUTE,START,10,10,0"; "VTIME,6,0,1,COMPUTE,END,10,30,20";
              "VTIME,7,0,1,COMPUTE,START,30,30,0"; "VTIME,8,1,1,COMPUTE,START,60,60,0";
              "9,0,1,UL,100,5.00,0,0,20"; "VTIME,9,0,1,COMPUTE,END,30,60,30";
              "VTIME,9,1,1,COMPUTE,END,60,90,30"]%string.

Definition demo_read : log :=
  match read_log demo_text with Ret l => l | Raise _ => mk_log [] [] [] end.
Definition demo_out : string :=
  match synchronize demo_text "latest" with Ret out => out | Raise _ => "" end.
Definition demo_offs : nested := [(1, [(0, 30); (1, 0)])].

Ltac each H := repeat (apply elem_of_cons in H as [->|H]); [.. |by apply elem_of_nil in H].

Lemma demo_vtime_lines line :
  line ∈ file_lines demo_text -> startswith "VTIME" (strip line) = true ->
  is_Some (parse_vtime_event line).
Proof.
  intros Hin. change (file_lines demo_text) with
    ["# header"; "VTIME,5,0,1,COMPUTE,START,10,10,0"; "VTIME,6,0,1,COMPUTE,END,10,30,20";
     "VTIME,7,0,1,COMPUTE,START,30,30,0"; "VTIME,8,1,1,COMPUTE,START,60,60,0";
     "9,0,1,UL,100,5.00,0,0,20"; "VTIME,9,0,1,COMPUTE,END,30,60,30";
     "VTIME,9,1,1,COMPUTE,END,60,90,30"]%string in Hin.
  each Hin; try (by vm_compute); intros _; by eexists.
Qed.

Lemma demo_well_formed : well_formed demo_text.
Proof.
  intros line Hin Hv. apply demo_vtime_lines; [done|].
  change (file_lines demo_text) with
    ["# header"; "VTIME,5,0,1,COMPUTE,START,10,10,0"; "VTIME,6,0,1,COMPUTE,END,10,30,20";
     "VTIME,7,0,1,COMPUTE,START,30,30,0"; "VTIME,8,1,1,COMPUTE,START,60,60,0";
     "9,0,1,UL,100,5.00,0,0,20"; "VTIME,9,0,1,COMPUTE,END,30,60,30";
     "VTIME,9,1,1,COMPUTE,END,60,90,30"]%string in Hin.
  each Hin; by vm_compute in Hv |- *.
Qed.

Definition demo_vtime : list VTEvent :=
  [mk_VTEvent "VTIME,5,0,1,COMPUTE,START,10,10,0" 5 0 1 "COMPUTE" "START" 10 10 0;
   mk_VTEvent "VTIME,6,0,1,COMPUTE,END,10,30,20" 6 0 1 "COMPUTE" "END" 10 30 20;
   mk_VTEvent "VTIME,7,0,1,COMPUTE,START,30,30,0" 7 0 1 "COMPUTE" "START" 30 30 0;
   mk_VTEvent "VTIME,8,1,1,COMPUTE,START,60,60,0" 8 1 1 "COMPUTE" "START" 60 60 0;
   mk_VTEvent "VTIME,9,0,1,COMPUTE,END,30,60,30" 9 0 1 "COMPUTE" "END" 30 60 30;
   mk_VTEvent "VTIME,9,1,1,COMPUTE,END,60,90,30" 9 1 1 "COMPUTE" "END" 60 90 30]%string.

Lemma demo_vtime_events : vtime_events demo_read = demo_vtime.
Proof. by vm_compute. Qed.

Lemma demo_sorted : sort_by vtime_le demo_vtime = demo_vtime.
Proof. by vm_compute. Qed.

Lemma demo_computes_agree : last_computes_agree (vtime_events demo_read).
Proof.
  rewrite demo_vtime_events. intros g d. rewrite demo_sorted.
  destruct (decide (g = 1)) as [->|Hg].
  - destruct (decide (d = 0)) as [->|H0]; [by vm_compute|].
    destruct (decide (d = 1)) as [->|H1]; [by vm_compute|].
    unfold computes_of, last_start, starts_of.
    rewrite !filter_false; [done|apply Forall_forall; intros e H; each H; cbn; naive_solver..].
  - unfold computes_of, last_start, starts_of.
    rewrite !filter_false; [done|apply Forall_forall; intros e H; each H; cbn; naive_solver..].
Qed.

Lemma demo_in_order : starts_in_time_order (vtime_events demo_read).
Proof. rewrite demo_vtime_events. intros g d. by rewrite demo_sorted. Qed.

Lemma synchronised_log_verified_witness :
  match Metrics.calculate_sync_metrics
      (Metrics.organize_by_gemm (Metrics.parse_log_for_compute_events demo_text))
      (Metrics.organize_by_gemm (Metrics.parse_log_for_compute_events demo_out)) with
  | Ret ms => forall g m, (g, m) ∈ ms -> Metrics.synced_spread_us m = 0
  | Raise _ => False
  end.
Proof.
  destruct (synchronised_log_verified demo_text "latest" demo_out demo_read demo_offs)
    as (ms & -> & _ & H).
  - exact demo_well_formed.
  - by vm_compute.
  - exact demo_computes_agree.
  - by vm_compute.
  - by vm_compute.
  - intros g m Hin. by destruct (H g m Hin).
Defined.

Lemma synchronised_log_accepted_witness :
  match Verify.read_log demo_text, Verify.read_log demo_out with
  | Ret before, Ret after =>
      match Verify.analyze_gemm before after 1 with
      | Ret (Verify.synchronised _ _ _) => True
      | _ => False
      end
  | _, _ => False
  end.
Proof.
  destruct (synchronised_log_accepted demo_text "latest" demo_out demo_read demo_offs)
    as (before & after & -> & -> & H).
  - exact demo_well_formed.
  - by vm_compute.
  - exact demo_in_order.
  - by vm_compute.
  - by vm_compute.
  - destruct (H 1) as (ss & b & cs & ->); [|done]. rewrite demo_vtime_events.
    eexists. split; [left|by split].
Defined.

Lemma synchronised_log_read_witness :
  BatchRuntime.parse_vtime_log demo_out =
  Ret [BatchRuntime.mk_VTimeEvent 6 0 1 "COMPUTE" "END" 0 20 20;
       BatchRuntime.mk_VTimeEvent 9 0 1 "COMPUTE" "END" 20 50 30;
       BatchRuntime.mk_VTimeEvent 9 1 1 "COMPUTE" "END" 20 50 30].
Proof.
  destruct (synchronised_log_read demo_text "latest" demo_out demo_vtime_lines)
    as (l & offs & Hr & Ho & ->); [by vm_compute|].
  assert (l = demo_read) as -> by (unfold demo_read; by rewrite Hr).
  assert (offs = demo_offs) as -> by (vm_compute in Ho; by injection Ho as <-).
  by vm_compute.
Defined.

(** GEMM 0 on device 1 comes first, so the start of GEMM 1 on device 0 is lost. *)
Lemma recorded_starts_witness :
  recorded_start 1 0 (foldl Strategies.record_line []
    [Strategies.mk_compute_line 0 1 "START" 5 9; Strategies.mk_compute_line 1 0 "START" 7 9]%string) = None.
Proof.
  apply (recorded_starts 1 0 [Strategies.mk_compute_line 0 1 "START"%string 5 9]
    [Strategies.mk_compute_line 1 0 "START"%string 7 9] []).
  - left. split; [done|by left].
  - constructor; [|done]. by intros [[? ?] _].
  - done.
Defined.
