(* ===== verification/Violations.v ===== *)
(** * Partition violations ([scripts/analyze_violations.py])

    A GEMM violates the partition when it runs past the boundary of its step although the
    step and the next one together have too many SMs.  The script assigns GEMMs to steps by
    binary search, lists the violations of every boundary and measures the time they take.
    The rows of a CSV file, as [csv.reader] splits them, are arguments, and so are the rows
    that pandas reads from a trace. *)

From Stdlib Require Import Ascii.
From S2P Require Import Prelude PyDict PyStr PyFloat PyJson Messages BatchRuntime.

(** ** Data *)

(** The name is what the file has: text, or any value of a JSON log. *)
Record GemmCall : Type := mk_gemm {
  g_name : json;
  g_start_ns : Z;
  g_end_ns : Z;
  g_duration_ns : Z;
  g_m : Z;
  g_n : Z;
  g_k : Z;
}.

Record StepSlot : Type := mk_slot {
  s_step : Z;
  s_start_ns : Z;
  s_end_ns : Z;
  s_sm_count : Z;
}.

Record Violation : Type := mk_violation {
  v_step : Z;
  v_next_step : Z;
  v_sm_this : Z;
  v_sm_next : Z;
  v_gemm : GemmCall;
  v_overshoot_ns : Z;
}.

Record StepViolationSummary : Type := mk_step_summary {
  step : Z;
  next_step : Z;
  sm_this : Z;
  sm_next : Z;
  sm_total : Z;
  num_violations : Z;
  max_overshoot_ns : Z;
  total_overshoot_ns : Z;
  violations : list Violation;
}.

(** ** Parsing *)

(** A row of [csv.DictReader]: fields the row does not have are [None]; what it has beyond
    the header is under no name. *)
Definition csv_row : Type := pydict string (option string).

Definition dict_row (fieldnames fields : list string) : csv_row :=
  dict_of_pairs (zip fieldnames (map Some fields)
                 ++ map (fun name => (name, None)) (drop (length fields) fieldnames)).

Definition dict_rows (table : list (list string)) : list csv_row :=
  match table with
  | [] => []
  | fieldnames :: rows => map (dict_row fieldnames) (filter (fun fields => fields <> []) rows)
  end.

(** [int] of a field *)
Definition int_field (f : option string) : outcome Z :=
  match f with
  | None => Raise (TypeError "int() argument must be a string or a real number")
  | Some s => of_option (ValueError "invalid literal for int()") (int_of_str s)
  end.

(** [int(row[key])] and [int(row.get(key, 0))] *)
Definition row_int (key : string) (row : csv_row) : outcome Z :=
  f ← of_option (KeyError key) (dict_get key row); int_field f.
Definition row_int_or_zero (key : string) (row : csv_row) : outcome Z :=
  match dict_get key row with None => Ret 0 | Some f => int_field f end.

Definition json_field (f : option string) : json :=
  match f with Some s => JStr s | None => JNull end.

Definition gemm_row (row : csv_row) : outcome GemmCall :=
  name ← of_option (KeyError "function_name") (dict_get "function_name"%string row);
  start ← row_int "start_ns" row; stop ← row_int "end_ns" row;
  duration ← row_int "duration_ns" row;
  m ← row_int_or_zero "m" row; n ← row_int_or_zero "n" row; k ← row_int_or_zero "k" row;
  Ret (mk_gemm (json_field name) start stop duration m n k).

Definition by_start (x y : GemmCall) : bool := g_start_ns x <=? g_start_ns y.
Definition by_slot_start (x y : StepSlot) : bool := s_start_ns x <=? s_start_ns y.

(** A row that raises [KeyError] or [ValueError] is passed over. *)
Fixpoint gemm_rows (rows : list csv_row) : outcome (list GemmCall) :=
  match rows with
  | [] => Ret []
  | row :: rows =>
      match gemm_row row with
      | Ret c => cs ← gemm_rows rows; Ret (c :: cs)
      | Raise (KeyError _) | Raise (ValueError _) => gemm_rows rows
      | Raise e => Raise e
      end
  end.

Definition parse_gemm_log (table : list (list string)) : outcome (list GemmCall) :=
  calls ← gemm_rows (dict_rows table); Ret (sort_by by_start calls).

Definition slot_row (row : csv_row) : outcome StepSlot :=
  step ← row_int "step" row; start ← row_int "start_ns" row; stop ← row_int "end_ns" row;
  sm ← row_int "sm_count" row; Ret (mk_slot step start stop sm).

Definition parse_step_boundaries (table : list (list string)) : outcome (list StepSlot) :=
  slots ← mapO slot_row (dict_rows table); Ret (sort_by by_slot_start slots).

(** [j * 1000] *)
Definition times_1000 (j : json) : outcome json :=
  match j with
  | JBool b => Ret (JInt (bool_int b * 1000))
  | JInt z => Ret (JInt (z * 1000))
  | JFloat x => Ret (JFloat (fmul x (f_of_Z 1000)))
  | JStr s => Ret (JStr (String.concat "" (replicate 1000 s)))
  | JList l => Ret (JList (concat (replicate 1000 l)))
  | _ => Raise (TypeError "unsupported operand type(s) for *")
  end.

(** [e.get(key, default)], of an object *)
Definition get_field (key : string) (default : json) (e : json) : outcome json :=
  match e with
  | JObj d => Ret (dict_get_default key default d)
  | _ => Raise (AttributeError "object has no attribute 'get'")
  end.

Definition autograd_entry (e : json) : outcome GemmCall :=
  start ← json_item "start_us" e; start ← times_1000 start; start_ns ← py_int start;
  stop ← json_item "end_us" e; stop ← times_1000 stop; end_ns ← py_int stop;
  name ← get_field "phase" (JStr "unknown") e;
  m ← get_field "m" (JInt 0) e; m ← py_int m;
  n ← get_field "n" (JInt 0) e; n ← py_int n;
  k ← get_field "k" (JInt 0) e; k ← py_int k;
  Ret (mk_gemm name start_ns end_ns (end_ns - start_ns) m n k).

Definition parse_autograd_log (entries : json) : outcome (list GemmCall) :=
  es ← json_iter entries; calls ← mapO autograd_entry es; Ret (sort_by by_start calls).

(** The end of a slot is the start of the next one; the last one takes a millisecond. *)
Fixpoint close_slots (slots : list StepSlot) : list StepSlot :=
  match slots with
  | [] => []
  | [s] => [mk_slot (s_step s) (s_start_ns s) (s_start_ns s + 1000000) (s_sm_count s)]
  | s :: (next :: _) as rest =>
      mk_slot (s_step s) (s_start_ns s) (s_start_ns next) (s_sm_count s) :: close_slots rest
  end.

(** [rows]: the integers of the columns [time_slot_sched_ns] and [sm_count] *)
Definition parse_trace_boundaries (rows : list (Z * Z)) : list StepSlot :=
  close_slots (imap (fun i row => mk_slot (Z.of_nat i) row.1 0 row.2) rows).

Definition trace_line (line : string) : option (Z * Z) :=
  let line := strip line in
  if is_empty line || startswith "#" line then None
  else match split_on "," line with
       | ts :: sms :: _ => ts ← int_of_str (strip ts); sms ← int_of_str (strip sms); Some (ts, sms)
       | _ => None
       end.
Definition parse_trace (text : string) : list (Z * Z) := omap trace_line (file_lines text).

(** ** Assignment *)

(** [bisect.bisect_right], with fuel for the halvings *)
Fixpoint bisect_loop (fuel : nat) (a : list Z) (x lo hi : Z) : Z :=
  match fuel with
  | O => lo
  | S fuel =>
      if lo <? hi then
        let mid := (lo + hi) / 2 in
        match a !! Z.to_nat mid with
        | Some y => if x <? y then bisect_loop fuel a x lo mid else bisect_loop fuel a x (mid + 1) hi
        | None => lo
        end
      else lo
  end.
Definition bisect_right (a : list Z) (x : Z) : Z :=
  bisect_loop (length a) a x 0 (Z.of_nat (length a)).

(** The GEMMs of every slot: the dictionary has the keys [0 .. len(slots) - 1], in order. *)
Definition assign_step (starts : list Z) (result : list (list GemmCall)) (g : GemmCall) :
    list (list GemmCall) :=
  let idx := bisect_right starts (g_start_ns g) - 1 in
  if (0 <=? idx) && (idx <? Z.of_nat (length starts))
  then alter (fun l => l ++ [g]) (Z.to_nat idx) result else result.

Definition assign_gemms_to_steps (gemms : list GemmCall) (slots : list StepSlot) :
    list (list GemmCall) :=
  let starts := map s_start_ns slots in
  foldl (assign_step starts) (replicate (length slots) []) gemms.

(** ** Violations *)

(** A GEMM of the slot [cur] against the start of the next one *)
Definition add_violation (cur nxt : StepSlot) (s : StepViolationSummary) (g : GemmCall) :
    StepViolationSummary :=
  if s_start_ns nxt <? g_end_ns g then
    let overshoot := g_end_ns g - s_start_ns nxt in
    mk_step_summary (step s) (next_step s) (sm_this s) (sm_next s) (sm_total s)
      (num_violations s + 1) (Z.max (max_overshoot_ns s) overshoot)
      (total_overshoot_ns s + overshoot)
      (violations s ++ [mk_violation (s_step cur) (s_step nxt) (s_sm_count cur) (s_sm_count nxt)
                          g overshoot])
  else s.

Definition boundary_summary (cur nxt : StepSlot) (gemms : list GemmCall) : StepViolationSummary :=
  foldl (add_violation cur nxt)
    (mk_step_summary (s_step cur) (s_step nxt) (s_sm_count cur) (s_sm_count nxt)
       (s_sm_count cur + s_sm_count nxt) 0 0 0 []) gemms.

(** The boundaries from the slot [i] on *)
Fixpoint detect_from (max_sm : Z) (step_gemms : list (list GemmCall)) (i : nat)
    (slots : list StepSlot) : list StepViolationSummary :=
  match slots with
  | cur :: (nxt :: _) as rest =>
      let later := detect_from max_sm step_gemms (S i) rest in
      if s_sm_count cur + s_sm_count nxt <=? max_sm then later
      else
        let s := boundary_summary cur nxt (default [] (step_gemms !! i)) in
        if 0 <? num_violations s then s :: later else later
  | _ => []
  end.

Definition detect_violations (slots : list StepSlot) (step_gemms : list (list GemmCall))
    (max_sm : Z) : list StepViolationSummary := detect_from max_sm step_gemms 0 slots.

(** ** Violation time *)

Definition interval : Type := Z * Z.

Definition slot_map (slots : list StepSlot) : pydict Z StepSlot :=
  dict_of_pairs (map (fun s => (s_step s, s)) slots).

Definition intervals_of (slots : list StepSlot) (s : StepViolationSummary) : list interval :=
  match dict_get (next_step s) (slot_map slots) with
  | None => []
  | Some nxt =>
      filter (fun i => i.1 < i.2)
        (map (fun v => (s_start_ns nxt, Z.min (g_end_ns (v_gemm v)) (s_end_ns nxt))) (violations s))
  end.

(** The order of tuples *)
Definition interval_leb (x y : interval) : bool :=
  (x.1 <? y.1) || ((x.1 =? y.1) && (x.2 <=? y.2)).

(** [merged], the last interval apart *)
Fixpoint merge_from (last : interval) (rest : list interval) : list interval :=
  match rest with
  | [] => [last]
  | (s, e) :: rest =>
      if s <=? last.2 then merge_from (last.1, Z.max last.2 e) rest
      else last :: merge_from (s, e) rest
  end.

Definition merge_intervals (intervals : list interval) : list interval :=
  match sort_by interval_leb intervals with [] => [] | i :: rest => merge_from i rest end.

Definition compute_violation_time_ns (summaries : list StepViolationSummary)
    (slots : list StepSlot) : Z :=
  sum_list (map (fun i => i.2 - i.1) (merge_intervals (concat (map (intervals_of slots) summaries)))).

(** ** Reports *)

Definition format_ns (ns : Z) : outcome string :=
  let scaled (unit : Z) (d : nat) (suffix : string) :=
    x ← int_truediv ns unit; Ret (fmt_fixed d x +:+ suffix) in
  if ns <? 1000 then Ret (str_of_Z ns +:+ "ns")
  else if ns <? 1000000 then scaled 1000 2%nat "us"
  else if ns <? 1000000000 then scaled 1000000 2%nat "ms"
  else scaled 1000000000 3%nat "s".

(** [100.0 * part / whole] *)
Definition percent (part whole : Z) : outcome float :=
  part ← float_of_int part; whole ← float_of_int whole; fdiv (fmul (f_of_Z 100) part) whole.
Definition percent_or_zero (part whole : Z) : outcome float :=
  if whole =? 0 then Ret fzero else percent part whole.

Definition count {A} (l : list A) : Z := Z.of_nat (length l).

Definition total_wall_ns (slots : list StepSlot) : Z :=
  match slots, last slots with
  | first :: _, Some last => s_end_ns last - s_start_ns first
  | _, _ => 0
  end.

Section reports.
(** The text [str] gives a float, a list or an object *)
Context (repr : json -> string).

Definition step_line (max_sm : Z) (s : StepViolationSummary) : outcome string :=
  over ← format_ns (max_overshoot_ns s);
  Ret ("  Step " +:+ str_of_Z (step s) +:+ "->" +:+ str_of_Z (next_step s) +:+ ": "
       +:+ str_of_Z (num_violations s) +:+ " violations, max_overshoot=" +:+ over
       +:+ ", sm_pressure=" +:+ str_of_Z (sm_this s) +:+ "+" +:+ str_of_Z (sm_next s) +:+ "="
       +:+ str_of_Z (sm_total s) +:+ " > " +:+ str_of_Z max_sm +:+ nl).

Definition detail_line (v : Violation) : outcome string :=
  let g := v_gemm v in
  over ← format_ns (v_overshoot_ns v);
  Ret ("  step=" +:+ str_of_Z (v_step v) +:+ " gemm=" +:+ py_str repr (g_name g)
       +:+ " m=" +:+ str_of_Z (g_m g) +:+ " n=" +:+ str_of_Z (g_n g) +:+ " k=" +:+ str_of_Z (g_k g)
       +:+ " overshoot=" +:+ over +:+ " sm=" +:+ str_of_Z (v_sm_this v) +:+ "+"
       +:+ str_of_Z (v_sm_next v) +:+ "=" +:+ str_of_Z (v_sm_this v + v_sm_next v) +:+ nl).

Definition by_overshoot (x y : StepViolationSummary) : bool :=
  max_overshoot_ns y <=? max_overshoot_ns x.

(** The first twenty violations, in the order of the ranking *)
Definition detailed (verbose : bool) (ranked : list StepViolationSummary) : list Violation :=
  let all := concat (map violations ranked) in if verbose then all else take 20 all.

Definition rankings (summaries : list StepViolationSummary) (max_sm top_n : Z) (verbose : bool) :
    outcome string :=
  let ranked := sort_by by_overshoot summaries in
  let show := if verbose then ranked else py_slice 0 top_n ranked in
  steps ← mapO (step_line max_sm) show;
  details ← mapO detail_line (detailed verbose ranked);
  Ret ("Per-step violations (top " +:+ str_of_Z (count show) +:+ " by overshoot):" +:+ nl
       +:+ String.concat "" steps +:+ nl
       +:+ "Detailed violations (first " +:+ (if verbose then "all" else "20") +:+ "):" +:+ nl
       +:+ String.concat "" details +:+ nl).

(** The text of the report *)
Definition write_report (gemms : list GemmCall) (slots : list StepSlot)
    (summaries : list StepViolationSummary) (violation_time_ns max_sm top_n : Z) (verbose : bool) :
    outcome string :=
  let total_steps := count slots in
  let total_boundaries := Z.max (total_steps - 1) 1 in
  let wall := total_wall_ns slots in
  let total_violating_gemms := sum_list (map num_violations summaries) in
  pct_slots ← percent_or_zero (count summaries) total_boundaries;
  pct_time ← percent_or_zero violation_time_ns wall;
  wall_text ← format_ns wall;
  time_text ← format_ns violation_time_ns;
  pct_gemms ← percent total_violating_gemms (Z.max (count gemms) 1);
  rest ← (if (length summaries =? 0)%nat then Ret ("No violations detected." +:+ nl)
          else rankings summaries max_sm top_n verbose);
  Ret ("=== SM Partition Violation Analysis ===" +:+ nl +:+ nl
       +:+ "Configuration:" +:+ nl
       +:+ "  Max SM count threshold: " +:+ str_of_Z max_sm +:+ nl
       +:+ "  GEMM log entries: " +:+ str_of_Z (count gemms) +:+ nl
       +:+ "  Training steps: " +:+ str_of_Z total_steps +:+ nl
       +:+ "  Total wall time: " +:+ wall_text +:+ nl +:+ nl
       +:+ "Summary:" +:+ nl
       +:+ "  Slots with violations: " +:+ str_of_Z (count summaries) +:+ "/"
       +:+ str_of_Z total_boundaries +:+ " (" +:+ fmt_fixed 2 pct_slots +:+ "%)" +:+ nl
       +:+ "  Time with violations: " +:+ time_text +:+ " / " +:+ wall_text
       +:+ " (" +:+ fmt_fixed 4 pct_time +:+ "%)" +:+ nl
       +:+ "  Total violating GEMM calls: " +:+ str_of_Z total_violating_gemms +:+ "/"
       +:+ str_of_Z (count gemms) +:+ " (" +:+ fmt_fixed 2 pct_gemms +:+ "%)" +:+ nl +:+ nl
       +:+ rest).
End reports.

Definition summary_header : list string :=
  ["step"; "next_step"; "sm_this"; "sm_next"; "sm_total"; "num_violations"; "max_overshoot_ns";
   "total_overshoot_ns"].
Definition summary_values (s : StepViolationSummary) : list Z :=
  [step s; next_step s; sm_this s; sm_next s; sm_total s; num_violations s; max_overshoot_ns s;
   total_overshoot_ns s].

(** The text of the CSV file: [csv] ends a line with a carriage return and a line feed. *)
Definition crlf : string := String "013" nl.
Definition write_csv_summary (summaries : list StepViolationSummary) : string :=
  String.concat "" (map (fun fields => join "," fields +:+ crlf)
                      (summary_header :: map (fun s => map str_of_Z (summary_values s)) summaries)).

Definition slot_summary_json (s : StepViolationSummary) : json :=
  JObj (zip summary_header (map JInt (summary_values s))).

(** The object of the JSON file *)
Definition write_json_summary (gemms : list GemmCall) (slots : list StepSlot)
    (summaries : list StepViolationSummary) (violation_time_ns : Z) : outcome json :=
  let total_boundaries := Z.max (count slots - 1) 1 in
  let total_violations := sum_list (map num_violations summaries) in
  time ← float_of_int violation_time_ns;
  n ← float_of_int (Z.max total_violations 1);
  avg ← fdiv time n; avg_us ← fdiv avg (f_of_Z 1000);
  ms ← fdiv time (f_of_Z 1000000);
  pct ← percent (count summaries) total_boundaries;
  let per_step s := [("step"%string, JInt (step s)); ("violations"%string, JInt (num_violations s))] in
  Ret (JObj
    [("total_violations"%string, JInt total_violations);
     ("total_violation_time_ms"%string, JFloat ms);
     ("violations_per_step"%string, JList (map (fun s => JObj (per_step s)) summaries));
     ("avg_violation_duration_us"%string, JFloat avg_us);
     ("per_slot_summary"%string, JList (map slot_summary_json summaries));
     ("total_slots"%string, JInt (count slots));
     ("slots_with_violations"%string, JInt (count summaries));
     ("violation_pct"%string, JFloat pct);
     ("total_gemms"%string, JInt (count gemms));
     ("violating_gemms"%string, JInt total_violations);
     ("total_violation_time_ns"%string, JInt violation_time_ns);
     ("per_step_violations"%string,
        JList (map (fun s => JObj (per_step s ++
                 [("max_overshoot_ns"%string, JInt (max_overshoot_ns s));
                  ("total_overshoot_ns"%string, JInt (total_overshoot_ns s))])) summaries))]).

(** ** The program *)

Record Args : Type := mk_args {
  autograd_mode : bool;
  gemm_log : option string;
  autograd_log : option string;
  step_log : option string;
  trace : option string;
  max_sm_count : Z;
  output : option string;
  output_csv : option string;
  output_json : option string;
  top_n : Z;
  verbose : bool;
}.

(** What the program writes, and where: [None] is the standard output. *)
Inductive written : Type :=
  | Text (s : string)
  | Json (j : json).
Definition artifact : Type := option string * written.

(** [Exit1] is [sys.exit(1)]; otherwise the files written, in their order *)
Inductive result : Type :=
  | Exit1
  | Done (artifacts : list artifact).

Section main.
(** The file system, the readers of CSV and JSON, the two columns pandas reads of a trace *)
Context (exists_ : string -> bool) (csv_rows : string -> outcome (list (list string)))
  (json_load : string -> outcome json) (trace_rows : string -> outcome (list (Z * Z)))
  (read_text : string -> outcome string) (repr : json -> string).

(** The GEMMs and the slots, or [None] after a message about the inputs *)
Definition load_inputs (args : Args) : outcome (option (list GemmCall * list StepSlot)) :=
  if autograd_mode args then
    match given (autograd_log args), given (trace args) with
    | Some autograd_path, Some trace_path =>
        if negb (exists_ autograd_path) || negb (exists_ trace_path) then Ret None
        else
          entries ← json_load autograd_path; gemms ← parse_autograd_log entries;
          rows ← trace_rows trace_path; Ret (Some (gemms, parse_trace_boundaries rows))
    | _, _ => Ret None
    end
  else
    match given (gemm_log args), given (step_log args) with
    | Some gemm_path, Some step_path =>
        if negb (exists_ gemm_path) || negb (exists_ step_path) then Ret None
        else
          table ← csv_rows gemm_path; gemms ← parse_gemm_log table;
          table ← csv_rows step_path; slots ← parse_step_boundaries table;
          _ ← (match given (trace args) with
               | Some path => if exists_ path then text ← read_text path; Ret (parse_trace text)
                              else Ret []
               | None => Ret []
               end);
          Ret (Some (gemms, slots))
    | _, _ => Ret None
    end.

Definition main (args : Args) : outcome result :=
  inputs ← load_inputs args;
  match inputs with
  | None => Ret Exit1
  | Some (gemms, slots) =>
      if (length slots <? 2)%nat
      then Ret (Done [(None, Text ("No violations (insufficient steps)." +:+ nl))])
      else
        let summaries :=
          detect_violations slots (assign_gemms_to_steps gemms slots) (max_sm_count args) in
        let violation_time := compute_violation_time_ns summaries slots in
        report ← write_report repr gemms slots summaries violation_time (max_sm_count args)
                   (top_n args) (verbose args);
        json ← (match given (output_json args) with
                | None => Ret []
                | Some path => j ← write_json_summary gemms slots summaries violation_time;
                               Ret [(Some path, Json j)]
                end);
        Ret (Done ((given (output args), Text report)
                   :: match given (output_csv args) with
                      | None => []
                      | Some path => [(Some path, Text (write_csv_summary summaries))]
                      end ++ json))
  end.
End main.

(** ** Violation time is a measure *)

Definition within (i : interval) (t : Z) : bool := (i.1 <=? t) && (t <? i.2).
Definition covered (l : list interval) (t : Z) : bool := existsb (fun i => within i t) l.

Lemma covered_cons i l t : covered (i :: l) t = within i t || covered l t.
Proof. done. Qed.

(** The instants of [[lo, hi)] with the property [p] *)
Definition measure (p : Z -> bool) (lo hi : Z) : Z :=
  Z.of_nat (length (filter (fun t => p t = true) (seqZ lo (hi - lo)))).

Lemma covered_spec l t : covered l t = true <-> exists i, i ∈ l /\ i.1 <= t < i.2.
Proof.
  unfold covered, within. rewrite existsb_exists. setoid_rewrite <- list_elem_of_In.
  split; intros (i & Hi & Ht); exists i; (split; [done|]); lia.
Qed.

Lemma measure_ext p q lo hi : (forall t, lo <= t < hi -> p t = q t) -> measure p lo hi = measure q lo hi.
Proof.
  intros H. unfold measure. do 2 f_equal. apply filter_agree.
  intros t Ht%elem_of_seqZ. rewrite H by lia. done.
Qed.

Lemma measure_app p lo mid hi : lo <= mid <= hi -> measure p lo hi = measure p lo mid + measure p mid hi.
Proof.
  intros H. unfold measure. replace (hi - lo) with ((mid - lo) + (hi - mid)) by lia.
  rewrite seqZ_app by lia. rewrite filter_app, length_app.
  replace (lo + (mid - lo)) with mid by lia. lia.
Qed.

Lemma measure_true lo hi : lo <= hi -> measure (fun _ => true) lo hi = hi - lo.
Proof.
  intros H. unfold measure. rewrite filter_all by by apply Forall_true.
  rewrite length_seqZ. lia.
Qed.

(** Adding an interval that meets nothing adds its length. *)
Lemma measure_cons i l lo hi : lo <= i.1 <= i.2 -> i.2 <= hi ->
  (forall t, i.1 <= t < i.2 -> covered l t = false) ->
  measure (covered (i :: l)) lo hi = (i.2 - i.1) + measure (covered l) lo hi.
Proof.
  intros H1 H2 Hl.
  rewrite !(measure_app _ lo i.1 hi), !(measure_app _ i.1 i.2 hi) by lia.
  assert (Hout : forall t, t < i.1 \/ i.2 <= t -> covered (i :: l) t = covered l t).
  { intros t Ht. rewrite covered_cons. unfold within.
    replace ((i.1 <=? t) && (t <? i.2)) with false by lia. done. }
  rewrite (measure_ext (covered (i :: l)) (covered l) lo i.1) by (intros; apply Hout; lia).
  rewrite (measure_ext (covered (i :: l)) (covered l) i.2 hi) by (intros; apply Hout; lia).
  rewrite (measure_ext (covered (i :: l)) (fun _ => true) i.1 i.2).
  2: { intros t Ht. rewrite covered_cons. unfold within.
       replace ((i.1 <=? t) && (t <? i.2)) with true by lia. done. }
  rewrite (measure_ext (covered l) (fun _ => false) i.1 i.2) by done.
  rewrite measure_true by lia.
  assert (measure (fun _ => false) i.1 i.2 = 0) as ->; [|lia].
  unfold measure. rewrite filter_false; [done|]. by apply Forall_true.
Qed.

(** Merged intervals: not empty, within bounds, in order and apart *)
Inductive apart (hi : Z) : Z -> list interval -> Prop :=
  | apart_nil lo : apart hi lo []
  | apart_cons lo i l : lo <= i.1 <= i.2 -> i.2 <= hi -> apart hi i.2 l -> apart hi lo (i :: l).

Lemma apart_before hi lo l t : apart hi lo l -> t < lo -> covered l t = false.
Proof.
  induction 1 as [|lo i l Hi _ _ IH]; intros Ht; [done|].
  rewrite covered_cons, IH by lia. unfold within. lia.
Qed.

Lemma measure_apart hi lo0 lo l : lo0 <= lo -> apart hi lo l ->
  measure (covered l) lo0 hi = sum_list (map (fun i => i.2 - i.1) l).
Proof.
  intros Hlo H. revert lo0 Hlo. induction H as [lo|lo i l Hi Hhi Hl IH]; intros lo0 Hlo.
  - unfold measure. rewrite filter_false; [done|]. by apply Forall_true.
  - cbn [map]. rewrite sum_list_cons, measure_cons; [|lia|done|].
    + rewrite (IH lo0) by lia. done.
    + intros t Ht. apply (apart_before hi i.2); [done|lia].
Qed.

Definition bounded (lo hi : Z) (i : interval) : Prop := lo <= i.1 /\ i.1 <= i.2 /\ i.2 <= hi.

Lemma merge_from_spec hi rest : forall last lo,
  bounded lo hi last -> Forall (bounded last.1 hi) rest ->
  StronglySorted (fun x y => interval_leb x y = true) rest ->
  apart hi lo (merge_from last rest)
  /\ forall t, covered (merge_from last rest) t = covered (last :: rest) t.
Proof.
  induction rest as [|[s e] rest IH]; intros last lo [H1 [H2 H3]] Hall Hs; cbn [merge_from].
  - split; [|done]. constructor; [lia|lia|constructor].
  - apply Forall_cons in Hall as [[Ha [Hb Hc]] Hall]. cbn [fst snd] in *.
    apply StronglySorted_inv in Hs as [Hs Hle].
    assert (Hnext : Forall (bounded s hi) rest).
    { apply Forall_forall. intros j Hj. rewrite Forall_forall in Hle, Hall.
      specialize (Hle j Hj). specialize (Hall j Hj). unfold interval_leb, bounded in *. cbn [fst snd] in *. lia. }
    destruct (Z.leb_spec s last.2) as [Hcase|Hcase].
    + destruct (IH (last.1, Z.max last.2 e) lo) as [Hap Hcov]; [unfold bounded; cbn; lia| |done|].
      { eapply Forall_impl; [exact Hall|]. done. }
      split; [done|]. intros t. rewrite Hcov, !covered_cons. unfold within. cbn [fst snd].
      destruct (covered rest t); lia.
    + destruct (IH (s, e) last.2) as [Hap Hcov]; [unfold bounded; cbn; lia|done|done|].
      split; [constructor; [lia|lia|done]|].
      intros t. rewrite covered_cons, Hcov. done.
Qed.

Lemma covered_perm l l' t : l ≡ₚ l' -> covered l t = covered l' t.
Proof. intros H. apply eq_true_iff_eq. rewrite !covered_spec. by setoid_rewrite H. Qed.

Lemma merge_measure lo hi l : Forall (bounded lo hi) l ->
  sum_list (map (fun i => i.2 - i.1) (merge_intervals l)) = measure (covered l) lo hi.
Proof.
  intros Hl. unfold merge_intervals.
  assert (Hp : sort_by interval_leb l ≡ₚ l) by apply sort_by_perm.
  assert (Hs : StronglySorted (fun x y => interval_leb x y = true) (sort_by interval_leb l)).
  { apply sort_by_sorted; unfold interval_leb; [lia|].
    intros x y z. lia. }
  rewrite (measure_ext _ (covered (sort_by interval_leb l))) by (intros; apply covered_perm; done).
  rewrite <- Hp in Hl. revert Hs Hl. generalize (sort_by interval_leb l). clear Hp.
  intros [|i rest] Hs Hl.
  - unfold measure. rewrite filter_false; [done|]. by apply Forall_true.
  - apply Forall_cons in Hl as [[H1 [H2 H3]] Hl]. apply StronglySorted_inv in Hs as [Hs Hle].
    destruct (merge_from_spec hi rest i lo) as [Hap Hcov]; [done| |done|].
    + apply Forall_forall. intros j Hj. rewrite Forall_forall in Hle, Hl.
      specialize (Hle j Hj). specialize (Hl j Hj). unfold interval_leb, bounded in *. lia.
    + rewrite <- (measure_apart hi lo lo _ ltac:(lia) Hap). apply measure_ext. intros. by rewrite Hcov.
Qed.

(** Some violation is going on in the slot after its boundary. *)
Definition violating_at (summaries : list StepViolationSummary) (slots : list StepSlot) (t : Z) : bool :=
  existsb (fun s => match dict_get (next_step s) (slot_map slots) with
                    | Some nxt => existsb (fun v => (s_start_ns nxt <=? t) && (t <? g_end_ns (v_gemm v))
                                                    && (t <? s_end_ns nxt)) (violations s)
                    | None => false
                    end) summaries.

Lemma slot_map_elem slots k s : dict_get k (slot_map slots) = Some s -> s ∈ slots.
Proof.
  intros H. assert (Hall : dict_all (fun s => s ∈ slots) (slot_map slots)).
  { unfold slot_map, dict_of_pairs. apply (foldl_invariant (dict_all (fun s => s ∈ slots))).
    - apply dict_all_nil.
    - intros d [k' s'] Hin Hd. apply dict_all_set; [done|].
      apply list_elem_of_fmap in Hin as (s'' & [= -> ->] & Hs). done. }
  exact (dict_all_get _ _ _ _ Hall H).
Qed.

Lemma intervals_of_bounded slots lo hi s :
  Forall (fun s => lo <= s_start_ns s /\ s_end_ns s <= hi) slots ->
  Forall (bounded lo hi) (intervals_of slots s).
Proof.
  intros Hall. unfold intervals_of. destruct (dict_get _ _) as [nxt|] eqn:Hn; [|constructor].
  apply slot_map_elem in Hn. rewrite Forall_forall in Hall. specialize (Hall _ Hn).
  apply Forall_forall. intros i [Hi (v & -> & _)%list_elem_of_fmap]%list_elem_of_filter.
  unfold bounded. cbn [fst snd] in *. lia.
Qed.

Lemma intervals_of_covered slots summaries t :
  covered (concat (map (intervals_of slots) summaries)) t = violating_at summaries slots t.
Proof.
  apply eq_true_iff_eq. rewrite covered_spec. unfold violating_at. rewrite existsb_exists.
  setoid_rewrite list_elem_of_In. setoid_rewrite in_concat. split.
  - intros (i & (l & (s & <- & Hs)%in_map_iff & Hi) & Ht). exists s. split; [done|].
    unfold intervals_of in Hi. destruct (dict_get _ _) as [nxt|]; [|done].
    apply list_elem_of_In, list_elem_of_filter in Hi as [_ (v & -> & Hv)%list_elem_of_fmap].
    apply existsb_exists. exists v. split; [by apply list_elem_of_In|]. cbn [fst snd] in Ht. lia.
  - intros (s & Hs & H). destruct (dict_get _ _) as [nxt|] eqn:Hn; [|done].
    apply existsb_exists in H as (v & Hv & Ht).
    exists (s_start_ns nxt, Z.min (g_end_ns (v_gemm v)) (s_end_ns nxt)). cbn [fst snd].
    split; [|lia]. exists (intervals_of slots s). split; [by apply in_map|].
    unfold intervals_of. rewrite Hn. apply list_elem_of_In, list_elem_of_filter.
    split; [cbn [fst snd]; lia|]. apply list_elem_of_fmap. exists v. split; [done|by apply list_elem_of_In].
Qed.

Lemma measure_bound p lo hi : 0 <= measure p lo hi <= Z.max 0 (hi - lo).
Proof.
  unfold measure. pose proof (length_filter (fun t => p t = true) (seqZ lo (hi - lo))) as H.
  rewrite length_seqZ in H. lia.
Qed.

(** C23: the time the script reports as violating is exactly the number of nanoseconds, between
    the start of the first slot and the end of the last one, at which a GEMM that violated a
    boundary is still running in the slot after it: overlapping violations count once and none
    is lost.  So it is never negative and never more than the wall time. *)
Theorem violation_time_measure summaries slots first final :
  slots !! 0%nat = Some first -> last slots = Some final ->
  Forall (fun s => s_start_ns first <= s_start_ns s /\ s_end_ns s <= s_end_ns final) slots ->
  compute_violation_time_ns summaries slots
    = measure (violating_at summaries slots) (s_start_ns first) (s_end_ns final)
  /\ 0 <= compute_violation_time_ns summaries slots <= Z.max 0 (total_wall_ns slots).
Proof.
  intros Hf Hl Hall.
  assert (compute_violation_time_ns summaries slots
    = measure (violating_at summaries slots) (s_start_ns first) (s_end_ns final)) as ->.
  { unfold compute_violation_time_ns.
    rewrite (merge_measure (s_start_ns first) (s_end_ns final)).
    - apply measure_ext. intros t _. apply intervals_of_covered.
    - apply Forall_concat, Forall_map, Forall_true. intros s. by apply intervals_of_bounded. }
  split; [done|].
  assert (total_wall_ns slots = s_end_ns final - s_start_ns first) as ->; [|apply measure_bound].
  destruct slots as [|s rest]; [done|]. injection Hf as ->. unfold total_wall_ns. by rewrite Hl.
Qed.

(** ** Binary search *)

Definition sorted_starts (a : list Z) : Prop := forall i j x y,
  (i <= j)%nat -> a !! i = Some x -> a !! j = Some y -> x <= y.

Lemma bisect_loop_spec a x (Ha : sorted_starts a) fuel : forall lo hi,
  0 <= lo <= hi -> hi <= Z.of_nat (length a) -> hi - lo <= Z.of_nat fuel ->
  (forall i y, a !! i = Some y -> Z.of_nat i < lo -> y <= x) ->
  (forall i y, a !! i = Some y -> hi <= Z.of_nat i -> x < y) ->
  let r := bisect_loop fuel a x lo hi in
  0 <= r <= Z.of_nat (length a)
  /\ (forall i y, a !! i = Some y -> Z.of_nat i < r <-> y <= x).
Proof.
  induction fuel as [|fuel IH]; intros lo hi Hlo Hhi Hf Hleft Hright; cbn [bisect_loop].
  - split; [lia|]. intros i y Hi. split; [by apply Hleft|].
    intros Hy. specialize (Hright i y Hi). lia.
  - destruct (Z.ltb_spec lo hi) as [Hlt|Hge].
    2: { split; [lia|]. intros i y Hi. split; [by apply Hleft|].
         intros Hy. specialize (Hright i y Hi). lia. }
    assert (Hmid : lo <= (lo + hi) / 2 < hi).
    { split; [apply Z.div_le_lower_bound; lia|apply Z.div_lt_upper_bound; lia]. }
    destruct (lookup_lt_is_Some_2 a (Z.to_nat ((lo + hi) / 2))) as [y Hy]; [lia|]. rewrite Hy.
    destruct (Z.ltb_spec x y) as [Hxy|Hxy]; apply IH; try lia; try done.
    + intros i z Hi Hle. specialize (Ha (Z.to_nat ((lo + hi) / 2)) i y z ltac:(lia) Hy Hi). lia.
    + intros i z Hi Hle. specialize (Ha i (Z.to_nat ((lo + hi) / 2)) z y ltac:(lia) Hi Hy). lia.
Qed.

(** The number of elements that are at most [x]: the fuel is enough. *)
Lemma bisect_right_spec a x : sorted_starts a ->
  0 <= bisect_right a x <= Z.of_nat (length a)
  /\ (forall i y, a !! i = Some y -> Z.of_nat i < bisect_right a x <-> y <= x).
Proof.
  intros Ha. apply bisect_loop_spec; [done|lia|lia|lia|lia|].
  intros i y Hi%lookup_lt_Some Hle. lia.
Qed.

(** The GEMMs that start in the slot [i] *)
Definition starts_in (starts : list Z) (i : nat) (g : GemmCall) : bool :=
  match starts !! i with
  | Some s => (s <=? g_start_ns g)
              && match starts !! S i with Some next => g_start_ns g <? next | None => true end
  | None => false
  end.

Lemma bisect_slot starts i g : sorted_starts starts -> (i < length starts)%nat ->
  starts_in starts i g = (bisect_right starts (g_start_ns g) - 1 =? Z.of_nat i).
Proof.
  intros Hs Hi. destruct (bisect_right_spec starts (g_start_ns g) Hs) as [Hr Hb].
  unfold starts_in. destruct (lookup_lt_is_Some_2 _ _ Hi) as [s Hsi]. rewrite Hsi.
  pose proof (Hb _ _ Hsi) as H1. destruct (starts !! S i) as [next|] eqn:Hn.
  - pose proof (Hb _ _ Hn). lia.
  - apply lookup_ge_None in Hn. lia.
Qed.

Lemma assign_fold starts gemms : forall result, sorted_starts starts -> length result = length starts ->
  foldl (assign_step starts) result gemms
  = imap (fun i l => l ++ filter (fun g => starts_in starts i g = true) gemms) result.
Proof.
  induction gemms as [|g gemms IH]; intros result Hs Hlen; cbn [foldl].
  - apply list_eq. intros i. rewrite list_lookup_imap. destruct (result !! i); cbn; [|done].
    by rewrite app_nil_r.
  - assert (length (assign_step starts result g) = length starts) as Hlen'.
    { unfold assign_step. destruct (_ && _); [|done]. by rewrite length_alter. }
    rewrite IH by done. apply list_eq. intros i. rewrite !list_lookup_imap.
    destruct (result !! i) as [l|] eqn:Hl.
    2: { unfold assign_step. destruct (_ && _); [|by rewrite Hl].
         rewrite list_lookup_alter. case_decide; subst; by rewrite Hl. }
    pose proof (lookup_lt_Some _ _ _ Hl) as Hi. rewrite Hlen in Hi.
    cbn [fmap option_fmap option_map]. rewrite filter_cons, (bisect_slot starts i g Hs Hi).
    unfold assign_step. set (idx := bisect_right starts (g_start_ns g) - 1).
    destruct (Z.eqb_spec idx (Z.of_nat i)) as [He|He]; (destruct decide; [try done|try done]).
    + replace ((0 <=? idx) && (idx <? Z.of_nat (length starts))) with true by lia.
      replace (Z.to_nat idx) with i by lia. rewrite list_lookup_alter_eq, Hl.
      cbn [fmap option_fmap option_map]. by rewrite <- app_assoc.
    + destruct (_ && _) eqn:Hb; [|by rewrite Hl].
      rewrite list_lookup_alter_ne by lia. by rewrite Hl.
Qed.

Lemma assign_lookup gemms slots i : sorted_starts (map s_start_ns slots) -> (i < length slots)%nat ->
  assign_gemms_to_steps gemms slots !! i
  = Some (filter (fun g => starts_in (map s_start_ns slots) i g = true) gemms).
Proof.
  intros Hs Hi. unfold assign_gemms_to_steps.
  rewrite assign_fold by (done || by rewrite length_replicate, length_map).
  rewrite list_lookup_imap, lookup_replicate_2 by done. done.
Qed.

(** ** Violations, boundary by boundary *)

(** What a boundary reports: the GEMMs that start in its slot and end past it *)
Definition spills (cur nxt : StepSlot) (g : GemmCall) : bool :=
  (s_start_ns cur <=? g_start_ns g) && (g_start_ns g <? s_start_ns nxt)
  && (s_start_ns nxt <? g_end_ns g).

Definition reference_boundary (max_sm : Z) (gemms : list GemmCall) (b : StepSlot * StepSlot) :
    option StepViolationSummary :=
  let '(cur, nxt) := b in
  let gs := filter (fun g => spills cur nxt g = true) gemms in
  let over := map (fun g => g_end_ns g - s_start_ns nxt) gs in
  if (max_sm <? s_sm_count cur + s_sm_count nxt) && (0 <? count gs)
  then Some (mk_step_summary (s_step cur) (s_step nxt) (s_sm_count cur) (s_sm_count nxt)
               (s_sm_count cur + s_sm_count nxt) (count gs) (foldl Z.max 0 over) (sum_list over)
               (map (fun g => mk_violation (s_step cur) (s_step nxt) (s_sm_count cur)
                                (s_sm_count nxt) g (g_end_ns g - s_start_ns nxt)) gs))
  else None.

Lemma add_violation_fold cur nxt gemms : forall s,
  let gs := filter (fun g => s_start_ns nxt <? g_end_ns g = true) gemms in
  let over := map (fun g => g_end_ns g - s_start_ns nxt) gs in
  foldl (add_violation cur nxt) s gemms
  = mk_step_summary (step s) (next_step s) (sm_this s) (sm_next s) (sm_total s)
      (num_violations s + count gs) (foldl Z.max (max_overshoot_ns s) over)
      (total_overshoot_ns s + sum_list over)
      (violations s ++ map (fun g => mk_violation (s_step cur) (s_step nxt) (s_sm_count cur)
                                       (s_sm_count nxt) g (g_end_ns g - s_start_ns nxt)) gs).
Proof.
  induction gemms as [|g gemms IH]; intros s; cbn [foldl].
  - cbn. rewrite app_nil_r, !Z.add_0_r. by destruct s.
  - rewrite IH, filter_cons. unfold add_violation.
    destruct (Z.ltb_spec (s_start_ns nxt) (g_end_ns g)) as [Hlt|Hge]; (destruct decide; [try done|try done]).
    cbn [map foldl step next_step sm_this sm_next sm_total num_violations max_overshoot_ns
         total_overshoot_ns violations]. rewrite sum_list_cons, <- app_assoc. unfold count.
    cbn [length]. f_equal; lia.
Qed.

Lemma boundary_reference max_sm gemms slots i cur nxt : sorted_starts (map s_start_ns slots) ->
  slots !! i = Some cur -> slots !! S i = Some nxt ->
  let s := boundary_summary cur nxt (default [] (assign_gemms_to_steps gemms slots !! i)) in
  reference_boundary max_sm gemms (cur, nxt)
  = if s_sm_count cur + s_sm_count nxt <=? max_sm then None
    else if 0 <? num_violations s then Some s else None.
Proof.
  intros Hs Hc Hn. cbv zeta. rewrite assign_lookup by (done || by eapply lookup_lt_Some).
  unfold boundary_summary. cbn [default from_option id]. rewrite add_violation_fold, list_filter_filter.
  rewrite (filter_agree _ (fun g => spills cur nxt g = true)).
  2: { intros g _. unfold starts_in, spills. rewrite !list_lookup_fmap, Hc, Hn. cbn. lia. }
  unfold reference_boundary. cbn [step next_step sm_this sm_next sm_total num_violations
    max_overshoot_ns total_overshoot_ns violations app]. rewrite !Z.add_0_l.
  rewrite Z.leb_antisym. by destruct (max_sm <? _).
Qed.

Lemma detect_reference max_sm gemms slots k : sorted_starts (map s_start_ns slots) ->
  detect_from max_sm (assign_gemms_to_steps gemms slots) k (drop k slots)
  = omap (reference_boundary max_sm gemms) (zip (drop k slots) (tail (drop k slots))).
Proof.
  intros Hs. remember (drop k slots) as rest eqn:Hrest. revert k Hrest.
  induction rest as [|cur rest IH]; intros k Hrest; [done|].
  destruct rest as [|nxt rest]; [done|].
  assert (Hc : slots !! k = Some cur) by (rewrite <- (Nat.add_0_r k), <- lookup_drop, <- Hrest; done).
  assert (Hn : slots !! S k = Some nxt) by (rewrite <- Nat.add_1_r, <- lookup_drop, <- Hrest; done).
  change (zip (cur :: nxt :: rest) (tail (cur :: nxt :: rest)))
    with ((cur, nxt) :: zip (nxt :: rest) (tail (nxt :: rest))).
  cbn [omap list_omap]. rewrite (boundary_reference max_sm gemms slots k cur nxt Hs Hc Hn).
  rewrite <- (IH (S k)) by (rewrite <- Nat.add_1_r, <- drop_drop, <- Hrest; done).
  cbn [detect_from]. destruct (_ <=? max_sm); [done|]. by destruct (0 <? _).
Qed.

Lemma sorted_slots_starts slots : StronglySorted (fun x y => by_slot_start x y = true) slots ->
  sorted_starts (map s_start_ns slots).
Proof.
  induction 1 as [|s slots _ IH Hle]; intros i j x y Hij Hx Hy; [done|].
  destruct j as [|j]; [replace i with 0%nat in Hx by lia; rewrite Hx in Hy; by injection Hy as ->|].
  destruct i as [|i]; [|by apply (IH i j); [lia|..]].
  injection Hx as <-. change (map s_start_ns slots !! j = Some y) in Hy.
  apply list_elem_of_lookup_2 in Hy.
  apply list_elem_of_fmap in Hy as (s' & -> & Hin). rewrite Forall_forall in Hle.
  specialize (Hle s' Hin). unfold by_slot_start in Hle. lia.
Qed.

Lemma parsed_slots_sorted table slots : parse_step_boundaries table = Ret slots ->
  sorted_starts (map s_start_ns slots).
Proof.
  unfold parse_step_boundaries. destruct (mapO _ _) as [l|e]; [|done]. intros [= <-].
  apply sorted_slots_starts, sort_by_sorted; unfold by_slot_start; [lia|]. intros x y z. lia.
Qed.

(** C22: of the slots the script reads and any GEMMs, it reports exactly the violations: for two
    slots in a row with more than [max_sm] SMs together, the GEMMs that start in the first one,
    by binary search, and end after the second one starts, with their number, their largest
    overshoot and the sum of the overshoots; and no boundary without such a GEMM.  Every GEMM
    counts for one boundary at most. *)
Theorem violations_exact table slots gemms max_sm : parse_step_boundaries table = Ret slots ->
  detect_violations slots (assign_gemms_to_steps gemms slots) max_sm
  = omap (reference_boundary max_sm gemms) (zip slots (tail slots)).
Proof.
  intros Hs%parsed_slots_sorted. unfold detect_violations.
  pose proof (detect_reference max_sm gemms slots 0 Hs) as H. by rewrite drop_0 in H.
Qed.

(** ** A run *)

(** Three steps of 30 SMs; a GEMM of the first runs 500 ns into the second, and two of the second
    run into the third, the larger for 2 us, past its end. *)
Definition demo_steps : list (list string) :=
  [["step"; "start_ns"; "end_ns"; "sm_count"]; ["0"; "0"; "1000"; "30"];
   ["2"; "2000"; "3000"; "20"]; ["1"; "1000"; "2000"; "30"]]%string.
Definition demo_gemm_rows : list (list string) :=
  [["function_name"; "start_ns"; "end_ns"; "duration_ns"; "m"; "n"; "k"];
   ["sgemm"; "1100"; "2500"; "1400"; "1"; "2"; "3"]; ["sgemm"; "1200"; "4000"; "2800"; "1"; "2"; "3"];
   ["sgemm"; "500"; "1500"; "1000"; "4"; "5"; "6"]; ["broken"; "x"; "1500"; "1000"; "4"; "5"; "6"];
   []; ["sgemm"; "0"; "900"; "900"; "4"; "5"; "6"]]%string.
Definition demo_slots : list StepSlot :=
  [mk_slot 0 0 1000 30; mk_slot 1 1000 2000 30; mk_slot 2 2000 3000 20].
Definition demo_gemm (start stop : Z) (m n k : Z) : GemmCall :=
  mk_gemm (JStr "sgemm") start stop (stop - start) m n k.
Definition demo_gemms : list GemmCall :=
  [demo_gemm 0 900 4 5 6; demo_gemm 500 1500 4 5 6; demo_gemm 1100 2500 1 2 3; demo_gemm 1200 4000 1 2 3].
Definition demo_summaries : list StepViolationSummary :=
  detect_violations demo_slots (assign_gemms_to_steps demo_gemms demo_slots) 48.

Example demo_parsed : parse_step_boundaries demo_steps = Ret demo_slots
  /\ parse_gemm_log demo_gemm_rows = Ret demo_gemms.
Proof. split; vm_compute; reflexivity. Qed.

Example demo_time : map (fun s => (step s, num_violations s, max_overshoot_ns s)) demo_summaries
  = [(0, 1, 500); (1, 2, 2000)] /\ compute_violation_time_ns demo_summaries demo_slots = 1500.
Proof. split; vm_compute; reflexivity. Qed.

Lemma violations_exact_witness :
  demo_summaries = omap (reference_boundary 48 demo_gemms) (zip demo_slots (tail demo_slots)).
Proof. exact (violations_exact demo_steps demo_slots demo_gemms 48 (proj1 demo_parsed)). Defined.

Lemma violation_time_measure_witness :
  compute_violation_time_ns demo_summaries demo_slots
    = measure (violating_at demo_summaries demo_slots) 0 3000
  /\ 0 <= compute_violation_time_ns demo_summaries demo_slots <= 3000.
Proof.
  apply (violation_time_measure demo_summaries demo_slots (mk_slot 0 0 1000 30) (mk_slot 2 2000 3000 20));
    [done|done|]. repeat constructor; discriminate.
Defined.
