(* ===== verification/SwapTiming.v ===== *)
(** * Validation of swap timings ([scripts/cross_validate_swap_timing.py])

    The cost of switching the partition is measured twice: by a benchmark of the compiled
    runtime alone, whose report is read from a file or from a run of the benchmark, and
    inline, by replaying a trace and asking the runtime after every activation.  The two are
    compared.  The runtime, the clock and the benchmark are parameters; the runtime and the
    clock may answer anything that depends on the calls made so far. *)

From S2P Require Import Prelude PyDict PyStr PyFloat FloatOrder PyJson BatchRuntime Violations.

(** ** Summaries *)

(** [math.ceil] of a finite float *)
Definition ceil_of_float (x : float) : outcome Z :=
  t ← int_of_float x; Ret (if flt (f_of_Z t) x then t + 1 else t).
(** [math.floor] *)
Definition floor_of_float (x : float) : outcome Z :=
  t ← int_of_float x; Ret (if flt x (f_of_Z t) then t - 1 else t).

Definition percentile (values : list float) (q : float) : outcome float :=
  match values with
  | [] => Ret fzero
  | _ =>
      let ordered := sort_by fle values in
      n ← float_of_int (Z.of_nat (length ordered) - 1);
      let rank := fmul n q in
      lower ← floor_of_float rank; upper ← ceil_of_float rank;
      if lower =? upper then py_index ordered lower
      else
        l ← float_of_int lower; let weight := fsub rank l in
        x ← py_index ordered lower; y ← py_index ordered upper;
        Ret (fadd (fmul x (fsub (f_of_Z 1) weight)) (fmul y weight))
  end.

Record OverheadSummary : Type := mk_summary {
  sum_count : Z;
  total_overhead_us : float;
  avg_overhead_us : float;
  p50_overhead_us : float;
  p99_overhead_us : float;
  min_overhead_us : float;
  max_overhead_us : float;
}.

Definition q50 : float := f_lit 50 2.
Definition q99 : float := f_lit 99 2.

Definition summarize_overhead_us (values_us : list float) : outcome OverheadSummary :=
  match values_us with
  | [] => Ret (mk_summary 0 fzero fzero fzero fzero fzero fzero)
  | first :: rest =>
      let total := py_sum values_us in
      n ← float_of_int (Z.of_nat (length values_us)); avg ← fdiv total n;
      p50 ← percentile values_us q50; p99 ← percentile values_us q99;
      Ret (mk_summary (Z.of_nat (length values_us)) total avg p50 p99
             (foldl fmin first rest) (foldl fmax first rest))
  end.

Definition summary_json (s : OverheadSummary) : json :=
  JObj [("count"%string, JInt (sum_count s)); ("total_overhead_us"%string, JFloat (total_overhead_us s));
        ("avg_overhead_us"%string, JFloat (avg_overhead_us s));
        ("p50_overhead_us"%string, JFloat (p50_overhead_us s));
        ("p99_overhead_us"%string, JFloat (p99_overhead_us s));
        ("min_overhead_us"%string, JFloat (min_overhead_us s));
        ("max_overhead_us"%string, JFloat (max_overhead_us s))].

(** ** Inputs *)

(** The rows of the trace up to the limit; rows without the field are passed over. *)
Definition load_sm_counts (table : list (list string)) (max_rows : Z) : outcome (list Z) :=
  let raw := omap (fun row => mjoin (dict_get "sm_count"%string row))
               (take (Z.to_nat max_rows) (dict_rows table)) in
  mapO (fun s => of_option (ValueError "invalid literal for int()") (int_of_str s)) raw.

Definition as_float (raw : json) (dflt : float) : outcome float :=
  match raw with
  | JBool b => Ret (f_of_Z (bool_int b))
  | JInt z => float_of_int z
  | JFloat x => Ret x
  | JStr s => Ret (default dflt (float_of_str s))
  | _ => Ret dflt
  end.

Fixpoint find_first_numeric (row : obj) (keys : list string) : outcome float :=
  match keys with
  | [] => Ret fzero
  | key :: keys => match dict_get key row with
                   | Some raw => as_float raw fzero
                   | None => find_first_numeric row keys
                   end
  end.

(** A row of the benchmark itself, not of an aggregate of its repetitions *)
Definition named (row : obj) : option string :=
  match dict_get "name" row with
  | Some (JStr name) => if contains "ReplayViolation" name then Some name else None
  | _ => None
  end.
Definition is_aggregate (name : string) : bool :=
  let lowered := lower name in
  contains "_mean" lowered || contains "_median" lowered || contains "_stddev" lowered.
Definition is_run (row : obj) : bool :=
  match named row with Some name => negb (is_aggregate name) | None => false end.
Definition is_named (row : obj) : bool :=
  match named row with Some _ => true | None => false end.

Definition first_of (p : obj -> bool) (rows : list obj) : option obj :=
  head (filter (fun row => p row = true) rows).

Definition replay_row (benches : list obj) : option obj :=
  match first_of is_run benches with
  | Some row => Some row
  | None => first_of is_named benches
  end.

Record ReplayMetrics : Type := mk_replay {
  trace_entries : Z;
  num_violations : Z;
  violation_rate : float;
  actual_ctx_switches : Z;
  switch_p50_ns : float;
  switch_p99_ns : float;
  switch_min_ns : float;
  switch_max_ns : float;
  switch_p50_us : float;
  switch_p99_us : float;
}.

Definition no_metrics : ReplayMetrics :=
  mk_replay 0 0 fzero 0 fzero fzero fzero fzero fzero fzero.

Definition metrics_of_row (replay : obj) : outcome ReplayMetrics :=
  let number keys := find_first_numeric replay keys in
  p50 ← number ["switch_p50_ns"; "forced_switch_p50_ns"]%string;
  p99 ← number ["switch_p99_ns"; "forced_switch_p99_ns"]%string;
  least ← number ["switch_min_ns"; "forced_switch_min_ns"]%string;
  most ← number ["switch_max_ns"; "forced_switch_max_ns"]%string;
  entries ← number ["trace_entries"]%string; entries ← int_of_float entries;
  violations ← number ["violations"]%string; violations ← int_of_float violations;
  rate ← number ["violation_rate"]%string;
  switches ← number ["actual_ctx_switches"]%string; switches ← int_of_float switches;
  p50_us ← fdiv p50 (f_of_Z 1000); p99_us ← fdiv p99 (f_of_Z 1000);
  Ret (mk_replay entries violations rate switches p50 p99 least most p50_us p99_us).

(** [raw]: what [json.load] makes of the file *)
Definition parse_replay_violation_bench_json (path : string) (raw : json) : outcome ReplayMetrics :=
  match raw with
  | JObj d =>
      match dict_get_default "benchmarks"%string (JList []) d with
      | JList items =>
          match replay_row (dicts_of items) with
          | Some replay => metrics_of_row replay
          | None => Raise (ValueError ("ReplayViolation benchmark row not found in " +:+ path))
          end
      | _ => Raise (ValueError ("Invalid benchmark JSON: " +:+ path))
      end
  | _ => Raise (ValueError ("Invalid benchmark JSON: " +:+ path))
  end.

(** ** The isolated benchmark *)

(** [os.environ], [os.path.isfile], [os.access(path, os.X_OK)] *)
Record Files : Type := mk_files {
  getenv : string -> option string;
  isfile : string -> bool;
  executable : string -> bool;
  json_load : string -> outcome json;
}.

(** What [subprocess.run] returns, and what [json.load] makes of the report if it is there
    afterwards *)
Record BenchRun : Type := mk_run {
  returncode : Z;
  stderr : string;
  report : option (outcome json);
}.

Section bench.
Context (fs : Files).

Definition nonempty (o : option string) : list string :=
  match given o with Some s => [s] | None => [] end.

Definition resolve_benchmark_bin (explicit_path : option string) : option string :=
  let candidates := nonempty explicit_path ++ nonempty (getenv fs "BENCH_TRACE_SWITCH_BIN")
    ++ ["tests/cpp/build/bench_trace_switch"; "/app/tests/cpp/build/bench_trace_switch"]%string in
  head (filter (fun p => negb (is_empty p) && isfile fs p && executable fs p = true) candidates).

Definition discover_bench_json_path (label : string) (explicit_path : option string) : option string :=
  let candidates :=
    ["results/bench_trace_switch_" +:+ label +:+ ".json"; "results/trace_switch_" +:+ label +:+ ".json";
     "results/" +:+ label +:+ "_bench_trace_switch.json"; "results/" +:+ label +:+ "_trace_switch.json"]%string in
  head (filter (fun p => isfile fs p = true) (nonempty explicit_path ++ candidates)).

(** The record of a trace: its status, where it comes from, a warning, the metrics *)
Inductive status : Type := Ok | Warning | Missing.
Inductive source : Type :=
  | JsonFile (path : string)
  | BenchmarkRun (bin : string) (json_path : option string)
  | NoSource.

Record Isolated : Type := mk_isolated {
  label : string;
  trace_path : string;
  iso_status : status;
  iso_source : source;
  warning : option string;
  metrics : ReplayMetrics;
}.

#[export] Instance status_eq_dec : EqDecision status.
Proof. solve_decision. Defined.

(** The name of the temporary file, a run of the benchmark, and the text of an exception *)
Context (mktemp : string -> outcome string)
  (run : list string -> string -> Z -> outcome BenchRun) (str_exn : exn -> string).

Definition bench_command (bin out_json : string) : list string :=
  [bin; "--benchmark_filter=TraceSwitchBench/ReplayViolation"; "--benchmark_out_format=json";
   "--benchmark_out=" +:+ out_json]%string.

(** The body of the [try] statement around the run *)
Definition run_benchmark (l trace bin out_json : string) (timeout_s : Z) : outcome Isolated :=
  proc ← run (bench_command bin out_json) trace (Z.max 1 timeout_s);
  let failed := mk_isolated l trace Warning (BenchmarkRun bin None)
                  (Some ("Benchmark run failed: return_code=" +:+ str_of_Z (returncode proc)
                         +:+ ", stderr=" +:+ strip (stderr proc))) no_metrics in
  match report proc with
  | Some raw =>
      if returncode proc =? 0 then
        raw ← raw; parsed ← parse_replay_violation_bench_json out_json raw;
        Ret (mk_isolated l trace Ok (BenchmarkRun bin (Some out_json)) None parsed)
      else Ret failed
  | None => Ret failed
  end.

Definition collect_bench_isolated (l trace : string) (benchmark_bin bench_json_hint : option string)
    (timeout_s : Z) : outcome Isolated :=
  match discover_bench_json_path l bench_json_hint with
  | Some path =>
      match (raw ← json_load fs path; parse_replay_violation_bench_json path raw) with
      | Ret parsed => Ret (mk_isolated l trace Ok (JsonFile path) None parsed)
      | Raise e => Ret (mk_isolated l trace Warning (JsonFile path)
                          (Some ("Failed to parse benchmark JSON: " +:+ str_exn e)) no_metrics)
      end
  | None =>
      match benchmark_bin with
      | Some bin =>
          out_json ← mktemp ("bench_trace_switch_" +:+ l +:+ "_");
          match run_benchmark l trace bin out_json timeout_s with
          | Ret record => Ret record
          | Raise e => Ret (mk_isolated l trace Warning (BenchmarkRun bin None)
                              (Some ("Benchmark invocation error: " +:+ str_exn e)) no_metrics)
          end
      | None =>
          Ret (mk_isolated l trace Missing NoSource
                 (Some "bench_trace_switch ReplayViolation data unavailable; provide --benchmark-bin or --bench-json-*"%string)
                 no_metrics)
      end
  end.
End bench.

Definition status_text (s : status) : string :=
  match s with Ok => "ok" | Warning => "warning" | Missing => "missing" end.
Definition source_fields (s : source) : obj :=
  match s with
  | JsonFile path => [("source"%string, JStr "json_file"); ("benchmark_json_path"%string, JStr path)]
  | BenchmarkRun bin path =>
      [("source"%string, JStr "benchmark_run"); ("benchmark_bin"%string, JStr bin)]
      ++ match path with Some p => [("benchmark_json_path"%string, JStr p)] | None => [] end
  | NoSource => [("source"%string, JStr "none")]
  end.
Definition metrics_fields (m : ReplayMetrics) : obj :=
  [("trace_entries"%string, JInt (trace_entries m)); ("violations"%string, JInt (num_violations m));
   ("violation_rate"%string, JFloat (violation_rate m));
   ("actual_ctx_switches"%string, JInt (actual_ctx_switches m));
   ("switch_p50_ns"%string, JFloat (switch_p50_ns m)); ("switch_p99_ns"%string, JFloat (switch_p99_ns m));
   ("switch_min_ns"%string, JFloat (switch_min_ns m)); ("switch_max_ns"%string, JFloat (switch_max_ns m));
   ("switch_p50_us"%string, JFloat (switch_p50_us m)); ("switch_p99_us"%string, JFloat (switch_p99_us m))].
Definition isolated_json (r : Isolated) : json :=
  JObj ([("trace_label"%string, JStr (label r)); ("trace_path"%string, JStr (trace_path r));
         ("status"%string, JStr (status_text (iso_status r)))] ++ source_fields (iso_source r)
        ++ match warning r with Some w => [("warning"%string, JStr w)] | None => [] end
        ++ metrics_fields (metrics r)).

(** ** The inline measurement *)

(** A call of the runtime or of the clock *)
Inductive call : Type :=
  | Create
  | Clock
  | Activate (sm : Z)
  | Stats
  | Deactivate (prev : Z)
  | Close.
Definition history : Type := list call.

(** The answers, which may depend on everything that was called before: [swap_stats] answers with
    the fields [count] and [total_overhead_us]. *)
Record Host : Type := mk_host {
  create_at : history -> outcome unit;
  clock_at : history -> Z;
  activate_at : history -> Z -> outcome Z;
  stats_at : history -> outcome (Z * Z);
  deactivate_at : history -> Z -> outcome unit;
  close_at : history -> outcome unit;
}.

Record Inline : Type := mk_inline {
  replayed_rows : Z;
  cpp_samples_us : list float;
  python_samples_us : list float;
  fallback_rows : Z;
  fallback_switches : Z;
  fallback_total_proxy_us : float;
}.

Section inline.
Context (host : Host).

Definition ask {A} (c : call) (answer : history -> outcome A) : M history A :=
  fun h => (answer h, h ++ [c]).

Definition perf_counter_ns : M history Z := ask Clock (fun h => Ret (clock_at host h)).
Definition activate_sm_for_thread (sm : Z) : M history Z :=
  ask (Activate sm) (fun h => activate_at host h sm).
Definition swap_stats : M history (Z * Z) := ask Stats (stats_at host).
Definition deactivate_for_thread (prev : Z) : M history unit :=
  ask (Deactivate prev) (fun h => deactivate_at host h prev).
Definition close : M history unit := ask Close (close_at host).

(** The samples of one row: [activate_wall_us] and the statistics read after the activation *)
Definition add_samples (acc : Inline) (wall_us : float) (stats : Z * Z) : outcome Inline :=
  let cpp_count := Z.max stats.1 0 in
  total ← float_of_int stats.2; let cpp_total := fmax total fzero in
  let acc := mk_inline (replayed_rows acc) (cpp_samples_us acc) (python_samples_us acc ++ [wall_us])
               (fallback_rows acc) (fallback_switches acc) (fallback_total_proxy_us acc) in
  if 0 <? cpp_count then
    n ← float_of_int cpp_count; per_switch ← fdiv cpp_total n;
    if feqb cpp_total fzero && flt fzero wall_us then
      per_switch ← fdiv wall_us n;
      Ret (mk_inline (replayed_rows acc)
             (cpp_samples_us acc ++ replicate (Z.to_nat cpp_count) per_switch) (python_samples_us acc)
             (fallback_rows acc + 1) (fallback_switches acc + cpp_count)
             (fadd (fallback_total_proxy_us acc) wall_us))
    else
      Ret (mk_inline (replayed_rows acc)
             (cpp_samples_us acc ++ replicate (Z.to_nat cpp_count) per_switch) (python_samples_us acc)
             (fallback_rows acc) (fallback_switches acc) (fallback_total_proxy_us acc))
  else Ret acc.

Definition count_row (acc : Inline) : Inline :=
  mk_inline (replayed_rows acc + 1) (cpp_samples_us acc) (python_samples_us acc) (fallback_rows acc)
    (fallback_switches acc) (fallback_total_proxy_us acc).

Definition replay_row_of (total_sms sm : Z) (acc : Inline) : M history Inline :=
  let effective_sm := total_sms - sm in
  if effective_sm <=? 0 then mret acc
  else
    t0 ← perf_counter_ns; prev_sm ← activate_sm_for_thread effective_sm; t1 ← perf_counter_ns;
    wall ← lift (float_of_int (t1 - t0)); wall_us ← lift (fdiv wall (f_of_Z 1000));
    stats ← swap_stats; acc ← lift (add_samples (count_row acc) wall_us stats);
    deactivate_for_thread prev_sm;;
    mret acc.

Fixpoint replay_rows (total_sms : Z) (sm_counts : list Z) (acc : Inline) : M history Inline :=
  match sm_counts with
  | [] => mret acc
  | sm :: sm_counts => acc ← replay_row_of total_sms sm acc; replay_rows total_sms sm_counts acc
  end.

(** [table]: what opening and splitting the trace file gives *)
Definition measure_inline_trace (table : outcome (list (list string))) (steps total_sms : Z) :
    M history Inline :=
  ask Create (create_at host);;
  let max_rows := Z.max 1 steps * 100 in
  table ← lift table; sm_counts ← lift (load_sm_counts table max_rows);
  acc ← replay_rows total_sms sm_counts (mk_inline 0 [] [] 0 0 fzero);
  close;; mret acc.
End inline.

(** ** Cross-validation *)

Definition safe_ratio (num den : float) : outcome float :=
  if fle den fzero then Ret fzero else fdiv num den.

Definition within_factor (ratio factor : float) : outcome bool :=
  if fle ratio fzero || fle factor fzero then Ret false
  else inverse ← fdiv (f_of_Z 1) ratio; Ret (fle (fmax ratio inverse) factor).

Definition prefer_metric (primary fallback : float) : float * string :=
  if flt fzero primary then (primary, "p50_overhead_us"%string)
  else if flt fzero fallback then (fallback, "avg_overhead_us"%string)
  else (fzero, "none"%string).

Definition resolve_trace_paths (trace trace_with trace_without : option string) : string * string :=
  let default_with := "data/ldpc_trace_with_ctrl.csv"%string in
  let default_without := "data/ldpc_trace_without_ctrl.csv"%string in
  match trace_with, trace_without with
  | None, None => match trace with
                  | Some legacy => (legacy, legacy)
                  | None => (default_with, default_without)
                  end
  | _, _ =>
      let first_given options dflt := default dflt (head (omap given options)) in
      (first_given [trace_with; trace] default_with, first_given [trace_without; trace] default_without)
  end.

Record Verdict : Type := mk_verdict {
  bench_p50_us_values : list float;
  bench_p50_us_mean : float;
  inline_cpp_metric : float * string;
  inline_py_metric : float * string;
  has_isolated_metric : bool;
  isolated_to_inline_ratio : float;
  python_to_inline_ratio : float;
  isolated_within_2x : bool;
  isolated_discrepancy_over_5x : bool;
  python_within_5x : bool;
  warning_note : string;
  bench_status : string;
}.

Definition is_ok (r : Isolated) : bool := bool_decide (iso_status r = Ok).

(** The mean of the benchmark's medians, of the traces that have one *)
Definition mean_of (values : list float) : outcome float :=
  match values with
  | [] => Ret fzero
  | _ => n ← float_of_int (Z.of_nat (length values)); fdiv (py_sum values) n
  end.

Definition usable_p50 (benches : list Isolated) : list float :=
  map (fun r => switch_p50_us (metrics r))
    (filter (fun r => is_ok r && flt fzero (switch_p50_us (metrics r)) = true) benches).

Definition cross_validate (bench_with bench_without : Isolated) (cpp_agg py_agg : OverheadSummary) :
    outcome Verdict :=
  let p50s := usable_p50 [bench_with; bench_without] in
  mean ← mean_of p50s;
  let cpp := prefer_metric (p50_overhead_us cpp_agg) (avg_overhead_us cpp_agg) in
  let py := prefer_metric (p50_overhead_us py_agg) (avg_overhead_us py_agg) in
  let has := flt fzero mean in
  iso_ratio ← (if has then safe_ratio mean cpp.1 else Ret fzero);
  py_ratio ← safe_ratio py.1 cpp.1;
  within_2x ← (if has then within_factor iso_ratio (f_of_Z 2) else Ret false);
  within_5x ← (if has then within_factor iso_ratio (f_of_Z 5) else Ret true);
  let over_5x := has && negb within_5x in
  let note :=
    if negb has then "bench_isolated ReplayViolation p50 is unavailable; inline numbers are authoritative"%string
    else if over_5x then "Isolated vs inline C++ p50 discrepancy exceeds 5x; inline numbers are authoritative"%string
    else ""%string in
  let st := if is_ok bench_with && is_ok bench_without then "ok"%string
            else if is_ok bench_with || is_ok bench_without then "partial"%string
            else "missing"%string in
  Ret (mk_verdict p50s mean cpp py has iso_ratio py_ratio within_2x over_5x
         (flt fzero py_ratio && fle py_ratio (f_of_Z 5)) note st).

Definition inline_authoritative (v : Verdict) : bool :=
  negb (has_isolated_metric v) || isolated_discrepancy_over_5x v.

(** ** The program *)

Definition fallback_json (rows switches : Z) (total : float) : json :=
  JObj [("used"%string, JBool (0 <? switches)); ("rows"%string, JInt rows);
        ("switches"%string, JInt switches); ("proxy_total_overhead_us"%string, JFloat total)].
Definition fallback_of (i : Inline) : json :=
  fallback_json (fallback_rows i) (fallback_switches i) (fallback_total_proxy_us i).

(** The aggregate: used when either trace used it *)
Definition fallback_sum (a b : Inline) : json :=
  JObj [("used"%string, JBool ((0 <? fallback_switches a) || (0 <? fallback_switches b)));
        ("rows"%string, JInt (fallback_rows a + fallback_rows b));
        ("switches"%string, JInt (fallback_switches a + fallback_switches b));
        ("proxy_total_overhead_us"%string,
           JFloat (fadd (fallback_total_proxy_us a) (fallback_total_proxy_us b)))].

Definition verdict_json (v : Verdict) : json :=
  JObj [("isolated_to_inline_cpp_p50_ratio"%string, JFloat (isolated_to_inline_ratio v));
        ("isolated_within_2x"%string, JBool (isolated_within_2x v));
        ("isolated_discrepancy_over_5x"%string, JBool (isolated_discrepancy_over_5x v));
        ("python_to_inline_cpp_p50_ratio"%string, JFloat (python_to_inline_ratio v));
        ("python_within_5x"%string, JBool (python_within_5x v));
        ("isolated_ratio_check_skipped"%string, JBool (negb (has_isolated_metric v)));
        ("inline_cpp_ratio_metric_us"%string, JFloat (inline_cpp_metric v).1);
        ("inline_cpp_ratio_metric_name"%string, JStr (inline_cpp_metric v).2);
        ("inline_python_ratio_metric_us"%string, JFloat (inline_py_metric v).1);
        ("inline_python_ratio_metric_name"%string, JStr (inline_py_metric v).2);
        ("inline_authoritative"%string, JBool (inline_authoritative v));
        ("note"%string, JStr (warning_note v))].

Record Settings : Type := mk_settings {
  arg_trace : option string;
  arg_trace_with : option string;
  arg_trace_without : option string;
  arg_steps : Z;
  arg_total_sms : Z;
  arg_benchmark_bin : option string;
  arg_bench_json_with : option string;
  arg_bench_json_without : option string;
  arg_benchmark_timeout_s : Z;
}.

Section main.
Context (fs : Files) (mktemp : string -> outcome string)
  (run : list string -> string -> Z -> outcome BenchRun) (str_exn : exn -> string)
  (csv_rows : string -> outcome (list (list string))) (host : Host).

(** The object written to the output file *)
Definition main (args : Settings) : M history json :=
  let '(trace_with, trace_without) :=
    resolve_trace_paths (arg_trace args) (arg_trace_with args) (arg_trace_without args) in
  let steps := arg_steps args in let total_sms := arg_total_sms args in
  let bench_bin := resolve_benchmark_bin fs (arg_benchmark_bin args) in
  let collect l trace hint := collect_bench_isolated fs mktemp run str_exn l trace bench_bin hint
                                (arg_benchmark_timeout_s args) in
  bench_with ← lift (collect "with_ctrl"%string trace_with (arg_bench_json_with args));
  bench_without ← lift (collect "without_ctrl"%string trace_without (arg_bench_json_without args));
  inline_with ← measure_inline_trace host (csv_rows trace_with) steps total_sms;
  cpp_with ← lift (summarize_overhead_us (cpp_samples_us inline_with));
  py_with ← lift (summarize_overhead_us (python_samples_us inline_with));
  inline_without ← measure_inline_trace host (csv_rows trace_without) steps total_sms;
  cpp_without ← lift (summarize_overhead_us (cpp_samples_us inline_without));
  py_without ← lift (summarize_overhead_us (python_samples_us inline_without));
  cpp_agg ← lift (summarize_overhead_us (cpp_samples_us inline_with ++ cpp_samples_us inline_without));
  py_agg ← lift (summarize_overhead_us (python_samples_us inline_with ++ python_samples_us inline_without));
  v ← lift (cross_validate bench_with bench_without cpp_agg py_agg);
  let per_trace (a b agg : json) := [("with_ctrl"%string, a); ("without_ctrl"%string, b); ("aggregate"%string, agg)] in
  mret (JObj
    [("bench_isolated"%string, JObj (per_trace (isolated_json bench_with) (isolated_json bench_without)
        (JObj [("status"%string, JStr (bench_status v));
               ("available_trace_count"%string, JInt (Z.of_nat (length (bench_p50_us_values v))));
               ("switch_p50_us_mean"%string, JFloat (bench_p50_us_mean v));
               ("switch_p50_ns_mean"%string, JFloat (fmul (bench_p50_us_mean v) (f_of_Z 1000)))])));
     ("inline_cpp"%string, JObj (per_trace (summary_json cpp_with) (summary_json cpp_without) (summary_json cpp_agg)
        ++ [("quantization_fallback"%string, JObj (per_trace (fallback_of inline_with)
               (fallback_of inline_without) (fallback_sum inline_with inline_without)));
            ("cross_validation"%string, verdict_json v);
            ("metadata"%string, JObj [("steps"%string, JInt steps); ("total_sms"%string, JInt total_sms)])]));
     ("inline_python"%string,
        JObj (per_trace (summary_json py_with) (summary_json py_without) (summary_json py_agg)))]).
End main.

(** ** Summaries always succeed *)

Lemma q50_fval : pfin q50 /\ fval q50 <= one.
Proof. split; [by apply pfinb_pfin|by vm_compute]. Qed.
Lemma q99_fval : pfin q99 /\ fval q99 <= one.
Proof. split; [by apply pfinb_pfin|by vm_compute]. Qed.

Lemma ceil_of_float_bound x n : pfin x -> fval x <= n * one -> 0 <= n < 2 ^ 53 ->
  exists k, ceil_of_float x = Ret k /\ 0 <= k <= n.
Proof.
  intros Hx Hle Hn. pose proof (pfin_fval x Hx) as H0. unfold ceil_of_float.
  rewrite int_of_float_fval by (apply Hx || done). cbn [mbind outcome_bind].
  assert (Hone : 0 < one) by done.
  assert (Hk : 0 <= fval x / one <= n).
  { split; [apply Z.div_pos; lia|apply Z.div_le_upper_bound; lia]. }
  destruct (f_of_Z_fval (fval x / one)) as [Hf Hv]; [lia|].
  destruct (flt _ x) eqn:Hlt; (eexists; split; [done|]); [|lia].
  apply flt_true in Hlt; [|apply Hf|apply Hx]. rewrite Hv in Hlt. nia.
Qed.

Lemma floor_of_float_bound x n : pfin x -> fval x <= n * one -> 0 <= n < 2 ^ 53 ->
  exists k, floor_of_float x = Ret k /\ 0 <= k <= n.
Proof.
  intros Hx Hle Hn. pose proof (pfin_fval x Hx) as H0. unfold floor_of_float.
  rewrite int_of_float_fval by (apply Hx || done). cbn [mbind outcome_bind].
  assert (Hone : 0 < one) by done.
  assert (Hk : 0 <= fval x / one <= n).
  { split; [apply Z.div_pos; lia|apply Z.div_le_upper_bound; lia]. }
  destruct (f_of_Z_fval (fval x / one)) as [Hf Hv]; [lia|].
  destruct (flt x _) eqn:Hlt; (eexists; split; [done|]); [|lia].
  apply flt_true in Hlt; [|apply Hx|apply Hf]. rewrite Hv in Hlt.
  pose proof (Z.mul_div_le (fval x) one ltac:(done)). lia.
Qed.

Lemma percentile_total values q : Z.of_nat (length values) < 2 ^ 53 -> pfin q -> fval q <= one ->
  exists x, percentile values q = Ret x.
Proof.
  intros Hlen Hq Hq1. destruct values as [|v values]; [by eexists|].
  unfold percentile. cbv zeta. set (ordered := sort_by fle (v :: values)).
  assert (Hord : length ordered = S (length values)) by (unfold ordered; by rewrite sort_by_perm).
  set (n := Z.of_nat (length ordered) - 1). cbn [length] in Hlen.
  destruct (float_of_int_fval n) as (f & -> & Hf & Hfv); [lia|]. cbn [mbind outcome_bind].
  assert (Hrank : pfin (fmul f q) /\ fval (fmul f q) <= n * one).
  { rewrite <- Hfv. apply fmul_le; [done..|]. pose proof (pfin_fval f Hf). nia. }
  destruct Hrank as [Hr Hrv].
  destruct (floor_of_float_bound _ _ Hr Hrv) as (lo & -> & Hlo); [lia|]. cbn [mbind outcome_bind].
  destruct (ceil_of_float_bound _ _ Hr Hrv) as (hi & -> & Hhi); [lia|]. cbn [mbind outcome_bind].
  destruct (py_index_ok ordered lo) as (x & Hx & _); [lia|].
  destruct (lo =? hi); [by exists x|].
  destruct (float_of_int_fval lo) as (l & -> & _ & _); [lia|]. cbn [mbind outcome_bind].
  rewrite Hx. cbn [mbind outcome_bind].
  destruct (py_index_ok ordered hi) as (y & Hy & _); [lia|]. rewrite Hy. by eexists.
Qed.

(** A fold that keeps the better of two elements bounds all of them. *)
Lemma foldl_extreme {A} (P : A -> Prop) (R : A -> A -> Prop) (op : A -> A -> A) x l :
  (forall x, P x -> R x x) -> (forall x y z, R x y -> R y z -> R x z) ->
  (forall x y, P x -> P y -> P (op x y) /\ R (op x y) x /\ R (op x y) y) ->
  Forall P (x :: l) -> forall y, y ∈ x :: l -> R (foldl op x l) y.
Proof.
  intros Hr Ht Hop. revert x. induction l as [|z l IH]; intros x Hx y Hy; cbn [foldl].
  - apply list_elem_of_singleton in Hy as ->. apply Hr. by inversion Hx.
  - apply Forall_cons in Hx as [Hx [Hz Hl]%Forall_cons]. destruct (Hop x z Hx Hz) as (Hp & H1 & H2).
    assert (Hall : Forall P (op x z :: l)) by by constructor.
    apply elem_of_cons in Hy as [->|[->|Hy]%elem_of_cons];
      [eapply Ht; [apply (IH (op x z)); [done|left]|done]..|].
    apply (IH (op x z)); [done|by right].
Qed.

Lemma summary_extremes x l : Forall (fun v => is_nan v = false) (x :: l) ->
  forall v, v ∈ x :: l -> fle (foldl fmin x l) v = true /\ fle v (foldl fmax x l) = true.
Proof.
  intros Hall v Hv. split.
  - revert v Hv. apply (foldl_extreme (fun v => is_nan v = false) (fun x y => fle x y = true));
      [by apply fle_refl|apply fle_trans| |done].
    intros a b Ha Hb. unfold fmin. destruct (flt b a) eqn:Hlt.
    + repeat split; [done|by apply flt_fle|by apply fle_refl].
    + repeat split; [done|by apply fle_refl|by apply flt_le].
  - revert v Hv. apply (foldl_extreme (fun v => is_nan v = false) (fun x y => fle y x = true));
      [by apply fle_refl|intros a b c H1 H2; by eapply fle_trans| |done].
    intros a b Ha Hb. unfold fmax. destruct (flt a b) eqn:Hlt.
    + repeat split; [done|by apply flt_fle|by apply fle_refl].
    + repeat split; [done|by apply fle_refl|by apply flt_le].
Qed.

Lemma float_of_int_nonzero n : 0 < n < 2 ^ 53 -> exists f, float_of_int n = Ret f /\ feqb f fzero = false
  /\ forall x, exists y, fdiv x f = Ret y.
Proof.
  intros Hn. destruct (float_of_int_fval n) as (f & Hf & Hp & Hv); [lia|]. exists f. split; [done|].
  assert (Hne : feqb f fzero = false).
  { apply pfin_cases in Hp as [->|(m & e & -> & _)]; [|done]. exfalso. change (0 = n * one) in Hv. pose proof one_pos. nia. }
  split; [done|]. intros x. unfold fdiv. unfold feqb in Hne.
  destruct f as [s| | |s m e]; [discriminate Hne|by eexists..].
Qed.

(** Summarising samples never fails, below 2^53 of them: both percentiles interpolate between
    existing samples, whatever the rounding of their rank.  The count is the number of samples,
    and when none is a NaN every sample lies between the minimum and the maximum reported. *)
Theorem overhead_summary_total values : Z.of_nat (length values) < 2 ^ 53 ->
  exists s, summarize_overhead_us values = Ret s
    /\ sum_count s = Z.of_nat (length values)
    /\ (Forall (fun v => is_nan v = false) values ->
        forall v, v ∈ values -> fle (min_overhead_us s) v = true /\ fle v (max_overhead_us s) = true).
Proof.
  intros Hlen. destruct values as [|v values].
  { eexists. split; [done|]. split; [done|]. intros _ v Hv. by apply not_elem_of_nil in Hv. }
  unfold summarize_overhead_us. cbv zeta.
  destruct (float_of_int_nonzero (Z.of_nat (length (v :: values)))) as (n & -> & _ & Hdiv); [rewrite length_cons in Hlen |- *; lia|].
  cbn [mbind outcome_bind]. destruct (Hdiv (py_sum (v :: values))) as [avg ->]. cbn [mbind outcome_bind].
  destruct (percentile_total (v :: values) q50) as [p50 ->]; [done|apply q50_fval..|].
  destruct (percentile_total (v :: values) q99) as [p99 ->]; [done|apply q99_fval..|].
  cbn [mbind outcome_bind]. eexists. split; [done|]. split; [done|]. apply summary_extremes.
Qed.

(** ** The replay *)

Section replay.
Context (host : Host).

(** The calls of a replay: each activation is timed, followed by a reading of the statistics and
    by a deactivation with the answer of the activation.  A sample is the two clock readings and
    the statistics. *)
Inductive replayed : list Z -> list (Z * Z * (Z * Z)) -> history -> history -> Prop :=
  | replayed_nil h : replayed [] [] h h
  | replayed_cons sm sms samples h prev stats h' :
      activate_at host (h ++ [Clock]) sm = Ret prev ->
      stats_at host (h ++ [Clock; Activate sm; Clock]) = Ret stats ->
      replayed sms samples (h ++ [Clock; Activate sm; Clock; Stats; Deactivate prev]) h' ->
      replayed (sm :: sms)
        ((clock_at host h, clock_at host (h ++ [Clock; Activate sm]), stats) :: samples) h h'.

Definition effective (total_sms : Z) (sms : list Z) : list Z :=
  filter (fun sm => 0 < sm) (map (fun sm => total_sms - sm) sms).

(** The switches that the statistics of the samples report *)
Definition switches_of (samples : list (Z * Z * (Z * Z))) : Z :=
  sum_list (map (fun s => Z.max 0 s.2.1) samples).

(** The samples that were added to [acc] *)
Definition grown (samples : list (Z * Z * (Z * Z))) (acc acc' : Inline) : Prop :=
  replayed_rows acc' = replayed_rows acc + Z.of_nat (length samples)
  /\ length (python_samples_us acc') = (length (python_samples_us acc) + length samples)%nat
  /\ Z.of_nat (length (cpp_samples_us acc'))
     = Z.of_nat (length (cpp_samples_us acc)) + switches_of samples
  /\ fallback_switches acc <= fallback_switches acc'
     <= fallback_switches acc + switches_of samples.

Lemma grown_trans s1 s2 a b c : grown s1 a b -> grown s2 b c -> grown (s1 ++ s2) a c.
Proof.
  unfold grown, switches_of. rewrite length_app, map_app, sum_list_app. lia.
Qed.

Lemma add_samples_grown acc wall stats acc' t0 t1 :
  add_samples (count_row acc) wall stats = Ret acc' -> grown [(t0, t1, stats)] acc acc'.
Proof.
  unfold add_samples, grown, switches_of. destruct (float_of_int stats.2) as [total|]; [|done].
  cbn [mbind outcome_bind map]. rewrite sum_list_cons. change (sum_list []) with 0. cbn [fst snd].
  destruct (Z.ltb_spec 0 (Z.max stats.1 0)) as [Hc|Hc].
  - destruct (float_of_int _) as [n|]; [|done]. cbn [mbind outcome_bind].
    destruct (fdiv (fmax total fzero) n) as [p|]; [|done]. cbn [mbind outcome_bind]. destruct (_ && _).
    + destruct (fdiv wall n) as [p'|]; [|done]. intros [= <-]. cbn. rewrite !length_app, length_replicate. cbn. lia.
    + intros [= <-]. cbn. rewrite !length_app, length_replicate. cbn. lia.
  - intros [= <-]. cbn. rewrite !length_app. cbn. lia.
Qed.

(** A bind that returned: both parts did. *)
Lemma bind_returned {S A B} (m : M S A) (f : A -> M S B) s b s' :
  (x ← m; f x) s = (Ret b, s') -> exists a s1, m s = (Ret a, s1) /\ f a s1 = (Ret b, s').
Proof. unfold mbind, M_bind. destruct (m s) as [[a|e] s1]; [|done]. by exists a, s1. Qed.

Ltac next H x E := let s := fresh "s" in apply bind_returned in H as (x & s & E & H).

Lemma replay_row_spec total_sms sm acc h acc' h' :
  replay_row_of host total_sms sm acc h = (Ret acc', h') ->
  exists samples, grown samples acc acc'
    /\ forall sms rest h'', replayed sms rest h' h'' ->
         replayed (effective total_sms [sm] ++ sms) (samples ++ rest) h h''.
Proof.
  unfold replay_row_of, effective. cbn [map]. destruct (Z.leb_spec (total_sms - sm) 0) as [Hle|Hgt].
  - intros [= <- <-]. exists []. rewrite filter_cons_False by lia. split; [|done].
    unfold grown, switches_of, sum_list. cbn. lia.
  - intros H. rewrite filter_cons_True by lia. change (filter _ []) with (@nil Z).
    unfold perf_counter_ns, activate_sm_for_thread, swap_stats, deactivate_for_thread, ask in H.
    next H t0 E. injection E as <- <-. next H prev E. injection E as Hprev <-.
    next H t1 E. injection E as <- <-. next H wall E. injection E as _ <-.
    next H wall_us E. injection E as _ <-. next H stats E. injection E as Hstats <-.
    next H acc1 E. injection E as Hacc <-. next H u E. injection E as _ <-. injection H as <- <-.
    rewrite <- !app_assoc in *. cbn [app] in *.
    eexists [(clock_at host h, clock_at host (h ++ [Clock; Activate (total_sms - sm)]), stats)].
    split; [by eapply add_samples_grown|].
    intros sms rest h'' Hrest. cbn [app]. by eapply replayed_cons.
Qed.

Lemma replay_rows_spec total_sms sms : forall acc h acc' h',
  replay_rows host total_sms sms acc h = (Ret acc', h') ->
  exists samples, grown samples acc acc' /\ replayed (effective total_sms sms) samples h h'.
Proof.
  induction sms as [|sm sms IH]; intros acc h acc' h' H; cbn [replay_rows] in H.
  - injection H as <- <-. exists []. split; [|constructor]. unfold grown, switches_of, sum_list. cbn. lia.
  - next H acc1 E. destruct (replay_row_spec _ _ _ _ _ _ E) as (s1 & Hg1 & Hr1).
    destruct (IH _ _ _ _ H) as (s2 & Hg2 & Hr2). exists (s1 ++ s2).
    split; [by eapply grown_trans|].
    change (effective total_sms (sm :: sms)) with (effective total_sms ([sm] ++ sms)).
    unfold effective at 1. rewrite map_app, filter_app. by apply Hr1.
Qed.

(** C24: an inline measurement that returns has created the runtime, activated in the order of the
    trace the SMs that the rows leave of the total, where they leave any, read the statistics
    once after each activation, given every partition back with the value that the activation
    returned, and closed the runtime, with no other call.  It has one row and one sample of the
    clock for each activation, and one sample of the runtime for each switch reported. *)
Theorem inline_replay_bracketed table steps total_sms h r h' :
  measure_inline_trace host (Ret table) steps total_sms h = (Ret r, h') ->
  exists sms samples hk,
    load_sm_counts table (Z.max 1 steps * 100) = Ret sms
    /\ replayed (effective total_sms sms) samples (h ++ [Create]) hk /\ h' = hk ++ [Close]
    /\ replayed_rows r = Z.of_nat (length samples)
    /\ length (python_samples_us r) = length samples
    /\ Z.of_nat (length (cpp_samples_us r)) = switches_of samples
    /\ 0 <= fallback_switches r <= switches_of samples.
Proof.
  unfold measure_inline_trace, close, ask. intros H.
  next H u E. injection E as _ <-. next H t E. injection E as <- <-.
  next H sms E. injection E as Hsms <-. next H acc Hacc.
  next H u' E. injection E as _ <-. injection H as <- <-.
  destruct (replay_rows_spec _ _ _ _ _ _ Hacc) as (samples & Hg & Hr).
  eexists sms, samples, _. unfold grown in Hg. cbn in Hg. repeat split; try done; lia.
Qed.
End replay.

(** ** The benchmark's record *)

(** When a temporary file can be made, the record of a trace is made whatever the file system
    and the benchmark do.  Its status is "ok" exactly when a report was parsed; otherwise the
    record has a warning and all its metrics are zero, so that it never counts as a
    measurement. *)
Theorem isolated_record_total fs mktemp run str_exn l trace bin hint timeout_s :
  (forall prefix, is_ret (mktemp prefix) = true) ->
  exists r, collect_bench_isolated fs mktemp run str_exn l trace bin hint timeout_s = Ret r
    /\ label r = l /\ trace_path r = trace
    /\ match iso_status r with
       | Ok => warning r = None
               /\ exists path raw, parse_replay_violation_bench_json path raw = Ret (metrics r)
       | _ => is_Some (warning r) /\ metrics r = no_metrics /\ usable_p50 [r] = []
       end.
Proof.
  intros Htmp. unfold collect_bench_isolated.
  destruct (discover_bench_json_path fs l hint) as [path|].
  - destruct (json_load fs path) as [raw|e]; cbn [mbind outcome_bind].
    + destruct (parse_replay_violation_bench_json path raw) as [m|e] eqn:Hp;
        (eexists; do 3 (split; [done|])); cbn; [|by split; [eexists|]]. split; [done|]. by exists path, raw.
    + eexists. do 3 (split; [done|]). cbn. by split; [eexists|].
  - destruct bin as [bin|]; [|eexists; do 3 (split; [done|]); cbn; by split; [eexists|]].
    pose proof (Htmp ("bench_trace_switch_" +:+ l +:+ "_")) as Ht.
    destruct (mktemp _) as [out|e]; [|done]. cbn [mbind outcome_bind].
    destruct (run_benchmark run l trace bin out timeout_s) as [r|e] eqn:Hrun;
      [|eexists; do 3 (split; [done|]); cbn; by split; [eexists|]].
    exists r. split; [done|]. unfold run_benchmark in Hrun.
    destruct (run _ _ _) as [proc|e]; [|done]. cbn [mbind outcome_bind] in Hrun.
    destruct (report proc) as [raw|]; [destruct (_ =? _)|].
    + destruct raw as [raw|e]; [|done]. cbn [mbind outcome_bind] in Hrun.
      destruct (parse_replay_violation_bench_json out raw) as [m|e] eqn:Hp; [|done].
      injection Hrun as <-. do 2 (split; [done|]). cbn. split; [done|]. by exists out, raw.
    + injection Hrun as <-. do 2 (split; [done|]). cbn. by split; [eexists|].
    + injection Hrun as <-. do 2 (split; [done|]). cbn. by split; [eexists|].
Qed.

(** ** The verdict *)

Lemma within_factor_total ratio factor : exists b, within_factor ratio factor = Ret b.
Proof.
  unfold within_factor. destruct (fle ratio fzero) eqn:Hr; [by eexists|].
  destruct (fle factor fzero); [by eexists|]. cbn [orb].
  unfold fdiv. destruct ratio as [s| | |s m e]; [by destruct s|by eexists..].
Qed.

Lemma safe_ratio_total num den : exists x, safe_ratio num den = Ret x.
Proof.
  unfold safe_ratio. destruct (fle den fzero) eqn:Hd; [by eexists|].
  unfold fdiv. destruct den as [s| | |s m e]; [by destruct s|by eexists..].
Qed.

Lemma within_factor_mono ratio f g : fle f g = true -> fle f fzero = false -> fle g fzero = false ->
  within_factor ratio f = Ret true -> within_factor ratio g = Ret true.
Proof.
  intros Hfg Hf Hg. unfold within_factor. rewrite Hf, Hg, !orb_false_r.
  destruct (fle ratio fzero); [done|]. destruct (fdiv _ ratio) as [i|]; [|done].
  cbn [mbind outcome_bind]. intros [= H]. by rewrite (fle_trans _ f g).
Qed.

Lemma mean_of_total l : Z.of_nat (length l) < 2 ^ 53 -> exists x, mean_of l = Ret x.
Proof.
  intros Hl. destruct l as [|x l]; [by eexists|]. unfold mean_of.
  destruct (float_of_int_nonzero (Z.of_nat (length (x :: l)))) as (n & -> & _ & Hd);
    [rewrite length_cons in Hl |- *; lia|]. apply Hd.
Qed.

(** The comparison gives a verdict for every pair of records and summaries, NaN and infinite
    timings included.  Its flags do not contradict each other: within a factor of two excludes a
    discrepancy of more than five, and both need an isolated measurement.  The inline numbers are
    authoritative exactly when there is a note about it, and when they are not, the ratio of the
    two and its inverse are at most five. *)
Theorem verdict_consistent bench_with bench_without cpp_agg py_agg :
  exists v, cross_validate bench_with bench_without cpp_agg py_agg = Ret v
    /\ (isolated_within_2x v = true ->
          has_isolated_metric v = true /\ isolated_discrepancy_over_5x v = false)
    /\ (inline_authoritative v = false <-> warning_note v = ""%string)
    /\ (inline_authoritative v = false ->
          flt fzero (bench_p50_us_mean v) = true
          /\ safe_ratio (bench_p50_us_mean v) (inline_cpp_metric v).1 = Ret (isolated_to_inline_ratio v)
          /\ within_factor (isolated_to_inline_ratio v) (f_of_Z 5) = Ret true).
Proof.
  unfold cross_validate. set (p50s := usable_p50 _).
  assert (Hlen : Z.of_nat (length p50s) < 2 ^ 53).
  { unfold p50s, usable_p50. rewrite length_map.
    pose proof (length_filter (fun r => is_ok r && flt fzero (switch_p50_us (metrics r)) = true)
                  [bench_with; bench_without]) as H. cbn [length] in H. lia. }
  destruct (mean_of_total p50s Hlen) as [mean ->]. cbn [mbind outcome_bind]. cbv zeta.
  set (cpp := prefer_metric _ _). set (py := prefer_metric (p50_overhead_us py_agg) _).
  destruct (safe_ratio_total py.1 cpp.1) as [pr Hpr].
  destruct (flt fzero mean) eqn:Hmean.
  - destruct (safe_ratio_total mean cpp.1) as [ratio Hratio]. rewrite Hratio. cbn [mbind outcome_bind].
    rewrite Hpr. cbn [mbind outcome_bind].
    destruct (within_factor_total ratio (f_of_Z 2)) as [w2 H2]. rewrite H2. cbn [mbind outcome_bind].
    destruct (within_factor_total ratio (f_of_Z 5)) as [w5 H5]. rewrite H5. cbn [mbind outcome_bind].
    eexists. split; [done|]. unfold inline_authoritative. cbn.
    split; [|split; [by destruct w5|by destruct w5]].
    intros ->. apply (within_factor_mono _ _ (f_of_Z 5)) in H2; [|done..].
    rewrite H5 in H2. by injection H2 as ->.
  - cbn [mbind outcome_bind]. rewrite Hpr. cbn [mbind outcome_bind].
    eexists. split; [done|]. unfold inline_authoritative. cbn. by split.
Qed.

(** ** A run *)

(** A runtime of 48 SMs that counts a switch of 20 us for every activation; the clock advances by
    30 us with every call. *)
Definition demo_host : Host := mk_host (fun _ => Ret tt) (fun h => 30000 * Z.of_nat (length h))
  (fun _ _ => Ret 48) (fun _ => Ret (1, 20)) (fun _ _ => Ret tt) (fun _ => Ret tt).
Definition demo_table : list (list string) :=
  [["time_slot_sched_ns"; "sm_count"]; ["0"; "8"]; ["10"; "48"]; ["20"]; ["30"; "16"]]%string.

Definition demo_inline : Inline :=
  mk_inline 2 [f_of_Z 20; f_of_Z 20] [f_of_Z 60; f_of_Z 60] 0 0 fzero.
Definition demo_calls : history :=
  [Create; Clock; Activate 40; Clock; Stats; Deactivate 48; Clock; Activate 32; Clock; Stats;
   Deactivate 48; Close].

Lemma demo_measured : measure_inline_trace demo_host (Ret demo_table) 5 48 [] = (Ret demo_inline, demo_calls).
Proof. vm_compute. reflexivity. Qed.

Lemma inline_replay_bracketed_witness : exists sms samples hk,
  load_sm_counts demo_table 500 = Ret sms
  /\ replayed demo_host (effective 48 sms) samples [Create] hk /\ demo_calls = hk ++ [Close]
  /\ replayed_rows demo_inline = Z.of_nat (length samples)
  /\ length (python_samples_us demo_inline) = length samples
  /\ Z.of_nat (length (cpp_samples_us demo_inline)) = switches_of samples
  /\ 0 <= fallback_switches demo_inline <= switches_of samples.
Proof. exact (inline_replay_bracketed demo_host demo_table 5 48 [] demo_inline demo_calls demo_measured). Defined.

Definition demo_report : json := JObj [("benchmarks"%string, JList
  [JObj [("name"%string, JStr "TraceSwitchBench/ReplayViolation_mean"); ("switch_p50_ns"%string, JInt 1)];
   JObj [("name"%string, JStr "TraceSwitchBench/ReplayViolation"); ("switch_p50_ns"%string, JInt 25000)]])].
Definition demo_files : Files := mk_files (fun _ => None) (fun p => String.eqb p "results/trace_switch_with_ctrl.json")
  (fun _ => false) (fun _ => Ret demo_report).

Lemma isolated_record_total_witness :
  exists r, collect_bench_isolated demo_files (fun _ => Ret "t.json"%string)
              (fun _ _ _ => Raise (TimeoutExpired "")) (fun _ => "") "with_ctrl" "t.csv" None None 120 = Ret r
    /\ label r = "with_ctrl"%string /\ trace_path r = "t.csv"%string
    /\ match iso_status r with
       | Ok => warning r = None
               /\ exists path raw, parse_replay_violation_bench_json path raw = Ret (metrics r)
       | _ => is_Some (warning r) /\ metrics r = no_metrics /\ usable_p50 [r] = []
       end.
Proof. apply isolated_record_total. done. Defined.

Lemma overhead_summary_total_witness : exists s,
  summarize_overhead_us [f_of_Z 20; f_of_Z 60] = Ret s /\ sum_count s = 2
  /\ (Forall (fun v => is_nan v = false) [f_of_Z 20; f_of_Z 60] ->
      forall v, v ∈ [f_of_Z 20; f_of_Z 60] ->
        fle (min_overhead_us s) v = true /\ fle v (max_overhead_us s) = true).
Proof. exact (overhead_summary_total [f_of_Z 20; f_of_Z 60] ltac:(done)). Defined.

Example demo_p50 :
  (s ← summarize_overhead_us [f_of_Z 60; f_of_Z 20; f_of_Z 30]; Ret (p50_overhead_us s, max_overhead_us s))
  = Ret (f_of_Z 30, f_of_Z 60).
Proof. by vm_compute. Qed.
