(* ===== verification/WithinBatch.v ===== *)
(** * Within-batch variation ([scripts/run_within_batch_experiment.py])

    The experiment overlays generated within-batch traces on the measured batch of every
    baseline and compares the runtimes: the baselines wait for their slowest device
    ([compute_batch_runtime] with the trace), CLEAVE's levels are inflated by the mean rate
    of their devices.  The batch accounting is [BatchRuntime], the traces are [TraceGen];
    the existence and the text of files, the JSON reader, [str] of containers and the
    generator of a seed are parameters.  Printed lines are left out. *)

From Stdlib Require Import Ascii String.
From S2P Require Import Prelude PyDict PyStr PyFloat FloatOrder PyJson.
From S2P Require Import NumPy TraceGen BatchRuntime.
From S2P Require Metrics Violations PlotSchema.

Import Metrics.Cli (path, mk_path, anchor, parts).


Definition BASELINES : list string := ["cleave"; "dtfm"; "asteroid"; "confident"; "alpa"].

(** ** Paths *)

(** [Path(s)] *)
Definition posix_path (s : string) : path :=
  mk_path (if startswith "//" s && negb (startswith "///" s) then "//"
           else if startswith "/" s then "/" else "")
    (List.filter (fun x => negb (is_empty x || String.eqb x ".")) (split_on "/" s)).

(** [str(root / x / y)], for relative names *)
Definition path_str (root : path) (names : list string) : string :=
  let l := parts root ++ names in
  if is_empty (anchor root) && bool_decide (l = []) then "."
  else anchor root +:+ join "/" l.

(** [next((p for p in candidates if p.exists()), candidates[0])] *)
Definition first_existing (exists_ : string -> bool) (first : string) (others : list string) :
    string :=
  match List.filter exists_ (first :: others) with p :: _ => p | [] => first end.

Record inputs : Type := mk_inputs {
  vt : string;
  mf : string;
  dc : string;
}.

Definition inputs_of (exists_ : string -> bool) (root : path) (baseline : string) : inputs :=
  let results := baseline +:+ "_results" in
  let manifest := baseline +:+ "_manifest.json" in
  mk_inputs
    (first_existing exists_ (path_str root [baseline; "vtime.log"])
       [path_str root ["vtime"; baseline; "vtime.log"]])
    (first_existing exists_ (path_str root [results; "manifests"; manifest])
       [path_str root ["planning"; "manifests"; manifest]])
    (first_existing exists_ (path_str root [results; "generated_device_fleet.json"])
       [path_str root ["generated_device_fleet.json"]]).

(** ** Reading a manifest *)

(** [manifest.get("entries", [])] of an object, anything else as it is *)
Definition manifest_entries (manifest : json) : outcome (list json) :=
  match manifest with
  | JObj d => json_iter (dict_get_default "entries" (JList []) d)
  | _ => json_iter manifest
  end.

(** [int(e.get(key, dflt))] *)
Definition int_field (key : string) (dflt : Z) (e : json) : outcome Z :=
  v ← Violations.get_field key (JInt dflt) e; py_int v.

(** [float(e.get(key) or e.get(key') or 0.0)]; a list of keys, tried in order *)
Fixpoint first_truthy (keys : list string) (e : json) : outcome json :=
  match keys with
  | [] => Ret (JFloat fzero)
  | k :: keys =>
      v ← Violations.get_field k JNull e;
      if truthy v then Ret v else first_truthy keys e
  end.

Definition float_field (keys : list string) (e : json) : outcome float :=
  v ← first_truthy keys e; py_float v.

(** One entry: the first of a level and GEMM counts. *)
Definition add_flops (seen : list ((Z * Z) * float)) (e : json) :
    outcome (list ((Z * Z) * float)) :=
  lvl ← int_field "level" 0 e;
  gemm ← int_field "gemm_id" 0 e;
  match dict_get (lvl, gemm) seen with
  | Some _ => Ret seen
  | None =>
      m ← float_field ["m_total"; "alpha"] e;
      n ← float_field ["n"] e;
      q ← float_field ["q_total"; "beta"] e;
      Ret (dict_set (lvl, gemm) (fmul (fmul (fmul (f_of_Z 2) m) n) q) seen)
  end.

Definition useful_flops (manifest : json) : outcome float :=
  ents ← manifest_entries manifest;
  seen ← foldO add_flops ents [];
  Ret (py_sum (dict_values seen)).

Definition entry_devices (manifest : json) : outcome (gset Z) :=
  ents ← manifest_entries manifest;
  devs ← mapO (int_field "device_id" (-1)) ents;
  Ret (list_to_set (List.filter (fun d => 0 <=? d) devs)).

(** The metadata's number of devices, or 0 *)
Definition metadata_devices (manifest : json) : outcome Z :=
  match manifest with
  | JObj d =>
      v ← Violations.get_field "num_devices" (JInt 0)
            (dict_get_default "metadata" (JObj []) d);
      py_int (if truthy v then v else JInt 0)
  | _ => Ret 0
  end.

Definition num_devices_of (manifest : json) : outcome Z :=
  nd ← metadata_devices manifest;
  if 0 <? nd then Ret nd
  else devs ← entry_devices manifest; Ret (Z.of_nat (size devs)).

(** [out.setdefault(lvl, set()).add(dev)] *)
Definition add_level_device (out : list (Z * gset Z)) (e : json) :
    outcome (list (Z * gset Z)) :=
  lvl ← int_field "level" 0 e;
  dev ← int_field "device_id" (-1) e;
  Ret (if 0 <=? dev
       then dict_alter (fun o => {[dev]} ∪ default ∅ o) lvl out else out).

Definition level_devices (manifest : json) : outcome (list (Z * list Z)) :=
  ents ← manifest_entries manifest;
  out ← foldO add_level_device ents [];
  Ret (map (fun '(lvl, devs) => (lvl, sort_by Z.leb (elements devs))) out).

(** ** Idle time *)

Definition idle_fraction (result : BatchRuntimeResult) (num_devices : Z) : outcome float :=
  nd ← float_of_int num_devices;
  let provisioned := fmul nd (total_runtime_ms result) in
  if fle provisioned fzero then Ret fzero
  else
    let busy := py_sum ((fun kv => total_ms kv.2) <$> r_per_device_breakdown result) in
    share ← fdiv busy provisioned;
    Ret (fmax fzero (fsub (f_of_Z 1) share)).

(** ** CLEAVE's levels *)

(** [a < b] for an integer and a float, which Python compares exactly *)
Definition float_scaled (x : float) (k : Z) : Z :=
  match x with
  | S754_finite s m e => (if s then -1 else 1) * Zpos m * 2 ^ (e + k)
  | _ => 0
  end.

Definition int_lt_float (z : Z) (x : float) : bool :=
  match x with
  | S754_nan => false
  | S754_infinity s => negb s
  | _ => z * 2 ^ 1074 <? float_scaled x 1074
  end.

Definition float_lt_int (x : float) (z : Z) : bool :=
  match x with
  | S754_nan => false
  | S754_infinity s => s
  | _ => float_scaled x 1074 <? z * 2 ^ 1074
  end.

(** A number of JSON, as [<] sees it *)
Definition number_of (j : json) : option (Z + float) :=
  match j with
  | JBool b => Some (inl (bool_int b))
  | JInt z => Some (inl z)
  | JFloat x => Some (inr x)
  | _ => None
  end.

(** [a < b]; comparing two lists fails later, when [float] meets one *)
Definition json_lt (a b : json) : outcome bool :=
  match a, b with
  | JStr s, JStr t => Ret (String.ltb s t)
  | _, _ =>
      match number_of a, number_of b with
      | Some (inl y), Some (inl z) => Ret (y <? z)
      | Some (inl y), Some (inr z) => Ret (int_lt_float y z)
      | Some (inr y), Some (inl z) => Ret (float_lt_int y z)
      | Some (inr y), Some (inr z) => Ret (flt y z)
      | _, _ => Raise (TypeError "'<' not supported between instances")
      end
  end.

(** [min(a, b, c)] *)
Definition min3 (a b c : json) : outcome json :=
  lt ← json_lt b a; let m := if lt : bool then b else a in
  lt ← json_lt c m; Ret (if lt : bool then c else m).

(** [arr[b]] *)
Definition json_index (arr : json) (b : Z) : outcome json :=
  match arr with
  | JList l => py_index l b
  | JStr s => c ← py_index (String.list_ascii_of_string s) b; Ret (JStr (String c ""))
  | JObj _ => Raise (KeyError (str_of_Z b))
  | _ => Raise (TypeError "object is not subscriptable")
  end.

Definition rate_at (dd : json) (b : Z) (key : string) : outcome json :=
  arr ← json_item key dd; json_index arr b.

(** The rate of device [d]: one without a trace runs at full speed. *)
Definition device_rate (tdev : json) (b d : Z) : outcome float :=
  dd ← Violations.get_field (str_of_Z d) JNull tdev;
  if negb (truthy dd) then Ret (f_of_Z 1)
  else
    f ← rate_at dd b "flops_mult";
    u ← rate_at dd b "ul_bw_mult";
    w ← rate_at dd b "dl_bw_mult";
    r ← min3 f u w;
    r ← py_float r;
    Ret (fmax (f_lit 1 6) r).

(** [min(num_bins - 1, int(frac * num_bins))]; a negative level stays negative *)
Definition rate_bin (level num_levels num_bins : Z) : outcome Z :=
  frac ← (if num_levels <=? 1 then Ret fzero
          else x ← int_truediv level num_levels; Ret (fmin (f_lit 999999 6) x));
  nb ← float_of_int num_bins;
  i ← int_of_float (fmul frac nb);
  Ret (Z.min (num_bins - 1) i).

(** [sum(l) / len(l)] *)
Definition mean_of (l : list float) : outcome float :=
  n ← float_of_int (Z.of_nat (length l)); fdiv (py_sum l) n.

Definition mean_rate (trace : obj) (devices : list Z) (level num_levels num_bins : Z) :
    outcome float :=
  match devices with
  | [] => Ret (f_of_Z 1)
  | _ =>
      b ← rate_bin level num_levels num_bins;
      rates ← mapO (device_rate (dict_get_default "devices" (JObj []) trace) b) devices;
      mean_of rates
  end.

(** The time a level takes: [t / mr if mr > 0 else t] *)
Definition level_time (trace : obj) (devices : list (Z * list Z)) (num_bins num_levels : Z)
    (row : level_row) : outcome float :=
  mr ← mean_rate trace (dict_get_default (row_level row) [] devices) (row_level row)
         num_levels num_bins;
  if flt fzero mr then fdiv (runtime_ms row) mr else Ret (runtime_ms row).

Definition cleave_reweighted_runtime (nominal : BatchRuntimeResult) (trace : obj)
    (devices : list (Z * list Z)) (num_bins num_levels : Z) : outcome float :=
  total ← foldO (fun total row =>
                   x ← level_time trace devices num_bins num_levels row;
                   Ret (fadd total x))
            (per_level_breakdown nominal) fzero;
  Ret (fadd total (optimizer_tail_ms nominal)).

(** ** The experiment *)

Record cached : Type := mk_cached {
  c_vtime : list VTimeEvent;
  c_manifest : json;
  c_profiles : profiles;
  c_useful_flops : float;
  c_num_devices : Z;
  c_level_devices : list (Z * list Z);
  c_num_levels : Z;
  c_nominal : BatchRuntimeResult;
}.

Record point : Type := mk_point {
  p_magnitude : float;
  p_runtime_ms : float;
  normalized_runtime : float;
  p_idle_fraction : option float;
  useful_flop_throughput : float;
}.

Record recovery : Type := mk_recovery {
  r_magnitude : float;
  cleave_lost_flops : float;
  mean_baseline_lost_flops : float;
  recovered_flops : float;
  recovered_fraction_of_useful : float;
}.

(** The arguments of [run] other than the root *)
Record settings : Type := mk_settings {
  s_magnitudes : list float;
  s_num_bins : Z;
  s_event_rate : float;
  s_duration_frac : float;
  s_seed : Z;
}.

Record summary : Type := mk_summary {
  sum_num_devices : Z;
  sum_settings : settings;
  base_runtime_ms : list (string * float);
  per_baseline : list (string * list point);
  recovered_useful_flops : option (list recovery);
}.

(** The keyword defaults of [compute_batch_runtime] *)
Definition options_with (ps : profiles) (trace : option obj) : options :=
  mk_options None None None (Some ps) (f_of_Z 2) None trace.

(** [useful * max(0.0, 1.0 - base / runtime)] *)
Definition lost_flops (useful base runtime : float) : outcome float :=
  share ← fdiv base runtime;
  Ret (fmul useful (fmax fzero (fsub (f_of_Z 1) share))).

(** A lookup of a dictionary: [d[k]] *)
Definition item {V} (k : string) (d : list (string * V)) : outcome V :=
  of_option (KeyError k) (dict_get k d).

Section run.
Context `{Numpy} {R : Type} `{Rng R}.
Context (exists_ : string -> bool) (read_text : string -> outcome string)
  (json_loads : string -> outcome json) (repr : json -> string)
  (default_rng : Z -> outcome R).

(** The profiles, of a file that may be missing *)
Definition profiles_at (p : string) : outcome profiles :=
  if exists_ p then raw ← load_json read_text json_loads p; load_device_profiles (Some raw)
  else Ret [].

(** The inputs of a baseline, read once: the second reading of the log and the profiles
    gives the same values. *)
Definition load_baseline (b : string) (i : inputs) : outcome cached :=
  manifest ← load_json read_text json_loads (mf i);
  ld ← level_devices manifest;
  text ← read_text (vt i);
  events ← parse_vtime_log text;
  ps ← profiles_at (dc i);
  flops ← useful_flops manifest;
  nd ← num_devices_of manifest;
  nominal ← compute_batch_runtime repr events manifest b (options_with ps None);
  Ret (mk_cached events manifest ps flops nd ld
         (default 0 (max_list (dict_keys ld)) + 1) nominal).

(** A baseline without its log or manifest is skipped. *)
Definition add_baseline (root : path) (cache : list (string * cached)) (b : string) :
    outcome (list (string * cached)) :=
  let i := inputs_of exists_ root b in
  if exists_ (vt i) && exists_ (mf i)
  then c ← load_baseline b i; Ret (dict_set b c cache)
  else Ret cache.

Definition load_cache (root : path) : outcome (list (string * cached)) :=
  foldO (add_baseline root) BASELINES [].

Definition base_runtime (cache : list (string * cached)) (b : string) : outcome float :=
  c ← item b cache; Ret (total_runtime_ms (c_nominal c)).

(** [max((cache[b]["num_devices"] for b in cache), default=d)] *)
Definition max_devices (d : Z) (cache : list (string * cached)) : Z :=
  default d (max_list (c_num_devices <$> dict_values cache)).

(** The arguments of [generate_within_batch_traces] for a magnitude *)
Definition trace_args (s : settings) (nd : Z) (m : float) : within_batch_args :=
  mk_within_batch_args nd (s_num_bins s) m (s_event_rate s) (s_duration_frac s)
    (fmul (f_lit 5 1) m) (f_lit 85 2) (s_seed s).

Definition magnitude_trace (s : settings) (nd : Z) (m : float) : outcome (option obj) :=
  if fle m fzero then Ret None
  else
    rng ← default_rng (s_seed s);
    t ← (generate_within_batch_traces (trace_args s nd m) rng).1;
    Ret (Some t).

(** The runtime and the idle fraction of a baseline under a trace *)
Definition runtime_under (s : settings) (b : string) (c : cached) (trace : option obj) :
    outcome (float * option float) :=
  match trace with
  | None =>
      idle ← idle_fraction (c_nominal c) (c_num_devices c);
      Ret (total_runtime_ms (c_nominal c), Some idle)
  | Some t =>
      if String.eqb b "cleave" then
        rt ← cleave_reweighted_runtime (c_nominal c) t (c_level_devices c) (s_num_bins s)
               (c_num_levels c);
        Ret (rt, None)
      else
        result ← compute_batch_runtime repr (c_vtime c) (c_manifest c) b
                   (options_with (c_profiles c) (Some t));
        idle ← idle_fraction result (c_num_devices c);
        Ret (total_runtime_ms result, Some idle)
  end.

Definition point_of (s : settings) (b : string) (c : cached) (m : float) (trace : option obj) :
    outcome point :=
  '(rt, idle) ← runtime_under s b c trace;
  let base := total_runtime_ms (c_nominal c) in
  norm ← (if ftruthy base then fdiv rt base else Ret (f_of_Z 1));
  tput ← (if flt fzero rt then fdiv (c_useful_flops c) rt else Ret fzero);
  Ret (mk_point m rt norm idle tput).

(** One turn of the loop over the magnitudes *)
Definition magnitude_turn (s : settings) (cache : list (string * cached))
    (points : list (string * list point)) (m : float) :
    outcome (list (string * list point)) :=
  trace ← magnitude_trace s (max_devices 256 cache) m;
  foldO (fun points bc =>
           p ← point_of s bc.1 bc.2 m trace;
           Ret (dict_alter (fun o => default [] o ++ [p]) bc.1 points))
    cache points.

Definition sweep (s : settings) (cache : list (string * cached)) :
    outcome (list (string * list point)) :=
  foldO (magnitude_turn s cache) (s_magnitudes s) ((fun bc => (bc.1, [])) <$> cache).

(** The losses of baseline [b] at position [i] *)
Definition loss_at (cache : list (string * cached)) (points : list (string * list point))
    (i : nat) (b : string) : outcome float :=
  ps ← item b points;
  pt ← of_option (IndexError "list index out of range") (ps !! i);
  c ← item b cache;
  base ← base_runtime cache b;
  lost_flops (c_useful_flops c) base (p_runtime_ms pt).

Definition recovery_at (cache : list (string * cached)) (points : list (string * list point))
    (i : nat) (m : float) : outcome recovery :=
  let baselines := List.filter (fun b => negb (String.eqb b "cleave")) (dict_keys points) in
  c ← item "cleave" cache;
  let useful := c_useful_flops c in
  cl_lost ← loss_at cache points i "cleave";
  base_losses ← mapO (loss_at cache points i) baselines;
  mean_base_lost ← match base_losses with [] => Ret fzero | _ => mean_of base_losses end;
  let recovered := fmax fzero (fsub mean_base_lost cl_lost) in
  fraction ← (if ftruthy useful then fdiv recovered useful else Ret fzero);
  Ret (mk_recovery m cl_lost mean_base_lost recovered fraction).

(** The magnitudes above zero, with their positions *)
Definition varied (magnitudes : list float) : list (nat * float) :=
  List.filter (fun im => negb (fle im.2 fzero)) (imap pair magnitudes).

Definition recovered_of (cache : list (string * cached))
    (points : list (string * list point)) (magnitudes : list float) :
    outcome (option (list recovery)) :=
  if dict_mem "cleave" cache then
    out ← mapO (fun im => recovery_at cache points im.1 im.2) (varied magnitudes);
    Ret (Some out)
  else Ret None.

Definition run (root : path) (s : settings) : outcome summary :=
  cache ← load_cache root;
  points ← sweep s cache;
  recovered ← recovered_of cache points (s_magnitudes s);
  Ret (mk_summary (max_devices 0 cache) s
         ((fun bc => (bc.1, total_runtime_ms (c_nominal bc.2))) <$> cache) points recovered).

(** *** The summary file *)

Definition point_json (p : point) : json :=
  JObj [("magnitude", JFloat (p_magnitude p)); ("runtime_ms", JFloat (p_runtime_ms p));
        ("normalized_runtime", JFloat (normalized_runtime p));
        ("idle_fraction", match p_idle_fraction p with Some x => JFloat x | None => JNull end);
        ("useful_flop_throughput", JFloat (useful_flop_throughput p))].

Definition recovery_json (r : recovery) : json :=
  JObj [("magnitude", JFloat (r_magnitude r));
        ("cleave_lost_flops", JFloat (cleave_lost_flops r));
        ("mean_baseline_lost_flops", JFloat (mean_baseline_lost_flops r));
        ("recovered_flops", JFloat (recovered_flops r));
        ("recovered_fraction_of_useful", JFloat (recovered_fraction_of_useful r))].

Definition summary_json (x : summary) : obj :=
  let s := sum_settings x in
  [("experiment", JStr "within_batch_dynamic_performance"); ("model", JStr "opt-13b");
   ("num_devices", JInt (sum_num_devices x));
   ("magnitudes", JList (JFloat <$> s_magnitudes s));
   ("variation_model",
    JObj [("num_bins", JInt (s_num_bins s)); ("event_rate", JFloat (s_event_rate s));
          ("duration_frac", JFloat (s_duration_frac s));
          ("network_drift_std", JStr "0.5 * magnitude"); ("seed", JInt (s_seed s))]);
   ("base_runtime_ms", JObj ((fun kv => (kv.1, JFloat kv.2)) <$> base_runtime_ms x));
   ("per_baseline",
    JObj ((fun kv => (kv.1, JObj [("points", JList (point_json <$> kv.2))]))
            <$> per_baseline x));
   ("recovered_useful_flops",
    JObj match recovered_useful_flops x with
         | Some l => [("per_magnitude", JList (recovery_json <$> l))]
         | None => []
         end)].

(** [main], up to the writing of the file; the numeric options as [argparse] has read them *)
Definition main (root magnitudes : string) (num_bins : Z) (event_rate duration_frac : float)
    (seed : Z) : outcome obj :=
  ms ← mapO (fun x => of_option (ValueError "could not convert string to float")
                        (float_of_str x)) (split_on "," magnitudes);
  x ← run (posix_path root) (mk_settings ms num_bins event_rate duration_frac seed);
  Ret (summary_json x).
End run.

(** ** The rates of a generated trace *)

Lemma flt_least x : flt (f_lit 1 6) x = true -> x = finf \/ exists m e, x = S754_finite false m e.
Proof.
  replace (f_lit 1 6) with (S754_finite false 4722366482869645 (-72)) by (by vm_compute).
  destruct x as [[]|[]| |[] m e]; try done; [by left|right; by eexists _, _].
Qed.

Lemma round_aux_sign s m e l :
  match binary_round_aux prec emax s m e l with
  | S754_finite s' _ _ | S754_infinity s' => s' = s
  | _ => True
  end.
Proof.
  unfold binary_round_aux. destruct (shr_fexp prec emax m e l) as [r1 e1].
  destruct (shr_fexp prec emax _ e1 loc_Exact) as [r2 e2].
  destruct (shr_m r2); try done. by destruct (_ <=? _).
Qed.

(** A rounded multiplier above [1e-6] is a canonical number or infinite. *)
Lemma round6_pfin x : flt (f_lit 1 6) (round6 x) = true -> round6 x = finf \/ pfin (round6 x).
Proof.
  intros Hx. apply flt_least in Hx as [->|(m & e & Hx)]; [by left|].
  destruct x as [s|s| |s mx ex]; try done. unfold round6 in *. revert Hx.
  set (n := if 0 <=? ex then _ else _). clearbody n. unfold f_of_dec.
  destruct n as [|p|p]; [done| |done].
  change (0 <=? -6) with false. cbn iota. destruct s.
  - unfold f_quot_pos. destruct (SFdiv_core_binary _ _ _ _ _ _) as [[mz ez] lz].
    pose proof (round_aux_sign true mz ez lz) as Hs. intros Hx. by rewrite Hx in Hs.
  - intros _. destruct (f_quot_pos_ge p (pow10 (- -6)) fzero) as [?|[? _]];
      [by apply pfinb_pfin| |by left|by right].
    pose proof one_pos. change (fval fzero) with 0. lia.
Qed.

(** The multipliers of a generated device *)
Definition generated_device (nb : Z) (j : json) : Prop :=
  exists fl ul dl,
    j = JObj [("flops_mult", JList (map JFloat fl)); ("ul_bw_mult", rounded ul);
              ("dl_bw_mult", rounded dl)] /\
    Z.of_nat (length fl) = nb /\ Z.of_nat (length ul) = nb /\ Z.of_nat (length dl) = nb /\
    Forall slowdown fl.

Definition full : float := f_of_Z 1.

Lemma full_fval : pfin full /\ fval full = one.
Proof. apply f_of_Z_fval. lia. Qed.

(** A rate: positive and at most one *)
Definition rate (x : float) : Prop := pfin x /\ 0 < fval x <= one.

Lemma rate_full : rate full.
Proof. pose proof one_pos. destruct full_fval as [Hp Hv]. split; [done|]. lia. Qed.

(** The least of three floats, the first of which is finite *)
Lemma min3_floats x y z :
  exists r, min3 (JFloat x) (JFloat y) (JFloat z) = Ret (JFloat r) /\
    (r = x \/ (r = y \/ r = z) /\ flt r x = true).
Proof.
  unfold min3, json_lt. cbn [number_of mbind outcome_bind].
  destruct (flt y x) eqn:Hyx; cbn [number_of mbind outcome_bind].
  - destruct (flt z y) eqn:Hzy; (eexists; split; [done|]); right.
    + split; [by right|]. by eapply flt_trans.
    + split; [by left|done].
  - destruct (flt z x) eqn:Hzx; (eexists; split; [done|]); [right; split; [by right|done]|by left].
Qed.

Lemma rounded_index l b :
  0 <= b < Z.of_nat (length l) ->
  exists x, json_index (rounded l) b = Ret (JFloat (round6 x)).
Proof.
  intros Hb. unfold rounded, json_index.
  destruct (py_index_ok ((fun x => JFloat (round6 x)) <$> l) b) as (j & -> & Hin);
    [by rewrite length_fmap|].
  apply list_elem_of_fmap in Hin as (x & -> & _). by exists x.
Qed.

Lemma least_rate_bounds : pfin (f_lit 1 6) /\ 0 < fval (f_lit 1 6) <= one.
Proof. split; [by apply pfinb_pfin|]. by vm_compute. Qed.

(** [max(1e-6, r)] of a minimum that is at most a slowdown *)
Lemma clamped_rate f r y :
  slowdown f -> r = f \/ r = round6 y /\ flt r f = true -> rate (fmax (f_lit 1 6) r).
Proof.
  intros [Hf [_ Hf1]] Hr. unfold fmax. destruct (flt (f_lit 1 6) r) eqn:Hl.
  2:{ destruct least_rate_bounds. by split. }
  assert (Hp : pfin r).
  { destruct Hr as [->|[-> Hlt]]; [done|]. destruct (round6_pfin y Hl) as [Hi|]; [|done].
    rewrite Hi in Hlt. apply pfin_cases in Hf as [->|(m & e & -> & _)]; done. }
  destruct least_rate_bounds as [Hp0 [Hv0 _]]. apply flt_true in Hl; [|apply Hp0|apply Hp].
  split; [done|]. split; [lia|]. destruct Hr as [->|[_ Hlt]]; [done|].
  apply flt_true in Hlt; [lia|apply Hp|apply Hf].
Qed.

Lemma generated_rate nb j b :
  generated_device nb j -> 0 <= b < nb ->
  exists f u w r, rate_at j b "flops_mult" = Ret f /\ rate_at j b "ul_bw_mult" = Ret u /\
    rate_at j b "dl_bw_mult" = Ret w /\ min3 f u w = Ret (JFloat r) /\ rate (fmax (f_lit 1 6) r).
Proof.
  intros (fl & ul & dl & -> & Hfl & Hul & Hdl & Hs) Hb.
  destruct (py_index_ok (map JFloat fl) b) as (jf & Hjf & Hin); [rewrite length_map; lia|].
  apply list_elem_of_In, in_map_iff in Hin as (f & <- & Hin%list_elem_of_In).
  destruct (rounded_index ul b) as (u & Hu); [lia|].
  destruct (rounded_index dl b) as (w & Hw); [lia|].
  destruct (min3_floats f (round6 u) (round6 w)) as (r & Hr & Hor).
  exists (JFloat f), (JFloat (round6 u)), (JFloat (round6 w)), r.
  split_and!; [exact Hjf|exact Hu|exact Hw|exact Hr|].
  assert (Hsf : slowdown f) by exact (proj1 (Forall_forall _ _) Hs f Hin).
  destruct Hor as [->|[[Heq|Heq] Hlt]].
  - apply (clamped_rate f f u); [exact Hsf|by left].
  - apply (clamped_rate f r u); [exact Hsf|right; split; [exact Heq|exact Hlt]].
  - apply (clamped_rate f r w); [exact Hsf|right; split; [exact Heq|exact Hlt]].
Qed.

(** *** The mean rate *)

Lemma py_sum_rates l :
  Forall rate l -> Z.of_nat (length l) < 2 ^ 53 ->
  pfin (py_sum l) /\ fval (py_sum l) <= Z.of_nat (length l) * one.
Proof.
  intros Hl. induction l as [|x l IH] using rev_ind; intros Hlen.
  { split; [by apply pfinb_pfin|done]. }
  rewrite length_app in Hlen |- *. cbn [length] in Hlen |- *.
  apply Forall_app in Hl as [Hl Hx]. apply Forall_singleton in Hx as [Hx [_ Hx1]].
  destruct IH as [Hs Hs1]; [done|lia|]. unfold py_sum in *. rewrite foldl_app. cbn [foldl].
  destruct (f_of_Z_fval (Z.of_nat (length l + 1)) ltac:(lia)) as [Hn Hv].
  rewrite <- Hv. apply fadd_le; [done..|]. rewrite Hv. lia.
Qed.

Lemma mean_of_rates l :
  l <> [] -> Forall rate l -> Z.of_nat (length l) < 2 ^ 53 ->
  exists m, mean_of l = Ret m /\ pfin m /\ fval m <= one.
Proof.
  intros Hne Hl Hlen. unfold mean_of.
  assert (Hpos : (0 < length l)%nat) by (destruct l; [done|cbn [length]; lia]).
  destruct (float_of_int_fval (Z.of_nat (length l)) ltac:(lia)) as (n & -> & Hn & Hv).
  cbn [mbind outcome_bind]. destruct (py_sum_rates l Hl Hlen) as [Hs Hs1].
  pose proof one_pos. pose proof full_fval as [Hf Hf1].
  assert (exists m, fdiv (py_sum l) n = Ret m) as [m Hm].
  { apply pfin_cases in Hn as [->|(k & e & -> & _)]; [|by eexists].
    change (fval fzero) with 0 in Hv. nia. }
  exists m. split; [done|]. rewrite <- Hf1. eapply fdiv_le; [exact Hs|exact Hn|done|exact Hm|].
  rewrite Hf1, Hv. nia.
Qed.

Lemma rate_bin_ok nb l nl :
  0 < nb < 2 ^ 53 -> 0 <= l < nl ->
  exists b, rate_bin l nl nb = Ret b /\ 0 <= b < nb.
Proof.
  intros Hnb Hl. destruct (level_bin_ok nb l nl Hnb Hl) as (b & Hb & Hr). exists b.
  split; [|done]. rewrite <- Hb. unfold rate_bin, BatchRuntime.level_bin.
  destruct (nl <=? 1); [done|].
  destruct (int_truediv_below_one l nl Hl) as (x & Hx & _ & _ & Hs). rewrite Hx.
  cbn [mbind outcome_bind]. by destruct x as [[]|[]| |[] m e].
Qed.

Section generated.
Context `{Numpy} `{!NumpyLaws} {R : Type} `{Rng R} `{!RngLaws R}.
Context (a : within_batch_args) (Hmag : depth (magnitude a)) (Hbins : 0 < num_bins a < 2 ^ 53).

Lemma device_trace_generated dur :
  returns (device_trace a dur : M R _) (generated_device (num_bins a)).
Proof using All.
  unfold device_trace. eapply returns_bind; [apply returns_any|]; intros ev _.
  eapply (returns_bind _ _ (fun fl => length fl = Z.to_nat (num_bins a) /\ Forall slowdown fl)).
  { intros r fl r' Hfl. split.
    - apply events_loop_length in Hfl. by rewrite length_replicate in Hfl.
    - eapply events_loop_slowdown, Hfl; [exact Hmag|]. apply Forall_replicate, slowdown_one. }
  intros fl [Hlen Hfl].
  eapply returns_bind; [apply drift_series_length|]; intros ul Hul.
  eapply returns_bind; [apply drift_series_length|]; intros dl Hdl.
  apply returns_ret. exists (map round6 fl), (contend fl ul), (contend fl dl).
  cbn beta in *. rewrite length_map. split_and!; [|lia|unfold contend; rewrite length_zip_with; lia..|].
  - unfold rounded. by rewrite (map_map round6 JFloat).
  - apply Forall_fmap. eapply Forall_impl; [exact Hfl|]. intros x. apply slowdown_round6.
Qed.

(** The devices of a generated trace *)
Definition generated_trace (trace : obj) : Prop :=
  exists devs, dict_get_default "devices" (JObj []) trace = JObj devs /\
               dict_all (generated_device (num_bins a)) devs.

Lemma generate_generated r trace r' :
  generate_within_batch_traces a r = (Ret trace, r') -> generated_trace trace.
Proof using All.
  unfold generate_within_batch_traces, mbind, M_bind, lift, mret, M_ret.
  destruct (float_of_int (num_bins a)) as [nb|]; [|done]. destruct (py_round _) as [d|]; [|done].
  destruct (devices_loop a (Z.max 1 d) (seqZ 0 (num_devices a)) [] r) as [[devs|] r1] eqn:Hl;
    [|done].
  intros [= <- _]. exists devs. split; [done|].
  exact (devices_loop_all _ _ _ _ _ (device_trace_generated _) (dict_all_nil _) r devs r1 Hl).
Qed.

Lemma device_rate_ok devs b d :
  dict_all (generated_device (num_bins a)) devs -> 0 <= b < num_bins a ->
  exists x, device_rate (JObj devs) b d = Ret x /\ rate x.
Proof using All.
  intros Hall Hb. unfold device_rate. cbn [Violations.get_field mbind outcome_bind].
  unfold dict_get_default. destruct (dict_get (str_of_Z d) devs) as [j|] eqn:Hj.
  2:{ exists full. split; [done|apply rate_full]. }
  cbn [default from_option id]. apply (dict_all_get _ _ _ _ Hall) in Hj.
  destruct (generated_rate _ j b Hj Hb) as (f & u & w & r & Hf & Hu & Hw & Hm & Hr).
  destruct (truthy j); [|exists full; split; [done|apply rate_full]]. cbn [negb].
  rewrite Hf. cbn [mbind outcome_bind]. rewrite Hu. cbn [mbind outcome_bind]. rewrite Hw.
  cbn [mbind outcome_bind]. rewrite Hm. by eexists.
Qed.

Lemma mean_rate_ok trace devices l nl :
  generated_trace trace -> Z.of_nat (length devices) < 2 ^ 53 -> 0 <= l < nl ->
  exists m, mean_rate trace devices l nl (num_bins a) = Ret m /\ pfin m /\ fval m <= one.
Proof using All.
  intros (devs & Hdevs & Hall) Hlen Hl. destruct devices as [|d ds].
  { exists full. pose proof full_fval as [Hp Hv]. split_and!; [done|done|lia]. }
  set (l0 := d :: ds) in *. change (mean_rate trace l0 l nl (num_bins a)) with
    (b ← rate_bin l nl (num_bins a);
     rates ← mapO (device_rate (dict_get_default "devices" (JObj []) trace) b) l0;
     mean_of rates).
  destruct (rate_bin_ok (num_bins a) l nl Hbins Hl) as (b & -> & Hb).
  cbn [mbind outcome_bind]. rewrite Hdevs.
  assert (Hm : owp (mapO (device_rate (JObj devs) b) l0) (Forall rate) (fun _ => False)).
  { apply owp_mapO. intros x _. destruct (device_rate_ok devs b x Hall Hb) as (y & -> & Hy).
    exact Hy. }
  destruct (mapO (device_rate (JObj devs) b) l0) as [rates|] eqn:Hr; [|done].
  cbn [mbind outcome_bind]. apply mapO_length in Hr. apply mean_of_rates; [|done|by rewrite Hr].
  by destruct rates.
Qed.
End generated.

(** ** CLEAVE's levels are never faster *)

Lemma fle_slower t q :
  pfin t -> q = finf \/ pfin q /\ fval t <= fval q -> fle t q = true.
Proof.
  intros Ht [->|[Hq Hle]].
  - by apply pfin_cases in Ht as [->|(m & e & -> & _)].
  - apply fle_fval; [apply Ht|apply Hq|exact Hle].
Qed.

Lemma divided_time t m :
  pfin t -> pfin m -> fval m <= one ->
  exists x, (if flt fzero m then fdiv t m else Ret t) = Ret x /\ fle t x = true.
Proof.
  intros Ht Hm Hm1. destruct (flt fzero m) eqn:Hpos.
  2:{ exists t. split; [done|]. apply fle_slower; [done|]. right. split; [done|lia]. }
  assert (exists q, fdiv t m = Ret q) as [q Hq].
  { apply pfin_cases in Hm as [->|(k & e & -> & _)]; [done|by eexists]. }
  exists q. split; [done|]. apply fle_slower; [done|].
  eapply fdiv_ge; [exact Ht|exact Hm|exact Ht|exact Hq|]. apply pfin_fval in Ht. nia.
Qed.

(** The loop is the sum of the levels' times. *)
Lemma reweighted_sum nominal trace devices nb nl times :
  mapO (level_time trace devices nb nl) (per_level_breakdown nominal) = Ret times ->
  cleave_reweighted_runtime nominal trace devices nb nl =
  Ret (fadd (py_sum times) (optimizer_tail_ms nominal)).
Proof.
  unfold cleave_reweighted_runtime, py_sum. generalize fzero as acc.
  revert times. induction (per_level_breakdown nominal) as [|row rows IH]; intros times acc;
    cbn [mapO foldO].
  - by intros [= <-].
  - destruct (level_time _ _ _ _ row) as [x|]; [|done].
    destruct (mapO _ rows) as [xs|]; [|done]. intros [= <-]. cbn [mbind outcome_bind foldl].
    by apply IH.
Qed.

Definition level_ok (nl : Z) (row : level_row) : Prop :=
  pfin (runtime_ms row) /\ 0 <= row_level row < nl.

(** The devices of every level are fewer than 2^53. *)
Definition few_devices (devices : list (Z * list Z)) : Prop :=
  forall l, Z.of_nat (length (dict_get_default l [] devices)) < 2 ^ 53.

(** C25: CLEAVE under a generated trace.  Whatever the generator draws, for a depth in
    [0, 1] and levels the batch has, the reweighting raises nothing: every level has a mean
    rate of its devices, and its time is at least its nominal time (infinite after an
    overflow), whatever the drift of the network; the runtime is the sum of these times and
    the optimizer tail. *)
Theorem cleave_levels_inflated `{Numpy} `{!NumpyLaws} {R : Type} `{Rng R} `{!RngLaws R}
    a (r : R) trace r' nominal devices nl :
  depth (magnitude a) -> 0 < num_bins a < 2 ^ 53 ->
  generate_within_batch_traces a r = (Ret trace, r') ->
  few_devices devices -> Forall (level_ok nl) (per_level_breakdown nominal) ->
  exists times,
    mapO (level_time trace devices (num_bins a) nl) (per_level_breakdown nominal) = Ret times /\
    Forall2 (fun row x => fle (runtime_ms row) x = true) (per_level_breakdown nominal) times /\
    cleave_reweighted_runtime nominal trace devices (num_bins a) nl =
      Ret (fadd (py_sum times) (optimizer_tail_ms nominal)).
Proof.
  intros Hmag Hbins Hgen Hdev Hrows.
  pose proof (generate_generated a Hmag Hbins r trace r' Hgen) as Htrace.
  enough (exists times,
    mapO (level_time trace devices (num_bins a) nl) (per_level_breakdown nominal) = Ret times /\
    Forall2 (fun row x => fle (runtime_ms row) x = true) (per_level_breakdown nominal) times)
    as (times & Hm & Hall).
  { exists times. split; [exact Hm|]. split; [exact Hall|]. by apply reweighted_sum. }
  induction Hrows as [|row rows [Ht Hl] _ (xs & Hxs & Hall)]; [by exists []|].
  destruct (mean_rate_ok a Hmag Hbins trace (dict_get_default (row_level row) [] devices)
              (row_level row) nl Htrace (Hdev _) Hl) as (m & Hm & Hp & Hm1).
  destruct (divided_time (runtime_ms row) m Ht Hp Hm1) as (x & Hx & Hle).
  assert (Hlt : level_time trace devices (num_bins a) nl row = Ret x).
  { unfold level_time. rewrite Hm. exact Hx. }
  exists (x :: xs). cbn [mapO]. rewrite Hlt, Hxs. split; [done|]. by constructor.
Qed.

(** ** The idle fraction *)

Lemma shr_fexp_exponent m e l : emin <= (shr_fexp prec emax m e l).2.
Proof.
  unfold shr_fexp, shr. change (SpecFloat.emin prec emax) with emin.
  assert (Hf : emin <= fexp prec emax (Zdigits2 m + e))
    by (change (emin <= Z.max (Zdigits2 m + e - 53) emin); lia).
  destruct (fexp prec emax (Zdigits2 m + e) - e) as [|n|n] eqn:Hn; cbn [snd]; lia.
Qed.

Lemma round_aux_exponent s m e l s' m' e' :
  binary_round_aux prec emax s m e l = S754_finite s' m' e' -> emin <= e'.
Proof.
  unfold binary_round_aux. destruct (shr_fexp prec emax m e l) as [r1 e1].
  pose proof (shr_fexp_exponent (round_nearest_even (shr_m r1) (loc_of_shr_record r1)) e1 loc_Exact)
    as He. destruct (shr_fexp prec emax _ e1 loc_Exact) as [r2 e2]. cbn [snd] in He.
  destruct (shr_m r2); try done. destruct (_ <=? _); [|done].
  intros Heq. injection Heq. lia.
Qed.

(** A quotient by something above zero is not negative. *)
Lemma share_not_negative x y :
  not_neg x = true -> fle y fzero = false ->
  exists q, fdiv x y = Ret q /\ not_neg q = true /\
            (forall m e, q = S754_finite false m e -> emin <= e).
Proof.
  intros Hx Hy. destruct y as [s|s| |s my ey]; [by destruct s|..].
  - destruct s; [done|]. exists (SFdiv prec emax x (S754_infinity false)). split; [done|].
    by destruct x as [[]|[]| |[] m e].
  - exists S754_nan. destruct x as [[]|[]| |[] m e]; done.
  - destruct s; [done|]. exists (SFdiv prec emax x (S754_finite false my ey)). split; [done|].
    destruct x as [[]|[]| |[] mx ex]; try done. cbn [SFdiv xorb].
    destruct (SFdiv_core_binary _ _ _ _ _ _) as [[mz ez] lz].
    pose proof (round_aux_sign false mz ez lz) as Hs.
    pose proof (round_aux_exponent false mz ez lz) as He.
    destruct (binary_round_aux prec emax false mz ez lz) as [[]|s| |s m e]; try done.
    + by rewrite Hs.
    + rewrite Hs. split; [done|]. intros m' e' [= <- <-]. by eapply He.
Qed.

Lemma one_minus_finite m e :
  emin <= e ->
  flt fzero (fsub full (S754_finite false m e)) = false \/
  pfin (fsub full (S754_finite false m e)) /\ fval (fsub full (S754_finite false m e)) <= one.
Proof.
  intros He. pose proof full_fval as [Hp Hv]. revert Hp Hv.
  assert (Hfull : full = S754_finite false 4503599627370496 (-52)) by (by vm_compute).
  set (mx := 4503599627370496%positive) in *. set (ex := -52) in *.
  rewrite Hfull. intros Hp Hv. clear Hfull. unfold fsub. cbn [SFsub cond_Zopp].
  set (ez := Z.min ex e). assert (Hez : emin <= ez <= ex) by (unfold ez, ex, emin in *; lia).
  pose proof (align_fval mx ex ez ltac:(lia)) as Hx.
  set (a := Zpos (fst (shl_align mx ex ez))) in *.
  set (b := Zpos (fst (shl_align m e ez))). assert (Hb : 0 < b) by (unfold b; lia).
  destruct (a - b) as [|p|p] eqn:Hab; cbn [binary_normalize]; [by left|right|left].
  - rewrite <- Hv. apply binary_round_le; [lia|done|]. rewrite <- Hx, <- Hab.
    pose proof (pow_pos (ez - emin) ltac:(lia)). nia.
  - unfold binary_round. destruct (shl_align p _ _) as [mz ez'].
    pose proof (round_aux_sign true (Zpos mz) ez' loc_Exact) as Hs.
    by destruct (binary_round_aux _ _ _ _ _ _) as [[]|[]| |[] ? ?].
Qed.

(** [max(0.0, 1.0 - share)] *)
Lemma clamped_rest q :
  not_neg q = true -> (forall m e, q = S754_finite false m e -> emin <= e) ->
  fle fzero (fmax fzero (fsub full q)) = true /\ fle (fmax fzero (fsub full q)) full = true.
Proof.
  intros Hq He. pose proof full_fval as [Hp Hv]. pose proof one_pos.
  assert (Hz : fle fzero fzero = true /\ fle fzero full = true)
    by (by split; vm_compute).
  assert (H1 : fle fzero full = true /\ fle full full = true) by (by split; vm_compute).
  unfold fmax. destruct q as [s|s| |s m e].
  - by destruct s.
  - by destruct s.
  - done.
  - destruct s; [done|]. destruct (one_minus_finite m e (He m e eq_refl)) as [->|[Hpf Hle]]; [done|].
    destruct (flt fzero (fsub full (S754_finite false m e))) eqn:Hl; [|done].
    split; [by apply flt_fle|]. apply fle_fval; [apply Hpf|apply Hp|lia].
Qed.

(** The share of the provisioned device time that a batch leaves idle exists and lies
    between zero and one, for every result of the accounting with up to 2^53 devices,
    whether times vanish, overflow to infinity or become NaN. *)
Theorem idle_fraction_bounded repr events manifest b o result nd :
  compute_batch_runtime repr events manifest b o = Ret result -> 0 <= nd < 2 ^ 53 ->
  exists x, idle_fraction result nd = Ret x /\ fle fzero x = true /\ fle x (f_of_Z 1) = true.
Proof.
  intros Hr Hnd. pose proof (compute_batch_runtime_owp repr events manifest b o) as Ho.
  rewrite Hr in Ho. destruct Ho as [Hn _]. unfold idle_fraction.
  destruct (float_of_int_fval nd Hnd) as (n & -> & _). cbn [mbind outcome_bind].
  destruct (fle (fmul n (total_runtime_ms result)) fzero) eqn:Hp.
  { exists fzero. by split_and!; vm_compute. }
  set (busy := py_sum _). assert (Hbusy : not_neg busy = true).
  { apply py_sum_nn, Forall_fmap, Forall_forall. intros kv Hin.
    destruct Hn as [_ _ _ _ Hd _]. apply (proj1 (Forall_forall _ _) Hd kv Hin). }
  destruct (share_not_negative busy _ Hbusy Hp) as (q & -> & Hq & He). cbn [mbind outcome_bind].
  eexists. split; [done|]. exact (clamped_rest q Hq He).
Qed.

(** ** The sweep *)

Section sweep.
Context `{Numpy} {R : Type} `{Rng R}.
Context (repr : json -> string) (default_rng : Z -> outcome R).

(** Every baseline of the cache has one point for each of the magnitudes [ms]. *)
Definition aligned (cache : list (string * cached)) (ms : list float)
    (points : list (string * list point)) : Prop :=
  dict_keys points = dict_keys cache /\
  forall b, b ∈ dict_keys cache ->
    exists ps, dict_get b points = Some ps /\ p_magnitude <$> ps = ms.

Lemma point_magnitude s b c m trace p : point_of repr s b c m trace = Ret p -> p_magnitude p = m.
Proof.
  unfold point_of. destruct (runtime_under repr s b c trace) as [[rt idle]|]; [|done].
  cbn [mbind outcome_bind]. destruct (ftruthy _); cbn [mbind outcome_bind];
    [destruct (fdiv rt _); [|done]; cbn [mbind outcome_bind]|];
    (destruct (flt fzero rt); cbn [mbind outcome_bind];
       [destruct (fdiv (c_useful_flops c) rt); [|done]|]); by intros [= <-].
Qed.

(** The turn of a magnitude over the baselines [l] adds a point to each of them. *)
Lemma turn_points s m trace l points points' :
  NoDup l.*1 -> (forall b, b ∈ l.*1 -> b ∈ dict_keys points) ->
  foldO (fun points bc => p ← point_of repr s bc.1 bc.2 m trace;
                          Ret (dict_alter (fun o => default [] o ++ [p]) bc.1 points)) l points
  = Ret points' ->
  dict_keys points' = dict_keys points /\
  forall b ps, dict_get b points = Some ps ->
    exists ps', dict_get b points' = Some (ps ++ ps') /\
                p_magnitude <$> ps' = if decide (b ∈ l.*1) then [m] else [].
Proof.
  revert points. induction l as [|[b0 c] l IH]; intros points Hnd Hin; cbn [foldO].
  { intros [= <-]. split; [done|]. intros b ps Hb. exists []. by rewrite app_nil_r. }
  change (((b0, c) :: l).*1) with (b0 :: l.*1) in *. cbn [fst snd].
  apply NoDup_cons in Hnd as [Hb0 Hnd].
  destruct (point_of repr s b0 c m trace) as [p|] eqn:Hp; [|done]. cbn [mbind outcome_bind].
  apply point_magnitude in Hp.
  set (points1 := dict_alter _ b0 points). intros Hf.
  assert (Hk : dict_keys points1 = dict_keys points).
  { unfold points1, dict_alter. rewrite dict_keys_set, decide_True; [done|]. apply Hin. by left. }
  apply IH in Hf as [Hkeys Hget]; [|done|intros b Hb; rewrite Hk; apply Hin; by right].
  split; [by rewrite Hkeys|]. intros b ps Hb.
  assert (H1 : dict_get b points1 = Some (if decide (b = b0) then ps ++ [p] else ps)).
  { unfold points1. rewrite dict_get_alter. case_decide as Heq; [|done]. subst. by rewrite Hb. }
  apply Hget in H1 as (ps' & Hps & Hm). destruct (decide (b = b0)) as [->|Hne].
  - exists ([p] ++ ps'). rewrite Hps, app_assoc. split; [done|].
    rewrite decide_False in Hm by done. rewrite decide_True by (by left).
    change ([p] ++ ps') with (p :: ps'). by rewrite fmap_cons, Hm, Hp.
  - exists ps'. split; [done|]. rewrite Hm. apply decide_ext.
    rewrite elem_of_cons. by split; [right|intros [?|?]].
Qed.

Lemma turn_aligned s cache ms m points points' :
  dict_wf cache -> aligned cache ms points ->
  magnitude_turn repr default_rng s cache points m = Ret points' ->
  aligned cache (ms ++ [m]) points'.
Proof.
  intros Hwf [Hk Hget]. unfold magnitude_turn.
  destruct (magnitude_trace _ _ _ _) as [trace|]; [|done]. cbn [mbind outcome_bind].
  intros Ht. apply turn_points in Ht as [Hk' Hget']; [|done|by rewrite Hk].
  split; [by rewrite Hk'|]. intros b Hb. destruct (Hget b Hb) as (ps & Hps & Hm).
  destruct (Hget' b ps Hps) as (ps' & Hps' & Hm'). exists (ps ++ ps'). split; [done|].
  rewrite fmap_app, Hm, Hm', decide_True; [done|exact Hb].
Qed.

Lemma sweep_aligned s cache points :
  dict_wf cache -> sweep repr default_rng s cache = Ret points ->
  aligned cache (s_magnitudes s) points.
Proof.
  intros Hwf. unfold sweep.
  assert (Hstart : aligned cache [] ((fun bc => (bc.1, [])) <$> cache)).
  { split; [unfold dict_keys; by rewrite <- list_fmap_compose|]. clear Hwf.
    intros b. unfold dict_keys. induction cache as [|[b0 c] cache IH]; [by intros ?%elem_of_nil|].
    intros Hb. cbn [fmap list_fmap dict_get fst]. case_decide; [by eexists|].
    apply IH. by apply elem_of_cons in Hb as [?|?]. }
  change (s_magnitudes s) with ([] ++ s_magnitudes s) at 2. revert Hstart. generalize (@nil float) as done_.
  generalize ((fun bc : string * cached => (bc.1, @nil point)) <$> cache) as acc.
  induction (s_magnitudes s) as [|m ms IH]; intros acc done_ Hstart; cbn [foldO].
  { intros [= <-]. by rewrite app_nil_r. }
  destruct (magnitude_turn _ _ _ _ _ _) as [acc'|] eqn:Ht; [|done]. intros Hf.
  pose proof (IH acc' (done_ ++ [m]) (turn_aligned _ _ _ _ _ _ Hwf Hstart Ht) Hf) as Ha.
  by rewrite <- app_assoc in Ha.
Qed.
End sweep.

Section recovery.
Context (cache : list (string * cached)) (points : list (string * list point)).
Context (ms : list float) (Hpoints : aligned cache ms points).

Lemma item_cached b : b ∈ dict_keys cache -> exists c, item b cache = Ret c.
Proof.
  intros [c Hc]%dict_get_is_Some. exists c. unfold item. by rewrite Hc.
Qed.

Lemma loss_at_divides i b :
  (i < length ms)%nat -> b ∈ dict_keys cache ->
  owp (loss_at cache points i b) (fun _ => True) PlotSchema.division_error.
Proof using Hpoints.
  intros Hi Hb. destruct (proj2 Hpoints b Hb) as (ps & Hps & Hm).
  assert (Hlen : length ps = length ms) by (by rewrite <- Hm, length_fmap).
  destruct (lookup_lt_is_Some_2 ps i ltac:(lia)) as [pt Hpt].
  destruct (item_cached b Hb) as [c Hc].
  assert (Hi' : item b points = Ret ps) by (unfold item; by rewrite Hps).
  unfold loss_at, base_runtime. rewrite Hi'. cbn [mbind outcome_bind].
  rewrite Hpt. cbn [of_option mbind outcome_bind]. rewrite Hc. cbn [mbind outcome_bind].
  apply owp_bind, PlotSchema.fdiv_owp; [done|]. by intros e.
Qed.

Lemma recovery_at_divides i m :
  (i < length ms)%nat -> "cleave" ∈ dict_keys cache -> Z.of_nat (length cache) < 2 ^ 53 ->
  owp (recovery_at cache points i m) (fun r => r_magnitude r = m) PlotSchema.division_error.
Proof using Hpoints.
  intros Hi Hc Hlen. unfold recovery_at. destruct (item_cached _ Hc) as [c ->].
  cbn [mbind outcome_bind]. apply owp_bind.
  eapply owp_mono; [by apply loss_at_divides| |done]. intros cl _. apply owp_bind.
  set (bs := List.filter _ _).
  assert (Hbs : forall b, b ∈ bs -> b ∈ dict_keys cache).
  { intros b Hb%list_elem_of_In. apply filter_In in Hb as [Hb%list_elem_of_In _].
    by rewrite <- (proj1 Hpoints). }
  assert (Hn : (length bs <= length cache)%nat).
  { unfold bs. etransitivity; [apply List.filter_length_le|].
    rewrite (proj1 Hpoints). unfold dict_keys. by rewrite length_fmap. }
  assert (Hls : owp (mapO (loss_at cache points i) bs) (fun _ => True) PlotSchema.division_error).
  { eapply owp_mono; [apply (owp_mapO (fun _ => True))|done|done]. intros b Hb.
    apply loss_at_divides; auto. }
  destruct (mapO (loss_at cache points i) bs) as [ls|e] eqn:Hl; [|exact Hls].
  apply mapO_length in Hl. cbn [owp]. apply owp_bind.
  assert (Hmean : owp (match ls with [] => Ret fzero | _ => mean_of ls end) (fun _ => True)
            PlotSchema.division_error).
  { destruct ls as [|l0 ls]; [done|]. unfold mean_of.
    destruct (float_of_int_fval (Z.of_nat (length (l0 :: ls))) ltac:(lia)) as (n & -> & _).
    cbn [mbind outcome_bind]. by apply PlotSchema.fdiv_owp. }
  eapply owp_mono; [exact Hmean| |done]. intros mean _. apply owp_bind.
  destruct (ftruthy (c_useful_flops c)); [by apply PlotSchema.fdiv_owp|done].
Qed.
End recovery.

Lemma varied_magnitudes ms :
  (varied ms).*2 = List.filter (fun m => negb (fle m fzero)) ms /\
  Forall (fun im => (im.1 < length ms)%nat) (varied ms).
Proof.
  unfold varied. split.
  - enough (Hgen : forall (f : nat -> nat),
      (List.filter (fun im => negb (fle im.2 fzero)) (imap (fun i x => (f i, x)) ms)).*2
      = List.filter (fun m => negb (fle m fzero)) ms) by exact (Hgen id).
    induction ms as [|m ms IH]; intros f; [done|]. rewrite imap_cons. cbn [List.filter snd].
    destruct (negb (fle m fzero)); [rewrite fmap_cons; cbn [snd]; f_equal|]; apply (IH (f ∘ S)).
  - apply Forall_forall. intros [i m] Hin%list_elem_of_In. apply filter_In in Hin as [Hin _].
    apply list_elem_of_In, elem_of_lookup_imap in Hin as (j & x & [= -> ->] & Hj).
    by eapply lookup_lt_Some.
Qed.

Section outcome.
Context `{Numpy} {R : Type} `{Rng R}.
Context (exists_ : string -> bool) (read_text : string -> outcome string)
  (json_loads : string -> outcome json) (repr : json -> string)
  (default_rng : Z -> outcome R).

(** The cache has at most one entry for each baseline. *)
Lemma load_cache_keys root cache :
  load_cache exists_ read_text json_loads repr root = Ret cache ->
  dict_wf cache /\ dict_keys cache ⊆ BASELINES.
Proof.
  intros Hl. assert (Ho : owp (load_cache exists_ read_text json_loads repr root)
    (fun c => dict_wf c /\ dict_keys c ⊆ BASELINES) (fun _ => True)).
  { apply owp_foldO; [split; [apply dict_wf_nil|apply list_subseteq_nil]|].
    intros c b Hb [Hwf Hk]. unfold add_baseline.
    destruct (_ && _); [|by split]. destruct (load_baseline _ _ _ _ _ _) as [e|]; [|done].
    cbn [mbind outcome_bind owp]. split; [by apply dict_wf_set|]. rewrite dict_keys_set.
    case_decide; [done|]. intros x [Hx|Hx]%elem_of_app; [by apply Hk|].
    apply list_elem_of_singleton in Hx. by subst. }
  by rewrite Hl in Ho.
Qed.

(** The experiment's points and recoveries.  Once the inputs are loaded and the sweep
    has returned, every loaded baseline has one point per magnitude, in their order; the
    evaluation of the recovered work then finds every point and input it looks up, and can
    only fail by dividing by a runtime of zero; it has one row per magnitude above zero, in
    their order, and none without CLEAVE. *)
Theorem recovery_rows root s cache points :
  load_cache exists_ read_text json_loads repr root = Ret cache ->
  sweep repr default_rng s cache = Ret points ->
  aligned cache (s_magnitudes s) points /\
  owp (recovered_of cache points (s_magnitudes s))
    (fun o => match o with
              | Some rows => "cleave" ∈ dict_keys cache /\
                  r_magnitude <$> rows
                  = List.filter (fun m => negb (fle m fzero)) (s_magnitudes s)
              | None => "cleave" ∉ dict_keys cache
              end) PlotSchema.division_error.
Proof.
  intros Hl Hs. apply load_cache_keys in Hl as [Hwf Hsub].
  pose proof (sweep_aligned _ _ _ _ _ Hwf Hs) as Ha. split; [done|].
  assert (Hlen : Z.of_nat (length cache) < 2 ^ 53).
  { assert (length (dict_keys cache) <= length BASELINES)%nat
      by (by apply submseteq_length, NoDup_submseteq).
    unfold dict_keys in *. rewrite length_fmap in *. cbn [length BASELINES] in *. lia. }
  unfold recovered_of, dict_mem. destruct (dict_get "cleave" cache) as [c|] eqn:Hc.
  2:{ by apply dict_get_None. }
  assert (Hin : "cleave" ∈ dict_keys cache) by (apply dict_get_is_Some; by eexists).
  destruct (varied_magnitudes (s_magnitudes s)) as [<- Hi]. revert Hi.
  generalize (varied (s_magnitudes s)) as v. intros v Hi. apply owp_bind.
  enough (owp (mapO (fun im => recovery_at cache points im.1 im.2) v)
            (fun rows => r_magnitude <$> rows = v.*2) PlotSchema.division_error) as Ho
    by (eapply owp_mono; [exact Ho|by split|done]).
  induction Hi as [|[i m] v Him _ IH]; [done|]. cbn [mapO fst snd].
  pose proof (recovery_at_divides cache points _ Ha i m Him Hin Hlen) as Hr.
  destruct (recovery_at cache points i m) as [r|]; [|exact Hr].
  destruct (mapO _ v) as [rs|]; [|exact IH]. cbn [owp] in *. by rewrite !fmap_cons, Hr, IH.
Qed.
End outcome.

(** ** Examples *)

#[local] Existing Instance demo_rng.
#[local] Existing Instance demo_numpy.

#[local] Instance demo_rng_laws : RngLaws unit.
Proof. split; [intros lo hi r Hlt; cbn; lia|by intros lo hi r]. Qed.

#[local] Instance demo_numpy_laws : NumpyLaws.
Proof. done. Qed.

Definition demo_nominal : BatchRuntimeResult :=
  mk_BatchRuntimeResult "cleave" (f_of_Z 3006) (f_of_Z 10) (f_of_Z 15) fzero (f_of_Z 3000)
    (f_of_Z 1) [] [mk_level_row 0 (f_of_Z 5) 0; mk_level_row 1 (f_of_Z 3000) 0].

Definition demo_devices : list (Z * list Z) := [(0, [0; 1]); (1, [0])].

Lemma demo_generated : generate_within_batch_traces demo_args tt = (Ret demo_trace, tt).
Proof. vm_compute. reflexivity. Qed.

Definition demo_rows : list level_row :=
  [mk_level_row 0 (f_of_Z 5) 0; mk_level_row 1 (f_of_Z 3000) 0].

Lemma demo_rows_ok : Forall (level_ok 2) (per_level_breakdown demo_nominal).
Proof.
  change (Forall (level_ok 2) demo_rows).
  apply Forall_cons_2; [|apply Forall_cons_2; [|apply Forall_nil_2]];
    (split; [by apply pfinb_pfin|cbn [row_level]; lia]).
Qed.

Lemma demo_few : few_devices demo_devices.
Proof.
  intros l. unfold dict_get_default, demo_devices. cbn [dict_get].
  repeat case_decide; cbn [default from_option id length]; lia.
Qed.

Lemma demo_depth : depth (magnitude demo_args).
Proof. right. split; [by apply pfinb_pfin|]. by vm_compute. Qed.

Lemma cleave_levels_inflated_witness :
  exists times,
    mapO (level_time demo_trace demo_devices 4 2) demo_rows = Ret times /\
    Forall2 (fun row x => fle (runtime_ms row) x = true) demo_rows times.
Proof.
  destruct (cleave_levels_inflated demo_args tt demo_trace tt demo_nominal demo_devices 2)
    as (times & Hm & Hall & _);
    [exact demo_depth|split; reflexivity|exact demo_generated|exact demo_few|exact demo_rows_ok|].
  exists times. split; [exact Hm|exact Hall].
Defined.

(** The first level falls in a throttled bin, the second one does not. *)
Example demo_level_times :
  mapO (level_time demo_trace demo_devices 4 2) demo_rows
  = Ret [SFdiv prec emax (f_of_Z 5) (f_lit 65 2); f_of_Z 3000].
Proof. vm_compute. reflexivity. Qed.

(** A manifest in another shape that the accounting reads has no devices here, so CLEAVE
    is not slowed by a trace. *)
Lemma other_shapes_have_no_devices d :
  dict_get "entries" d = None -> level_devices (JObj d) = Ret [].
Proof.
  intros Hd. unfold level_devices, manifest_entries, dict_get_default. by rewrite Hd.
Qed.

Example levels_manifest_not_slowed :
  level_devices (BatchRuntime.demo_manifest (JInt 1)) = Ret [] /\
  mean_rate demo_trace [] 0 2 4 = Ret (f_of_Z 1) /\
  useful_flops (BatchRuntime.demo_manifest (JInt 1)) = Ret fzero.
Proof. by vm_compute. Qed.

Lemma idle_fraction_bounded_witness :
  exists result x,
    compute_batch_runtime demo_repr demo_events (BatchRuntime.demo_manifest (JInt 1)) "CLEAVE"
      demo_options = Ret result /\
    idle_fraction result 2 = Ret x /\ fle fzero x = true /\ fle x (f_of_Z 1) = true.
Proof.
  destruct (idle_fraction_bounded demo_repr demo_events (BatchRuntime.demo_manifest (JInt 1))
              "CLEAVE" demo_options _ 2 demo_ok) as (x & Hx); [lia|].
  eexists _, x. split; [exact demo_ok|exact Hx].
Defined.

(** *** Two baselines *)

Definition demo_log : string := "VTIME,10,0,1,COMPUTE,END,0,5000,5000".

Definition demo_inputs : json :=
  JObj [("entries",
         JList [JObj [("gemm_id", JInt 1); ("level", JInt 0); ("device_id", JInt 0);
                      ("type", JStr "cleave_tp"); ("m_total", JInt 4); ("n", JInt 5);
                      ("beta", JInt 6)];
                JObj [("gemm_id", JInt 1); ("level", JInt 0); ("device_id", JInt 1);
                      ("type", JStr "pp_local"); ("alpha", JInt 4)]])].

Definition demo_exists (p : string) : bool :=
  mem p ["r/cleave/vtime.log"; "r/vtime/dtfm/vtime.log"; "r/alpa/vtime.log";
         "r/cleave_results/manifests/cleave_manifest.json";
         "r/planning/manifests/dtfm_manifest.json"].

Definition demo_read (p : string) : outcome string :=
  Ret (if contains "vtime.log" p then demo_log else "manifest").

Definition demo_json (text : string) : outcome json := Ret demo_inputs.

Definition demo_settings : settings :=
  mk_settings [fzero; f_lit 5 1] 4 (f_of_Z 1) (f_lit 5 1) 42.

Definition demo_cache : list (string * cached) :=
  match load_cache demo_exists demo_read demo_json demo_repr (posix_path "./r/") with
  | Ret c => c | Raise _ => [] end.

Lemma demo_cached :
  load_cache demo_exists demo_read demo_json demo_repr (posix_path "./r/") = Ret demo_cache /\
  dict_keys demo_cache = ["cleave"; "dtfm"].
Proof. by vm_compute. Qed.

Definition demo_points : list (string * list point) :=
  match sweep demo_repr (fun _ => Ret tt) demo_settings demo_cache with
  | Ret p => p | Raise _ => [] end.

Lemma demo_swept :
  sweep demo_repr (fun _ => Ret tt) demo_settings demo_cache = Ret demo_points.
Proof. by vm_compute. Qed.

Lemma recovery_rows_witness :
  owp (recovered_of demo_cache demo_points (s_magnitudes demo_settings))
    (fun o => match o with
              | Some rows => r_magnitude <$> rows = [f_lit 5 1]
              | None => False
              end) PlotSchema.division_error.
Proof.
  destruct (recovery_rows demo_exists demo_read demo_json demo_repr (fun _ => Ret tt)
              (posix_path "./r/") demo_settings demo_cache demo_points
              (proj1 demo_cached) demo_swept) as [_ Ho].
  eapply owp_mono; [exact Ho| |intros e He; exact He].
  intros [rows|]; [intros [_ Hr]; exact Hr|]. intros Hno. apply Hno.
  rewrite (proj2 demo_cached). left.
Defined.

Example demo_sizes :
  useful_flops demo_inputs = Ret (f_of_Z 240) /\ num_devices_of demo_inputs = Ret 2 /\
  level_devices demo_inputs = Ret [(0, [0; 1])] /\
  posix_path "./r/" = mk_path "" ["r"] /\ path_str (posix_path "//a//b") ["c"] = "//a/b/c" /\
  path_str (posix_path ".") [] = ".".
Proof. by vm_compute. Qed.

(** Python compares an integer and a float exactly. *)
Example demo_min :
  min3 (JInt 1) (JFloat (f_lit 5 1)) (JBool true) = Ret (JFloat (f_lit 5 1)) /\
  min3 (JInt (2 ^ 53 + 1)) (JFloat (f_of_Z (2 ^ 53))) (JInt (2 ^ 53)) = Ret (JFloat (f_of_Z (2 ^ 53))) /\
  min3 (JInt 1) JNull (JInt 2) = Raise (TypeError "'<' not supported between instances").
Proof. by vm_compute. Qed.

(** Logs without a timed event give batches of zero length, and the experiment fails at
    the end, though its points are guarded against such batches. *)
Example empty_logs_divide_by_zero :
  run demo_exists (fun p => Ret "") demo_json demo_repr (fun _ => Ret tt) (posix_path "r")
    demo_settings = Raise (ZeroDivisionError "float division by zero").
Proof. vm_compute. reflexivity. Qed.

(** A whole run of the program *)
Example demo_main :
  exists x, main demo_exists demo_read demo_json demo_repr (fun _ => Ret tt) "r" "0,0.5" 4
              (f_of_Z 1) (f_lit 5 1) 42 = Ret x /\ dict_get "num_devices" x = Some (JInt 2).
Proof. eexists. split; vm_compute; reflexivity. Qed.
