(* ===== verification/Training.v ===== *)
(** * Data-parallel training ([scripts/_multi_coordinator_workload.py])

    The training loop of a coordinator, with blocking gradient reductions or with
    reductions that overlap the backward pass, and the golden run it is compared with.
    Tensors, the loss functions, the optimizer and the sum of a reduction are
    parameters; the reductions are those of [Collectives]. *)

From stdpp Require Import relations.
From S2P Require Import Prelude PyDict PyStr Collectives.
From S2P Require Messages Scaling.

(** ** The loop of one rank *)

(** A model's loss function: its loss, and the gradients the backward pass accumulates,
    in its order; a parameter is a number. *)
Record ModelStep (V T : Type) : Type := mk_model_step {
  loss_function : V -> T;
  backward : V -> list (nat * T);
}.
Arguments mk_model_step {V T}. Arguments loss_function {V T}. Arguments backward {V T}.

(** What a loop has reached: the model with its optimizer state, the measured losses and
    the phases recorded so far *)
Record trained (V F : Type) : Type := mk_trained {
  model : V; losses : list F; phases : list string;
}.
Arguments mk_trained {V F}. Arguments model {V F}. Arguments losses {V F}. Arguments phases {V F}.

Section training.
Context {V T F : Type} (optimizer_step : V -> gmap nat T -> V) (tdiv : T -> Z -> T) (item : T -> F)
  (parameters : list nat) (requires_grad : nat -> bool).

Definition put_grad (g : gmap nat T) (pt : nat * T) : gmap nat T := <[pt.1 := pt.2]> g.

(** [optimizer.zero_grad()] and [loss.backward()] *)
Definition grads_of (l : list (nat * T)) : gmap nat T := foldl put_grad ∅ l.

(** [_native_losses]: one step, and the loop *)
Definition native_step (m : ModelStep V T) (warmup : bool) (s : V * list F) : V * list F :=
  (optimizer_step s.1 (grads_of (backward m s.1)),
   if warmup then s.2 else s.2 ++ [item (loss_function m s.1)]).

Definition all_steps (c : Scaling.ScalingConfig) : list Z :=
  seqZ 0 (Scaling.warmup_iterations c + Scaling.measured_iterations c).
Definition is_warmup (c : Scaling.ScalingConfig) (step : Z) : bool :=
  step <? Scaling.warmup_iterations c.

Definition native_losses (c : Scaling.ScalingConfig) (m : ModelStep V T) (v : V) : list F :=
  (foldl (fun s step => native_step m (is_warmup c step) s) (v, []) (all_steps c)).2.

(** *** Overlapped reductions

    A parameter that requires a gradient starts its reduction as soon as its gradient is
    there, and is put on the list of pending ones ([_register_async_gradient_reduction]). *)
Definition hooked (p : nat) : bool := requires_grad p && bool_decide (p ∈ parameters).

Fixpoint backward_hooked (l : list (nat * T)) (g : gmap nat T) (pending : list (nat * nat)) :
    comm T (gmap nat T * list (nat * nat)) :=
  match l with
  | [] => mret (g, pending)
  | (p, t) :: l =>
      if hooked p then
        work ← all_reduce_async t;
        backward_hooked l (put_grad g (p, t)) (pending ++ [(p, work)])
      else backward_hooked l (put_grad g (p, t)) pending
  end.

(** [_finish_async_gradient_reduction] *)
Fixpoint finish_async_gradient_reduction (pending : list (nat * nat)) (coordinators : Z)
    (g : gmap nat T) : comm T (gmap nat T) :=
  match pending with
  | [] => mret g
  | (p, work) :: pending =>
      x ← wait work;
      finish_async_gradient_reduction pending coordinators (put_grad g (p, tdiv x coordinators))
  end.

(** [_reduce_gradients_blocking] *)
Fixpoint reduce_gradients_blocking (ps : list nat) (coordinators : Z) (g : gmap nat T) :
    comm T (gmap nat T) :=
  match ps with
  | [] => mret g
  | p :: ps =>
      match g !! p with
      | Some t =>
          x ← all_reduce t;
          reduce_gradients_blocking ps coordinators (put_grad g (p, tdiv x coordinators))
      | None => reduce_gradients_blocking ps coordinators g
      end
  end.

(** *** [_distributed_losses] *)

(** Leaving [with track_phase(recorder, name)] *)
Definition left_phase (recorded : bool) (name : string) (l : list string) : list string :=
  if recorded then l ++ [name] else l.

Definition phases_of_step (warmup : bool) (l : list string) : list string :=
  left_phase true (if warmup then "warmup_iteration" else "iteration_total")
    (left_phase (negb warmup) "optimizer"
      (left_phase (negb warmup) "gradient_sync"
        (left_phase (negb warmup) "backward_device_dispatch_aggregation"
          (left_phase (negb warmup) "forward_device_dispatch_aggregation" l)))).

(** The backward pass and the reduction of its gradients *)
Definition synchronised_gradients (overlap : bool) (coordinators : Z) (m : ModelStep V T) (v : V) :
    comm T (gmap nat T) :=
  if overlap then
    gp ← backward_hooked (backward m v) ∅ [];
    finish_async_gradient_reduction gp.2 coordinators gp.1
  else reduce_gradients_blocking parameters coordinators (grads_of (backward m v)).

Definition distributed_step (overlap : bool) (coordinators : Z) (m : ModelStep V T) (warmup : bool)
    (s : trained V F) : comm T (trained V F) :=
  let v := model s in
  let loss := loss_function m v in
  g ← synchronised_gradients overlap coordinators m v;
  sum ← all_reduce loss;
  let global_loss := tdiv sum coordinators in
  mret (mk_trained (optimizer_step v g)
          (if warmup then losses s else losses s ++ [item global_loss])
          (phases_of_step warmup (phases s))).

Fixpoint distributed_steps (overlap : bool) (c : Scaling.ScalingConfig) (m : ModelStep V T)
    (steps : list Z) (s : trained V F) : comm T (trained V F) :=
  match steps with
  | [] => mret s
  | step :: steps =>
      s ← distributed_step overlap (Scaling.coordinators c) m (is_warmup c step) s;
      distributed_steps overlap c m steps s
  end.

Definition distributed_losses (overlap : bool) (c : Scaling.ScalingConfig) (m : ModelStep V T)
    (v : V) : comm T (trained V F) :=
  distributed_steps overlap c m (all_steps c) (mk_trained v [] []).

(** *** The tiny workload of a rank

    The rank gets its slice of the global batch, the golden run all of it;
    [loss_on inputs targets] is the loss function on these samples. *)
Definition local_slice {X} (c : Scaling.ScalingConfig) (rank : Z) (l : list X) : list X :=
  let lower := rank * Scaling.local_batch c in
  Messages.py_slice lower (lower + Scaling.local_batch c) l.

Context {X : Type} (loss_on : list X -> list X -> ModelStep V T).

(** [_run_tiny]: what the rank computes with the others, and the golden losses *)
Definition run_tiny (rank : Z) (c : Scaling.ScalingConfig) (overlap : bool) (inputs targets : list X)
    (v : V) : comm T (trained V F) * list F :=
  (distributed_losses overlap c (loss_on (local_slice c rank inputs) (local_slice c rank targets)) v,
   native_losses c (loss_on inputs targets) v).

(** [_run_full]: the golden run has PyTorch's layers, the distributed one the restricted
    hook, so each has its own loss function on tokens; both models are loaded from the same
    seed.  The hook is removed when the distributed run ends, in every case. *)
Context {Y : Type} (loss_native loss_hooked : list Y -> ModelStep V T)
  (make_token_batch : Z -> Z -> Z -> Z -> outcome (list Y))     (** seed, batch, length, vocabulary *)
  (load_full_model : Scaling.ScalingConfig -> outcome (V * Z)).

Definition run_full (rank : Z) (c : Scaling.ScalingConfig) (overlap : bool) :
    outcome (comm T (trained V F) * list F) :=
  golden ← load_full_model c;
  tokens ← make_token_batch 42 (Scaling.global_batch c) (Scaling.sequence_length c) golden.2;
  let golden_losses := native_losses c (loss_native tokens) golden.1 in
  dispatched ← load_full_model c;
  mret (distributed_losses overlap c (loss_hooked (local_slice c rank tokens)) dispatched.1,
        golden_losses).

(** [run_workload]: the tiny model and its samples are made from the seed. *)
Context (tiny_model : Z -> V) (tiny_inputs : Z -> Z -> list X * list X).

Definition run_workload (rank : Z) (c : Scaling.ScalingConfig) (overlap : bool) :
    outcome (comm T (trained V F) * list F) :=
  if Scaling.tiny c then
    let samples := tiny_inputs 42 (Scaling.global_batch c) in
    Ret (run_tiny rank c overlap samples.1 samples.2 (tiny_model 42))
  else run_full rank c overlap.
End training.

(** [_overlap_from_env] *)
Definition overlap_from_env (env : pydict string string) : bool :=
  negb (bool_decide (lower (strip (dict_get_default "MORPHLING_OVERLAP_GRADIENT_SYNC" "0" env))
                     ∈ [""; "0"; "false"; "no"]%string)).

(** ** Gradients as finite maps *)

Section maps.
Context {T : Type}.

Lemma put_all_lookup (f : nat -> T) (l : list nat) (g : gmap nat T) q :
  foldl (fun g p => put_grad g (p, f p)) g l !! q = if decide (q ∈ l) then Some (f q) else g !! q.
Proof.
  revert g. induction l as [|p l IH]; intros g; cbn [foldl]; [done|]. rewrite IH.
  unfold put_grad. cbn [fst snd]. destruct (decide (q ∈ l)) as [Hin|Hnin].
  - by rewrite decide_True by by right.
  - destruct (decide (q = p)) as [->|Hne].
    + rewrite decide_True by by left. by rewrite lookup_insert_eq.
    + rewrite decide_False by (rewrite elem_of_cons; tauto). by rewrite lookup_insert_ne.
Qed.

Lemma put_list_lookup (l : list (nat * T)) (g : gmap nat T) q :
  q ∉ l.*1 -> foldl put_grad g l !! q = g !! q.
Proof.
  revert g. induction l as [|[p t] l IH]; intros g Hq; [done|]. cbn [foldl].
  rewrite fmap_cons, not_elem_of_cons in Hq. destruct Hq as [Hne Hq].
  rewrite IH by done. by apply lookup_insert_ne.
Qed.

Lemma put_list_elem (l : list (nat * T)) (g : gmap nat T) p t :
  NoDup l.*1 -> (p, t) ∈ l -> foldl put_grad g l !! p = Some t.
Proof.
  revert g. induction l as [|[q u] l IH]; intros g Hnd Hin; [by apply elem_of_nil in Hin|].
  inversion Hnd as [|? ? Hq Hnd']; subst. cbn [foldl].
  apply elem_of_cons in Hin as [[= -> ->]|Hin]; [|by apply IH].
  rewrite put_list_lookup by done. apply lookup_insert_eq.
Qed.
End maps.

(** ** The reference: every step takes the mean of the ranks' gradients and losses *)

Section reference.
Context {V T F : Type} `{Inhabited T} (optimizer_step : V -> gmap nat T -> V)
  (tsum : list T -> T) (tdiv : T -> Z -> T) (item : T -> F)
  (parameters : list nat) (requires_grad : nat -> bool) (ranks : list (ModelStep V T)).

(** The parameters that get a gradient, in the order the backward pass reaches them *)
Context (order : V -> list nat).

Definition coords : Z := Z.of_nat (length ranks).
Definition grad (m : ModelStep V T) (v : V) (p : nat) : T := grads_of (backward m v) !!! p.
Definition mean (f : ModelStep V T -> T) : T := tdiv (tsum (map f ranks)) coords.
Definition mean_grads (v : V) : gmap nat T :=
  foldl (fun g p => put_grad g (p, mean (fun m => grad m v p))) ∅ (order v).

Definition reference_step (warmup : bool) (s : trained V F) : trained V F :=
  mk_trained (optimizer_step (model s) (mean_grads (model s)))
    (if warmup then losses s
     else losses s ++ [item (mean (fun m => loss_function m (model s)))])
    (phases_of_step warmup (phases s)).

Definition reference_steps (c : Scaling.ScalingConfig) (steps : list Z) (s : trained V F) :
    trained V F := foldl (fun s step => reference_step (is_warmup c step) s) s steps.

Definition reference (c : Scaling.ScalingConfig) (v : V) : trained V F :=
  reference_steps c (all_steps c) (mk_trained v [] []).

(** The ranks compute gradients of the same parameters, each once, and with
    overlapped reductions in the same order; those parameters are among the model's and
    require a gradient. *)
Record same_parameters (overlap : bool) : Prop := {
  trained_of : forall m v, m ∈ ranks -> (backward m v).*1 ≡ₚ order v;
  order_of : overlap = true -> forall m v, m ∈ ranks -> (backward m v).*1 = order v;
  order_once : forall v, NoDup (order v);
  order_trained : forall v p, p ∈ order v -> p ∈ parameters /\ requires_grad p = true;
  parameters_once : NoDup parameters;
}.

(** The same order does for both kinds of reductions. *)
Lemma same_order_any overlap : same_parameters true -> same_parameters overlap.
Proof. intros [H1 H2 H3 H4 H5]. split; [done|by intros _; apply H2|done..]. Qed.

Context (ov : bool) (Hsame : same_parameters ov).

Lemma backward_once m v : m ∈ ranks -> NoDup (backward m v).*1.
Proof. intros Hm. rewrite (trained_of _ Hsame m v Hm). apply (order_once _ Hsame). Qed.

Lemma backward_grads m v : ov = true -> m ∈ ranks -> (backward m v).*2 = map (grad m v) (order v).
Proof.
  intros Hov Hm. rewrite <- (order_of _ Hsame Hov m v Hm). pose proof (backward_once m v Hm) as Hnd.
  unfold grad, grads_of. apply list_eq. intros i. rewrite !list_lookup_fmap.
  destruct (backward m v !! i) as [[p t]|] eqn:Hi; [|done]. cbn. f_equal. symmetry.
  apply lookup_total_correct, put_list_elem; [done|]. by eapply list_elem_of_lookup_2.
Qed.

Lemma grads_lookup m v p :
  m ∈ ranks ->
  grads_of (backward m v) !! p = if decide (p ∈ order v) then Some (grad m v p) else None.
Proof.
  intros Hm. pose proof (backward_once m v Hm) as Hnd.
  pose proof (trained_of _ Hsame m v Hm) as Hperm. unfold grad, grads_of. case_decide as Hp.
  - rewrite <- Hperm in Hp. apply list_elem_of_fmap in Hp as ([q t] & -> & Hin). cbn [fst].
    pose proof (put_list_elem _ ∅ q t Hnd Hin) as Hl. rewrite Hl. f_equal. symmetry.
    by apply lookup_total_correct.
  - rewrite <- Hperm in Hp. rewrite put_list_lookup by done. apply lookup_empty.
Qed.

(** A map of gradients with every mean put in is the map of the means. *)
Lemma put_means v (g : gmap nat T) l :
  (forall p, p ∉ order v -> g !! p = None) -> (forall p, p ∈ order v <-> p ∈ l) ->
  foldl (fun g p => put_grad g (p, mean (fun m => grad m v p))) g l = mean_grads v.
Proof.
  intros Hg Hl. apply map_eq. intros q. unfold mean_grads.
  rewrite !(put_all_lookup (fun p => mean (fun m => grad m v p))).
  destruct (decide (q ∈ order v)) as [Hq|Hq].
  - by rewrite decide_True by by apply Hl.
  - rewrite decide_False by by rewrite <- Hl. by rewrite Hg, lookup_empty.
Qed.

(** *** One step of one rank, with the results [O] *)

(** The parameters in the order their reductions start *)
Definition reduced (overlap : bool) (v : V) : list nat :=
  if overlap then order v else filter (fun p => p ∈ order v) parameters.

Lemma elem_of_reduced overlap v p : p ∈ reduced overlap v <-> p ∈ order v.
Proof.
  destruct overlap; [done|]. unfold reduced. rewrite list_elem_of_filter. split; [tauto|].
  intros Hp. split; [done|]. by apply (order_trained _ Hsame v).
Qed.

Definition contributed (overlap : bool) (m : ModelStep V T) (v : V) : list T :=
  map (grad m v) (reduced overlap v) ++ [loss_function m v].

Lemma contributed_length overlap m v : length (contributed overlap m v) = S (length (reduced overlap v)).
Proof. unfold contributed. rewrite length_app, length_map. cbn. lia. Qed.

Section rank.
Context (O : nat -> T).

Definition indexed (base : nat) (l : list nat) : list (nat * nat) := imap (fun j p => (p, (base + j)%nat)) l.

Lemma backward_hooked_alone l g pending s :
  (forall p, p ∈ l.*1 -> hooked parameters requires_grad p = true) ->
  alone O (backward_hooked parameters requires_grad l g pending) s =
    ((foldl put_grad g l, pending ++ indexed (length s) l.*1), s ++ l.*2) /\
  waits_own O (backward_hooked parameters requires_grad l g pending) s.
Proof.
  unfold indexed. revert g pending s. induction l as [|[p t] l IH]; intros g pending s Hh.
  { cbn. by rewrite !app_nil_r. }
  cbn [backward_hooked fmap list_fmap fst snd foldl]. rewrite (Hh p) by by left.
  unfold all_reduce_async. cbn [mbind comm_bind comm_then alone waits_own mret comm_ret].
  destruct (IH (put_grad g (p, t)) (pending ++ [(p, length s)]) (s ++ [t])) as [-> Hw].
  { intros q Hq. apply Hh. by right. }
  split; [|done]. rewrite length_app. cbn [imap length]. rewrite <- !app_assoc. cbn [app].
  rewrite Nat.add_0_r. do 4 f_equal. apply imap_ext. intros i x _. cbn. f_equal. lia.
Qed.

Lemma finish_alone pending n g s :
  (forall w, w ∈ pending.*2 -> (w < length s)%nat) ->
  alone O (finish_async_gradient_reduction tdiv pending n g) s =
    (foldl (fun g pw => put_grad g (pw.1, tdiv (O pw.2) n)) g pending, s) /\
  waits_own O (finish_async_gradient_reduction tdiv pending n g) s.
Proof.
  revert g. induction pending as [|[p w] pending IH]; intros g Hw; [done|].
  cbn [finish_async_gradient_reduction]. unfold wait.
  cbn [mbind comm_bind comm_then alone waits_own mret comm_ret foldl fst snd].
  destruct (IH (put_grad g (p, tdiv (O w) n))) as [-> Hwo].
  { intros w' Hw'. apply Hw. by right. }
  split; [done|]. split; [|done]. apply Hw. by left.
Qed.

(** With the results that are the sums, the pending list puts in the means. *)
Lemma finish_means v base l g :
  (forall j p, l !! j = Some p -> O (base + j)%nat = tsum (map (fun m => grad m v p) ranks)) ->
  foldl (fun g pw => put_grad g (pw.1, tdiv (O pw.2) coords)) g (indexed base l) =
  foldl (fun g p => put_grad g (p, mean (fun m => grad m v p))) g l.
Proof.
  unfold indexed. revert base g. induction l as [|p l IH]; intros base g HO; [done|].
  cbn [imap foldl fst snd]. rewrite (HO 0%nat p) by done.
  rewrite (imap_ext _ (fun j p => (p, (S base + j)%nat))) by (intros; cbn; f_equal; lia).
  apply IH. intros j q Hj. rewrite <- (HO (S j) q Hj). f_equal. lia.
Qed.

Lemma reduce_alone m v ps g s :
  m ∈ ranks -> NoDup ps -> (forall p, p ∈ ps -> g !! p = grads_of (backward m v) !! p) ->
  let todo := filter (fun p => p ∈ order v) ps in
  (forall j p, todo !! j = Some p ->
     O (length s + j)%nat = tsum (map (fun m => grad m v p) ranks)) ->
  alone O (reduce_gradients_blocking tdiv ps coords g) s =
    (foldl (fun g p => put_grad g (p, mean (fun m => grad m v p))) g todo,
     s ++ map (grad m v) todo) /\
  waits_own O (reduce_gradients_blocking tdiv ps coords g) s.
Proof.
  intros Hm. revert g s. induction ps as [|p ps IH]; intros g s Hnd Hg; cbn zeta; intros HO.
  { cbn. by rewrite app_nil_r. }
  apply NoDup_cons in Hnd as [Hp Hnd]. cbn [reduce_gradients_blocking].
  rewrite (Hg p), (grads_lookup m v p Hm) by by left.
  destruct (decide (p ∈ order v)) as [Hin|Hnin].
  - rewrite filter_cons_True in HO |- * by done. unfold all_reduce, all_reduce_async, wait.
    cbn [mbind comm_bind comm_then alone waits_own mret comm_ret foldl map].
    pose proof (HO 0%nat p eq_refl) as H0. rewrite Nat.add_0_r in H0. rewrite H0.
    destruct (IH (put_grad g (p, mean (fun m => grad m v p))) (s ++ [grad m v p])) as [Ha Hw].
    + done.
    + intros q Hq. unfold put_grad. cbn [fst snd]. rewrite lookup_insert_ne by by intros ->.
      apply Hg. by right.
    + intros j q Hj. rewrite length_app. cbn [length]. rewrite <- (HO (S j) q Hj). f_equal. lia.
    + unfold mean in Ha at 1, Hw at 1. rewrite Ha, <- app_assoc. split; [done|].
      split; [|done]. rewrite length_app. cbn. lia.
  - rewrite filter_cons_False in HO |- * by done. apply IH; [done| |done].
    intros q Hq. apply Hg. by right.
Qed.

Lemma overlapped_gradients_alone m v s :
  ov = true -> m ∈ ranks ->
  (forall j p, order v !! j = Some p ->
     O (length s + j)%nat = tsum (map (fun m => grad m v p) ranks)) ->
  alone O (synchronised_gradients tdiv parameters requires_grad true coords m v) s =
    (mean_grads v, s ++ map (grad m v) (order v)) /\
  waits_own O (synchronised_gradients tdiv parameters requires_grad true coords m v) s.
Proof.
  intros Hov Hm HO. unfold synchronised_gradients.
  assert (Hhook : forall p, p ∈ (backward m v).*1 -> hooked parameters requires_grad p = true).
  { intros p. rewrite (order_of _ Hsame Hov m v Hm). intros Hp. unfold hooked.
    destruct (order_trained _ Hsame v p Hp) as [Hpar ->]. by apply bool_decide_eq_true. }
  destruct (backward_hooked_alone (backward m v) ∅ [] s Hhook) as [Ha Hw].
  rewrite (order_of _ Hsame Hov m v Hm), (backward_grads m v Hov Hm) in Ha. cbn [app] in Ha.
  destruct (finish_alone (indexed (length s) (order v)) coords (foldl put_grad ∅ (backward m v))
    (s ++ map (grad m v) (order v))) as [Hf Hwf].
  { intros w (x & -> & Hx)%list_elem_of_fmap. apply elem_of_lookup_imap in Hx as (j & p & -> & Hj).
    cbn. rewrite length_app, length_map. apply lookup_lt_Some in Hj. lia. }
  split; [|by apply waits_own_bind; rewrite ?Ha].
  rewrite alone_bind, Ha. cbn [fst snd]. rewrite Hf, (finish_means v) by done.
  rewrite put_means; [done|intros p Hp|done].
  change (foldl put_grad ∅ (backward m v)) with (grads_of (backward m v)).
  by rewrite grads_lookup, decide_False by done.
Qed.

Lemma blocking_gradients_alone m v s :
  m ∈ ranks ->
  (forall j p, reduced false v !! j = Some p ->
     O (length s + j)%nat = tsum (map (fun m => grad m v p) ranks)) ->
  alone O (synchronised_gradients tdiv parameters requires_grad false coords m v) s =
    (mean_grads v, s ++ map (grad m v) (reduced false v)) /\
  waits_own O (synchronised_gradients tdiv parameters requires_grad false coords m v) s.
Proof.
  intros Hm HO. unfold synchronised_gradients.
  destruct (reduce_alone m v parameters (grads_of (backward m v)) s Hm (parameters_once _ Hsame))
    as [Ha Hw]; [done|done|].
  rewrite Ha. split; [|done]. f_equal. apply put_means.
  - intros p Hp. by rewrite grads_lookup, decide_False by done.
  - intros p. symmetry. apply (elem_of_reduced false).
Qed.

(** A step contributes its gradients and its loss, and takes the reference step. *)
Lemma distributed_step_alone m warmup st s :
  m ∈ ranks ->
  (forall j, (j < length (contributed ov m (model st)))%nat ->
     O (length s + j)%nat = tsum (map (fun m => contributed ov m (model st) !!! j) ranks)) ->
  let step := distributed_step optimizer_step tdiv item parameters requires_grad ov coords
                m warmup st in
  alone O step s = (reference_step warmup st, s ++ contributed ov m (model st)) /\
  waits_own O step s.
Proof.
  intros Hm HO. cbn zeta. set (v := model st) in *.
  assert (Hgrad : forall j p, reduced ov v !! j = Some p ->
    O (length s + j)%nat = tsum (map (fun m => grad m v p) ranks)).
  { intros j p Hj. rewrite HO by (rewrite contributed_length; apply lookup_lt_Some in Hj; lia).
    f_equal. apply map_ext. intros m'. unfold contributed. apply list_lookup_total_correct.
    rewrite lookup_app_l by (rewrite length_map; by eapply lookup_lt_Some).
    by rewrite list_lookup_fmap, Hj. }
  assert (Hloss : O (length (s ++ map (grad m v) (reduced ov v)))
    = tsum (map (fun m => loss_function m v) ranks)).
  { rewrite length_app, length_map, HO by (rewrite contributed_length; lia).
    f_equal. apply map_ext. intros m'. apply list_lookup_total_correct. unfold contributed.
    rewrite lookup_app_r by (rewrite length_map; lia). by rewrite length_map, Nat.sub_diag. }
  assert (Hgs : alone O (synchronised_gradients tdiv parameters requires_grad ov coords m v) s =
    (mean_grads v, s ++ map (grad m v) (reduced ov v)) /\
    waits_own O (synchronised_gradients tdiv parameters requires_grad ov coords m v) s).
  { destruct (bool_decide_reflect (ov = true)) as [Hov|Hov].
    - rewrite Hov in Hgrad |- *. by apply overlapped_gradients_alone.
    - apply not_true_is_false in Hov. rewrite Hov in Hgrad |- *. by apply blocking_gradients_alone. }
  destruct Hgs as [Ha Hw]. unfold distributed_step. fold v. split.
  - rewrite alone_bind, Ha. unfold all_reduce, all_reduce_async, wait.
    cbn [mbind comm_bind comm_then alone mret comm_ret fst snd]. rewrite Hloss, <- app_assoc. done.
  - apply waits_own_bind; [done|]. rewrite Ha. unfold all_reduce, all_reduce_async, wait.
    cbn [mbind comm_bind comm_then waits_own mret comm_ret fst snd].
    split; [|done]. rewrite !length_app. cbn. lia.
Qed.
End rank.

(** *** The whole loop *)

Context (c : Scaling.ScalingConfig) (Hcoords : Scaling.coordinators c = coords).

Fixpoint all_contributed (overlap : bool) (m : ModelStep V T) (steps : list Z) (st : trained V F) :
    list T :=
  match steps with
  | [] => []
  | step :: steps =>
      contributed overlap m (model st)
      ++ all_contributed overlap m steps (reference_step (is_warmup c step) st)
  end.

Lemma all_contributed_length overlap m m' steps st :
  length (all_contributed overlap m steps st) = length (all_contributed overlap m' steps st).
Proof.
  revert st. induction steps as [|step steps IH]; intros st; [done|]. cbn [all_contributed].
  rewrite !length_app, !contributed_length. by rewrite (IH (reference_step (is_warmup c step) st)).
Qed.

Lemma distributed_steps_alone O m steps st s :
  m ∈ ranks ->
  (forall j, (j < length (all_contributed ov m steps st))%nat ->
     O (length s + j)%nat = tsum (map (fun m => all_contributed ov m steps st !!! j) ranks)) ->
  let loop := distributed_steps optimizer_step tdiv item parameters requires_grad ov c m steps st in
  alone O loop s = (reference_steps c steps st, s ++ all_contributed ov m steps st) /\
  waits_own O loop s.
Proof.
  intros Hm. cbn zeta. revert st s. induction steps as [|step steps IH]; intros st s HO.
  { cbn. by rewrite app_nil_r. }
  cbn [distributed_steps all_contributed] in HO |- *. rewrite Hcoords.
  destruct (distributed_step_alone O m (is_warmup c step) st s Hm) as [Ha Hw].
  { intros j Hj. rewrite HO by (rewrite length_app; lia). f_equal. apply map_ext. intros m'.
    apply lookup_total_app_l. revert Hj. by rewrite !contributed_length. }
  destruct (IH (reference_step (is_warmup c step) st) (s ++ contributed ov m (model st))) as [Ha' Hw'].
  { intros j Hj. rewrite length_app, <- Nat.add_assoc. rewrite HO by (rewrite length_app; lia).
    f_equal. apply map_ext. intros m'. rewrite !contributed_length.
    rewrite lookup_total_app_r by (rewrite contributed_length; lia).
    f_equal. rewrite contributed_length. lia. }
  rewrite alone_bind, Ha. cbn [fst snd]. rewrite Ha', <- app_assoc. split; [done|].
  apply waits_own_bind; [done|]. by rewrite Ha.
Qed.

(** The result of reduction [w] in every run *)
Definition reduction (overlap : bool) (v : V) (w : nat) : T :=
  tsum (map (fun m => all_contributed overlap m (all_steps c) (mk_trained v [] []) !!! w) ranks).

Definition group_start (overlap : bool) (v : V) : group T (trained V F) :=
  map (fun m => started (distributed_losses optimizer_step tdiv item parameters requires_grad
                           overlap c m v)) ranks.

Definition final_states (overlap : bool) (v : V) : list (trained V F * list T) :=
  map (fun m => (reference c v, all_contributed overlap m (all_steps c) (mk_trained v [] []))) ranks.

Lemma group_start_agrees v :
  Forall2 (agrees (reduction ov v)) (group_start ov v) (final_states ov v).
Proof.
  unfold group_start, final_states. apply Forall2_fmap, Forall_Forall2_diag, Forall_forall.
  intros m Hm. unfold agrees, distributed_losses. cbn [started prog sent].
  destruct (distributed_steps_alone (reduction ov v) m (all_steps c)
              (mk_trained v [] []) [] Hm) as [Ha Hw]; [|by rewrite Ha].
  intros j _. done.
Qed.

Lemma final_states_consistent overlap v :
  exists K, consistent tsum (reduction overlap v) K (final_states overlap v).
Proof.
  exists (match ranks with
     | m :: _ => length (all_contributed overlap m (all_steps c) (mk_trained v [] []))
     | [] => 0%nat
     end). split.
  - apply Forall_forall. intros f (m & -> & Hm)%list_elem_of_fmap. cbn [snd].
    destruct ranks as [|m0 ms]; [by apply elem_of_nil in Hm|]. apply all_contributed_length.
  - intros w xs Hw Hxs. unfold final_states in Hxs. unfold reduction. f_equal.
    apply mapM_Some_1 in Hxs. apply Forall2_fmap_l in Hxs. clear Hcoords Hw.
    induction Hxs as [|m x ms xs' Hx _ IH]; [done|]. cbn [map]. f_equal; [|done].
    symmetry. by apply list_lookup_total_correct.
Qed.

(** Every run is part of a run to the reference result. *)
Lemma training_run v k g :
  nsteps (gstep tsum) k (group_start ov v) g ->
  (k <= total_steps (reduction ov v) (group_start ov v))%nat /\
  (nf (gstep tsum) g -> k = total_steps (reduction ov v) (group_start ov v) /\
     Forall (fun p => prog p = Done (reference c v)) g).
Proof.
  intros Hk. destruct (final_states_consistent ov v) as [K Hcons].
  destruct (agreeing_group_completes tsum _ K _ Hcons _ _ _ (group_start_agrees v) Hk)
    as [Hn Hd].
  split; [lia|]. intros Hnf. apply Hd in Hnf.
  assert (Hdone : Forall (fun p => prog p = Done (reference c v)) g).
  { apply Forall_forall. intros p [i Hi]%list_elem_of_lookup.
    destruct (Forall2_lookup_l _ _ _ _ _ Hnf Hi) as (f & Hf & ->). f_equal.
    apply list_elem_of_lookup_2, list_elem_of_fmap in Hf as (m & -> & _). done. }
  split; [|exact Hdone].
  assert (total_steps (reduction ov v) g = 0%nat) as Hz; [|lia].
  clear - Hdone. unfold total_steps. induction Hdone as [|p g Hp _ IH]; [done|].
  cbn. by rewrite Hp, IH.
Qed.

(** C26: data-parallel training completes, and computes the reference.  On ranks that
    get gradients of the same parameters, with overlapped reductions in the same order,
    and whose computations do not raise, whatever the interleaving of the ranks, with
    blocking or with overlapped gradient reductions: every run that goes on as long as
    some rank can takes the same number of steps, no rank is stuck before all are done,
    and every rank then has the model, the losses and the recorded phases of the loop
    that takes the mean gradients and mean losses of all ranks in every step. *)
Theorem distributed_training_completes v :
  exists n, forall k g, nsteps (gstep tsum) k (group_start ov v) g ->
    (k <= n)%nat /\
    (nf (gstep tsum) g -> k = n /\ Forall (fun p => prog p = Done (reference c v)) g).
Proof. eexists. intros k g. apply training_run. Qed.

(** Where the loss of all samples is the mean of the ranks' losses, and so are its
    gradients, the reference is the native loop. *)
Lemma reference_native whole v :
  (forall v, loss_function whole v = mean (fun m => loss_function m v)) ->
  (forall v, grads_of (backward whole v) = mean_grads v) ->
  losses (reference c v) = native_losses optimizer_step item c whole v.
Proof.
  intros Hl Hg. unfold reference, reference_steps, native_losses.
  assert (Hgen : forall steps (st : trained V F),
    let st' := foldl (fun s step => reference_step (is_warmup c step) s) st steps in
    foldl (fun s step => native_step optimizer_step item whole (is_warmup c step) s)
      (model st, losses st) steps = (model st', losses st')).
  { induction steps as [|step steps IH]; intros st; [done|]. cbn [foldl].
    rewrite <- IH. f_equal. unfold native_step, reference_step. cbn [fst snd model losses].
    by rewrite Hg, Hl. }
  specialize (Hgen (all_steps c) (mk_trained v [] [])). cbn zeta in Hgen. cbn [model losses] in Hgen.
  by rewrite Hgen.
Qed.
End reference.

(** ** Slices *)

Section slices.
Context {X : Type} (c : Scaling.ScalingConfig).

Lemma local_slice_take_drop rank (l : list X) :
  0 <= rank -> 0 <= Scaling.local_batch c ->
  local_slice c rank l =
  take (Z.to_nat (Scaling.local_batch c)) (drop (Z.to_nat (rank * Scaling.local_batch c)) l).
Proof.
  intros Hr Hb. unfold local_slice, Messages.py_slice. rewrite !Messages.clip_index_pos by nia.
  set (n := length l). set (lo := rank * Scaling.local_batch c). assert (0 <= lo) by (subst lo; nia).
  apply list_eq. intros i. rewrite lookup_drop.
  destruct (decide (lo < Z.of_nat n)) as [Hlt|Hge].
  - rewrite (Z.min_l lo) by lia.
    destruct (decide (i < Z.to_nat (Scaling.local_batch c))%nat) as [Hi|Hi].
    + rewrite (lookup_take_lt (drop _ l)), lookup_drop by lia.
      destruct (decide (Z.to_nat lo + i < n)%nat) as [Hn|Hn].
      * by rewrite lookup_take_lt by lia.
      * rewrite (lookup_ge_None_2 l) by lia. apply lookup_ge_None_2. rewrite length_take. lia.
    + rewrite !lookup_take_ge by lia. done.
  - rewrite (drop_ge l) by lia. rewrite take_nil. cbn.
    apply lookup_ge_None_2. rewrite length_take. lia.
Qed.

(** The ranks' batches make up the global batch.  The slices of the ranks, one after
    the other, are the global batch: every sample is trained on by exactly one rank. *)
Theorem local_slices_tile (l : list X) :
  0 <= Scaling.coordinators c -> 0 <= Scaling.local_batch c ->
  Z.of_nat (length l) = Scaling.coordinators c * Scaling.local_batch c ->
  concat (map (fun rank => local_slice c rank l) (seqZ 0 (Scaling.coordinators c))) = l.
Proof.
  intros Hc Hb Hl. set (n := Scaling.coordinators c) in *. set (b := Scaling.local_batch c) in *.
  assert (Hgen : forall k, 0 <= k ->
    concat (map (fun rank => local_slice c rank l) (seqZ 0 k)) = take (Z.to_nat (k * b)) l).
  { apply natlike_ind; [done|]. intros k Hk IH. rewrite <- Z.add_1_r, (seqZ_app 0 k 1) by lia.
    replace (seqZ (0 + k) 1) with [k] by (cbn; f_equal; lia).
    rewrite map_app, concat_app, IH. cbn [map concat]. rewrite app_nil_r.
    rewrite local_slice_take_drop by lia. fold b.
    replace (Z.to_nat ((k + 1) * b)) with (Z.to_nat (k * b) + Z.to_nat b)%nat by nia.
    rewrite take_take_drop. done. }
  rewrite Hgen by done. apply take_ge. nia.
Qed.
End slices.

(** ** The workloads *)

Section workloads.
Context {V T F : Type} `{Inhabited T} (optimizer_step : V -> gmap nat T -> V)
  (tsum : list T -> T) (tdiv : T -> Z -> T) (item : T -> F)
  (parameters : list nat) (requires_grad : nat -> bool).

(** What a loss over a batch is to be: its value and gradients on the whole batch are the
    means of those of the ranks. *)
Record averages (ranks : list (ModelStep V T)) (order : V -> list nat) (whole : ModelStep V T) : Prop := {
  avg_parameters : same_parameters parameters requires_grad ranks order true;
  avg_loss v : loss_function whole v = mean tsum tdiv ranks (fun m => loss_function m v);
  avg_grads v : grads_of (backward whole v) = mean_grads tsum tdiv ranks order v;
}.

(** Every rank that trains with the others has the losses of the native loop. *)
Lemma sliced_tracks_whole (local : Z -> ModelStep V T) whole order c overlap v k g :
  averages (map local (seqZ 0 (Scaling.coordinators c))) order whole -> 0 <= Scaling.coordinators c ->
  nsteps (gstep tsum) k
    (map (fun rank => started (distributed_losses optimizer_step tdiv item parameters requires_grad
                                 overlap c (local rank) v)) (seqZ 0 (Scaling.coordinators c))) g ->
  nf (gstep tsum) g ->
  Forall (fun p => exists t, prog p = Done t /\
            losses t = native_losses optimizer_step item c whole v) g.
Proof.
  intros [Hsame Hl Hg] Hc Hk Hnf. set (ranks := map local _) in *.
  assert (Hcoords : Scaling.coordinators c = coords ranks).
  { unfold coords, ranks. rewrite length_map, length_seqZ. lia. }
  destruct (training_run optimizer_step tsum tdiv item parameters requires_grad ranks order overlap
              (same_order_any _ _ _ _ overlap Hsame) c Hcoords v k g) as [_ Hd].
  { unfold group_start, ranks. rewrite map_map. exact Hk. }
  eapply Forall_impl; [exact (proj2 (Hd Hnf))|]. intros p Hp. eexists. split; [exact Hp|].
  by apply reference_native.
Qed.

Context {X Y : Type} (loss_on : list X -> list X -> ModelStep V T)
  (loss_native loss_hooked : list Y -> ModelStep V T)
  (make_token_batch : Z -> Z -> Z -> Z -> outcome (list Y))
  (load_full_model : Scaling.ScalingConfig -> outcome (V * Z))
  (tiny_model : Z -> V) (tiny_inputs : Z -> Z -> list X * list X) (order : V -> list nat).

Abbreviation workload rank c overlap :=
  (run_workload optimizer_step tdiv item parameters requires_grad loss_on loss_native loss_hooked
     make_token_batch load_full_model tiny_model tiny_inputs rank c overlap).

(** The losses of the workload average over the ranks' slices: on the tiny samples, and with
    dispatched layers that compute what PyTorch's do, on the tokens. *)
Definition workload_averages (c : Scaling.ScalingConfig) : Prop :=
  if Scaling.tiny c then
    let samples := tiny_inputs 42 (Scaling.global_batch c) in
    averages (map (fun rank => loss_on (local_slice c rank samples.1) (local_slice c rank samples.2))
                (seqZ 0 (Scaling.coordinators c))) order (loss_on samples.1 samples.2)
  else forall tokens,
    averages (map (fun rank => loss_hooked (local_slice c rank tokens)) (seqZ 0 (Scaling.coordinators c)))
      order (loss_native tokens).

Lemma all_run {A B} (f : Z -> A) (w golden : B) n l :
  0 < n -> Forall2 (fun rank p => Ret (f rank, w) = Ret (p, golden)) (seqZ 0 n) l ->
  golden = w /\ l = map f (seqZ 0 n).
Proof.
  intros Hn Hl. split.
  - rewrite seqZ_cons in Hl by done. apply Forall2_cons_inv_l in Hl as (p & l' & [= _ <-] & _ & _). done.
  - clear Hn. induction Hl as [|rank p ranks l Hp _ IH]; [done|]. cbn. injection Hp as <- _. by f_equal.
Qed.

Lemma none_run {A} (P : Z -> A -> Prop) n l :
  (forall rank p, P rank p -> False) -> 0 < n -> Forall2 P (seqZ 0 n) l -> False.
Proof.
  intros HP Hn Hl. rewrite seqZ_cons in Hl by done.
  apply Forall2_cons_inv_l in Hl as (p & l' & Hp & _). by apply (HP _ _ Hp).
Qed.

(** C27: the distributed run tracks the golden one.  For a loss whose value and gradients on
    the global batch are the means over the ranks' slices, every rank of the tiny or of the
    full workload that trains with the others ends with exactly the losses of the golden run,
    the native loop on the global batch, with blocking and with overlapped reductions. *)
Theorem workload_tracks_golden c overlap progs golden k g :
  0 < Scaling.coordinators c -> workload_averages c ->
  Forall2 (fun rank p => workload rank c overlap = Ret (p, golden))
    (seqZ 0 (Scaling.coordinators c)) progs ->
  nsteps (gstep tsum) k (map started progs) g -> nf (gstep tsum) g ->
  Forall (fun p => exists t, prog p = Done t /\ losses t = golden) g.
Proof.
  intros Hc Havg Hruns Hk Hnf.
  assert (Hrun : exists local whole v,
    averages (map local (seqZ 0 (Scaling.coordinators c))) order whole /\
    golden = native_losses optimizer_step item c whole v /\
    progs = map (fun rank => distributed_losses optimizer_step tdiv item parameters requires_grad
                               overlap c (local rank) v) (seqZ 0 (Scaling.coordinators c))).
  { unfold workload_averages, run_workload, run_full, run_tiny in *. destruct (Scaling.tiny c).
    - eexists _, _, _. split; [exact Havg|]. by apply (all_run _ _ _ _ _ Hc Hruns).
    - destruct (load_full_model c) as [[v vocab]|e]; [|exfalso; by eapply none_run, Hruns; [|exact Hc]].
      cbn [mbind outcome_bind fst snd] in Hruns.
      destruct (make_token_batch _ _ _ _) as [tokens|e]; [|exfalso; by eapply none_run, Hruns; [|exact Hc]].
      eexists _, _, _. split; [exact (Havg tokens)|]. by apply (all_run _ _ _ _ _ Hc Hruns). }
  destruct Hrun as (local & whole & v & Ha & -> & ->).
  eapply (sliced_tracks_whole local whole order c overlap v); [exact Ha|lia| |exact Hnf].
  rewrite map_map in Hk. exact Hk.
Qed.
End workloads.

(** ** Examples

    Two ranks and one parameter; the loss of a batch is the model times its first
    sample. *)
Definition demo_loss (inputs targets : list Z) : ModelStep Z Z :=
  mk_model_step (fun v => v * default 0 (head inputs)) (fun v => [(0%nat, default 0 (head inputs))]).

Definition demo_config : Scaling.ScalingConfig :=
  Scaling.mk_scaling "strong" 2 8 4 4 2 1 2 "numactl" (PyFloat.f_lit 5 2) true "tiny-mlp" 1 128
    (PyFloat.f_lit 1 2) 120.

Definition demo_step (v : Z) (g : gmap nat Z) : Z := v - default 0 (g !! 0%nat).

Definition demo_run (overlap : bool) (rank : Z) : comm Z (trained Z Z) * list Z :=
  run_tiny demo_step Z.div (fun t : Z => t) [0%nat] (fun _ => true) demo_loss rank demo_config overlap
    [3; 3; 3; 3] [0; 0; 0; 0] 100.

Definition demo_group (overlap : bool) : group Z (trained Z Z) :=
  map (fun rank => started (demo_run overlap rank).1) (seqZ 0 2).

(** A schedule in which the second rank runs ahead whenever it can *)
Definition demo_schedule : list nat := concat (replicate 15 [1; 1; 1; 0]%nat).

Definition demo_end (overlap : bool) : group Z (trained Z Z) :=
  run sum_list demo_schedule (demo_group overlap).

Example demo_losses : (demo_run true 0).2 = [291; 282].
Proof. by vm_compute. Qed.

Definition demo_ranks : list (ModelStep Z Z) :=
  map (fun rank => demo_loss (local_slice demo_config rank [3; 3; 3; 3])
                     (local_slice demo_config rank [0; 0; 0; 0])) (seqZ 0 2).

Lemma demo_same overlap :
  same_parameters [0%nat] (fun _ => true) demo_ranks (fun _ => [0%nat]) overlap.
Proof.
  apply same_order_any. split; [| |intros v; apply NoDup_singleton| |apply NoDup_singleton].
  - intros m v Hm. apply list_elem_of_fmap in Hm as (r & -> & _). done.
  - intros _ m v Hm. apply list_elem_of_fmap in Hm as (r & -> & _). done.
  - by intros v p ->%list_elem_of_singleton; split; [left|].
Qed.

Lemma demo_finished overlap : nf (gstep sum_list) (demo_end overlap).
Proof. apply finished_nf. by destruct overlap; vm_compute. Qed.

Lemma distributed_training_completes_witness :
  Forall (fun p => prog p = Done (mk_trained 91 [291; 282] (phases_of_step false
    (phases_of_step false (phases_of_step true []))))) (demo_end true).
Proof.
  destruct (run_nsteps sum_list demo_schedule (demo_group true)) as [k Hk].
  destruct (distributed_training_completes demo_step sum_list Z.div (fun t : Z => t) [0%nat]
    (fun _ => true) demo_ranks (fun _ => [0%nat]) true (demo_same true) demo_config eq_refl 100) as [b Hb].
  exact (proj2 (proj2 (Hb k (demo_end true) Hk) (demo_finished true))).
Defined.

(** The full workload: the tokens are the seed and the vocabulary, in turns. *)
Definition demo_full_config : Scaling.ScalingConfig :=
  Scaling.mk_scaling "strong" 2 8 4 4 2 1 2 "numactl" (PyFloat.f_lit 5 2) false "opt" 1 128
    (PyFloat.f_lit 1 2) 120.

Definition demo_tokens (seed batch len vocab : Z) : outcome (list Z) := Ret [3; seed; 3; vocab].

Abbreviation demo_workload rank c overlap :=
  (run_workload demo_step Z.div (fun t : Z => t) [0%nat] (fun _ => true) demo_loss
     (fun tokens => demo_loss tokens []) (fun tokens => demo_loss tokens []) demo_tokens
     (fun _ => Ret (100, 50265)) (fun _ => 100) (fun _ _ => ([3; 3; 3; 3], [0; 0; 0; 0])) rank c overlap).

Example demo_full_losses :
  match demo_workload 0 demo_full_config true with Ret r => r.2 | Raise _ => [] end = [291; 282].
Proof. by vm_compute. Qed.

Lemma workload_tracks_golden_witness :
  Forall (fun p => exists t, prog p = Done t /\ losses t = [291; 282]) (demo_end false).
Proof.
  destruct (run_nsteps sum_list demo_schedule (demo_group false)) as [k Hk].
  refine (workload_tracks_golden demo_step sum_list Z.div (fun t : Z => t) [0%nat] (fun _ => true)
    demo_loss (fun tokens => demo_loss tokens []) (fun tokens => demo_loss tokens []) demo_tokens
    (fun _ => Ret (100, 50265)) (fun _ => 100) (fun _ _ => ([3; 3; 3; 3], [0; 0; 0; 0]))
    (fun _ => [0%nat]) demo_config false (map (fun rank => (demo_run false rank).1) (seqZ 0 2)) [291; 282] k
    (demo_end false) eq_refl _ _ _ (demo_finished false)).
  - split; [exact (demo_same true)| |].
    + intros v. change (v * 3 = (0 + v * 3 + v * 3) / 2). apply (Z.div_unique _ _ _ 0); lia.
    + intros v. by vm_compute.
  - repeat constructor.
  - rewrite map_map. exact Hk.
Defined.

Lemma local_slices_tile_witness :
  concat (map (fun rank => local_slice demo_config rank [1; 2; 3; 4]) (seqZ 0 2)) = [1; 2; 3; 4].
Proof. by apply (local_slices_tile demo_config [1; 2; 3; 4]). Defined.

Example overlap_ex :
  overlap_from_env [("MORPHLING_OVERLAP_GRADIENT_SYNC", " False ")]%string = false /\
  overlap_from_env [("MORPHLING_OVERLAP_GRADIENT_SYNC", "1")]%string = true /\
  overlap_from_env [] = false.
Proof. by vm_compute. Qed.
