(* ===== verification/Fleet.v ===== *)
(** * Processes of an experiment ([scripts/_multi_coordinator_fleet.py],
      [_single_coordinator_fleet.py], [multi_coordinator_rank_process.py],
      [_runtime_common.py])

    Starting and ending the emulated devices and the rank processes, and waiting for
    connections.  The operating system is a parameter: what its calls do to its state,
    with the documented behaviour of signals and waits as laws. *)

From S2P Require Import Prelude PyDict PyStr PyFloat FloatOrder.

(** ** Computations that may block *)

(** [None]: the call never returns *)
Definition B (W A : Type) : Type := W -> option (outcome A * W).

#[export] Instance B_ret {W} : MRet (B W) := fun A a w => Some (Ret a, w).
#[export] Instance B_bind {W} : MBind (B W) := fun A A' f m w =>
  match m w with
  | Some (Ret a, w') => f a w'
  | Some (Raise e, w') => Some (Raise e, w')
  | None => None
  end.

(** A call that always returns and does not raise *)
Definition now {W A} (f : W -> A * W) : B W A := fun w => Some (Ret (f w).1, (f w).2).
Definition effect {W} (f : W -> W) : B W unit := now (fun w => (tt, f w)).
Definition throw {W A} (e : exn) : B W A := fun w => Some (Raise e, w).
(** A value, or a call, that may raise *)
Definition lifted {W A} (o : outcome A) : B W A := fun w => Some (o, w).
Definition calling {W A} (f : W -> outcome A * W) : B W A := fun w => Some (f w).

(** [try: m except <class>: k] *)
Definition except {W A} (m : B W A) (catches : exn -> bool) (k : B W A) : B W A := fun w =>
  match m w with
  | Some (Raise e, w') => if catches e then k w' else Some (Raise e, w')
  | r => r
  end.

Fixpoint each {W A} (l : list A) (f : A -> B W unit) : B W unit :=
  match l with
  | [] => mret tt
  | a :: l => f a;; each l f
  end.

Fixpoint collect {W A A'} (l : list A) (f : A -> B W A') : B W (list A') :=
  match l with
  | [] => mret []
  | a :: l => x ← f a; xs ← collect l f; mret (x :: xs)
  end.

(** *** The operating system, as [subprocess] and [os.killpg] show it *)
Inductive signal : Type := SIGTERM | SIGKILL.

Class Os (P W : Type) : Type := {
  (** [Popen(command, env=env, stdout=output)] *)
  popen : list string -> pydict string string -> option string -> W -> outcome P * W;
  poll : P -> W -> option Z * W;
  terminate : P -> W -> W;
  kill : P -> W -> W;
  (** [p.wait(timeout)]: [None] when it never returns, [Some None] when the time is up *)
  os_wait : P -> option Z -> W -> option (option Z * W);
  killpg : P -> signal -> W -> outcome unit * W;
}.

Section processes.
Context {P W : Type} `{Os P W}.

Definition wait (p : P) (timeout : option Z) : B W Z := fun w =>
  match os_wait p timeout w with
  | None => None
  | Some (Some status, w') => Some (Ret status, w')
  | Some (None, w') => Some (Raise (TimeoutExpired "timed out"), w')
  end.

Definition is_TimeoutExpired (e : exn) : bool :=
  match e with TimeoutExpired _ => true | _ => false end.
Definition is_ProcessLookupError (e : exn) : bool :=
  match e with ProcessLookupError _ => true | _ => false end.

(** ** The devices of a rank ([_multi_coordinator_fleet.py]) *)

Definition device_id (rank count index : Z) : Z := rank * count + index.

Definition device_command (rank count index : Z) (device_config : string) : list string :=
  ["morphling_device"; "--id"; str_of_Z (device_id rank count index); "--flops"; "100T";
   "--memory"; "8G"; "--ul_bw"; "10G"; "--dl_bw"; "10G"; "--ul_lat"; "0"; "--dl_lat"; "0";
   "--backend"; "proxy"; "--cfg"; device_config]%string.

(** The log file of a device; [None] is the null device *)
Definition device_log (log_directory : option string) (rank index : Z) : option string :=
  match log_directory with
  | Some d => if is_empty d then None
              else Some (d +:+ "/dev_c" +:+ str_of_Z rank +:+ "_" +:+ str_of_Z index +:+ ".log")
  | None => None
  end.

Definition start_device (environ : pydict string string) (gpu_count rank count : Z)
    (device_config : string) (index : Z) : B W P := fun w =>
  Some (popen (device_command rank count index device_config)
          (dict_set "CUDA_VISIBLE_DEVICES"%string
             (str_of_Z (device_id rank count index mod gpu_count)) environ)
          (device_log (dict_get "MORPHLING_DEV_LOG_DIR"%string environ) rank index) w).

(** [device_count] is [torch.cuda.device_count()]. *)
Definition spawn_fleet (environ : pydict string string) (device_count rank count : Z)
    (device_config : string) : B W (list P) :=
  collect (seqZ 0 count) (start_device environ (Z.max 1 device_count) rank count device_config).

Definition terminate_fleet (processes : list P) : B W unit :=
  each processes (fun p =>
    status ← now (poll p);
    match status with None => effect (terminate p) | Some _ => mret tt end);;
  each processes (fun p =>
    except (wait p (Some 10);; mret tt) is_TimeoutExpired
      (effect (kill p);; wait p None;; mret tt)).

(** ** The devices of a single coordinator ([_single_coordinator_fleet.py])

    The list of device processes is a global of the module. *)
Definition end_device (p : P) : B W unit :=
  status ← now (poll p);
  match status with
  | Some _ => mret tt
  | None =>
      effect (terminate p);;
      except (wait p (Some 5);; mret tt) is_TimeoutExpired
        (effect (kill p);; wait p (Some 5);; mret tt)
  end.

Definition cleanup_fake_fleet (device_processes : list P) : B W (list P) :=
  each device_processes end_device;; mret [].

(** ** Rank processes ([multi_coordinator_rank_process.py])

    Every rank is the leader of its own process group. *)
Definition signal_group (s : signal) (p : P) : B W unit :=
  except (fun w => Some (killpg p s w)) is_ProcessLookupError (mret tt).
Definition terminate_group := signal_group SIGTERM.
Definition kill_group := signal_group SIGKILL.

Definition cleanup_rank_processes (processes : list P) : B W unit :=
  each processes terminate_group;;
  each processes (fun p => except (wait p (Some 5);; mret tt) is_TimeoutExpired (mret tt));;
  each processes (fun p => kill_group p;; wait p None;; mret tt).

(** [str] of a [CalledProcessError] *)
Context (called_process_text : Z -> string).

Definition wait_for_rank_processes (processes : list P) (timeout : Z) : B W (list Z) :=
  statuses ← (fun w =>
    match collect processes (fun p => wait p (Some timeout)) w with
    | Some (Raise (TimeoutExpired m), w') =>
        (cleanup_rank_processes processes;; throw (TimeoutExpired m)) w'
    | r => r
    end);
  if existsb (fun s => negb (s =? 0)) statuses then
    cleanup_rank_processes processes;;
    let code := default 0 (max_list statuses) in
    throw (CalledProcessError code (called_process_text code))
  else mret statuses.
End processes.

(** ** Waiting for connections ([_runtime_common.wait_for_connections]) *)

(** The clock, [time.sleep] and the backend's count change the same state. *)
Section connections.
Context {W : Type} (time : W -> float * W) (sleep : Z -> W -> W)
  (connection_count : W -> outcome Z * W) (min_devices timeout : Z).

(** [time.time() - start_time] *)
Definition elapsed (start : float) (w : W) : float * W :=
  let '(t, w) := time w in (fsub t start, w).

(** The body of the [try] up to the sleep: the number of connections; the whole seconds
    elapsed are printed *)
Definition check_connections (start : float) (w : W) : outcome Z * W :=
  match connection_count w with
  | (Raise e, w) => (Raise e, w)
  | (Ret n, w) => let '(t, w) := elapsed start w in (int_of_float t;; Ret n, w)
  end.

(** The loop; [None] when the fuel runs out *)
Fixpoint connection_loop (fuel : nat) (start : float) (w : W) : option (outcome Z * W) :=
  match fuel with
  | O => None
  | S fuel =>
      let '(t, w) := elapsed start w in
      if flt t (f_of_Z timeout) then
        match check_connections start w with
        | (Ret n, w) =>
            if min_devices <=? n then Some (Ret n, w) else connection_loop fuel start (sleep 2 w)
        | (Raise _, w) => connection_loop fuel start (sleep 2 w)
        end
      else Some (connection_count w)
  end.

(** [supported] tells whether the backend counts its connections. *)
Definition wait_for_connections (supported : bool) (fuel : nat) (w : W)
    : option (outcome Z * W) :=
  if supported then let '(start, w) := time w in connection_loop fuel start w
  else Some (Ret 0, w).

(** *** A clock that goes forward

    [age w]: the time of state [w], in units of the last place of the smallest float.  Up to a
    [horizon], a reading lies between the states around it; a second at least passes in a
    sleep. *)
Context (age : W -> Z) (horizon : Z)
  (time_fin : forall w, pfin (time w).1)
  (time_age : forall w, age w <= age (time w).2 /\
                        Z.min (age w) horizon <= fval (time w).1 <= age (time w).2)
  (count_age : forall w, age w <= age (connection_count w).2)
  (sleep_age : forall w, age w + one <= age (sleep 2 w)).

Lemma elapsed_age start w : age w <= age (elapsed start w).2.
Proof.
  unfold elapsed. pose proof (time_age w). destruct (time w) as [t w']. cbn in *. lia.
Qed.

Lemma check_age start w r w' : check_connections start w = (r, w') -> age w <= age w'.
Proof.
  unfold check_connections. pose proof (count_age w) as Hc.
  destruct (connection_count w) as [[n|e] w1]; cbn in Hc; [|intros [= _ <-]; lia].
  pose proof (elapsed_age start w1) as He. destruct (elapsed start w1) as [t w2].
  cbn in He. intros [= _ <-]. lia.
Qed.

(** Once [timeout] seconds have passed since [start], the loop's test fails. *)
Lemma time_is_up start w :
  pfin start -> 0 <= timeout < 2 ^ 53 -> fval start + timeout * one <= horizon ->
  fval start + timeout * one <= age w ->
  flt (elapsed start w).1 (f_of_Z timeout) = false.
Proof.
  intros Hs Ht Hh Ha. unfold elapsed. pose proof (time_age w) as Hw. pose proof (time_fin w) as Hf.
  destruct (time w) as [t w']. cbn [fst snd] in *. pose proof one_pos.
  destruct (f_of_Z_fval timeout Ht) as [Hp Hv].
  assert (0 <= timeout * one) by (apply Z.mul_nonneg_nonneg; lia).
  destruct (fsub_le t start t Hf Hs Hf) as [Hpd _]; [lia|pose proof (pfin_fval start Hs); lia|].
  destruct (flt (fsub t start) (f_of_Z timeout)) eqn:Hlt; [|done].
  apply flt_true in Hlt; [|apply Hpd|apply Hp].
  pose proof (fsub_ge t start (f_of_Z timeout) Hf Hs Hp ltac:(lia) ltac:(lia)). lia.
Qed.

(** What the loop returns: enough connections, or the count it finds when the time is up *)
Definition connected (start : float) (res : outcome Z * W) : Prop :=
  (exists n, res.1 = Ret n /\ min_devices <= n) \/
  (exists w, flt (elapsed start w).1 (f_of_Z timeout) = false /\
             connection_count (elapsed start w).2 = res).

Lemma connection_loop_returns n start w :
  pfin start -> 0 <= timeout < 2 ^ 53 -> fval start + timeout * one <= horizon ->
  fval start + timeout * one <= age w + Z.of_nat n * one ->
  exists res, connection_loop (S n) start w = Some res /\ connected start res.
Proof.
  intros Hs Ht Hh. revert w. induction n as [|n IH]; intros w Ha; cbn [connection_loop];
    pose proof (elapsed_age start w) as Hel.
  { pose proof (time_is_up start w Hs Ht Hh ltac:(lia)) as Hup.
    destruct (elapsed start w) as [t w1] eqn:Hew. cbn [fst] in Hup. rewrite Hup.
    eexists. split; [done|]. right. exists w. by rewrite Hew. }
  destruct (elapsed start w) as [t w1] eqn:Hew. cbn [snd] in Hel.
  destruct (flt t (f_of_Z timeout)) eqn:Hlt; last first.
  { eexists. split; [done|]. right. exists w. by rewrite Hew. }
  destruct (check_connections start w1) as [r w2] eqn:Hc.
  pose proof (check_age start w1 r w2 Hc) as Hca. pose proof (sleep_age w2) as Hsl.
  destruct (IH (sleep 2 w2)) as (res & Hres & Hcon); [lia|].
  destruct r as [k|e]; [|by exists res].
  destruct (Z.leb_spec min_devices k); [|by exists res].
  eexists. split; [done|]. left. by exists k.
Qed.

Lemma wait_for_connections_returns w :
  0 <= timeout < 2 ^ 53 -> fval (time w).1 + timeout * one <= horizon ->
  exists res, wait_for_connections true (S (Z.to_nat timeout)) w = Some res /\
              connected (time w).1 res.
Proof.
  intros Ht Hh. unfold wait_for_connections. pose proof (time_age w) as Ha. pose proof (time_fin w) as Hf.
  destruct (time w) as [start w1]. cbn [fst snd] in *.
  apply connection_loop_returns; [done..|]. rewrite Z2Nat.id by lia. lia.
Qed.
End connections.

(** ** Ending processes *)

(** [exited p w]: process [p] has ended; it stays so. *)
Class OsLaws (P W : Type) `{Os P W} (exited : P -> W -> Prop) : Prop := {
  exited_poll : forall p q w, exited p w -> exited p (poll q w).2;
  exited_terminate : forall p q w, exited p w -> exited p (terminate q w);
  exited_kill : forall p q w, exited p w -> exited p (kill q w);
  exited_wait : forall p q t w r w', exited p w -> os_wait q t w = Some (r, w') -> exited p w';
  exited_killpg : forall p q s w, exited p w -> exited p (killpg q s w).2;
  waited_exited : forall p t w c w', os_wait p t w = Some (Some c, w') -> exited p w';
  timed_wait_returns : forall p t w, is_Some (os_wait p (Some t) w);
  wait_exited : forall p t w, exited p w -> exists c w', os_wait p t w = Some (Some c, w');
  wait_killed : forall p w, exists c w', os_wait p None (kill p w) = Some (Some c, w');
  killpg_lookup : forall p s w e w', killpg p s w = (Raise e, w') ->
    is_ProcessLookupError e = true /\ exited p w';
  wait_group_killed : forall p w w', killpg p SIGKILL w = (Ret tt, w') ->
    exists c w'', os_wait p None w' = Some (Some c, w'');
}.

Section ending.
Context {P W : Type} `{Os P W} (exited : P -> W -> Prop) `{!OsLaws P W exited}.

(** [m] returns without an exception; what had ended stays ended, and [Q] holds. *)
Definition ends {A} (m : B W A) (Q : A -> W -> Prop) (w : W) : Prop :=
  exists a w', m w = Some (Ret a, w') /\ Q a w' /\ forall p, exited p w -> exited p w'.

Lemma ends_ret {A} (a : A) (Q : A -> W -> Prop) w : Q a w -> ends (mret a) Q w.
Proof. by exists a, w. Qed.

Lemma ends_bind {A A'} (m : B W A) (f : A -> B W A') Q w :
  ends m (fun a w' => ends (f a) Q w') w -> ends (m ≫= f) Q w.
Proof.
  intros (a & w1 & Hm & (a' & w2 & Hf & HQ & Hk2) & Hk1). exists a', w2.
  unfold mbind, B_bind. rewrite Hm. auto.
Qed.

Lemma ends_mono {A} (m : B W A) (Q Q' : A -> W -> Prop) w :
  ends m Q w -> (forall a w', Q a w' -> Q' a w') -> ends m Q' w.
Proof. intros (a & w' & Hm & HQ & Hk) Himp. exists a, w'. auto. Qed.

Lemma ends_poll p Q w : (forall c w', Q c w') -> ends (now (poll p)) Q w.
Proof.
  intros HQ. eexists _, _. split; [reflexivity|]. split; [apply HQ|].
  intros q. apply exited_poll.
Qed.

Lemma ends_effect (f : W -> W) Q w :
  (forall q, exited q w -> exited q (f w)) -> Q tt (f w) -> ends (effect f) Q w.
Proof. intros Hf HQ. eexists _, _. split; [reflexivity|]. cbn. auto. Qed.

(** A wait that is known to end leaves its process ended. *)
Lemma ends_wait p t w c w' Q :
  os_wait p t w = Some (Some c, w') -> Q tt w' ->
  ends (wait p t;; mret tt) Q w.
Proof.
  intros Hw HQ. exists tt, w'. unfold wait, mbind, B_bind. rewrite Hw. split; [done|].
  split; [done|]. intros q Hq. by eapply exited_wait.
Qed.

(** A wait with a time limit, and what is done when the time is up *)
Lemma ends_timed_wait p t (k : B W unit) Q w :
  (forall w', exited p w' -> Q tt w') ->
  (forall w', ends k Q w') ->
  ends (except (wait p (Some t);; mret tt) is_TimeoutExpired k) Q w.
Proof.
  intros HQ Hk. unfold except, wait, mbind, B_bind, ends.
  destruct (timed_wait_returns p t w) as [[[c|] w'] Hw]; rewrite Hw.
  - exists tt, w'. split; [done|]. split; [apply HQ; by eapply waited_exited|].
    intros q Hq. by eapply exited_wait.
  - cbn. destruct (Hk w') as (a & w'' & -> & HQ' & Hex). exists a, w''. split; [done|].
    split; [done|]. intros q Hq. apply Hex. by eapply exited_wait.
Qed.

(** A loop that ends its processes one by one *)
Lemma ends_each (l : list P) (f : P -> B W unit) (Q : P -> W -> Prop) w :
  (forall p w', ends (f p) (fun _ w'' => Q p w'') w') ->
  (forall p w1 w2, Q p w1 -> (forall q, exited q w1 -> exited q w2) -> Q p w2) ->
  ends (each l f) (fun _ w' => forall p, p ∈ l -> Q p w') w.
Proof.
  intros Hf Hmono. revert w. induction l as [|p l IH]; intros w; cbn [each].
  { apply ends_ret. by intros p ?%elem_of_nil. }
  apply ends_bind. destruct (Hf p w) as ([] & w1 & Hw1 & HQ & Hk). exists tt, w1.
  split; [done|]. split; [|done]. destruct (IH w1) as ([] & w2 & Hw2 & HQ2 & Hk2).
  exists tt, w2. split; [done|]. split; [|done].
  intros q [->|Hq]%elem_of_cons; [by eapply Hmono|by apply HQ2].
Qed.

Lemma exited_mono p w1 w2 : exited p w1 -> (forall q, exited q w1 -> exited q w2) -> exited p w2.
Proof. auto. Qed.

(** Killing and waiting ends a process. *)
Lemma ends_kill_wait p w : ends (effect (kill p);; wait p None;; mret tt) (fun _ w' => exited p w') w.
Proof.
  apply ends_bind, ends_effect; [intros q; apply exited_kill|].
  destruct (wait_killed p w) as (c & w' & Hw). eapply ends_wait; [done|]. by eapply waited_exited.
Qed.

Lemma ends_signal_group s p w : ends (signal_group s p) (fun _ _ => True) w.
Proof.
  unfold signal_group, except. destruct (killpg p s w) as [[[]|e] w'] eqn:Hk.
  - exists tt, w'. rewrite Hk. split; [done|]. split; [done|]. intros q Hq.
    pose proof (exited_killpg q p s w Hq) as Hx. by rewrite Hk in Hx.
  - destruct (killpg_lookup p s w e w' Hk) as [Hl _]. exists tt, w'. rewrite Hk, Hl.
    split; [done|]. split; [done|]. intros q Hq. pose proof (exited_killpg q p s w Hq) as Hx. by rewrite Hk in Hx.
Qed.

Lemma ends_kill_group_wait p w : ends (kill_group p;; wait p None;; mret tt) (fun _ w' => exited p w') w.
Proof.
  unfold kill_group, signal_group, except, mbind at 1, B_bind at 1.
  pose proof (fun q => exited_killpg q p SIGKILL w) as Hx.
  destruct (killpg p SIGKILL w) as [[[]|e] w'] eqn:Hk; cbn [snd] in Hx.
  - destruct (wait_group_killed p w w' Hk) as (c & w'' & Hw).
    destruct (ends_wait p None w' c w'' (fun _ w' => exited p w') Hw) as (a & w3 & Hm & HQ & Hex).
    { by eapply waited_exited. }
    exists a, w3. unfold ends. cbn beta. rewrite Hk. auto.
  - destruct (killpg_lookup p SIGKILL w e w' Hk) as [Hl He].
    destruct (wait_exited p None w' He) as (c & w'' & Hw).
    destruct (ends_wait p None w' c w'' (fun _ w' => exited p w') Hw) as (a & w3 & Hm & HQ & Hex).
    { by eapply waited_exited. }
    exists a, w3. unfold ends. cbn beta. rewrite Hk, Hl. auto.
Qed.

Definition all_exited (ps : list P) (w : W) : Prop := forall p, p ∈ ps -> exited p w.

(** *** [terminate_fleet] *)

Lemma ends_each_exited ps (f : P -> B W unit) w :
  (forall p w', ends (f p) (fun _ w'' => exited p w'') w') ->
  ends (each ps f) (fun _ w' => all_exited ps w') w.
Proof. intros Hf. apply (ends_each ps f exited); [done|]. intros p w1 w2. apply exited_mono. Qed.

Lemma ends_each_true ps (f : P -> B W unit) w :
  (forall p w', ends (f p) (fun _ _ => True) w') -> ends (each ps f) (fun _ _ => True) w.
Proof.
  intros Hf. eapply ends_mono; [apply (ends_each ps f (fun _ _ => True)); [done|by intros]|done].
Qed.

Lemma ends_ask p w :
  ends (status ← now (poll p);
        match status with None => effect (terminate p) | Some _ => mret tt end)
    (fun _ _ => True) w.
Proof.
  apply ends_bind, ends_poll. intros [c|] w'; [by apply ends_ret|].
  apply ends_effect; [|done]. intros q. apply exited_terminate.
Qed.

Lemma ends_terminate_fleet ps w :
  ends (terminate_fleet ps) (fun _ w' => all_exited ps w') w.
Proof.
  unfold terminate_fleet. apply ends_bind.
  eapply ends_mono; [apply ends_each_true, ends_ask|]. intros _ w1 _.
  apply ends_each_exited. intros p w'. apply ends_timed_wait; [done|]. apply ends_kill_wait.
Qed.

(** *** [cleanup_rank_processes] and [wait_for_rank_processes] *)

Lemma ends_cleanup_rank_processes ps w :
  ends (cleanup_rank_processes ps) (fun _ w' => all_exited ps w') w.
Proof.
  unfold cleanup_rank_processes. apply ends_bind.
  eapply ends_mono; [apply ends_each_true, ends_signal_group|]. intros _ w1 _.
  apply ends_bind. eapply ends_mono.
  { apply ends_each_true. intros p w'. apply ends_timed_wait; [done|]. intros w2. by apply ends_ret. }
  intros _ w2 _. apply ends_each_exited. intros p w'. apply ends_kill_group_wait.
Qed.

(** Waiting for every process in turn, each for the whole limit *)
Lemma collect_waits ps timeout w :
  exists r w', collect ps (fun p => wait p (Some timeout)) w = Some (r, w') /\
    (forall q, exited q w -> exited q w') /\
    match r with
    | Ret ss => length ss = length ps /\ all_exited ps w'
    | Raise e => exists m, e = TimeoutExpired m
    end.
Proof.
  revert w. induction ps as [|p ps IH]; intros w; cbn [collect].
  { exists (Ret []), w. split_and!; [done..|]. by intros p ?%elem_of_nil. }
  unfold mbind, B_bind, wait at 1.
  destruct (timed_wait_returns p timeout w) as [[[c|] w1] Hw]; rewrite Hw.
  - destruct (IH w1) as (r & w2 & -> & Hex & Hr). destruct r as [ss|e].
    + destruct Hr as [Hlen Hall]. eexists _, w2. split; [reflexivity|].
      split; [intros q Hq; apply Hex; by eapply exited_wait|]. split; [cbn; by rewrite Hlen|].
      intros q [->|Hq]%elem_of_cons; [|by apply Hall]. apply Hex. by eapply waited_exited.
    + exists (Raise e), w2. split; [done|]. split; [|done].
      intros q Hq. apply Hex. by eapply exited_wait.
  - eexists _, w1. split; [reflexivity|]. split; [|by eexists]. intros q Hq. by eapply exited_wait.
Qed.

Lemma cleanup_then_throw ps (e : exn) w :
  exists w', (cleanup_rank_processes ps;; throw (A := list Z) e) w = Some (Raise e, w') /\
             all_exited ps w'.
Proof.
  destruct (ends_cleanup_rank_processes ps w) as ([] & w' & Hm & Hall & _).
  exists w'. unfold mbind, B_bind. by rewrite Hm.
Qed.
End ending.

(** *** Starting devices, when the operating system keeps a list of what it started *)

Section starting.
Context {P W : Type} `{Os P W} (started : W -> list (list string))
  (popen_started : forall c e o w p w', popen c e o w = (Ret p, w') -> started w' = started w ++ [c])
  (popen_failed : forall c e o w x w', popen c e o w = (Raise x, w') -> started w' = started w).

(** The devices [lo .. lo + n - 1] of a rank are started in turn, up to the first that fails. *)
Lemma collect_starts environ gpus rank count cfg lo n w :
  exists r w', collect (seqZ lo (Z.of_nat n)) (start_device environ gpus rank count cfg) w = Some (r, w') /\
    exists k, (k <= n)%nat /\
      started w' = started w ++ map (fun i => device_command rank count i cfg) (seqZ lo (Z.of_nat k)) /\
      match r with Ret ps => length ps = n /\ k = n | Raise _ => (k < n)%nat end.
Proof.
  revert lo w. induction n as [|n IH]; intros lo w.
  { exists (Ret []), w. split; [done|]. exists O. by rewrite app_nil_r. }
  rewrite seqZ_cons by lia. replace (Z.pred (Z.of_nat (S n))) with (Z.of_nat n) by lia.
  cbn [collect]. unfold mbind at 1, B_bind, start_device at 1.
  destruct (popen _ _ _ w) as [[p|x] w1] eqn:Hp; last first.
  { eexists _, w1. split; [reflexivity|]. exists O.
    rewrite (popen_failed _ _ _ _ _ _ Hp), app_nil_r. split; [lia|]. split; [done|lia]. }
  apply popen_started in Hp. destruct (IH (Z.succ lo) w1) as (r & w2 & Hc & k & Hk & Hs & Hr).
  unfold mbind, B_bind. rewrite Hc.
  assert (Hst : started w2 = started w ++
      map (fun i => device_command rank count i cfg) (seqZ lo (Z.of_nat (S k)))).
  { rewrite Hs, Hp, <- app_assoc. f_equal. rewrite (seqZ_cons lo (Z.of_nat (S k))) by lia.
    by replace (Z.pred (Z.of_nat (S k))) with (Z.of_nat k) by lia. }
  destruct r as [ps|x].
  - destruct Hr as [Hlen ->]. eexists _, w2. split; [reflexivity|]. exists (S n).
    split; [lia|]. split; [done|]. cbn. by rewrite Hlen.
  - eexists _, w2. split; [reflexivity|]. exists (S k). split; [lia|]. split; [done|lia].
Qed.
End starting.

(** ** Properties *)

Section properties.
Context {P W : Type} `{Os P W} (exited : P -> W -> Prop) `{!OsLaws P W exited}.

(** [terminate_fleet] returns for every fleet and every behaviour of the operating
    system its laws allow, without an exception, and no process of the fleet runs afterwards:
    a device that ignores the terminate signal for ten seconds is killed. *)
Theorem fleet_is_ended (ps : list P) w :
  exists w', terminate_fleet ps w = Some (Ret tt, w') /\ forall p, p ∈ ps -> exited p w'.
Proof.
  destruct (ends_terminate_fleet exited ps w) as ([] & w' & Hm & Hall & _). by exists w'.
Qed.

(** C28: [wait_for_rank_processes] always returns, and no rank process runs afterwards.  It
    returns the exit statuses only if all are zero; it raises [TimeoutExpired] when a wait is
    up, and otherwise [CalledProcessError] with the greatest status.  The greatest status is
    zero when every failing rank was ended by a signal. *)
Theorem rank_processes_are_ended (text : Z -> string) (ps : list P) timeout w :
  exists r w', wait_for_rank_processes text ps timeout w = Some (r, w') /\
    (forall p, p ∈ ps -> exited p w') /\
    match r with
    | Ret ss => length ss = length ps /\ Forall (fun s => s = 0) ss
    | Raise e =>
        (exists m, e = TimeoutExpired m) \/
        exists ss c, length ss = length ps /\ Exists (fun s => s <> 0) ss /\
          max_list ss = Some c /\ e = CalledProcessError c (text c)
    end.
Proof.
  unfold wait_for_rank_processes, mbind at 1, B_bind at 1.
  destruct (collect_waits exited ps timeout w) as (r & w1 & -> & _ & Hr). destruct r as [ss|e]; last first.
  { destruct Hr as [m ->]. destruct (cleanup_then_throw exited ps (TimeoutExpired m) w1) as (w2 & -> & Hall).
    exists (Raise (TimeoutExpired m)), w2. split; [done|]. split; [done|]. left. by exists m. }
  destruct Hr as [Hlen Hall]. destruct (existsb _ ss) eqn:Hex; last first.
  { exists (Ret ss), w1. split; [done|]. split; [done|]. split; [done|].
    apply Forall_forall. intros s Hs%list_elem_of_In.
    destruct (Z.eqb_spec s 0) as [|Hne]; [done|]. apply Z.eqb_neq in Hne.
    assert (existsb (fun s => negb (s =? 0)) ss = true); [|congruence].
    apply existsb_exists. exists s. by rewrite Hne. }
  destruct (cleanup_then_throw exited ps
    (CalledProcessError (default 0 (max_list ss)) (text (default 0 (max_list ss)))) w1)
    as (w2 & Hm & Hend).
  exists (Raise (CalledProcessError (default 0 (max_list ss)) (text (default 0 (max_list ss))))), w2.
  split; [exact Hm|]. split; [done|]. right. exists ss, (default 0 (max_list ss)).
  apply existsb_exists in Hex as (s & Hs & Hne). destruct ss as [|s0 ss]; [done|].
  split; [done|]. split; [|done]. apply Exists_exists. exists s. split; [by apply list_elem_of_In|].
  by apply negb_true_iff, Z.eqb_neq in Hne.
Qed.
End properties.

(** The devices of all ranks have the ids [0 .. ranks * count - 1], each once, in rank
    order. *)
Theorem fleet_ids_tile (ranks count : Z) :
  0 <= ranks -> 0 <= count ->
  concat (map (fun rank => map (device_id rank count) (seqZ 0 count)) (seqZ 0 ranks)) =
  seqZ 0 (ranks * count).
Proof.
  intros Hr Hc. pattern ranks. apply natlike_ind; [done| |done]. intros r Hr' IH.
  rewrite Z.mul_succ_l, <- Z.add_1_r, !seqZ_app, map_app, concat_app, IH by nia. f_equal.
  replace (seqZ (0 + r) 1) with [r] by (cbn; f_equal; lia). cbn [map concat]. rewrite app_nil_r.
  rewrite Z.add_0_l. replace (seqZ (r * count) count) with (seqZ (r * count + 0) count) by (f_equal; lia).
  rewrite <- fmap_add_seqZ. apply list_fmap_ext. intros i x _. done.
Qed.

(** [spawn_fleet] starts the devices of its rank in order.  When it returns, it returns a
    handle per device; when starting one fails, the devices before it have been started and
    their handles are lost with the exception. *)
Theorem spawn_fleet_starts {P W : Type} `{Os P W} (started : W -> list (list string))
    (popen_started : forall c e o w p w', popen c e o w = (Ret p, w') -> started w' = started w ++ [c])
    (popen_failed : forall c e o w x w', popen c e o w = (Raise x, w') -> started w' = started w)
    environ gpus rank count cfg w :
  0 <= count ->
  exists r w', spawn_fleet environ gpus rank count cfg w = Some (r, w') /\
    exists k, 0 <= k <= count /\
      started w' = started w ++ map (fun i => device_command rank count i cfg) (seqZ 0 k) /\
      match r with Ret ps => Z.of_nat (length ps) = count /\ k = count | Raise _ => k < count end.
Proof.
  intros Hc. unfold spawn_fleet.
  destruct (collect_starts started popen_started popen_failed environ (Z.max 1 gpus) rank count cfg
              0 (Z.to_nat count) w) as (r & w' & Hm & k & Hk & Hs & Hr).
  rewrite Z2Nat.id in Hm by done. exists r, w'. split; [done|]. exists (Z.of_nat k).
  split; [lia|]. split; [done|]. destruct r; lia.
Qed.

(** C29: as long as nobody sets the clock back, a sleep of two seconds takes at least one, and
    every call of the backend returns or raises, [wait_for_connections] sleeps at most
    [timeout] times and returns, whatever the backend counts and however often it raises:
    with enough connections, or, at a moment when the clock shows that [timeout] seconds
    have passed, with the count it finds then, which may be too small or an exception.
    [age] is the time that has really passed; the clock follows it up to [horizon]. *)
Theorem waiting_ends {W : Type} (time : W -> float * W) (sleep : Z -> W -> W)
    (connection_count : W -> outcome Z * W) (min_devices timeout : Z)
    (age : W -> Z) (horizon : Z)
    (time_fin : forall w, pfin (time w).1)
    (time_age : forall w, age w <= age (time w).2 /\
                          Z.min (age w) horizon <= fval (time w).1 <= age (time w).2)
    (count_age : forall w, age w <= age (connection_count w).2)
    (sleep_age : forall w, age w + one <= age (sleep 2 w)) w :
  0 <= timeout < 2 ^ 53 -> fval (time w).1 + timeout * one <= horizon ->
  exists r w', wait_for_connections time sleep connection_count min_devices timeout true
                 (S (Z.to_nat timeout)) w = Some (r, w') /\
    ((exists n, r = Ret n /\ min_devices <= n) \/
     (exists w0, flt (elapsed time (time w).1 w0).1 (f_of_Z timeout) = false /\
                 connection_count (elapsed time (time w).1 w0).2 = (r, w'))).
Proof.
  intros Ht Hh. destruct (wait_for_connections_returns time sleep connection_count min_devices timeout
    age horizon time_fin time_age count_age sleep_age w Ht Hh) as ([r w'] & Hm & Hc).
  exists r, w'. split; [exact Hm|exact Hc].
Qed.

(** ** Witnesses *)

(** An operating system: the processes so far, and how many more may be started *)
Record process : Type := mk_process {
  command : list string;
  alive : bool;
  stubborn : bool;
  exit_status : Z }.
Record machine : Type := mk_machine { processes : list process; room : nat }.

Definition end_process (status : Z) (p : process) : process :=
  if alive p then mk_process (command p) false (stubborn p) status else p.

Definition at_process (n : nat) (f : process -> process) (m : machine) : machine :=
  mk_machine (alter f n (processes m)) (room m).

(** Whether a process can still run; an unknown one cannot *)
Definition alive_at (n : nat) (m : machine) : bool :=
  match processes m !! n with Some p => alive p | None => false end.
Definition status_at (n : nat) (m : machine) : Z :=
  match processes m !! n with Some p => exit_status p | None => 0 end.
Definition ask_to_end (p : process) : process := if stubborn p then p else end_process (-15) p.

#[export] Instance machine_os : Os nat machine := {
  popen c e o m :=
    match room m with
    | O => (Raise (OSError "Resource temporarily unavailable"), m)
    | S r => (Ret (length (processes m)), mk_machine (processes m ++ [mk_process c true false 0]) r)
    end;
  poll n m := (if alive_at n m then None else Some (status_at n m), m);
  terminate n m := at_process n ask_to_end m;
  kill n m := at_process n (end_process (-9)) m;
  os_wait n timeout m :=
    if alive_at n m then match timeout with Some _ => Some (None, m) | None => None end
    else Some (Some (status_at n m), m);
  killpg n s m :=
    if alive_at n m then
      (Ret tt, at_process n (match s with SIGTERM => ask_to_end | SIGKILL => end_process (-9) end) m)
    else (Raise (ProcessLookupError "No such process"), m);
}.

Definition ended (n : nat) (m : machine) : Prop := alive_at n m = false.

Lemma alive_at_process n k f m :
  (forall p, alive p = false -> alive (f p) = false) -> ended n m -> ended n (at_process k f m).
Proof.
  unfold ended, alive_at, at_process. intros Hf. cbn [processes]. destruct (decide (n = k)) as [->|Hne].
  - rewrite list_lookup_alter, decide_True by done. destruct (processes m !! k); cbn; auto.
  - by rewrite list_lookup_alter_ne.
Qed.

Lemma killed_at n m : ended n (at_process n (end_process (-9)) m).
Proof.
  unfold ended, alive_at, at_process. cbn [processes]. rewrite list_lookup_alter, decide_True by done.
  destruct (processes m !! n) as [p|]; [|done]. cbn. unfold end_process.
  by destruct (alive p) eqn:Ha; cbn.
Qed.

Lemma end_process_dead c p : alive p = false -> alive (end_process c p) = false.
Proof. unfold end_process. intros Ha. by rewrite Ha. Qed.
Lemma ask_to_end_dead p : alive p = false -> alive (ask_to_end p) = false.
Proof. unfold ask_to_end. destruct (stubborn p); [done|apply end_process_dead]. Qed.

#[export] Instance machine_laws : OsLaws nat machine ended.
Proof.
  split; cbn.
  - done.
  - intros p q w. apply alive_at_process, ask_to_end_dead.
  - intros p q w. apply alive_at_process, end_process_dead.
  - intros p q t w r w' Hp. destruct (alive_at q w), t; by intros [= _ <-].
  - intros p q s w Hp. destruct (alive_at q w); [|done]. cbn. apply alive_at_process; [|done].
    destruct s; [apply ask_to_end_dead|apply end_process_dead].
  - intros p t w c w'. unfold ended. by destruct (alive_at p w) eqn:Ha, t; intros [= _ <-].
  - intros p t w. by destruct (alive_at p w).
  - intros p t w Hp. rewrite Hp. eauto.
  - intros p w. pose proof (killed_at p w) as Hk. unfold ended in Hk. rewrite Hk. eauto.
  - intros p s w e w'. unfold ended. by destruct (alive_at p w) eqn:Ha; intros [= <- <-].
  - intros p w w'. pose proof (killed_at p w) as Hk. unfold ended in Hk.
    destruct (alive_at p w); [|done]. intros [= <-]. rewrite Hk. eauto.
Qed.

(** Two devices, the second of which ignores the terminate signal *)
Definition two_devices : machine :=
  mk_machine [mk_process [] true false 0; mk_process [] true true 0] 0.
(** Two ranks: one has ended well, the other was killed *)
Definition one_killed : machine :=
  mk_machine [mk_process [] false false 0; mk_process [] false false (-9)] 0.

Lemma fleet_is_ended_witness :
  OsLaws nat machine ended /\
  terminate_fleet [0; 1]%nat two_devices =
    Some (Ret tt, mk_machine [mk_process [] false false (-15); mk_process [] false true (-9)] 0) /\
  exists w', terminate_fleet [0; 1]%nat two_devices = Some (Ret tt, w') /\
             forall p, p ∈ [0; 1]%nat -> ended p w'.
Proof. split; [apply machine_laws|]. split; [done|]. apply (fleet_is_ended ended). Defined.

Lemma rank_processes_are_ended_witness :
  OsLaws nat machine ended /\
  wait_for_rank_processes str_of_Z [0; 1]%nat 120 one_killed =
    Some (Raise (CalledProcessError 0 "0"), one_killed) /\
  exists r w', wait_for_rank_processes str_of_Z [0; 1]%nat 120 two_devices = Some (r, w') /\
    (forall p, p ∈ [0; 1]%nat -> ended p w') /\
    match r with
    | Ret ss => length ss = 2%nat /\ Forall (fun s => s = 0) ss
    | Raise e =>
        (exists m, e = TimeoutExpired m) \/
        exists ss c, length ss = 2%nat /\ Exists (fun s => s <> 0) ss /\
          max_list ss = Some c /\ e = CalledProcessError c (str_of_Z c)
    end.
Proof.
  split; [apply machine_laws|]. split; [by vm_compute|].
  apply (rank_processes_are_ended ended str_of_Z [0; 1]%nat).
Defined.

Lemma fleet_ids_tile_witness :
  0 <= 2 /\ 0 <= 3 /\ map (device_id 1 3) (seqZ 0 3) = [3; 4; 5] /\
  concat (map (fun rank => map (device_id rank 3) (seqZ 0 3)) (seqZ 0 2)) = seqZ 0 6.
Proof. split; [lia|]. split; [lia|]. split; [done|]. apply (fleet_ids_tile 2 3); lia. Defined.

(** Starting three devices on a machine with room for two *)
Lemma spawn_fleet_starts_witness :
  0 <= 3 /\
  (spawn_fleet [] 1 0 3 "cli.ini" (mk_machine [] 2) =
   Some (Raise (OSError "Resource temporarily unavailable"),
     mk_machine [mk_process (device_command 0 3 0 "cli.ini") true false 0;
                 mk_process (device_command 0 3 1 "cli.ini") true false 0] 0)) /\
  exists r w', spawn_fleet [] 1 0 3 "cli.ini" (mk_machine [] 3) = Some (r, w') /\
    exists k, 0 <= k <= 3 /\
      map command (processes w') = [] ++ map (fun i => device_command 0 3 i "cli.ini") (seqZ 0 k) /\
      match r with Ret ps => Z.of_nat (length ps) = 3 /\ k = 3 | Raise _ => k < 3 end.
Proof.
  split; [lia|]. split; [by vm_compute|].
  apply (spawn_fleet_starts (fun m => map command (processes m))); [| |lia].
  - cbn. intros c e o w p w'. destruct (room w); [done|]. intros [= _ <-]. cbn. by rewrite map_app.
  - cbn. intros c e o w x w'. destruct (room w); [|done]. by intros [= _ <-].
Defined.

(** A clock in seconds, and a backend whose first device connects after four of them *)
Definition tick_limit : Z := 2 ^ 52.
Definition tick_time (w : N) : float * N := (f_of_Z (Z.min (Z.of_N w) tick_limit), w).
Definition tick_sleep (seconds : Z) (w : N) : N := (w + Z.to_N seconds)%N.
Definition late_device (w : N) : outcome Z * N :=
  (if (w <? 4)%N then Raise (RuntimeError "no device") else Ret 1, w).

Lemma tick_fval w : pfin (tick_time w).1 /\ fval (tick_time w).1 = Z.min (Z.of_N w) tick_limit * one.
Proof. apply f_of_Z_fval. unfold tick_limit. lia. Qed.

Lemma tick_time_age w :
  Z.of_N w * one <= Z.of_N (tick_time w).2 * one /\
  Z.min (Z.of_N w * one) (tick_limit * one) <= fval (tick_time w).1 <= Z.of_N (tick_time w).2 * one.
Proof.
  pose proof one_pos. destruct (tick_fval w) as [_ ->]. cbn [tick_time snd].
  rewrite Z.mul_min_distr_nonneg_r by lia. split; [lia|]. split; [lia|].
  apply Z.mul_le_mono_nonneg_r; lia.
Qed.

Lemma waiting_ends_witness :
  0 <= 10 < 2 ^ 53 /\ fval (tick_time 0).1 + 10 * one <= tick_limit * one /\
  wait_for_connections tick_time tick_sleep late_device 1 10 true 11 0%N = Some (Ret 1, 4%N) /\
  wait_for_connections tick_time tick_sleep late_device 1 3 true 4 0%N = Some (Ret 1, 4%N) /\
  wait_for_connections tick_time tick_sleep late_device 2 10 true 11 0%N = Some (Ret 1, 10%N) /\
  exists r w', wait_for_connections tick_time tick_sleep late_device 1 10 true
                 (S (Z.to_nat 10)) 0%N = Some (r, w') /\
    ((exists n, r = Ret n /\ 1 <= n) \/
     (exists w0, flt (elapsed tick_time (tick_time 0).1 w0).1 (f_of_Z 10) = false /\
                 late_device (elapsed tick_time (tick_time 0).1 w0).2 = (r, w'))).
Proof.
  split; [lia|]. assert (Hh : fval (tick_time 0).1 + 10 * one <= tick_limit * one) by (by vm_compute).
  split; [exact Hh|]. split; [by vm_compute|]. split; [by vm_compute|]. split; [by vm_compute|].
  apply (waiting_ends tick_time tick_sleep late_device 1 10 (fun w => Z.of_N w * one) (tick_limit * one)).
  - intros w. apply tick_fval.
  - apply tick_time_age.
  - intros w. cbn. lia.
  - intros w. pose proof one_pos. unfold tick_sleep. rewrite N2Z.inj_add. cbn [Z.to_N Z.of_N]. lia.
  - lia.
  - exact Hh.
Defined.
