(* ===== verification/Launch.v ===== *)
(** * The process of a rank ([scripts/run_multi_coordinator.py],
      [scripts/_multi_coordinator_training.py])

    The command line a rank is started with, the configuration it rebuilds from it, the
    configuration file of its emulator, and the life of the process: everything it starts,
    its result or failure file and its exit status.  It runs the collector of [Metrics] and
    the devices of [Fleet]; the emulator service, torch.distributed and the files are
    parameters. *)

From Stdlib Require Import Ascii.
From S2P Require Import Prelude PyDict PyStr PyFloat PyJson Metrics Fleet Scaling.

(** ** The command line ([run_multi_coordinator._parser]) *)

(** The forms of [argparse] that the launcher uses: options by their full names, with their
    values as arguments of their own *)
Inductive action : Type := StoreTrue | Store | StoreMany.

Definition options : pydict string action :=
  [("--worker", StoreTrue); ("--scaling_mode", Store); ("--coords", Store);
   ("--devices_per_coord", Store); ("--steps", Store); ("--warmup_steps", Store);
   ("--local_batch", Store); ("--tiny", StoreTrue); ("--model-name", Store);
   ("--sequence-length", Store); ("--seed", Store); ("--lr", Store); ("--block_size", Store);
   ("--cfg", Store); ("--base_proxy_port", Store); ("--master_port", Store);
   ("--distributed-timeout-seconds", Store); ("--rtol", Store); ("--result_output", Store);
   ("--metrics_output", Store); ("--metrics_interval", Store); ("--metrics_nics", StoreMany)]%string.

(** A dash starts an option, unless the argument is a negative number. *)
Definition is_option (s : string) : bool :=
  startswith "-" s && match int_of_str s with Some _ => false | None => true end.

(** What the arguments read so far have left open *)
Inductive pending : Type :=
  | Closed
  | Wants (name : string)
  | Many (name : string) (values : list string).

Definition occurrences : Type := list (string * list string).

Definition close_pending (p : pending) (seen : occurrences) : option occurrences :=
  match p with
  | Closed => Some seen
  | Wants _ | Many _ [] => None
  | Many name values => Some (seen ++ [(name, values)])
  end.

(** [None]: an error message and exit status 2 *)
Fixpoint parse_options (args : list string) (p : pending) (seen : occurrences) : option occurrences :=
  match args with
  | [] => close_pending p seen
  | a :: args =>
      if is_option a then
        match close_pending p seen, dict_get a options with
        | Some seen, Some StoreTrue => parse_options args Closed (seen ++ [(a, [])])
        | Some seen, Some Store => parse_options args (Wants a) seen
        | Some seen, Some StoreMany => parse_options args (Many a []) seen
        | _, _ => None
        end
      else
        match p with
        | Closed => None
        | Wants name => parse_options args Closed (seen ++ [(name, [a])])
        | Many name values => parse_options args (Many name (values ++ [a])) seen
        end
  end.

(** The last occurrence counts. *)
Definition values_of (name : string) (seen : occurrences) : option (list string) :=
  dict_get name (dict_of_pairs seen).

Definition flag (name : string) (seen : occurrences) : bool :=
  match values_of name seen with Some _ => true | None => false end.

(** An option with one value, its [type] and its default *)
Definition typed {A} (type : string -> option A) (name : string) (dflt : A) (seen : occurrences) :
    option A :=
  match values_of name seen with
  | Some [v] => type v
  | _ => Some dflt
  end.

Definition choice (choices : list string) (s : string) : option string :=
  if decide (s ∈ choices) then Some s else None.
Definition int_choice (choices : list Z) (s : string) : option Z :=
  n ← int_of_str s; if decide (n ∈ choices) then Some n else None.
Definition text (s : string) : option (option string) := Some (Some s).

Record Args : Type := mk_args {
  worker : bool;
  scaling_mode : string;
  coords : Z;
  devices_per_coord : Z;
  steps : Z;
  warmup_steps : Z;
  arg_local_batch : Z;
  arg_tiny : bool;
  arg_model_name : string;
  arg_sequence_length : Z;
  seed : Z;
  lr : float;
  arg_block_size : Z;
  cfg : option string;
  arg_base_proxy_port : Z;
  arg_master_port : Z;
  timeout_seconds : Z;
  rtol : float;
  result_output : option string;
  arg_metrics_output : option string;
  metrics_interval : float;
  metrics_nics : option (list string);
}.

Definition positive_interval (s : string) : option float :=
  match Cli.positive_interval s with Ret x => Some x | Raise _ => None end.

Definition parse_args (argv : list string) : option Args :=
  seen ← parse_options argv Closed [];
  scaling_mode ← typed (choice ["strong"; "weak"]) "--scaling_mode" "strong" seen;
  coords ← typed (int_choice [1; 2]) "--coords" 2 seen;
  devices_per_coord ← typed int_of_str "--devices_per_coord" 1 seen;
  steps ← typed int_of_str "--steps" 3 seen;
  warmup_steps ← typed int_of_str "--warmup_steps" 1 seen;
  local_batch ← typed int_of_str "--local_batch" 8 seen;
  model_name ← typed Some "--model-name" "facebook/opt-125m" seen;
  sequence_length ← typed int_of_str "--sequence-length" 32 seen;
  seed ← typed int_of_str "--seed" 42 seen;
  lr ← typed float_of_str "--lr" (f_lit 1 2) seen;
  block_size ← typed int_of_str "--block_size" 128 seen;
  cfg ← typed text "--cfg" None seen;
  base_proxy_port ← typed int_of_str "--base_proxy_port" 39000 seen;
  master_port ← typed int_of_str "--master_port" 29500 seen;
  timeout ← typed int_of_str "--distributed-timeout-seconds" 120 seen;
  rtol ← typed float_of_str "--rtol" (f_lit 5 2) seen;
  result_output ← typed text "--result_output" None seen;
  metrics_output ← typed text "--metrics_output" None seen;
  metrics_interval ← typed positive_interval "--metrics_interval" (f_of_Z 1) seen;
  Some (mk_args (flag "--worker" seen) scaling_mode coords devices_per_coord steps warmup_steps
          local_batch (flag "--tiny" seen) model_name sequence_length seed lr block_size cfg
          base_proxy_port master_port timeout rtol result_output metrics_output metrics_interval
          (values_of "--metrics_nics" seen))%string.

(** [_scaling_config]; the affinity is the default one *)
Definition scaling_config (args : Args) : ScalingConfig :=
  mk_scaling (scaling_mode args) (coords args) (coords args * devices_per_coord args)
    (coords args * arg_local_batch args) (devices_per_coord args) (arg_local_batch args)
    (warmup_steps args) (steps args) "numactl" (rtol args) (arg_tiny args) (arg_model_name args)
    (arg_sequence_length args) (arg_block_size args) (lr args) (timeout_seconds args).

(** [sys.argv[1:]] of the script, from the command that starts it *)
Fixpoint script_arguments (command : list string) : list string :=
  match command with
  | [] => []
  | a :: rest => if String.eqb a "scripts/run_multi_coordinator.py" then rest else script_arguments rest
  end.

(** ** The configuration of the emulator ([_write_rank_config]) *)

(** [line.lstrip().split("=", maxsplit=1)[0].strip()] *)
Definition config_key (line : string) : string :=
  strip (default "" (head (split_on "=" (lstrip_by is_space line)))).

Definition replacements (listen_port device_count : Z) : pydict string string :=
  [("listen_port", "listen_port = " +:+ str_of_Z listen_port +:+ nl);
   ("listen_ip", "listen_ip = 127.0.0.1" +:+ nl);
   ("num_device", "num_device = " +:+ str_of_Z device_count +:+ nl)]%string.

(** [splitlines(keepends=True)], of a text whose newlines are translated *)
Definition is_line_break (c : ascii) : bool :=
  let n := N_of_ascii c in ((n =? 10) || (n =? 11) || (n =? 12) || ((28 <=? n) && (n <=? 30)))%N.
Fixpoint lines_keepends (s : string) : list string :=
  match s with
  | "" => []
  | String c r =>
      if is_line_break c then String c "" :: lines_keepends r
      else match lines_keepends r with
           | [] => [String c ""]
           | l :: ls => String c l :: ls
           end
  end.

Definition configured_line (listen_port device_count : Z) (line : string) : string :=
  dict_get_default (config_key line) line (replacements listen_port device_count).
Definition rank_config (template : string) (listen_port device_count : Z) : string :=
  String.concat "" (map (configured_line listen_port device_count)
                      (lines_keepends (universal_newlines template))).
Definition rank_config_path (rank : Z) : string := "/tmp/svr_c" +:+ str_of_Z rank +:+ ".ini".

(** ** The launcher and its ranks agree *)

Lemma is_option_number z : is_option (str_of_Z z) = false.
Proof. unfold is_option. rewrite int_of_str_of_Z. apply andb_false_r. Qed.

Lemma parse_value name v rest seen :
  is_option name = true -> dict_get name options = Some Store -> is_option v = false ->
  parse_options (name :: v :: rest) Closed seen = parse_options rest Closed (seen ++ [(name, [v])]).
Proof. intros Hn Hd Hv. cbn [parse_options]. rewrite Hn, Hd, Hv. done. Qed.

Lemma parse_flag name rest seen :
  is_option name = true -> dict_get name options = Some StoreTrue ->
  parse_options (name :: rest) Closed seen = parse_options rest Closed (seen ++ [(name, [])]).
Proof. intros Hn Hd. cbn [parse_options]. by rewrite Hn, Hd. Qed.

(** A list of values ends with the next option. *)
Lemma parse_many name v next rest seen :
  is_option name = true -> dict_get name options = Some StoreMany -> is_option v = false ->
  is_option next = true ->
  parse_options (name :: v :: next :: rest) Closed seen
  = parse_options (next :: rest) Closed (seen ++ [(name, [v])]).
Proof. intros Hn Hd Hv Hx. cbn [parse_options]. rewrite Hn, Hd, Hv, Hx. done. Qed.

Lemma typed_value {A} (type : string -> option A) name dflt seen v :
  values_of name seen = Some [v] -> typed type name dflt seen = type v.
Proof. unfold typed. by intros ->. Qed.
Lemma typed_default {A} (type : string -> option A) name dflt seen :
  values_of name seen = None -> typed type name dflt seen = Some dflt.
Proof. unfold typed. by intros ->. Qed.

(** The arguments of a worker, from the texts of its options *)
Definition worker_argv (tiny : bool) (coords devs local warm steps rtol model seq block lr timeout
    metrics result mode master base : string) : list string :=
  ["--worker"; "--coords"; coords; "--devices_per_coord"; devs; "--local_batch"; local;
   "--warmup_steps"; warm; "--steps"; steps; "--rtol"; rtol; "--model-name"; model;
   "--sequence-length"; seq; "--block_size"; block; "--lr"; lr;
   "--distributed-timeout-seconds"; timeout; "--metrics_output"; metrics; "--result_output"; result;
   "--metrics_nics"; "lo"]%string
  ++ (if tiny then ["--tiny"%string] else [])
  ++ ["--scaling_mode"; mode; "--master_port"; master; "--base_proxy_port"; base]%string.

Definition worker_seen (tiny : bool) (coords devs local warm steps rtol model seq block lr timeout
    metrics result mode master base : string) : occurrences :=
  [("--worker", []); ("--coords", [coords]); ("--devices_per_coord", [devs]); ("--local_batch", [local]);
   ("--warmup_steps", [warm]); ("--steps", [steps]); ("--rtol", [rtol]); ("--model-name", [model]);
   ("--sequence-length", [seq]); ("--block_size", [block]); ("--lr", [lr]);
   ("--distributed-timeout-seconds", [timeout]); ("--metrics_output", [metrics]);
   ("--result_output", [result]); ("--metrics_nics", ["lo"])]%string
  ++ (if tiny then [("--tiny"%string, [])] else [])
  ++ [("--scaling_mode", [mode]); ("--master_port", [master]); ("--base_proxy_port", [base])]%string.

Lemma parse_worker_argv tiny coords devs local warm steps rtol model seq block lr timeout
    metrics result mode master base :
  Forall (fun v => is_option v = false) [coords; devs; local; warm; steps; rtol; model; seq; block; lr;
    timeout; metrics; result; mode; master; base] ->
  parse_options (worker_argv tiny coords devs local warm steps rtol model seq block lr timeout
                   metrics result mode master base) Closed []
  = Some (worker_seen tiny coords devs local warm steps rtol model seq block lr timeout
            metrics result mode master base).
Proof.
  intros H. repeat (apply Forall_cons in H as [? H]).
  unfold worker_argv. cbn [app]. rewrite parse_flag by done.
  do 13 (rewrite parse_value by done). destruct tiny; cbn [app].
  - rewrite parse_many, parse_flag by done. do 3 (rewrite parse_value by done). done.
  - rewrite parse_many by done. do 3 (rewrite parse_value by done). done.
Qed.

Section agreement.
Context (str_float : float -> string).

(** What the launcher's matrix has in each of its configurations *)
Definition matrix_config (w : WorkloadConfig) (c : ScalingConfig) : Prop :=
  (mode c = "strong" \/ mode c = "weak")%string /\ (coordinators c = 1 \/ coordinators c = 2)
  /\ total_devices c = coordinators c * devices_per_coordinator c
  /\ global_batch c = coordinators c * local_batch c
  /\ affinity_mode c = "numactl"%string /\ relative_tolerance c = f_lit 5 2
  /\ model_name c = w_model_name w /\ learning_rate c = w_learning_rate w.

Definition balanced_point (p : point) : Prop :=
  let '(coordinators, total, global, devices, local) := p in
  (coordinators = 1 \/ coordinators = 2) /\ total = coordinators * devices /\ global = coordinators * local.

Lemma points_balanced tiny :
  Forall balanced_point (strong_points tiny) /\ Forall balanced_point (weak_points tiny).
Proof. destruct tiny; split; repeat constructor; lia. Qed.

Lemma scaling_config_matrix m w p : (m = "strong" \/ m = "weak")%string -> balanced_point p ->
  matrix_config w (Scaling.scaling_config m w p).
Proof.
  destruct p as [[[[coordinators total] global] devices] local].
  intros Hm (Hc & Ht & Hg). by split_and!.
Qed.

Lemma build_scaling_configs_matrix m w l :
  build_scaling_configs m w = Ret l -> Forall (matrix_config w) l.
Proof.
  unfold build_scaling_configs, assert_never. destruct (points_balanced (w_tiny w)) as [Hs Hw].
  destruct (String.eqb_spec m "strong") as [Hm|_]; [|destruct (String.eqb_spec m "weak") as [Hm|_]; [|done]];
    cbn [mbind outcome_bind]; intros [= <-]; apply Forall_map; eapply Forall_impl; try done;
    intros p Hp; apply scaling_config_matrix; auto.
Qed.

Definition under (root : string) (directory : string) : Prop := exists rest, directory = root +:+ "/" +:+ rest.

Lemma plan_from_matrix index modes root w runs : plan_from index modes root w = Ret runs ->
  Forall (fun r => matrix_config w (config r) /\ under root (run_directory r)) runs.
Proof.
  revert index runs. induction modes as [|m modes IH]; intros index runs; cbn [plan_from].
  { by intros [= <-]. }
  destruct (build_scaling_configs m w) as [cs|] eqn:Hc; [|done]. cbn [mbind outcome_bind].
  destruct (plan_from _ modes root w) as [rest|] eqn:Hr; [|done]. intros [= <-].
  apply Forall_app. split; [|by eapply IH].
  apply Forall_forall. intros r Hin. apply list_elem_of_lookup in Hin as [i Hi].
  rewrite list_lookup_imap in Hi. apply fmap_Some in Hi as (c & Hci & ->).
  split.
  - pose proof (build_scaling_configs_matrix m w cs Hc) as Hall. rewrite Forall_lookup in Hall.
    exact (Hall i c Hci).
  - unfold under, plan_run, path_append. cbn [run_directory].
    eexists. by rewrite !str_append_assoc.
Qed.

Lemma path_is_value root directory x : startswith "-" root = false -> under root directory ->
  is_option (path_append directory x) = false.
Proof.
  intros Hroot [rest ->]. unfold is_option, path_append. rewrite !str_append_assoc.
  apply andb_false_intro1. destruct root as [|c root]; [done|]. exact Hroot.
Qed.

(** The text of a float reads back as the float, and is no option. *)
Definition readable (x : float) : Prop :=
  float_of_str (str_float x) = Some x /\ is_option (str_float x) = false.

Lemma script_skip a l : String.eqb a "scripts/run_multi_coordinator.py" = false ->
  script_arguments (a :: l) = script_arguments l.
Proof. intros Ha. cbn [script_arguments]. by rewrite Ha. Qed.

(** The command of a rank, up to the arguments of the script *)
Lemma rank_command_arguments c rank dir launch (rest : list string) :
  build_rank_launch str_float c rank dir = Ret launch ->
  script_arguments (command launch ++ rest)
  = drop 2 (common_arguments str_float c rank dir) ++ (if tiny c then ["--tiny"%string] else []) ++ rest.
Proof.
  unfold build_rank_launch. destruct (py_index NUMA_CPU_RANGES rank) as [cpus|] eqn:Hcpu; [|done].
  cbn [mbind outcome_bind]. unfold binding, assert_never.
  assert (Hc : String.eqb cpus "scripts/run_multi_coordinator.py" = false).
  { unfold py_index in Hcpu. destruct (_ <? 0); [done|].
    destruct (NUMA_CPU_RANGES !! _) as [x|] eqn:Hx; [|done]. injection Hcpu as ->.
    apply list_elem_of_lookup_2 in Hx. unfold NUMA_CPU_RANGES in Hx.
    apply elem_of_cons in Hx as [->|Hx]; [done|]. apply list_elem_of_singleton in Hx as ->. done. }
  destruct (String.eqb (affinity_mode c) "numactl"); cbn [mbind outcome_bind].
  - intros H%(f_equal (fun o => match o with Ret l => command l | Raise _ => [] end)).
    cbn [command] in H. rewrite <- H, <- !app_assoc. cbn [app]. by rewrite !script_skip.
  - destruct (String.eqb (affinity_mode c) "taskset"); cbn [mbind outcome_bind]; [|done].
    intros H%(f_equal (fun o => match o with Ret l => command l | Raise _ => [] end)).
    cbn [command] in H. rewrite <- H, <- !app_assoc. cbn [app]. by rewrite !script_skip.
Qed.

(** The values that are there are converted, the others have their defaults. *)
Lemma parse_args_worker tiny coords devs local warm steps rtol model seq block lr timeout
    metrics result mode master base (n_coords n_devs n_local n_warm n_steps n_seq n_block n_timeout
    n_master n_base : Z) (x_rtol x_lr : float) :
  Forall (fun v => is_option v = false) [coords; devs; local; warm; steps; rtol; model; seq; block; lr;
    timeout; metrics; result; mode; master; base] ->
  choice ["strong"; "weak"]%string mode = Some mode -> int_choice [1; 2] coords = Some n_coords ->
  Forall2 (fun s n => int_of_str s = Some n) [devs; local; warm; steps; seq; block; timeout; master; base]
    [n_devs; n_local; n_warm; n_steps; n_seq; n_block; n_timeout; n_master; n_base] ->
  float_of_str rtol = Some x_rtol -> float_of_str lr = Some x_lr ->
  parse_args (worker_argv tiny coords devs local warm steps rtol model seq block lr timeout
                metrics result mode master base)
  = Some (mk_args true mode n_coords n_devs n_steps n_warm n_local tiny model n_seq 42 x_lr n_block None
            n_base n_master n_timeout x_rtol (Some result) (Some metrics) (f_of_Z 1) (Some ["lo"%string])).
Proof.
  intros Hv Hmode Hcoords Hints Hrtol Hlr. unfold parse_args. rewrite parse_worker_argv by done.
  repeat (apply Forall2_cons in Hints as [? Hints]). cbn [mbind option_bind].
  destruct tiny;
  (rewrite (typed_value _ "--scaling_mode" _ _ mode), Hmode by reflexivity; cbn [mbind option_bind];
   rewrite (typed_value _ "--coords" _ _ coords), Hcoords by reflexivity; cbn [mbind option_bind];
   rewrite (typed_value _ "--devices_per_coord" _ _ devs) by reflexivity;
   rewrite (typed_value _ "--steps" _ _ steps) by reflexivity;
   rewrite (typed_value _ "--warmup_steps" _ _ warm) by reflexivity;
   rewrite (typed_value _ "--local_batch" _ _ local) by reflexivity;
   rewrite (typed_value _ "--model-name" _ _ model) by reflexivity;
   rewrite (typed_value _ "--sequence-length" _ _ seq) by reflexivity;
   rewrite (typed_default _ "--seed") by reflexivity;
   rewrite (typed_value _ "--lr" _ _ lr), Hlr by reflexivity;
   rewrite (typed_value _ "--block_size" _ _ block) by reflexivity;
   rewrite (typed_default _ "--cfg") by reflexivity;
   rewrite (typed_value _ "--base_proxy_port" _ _ base) by reflexivity;
   rewrite (typed_value _ "--master_port" _ _ master) by reflexivity;
   rewrite (typed_value _ "--distributed-timeout-seconds" _ _ timeout) by reflexivity;
   rewrite (typed_value _ "--rtol" _ _ rtol), Hrtol by reflexivity;
   rewrite (typed_value _ "--result_output" _ _ result) by reflexivity;
   rewrite (typed_value _ "--metrics_output" _ _ metrics) by reflexivity;
   rewrite (typed_default _ "--metrics_interval") by reflexivity).
  all: repeat match goal with H : int_of_str _ = Some _ |- _ => rewrite H; clear H end; reflexivity.
Qed.

(** The arguments a planned run gives its ranks, whatever the affinity of its commands *)
Lemma planned_worker_config modes root w runs r affinity commands k cmd :
  build_experiment_plan modes root w = Ret runs -> r ∈ runs ->
  rank_commands str_float r affinity = Ret commands -> commands !! k = Some cmd ->
  readable (f_lit 5 2) -> readable (w_learning_rate w) ->
  is_option (w_model_name w) = false -> startswith "-" root = false ->
  exists args, parse_args (script_arguments cmd) = Some args
    /\ worker args = true /\ scaling_config args = Scaling.config r
    /\ arg_base_proxy_port args = base_proxy_port r /\ arg_master_port args = master_port r
    /\ result_output args
       = Some (path_append (run_directory r) ("rank-" +:+ str_of_Z (Z.of_nat k) +:+ ".json")).
Proof.
  intros Hplan Hr Hcmds Hk [Htol Htol'] [Hlr Hlr'] Hmodel Hroot.
  pose proof (plan_from_matrix _ _ _ _ _ Hplan) as Hall. rewrite Forall_forall in Hall.
  destruct (Hall r Hr) as [(Hm & Hc & Ht & Hg & Ha & Hrt & Hn & Hl) Hdir]. clear Hall Hplan Hr.
  unfold rank_commands in Hcmds. cbv zeta in Hcmds.
  destruct (mapO_lookup _ _ _ _ _ Hcmds Hk) as (rank & Hrank & Hcmd).
  apply lookup_seqZ in Hrank as [-> _]. rewrite Z.add_0_l in Hcmd.
  destruct (build_rank_launch _ _ _ _) as [launch|] eqn:Hb; [|done]. cbn [mbind outcome_bind] in Hcmd.
  injection Hcmd as <-. rewrite (rank_command_arguments _ _ _ _ _ Hb).
  destruct (Scaling.config r) as [md co td gb dv lb wu ms af rt ti mn sl bs le to] eqn:Hcfg.
  cbn [set_affinity mode coordinators total_devices global_batch devices_per_coordinator local_batch
       warmup_iterations measured_iterations relative_tolerance tiny model_name sequence_length
       block_size learning_rate distributed_timeout_seconds affinity_mode] in *. subst.
  change (drop 2 (common_arguments str_float _ ?rank ?dir) ++ ?t ++ ?rest)
    with (worker_argv ti (str_of_Z co) (str_of_Z dv) (str_of_Z lb) (str_of_Z wu) (str_of_Z ms)
            (str_float (f_lit 5 2)) (w_model_name w) (str_of_Z sl) (str_of_Z bs) (str_float (w_learning_rate w))
            (str_of_Z to) (path_append dir "metrics.jsonl") (path_append dir ("rank-" +:+ str_of_Z rank +:+ ".json"))
            md (str_of_Z (master_port r)) (str_of_Z (base_proxy_port r))).
  eexists. split; [apply (parse_args_worker _ _ _ _ _ _ _ _ _ _ _ _ _ _ _ _ _ co dv lb wu ms sl bs to
                            (master_port r) (base_proxy_port r) (f_lit 5 2) (w_learning_rate w))|done].
  - repeat (apply Forall_cons; split; [by first [apply is_option_number|apply (path_is_value root)|
      assumption|destruct Hm as [->| ->]]|]). constructor.
  - by destruct Hm as [->| ->].
  - unfold int_choice. rewrite int_of_str_of_Z. by destruct Hc as [->| ->].
  - repeat (apply Forall2_cons; split; [apply int_of_str_of_Z|]). constructor.
  - done.
  - done.
Qed.
(** C30: the process of a rank works with the configuration of its launcher.  For every run
    the launcher executes (a planned run with the affinity mode it selected) and every rank,
    the arguments it writes for the script parse, and the scaling configuration the rank
    rebuilds from them is the one of the run in every field but the affinity mode, which is
    not passed on: the rank always has "numactl".  It also gets the ports of the run, and its
    result file is the one that the launcher reads for this rank.  The two rates must read
    back as they are written, the model name must not look like an option and the output
    root not start with a dash. *)
Theorem worker_config_is_launchers modes root w plan r affinity commands k cmd :
  build_experiment_plan modes root w = Ret plan -> r ∈ apply_affinity_mode plan affinity ->
  rank_commands str_float r affinity = Ret commands -> commands !! k = Some cmd ->
  readable (f_lit 5 2) -> readable (w_learning_rate w) ->
  is_option (w_model_name w) = false -> startswith "-" root = false ->
  exists args, parse_args (script_arguments cmd) = Some args
    /\ worker args = true
    /\ set_affinity affinity (scaling_config args) = Scaling.config r
    /\ affinity_mode (scaling_config args) = "numactl"%string
    /\ arg_base_proxy_port args = base_proxy_port r /\ arg_master_port args = master_port r
    /\ result_output args
       = Some (path_append (run_directory r) ("rank-" +:+ str_of_Z (Z.of_nat k) +:+ ".json")).
Proof.
  intros Hplan (r0 & -> & Hr)%list_elem_of_fmap Hcmds Hk H1 H2 H3 H4.
  destruct (planned_worker_config _ _ _ _ r0 affinity commands k cmd Hplan Hr Hcmds Hk H1 H2 H3 H4)
    as (args & Hp & Hw & Hc & Hports). exists args. cbn [Scaling.config]. rewrite <- Hc.
  split_and!; [done|done|done|done|apply Hports..].
Qed.
End agreement.

(** ** The emulator's configuration *)

Definition unbroken (s : string) : Prop := all_chars (fun c => negb (is_line_break c)) s = true.
(** A line with its break *)
Definition closed_line (l : string) : Prop :=
  exists body c, l = body +:+ String c "" /\ unbroken body /\ is_line_break c = true.
(** What [lines_keepends] returns: only the last line may lack its break. *)
Inductive lines_shape : list string -> Prop :=
  | shape_nil : lines_shape []
  | shape_open l : unbroken l -> l <> ""%string -> lines_shape [l]
  | shape_cons l ls : closed_line l -> lines_shape ls -> lines_shape (l :: ls).

Lemma str_append_nil_r s : s +:+ "" = s.
Proof. induction s as [|c s IH]; [done|]. change (String c s +:+ "") with (String c (s +:+ "")). by rewrite IH. Qed.

Lemma concat_cons_str l ls : String.concat "" (l :: ls) = l +:+ String.concat "" ls.
Proof. destruct ls as [|l' ls]; cbn [String.concat]; [by rewrite str_append_nil_r|done]. Qed.

Lemma lines_keepends_shape s : lines_shape (lines_keepends s).
Proof.
  induction s as [|c s IH]; [constructor|]. cbn [lines_keepends].
  destruct (is_line_break c) eqn:Hc.
  { constructor; [|done]. by exists ""%string, c. }
  destruct IH as [|l Hl Hne|l ls (body & d & -> & Hb & Hd) Hs].
  - constructor; [|done]. unfold unbroken. cbn. by rewrite Hc.
  - constructor; [|done]. unfold unbroken. cbn [all_chars]. by rewrite Hc.
  - constructor; [|done]. exists (String c body), d. split; [done|]. split; [|done].
    unfold unbroken. cbn [all_chars]. by rewrite Hc.
Qed.

Lemma lines_keepends_closed body c s : unbroken body -> is_line_break c = true ->
  lines_keepends (body +:+ String c s) = (body +:+ String c "") :: lines_keepends s.
Proof.
  unfold unbroken. intros Hb Hc. induction body as [|d body IH].
  { change ("" +:+ String c s) with (String c s). cbn [lines_keepends]. by rewrite Hc. }
  cbn [all_chars] in Hb. apply andb_prop in Hb as [Hd Hb]. apply negb_true_iff in Hd.
  change (String d body +:+ String c s) with (String d (body +:+ String c s)).
  cbn [lines_keepends]. by rewrite Hd, IH.
Qed.

Lemma lines_keepends_open l : unbroken l -> l <> ""%string -> lines_keepends l = [l].
Proof.
  unfold unbroken. induction l as [|c l IH]; [done|]. cbn [all_chars lines_keepends].
  intros [Hc Hl]%andb_prop _. apply negb_true_iff in Hc. rewrite Hc.
  destruct l as [|d l]; [done|]. by rewrite IH.
Qed.

Lemma lines_keepends_concat ls : lines_shape ls -> lines_keepends (String.concat "" ls) = ls.
Proof.
  induction 1 as [|l Hl Hne|l ls (body & c & -> & Hb & Hc) Hs IH]; [done| |].
  - by apply lines_keepends_open.
  - rewrite concat_cons_str, str_append_assoc. change (String c "" +:+ ?s) with (String c s).
    by rewrite lines_keepends_closed, IH.
Qed.

Section rank_config.
Context (listen_port device_count : Z).
Abbreviation configured := (configured_line listen_port device_count).
Abbreviation texts := (replacements listen_port device_count).

(** A line that assigns a value to a name *)
Lemma assignment_line name value :
  (forall t, lstrip_by is_space (name +:+ t) = name +:+ t) -> strip (name +:+ " ") = name ->
  no_char "=" name = true -> unbroken (name +:+ " = " +:+ value) ->
  no_char "013" (name +:+ " = " +:+ value) = true ->
  let line := name +:+ " = " +:+ value +:+ nl in
  config_key line = name /\ closed_line line /\ no_char "013" line = true.
Proof.
  intros Hl Hs Heq Hu Hcr. cbv zeta. split_and!.
  - unfold config_key. rewrite Hl. change (" = " +:+ value +:+ nl) with (" " +:+ String "=" (" " +:+ value +:+ nl)).
    rewrite <- str_append_assoc, split_on_app; [exact Hs|].
    unfold no_char in *. by rewrite all_chars_app, Heq.
  - exists (name +:+ " = " +:+ value), "010"%char. split; [|done]. by rewrite !str_append_assoc.
  - unfold no_char in *. rewrite <- !str_append_assoc, all_chars_app.
    rewrite !str_append_assoc, Hcr. done.
Qed.

(** A replaced line assigns to its key. *)
Lemma replacement_line key line : dict_get key texts = Some line ->
  config_key line = key /\ closed_line line /\ no_char "013" line = true.
Proof.
  unfold replacements. cbn [dict_get]. intros H.
  repeat case_decide; subst; try done; injection H as <-;
    [apply (assignment_line "listen_port" (str_of_Z listen_port))
    |apply (assignment_line "listen_ip" "127.0.0.1")
    |apply (assignment_line "num_device" (str_of_Z device_count))]; try done;
    unfold unbroken, no_char; rewrite !all_chars_app; by rewrite ?str_of_Z_chars by done.
Qed.

Lemma configured_key line : config_key (configured line) = config_key line.
Proof.
  unfold configured_line, dict_get_default. destruct (dict_get _ _) as [t|] eqn:Ht; [|done].
  cbn [default from_option id]. by apply replacement_line in Ht as (-> & _ & _).
Qed.

Lemma configured_again line : configured (configured line) = configured line.
Proof.
  unfold configured_line at 1. rewrite configured_key. unfold configured_line, dict_get_default.
  by destruct (dict_get _ _).
Qed.

Lemma configured_shape ls : lines_shape ls -> lines_shape (map configured ls).
Proof.
  induction 1 as [|l Hl Hne|l ls Hl Hs IH]; cbn [map]; [constructor| |constructor; [|done]];
    unfold configured_line, dict_get_default; destruct (dict_get _ _) as [t|] eqn:Ht;
    cbn [default from_option id]; try (apply replacement_line in Ht as (_ & Ht & _)); try done.
  - constructor; [done|constructor].
  - by constructor.
Qed.

Lemma lines_keepends_chars p s : all_chars p s = true ->
  Forall (fun l => all_chars p l = true) (lines_keepends s).
Proof.
  induction s as [|c s IH]; [constructor|]. cbn [all_chars lines_keepends]. intros [Hc Hs]%andb_prop.
  specialize (IH Hs). destruct (is_line_break c); [constructor; [by cbn; rewrite Hc|done]|].
  destruct IH as [|l ls Hl Hls]; constructor; cbn; rewrite ?Hc; try done.
Qed.

Lemma rank_config_no_cr template : no_char "013" (rank_config template listen_port device_count) = true.
Proof.
  unfold rank_config. pose proof (lines_keepends_chars _ _ (universal_newlines_no_cr template)) as H.
  unfold no_char. induction H as [|l ls Hl Hs IH]; [done|]. cbn [map].
  rewrite concat_cons_str, all_chars_app, IH, andb_true_r.
  unfold configured_line, dict_get_default. destruct (dict_get _ _) as [t|] eqn:Ht; [|done].
  by apply replacement_line in Ht as (_ & _ & Ht).
Qed.
End rank_config.

(** The configuration of a rank's emulator.  The written file has the lines of the template,
    in order, under the same keys; the lines for the listening port, the listening address and
    the number of devices have the values of the rank, all other lines are kept, wherever and
    however often they occur.  Configuring the written file again changes nothing. *)
Theorem rank_config_rewritten template listen_port device_count :
  let out := rank_config template listen_port device_count in
  let lines := lines_keepends (universal_newlines template) in
  lines_keepends out = map (configured_line listen_port device_count) lines
  /\ map config_key (lines_keepends out) = map config_key lines
  /\ rank_config out listen_port device_count = out
  /\ forall i l, lines_keepends out !! i = Some l ->
       match dict_get (config_key l) (replacements listen_port device_count) with
       | Some t => l = t
       | None => lines !! i = Some l
       end.
Proof.
  cbv zeta. set (lines := lines_keepends (universal_newlines template)).
  assert (Hlines : lines_keepends (rank_config template listen_port device_count)
                   = map (configured_line listen_port device_count) lines).
  { apply lines_keepends_concat, configured_shape, lines_keepends_shape. }
  split; [done|]. rewrite Hlines. split_and!.
  - rewrite map_map. apply map_ext. intros l. apply configured_key.
  - unfold rank_config at 1. rewrite universal_newlines_id by apply rank_config_no_cr.
    rewrite Hlines, map_map. unfold rank_config. f_equal. apply map_ext. intros l. apply configured_again.
  - intros i l Hi. rewrite list_lookup_fmap in Hi. apply fmap_Some in Hi as (l0 & Hl0 & ->).
    rewrite configured_key. unfold configured_line, dict_get_default.
    by destruct (dict_get _ _).
Qed.

(** ** The life of the process ([run_coordinator]) *)

Module Process.
Import Recorder.

(** The services outside the package, over a state [W]; a call may change it, raise or block.
    [turns w]: how many turns the metrics thread has made by the end of the call that left
    state [w]. *)
Record Services (P W Bk : Type) : Type := mk_services {
  perf_counter : W -> float;
  wall_clock : W -> float;
  turns : W -> nat;
  init_process_group : Z -> Z -> Z -> B W unit;   (** rank, world size, timeout *)
  is_initialized : W -> bool;
  destroy_process_group : B W unit;
  barrier : B W unit;
  read_template : B W string;
  write_text : string -> string -> B W unit;
  start_backend : Z -> string -> B W Bk;   (** block size, configuration file *)
  counts_connections : Bk -> bool;
  connection_count : Bk -> W -> outcome Z * W;
  stoppable : Bk -> bool;
  stop_backend : Bk -> B W unit;
  time : W -> float * W;
  sleep : Z -> W -> W;
  cuda_device_count : Z;
  client_config : string;   (** the path of [config/proxy/cli.ini] *)
  write_json : string -> json -> B W unit;   (** [mkdir] and [write_text] *)
  run_workload : Z -> ScalingConfig -> B (W * PhaseRecorder) (list float * list float);
}.
Arguments perf_counter {P W Bk}. Arguments wall_clock {P W Bk}. Arguments turns {P W Bk}.
Arguments init_process_group {P W Bk}. Arguments is_initialized {P W Bk}.
Arguments destroy_process_group {P W Bk}. Arguments barrier {P W Bk}.
Arguments read_template {P W Bk}. Arguments write_text {P W Bk}.
Arguments start_backend {P W Bk}. Arguments counts_connections {P W Bk}.
Arguments connection_count {P W Bk}. Arguments stoppable {P W Bk}.
Arguments stop_backend {P W Bk}. Arguments time {P W Bk}. Arguments sleep {P W Bk}.
Arguments cuda_device_count {P W Bk}. Arguments client_config {P W Bk}.
Arguments write_json {P W Bk}. Arguments run_workload {P W Bk}.

(** The world, and the local variables of [run_coordinator]; the collector, when there is one,
    shares the recorder. [hooked] is the backend of the autograd hooks, [written] the JSON files
    written, the latest first. *)
Record process (P W Bk : Type) : Type := mk_process {
  world : W;
  recorder : PhaseRecorder;
  collector : option Collector.collector;
  group_initialized : bool;
  backend : option Bk;
  fleet : list P;
  hooked : option Bk;
  written : list (string * json);
}.
Arguments mk_process {P W Bk}. Arguments world {P W Bk}. Arguments recorder {P W Bk}.
Arguments collector {P W Bk}. Arguments group_initialized {P W Bk}. Arguments backend {P W Bk}.
Arguments fleet {P W Bk}. Arguments hooked {P W Bk}. Arguments written {P W Bk}.

Section process.
Context {P W Bk : Type} {os : Os P W} {host : Collector.MetricsHost} (sv : Services P W Bk).
Abbreviation state := (process P W Bk).

(** A turn of the metrics thread, while it runs *)
Definition turn (c : Collector.collector) : Collector.collector :=
  if Collector.thread c && negb (Collector.stop_event c) then snd (Collector.run_turn c) else c.

(** The state after a call that left the world in [w] *)
Definition set_world (w : W) (s : state) : state :=
  mk_process w (recorder s) (Nat.iter (turns sv w) turn <$> collector s) (group_initialized s)
    (backend s) (fleet s) (hooked s) (written s).
Definition put_recorder (r : PhaseRecorder) (s : state) : state :=
  mk_process (world s) r (Collector.set_phases r <$> collector s) (group_initialized s) (backend s)
    (fleet s) (hooked s) (written s).
Definition set_collector (c : option Collector.collector) (s : state) : state :=
  mk_process (world s) (recorder s) c (group_initialized s) (backend s) (fleet s) (hooked s) (written s).
Definition set_group (s : state) : state :=
  mk_process (world s) (recorder s) (collector s) true (backend s) (fleet s) (hooked s) (written s).
Definition set_backend (b : Bk) (s : state) : state :=
  mk_process (world s) (recorder s) (collector s) (group_initialized s) (Some b) (fleet s) (Some b) (written s).
Definition set_fleet (l : list P) (s : state) : state :=
  mk_process (world s) (recorder s) (collector s) (group_initialized s) (backend s) l (hooked s) (written s).
Definition add_written (path : string) (j : json) (s : state) : state :=
  mk_process (world s) (recorder s) (collector s) (group_initialized s) (backend s) (fleet s) (hooked s)
    ((path, j) :: written s).

Definition outside {A} (m : B W A) : B state A := fun s =>
  match m (world s) with
  | None => None
  | Some (r, w) => Some (r, set_world w s)
  end.
Definition assign (f : state -> state) : B state unit := effect f.
Definition pure {A} (o : outcome A) : B state A := fun s => Some (o, s).
Definition look {A} (f : state -> A) : B state A := fun s => Some (Ret (f s), s).

(** [try: body finally: fin] *)
Definition finally {A} (body : B state A) (fin : B state unit) : B state A := fun s =>
  match body s with
  | None => None
  | Some (r, s1) => match fin s1 with
                    | None => None
                    | Some (Ret _, s2) => Some (r, s2)
                    | Some (Raise e, s2) => Some (Raise e, s2)
                    end
  end.

(** [with track_phase(recorder, name): body] *)
Definition track_phase {A} (name : string) (body : B state A) : B state A := fun s =>
  let started := perf_counter sv (world s) in
  finally body (assign (fun s =>
    put_recorder (record name (fsub (perf_counter sv (world s)) started) (wall_clock sv (world s))
                    (recorder s)) s)) s.

(** The variables that are set for the process and its devices *)
Definition environment (args : Args) (rank : Z) (environ : pydict string string) : pydict string string :=
  foldl (fun d kv => dict_set kv.1 kv.2 d) environ
    [("MORPHLING_PROXY_HOST", "127.0.0.1"); ("MORPHLING_PROXY_PORT", str_of_Z (arg_base_proxy_port args + rank));
     ("NUM_DEVICES", str_of_Z (devices_per_coord args)); ("MASTER_ADDR", "127.0.0.1");
     ("MASTER_PORT", str_of_Z (arg_master_port args))]%string.

(** [Path] of the metrics option *)
Context (to_path : string -> Cli.path).
Definition metrics_config (args : Args) (rank : Z) : outcome (option Cli.MetricsConfig) :=
  Cli.metrics_config_from_args
    (Cli.mk_args (to_path <$> arg_metrics_output args) (metrics_interval args) (metrics_nics args))
    (Some rank).

Definition start_collector (cfg : Cli.MetricsConfig) : B state unit := fun s =>
  match Collector.start_metrics_collector cfg (recorder s) with
  | Ret c => Some (Ret tt, set_collector c s)
  | Raise e => Some (Raise e, s)
  end.

Definition idle {A} (body : B state A) : B state A := track_phase "idle_wait" body.

(** [_write_rank_config] *)
Definition write_rank_config (rank listen_port device_count : Z) : B state string :=
  template ← outside (read_template sv);
  outside (write_text sv (rank_config_path rank) (rank_config template listen_port device_count));;
  mret (rank_config_path rank).

Definition measurement (rank : Z) (losses golden : list float) (s : state) : RankMeasurement :=
  mk_measurement rank (Models.durations_seconds (snapshot (recorder s))) losses golden.

Definition write_file (path : string) (j : json) : B state unit :=
  outside (write_json sv path j);; assign (add_written path j).

(** [_write_result] *)
Definition write_result (args : Args) (rank : Z) (losses golden : list float) : B state unit :=
  match result_output args with
  | None => mret tt
  | Some path =>
      m ← look (measurement rank losses golden);
      result ← pure (build_rank_result (scaling_config args) m);
      write_file path (PyJson.sort_keys (rank_result_payload (scaling_config args) result))
  end.

(** [_write_failure] *)
Definition failure_json (rank : Z) (error : exn) : json :=
  PyJson.sort_keys (JObj
    [("schema_version", JInt 1); ("rank", JInt rank); ("status", JStr "failed");
     ("error_type", JStr (Collector.exn_name error)); ("error_message", JStr (Collector.exn_str error))]%string).
Definition write_failure (args : Args) (rank : Z) (error : exn) : B state unit :=
  match result_output args with
  | None => mret tt
  | Some path => write_file path (failure_json rank error)
  end.

(** The body of the [try] statement *)
Definition coordinator_body (rank : Z) (args : Args) (environ : pydict string string)
    (cfg : option Cli.MetricsConfig) : B state Z :=
  let devices := devices_per_coord args in
  match cfg with Some cfg => start_collector cfg | None => mret tt end;;
  idle (outside (init_process_group sv rank (coords args) (timeout_seconds args)));;
  assign set_group;;
  rank_config ← write_rank_config rank (arg_base_proxy_port args + rank) devices;
  b ← outside (start_backend sv (arg_block_size args) rank_config);
  assign (set_backend b);;
  idle (outside (effect (sleep sv 3)));;
  processes ← outside (spawn_fleet (environment args rank environ) (cuda_device_count sv) rank devices
                         (client_config sv));
  assign (set_fleet processes);;
  (if counts_connections sv b
   then idle (n ← outside (Fleet.wait_for_connections (time sv) (sleep sv) (connection_count sv b)
                             devices 120 true 121); mret tt)
   else mret tt);;
  idle (outside (effect (sleep sv 3)));;
  let config := scaling_config args in
  losses_golden ← (fun s => match run_workload sv rank config (world s, recorder s) with
                            | None => None
                            | Some (r, (w, rec)) => Some (r, set_world w (put_recorder rec s))
                            end);
  write_result args rank losses_golden.1 losses_golden.2;;
  m ← look (measurement rank losses_golden.1 losses_golden.2);
  result ← pure (build_rank_result config m);
  idle (outside (barrier sv));;
  mret (if passed (loss_correctness result) then 0 else 1).

(** The [finally] clause *)
Definition stop_collector : B state unit := fun s =>
  match collector s with
  | None => Some (Ret tt, s)
  | Some c => let '(r, c) := Collector.stop c in Some (r, set_collector (Some c) s)
  end.
Definition cleanup : B state unit :=
  stop_collector;;
  s ← look id;
  (if group_initialized s && is_initialized sv (world s) then outside (destroy_process_group sv)
   else mret tt);;
  outside (terminate_fleet (fleet s));;
  match backend s with
  | Some b => if stoppable sv b then outside (stop_backend sv b) else mret tt
  | None => mret tt
  end.

Definition run_coordinator (rank : Z) (args : Args) (environ : pydict string string) : B state Z :=
  cfg ← pure (metrics_config args rank);
  finally (coordinator_body rank args environ cfg) cleanup.

(** [worker_boundary]: the status of [os._exit] *)
Definition worker_boundary (rank : Z) (args : Args) (environ : pydict string string) : B state Z := fun s =>
  match run_coordinator rank args environ s with
  | Some (Raise error, s) => (write_failure args rank error;; mret 1) s
  | r => r
  end.

(** The process before [run_coordinator] *)
Definition initial (w : W) : state := mk_process w new_recorder None false None [] None [].
End process.

(** ** Cleaning up *)

Section cleanup.
Context {P W Bk : Type} {os : Os P W} {host : Collector.MetricsHost} (sv : Services P W Bk)
  (to_path : string -> Cli.path).
Abbreviation state := (process P W Bk).

Definition collectors_ok (s : state) : Prop := forall c, collector s = Some c -> Collector.collector_ok c.

(** [m] keeps the invariant of the collector. *)
Definition keeps {A} (m : B state A) : Prop :=
  forall s r s', m s = Some (r, s') -> collectors_ok s -> collectors_ok s'.

Lemma keeps_bind {A A'} (m : B state A) (f : A -> B state A') :
  keeps m -> (forall a, keeps (f a)) -> keeps (m ≫= f).
Proof.
  intros Hm Hf s r s'. unfold mbind, B_bind. destruct (m s) as [[[a|e] s1]|] eqn:He; [| |done].
  - intros Hfa Hs. exact (Hf a _ _ _ Hfa (Hm _ _ _ He Hs)).
  - intros [= <- <-] Hs. exact (Hm _ _ _ He Hs).
Qed.

Lemma keeps_now {A} (o : state -> outcome A) (f : state -> state) :
  (forall s, collectors_ok s -> collectors_ok (f s)) -> keeps (fun s => Some (o s, f s)).
Proof. intros Hf s r s' [= _ <-]. apply Hf. Qed.

Lemma turn_ok c : Collector.collector_ok c -> Collector.collector_ok (turn c).
Proof.
  intros Hc. unfold turn. destruct (Collector.thread c) eqn:Ht; [|done].
  destruct (Collector.stop_event c) eqn:Hs; [done|]. by apply Collector.run_turn_ok.
Qed.

Lemma set_world_ok w s : collectors_ok s -> collectors_ok (set_world sv w s).
Proof.
  intros Hs c. unfold set_world. cbn [collector]. intros (c0 & Hc & ->)%fmap_Some.
  specialize (Hs c0 Hc). induction (turns sv w) as [|n IH]; [done|]. by apply turn_ok.
Qed.

Lemma put_recorder_ok r s : collectors_ok s -> collectors_ok (put_recorder r s).
Proof.
  intros Hs c. unfold put_recorder. cbn [collector]. intros (c0 & Hc & ->)%fmap_Some.
  destruct (Hs c0 Hc) as [Hsh Hth]. split; [by apply (Collector.shape_frame c0)|exact Hth].
Qed.

Lemma keeps_outside {A} (m : B W A) : keeps (outside sv m).
Proof.
  intros s r s'. unfold outside. destruct (m (world s)) as [[r' w]|]; [|done].
  intros [= <- <-]. apply set_world_ok.
Qed.

Lemma keeps_finally {A} (m : B state A) fin : keeps m -> keeps fin -> keeps (finally m fin).
Proof.
  intros Hm Hf s r s'. unfold finally. destruct (m s) as [[r1 s1]|] eqn:Hms; [|done].
  destruct (fin s1) as [[[[]|e] s2]|] eqn:Hfs; [| |done]; intros [= <- <-] Hs;
    exact (Hf _ _ _ Hfs (Hm _ _ _ Hms Hs)).
Qed.

Lemma keeps_track {A} name (m : B state A) : keeps m -> keeps (track_phase sv name m).
Proof.
  intros Hm s r s' Ht. refine (keeps_finally m _ Hm _ s r s' Ht).
  apply (keeps_now (fun _ => Ret tt)). intros s1. apply put_recorder_ok.
Qed.

Lemma keeps_ret {A} (a : A) : keeps (mret a : B state A).
Proof. by intros s r s' [= _ <-]. Qed.

Lemma keeps_start cfg : keeps (start_collector cfg : B state unit).
Proof.
  intros s r s'. unfold start_collector, Collector.start_metrics_collector.
  destruct (Collector.start _) as [[[]|e] c] eqn:Hs.
  - intros [= _ <-] _ c' [= <-]. by destruct (Collector.start_ok _ _ _ Hs).
  - destruct e; intros [= _ <-] Hk; try exact Hk. by intros c'.
Qed.

Lemma keeps_write path j : keeps (write_file sv path j).
Proof.
  apply keeps_bind; [apply keeps_outside|]. intros []. apply (keeps_now (fun _ => Ret tt)). by intros s1.
Qed.

Lemma keeps_look {A} (f : state -> A) : keeps (look f).
Proof. by intros s r s' [= _ <-]. Qed.
Lemma keeps_pure {A} (o : outcome A) : keeps (pure o : B state A).
Proof. by intros s r s' [= _ <-]. Qed.

Lemma keeps_workload rank config : keeps (fun s : state =>
  match run_workload sv rank config (world s, recorder s) with
  | None => None
  | Some (r, (w, rec)) => Some (r, set_world sv w (put_recorder rec s))
  end).
Proof.
  intros s r s'. destruct (run_workload _ _ _ _) as [[r' [w rec]]|]; [|done].
  intros [= _ <-] Hs. by apply set_world_ok, put_recorder_ok.
Qed.

#[local] Hint Resolve keeps_look keeps_pure keeps_workload keeps_outside keeps_track keeps_ret keeps_start keeps_write : keep.
Ltac keep :=
  repeat first [ apply keeps_bind; [|intros ?] | progress cbv zeta | solve [auto with keep]
               | apply keeps_track
               | apply (keeps_now (fun _ => Ret tt)); intros ? ?; assumption
               | match goal with |- keeps (match ?x with _ => _ end) => destruct x end ].

Lemma keeps_body rank args environ cfg : keeps (coordinator_body sv rank args environ cfg).
Proof.
  unfold coordinator_body, write_rank_config, write_result, idle. keep.
Qed.

(** *** The collector stops *)

Context (file_errors : forall n e, Collector.file_call n = Raise e -> exists m, e = OSError m \/ e = ValueError m).

Lemma reporting_returns prefix m c :
  (forall e c', m c = (Raise e, c') -> exists t, e = OSError t \/ e = ValueError t) ->
  exists c', Collector.reporting prefix m c = (Ret tt, c').
Proof.
  intros He. unfold Collector.reporting, try_except. destruct (m c) as [[[]|e] c'] eqn:Hm; [by eexists|].
  destruct (He e c' eq_refl) as (t & [-> | ->]); by eexists.
Qed.

Lemma call_file_errors c e c' : Collector.call_file c = (Raise e, c') ->
  exists t, e = OSError t \/ e = ValueError t.
Proof. unfold Collector.call_file. intros [= Hf _]. exact (file_errors _ _ Hf). Qed.

Lemma write_errors l c e c' : (Collector.write l;; Collector.flush) c = (Raise e, c') ->
  exists t, e = OSError t \/ e = ValueError t.
Proof.
  unfold Collector.write, mbind, M_bind, modify.
  destruct (Collector.call_file c) as [[[]|e1] c1] eqn:Hc; intros Hw.
  - by eapply call_file_errors.
  - injection Hw as <- <-. by eapply call_file_errors.
Qed.

Lemma record_failure_returns e c : exists f c', Collector.record_failure e c = (Ret f, c').
Proof.
  unfold Collector.record_failure, mbind, M_bind, get. destruct (Collector.failure c) as [f|]; [by do 2 eexists|].
  unfold modify. cbn [Collector.output Collector.set_failure].
  set (c1 := Collector.set_failure _ c). unfold when.
  destruct (Collector.output c).
  - destruct (reporting_returns "Coordinator metrics terminal write failed: "
      (Collector.write (Collector.TerminalLine (Collector.time_time (Collector.file_calls c1))
         (Collector.mk_failure (Collector.exn_name e) (Collector.exn_str e)));; Collector.flush) c1
      (write_errors _ c1)) as [c2 Hr].
    unfold mbind, M_bind in Hr. rewrite Hr. by do 2 eexists.
  - by do 2 eexists.
Qed.

Lemma reporting_call_returns prefix c : exists c',
  Collector.reporting prefix Collector.call_file c = (Ret tt, c') /\ Collector.output c' = Collector.output c.
Proof.
  unfold Collector.reporting, try_except, Collector.call_file.
  destruct (Collector.file_call (Collector.file_calls c)) as [[]|e] eqn:Hf; [by eexists|].
  destruct (file_errors _ _ Hf) as (t & [-> | ->]); by eexists.
Qed.

Lemma close_output_returns c : exists c',
  Collector.close_output c = (Ret tt, c') /\ Collector.output c' = false.
Proof.
  unfold Collector.close_output, mbind, M_bind, get, modify. unfold when.
  destruct (Collector.output c); [|by eexists]. unfold Collector.flush.
  destruct (reporting_call_returns "Coordinator metrics flush failed: " (Collector.set_output false c))
    as (c1 & -> & Ho).
  destruct (reporting_call_returns "Coordinator metrics close failed: " c1) as (c2 & -> & Ho2).
  exists c2. split; [done|]. by rewrite Ho2, Ho.
Qed.

(** A stopped collector: its thread has ended and its file is closed. *)
Definition stopped (c : Collector.collector) : Prop :=
  Collector.thread c = false /\ Collector.output c = false.

Lemma stop_stops c : Collector.collector_ok c -> exists c', Collector.stop c = (Ret tt, c') /\ stopped c'.
Proof.
  intros [_ Hth]. unfold Collector.stop, mbind at 1, M_bind at 1, get at 1. unfold when at 1.
  destruct (Collector.output c) eqn:Ho.
  2: { exists c. split; [done|]. split; [|done]. destruct (Collector.thread c) eqn:Ht; [|done].
       destruct (Hth Ht) as [Ho' _]. congruence. }
  unfold mbind at 1, M_bind at 1, modify at 1. set (c1 := Collector.set_thread false _).
  unfold mbind at 1, M_bind at 1, get at 1. unfold mbind at 1, M_bind at 1.
  assert (exists c2, when (match Collector.failure c1 with None => true | Some _ => false end)
            (try_except Collector.sample_once
               (fun e => Some (f ← Collector.record_failure e; mret tt))) c1 = (Ret tt, c2)) as [c2 ->].
  { unfold when. destruct (Collector.failure c1); [by eexists|]. unfold try_except.
    destruct (Collector.sample_once c1) as [[[]|e] c2]; [by eexists|].
    destruct (record_failure_returns e c2) as (f & c3 & Hr). unfold mbind, M_bind. rewrite Hr. by eexists. }
  unfold mbind, M_bind. destruct (close_output_returns c2) as (c3 & -> & Ho3).
  unfold modify. eexists. split; [done|]. by split.
Qed.

(** *** The clause completes *)

Context (exited : P -> W -> Prop) `{!OsLaws P W exited}
  (destroy_ends : forall w, exists r w', destroy_process_group sv w = Some (r, w'))
  (stop_returns : forall b w, exists r w', stop_backend sv b w = Some (r, w')
                    /\ forall p, exited p w -> exited p w').

Definition all_stopped (s : state) : Prop := forall c, collector s = Some c -> stopped c.

Lemma stopped_turns n c : stopped c -> Nat.iter n turn c = c.
Proof.
  intros [Ht _]. induction n as [|n IH]; [done|]. change (turn (Nat.iter n turn c) = c). rewrite IH. unfold turn. by rewrite Ht.
Qed.

Lemma set_world_stopped w s : all_stopped s -> all_stopped (set_world sv w s).
Proof.
  intros Hs c. unfold set_world. cbn [collector]. intros (c0 & Hc & ->)%fmap_Some.
  rewrite stopped_turns by auto. auto.
Qed.

Lemma stop_collector_stops s : collectors_ok s ->
  exists s1, stop_collector s = Some (Ret tt, s1) /\ all_stopped s1
    /\ world s1 = world s /\ fleet s1 = fleet s /\ backend s1 = backend s
    /\ group_initialized s1 = group_initialized s.
Proof.
  intros Hs. unfold stop_collector. destruct (collector s) as [c|] eqn:Hc.
  - destruct (stop_stops c (Hs c Hc)) as (c' & -> & Hst). eexists. split; [done|].
    split; [|done]. intros c'' [= <-]. done.
  - exists s. split; [done|]. split; [|done]. intros c. by rewrite Hc.
Qed.

(** Whether the clause destroys the process group, and what that does *)
Definition destroys (s : state) : bool := group_initialized s && is_initialized sv (world s).
Definition destroy_raises (s : state) (e : exn) (w : W) : Prop :=
  destroys s = true /\ destroy_process_group sv (world s) = Some (Raise e, w).

Lemma destroy_group_ends s : all_stopped s ->
  exists r s1, (if destroys s then outside sv (destroy_process_group sv) else mret tt) s = Some (r, s1)
    /\ all_stopped s1 /\ fleet s1 = fleet s /\ backend s1 = backend s
    /\ match r with Ret _ => True | Raise e => destroy_raises s e (world s1) end.
Proof.
  intros Hs. unfold destroy_raises. destruct (destroys s); [|by exists (Ret tt), s]. unfold outside.
  destruct (destroy_ends (world s)) as (r & w' & Hd). rewrite Hd. exists r, (set_world sv w' s).
  split; [done|]. split; [by apply set_world_stopped|]. split; [done|]. split; [done|]. by destruct r.
Qed.

Lemma cleanup_completes s : collectors_ok s -> exists r s1, cleanup sv s = Some (r, s1)
  /\ fleet s1 = fleet s /\ all_stopped s1
  /\ ((all_exited exited (fleet s) (world s1) /\
       match r with Ret _ => True | Raise e => exists b, backend s = Some b /\ stoppable sv b = true end)
      \/ exists e, r = Raise e /\ destroy_raises s e (world s1)).
Proof.
  intros Hs. unfold cleanup. destruct (stop_collector_stops s Hs) as (s1 & Hc & Hst & Hw & Hf & Hb & Hg).
  unfold mbind at 1, B_bind at 1. rewrite Hc.
  change (look id) with (fun s : state => Some (@Ret state s, s)). unfold mbind at 1, B_bind at 1.
  destruct (destroy_group_ends s1 Hst) as (rd & s2 & Hd & Hst2 & Hf2 & Hb2 & Hr).
  unfold destroys in Hd. unfold mbind at 1, B_bind at 1. unfold id. rewrite Hd.
  destruct rd as [[]|e]; last first.
  { exists (Raise e), s2. split; [done|]. split; [by rewrite Hf2, Hf|]. split; [done|]. right.
    exists e. split; [done|]. unfold destroy_raises, destroys in *. by rewrite Hg, Hw in Hr. }
  rewrite Hf, Hb. unfold mbind at 1, B_bind at 1. unfold outside at 1.
  destruct (ends_terminate_fleet exited (fleet s) (world s2)) as ([] & w3 & -> & Hex & _).
  pose proof (set_world_stopped w3 s2 Hst2) as Hst3.
  set (s3 := set_world sv w3 s2) in *. assert (Hf3 : fleet s3 = fleet s) by (cbn; congruence).
  destruct (backend s) as [b|] eqn:Hback.
  - destruct (stoppable sv b) eqn:Hsb.
    + unfold outside. destruct (stop_returns b (world s3)) as (r & w4 & -> & Hk).
      exists r, (set_world sv w4 s3). split; [done|]. split; [done|]. split; [by apply set_world_stopped|].
      left. split; [intros p Hp; by apply Hk, Hex|]. destruct r; [done|]. by exists b.
    + exists (Ret tt), s3. split; [done|]. split; [done|]. split; [done|]. by left.
  - exists (Ret tt), s3. split; [done|]. split; [done|]. split; [done|]. by left.
Qed.

Lemma initial_ok w : collectors_ok (initial w : state).
Proof. by intros c. Qed.

(** C31: the [finally] clause of a coordinator process runs on every exit of its body.  If the
    calls it makes come back (the process group, the emulator's stop and, as processes do, the
    signals and waits), and the metrics file raises nothing but [OSError] and [ValueError],
    then wherever the body returns or raises, [run_coordinator] ends, the thread of the metrics
    collector has ended and its file is closed, for every interleaving of the thread's turns.
    Unless destroying the process group raises, no device of the fleet that the body recorded
    runs, and the result is the body's value or exception (or that of the last step, stopping
    the emulator); when it does raise, its exception is the result and the devices are not
    ended.  A device started by a [spawn_fleet] that then fails is in no recorded fleet. *)
Theorem coordinator_cleans_up rank args environ w cfg r s1 :
  metrics_config to_path args rank = Ret cfg ->
  coordinator_body sv rank args environ cfg (initial w) = Some (r, s1) ->
  exists r' s', run_coordinator sv to_path rank args environ (initial w) = Some (r', s')
    /\ fleet s' = fleet s1 /\ all_stopped s'
    /\ ((all_exited exited (fleet s') (world s')
         /\ (r' = r \/ exists b e, backend s1 = Some b /\ stoppable sv b = true /\ r' = Raise e))
        \/ exists e, r' = Raise e /\ destroy_raises s1 e (world s')).
Proof.
  intros Hcfg Hbody. pose proof (keeps_body _ _ _ _ _ _ _ Hbody (initial_ok w)) as Hok.
  destruct (cleanup_completes s1 Hok) as (rc & s2 & Hc & Hf & Hst & Hr).
  unfold run_coordinator, mbind, B_bind, pure. rewrite Hcfg. unfold finally. rewrite Hbody, Hc.
  destruct Hr as [[Hex Hr]|(e & -> & Hr)].
  - destruct rc as [[]|e].
    + exists r, s2. rewrite Hf. split_and!; try done. left. split; [done|by left].
    + exists (Raise e), s2. rewrite Hf. split_and!; try done. left. split; [done|right].
      destruct Hr as (b & Hb & Hs). by exists b, e.
  - exists (Raise e), s2. rewrite Hf. split_and!; try done. right. by exists e.
Qed.
End cleanup.

(** ** The exit status *)

Section status.
Context {P W Bk : Type} {os : Os P W} {host : Collector.MetricsHost} (sv : Services P W Bk)
  (to_path : string -> Cli.path).
Abbreviation state := (process P W Bk).

Lemma call_returned {A A'} (m : B state A) (f : A -> B state A') s b s' :
  (m ≫= f) s = Some (Ret b, s') -> exists a s1, m s = Some (Ret a, s1) /\ f a s1 = Some (Ret b, s').
Proof. unfold mbind, B_bind. destruct (m s) as [[[a|e] s1]|]; [|done..]. by exists a, s1. Qed.

Lemma outside_returned {A} (m : B W A) s a s' : outside sv m s = Some (Ret a, s') ->
  exists w, s' = set_world sv w s.
Proof. unfold outside. destruct (m (world s)) as [[r w]|]; [|done]. intros [= _ <-]. by exists w. Qed.

(** [m] writes no JSON file. *)
Definition silent {A} (m : B state A) : Prop :=
  forall s r s', m s = Some (r, s') -> written s' = written s.

Lemma silent_bind {A A'} (m : B state A) (f : A -> B state A') :
  silent m -> (forall a, silent (f a)) -> silent (m ≫= f).
Proof.
  intros Hm Hf s r s'. unfold mbind, B_bind. destruct (m s) as [[[a|e] s1]|] eqn:He; [| |done].
  - intros Hfa. rewrite (Hf a _ _ _ Hfa). exact (Hm _ _ _ He).
  - intros [= _ <-]. exact (Hm _ _ _ He).
Qed.

Lemma silent_outside {A} (m : B W A) : silent (outside sv m).
Proof. intros s r s'. unfold outside. destruct (m (world s)) as [[? w]|]; [|done]. by intros [= _ <-]. Qed.

Lemma silent_idle_outside {A} (m : B W A) : silent (idle sv (outside sv m)).
Proof.
  intros s r s'. unfold idle, track_phase, finally, assign, effect, now.
  destruct (outside sv m s) as [[r1 s1]|] eqn:Ho; [|done]. intros [= _ <-]. exact (silent_outside m _ _ _ Ho).
Qed.

Lemma silent_cleanup : silent (cleanup sv).
Proof.
  apply silent_bind.
  { intros s r s'. unfold stop_collector. destruct (collector s) as [c|]; [|by intros [= _ <-]].
    destruct (Collector.stop c). by intros [= _ <-]. }
  intros _. apply silent_bind; [by intros s r s' [= _ <-]|]. intros s0. apply silent_bind.
  { destruct (_ && _); [apply silent_outside|by intros s r s' [= _ <-]]. }
  intros _. apply silent_bind; [apply silent_outside|]. intros _.
  destruct (backend s0) as [b|]; [destruct (stoppable sv b)|];
    [apply silent_outside|by intros s r s' [= _ <-]..].
Qed.

(** The verdict [status] of a result that is the last file written, at [path] *)
Definition published (path : string) (status : Z) (s : state) : Prop :=
  exists result j, head (written s) = Some (path, j) /\ load_rank_result j = Ret result
    /\ status = if passed (loss_correctness result) then 0 else 1.

Lemma write_result_returned path args rank losses golden s u s' : result_output args = Some path ->
  write_result sv args rank losses golden s = Some (Ret u, s') ->
  exists result, build_rank_result (scaling_config args) (measurement rank losses golden s) = Ret result
    /\ head (written s') = Some (path, PyJson.sort_keys (rank_result_payload (scaling_config args) result))
    /\ measurement rank losses golden s' = measurement rank losses golden s.
Proof.
  intros Hp Hw. unfold write_result in Hw. rewrite Hp in Hw.
  apply call_returned in Hw as (m & s1 & [= <- <-] & Hw).
  apply call_returned in Hw as (result & s2 & Hb & Hw). unfold pure in Hb. injection Hb as Hb <-.
  unfold write_file in Hw. apply call_returned in Hw as (u' & s3 & Ho & Hw).
  destruct (outside_returned _ _ _ _ Ho) as [w ->]. injection Hw as _ <-.
  exists result. by split_and!.
Qed.

Lemma body_published rank args environ cfg s status s' path : result_output args = Some path ->
  coordinator_body sv rank args environ cfg s = Some (Ret status, s') -> published path status s'.
Proof.
  intros Hp H. unfold coordinator_body in H. cbv zeta in H.
  do 11 (apply call_returned in H as (? & ? & _ & H)).
  apply call_returned in H as (lg & s1 & _ & H).
  apply call_returned in H as (u & s2 & Hw & H).
  destruct (write_result_returned _ _ _ _ _ _ _ _ Hp Hw) as (result & Hb & Hh & Hm).
  apply call_returned in H as (m & s3 & [= <- <-] & H).
  apply call_returned in H as (result' & s4 & Hb' & H). unfold pure in Hb'. injection Hb' as Hb' <-.
  rewrite Hm, Hb in Hb'. injection Hb' as <-.
  apply call_returned in H as (u' & s5 & Hbar & H). injection H as <- <-.
  exists result, (PyJson.sort_keys (rank_result_payload (scaling_config args) result)).
  split; [|split; [apply rank_result_roundtrip|done]].
  rewrite (silent_idle_outside _ _ _ _ Hbar). exact Hh.
Qed.

Lemma failure_not_result rank e : load_rank_result (failure_json rank e) = Raise (KeyError "loss_correctness").
Proof. done. Qed.

(** C32: what a rank process with a result file tells its launcher.  The status it exits with is
    zero or one, and the last file it wrote is the one the launcher reads: either the result
    of the rank, and the status is zero exactly when its losses passed; or, after an exception,
    a record of the failure that the launcher cannot take for a result, and the status is one. *)
Theorem worker_tells_launcher rank args environ s status s' path : result_output args = Some path ->
  worker_boundary sv to_path rank args environ s = Some (Ret status, s') ->
  published path status s'
  \/ status = 1 /\ exists e, head (written s') = Some (path, failure_json rank e)
       /\ load_rank_result (failure_json rank e) = Raise (KeyError "loss_correctness").
Proof.
  intros Hp H. unfold worker_boundary in H.
  destruct (run_coordinator sv to_path rank args environ s) as [[[st|e] s1]|] eqn:Hrun; [| |done].
  - injection H as -> ->. left. unfold run_coordinator in Hrun.
    apply call_returned in Hrun as (cfg & s2 & _ & Hrun). unfold finally in Hrun.
    destruct (coordinator_body sv rank args environ cfg s2) as [[r s3]|] eqn:Hbody; [|done].
    destruct (cleanup sv s3) as [[[u|e] s4]|] eqn:Hc; [|done..]. injection Hrun as -> ->.
    destruct (body_published _ _ _ _ _ _ _ _ Hp Hbody) as (result & j & Hh & Hl & Hst).
    exists result, j. split; [|done]. by rewrite (silent_cleanup _ _ _ Hc).
  - right. apply call_returned in H as (u & s2 & Hw & [= <- <-]). split; [done|]. exists e.
    split; [|apply failure_not_result]. unfold write_failure in Hw. rewrite Hp in Hw. unfold write_file in Hw.
    apply call_returned in Hw as (u' & s3 & _ & Hw). by injection Hw as _ <-.
Qed.
End status.

(** ** A run

    One device, a metrics collector whose third reading fails, and a workload with falling
    losses. *)
Definition demo_services : Services nat machine unit := {|
  perf_counter := fun m => f_of_Z (Z.of_nat (length (processes m)));
  wall_clock := fun m => f_of_Z 100;
  turns := fun m => length (processes m);
  init_process_group := fun _ _ _ => mret tt;
  is_initialized := fun _ => true;
  destroy_process_group := mret tt;
  barrier := mret tt;
  read_template := mret ("[network]" +:+ nl +:+ "listen_port = 1" +:+ nl);
  write_text := fun _ _ => mret tt;
  start_backend := fun _ _ => mret tt;
  counts_connections := fun _ => true;
  connection_count := fun _ m => (Ret (Z.of_nat (length (processes m))), m);
  stoppable := fun _ => true;
  stop_backend := fun _ => throw (RuntimeError "still busy");
  time := fun m => (fzero, m);
  sleep := fun _ m => m;
  cuda_device_count := 0;
  client_config := "config/proxy/cli.ini";
  write_json := fun _ _ => mret tt;
  run_workload := fun _ _ wr =>
    Some (Ret ([f_of_Z 4; f_of_Z 3], [f_of_Z 4; f_of_Z 3]),
          (wr.1, record "iteration_total" (f_of_Z 2) (f_of_Z 100) wr.2));
|}.

Definition demo_args : Args :=
  mk_args true "weak" 1 1 2 1 8 true "tiny-mlp" 1 42 (f_lit 1 2) 128 None 39200 29600 120 (f_lit 5 2)
    (Some "out/rank-0.json"%string) (Some "out/m.jsonl"%string) (f_of_Z 1) None.
Definition demo_path (s : string) : Cli.path := Cli.mk_path "" (split_on "/" s).
Abbreviation demo_start := (initial (mk_machine [] 4) : process nat machine unit).

Definition demo_metrics : option Cli.MetricsConfig :=
  Some (Cli.mk_config (Cli.mk_path "" ["out"; "m-rank-0.jsonl"]%string) (f_of_Z 1) None).
Abbreviation demo_body :=
  (coordinator_body (host := Collector.demo_host) demo_services 0 demo_args [] demo_metrics demo_start).
Definition demo_after : process nat machine unit :=
  match demo_body with Some (_, s) => s | None => demo_start end.
Abbreviation demo_run :=
  (run_coordinator (host := Collector.demo_host) demo_services demo_path 0 demo_args [] demo_start).

Lemma demo_body_returns : demo_body = Some (Ret 0, demo_after).
Proof. vm_compute. reflexivity. Qed.
Lemma demo_config : metrics_config demo_path demo_args 0 = Ret demo_metrics.
Proof. vm_compute. reflexivity. Qed.

(** Stopping the emulator raises after the devices have ended. *)
Example demo_ends : match demo_run with
  | Some (Raise (RuntimeError _), s) => alive_at 0 (world s) = false /\ fleet s = [0%nat]
  | _ => False
  end.
Proof. vm_compute. split; reflexivity. Qed.

Lemma coordinator_cleans_up_witness : exists r' s', demo_run = Some (r', s')
  /\ fleet s' = fleet demo_after /\ all_stopped s'
  /\ ((all_exited ended (fleet s') (world s')
       /\ (r' = Ret 0 \/ exists b e, backend demo_after = Some b /\ stoppable demo_services b = true
                                     /\ r' = Raise e))
      \/ exists e, r' = Raise e /\ destroy_raises demo_services demo_after e (world s')).
Proof.
  refine (coordinator_cleans_up (host := Collector.demo_host) demo_services demo_path _ ended _ _
            0 demo_args [] (mk_machine [] 4) demo_metrics (Ret 0) demo_after demo_config demo_body_returns).
  - discriminate.
  - intros m. by exists (Ret tt), m.
  - intros b m. by exists (Raise (RuntimeError "still busy")), m.
Defined.

(** With an emulator that stops, the process exits with status zero. *)
Definition demo_quiet : Services nat machine unit := {|
  perf_counter := perf_counter demo_services; wall_clock := wall_clock demo_services;
  turns := turns demo_services; init_process_group := init_process_group demo_services;
  is_initialized := is_initialized demo_services;
  destroy_process_group := destroy_process_group demo_services; barrier := barrier demo_services;
  read_template := read_template demo_services; write_text := write_text demo_services;
  start_backend := start_backend demo_services; counts_connections := counts_connections demo_services;
  connection_count := connection_count demo_services; stoppable := fun _ => false;
  stop_backend := stop_backend demo_services; time := time demo_services; sleep := sleep demo_services;
  cuda_device_count := 0; client_config := client_config demo_services;
  write_json := write_json demo_services; run_workload := run_workload demo_services;
|}.
Abbreviation demo_worker :=
  (worker_boundary (host := Collector.demo_host) demo_quiet demo_path 0 demo_args [] demo_start).
Definition demo_end : process nat machine unit :=
  match demo_worker with Some (_, s) => s | None => demo_start end.
Lemma demo_worker_returns : demo_worker = Some (Ret 0, demo_end).
Proof. vm_compute. reflexivity. Qed.

Lemma worker_tells_launcher_witness :
  published "out/rank-0.json" 0 demo_end
  \/ 0 = 1 /\ exists e, head (written demo_end) = Some ("out/rank-0.json"%string, failure_json 0 e)
       /\ load_rank_result (failure_json 0 e) = Raise (KeyError "loss_correctness").
Proof.
  exact (worker_tells_launcher (host := Collector.demo_host) demo_quiet demo_path 0 demo_args [] demo_start
           0 demo_end "out/rank-0.json"%string eq_refl demo_worker_returns).
Defined.
End Process.

(** ** Witnesses *)

(** The two rates of the experiments, as Python writes them *)
Definition demo_float_text (x : float) : string :=
  if feqb x (f_lit 5 2) then "0.05" else if feqb x (f_lit 1 2) then "0.01" else "5e-05".

Definition demo_runs : list ExperimentRun :=
  match build_experiment_plan ["weak"%string] "results" TINY_WORKLOAD with Ret runs => runs | Raise _ => [] end.
Definition demo_experiment : ExperimentRun :=
  nth 1 (apply_affinity_mode demo_runs "taskset") (mk_run (Scaling.scaling_config "weak" TINY_WORKLOAD (1, 1, 1, 1, 1)) "" 0 0).
Definition demo_commands : list (list string) :=
  match rank_commands demo_float_text demo_experiment "taskset" with Ret l => l | Raise _ => [] end.
Definition demo_command : list string := nth 1 demo_commands [].

Lemma worker_config_is_launchers_witness : exists args,
  parse_args (script_arguments demo_command) = Some args
  /\ worker args = true /\ set_affinity "taskset" (scaling_config args) = Scaling.config demo_experiment
  /\ affinity_mode (scaling_config args) = "numactl"%string
  /\ arg_base_proxy_port args = base_proxy_port demo_experiment
  /\ arg_master_port args = master_port demo_experiment
  /\ result_output args = Some (path_append (run_directory demo_experiment) ("rank-" +:+ str_of_Z 1 +:+ ".json")).
Proof.
  apply (worker_config_is_launchers demo_float_text ["weak"%string] "results" TINY_WORKLOAD demo_runs
           demo_experiment "taskset" demo_commands 1 demo_command).
  - vm_compute. reflexivity.
  - apply list_elem_of_lookup. exists 1%nat. vm_compute. reflexivity.
  - vm_compute. reflexivity.
  - vm_compute. reflexivity.
  - split; vm_compute; reflexivity.
  - split; vm_compute; reflexivity.
  - vm_compute. reflexivity.
  - vm_compute. reflexivity.
Defined.
