(* ===== verification/SingleTraining.v ===== *)
(** * Training with a single coordinator ([scripts/run_single_coordinator_training.py],
      [scripts/_single_coordinator_training_workload.py],
      [scripts/_single_coordinator_fleet.py])

    The launcher trains a model natively, then again with the linear layers dispatched to
    a fleet of emulated devices, and compares the losses.  The process state, its metrics
    collector and its phases are those of [Launch]; devices are processes of [Fleet]; the
    dispatched layers are those of [Hooks].  Models, optimizers and random tensors are
    PyTorch's and parameters.  Printed lines and the wall time they show are left out. *)

From S2P Require Import Prelude PyDict PyStr PyFloat FloatOrder PyJson Metrics Fleet Launch.
From S2P Require Hooks Checkpoints.

Import Launch.Process.

(** ** The restricted hook *)

Definition LARGE_DIM : Z := 10000.

(** [torch.nn.Linear] *)
Record Linear (T : Type) : Type := mk_Linear {
  weight : T;
  bias : option T;
  in_features : Z;
  out_features : Z;
}.
Arguments mk_Linear {T}. Arguments weight {T}. Arguments bias {T}.
Arguments in_features {T}. Arguments out_features {T}.

(** What [torch.nn.Linear.forward] is bound to *)
Inductive linear_forward : Type := OriginalForward | RestrictedForward.

Section layers.
Context {T K G : Type} {TT : Hooks.Tensor T} {MB : Hooks.MatmulBackend T K}
  {SP : Hooks.SmPartition G} {clock : Hooks.Clock}.
(** PyTorch's own [Linear.forward] *)
Context (orig_linear_forward : Linear T -> T -> outcome T).

Definition restricted_linear_forward (self : Linear T) (inp : T) : M (Hooks.hooks G K) T :=
  if (LARGE_DIM <=? out_features self) || (LARGE_DIM <=? in_features self)
  then lift (orig_linear_forward self inp)
  else Hooks.forward inp (Hooks.transpose (weight self)) (bias self).

Definition call_linear (f : linear_forward) (self : Linear T) (inp : T) : M (Hooks.hooks G K) T :=
  match f with
  | OriginalForward => lift (orig_linear_forward self inp)
  | RestrictedForward => restricted_linear_forward self inp
  end.
End layers.

(** ** Batches, losses and vocabularies *)

Record TokenBatchSpec : Type := mk_TokenBatchSpec {
  seed : Z;
  batch_size : Z;
  sequence_length : Z;
  vocab_size : Z;
}.

(** What a model returns: its [loss], when that is a tensor, and its [logits], under a key
    or as an attribute *)
Record outputs (L G : Type) : Type := mk_outputs {
  out_loss : option L;
  is_dict : bool;
  out_logits : option G;
}.
Arguments mk_outputs {L G}. Arguments out_loss {L G}. Arguments is_dict {L G}.
Arguments out_logits {L G}.

(** [cross_entropy] flattens both arguments. *)
Definition extract_loss {L G X} (cross_entropy : G -> X -> outcome L) (o : outputs L G)
    (input_ids : X) : outcome L :=
  match out_loss o with
  | Some loss => Ret loss
  | None =>
      logits ← of_option (if is_dict o then KeyError "logits"
                          else AttributeError "object has no attribute 'logits'") (out_logits o);
      cross_entropy logits input_ids
  end.

(** [isinstance(v, int)]; the argument is [None] for an attribute that is absent *)
Definition as_int (v : option json) : option Z :=
  match v with
  | Some (JInt z) => Some z
  | Some (JBool b) => Some (bool_int b)
  | _ => None
  end.

(** From [model.config.vocab_size] and [tokenizer.vocab_size] *)
Definition infer_vocab_size (model_vocab tokenizer_vocab : option json) : outcome Z :=
  match as_int model_vocab with
  | Some vs => Ret vs
  | None => of_option (ValueError "Unable to infer vocab_size") (as_int tokenizer_vocab)
  end.

(** ** The training loops *)

(** A model with its optimizer, on a world [W]; [X] are its inputs, [O] its outputs, [L] the
    losses *)
Record Trainer (W X O L : Type) : Type := mk_Trainer {
  begin_training : bool -> float -> B W unit;   (** train mode, learning rate *)
  zero_grad : B W unit;
  model_call : X -> B W O;
  backward : L -> B W unit;
  loss_item : L -> float;
  optimizer_step : B W unit;
}.
Arguments mk_Trainer {W X O L}. Arguments begin_training {W X O L}.
Arguments zero_grad {W X O L}. Arguments model_call {W X O L}. Arguments backward {W X O L}.
Arguments loss_item {W X O L}. Arguments optimizer_step {W X O L}.

Section loops.
Context {P W Bk : Type} {os : Os P W} {host : Collector.MetricsHost} (sv : Services P W Bk).
Abbreviation state := (process P W Bk).

(** [track_phase(recorder, name)], for a recorder that may be [None] *)
Definition tracked {A} (recorded : bool) (name : string) (body : B state A) : B state A :=
  if recorded then track_phase sv name body else body.

Section steps.
Context {X O L : Type} (tr : Trainer W X O L) (loss_of : O -> X -> outcome L) (recorded : bool).

(** One turn of either loop *)
Definition train_step (is_warmup : bool) (input : outcome X) : B state float :=
  let measured := recorded && negb is_warmup in
  tracked recorded (if is_warmup then "warmup_iteration" else "iteration_total") (
    x ← pure input;
    outside sv (zero_grad tr);;
    out ← tracked measured "forward_device_dispatch_aggregation" (outside sv (model_call tr x));
    loss ← pure (loss_of out x);
    tracked measured "backward_device_dispatch_aggregation" (outside sv (backward tr loss));;
    tracked measured "optimizer" (outside sv (optimizer_step tr));;
    mret (loss_item tr loss)).

Definition train_steps (steps warmup_steps : Z) (input : Z -> outcome X) : B state (list float) :=
  collect (seqZ 0 (warmup_steps + steps)) (fun i => train_step (i <? warmup_steps) (input i)).
End steps.

(** [randint] is [make_token_batch]. *)
Definition train_loop {X G L} (tr : Trainer W X (outputs L G) L)
    (randint : TokenBatchSpec -> outcome X) (cross_entropy : G -> X -> outcome L)
    (recorded : bool) (steps warmup_steps sd batch seq_length vocab : Z) : B state (list float) :=
  outside sv (begin_training tr false (f_lit 5 5));;
  train_steps tr (extract_loss cross_entropy) recorded steps warmup_steps
    (fun i => randint (mk_TokenBatchSpec (sd + i) batch seq_length vocab)).

(** [samples]: the inputs and the targets of a seed *)
Definition train_loop_tiny {X Y O L} (tr : Trainer W X O L) (samples : Z -> X * Y)
    (mse_loss : O -> Y -> outcome L) (recorded : bool) (steps warmup_steps sd : Z) :
    B state (list float) :=
  outside sv (begin_training tr true (f_lit 1 2));;
  train_steps tr (fun out _ => mse_loss out (samples sd).2) recorded steps warmup_steps
    (fun _ => Ret (samples sd).1).
End loops.

(** ** The verdict *)

Record verdict : Type := mk_verdict {
  any_nan : bool;
  decreasing : bool;
  tracks : bool;
  max_rel : float;
}.

Definition scale_of (g : float) : float := fmax (fabs g) (f_lit 1 6).

Definition within (rtol : float) (dg : float * float) : bool :=
  fle (fabs (fsub dg.1 dg.2)) (fmul rtol (scale_of dg.2)).

Definition relative_error (dg : float * float) : outcome float :=
  fdiv (fabs (fsub dg.1 dg.2)) (scale_of dg.2).

Definition judge (rtol : float) (dispatched golden : list float) : outcome verdict :=
  let any_nan := existsb is_nan dispatched in
  let pairs := zip dispatched golden in
  if any_nan then Ret (mk_verdict true false false fnan)
  else
    d0 ← of_option (IndexError "list index out of range") (head dispatched);
    d1 ← of_option (IndexError "list index out of range") (last dispatched);
    errors ← mapO relative_error pairs;
    max_rel ← of_option (ValueError "max() arg is an empty sequence") (fmax_list errors);
    Ret (mk_verdict false (flt d1 d0) (forallb (within rtol) pairs) max_rel).

Definition passes (v : verdict) : bool := negb (any_nan v) && decreasing v && tracks v.

(** ** The launcher *)

Record Args : Type := mk_Args {
  num_devices : Z;
  model_name : string;
  a_steps : Z;
  a_warmup_steps : Z;
  a_seed : Z;
  a_batch_size : Z;
  a_seq_length : Z;
  a_backend : string;
  a_block_size : Z;
  a_cfg : option string;
  proxy_host : string;
  a_rtol : float;
  a_tiny : bool;
  a_metrics : Cli.MetricsCliArgs;
}.

(** [_single_coordinator_fleet.spawn_fake_fleet]: the command and the log of a device *)
Definition fake_device_command (index : Z) (backend_name device_cfg host : string) : list string :=
  ["morphling_device"; "--id"; str_of_Z index; "--flops"; "100T"; "--memory"; "8G"; "--ul_bw";
   "10G"; "--dl_bw"; "10G"; "--ul_lat"; "0"; "--dl_lat"; "0"; "--backend"; backend_name;
   "--cfg"; device_cfg]%string ++ (if is_empty host then [] else ["--proxy_host"%string; host]).

Definition fake_device_log (log_dir : string) (index : Z) : option string :=
  if is_empty log_dir then None
  else Some (Checkpoints.path_join log_dir ("dev_" +:+ str_of_Z index +:+ ".log")).

(** A string that is not empty, or the default *)
Definition str_or (o : option string) (dflt : string) : string :=
  match o with Some s => if is_empty s then dflt else s | None => dflt end.

Section launcher.
Context {P W Bk : Type} {os : Os P W} {host : Collector.MetricsHost} (sv : Services P W Bk).
Abbreviation state := (process P W Bk).

(** The list of device processes is a global of the module: the [fleet] of the state. *)
Definition end_fleet : B state unit :=
  ps ← look fleet;
  ps ← outside sv (cleanup_fake_fleet ps);
  assign (set_fleet ps).

Definition start_fake_device (environ : pydict string string) (num_gpus : Z)
    (backend_name host : string) (index : Z) : B state unit :=
  p ← outside sv (fun w => Some (popen
        (fake_device_command index backend_name
           (str_or (dict_get "CFG_PATH" environ) (client_config sv)) host)
        (dict_set "CUDA_VISIBLE_DEVICES" (str_of_Z (index mod num_gpus)) environ)
        (fake_device_log (dict_get_default "MORPHLING_DEV_LOG_DIR" "" environ) index) w));
  assign (fun s => set_fleet (fleet s ++ [p]) s).

Definition spawn_fake_fleet (environ : pydict string string) (num_devices : Z)
    (backend_name host : string) : B state unit :=
  end_fleet;;
  each (seqZ 0 num_devices)
    (start_fake_device environ (Z.max 1 (cuda_device_count sv)) backend_name host).

(** [_runtime_common.start_backend]; [default_cfg] is the path of [config/proxy/svr.ini]. *)
Definition start_backend (default_cfg backend_name : string) (block_size : Z)
    (cfg_path : option string) : B state Bk :=
  if String.eqb backend_name "proxy"
  then outside sv (Process.start_backend sv block_size (str_or cfg_path default_cfg))
  else throw (ValueError ("Unknown backend: " +:+ backend_name)).

(** [hasattr(backend, "stop")], and the call, whose exceptions are dropped *)
Definition stop_quietly (b : Bk) : B state unit :=
  if stoppable sv b then except (outside sv (stop_backend sv b)) (fun _ => true) (mret tt)
  else mret tt.

(** The end of [main], from the verdict on: the status of [os._exit] *)
Definition conclude (rtol : float) (b : Bk) (golden dispatched : list float) : B state Z :=
  v ← pure (judge rtol dispatched golden);
  stop_quietly b;;
  end_fleet;;
  stop_collector;;
  mret (if passes v then 0 else 1).

(** The assignment to [torch.nn.Linear.forward] *)
Context (set_linear : linear_forward -> W -> W) (default_cfg : string).

Definition install (f : linear_forward) : B state unit := outside sv (effect (set_linear f)).

(** The workload on this machine: [native] and [dispatched] are the loops of [main] with the
    model built anew; the vocabulary found by the native run is an argument of the other. *)
Context {X Y O G L : Type} (tiny_trainer : Trainer W X O L) (trainer : Trainer W X (outputs L G) L)
  (make_tiny_model : Z -> B W unit) (load_model : string -> B W (option json * option json))
  (samples : Z -> X * Y) (mse_loss : O -> Y -> outcome L)
  (randint : TokenBatchSpec -> outcome X) (cross_entropy : G -> X -> outcome L).

Definition golden_run (a : Args) : B state (list float * Z) :=
  install OriginalForward;;
  if a_tiny a then
    outside sv (make_tiny_model (a_seed a));;
    l ← train_loop_tiny sv tiny_trainer samples mse_loss false (a_steps a) (a_warmup_steps a) (a_seed a);
    mret (l, 0)
  else
    vocabs ← outside sv (load_model (model_name a));
    vocab ← pure (infer_vocab_size vocabs.1 vocabs.2);
    l ← train_loop sv trainer randint cross_entropy false (a_steps a) (a_warmup_steps a) (a_seed a)
          (a_batch_size a) (a_seq_length a) vocab;
    mret (l, vocab).

Definition dispatched_run (a : Args) (recorded : bool) (vocab : Z) : B state (list float) :=
  l ← (if a_tiny a then
         outside sv (make_tiny_model (a_seed a));;
         install RestrictedForward;;
         train_loop_tiny sv tiny_trainer samples mse_loss recorded (a_steps a) (a_warmup_steps a)
           (a_seed a)
       else
         outside sv (load_model (model_name a));;
         install RestrictedForward;;
         train_loop sv trainer randint cross_entropy recorded (a_steps a) (a_warmup_steps a) (a_seed a)
           (a_batch_size a) (a_seq_length a) vocab);
  install OriginalForward;;
  mret l.

(** The emulator and the fleet, up to the dispatched run *)
Definition start_emulator (environ : pydict string string) (a : Args) (recorded : bool) : B state Bk :=
  b ← start_backend default_cfg (a_backend a) (a_block_size a) (a_cfg a);
  assign (set_backend b);;
  tracked sv recorded "idle_wait" (outside sv (effect (sleep sv 5)));;
  spawn_fake_fleet environ (num_devices a) (a_backend a) (proxy_host a);;
  (if String.eqb (a_backend a) "proxy"
   then tracked sv recorded "idle_wait"
          (n ← outside sv (Fleet.wait_for_connections (time sv) (sleep sv) (connection_count sv b)
                             (num_devices a) 120 (counts_connections sv b) 121); mret tt)
   else mret tt);;
  tracked sv recorded "idle_wait" (outside sv (effect (sleep sv 5)));;
  mret b.

Definition main (environ : pydict string string) (a : Args) : B state Z :=
  cfg ← pure (Cli.metrics_config_from_args (a_metrics a) None);
  match cfg with Some cfg => start_collector cfg | None => mret tt end;;
  recorded ← look (fun s => match collector s with Some _ => true | None => false end);
  golden_vocab ← golden_run a;
  b ← start_emulator (dict_set "NUM_DEVICES" (str_of_Z (num_devices a)) environ) a recorded;
  dispatched ← dispatched_run a recorded golden_vocab.2;
  conclude (a_rtol a) b golden_vocab.1 dispatched.
End launcher.

(** ** The restricted layers *)

Section restricted.
Context {T K G : Type} {TT : Hooks.Tensor T} {TL : Hooks.TensorLaws T} {MB : Hooks.MatmulBackend T K}
  {MC : Hooks.MatmulContract T K} {SP : Hooks.SmPartition G} {clock : Hooks.Clock}.
Context (orig_linear_forward : Linear T -> T -> outcome T).

(** What PyTorch documents of [nn.Linear] *)
Context (orig_linear : forall self inp, orig_linear_forward self inp =
  (c ← Hooks.matmul inp (Hooks.transpose (weight self)); Hooks.with_bias c (bias self))).

(** A layer the restricted hook keeps native *)
Definition wide (self : Linear T) : bool :=
  (LARGE_DIM <=? out_features self) || (LARGE_DIM <=? in_features self).

(** The restricted hook does not change what a linear layer computes.  Wherever PyTorch's
    layer returns, a layer of 10000 features or more on a side is not dispatched: the result
    is PyTorch's and the hooks' state is untouched; the other layers are dispatched and
    return the same, and only an SM partition can make them raise. *)
Theorem restricted_layer_exact self inp out ops (b : Hooks.hooks G K) :
  Hooks.holding ops b -> Hooks.enable_verification b = false ->
  orig_linear_forward self inp = Ret out ->
  match restricted_linear_forward orig_linear_forward self inp b with
  | (Ret r, b') => r = out /\ (wide self = true -> b' = b)
  | (Raise _, _) => wide self = false /\ Hooks.has_greenctx b = true
  end.
Proof.
  intros Hh Hv Ho. unfold restricted_linear_forward. fold (wide self).
  destruct (wide self); [by rewrite Ho|]. rewrite orig_linear in Ho.
  destruct (Hooks.matmul inp (Hooks.transpose (weight self))) as [c|] eqn:Hm; [|done].
  pose proof (Hooks.forward_wp inp (Hooks.transpose (weight self)) (bias self) c out ops b
                Hh Hv Hm Ho) as Hw.
  unfold wp in Hw. destruct (Hooks.forward _ _ _ b) as [[r|e] b']; [by destruct Hw|by split].
Qed.
End restricted.

(** ** Training as a function

    What a run is to compute: parameters, an optimizer's state and the gradient of a loss,
    with none of the mutable objects.  [predict] has the mode of the model ([train] or
    [eval]); [update] is one step of the optimizer. *)
Record Learner (V S Gr X O L : Type) : Type := mk_Learner {
  predict : bool -> V -> X -> O;
  gradient : L -> Gr;
  no_gradient : Gr;
  add_gradient : Gr -> Gr -> Gr;
  fresh_optimizer : float -> S;
  update : Gr -> V -> S -> V * S;
}.
Arguments mk_Learner {V S Gr X O L}. Arguments predict {V S Gr X O L}.
Arguments gradient {V S Gr X O L}. Arguments no_gradient {V S Gr X O L}.
Arguments add_gradient {V S Gr X O L}. Arguments fresh_optimizer {V S Gr X O L}.
Arguments update {V S Gr X O L}.

(** What a world holds of a training: the gradients are those the backward passes have
    accumulated. *)
Record training (V S Gr : Type) : Type := mk_training {
  training_mode : bool;
  weights : V;
  optimizer : S;
  gradients : Gr;
}.
Arguments mk_training {V S Gr}. Arguments training_mode {V S Gr}. Arguments weights {V S Gr}.
Arguments optimizer {V S Gr}. Arguments gradients {V S Gr}.

Section descent.
Context {V S Gr X O L : Type} (ln : Learner V S Gr X O L) (item : L -> float)
  (loss_of : O -> X -> outcome L) (mode : bool).

(** Gradient descent over the inputs: the losses and the last parameters *)
Fixpoint descend (inputs : list (outcome X)) (v : V) (o : S) : outcome (list float * V) :=
  match inputs with
  | [] => Ret ([], v)
  | input :: inputs =>
      x ← input;
      loss ← loss_of (predict ln mode v x) x;
      let vo := update ln (gradient ln loss) v o in
      rest ← descend inputs vo.1 vo.2;
      Ret (item loss :: rest.1, rest.2)
  end.
End descent.

(** A trainer implements a learner on the worlds: each of its calls returns and does to the
    parameters, the optimizer and the accumulated gradients what PyTorch documents of it.
    For the dispatched layers, calling the model is exact by [restricted_layer_exact]. *)
Section implements.
Context {W V S Gr X O L : Type} (view : W -> training V S Gr).

Definition brings {A} (m : B W A) (w : W) (a : A) (t : training V S Gr) : Prop :=
  exists w', m w = Some (Ret a, w') /\ view w' = t.

Record implements (ln : Learner V S Gr X O L) (tr : Trainer W X O L) : Prop := mk_implements {
  begins : forall mode lr w, brings (begin_training tr mode lr) w tt
    (mk_training mode (weights (view w)) (fresh_optimizer ln lr) (gradients (view w)));
  zeroes : forall w, brings (zero_grad tr) w tt
    (mk_training (training_mode (view w)) (weights (view w)) (optimizer (view w)) (no_gradient ln));
  calls : forall x w, brings (model_call tr x) w
    (predict ln (training_mode (view w)) (weights (view w)) x) (view w);
  backs : forall loss w, brings (backward tr loss) w tt
    (mk_training (training_mode (view w)) (weights (view w)) (optimizer (view w))
       (add_gradient ln (gradients (view w)) (gradient ln loss)));
  steps_down : forall w, brings (optimizer_step tr) w tt
    (let vo := update ln (gradients (view w)) (weights (view w)) (optimizer (view w)) in
     mk_training (training_mode (view w)) vo.1 vo.2 (gradients (view w)));
  no_gradient_adds : forall g, add_gradient ln (no_gradient ln) g = g;
}.
End implements.

(** ** The loops descend *)

Section agreement.
Context {P W Bk : Type} {os : Os P W} {host : Collector.MetricsHost} (sv : Services P W Bk).
Abbreviation state := (process P W Bk).
Context {V S Gr : Type} (view : W -> training V S Gr).

(** [m] ends with [r] in a world that satisfies [Q]. *)
Definition ends_with {A} (m : B state A) (s : state) (r : outcome A) (Q : W -> Prop) : Prop :=
  exists s', m s = Some (r, s') /\ Q (world s').

Lemma ends_with_ret {A} (a : A) s (Q : W -> Prop) : Q (world s) -> ends_with (mret a) s (Ret a) Q.
Proof. intros HQ. by exists s. Qed.

Lemma ends_with_bind {A A'} (m : B state A) (f : A -> B state A') s a r (Q Q' : W -> Prop) :
  ends_with m s (Ret a) Q -> (forall s1, Q (world s1) -> ends_with (f a) s1 r Q') ->
  ends_with (m ≫= f) s r Q'.
Proof.
  intros (s1 & Hm & HQ) Hf. destruct (Hf s1 HQ) as (s2 & Hs2 & HQ'). exists s2.
  unfold mbind, B_bind. by rewrite Hm.
Qed.

Lemma ends_raise {A A'} (m : B state A) (f : A -> B state A') s e (Q : W -> Prop) :
  ends_with m s (Raise e) Q -> ends_with (m ≫= f) s (Raise e) Q.
Proof. intros (s1 & Hm & HQ). exists s1. unfold mbind, B_bind. by rewrite Hm. Qed.

Lemma ends_pure {A} (o : outcome A) s (Q : W -> Prop) : Q (world s) -> ends_with (pure o) s o Q.
Proof. intros HQ. by exists s. Qed.

Lemma ends_outside {A} (m : B W A) s a t :
  brings view m (world s) a t -> ends_with (outside sv m) s (Ret a) (fun w => view w = t).
Proof. intros (w' & Hm & Hv). unfold ends_with, outside. rewrite Hm. by eexists. Qed.

(** Recording a phase does not change what is computed. *)
Lemma ends_tracked {A} recorded name (m : B state A) s r (Q : W -> Prop) :
  ends_with m s r Q -> ends_with (tracked sv recorded name m) s r Q.
Proof.
  intros (s1 & Hm & HQ). unfold tracked. destruct recorded; [|by exists s1].
  unfold ends_with, track_phase, finally. rewrite Hm. by eexists.
Qed.

Section loop.
Context {X O L : Type} (ln : Learner V S Gr X O L) (tr : Trainer W X O L) (Htr : implements view ln tr).
Context (loss_of : O -> X -> outcome L) (recorded : bool).

(** One turn is one step down the gradient of this turn's loss only. *)
Lemma train_step_descends is_warmup input s mode v o g :
  view (world s) = mk_training mode v o g ->
  ends_with (train_step sv tr loss_of recorded is_warmup input) s
    (x ← input; loss ← loss_of (predict ln mode v x) x; Ret (loss_item tr loss))
    (fun w => forall x loss, input = Ret x -> loss_of (predict ln mode v x) x = Ret loss ->
       let vo := update ln (gradient ln loss) v o in
       view w = mk_training mode vo.1 vo.2 (gradient ln loss)).
Proof using Htr.
  intros Hs. unfold train_step. apply ends_tracked.
  destruct input as [x|e]; cbn [mbind outcome_bind]; [|by apply ends_raise, ends_pure].
  eapply ends_with_bind; [by apply (ends_pure _ _ (fun w => w = world s))|]. intros s1 Hs1.
  eapply ends_with_bind; [apply ends_outside, (zeroes _ _ _ Htr)|]. intros s2 Hs2.
  rewrite Hs1, Hs in Hs2. cbn [training_mode weights optimizer] in Hs2.
  eapply ends_with_bind; [apply ends_tracked, ends_outside, (calls _ _ _ Htr)|]. intros s3 Hs3.
  rewrite Hs2 in Hs3 |- *. cbn [training_mode weights].
  destruct (loss_of (predict ln mode v x) x) as [loss|e] eqn:Hl; cbn [mbind outcome_bind].
  2:{ apply ends_raise, ends_pure. intros x' loss [= <-]. congruence. }
  eapply ends_with_bind; [by apply (ends_pure _ _ (fun w => w = world s3))|]. intros s4 Hs4.
  eapply ends_with_bind; [apply ends_tracked, ends_outside, (backs _ _ _ Htr)|]. intros s5 Hs5.
  rewrite Hs4, Hs3 in Hs5. cbn [training_mode weights optimizer gradients] in Hs5.
  rewrite (no_gradient_adds _ _ _ Htr) in Hs5.
  eapply ends_with_bind; [apply ends_tracked, ends_outside, (steps_down _ _ _ Htr)|]. intros s6 Hs6.
  rewrite Hs5 in Hs6. apply ends_with_ret. intros x' loss' [= <-] Hl'. rewrite Hl in Hl'.
  injection Hl' as <-. exact Hs6.
Qed.

Lemma steps_descend (is_warmup : Z -> bool) (input : Z -> outcome X) l s mode v o g :
  view (world s) = mk_training mode v o g ->
  ends_with (collect l (fun i => train_step sv tr loss_of recorded (is_warmup i) (input i))) s
    (r ← descend ln (loss_item tr) loss_of mode (map input l) v o; Ret r.1)
    (fun w => forall r, descend ln (loss_item tr) loss_of mode (map input l) v o = Ret r ->
       weights (view w) = r.2).
Proof using Htr.
  revert s v o g. induction l as [|i l IH]; intros s v o g Hs; cbn [collect map descend].
  { apply ends_with_ret. intros r [= <-]. by rewrite Hs. }
  pose proof (train_step_descends (is_warmup i) (input i) s mode v o g Hs) as Hstep.
  destruct (input i) as [x|e]; cbn [mbind outcome_bind] in Hstep |- *;
    [|apply ends_raise; destruct Hstep as (s1 & H1 & _); by exists s1].
  destruct (loss_of (predict ln mode v x) x) as [loss|e] eqn:Hl; cbn [mbind outcome_bind] in Hstep |- *;
    [|apply ends_raise; destruct Hstep as (s1 & H1 & _); by exists s1].
  eapply ends_with_bind; [exact Hstep|]. cbn beta. intros s1 Hs1. specialize (Hs1 x loss eq_refl Hl).
  cbn zeta in Hs1. destruct (IH s1 _ _ _ Hs1) as (s2 & Hr & HQ).
  destruct (descend _ _ _ _ (map input l) _ _) as [[ls v']|e]; cbn [mbind outcome_bind fst snd] in *.
  - exists s2. unfold mbind, B_bind. rewrite Hr. split; [done|]. intros r [= <-].
    by apply (HQ (ls, v')).
  - exists s2. unfold mbind, B_bind. by rewrite Hr.
Qed.
End loop.
End agreement.

(** *** The verdict on equal losses *)

Lemma fsub_self x : is_finite x = true -> fabs (fsub x x) = fzero.
Proof.
  destruct x as [[]| | |s m e]; try done. intros _. unfold fsub. cbn [SFsub].
  rewrite Z.min_id. by rewrite Z.sub_diag.
Qed.

Lemma pfin_abs x : fin x -> pfin (fabs x).
Proof. intros [Hf Hc]. by destruct x as [s| | |s m e]. Qed.

Lemma scale_pos g : fin g -> pfin (scale_of g) /\ 0 < fval (scale_of g).
Proof.
  intros Hg%pfin_abs. unfold scale_of.
  assert (Hl : pfin (f_lit 1 6) /\ 0 < fval (f_lit 1 6)) by (split; [by apply pfinb_pfin|by vm_compute]).
  destruct Hl as [Hl Hl0]. pose proof (fmax_fval (fabs g) (f_lit 1 6) (proj1 Hg) (proj1 Hl)).
  split; [|lia]. unfold fmax. by destruct (flt _ _).
Qed.

Lemma scale_divides x g : fin g -> exists q, fdiv x (scale_of g) = Ret q.
Proof.
  intros [Hp H0]%scale_pos. apply pfin_cases in Hp as [Hz|(m & e & -> & _)]; [|by eexists].
  rewrite Hz in H0. done.
Qed.

Lemma within_self rtol g : pfin rtol -> fin g -> within rtol (g, g) = true.
Proof.
  intros Hr Hg. destruct (scale_pos g Hg) as [Hs _]. unfold within. cbn [fst snd].
  rewrite fsub_self by apply Hg.
  destruct (fmul_ge rtol (scale_of g) fzero Hr Hs) as [->|[Hp Hle]]; [by apply pfinb_pfin| |done|].
  - apply Z.mul_nonneg_nonneg; by apply pfin_fval.
  - apply fle_fval; [done|apply Hp|exact Hle].
Qed.

Lemma no_error g : fin g -> relative_error (g, g) = Ret fzero.
Proof.
  intros Hg. unfold relative_error. cbn [fst snd]. rewrite fsub_self by apply Hg.
  destruct (scale_pos g Hg) as [Hs H0].
  apply pfin_cases in Hs as [Hz|(m & e & -> & _)]; [|done]. by rewrite Hz in H0.
Qed.

Lemma zip_self {A} (l : list A) : zip l l = (fun x => (x, x)) <$> l.
Proof. induction l as [|x l IH]; [done|]. cbn. by f_equal. Qed.

Lemma mapO_const {A A'} (f : A -> outcome A') l y :
  Forall (fun x => f x = Ret y) l -> mapO f l = Ret (replicate (length l) y).
Proof. induction 1 as [|x l Hx _ IH]; [done|]. cbn [mapO]. by rewrite Hx, IH. Qed.

Lemma fmax_list_zeros n : fmax_list (replicate (S n) fzero) = Some fzero.
Proof.
  unfold fmax_list. cbn [replicate]. f_equal. induction n as [|n IH]; [done|].
  cbn [replicate foldl]. exact IH.
Qed.

(** Losses that are the golden ones: finite, without an error, decreasing or not *)
Lemma judge_same rtol losses d0 d1 :
  pfin rtol -> Forall fin losses -> head losses = Some d0 -> last losses = Some d1 ->
  judge rtol losses losses = Ret (mk_verdict false (flt d1 d0) true fzero).
Proof.
  intros Hr Hl H0 H1. unfold judge.
  assert (Hn : existsb is_nan losses = false).
  { apply not_true_iff_false. intros (x & Hx%list_elem_of_In & Hnan)%existsb_exists.
    rewrite (fin_not_nan x) in Hnan; [done|]. by eapply Forall_forall. }
  rewrite Hn, H0, H1. cbn [of_option mbind outcome_bind]. rewrite zip_self.
  rewrite (mapO_const _ _ fzero) by (apply Forall_fmap; eapply Forall_impl; [exact Hl|apply no_error]).
  cbn [mbind outcome_bind]. rewrite length_fmap. destruct losses as [|x losses]; [done|].
  cbn [length]. rewrite fmax_list_zeros. cbn [of_option mbind outcome_bind]. do 2 f_equal.
  apply forallb_forall. intros dg Hdg%list_elem_of_In.
  apply list_elem_of_fmap in Hdg as (g & -> & Hg). apply within_self; [done|].
  by eapply Forall_forall.
Qed.

(** ** Golden and dispatched runs *)

Section runs.
Context {P W Bk : Type} {os : Os P W} {host : Collector.MetricsHost} (sv : Services P W Bk).
Abbreviation state := (process P W Bk).
Context (set_linear : linear_forward -> W -> W) {X Y O G L V S Gr : Type}
  (tiny_trainer : Trainer W X O L) (trainer : Trainer W X (outputs L G) L)
  (make_tiny_model : Z -> B W unit) (load_model : string -> B W (option json * option json))
  (samples : Z -> X * Y) (mse_loss : O -> Y -> outcome L)
  (randint : TokenBatchSpec -> outcome X) (cross_entropy : G -> X -> outcome L).
Context (tiny : Learner V S Gr X O L) (full : Learner V S Gr X (outputs L G) L)
  (tiny_weights : Z -> V) (pretrained : string -> V)
  (vocabularies : string -> option json * option json).

(** What [main] trains in both runs: on the tiny model, all steps on the samples of the seed
    with a rate of 0.01; else step [i] on the tokens of seed [a_seed + i], with 5e-5 *)
Definition reference_run (a : Args) : outcome (list float * Z * V) :=
  if a_tiny a then
    r ← descend tiny (loss_item tiny_trainer) (fun out _ => mse_loss out (samples (a_seed a)).2) true
          (map (fun _ => Ret (samples (a_seed a)).1) (seqZ 0 (a_warmup_steps a + a_steps a)))
          (tiny_weights (a_seed a)) (fresh_optimizer tiny (f_lit 1 2));
    Ret (r.1, 0, r.2)
  else
    vocab ← infer_vocab_size (vocabularies (model_name a)).1 (vocabularies (model_name a)).2;
    r ← descend full (loss_item trainer) (extract_loss cross_entropy) false
          (map (fun i => randint (mk_TokenBatchSpec (a_seed a + i) (a_batch_size a) (a_seq_length a) vocab))
             (seqZ 0 (a_warmup_steps a + a_steps a)))
          (pretrained (model_name a)) (fresh_optimizer full (f_lit 5 5));
    Ret (r.1, vocab, r.2).

(** The calls are exact, whatever [torch.nn.Linear.forward] is bound to; a model made from a
    seed, or loaded by its name, always has the same parameters. *)
Record exact_calls (view : W -> training V S Gr) : Prop := mk_exact_calls {
  exact_tiny : implements view tiny tiny_trainer;
  exact_full : implements view full trainer;
  exact_install : forall f w, view (set_linear f w) = view w;
  exact_make : forall sd w, exists w', make_tiny_model sd w = Some (Ret tt, w') /\
    weights (view w') = tiny_weights sd;
  exact_load : forall name w, exists w', load_model name w = Some (Ret (vocabularies name), w') /\
    weights (view w') = pretrained name;
}.

Context (view : W -> training V S Gr) (Hexact : exact_calls view).

Lemma ends_install f s v :
  weights (view (world s)) = v ->
  ends_with (install sv set_linear f) s (Ret tt) (fun w => weights (view w) = v).
Proof using Hexact.
  intros Hv. eexists. split; [reflexivity|].
  change (weights (view (set_linear f (world s))) = v). by rewrite (exact_install _ Hexact).
Qed.

Lemma loop_begins {X0 O0} (ln : Learner V S Gr X0 O0 L) (tr : Trainer W X0 O0 L) loss_of recorded mode lr
    (input : Z -> outcome X0) steps warmup s :
  implements view ln tr ->
  let r := descend ln (loss_item tr) loss_of mode (map input (seqZ 0 (warmup + steps)))
             (weights (view (world s))) (fresh_optimizer ln lr) in
  ends_with (outside sv (begin_training tr mode lr);; train_steps sv tr loss_of recorded steps warmup input) s
    (r ← r; Ret r.1) (fun w => forall lv, r = Ret lv -> weights (view w) = lv.2).
Proof.
  intros Htr. cbn zeta. eapply ends_with_bind; [apply (ends_outside sv view), (begins _ _ _ Htr)|].
  intros s1 Hs1. by apply (steps_descend sv view ln tr Htr loss_of recorded _ input _ _ _ _ _ _ Hs1).
Qed.

(** The losses of the reference, and its parameters in the world *)
Abbreviation reference_losses a := (r ← reference_run a; Ret r.1.1).
Abbreviation reference_world a := (fun w => forall r, reference_run a = Ret r -> weights (view w) = r.2).

Lemma tiny_loop_reference recorded a s :
  a_tiny a = true -> weights (view (world s)) = tiny_weights (a_seed a) ->
  ends_with (train_loop_tiny sv tiny_trainer samples mse_loss recorded (a_steps a) (a_warmup_steps a)
               (a_seed a)) s (reference_losses a) (reference_world a).
Proof using Hexact.
  intros Ht Hs. unfold reference_run. rewrite Ht, <- Hs.
  destruct (loop_begins tiny tiny_trainer (fun out _ => mse_loss out (samples (a_seed a)).2) recorded true
    (f_lit 1 2) (fun _ => Ret (samples (a_seed a)).1) (a_steps a) (a_warmup_steps a) s
    (exact_tiny _ Hexact)) as (s' & Hl & Hw).
  exists s'. unfold train_loop_tiny. rewrite Hl. revert Hw.
  destruct (descend _ _ _ _ _ _ _) as [lv|e]; cbn [mbind outcome_bind fst snd]; intros Hw;
    (split; [done|]); intros r [= <-]. by apply Hw.
Qed.

Lemma full_loop_reference recorded a vocab s :
  a_tiny a = false ->
  infer_vocab_size (vocabularies (model_name a)).1 (vocabularies (model_name a)).2 = Ret vocab ->
  weights (view (world s)) = pretrained (model_name a) ->
  ends_with (train_loop sv trainer randint cross_entropy recorded (a_steps a) (a_warmup_steps a)
               (a_seed a) (a_batch_size a) (a_seq_length a) vocab) s
    (reference_losses a) (reference_world a).
Proof using Hexact.
  intros Ht Hvocab Hs. unfold reference_run. rewrite Ht, Hvocab. cbn [mbind outcome_bind].
  rewrite <- Hs.
  destruct (loop_begins full trainer (extract_loss cross_entropy) recorded false (f_lit 5 5)
    (fun i => randint (mk_TokenBatchSpec (a_seed a + i) (a_batch_size a) (a_seq_length a) vocab))
    (a_steps a) (a_warmup_steps a) s (exact_full _ Hexact)) as (s' & Hl & Hw).
  exists s'. unfold train_loop. rewrite Hl. revert Hw.
  destruct (descend _ _ _ _ _ _ _) as [lv|e]; cbn [mbind outcome_bind fst snd]; intros Hw;
    (split; [done|]); intros r [= <-]. by apply Hw.
Qed.

(** A model made anew *)
Lemma ends_outside_exists {A} (m : B W A) s a (Q : W -> Prop) :
  (exists w', m (world s) = Some (Ret a, w') /\ Q w') -> ends_with (outside sv m) s (Ret a) Q.
Proof. intros (w' & Hm & HQ). unfold ends_with, outside. rewrite Hm. by eexists. Qed.

(** The result of the golden run *)
Definition golden_result (a : Args) : outcome (list float * Z) :=
  r ← reference_run a; Ret r.1.

(** The vocabulary that the reference finds *)
Lemma reference_vocabulary a r : reference_run a = Ret r ->
  if a_tiny a then r.1.2 = 0
  else infer_vocab_size (vocabularies (model_name a)).1 (vocabularies (model_name a)).2 = Ret r.1.2.
Proof.
  unfold reference_run. destruct (a_tiny a).
  - destruct (descend _ _ _ _ _ _ _); [|done]. by intros [= <-].
  - destruct (infer_vocab_size _ _) as [vocab|e]; [|done]. cbn [mbind outcome_bind].
    destruct (descend _ _ _ _ _ _ _); [|done]. by intros [= <-].
Qed.

(** The native run is the reference. *)
Lemma golden_run_reference a s :
  ends_with (golden_run sv set_linear tiny_trainer trainer make_tiny_model load_model samples
    mse_loss randint cross_entropy a) s (golden_result a) (reference_world a).
Proof using Hexact.
  unfold golden_run, golden_result. eapply ends_with_bind; [by apply ends_install|]. intros s1 _.
  destruct (a_tiny a) eqn:Ht.
  - eapply ends_with_bind; [apply ends_outside_exists, (exact_make _ Hexact)|]. intros s2 Hs2.
    pose proof (tiny_loop_reference false a s2 Ht Hs2) as Hl.
    destruct (reference_run a) as [r|e] eqn:Hr; cbn [mbind outcome_bind] in *.
    + pose proof (reference_vocabulary a r Hr) as Hv. rewrite Ht in Hv.
      eapply ends_with_bind; [exact Hl|]. intros s3 Hs3. rewrite (surjective_pairing r.1), Hv.
      by apply ends_with_ret.
    + by eapply ends_raise.
  - eapply ends_with_bind; [apply ends_outside_exists, (exact_load _ Hexact)|]. intros s2 Hs2.
    destruct (infer_vocab_size (vocabularies (model_name a)).1 (vocabularies (model_name a)).2)
      as [vocab|e] eqn:Hvocab.
    + eapply (ends_with_bind _ _ _ vocab _ (fun w => w = world s2)); [by apply ends_pure|]. intros s3 Hs3.
      rewrite <- Hs3 in Hs2.
      pose proof (full_loop_reference false a vocab s3 Ht Hvocab Hs2) as Hl.
      destruct (reference_run a) as [r|e] eqn:Hr; cbn [mbind outcome_bind] in *.
      * pose proof (reference_vocabulary a r Hr) as Hv. rewrite Ht, Hvocab in Hv. injection Hv as Hv.
        eapply ends_with_bind; [exact Hl|]. intros s4 Hs4. rewrite (surjective_pairing r.1), Hv.
        by apply ends_with_ret.
      * by eapply ends_raise.
    + assert (Hr : reference_run a = Raise e) by (unfold reference_run; by rewrite Ht, Hvocab).
      rewrite Hr. cbn [mbind outcome_bind]. by apply ends_raise, ends_pure.
Qed.

(** The dispatched run, with the vocabulary of the golden run, is the reference too. *)
Lemma dispatched_run_reference a recorded r s : reference_run a = Ret r ->
  ends_with (dispatched_run sv set_linear tiny_trainer trainer make_tiny_model load_model samples
    mse_loss randint cross_entropy a recorded r.1.2) s (Ret r.1.1) (fun w => weights (view w) = r.2).
Proof using Hexact.
  intros Hr. pose proof (reference_vocabulary a r Hr) as Hv.
  assert (Hend : forall m : B state (list float),
    ends_with m s (reference_losses a) (reference_world a) ->
    ends_with (l ← m; install sv set_linear OriginalForward;; mret l) s (Ret r.1.1)
      (fun w => weights (view w) = r.2)).
  { intros m Hm. rewrite Hr in Hm. eapply ends_with_bind; [exact Hm|]. intros s1 Hs1.
    eapply ends_with_bind; [apply ends_install, (Hs1 r eq_refl)|]. intros s2 Hs2. by apply ends_with_ret. }
  apply Hend. clear Hend. destruct (a_tiny a) eqn:Ht.
  - eapply ends_with_bind; [apply ends_outside_exists, (exact_make _ Hexact)|]. intros s1 Hs1.
    eapply ends_with_bind; [apply ends_install, Hs1|]. intros s2 Hs2. by apply (tiny_loop_reference recorded a s2 Ht).
  - eapply ends_with_bind; [apply ends_outside_exists, (exact_load _ Hexact)|]. intros s1 Hs1.
    eapply ends_with_bind; [apply ends_install, Hs1|]. intros s2 Hs2. by apply (full_loop_reference recorded a r.1.2 s2 Ht Hv).
Qed.

(** C33: the native run and the dispatched run both train the reference.  Suppose PyTorch's
    documentation of each call of the training holds whatever [torch.nn.Linear.forward] is
    bound to, with dispatched layers that return (where they do, they are exact), and that a
    model made from a seed or loaded by its name always has the same parameters.  Then the
    golden run is [reference_run]: gradient descent from these parameters, each step on the
    gradient of its own batch only, step [i] on the tokens of seed [seed + i] (on the tiny
    model always on the samples of the seed), the warm-up steps first; it returns its losses
    and vocabulary and leaves its parameters, or raises what it raises.  And from whatever
    process state, with phases recorded or not, the dispatched run returns the same losses
    and leaves the same parameters.  When the losses are finite, whatever the tolerance, the
    verdict on the two runs finds no NaN, no error and a trajectory that tracks: the run passes
    exactly when the last loss is below the first. *)
Theorem exact_dispatch_tracks a s1 s2 recorded :
  match reference_run a with
  | Ret (losses, vocab, v) =>
      (exists s1', golden_run sv set_linear tiny_trainer trainer make_tiny_model load_model samples
                     mse_loss randint cross_entropy a s1 = Some (Ret (losses, vocab), s1')
         /\ weights (view (world s1')) = v) /\
      (exists s2', dispatched_run sv set_linear tiny_trainer trainer make_tiny_model load_model samples
                     mse_loss randint cross_entropy a recorded vocab s2 = Some (Ret losses, s2')
         /\ weights (view (world s2')) = v) /\
      forall rtol d0 d1, pfin rtol -> Forall fin losses -> head losses = Some d0 -> last losses = Some d1 ->
        judge rtol losses losses = Ret (mk_verdict false (flt d1 d0) true fzero) /\
        passes (mk_verdict false (flt d1 d0) true fzero) = flt d1 d0
  | Raise e =>
      exists s1', golden_run sv set_linear tiny_trainer trainer make_tiny_model load_model samples
                    mse_loss randint cross_entropy a s1 = Some (Raise e, s1')
  end.
Proof using Hexact.
  destruct (golden_run_reference a s1) as (s1' & Hg & Hw). unfold golden_result in Hg.
  destruct (reference_run a) as [[[losses vocab] v]|e] eqn:Hr; cbn [mbind outcome_bind fst] in Hg;
    [|by exists s1'].
  split; [exists s1'; split; [exact Hg|by apply (Hw (losses, vocab, v))]|].
  split; [exact (dispatched_run_reference a recorded (losses, vocab, v) s2 Hr)|].
  intros rtol d0 d1 Hp Hl H0 H1. split; [by apply judge_same|].
  unfold passes. cbn. by rewrite andb_true_r.
Qed.
End runs.

(** ** The end of the launcher *)

Lemma fmax_list_some l : l <> [] -> exists x, fmax_list l = Some x.
Proof. destruct l; [done|]. by eexists. Qed.

(** The scale of a loss is never zero. *)
Lemma scale_nonzero g s : scale_of g <> S754_zero s.
Proof.
  unfold scale_of, fmax. destruct (flt (fabs g) (f_lit 1 6)) eqn:Hl.
  - intros Heq. apply (f_equal ftruthy) in Heq. revert Heq. by vm_compute.
  - intros Heq. rewrite Heq in Hl. revert Hl. destruct s; by vm_compute.
Qed.

Lemma relative_error_returns dg : exists q, relative_error dg = Ret q.
Proof.
  unfold relative_error. pose proof (scale_nonzero dg.2) as Hz.
  destruct (scale_of dg.2) as [s| | |]; [by destruct (Hz s)|by eexists..].
Qed.

Lemma mapO_total {A A'} (f : A -> outcome A') l :
  (forall x, exists y, f x = Ret y) -> exists l', mapO f l = Ret l' /\ length l' = length l.
Proof.
  intros Hf. induction l as [|x l (l' & Hl & Hlen)]; [by exists []|].
  destruct (Hf x) as [y Hy]. exists (y :: l'). cbn [mapO]. rewrite Hy, Hl. split; [done|].
  cbn [length]. by f_equal.
Qed.

(** The verdict exists for all losses, once there are any. *)
Lemma judge_returns rtol dispatched golden :
  dispatched <> [] -> golden <> [] -> exists v, judge rtol dispatched golden = Ret v.
Proof.
  intros Hd Hg. unfold judge. destruct (existsb is_nan dispatched); [by eexists|].
  destruct dispatched as [|d ds]; [done|]. destruct golden as [|g gs]; [done|].
  cbn [head of_option mbind outcome_bind].
  destruct (last (d :: ds)) as [d1|] eqn:Hlast; [|by apply last_None in Hlast].
  cbn [of_option mbind outcome_bind].
  destruct (mapO_total relative_error (zip (d :: ds) (g :: gs)) relative_error_returns)
    as (errors & -> & Hlen).
  cbn [mbind outcome_bind]. destruct (fmax_list_some errors) as [x ->]; [by destruct errors|].
  by eexists.
Qed.

Lemma forallb_Forall_true {A} (f : A -> bool) l :
  forallb f l = true <-> Forall (fun x => f x = true) l.
Proof.
  rewrite forallb_forall, Forall_forall. split; intros H x Hx; apply H; by apply list_elem_of_In.
Qed.

(** What a passing verdict means *)
Lemma judged rtol dispatched golden v : judge rtol dispatched golden = Ret v ->
  passes v = true <-> Forall (fun d => is_nan d = false) dispatched /\
    (exists d0 d1, head dispatched = Some d0 /\ last dispatched = Some d1 /\ flt d1 d0 = true) /\
    Forall (fun dg => within rtol dg = true) (zip dispatched golden).
Proof.
  unfold judge. destruct (existsb is_nan dispatched) eqn:Hn.
  { intros [= <-]. split; [done|]. intros [Hall _].
    apply existsb_exists in Hn as (d & Hd%list_elem_of_In & Hnan).
    rewrite Forall_forall in Hall. by rewrite Hall in Hnan. }
  assert (Hall : Forall (fun d => is_nan d = false) dispatched).
  { apply Forall_forall. intros d Hd%list_elem_of_In. apply not_true_iff_false. intros Hnan.
    apply not_true_iff_false in Hn. apply Hn, existsb_exists. by exists d. }
  destruct (head dispatched) as [d0|]; [|done]. destruct (last dispatched) as [d1|]; [|done].
  cbn [of_option mbind outcome_bind]. destruct (mapO _ _) as [errors|]; [|done].
  cbn [mbind outcome_bind]. destruct (fmax_list errors) as [x|]; [|done]. intros [= <-].
  unfold passes. cbn [any_nan decreasing tracks negb andb].
  rewrite andb_true_iff, forallb_Forall_true. split.
  - intros [Hd Ht]. split; [exact Hall|]. split; [by exists d0, d1|exact Ht].
  - intros (_ & (e0 & e1 & [= <-] & [= <-] & Hd) & Ht). by split.
Qed.

Section concluding.
Context {P W Bk : Type} {os : Os P W} {host : Collector.MetricsHost} (sv : Services P W Bk).
Abbreviation state := (process P W Bk).
Context (exited : P -> W -> Prop) `{!OsLaws P W exited}
  (polled_exited : forall p w c, (poll p w).1 = Some c -> exited p (poll p w).2)
  (file_errors : forall n e, Collector.file_call n = Raise e -> exists m, e = OSError m \/ e = ValueError m)
  (stop_returns : forall b w, exists r w', stop_backend sv b w = Some (r, w')).

(** [m] returns and leaves [Q], or a process has outlived its time limit. *)
Definition times_out {A} (m : B W A) (Q : W -> Prop) (w : W) : Prop :=
  exists r w', m w = Some (r, w') /\ (forall p, exited p w -> exited p w') /\
    match r with Ret _ => Q w' | Raise e => is_TimeoutExpired e = true end.

Lemma timed_wait p t w : times_out (Fleet.wait p (Some t);; mret tt) (exited p) w.
Proof.
  unfold times_out, Fleet.wait, mbind, B_bind.
  destruct (timed_wait_returns p t w) as [[[c|] w'] Hw]; rewrite Hw.
  - exists (Ret tt), w'. split; [done|]. split; [|by eapply waited_exited].
    intros q Hq. by eapply exited_wait.
  - exists (Raise (TimeoutExpired "timed out")), w'. split; [done|]. split; [|done].
    intros q Hq. by eapply exited_wait.
Qed.

Lemma end_device_times_out p w : times_out (end_device p) (exited p) w.
Proof.
  unfold end_device, times_out, mbind at 1, B_bind at 1, now.
  pose proof (polled_exited p w) as Hp. pose proof (fun q => exited_poll q p w) as Hk.
  destruct (poll p w) as [[c|] w1]; cbn [fst snd] in *.
  { exists (Ret tt), w1. split; [done|]. split; [done|]. by apply (Hp c). }
  unfold mbind at 1, B_bind at 1, effect at 1, now. set (w2 := terminate p w1).
  assert (Hk2 : forall q, exited q w -> exited q w2) by (intros q Hq; by apply exited_terminate, Hk).
  cbn [snd]. unfold except. destruct (timed_wait p 5 w2) as (r & w3 & -> & Hk3 & Hr).
  destruct r as [[]|e].
  { exists (Ret tt), w3. split; [done|]. split; [auto|done]. }
  rewrite Hr. unfold mbind at 1, B_bind at 1, effect, now. set (w4 := kill p w3).
  destruct (timed_wait p 5 w4) as (r & w5 & Hw5 & Hk5 & Hr5).
  exists r, w5. split; [exact Hw5|]. split; [|exact Hr5].
  intros q Hq. apply Hk5, exited_kill, Hk3, Hk2, Hq.
Qed.

Lemma cleanup_times_out ps w :
  times_out (cleanup_fake_fleet ps) (all_exited exited ps) w /\
  forall l w', cleanup_fake_fleet ps w = Some (Ret l, w') -> l = [].
Proof.
  unfold cleanup_fake_fleet. assert (He : times_out (each ps end_device) (all_exited exited ps) w).
  { revert w. induction ps as [|p ps IH]; intros w; cbn [each].
    { exists (Ret tt), w. split; [done|]. split; [done|]. by intros p ?%elem_of_nil. }
    unfold times_out, mbind at 1, B_bind at 1.
    destruct (end_device_times_out p w) as ([[]|e] & w1 & -> & Hk & Hr).
    2:{ by exists (Raise e), w1. }
    destruct (IH w1) as (r & w2 & -> & Hk2 & Hr2). exists r, w2. split; [done|]. split; [auto|].
    destruct r as [[]|e]; [|done]. intros q [->|Hq]%elem_of_cons; auto. }
  destruct He as (r & w1 & He & Hk & Hr). unfold times_out, mbind, B_bind. rewrite He.
  destruct r as [[]|e].
  - split; [by exists (Ret []), w1|]. by intros l w' [= <- _].
  - split; [by exists (Raise e), w1|done].
Qed.

Lemma end_fleet_ends s : collectors_ok s ->
  exists r s', end_fleet sv s = Some (r, s') /\ collectors_ok s' /\
    match r with
    | Ret _ => fleet s' = [] /\ all_exited exited (fleet s) (world s')
    | Raise e => is_TimeoutExpired e = true /\ fleet s' = fleet s
    end.
Proof using All.
  intros Hok. unfold end_fleet, look, assign, effect, now, mbind, B_bind, outside.
  destruct (cleanup_times_out (fleet s) (world s)) as [(r & w & Hc & Hk & Hr) Hl]. rewrite Hc.
  pose proof (set_world_ok sv w s Hok) as Hok'. destruct r as [ps|e].
  - rewrite (Hl ps w Hc). eexists _, _. split; [done|]. by split.
  - eexists _, _. split; [done|]. by split.
Qed.

Lemma stop_quietly_returns b s : collectors_ok s ->
  exists s', stop_quietly sv b s = Some (Ret tt, s') /\ collectors_ok s' /\ fleet s' = fleet s.
Proof using stop_returns.
  intros Hok. unfold stop_quietly. destruct (stoppable sv b); [|by exists s].
  unfold except, outside. destruct (stop_returns b (world s)) as ([[]|e] & w & ->);
    exists (set_world sv w s); (split; [done|]); (split; [by apply set_world_ok|done]).
Qed.

(** The launcher's verdict and its clean-up.  With at least one loss on each side, the end
    of the launcher never blocks.  Either it exits, with status zero exactly when no dispatched
    loss is NaN, the last one is below the first and each is within the tolerance of the
    golden one; then every device has ended, the collector's thread has ended and its file is
    closed, even if stopping the emulator raises.  Or a device that was killed outlived its
    time limit: then the launcher raises before the verdict is told. *)
Theorem single_run_concludes rtol b golden dispatched s :
  collectors_ok s -> dispatched <> [] -> golden <> [] ->
  exists v r s', judge rtol dispatched golden = Ret v /\
    conclude sv rtol b golden dispatched s = Some (r, s') /\
    match r with
    | Ret status =>
        (status = 0 \/ status = 1) /\
        (status = 0 <-> Forall (fun d => is_nan d = false) dispatched /\
           (exists d0 d1, head dispatched = Some d0 /\ last dispatched = Some d1 /\ flt d1 d0 = true) /\
           Forall (fun dg => within rtol dg = true) (zip dispatched golden)) /\
        fleet s' = [] /\ all_exited exited (fleet s) (world s') /\ all_stopped s'
    | Raise e => is_TimeoutExpired e = true /\ fleet s' = fleet s
    end.
Proof using All.
  intros Hok Hd Hg. destruct (judge_returns rtol dispatched golden Hd Hg) as [v Hv].
  exists v. unfold conclude, mbind at 1, B_bind at 1, pure at 1. rewrite Hv.
  destruct (stop_quietly_returns b s Hok) as (s1 & Hs1 & Hok1 & Hf1).
  unfold mbind at 1, B_bind at 1. rewrite Hs1.
  destruct (end_fleet_ends s1 Hok1) as (r & s2 & He & Hok2 & Hr).
  unfold mbind at 1, B_bind at 1. rewrite He. rewrite Hf1 in Hr.
  destruct r as [u|e]; [|by exists (Raise e), s2].
  destruct (stop_collector_stops file_errors s2 Hok2) as (s3 & Hs3 & Hst & Hw & Hf & _).
  unfold mbind at 1, B_bind at 1. rewrite Hs3. exists (Ret (if passes v then 0 else 1)), s3.
  split; [done|]. split; [done|]. split; [destruct (passes v); auto|].
  split; [|destruct Hr as [Hfl Hr]; by rewrite Hf, Hw].
  rewrite <- (judged rtol dispatched golden v Hv). by destruct (passes v).
Qed.
End concluding.

(** ** A run

    The wide layer stays native, the narrow one is dispatched. *)
#[local] Existing Instance Hooks.mat_tensor.
#[local] Existing Instance Hooks.eager_backend.
#[local] Existing Instance Hooks.eager_contract.
#[local] Existing Instance Hooks.mat_laws.
#[local] Existing Instance Hooks.demo_clock.
#[local] Existing Instance TorchBackend.demo_cuda.

Definition demo_linear (self : Linear Hooks.mat) (inp : Hooks.mat) : outcome Hooks.mat :=
  c ← Hooks.matmul inp (Hooks.transpose (weight self)); Hooks.with_bias c (bias self).
Definition demo_layer (n : Z) : Linear Hooks.mat := mk_Linear Hooks.demo_w None 2 n.

Lemma restricted_layer_exact_witness :
  Hooks.holding [] Hooks.plain_hooks /\
  match restricted_linear_forward demo_linear (demo_layer 2) Hooks.demo_x Hooks.plain_hooks with
  | (Ret r, b') => Hooks.mat_equal r (Hooks.of_lists 2 2 [[2; 19]; [4; 43]]) = true
  | (Raise _, _) => False
  end.
Proof.
  split; [exact Hooks.plain_holding|].
  epose proof (restricted_layer_exact demo_linear (fun _ _ => eq_refl) (demo_layer 2) Hooks.demo_x _ []
    Hooks.plain_hooks Hooks.plain_holding eq_refl eq_refl) as H.
  destruct (restricted_linear_forward _ _ _ _) as [[r|e] b'].
  - destruct H as [-> _]. vm_compute. reflexivity.
  - destruct H as [_ H]. discriminate H.
Defined.

(** A model of one parameter, its own loss, whose gradient is one; the optimizer subtracts the
    gradient and counts its steps. *)
Definition toy_learner {Out} (predicted : Z -> Out) : Learner Z nat Z Z Out Z := {|
  predict := fun _ v _ => predicted v;
  gradient := fun _ => 1;
  no_gradient := 0;
  add_gradient := Z.add;
  fresh_optimizer := fun _ => 0%nat;
  update := fun g v o => (v - g, Datatypes.S o);
|}.

(** A world with such a model, and what [torch.nn.Linear.forward] is bound to *)
Record toy : Type := mk_toy { toy_training : training Z nat Z; bound : linear_forward }.
Definition on_toy (f : training Z nat Z -> training Z nat Z) (w : toy) : toy :=
  mk_toy (f (toy_training w)) (bound w).
Definition toy_trainer {Out} (predicted : Z -> Out) : Trainer toy Z Out Z := {|
  begin_training := fun mode _ => effect (on_toy (fun t => mk_training mode (weights t) 0%nat (gradients t)));
  zero_grad := effect (on_toy (fun t => mk_training (training_mode t) (weights t) (optimizer t) 0));
  model_call := fun _ => now (fun w => (predicted (weights (toy_training w)), w));
  backward := fun _ => effect (on_toy (fun t =>
    mk_training (training_mode t) (weights t) (optimizer t) (gradients t + 1)));
  loss_item := f_of_Z;
  optimizer_step := effect (on_toy (fun t =>
    mk_training (training_mode t) (weights t - gradients t) (Datatypes.S (optimizer t)) (gradients t)));
|}.
Definition toy_weights (v : Z) : toy -> toy :=
  on_toy (fun t => mk_training (training_mode t) v (optimizer t) (gradients t)).

#[local] Instance toy_os : Os nat toy := {|
  popen := fun _ _ _ w => (Raise (RuntimeError "no process"), w);
  poll := fun _ w => (Some 0, w);
  terminate := fun _ w => w;
  kill := fun _ w => w;
  os_wait := fun _ _ w => Some (Some 0, w);
  killpg := fun _ _ w => (Ret tt, w);
|}.
Definition toy_services : Services nat toy unit := {|
  perf_counter := fun w => f_of_Z (weights (toy_training w));
  wall_clock := fun _ => fzero;
  turns := fun _ => 1%nat;
  init_process_group := fun _ _ _ => mret tt;
  is_initialized := fun _ => false;
  destroy_process_group := mret tt;
  barrier := mret tt;
  read_template := mret "";
  write_text := fun _ _ => mret tt;
  Process.start_backend := fun _ _ => mret tt;
  counts_connections := fun _ => true;
  connection_count := fun _ w => (Ret 0, w);
  stoppable := fun _ => true;
  stop_backend := fun _ => mret tt;
  time := fun w => (fzero, w);
  sleep := fun _ w => w;
  cuda_device_count := 0;
  client_config := "config/proxy/cli.ini";
  write_json := fun _ _ => mret tt;
  run_workload := fun _ _ _ => None;
|}.

Definition toy_output (v : Z) : outputs Z unit := mk_outputs (Some v) false None.
Definition toy_args : Args :=
  mk_Args 2 "toy" 2 1 42 1 8 "proxy" 128 None "" (f_lit 5 2) false (Cli.mk_args None (f_of_Z 1) None).
Definition toy_set (f : linear_forward) (w : toy) : toy := mk_toy (toy_training w) f.
Definition toy_vocabularies (_ : string) : option json * option json := (None, Some (JInt 100)).
Definition toy_state (v : Z) : process nat toy unit :=
  initial (mk_toy (mk_training true v 7%nat 5) RestrictedForward).

Lemma toy_implements {Out} (predicted : Z -> Out) :
  implements toy_training (toy_learner predicted) (toy_trainer predicted).
Proof. by split; intros; try (eexists; split; reflexivity). Qed.

Lemma toy_exact : exact_calls toy_set (toy_trainer id) (toy_trainer toy_output)
  (fun sd => effect (toy_weights sd)) (fun name => now (fun w => (toy_vocabularies name, toy_weights 4 w)))
  (toy_learner id) (toy_learner toy_output) id (fun _ => 4) toy_vocabularies toy_training.
Proof.
  split; [apply toy_implements|apply toy_implements|done|..];
    intros; (eexists; split; [reflexivity|done]).
Qed.

Lemma demo_finite : Forall fin [f_of_Z 4; f_of_Z 3; f_of_Z 2].
Proof. repeat constructor; by vm_compute. Qed.

Lemma demo_rtol : pfin (f_lit 5 2).
Proof. apply pfinb_pfin. vm_compute. reflexivity. Qed.

(** Both runs, from different states, lower the loss from four to two. *)
Lemma exact_dispatch_tracks_witness :
  let losses := [f_of_Z 4; f_of_Z 3; f_of_Z 2] in
  (exists s2', dispatched_run (host := Collector.demo_host) toy_services toy_set (toy_trainer id)
     (toy_trainer toy_output) (fun sd => effect (toy_weights sd))
     (fun name => now (fun w => (toy_vocabularies name, toy_weights 4 w))) (fun sd => (sd, 0))
     (fun _ _ => Raise (RuntimeError "unused")) (fun spec => Ret (seed spec))
     (fun _ _ => Raise (RuntimeError "unused")) toy_args true 100 (toy_state 9)
     = Some (Ret losses, s2') /\ weights (toy_training (world s2')) = 1) /\
  judge (f_lit 5 2) losses losses = Ret (mk_verdict false true true fzero).
Proof.
  destruct (exact_dispatch_tracks (host := Collector.demo_host) toy_services toy_set (toy_trainer id)
    (toy_trainer toy_output) (fun sd => effect (toy_weights sd))
    (fun name => now (fun w => (toy_vocabularies name, toy_weights 4 w))) (fun sd => (sd, 0))
    (fun _ _ => Raise (RuntimeError "unused")) (fun spec => Ret (seed spec))
    (fun _ _ => Raise (RuntimeError "unused")) (toy_learner id) (toy_learner toy_output) id
    (fun _ => 4) toy_vocabularies toy_training toy_exact toy_args (toy_state 3) (toy_state 9) true)
    as (_ & Hd & Hj).
  split; [exact Hd|].
  destruct (Hj (f_lit 5 2) (f_of_Z 4) (f_of_Z 2) demo_rtol demo_finite eq_refl eq_refl) as [Hv _].
  etransitivity; [exact Hv|vm_compute; reflexivity].
Defined.

Definition demo_fleet : process nat machine unit := initial (mk_machine [Fleet.mk_process [] true false 0] 4).
Definition demo_running : process nat machine unit := set_fleet [0%nat] demo_fleet.

Lemma demo_polled (p : nat) (w : machine) c : (poll p w).1 = Some c -> ended p (poll p w).2.
Proof. unfold ended. cbn. by destruct (alive_at p w). Qed.
Lemma demo_files n e : Collector.file_call (MetricsHost := Collector.demo_host) n = Raise e ->
  exists m, e = OSError m \/ e = ValueError m.
Proof. cbn. by repeat (destruct n as [|n]; [naive_solver|]). Qed.
Lemma demo_stop (b : unit) (w : machine) : exists r w', stop_backend demo_services b w = Some (r, w').
Proof. by exists (Raise (RuntimeError "still busy")), w. Qed.

(** The end of a run whose emulator refuses to stop *)
Lemma single_run_concludes_witness :
  exists r s', conclude (host := Collector.demo_host) demo_services (f_lit 5 2) tt
                 [f_of_Z 4; f_of_Z 3] [f_of_Z 4; f_of_Z 3] demo_running = Some (r, s') /\
    match r with
    | Ret status => status = 0 /\ fleet s' = [] /\ all_exited ended [0%nat] (world s')
    | Raise e => is_TimeoutExpired e = true
    end.
Proof.
  destruct (single_run_concludes (host := Collector.demo_host) demo_services ended demo_polled demo_files
              demo_stop (f_lit 5 2) tt [f_of_Z 4; f_of_Z 3] [f_of_Z 4; f_of_Z 3] demo_running
              ltac:(discriminate) ltac:(discriminate) ltac:(discriminate))
    as (v & r & s' & _ & Hr & Hs).
  exists r, s'. split; [exact Hr|]. destruct r as [status|e]; [|apply Hs].
  destruct Hs as (_ & [_ Hp] & Hf & He & _). split; [apply Hp|by split].
  split; [by repeat constructor|]. split; [by eexists _, _|]. by repeat constructor.
Defined.

(** An infinite golden loss is tracked by every finite loss. *)
Example infinite_golden_tracked :
  judge (f_lit 5 2) [f_of_Z 4; f_of_Z 3] [finf; finf] = Ret (mk_verdict false true true fnan).
Proof. vm_compute. reflexivity. Qed.
