(* ===== verification/MixedDevices.v ===== *)
(** * Fake and real devices ([scripts/run_mixed_devices.py])

    A fake device answers tasks over a socket without computing them: a task is an eight
    byte length and that many bytes, and so is an answer.  The launcher starts such devices,
    waits until enough devices are connected and runs a model.  Sockets, threads, random
    tensors and the backend are parameters; printed lines are left out, but for the command
    that a user is told to run. *)

From S2P Require Import Prelude PyStr PyFloat FloatOrder Fleet.
From coqutil Require Word.LittleEndianList.
Import LittleEndianList.

Definition bytes : Type := list Init.Byte.byte.

(** ** [struct.pack("Q", n)] and [struct.unpack("Q", b)[0]] *)

(** ["Q"] has the byte order of the machine. *)
Definition in_native_order (big_endian : bool) (b : bytes) : bytes :=
  if big_endian then rev b else b.

Definition pack_Q (big_endian : bool) (n : Z) : outcome bytes :=
  if (0 <=? n) && (n <? 2 ^ 64) then Ret (in_native_order big_endian (le_split 8 n))
  else Raise (StructError "argument out of range").

Definition unpack_Q (big_endian : bool) (b : bytes) : outcome Z :=
  if Nat.eqb (length b) 8 then Ret (le_combine (in_native_order big_endian b))
  else Raise (StructError "unpack requires a buffer of 8 bytes").

(** ** A fake device *)

(** Stream sockets of a world [W], with handles [S], and random tensors [Tn]; a call that never
    returns is [None]. *)
Class Sockets (S W Tn : Type) : Type := {
  new_socket : W -> outcome S * W;                      (** [socket.socket(AF_INET, SOCK_STREAM)] *)
  socket_connect : S -> string -> Z -> B W unit;
  recv : S -> Z -> B W bytes;
  sendall : S -> bytes -> B W unit;
  close : S -> B W unit;
  randn : B W Tn;                                       (** [torch.randn(512, 512)] *)
  tobytes : Tn -> outcome bytes;                        (** [numpy().tobytes()] *)
}.

Record FakeDevice (S T : Type) : Type := mk_FakeDevice {
  device_id : Z;
  host : string;
  port : Z;
  socket : option S;
  running : bool;
  thread : option T;
}.
Arguments mk_FakeDevice {S T}. Arguments device_id {S T}. Arguments host {S T}.
Arguments port {S T}. Arguments socket {S T}. Arguments running {S T}. Arguments thread {S T}.

Section device.
Context {S T W Tn : Type} {net : Sockets S W Tn} (big_endian : bool).
Abbreviation device := (FakeDevice S T).
(** A device and the world it runs in *)
Abbreviation state := (device * W)%type.

Definition new_device (id : Z) (host : string) (port : Z) : device :=
  mk_FakeDevice id host port None false None.
Definition set_socket (s : S) (d : device) : device :=
  mk_FakeDevice (device_id d) (host d) (port d) (Some s) (running d) (thread d).
Definition set_running (b : bool) (d : device) : device :=
  mk_FakeDevice (device_id d) (host d) (port d) (socket d) b (thread d).
Definition set_thread (t : T) (d : device) : device :=
  mk_FakeDevice (device_id d) (host d) (port d) (socket d) (running d) (Some t).

Definition world {A} (m : B W A) : B state A := fun s =>
  match m s.2 with Some (r, w) => Some (r, (s.1, w)) | None => None end.
Definition on_device (f : device -> device) : B state unit := effect (fun s => (f s.1, s.2)).
Definition get {A} (f : device -> A) : B state A := fun s => Some (Ret (f s.1), s).

(** [except Exception] *)
Definition any_exception (_ : exn) : bool := true.

Definition connect : B state bool :=
  except
    (sock ← world (calling new_socket);
     on_device (set_socket sock);;
     h ← get host; p ← get port;
     world (socket_connect sock h p);;
     mret true)
    any_exception (mret false).

(** The task is not looked at. *)
Definition handle_task (task_data : bytes) : B state (option Tn) :=
  except (r ← world randn; mret (Some r)) any_exception (mret None).

(** The loop that receives a task; it ends early when the connection does.  [None] also when
    the fuel runs out *)
Fixpoint receive (fuel : nat) (sock : S) (task_size : Z) (task_data : bytes) : B W bytes :=
  match fuel with
  | O => fun _ => None
  | Datatypes.S fuel =>
      if Z.of_nat (length task_data) <? task_size then
        chunk ← recv sock (Z.min (task_size - Z.of_nat (length task_data)) 4096);
        match chunk with
        | [] => mret task_data
        | _ :: _ => receive fuel sock task_size (task_data ++ chunk)
        end
      else mret task_data
  end.

Definition send_result (sock : S) (result_bytes : bytes) : B state unit :=
  head ← lifted (pack_Q big_endian (Z.of_nat (length result_bytes)));
  world (sendall sock head);;
  world (sendall sock result_bytes).

(** One turn of the loop of [run]; whether to go on *)
Definition run_turn (fuel : nat) : B state bool :=
  except
    (o ← get socket;
     match o with
     | None => mret false
     | Some sock =>
         size_data ← world (recv sock 8);
         match size_data with
         | [] => mret false
         | _ :: _ =>
             task_size ← lifted (unpack_Q big_endian size_data);
             task_data ← world (receive fuel sock task_size []);
             result ← handle_task task_data;
             (match result with
              | Some r => result_bytes ← lifted (tobytes r); send_result sock result_bytes
              | None => mret tt
              end);;
             mret true
         end
     end)
    any_exception (mret false).

(** [None] when a call never returns, or the fuel runs out *)
Fixpoint run_loop (turns fuel : nat) : B state unit :=
  match turns with
  | O => fun _ => None
  | Datatypes.S turns =>
      r ← get running;
      if r : bool then
        go_on ← run_turn fuel;
        if go_on : bool then run_loop turns fuel else mret tt
      else mret tt
  end.

Definition run (turns fuel : nat) : B state unit :=
  on_device (set_running true);; run_loop turns fuel.

(** [start_thread] starts the thread of [run]. *)
Context (start_thread : device -> B W T) (join : T -> Z -> B W unit).

Definition start : B state bool :=
  connected ← connect;
  if connected : bool then
    d ← get id;
    t ← world (start_thread d);
    on_device (set_thread t);;
    mret true
  else mret false.

Definition stop : B state unit :=
  on_device (set_running false);;
  o ← get socket;
  (match o with
   | Some sock => except (world (close sock)) any_exception (mret tt)
   | None => mret tt
   end);;
  t ← get thread;
  match t with Some t => world (join t 5) | None => mret tt end.
End device.

(** ** A connection

    What the server has sent arrives in segments, cut anywhere; a call of [recv] gives a
    prefix of the next segment.  After the last segment the server has closed its side. *)
Record conn : Type := mk_conn {
  incoming : list bytes;
  outgoing : bytes;
  draws : nat;
}.

(** What is left after [n] bytes *)
Fixpoint skip (n : nat) (segments : list bytes) : list bytes :=
  match segments with
  | [] => []
  | s :: rest => if (length s <=? n)%nat then skip (n - length s) rest else drop n s :: rest
  end.

Section stream.
(** The bytes of the tensors drawn, or the exception of a draw *)
Context (results : nat -> outcome bytes).

#[export] Instance stream : Sockets unit conn bytes := {
  new_socket c := (Ret tt, c);
  socket_connect _ _ _ c := Some (Ret tt, c);
  recv _ n c :=
    match incoming c with
    | [] => Some (Ret [], c)
    | s :: rest =>
        Some (Ret (take (Z.to_nat n) s),
              mk_conn (skip (Nat.min (Z.to_nat n) (length s)) (s :: rest)) (outgoing c) (draws c))
    end;
  sendall _ b c := Some (Ret tt, mk_conn (incoming c) (outgoing c ++ b) (draws c));
  close _ c := Some (Ret tt, c);
  randn c := Some (results (draws c), mk_conn (incoming c) (outgoing c) (Datatypes.S (draws c)));
  tobytes b := Ret b;
}.
End stream.

(** A task or an answer as it is sent *)
Definition frame (big_endian : bool) (payload : bytes) : bytes :=
  in_native_order big_endian (le_split 8 (Z.of_nat (length payload))) ++ payload.

(** The answer made of a draw: none when the draw raises *)
Definition answer (big_endian : bool) (r : outcome bytes) : bytes :=
  match r with Ret b => frame big_endian b | Raise _ => [] end.

(** No segment ends inside the length of a task: the lengths of the payloads are [sizes]. *)
Fixpoint lengths_whole (segments : list bytes) (sizes : list nat) : bool :=
  match sizes with
  | [] => true
  | n :: sizes =>
      (8 <=? length (default [] (head segments)))%nat && lengths_whole (skip (8 + n) segments) sizes
  end.

(** A payload whose length can be packed *)
Definition packable (b : bytes) : Prop := Z.of_nat (length b) < 2 ^ 64.

(** *** Lengths *)

Lemma length_native big_endian b : length (in_native_order big_endian b) = length b.
Proof. destruct big_endian; [apply length_rev|done]. Qed.

Lemma unpack_pack_Q big_endian n : 0 <= n < 2 ^ 64 ->
  exists b, pack_Q big_endian n = Ret b /\ b = in_native_order big_endian (le_split 8 n)
    /\ length b = 8%nat /\ unpack_Q big_endian b = Ret n.
Proof.
  intros Hn. exists (in_native_order big_endian (le_split 8 n)). unfold pack_Q, unpack_Q.
  rewrite (proj2 (Z.leb_le 0 n)), (proj2 (Z.ltb_lt n (2 ^ 64))) by lia.
  rewrite length_native, length_le_split. split; [done|]. split; [done|]. split; [done|].
  assert (in_native_order big_endian (in_native_order big_endian (le_split 8 n)) = le_split 8 n) as ->.
  { destruct big_endian; [apply rev_involutive|done]. }
  rewrite le_combine_split. cbn [Nat.eqb]. f_equal. apply Z.mod_small. exact Hn.
Qed.

Lemma length_frame big_endian t : length (frame big_endian t) = (8 + length t)%nat.
Proof. unfold frame. by rewrite length_app, length_native, length_le_split. Qed.

(** *** Segments *)

Lemma skip_zero segs : Forall (fun s : bytes => s <> []) segs -> skip 0 segs = segs.
Proof.
  destruct 1 as [|s segs Hs _]; [done|]. cbn [skip]. destruct s as [|b s]; [done|]. done.
Qed.

Lemma skip_nonempty n segs :
  Forall (fun s : bytes => s <> []) segs -> Forall (fun s : bytes => s <> []) (skip n segs).
Proof.
  intros Hs. revert n. induction Hs as [|s segs Hs Hss IH]; intros n; cbn [skip]; [done|].
  destruct (Nat.leb_spec (length s) n) as [Hle|Hlt]; [apply IH|]. constructor; [|done].
  intros Hd. apply (f_equal length) in Hd. rewrite length_drop in Hd. cbn in Hd. lia.
Qed.

Lemma concat_skip n segs : concat (skip n segs) = drop n (concat segs).
Proof.
  revert n. induction segs as [|s segs IH]; intros n; cbn [skip concat]; [by rewrite drop_nil|].
  destruct (Nat.leb_spec (length s) n) as [Hle|Hlt].
  - rewrite IH, drop_app_ge by done. done.
  - cbn [concat]. rewrite drop_app_le by lia. done.
Qed.

Lemma skip_skip a b segs : Forall (fun s : bytes => s <> []) segs ->
  skip b (skip a segs) = skip (a + b) segs.
Proof.
  intros Hs. revert a b. induction Hs as [|s segs Hs Hss IH]; intros a b; [done|]. cbn [skip].
  destruct (Nat.leb_spec (length s) a) as [Hle|Hlt].
  - rewrite IH. destruct (Nat.leb_spec (length s) (a + b)) as [|?]; [|lia].
    f_equal. lia.
  - cbn [skip]. rewrite length_drop.
    destruct (Nat.leb_spec (length s - a) b), (Nat.leb_spec (length s) (a + b)); try lia.
    + f_equal. lia.
    + by rewrite drop_drop.
Qed.

Section answering.
Context {T : Type} (big_endian : bool) (results : nat -> outcome bytes)
  (results_packable : forall n b, results n = Ret b -> packable b).
#[local] Existing Instance stream.
Abbreviation nonempty := (Forall (fun s : bytes => s <> [])).

(** Receiving [n] more bytes *)
Lemma receive_stream fuel n size acc c :
  nonempty (incoming c) -> (n <= length (concat (incoming c)))%nat -> (n < fuel)%nat ->
  size = Z.of_nat (length acc + n) ->
  receive (net := stream results) fuel tt size acc c
    = Some (Ret (acc ++ take n (concat (incoming c))), mk_conn (skip n (incoming c)) (outgoing c) (draws c)).
Proof.
  revert n acc c. induction fuel as [|fuel IH]; intros n acc c Hne Hn Hf ->; [lia|].
  cbn [receive]. destruct (Z.ltb_spec (Z.of_nat (length acc)) (Z.of_nat (length acc + n))) as [Hlt|Hge].
  2:{ assert (n = 0%nat) as -> by lia. rewrite skip_zero by done. cbn [take]. rewrite app_nil_r. by destruct c. }
  replace (Z.min _ 4096) with (Z.of_nat (Nat.min n 4096)) by lia.
  unfold mbind at 1, B_bind at 1. cbn [recv stream]. destruct (incoming c) as [|s rest] eqn:Hi; [cbn in Hn; lia|].
  rewrite Nat2Z.id. set (m := Nat.min (Nat.min n 4096) (length s)).
  assert (Hs : (0 < length s)%nat) by (apply Forall_cons in Hne as [Hs _]; destruct s; [done|cbn; lia]).
  assert (Hchunk : take (Nat.min n 4096) s = take m (concat (s :: rest))).
  { cbn [concat]. rewrite take_app_le by lia. unfold m. destruct (Nat.le_ge_cases (Nat.min n 4096) (length s)).
    - by rewrite (Nat.min_l _ (length s)).
    - rewrite (Nat.min_r _ (length s)) by done. by rewrite !take_ge by lia. }
  assert (Hlen : length (take m (concat (s :: rest))) = m) by (rewrite length_take; lia).
  rewrite Hchunk. destruct (take m (concat (s :: rest))) as [|b chunk] eqn:Hc; [cbn in Hlen; lia|].
  rewrite <- Hc in *. clear Hc. rewrite (IH (n - m)%nat); cbn [incoming outgoing draws].
  - rewrite concat_skip, skip_skip, <- app_assoc, take_take_drop by done.
    by replace (m + (n - m))%nat with n by lia.
  - by apply skip_nonempty.
  - rewrite concat_skip, length_drop. lia.
  - lia.
  - rewrite length_app, Hlen. lia.
Qed.

Lemma lifted_bind {A A'} (o : outcome A) (f : A -> B (FakeDevice unit T * conn) A') s :
  (x ← lifted o; f x) s = match o with Ret a => f a s | Raise e => Some (Raise e, s) end.
Proof. unfold lifted, mbind, B_bind. by destruct o. Qed.

Lemma world_bind {A A'} (m : B conn A) (f : A -> B (FakeDevice unit T * conn) A') d c :
  (x ← world m; f x) (d, c)
  = match m c with
    | Some (Ret a, c') => f a (d, c')
    | Some (Raise e, c') => Some (Raise e, (d, c'))
    | None => None
    end.
Proof. unfold world, mbind, B_bind. cbn [snd fst]. by destruct (m c) as [[[a|e] c']|]. Qed.

Lemma send_result_sends r d c : packable r ->
  (send_result (T := T) (net := stream results) big_endian tt r;; mret true) (d, c)
  = Some (Ret true, (d, mk_conn (incoming c) (outgoing c ++ frame big_endian r) (draws c))).
Proof.
  intros Hp. destruct (unpack_pack_Q big_endian (Z.of_nat (length r)) ltac:(unfold packable in Hp; lia))
    as (head & Hpk & Hh & _).
  unfold send_result, lifted, mbind, B_bind. rewrite Hpk. unfold world. cbn [snd fst sendall stream incoming outgoing draws].
  unfold mret, B_ret, frame. by rewrite <- Hh, <- app_assoc.
Qed.

(** One task, wherever its payload is cut *)
Lemma turn_answers fuel (d : FakeDevice unit T) c task more :
  socket d = Some tt -> nonempty (incoming c) ->
  (8 <= length (default [] (head (incoming c))))%nat ->
  concat (incoming c) = frame big_endian task ++ more -> packable task -> (length task < fuel)%nat ->
  run_turn (net := stream results) big_endian fuel (d, c)
    = Some (Ret true, (d, mk_conn (skip (8 + length task) (incoming c))
                            (outgoing c ++ answer big_endian (results (draws c))) (Datatypes.S (draws c)))).
Proof.
  intros Hd Hne H8 Hin Hp Hf. unfold run_turn, except.
  unfold get at 1, mbind at 1, B_bind at 1. cbn [fst]. rewrite Hd, world_bind.
  cbn [recv stream]. destruct (incoming c) as [|s rest] eqn:Hi; [cbn in H8; lia|]. cbn [head default] in H8.
  change (Z.to_nat 8) with 8%nat. rewrite (Nat.min_l 8 (length s)) by exact H8.
  destruct (unpack_pack_Q big_endian (Z.of_nat (length task)) ltac:(unfold packable in Hp; lia))
    as (hdr & _ & Hh & Hl & Hu).
  assert (Hs : take 8 s = hdr).
  { apply (f_equal (take 8)) in Hin. cbn [concat] in Hin. rewrite take_app_le in Hin by done. rewrite Hin.
    unfold frame. rewrite <- Hh, <- app_assoc. by rewrite <- Hl, take_app_length. }
  rewrite Hs. destruct hdr as [|h0 hdr'] eqn:Hh0; [done|]. rewrite <- Hh0 in *.
  rewrite lifted_bind, Hu, world_bind.
  assert (Hrest : concat (skip 8 (s :: rest)) = task ++ more).
  { rewrite concat_skip, Hin. unfold frame. rewrite <- Hh, <- app_assoc. by rewrite <- Hl, drop_app_length. }
  rewrite (receive_stream fuel (length task)); cbn [incoming outgoing draws];
    [|by apply skip_nonempty|rewrite Hrest, length_app; lia|done|done].
  rewrite skip_skip by done. unfold mbind at 1, B_bind at 1, handle_task at 1, except at 1.
  rewrite world_bind. cbn [randn tobytes stream incoming outgoing draws].
  destruct (results (draws c)) as [r|e] eqn:Hr; cbn [answer any_exception]; unfold mret at 1, B_ret at 1.
  - by rewrite (send_result_sends r d) by by eapply results_packable.
  - unfold mret, B_ret, mbind, B_bind. by rewrite app_nil_r.
Qed.

Lemma loop_answers tasks : forall turns fuel (d : FakeDevice unit T) c,
  socket d = Some tt -> running d = true -> nonempty (incoming c) ->
  concat (incoming c) = concat (map (frame big_endian) tasks) ->
  lengths_whole (incoming c) (map length tasks) = true -> Forall packable tasks ->
  Forall (fun t => (length t < fuel)%nat) tasks -> (length tasks < turns)%nat ->
  run_loop (net := stream results) big_endian turns fuel (d, c)
    = Some (Ret tt, (d, mk_conn []
        (outgoing c ++ concat (map (fun n => answer big_endian (results n)) (seq (draws c) (length tasks))))
        (draws c + length tasks))).
Proof.
  induction tasks as [|t tasks IH]; intros turns fuel d c Hd Hr Hne Hin Hw Hp Hf Ht.
  all: destruct turns as [|turns]; [cbn in Ht; lia|]; cbn [run_loop].
  all: unfold get at 1, mbind at 1, B_bind at 1; cbn [fst]; rewrite Hr.
  - destruct c as [segs out n]. cbn [incoming outgoing draws] in *.
    assert (segs = []) as ->.
    { destruct Hne as [|s segs Hs]; [done|]. by destruct s. }
    unfold run_turn, except, get at 1, mbind at 1, B_bind at 1, mbind at 1, B_bind at 1.
    cbn [fst]. rewrite Hd, world_bind. cbn. by rewrite app_nil_r, Nat.add_0_r.
  - cbn [map concat lengths_whole] in *. apply andb_true_iff in Hw as [H8%Nat.leb_le Hw].
    apply Forall_cons in Hp as [Hpt Hp], Hf as [Hft Hf].
    unfold mbind at 1, B_bind at 1. rewrite (turn_answers fuel d c t _ Hd Hne H8 Hin Hpt Hft).
    rewrite IH; cbn [incoming outgoing draws]; try done.
    + cbn [length seq map concat]. rewrite <- app_assoc. do 4 f_equal. lia.
    + by apply skip_nonempty.
    + by rewrite concat_skip, Hin, <- (length_frame big_endian), drop_app_length.
    + cbn in Ht. lia.
Qed.

(** C34: a fake device answers every task once, in order.  However the tasks are cut into
    segments, if no segment ends inside the eight bytes of a length, the device returns when
    the server closes the connection, having read all of it, and has sent one frame per task,
    made of the draw for that task, which the server reads back with its length; a task whose
    draw raises is not answered.  The bytes of a tensor that was drawn are taken to be read
    without an exception. *)
Theorem fake_device_answers tasks turns fuel (d : FakeDevice unit T) c :
  socket d = Some tt -> nonempty (incoming c) ->
  concat (incoming c) = concat (map (frame big_endian) tasks) ->
  lengths_whole (incoming c) (map length tasks) = true -> Forall packable tasks ->
  Forall (fun t => (length t < fuel)%nat) tasks -> (length tasks < turns)%nat ->
  run (net := stream results) big_endian turns fuel (d, c)
    = Some (Ret tt, (set_running true d, mk_conn []
        (outgoing c ++ concat (map (fun n => answer big_endian (results n)) (seq (draws c) (length tasks))))
        (draws c + length tasks)))
  /\ forall n b, results n = Ret b ->
       exists hdr, answer big_endian (results n) = hdr ++ b /\ length hdr = 8%nat /\
         unpack_Q big_endian hdr = Ret (Z.of_nat (length b)).
Proof.
  intros Hd Hne Hin Hw Hp Hf Ht. split.
  - unfold run, on_device, effect, now, mbind, B_bind. cbn [fst snd]. by apply loop_answers.
  - intros n b Hb. pose proof (results_packable n b Hb) as Hpb. rewrite Hb.
    destruct (unpack_pack_Q big_endian (Z.of_nat (length b)) ltac:(unfold packable in Hpb; lia))
      as (hdr & _ & -> & Hl & Hu).
    by exists (in_native_order big_endian (le_split 8 (Z.of_nat (length b)))).
Qed.
End answering.

(** ** The launcher *)

Record Args : Type := mk_Args {
  num_devices : Z;
  num_fake_devices : Z;
  fake_device_host : string;
  fake_device_port : Z;
  backend : string;
  block_size : Z;
  cfg : option string;
  model_name : string;
  batch_size : Z;
  seq_length : Z;
  device_flops : float;
  device_mem : Z;
  ul_bw : float;
  dl_bw : float;
  ul_lat : float;
  dl_lat : float;
}.

(** The command a user is told to run; [float_text] is [str] of a float, [default_cfg] the
    path of [config/proxy/cli.ini]. *)
Definition print_real_device_command (float_text : float -> string) (default_cfg : string)
    (device_id : Z) (a : Args) : outcome string :=
  flops ← int_of_float (device_flops a);
  ul ← int_of_float (ul_bw a);
  dl ← int_of_float (dl_bw a);
  let cfg_path := match cfg a with Some s => if is_empty s then default_cfg else s | None => default_cfg end in
  Ret (join " " ["morphling_device"; "--id"; str_of_Z device_id; "--flops"; str_of_Z flops; "--memory";
                 str_of_Z (device_mem a) +:+ "G"; "--ul_bw"; str_of_Z ul +:+ "M"; "--dl_bw";
                 str_of_Z dl +:+ "M"; "--ul_lat"; float_text (ul_lat a); "--dl_lat"; float_text (dl_lat a);
                 "--backend"; backend a; "--cfg"; cfg_path])%string.

(** The rest of the program's world: the clock, the model, the backend and the terminal *)
Record Host (W : Type) : Type := mk_Host {
  pkill : W -> W;                                  (** [pkill -f morphling_device] *)
  load_model : string -> B W unit;
  start_backend : string -> Z -> option string -> B W unit;
  counts_connections : bool;                       (** [hasattr(backend, "get_connection_count")] *)
  connection_count : W -> outcome Z * W;
  time : W -> float * W;
  sleep : float -> W -> W;
  read_line : W -> outcome string * W;             (** [input] *)
  run_model : Z -> Z -> B W unit;                  (** from the inputs to the backward pass *)
}.
Arguments pkill {W}. Arguments load_model {W}. Arguments start_backend {W}.
Arguments counts_connections {W}. Arguments connection_count {W}. Arguments time {W}.
Arguments sleep {W}. Arguments read_line {W}. Arguments run_model {W}.

Section launcher.
Context {S T W Tn : Type} {net : Sockets S W Tn} (start_thread : FakeDevice S T -> B W T)
  (join_thread : T -> Z -> B W unit) (h : Host W) (float_text : float -> string) (default_cfg : string).
Abbreviation device := (FakeDevice S T).

Definition three : float := f_of_Z 3.

(** The loop over the connections: whether the devices have connected before the time was up.
    An exception of the backend is printed and the loop goes on.  [None] when the fuel runs
    out *)
Fixpoint wait_loop (fuel : nat) (num_devices : Z) (start : float) (w : W) : option (bool * W) :=
  match fuel with
  | O => None
  | Datatypes.S fuel =>
      let '(t, w) := elapsed (time h) start w in
      if flt t (f_of_Z 600) then
        match connection_count h w with
        | (Ret n, w) =>
            if num_devices <=? n then Some (true, w)
            else wait_loop fuel num_devices start (sleep h three w)
        | (Raise _, w) => wait_loop fuel num_devices start (sleep h three w)
        end
      else Some (false, w)
  end.

(** Whether to go on *)
Definition wait_for_devices (num_devices : Z) : B W bool := fun w =>
  let '(start, w) := time h w in
  match wait_loop 601 num_devices start w with
  | None => None
  | Some (true, w) => Some (Ret true, w)
  | Some (false, w) =>
      ((if counts_connections h then n ← calling (connection_count h); mret tt else mret tt);;
       answer ← calling (read_line h);
       mret (String.eqb (lower answer) "y")) w
  end.

Definition with_device {A} (m : B (device * W) A) (d : device) : B W (device * A) := fun w =>
  match m (d, w) with
  | Some (Ret a, (d, w)) => Some (Ret (d, a), w)
  | Some (Raise e, (d, w)) => Some (Raise e, w)
  | None => None
  end.

(** The devices that connected *)
Definition start_fake_devices (a : Args) : B W (list device) :=
  ds ← collect (seqZ 0 (num_fake_devices a)) (fun i =>
         r ← with_device (start start_thread) (new_device i (fake_device_host a) (fake_device_port a));
         let '(d, ok) := r in
         if ok : bool then effect (sleep h (f_lit 5 1));; mret (Some d) else mret None);
  mret (omap id ds).

Definition stop_all (ds : list device) : B W (list device) :=
  collect ds (fun d => r ← with_device (stop join_thread) d; mret r.1).

(** The status of the process *)
Definition main (a : Args) : B W Z :=
  if num_devices a <? num_fake_devices a then mret 1
  else
    effect (pkill h);;
    load_model h (model_name a);;
    start_backend h (backend a) (block_size a) (cfg a);;
    effect (sleep h three);;
    ds ← (if 0 <? num_fake_devices a then start_fake_devices a else mret []);
    commands ← lifted (mapO (fun i => print_real_device_command float_text default_cfg i a)
                         (seqZ (num_fake_devices a) (num_devices a - num_fake_devices a)));
    go_on ← (if String.eqb (backend a) "proxy" then wait_for_devices (num_devices a) else mret true);
    if go_on : bool then
      effect (sleep h three);;
      run_model h (batch_size a) (seq_length a);;
      stop_all ds;;
      mret 0
    else
      stop_all ds;;
      mret 0.

(** *** The wait ends *)

Context (age : W -> Z) (horizon : Z)
  (time_fin : forall w, pfin (time h w).1)
  (time_age : forall w, age w <= age (time h w).2 /\
                        Z.min (age w) horizon <= fval (time h w).1 <= age (time h w).2)
  (count_age : forall w, age w <= age (connection_count h w).2)
  (sleep_age : forall w, age w + one <= age (sleep h three w)).

Lemma wait_loop_ends n devices start w :
  pfin start -> fval start + 600 * one <= horizon ->
  fval start + 600 * one <= age w + Z.of_nat n * one ->
  exists r, wait_loop (Datatypes.S n) devices start w = Some r.
Proof using time_fin time_age count_age sleep_age.
  intros Hs Hh. revert w. induction n as [|n IH]; intros w Ha; cbn [wait_loop];
    pose proof (elapsed_age (time h) age horizon time_age start w) as Hel.
  { pose proof (time_is_up (time h) 600 age horizon time_fin time_age start w Hs ltac:(lia) Hh ltac:(lia)) as Hup.
    destruct (elapsed (time h) start w) as [t w1]. cbn [fst] in Hup. rewrite Hup. by eexists. }
  destruct (elapsed (time h) start w) as [t w1]. cbn [snd] in Hel.
  destruct (flt t (f_of_Z 600)); [|by eexists].
  pose proof (count_age w1) as Hc. destruct (connection_count h w1) as [[k|e] w2]; cbn [snd] in Hc;
    pose proof (sleep_age w2) as Hsl; [destruct (devices <=? k); [by eexists|]|]; apply IH; lia.
Qed.

(** Waiting for the devices ends whatever the backend does: within 601 looks the devices have
    connected or the time is up. *)
Theorem wait_for_devices_ends devices w :
  fval (time h w).1 + 600 * one <= horizon ->
  exists r, wait_for_devices devices w = Some r.
Proof using time_fin time_age count_age sleep_age.
  intros Hh. unfold wait_for_devices. pose proof (time_age w) as Ha. pose proof (time_fin w) as Hf.
  destruct (time h w) as [start w1]. cbn [fst snd] in *.
  destruct (wait_loop_ends 600 devices start w1 Hf Hh ltac:(lia)) as [[[] w2] Hw].
  all: change 601%nat with (Datatypes.S 600); rewrite Hw.
  { by eexists. }
  unfold calling, mbind, B_bind. destruct (counts_connections h).
  - destruct (connection_count h w2) as [[n|e] w3]; [|by eexists].
    unfold mret at 1, B_ret at 1. destruct (read_line h w3) as [[s|e] w4]; by eexists.
  - unfold mret at 1, B_ret at 1. destruct (read_line h w2) as [[s|e] w4]; by eexists.
Qed.
End launcher.

(** ** A conversation

    Three tasks, cut inside their payloads; the second draw fails. *)
Definition demo_results (n : nat) : outcome bytes :=
  match n with
  | 0%nat => Ret [Byte.x00; Byte.xff]
  | 1%nat => Raise (RuntimeError "out of memory")
  | _ => Ret [Byte.x02; Byte.xff]
  end.
Definition demo_tasks : list bytes := [[Byte.x01; Byte.x02; Byte.x03]; []; [Byte.x09]].
Definition demo_stream : bytes := concat (map (frame false) demo_tasks).
Definition demo_conn : conn :=
  mk_conn [take 9 demo_stream; take 2 (drop 9 demo_stream); take 16 (drop 11 demo_stream); drop 27 demo_stream] [] 0.
Definition demo_device : FakeDevice unit unit := mk_FakeDevice 0 "127.0.0.1" 50051 (Some tt) false None.
Abbreviation demo_run c := (run (net := stream demo_results) false 4 4 (demo_device, c)).

Lemma demo_packable n b : demo_results n = Ret b -> packable b.
Proof. unfold demo_results, packable. destruct n as [|[|n]]; intros [= <-]; by vm_compute. Qed.
Lemma demo_tasks_packable : Forall packable demo_tasks.
Proof. repeat constructor. Qed.

Lemma fake_device_answers_witness :
  demo_run demo_conn
    = Some (Ret tt, (set_running true demo_device,
                     mk_conn [] (frame false [Byte.x00; Byte.xff]
                                 ++ frame false [Byte.x02; Byte.xff]) 3)).
Proof.
  rewrite (proj1 (fake_device_answers false demo_results demo_packable demo_tasks 4 4 demo_device demo_conn
                    eq_refl ltac:(repeat constructor; discriminate) eq_refl eq_refl demo_tasks_packable
                    ltac:(repeat constructor; cbn; lia) ltac:(cbn; lia))).
  reflexivity.
Defined.

(** A task that the connection cuts short is answered like the others. *)
Example truncated_task_answered :
  demo_run (mk_conn [take 10 demo_stream] [] 0)
    = Some (Ret tt, (set_running true demo_device, mk_conn [] (frame false [Byte.x00; Byte.xff]) 1)).
Proof. vm_compute. reflexivity. Qed.

(** A length that arrives in two segments ends the device: no task is answered. *)
Example split_length_ends_device :
  demo_run (mk_conn [take 3 demo_stream; drop 3 demo_stream] [] 0)
    = Some (Ret tt, (set_running true demo_device, mk_conn [drop 3 demo_stream] [] 0)).
Proof. vm_compute. reflexivity. Qed.

(** A bandwidth below one is printed as none. *)
Example fractional_bandwidth_lost :
  let a := mk_Args 3 2 "127.0.0.1" 50051 "proxy" 1024 None "facebook/opt-125m" 1 128 (f_of_Z 1000) 8
             (f_lit 5 1) (f_of_Z 100) (f_of_Z 10) (f_of_Z 10) in
  print_real_device_command (fun _ => "10.0"%string) "cli.ini" 2 a
    = Ret "morphling_device --id 2 --flops 1000 --memory 8G --ul_bw 0M --dl_bw 100M --ul_lat 10.0 --dl_lat 10.0 --backend proxy --cfg cli.ini"%string.
Proof. vm_compute. reflexivity. Qed.
