(* ===== verification/StartDevices.v ===== *)
(** * Devices from a fleet file ([scripts/start_devices_from_config.py])

    The launcher starts a process per device of a fleet file, looks every second whether one
    has ended, and ends them all on a signal.  The operating system is that of [Fleet], with a
    wait for a fraction of a second; the JSON reader, the clock and the log files are
    parameters.  Argument parsing and the printed lines are left out. *)

From S2P Require Import Prelude PyDict PyStr PyFloat PyJson Fleet.

Record LaunchArgs : Type := mk_LaunchArgs {
  config : string;
  backend : string;
  proxy_host : string;
  cfg : string;
  log_dir : string;
  max_devices : option Z;
  print_pids : bool;
}.

(** A limit below zero is none. *)
Definition limit_of (max_devices : option Z) : option Z :=
  match max_devices with Some n => if 0 <=? n then Some n else None | None => None end.

(** An entry of the fleet file *)
Abbreviation entry := (pydict string json).

Definition load_fleet (path : string) (payload : json) : outcome (list entry) :=
  match payload with
  | JList l => Ret (dicts_of l)
  | _ => Raise (ValueError ("Fleet JSON must be a list: " +:+ path))
  end.

Definition pick_rank (e : entry) (index : Z) : outcome Z :=
  match dict_get "rank" e with
  | Some v => py_int v
  | None => match dict_get "id" e with Some v => py_int v | None => Ret index end
  end.

(** The required fields, sorted *)
Definition required : list string := ["dl_bw"; "dl_lat"; "flops"; "memory"; "ul_bw"; "ul_lat"]%string.

Definition missing (e : entry) : list string :=
  filter (fun k => dict_get k e = None) required.

Section launcher.
Context {P W : Type} {os : Os P W}.
(** [str] of a JSON value; [p.wait(timeout=t)], [None] when the time is up; [open(path, "w")]
    and [close]; [time.time()] and [time.sleep(1)] *)
Context (py_str : json -> string) (timed_wait : P -> float -> W -> option Z * W)
  (open_log : string -> W -> outcome unit * W) (close_log : string -> W -> outcome unit * W)
  (time : W -> float * W) (sleep : Z -> W -> W).
Context (environ : pydict string string) (args : LaunchArgs).

Definition field (k : string) (e : entry) : outcome string :=
  v ← of_option (KeyError k) (dict_get k e); Ret (py_str v).

Definition device_command (e : entry) (rank : Z) : outcome (list string) :=
  flops ← field "flops" e; memory ← field "memory" e; ul_bw ← field "ul_bw" e; dl_bw ← field "dl_bw" e;
  ul_lat ← field "ul_lat" e; dl_lat ← field "dl_lat" e;
  Ret (["morphling_device"; "--id"; str_of_Z rank; "--flops"; flops; "--memory"; memory; "--ul_bw"; ul_bw;
        "--dl_bw"; dl_bw; "--ul_lat"; ul_lat; "--dl_lat"; dl_lat; "--backend"; backend args]%string
       ++ (if String.eqb (backend args) "proxy"
           then ["--proxy_host"; proxy_host args; "--cfg"; cfg args]%string else [])).

(** [env.setdefault] *)
Definition device_environment : pydict string string :=
  match dict_get "SPDLOG_LEVEL"%string environ with
  | Some _ => environ
  | None => dict_set "SPDLOG_LEVEL"%string "info"%string environ
  end.

Definition spawn_device (e : entry) (index : Z) : B W (P * string) :=
  rank ← lifted (pick_rank e index);
  cmd ← lifted (device_command e rank);
  let log_path := log_dir args +:+ "/device_" +:+ str_of_Z rank +:+ ".log" in
  calling (open_log log_path);;
  proc ← calling (popen cmd device_environment (Some log_path));
  mret (proc, log_path).

(** ** The launcher

    The main thread and the signal handler share its state.  [pending] is what [_spawn_device]
    has returned and the lists do not hold yet, [todo] the entries still to be started. *)
Record launcher : Type := mk_launcher {
  processes : list P;
  log_files : list string;
  stopping : bool;
  pending : option (P * string);
  todo : list (Z * entry);
  sys : W;
}.

Definition set_sys (w : W) (s : launcher) : launcher :=
  mk_launcher (processes s) (log_files s) (stopping s) (pending s) (todo s) w.

Definition outside {A} (m : B W A) : B launcher A := fun s =>
  match m (sys s) with Some (r, w) => Some (r, set_sys w s) | None => None end.

(** [RuntimeError] of a device that has ended *)
Definition look_at (p : P) : B W unit :=
  status ← now (poll p);
  match status with
  | Some _ => throw (RuntimeError "Device process exited unexpectedly")
  | None => mret tt
  end.

(** What the main thread does next: the checks of an entry and its start, the two [append]s,
    or a turn of the endless loop *)
Definition advance : B launcher unit := fun s =>
  match pending s, todo s with
  | Some (p, log), _ =>
      Some (Ret tt, mk_launcher (processes s ++ [p]) (log_files s ++ [log]) (stopping s) None (todo s) (sys s))
  | None, (index, e) :: rest =>
      match missing e with
      | [] =>
          match spawn_device e index (sys s) with
          | Some (Ret pl, w) =>
              Some (Ret tt, mk_launcher (processes s) (log_files s) (stopping s) (Some pl) rest w)
          | Some (Raise x, w) => Some (Raise x, set_sys w s)
          | None => None
          end
      | ks => Some (Raise (KeyError ("Device index " +:+ str_of_Z index +:+ " missing required fields: "
                                     +:+ join ", " ks)), s)
      end
  | None, [] => outside (effect (sleep 1);; each (processes s) look_at) s
  end.

(** [main] up to the first device: an exception, or the state in which the handlers are
    installed *)
Definition prepare (payload : json) (w : W) : outcome launcher :=
  fleet ← load_fleet (config args) payload;
  let fleet := match max_devices args with
               | Some n => take (Z.to_nat (Z.max 0 n)) fleet
               | None => fleet
               end in
  match fleet with
  | [] => Raise (RuntimeError "No devices to launch")
  | _ => Ret (mk_launcher [] [] false None (imap (fun i e => (Z.of_nat i, e)) fleet) w)
  end.

(** ** The signal handler *)

Definition ask (p : P) : B W unit :=
  status ← now (poll p);
  match status with None => effect (terminate p) | Some _ => mret tt end.

(** [max(0.0, deadline - time.time())] *)
Definition remaining (deadline : float) : B W float :=
  t ← now time; mret (fmax fzero (fsub deadline t)).

Definition end_by (deadline : float) (p : P) : B W unit :=
  status ← now (poll p);
  match status with
  | Some _ => mret tt
  | None =>
      t ← remaining deadline;
      r ← now (timed_wait p t);
      match r with Some _ => mret tt | None => effect (kill p) end
  end.

(** An exception of [close] is dropped. *)
Definition close_quietly (log : string) : B W unit :=
  except (calling (close_log log)) (fun _ => true) (mret tt).

Inductive handled : Type := Returned | Exited (status : Z).

Definition shutdown : B launcher handled := fun s =>
  if stopping s then Some (Ret Returned, s)
  else
    let s := mk_launcher (processes s) (log_files s) true (pending s) (todo s) (sys s) in
    outside (
      each (processes s) ask;;
      start ← now time;
      each (processes s) (end_by (fadd start (f_of_Z 5)));;
      each (log_files s) close_quietly;;
      mret (Exited 0)) s.
End launcher.

(** ** What the launcher relies on

    [launched w]: the processes started so far; [ending p w]: [p] has ended or has been
    killed. *)
Class SystemLaws (P W : Type) {os : Os P W} (timed_wait : P -> float -> W -> option Z * W)
    (open_log close_log : string -> W -> outcome unit * W) (time : W -> float * W) (sleep : Z -> W -> W)
    (launched : W -> list P) (ending : P -> W -> Prop) : Prop := {
  popen_launches : forall c e o w p w', popen c e o w = (Ret p, w') -> launched w' = launched w ++ [p];
  popen_fails : forall c e o w x w', popen c e o w = (Raise x, w') -> launched w' = launched w;
  poll_launched : forall p w, launched (poll p w).2 = launched w;
  open_launched : forall l w, launched (open_log l w).2 = launched w;
  sleep_launched : forall n w, launched (sleep n w) = launched w;
  ending_poll : forall p q w, ending p w -> ending p (poll q w).2;
  ending_terminate : forall p q w, ending p w -> ending p (terminate q w);
  ending_kill : forall p q w, ending p w -> ending p (kill q w);
  ending_wait : forall p q t w, ending p w -> ending p (timed_wait q t w).2;
  ending_time : forall p w, ending p w -> ending p (time w).2;
  ending_close : forall p l w, ending p w -> ending p (close_log l w).2;
  polled_ending : forall p w c, (poll p w).1 = Some c -> ending p (poll p w).2;
  waited_ending : forall p t w c, (timed_wait p t w).1 = Some c -> ending p (timed_wait p t w).2;
  killed_ending : forall p w, ending p (kill p w);
}.

Section shutdown.
Context {P W : Type} {os : Os P W} (py_str : json -> string)
  (timed_wait : P -> float -> W -> option Z * W)
  (open_log close_log : string -> W -> outcome unit * W) (time : W -> float * W) (sleep : Z -> W -> W)
  (launched : W -> list P) (ending : P -> W -> Prop)
  {laws : SystemLaws P W timed_wait open_log close_log time sleep launched ending}
  (environ : pydict string string) (args : LaunchArgs).

Abbreviation step := (fun s s' : launcher (P := P) (W := W) =>
  advance py_str open_log sleep environ args s = Some (Ret tt, s')).

(** Every process started is in the list, but for the one about to be appended. *)
Definition accounted (before : list P) (s : launcher) : Prop :=
  launched (sys s) = before ++ processes s ++ option_list (fst <$> pending s) /\ stopping s = false.

Lemma looks_launched (ps : list P) w u w' :
  each ps look_at w = Some (Ret u, w') -> launched w' = launched w.
Proof using laws.
  revert w. induction ps as [|p ps IH]; intros w; cbn [each]; [by intros [= _ <-]|].
  unfold mbind at 1, B_bind at 1. pose proof (poll_launched p w) as Hp.
  unfold look_at at 1, mbind, B_bind, now. destruct (poll p w) as [[c|] w1]; cbn [fst snd] in *; [done|].
  intros Hl. rewrite <- Hp. by apply IH.
Qed.

Lemma spawned_launched e index w r w' :
  spawn_device py_str open_log environ args e index w = Some (r, w') ->
  match r with
  | Ret pl => launched w' = launched w ++ [pl.1]
  | Raise _ => launched w' = launched w
  end.
Proof using laws.
  unfold spawn_device, lifted, calling, mbind, B_bind. destruct (pick_rank e index) as [rank|x]; [|by intros [= <- <-]].
  destruct (device_command _ _ _ _) as [cmd|x]; [|by intros [= <- <-]].
  match goal with |- context [open_log ?l w] => pose proof (open_launched l w) as Ho; destruct (open_log l w) as [[u|x] w1] end;
    cbn [snd] in Ho; [|by intros [= <- <-]].
  destruct (popen _ _ _ w1) as [[p|x] w2] eqn:Hp; intros [= <- <-]; rewrite <- Ho.
  - by eapply popen_launches.
  - by eapply popen_fails.
Qed.

Lemma advance_accounted before s s' : accounted before s -> step s s' -> accounted before s'.
Proof using laws.
  intros [Hl Hs] Hst. unfold advance in Hst. destruct (pending s) as [[p log]|] eqn:Hp.
  { injection Hst as <-. split; [|done]. cbn. rewrite Hl. cbn. by rewrite app_nil_r. }
  destruct (todo s) as [|[index e] rest].
  - unfold outside in Hst. 
    match type of Hst with context [match ?x with _ => _ end] => destruct x as [[r w]|] eqn:Hw end; [|done].
    injection Hst as -> <-.
    split; [|done]. unfold set_sys. cbn [sys processes pending]. rewrite Hp, <- Hl.
    unfold mbind, B_bind, effect, now in Hw. cbn [snd] in Hw. apply looks_launched in Hw.
    rewrite Hw. apply sleep_launched.
  - destruct (missing e); [|done]. destruct (spawn_device _ _ _ _ _ _ _) as [[[pl|x] w]|] eqn:Hsp; [|done..].
    injection Hst as <-. apply spawned_launched in Hsp. split; [|done]. cbn. rewrite Hsp, Hl. cbn.
    by rewrite app_nil_r, <- app_assoc.
Qed.

Lemma ends_ask_signal p w : ends ending (ask p) (fun _ _ => True) w.
Proof using laws.
  apply ends_bind. eexists _, _. split; [reflexivity|]. split; [|intros q; apply ending_poll].
  destruct (poll p w).1; [by apply ends_ret|]. apply ends_effect; [|done]. intros q. apply ending_terminate.
Qed.

(** A device is polled as ended, ends within the time that remains, or is killed. *)
Lemma ends_end_by deadline p w : ends ending (end_by timed_wait time deadline p) (fun _ w' => ending p w') w.
Proof using laws.
  apply ends_bind. eexists _, _. split; [reflexivity|]. split; [|intros q; apply ending_poll].
  pose proof (polled_ending p w) as Hp. destruct (poll p w) as [[c|] w1]; cbn [fst snd] in *.
  { apply ends_ret. by apply (Hp c). }
  apply ends_bind. eexists _, _. split; [reflexivity|]. split; [|intros q; apply ending_time].
  set (t := fmax _ _). set (w2 := (time w1).2).
  apply ends_bind. eexists _, _. split; [reflexivity|]. split; [|intros q; apply ending_wait].
  pose proof (waited_ending p t w2) as Hw. destruct (timed_wait p t w2) as [[c|] w3]; cbn [fst snd] in *.
  - apply ends_ret. by apply (Hw c).
  - apply ends_effect; [intros q; apply ending_kill|apply killed_ending].
Qed.

Lemma ends_close_quietly log w : ends ending (close_quietly close_log log) (fun _ _ => True) w.
Proof using laws.
  unfold close_quietly, except, calling, ends. pose proof (fun q => ending_close q log w) as Hc.
  destruct (close_log log w) as [[[]|e] w']; exists tt, w'; by split.
Qed.

Lemma each_true {A} (l : list A) f w : (forall a w', ends ending (f a) (fun _ _ => True) w') ->
  ends ending (each l f) (fun _ _ => True) w.
Proof.
  intros Hf. revert w. induction l as [|a l IH]; intros w; cbn [each]; [by apply ends_ret|].
  apply ends_bind. eapply ends_mono; [apply Hf|]. intros _ w' _. apply IH.
Qed.

Lemma prepared payload w (s : launcher (P := P) (W := W)) :
  prepare args payload w = Ret s -> sys s = w /\ processes s = [] /\ pending s = None /\ stopping s = false.
Proof.
  unfold prepare. destruct (load_fleet _ _) as [fleet|]; [|done]. cbn [mbind outcome_bind].
  by destruct (match max_devices args with Some n => _ | None => _ end); intros [= <-].
Qed.

Lemma reached_accounted payload w s0 s :
  prepare args payload w = Ret s0 -> rtc step s0 s -> accounted (launched w) s.
Proof using laws.
  intros Hs0%prepared Hr. assert (accounted (launched w) s0) as Ha.
  { destruct Hs0 as (<- & Hps & Hpe & Hst). split; [|done]. rewrite Hps, Hpe. by rewrite app_nil_r. }
  clear Hs0. induction Hr as [|s1 s2 s3 H12 _ IH]; [done|]. by eapply IH, advance_accounted.
Qed.

(** C35: a signal ends the launcher and its devices.  Whenever a signal comes, while devices are
    being started or while they run, the handler completes without an exception and the
    launcher exits with status zero; every process it has started is in its list, except at
    most one whose start has just returned, and each process of the list has ended or has
    been killed.  A second signal finds nothing to do. *)
Theorem signal_ends_fleet payload w s0 s :
  prepare args payload w = Ret s0 -> rtc step s0 s ->
  exists s', shutdown timed_wait close_log time s = Some (Ret (Exited 0), s') /\
    launched (sys s) = launched w ++ processes s ++ option_list (fst <$> pending s) /\
    processes s' = processes s /\ (forall p, p ∈ processes s -> ending p (sys s')) /\
    shutdown timed_wait close_log time s' = Some (Ret Returned, s').
Proof using laws.
  intros Hp Hr. destruct (reached_accounted payload w s0 s Hp Hr) as [Hl Hs].
  unfold shutdown at 1. rewrite Hs. unfold outside. cbn [sys processes log_files].
  assert (He : ends ending (each (processes s) ask;; start ← now time;
      each (processes s) (end_by timed_wait time (fadd start (f_of_Z 5)));;
      each (log_files s) (close_quietly close_log);; mret (Exited 0))
    (fun r w' => r = Exited 0 /\ forall p, p ∈ processes s -> ending p w') (sys s)).
  { apply ends_bind. eapply ends_mono; [apply each_true, ends_ask_signal|]. intros _ w1 _.
    apply ends_bind. eexists _, _. split; [reflexivity|]. split; [|intros q; apply ending_time].
    apply ends_bind. eapply ends_mono.
    { apply (ends_each ending (processes s) _ ending); [intros p w'; apply ends_end_by|auto]. }
    intros [] w2 H2. apply ends_bind.
    assert (Hc : ends ending (each (log_files s) (close_quietly close_log)) (fun _ _ => True) w2).
    { apply each_true. intros log w'. apply ends_close_quietly. }
    destruct Hc as ([] & w3 & Hc & _ & Hk).
    exists tt, w3. split; [done|]. split; [|done]. apply ends_ret. split; [done|]. auto. }
  destruct He as (r & w' & -> & [-> He] & _). eexists. split; [reflexivity|].
  split; [done|]. split; [done|]. split; [done|]. done.
Qed.
End shutdown.

(** ** A launch on the machine of [Fleet] *)

Definition machine_wait (n : nat) (_ : float) (m : machine) : option Z * machine :=
  (if alive_at n m then None else Some (status_at n m), m).
Definition machine_file (name : string) (m : machine) : outcome unit * machine := (Ret tt, m).
Definition machine_close (name : string) (m : machine) : outcome unit * machine :=
  (Raise (OSError "No space left on device"), m).
Definition machine_time (m : machine) : float * machine := (fzero, m).
Definition machine_sleep (_ : Z) (m : machine) : machine := m.
Definition machine_launched (m : machine) : list nat := seq 0 (length (Fleet.processes m)).

#[export] Instance machine_system : SystemLaws nat machine machine_wait machine_file machine_close
  machine_time machine_sleep machine_launched ended.
Proof.
  assert (Ha : forall k f m, machine_launched (at_process k f m) = machine_launched m).
  { intros k f m. unfold machine_launched, at_process. cbn. by rewrite length_alter. }
  split; try done.
  - intros c e o w p w'. cbn. destruct (room w); [done|]. intros [= <- <-]. unfold machine_launched. cbn.
    by rewrite length_app, Nat.add_1_r, seq_S.
  - intros c e o w x w'. cbn. by destruct (room w); intros [= _ <-].
  - intros p q w. apply alive_at_process, ask_to_end_dead.
  - intros p q w. apply alive_at_process, end_process_dead.
  - intros p w c. unfold ended. cbn. by destruct (alive_at p w).
  - intros p t w c. unfold ended. cbn. by destruct (alive_at p w).
  - intros p w. apply killed_at.
Qed.

Definition demo_str (j : json) : string :=
  match j with JStr s => s | JInt z => str_of_Z z | _ => "" end.
Definition demo_entry (rank : Z) : json :=
  JObj [("id", JInt rank); ("flops", JStr "1T"); ("memory", JStr "8G"); ("ul_bw", JStr "100M");
        ("dl_bw", JStr "100M"); ("ul_lat", JInt 10); ("dl_lat", JInt 10)]%string.
Definition demo_payload : json := JList [demo_entry 7; JNull; demo_entry 8].
Definition demo_args : LaunchArgs :=
  mk_LaunchArgs "fleet.json" "proxy" "127.0.0.1:39000" "config/proxy/cli.ini" "logs" (Some 5) false.
Abbreviation demo_advance := (advance demo_str machine_file machine_sleep [] demo_args).

Definition demo_first : launcher (P := nat) (W := machine) :=
  match prepare demo_args demo_payload (mk_machine [] 3) with
  | Ret s => s | Raise _ => mk_launcher [] [] true None [] (mk_machine [] 0) end.
Definition demo_next (s : launcher (P := nat) (W := machine)) : launcher :=
  match demo_advance s with Some (_, s') => s' | None => s end.
(** The first device runs, the second has just been started. *)
Definition demo_now : launcher := demo_next (demo_next (demo_next demo_first)).

Lemma demo_prepared : prepare demo_args demo_payload (mk_machine [] 3) = Ret demo_first.
Proof. vm_compute. reflexivity. Qed.
Lemma demo_reached : rtc (fun s s' => demo_advance s = Some (Ret tt, s')) demo_first demo_now.
Proof. do 3 (eapply rtc_l; [vm_compute; reflexivity|]). apply rtc_refl. Qed.

Example demo_devices : command <$> Fleet.processes (sys demo_now) =
  [["morphling_device"; "--id"; "7"; "--flops"; "1T"; "--memory"; "8G"; "--ul_bw"; "100M"; "--dl_bw"; "100M";
    "--ul_lat"; "10"; "--dl_lat"; "10"; "--backend"; "proxy"; "--proxy_host"; "127.0.0.1:39000"; "--cfg";
    "config/proxy/cli.ini"];
   ["morphling_device"; "--id"; "8"; "--flops"; "1T"; "--memory"; "8G"; "--ul_bw"; "100M"; "--dl_bw"; "100M";
    "--ul_lat"; "10"; "--dl_lat"; "10"; "--backend"; "proxy"; "--proxy_host"; "127.0.0.1:39000"; "--cfg";
    "config/proxy/cli.ini"]]%string.
Proof. vm_compute. reflexivity. Qed.

Lemma signal_ends_fleet_witness :
  exists s', shutdown machine_wait machine_close machine_time demo_now = Some (Ret (Exited 0), s') /\
    processes demo_now = [0%nat] /\ machine_launched (sys demo_now) = [0; 1]%nat /\ alive_at 0 (sys s') = false.
Proof.
  destruct (signal_ends_fleet demo_str machine_wait machine_file machine_close machine_time machine_sleep
              machine_launched ended [] demo_args demo_payload (mk_machine [] 3) demo_first demo_now
              demo_prepared demo_reached) as (s' & Hs & Hl & Hp & He & _).
  exists s'. split; [exact Hs|]. split; [reflexivity|]. split; [exact Hl|].
  apply He. apply list_elem_of_here.
Defined.

(** A device that ends by itself makes the launcher raise; the others keep running. *)
Definition one_died : launcher (P := nat) (W := machine) :=
  mk_launcher [0; 1]%nat [] false None []
    (mk_machine [mk_process [] true false 0; mk_process [] false false 1] 0).
Example death_leaves_devices : exists e,
  demo_advance one_died = Some (Raise e, one_died) /\ alive_at 0 (sys one_died) = true.
Proof. eexists. vm_compute. split; reflexivity. Qed.
