(* ===== verification/EventTimer.v ===== *)
(** * Event timers ([morphling/common/custom_logging.py])

    A logger keeps the time at which each event of a device ends; an event starts when the
    events it depends on have ended, and not before the time set from outside.  The clock is
    a parameter; printed lines are left out. *)

From S2P Require Import Prelude PyDict PyStr PyFloat FloatOrder.

Definition UL_COMM : string := "ul_comm".
Definition DL_COMM : string := "dl_comm".
Definition DEV_COMP : string := "dev_comp".

Record EventTimeLogger : Type := mk_EventTimeLogger {
  event_timers : pydict string float;
  total_time : float;
  id : string;
  real_time : float;
  real_elapsed : option float;     (** set by [set_time] *)
}.

Definition set_timers (d : pydict string float) (l : EventTimeLogger) : EventTimeLogger :=
  mk_EventTimeLogger d (total_time l) (id l) (real_time l) (real_elapsed l).

(** [EventTimeLogger(id, events)], at time [now]; without [events] the loop over [None] raises *)
Definition init (logger_id : string) (events : option (list string)) (now : float) : outcome EventTimeLogger :=
  match events with
  | None => Raise (TypeError "'NoneType' object is not iterable")
  | Some events =>
      Ret (mk_EventTimeLogger (foldl (fun d e => dict_set e fzero d) [] events) fzero logger_id now None)
  end.

Definition max_of (l : list float) : outcome float :=
  of_option (ValueError "max() iterable argument is empty") (fmax_list l).

Definition max_time : M EventTimeLogger float :=
  l ← get; lift (max_of (dict_values (event_timers l))).

Definition sync_time : M EventTimeLogger float :=
  m ← max_time;
  modify (fun l => set_timers (map (fun kv => (kv.1, m)) (event_timers l)) l);;
  mret m.

Definition set_time (timestamp now : float) : M EventTimeLogger unit :=
  modify (fun l => mk_EventTimeLogger (event_timers l) timestamp (id l) (real_time l)
                     (Some (fsub now (real_time l)))).

(** [self.event_timers[event]] *)
Definition timer (event : string) : M EventTimeLogger float :=
  l ← get; lift (of_option (KeyError event) (dict_get event (event_timers l))).

Fixpoint timers (events : list string) : M EventTimeLogger (list float) :=
  match events with
  | [] => mret []
  | e :: events => t ← timer e; ts ← timers events; mret (t :: ts)
  end.

(** The start of the event is worked out only for a line that is not printed. *)
Definition record (elapsed : float) (event : string) (last_events : option (list string)) :
    M EventTimeLogger unit :=
  latest ← (match last_events with
            | Some events =>
                ts ← timers events;
                m ← lift (max_of ts);
                l ← get; mret (fmax m (total_time l))
            | None => m ← max_time; l ← get; mret (fmax (total_time l) m)
            end);
  modify (fun l => set_timers (dict_set event (fadd latest elapsed) (event_timers l)) l).

(** ** Properties *)

(** Timers that are numbers, none negative *)
Definition timed (l : EventTimeLogger) : Prop :=
  dict_wf (event_timers l) /\ dict_all pfin (event_timers l) /\ pfin (total_time l).

Lemma pfin_number x : pfin x -> is_nan x = false.
Proof. intros [H _]. by apply fin_not_nan. Qed.

Lemma max_of_spec l m : Forall pfin l -> max_of l = Ret m ->
  pfin m /\ Forall (fun x => fval x <= fval m) l.
Proof.
  intros Hl. unfold max_of. destruct (fmax_list l) as [x|] eqn:Hx; [|done]. intros [= ->].
  assert (Hn : Forall (fun x => is_nan x = false) l) by (eapply Forall_impl; [exact Hl|apply pfin_number]).
  destruct (fmax_list_spec l m Hn Hx) as [Hin Hge]. rewrite Forall_forall in Hl.
  split; [by apply Hl|]. apply Forall_forall. intros y Hy. apply fle_fval; [apply Hl, Hy|apply Hl, Hin|auto].
Qed.

(** The timers named, all present *)
Lemma timers_returns events l ts l' : timers events l = (Ret ts, l') ->
  l' = l /\ Forall2 (fun e t => dict_get e (event_timers l) = Some t) events ts.
Proof.
  revert ts. induction events as [|e events IH]; intros ts; cbn [timers]; [by intros [= <- <-]|].
  unfold timer, mbind, M_bind, get, lift. destruct (dict_get e (event_timers l)) as [t|] eqn:Ht; [|done].
  cbn [of_option]. destruct (timers events l) as [[ts1|x] l1] eqn:Hts; [|done]. intros [= <- <-].
  destruct (IH ts1 eq_refl) as [-> H2]. split; [done|]. by constructor.
Qed.

Lemma fmax_list_same n m : fmax_list (replicate (S n) m) = Some m.
Proof.
  unfold fmax_list. cbn [replicate]. f_equal. induction n as [|n IH]; [done|]. cbn [replicate foldl].
  assert (fmax m m = m) as -> by (unfold fmax; by destruct (flt m m)). exact IH.
Qed.

Lemma max_of_same {K} (d : list (K * float)) x m :
  max_of d.*2 = Ret x -> max_of (map (fun kv => (kv.1, m)) d).*2 = Ret m.
Proof.
  destruct d as [|kv d]; [done|]. intros _. unfold max_of.
  assert ((map (fun kv => (kv.1, m)) (kv :: d)).*2 = replicate (S (length d)) m) as ->; [|by rewrite fmax_list_same].
  cbn. f_equal. induction d as [|kv' d IH]; [done|]. cbn. by f_equal.
Qed.

(** Synchronising brings every timer to the latest of them.  The events stay the same, in
    order, no timer goes back, some event already had that time, and synchronising again
    changes nothing. *)
Theorem sync_time_levels l m l' :
  timed l -> sync_time l = (Ret m, l') ->
  event_timers l' = map (fun kv => (kv.1, m)) (event_timers l) /\ timed l' /\
  (forall e t, dict_get e (event_timers l) = Some t -> fval t <= fval m) /\
  (exists e, dict_get e (event_timers l) = Some m) /\ sync_time l' = (Ret m, l').
Proof.
  intros (Hwf & Hall & Htot). unfold sync_time, max_time, get, lift, mbind, M_bind, dict_values.
  destruct (max_of (event_timers l).*2) as [x|] eqn:Hx; [|done].
  unfold modify, mret, M_ret. intros [= -> <-].
  assert (Hv : Forall pfin (event_timers l).*2) by by apply Forall_fmap.
  destruct (max_of_spec _ m Hv Hx) as [Hm Hle]. split; [done|]. cbn [set_timers event_timers total_time].
  split; [|split; [|split]].
  - split; [|split; [|done]].
    + unfold dict_wf, dict_keys in *. cbn. rewrite <- list_fmap_compose. exact Hwf.
    + apply Forall_fmap. by eapply Forall_impl; [exact Hall|].
  - intros e t Ht. rewrite Forall_forall in Hle. apply Hle. apply list_elem_of_fmap.
    exists (e, t). split; [done|by apply dict_get_Some_elem].
  - unfold max_of in Hx. destruct (fmax_list _) as [y|] eqn:Hy; [|done]. injection Hx as ->.
    apply fmax_list_spec in Hy as [Hin _]; [|by eapply Forall_impl; [exact Hv|apply pfin_number]].
    apply list_elem_of_fmap in Hin as ([e t] & -> & Hin). exists e. by apply dict_elem_get.
  - unfold set_timers at 1. cbn [event_timers]. rewrite (max_of_same _ m m Hx). do 2 f_equal.
    unfold set_timers. cbn. f_equal. rewrite map_map. done.
Qed.

Lemma fmax_pfin x y : pfin x -> pfin y -> pfin (fmax x y).
Proof. intros Hx Hy. unfold fmax. by destruct (flt x y). Qed.

(** The time an event starts: a number, not before what it waits for *)
Definition starts (l : EventTimeLogger) (last_events : option (list string)) (t : float) : Prop :=
  pfin t /\ fval (total_time l) <= fval t /\
  forall e u, match last_events with Some es => e ∈ es | None => True end ->
    dict_get e (event_timers l) = Some u -> fval u <= fval t.

Lemma starts_at l last_events t l' :
  timed l ->
  (match last_events with
   | Some events => ts ← timers events; m ← lift (max_of ts); l ← get; mret (fmax m (total_time l))
   | None => m ← max_time; l ← get; mret (fmax (total_time l) m)
   end) l = (Ret t, l') -> l' = l /\ starts l last_events t.
Proof.
  intros (Hwf & Hall & Htot). destruct last_events as [events|]; unfold mbind at 1, M_bind at 1.
  - destruct (timers events l) as [[ts|] l1] eqn:Hts; [|done].
    apply timers_returns in Hts as [-> H2]. unfold lift, get, mbind, M_bind.
    destruct (max_of ts) as [m|] eqn:Hm; [|done]. unfold mret, M_ret. intros [= <- <-].
    assert (Hp : Forall pfin ts).
    { apply Forall_forall. intros u [i Hi]%list_elem_of_lookup.
      destruct (Forall2_lookup_r _ _ _ _ _ H2 Hi) as (e & _ & He). by eapply dict_all_get. }
    destruct (max_of_spec ts m Hp Hm) as [Hpm Hle]. split; [done|].
    pose proof (fmax_fval m (total_time l) (proj1 Hpm) (proj1 Htot)) as Hv.
    split; [by apply fmax_pfin|]. split; [lia|]. intros e u [i Hi]%list_elem_of_lookup Hu.
    destruct (Forall2_lookup_l _ _ _ _ _ H2 Hi) as (u' & Hu' & He). rewrite Hu in He. injection He as <-.
    rewrite Forall_forall in Hle. specialize (Hle u (list_elem_of_lookup_2 _ _ _ Hu')). lia.
  - unfold max_time, lift, get, mbind, M_bind, dict_values.
    destruct (max_of (event_timers l).*2) as [m|] eqn:Hm; [|done]. unfold mret, M_ret. intros [= <- <-].
    assert (Hv : Forall pfin (event_timers l).*2) by by apply Forall_fmap.
    destruct (max_of_spec _ m Hv Hm) as [Hpm Hle]. split; [done|].
    pose proof (fmax_fval (total_time l) m (proj1 Htot) (proj1 Hpm)).
    split; [by apply fmax_pfin|]. split; [lia|]. intros e u _ Hu. rewrite Forall_forall in Hle.
    assert (fval u <= fval m); [|lia]. apply Hle. apply list_elem_of_fmap.
    exists (e, u). split; [done|by apply dict_get_Some_elem].
Qed.

(** An event waits for what it depends on.  Recording an event sets its timer alone: the
    event starts at the latest of the total time and of the events it waits for (of all
    events, when none are named), and ends [elapsed] later; the timer is at least each of
    these times, or the sum overflows. *)
Theorem record_waits elapsed event last_events l l' :
  timed l -> pfin elapsed -> record elapsed event last_events l = (Ret tt, l') ->
  exists t, starts l last_events t /\
    dict_get event (event_timers l') = Some (fadd t elapsed) /\
    (fadd t elapsed = S754_infinity false \/
     timed l' /\ fval t <= fval (fadd t elapsed) /\ fval elapsed <= fval (fadd t elapsed)) /\
    forall e, e <> event -> dict_get e (event_timers l') = dict_get e (event_timers l).
Proof.
  intros Hl He Hr. unfold record in Hr. unfold mbind at 1, M_bind at 1 in Hr.
  match type of Hr with context [match ?x with _ => _ end] => destruct x as [[t|] l1] eqn:Ht end; [|done].
  apply starts_at in Ht as [-> Hst]; [|done]. unfold modify in Hr. injection Hr as <-. exists t.
  split; [done|]. cbn [set_timers event_timers]. split; [apply dict_get_set_eq|].
  split; [|intros e Hne; by apply dict_get_set_ne].
  destruct Hst as [Hpt _], Hl as (Hwf & Hall & Htot).
  pose proof (pfin_fval t Hpt). pose proof (pfin_fval elapsed He).
  destruct (fadd_ge t elapsed t Hpt He Hpt ltac:(lia)) as [->|[Hp Hge]]; [by left|]. right.
  destruct (fadd_ge t elapsed elapsed Hpt He He ltac:(lia)) as [Hi|[_ Hge2]].
  { rewrite Hi in Hp. by destruct Hp as [[Hf _] _]. }
  split; [|done]. split; [by apply dict_wf_set|]. split; [by apply dict_all_set|done].
Qed.

(** ** A device *)

Definition demo_logger : EventTimeLogger :=
  mk_EventTimeLogger [(UL_COMM, f_of_Z 3); (DEV_COMP, f_of_Z 7); (DL_COMM, f_of_Z 9)] (f_of_Z 1) "dev" (f_of_Z 100) None.
Lemma demo_timed : timed demo_logger.
Proof.
  split; [repeat constructor; set_solver|]. split; [repeat constructor; by vm_compute|].
  apply pfinb_pfin. by vm_compute.
Qed.
Definition demo_synced : EventTimeLogger := (sync_time demo_logger).2.
Lemma demo_sync : sync_time demo_logger = (Ret (f_of_Z 9), demo_synced).
Proof. vm_compute. reflexivity. Qed.
Definition demo_recorded : EventTimeLogger := (record (f_of_Z 2) DL_COMM (Some [UL_COMM]) demo_logger).2.
Lemma demo_record : record (f_of_Z 2) DL_COMM (Some [UL_COMM]) demo_logger = (Ret tt, demo_recorded).
Proof. vm_compute. reflexivity. Qed.

Lemma sync_time_levels_witness :
  event_timers demo_synced = [(UL_COMM, f_of_Z 9); (DEV_COMP, f_of_Z 9); (DL_COMM, f_of_Z 9)].
Proof. exact (proj1 (sync_time_levels demo_logger _ demo_synced demo_timed demo_sync)). Defined.

(** The timer of an event that does not wait for its own last end goes back, here from 9 to 5. *)
Lemma record_waits_witness : exists t,
  fval t >= fval (f_of_Z 3) /\ dict_get DL_COMM (event_timers demo_recorded) = Some (fadd t (f_of_Z 2)) /\
  dict_get DL_COMM (event_timers demo_recorded) = Some (f_of_Z 5).
Proof.
  assert (H2 : pfin (f_of_Z 2)) by (apply pfinb_pfin; vm_compute; reflexivity).
  destruct (record_waits (f_of_Z 2) DL_COMM (Some [UL_COMM]) demo_logger demo_recorded demo_timed H2 demo_record)
    as (t & (_ & _ & Hw) & Hd & _).
  exists t. split; [|split; [exact Hd|vm_compute; reflexivity]].
  assert (fval (f_of_Z 3) <= fval t); [|lia]. apply (Hw UL_COMM); [set_solver|reflexivity].
Defined.

(** A logger made without events cannot be made. *)
Example default_events_raise now : is_ret (init "dev" None now) = false.
Proof. reflexivity. Qed.
