(* ===== verification/PerfAnalysis.v ===== *)
(** * Throughput of a performance log ([scripts/analyze_perf.py])

    The analyzer reads the rows of a log, sums the bytes of every device and of the server
    over the measured time, and finds the peak of the concurrent throughput with a sweep over
    the starts and ends of the packets.  Rows are those of [csv.DictReader]; the printed
    report, with the statistics it prints, is left out. *)

From stdpp Require Import sorting.
From S2P Require Import Prelude PyDict PyStr PyFloat FloatOrder PyJson Violations.
From S2P Require BatchRuntime WithinBatch.

Definition million : float := f_of_Z 1000000.

(** [z / 1_000_000.0] *)
Definition seconds (us : Z) : outcome float := x ← float_of_int us; fdiv x million.

Inductive direction : Type := Upload | Download.
Definition direction_name (d : direction) : string :=
  match d with Upload => "upload" | Download => "download" end.

Record DeviceStats : Type := mk_stats {
  upload : list float;
  download : list float;
  upload_bytes : list Z;
  download_bytes : list Z;
  packet_durations : list Z;
  timestamps : list Z;
  epoch_starts : list Z;
  epoch_ends : list Z;
}.
Definition no_stats : DeviceStats := mk_stats [] [] [] [] [] [] [] [].

Definition throughputs (d : direction) (s : DeviceStats) : list float :=
  match d with Upload => upload s | Download => download s end.
Definition sizes (d : direction) (s : DeviceStats) : list Z :=
  match d with Upload => upload_bytes s | Download => download_bytes s end.

(** ** The peak of the concurrent throughput *)

Record packet : Type := mk_packet {
  p_device : string;
  p_start : Z;
  p_end : Z;
  p_tp : float;
}.

Record event : Type := mk_event {
  e_time : Z;
  e_start : bool;
  e_device : string;
  e_tp : float;
}.

Definition start_event (p : packet) : event := mk_event (p_start p) true (p_device p) (p_tp p).
Definition end_event (p : packet) : event := mk_event (p_end p) false (p_device p) (p_tp p).

(** One turn of the loop over a device's packets: the packet at [index], if it counts *)
Definition packet_at (d : direction) (device : string) (s : DeviceStats) (index : nat) : outcome (option packet) :=
  match epoch_starts s !! index, epoch_ends s !! index with
  | Some start_us, Some end_us =>
      duration ← seconds (end_us - start_us);
      let duration := if fle duration fzero then f_lit 1 3 else duration in
      let packet_size := default 0 (sizes d s !! index) in
      if 0 <? packet_size then
        size ← float_of_int packet_size;
        tp ← fdiv size duration;
        Ret (Some (mk_packet device start_us end_us tp))
      else Ret None
  | _, _ => Ret None
  end.

Definition device_packets (d : direction) (device : string) (s : DeviceStats) : outcome (list packet) :=
  match timestamps s with
  | [] => Ret []
  | _ => ps ← mapO (packet_at d device s) (seq 0 (length (throughputs d s))); Ret (omap (M := list) id ps)
  end.

Definition all_packets (d : direction) (stats : pydict string DeviceStats) : outcome (list packet) :=
  l ← mapO (fun kv => device_packets d kv.1 kv.2) stats; Ret (concat l).

(** Events at the same time: ends come before starts. *)
Definition event_leb (x y : event) : bool :=
  (e_time x <? e_time y) || (e_time x =? e_time y) && implb (e_start x) (e_start y).

Definition events_of (ps : list packet) : list event :=
  sort_by event_leb (concat (map (fun p => [start_event p; end_event p]) ps)).

(** The active packets, by device, with the greatest throughput so far and its time *)
Record sweep : Type := mk_sweep {
  active : pydict string float;
  peak_tp : float;
  peak_time_us : Z;
}.

Definition remove_key {V} (k : string) (d : pydict string V) : pydict string V :=
  filter (fun kv => kv.1 <> k) d.

Definition apply_event (a : pydict string float) (e : event) : pydict string float :=
  if e_start e then dict_set (e_device e) (e_tp e) a else remove_key (e_device e) a.

Definition current_tp (a : pydict string float) : float := BatchRuntime.py_sum (dict_values a).

Definition sweep_event (s : sweep) (e : event) : sweep :=
  let a := apply_event (active s) e in
  if flt (peak_tp s) (current_tp a) then mk_sweep a (current_tp a) (e_time e)
  else mk_sweep a (peak_tp s) (peak_time_us s).

Definition sweep_events (es : list event) : sweep := foldl sweep_event (mk_sweep [] fzero 0) es.

Definition calculate_peak_throughput (d : direction) (stats : pydict string DeviceStats) : outcome (float * float) :=
  ps ← all_packets d stats;
  match ps with
  | [] => Ret (fzero, fzero)
  | _ => let s := sweep_events (events_of ps) in t ← seconds (peak_time_us s); Ret (peak_tp s, t)
  end.

(** ** The log *)

Record row : Type := mk_row {
  r_device : string;
  r_direction : string;
  r_timestamp : Z;
  r_throughput : float;
  r_bytes : Z;
  r_duration : Z;
  r_epoch_start : Z;
  r_epoch_end : Z;
}.

Definition row_float (key : string) (r : csv_row) : outcome float :=
  f ← of_option (KeyError key) (dict_get key r);
  match f with
  | None => Raise (TypeError "float() argument must be a string or a real number")
  | Some s => of_option (ValueError "could not convert string to float") (float_of_str s)
  end.

Definition parse_row (r : csv_row) : outcome row :=
  device ← of_option (KeyError "device_id") (dict_get "device_id"%string r);
  dir ← of_option (KeyError "direction") (dict_get "direction"%string r);
  dir ← of_option (AttributeError "'NoneType' object has no attribute 'lower'") dir;
  timestamp ← row_int "timestamp_us" r;
  throughput ← row_float "throughput_b_s" r;
  bytes_val ← row_int "bytes" r;
  duration ← row_int "packet_duration_us" r;
  start ← row_int "epoch_start_us" r;
  stop ← row_int "epoch_end_us" r;
  Ret (mk_row (strip (default "None"%string device)) (lower dir) timestamp throughput bytes_val duration start stop).

(** [append] to the lists of a device *)
Definition add_row (r : row) (s : DeviceStats) : DeviceStats :=
  let up := String.eqb (r_direction r) "upload" in
  let down := String.eqb (r_direction r) "download" in
  mk_stats (upload s ++ if up then [r_throughput r] else [])
    (download s ++ if down then [r_throughput r] else [])
    (upload_bytes s ++ if up then [r_bytes r] else [])
    (download_bytes s ++ if down then [r_bytes r] else [])
    (packet_durations s ++ [r_duration r]) (timestamps s ++ [r_timestamp r])
    (epoch_starts s ++ [r_epoch_start r]) (epoch_ends s ++ [r_epoch_end r]).

Section analysis.
(** The devices and the direction asked for; an empty set or text is none *)
Context (target_devices : list string) (direction_filter : string).

Definition kept (r : row) : bool :=
  (match target_devices with [] => true | _ => bool_decide (r_device r ∈ target_devices) end)
  && (is_empty direction_filter || String.eqb (r_direction r) direction_filter).

Definition collect_row (stats : pydict string DeviceStats) (r : csv_row) : outcome (pydict string DeviceStats) :=
  match parse_row r with
  | Ret r => Ret (if kept r then dict_alter (fun o => add_row r (default no_stats o)) (r_device r) stats else stats)
  | Raise (ValueError _) | Raise (KeyError _) => Ret stats
  | Raise e => Raise e
  end.

(** *** The warm-up *)

(** [ts >= x], with a float *)
Definition at_least (ts : Z) (x : float) : bool :=
  match x with S754_nan => false | _ => negb (WithinBatch.int_lt_float ts x) end.

(** [index] of the loop over the timestamps of a device: the appends to its new lists *)
Definition keep_index (s : DeviceStats) (index : Z) (ts : Z) (n : DeviceStats) : outcome DeviceStats :=
  up ← (match upload s with
        | [] => Ret ([], [])
        | _ => x ← py_index (upload s) index; b ← py_index (upload_bytes s) index; Ret ([x], [b])
        end);
  down ← (match download s with
          | [] => Ret ([], [])
          | _ => x ← py_index (download s) index; b ← py_index (download_bytes s) index; Ret ([x], [b])
          end);
  duration ← py_index (packet_durations s) index;
  start ← py_index (epoch_starts s) index;
  stop ← py_index (epoch_ends s) index;
  Ret (mk_stats (upload n ++ up.1) (download n ++ down.1) (upload_bytes n ++ up.2) (download_bytes n ++ down.2)
         (packet_durations n ++ [duration]) (timestamps n ++ [ts]) (epoch_starts n ++ [start]) (epoch_ends n ++ [stop])).

Definition skip_device (limit : float) (new : pydict string DeviceStats) (kv : string * DeviceStats) :
    outcome (pydict string DeviceStats) :=
  foldO (fun new its =>
    if at_least its.2 limit then
      n ← keep_index kv.2 (Z.of_nat its.1) its.2 (default no_stats (dict_get kv.1 new));
      Ret (dict_set kv.1 n new)
    else Ret new) (imap pair (timestamps kv.2)) new.

(** [global_start_us], which the warm-up makes a float *)
Definition duration_from (start : float) (global_end : Z) : outcome float :=
  stop ← float_of_int global_end; fdiv (fsub stop start) million.

(** *** The result *)

Record device_info : Type := mk_info {
  i_upload_bytes : Z;
  i_download_bytes : Z;
  i_runtime_s : float;
}.

Record analysis : Type := mk_analysis {
  total_rows : Z;
  global_duration_s : float;
  total_upload_bytes : Z;
  total_download_bytes : Z;
  total_bytes : Z;
  device_summary : pydict string device_info;
}.

Definition summary_of (s : DeviceStats) : outcome device_info :=
  runtime ← (match min_list (timestamps s), max_list (timestamps s) with
             | Some first, Some last => seconds (last - first)
             | _, _ => Ret fzero
             end);
  Ret (mk_info (match upload s with [] => 0 | _ => sum_list (upload_bytes s) end)
         (match download s with [] => 0 | _ => sum_list (download_bytes s) end) runtime).

(** [sorted(stats.keys(), key=lambda x: int(x))] *)
Definition numbered (stats : pydict string DeviceStats) : outcome (list (Z * string)) :=
  mapO (fun kv => n ← of_option (ValueError "invalid literal for int()") (int_of_str kv.1); Ret (n, kv.1)) stats.

Definition by_number (x y : Z * string) : bool := x.1 <=? y.1.

Definition summaries (stats : pydict string DeviceStats) : outcome (pydict string device_info) :=
  ids ← numbered stats;
  mapO (fun i => info ← summary_of (dict_get_default i.2 no_stats stats); Ret (i.2, info)) (sort_by by_number ids).

(** The rates of the server: a rate of what was transferred is printed, or raises *)
Definition server_rate (bytes : Z) (duration : float) : outcome float :=
  if 0 <? bytes then b ← float_of_int bytes; fdiv b duration else Ret fzero.

(** What is computed between the statistics and the report *)
Definition conclude (total_rows : Z) (duration : float) (stats : pydict string DeviceStats) : outcome analysis :=
  summary ← summaries stats;
  let up := sum_list (map (fun kv => i_upload_bytes kv.2) summary) in
  let down := sum_list (map (fun kv => i_download_bytes kv.2) summary) in
  server_rate up duration;; server_rate down duration;;
  server_total ← server_rate (up + down) duration;
  peak_up ← calculate_peak_throughput Upload stats;
  peak_down ← calculate_peak_throughput Download stats;
  (if (0 <? up + down) && flt fzero server_total then x ← fdiv (fadd peak_up.1 peak_down.1) server_total; Ret tt
   else Ret tt);;
  Ret (mk_analysis total_rows duration up down (up + down) summary).

(** The body of the [try]: [None] is a log without data *)
Definition analyze (skip_warmup_seconds : float) (rows : list csv_row) : outcome (option analysis) :=
  stats ← foldO collect_row rows [];
  match min_list (concat (map (fun kv => timestamps kv.2) stats)), max_list (concat (map (fun kv => timestamps kv.2) stats)) with
  | Some start, Some stop =>
      duration ← seconds (stop - start);
      if flt fzero skip_warmup_seconds then
        let warmup_us := fmul skip_warmup_seconds million in
        first ← float_of_int start;
        let limit := fadd first warmup_us in
        stats ← foldO (skip_device limit) stats [];
        duration ← duration_from limit stop;
        a ← conclude (Z.of_nat (length rows)) duration stats; Ret (Some a)
      else a ← conclude (Z.of_nat (length rows)) duration stats; Ret (Some a)
  | _, _ => Ret None
  end.

(** Any exception is printed, and there is no result; [text] is what opening and reading the
    file gives. *)
Definition analyze_perf_log (log_file : string) (text : outcome (list (list string)))
    (skip_warmup_seconds : float) : option analysis :=
  if is_empty log_file then None
  else match (table ← text; analyze skip_warmup_seconds (dict_rows table)) with
       | Ret r => r
       | Raise _ => None
       end.
End analysis.

(** ** Sums of part of the packets *)

Lemma foldl_fadd_pnum l : forall x, pnum x -> Forall pnum l -> pnum (foldl fadd x l).
Proof.
  induction l as [|y l IH]; intros x Hx Hl; [done|]. apply Forall_cons in Hl as [Hy Hl].
  apply IH; [|done]. by apply fadd_pnum.
Qed.

Lemma foldl_fadd_sublist l l' : l `sublist_of` l' -> Forall pnum l' -> forall x x', pnum x -> pnum x' ->
  fle x x' = true -> fle (foldl fadd x l) (foldl fadd x' l') = true.
Proof.
  induction 1 as [|y l l' Hs IH|y l l' Hs IH]; intros Hl x x' Hx Hx' Hle; [done|..];
    apply Forall_cons in Hl as [Hy Hl]; cbn [foldl].
  - apply IH; [done|by apply fadd_pnum|by apply fadd_pnum|by apply fadd_mono].
  - apply IH; [done|done|by apply fadd_pnum|]. eapply fle_trans; [exact Hle|by apply fle_fadd].
Qed.

Lemma pnum_zero : pnum fzero.
Proof. left. by apply pfinb_pfin. Qed.

Lemma py_sum_pnum l : Forall pnum l -> pnum (BatchRuntime.py_sum l).
Proof. intros Hl. apply foldl_fadd_pnum; [exact pnum_zero|done]. Qed.

(** A sum of some of the numbers is at most the sum of all, rounding included. *)
Lemma py_sum_sublist l l' : l `sublist_of` l' -> Forall pnum l' ->
  fle (BatchRuntime.py_sum l) (BatchRuntime.py_sum l') = true.
Proof.
  intros Hs Hl. apply foldl_fadd_sublist; [done|done|exact pnum_zero|exact pnum_zero|done].
Qed.

(** ** Sorting *)

Lemma filter_implied {A} (P Q : A -> Prop) `{forall x, Decision (P x)} `{forall x, Decision (Q x)} (l : list A) :
  (forall x, x ∈ l -> P x -> Q x) -> filter P l `sublist_of` filter Q l.
Proof.
  induction l as [|x l IH]; intros Hpq; [done|]. rewrite !filter_cons.
  specialize (IH (fun y Hy => Hpq y (list_elem_of_further y x l Hy))).
  pose proof (Hpq x (list_elem_of_here x l)). repeat case_decide; try tauto; by constructor.
Qed.

Lemma insert_front {A} (le : A -> A -> bool) x l :
  Forall (fun y => le x y = true) l -> insert_by le x l = x :: l.
Proof. destruct 1 as [|y l Hy _]; [done|]. cbn. by rewrite Hy. Qed.

Lemma filter_insert {A} (le : A -> A -> bool) (P : A -> Prop) `{forall x, Decision (P x)} x l :
  (forall x y z, le x y = true -> le y z = true -> le x z = true) ->
  StronglySorted (fun x y => le x y = true) l ->
  filter P (insert_by le x l) = if decide (P x) then insert_by le x (filter P l) else filter P l.
Proof.
  intros Ht. induction 1 as [|y l Hs IH Hf]; cbn [insert_by].
  { rewrite filter_cons. cbn. by destruct (decide (P x)). }
  destruct (le x y) eqn:Hxy.
  - rewrite filter_cons. destruct (decide (P x)); [|done]. symmetry. apply insert_front.
    apply Forall_forall. intros z [_ [->|Hz]%elem_of_cons]%list_elem_of_filter; [done|].
    rewrite Forall_forall in Hf. eapply Ht; [exact Hxy|by apply Hf].
  - rewrite filter_cons, IH, (filter_cons _ y l). destruct (decide (P y)), (decide (P x)); try done.
    cbn [insert_by]. by rewrite Hxy.
Qed.

Lemma filter_sort {A} (le : A -> A -> bool) (P : A -> Prop) `{forall x, Decision (P x)} l :
  (forall x y, le x y = true \/ le y x = true) ->
  (forall x y z, le x y = true -> le y z = true -> le x z = true) ->
  filter P (sort_by le l) = sort_by le (filter P l).
Proof.
  intros Htot Ht. induction l as [|x l IH]; [done|]. cbn [sort_by foldr].
  change (foldr (insert_by le) [] l) with (sort_by le l).
  rewrite filter_insert, IH, (filter_cons _ x l); [by destruct (decide (P x))|done|by apply sort_by_sorted].
Qed.

Lemma sort_map {A A'} (f : A -> A') (le : A' -> A' -> bool) l :
  sort_by le (map f l) = map f (sort_by (fun x y => le (f x) (f y)) l).
Proof.
  induction l as [|x l IH]; [done|]. cbn [map sort_by foldr].
  change (foldr (insert_by le) [] (map f l)) with (sort_by le (map f l)). rewrite IH.
  change (foldr (insert_by (fun x y => le (f x) (f y))) [] l) with (sort_by (fun x y => le (f x) (f y)) l).
  clear IH. induction (sort_by (fun x y => le (f x) (f y)) l) as [|y m IHm]; [done|]. cbn [map insert_by].
  destruct (le (f x) (f y)); cbn [map]; [done|by rewrite IHm].
Qed.

Lemma event_leb_total x y : event_leb x y = true \/ event_leb y x = true.
Proof.
  unfold event_leb. destruct (Z.ltb_spec (e_time x) (e_time y)), (Z.ltb_spec (e_time y) (e_time x)),
    (Z.eqb_spec (e_time x) (e_time y)), (Z.eqb_spec (e_time y) (e_time x)); try lia; cbn; auto.
  destruct (e_start x), (e_start y); auto.
Qed.

Lemma event_leb_spec x y : event_leb x y = true <->
  e_time x < e_time y \/ e_time x = e_time y /\ (e_start x = true -> e_start y = true).
Proof.
  unfold event_leb. rewrite orb_true_iff, andb_true_iff, Z.ltb_lt, Z.eqb_eq, implb_true_iff. done.
Qed.

Lemma event_leb_trans x y z : event_leb x y = true -> event_leb y z = true -> event_leb x z = true.
Proof. rewrite !event_leb_spec. intros [?|[? ?]] [?|[? ?]]; try (left; lia). right. split; [lia|auto]. Qed.

#[export] Instance packet_eq_dec : EqDecision packet.
Proof. solve_decision. Defined.
#[export] Instance event_eq_dec : EqDecision event.
Proof. solve_decision. Defined.

(** ** The peak as a maximum over the instants *)

(** The packets of a device follow each other, and none is empty. *)
Definition separated (ps : list packet) : Prop :=
  NoDup ps /\ (forall p, p ∈ ps -> p_start p < p_end p) /\
  (forall p q, p ∈ ps -> q ∈ ps -> p_device p = p_device q -> p <> q ->
     p_end p <= p_start q \/ p_end q <= p_start p).

Definition earlier (p q : packet) : bool := p_start p <=? p_start q.

(** The throughput of the packets in flight at [t], summed in the order of their starts *)
Definition concurrent (ps : list packet) (t : Z) : float :=
  BatchRuntime.py_sum (map p_tp (filter (fun p => p_start p <= t < p_end p) (sort_by earlier ps))).

Section sweeping.
Context (ps : list packet) (sep : separated ps) (numbers : Forall (fun p => pnum (p_tp p)) ps).

Lemma elem_events e : e ∈ events_of ps <-> exists p, p ∈ ps /\ (e = start_event p \/ e = end_event p).
Proof using Type.
  unfold events_of. rewrite elem_of_sort_by, list_elem_of_In, in_concat. split.
  - intros (l & Hl & He). apply in_map_iff in Hl as (p & <- & Hp). exists p.
    split; [by apply list_elem_of_In|]. cbn in He. destruct He as [<-|[<-|[]]]; auto.
  - intros (p & Hp & He). exists [start_event p; end_event p]. split.
    + apply in_map_iff. exists p. split; [done|by apply list_elem_of_In].
    + cbn. destruct He as [->| ->]; auto.
Qed.

Lemma events_sorted : StronglySorted (fun x y => event_leb x y = true) (events_of ps).
Proof using Type. apply sort_by_sorted; [apply event_leb_total|apply event_leb_trans]. Qed.

Lemma starts_of_events : filter (fun e => e_start e = true) (events_of ps) = map start_event (sort_by earlier ps).
Proof using Type.
  unfold events_of. rewrite filter_sort by (apply event_leb_total || apply event_leb_trans).
  assert (filter (fun e => e_start e = true) (concat (map (fun p => [start_event p; end_event p]) ps))
          = map start_event ps) as ->.
  { clear. induction ps as [|p l IH]; [done|]. cbn [map concat app]. rewrite filter_cons_True by done.
    rewrite filter_cons_False by done. by rewrite IH. }
  rewrite sort_map. f_equal. clear. unfold sort_by. induction ps as [|p l IH]; [done|]. cbn [foldr].
  rewrite IH. generalize (foldr (insert_by earlier) [] l). intros m. induction m as [|q m IHm]; [done|].
  cbn [insert_by]. rewrite IHm. unfold event_leb, earlier. cbn.
  destruct (Z.ltb_spec (p_start p) (p_start q)), (Z.eqb_spec (p_start p) (p_start q)),
    (Z.leb_spec (p_start p) (p_start q)); try lia; done.
Qed.

(** Where an event is, in a list cut in two *)
Lemma start_before_end p : p ∈ ps -> event_leb (end_event p) (start_event p) = false.
Proof using sep.
  intros Hp. apply not_true_iff_false. rewrite event_leb_spec. cbn. destruct sep as (_ & Hpos & _).
  specialize (Hpos p Hp). lia.
Qed.

Section cut.
Context (pre suf : list event) (cut : events_of ps = pre ++ suf).

Lemma cut_order x y : x ∈ pre -> y ∈ suf -> event_leb x y = true.
Proof using cut.
  intros Hx Hy. pose proof events_sorted as Hs. rewrite cut in Hs.
  exact (StronglySorted_app_1_elem_of _ _ _ _ _ Hs Hx Hy).
Qed.

Lemma cut_cases e : e ∈ events_of ps -> e ∈ pre \/ e ∈ suf.
Proof using cut. rewrite cut. apply elem_of_app. Qed.

Lemma started_first p : p ∈ ps -> end_event p ∈ pre -> start_event p ∈ pre.
Proof using cut sep.
  intros Hp He. destruct (cut_cases (start_event p)) as [|Hs]; [apply elem_events; eauto|done|].
  pose proof (cut_order _ _ He Hs) as Hle. by rewrite start_before_end in Hle.
Qed.
End cut.

Lemma same_device p q : p ∈ ps -> q ∈ ps -> p_device p = p_device q -> p_start p < p_end q ->
  p_start q < p_end p -> p = q.
Proof using sep.
  intros Hp Hq Hd H1 H2. destruct (decide (p = q)) as [|Hne]; [done|].
  destruct sep as (_ & _ & Hsep). destruct (Hsep p q Hp Hq Hd Hne); lia.
Qed.

Lemma start_event_inj p q : p ∈ ps -> q ∈ ps -> start_event p = start_event q -> p = q.
Proof using sep.
  intros Hp Hq [= Hs Hd _]. pose proof sep as (_ & Hpos & _). pose proof (Hpos p Hp). pose proof (Hpos q Hq).
  apply same_device; [done|done|done|lia|lia].
Qed.

Lemma end_event_inj p q : p ∈ ps -> q ∈ ps -> end_event p = end_event q -> p = q.
Proof using sep.
  intros Hp Hq [= Hs Hd _]. pose proof sep as (_ & Hpos & _). pose proof (Hpos p Hp). pose proof (Hpos q Hq).
  apply same_device; [done|done|done|lia|lia].
Qed.

Lemma events_nodup : NoDup (events_of ps).
Proof using sep.
  unfold events_of. rewrite sort_by_perm. pose proof sep as (Hnd & _).
  assert (Hin : forall p, p ∈ ps -> p ∈ ps) by done. revert Hnd Hin. generalize ps at 1 2 4. intros l Hnd.
  induction Hnd as [|p l Hp Hnd IH]; intros Hin; [constructor|]. cbn [map concat app].
  assert (Hl : forall e, e ∈ concat (map (fun p => [start_event p; end_event p]) l) ->
            exists q, q ∈ l /\ (e = start_event q \/ e = end_event q)).
  { intros e (l' & Hl' & He)%list_elem_of_In%in_concat. apply in_map_iff in Hl' as (q & <- & Hq).
    exists q. split; [by apply list_elem_of_In|]. cbn in He. destruct He as [<-|[<-|[]]]; auto. }
  assert (Hpp : p ∈ ps) by (apply Hin; left).
  constructor; [|constructor; [|apply IH; intros q Hq; apply Hin; by right]].
  - intros [He|He]%elem_of_cons; [done|]. destruct (Hl _ He) as (q & Hq & [He'|He']); [|done].
    apply start_event_inj in He'; [by subst|done|apply Hin; by right].
  - intros He. destruct (Hl _ He) as (q & Hq & [He'|He']); [done|].
    apply end_event_inj in He'; [by subst|done|apply Hin; by right].
Qed.

Definition entry (p : packet) : string * float := (p_device p, p_tp p).

Lemma earlier_in Q1 Q2 q : sort_by earlier ps = Q1 ++ Q2 -> q ∈ Q1 -> q ∈ ps.
Proof using Type. intros HQ Hq. rewrite <- (elem_of_sort_by earlier), HQ. apply elem_of_app. by left. Qed.

Lemma earlier_started Q1 pre q :
  filter (fun e => e_start e = true) pre = map start_event Q1 -> q ∈ Q1 -> start_event q ∈ pre.
Proof using Type.
  intros Hpre Hq. assert (start_event q ∈ map start_event Q1) as Hm by by apply list_elem_of_fmap_2.
  rewrite <- Hpre in Hm. by apply list_elem_of_filter in Hm as [_ Hm].
Qed.

(** A packet that is active at the start of another one is another device's. *)
Lemma active_after_start Q1 Q2 pre suf p :
  events_of ps = pre ++ start_event p :: suf -> sort_by earlier ps = Q1 ++ Q2 -> p ∈ ps ->
  filter (fun e => e_start e = true) pre = map start_event Q1 ->
  apply_event (map entry (filter (fun q => end_event q ∉ pre) Q1)) (start_event p)
  = map entry (filter (fun q => end_event q ∉ pre ++ [start_event p]) (Q1 ++ [p])).
Proof using sep.
  intros Hcut HQ Hp Hpre. pose proof events_nodup as Hnd. rewrite Hcut in Hnd.
  apply NoDup_app in Hnd as (_ & Hnd & _). pose proof sep as (_ & Hpos & _).
  assert (Hep : end_event p ∉ pre).
  { intros He. apply (Hnd (start_event p)); [|left].
    by apply (started_first pre (start_event p :: suf)). }
  rewrite filter_app, map_app. rewrite (filter_cons_True _ p []); [|intros [?|?%list_elem_of_singleton]%elem_of_app; done].
  rewrite (filter_agree (fun q => end_event q ∉ pre ++ [start_event p]) (fun q => end_event q ∉ pre)).
  2:{ intros q _. rewrite not_elem_of_app, list_elem_of_singleton. naive_solver. }
  unfold apply_event. cbn [e_start start_event e_device e_tp]. apply dict_set_fresh.
  unfold dict_keys. rewrite <- list_fmap_compose. intros (q & Hd & [Heq Hq]%list_elem_of_filter)%list_elem_of_fmap.
  cbn in Hd. pose proof (earlier_in _ _ _ HQ Hq) as Hqp. pose proof (earlier_started _ _ _ Hpre Hq) as Hsq.
  assert (q <> p) as Hne by (intros ->; by apply (Hnd (start_event p)); [|left]).
  assert (Hes : end_event q ∈ suf).
  { destruct (cut_cases _ _ Hcut (end_event q)) as [|[|]%elem_of_cons]; [apply elem_events; eauto|done|done|done]. }
  pose proof (cut_order _ _ Hcut _ _ Hsq (list_elem_of_here (start_event p) suf)) as H1.
  assert (Hcut' : events_of ps = (pre ++ [start_event p]) ++ suf) by (rewrite <- app_assoc; exact Hcut).
  pose proof (cut_order _ _ Hcut' (start_event p) (end_event q) ltac:(apply elem_of_app; right; left) Hes) as H2.
  rewrite event_leb_spec in H1, H2. cbn in H1, H2. specialize (Hpos p Hp). apply Hne.
  apply same_device; [done|done|done| |]; [lia|]. destruct H2 as [|[_ H2]]; [lia|]. by discriminate H2.
Qed.

Lemma active_after_end Q1 Q2 pre suf p :
  events_of ps = pre ++ end_event p :: suf -> sort_by earlier ps = Q1 ++ Q2 -> p ∈ ps ->
  filter (fun e => e_start e = true) pre = map start_event Q1 ->
  apply_event (map entry (filter (fun q => end_event q ∉ pre) Q1)) (end_event p)
  = map entry (filter (fun q => end_event q ∉ pre ++ [end_event p]) Q1).
Proof using sep.
  intros Hcut HQ Hp Hpre. pose proof sep as (_ & Hpos & _).
  unfold apply_event, remove_key. cbn [e_start end_event e_device].
  assert (Hf : forall l, filter (fun kv : string * float => kv.1 <> p_device p) (map entry l)
            = map entry (filter (fun q => p_device q <> p_device p) l)).
  { induction l as [|q l IH]; [done|]. cbn [map]. rewrite !filter_cons. cbn [entry fst].
    rewrite IH. by case_decide. }
  rewrite Hf, list_filter_filter. f_equal. apply filter_agree. intros q Hq.
  rewrite not_elem_of_app, list_elem_of_singleton.
  split; [intros [Hd He]; split; [done|]; intros [= _ Hd']; done|]. intros [He Hne]. split; [|done]. intros Hd.
  pose proof (earlier_in _ _ _ HQ Hq) as Hqp. pose proof (earlier_started _ _ _ Hpre Hq) as Hsq.
  assert (Hcut' : events_of ps = (pre ++ [end_event p]) ++ suf) by (rewrite <- app_assoc; exact Hcut).
  assert (Hes : end_event q ∈ suf).
  { destruct (cut_cases _ _ Hcut (end_event q)) as [|[|]%elem_of_cons]; [apply elem_events; eauto|done|done|done]. }
  pose proof (cut_order _ _ Hcut _ _ Hsq (list_elem_of_here (end_event p) suf)) as H1.
  pose proof (cut_order _ _ Hcut' (end_event p) (end_event q) ltac:(apply elem_of_app; right; left) Hes) as H2.
  rewrite event_leb_spec in H1, H2. cbn in H1, H2. pose proof (Hpos p Hp).
  assert (q = p) as ->; [|done]. apply same_device; [done|done|done| |].
  - destruct H1 as [|[_ H1]]; [lia|]. by discriminate H1.
  - lia.
Qed.

(** The packets that started before a cut are the first ones; those of them that have not
    ended are the active ones. *)
Lemma active_at_cut pre suf : events_of ps = pre ++ suf ->
  exists Q1 Q2, sort_by earlier ps = Q1 ++ Q2 /\
    filter (fun e => e_start e = true) pre = map start_event Q1 /\
    filter (fun e => e_start e = true) suf = map start_event Q2 /\
    foldl apply_event [] pre = map entry (filter (fun p => end_event p ∉ pre) Q1).
Proof using sep.
  revert suf. induction pre as [|e pre IH] using rev_ind; intros suf Hcut.
  { exists [], (sort_by earlier ps). rewrite <- starts_of_events, Hcut. done. }
  rewrite <- app_assoc in Hcut. cbn [app] in Hcut.
  destruct (IH (e :: suf) Hcut) as (Q1 & Q2 & HQ & Hpre & Hsuf & Hact). clear IH.
  rewrite foldl_app, Hact, filter_app. cbn [foldl].
  assert (He : e ∈ events_of ps) by (rewrite Hcut; apply elem_of_app; right; left).
  apply elem_events in He as (p & Hp & [->| ->]).
  - rewrite filter_cons_True in Hsuf by done. destruct Q2 as [|p' Q2]; [done|]. injection Hsuf as Hs1 Hs2 Hs3 Hsuf.
    assert (p' ∈ ps) by (rewrite <- (elem_of_sort_by earlier), HQ; apply elem_of_app; right; left).
    assert (p' = p) as -> by (apply start_event_inj; [done|done|unfold start_event; congruence]).
    exists (Q1 ++ [p]), Q2. rewrite <- app_assoc. split; [done|].
    rewrite map_app, Hpre. split; [done|]. split; [done|].
    by apply (active_after_start Q1 (p :: Q2) pre suf).
  - rewrite filter_cons_False in Hsuf by done. exists Q1, Q2. split; [done|].
    rewrite Hpre, app_nil_r. split; [done|]. split; [done|].
    by apply (active_after_end Q1 Q2 pre suf).
Qed.
(** The throughput after some of the events *)
Definition current_after (pre : list event) : float := current_tp (foldl apply_event [] pre).

Lemma current_at_cut pre Q1 :
  foldl apply_event [] pre = map entry (filter (fun p => end_event p ∉ pre) Q1) ->
  current_after pre = BatchRuntime.py_sum (map p_tp (filter (fun p => end_event p ∉ pre) Q1)).
Proof using Type.
  intros Ha. unfold current_after, current_tp, dict_values. rewrite Ha. f_equal.
  by rewrite <- list_fmap_compose.
Qed.

Lemma numbers_of Q : (forall q, q ∈ Q -> q ∈ ps) -> Forall pnum (map p_tp Q).
Proof using numbers.
  intros HQ. apply Forall_forall. intros x (q & -> & Hq)%list_elem_of_fmap.
  rewrite Forall_forall in numbers. by apply numbers, HQ.
Qed.

Lemma in_earlier q : q ∈ sort_by earlier ps -> q ∈ ps.
Proof using Type. by rewrite elem_of_sort_by. Qed.

Lemma concurrent_pnum t : pnum (concurrent ps t).
Proof using numbers.
  apply py_sum_pnum, numbers_of. intros q [_ Hq]%list_elem_of_filter. by apply in_earlier.
Qed.

Lemma current_pnum pre suf : events_of ps = pre ++ suf -> pnum (current_after pre).
Proof using sep numbers.
  intros Hcut. destruct (active_at_cut pre suf Hcut) as (Q1 & Q2 & HQ & _ & _ & Ha).
  rewrite (current_at_cut pre Q1 Ha). apply py_sum_pnum, numbers_of.
  intros q [_ Hq]%list_elem_of_filter. by eapply earlier_in.
Qed.

(** After all events up to [t], the packets in flight at [t] are active. *)
Lemma current_at_time t pre suf : events_of ps = pre ++ suf ->
  (forall e, e ∈ pre -> e_time e <= t) -> (forall e, e ∈ suf -> t < e_time e) ->
  current_after pre = concurrent ps t.
Proof using sep.
  intros Hcut Hb Ha. destruct (active_at_cut pre suf Hcut) as (Q1 & Q2 & HQ & Hpre & Hsuf & Hact).
  rewrite (current_at_cut pre Q1 Hact). unfold concurrent. do 2 f_equal. rewrite HQ, filter_app.
  rewrite (filter_false _ Q2), app_nil_r.
  2:{ apply Forall_forall. intros q Hq. pose proof (earlier_started _ _ _ Hsuf Hq) as Hs.
      apply Ha in Hs. cbn in Hs. lia. }
  apply filter_agree. intros q Hq. pose proof (earlier_started _ _ _ Hpre Hq) as Hs.
  apply Hb in Hs. cbn in Hs. pose proof (earlier_in _ _ _ HQ Hq) as Hqp. split.
  - intros He. split; [done|].
    destruct (cut_cases _ _ Hcut (end_event q)) as [|Hes]; [apply elem_events; eauto|done|]. by apply Ha in Hes.
  - intros Ht He. apply Hb in He. cbn in He. lia.
Qed.

Lemma cut_at t : exists pre suf, events_of ps = pre ++ suf /\
  (forall e, e ∈ pre -> e_time e <= t) /\ (forall e, e ∈ suf -> t < e_time e).
Proof using Type.
  clear sep numbers. pose proof events_sorted as Hs. induction Hs as [|e es Hs IH Hf]; [by exists [], []; set_solver|].
  destruct IH as (pre & suf & -> & Hb & Ha). destruct (Z.le_gt_cases (e_time e) t) as [Hle|Hgt].
  - exists (e :: pre), suf. split; [done|]. split; [|done]. intros e' [->|He]%elem_of_cons; auto.
  - exists [], (e :: pre ++ suf). split; [done|]. split; [set_solver|].
    intros e' [->|He]%elem_of_cons; [done|]. rewrite Forall_forall in Hf. apply Hf in He.
    apply event_leb_spec in He. lia.
Qed.

(** Every throughput of the sweep is reached by packets in flight at the start of one. *)
Lemma current_below pre suf : events_of ps = pre ++ suf -> ps <> [] ->
  exists p, p ∈ ps /\ fle (current_after pre) (concurrent ps (p_start p)) = true.
Proof using sep numbers.
  intros Hcut Hne. revert suf Hcut. induction pre as [|e pre IH] using rev_ind; intros suf Hcut.
  { assert (exists p, p ∈ ps) as [p Hp] by (clear - Hne; destruct ps as [|p l]; [done|exists p; left]).
    exists p. split; [done|].
    change (current_after []) with (BatchRuntime.py_sum []). apply py_sum_sublist; [apply sublist_nil_l|].
    apply numbers_of. intros q [_ Hq]%list_elem_of_filter. by apply in_earlier. }
  pose proof Hcut as Hcut'. rewrite <- app_assoc in Hcut'. cbn [app] in Hcut'.
  assert (He : e ∈ events_of ps) by (rewrite Hcut'; apply elem_of_app; right; left).
  apply elem_events in He as (p & Hp & [->| ->]).
  - exists p. split; [done|]. destruct (active_at_cut _ _ Hcut) as (Q1 & Q2 & HQ & Hpre & _ & Hact).
    rewrite (current_at_cut _ Q1 Hact). apply py_sum_sublist.
    2:{ apply numbers_of. intros q [_ Hq]%list_elem_of_filter. by apply in_earlier. }
    apply fmap_sublist. rewrite HQ, filter_app. apply sublist_inserts_r, filter_implied.
    intros q Hq Hend. pose proof (earlier_started _ _ _ Hpre Hq) as Hs.
    destruct (cut_cases _ _ Hcut (end_event q)) as [|Hes]; [|done|].
    { apply elem_events. exists q. split; [by eapply earlier_in|auto]. }
    pose proof (cut_order _ _ Hcut (start_event p) _ ltac:(apply elem_of_app; right; left) Hes) as H2.
    assert (H1 : p_start q <= p_start p).
    { apply elem_of_app in Hs as [Hs|[= -> _ _]%list_elem_of_singleton]; [|done].
      pose proof (cut_order _ _ Hcut' _ _ Hs (list_elem_of_here (start_event p) suf)) as H1.
      apply event_leb_spec in H1. cbn in H1. lia. }
    apply event_leb_spec in H2. cbn in H2. split; [done|]. destruct H2 as [|[_ H2]]; [lia|]. by discriminate H2.
  - destruct (IH _ Hcut') as (p' & Hp' & Hle). exists p'. split; [done|]. eapply fle_trans; [|exact Hle].
    destruct (active_at_cut _ _ Hcut') as (Q1 & Q2 & HQ & Hpre & _ & Hact).
    unfold current_after, current_tp. rewrite foldl_app, Hact. cbn [foldl]. apply py_sum_sublist.
    + unfold dict_values. apply fmap_sublist. unfold apply_event, remove_key. cbn [e_start end_event].
      apply sublist_filter.
    + unfold dict_values. rewrite <- list_fmap_compose. apply numbers_of.
      intros q [_ Hq]%list_elem_of_filter. by eapply earlier_in.
Qed.

(** The sweep keeps the active packets and the greatest throughput so far. *)
Lemma sweep_peak pre suf : events_of ps = pre ++ suf ->
  let s := sweep_events pre in
  active s = foldl apply_event [] pre /\ pnum (peak_tp s) /\
  (forall p1 p2, pre = p1 ++ p2 -> fle (current_after p1) (peak_tp s) = true) /\
  exists p1 p2, pre = p1 ++ p2 /\ peak_tp s = current_after p1.
Proof using sep numbers.
  revert suf. induction pre as [|e pre IH] using rev_ind; intros suf Hcut.
  { split; [done|]. split; [exact pnum_zero|]. split; [|by exists [], []].
    intros p1 p2 Hp. symmetry in Hp. by apply app_nil in Hp as [-> _]. }
  pose proof (current_pnum _ _ Hcut) as Hn. rewrite <- app_assoc in Hcut.
  destruct (IH _ Hcut) as (Ha & Hp & Hle & (q1 & q2 & Hq & Hat)). clear IH.
  unfold sweep_events in *. rewrite foldl_app. cbn [foldl]. set (s := foldl sweep_event _ pre) in *.
  unfold sweep_event. rewrite Ha.
  assert (Hc : apply_event (foldl apply_event [] pre) e = foldl apply_event [] (pre ++ [e])) by by rewrite foldl_app.
  rewrite Hc. change (current_tp (foldl apply_event [] (pre ++ [e]))) with (current_after (pre ++ [e])).
  assert (Hall : forall x, fle (current_after (pre ++ [e])) x = true -> fle (peak_tp s) x = true ->
    forall p1 p2, pre ++ [e] = p1 ++ p2 -> fle (current_after p1) x = true).
  { intros x H1 H2 p1 p2 Hp12. destruct p2 as [|e' p2 _] using rev_ind; [by rewrite app_nil_r in Hp12; subst|].
    rewrite app_assoc in Hp12. apply app_inj_tail in Hp12 as [-> _]. eapply fle_trans; [by eapply Hle|done]. }
  destruct (flt (peak_tp s) (current_after (pre ++ [e]))) eqn:Hlt; cbn [active peak_tp].
  - split; [done|]. split; [done|]. split; [|by exists (pre ++ [e]), []; rewrite app_nil_r].
    apply Hall; [by apply fle_refl, pnum_not_nan|by apply flt_fle].
  - split; [done|]. split; [done|]. split.
    + apply Hall; [|by apply fle_refl, pnum_not_nan]. by apply flt_le; [apply pnum_not_nan..|].
    + exists q1, (q2 ++ [e]). split; [by rewrite app_assoc, <- Hq|done].
Qed.

Lemma sweep_maximum : ps <> [] ->
  let peak := peak_tp (sweep_events (events_of ps)) in
  (forall t, fle (concurrent ps t) peak = true) /\
  exists p, p ∈ ps /\ fle peak (concurrent ps (p_start p)) = true.
Proof using sep numbers.
  intros Hne peak. destruct (sweep_peak (events_of ps) [] ltac:(by rewrite app_nil_r)) as (_ & _ & Hle & (p1 & p2 & Hp & Hat)).
  split.
  - intros t. destruct (cut_at t) as (pre & suf & Hcut & Hb & Ha).
    rewrite <- (current_at_time t pre suf Hcut Hb Ha). by apply (Hle pre suf).
  - unfold peak. rewrite Hat. by apply (current_below p1 p2).
Qed.
End sweeping.

(** *** The packets of a log *)

Lemma float_of_int_pfin z x : 0 <= z -> float_of_int z = Ret x -> pfin x.
Proof.
  unfold float_of_int, f_of_Z, f_norm. destruct z as [|p|p]; [by intros _ [= <-]; apply pfinb_pfin| |lia].
  cbn [binary_normalize]. intros _. destruct (binary_round_spec p 0 ltac:(unfold emin; lia)) as (q & e1 & l & _ & _ & _ & _ & Hr).
  apply rounded_pnum in Hr as [[Hp _]|[-> _]]; [|done]. destruct (binary_round _ _ _ _ _); by intros [= <-].
Qed.

Lemma fdiv_pnum x y q : pfin x -> pnum y -> fdiv x y = Ret q -> pnum q.
Proof.
  intros Hx [Hy| ->] Hq.
  - destruct (fdiv_ge x y fzero q Hx Hy ltac:(by apply pfinb_pfin) Hq) as [->|[H _]]; [|by right|by left].
    pose proof (pfin_fval x Hx). pose proof one_pos. cbn [fval fzero]. nia.
  - apply pfin_cases in Hx as [->|(m & e & -> & _)]; injection Hq as <-; exact pnum_zero.
Qed.

Lemma million_pfin : pfin million.
Proof. apply pfinb_pfin. vm_compute. reflexivity. Qed.
Lemma milli_pnum : pnum (f_lit 1 3).
Proof. left. apply pfinb_pfin. vm_compute. reflexivity. Qed.

Lemma packet_numbers d device s i p :
  packet_at d device s i = Ret (Some p) -> p_start p < p_end p -> pnum (p_tp p).
Proof.
  unfold packet_at. destruct (epoch_starts s !! i) as [start|]; [|done]. destruct (epoch_ends s !! i) as [stop|]; [|done].
  unfold seconds. destruct (float_of_int (stop - start)) as [x|] eqn:Hx; [|done]. cbn [mbind outcome_bind].
  destruct (fdiv x million) as [q|] eqn:Hq; [|done]. cbn [mbind outcome_bind].
  destruct (Z.ltb_spec 0 (default 0 (sizes d s !! i))) as [Hs|]; [|done].
  destruct (float_of_int (default 0 (sizes d s !! i))) as [size|] eqn:Hsize; [|done]. cbn [mbind outcome_bind].
  set (duration := if fle q fzero then _ else q). destruct (fdiv size duration) as [tp|] eqn:Htp; [|done].
  intros [= <-]. cbn. intros Hlt. eapply fdiv_pnum; [|clear Htp|exact Htp].
  - by eapply float_of_int_pfin; [|exact Hsize]; lia.
  - unfold duration. destruct (fle q fzero); [exact milli_pnum|].
    apply (fdiv_pnum x million); [|left; exact million_pfin|exact Hq].
    eapply float_of_int_pfin; [|exact Hx]. lia.
Qed.

Lemma packets_of_log d stats ps : all_packets d stats = Ret ps ->
  Forall (fun p => p_start p < p_end p -> pnum (p_tp p)) ps.
Proof.
  unfold all_packets. destruct (mapO _ stats) as [l|] eqn:Hl; [|done]. intros [= <-].
  apply Forall_forall. intros p (l' & Hl' & Hp)%list_elem_of_In%in_concat.
  apply list_elem_of_In, list_elem_of_lookup in Hl' as [i Hi].
  destruct (mapO_lookup _ _ _ _ _ Hl Hi) as (kv & _ & Hkv). unfold device_packets in Hkv.
  destruct (timestamps kv.2); [by injection Hkv as <-|].
  destruct (mapO (packet_at d kv.1 kv.2) _) as [os|] eqn:Hos; [|done]. injection Hkv as <-.
  apply list_elem_of_In, list_elem_of_omap in Hp as (o & Ho & Hp). cbn in Hp. subst o.
  apply list_elem_of_lookup in Ho as [k Hk]. destruct (mapO_lookup _ _ _ _ _ Hos Hk) as (j & _ & Hj).
  by eapply packet_numbers.
Qed.

(** C36: the peak is the maximum of the concurrent throughput.  Where the packets the sweep
    sees are not empty and those of a device follow each other, the peak that
    [calculate_peak_throughput] returns is at least the throughput of the packets in flight
    at every instant, summed in the order of their starts and with the same rounding, and it
    is at most that at the start of one of the packets. *)
Theorem peak_is_concurrent_maximum d stats ps peak time :
  all_packets d stats = Ret ps -> ps <> [] -> separated ps ->
  calculate_peak_throughput d stats = Ret (peak, time) ->
  (forall t, fle (concurrent ps t) peak = true) /\
  exists p, p ∈ ps /\ fle peak (concurrent ps (p_start p)) = true.
Proof.
  intros Hps Hne Hsep Hpeak. unfold calculate_peak_throughput in Hpeak. rewrite Hps in Hpeak.
  cbn [mbind outcome_bind] in Hpeak. destruct ps as [|p0 ps']; [done|].
  destruct (seconds _) as [t|]; [|done]. injection Hpeak as <- _.
  apply sweep_maximum; [done| |done]. apply Forall_forall. intros p Hp.
  pose proof (packets_of_log d stats _ Hps) as Hall. rewrite Forall_forall in Hall.
  apply Hall; [done|]. by apply Hsep.
Qed.

(** ** The totals *)

Section totals.
Context (target_devices : list string) (direction_filter : string).

(** The rows the analysis counts *)
Definition kept_row (r : csv_row) : option row :=
  match parse_row r with
  | Ret x => if kept target_devices direction_filter x then Some x else None
  | Raise _ => None
  end.

Definition transferred (d : direction) (rows : list csv_row) : Z :=
  sum_list (map r_bytes (filter (fun r => r_direction r = direction_name d) (omap kept_row rows))).

(** The sum over the devices *)
Definition over_devices (d : direction) (stats : pydict string DeviceStats) : Z :=
  sum_list (map (fun kv => sum_list (sizes d kv.2)) stats).

Lemma over_devices_set d k s stats :
  over_devices d (dict_set k s stats)
  = over_devices d stats - sum_list (sizes d (default no_stats (dict_get k stats))) + sum_list (sizes d s).
Proof.
  unfold over_devices. induction stats as [|[k' s'] stats IH]; cbn [dict_set dict_get map].
  { destruct d; cbn; lia. }
  destruct (decide (k = k')) as [->|Hne]; cbn [map]; rewrite !sum_list_cons; cbn [snd].
  { cbn [from_option]. change (id s') with s'. lia. }
  rewrite IH. lia.
Qed.

Lemma sizes_add_row d r s :
  sum_list (sizes d (add_row r s))
  = sum_list (sizes d s) + if bool_decide (r_direction r = direction_name d) then r_bytes r else 0.
Proof.
  destruct d; cbn [sizes add_row upload_bytes download_bytes direction_name]; rewrite sum_list_app; f_equal.
  - destruct (String.eqb_spec (r_direction r) "upload") as [Hr|Hr]; case_bool_decide; try done; cbn; lia.
  - destruct (String.eqb_spec (r_direction r) "download") as [Hr|Hr]; case_bool_decide; try done; cbn; lia.
Qed.

(** A throughput for every size *)
Definition paired (s : DeviceStats) : Prop :=
  length (upload s) = length (upload_bytes s) /\ length (download s) = length (download_bytes s).

Lemma paired_add_row r s : paired s -> paired (add_row r s).
Proof.
  intros [Hu Hd]. split; cbn [add_row upload upload_bytes download download_bytes]; rewrite !length_app.
  - rewrite Hu. by destruct (String.eqb _ _).
  - rewrite Hd. by destruct (String.eqb _ _).
Qed.

Lemma collected rows stats stats' :
  dict_wf stats -> dict_all paired stats ->
  foldO (collect_row target_devices direction_filter) rows stats = Ret stats' ->
  dict_wf stats' /\ dict_all paired stats' /\
  forall d, over_devices d stats' = over_devices d stats + transferred d rows.
Proof.
  revert stats. induction rows as [|r rows IH]; intros stats Hwf Hp; cbn [foldO].
  { intros [= <-]. split; [done|]. split; [done|]. intros d. cbn. lia. }
  assert (Hskip : kept_row r = None -> forall d, transferred d (r :: rows) = transferred d rows).
  { intros Hk d. unfold transferred. cbn [omap list_omap]. by rewrite Hk. }
  unfold collect_row at 1. unfold kept_row in Hskip. destruct (parse_row r) as [x|e] eqn:Hr.
  2:{ specialize (Hskip eq_refl). destruct e; try done; intros Hf;
        destruct (IH stats Hwf Hp Hf) as (H1 & H2 & H3); (split; [done|]); (split; [done|]);
        intros d; by rewrite Hskip, H3. }
  destruct (kept target_devices direction_filter x) eqn:Hk.
  2:{ intros Hf. destruct (IH stats Hwf Hp Hf) as (H1 & H2 & H3). split; [done|]. split; [done|].
      intros d. by rewrite Hskip, H3. }
  set (grown := dict_alter (fun o => add_row x (default no_stats o)) (r_device x) stats). intros Hf.
  assert (Hwf' : dict_wf grown) by by apply dict_wf_alter.
  assert (Hp' : dict_all paired grown).
  { apply dict_all_alter; [done|by apply paired_add_row|]. intros v Hv. by apply paired_add_row. }
  destruct (IH grown Hwf' Hp' Hf) as (H1 & H2 & H3). unfold grown in H3.
  split; [done|]. split; [done|]. intros d. rewrite H3. unfold dict_alter. rewrite over_devices_set, sizes_add_row.
  unfold transferred. cbn [omap list_omap]. unfold kept_row at 2. rewrite Hr, Hk, filter_cons.
  case_bool_decide; destruct (decide _); try done; cbn [map]; rewrite ?sum_list_cons; lia.
Qed.

Lemma sum_list_perm l l' : l ≡ₚ l' -> sum_list l = sum_list l'.
Proof. induction 1; rewrite ?sum_list_cons in *; lia. Qed.

(** What a summary counts in a direction *)
Definition counted (d : direction) (i : device_info) : Z :=
  match d with Upload => i_upload_bytes i | Download => i_download_bytes i end.

Lemma summary_counts d s info : paired s -> summary_of s = Ret info -> counted d info = sum_list (sizes d s).
Proof.
  intros [Hu Hd]. unfold summary_of. destruct (match min_list _ with Some _ => _ | None => _ end); [|done].
  intros [= <-]. destruct d; cbn.
  - destruct (upload s); [|done]. by destruct (upload_bytes s).
  - destruct (download s); [|done]. by destruct (download_bytes s).
Qed.

Lemma summed d stats ids l : dict_all paired stats ->
  mapO (fun i => info ← summary_of (dict_get_default i.2 no_stats stats); Ret (i.2, info)) ids = Ret l ->
  map (fun kv => counted d kv.2) l
  = map (fun i : Z * string => sum_list (sizes d (dict_get_default i.2 no_stats stats))) ids.
Proof.
  intros Hp. revert l. induction ids as [|i ids IH]; intros l; cbn [mapO]; [by intros [= <-]|].
  destruct (summary_of _) as [info|] eqn:Hi; [|done]. cbn [mbind outcome_bind].
  destruct (mapO _ ids) as [l'|]; [|done]. intros [= <-]. cbn [map snd]. rewrite (IH l' eq_refl). f_equal.
  eapply summary_counts; [|exact Hi]. by apply dict_all_get_default.
Qed.

Lemma numbered_keys stats ids : numbered stats = Ret ids -> map snd ids = dict_keys stats.
Proof.
  unfold numbered. revert ids. induction stats as [|kv stats IH]; intros ids; cbn [mapO]; [by intros [= <-]|].
  destruct (int_of_str kv.1); [|done]. cbn [of_option mbind outcome_bind].
  destruct (mapO _ stats) as [ids'|]; [|done]. intros [= <-]. cbn. by rewrite (IH ids' eq_refl).
Qed.

Lemma over_keys d (stats : pydict string DeviceStats) : dict_wf stats ->
  map (fun k => sum_list (sizes d (dict_get_default k no_stats stats))) (dict_keys stats)
  = map (fun kv => sum_list (sizes d kv.2)) stats.
Proof.
  intros Hwf. unfold dict_keys. rewrite <- list_fmap_compose. apply list_fmap_ext.
  intros i [k s] Hi. cbn. unfold dict_get_default.
  by rewrite (dict_elem_get k s stats Hwf (list_elem_of_lookup_2 _ _ _ Hi)).
Qed.

Lemma summaries_total d (stats : pydict string DeviceStats) summary : dict_wf stats -> dict_all paired stats -> summaries stats = Ret summary ->
  sum_list (map (fun kv => counted d kv.2) summary) = over_devices d stats.
Proof.
  intros Hwf Hp. unfold summaries. destruct (numbered stats) as [ids|] eqn:Hids; [|done]. cbn [mbind outcome_bind].
  intros Hs. rewrite (summed d stats _ _ Hp Hs). unfold over_devices. rewrite <- over_keys by done.
  rewrite <- (numbered_keys stats ids Hids), map_map. apply sum_list_perm. apply Permutation_map, sort_by_perm.
Qed.

(** Without a warm-up every byte is counted once.  When the analysis of a log returns a
    result, its totals are the sums over the rows that parse and are asked for, direction by
    direction, however they are spread over the devices. *)
Theorem totals_exact rows a :
  analyze target_devices direction_filter fzero rows = Ret (Some a) ->
  total_rows a = Z.of_nat (length rows) /\
  total_upload_bytes a = transferred Upload rows /\ total_download_bytes a = transferred Download rows /\
  total_bytes a = transferred Upload rows + transferred Download rows.
Proof.
  unfold analyze. destruct (foldO (collect_row _ _) rows []) as [stats|] eqn:Hf; [|done]. cbn [mbind outcome_bind].
  destruct (collected rows [] stats dict_wf_nil (dict_all_nil _) Hf) as (Hwf & Hp & Hsum).
  destruct (min_list _) as [start|]; [|done]. destruct (max_list _) as [stop|]; [|done].
  destruct (seconds (stop - start)) as [duration|]; [|done]. cbn [mbind outcome_bind].
  change (flt fzero fzero) with false. cbn [andb].
  destruct (conclude _ duration stats) as [a'|] eqn:Ha; [|done]. intros [= <-]. unfold conclude in Ha.
  destruct (summaries stats) as [summary|] eqn:Hs; [|done]. cbn [mbind outcome_bind] in Ha.
  pose proof (summaries_total Upload stats summary Hwf Hp Hs) as Hu.
  pose proof (summaries_total Download stats summary Hwf Hp Hs) as Hd. cbn [counted] in Hu, Hd. rewrite Hu, Hd in Ha.
  assert (total_upload_bytes a' = over_devices Upload stats /\ total_download_bytes a' = over_devices Download stats
          /\ total_bytes a' = over_devices Upload stats + over_devices Download stats
          /\ total_rows a' = Z.of_nat (length rows)) as (-> & -> & -> & ->).
  { unfold mbind, outcome_bind in Ha.
    repeat match type of Ha with
           | match ?x with Ret _ => _ | Raise _ => _ end = _ => destruct x; [|done]
           end.
    by injection Ha as <-. }
  rewrite !Hsum. cbn. lia.
Qed.
End totals.

(** ** Logs *)

Definition uploads (epochs : list (Z * Z)) (bytes : list Z) : DeviceStats :=
  mk_stats (map (fun _ => fzero) bytes) [] bytes [] [] (map snd epochs) (map fst epochs) (map snd epochs).

(** Three packets on two devices; two are in flight from the second second on. *)
Definition demo_stats : pydict string DeviceStats :=
  [("0", uploads [(0, 1000000); (2000000, 3000000)] [1000; 3000]);
   ("1", uploads [(500000, 2500000)] [4000])]%string.
Definition demo_packets : list packet :=
  [mk_packet "0" 0 1000000 (f_of_Z 1000); mk_packet "0" 2000000 3000000 (f_of_Z 3000);
   mk_packet "1" 500000 2500000 (f_of_Z 2000)].

Lemma demo_all_packets : all_packets Upload demo_stats = Ret demo_packets.
Proof. vm_compute. reflexivity. Qed.
Lemma demo_separated : separated demo_packets.
Proof.
  unfold demo_packets. split; [|split].
  - repeat constructor; rewrite ?not_elem_of_cons; (repeat split); try (intros [=]); apply not_elem_of_nil.
  - intros p Hp. repeat (apply elem_of_cons in Hp as [->|Hp]; [cbn; lia|]). by apply not_elem_of_nil in Hp.
  - intros p q Hp Hq. repeat (apply elem_of_cons in Hp as [->|Hp]; [|]); [..|by apply not_elem_of_nil in Hp];
      repeat (apply elem_of_cons in Hq as [->|Hq]; [|]); try (by apply not_elem_of_nil in Hq);
      cbn; intros Hd Hne; first [congruence|lia].
Qed.
Lemma demo_peak : calculate_peak_throughput Upload demo_stats = Ret (f_of_Z 5000, f_of_Z 2).
Proof. vm_compute. reflexivity. Qed.

Lemma peak_is_concurrent_maximum_witness :
  fle (concurrent demo_packets 2400000) (f_of_Z 5000) = true /\
  exists p, p ∈ demo_packets /\ fle (f_of_Z 5000) (concurrent demo_packets (p_start p)) = true.
Proof.
  destruct (peak_is_concurrent_maximum Upload demo_stats demo_packets (f_of_Z 5000) (f_of_Z 2)
              demo_all_packets ltac:(discriminate) demo_separated demo_peak) as [Hall Hex].
  split; [apply Hall|exact Hex].
Defined.

(** A packet without duration is taken for a millisecond, but its end comes before its start:
    it stays active, and the peak is a sum that was never reached. *)
Example empty_packet_stays :
  calculate_peak_throughput Upload
    [("0", uploads [(0, 0)] [1]); ("1", uploads [(1000000, 2000000)] [500])]%string
  = Ret (f_of_Z 1500, f_of_Z 1).
Proof. vm_compute. reflexivity. Qed.

(** Two packets of a device at the same time count as the later one. *)
Example overlap_counts_once :
  calculate_peak_throughput Upload [("0", uploads [(0, 2000000); (1000000, 3000000)] [2000; 2000])]%string
  = Ret (f_of_Z 1000, fzero).
Proof. vm_compute. reflexivity. Qed.

(** A device with both directions: the upload has the times of the download before it. *)
Definition both_directions : DeviceStats :=
  add_row (mk_row "0" "upload" 20000000 fzero 7000 1 10000000 20000000)
    (add_row (mk_row "0" "download" 1000000 fzero 500 1 0 1000000) no_stats).
Example upload_misplaced :
  all_packets Upload [("0"%string, both_directions)] = Ret [mk_packet "0" 0 1000000 (f_of_Z 7000)].
Proof. vm_compute. reflexivity. Qed.

Definition log_header : list string :=
  ["timestamp_us"; "device_id"; "direction"; "bytes"; "throughput_b_s"; "epoch_start_us"; "epoch_end_us";
   "packet_duration_us"]%string.
Definition demo_table : list (list string) :=
  [log_header; ["0"; "0"; "upload"; "1000"; "10.0"; "0"; "1000000"; "5"]; ["500000"; "1"; "UPLOAD"; "4000"; "9.5"; "500000"; "2500000"; "7"];
   ["oops"; "1"; "upload"; "9"; "1.0"; "0"; "1"; "1"]; ["4000000"; "1"; "download"; "300"; "1"; "3000000"; "4000000"; "2"]]%string.
Definition demo_analysis : analysis :=
  mk_analysis 4 (f_of_Z 4) 5000 300 5300
    [("0", mk_info 1000 0 fzero); ("1", mk_info 4000 300 (f_lit 35 1))]%string.

Lemma demo_analyzed : analyze [] "" fzero (dict_rows demo_table) = Ret (Some demo_analysis).
Proof. vm_compute. reflexivity. Qed.

Lemma totals_exact_witness :
  total_upload_bytes demo_analysis = transferred [] "" Upload (dict_rows demo_table) /\
  transferred [] "" Upload (dict_rows demo_table) = 5000.
Proof.
  split; [|vm_compute; reflexivity].
  exact (proj1 (proj2 (totals_exact [] "" (dict_rows demo_table) demo_analysis demo_analyzed))).
Defined.

(** A warm-up makes the analysis of a device with both directions fail; so does a log with a
    single time. *)
Example warmup_fails : analyze_perf_log [] "" "perf.log" (Ret demo_table) (f_lit 1 1) = None.
Proof. vm_compute. reflexivity. Qed.
Example single_time_fails :
  analyze_perf_log [] "" "perf.log" (Ret (take 2 demo_table)) fzero = None.
Proof. vm_compute. reflexivity. Qed.
