(* ===== verification/GoldenRefs.v ===== *)
(** * Golden references of a training run ([scripts/generate_golden_references.py],
      [tests/python/testutils/determinism.py])

    The script trains a model from fixed seeds with PyTorch's deterministic settings and
    keeps the losses, the norms of the gradients and the logits of a sample.  PyTorch's
    settings and the environment variable it reads are a record of their own; the rest of
    PyTorch, with the model under training and its optimizer, is a world [W] that the
    operations of the class [Torch] change.  A generator of random tensors is a value.  The
    file system and the JSON writer are parameters too. *)

From S2P Require Import Prelude PyDict PyStr PyFloat PyJson.

(** ** The deterministic settings *)

Record settings : Type := mk_settings {
  cudnn_deterministic : bool;
  cudnn_benchmark : bool;
  det_algorithms : option bool;        (** [None]: a PyTorch without this setting *)
  cublas_workspace : option string;    (** [os.environ["CUBLAS_WORKSPACE_CONFIG"]] *)
}.

Definition set_det_algorithms (b : option bool) (st : settings) : settings :=
  mk_settings (cudnn_deterministic st) (cudnn_benchmark st) b (cublas_workspace st).

(** The process: settings, PyTorch's world and files *)
Record process (W F : Type) : Type := mk_process {
  config : settings;
  world : W;
  files : F;
}.
Arguments mk_process {W F}. Arguments config {W F}. Arguments world {W F}.
Arguments files {W F}.

Definition set_config {W F} (st : settings) (s : process W F) : process W F :=
  mk_process st (world s) (files s).

(** An operation of PyTorch depends on the settings. *)
Definition Op (W A : Type) : Type := settings -> M W A.

Definition torch {W F A} (o : Op W A) : M (process W F) A := fun s =>
  let '(r, w) := o (config s) (world s) in (r, mk_process (config s) w (files s)).

Definition on_files {W F A} (m : M F A) : M (process W F) A := fun s =>
  let '(r, f) := m (files s) in (r, mk_process (config s) (world s) f).

(** ** What a model and its tokenizer answer *)

(** [None] is an attribute that is absent or [None]. *)
Record tokenizer_view : Type := mk_tokenizer_view {
  tok_vocab_size : option json;
  tok_len : option Z;                    (** [len(tokenizer)], if it has one *)
}.

Record model_view : Type := mk_model_view {
  cfg_vocab_size : option json;          (** [model.config.vocab_size] *)
  num_embeddings : option json;          (** of [model.get_input_embeddings()] *)
}.

(** A model returns a tensor, or an object with items, when it is a dictionary, and
    attributes; a loss may be [None]. *)
Inductive outputs (T : Type) : Type :=
  | OTensor (t : T)
  | OObject (items : option (pydict string (option T))) (attrs : pydict string (option T)).
Arguments OTensor {T} t. Arguments OObject {T} items attrs.

Definition item_or_attr {T} (k : string) (items : option (pydict string (option T)))
    (attrs : pydict string (option T)) : option (option T) :=
  match items with
  | Some d => match dict_get k d with Some v => Some v | None => dict_get k attrs end
  | None => dict_get k attrs
  end.

(** The logits [None] pass here; a use of them raises. *)
Definition extract_logits {T} (o : outputs T) : outcome (option T) :=
  match o with
  | OTensor t => Ret (Some t)
  | OObject items attrs =>
      of_option (TypeError "Model output does not contain logits") (item_or_attr "logits" items attrs)
  end.

Definition tensor_of {T} (o : option T) : outcome T :=
  of_option (AttributeError "'NoneType' object has no attribute") o.

Definition extract_loss {T} (o : outputs T) : option T :=
  match o with
  | OTensor _ => None
  | OObject items attrs => default None (item_or_attr "loss" items attrs)
  end.

Definition infer_vocab_size (model : model_view) (tokenizer : option tokenizer_view) : outcome Z :=
  let from_model :=
    match cfg_vocab_size model with
    | Some v => py_int v
    | None => match num_embeddings model with
              | Some n => py_int n
              | None => Raise (ValueError "Unable to infer vocab_size from model/tokenizer")
              end
    end in
  match tokenizer with
  | None => from_model
  | Some tok => match tok_vocab_size tok with
                | Some v => py_int v
                | None => match tok_len tok with Some n => Ret n | None => from_model end
                end
  end.

(** ** PyTorch

    [Gn] are generators; the norm of the gradients is a tensor or a number. *)
Class Torch (W T Gn : Type) : Type := {
  random_seed : Z -> W -> W;
  np_random_seed : Z -> M W unit;
  manual_seed : Z -> M W unit;
  cuda_manual_seed_all : Z -> M W unit;
  cuda_available : bool;
  refuses : bool -> bool;                        (** does the setting raise [RuntimeError]? *)
  load_pretrained : string -> Op W unit;         (** it becomes the model under training *)
  load_tokenizer : string -> Op W tokenizer_view;
  to_device : Op W unit;
  set_training : bool -> Op W unit;              (** [model.train()], [model.eval()] *)
  view_model : Op W model_view;
  make_AdamW : float -> Op W unit;
  zero_grad : Op W unit;
  call_model : T -> option T -> Op W (outputs T);
  call_no_grad : T -> Op W (outputs T);
  cross_entropy : T -> T -> Op W T;
  backward : T -> Op W unit;
  clip_grad_norm : Op W (T + float);
  item : T -> Op W float;
  optimizer_step : Op W unit;
  tensor_to_device : T -> Op W T;
  detach_cpu : T -> Op W T;
  seeded : Z -> Gn;
  randint : Z -> Z -> Z -> Gn -> outcome T * Gn; (** below the first argument, in a shape *)
  torch_equal : T -> T -> bool;
  torch_version : string;
  cuda_version : option string;
  device_name : Op W string;
  now_iso : Op W string;
}.

(** The files under a directory, and [json.dumps(..., indent=2)] *)
Class Output (F T : Type) : Type := {
  mkdir : string -> M F unit;
  write_text : string -> string -> string -> M F unit;   (** directory, name, text *)
  save : T -> string -> string -> M F unit;
  dumps : json -> string;
}.

Record result (T : Type) : Type := mk_result {
  losses : list float;
  grad_norms : list float;
  logits_sample : T;
  metadata : obj;
}.
Arguments mk_result {T}. Arguments losses {T}. Arguments grad_norms {T}.
Arguments logits_sample {T}. Arguments metadata {T}.

(** ** The script *)

Section script.
Context {W F T Gn : Type} {TO : Torch W T Gn} {OUT : Output F T}.
Abbreviation state := (process W F).

Definition seed_world (seed : Z) : M W unit :=
  modify (random_seed seed);;
  np_random_seed seed;;
  manual_seed seed;;
  when cuda_available (cuda_manual_seed_all seed).

Definition set_all_seeds (seed : Z) : M state unit := torch (fun _ => seed_world seed).

Definition use_deterministic_algorithms (b : bool) : M state unit :=
  s ← get;
  match det_algorithms (config s) with
  | None => raise (AttributeError "use_deterministic_algorithms")
  | Some _ => if refuses b then raise (RuntimeError "use_deterministic_algorithms")
              else modify (fun s => set_config (set_det_algorithms (Some b) (config s)) s)
  end.

Definition is_RuntimeError (e : exn) : bool :=
  match e with RuntimeError _ => true | _ => false end.

(** [try: torch.use_deterministic_algorithms(b) except RuntimeError: pass] *)
Definition try_deterministic (b : bool) : M state unit :=
  try_except (use_deterministic_algorithms b)
    (fun e => if is_RuntimeError e then Some (mret tt) else None).

Definition restore (saved : settings) : M state unit :=
  modify (fun s => set_config (mk_settings (cudnn_deterministic saved) (cudnn_benchmark saved)
                                 (det_algorithms (config s)) (cublas_workspace saved)) s);;
  match det_algorithms saved with
  | Some b => try_deterministic b
  | None => mret tt
  end.

Definition deterministic_context {A} (body : M state A) : M state A :=
  saved ← gets config;
  modify (fun s => set_config (mk_settings true false (det_algorithms (config s)) (Some ":4096:8")) s);;
  try_finally (try_deterministic true;; body) (restore saved).

(** The factories of the tests; without one, the model and its tokenizer are downloaded. *)
Context (model_factory : option (string -> Op W unit))
  (tokenizer_factory : option (string -> Op W (option tokenizer_view))).

Definition load_model (model_name : string) : M state (option tokenizer_view) :=
  match model_factory with
  | None => torch (load_pretrained model_name);;
            tokenizer ← torch (load_tokenizer model_name); mret (Some tokenizer)
  | Some f => torch (f model_name);;
              match tokenizer_factory with
              | Some g => torch (g model_name)
              | None => mret None
              end
  end.

(** Random token identifiers on the device, from the generator *)
Definition draw_ids (vocab_size batch_size seq_length : Z) (g : Gn) : M state (T * Gn) :=
  let '(ids, g') := randint vocab_size batch_size seq_length g in
  ids ← lift ids;
  ids ← torch (tensor_to_device ids);
  mret (ids, g').

Definition loss_of (out : outputs T) (logits : option T) (input_ids : T) : M state T :=
  match extract_loss out with
  | Some loss => mret loss
  | None => logits ← lift (tensor_of logits); torch (cross_entropy logits input_ids)
  end.

(** One step: its loss and the norm of its gradients *)
Definition train_step (input_ids : T) : M state (float * float) :=
  torch zero_grad;;
  out ← torch (call_model input_ids (Some input_ids));
  logits ← lift (extract_logits out);
  loss ← loss_of out logits input_ids;
  torch (backward loss);;
  grad_norm ← torch clip_grad_norm;
  value ← torch (item loss);
  norm ← match grad_norm with inl t => torch (item t) | inr x => mret x end;
  torch optimizer_step;;
  mret (value, norm).

Fixpoint train_steps (vocab_size batch_size seq_length : Z) (steps : nat) (g : Gn) :
    M state (list (float * float)) :=
  match steps with
  | O => mret []
  | S steps =>
      drawn ← draw_ids vocab_size batch_size seq_length g;
      x ← train_step drawn.1;
      xs ← train_steps vocab_size batch_size seq_length steps drawn.2;
      mret (x :: xs)
  end.

(** The evaluation sample has a seed of its own. *)
Definition sample_logits (vocab_size batch_size seq_length : Z) : M state T :=
  torch (set_training false);;
  drawn ← draw_ids vocab_size batch_size seq_length (seeded 999);
  out ← torch (call_no_grad drawn.1);
  logits ← lift (extract_logits out);
  logits ← lift (tensor_of logits);
  torch (detach_cpu logits).

Definition or_na (o : option string) : string :=
  match o with Some s => if is_empty s then "N/A" else s | None => "N/A" end.

Definition metadata_of (model_name : string) (steps seed : Z) : M state obj :=
  gpu_name ← (if cuda_available then torch device_name else mret "cpu"%string);
  timestamp ← torch now_iso;
  mret [("seed", JInt seed); ("model", JStr model_name); ("steps", JInt steps);
        ("pytorch_version", JStr torch_version); ("cuda_version", JStr (or_na cuda_version));
        ("gpu_name", JStr gpu_name); ("timestamp", JStr timestamp)]%string.

Definition training (model_name : string) (steps seed batch_size seq_length : Z) :
    M state (list (float * float) * T) :=
  tokenizer ← load_model model_name;
  torch to_device;;
  torch (set_training true);;
  view ← torch view_model;
  vocab_size ← lift (infer_vocab_size view tokenizer);
  torch (make_AdamW (f_lit 5 5));;
  xs ← train_steps vocab_size batch_size seq_length (Z.to_nat steps) (seeded seed);
  logits ← sample_logits vocab_size batch_size seq_length;
  mret (xs, logits).

Definition run_once (model_name : string) (steps seed batch_size seq_length : Z) :
    M state (result T) :=
  set_all_seeds seed;;
  r ← deterministic_context (training model_name steps seed batch_size seq_length);
  meta ← metadata_of model_name steps seed;
  mret (mk_result r.1.*1 r.1.*2 r.2 meta).

Definition json_text (j : json) : string := dumps (F := F) (T := T) j +:+ nl.

Definition persist_outputs (output_dir : string) (r : result T) : M F unit :=
  mkdir output_dir;;
  write_text output_dir "per_step_loss.json" (json_text (JList (map JFloat (losses r))));;
  write_text output_dir "per_step_grad_norm.json" (json_text (JList (map JFloat (grad_norms r))));;
  save (logits_sample r) output_dir "logits_sample.pt";;
  write_text output_dir "metadata.json" (json_text (JObj (metadata r))).

(** [!=] on two lists of floats of different runs *)
Fixpoint same_losses (a b : list float) : bool :=
  match a, b with
  | [], [] => true
  | x :: a, y :: b => feqb x y && same_losses a b
  | _, _ => false
  end.

Definition check_again (first second : result T) : M state unit :=
  if negb (torch_equal (logits_sample first) (logits_sample second))
  then raise (RuntimeError "Determinism verification failed: logits tensors differ")
  else if negb (same_losses (losses first) (losses second))
  then raise (RuntimeError "Determinism verification failed: loss trajectories differ")
  else mret tt.

Definition generate_golden_references (model : string) (steps seed : Z) (output_dir : string)
    (batch_size seq_length : Z) (verify : bool) : M state (result T) :=
  first_result ← run_once model steps seed batch_size seq_length;
  when verify (second_result ← run_once model steps seed batch_size seq_length;
               check_again first_result second_result);;
  on_files (persist_outputs output_dir first_result);;
  mret first_result.

Definition main (model : string) (steps seed : Z) (output_dir : string) (batch_size seq_length : Z)
    (verify : bool) : M state Z :=
  try_except (generate_golden_references model steps seed output_dir batch_size seq_length verify;;
              mret 0)
    (fun _ => Some (mret 1)).

(** ** The settings come back

    A PyTorch that refuses the earlier setting of the deterministic algorithms keeps the
    one of the run. *)
Definition restored (before after : settings) : Prop :=
  cudnn_deterministic after = cudnn_deterministic before /\
  cudnn_benchmark after = cudnn_benchmark before /\
  cublas_workspace after = cublas_workspace before /\
  (det_algorithms after = det_algorithms before \/
   exists b, det_algorithms before = Some b /\ refuses b = true).

Lemma restored_refl st : restored st st.
Proof. repeat split; auto. Qed.

Lemma restored_trans a b c : restored a b -> restored b c -> restored a c.
Proof.
  intros (H1 & H2 & H3 & Hd) (H1' & H2' & H3' & Hd'). repeat split; [congruence..|].
  destruct Hd as [Hd|Hd]; [rewrite Hd in Hd'|]; auto.
Qed.

(** Everything but the settings themselves keeps them. *)
Definition keeps {A} (m : M state A) : Prop := forall st, preserves (fun s => config s = st) m.

Lemma keeps_torch {A} (o : Op W A) : keeps (torch o).
Proof. intros st s Hs. unfold torch. by destruct (o (config s) (world s)). Qed.

Lemma keeps_on_files {A} (m : M F A) : keeps (on_files m).
Proof. intros st s Hs. unfold on_files. by destruct (m (files s)). Qed.

Lemma settings_kept_bind {A B} (m : M state A) (f : A -> M state B) :
  keeps m -> (forall a, keeps (f a)) -> keeps (m ≫= f).
Proof. intros Hm Hf st. apply preserves_bind; [apply Hm|intros a; apply Hf]. Qed.

Lemma settings_kept_ret {A} (a : A) : keeps (mret a).
Proof. intros st. apply preserves_ret. Qed.

Lemma keeps_lift {A} (o : outcome A) : keeps (lift o).
Proof. intros st. apply preserves_lift. Qed.

Ltac keeping :=
  repeat first [apply settings_kept_bind; [|intros ?] | apply keeps_torch | apply keeps_on_files
               | apply settings_kept_ret | apply keeps_lift | case_match].

Lemma train_steps_keeps v b n steps : forall g, keeps (train_steps v b n steps g).
Proof.
  induction steps as [|steps IH]; intros g; cbn [train_steps]; [apply settings_kept_ret|].
  unfold draw_ids, train_step, loss_of. keeping. apply IH.
Qed.

Lemma training_keeps name steps seed b n : keeps (training name steps seed b n).
Proof.
  unfold training, load_model, sample_logits, draw_ids. keeping. apply train_steps_keeps.
Qed.

Lemma metadata_keeps name steps seed : keeps (metadata_of name steps seed).
Proof. unfold metadata_of. keeping. Qed.

Lemma try_deterministic_config b s :
  let s' := (try_deterministic b s).2 in
  cudnn_deterministic (config s') = cudnn_deterministic (config s) /\
  cudnn_benchmark (config s') = cudnn_benchmark (config s) /\
  cublas_workspace (config s') = cublas_workspace (config s) /\
  det_algorithms (config s') =
    match det_algorithms (config s) with
    | None => None
    | Some d => if refuses b then Some d else Some b
    end.
Proof.
  unfold try_deterministic, try_except, use_deterministic_algorithms. run.
  destruct (det_algorithms (config s)) as [d|] eqn:Hd; [|by rewrite ?Hd].
  destruct (refuses b); cbn; by rewrite ?Hd.
Qed.

Lemma restore_restores saved s :
  (det_algorithms (config s) = None <-> det_algorithms saved = None) ->
  restored saved (config (restore saved s).2).
Proof.
  intros Hn. unfold restore. run. destruct (det_algorithms saved) as [b|] eqn:Hs.
  - match goal with |- restored _ (config (try_deterministic b ?s).2) =>
      destruct (try_deterministic_config b s) as (H1 & H2 & H3 & H4) end.
    cbn in *. repeat split; [done..|]. rewrite H4, Hs.
    destruct (det_algorithms (config s)) eqn:He; [|by specialize (proj1 Hn eq_refl)].
    destruct (refuses b) eqn:Hr; [right; by exists b|by left].
  - repeat split; cbn. left. rewrite Hs. by apply Hn.
Qed.

Lemma deterministic_context_restores {A} (body : M state A) s :
  keeps body -> restored (config s) (config (deterministic_context body s).2).
Proof.
  intros Hk. unfold deterministic_context, try_finally. run.
  set (s1 := set_config _ s).
  destruct (try_deterministic_config true s1) as (_ & _ & _ & Hd).
  assert (Hn : forall s2, config s2 = config (try_deterministic true s1).2 ->
    restored (config s) (config (restore (config s) s2).2)).
  { intros s2 Hs2. apply restore_restores. rewrite Hs2, Hd. cbn.
    destruct (det_algorithms (config s)); [destruct (refuses true)|]; done. }
  destruct (try_deterministic true s1) as [[u|e] s2]; cbn in *.
  - specialize (Hk (config s2) s2 eq_refl). destruct (body s2) as [r s3]. cbn in Hk.
    specialize (Hn s3 Hk). by destruct (restore _ s3) as [[?|?] ?].
  - specialize (Hn s2 eq_refl). by destruct (restore _ s2) as [[?|?] ?].
Qed.

Lemma run_once_restores name steps seed b n s :
  restored (config s) (config (run_once name steps seed b n s).2).
Proof.
  unfold run_once, mbind at 1, M_bind at 1.
  pose proof (keeps_torch (fun _ => seed_world seed) (config s) s eq_refl) as Hs.
  fold (set_all_seeds seed) in Hs. destruct (set_all_seeds seed s) as [[u|e] s1]; cbn in Hs;
    [|cbn; rewrite Hs; apply restored_refl].
  rewrite <- Hs. unfold mbind at 1, M_bind at 1.
  pose proof (deterministic_context_restores _ s1 (training_keeps name steps seed b n)) as Hc.
  destruct (deterministic_context _ s1) as [[r|e] s2]; [|exact Hc].
  assert (Hm : keeps (meta ← metadata_of name steps seed; mret (mk_result r.1.*1 r.1.*2 r.2 meta)))
    by (unfold metadata_of; keeping).
  cbn in Hc. by rewrite <- (Hm (config s2) s2 eq_refl) in Hc.
Qed.

(** The settings after the script are those before it, on every exit. *)
Theorem golden_settings_restored name steps seed dir b n verify s :
  restored (config s)
    (config (generate_golden_references name steps seed dir b n verify s).2).
Proof.
  unfold generate_golden_references, mbind at 1, M_bind at 1.
  pose proof (run_once_restores name steps seed b n s) as H1.
  destruct (run_once name steps seed b n s) as [[r1|e] s1]; [|exact H1].
  eapply restored_trans; [exact H1|]. clear H1. unfold mbind at 1, M_bind at 1.
  assert (Hend : forall s2 : state, config ((on_files (persist_outputs dir r1);; mret r1) s2).2 = config s2).
  { intros s2. assert (Hk : keeps (on_files (W := W) (persist_outputs dir r1);; mret r1)) by keeping.
    by apply Hk. }
  destruct verify; cbn [when]; [|cbn; rewrite Hend; apply restored_refl].
  unfold mbind at 1, M_bind at 1.
  pose proof (run_once_restores name steps seed b n s1) as H2.
  destruct (run_once name steps seed b n s1) as [[r2|e] s2]; [|exact H2].
  unfold check_again. destruct (negb (torch_equal _ _)); [exact H2|].
  destruct (negb (same_losses _ _)); [exact H2|]. cbn in *. by rewrite Hend.
Qed.
End script.

(** ** Two runs from the same seeds *)

(** The settings of [deterministic_context] *)
Definition deterministic_settings : settings := mk_settings true false (Some true) (Some ":4096:8"%string).

(** What PyTorch, Python and NumPy document.  Of a world we see its [base] (the files of the
    models, the versions and the hardware, which nothing of a run changes), the states of the
    four random generators, and what of it is the training: the model, its mode, its gradients
    and its optimizer.  Seeding a generator makes its state a function of the seed.  Under the
    deterministic settings only, what an operation returns, and the generators and the training
    it leaves, depend on the base, the generators and the training alone; for loading a model,
    on the base and the generators.  The clock and the device's name are read outside these
    settings: the name is of the base. *)
Section twice.
Context {W F T Gn : Type} {TO : Torch W T Gn} {OUT : Output F T}.
Abbreviation state := (process W F).
Context {B R X : Type} (base : W -> B) (python numpy cpu cuda : W -> R) (trained : W -> X).

Record same_draws (w w' : W) : Prop := mk_same_draws {
  same_base : base w = base w';
  same_python : python w = python w';
  same_numpy : numpy w = numpy w';
  same_cpu : cpu w = cpu w';
  same_cuda : cuda_available = true -> cuda w = cuda w';
}.

Definition same (w w' : W) : Prop := same_draws w w' /\ trained w = trained w'.

Definition keeps_base {A} (st : settings) (o : Op W A) : Prop := forall w, base (o st w).2 = base w.

(** Two runs, from worlds related by [P], of an operation under the deterministic settings *)
Definition alike_from {A} (P : W -> W -> Prop) (o : Op W A) : Prop := forall w w', P w w' ->
  (o deterministic_settings w).1 = (o deterministic_settings w').1 /\
  (is_ret (o deterministic_settings w).1 = true ->
   same (o deterministic_settings w).2 (o deterministic_settings w').2).

Definition respects {A} (o : Op W A) : Prop :=
  keeps_base deterministic_settings o /\ alike_from same o.
Definition loads {A} (o : Op W A) : Prop :=
  keeps_base deterministic_settings o /\ alike_from same_draws o.

(** A seeding sets the generator [g], keeps the others and may refuse the seed. *)
Definition seeds (g : W -> R) (kept : list (W -> R)) (m : M W unit) : Prop :=
  (forall w, base (m w).2 = base w) /\ (forall w h, h ∈ kept -> h (m w).2 = h w) /\
  forall w w', (m w).1 = (m w').1 /\ (is_ret (m w).1 = true -> g (m w).2 = g (m w').2).

Class Deterministic : Prop := {
  seeds_python k : seeds python [] (modify (random_seed k));
  seeds_numpy k : seeds numpy [python] (np_random_seed k);
  seeds_cpu k : seeds cpu [python; numpy] (manual_seed k);
  seeds_cuda k : seeds cuda [python; numpy; cpu] (cuda_manual_seed_all k);
  det_load name : loads (load_pretrained name);
  det_tokenizer name : respects (load_tokenizer name);
  det_to_device : respects to_device;
  det_set_training b : respects (set_training b);
  det_view_model : respects view_model;
  det_AdamW lr : respects (make_AdamW lr);
  det_zero_grad : respects zero_grad;
  det_call_model x y : respects (call_model x y);
  det_call_no_grad x : respects (call_no_grad x);
  det_cross_entropy x y : respects (cross_entropy x y);
  det_backward x : respects (backward x);
  det_clip : respects clip_grad_norm;
  det_item x : respects (item x);
  det_optimizer_step : respects optimizer_step;
  det_tensor_to_device x : respects (tensor_to_device x);
  det_detach x : respects (detach_cpu x);
  name_keeps st : keeps_base st device_name;
  name_of_base st st' w w' : base w = base w' -> (device_name st w).1 = (device_name st' w').1;
  now_keeps st : keeps_base st now_iso;
  now_returns st w : is_ret (now_iso st w).1 = true;
}.
Context {DET : Deterministic}.

(** *** Seeding *)

Definition seed_agrees (m : M W unit) (P Q : W -> W -> Prop) : Prop := forall w w', P w w' ->
  (m w).1 = (m w').1 /\ (is_ret (m w).1 = true -> Q (m w).2 (m w').2).

Lemma seed_agrees_bind (m1 m2 : M W unit) P Q R' :
  seed_agrees m1 P Q -> seed_agrees m2 Q R' -> seed_agrees (m1;; m2) P R'.
Proof.
  intros H1 H2 w w' HP. unfold mbind, M_bind. destruct (H1 w w' HP) as [Ho HQ].
  destruct (m1 w) as [[u|e] w1], (m1 w') as [[u'|e'] w1']; cbn in Ho, HQ; try done.
  by apply H2, HQ.
Qed.

(** The worlds agree on the base and on the generators of a list. *)
Definition agree_on (l : list (W -> R)) (w w' : W) : Prop :=
  base w = base w' /\ forall g, g ∈ l -> g w = g w'.

Lemma seeds_agree g l m : seeds g l m -> seed_agrees m (agree_on l) (agree_on (l ++ [g])).
Proof.
  intros (Hb & Hk & Hg) w w' [Hbase Hl]. split; [apply Hg|]. intros Hret.
  split; [by rewrite !Hb|]. intros h [Hh| ->%list_elem_of_singleton]%elem_of_app.
  - rewrite !Hk by done. by apply Hl.
  - by apply Hg.
Qed.

Lemma seed_world_same seed : seed_agrees (seed_world seed) (fun w w' => base w = base w') same_draws.
Proof using DET.
  assert (Hstart : forall w w', base w = base w' -> agree_on [] w w')
    by (intros w w' Hb; split; [done|]; by intros g ?%elem_of_nil).
  intros w w' Hb. specialize (Hstart w w' Hb). revert w w' Hb Hstart.
  enough (He : seed_agrees (seed_world seed) (agree_on []) same_draws) by (intros w w' _; apply He).
  unfold seed_world. eapply seed_agrees_bind; [apply (seeds_agree _ _ _ (seeds_python seed))|].
  eapply seed_agrees_bind; [apply (seeds_agree _ _ _ (seeds_numpy seed))|].
  eapply seed_agrees_bind; [apply (seeds_agree _ _ _ (seeds_cpu seed))|]. cbn [app].
  destruct cuda_available eqn:Hcuda; cbn [when].
  - intros w w' Hw. destruct (seeds_agree _ _ _ (seeds_cuda seed) w w' Hw) as [Ho Ha].
    split; [done|]. intros Hr. destruct (Ha Hr) as [Hb Hg]. cbn [app] in Hg.
    split; [done|..]; try (intros _); apply Hg; set_solver.
  - intros w w' [Hb Hg]. split; [done|]. intros _. cbn. split; [done|..]; try (apply Hg; set_solver).
    by rewrite Hcuda.
Qed.

Lemma seed_world_keeps seed w : base (seed_world seed w).2 = base w.
Proof using DET.
  unfold seed_world, mbind, M_bind.
  pose proof (proj1 (seeds_python seed) w) as H1. destruct (modify _ w) as [[u1|e] w1]; [|done].
  pose proof (proj1 (seeds_numpy seed) w1) as H2. destruct (np_random_seed seed w1) as [[u2|e] w2];
    cbn in *; [|congruence].
  pose proof (proj1 (seeds_cpu seed) w2) as H3. destruct (manual_seed seed w2) as [[u3|e] w3];
    cbn in *; [|congruence].
  destruct cuda_available; cbn [when]; [|cbn; congruence].
  pose proof (proj1 (seeds_cuda seed) w3) as H4. congruence.
Qed.

(** *** The training under the deterministic settings *)

Definition kept (s s' : state) : Prop := base (world s') = base (world s) /\ files s' = files s.

(** Under these settings, two runs of [m] from worlds related by [P] do the same; the settings
    and the files are not touched. *)
Record repeatable {A} (P : W -> W -> Prop) (m : M state A) : Prop := mk_repeatable {
  rep_kept s : config s = deterministic_settings ->
    config (m s).2 = deterministic_settings /\ kept s (m s).2;
  rep_same s s' : config s = deterministic_settings -> config s' = deterministic_settings ->
    P (world s) (world s') ->
    (m s).1 = (m s').1 /\ (is_ret (m s).1 = true -> same (world (m s).2) (world (m s').2));
}.

Lemma kept_refl s : kept s s.
Proof. done. Qed.

Lemma kept_trans s1 s2 s3 : kept s1 s2 -> kept s2 s3 -> kept s1 s3.
Proof. unfold kept. intros [-> ->] [-> ->]. done. Qed.

Lemma repeatable_torch {A} (P : W -> W -> Prop) (o : Op W A) :
  keeps_base deterministic_settings o -> alike_from P o -> repeatable P (torch o).
Proof.
  intros Hb Hs. split; unfold torch.
  - intros s Hc. specialize (Hb (world s)). rewrite Hc. by destruct (o _ (world s)).
  - intros s s' -> -> Hw. specialize (Hs _ _ Hw). by destruct (o _ (world s)), (o _ (world s')).
Qed.

Lemma repeatable_op {A} (o : Op W A) : respects o -> repeatable same (torch o).
Proof. intros [Hb Hs]. by apply repeatable_torch. Qed.

Lemma repeatable_load {A} (o : Op W A) : loads o -> repeatable same_draws (torch o).
Proof. intros [Hb Hs]. by apply repeatable_torch. Qed.

Lemma repeatable_bind {A A'} P (m : M state A) (f : A -> M state A') :
  repeatable P m -> (forall a, repeatable same (f a)) -> repeatable P (m ≫= f).
Proof.
  intros [Hk Hs] Hf. split; unfold mbind, M_bind.
  - intros s Hc. specialize (Hk s Hc). destruct (m s) as [[a|e] s1]; [|done].
    destruct Hk as [Hc1 Hk]. destruct (rep_kept _ _ (Hf a) s1 Hc1) as [Hc2 Hk2].
    split; [done|]. by eapply kept_trans.
  - intros s s' Hc Hc' Hr. specialize (Hs s s' Hc Hc' Hr).
    pose proof (Hk s Hc) as [Hc1 _]. pose proof (Hk s' Hc') as [Hc1' _].
    destruct (m s) as [[a|e] s1], (m s') as [[a'|e'] s1'];
      destruct Hs as [[= <-] Hr1]; [|done]. by apply (rep_same _ _ (Hf a)), Hr1.
Qed.

Lemma repeatable_ret {A} (a : A) : repeatable same (mret a).
Proof. by split. Qed.

Lemma repeatable_lift {A} (o : outcome A) : repeatable same (lift o).
Proof. by split. Qed.

(** The factories of a caller are to be deterministic too. *)
Context (model_factory : option (string -> Op W unit))
  (tokenizer_factory : option (string -> Op W (option tokenizer_view))).
Context (model_loads : forall f name, model_factory = Some f -> loads (f name))
  (tokenizer_respects : forall g name, tokenizer_factory = Some g -> respects (g name)).

Ltac repeating :=
  repeat first [apply repeatable_bind; [|intros ?] | apply repeatable_ret | apply repeatable_lift
               | apply repeatable_op; solve [eauto | apply DET]
               | apply repeatable_load; solve [eauto | apply DET] | case_match].

Lemma repeatable_draw v b n g : repeatable same (draw_ids v b n g).
Proof using DET. unfold draw_ids. repeating. Qed.

Lemma repeatable_steps v b n steps : forall g, repeatable same (train_steps v b n steps g).
Proof using DET.
  induction steps as [|steps IH]; intros g; cbn [train_steps]; [apply repeatable_ret|].
  apply repeatable_bind; [apply repeatable_draw|]. intros d. apply repeatable_bind; [|intros x].
  - unfold train_step, loss_of. repeating.
  - apply repeatable_bind; [apply IH|intros xs; apply repeatable_ret].
Qed.

Lemma repeatable_training name steps seed b n :
  repeatable same_draws (training model_factory tokenizer_factory name steps seed b n).
Proof using DET model_loads tokenizer_respects.
  unfold training, load_model, sample_logits.
  repeating; try apply repeatable_steps; try apply repeatable_draw.
Qed.

(** *** The context *)

Context (accepted : refuses true = false).

(** The body runs under the deterministic settings, whatever they were before; a PyTorch that
    has no such setting raises. *)
Lemma context_runs {A} (body : M state A) s : keeps body ->
  match det_algorithms (config s) with
  | Some _ => exists st, det_algorithms st <> None /\
      deterministic_context body s =
        ((body (set_config deterministic_settings s)).1,
         set_config st (body (set_config deterministic_settings s)).2)
  | None => (deterministic_context body s).1 = Raise (AttributeError "use_deterministic_algorithms")
      /\ kept s (deterministic_context body s).2
  end.
Proof using accepted.
  intros Hk. unfold deterministic_context, try_finally, try_deterministic, try_except,
    use_deterministic_algorithms. run.
  destruct (det_algorithms (config s)) as [d|] eqn:Hd; run; rewrite ?Hd; run.
  2:{ unfold restore. run. by rewrite Hd. }
  rewrite accepted. run. cbn. specialize (Hk deterministic_settings
    (set_config deterministic_settings s) eq_refl).
  change (set_config (set_det_algorithms _ _) _) with (set_config deterministic_settings s).
  destruct (body (set_config deterministic_settings s)) as [r s1]. cbn [snd] in Hk.
  unfold restore. run. rewrite Hd. unfold try_deterministic, try_except, use_deterministic_algorithms.
  run. rewrite Hk. cbn. destruct (refuses d); cbn; (eexists; split; [|reflexivity]; done).
Qed.

Abbreviation run name steps seed b n := (run_once (F := F) model_factory tokenizer_factory name steps seed b n).

Lemma context_kept {A} (body : M state A) s :
  keeps body -> repeatable same_draws body -> kept s (deterministic_context body s).2.
Proof using accepted.
  intros Hk Hr. pose proof (context_runs body s Hk) as Hc.
  destruct (det_algorithms (config s)); [|apply Hc]. destruct Hc as (st & _ & ->).
  by destruct (rep_kept _ _ Hr (set_config deterministic_settings s) eq_refl) as [_ ?].
Qed.

Lemma kept_torch {A} (o : Op W A) s : (forall st, keeps_base st o) -> kept s (torch o s).2.
Proof. intros Hb. unfold torch. specialize (Hb (config s) (world s)). by destruct (o _ _). Qed.

Lemma kept_bind {A A'} (m : M state A) (f : A -> M state A') s :
  kept s (m s).2 -> (forall a s1, kept s1 (f a s1).2) -> kept s ((m ≫= f) s).2.
Proof.
  intros Hk Hf. unfold mbind, M_bind. destruct (m s) as [[a|e] s1]; [|exact Hk].
  eapply kept_trans; [exact Hk|apply Hf].
Qed.

Lemma metadata_kept name steps seed s : kept s (metadata_of name steps seed s).2.
Proof using DET.
  unfold metadata_of. apply kept_bind.
  - destruct cuda_available; [apply kept_torch, name_keeps|done].
  - intros g s1. apply kept_bind; [apply kept_torch, now_keeps|done].
Qed.

(** Two outcomes: related values, or the same exception *)
Definition alike {A} (P : A -> A -> Prop) (o o' : outcome A) : Prop :=
  match o, o' with
  | Ret a, Ret a' => P a a'
  | Raise e, Raise e' => e = e'
  | _, _ => False
  end.

Lemma metadata_twice name steps seed (s s' : state) :
  base (world s) = base (world s') ->
  alike (fun _ _ => True) (metadata_of name steps seed s).1 (metadata_of name steps seed s').1.
Proof using DET.
  intros Hb. unfold metadata_of, mbind at 1 3, M_bind at 1 3.
  assert (Hg : forall s s' : state, base (world s) = base (world s') ->
    ((if cuda_available then torch device_name else mret "cpu"%string) s).1 =
    ((if cuda_available then torch device_name else mret "cpu"%string) s').1).
  { intros t t' Ht. destruct cuda_available; [|done]. unfold torch.
    pose proof (name_of_base (config t) (config t') _ _ Ht) as Hn.
    by destruct (device_name _ (world t)), (device_name _ (world t')). }
  specialize (Hg s s' Hb). set (gpu := if cuda_available then _ else _) in Hg |- *.
  destruct (gpu s) as [r s1], (gpu s') as [r' s1']. cbn in Hg. subst r'.
  destruct r as [g|e]; [|done]. unfold mbind, M_bind, torch.
  pose proof (now_returns (config s1) (world s1)) as H1.
  pose proof (now_returns (config s1') (world s1')) as H2.
  by destruct (now_iso _ (world s1)) as [[?|?] ?], (now_iso _ (world s1')) as [[?|?] ?].
Qed.

Lemma run_once_kept name steps seed b n s : kept s (run name steps seed b n s).2.
Proof using DET model_loads tokenizer_respects accepted.
  unfold run_once. apply kept_bind.
  { unfold set_all_seeds, torch. pose proof (seed_world_keeps seed (world s)) as Hb.
    by destruct (seed_world seed (world s)). }
  intros _ s1. apply kept_bind; [apply context_kept; [apply training_keeps|apply repeatable_training]|].
  intros r s2. apply kept_bind; [apply metadata_kept|done].
Qed.

Lemma returned_bind {A A'} (m : M state A) (f : A -> M state A') s b s2 :
  (m ≫= f) s = (Ret b, s2) -> exists a s1, m s = (Ret a, s1) /\ f a s1 = (Ret b, s2).
Proof. unfold mbind, M_bind. destruct (m s) as [[a|e] s1]; [by eauto|done]. Qed.

(** A run that returns found the setting, and leaves it. *)
Lemma run_once_settings name steps seed b n s r s1 :
  run name steps seed b n s = (Ret r, s1) ->
  det_algorithms (config s) <> None /\ det_algorithms (config s1) <> None.
Proof using accepted base.
  intros H. unfold run_once in H. apply returned_bind in H as (u & s2 & Hs & H).
  assert (Hc : config s2 = config s) by
    (apply (f_equal (fun x => config x.2)) in Hs; cbn in Hs; rewrite <- Hs;
     exact (keeps_torch _ (config s) s eq_refl)).
  apply returned_bind in H as (x & s3 & Hd & H).
  pose proof (context_runs _ s2 (training_keeps model_factory tokenizer_factory name steps seed b n)) as Hr.
  rewrite Hc in Hr. destruct (det_algorithms (config s)); [|by rewrite Hd in Hr; destruct Hr].
  split; [done|]. destruct Hr as (st & Hst & Hr). rewrite Hr in Hd. injection Hd as _ <-.
  assert (Hm : keeps (F := F) (meta ← metadata_of name steps seed; mret (mk_result x.1.*1 x.1.*2 x.2 meta)))
    by (apply settings_kept_bind; [apply metadata_keeps|intros m; apply settings_kept_ret]).
  apply (f_equal snd) in H. cbn [snd] in H. rewrite <- H.
  pose proof (Hm st) as Hp. unfold preserves in Hp. by rewrite Hp.
Qed.

Lemma run_once_twice name steps seed b n s s' :
  det_algorithms (config s) <> None -> det_algorithms (config s') <> None ->
  base (world s) = base (world s') ->
  alike (fun r r' => losses r = losses r' /\ logits_sample r = logits_sample r')
    (run name steps seed b n s).1 (run name steps seed b n s').1.
Proof using DET model_loads tokenizer_respects accepted.
  intros Hc Hc' Hb. unfold run_once, mbind at 1 4, M_bind at 1 4, set_all_seeds, torch.
  destruct (seed_world_same seed _ _ Hb) as [Ho Hw].
  destruct (seed_world seed (world s)) as [r w], (seed_world seed (world s')) as [r' w'].
  cbn in Ho. subst r'. destruct r as [u|e]; [|done]. specialize (Hw eq_refl). cbn [snd] in Hw.
  unfold mbind at 1 3, M_bind at 1 3.
  set (body := training _ _ _ _ _ _ _).
  pose proof (repeatable_training name steps seed b n : repeatable same_draws body) as Hrep.
  pose proof (fun s => context_runs body s (training_keeps _ _ name steps seed b n)) as Hctx.
  pose proof (Hctx (mk_process (config s) w (files s))) as H1.
  pose proof (Hctx (mk_process (config s') w' (files s'))) as H2. cbn [config] in H1, H2.
  destruct (det_algorithms (config s)); [|done]. destruct (det_algorithms (config s')); [|done].
  destruct H1 as (st & _ & ->), H2 as (st' & _ & ->).
  destruct (rep_same _ _ Hrep (set_config deterministic_settings (mk_process (config s) w (files s)))
    (set_config deterministic_settings (mk_process (config s') w' (files s'))) eq_refl eq_refl Hw)
    as [Ho1 Hr1].
  destruct (body (set_config _ (mk_process (config s) _ _))) as [r s1].
  destruct (body (set_config _ (mk_process (config s') _ _))) as [r' s1'].
  cbn [fst snd] in Ho1, Hr1 |- *. subst r'. destruct r as [r|e]; [|done].
  destruct (Hr1 eq_refl) as [[Hb1 _ _ _ _] _].
  pose proof (metadata_twice name steps seed (set_config st s1) (set_config st' s1') Hb1) as Hm.
  unfold mbind, M_bind.
  by destruct (metadata_of _ _ _ (set_config st s1)) as [[m|e] s2],
    (metadata_of _ _ _ (set_config st' s1')) as [[m'|e'] s2'].
Qed.

(** Equal tensors are those without a NaN. *)
Context (has_nan : T -> bool) (equal_refl : forall t, torch_equal t t = negb (has_nan t)).

Definition without_nan (r : result T) : bool :=
  negb (has_nan (logits_sample r)) && forallb (fun x => negb (is_nan x)) (losses r).

Lemma feqb_self x : feqb x x = negb (is_nan x).
Proof. destruct x as [[]|[]| |[] m e]; try done; unfold feqb, SFeqb, SFcompare; by rewrite Z.compare_refl, Pos.compare_refl. Qed.

Lemma same_losses_self l : same_losses l l = forallb (fun x => negb (is_nan x)) l.
Proof. induction l as [|x l IH]; cbn; [done|]. by rewrite feqb_self, IH. Qed.

(** A second run with the same losses and logits is refused exactly for a NaN. *)
Lemma check_again_self r r' (s : state) :
  losses r = losses r' -> logits_sample r = logits_sample r' ->
  if without_nan r then check_again r r' s = (Ret tt, s)
  else exists msg, check_again r r' s = (Raise (RuntimeError msg), s).
Proof using equal_refl.
  intros Hl Ht. unfold check_again, without_nan. rewrite <- Hl, <- Ht, equal_refl, same_losses_self.
  destruct (has_nan _); cbn [negb andb]; [by eexists|].
  destruct (forallb _ _); cbn [negb]; [done|by eexists].
Qed.

Lemma on_files_files (m : M F unit) (r : result T) (s s' : state) :
  files s = files s' ->
  ((on_files m;; mret r) s).1 = ((on_files m;; mret r) s').1 /\
  files ((on_files m;; mret r) s).2 = files ((on_files m;; mret r) s').2.
Proof.
  intros Hf. unfold mbind, M_bind, on_files. rewrite Hf. by destruct (m (files s')) as [[u|e] f].
Qed.

(** C37: what verification adds.  Under the reproducibility that PyTorch, Python and NumPy
    document (seeding a generator fixes its state; under the settings of
    [deterministic_context], which a PyTorch that accepts them has during the training, the
    operations repeat), a second run from the same seeds gives the same losses and logits.  So
    when a first run returns, verification changes neither the outcome nor the files, unless a
    loss or an entry of the logits sample is a NaN: then it raises RuntimeError, as if the two
    runs differed, and writes nothing. *)
Theorem verification_refuses_nan name steps seed dir b n s r s1 :
  run name steps seed b n s = (Ret r, s1) ->
  let generate := generate_golden_references model_factory tokenizer_factory name steps seed dir b n in
  if without_nan r
  then (generate true s).1 = (generate false s).1 /\
       files (generate true s).2 = files (generate false s).2
  else exists msg, (generate true s).1 = Raise (RuntimeError msg) /\
       files (generate true s).2 = files s.
Proof using DET model_loads tokenizer_respects equal_refl accepted.
  intros H1 generate.
  pose proof (run_once_kept name steps seed b n s) as [Hb1 Hf1]. rewrite H1 in Hb1, Hf1. cbn in Hb1, Hf1.
  pose proof (run_once_kept name steps seed b n s1) as [_ Hf2].
  destruct (run_once_settings name steps seed b n s r s1 H1) as [Hd Hd1].
  pose proof (run_once_twice name steps seed b n s s1 Hd Hd1 (eq_sym Hb1)) as Ha. rewrite H1 in Ha.
  destruct (run name steps seed b n s1) as [[r2|e] s2] eqn:H2; [|done]. cbn in Ha, Hf2.
  pose proof (check_again_self r r2 s2 (proj1 Ha) (proj2 Ha)) as Hck.
  assert (Hfalse : generate false s = (on_files (persist_outputs dir r);; mret r) s1)
    by (unfold generate, generate_golden_references; by rewrite (bind_run _ _ _ _ _ H1)).
  assert (Htrue : generate true s =
            (check_again r r2;; on_files (persist_outputs dir r);; mret r) s2).
  { unfold generate, generate_golden_references. rewrite (bind_run _ _ _ _ _ H1). cbn [when].
    unfold mbind at 1, M_bind at 1. by rewrite (bind_run _ _ _ _ _ H2). }
  destruct (without_nan r).
  - rewrite Htrue, Hfalse, (bind_run _ _ _ _ _ Hck). apply on_files_files. congruence.
  - destruct Hck as [msg Hck]. exists msg. rewrite Htrue. unfold mbind, M_bind. rewrite Hck.
    split; [done|]. cbn. congruence.
Qed.
End twice.

(** Every step leaves a loss and a norm. *)
Theorem golden_lists_have_steps {W F T Gn : Type} {TO : Torch W T Gn}
    (model_factory : option (string -> Op W unit)) tokenizer_factory name steps seed b n
    (s s1 : process W F) r :
  run_once model_factory tokenizer_factory name steps seed b n s = (Ret r, s1) ->
  length (losses r) = Z.to_nat steps /\ length (grad_norms r) = Z.to_nat steps.
Proof.
  assert (Hsteps : forall v steps g, returns (train_steps (W := W) (F := F) v b n steps g)
                     (fun xs => length xs = steps)).
  { intros v k. induction k as [|k IH]; intros g; cbn [train_steps]; [by apply returns_ret|].
    do 2 (eapply returns_bind; [apply returns_any|intros ? _]).
    eapply returns_bind; [apply IH|]. intros xs Hxs. apply returns_ret. cbn. by rewrite Hxs. }
  assert (Ht : returns (training (F := F) model_factory tokenizer_factory name steps seed b n)
                 (fun r => length r.1 = Z.to_nat steps)).
  { unfold training. do 6 (eapply returns_bind; [apply returns_any|intros ? _]).
    eapply returns_bind; [apply Hsteps|]. intros xs Hxs.
    eapply returns_bind; [apply returns_any|]. intros ? _. by apply returns_ret. }
  revert s r s1. change (returns (run_once (F := F) model_factory tokenizer_factory name steps seed b n)
    (fun r => length (losses r) = Z.to_nat steps /\ length (grad_norms r) = Z.to_nat steps)).
  unfold run_once. eapply returns_bind; [apply returns_any|intros ? _].
  eapply returns_bind with (P := fun r => length r.1 = Z.to_nat steps).
  - unfold deterministic_context. do 2 (eapply returns_bind; [apply returns_any|intros ? _]).
    apply returns_try_finally. eapply returns_bind; [apply returns_any|intros ? _]. exact Ht.
  - intros x Hx. eapply returns_bind; [apply returns_any|intros ? _]. apply returns_ret. cbn.
    by rewrite !length_fmap.
Qed.

(** ** A run

    A tensor is a float; the model is one weight, which is its loss and its logits and which
    a step lowers by one.  It is drawn from PyTorch's generator, which a seed of zero spoils.
    Without the deterministic settings the logits are the time. *)
Record demo_world : Type := mk_demo { weight : float; clock : nat; generator : float }.

Definition demo_op {A} (f : demo_world -> A) (g : demo_world -> demo_world) : Op demo_world A :=
  fun _ w => (Ret (f w), g w).
Definition demo_unit : Op demo_world unit := demo_op (fun _ => tt) (fun w => w).

#[local] Instance demo_torch : Torch demo_world float Z := {|
  random_seed := fun _ w => w;
  np_random_seed := fun _ => mret tt;
  manual_seed := fun k w => (Ret tt, mk_demo (weight w) (clock w) (if k =? 0 then fnan else f_of_Z k));
  cuda_manual_seed_all := fun _ => mret tt;
  cuda_available := false;
  refuses := fun _ => false;
  load_pretrained := fun _ => demo_op (fun _ => tt) (fun w => mk_demo (generator w) (clock w) (generator w));
  load_tokenizer := fun _ => demo_op (fun _ => mk_tokenizer_view (Some (JInt 32)) None) (fun w => w);
  to_device := demo_unit;
  set_training := fun _ => demo_unit;
  view_model := demo_op (fun _ => mk_model_view None None) (fun w => w);
  make_AdamW := fun _ => demo_unit;
  zero_grad := demo_unit;
  call_model := fun _ _ => demo_op (fun w => OObject None [("loss", Some (weight w));
                                      ("logits", Some (weight w))]%string) (fun w => w);
  call_no_grad := fun _ st w =>
    (Ret (OTensor (if cudnn_benchmark st then f_of_Z (Z.of_nat (clock w)) else weight w)), w);
  cross_entropy := fun x _ => demo_op (fun _ => x) (fun w => w);
  backward := fun _ => demo_unit;
  clip_grad_norm := demo_op (fun _ => inr (f_of_Z 1)) (fun w => w);
  item := fun x => demo_op (fun _ => x) (fun w => w);
  optimizer_step := demo_op (fun _ => tt) (fun w => mk_demo (fsub (weight w) (f_of_Z 1)) (clock w) (generator w));
  tensor_to_device := fun x => demo_op (fun _ => x) (fun w => w);
  detach_cpu := fun x => demo_op (fun _ => x) (fun w => w);
  seeded := fun k => k;
  randint := fun _ _ _ g => (Ret (f_of_Z g), g + 1);
  torch_equal := feqb;
  torch_version := "2.9.0";
  cuda_version := None;
  device_name := demo_op (fun _ => "none"%string) (fun w => w);
  now_iso := demo_op (fun w => str_of_Z (Z.of_nat (clock w))) (fun w => mk_demo (weight w) (S (clock w)) (generator w));
|}.

#[local] Instance demo_output : Output (pydict string string) float := {|
  mkdir := fun _ => mret tt;
  write_text := fun d n text f => (Ret tt, dict_set (d +:+ "/" +:+ n) text f);
  save := fun x d n f => (Ret tt, dict_set (d +:+ "/" +:+ n) (fmt_fixed 1 x) f);
  dumps := fun j => match j with JList l => str_of_Z (Z.of_nat (length l)) | _ => "{}" end;
|}.

(** The other generators never change. *)
Definition no_generator (_ : demo_world) : float := fzero.

#[local] Instance demo_deterministic :
  Deterministic (fun _ : demo_world => tt) no_generator no_generator generator no_generator weight.
Proof.
  split; try done; intros; (split; [done|]);
    try (split; [intros w h Hh; set_unfold in Hh; by destruct_or? Hh; subst|done]);
    intros w w'; [intros [_ _ _ Hg _]|intros [[_ _ _ Hg _] Hw]..];
    cbn; rewrite ?Hg, ?Hw; (split; [done|]); intros _; (split; [by split|]); cbn; by rewrite ?Hg, ?Hw.
Qed.

Definition demo_start (files : pydict string string) : process demo_world (pydict string string) :=
  mk_process (mk_settings false true (Some false) None) (mk_demo fzero 7 fzero) files.

Abbreviation demo_generate seed verify :=
  (generate_golden_references (T := float) (Gn := Z) None None "opt" 3 seed "golden" 1 8 verify
     (demo_start [])).

Definition owpb {A} (f : A -> bool) (o : outcome A) : bool :=
  match o with Ret a => f a | Raise _ => false end.

Lemma verification_refuses_nan_witness :
  (demo_generate 5 true).1 = (demo_generate 5 false).1 /\
  dict_get "golden/per_step_loss.json" (files (demo_generate 5 true).2) = Some ("3" +:+ nl) /\
  config (demo_generate 5 true).2 = config (demo_start []).
Proof.
  destruct (run_once (Gn := Z) None None "opt" 3 5 1 8 (demo_start [])) as [[r|e] s1] eqn:Hr;
    [|apply (f_equal (fun x => is_ret x.1)) in Hr; vm_compute in Hr; discriminate Hr].
  pose proof (verification_refuses_nan (F := pydict string string) (fun _ : demo_world => tt) no_generator
    no_generator generator no_generator weight None None ltac:(done) ltac:(done) eq_refl is_nan feqb_self
    "opt" 3 5 "golden" 1 8 (demo_start []) r s1 Hr) as H.
  assert (Hn : without_nan is_nan r = true).
  { apply (f_equal (fun x => (owpb (without_nan is_nan) x.1))) in Hr. cbn [owpb fst] in Hr.
    rewrite <- Hr. vm_compute. reflexivity. }
  cbv zeta in H. rewrite Hn in H. destruct H as [H1 H2]. split; [exact H1|].
  split; vm_compute; reflexivity.
Defined.

(** A run with a NaN is taken for one that cannot be repeated. *)
Example nan_run_refused :
  (demo_generate 0 true).1 = Raise (RuntimeError "Determinism verification failed: logits tensors differ")
  /\ is_ret (demo_generate 0 false).1 = true.
Proof. vm_compute. split; reflexivity. Qed.

(** The vocabulary: the tokenizer first *)
Example vocab_ex :
  infer_vocab_size (mk_model_view (Some (JInt 50272)) None) (Some (mk_tokenizer_view (Some (JInt 50265)) None))
    = Ret 50265
  /\ infer_vocab_size (mk_model_view None (Some (JInt 12))) (Some (mk_tokenizer_view None None)) = Ret 12
  /\ infer_vocab_size (mk_model_view None None) None
    = Raise (ValueError "Unable to infer vocab_size from model/tokenizer").
Proof. by vm_compute. Qed.
