(* ===== verification/BenchJson.v ===== *)
(** * The results of the C++ benchmarks ([evaluation/parse_bench_json.py],
      [evaluation/parse_gemm_json.py])

    Two scripts turn the JSON reports of Google Benchmark into tables: one row of the
    trace-switch counters for a trace, and one row for each GEMM benchmark.  A cell is a JSON
    scalar, [JNull] for an empty one.  [json.loads] and [csv.DictWriter] are Python's; the
    former is an argument, and a row is the dictionary given to the latter. *)

From Stdlib Require Import Ascii.
From S2P Require Import Prelude PyDict PyStr PyFloat PyJson.

(** ** Trace-switch counters *)

Module Switch.
Definition COUNTERS : list string :=
  ["trace_entries"; "violations"; "violation_rate"; "actual_ctx_switches"; "switch_p50_ns";
   "switch_p99_ns"; "switch_max_ns"; "switch_min_ns"; "budget_min_us"; "budget_max_us";
   "gpu_total_SMs"; "unique_sm_cfgs"]%string.

Definition fieldnames : list string := "trace_type"%string :: "benchmark_name"%string :: COUNTERS.

(** [isinstance(value, (int, float, str, bool))] *)
Definition scalar (j : json) : option json :=
  match j with
  | JBool _ | JInt _ | JFloat _ | JStr _ => Some j
  | _ => None
  end.

(** [if key in bm] and the value is a scalar *)
Definition scalar_at (bm : obj) (key : string) : option json := dict_get key bm ≫= scalar.

Fixpoint first_key (bm : obj) (keys : list string) : option json :=
  match keys with
  | [] => None
  | key :: keys => match scalar_at bm key with Some v => Some v | None => first_key bm keys end
  end.

Fixpoint first_value (benchmarks : list obj) (keys : list string) : option json :=
  match benchmarks with
  | [] => None
  | bm :: benchmarks => match first_key bm keys with Some v => Some v | None => first_value benchmarks keys end
  end.

Definition is_replay (bm : obj) : bool :=
  match default (JStr "") (dict_get "name" bm) with
  | JStr name => contains "ReplayViolation" name
  | _ => false
  end.

(** [for bm in benchmarks: if ...: replay = bm] *)
Definition replay_of (benchmarks : list obj) : option obj :=
  foldl (fun replay bm => if is_replay bm then Some bm else replay) None benchmarks.

Definition benchmarks_of (raw : obj) : list obj :=
  match default (JList []) (dict_get "benchmarks" raw) with
  | JList l => dicts_of l
  | _ => []
  end.

Definition cell (v : option json) : json := default JNull v.

(** The two names under which a benchmark may have a counter of a switch *)
Definition switch_keys (key : string) : list string := [key; "forced_" +:+ key].

Definition trace_row (trace_type : string) (benchmarks : list obj) : obj :=
  let one key := cell (first_value benchmarks [key]) in
  let switch key := cell (first_value benchmarks (switch_keys key)) in
  [("trace_type", JStr trace_type); ("benchmark_name", JStr "ReplayViolation+ForcedSwitch");
   ("trace_entries", one "trace_entries"); ("violations", one "violations");
   ("violation_rate", one "violation_rate");
   ("actual_ctx_switches",
     cell (bm ← replay_of benchmarks; scalar_at bm "actual_ctx_switches"));
   ("switch_p50_ns", switch "switch_p50_ns"); ("switch_p99_ns", switch "switch_p99_ns");
   ("switch_max_ns", switch "switch_max_ns"); ("switch_min_ns", switch "switch_min_ns");
   ("budget_min_us", one "budget_min_us"); ("budget_max_us", one "budget_max_us");
   ("gpu_total_SMs", one "gpu_total_SMs"); ("unique_sm_cfgs", one "unique_sm_cfgs")]%string.

Definition summarize_trace (trace_type : string) (raw : json) : outcome obj :=
  match raw with
  | JObj d => Ret (trace_row trace_type (benchmarks_of d))
  | _ => Raise (ValueError "Invalid benchmark JSON")
  end.

(** [main]: the rows, from what [json.loads] makes of the two files *)
Definition main (random shaped : outcome json) : outcome (list obj) :=
  random ← random;
  random ← summarize_trace "random" random;
  shaped ← shaped;
  shaped ← summarize_trace "shaped" shaped;
  Ret [random; shaped].

(** The scalars of a report, benchmark after benchmark, each in the order of the keys *)
Definition scalars (benchmarks : list obj) (keys : list string) : list json :=
  concat (map (fun bm => omap (scalar_at bm) keys) benchmarks).

Lemma first_value_head benchmarks keys : first_value benchmarks keys = head (scalars benchmarks keys).
Proof.
  unfold scalars. induction benchmarks as [|bm l IH]; [done|]. cbn [first_value map concat].
  assert (Hk : first_key bm keys = head (omap (scalar_at bm) keys)).
  { clear IH. induction keys as [|k keys IH]; [done|]. cbn. by destruct (scalar_at bm k). }
  rewrite Hk, IH. by destruct (omap (scalar_at bm) keys).
Qed.

Lemma replay_of_last benchmarks :
  replay_of benchmarks = last (List.filter is_replay benchmarks).
Proof.
  unfold replay_of. induction benchmarks as [|bm l IH] using rev_ind; [done|].
  rewrite foldl_app, List.filter_app. cbn. destruct (is_replay bm).
  - by rewrite last_snoc.
  - by rewrite app_nil_r.
Qed.

(** A row has the columns of the table, and its values are the first scalars of the report;
    only the switches of the replay are those of the last replay. *)
Theorem switch_row trace_type d row :
  summarize_trace trace_type (JObj d) = Ret row ->
  dict_keys row = fieldnames /\
  let benchmarks := benchmarks_of d in
  (forall key, key ∈ ["trace_entries"; "violations"; "violation_rate"; "budget_min_us"; "budget_max_us";
                      "gpu_total_SMs"; "unique_sm_cfgs"]%string ->
     dict_get key row = Some (cell (head (scalars benchmarks [key])))) /\
  (forall key, key ∈ ["switch_p50_ns"; "switch_p99_ns"; "switch_max_ns"; "switch_min_ns"]%string ->
     dict_get key row = Some (cell (head (scalars benchmarks [key; "forced_" +:+ key])))) /\
  dict_get "actual_ctx_switches" row =
    Some (cell (bm ← last (List.filter is_replay benchmarks); scalar_at bm "actual_ctx_switches")).
Proof.
  intros [= <-]. split; [done|]. cbv zeta. set (l := benchmarks_of d).
  rewrite <- (replay_of_last l). split_and!; [| |done].
  - intros key Hk. rewrite <- first_value_head.
    repeat (apply elem_of_cons in Hk as [->|Hk]; [done|]). by apply elem_of_nil in Hk.
  - intros key Hk. rewrite <- first_value_head.
    repeat (apply elem_of_cons in Hk as [->|Hk]; [done|]). by apply elem_of_nil in Hk.
Qed.
End Switch.

(** ** GEMM benchmarks *)

Module Gemm.
(** [_to_float]: an integer too large for a float raises. *)
Definition to_float (j : json) : outcome (option float) :=
  match j with
  | JBool b => Ret (Some (f_of_Z (bool_int b)))
  | JInt z => x ← float_of_int z; Ret (Some x)
  | JFloat x => Ret (Some x)
  | _ => Ret None
  end.

Definition int_literal (s : string) : outcome Z :=
  of_option (ValueError "invalid literal for int() with base 10") (int_of_str s).

(** [_parse_name]: the partitions and the dimension *)
Definition parse_name (name : string) : outcome (option Z * option Z) :=
  match split_on "/" name with
  | _ :: kind :: p :: rest =>
      if String.eqb kind "GemmPerf" && bool_decide (rest <> []) then
        partitions ← int_literal p;
        dim ← int_literal (default "" (head rest));
        Ret (Some partitions, Some dim)
      else if String.eqb kind "GemmScaling" then
        partitions ← int_literal p;
        Ret (Some partitions, None)
      else Ret (None, None)
  | _ => Ret (None, None)
  end.

(** A unit of [time_unit] in nanoseconds; none is needed for ["ns"]. *)
Definition unit_factor (unit : json) : option (option float) :=
  match unit with
  | JStr u =>
      if String.eqb u "ns" then Some None
      else if String.eqb u "us" then Some (Some (f_of_Z 1000))
      else if String.eqb u "ms" then Some (Some (f_of_Z 1000000))
      else if String.eqb u "s" then Some (Some (f_of_Z 1000000000))
      else None
  | _ => None
  end.

Definition real_time_ns (benchmark : obj) : outcome (option float) :=
  real_time ← to_float (jget "real_time" benchmark);
  Ret (t ← real_time;
       factor ← unit_factor (jget "time_unit" benchmark);
       Some (match factor with Some k => fmul t k | None => t end)).

Record row : Type := mk_row {
  benchmark_name : string;
  num_partitions : option Z;
  dim : option Z;
  r_real_time_ns : option float;
  GFLOPS : option float;
  SMs_assigned : option float;
}.

Definition wanted (name : string) : bool :=
  startswith "GreenCtxGemmPerf/" name || startswith "GreenCtxGemmScaling/" name.

Definition row_of (name : string) (bm : obj) : outcome row :=
  parsed ← parse_name name;
  partitions ← to_float (jget "Partitions" bm);
  num_partitions ← match partitions with
                   | Some p => n ← int_of_float p; Ret (Some n)
                   | None => Ret parsed.1
                   end;
  gflops ← to_float (jget "GFLOPS" bm);
  gflops ← match gflops with
           | Some g => Ret (Some g)
           | None => to_float (jget "Aggregate_GFLOPS" bm)
           end;
  time ← real_time_ns bm;
  sms ← to_float (jget "SMs_assigned" bm);
  Ret (mk_row name num_partitions parsed.2 time gflops sms).

(** A benchmark and its name, if it is one of the table *)
Definition selected (j : json) : option (string * obj) :=
  bm ← as_obj j;
  match jget "name" bm with
  | JStr name => if wanted name then Some (name, bm) else None
  | _ => None
  end.

(** The rows [main] writes, from what [json.loads] returned *)
Definition rows (raw : json) : outcome (list row) :=
  match raw with
  | JObj d =>
      match default (JList []) (dict_get "benchmarks" d) with
      | JList l => mapO (fun nb => row_of nb.1 nb.2) (omap selected l)
      | _ => Raise (ValueError "Invalid benchmark JSON: missing benchmarks array")
      end
  | _ => Raise (ValueError "Invalid benchmark JSON: root is not an object")
  end.

(** *** The names of the C++ suite *)

(** What a fixture of the suite is registered under; a suffix is empty or starts with a
    slash, as for ["/iterations:5"]. *)
Definition perf_name (partitions dim : Z) (suffix : list string) : string :=
  join "/" (["GreenCtxGemmPerf"; "GemmPerf"; str_of_Z partitions; str_of_Z dim]%string ++ suffix).
Definition scaling_name (partitions : Z) (suffix : list string) : string :=
  join "/" (["GreenCtxGemmScaling"; "GemmScaling"; str_of_Z partitions]%string ++ suffix).

Lemma no_slash z : no_char "/" (str_of_Z z) = true.
Proof. by apply str_of_Z_no_char. Qed.

(** The arguments of a benchmark come back from its name. *)
Theorem suite_names_parse p d suffix :
  forallb (no_char "/") suffix = true ->
  (wanted (perf_name p d suffix) = true /\ parse_name (perf_name p d suffix) = Ret (Some p, Some d)) /\
  (wanted (scaling_name p suffix) = true /\ parse_name (scaling_name p suffix) = Ret (Some p, None)).
Proof.
  intros Hs. unfold parse_name, perf_name, scaling_name. rewrite !split_on_join; try done.
  - cbn [app]. split; split; try done.
    + cbn. unfold int_literal. rewrite !int_of_str_of_Z. done.
    + unfold int_literal. rewrite !int_of_str_of_Z. done.
  - cbn [app forallb]. by rewrite !no_slash, Hs.
  - cbn [app forallb]. by rewrite !no_slash, Hs.
Qed.

(** *** The report of the suite

    The benchmarks of the suite as it reports them, in microseconds: the GEMM of one
    partition, and that of all of them, whose number is a counter.  A suffix is what Google
    Benchmark appends to a name. *)
Inductive suite_benchmark : Type :=
  | Perf (partitions dim : Z) (suffix : list string) (time gflops sms : float)
  | Scaling (partitions : Z) (suffix : list string) (time gflops : float).

(** A key whose value is a number, written as an integer or not *)
Definition number_at (bm : obj) (key : string) (x : float) : Prop :=
  dict_get key bm = Some (JFloat x) \/ exists z, dict_get key bm = Some (JInt z) /\ float_of_int z = Ret x.

(** The object of a benchmark in a report: its name, its time, its counters, and whatever
    other keys Google Benchmark writes ([run_name], [iterations], [cpu_time] ...) *)
Definition reports (b : suite_benchmark) (bm : obj) : Prop :=
  dict_get "time_unit" bm = Some (JStr "us") /\
  match b with
  | Perf p d suffix time gflops sms =>
      dict_get "name" bm = Some (JStr (perf_name p d suffix)) /\ number_at bm "real_time" time /\
      number_at bm "GFLOPS" gflops /\ number_at bm "SMs_assigned" sms /\
      dict_get "Partitions" bm = None
  | Scaling p suffix time gflops =>
      dict_get "name" bm = Some (JStr (scaling_name p suffix)) /\ number_at bm "real_time" time /\
      number_at bm "Aggregate_GFLOPS" gflops /\ number_at bm "Partitions" (f_of_Z p) /\
      dict_get "GFLOPS" bm = None /\ dict_get "SMs_assigned" bm = None
  end.

(** An element of the array of benchmarks: one of the suite's GEMMs, or anything else *)
Definition entry (j : json) (b : option suite_benchmark) : Prop :=
  match b with
  | Some b => exists bm, j = JObj bm /\ reports b bm
  | None => forall bm name, j = JObj bm -> dict_get "name" bm = Some (JStr name) -> wanted name = false
  end.

Definition suite_row (b : suite_benchmark) : row :=
  match b with
  | Perf p d suffix time gflops sms =>
      mk_row (perf_name p d suffix) (Some p) (Some d) (Some (fmul time (f_of_Z 1000))) (Some gflops)
        (Some sms)
  | Scaling p suffix time gflops =>
      mk_row (scaling_name p suffix) (Some p) None (Some (fmul time (f_of_Z 1000))) (Some gflops) None
  end.

(** A counter is a float: it holds numbers below 2^53.  A suffix has no slash in its parts. *)
Definition countable (b : suite_benchmark) : Prop :=
  match b with
  | Perf _ _ suffix _ _ _ => forallb (no_char "/") suffix = true
  | Scaling p suffix _ _ => forallb (no_char "/") suffix = true /\ 0 < p < 2 ^ 53
  end.

Lemma selected_name name bm :
  dict_get "name" bm = Some (JStr name) -> wanted name = true -> selected (JObj bm) = Some (name, bm).
Proof.
  intros Hn Hw. unfold selected. assert (Hj : jget "name" bm = JStr name) by (unfold jget; by rewrite Hn).
  cbn. by rewrite Hj, Hw.
Qed.

Lemma number_at_float bm key x : number_at bm key x -> to_float (jget key bm) = Ret (Some x).
Proof.
  intros [Hk|(z & Hk & Hz)]; unfold jget; rewrite Hk; [done|].
  change (to_float (default JNull (Some (JInt z)))) with (y ← float_of_int z; Ret (Some y)).
  by rewrite Hz.
Qed.

Lemma absent_float bm key : dict_get key bm = None -> to_float (jget key bm) = Ret None.
Proof. unfold jget. by intros ->. Qed.

Lemma real_time_us bm time : dict_get "time_unit" bm = Some (JStr "us") -> number_at bm "real_time" time ->
  real_time_ns bm = Ret (Some (fmul time (f_of_Z 1000))).
Proof.
  intros Hu Ht. unfold real_time_ns. rewrite (number_at_float _ _ _ Ht). unfold jget. by rewrite Hu.
Qed.

(** The number of a counter *)
Lemma int_of_float_of_Z p : 0 < p < 2 ^ 53 -> int_of_float (f_of_Z p) = Ret p.
Proof.
  intros Hp. destruct p as [|p|p]; [lia| |lia].
  assert (HL : Z.log2 (Zpos p) <= 52) by (apply Z.lt_succ_r, Z.log2_lt_pow2; lia).
  rewrite (int_of_float_exact p 0 _ HL); [by rewrite Z.mul_1_r|done|by apply f_of_Z_exact].
Qed.

Lemma suite_row_of b bm : countable b -> reports b bm ->
  exists name, selected (JObj bm) = Some (name, bm) /\ row_of name bm = Ret (suite_row b).
Proof.
  destruct b as [p d suffix time gflops sms|p suffix time gflops]; intros Hb [Hu Hr].
  - destruct Hr as (Hn & Ht & Hg & Hsm & Hp).
    destruct (suite_names_parse p d suffix Hb) as [[Hw Hname] _]. exists (perf_name p d suffix).
    split; [by apply selected_name|]. unfold row_of.
    by rewrite Hname, (absent_float _ _ Hp), (number_at_float _ _ _ Hg), (real_time_us _ _ Hu Ht),
      (number_at_float _ _ _ Hsm).
  - destruct Hr as (Hn & Ht & Hg & Hp & Hno & Hsm), Hb as [Hs Hb].
    destruct (suite_names_parse p 0 suffix Hs) as [_ [Hw Hname]]. exists (scaling_name p suffix).
    split; [by apply selected_name|]. unfold row_of.
    rewrite Hname, (number_at_float _ _ _ Hp), (absent_float _ _ Hno), (number_at_float _ _ _ Hg),
      (real_time_us _ _ Hu Ht), (absent_float _ _ Hsm). cbn [mbind outcome_bind].
    by rewrite int_of_float_of_Z.
Qed.

Lemma other_not_selected j : entry j None -> selected j = None.
Proof.
  intros Hj. unfold selected, jget. destruct j as [| | | | | |bm]; try done. cbn -[wanted].
  destruct (dict_get "name" bm) as [[| | | |name| |]|] eqn:Hn; try done. cbn -[wanted].
  by rewrite (Hj bm name eq_refl Hn).
Qed.

(** C38: the table of a report of the suite.  Take a report whose array of benchmarks has, in
    any order, benchmarks of the two GEMM fixtures, each with its name, its time in
    microseconds, its counters and any other keys, and any other elements that are not named
    after these fixtures.  Then the script raises nothing and its table has exactly the GEMM
    benchmarks, in the order of the report: the partitions and the dimension that are in the
    name, or the counter of partitions (below 2^53, so that it is exact), the real time in
    nanoseconds, the throughput and the SMs. *)
Theorem suite_report_rows d l bs :
  dict_get "benchmarks" d = Some (JList l) ->
  Forall2 entry l bs ->
  Forall countable (omap id bs) ->
  rows (JObj d) = Ret (map suite_row (omap id bs)).
Proof.
  intros Hd Hl Hc. unfold rows. rewrite Hd. cbn -[mapO omap map]. clear d Hd.
  induction Hl as [|j [b|] l bs Hj _ IH]; [done| |]; cbn [map omap list_omap id] in *.
  - apply Forall_cons in Hc as [Hb Hc]. destruct Hj as (bm & -> & Hr).
    destruct (suite_row_of b bm Hb Hr) as (name & Hs & Hrow).
    rewrite Hs. cbn [mapO fst snd]. by rewrite Hrow, IH.
  - rewrite (other_not_selected j Hj). by apply IH.
Qed.
End Gemm.

(** ** Examples *)

(** What Google Benchmark writes of every benchmark *)
Definition demo_keys (name : string) (time : Z) (counters : obj) : json :=
  JObj ([("name", JStr name); ("family_index", JInt 0); ("run_name", JStr name);
         ("run_type", JStr "iteration"); ("repetitions", JInt 1); ("iterations", JInt 100);
         ("real_time", JFloat (f_of_Z time)); ("cpu_time", JFloat (f_of_Z 3)); ("time_unit", JStr "us")]%string
        ++ counters).

(** A report with a benchmark of another fixture between the two *)
Definition demo_json : obj :=
  [("context", JObj []);
   ("benchmarks", JList
     [demo_keys "GreenCtxGemmPerf/GemmPerf/2/512" 250
        [("GFLOPS", JFloat (f_of_Z 900)); ("SMs_assigned", JFloat (f_of_Z 66))];
      demo_keys "MultiGreenCtxCoexist/2048" 7 [];
      demo_keys "GreenCtxGemmScaling/GemmScaling/4/real_time" 125
        [("Aggregate_GFLOPS", JFloat (f_of_Z 3000)); ("Partitions", JInt 4)]])]%string.

Lemma suite_report_rows_witness :
  Gemm.rows (JObj demo_json) =
  Ret [Gemm.mk_row "GreenCtxGemmPerf/GemmPerf/2/512" (Some 2) (Some 512) (Some (f_of_Z 250000))
         (Some (f_of_Z 900)) (Some (f_of_Z 66));
       Gemm.mk_row "GreenCtxGemmScaling/GemmScaling/4/real_time" (Some 4) None (Some (f_of_Z 125000))
         (Some (f_of_Z 3000)) None].
Proof.
  rewrite (Gemm.suite_report_rows demo_json _
    [Some (Gemm.Perf 2 512 [] (f_of_Z 250) (f_of_Z 900) (f_of_Z 66)); None;
     Some (Gemm.Scaling 4 ["real_time"%string] (f_of_Z 125) (f_of_Z 3000))] eq_refl).
  - vm_compute. reflexivity.
  - repeat constructor.
    + eexists. split; [reflexivity|]. repeat split; by left.
    + intros bm name [= <-] [= <-]. reflexivity.
    + eexists. split; [reflexivity|]. split; [done|]. split; [done|]. split; [by left|].
      split; [by left|]. split; [right; by exists 4|done].
  - repeat constructor.
Defined.

(** Two replays: the violations are those of the first, the switches those of the last. *)
Definition demo_replay (n switches : Z) : json :=
  JObj [("name", JStr "BM/ReplayViolation"); ("violations", JInt n); ("actual_ctx_switches", JInt switches)]%string.

Example replays_mixed :
  match Switch.summarize_trace "random" (JObj [("benchmarks", JList [demo_replay 1 10; demo_replay 2 20])]%string) with
  | Ret row => (dict_get "violations" row, dict_get "actual_ctx_switches" row)
  | Raise _ => (None, None)
  end = (Some (JInt 1), Some (JInt 20)).
Proof. by vm_compute. Qed.

(** A fallback name in an earlier benchmark goes before the own name in a later one. *)
Example forced_switch_first :
  Switch.first_value [[("forced_switch_p50_ns", JInt 900)]; [("switch_p50_ns", JInt 40)]]%string
    (Switch.switch_keys "switch_p50_ns") = Some (JInt 900).
Proof. by vm_compute. Qed.

(** A name whose arguments have labels ends the script. *)
Example labelled_arguments_raise :
  Gemm.parse_name "GreenCtxGemmPerf/GemmPerf/partitions:2/512"
    = Raise (ValueError "invalid literal for int() with base 10").
Proof. by vm_compute. Qed.
