(* ===== verification/DeepCheck.v ===== *)
(** * Counting the results of the numerical tests ([scripts/deep_numerical_verification.py])

    The script runs the numerical tests with pytest, counts what its output says of them and
    turns the counts into a report and an exit status.  The pytest process and the files are
    parameters; what is printed is left out. *)

From Stdlib Require Import Ascii.
From S2P Require Import Prelude PyDict PyStr PyFloat FloatOrder PyJson.

Module Deep.
(** ** Counts in the output of pytest

    The pattern is a number, white space and a word that ends there. *)
Definition is_word_char (c : ascii) : bool :=
  let n := N_of_ascii c in
  is_digit c || ((65 <=? n) && (n <=? 90))%N || ((97 <=? n) && (n <=? 122))%N || (n =? 95)%N.

Definition starts_with_word_char (s : string) : bool :=
  match s with EmptyString => false | String c _ => is_word_char c end.

Fixpoint word_here (w s : string) : bool :=
  match w with
  | EmptyString => negb (starts_with_word_char s)
  | String a w => match s with
                  | EmptyString => false
                  | String c s => Ascii.eqb a c && word_here w s
                  end
  end.

Definition word_after (w s : string) : bool :=
  match s with
  | EmptyString => false
  | String c r => is_space c && word_here w (lstrip_by is_space r)
  end.

(** The match at the first digit of a number *)
Definition count_at (w s : string) : option Z :=
  if word_after w (lstrip_by is_digit s) then int_of_str (take_by is_digit s) else None.

(** All matches, from left to right; a match that fails at the first digit of a number
    fails at the others too. *)
Fixpoint counts (w : string) (after_digit : bool) (s : string) : list Z :=
  match s with
  | EmptyString => []
  | String c r =>
      let rest := counts w (is_digit c) r in
      if is_digit c && negb after_digit then
        match count_at w s with Some n => n :: rest | None => rest end
      else rest
  end.

Definition last_count (w text : string) : Z := default 0 (last (counts w false text)).

Record results : Type := mk_results { total : Z; passed : Z; failed : Z; skipped : Z }.

Definition parse_test_results (output : string) (returncode : Z) : results :=
  let passed := last_count "passed" output in
  let failed := last_count "failed" output in
  let skipped := last_count "skipped" output in
  let failed := if negb (returncode =? 0) && (failed =? 0) then 1 else failed in
  mk_results (passed + failed + skipped) passed failed skipped.

(** ** The run *)

(** What [subprocess.run] returns; an output that is [None] is empty. *)
Record completed : Type := mk_completed {
  returncode : Z;
  stdout : option string;
  stderr : option string;
}.

Definition combined (c : completed) : string :=
  let out := default "" (stdout c) in
  let err := default "" (stderr c) in
  if is_empty err then out
  else (if negb (is_empty out) && negb (endswith nl out) then out +:+ nl else out) +:+ err.

Definition overall_result (r : results) : string := if failed r =? 0 then "PASS" else "FAIL".

Definition results_json (r : results) : json :=
  JObj [("total", JInt (total r)); ("passed", JInt (passed r)); ("failed", JInt (failed r));
        ("skipped", JInt (skipped r))]%string.

Definition report (timestamp model : string) (steps : Z) (r : results) : json :=
  JObj [("overall_result", JStr (overall_result r)); ("timestamp", JStr timestamp);
        ("model", JStr model); ("steps", JInt steps); ("test_results", results_json r);
        ("note", JStr "Skipped tests are expected without GPU/golden refs.")]%string.

Section main.
Context {W : Type} (run_pytest : M W completed) (now : M W string)
  (write_report : string -> json -> M W unit).

Definition main (model : string) (steps : Z) (output_dir : string) : M W Z :=
  c ← run_pytest;
  let r := parse_test_results (combined c) (returncode c) in
  timestamp ← now;
  write_report output_dir (report timestamp model steps r);;
  mret (if failed r =? 0 then 0 else 1).
End main.

(** ** The summary of pytest

    Its last line has the counts it has, each with its word: ["1 failed, 2 passed in 0.1s"]. *)
Definition part (nw : Z * string) : string := str_of_Z nw.1 +:+ " " +:+ nw.2.
Fixpoint summary (parts : list (Z * string)) (tail : string) : string :=
  match parts with
  | [] => tail
  | [p] => part p +:+ tail
  | p :: parts => part p +:+ ", " +:+ summary parts tail
  end.

Definition is_letter (c : ascii) : bool := is_word_char c && negb (is_digit c).
Definition a_word (w : string) : bool := negb (is_empty w) && all_chars is_letter w.

Lemma word_letter_facts c : is_letter c = true -> is_word_char c = true /\ is_digit c = false /\ is_space c = false.
Proof. destruct c as [[] [] [] [] [] [] [] []]; by vm_compute. Qed.

Lemma space_not_digit c : is_space c = true -> is_digit c = false.
Proof. destruct c as [[] [] [] [] [] [] [] []]; by vm_compute. Qed.

(** A word that ends is the one looked for, or not. *)
Lemma word_here_app w w' t :
  all_chars is_letter w = true -> all_chars is_letter w' = true -> starts_with_word_char t = false ->
  word_here w (w' +:+ t) = String.eqb w w'.
Proof.
  revert w'. induction w as [|a w IH]; intros w' Hw Hw' Ht.
  - destruct w' as [|c w']; [change ("" +:+ t) with t; cbn; by rewrite Ht|]. rewrite str_cons_app. cbn. cbn in Hw'. apply andb_prop in Hw' as [Hc _].
    by destruct (word_letter_facts c Hc) as [-> _].
  - cbn in Hw. apply andb_prop in Hw as [Ha Hw]. destruct w' as [|c w'].
    + change ("" +:+ t) with t. cbn. destruct t as [|c t]; [done|]. cbn in Ht. destruct (Ascii.eqb_spec a c) as [->|]; [|done].
      by rewrite (proj1 (word_letter_facts c Ha)) in Ht.
    + rewrite str_cons_app. cbn in Hw' |- *. apply andb_prop in Hw' as [_ Hw']. rewrite IH by done.
      by destruct (Ascii.eqb a c).
Qed.

(** What is no first digit of a number is passed over. *)
Lemma counts_digits w s t : all_chars is_digit s = true -> counts w true (s +:+ t) = counts w true t.
Proof.
  induction s as [|c s IH]; [done|]. rewrite str_cons_app. cbn. intros [Hc Hs]%andb_prop. rewrite Hc. cbn. by apply IH.
Qed.

Lemma counts_other w b c s t :
  all_chars (fun c => negb (is_digit c)) (String c s) = true ->
  counts w b (String c s +:+ t) = counts w false t.
Proof.
  revert b c. induction s as [|c' s IH]; intros b c; rewrite str_cons_app; cbn [all_chars counts].
  - rewrite andb_true_r. intros ->%negb_true_iff. done.
  - intros [->%negb_true_iff Hs]%andb_prop. cbn [andb]. exact (IH false c' Hs).
Qed.

(** What comes before does not change the last count. *)
Lemma counts_suffix w b s t : exists l b', counts w b (s +:+ t) = l ++ counts w b' t.
Proof.
  revert b. induction s as [|c s IH]; intros b; [by exists [], b|]. rewrite str_cons_app. cbn [counts].
  destruct (IH (is_digit c)) as (l & b' & ->).
  repeat case_match; first [by exists l, b' | by eexists (_ :: l), b'].
Qed.

(** A count with its word *)
Lemma counts_part w n w' t :
  0 <= n -> a_word w = true -> a_word w' = true -> starts_with_word_char t = false ->
  counts w false (part (n, w') +:+ t) = (if String.eqb w w' then [n] else []) ++ counts w false t.
Proof.
  intros Hn Hw Hw' Ht. unfold a_word in *. apply andb_prop in Hw as [_ Hw], Hw' as [Hne Hw'].
  unfold part. cbn [fst snd]. rewrite !str_append_assoc.
  set (X := " " +:+ w' +:+ t). destruct (str_of_Z_digits n Hn) as (c & s & Hs & Hc & Hds).
  assert (Hword : word_after w X = String.eqb w w').
  { unfold X. cbn [word_after]. change (word_after w (String " " ("" +:+ w' +:+ t)) = String.eqb w w').
    cbn. rewrite <- (word_here_app w w' t Hw Hw' Ht). f_equal. change ("" +:+ w' +:+ t) with (w' +:+ t).
    destruct w' as [|a w']; [done|]. rewrite str_cons_app. cbn.
    cbn in Hw'. apply andb_prop in Hw' as [Ha _]. by destruct (word_letter_facts a Ha) as (_ & _ & ->). }
  assert (Hat : count_at w (str_of_Z n +:+ X) = if String.eqb w w' then Some n else None).
  { unfold count_at. assert (Hall : all_chars is_digit (str_of_Z n) = true) by (rewrite Hs; cbn; by rewrite Hc).
    rewrite lstrip_by_app by done. change (lstrip_by is_digit X) with X. rewrite Hword, take_by_app, int_of_str_of_Z by done. done. }
  assert (HX : counts w true X = counts w false t).
  { unfold X. rewrite <- str_append_assoc. change (" " +:+ w') with (String " " w').
    apply counts_other. cbn. apply (all_chars_impl is_letter); [|done].
    intros a Ha. by destruct (word_letter_facts a Ha) as (_ & -> & _). }
  rewrite Hs, str_cons_app in Hat |- *. cbn [counts]. rewrite Hc. cbn [andb negb].
  rewrite Hat, counts_digits, HX by done. by destruct (String.eqb w w').
Qed.

Lemma counts_summary w parts tail :
  a_word w = true -> starts_with_word_char tail = false ->
  Forall (fun p => 0 <= p.1 /\ a_word p.2 = true) parts ->
  counts w false (summary parts tail) =
    omap (fun p => if String.eqb w p.2 then Some p.1 else None) parts ++ counts w false tail.
Proof.
  intros Hw Ht. induction 1 as [|[n w'] parts [Hn Hw'] Hall IH]; [done|]. cbn [fst snd] in *.
  destruct parts as [|p parts].
  - cbn [summary omap list_omap fst snd]. rewrite counts_part by done. by destruct (String.eqb w w').
  - change (summary ((n, w') :: p :: parts) tail)
      with (part (n, w') +:+ ", " +:+ summary (p :: parts) tail).
    rewrite counts_part by done. change ", " with (String "," " ").
    rewrite counts_other by done. rewrite IH. cbn [omap list_omap fst snd]. by destruct (String.eqb w w').
Qed.

Lemma omap_named w (parts : list (Z * string)) n :
  NoDup parts.*2 -> (n, w) ∈ parts ->
  omap (fun p => if String.eqb w p.2 then Some p.1 else None) parts = [n].
Proof.
  induction parts as [|[m w'] parts IH]; [by intros _ ?%elem_of_nil|]. cbn [fmap list_fmap snd].
  intros [Hnot Hnd]%NoDup_cons [[= -> ->]|Hin]%elem_of_cons; cbn [omap list_omap fst snd].
  - rewrite String.eqb_refl. f_equal. clear IH Hnd. induction parts as [|[k v] parts IH]; [done|].
    cbn [fmap list_fmap snd] in Hnot. apply not_elem_of_cons in Hnot as [Hne Hnot].
    cbn [omap list_omap fst snd]. destruct (String.eqb_spec w' v); [done|]. by apply IH.
  - destruct (String.eqb_spec w w') as [->|]; [|by apply IH].
    destruct Hnot. apply list_elem_of_fmap. by exists (n, w').
Qed.

(** The last count of a word is the one of the summary. *)
Lemma summary_counted w pre parts tail n :
  a_word w = true -> starts_with_word_char tail = false -> counts w false tail = [] ->
  Forall (fun p => 0 <= p.1 /\ a_word p.2 = true) parts -> NoDup parts.*2 -> (n, w) ∈ parts ->
  last_count w (pre +:+ " " +:+ summary parts tail) = n.
Proof.
  intros Hw Ht Hnone Hparts Hnd Hin. unfold last_count.
  destruct (counts_suffix w false pre (" " +:+ summary parts tail)) as (l & b & ->).
  change " " with (String " " "") at 1. rewrite counts_other by done.
  by rewrite counts_summary, Hnone, (omap_named w parts n), app_nil_r, last_snoc by done.
Qed.

Lemma omap_absent w (parts : list (Z * string)) :
  w ∉ parts.*2 -> omap (fun p => if String.eqb w p.2 then Some p.1 else None) parts = [].
Proof.
  induction parts as [|[n w'] parts IH]; [done|]. cbn [fmap list_fmap snd omap list_omap fst].
  intros [Hne Hnot]%not_elem_of_cons. destruct (String.eqb_spec w w'); [done|]. by apply IH.
Qed.

(** *** What stands before a space and a digit is read by itself. *)

Definition starts_digit (s : string) : bool := match s with String c _ => is_digit c | _ => false end.

Lemma word_here_space w s t : all_chars is_letter w = true ->
  word_here w (s +:+ String " " t) = word_here w s.
Proof.
  revert s. induction w as [|a w IH]; intros s Hw.
  - destruct s as [|c s]; [done|]. by rewrite str_cons_app.
  - cbn in Hw. apply andb_prop in Hw as [Ha Hw]. destruct s as [|c s].
    + change ("" +:+ String " " t) with (String " " t). cbn.
      destruct (Ascii.eqb_spec a " ") as [->|]; [|done]. by destruct (word_letter_facts " " Ha).
    + rewrite str_cons_app. cbn. by rewrite IH.
Qed.

Lemma word_here_digit w s : a_word w = true -> starts_digit s = true -> word_here w s = false.
Proof.
  unfold a_word. intros [Hne Hw]%andb_prop Hs. destruct w as [|a w], s as [|c s]; try done.
  cbn in Hw, Hs |- *. apply andb_prop in Hw as [Ha _]. destruct (Ascii.eqb_spec a c) as [->|]; [|done].
  destruct (word_letter_facts c Ha) as (_ & Hd & _). congruence.
Qed.

Lemma word_stripped w s t : a_word w = true -> starts_digit t = true ->
  word_here w (lstrip_by is_space (s +:+ String " " t)) = word_here w (lstrip_by is_space s).
Proof.
  intros Hw Ht. assert (Hletters : all_chars is_letter w = true) by (by apply andb_prop in Hw as [_ ?]).
  induction s as [|c s IH].
  - change ("" +:+ String " " t) with (String " " t).
    assert (Hl : lstrip_by is_space (String " " t) = t).
    { destruct t as [|c t]; [done|]. cbn in Ht |- *. destruct (is_space c) eqn:Hc; [|done].
      by rewrite (space_not_digit c Hc) in Ht. }
    rewrite Hl, word_here_digit by done. by destruct w.
  - rewrite str_cons_app. cbn [lstrip_by]. destruct (is_space c); [exact IH|].
    change (String c (s +:+ String " " t)) with (String c s +:+ String " " t). by apply word_here_space.
Qed.

Lemma count_at_before w s t : a_word w = true -> starts_digit t = true ->
  count_at w (s +:+ String " " t) = count_at w s.
Proof.
  intros Hw Ht. unfold count_at.
  assert (Hs : lstrip_by is_digit (s +:+ String " " t) = lstrip_by is_digit s +:+ String " " t /\
               take_by is_digit (s +:+ String " " t) = take_by is_digit s).
  { induction s as [|c s [IH1 IH2]]; [done|]. rewrite str_cons_app. cbn [lstrip_by take_by].
    destruct (is_digit c); [by rewrite IH1, IH2|done]. }
  destruct Hs as [-> ->]. destruct (lstrip_by is_digit s) as [|c r].
  - change (word_after w ("" +:+ String " " t)) with (word_here w (lstrip_by is_space t)).
    pose proof (word_stripped w "" t Hw Ht) as H.
    change (word_here w (lstrip_by is_space t) = word_here w "") in H. rewrite H. by destruct w.
  - rewrite str_cons_app. cbn [word_after]. by rewrite word_stripped.
Qed.

Lemma counts_before w b s t : a_word w = true -> starts_digit t = true ->
  counts w b (s +:+ String " " t) = counts w b s ++ counts w false t.
Proof.
  intros Hw Ht. revert b. induction s as [|c s IH]; intros b; [done|].
  rewrite str_cons_app. cbn [counts]. rewrite IH, <- str_cons_app, count_at_before by done.
  destruct (is_digit c && negb b); [|done]. by destruct (count_at w (String c s)).
Qed.

Lemma summary_starts parts tail : Forall (fun p => 0 <= p.1 /\ a_word p.2 = true) parts -> parts <> [] ->
  starts_digit (summary parts tail) = true.
Proof.
  intros Hall Hne. destruct parts as [|[n w] parts]; [done|]. apply Forall_cons in Hall as [[Hn _] _].
  destruct (str_of_Z_digits n Hn) as (c & s & Hs & Hc & _).
  destruct parts as [|p parts]; [cbn [summary]|
    change (summary ((n, w) :: p :: parts) tail)
      with (part (n, w) +:+ ", " +:+ summary (p :: parts) tail)];
    unfold part; cbn [fst snd]; rewrite Hs, !str_append_assoc, str_cons_app; exact Hc.
Qed.

(** A word the summary does not have is counted only where it was printed before. *)
Lemma summary_not_counted w pre parts tail :
  a_word w = true -> starts_with_word_char tail = false -> counts w false tail = [] ->
  Forall (fun p => 0 <= p.1 /\ a_word p.2 = true) parts -> parts <> [] -> w ∉ parts.*2 ->
  counts w false pre = [] -> last_count w (pre +:+ " " +:+ summary parts tail) = 0.
Proof.
  intros Hw Ht Hnone Hparts Hne Hnot Hpre. unfold last_count.
  change (" " +:+ summary parts tail) with (String " " (summary parts tail)).
  rewrite counts_before by (by auto using summary_starts).
  by rewrite Hpre, counts_summary, Hnone, omap_absent by done.
Qed.

(** C39: the report says what pytest says.  Where the output of pytest ends with its summary,
    the counts of the report are those of the summary, whatever the tests printed before; a
    run that pytest ends with another status than zero is never a PASS, and neither is one
    whose summary has a failed test.  When nothing printed before the summary reads as a number
    of failed tests, the result is PASS exactly when the status is zero and no test failed
    (otherwise what was printed may be taken for the count: [printed_failure_counted]). *)
Theorem deep_report_counts pre parts tail returncode :
  starts_with_word_char tail = false ->
  (forall w, w ∈ ["passed"; "failed"; "skipped"]%string -> counts w false tail = []) ->
  Forall (fun p => 0 <= p.1 /\ a_word p.2 = true) parts -> NoDup parts.*2 ->
  let r := parse_test_results (pre +:+ " " +:+ summary parts tail) returncode in
  (forall n, (n, "passed"%string) ∈ parts -> passed r = n) /\
  (forall n, (n, "skipped"%string) ∈ parts -> skipped r = n) /\
  (forall n, (n, "failed"%string) ∈ parts -> 0 < n -> failed r = n /\ overall_result r = "FAIL"%string) /\
  (returncode <> 0 -> overall_result r = "FAIL"%string) /\
  total r = passed r + failed r + skipped r /\
  (parts <> [] -> counts "failed" false pre = [] ->
   overall_result r = "PASS"%string <->
   returncode = 0 /\ forall n, (n, "failed"%string) ∈ parts -> n = 0).
Proof.
  intros Ht Hnone Hparts Hnd r. unfold r, parse_test_results, overall_result. cbn [passed failed skipped total].
  assert (Hfailed : forall n, (n, "failed"%string) ∈ parts ->
    last_count "failed" (pre +:+ " " +:+ summary parts tail) = n)
    by (intros n Hn; apply summary_counted; try done; apply Hnone; set_solver).
  split_and!; [| | | |done|].
  - intros n Hn. apply summary_counted; try done. apply Hnone. set_solver.
  - intros n Hn. apply summary_counted; try done. apply Hnone. set_solver.
  - intros n Hn Hpos. rewrite (Hfailed n Hn).
    rewrite (proj2 (Z.eqb_neq n 0)), andb_false_r by lia. split; [done|].
    by rewrite (proj2 (Z.eqb_neq n 0)) by lia.
  - intros Hc. rewrite (proj2 (Z.eqb_neq returncode 0)) by done. cbn [negb andb].
    destruct (last_count "failed" _ =? 0) eqn:Hf; [done|]. by rewrite Hf.
  - intros Hne Hpre.
    assert (Hno : "failed"%string ∉ parts.*2 -> last_count "failed" (pre +:+ " " +:+ summary parts tail) = 0)
      by (intros Hnot; apply summary_not_counted; try done; apply Hnone; set_solver).
    set (k := last_count _ _) in *. destruct (Z.eqb_spec returncode 0) as [->|Hc]; cbn [negb andb].
    2:{ destruct (Z.eqb_spec k 0) as [|Hk]; [by split; [|intros []]|].
        rewrite (proj2 (Z.eqb_neq k 0)) by done. by split; [|intros []]. }
    destruct (Z.eqb_spec k 0) as [Hk|Hk].
    + split; [|done]. intros _. split; [done|]. intros n Hn. by rewrite <- (Hfailed n Hn).
    + split; [done|]. intros [_ Hz]. destruct Hk.
      destruct (decide ("failed"%string ∈ parts.*2)) as [Hin|Hnot]; [|by apply Hno].
      apply list_elem_of_fmap in Hin as ([n w] & Hw & Hin). cbn [snd] in Hw. subst w.
      rewrite (Hfailed n Hin). by apply Hz.
Qed.

Definition demo_parts : list (Z * string) := [(2, "failed"); (31, "passed"); (4, "skipped")]%string.

Lemma deep_report_counts_witness :
  let r := parse_test_results (("collected 37 items" +:+ nl +:+ "3 failed before") +:+ " "
             +:+ summary demo_parts " in 12.05s ====") 1 in
  passed r = 31 /\ failed r = 2 /\ total r = 37.
Proof.
  destruct (deep_report_counts ("collected 37 items" +:+ nl +:+ "3 failed before") demo_parts
              " in 12.05s ====" 1) as (Hp & Hs & Hf & _ & Ht & _).
  - done.
  - intros w Hw. repeat (apply elem_of_cons in Hw as [->|Hw]; [by vm_compute|]). by apply elem_of_nil in Hw.
  - repeat constructor; cbn; (lia || by vm_compute).
  - apply NoDup_cons; split; [set_solver|]. apply NoDup_cons; split; [set_solver|]. apply NoDup_singleton.
  - cbv zeta in *.
    rewrite Ht, (Hp 31), (Hs 4) by (unfold demo_parts; set_solver).
    rewrite (proj1 (Hf 2 ltac:(unfold demo_parts; set_solver) ltac:(lia))). done.
Defined.

(** What a test printed is taken for the count of a summary that has none. *)
Example printed_failure_counted :
  parse_test_results ("retry after 1 failed attempt" +:+ nl +:+ "== 12 passed in 3.10s ==") 0
    = mk_results 13 12 1 0.
Proof. by vm_compute. Qed.

(** An error of the collection is one failure. *)
Example collection_error :
  parse_test_results "== 1 error in 0.20s ==" 2 = mk_results 1 0 1 0.
Proof. by vm_compute. Qed.
End Deep.
