(* ===== verification/CompareLogits.v ===== *)
(** * Comparing the logits of two runs ([scripts/compare_logits.py])

    Tensors and files are parameters; what is printed is left out, except for the verdict of a
    comparison. *)

From Stdlib Require Import Ascii.
From S2P Require Import Prelude PyDict PyStr PyFloat FloatOrder PyJson.

Module Logits.
(** ** Tensors, as the comparison uses them

    [T] are tensors, [Mk] masks and [Ix] the indices that [torch.topk] returns. *)
Class LogitTensors (T Mk Ix : Type) : Type := {
  shape : T -> list Z;
  dtype : T -> string;
  numel : T -> Z;
  mean : T -> outcome float;
  std : T -> outcome float;
  min : T -> outcome float;                    (** of an empty tensor: RuntimeError *)
  max : T -> outcome float;
  median : T -> outcome float;
  sub : T -> T -> T;
  div : T -> T -> T;
  abs : T -> T;
  scale : T -> float -> T;
  ones_like : T -> T;
  zeros_like : T -> T;
  lt_scalar : T -> float -> Mk;
  isnan : T -> Mk;
  isinf : T -> Mk;
  mask_or : Mk -> Mk -> Mk;
  where_ : Mk -> T -> T -> T;
  mask_sum : Mk -> Z;
  allclose : T -> T -> float -> float -> outcome bool;   (** rtol, atol *)
  topk_indices : T -> Z -> outcome Ix;         (** along the last dimension *)
  indices_equal : Ix -> Ix -> Z;               (** how many are equal *)
  indices_numel : Ix -> Z;
  mean_last : T -> outcome T;
}.

Record statistics : Type := mk_statistics {
  s_shape : list Z; s_dtype : string;
  s_mean : float; s_std : float; s_min : float; s_max : float; s_median : float;
}.

(** Five numbers: mean, standard deviation, least, greatest and median *)
Record five : Type := mk_five { f_mean : float; f_std : float; f_min : float; f_max : float; f_median : float }.

Record share : Type := mk_share { count : Z; percentage : float }.

Record comparison : Type := mk_comparison {
  logits1_stats : statistics;
  logits2_stats : statistics;
  difference_stats : five;
  relative_difference_stats : five;
  close_tolerance : list (string * share);
  r_allclose : list (string * bool);
  r_topk : list (Z * share);
  per_token_diff : option (float * float * float * float);   (** mean, std, max, min *)
}.

(** [100.0 * count / total] *)
Definition percent (count total : Z) : outcome float :=
  c ← float_of_int count;
  t ← float_of_int total;
  fdiv (fmul (f_of_Z 100) c) t.

Definition share_of (count total : Z) : outcome share :=
  p ← percent count total; Ret (mk_share count p).

Definition tol3 : float := f_lit 1 3.
Definition tol4 : float := f_lit 1 4.
Definition tol5 : float := f_lit 1 5.

Section compare.
Context {T Mk Ix : Type} `{LogitTensors T Mk Ix}.

Definition compute_statistics (t : T) : outcome statistics :=
  m ← mean t; s ← std t; lo ← min t; hi ← max t; md ← median t;
  Ret (mk_statistics (shape t) (dtype t) m s lo hi md).

Definition five_of (t : T) : outcome five :=
  m ← mean t; s ← std t; lo ← min t; hi ← max t; md ← median t;
  Ret (mk_five m s lo hi md).

(** The relative difference; numbers below 1e-8 are taken for 1e-8, and what is not a number
    or infinite for zero. *)
Definition relative_difference (diff l2 : T) : T :=
  let safe := where_ (lt_scalar (abs l2) (f_lit 1 8)) (scale (ones_like l2) (f_lit 1 8)) l2 in
  let rel := abs (div diff safe) in
  where_ (mask_or (isnan rel) (isinf rel)) (zeros_like rel) rel.

Definition close_share (abs_diff : T) (name : string) (tol : float) : outcome (string * share) :=
  s ← share_of (mask_sum (lt_scalar abs_diff tol)) (numel abs_diff);
  Ret (name, s).

Definition allclose_at (l1 l2 : T) (name : string) (rtol atol : float) : outcome (string * bool) :=
  b ← allclose l1 l2 rtol atol; Ret (name, b).

Definition topk_share (l1 l2 : T) (k : Z) : outcome (Z * share) :=
  i1 ← topk_indices l1 k;
  i2 ← topk_indices l2 k;
  s ← share_of (indices_equal i1 i2) (indices_numel i1);
  Ret (k, s).

Definition per_token (diff : T) : outcome (float * float * float * float) :=
  t ← mean_last (abs diff);
  m ← mean t; s ← std t; hi ← max t; lo ← min t;
  Ret (m, s, hi, lo).

Definition compare_logits (l1 l2 : T) : outcome comparison :=
  if negb (bool_decide (shape l1 = shape l2)) then Raise (ValueError "Shape mismatch")
  else
    let diff := sub l1 l2 in
    let abs_diff := abs diff in
    let rel_diff := relative_difference diff l2 in
    stats1 ← compute_statistics l1;
    stats2 ← compute_statistics l2;
    dstats ← five_of abs_diff;
    rstats ← five_of rel_diff;
    c3 ← close_share abs_diff "1e-3" tol3;
    c4 ← close_share abs_diff "1e-4" tol4;
    c5 ← close_share abs_diff "1e-5" tol5;
    a3 ← allclose_at l1 l2 "rtol_1e3_atol_1e3" tol3 tol3;
    a4 ← allclose_at l1 l2 "rtol_1e4_atol_1e4" tol4 tol4;
    a5 ← allclose_at l1 l2 "rtol_1e5_atol_1e5" tol5 tol5;
    z3 ← allclose_at l1 l2 "rtol_0_atol_1e3" fzero tol3;
    z4 ← allclose_at l1 l2 "rtol_0_atol_1e4" fzero tol4;
    tops ← mapO (topk_share l1 l2) [1; 5; 10];
    tokens ← (if bool_decide (2 <= length (shape l1))%nat
              then x ← per_token (sub l1 l2); Ret (Some x) else Ret None);
    Ret (mk_comparison stats1 stats2 dstats rstats [c3; c4; c5] [a3; a4; a5; z3; z4] tops tokens).
End compare.

(** ** What is printed *)

(** The number of elements shown: [shape[0] * shape[1] * shape[2] if len(shape) == 3 else
    shape[0] * shape[1]] *)
Definition elements_shown (s : list Z) : outcome Z :=
  match s with
  | [a; b; c] => Ret (a * b * c)
  | a :: b :: _ => Ret (a * b)
  | _ => Raise (IndexError "tuple index out of range")
  end.

Inductive verdict : Type := EffectivelyIdentical | VeryClose | Close | NotableDifferences.

Definition passed (name : string) (r : comparison) : bool := default false (dict_get name (r_allclose r)).

Definition summary (r : comparison) : verdict :=
  if passed "rtol_1e3_atol_1e3" r then EffectivelyIdentical
  else if passed "rtol_1e4_atol_1e4" r then VeryClose
  else if passed "rtol_1e5_atol_1e5" r then Close
  else NotableDifferences.

(** [print_results], down to its verdict; the number of elements is shown with each
    tolerance. *)
Definition print_results (r : comparison) : outcome verdict :=
  _ ← mapO (fun _ => elements_shown (s_shape (logits1_stats r))) (close_tolerance r);
  Ret (summary r).

(** ** The script

    The status is that of the process; the results are printed before they are saved. *)
Section main.
Context {W T Mk Ix : Type} `{LogitTensors T Mk Ix}.
Context (exists_ : string -> W -> bool) (torch_load : string -> M W T)
  (save_results_to_file : comparison -> string -> M W unit).

(** [None]: [FileNotFoundError] *)
Definition load_logits (path : string) : M W (option T) := fun w =>
  if exists_ path w then (t ← torch_load path; mret (Some t)) w else (Ret None, w).

Definition main (logits1 logits2 output : string) (no_save : bool) : M W Z :=
  l1 ← load_logits logits1;
  match l1 with
  | None => mret 1
  | Some l1 =>
      l2 ← load_logits logits2;
      match l2 with
      | None => mret 1
      | Some l2 =>
          r ← lift (compare_logits l1 l2);
          lift (print_results r);;
          when (negb no_save) (save_results_to_file r output);;
          mret 0
      end
  end.
End main.

(** ** What a comparison can say *)

Lemma percent_bounds count total p :
  0 <= count <= total -> total < 2 ^ 46 -> percent count total = Ret p ->
  pfin p /\ 0 <= fval p <= 100 * one.
Proof.
  intros Hc Ht. unfold percent.
  destruct (float_of_int_fval count) as (c & -> & Hc1 & Hc2); [lia|].
  destruct (float_of_int_fval total) as (t & -> & Ht1 & Ht2); [lia|]. cbn [mbind outcome_bind].
  destruct (f_of_Z_fval 100) as [H1 H2]; [lia|].
  destruct (f_of_Z_fval (100 * count)) as [H3 H4]; [lia|].
  rewrite (fmul_exact (f_of_Z 100) c (f_of_Z (100 * count))) by (try done; rewrite H2, Hc2, H4; ring).
  intros Hp. destruct (fdiv_le _ _ (f_of_Z 100) p H3 Ht1 H1 Hp) as [Hpf Hle].
  { rewrite H4, H2, Ht2. pose proof one_pos. nia. }
  split; [done|]. pose proof (pfin_fval p Hpf). lia.
Qed.

(** A share of a whole, as a percentage *)
Definition share_ok (total : Z) (s : share) : Prop :=
  0 <= count s <= total /\ pfin (percentage s) /\ 0 <= fval (percentage s) <= 100 * one.

Section said.
Context {T Mk Ix : Type} `{LogitTensors T Mk Ix}.

(** What PyTorch promises: a tensor that is close within tolerances is close within larger
    ones, and counts are of elements. *)
Context (allclose_monotone : forall l1 l2 r a r' a', fle r r' = true -> fle a a' = true ->
    allclose l1 l2 r a = Ret true -> allclose l1 l2 r' a' = Ret true)
  (mask_counts : forall t x, 0 <= mask_sum (lt_scalar t x) <= numel t).

Lemma share_of_ok c n s : 0 <= c <= n -> n < 2 ^ 46 -> share_of c n = Ret s -> share_ok n s.
Proof.
  intros Hc Hn. unfold share_of. destruct (percent c n) as [p|] eqn:Hp; [|done]. intros [= <-].
  split; [done|]. by eapply percent_bounds.
Qed.

Lemma close_share_ok t name tol ns :
  numel t < 2 ^ 46 -> close_share t name tol = Ret ns -> share_ok (numel t) ns.2.
Proof using mask_counts.
  intros Hn. unfold close_share. destruct (share_of _ _) as [s|] eqn:Hs; [|done]. intros [= <-].
  eapply share_of_ok, Hs; [apply mask_counts|done].
Qed.

(** Only the widest tolerance matters for the verdict. *)
Lemma verdict_of_allclose l1 l2 a3 a4 a5 z3 z4 :
  allclose_at l1 l2 "rtol_1e3_atol_1e3" tol3 tol3 = Ret a3 ->
  allclose_at l1 l2 "rtol_1e4_atol_1e4" tol4 tol4 = Ret a4 ->
  allclose_at l1 l2 "rtol_1e5_atol_1e5" tol5 tol5 = Ret a5 ->
  forall s1 s2 d r c t p, summary (mk_comparison s1 s2 d r c [a3; a4; a5; z3; z4] t p) =
    if bool_decide (allclose l1 l2 tol3 tol3 = Ret true) then EffectivelyIdentical else NotableDifferences.
Proof using allclose_monotone.
  unfold allclose_at. destruct (allclose l1 l2 tol3 tol3) as [b3|] eqn:H3; [|done].
  destruct (allclose l1 l2 tol4 tol4) as [b4|] eqn:H4; [|done].
  destruct (allclose l1 l2 tol5 tol5) as [b5|] eqn:H5; [|done].
  intros [= <-] [= <-] [= <-] s1 s2 d r c t p. unfold summary, passed. cbn.
  destruct b3; [done|]. destruct b4.
  { by rewrite (allclose_monotone l1 l2 tol4 tol4 tol3 tol3 eq_refl eq_refl H4) in H3. }
  destruct b5; [|done]. by rewrite (allclose_monotone l1 l2 tol5 tol5 tol3 tol3 eq_refl eq_refl H5) in H3.
Qed.

(** What a comparison says.  The verdict is the one of the widest tolerance: the two
    verdicts in between, for the tighter tolerances, are never given.  Every percentage is a
    number between 0 and 100, and logits of different shapes are refused. *)
Theorem comparison_says l1 l2 r :
  numel (abs (sub l1 l2)) < 2 ^ 46 -> compare_logits l1 l2 = Ret r ->
  shape l1 = shape l2 /\
  summary r = (if bool_decide (allclose l1 l2 tol3 tol3 = Ret true) then EffectivelyIdentical
               else NotableDifferences) /\
  Forall (fun ns => share_ok (numel (abs (sub l1 l2))) ns.2) (close_tolerance r).
Proof using allclose_monotone mask_counts.
  intros Hn. unfold compare_logits. case_bool_decide as Hsh; [|done]. cbn [negb].
  set (d := abs (sub l1 l2)) in *.
  destruct (compute_statistics l1) as [s1|]; [|done]. cbn [mbind outcome_bind].
  destruct (compute_statistics l2) as [s2|]; [|done]. cbn [mbind outcome_bind].
  destruct (five_of d) as [f1|]; [|done]. cbn [mbind outcome_bind].
  destruct (five_of (relative_difference _ _)) as [f2|]; [|done]. cbn [mbind outcome_bind].
  destruct (close_share d _ tol3) as [c3|] eqn:H3; [|done]. cbn [mbind outcome_bind].
  destruct (close_share d _ tol4) as [c4|] eqn:H4; [|done]. cbn [mbind outcome_bind].
  destruct (close_share d _ tol5) as [c5|] eqn:H5; [|done]. cbn [mbind outcome_bind].
  destruct (allclose_at _ _ _ tol3 tol3) as [a3|] eqn:A3; [|done]. cbn [mbind outcome_bind].
  destruct (allclose_at _ _ _ tol4 tol4) as [a4|] eqn:A4; [|done]. cbn [mbind outcome_bind].
  destruct (allclose_at _ _ _ tol5 tol5) as [a5|] eqn:A5; [|done]. cbn [mbind outcome_bind].
  destruct (allclose_at _ _ _ fzero tol3) as [z3|]; [|done]. cbn [mbind outcome_bind].
  destruct (allclose_at _ _ _ fzero tol4) as [z4|]; [|done]. cbn [mbind outcome_bind].
  destruct (mapO _ _) as [tops|]; [|done]. cbn [mbind outcome_bind].
  destruct (if bool_decide (2 <= length (shape l1))%nat then _ else _) as [tk|]; [|done].
  intros [= <-]. split; [done|]. split; [by apply verdict_of_allclose|]. cbn [close_tolerance].
  repeat constructor; by eapply close_share_ok.
Qed.
End said.

(** Logits of one dimension are compared, but the report raises before they are saved. *)
Theorem one_dimension_not_printed (r : comparison) n :
  s_shape (logits1_stats r) = [n] -> close_tolerance r <> [] ->
  print_results r = Raise (IndexError "tuple index out of range").
Proof. intros Hs Hc. unfold print_results. rewrite Hs. by destruct (close_tolerance r). Qed.
End Logits.

(** ** Two tensors

    Tensors of integers with one row per list, tolerances that are absolute only. *)
Definition grid : Type := list (list Z).
Definition map_grid (f : Z -> Z) (t : grid) : grid := map (map f) t.
Definition zip_grid (f : Z -> Z -> Z) (a b : grid) : grid := zip_with (zip_with f) a b.
Definition mask_grid (p : Z -> bool) (t : grid) : list bool := map p (concat t).
Definition number (o : option Z) : outcome float := of_option (RuntimeError "empty tensor") (f_of_Z <$> o).

#[local] Instance demo_logits : Logits.LogitTensors grid (list bool) (list Z) := {|
  Logits.shape := fun t => [Z.of_nat (length t); Z.of_nat (length (default [] (head t)))];
  Logits.dtype := fun _ => "torch.int64"%string;
  Logits.numel := fun t => Z.of_nat (length (concat t));
  Logits.mean := fun t => int_truediv (sum_list (concat t)) (Z.of_nat (length (concat t)));
  Logits.std := fun _ => Ret fzero;
  Logits.min := fun t => number (min_list (concat t));
  Logits.max := fun t => number (max_list (concat t));
  Logits.median := fun t => number (head (concat t));
  Logits.sub := zip_grid Z.sub;
  Logits.div := zip_grid Z.div;
  Logits.abs := map_grid Z.abs;
  Logits.scale := fun t _ => t;
  Logits.ones_like := map_grid (fun _ => 1);
  Logits.zeros_like := map_grid (fun _ => 0);
  Logits.lt_scalar := fun t x => mask_grid (fun z => flt (f_of_Z z) x) t;
  Logits.isnan := mask_grid (fun _ => false);
  Logits.isinf := mask_grid (fun _ => false);
  Logits.mask_or := zip_with orb;
  Logits.where_ := fun _ _ b => b;
  Logits.mask_sum := fun m => Z.of_nat (length (List.filter id m));
  Logits.allclose := fun a b _ atol =>
    Ret (forallb (fun z => fle (f_of_Z (Z.abs z)) atol) (concat (zip_grid Z.sub a b)));
  Logits.topk_indices := fun t k =>
    if k <=? Z.of_nat (length (default [] (head t))) then Ret (replicate (Z.to_nat k) 0)
    else Raise (RuntimeError "selected index k out of range");
  Logits.indices_equal := fun a b => Z.of_nat (length a);
  Logits.indices_numel := fun a => Z.of_nat (length a);
  Logits.mean_last := fun t => Ret t;
|}.

Definition demo_row (z : Z) : list Z := z :: replicate 9 1.

Lemma demo_allclose (l1 l2 : grid) (r a r' a' : float) : fle r r' = true -> fle a a' = true ->
  Logits.allclose l1 l2 r a = Ret true -> Logits.allclose l1 l2 r' a' = Ret true.
Proof.
  intros _ Ha [= H]. cbn. f_equal. rewrite forallb_forall in H |- *. intros z Hz.
  eapply fle_trans; [by apply H|done].
Qed.

Lemma demo_mask_counts (t : grid) x : 0 <= Logits.mask_sum (Logits.lt_scalar t x) <= Logits.numel t.
Proof.
  cbn. unfold mask_grid. split; [lia|]. rewrite <- (length_map (fun z => flt (f_of_Z z) x) (concat t)).
  apply inj_le. induction (map _ _) as [|b l IH]; [done|]. cbn. destruct b; cbn; lia.
Qed.

Lemma comparison_says_witness :
  match Logits.compare_logits [demo_row 5] [demo_row 7] with
  | Ret r => Logits.summary r = Logits.NotableDifferences
  | Raise _ => False
  end.
Proof.
  destruct (Logits.compare_logits [demo_row 5] [demo_row 7]) as [r|e] eqn:Hr.
  - destruct (Logits.comparison_says demo_allclose demo_mask_counts [demo_row 5] [demo_row 7] r ltac:(by vm_compute) Hr)
      as (_ & Hs & _).
    rewrite Hs. vm_compute. reflexivity.
  - apply (f_equal is_ret) in Hr. vm_compute in Hr. discriminate Hr.
Defined.

(** A vocabulary below ten has no ten best tokens: nothing is compared. *)
Example small_vocabulary_raises :
  Logits.compare_logits [[1; 2; 3; 4]] [[1; 2; 3; 4]] = Raise (RuntimeError "selected index k out of range").
Proof. by vm_compute. Qed.

(** Four dimensions: the number of elements shown is not the number of elements. *)
Example elements_shown_ex :
  Logits.elements_shown [2; 3; 4] = Ret 24 /\ Logits.elements_shown [2; 3; 4; 5] = Ret 6.
Proof. done. Qed.
