(* ===== verification/LogViews.v ===== *)
(** * Reading the logs of the emulator ([scripts/analyze_vtime_log.py],
      [scripts/log_parser.py])

    [Vtime] reads a performance log, separates the virtual-time events from the throughput
    records and lays the events out on a time line.  [Emulator] finds times and partition
    counts in the text of the emulator's log.  pandas sorts, and is a parameter; the printed
    text around the numbers is left out. *)

From Stdlib Require Import Ascii.
From stdpp Require Import sorting.
From S2P Require Import Prelude PyDict PyStr PyFloat.
From S2P Require VTimeSync.

Module Vtime.
Record vtime_event : Type := mk_vtime_event {
  timestamp_us : Z;
  device_id : Z;
  phase : string;
  event : string;
  vt_start_us : Z;
  vt_end_us : Z;
  vt_duration_us : Z;
}.

Record regular : Type := mk_regular {
  r_timestamp_us : Z;
  r_device_id : Z;
  direction : string;
  bytes : Z;
  throughput_b_s : float;
  epoch_start_us : Z;
  epoch_end_us : Z;
  packet_duration_us : Z;
}.

(** [parts[i]] and [int(parts[i])] *)
Definition field (parts : list string) (i : nat) : outcome string :=
  of_option (IndexError "list index out of range") (parts !! i).

Definition int_field (parts : list string) (i : nat) : outcome Z :=
  s ← field parts i;
  of_option (ValueError "invalid literal for int() with base 10") (int_of_str s).

(** A line that starts with VTIME; what it raises is not caught. *)
Definition parse_vtime (parts : list string) : outcome vtime_event :=
  ts ← int_field parts 1; dev ← int_field parts 2;
  ph ← field parts 3; ev ← field parts 4;
  st ← int_field parts 5; en ← int_field parts 6; dur ← int_field parts 7;
  Ret (mk_vtime_event ts dev ph ev st en dur).

Definition parse_regular (parts : list string) : outcome regular :=
  ts ← int_field parts 0; dev ← int_field parts 1;
  dir ← field parts 2; by_ ← int_field parts 3;
  thr ← field parts 4;
  thr ← of_option (ValueError "could not convert string to float") (float_of_str thr);
  st ← int_field parts 5; en ← int_field parts 6; dur ← int_field parts 7;
  Ret (mk_regular ts dev dir by_ thr st en dur).

Definition value_or_index_error (e : exn) : bool :=
  match e with ValueError _ | IndexError _ => true | _ => false end.

Record log : Type := mk_log { raw_data : list regular; vtime_data : list vtime_event }.

(** A stripped line that is neither empty nor the header *)
Definition parse_line (l : log) (line : string) : outcome log :=
  let parts := split_on "," line in
  if startswith "VTIME" line then
    e ← parse_vtime parts; Ret (mk_log (raw_data l) (vtime_data l ++ [e]))
  else
    match parse_regular parts with
    | Ret r => Ret (mk_log (raw_data l ++ [r]) (vtime_data l))
    | Raise e => if value_or_index_error e then Ret l else Raise e
    end.

(** The line with number zero is the header, if it is not empty. *)
Definition read_line (l : log) (il : nat * string) : outcome log :=
  let line := strip il.2 in
  if is_empty line || (il.1 =? 0)%nat then Ret l else parse_line l line.

(** [parse_perf_log], on the text of a file that exists *)
Definition parse_perf_log (text : string) : outcome log :=
  foldO read_line (imap pair (file_lines text)) (mk_log [] []).

(** ** The time line *)

Definition format_duration (us : Z) : outcome string :=
  if 1000 <=? us then ms ← int_truediv us 1000; Ret (fmt_fixed 2 ms +:+ " ms")
  else Ret (str_of_Z us +:+ " us").

(** The number of characters of the bar of an event *)
Definition bar_length (duration : Z) : Z :=
  let n := if 1000 <=? duration then duration / 1000 else duration / 100 in
  Z.max 0 (Z.min n 50).

Record bar : Type := mk_bar {
  b_device : Z; b_phase : string; b_start_ms : Z; b_length : Z; b_duration : string;
}.

Definition bar_of (first_time : Z) (e : vtime_event) : outcome bar :=
  d ← format_duration (vt_duration_us e);
  Ret (mk_bar (device_id e) (phase e) ((vt_start_us e - first_time) / 1000) (bar_length (vt_duration_us e)) d).

(** [sorted]: the events by their start, as pandas orders them *)
Definition timeline (sorted : list vtime_event) : outcome (list bar) :=
  match sorted with
  | [] => Ret []
  | e :: _ => mapO (bar_of (vt_start_us e)) sorted
  end.

(** ** The summary of a device and a phase *)

Record phase_summary : Type := mk_phase_summary {
  events : Z; total_duration : Z; avg_duration : float; min_duration : Z; max_duration : Z;
  first_events : list vtime_event;
}.

Definition PHASES : list string := ["SEND"; "COMPUTE"; "RECEIVE"]%string.

Definition of_device (d : Z) (l : list vtime_event) : list vtime_event := filter (fun e => device_id e = d) l.
Definition of_phase (p : string) (l : list vtime_event) : list vtime_event := filter (fun e => phase e = p) l.

(** The events of a phase that has some *)
Definition summarize_phase (l : list vtime_event) : outcome (option phase_summary) :=
  match l with
  | [] => Ret None
  | _ =>
      let ds := map vt_duration_us l in
      avg ← int_truediv (sum_list ds) (Z.of_nat (length l));
      Ret (Some (mk_phase_summary (Z.of_nat (length l)) (sum_list ds) avg (default 0 (min_list ds))
                   (default 0 (max_list ds)) (take 3 l)))
  end.

Definition device_ids (l : list vtime_event) : list Z := sort_by Z.leb (remove_dups (map device_id l)).

Definition summarize_device (l : list vtime_event) (d : Z) :
    outcome (Z * list (string * option phase_summary)) :=
  ps ← mapO (fun p => s ← summarize_phase (of_phase p (of_device d l)); Ret (p, s)) PHASES;
  Ret (d, ps).

Definition vtime_summary (l : list vtime_event) : outcome (list (Z * list (string * option phase_summary))) :=
  mapO (summarize_device l) (device_ids l).

(** *** What the bars say *)

Lemma bar_length_bounds d : 0 <= bar_length d <= 50.
Proof. unfold bar_length. case_match; lia. Qed.

(** The events of a time line come in order, the first at zero, and every bar fits. *)
Theorem timeline_ordered sorted bars :
  StronglySorted (fun a b => vt_start_us a <= vt_start_us b) sorted -> timeline sorted = Ret bars ->
  length bars = length sorted /\
  (forall b, head bars = Some b -> b_start_ms b = 0) /\
  StronglySorted (fun a b => b_start_ms a <= b_start_ms b) bars /\
  Forall (fun b => 0 <= b_start_ms b /\ 0 <= b_length b <= 50) bars.
Proof.
  intros Hs. destruct sorted as [|e l]; [intros [= <-]; repeat constructor; done|].
  unfold timeline. set (t0 := vt_start_us e).
  assert (Hge : Forall (fun x => t0 <= vt_start_us x) (e :: l)).
  { inversion Hs as [|? ? _ Hall]; subst. constructor; [done|exact Hall]. }
  assert (Hbar : forall x b, bar_of t0 x = Ret b -> b_start_ms b = (vt_start_us x - t0) / 1000 /\ 0 <= b_length b <= 50).
  { intros x b. unfold bar_of. destruct (format_duration _); [|done]. intros [= <-].
    split; [done|apply bar_length_bounds]. }
  intros Hm. split; [by eapply mapO_length|].
  assert (Hrel : Forall2 (fun x b => bar_of t0 x = Ret b) (e :: l) bars) by by apply mapO_Forall2.
  clear Hm. split; [|split].
  - intros b Hb. inversion Hrel as [|? ? ? ? Hx]; subst. injection Hb as <-.
    rewrite (proj1 (Hbar _ _ Hx)). unfold t0. by rewrite Z.sub_diag.
  - clear Hge. induction Hrel as [|x b xs bs Hx Hrel IH]; [constructor|].
    inversion Hs as [|? ? Hs' Hall]; subst. constructor; [by apply IH|].
    clear IH Hs Hs'. induction Hrel as [|y c ys cs Hy _ IH]; [constructor|].
    inversion Hall as [|? ? Hxy Hall']; subst. constructor; [|by apply IH].
    rewrite (proj1 (Hbar _ _ Hx)), (proj1 (Hbar _ _ Hy)). apply Z.div_le_mono; lia.
  - clear Hs. induction Hrel as [|x b xs bs Hx Hrel IH]; [constructor|].
    inversion Hge as [|? ? Hx0 Hge']; subst. constructor; [|by apply IH].
    destruct (Hbar _ _ Hx) as [-> Hb]. split; [|done]. apply Z.div_pos; lia.
Qed.

(** A longer event may have a shorter bar: the scale changes at a millisecond. *)
Example longer_event_shorter_bar : bar_length 999 = 9 /\ bar_length 1000 = 1.
Proof. done. Qed.

(** *** The two formats of an event

    The script reads lines without the number of the GEMM; the emulator writes it, and so does
    the synchronisation ([VTimeSync.render_vtime]). *)
Definition old_line (e : vtime_event) : string :=
  join "," ["VTIME"; str_of_Z (timestamp_us e); str_of_Z (device_id e); phase e; event e;
    str_of_Z (vt_start_us e); str_of_Z (vt_end_us e); str_of_Z (vt_duration_us e)]%string.

Definition clean (s : string) : bool := no_char "," s && all_chars (fun c => negb (is_space c)) s.

Lemma number_no_comma z : no_char "," (str_of_Z z) = true.
Proof. by apply str_of_Z_no_char. Qed.

Lemma old_line_parses e :
  clean (phase e) = true -> clean (event e) = true -> parse_vtime (split_on "," (old_line e)) = Ret e.
Proof.
  unfold clean. intros [Hp _]%andb_prop [He _]%andb_prop.
  unfold old_line. rewrite split_on_join; [|done|cbn [forallb]; by rewrite !number_no_comma, Hp, He].
  unfold parse_vtime, int_field, field. cbn [lookup list_lookup of_option mbind outcome_bind].
  rewrite !int_of_str_of_Z. by destruct e.
Qed.

(** Where an event has a name that is no number, its line ends the script. *)
Lemma current_line_raises l e :
  clean (VTimeSync.phase e) = true -> clean (VTimeSync.event e) = true ->
  int_of_str (VTimeSync.event e) = None ->
  parse_line l (VTimeSync.render_vtime e) = Raise (ValueError "invalid literal for int() with base 10").
Proof.
  unfold clean. intros [Hp _]%andb_prop [He _]%andb_prop Hn.
  unfold parse_line. change (startswith "VTIME" (VTimeSync.render_vtime e)) with true. cbv iota.
  unfold VTimeSync.render_vtime. rewrite split_on_join; [|done|cbn [forallb]; by rewrite !number_no_comma, Hp, He].
  unfold parse_vtime, int_field, field. cbn [lookup list_lookup of_option mbind outcome_bind].
  by rewrite !int_of_str_of_Z, Hn.
Qed.

(** What a line after the first can raise: IndexError is of an event with too few fields. *)
Definition short_event (line : string) : Prop :=
  startswith "VTIME" (strip line) = true /\ (length (split_on "," (strip line)) < 8)%nat.

Lemma int_field_raises parts i e : int_field parts i = Raise e ->
  match e with ValueError _ => True | IndexError _ => (length parts <= i)%nat | _ => False end.
Proof.
  unfold int_field, field. destruct (parts !! i) as [s|] eqn:Hi; cbn [of_option mbind outcome_bind].
  - destruct (int_of_str s); [done|]. by intros [= <-].
  - intros [= <-]. by apply lookup_ge_None.
Qed.

Lemma field_raises parts i e : field parts i = Raise e ->
  match e with IndexError _ => (length parts <= i)%nat | _ => False end.
Proof.
  unfold field. destruct (parts !! i) eqn:Hi; [done|]. intros [= <-]. by apply lookup_ge_None.
Qed.

Lemma parse_vtime_raises parts e : parse_vtime parts = Raise e ->
  match e with ValueError _ => True | IndexError _ => (length parts < 8)%nat | _ => False end.
Proof.
  unfold parse_vtime. intros H.
  repeat match type of H with
  | (?m ≫= _) = Raise _ =>
      destruct m eqn:Hm; cbn [mbind outcome_bind] in H;
      [clear Hm
      |injection H as ->;
       first [apply int_field_raises in Hm | apply field_raises in Hm]; destruct e; try done; lia]
  end.
  done.
Qed.

Lemma parse_line_raises l line e : parse_line l line = Raise e ->
  match e with
  | ValueError _ => True
  | IndexError _ => startswith "VTIME" line = true /\ (length (split_on "," line) < 8)%nat
  | _ => False
  end.
Proof.
  unfold parse_line. destruct (startswith "VTIME" line) eqn:Hv.
  - destruct (parse_vtime _) as [|e'] eqn:Hp; [done|]. intros [= <-].
    apply parse_vtime_raises in Hp. by destruct e'.
  - destruct (parse_regular _) as [|e'] eqn:Hp; [done|].
    destruct (value_or_index_error e') eqn:He; [done|]. intros [= <-]. exfalso. clear Hv.
    revert Hp. unfold parse_regular. intros Hp.
    repeat match type of Hp with
    | (?m ≫= _) = Raise _ =>
        destruct m eqn:Hm; cbn [mbind outcome_bind] in Hp;
        [clear Hm
        |injection Hp as ->;
         first [apply int_field_raises in Hm; by destruct e' | apply field_raises in Hm; by destruct e'
               | destruct (float_of_str _); [done|]; injection Hm as <-; done]]
    end.
    done.
Qed.

Lemma foldO_raised {A B} (f : B -> A -> outcome B) l b e :
  foldO f l b = Raise e -> exists a b', a ∈ l /\ f b' a = Raise e.
Proof.
  revert b. induction l as [|a l IH]; intros b; [done|]. cbn [foldO].
  destruct (f b a) as [b1|e'] eqn:Hf; cbn [mbind outcome_bind].
  - intros (a' & b' & Hin & Ha)%IH. exists a', b'. split; [by right|done].
  - intros [= <-]. exists a, b. split; [by left|done].
Qed.

(** C40: the script cannot read the logs of the emulator.  If any line after the first is an
    event as the emulator and the synchronisation write it, with a name that is no number
    (["START"], ["END"]), the script ends with an exception, whatever else is in the log: it
    takes the name of the event for a start time.  The exception is ValueError, or IndexError,
    which needs another line, after the first, of an event with fewer than eight fields. *)
Theorem current_log_rejected text i line e :
  file_lines text !! i = Some line -> (0 < i)%nat -> strip line = VTimeSync.render_vtime e ->
  clean (VTimeSync.phase e) = true -> clean (VTimeSync.event e) = true ->
  int_of_str (VTimeSync.event e) = None ->
  exists err, parse_perf_log text = Raise err /\
    match err with
    | ValueError _ => True
    | IndexError _ => exists j short, file_lines text !! j = Some short /\ (0 < j)%nat /\ short_event short
    | _ => False
    end.
Proof.
  intros Hi Hpos Hline Hp He Hn.
  assert (Hraises : is_ret (parse_perf_log text) = false).
  { unfold parse_perf_log. apply foldO_raises with (a := (i, line)).
    - apply elem_of_lookup_imap. by exists i, line.
    - intros l. unfold read_line. cbn [fst snd]. rewrite Hline.
      rewrite (proj2 (Nat.eqb_neq i 0)), orb_false_r by lia.
      change (is_empty (VTimeSync.render_vtime e)) with false. cbv iota. by rewrite current_line_raises. }
  destruct (parse_perf_log text) as [|err] eqn:Herr; [done|]. exists err. split; [done|].
  apply foldO_raised in Herr as ([j short] & l & Hin & Hl).
  apply elem_of_lookup_imap in Hin as (j' & short' & [= <- <-] & Hj).
  unfold read_line in Hl. cbn [fst snd] in Hl. destruct (is_empty _ || _) eqn:Hskip; [done|].
  apply orb_false_iff in Hskip as [_ Hj0%Nat.eqb_neq].
  apply parse_line_raises in Hl. destruct err; try done. exists j, short. split; [done|]. split; [lia|done].
Qed.

Lemma clean_number z : clean (str_of_Z z) = true.
Proof. unfold clean. rewrite number_no_comma. cbn. apply str_of_Z_no_space. Qed.

Lemma no_space_join parts :
  forallb clean parts = true -> all_chars (fun c => negb (is_space c)) (join "," parts) = true.
Proof.
  induction parts as [|p [|q parts] IH]; [done| |].
  - cbn. unfold clean. rewrite andb_true_r. by intros [_ H]%andb_prop.
  - intros [Hp Hq]%andb_prop. specialize (IH Hq).
    change (join "," (p :: q :: parts)) with (p +:+ "," +:+ join "," (q :: parts)).
    rewrite !all_chars_app, IH, andb_true_r. unfold clean in Hp. apply andb_prop in Hp as [_ ->]. done.
Qed.

Lemma old_line_no_space e :
  clean (phase e) = true -> clean (event e) = true ->
  all_chars (fun c => negb (is_space c)) (old_line e) = true.
Proof.
  intros Hp He. apply no_space_join. cbn [forallb]. by rewrite !clean_number, Hp, He.
Qed.

Lemma no_space_one_line s :
  all_chars (fun c => negb (is_space c)) s = true -> no_char "010" s && no_char "013" s = true.
Proof.
  intros Hs. unfold no_char. apply andb_true_iff.
  split; (eapply all_chars_impl; [|exact Hs]); intros c Hc;
    (case (Ascii.eqb_spec c); [intros ->; by vm_compute in Hc|done]).
Qed.

(** A log in the format the script documents is read back. *)
Theorem old_log_read header es :
  no_char "010" header && no_char "013" header = true ->
  Forall (fun e => clean (phase e) = true /\ clean (event e) = true) es ->
  parse_perf_log (terminated (header :: map old_line es)) = Ret (mk_log [] es).
Proof.
  intros Hh Hes. unfold parse_perf_log. rewrite file_lines_terminated.
  2:{ cbn [forallb]. rewrite Hh. cbn. apply forallb_forall. intros s Hs.
      apply in_map_iff in Hs as (e & <- & He). apply list_elem_of_In in He.
      rewrite Forall_forall in Hes. destruct (Hes e He). by apply no_space_one_line, old_line_no_space. }
  cbn [imap foldO]. unfold read_line at 1. cbn [fst snd]. rewrite orb_true_r.
  assert (Hgen : forall f acc, (forall i, (0 < f i)%nat) ->
    foldO read_line (imap (fun i x => (f i, x)) (map old_line es)) (mk_log [] acc) = Ret (mk_log [] (acc ++ es))).
  { induction Hes as [|e es [Hp He] _ IH]; intros f acc Hf; cbn [map imap foldO]; [by rewrite app_nil_r|].
    unfold read_line at 1. cbn [fst snd]. rewrite strip_id by by apply old_line_no_space.
    change (is_empty (old_line e)) with false. rewrite (proj2 (Nat.eqb_neq (f 0%nat) 0)) by (specialize (Hf 0%nat); lia).
    cbn [orb]. unfold parse_line. change (startswith "VTIME" (old_line e)) with true. cbv iota.
    rewrite old_line_parses by done. cbn [mbind outcome_bind raw_data vtime_data].
    refine (eq_trans (IH (f ∘ S) (acc ++ [e]) (fun i => Hf (S i))) _). by rewrite <- app_assoc. }
  apply (Hgen S []). lia.
Qed.
End Vtime.

Module Emulator.
(** ** [re.search] for the two patterns of the emulator's log *)

(** The text [prefix] at the start of [s], and what is left *)
Fixpoint after_prefix (prefix s : string) : option string :=
  match prefix, s with
  | EmptyString, _ => Some s
  | String a prefix, String b s => if Ascii.eqb a b then after_prefix prefix s else None
  | String _ _, EmptyString => None
  end.

(** [(\d+)] followed by the text [after]: the number and what is left *)
Definition number_then (after s : string) : option (Z * string) :=
  rest ← after_prefix after (lstrip_by is_digit s);
  n ← int_of_str (take_by is_digit s);
  Some (n, rest).

Definition time_here (s : string) : option (Z * Z) :=
  s ← after_prefix "Real time: " s;
  real ← number_then "us, Logical time: " s;
  logical ← number_then "us" real.2;
  Some (real.1, logical.1).

Definition partition_here (s : string) : option Z :=
  s ← after_prefix "Number of partitions: " s;
  n ← number_then "" s;
  Some n.1.

(** The first place where a pattern matches *)
Fixpoint search {A} (here : string -> option A) (s : string) : option A :=
  match here s with
  | Some a => Some a
  | None => match s with EmptyString => None | String _ s => search here s end
  end.

Record found : Type := mk_found { real_times : list Z; logical_times : list Z; partition_counts : list Z }.

Definition parse_log (text : string) : found :=
  let lines := file_lines text in
  let times := omap (search time_here) lines in
  mk_found (map fst times) (map snd times) (omap (search partition_here) lines).

(** The line the pattern of times is written for *)
Definition time_line (real logical : Z) : string :=
  "Real time: " +:+ str_of_Z real +:+ "us, Logical time: " +:+ str_of_Z logical +:+ "us".

Lemma after_prefix_app p s : after_prefix p (p +:+ s) = Some s.
Proof. induction p as [|c p IH]; [done|]. rewrite str_cons_app. cbn. by rewrite Ascii.eqb_refl. Qed.

Lemma number_then_app n after s :
  0 <= n -> take_by is_digit (after +:+ s) = "" -> lstrip_by is_digit (after +:+ s) = after +:+ s ->
  number_then after (str_of_Z n +:+ after +:+ s) = Some (n, s).
Proof.
  intros Hn Ht Hl. destruct (str_of_Z_digits n Hn) as (c & r & Hs & Hc & Hr).
  assert (Hall : all_chars is_digit (str_of_Z n) = true) by (rewrite Hs; cbn; by rewrite Hc).
  unfold number_then. rewrite lstrip_by_app by done. rewrite Hl, after_prefix_app, take_by_app, int_of_str_of_Z by done. done.
Qed.

Lemma search_skip {A} (here : string -> option A) c s t a :
  (forall b u, Ascii.eqb b c = false -> here (String b u) = None) ->
  no_char c s = true -> here t = Some a -> search here (s +:+ t) = Some a.
Proof.
  intros Hhere Hs Ht. induction s as [|b s IH].
  - change ("" +:+ t) with t. destruct t; cbn; by rewrite Ht.
  - rewrite str_cons_app. unfold no_char in Hs. cbn in Hs. apply andb_prop in Hs as [Hb Hs].
    apply negb_true_iff in Hb. cbn. rewrite Hhere by done. by apply IH.
Qed.

(** The times of such a line are found behind any text without a capital R, whatever follows. *)
Theorem time_line_found pre real logical rest :
  no_char "R" pre = true -> 0 <= real -> 0 <= logical ->
  search time_here (pre +:+ time_line real logical +:+ rest) = Some (real, logical).
Proof.
  intros Hpre Hr Hl. apply (search_skip time_here "R"); [|done|].
  - intros b u Hb. unfold time_here. cbn [after_prefix]. by rewrite Ascii.eqb_sym, Hb.
  - unfold time_here, time_line. rewrite !str_append_assoc, after_prefix_app.
    cbn [mbind option_bind]. rewrite number_then_app by done. cbn [mbind option_bind snd].
    by rewrite number_then_app by done.
Qed.
End Emulator.

Example parse_log_ex :
  Emulator.parse_log ("[ info  ] [thread 28] Real time: 774us, Logical time: 109us" +:+ nl
                      +:+ "[16902] Number of partitions: 512 for A: [16384,2048]" +:+ nl)
    = Emulator.mk_found [774] [109] [512].
Proof. by vm_compute. Qed.

(** A log as the emulator writes it: a header and the event of a GEMM *)
Definition demo_event : VTimeSync.VTEvent :=
  VTimeSync.mk_VTEvent "" 1700 0 12 "COMPUTE" "START" 1700 1950 250.
Definition demo_text : string := terminated ["# header"; VTimeSync.render_vtime demo_event].

Lemma current_log_rejected_witness :
  (exists err, Vtime.parse_perf_log demo_text = Raise err /\ Vtime.value_or_index_error err = true) /\
  is_ret (VTimeSync.read_log demo_text) = true.
Proof.
  split; [|vm_compute; reflexivity].
  destruct (Vtime.current_log_rejected demo_text 1 (VTimeSync.render_vtime demo_event) demo_event)
    as (err & Herr & Hkind); [first [lia | vm_compute; reflexivity]..|].
  exists err. split; [exact Herr|]. by destruct err.
Defined.

Example old_log_ex :
  Vtime.parse_perf_log (terminated ["header"; "VTIME,5,0,SEND,END,10,40,30"; "17,0,UPLINK,8,1.5,1,2,1"; "bad"])
    = Ret (Vtime.mk_log [Vtime.mk_regular 17 0 "UPLINK" 8 (f_lit 15 1) 1 2 1]
                        [Vtime.mk_vtime_event 5 0 "SEND" "END" 10 40 30]).
Proof. by vm_compute. Qed.

(** The throughput records of a current log are passed over as bad lines. *)
Example current_throughput_skipped :
  Vtime.parse_perf_log (terminated ["# header"; "17,0,3,UPLINK,8,1.50,1,2,1"]) = Ret (Vtime.mk_log [] []).
Proof. by vm_compute. Qed.
