(* ===== verification/Servers.v ===== *)
(** * Servers and their devices ([entrypoint/emulator.py], [scripts/run_server.py],
      [scripts/run_devices.py])

    Three programs that start the proxy backend: one that only serves, one that serves and
    runs a model once when a device is there, and one that also starts the devices.  The
    backend, the model, the clock and the shell are parameters; what the programs keep is
    their environment and the globals of the hooks.  Printed lines and argument parsing are
    left out, except for the options [run_devices.py] takes out of the arguments itself. *)

From S2P Require Import Prelude PyDict PyStr PyFloat FloatOrder Fleet.
From S2P Require DeviceGen.

(** ** The program's own state *)

(** [hook_backend] and [verification] are the globals of [morphling.hooks.autograd];
    [hooked] tells whether [apply_hooks("linear")] was called. *)
Record proc (W Bk : Type) : Type := mk_proc {
  environ : pydict string string;
  hook_backend : option Bk;
  verification : bool;
  hooked : bool;
  world : W;
}.
Arguments mk_proc {W Bk}. Arguments environ {W Bk}. Arguments hook_backend {W Bk}.
Arguments verification {W Bk}. Arguments hooked {W Bk}. Arguments world {W Bk}.

Section state.
Context {W Bk : Type}.
Definition set_world (w : W) (s : proc W Bk) : proc W Bk :=
  mk_proc (environ s) (hook_backend s) (verification s) (hooked s) w.
Definition set_environ (k v : string) (s : proc W Bk) : proc W Bk :=
  mk_proc (dict_set k v (environ s)) (hook_backend s) (verification s) (hooked s) (world s).
Definition set_hook_backend (b : Bk) (s : proc W Bk) : proc W Bk :=
  mk_proc (environ s) (Some b) (verification s) (hooked s) (world s).
Definition set_verification (v : bool) (s : proc W Bk) : proc W Bk :=
  mk_proc (environ s) (hook_backend s) v (hooked s) (world s).
Definition apply_hooks (s : proc W Bk) : proc W Bk :=
  mk_proc (environ s) (hook_backend s) (verification s) true (world s).

(** A computation of the world *)
Definition outside {A} (m : B W A) : B (proc W Bk) A := fun s =>
  match m (world s) with
  | Some (r, w) => Some (r, set_world w s)
  | None => None
  end.

(** A call that sees the program's own state: its environment, or its hooks *)
Definition seeing {A X} (look : proc W Bk -> X) (f : X -> W -> outcome A * W) : B (proc W Bk) A := fun s =>
  outside (calling (f (look s))) s.
End state.

(** ** The backend, the model and the clock

    A call of the backend sees the environment, which the compiled server reads. *)
Class Serving (W Bk : Type) : Type := {
  load_model_and_tokenizer : string -> W -> outcome unit * W;
  proxy_backend : W -> outcome Bk * W;                     (** [AutoBackend.from_name("proxy")] *)
  can_cache : Bk -> bool;
  set_cache_enabled : Bk -> bool -> W -> outcome unit * W;
  initialize : pydict string string -> Bk -> string -> W -> outcome unit * W;
  start : pydict string string -> Bk -> W -> outcome unit * W;
  counts_connections : Bk -> bool;
  get_connection_count : Bk -> W -> outcome Z * W;
  time : W -> float * W;
  sleep : Z -> W -> W;
  (** [time.sleep(n)] with a signal handler: did a signal come meanwhile? *)
  sleep_signal : Z -> W -> bool * W;
  (** tokenize and run the model, with the hooks or without: does it return logits? *)
  run_model : bool -> Z -> Z -> W -> outcome bool * W;
  save_logits : string -> W -> outcome unit * W;
  run_backward : bool -> W -> outcome unit * W;            (** the loss and its backward pass *)
  can_stop : Bk -> bool;
  stop : Bk -> W -> outcome unit * W;
  can_disconnect : Bk -> bool;
  disconnect : Bk -> W -> outcome unit * W;
  system : string -> W -> W;                               (** [os.system], and [pkill] *)
}.

Section programs.
Context {W Bk : Type} {SV : Serving W Bk}.
Abbreviation state := (proc W Bk).

Definition assign (f : state -> state) : B state unit := effect f.
Definition changing (f : W -> W) : B state unit := outside (effect f).

(** [_runtime_common.start_backend] *)
Definition start_backend (default_cfg backend_name : string) (cfg_path : option string)
    (enable_cache : bool) : B state Bk :=
  if String.eqb backend_name "proxy" then
    backend ← outside (calling proxy_backend);
    (if enable_cache && can_cache backend
     then outside (calling (set_cache_enabled backend true)) else mret tt);;
    let config_path := match cfg_path with
                       | Some c => if is_empty c then default_cfg else c
                       | None => default_cfg
                       end in
    seeing environ (fun env => initialize env backend config_path);;
    seeing environ (fun env => start env backend);;
    mret backend
  else throw (ValueError ("Unknown backend: " +:+ backend_name)).

Definition wait_for (b : Bk) (min_devices : Z) (fuel : nat) : B state Z :=
  outside (wait_for_connections time sleep (get_connection_count b) min_devices 120
             (counts_connections b) fuel).

Definition get_connection_count_safe (b : Bk) : B state Z :=
  if counts_connections b then outside (calling (get_connection_count b)) else mret 0.

Definition logits_path (hooks : bool) : string :=
  "logits_comparison/logits_" +:+ (if hooks then "with_hooks" else "without_hooks") +:+ ".pt".

(** ** [emulator.py] *)

Record EmulatorArgs : Type := mk_EmulatorArgs { listen_ip : string; listen_port : Z; debug : bool }.

(** [while True: sleep] until Ctrl-C; [None] when the fuel runs out *)
Fixpoint serve_loop (n : Z) (fuel : nat) (w : W) : option (outcome unit * W) :=
  match fuel with
  | O => None
  | S fuel => let '(signalled, w) := sleep_signal n w in
              if signalled then Some (Ret tt, w) else serve_loop n fuel w
  end.

Definition export_address (c : EmulatorArgs) : B state unit :=
  assign (set_environ "MORPHLING_PROXY_HOST" (listen_ip c));;
  assign (set_environ "MORPHLING_PROXY_PORT" (str_of_Z (listen_port c)));;
  (if debug c then assign (set_environ "SPDLOG_LEVEL" "DEBUG") else mret tt).

Definition emulator_main (cfg_path : string) (c : EmulatorArgs) (fuel : nat) : B state unit :=
  export_address c;;
  server ← outside (calling proxy_backend);
  seeing environ (fun env => initialize env server cfg_path);;
  seeing environ (fun env => start env server);;
  outside (serve_loop 3600 fuel).

(** ** [run_server.py] *)

Record ServerArgs : Type := mk_ServerArgs {
  sa_backend : string;
  sa_cfg : option string;
  sa_model_name : option string;
  load_model : bool;
  no_wait : bool;
  enable_cache : bool;
  enable_hooks : bool;
  enable_verification : bool;
}.

Definition wants_model (a : ServerArgs) : bool :=
  load_model a && match sa_model_name a with Some m => negb (is_empty m) | None => false end.

(** The model is run once, with or without the hooks. *)
Definition inference (a : ServerArgs) (b : Bk) : B state unit :=
  get_connection_count_safe b;;
  (if enable_hooks a then assign apply_hooks else mret tt);;
  logits ← seeing hooked (fun h => run_model h 1 128);
  get_connection_count_safe b;;
  (if (logits : bool) then outside (calling (save_logits (logits_path (enable_hooks a)))) else mret tt).

(** The [try] statement of the [finally] clause, whose exceptions are printed *)
Definition stop_all (b : Bk) : B state unit :=
  except ((if can_stop b then outside (calling (stop b)) else mret tt);;
          (if can_disconnect b then outside (calling (disconnect b)) else mret tt))
    (fun _ => true) (mret tt).

(** From the installation of the signal handlers on: the exit status *)
Definition serve (b : Bk) (fuel : nat) : B state Z :=
  outside (serve_loop 1 fuel);;
  stop_all b;;
  mret 0.

Definition prepare_server (default_cfg : string) (a : ServerArgs) (fuel : nat) : B state Bk :=
  (if wants_model a then outside (calling (load_model_and_tokenizer (default "" (sa_model_name a))))
   else mret tt);;
  backend ← start_backend default_cfg (sa_backend a) (sa_cfg a) (enable_cache a);
  assign (set_hook_backend backend);;
  assign (set_verification (enable_verification a));;
  connected ← (if no_wait a then get_connection_count_safe backend else wait_for backend 1 fuel);
  (if (0 <? connected) && wants_model a then inference a backend else mret tt);;
  mret backend.

Definition server_main (default_cfg : string) (a : ServerArgs) (wait_fuel serve_fuel : nat) : B state Z :=
  backend ← prepare_server default_cfg a wait_fuel;
  serve backend serve_fuel.

(** ** [run_devices.py] *)

Definition hooks_flags : list string := ["--enable-hooks"; "--enable_hooks"; "--hooks"]%string.
Definition measurement_flags : list string := ["--measurement"; "--measure"]%string.

(** The local flags are taken out of the arguments before they are parsed. *)
Definition filter_argument (r : bool * bool * list string) (a : string) : bool * bool * list string :=
  let '(hooks, measurement, rest) := r in
  if bool_decide (a ∈ hooks_flags) then (true, measurement, rest)
  else if bool_decide (a ∈ measurement_flags) then (hooks, true, rest)
  else (hooks, measurement, rest ++ [a]).

(** The first argument is the program. *)
Definition filter_argv (argv : list string) : bool * bool * list string :=
  match argv with
  | [] => (false, false, [])
  | program :: args => foldl filter_argument (false, false, [program]) args
  end.

(** [_make_measurement_overlay_ini], on the sections of the configuration *)
Definition ini : Type := pydict string (pydict string string).
Definition ini_set (section key value : string) (c : ini) : ini :=
  dict_set section (dict_set key value (default [] (dict_get section c))) c.
Definition add_section (section : string) (c : ini) : ini :=
  if dict_mem section c then c else dict_set section [] c.
Definition measurement_overlay (c : ini) : ini :=
  let m := "device_measurement"%string in
  ini_set m "enable_flops" "1" (ini_set m "enable_bandwidth" "1"
    (ini_set m "enable_latency" "1" (add_section m c))).

Record ModelArgs : Type := mk_ModelArgs {
  model_name : string;
  m_backend : string;
  m_cfg : string;
  batch_size : Z;
  seq_length : Z;
  proxy_host : string;
}.

Context (str_float : float -> string).

(** [l[i]] *)
Definition item {A} (l : list A) (i : Z) : outcome A :=
  of_option (IndexError "list index out of range") (l !! Z.to_nat i).

Definition device_command (script_dir : string) (num_gpus : Z) (d : DeviceGen.devices) (m : ModelArgs) (i : Z) :
    outcome string :=
  gpu ← (if num_gpus =? 0 then Raise (ZeroDivisionError "integer modulo by zero") else Ret (i mod num_gpus));
  flops ← item (DeviceGen.device_flops d) i;
  mem ← item (DeviceGen.device_mem d) i;
  ul ← item (DeviceGen.ul_bw d) i;
  dl ← item (DeviceGen.dl_bw d) i;
  ul_lat ← item (DeviceGen.ul_lat d) i;
  dl_lat ← item (DeviceGen.dl_lat d) i;
  Ret (join " " ["CUDA_VISIBLE_DEVICES=" +:+ str_of_Z gpu; "bash"; script_dir +:+ "/run_device.sh";
                 str_of_Z i; str_of_Z flops; str_of_Z mem; str_of_Z ul; str_of_Z dl;
                 str_float ul_lat; str_float dl_lat; m_backend m; proxy_host m]%string).

Definition start_device (script_dir : string) (num_gpus : Z) (d : DeviceGen.devices) (m : ModelArgs) (i : Z) :
    B state unit :=
  c ← lifted (device_command script_dir num_gpus d m i);
  changing (system c).

(** The main program, from the parsed arguments on; [cfg] is the configuration after the
    overlay. *)
Definition devices_main (default_cfg script_dir : string) (num_gpus num_devices : Z) (hooks : bool)
    (d : DeviceGen.devices) (m : ModelArgs) (fuel : nat) : B state unit :=
  assign (set_environ "NUM_DEVICES" (str_of_Z num_devices));;
  changing (system "pkill -f morphling_device");;
  outside (calling (load_model_and_tokenizer (model_name m)));;
  backend ← start_backend default_cfg (m_backend m) (Some (m_cfg m)) false;
  assign (set_hook_backend backend);;
  changing (sleep 5);;
  each (seqZ 0 num_devices) (start_device script_dir num_gpus d m);;
  (if String.eqb (m_backend m) "proxy" then wait_for backend num_devices fuel;; mret tt else mret tt);;
  changing (sleep 5);;
  (if hooks then assign apply_hooks else mret tt);;
  seeing hooked (fun h => run_model h (batch_size m) (seq_length m));;
  outside (calling (save_logits (logits_path hooks)));;
  seeing hooked run_backward.
End programs.

(** ** Serving until a signal *)

Section serving.
Context {W Bk : Type} {SV : Serving W Bk}.
Abbreviation state := (proc W Bk).

(** The signal comes during the sleep with number [k], counted from zero; [w'] is the world
    after it. *)
Fixpoint signalled_at (n : Z) (k : nat) (w w' : W) : Prop :=
  match k with
  | O => sleep_signal n w = (true, w')
  | S k => exists w1, sleep_signal n w = (false, w1) /\ signalled_at n k w1 w'
  end.

Lemma serve_loop_ends n k fuel w w' :
  signalled_at n k w w' -> (k < fuel)%nat -> serve_loop n fuel w = Some (Ret tt, w').
Proof.
  revert fuel w. induction k as [|k IH]; intros fuel w Hs Hf; (destruct fuel as [|fuel]; [lia|]);
    cbn [signalled_at serve_loop] in *.
  - by rewrite Hs.
  - destruct Hs as (w1 & -> & Hs). apply IH; [done|lia].
Qed.

(** The world after both calls of the clean-up; the second is left out if the first raises. *)
Definition stopped (b : Bk) (w : W) : W :=
  let '(r, w) := if can_stop b then stop b w else (Ret tt, w) in
  match r with
  | Ret _ => if can_disconnect b then (disconnect b w).2 else w
  | Raise _ => w
  end.

Lemma stop_all_stops b (s : state) :
  stop_all b s = Some (Ret tt, set_world (stopped b (world s)) s).
Proof.
  unfold stop_all, except, stopped, outside, calling, mbind, B_bind, mret, B_ret.
  assert (Hid : forall s : state, set_world (world s) s = s) by by intros [].
  destruct (can_stop b).
  - destruct (stop b (world s)) as [[[]|e] w]; [|done]. destruct (can_disconnect b); [|done].
    cbn. by destruct (disconnect b w) as [[[]|e] w'].
  - destruct (can_disconnect b); [|by rewrite Hid].
    by destruct (disconnect b (world s)) as [[[]|e] w'].
Qed.

(** A signal ends the server.  Whenever the signal comes after the handlers are installed,
    the server leaves its loop at the end of that sleep, tries to stop the backend and, if that
    did not raise, to disconnect it, and exits with status zero, whatever these calls raise;
    nothing but the world of the backend has changed. *)
Theorem server_stops b k fuel (s : state) w :
  signalled_at 1 k (world s) w -> (k < fuel)%nat ->
  serve b fuel s = Some (Ret 0, set_world (stopped b w) s).
Proof.
  intros Hs Hf. unfold serve, mbind, B_bind. unfold outside at 1.
  rewrite (serve_loop_ends 1 k fuel _ w Hs Hf), stop_all_stops. done.
Qed.

(** The address is in the environment before the backend reads it. *)
Theorem address_exported c (s : state) :
  exists s', export_address c s = Some (Ret tt, s') /\
    dict_get "MORPHLING_PROXY_HOST" (environ s') = Some (listen_ip c) /\
    dict_get "MORPHLING_PROXY_PORT" (environ s') = Some (str_of_Z (listen_port c)) /\
    (debug c = true -> dict_get "SPDLOG_LEVEL" (environ s') = Some "DEBUG"%string) /\
    forall k, k ∉ ["MORPHLING_PROXY_HOST"; "MORPHLING_PROXY_PORT"; "SPDLOG_LEVEL"]%string ->
      dict_get k (environ s') = dict_get k (environ s).
Proof.
  unfold export_address, assign, effect, now, mbind, B_bind, mret, B_ret. cbn [fst snd].
  destruct (debug c); (eexists; split; [reflexivity|]); cbn [environ set_environ]; split_and!;
    try (rewrite ?dict_get_set; by repeat case_decide);
    intros k Hk; rewrite !dict_get_set;
    rewrite !not_elem_of_cons in Hk; destruct Hk as (H1 & H2 & H3 & _); by rewrite !decide_False by done.
Qed.
End serving.

(** ** The options of [run_devices.py] *)

(** The overlay changes nothing but the three switches. *)
Theorem overlay_lookup (c : ini) section key :
  dict_get section (measurement_overlay c) ≫= dict_get key =
  if decide (section = "device_measurement"%string) then
    if decide (key ∈ ["enable_latency"; "enable_bandwidth"; "enable_flops"]%string) then Some "1"%string
    else dict_get section c ≫= dict_get key
  else dict_get section c ≫= dict_get key.
Proof.
  unfold measurement_overlay, ini_set. rewrite !dict_get_set.
  destruct (decide (section = "device_measurement"%string)) as [->|Hs].
  - rewrite !decide_True by done. cbn [default from_option mbind option_bind].
    assert (Ha : default [] (dict_get "device_measurement" (add_section "device_measurement" c))
                 = default [] (dict_get "device_measurement" c)).
    { unfold add_section, dict_mem.
      destruct (dict_get "device_measurement" c) eqn:H; cbn [default from_option]; rewrite ?H; [done|].
      by rewrite dict_get_set_eq. }
    rewrite Ha. repeat match goal with |- context [id ?x] => change (id x) with x end.
    do 3 (rewrite dict_get_set; destruct (decide (key = _)) as [->|?]; [by rewrite decide_True by set_solver|]).
    rewrite decide_False by set_solver. by destruct (dict_get "device_measurement" c).
  - unfold add_section. destruct (dict_mem _ c); [done|].
    by rewrite dict_get_set_ne.
Qed.

Lemma elem_snoc (P : string -> Prop) l a :
  (exists x, x ∈ l ++ [a] /\ P x) <-> (exists x, x ∈ l /\ P x) \/ P a.
Proof.
  split.
  - intros (x & [Hx| ->%list_elem_of_singleton]%elem_of_app & HP); [left; by exists x|by right].
  - intros [(x & Hx & HP)|HP]; [exists x|exists a]; (split; [|done]); apply elem_of_app; [by left|right; by left].
Qed.

(** The local flags are found wherever they are, and nothing else is taken out. *)
Theorem filter_argv_spec program args :
  let '(hooks, measurement, rest) := filter_argv (program :: args) in
  (hooks = true <-> exists a, a ∈ args /\ a ∈ hooks_flags) /\
  (measurement = true <-> exists a, a ∈ args /\ a ∈ measurement_flags) /\
  rest = program :: filter (fun a => a ∉ hooks_flags /\ a ∉ measurement_flags) args.
Proof.
  cbn [filter_argv]. induction args as [|a args IH] using rev_ind.
  { cbn. split; [|split; [|done]]; (split; [done|intros (a & Ha & _); by apply elem_of_nil in Ha]). }
  rewrite foldl_app. cbn [foldl]. destruct (foldl _ _ args) as [[h m] rest].
  destruct IH as (Hh & Hm & ->). unfold filter_argument. rewrite filter_app, (filter_cons _ a []).
  pose proof (elem_snoc (fun a => a ∈ hooks_flags) args a) as E1.
  pose proof (elem_snoc (fun a => a ∈ measurement_flags) args a) as E2. cbv beta in E1, E2.
  assert (Hdisj : a ∈ hooks_flags -> a ∉ measurement_flags).
  { intros Ha Hb. unfold hooks_flags in Ha. repeat (apply elem_of_cons in Ha as [->|Ha];
      [revert Hb; apply (bool_decide_unpack _); by vm_compute|]). by apply elem_of_nil in Ha. }
  case_bool_decide as H1; [|case_bool_decide as H2].
  - rewrite decide_False by tauto. rewrite app_nil_r. split; [|split; [|done]]; tauto.
  - rewrite decide_False by tauto. rewrite app_nil_r. split; [|split; [|done]]; tauto.
  - rewrite decide_True by tauto. split; [|split; [|done]]; tauto.
Qed.

(** ** A server

    The signal comes with the third tick; stopping raises, the backend has no disconnect. *)
Definition demo_call {A} (a : A) (w : list string) (name : string) : outcome A * list string :=
  (Ret a, w ++ [name]).

#[local] Instance demo_serving : Serving (list string) unit := {|
  load_model_and_tokenizer := fun m w => demo_call tt w ("load " +:+ m);
  proxy_backend := fun w => demo_call tt w "create";
  can_cache := fun _ => false;
  set_cache_enabled := fun _ _ w => (Ret tt, w);
  initialize := fun env _ cfg w =>
    demo_call tt w ("initialize " +:+ cfg +:+ " " +:+ default "" (dict_get "MORPHLING_PROXY_PORT" env));
  start := fun _ _ w => demo_call tt w "start";
  counts_connections := fun _ => false;
  get_connection_count := fun _ w => (Ret 2, w);
  time := fun w => (fzero, w);
  sleep := fun n w => w ++ ["sleep " +:+ str_of_Z n];
  sleep_signal := fun _ w => (bool_decide (3 <= length (filter (fun x => x = "tick"%string) w))%nat, w ++ ["tick"%string]);
  run_model := fun h _ _ w => demo_call true w (if h then "hooked" else "native");
  save_logits := fun path w => demo_call tt w path;
  run_backward := fun _ w => demo_call tt w "backward";
  can_stop := fun _ => true;
  stop := fun _ w => (Raise (RuntimeError "busy"), w ++ ["stop"%string]);
  can_disconnect := fun _ => false;
  disconnect := fun _ w => (Ret tt, w);
  system := fun c w => w ++ [c];
|}.

Definition demo_proc : proc (list string) unit := mk_proc [] None false false [].

Lemma server_stops_witness :
  serve tt 4 demo_proc =
    Some (Ret 0, mk_proc [] None false false ["tick"; "tick"; "tick"; "tick"; "stop"]%string).
Proof.
  refine (server_stops tt 3 4 demo_proc ["tick"; "tick"; "tick"; "tick"]%string _ ltac:(lia)).
  do 3 (eexists; split; [reflexivity|]). reflexivity.
Defined.

Example emulator_reads_port :
  match emulator_main "svr.ini" (mk_EmulatorArgs "0.0.0.0" 39000 false) 5 demo_proc with
  | Some (Ret _, s) => take 3 (world s) = ["create"; "initialize svr.ini 39000"; "start"]%string
  | _ => False
  end.
Proof. vm_compute. reflexivity. Qed.

(** A backend that does not count its connections has none: no model is run. *)
Example uncounted_server_serves :
  match server_main "svr.ini" (mk_ServerArgs "proxy" None (Some "opt"%string) true true false true false) 1 4 demo_proc with
  | Some (Ret status, s) => (status, hooked s, world s)
  | _ => (1, true, [])
  end = (0, false, ["load opt"; "create"; "initialize svr.ini "; "start"; "tick"; "tick"; "tick"; "tick"; "stop"]%string).
Proof. vm_compute. reflexivity. Qed.

Definition demo_devices : DeviceGen.devices :=
  DeviceGen.mk_devices [100] [10] [20] [8] [f_of_Z 1] [f_of_Z 2] 0 [].
Definition demo_margs : ModelArgs := mk_ModelArgs "opt" "proxy" "" 1 128 "".

(** Without a GPU no device is started: the model is loaded and the server runs, and the
    program ends with an exception. *)
Example no_gpu_no_device :
  device_command (fun _ => "1"%string) "scripts" 1 demo_devices demo_margs 0
    = Ret "CUDA_VISIBLE_DEVICES=0 bash scripts/run_device.sh 0 100 8 10 20 1 1 proxy "%string /\
  match devices_main (fun _ => "1"%string) "svr.ini" "scripts" 0 1 false demo_devices demo_margs 5 demo_proc with
  | Some (Raise e, s) => e = ZeroDivisionError "integer modulo by zero" /\ last (world s) = Some "sleep 5"%string
  | _ => False
  end.
Proof. vm_compute. repeat split; reflexivity. Qed.
