(* ===== verification/Layouts.v ===== *)
(** * Planner layouts and absolute times ([scripts/export_selected_layouts.py],
      [scripts/verify_absolute_times.py])

    Two scripts read the dispatch manifests of the planners.  The first derives the degrees of
    data, pipeline and tensor parallelism from the stages and devices of the entries; the
    second recomputes the published times of a batch, with the accounting of [BatchRuntime].
    The JSON reader, [str] of a container and the file system are parameters; the printed
    lines are left out. *)

From S2P Require Import Prelude PyDict PyStr PyFloat PyJson.
From S2P Require BatchRuntime CoordScaling.

Definition BASELINES : list string := ["cleave"; "dtfm"; "asteroid"; "confident"; "alpa"]%string.

(** ** Layouts *)

Record layout : Type := mk_layout {
  num_devices : Z;
  granularity : string;
  dp : Z;
  pp : Z;
  tp : Z;
  summary : string;
}.

Section layout.
Context (repr : json -> string).

(** [int(e.get(key, dflt))] *)
Definition int_item (key : string) (dflt : Z) (e : json) : outcome Z :=
  j ← CoordScaling.get_or key (JInt dflt) e; py_int j.

Definition stage_of : json -> outcome Z := int_item "stage_id" (-1).
Definition device_of : json -> outcome Z := int_item "device_id" (-1).

(** [str(e.get("parallelism_type", e.get("type", "")))] *)
Definition type_of (e : json) : outcome string :=
  d ← CoordScaling.get_or "type" (JStr "") e;
  t ← CoordScaling.get_or "parallelism_type" d e;
  Ret (BatchRuntime.py_str repr t).

(** The devices are counted when the metadata give no number, or zero. *)
Definition device_count (meta ents : json) : outcome Z :=
  n ← int_item "num_devices" 0 meta;
  if n =? 0 then
    es ← json_iter ents;
    ds ← mapO device_of es;
    Ret (Z.of_nat (length (remove_dups (filter (fun d => 0 <= d) ds))))
  else Ret n.

(** [dev_per_stage[s]], from the stage and the device of every entry *)
Definition stage_devices (placed : list (Z * Z)) (s : Z) : list Z :=
  remove_dups (filter (fun p => p.1 = s) placed).*2.

Definition stages (placed : list (Z * Z)) : list Z := remove_dups placed.*1.

Definition stage_sizes (placed : list (Z * Z)) : list Z :=
  map (fun s => Z.of_nat (length (stage_devices placed s))) (stages placed).

(** [" x ".join(parts) if parts else "PP1"] *)
Definition degrees_text (dp pp tp : Z) : string :=
  let part (name : string) n := if 1 <? n then [name +:+ str_of_Z n] else [] in
  match (part "DP" dp ++ part "PP" pp ++ part "TP" tp)%list with
  | [] => "PP1"
  | parts => join " x " parts
  end.

Definition pipeline_layout (nd : Z) (ptypes : list string) (placed : list (Z * Z)) : layout :=
  let pp := Z.max 1 (Z.of_nat (length (stages placed))) in
  let per_stage := default nd (max_list (stage_sizes placed)) in
  let has_dp := existsb (contains "dp_allreduce") ptypes in
  let has_tp := existsb (contains "tp_allreduce") ptypes in
  let '(dp, tp) := if has_tp then (1, per_stage)
                   else if has_dp then (per_stage, 1)
                   else if 1 <? per_stage then (per_stage, 1) else (1, 1) in
  mk_layout nd "pipeline/layer" dp pp tp (degrees_text dp pp tp).

Definition cleave_layout (nd : Z) : layout :=
  mk_layout nd "sub-GEMM shard" 1 1 nd ("selective sub-GEMM TP across " +:+ str_of_Z nd).

Definition derive_layout (manifest : json) : outcome layout :=
  ents ← CoordScaling.get_or "entries" (JList []) manifest;
  meta ← CoordScaling.get_or "metadata" (JObj []) manifest;
  nd ← device_count meta ents;
  es ← json_iter ents;
  ptypes ← mapO type_of es;
  if bool_decide ("cleave_tp"%string ∈ ptypes) then Ret (cleave_layout nd)
  else
    ss ← mapO stage_of es;
    ds ← mapO device_of es;
    Ret (pipeline_layout nd ptypes (zip ss ds)).

(** ** The exported file

    A configuration has the patterns of the paths of its manifests, as functions of the
    baseline. *)
Context (exists_ : string -> bool) (read_json : string -> outcome json).

Definition device_points : list (Z * string) :=
  [(64, "000_64"); (128, "001_128"); (256, "002_256"); (512, "003_512"); (1024, "004_1024")]%string.

Definition points_path (pt b : string) : string :=
  "results/vtime_scaling/num_devices/points/" +:+ pt +:+ "/planning/manifests/" +:+ b +:+
  "_manifest.json".
Definition model_path (model b : string) : string :=
  "results/vtime_models/" +:+ model +:+ "/" +:+ b +:+ "_results/manifests/" +:+ b +:+
  "_manifest.json".

Definition build_configs : list (string * list (string -> string)) :=
  map (fun x => ("opt-13b/" +:+ str_of_Z x.1, [points_path x.2])) device_points ++
  map (fun m => (m, [model_path m])) ["llama2-13b"; "llama2-70b"]%string.

Definition manifest_path (root : string) (patterns : list (string -> string)) (baseline : string) :
    option string :=
  head (filter (fun p => exists_ p = true) (map (fun pat => root +:+ "/" +:+ pat baseline) patterns)).

(** The layout of a baseline, if it has a manifest *)
Definition baseline_layout (root : string) (patterns : list (string -> string)) (b : string) :
    outcome (option (string * layout)) :=
  match manifest_path root patterns b with
  | None => Ret None
  | Some p => m ← read_json p; l ← derive_layout m; Ret (Some (b, l))
  end.

Definition config_layouts (root : string) (c : string * list (string -> string)) :
    outcome (string * list (string * layout)) :=
  ls ← mapO (baseline_layout root c.2) BASELINES; Ret (c.1, omap (M := list) id ls).

(** [main], up to the writing of the file: the layouts of the configurations that have some *)
Definition selected_layouts (root : string) : outcome (list (string * list (string * layout))) :=
  cs ← mapO (config_layouts root) build_configs;
  Ret (filter (fun c => c.2 <> []) cs).

Definition layout_json (l : layout) : json :=
  JObj [("num_devices", JInt (num_devices l)); ("granularity", JStr (granularity l));
        ("dp", JInt (dp l)); ("pp", JInt (pp l)); ("tp", JInt (tp l)); ("summary", JStr (summary l))]%string.

Definition layouts_json (cs : list (string * list (string * layout))) : json :=
  JObj [("description", JStr "Selected planner layouts per (config, baseline), derived from dispatch manifests.");
        ("configs", JObj (map (fun c => (c.1, JObj (map (fun bl => (bl.1, layout_json bl.2)) c.2))) cs))]%string.
End layout.

(** ** The absolute times *)

Definition BATCH : Z := 128.
Definition SEQ : Z := 1024.
Definition TOKENS : Z := BATCH * SEQ.
Definition A100_BF16_PEAK : float := f_of_Z 312000000000000.
Definition A100_UTIL : float := f_lit 975 3.

Definition MEDIAN_EDGE : BatchRuntime.profile :=
  [("flops", f_of_Z 6000000000000); ("ul_bw", f_of_Z 7500000); ("dl_bw", f_of_Z 55000000);
   ("ul_lat", fzero); ("dl_lat", fzero)]%string.

(** Model, number of parameters and the published seconds *)
Definition CLOUD : list (string * float * float) :=
  [("opt-13b", f_of_Z 13000000000, f_lit 336 1); ("llama2-13b", f_of_Z 13000000000, f_lit 336 1);
   ("llama2-70b", f_of_Z 70000000000, f_lit 1808 1)]%string.

Definition cloud_seconds (num_params : float) : outcome float :=
  fdiv (fmul (fmul (f_of_Z 6) num_params) (f_of_Z TOKENS)) (fmul A100_BF16_PEAK A100_UTIL).

(** [abs(got - expected) <= tolerance] *)
Definition within (got expected tolerance : float) : bool := fle (fabs (fsub got expected)) tolerance.

Definition cloud_close (row : string * float * float) : outcome bool :=
  got ← cloud_seconds row.1.2; Ret (within got row.2 (f_lit 6 1)).

Definition fleet_profiles : BatchRuntime.profiles := map (fun i => (i, MEDIAN_EDGE)) (seqZ 0 256).

Definition edge_options : BatchRuntime.options :=
  BatchRuntime.mk_options None None None (Some fleet_profiles) (f_of_Z 1) None None.

Section verify.
Context (repr : json -> string) (read_text : string -> outcome string)
  (json_loads : string -> outcome json).

Definition cleave_manifest : string :=
  "results/vtime_scaling/model_size/points/002_opt-13b/planning/manifests/cleave_manifest.json".

(** [main]: the exit status *)
Definition main : outcome Z :=
  cloud ← mapO cloud_close CLOUD;
  manifest ← BatchRuntime.load_json read_text json_loads cleave_manifest;
  metadata ← CoordScaling.get_or "metadata" (JObj []) manifest;
  meta ← CoordScaling.get_or "model" (JObj []) metadata;
  res ← BatchRuntime.compute_batch_runtime repr [] manifest "cleave" edge_options;
  cleave_s ← fdiv (BatchRuntime.total_runtime_ms res) (f_of_Z 1000);
  let cleave_close := within cleave_s (f_lit 373 1) (f_of_Z 2) in
  seq ← int_item "seq_length" 0 meta;
  let ok := forallb id cloud && cleave_close && (seq =? SEQ) in
  Ret (if ok then 0 else 1).
End verify.

(** ** What a layout says of the manifest *)

(** Every distinct place, with its stage and device, once *)
Lemma places_by_stage (placed : list (Z * Z)) :
  remove_dups placed ≡ₚ stages placed ≫= (fun s => pair s <$> stage_devices placed s).
Proof.
  apply NoDup_Permutation; [apply NoDup_remove_dups| |].
  - apply NoDup_bind.
    + intros s1 s2 [s d] _ _ (? & [= -> ->] & _)%list_elem_of_fmap (? & [= -> ->] & _)%list_elem_of_fmap. done.
    + intros s _. apply NoDup_fmap; [intros ?? [= ->]; done|]. apply NoDup_remove_dups.
    + apply NoDup_remove_dups.
  - intros [s d]. rewrite elem_of_remove_dups, list_elem_of_bind. unfold stages, stage_devices. split.
    + intros Hin. exists s. split.
      * apply list_elem_of_fmap. exists d. split; [done|]. apply elem_of_remove_dups, list_elem_of_fmap.
        exists (s, d). split; [done|]. by apply list_elem_of_filter.
      * apply elem_of_remove_dups, list_elem_of_fmap. by exists (s, d).
    + intros (s' & (d' & [= -> ->] & Hd)%list_elem_of_fmap & _).
      apply elem_of_remove_dups, list_elem_of_fmap in Hd as ([s1 d1] & -> & Hd).
      apply list_elem_of_filter in Hd as [Hs Hd]. cbn in *. by subst.
Qed.

Lemma places_count (placed : list (Z * Z)) :
  Z.of_nat (length (remove_dups placed)) = sum_list (stage_sizes placed).
Proof.
  rewrite places_by_stage. unfold stage_sizes. induction (stages placed) as [|s l IH]; [done|].
  cbn [map]. rewrite sum_list_cons, <- IH. cbn [mbind list_bind]. rewrite length_app, length_fmap. lia.
Qed.

Lemma sum_list_bound l n : Forall (fun x => x <= n) l -> sum_list l <= Z.of_nat (length l) * n.
Proof.
  induction 1 as [|x l Hx _ IH]; [done|]. rewrite sum_list_cons. cbn [length]. lia.
Qed.

Lemma sum_list_same l n : Forall (fun x => x = n) l -> sum_list l = Z.of_nat (length l) * n.
Proof.
  induction 1 as [|x l -> _ IH]; [done|]. rewrite sum_list_cons. cbn [length]. lia.
Qed.

Lemma pipeline_layout_places nd ptypes placed :
  placed <> [] ->
  let l := pipeline_layout nd ptypes placed in
  Z.of_nat (length (remove_dups placed)) <= dp l * pp l * tp l /\
  (forall n, Forall (fun k => k = n) (stage_sizes placed) ->
     Z.of_nat (length (remove_dups placed)) = dp l * pp l * tp l).
Proof.
  intros Hne l. rewrite places_count.
  assert (Hst : stage_sizes placed <> []).
  { unfold stage_sizes, stages. destruct placed as [|p placed]; [done|]. intros H%map_eq_nil.
    assert (Hp : p.1 ∈ remove_dups (p :: placed).*1) by (apply elem_of_remove_dups; left).
    rewrite H in Hp. by apply not_elem_of_nil in Hp. }
  destruct (min_by_Some (fun x => - x) (stage_sizes placed) Hst) as [m Hm].
  change (max_list (stage_sizes placed) = Some m) in Hm. pose proof (max_list_spec _ _ Hm) as [Hin Hmax].
  assert (Hlen : length (stages placed) = length (stage_sizes placed)) by (unfold stage_sizes; by rewrite length_map).
  assert (Hpos : 1 <= m).
  { apply list_elem_of_In, in_map_iff in Hin as (s & <- & Hs).
    destruct (stage_devices placed s) eqn:Hd; [|cbn; lia]. exfalso.
    apply list_elem_of_In in Hs. unfold stages in Hs.
    apply elem_of_remove_dups, list_elem_of_fmap in Hs as ([s' d] & -> & Hp).
    assert (Hx : d ∈ stage_devices placed s').
    { apply elem_of_remove_dups, list_elem_of_fmap. exists (s', d). split; [done|]. by apply list_elem_of_filter. }
    cbn [fst] in Hd. rewrite Hd in Hx. by apply not_elem_of_nil in Hx. }
  assert (Hprod : dp l * pp l * tp l = Z.max 1 (Z.of_nat (length (stages placed))) * m).
  { unfold l, pipeline_layout. rewrite Hm. cbn [from_option]. cbv zeta. unfold id.
    destruct (existsb (contains "tp_allreduce") ptypes), (existsb (contains "dp_allreduce") ptypes);
      try (destruct (1 <? m) eqn:H1; [|apply Z.ltb_ge in H1; assert (m = 1) as -> by lia]);
      cbn [dp pp tp]; ring. }
  rewrite Hprod, Hlen.
  assert (Hge : 1 <= Z.of_nat (length (stage_sizes placed))) by (destruct (stage_sizes placed); [done|cbn; lia]).
  rewrite Z.max_r by lia. split.
  - apply sum_list_bound, Forall_forall. intros x Hx. by apply Hmax.
  - intros n Hn. apply sum_list_same. rewrite Forall_forall in Hn. apply Forall_forall.
    intros x Hx. rewrite (Hn x Hx). by rewrite (Hn m Hin).
Qed.

(** A pipeline layout has a place for every device of every stage, and no place is left over
    when the stages have equally many devices; data and tensor parallelism are never used
    together. *)
Theorem layout_has_places repr manifest l :
  derive_layout repr manifest = Ret l -> granularity l = "pipeline/layer" ->
  (dp l = 1 \/ tp l = 1) /\
  exists ents es ss ds,
    CoordScaling.get_or "entries" (JList []) manifest = Ret ents /\ json_iter ents = Ret es /\
    mapO stage_of es = Ret ss /\ mapO device_of es = Ret ds /\
    (es <> [] ->
      Z.of_nat (length (remove_dups (zip ss ds))) <= dp l * pp l * tp l /\
      forall n, Forall (fun k => k = n) (stage_sizes (zip ss ds)) ->
        Z.of_nat (length (remove_dups (zip ss ds))) = dp l * pp l * tp l).
Proof.
  unfold derive_layout. intros H Hg.
  destruct (CoordScaling.get_or "entries" (JList []) manifest) as [ents|] eqn:He; [|done]. cbn in H.
  destruct (CoordScaling.get_or "metadata" (JObj []) manifest) as [meta|]; [|done]. cbn in H.
  destruct (device_count meta ents) as [nd|]; [|done]. cbn in H.
  destruct (json_iter ents) as [es|] eqn:Hes; [|done]. cbn in H.
  destruct (mapO (type_of repr) es) as [ptypes|]; [|done]. cbn in H.
  case_bool_decide; [injection H as <-; done|].
  destruct (mapO stage_of es) as [ss|] eqn:Hss; [|done]. cbn in H.
  destruct (mapO device_of es) as [ds|] eqn:Hds; [|done]. injection H as <-. split.
  - unfold pipeline_layout. repeat case_match; simplify_eq; cbn [dp tp]; auto.
  - exists ents, es, ss, ds. split_and!; [done..|]. intros Hne. apply pipeline_layout_places.
    pose proof (mapO_length _ _ _ Hss). pose proof (mapO_length _ _ _ Hds).
    by destruct es, ss, ds.
Qed.

(** *** Manifests *)

Definition demo_entry (stage device : Z) (t : string) : json :=
  JObj [("stage_id", JInt stage); ("device_id", JInt device); ("type", JStr t)]%string.

Definition demo_manifest (es : list json) : json := JObj [("entries", JList es)]%string.

(** Two stages of one device each without a collective: a pipeline; with two devices each, the
    pipeline is said to be data parallel although no gradient is reduced. *)
Example pipelines :
  derive_layout (fun _ => "") (demo_manifest [demo_entry 0 0 "gemm"; demo_entry 1 1 "gemm"])
    = Ret (mk_layout 2 "pipeline/layer" 1 2 1 "PP2") /\
  derive_layout (fun _ => "") (demo_manifest
    [demo_entry 0 0 "gemm"; demo_entry 0 1 "gemm"; demo_entry 1 2 "gemm"; demo_entry 1 3 "gemm"])
    = Ret (mk_layout 4 "pipeline/layer" 2 2 1 "DP2 x PP2").
Proof. split; vm_compute; reflexivity. Qed.

(** A collective without a device and a stage counts as a device of a stage of its own, while
    the number of devices leaves it out. *)
Example collective_is_a_stage :
  derive_layout (fun _ => "") (demo_manifest
    [demo_entry 0 0 "gemm"; demo_entry 0 1 "gemm"; JObj [("type", JStr "dp_allreduce")]%string])
    = Ret (mk_layout 2 "pipeline/layer" 2 2 1 "DP2 x PP2").
Proof. vm_compute. reflexivity. Qed.

(** ** What the verification says

    The analytical times of the cloud are the published ones within the tolerance. *)
Lemma cloud_times_reproduced : mapO cloud_close CLOUD = Ret [true; true; true].
Proof. vm_compute. reflexivity. Qed.

(** So the status is zero exactly when the batch accounting is within two seconds of the
    published time and the manifest has the sequence length. *)
Theorem absolute_times_verified repr read_text json_loads status :
  main repr read_text json_loads = Ret status ->
  exists manifest metadata meta res cleave_s seq,
    BatchRuntime.load_json read_text json_loads cleave_manifest = Ret manifest /\
    CoordScaling.get_or "metadata" (JObj []) manifest = Ret metadata /\
    CoordScaling.get_or "model" (JObj []) metadata = Ret meta /\
    BatchRuntime.compute_batch_runtime repr [] manifest "cleave" edge_options = Ret res /\
    fdiv (BatchRuntime.total_runtime_ms res) (f_of_Z 1000) = Ret cleave_s /\
    int_item "seq_length" 0 meta = Ret seq /\
    (status = 0 <-> within cleave_s (f_lit 373 1) (f_of_Z 2) = true /\ seq = 1024).
Proof.
  unfold main. rewrite cloud_times_reproduced. intros H. cbn [mbind outcome_bind] in H.
  destruct (BatchRuntime.load_json read_text json_loads cleave_manifest) as [manifest|]; cbn [mbind outcome_bind] in H; [|done].
  destruct (CoordScaling.get_or "metadata" (JObj []) manifest) as [metadata|] eqn:Hmd; cbn [mbind outcome_bind] in H; [|done].
  destruct (CoordScaling.get_or "model" (JObj []) metadata) as [meta|] eqn:Hm; cbn [mbind outcome_bind] in H; [|done].
  destruct (BatchRuntime.compute_batch_runtime _ _ manifest _ _) as [res|] eqn:Hr; cbn [mbind outcome_bind] in H; [|done].
  destruct (fdiv _ _) as [cleave_s|] eqn:Hs; cbn [mbind outcome_bind] in H; [|done].
  destruct (int_item "seq_length" 0 meta) as [seq|] eqn:Hq; cbn [mbind outcome_bind] in H; [|done].
  exists manifest, metadata, meta, res, cleave_s, seq. split_and!; [done..|].
  injection H as <-. cbn [forallb id andb]. destruct (within cleave_s _ _); cbn [andb]; [|split; [done|intros []; done]].
  destruct (seq =? SEQ) eqn:E; [apply Z.eqb_eq in E|apply Z.eqb_neq in E]; unfold SEQ in E; [done|].
  split; [done|]. by intros [].
Qed.
