(* ===== verification/GemmBench.v ===== *)
(** * GEMM throughput per SM count ([scripts/bench_gflops_per_sm.py])

    The script times every GEMM shape on partitions of several sizes and adds the times of a
    step.  The green-context runtime, the timed products and the statistics of NumPy are
    parameters; a shape has integer sizes, since [torch.randn] takes no others.  Printed
    lines, argument parsing and the writing of the file are left out. *)

From S2P Require Import Prelude PyDict PyStr PyFloat NumPy.

Record shape : Type := mk_shape {
  m : Z;
  n : Z;
  k : Z;
  phase : string;
  count_per_step : option Z;
}.

(** f"{m}x{n}x{k}_{phase}" *)
Definition shape_key (s : shape) : string :=
  str_of_Z (m s) +:+ "x" +:+ str_of_Z (n s) +:+ "x" +:+ str_of_Z (k s) +:+ "_" +:+ phase s.

(** The runtime, whose construction may raise; [timed] is what the CUDA events measure of the
    timed products, in milliseconds. *)
Class Bench (W : Type) : Type := {
  make_runtime : M W unit;
  is_supported : M W bool;
  activate_sm_for_thread : Z -> M W Z;
  deactivate_for_thread : Z -> M W unit;
  close : M W unit;
  timed : Z -> Z -> Z -> Z -> Z -> M W (list float);   (** m, n, k, warm-up, iterations *)
  np_mean : list float -> float;
  np_std : list float -> float;
  np_median : list float -> float;
  np_percentile95 : list float -> float;
}.

Record timing : Type := mk_timing {
  mean_ms : float;
  std_ms : float;
  median_ms : float;
  p95_ms : float;
  mean_gflops : float;
  std_gflops : float;
}.

Record aggregate : Type := mk_aggregate {
  total_gflops : float;
  total_flops_per_step : float;
  total_gemm_time_ms : float;
}.

Definition giga : float := f_of_Z 1000000000.

(** [2.0 * m * n * k] *)
Definition flops_of (m n k : Z) : outcome float :=
  m ← float_of_int m; n ← float_of_int n; k ← float_of_int k;
  Ret (fmul (fmul (fmul (f_of_Z 2) m) n) k).

(** What a runtime is known to be after the attempt to create it *)
Inductive runtime : Type := NoRuntime | Unsupported | Supported.

Section bench.
Context {W : Type} {BE : Bench W}.

Definition benchmark_gemm (m n k n_warmup n_iters : Z) : M W timing :=
  arr ← timed m n k n_warmup n_iters;
  flops ← lift (flops_of m n k);
  let mean := np_mean arr in
  gflops ← lift (if flt fzero mean
                 then (r ← fdiv flops (fmul mean (f_lit 1 3)); fdiv r giga)
                 else Ret fzero);
  mret (mk_timing mean (np_std arr) (np_median arr) (np_percentile95 arr) gflops
    (if forallb (flt fzero) arr
     then np_std (map (fun t => np_div (np_div flops (fmul t (f_lit 1 3))) giga) arr)
     else fzero)).

(** A runtime that was created but whose support cannot be told stays in [rt]. *)
Definition find_runtime : M W runtime :=
  try_except (make_runtime;;
              try_except (b ← is_supported; mret (if b : bool then Supported else Unsupported))
                (fun _ => Some (mret Unsupported)))
    (fun _ => Some (mret NoRuntime)).

Definition partitioned (rt : runtime) (total_sms sm : Z) : bool :=
  match rt with Supported => sm <? total_sms | _ => false end.

(** [prev_sm]: zero, unless an activation succeeds *)
Definition activate (rt : runtime) (total_sms sm : Z) : M W Z :=
  if partitioned rt total_sms sm
  then try_except (activate_sm_for_thread sm) (fun _ => Some (mret 0))
  else mret 0.

Definition deactivate (rt : runtime) (total_sms sm prev_sm : Z) : M W unit :=
  when (partitioned rt total_sms sm)
    (try_except (deactivate_for_thread prev_sm) (fun _ => Some (mret tt))).

Fixpoint measure_shapes (n_warmup n_iters : Z) (shapes : list shape) (r : pydict string timing) :
    M W (pydict string timing) :=
  match shapes with
  | [] => mret r
  | s :: shapes =>
      t ← benchmark_gemm (m s) (n s) (k s) n_warmup n_iters;
      measure_shapes n_warmup n_iters shapes (dict_set (shape_key s) t r)
  end.

Definition measure_sm (rt : runtime) (total_sms n_warmup n_iters : Z) (shapes : list shape) (sm : Z) :
    M W (pydict string timing) :=
  prev_sm ← activate rt total_sms sm;
  r ← measure_shapes n_warmup n_iters shapes [];
  deactivate rt total_sms sm prev_sm;;
  mret r.

Fixpoint sweep (rt : runtime) (total_sms n_warmup n_iters : Z) (shapes : list shape)
    (sm_counts : list Z) (results : pydict string (pydict string timing)) :
    M W (pydict string (pydict string timing)) :=
  match sm_counts with
  | [] => mret results
  | sm :: sm_counts =>
      r ← measure_sm rt total_sms n_warmup n_iters shapes sm;
      sweep rt total_sms n_warmup n_iters shapes sm_counts (dict_set (str_of_Z sm) r results)
  end.

(** The floating-point operations and the seconds of a step, over the shapes measured *)
Definition add_shape (r : pydict string timing) (t : float * float) (s : shape) : outcome (float * float) :=
  match dict_get (shape_key s) r with
  | None => Ret t
  | Some x =>
      cnt ← float_of_int (default 1 (count_per_step s));
      flops ← flops_of (m s) (n s) (k s);
      time ← fdiv (fmul (mean_ms x) cnt) (f_of_Z 1000);
      Ret (fadd t.1 (fmul flops cnt), fadd t.2 time)
  end.

Definition aggregate_sm (shapes : list shape) (r : pydict string timing) : outcome (option aggregate) :=
  t ← foldO (add_shape r) shapes (fzero, fzero);
  if flt fzero t.2 then
    rate ← fdiv t.1 t.2;
    rate ← fdiv rate giga;
    Ret (Some (mk_aggregate rate t.1 (fmul t.2 (f_of_Z 1000))))
  else Ret None.

Definition aggregate_one (shapes : list shape) (x : string * pydict string timing) :
    outcome (option (string * aggregate)) :=
  a ← aggregate_sm shapes x.2; Ret (option_map (pair x.1) a).

(** [main], from the sorted SM counts on, to the closed runtime: the results and the
    aggregates of the file *)
Definition main (total_sms n_warmup n_iters : Z) (shapes : list shape) (sm_counts : list Z) :
    M W (pydict string (pydict string timing) * list (string * aggregate)) :=
  rt ← find_runtime;
  results ← sweep rt total_sms n_warmup n_iters shapes sm_counts [];
  aggs ← lift (mapO (aggregate_one shapes) results);
  match rt with
  | NoRuntime => mret tt
  | _ => try_except close (fun _ => Some (mret tt))
  end;;
  mret (results, omap (M := list) id aggs).

(** ** Partitions are given back

    [current] is the partition of the thread, zero when there is none. *)
Context (current : W -> Z).

Class BenchLaws : Prop := {
  activate_ok sm w p w' : activate_sm_for_thread sm w = (Ret p, w') -> p = current w /\ current w' = sm;
  activate_raises sm w e w' : activate_sm_for_thread sm w = (Raise e, w') -> current w' = current w;
  deactivate_ok p w : is_ret (deactivate_for_thread p w).1 = true /\
                      current (deactivate_for_thread p w).2 = p;
  timed_keeps m n k a b w : current (timed m n k a b w).2 = current w;
}.
Context {BL : BenchLaws}.

Lemma benchmark_gemm_keeps a b s c : preserves (fun w => current w = c) (benchmark_gemm (m s) (n s) (k s) a b).
Proof using BL.
  unfold benchmark_gemm. apply preserves_bind; [|intros arr].
  { intros w Hw. by rewrite timed_keeps. }
  apply preserves_bind; [apply preserves_lift|intros flops].
  apply preserves_bind; [apply preserves_lift|intros g]. apply preserves_ret.
Qed.

Lemma measure_shapes_keeps a b shapes c : forall r,
  preserves (fun w => current w = c) (measure_shapes a b shapes r).
Proof using BL.
  induction shapes as [|s shapes IH]; intros r; cbn [measure_shapes]; [apply preserves_ret|].
  apply preserves_bind; [apply benchmark_gemm_keeps|intros t; apply IH].
Qed.

(** The partition under which the shapes of an SM count are timed: the one activated, or none
    when there is no support, the count is not below the whole GPU or the activation fails *)
Lemma activate_partition rt total_sms sm w :
  current w = 0 -> exists w', activate rt total_sms sm w = (Ret 0, w') /\
    (current w' = 0 \/ partitioned rt total_sms sm = true /\ current w' = sm).
Proof using BL.
  intros Hw. unfold activate. destruct (partitioned rt total_sms sm) eqn:Hp; [|by exists w; auto].
  unfold try_except. destruct (activate_sm_for_thread sm w) as [[p|e] w'] eqn:Ha.
  - apply activate_ok in Ha as [-> Hc]. rewrite Hw. eauto.
  - apply activate_raises in Ha. exists w'. split; [done|]. left. congruence.
Qed.

Lemma measure_sm_restores rt total_sms a b shapes sm w r w' :
  current w = 0 -> measure_sm rt total_sms a b shapes sm w = (Ret r, w') -> current w' = 0.
Proof using BL.
  intros Hw. unfold measure_sm. destruct (activate_partition rt total_sms sm w Hw) as (w1 & Ha & Hc).
  unfold mbind, M_bind. rewrite Ha. pose proof (measure_shapes_keeps a b shapes (current w1) [] w1 eq_refl) as Hk.
  destruct (measure_shapes a b shapes [] w1) as [[x|e] w2]; [|done]. cbn in Hk.
  unfold deactivate, when. destruct (partitioned rt total_sms sm).
  - unfold try_except. destruct (deactivate_ok 0 w2) as [Hr Hd].
    destruct (deactivate_for_thread 0 w2) as [[[]|e] w3]; [|done]. cbn in Hd. by intros [= _ <-].
  - intros [= _ <-]. destruct Hc as [Hc|[? _]]; [congruence|done].
Qed.

(** After a sweep no partition is active, whichever activations failed. *)
Theorem sweep_restores rt total_sms a b shapes sm_counts : forall results w r w',
  current w = 0 -> sweep rt total_sms a b shapes sm_counts results w = (Ret r, w') -> current w' = 0.
Proof using BL.
  induction sm_counts as [|sm l IH]; intros results w r w' Hw; cbn [sweep]; [by intros [= _ <-]|].
  unfold mbind at 1, M_bind at 1.
  destruct (measure_sm rt total_sms a b shapes sm w) as [[x|e] w1] eqn:Hm; [|done].
  apply IH. by eapply measure_sm_restores.
Qed.
End bench.

(** ** A bench

    The world is the partition; a product takes 48 divided by its SM count, and one
    millisecond on the whole GPU.  Partitions of more than 24 SMs are refused. *)
Definition demo_timed (w : Z) : list float := [if w =? 0 then f_of_Z 1 else f_of_Z (48 / w)].

Definition demo_bench (created : bool) : Bench Z := {|
  make_runtime := if created then mret tt else raise (ImportError "morphling._GreenCtx");
  is_supported := mret true;
  activate_sm_for_thread := fun sm w => if sm <=? 24 then (Ret w, sm) else (Raise (RuntimeError "activate"), w);
  deactivate_for_thread := fun p _ => (Ret tt, p);
  close := mret tt;
  timed := fun _ _ _ _ _ w => (Ret (demo_timed w), w);
  np_mean := fun l => default fzero (head l);
  np_std := fun _ => fzero;
  np_median := fun l => default fzero (head l);
  np_percentile95 := fun l => default fzero (head l);
|}.

#[local] Instance demo_laws created : BenchLaws (BE := demo_bench created) id.
Proof.
  split; cbn; [| |done|done].
  - intros sm w p w'. destruct (sm <=? 24); [|done]. by intros [= <- <-].
  - intros sm w e w'. destruct (sm <=? 24); [done|]. by intros [= _ <-].
Qed.

Definition demo_shapes : list shape :=
  [mk_shape 128 256 512 "forward" (Some 2); mk_shape 128 512 256 "backward" None].


(** With partitions the times differ; a refused one, like a missing runtime, is timed on the
    whole GPU and stands under its SM count all the same. *)
Example partitions_timed :
  match main (BE := demo_bench true) 48 10 100 demo_shapes [8; 24; 40; 48] 0 with
  | (Ret r, w) => map (fun x => (x.1, map (fun t => int_of_float (mean_ms t.2)) x.2)) r.1
                  = [("8", [Ret 6; Ret 6]); ("24", [Ret 2; Ret 2]); ("40", [Ret 1; Ret 1]); ("48", [Ret 1; Ret 1])]%string
                  /\ w = 0 /\ length r.2 = 4%nat
  | _ => False
  end.
Proof. vm_compute. split_and!; reflexivity. Qed.

Example whole_gpu_unmarked :
  match main (BE := demo_bench false) 48 10 100 demo_shapes [8; 24] 0 with
  | (Ret ([(_, a); (_, b)], _), _) => a = b
  | _ => False
  end.
Proof. vm_compute. reflexivity. Qed.
